(* ===== verification/_CoqProject ===== *)
-Q . S2P
Prelude.v
Errors.v
Resilience.v
PyLib.v
Calendar.v
Loader.v
Entities.v
Models.v
Events.v
Session.v
SessionFacts.v
Footprints.v
Cache.v
Accounts.v
AccountsFacts.v
LoginFacts.v
Deps.v
Templates.v
Edge.v
Redaction.v
Ddl.v
Migrations.v
Notices.v
NoticeFacts.v
ResilienceFacts.v
Channels.v
Dispatch.v
DispatchFacts.v
Access.v
Journal.v
Tenants.v
TenantsFacts.v
Ports.v
Payments.v
PayFacts.v
DbFacts.v
Storage.v
StorageFacts.v
Files.v
Saas.v
SaasFacts.v
Crm.v
LinkFacts.v
Billing.v
Activation.v
Payme.v
Click.v
Stripe.v
AdapterFacts.v
Webhooks.v
WebhookFacts.v
Isolation.v
Intake.v
Jobs.v
Settlement.v
Commerce.v
CommerceFacts.v
Images.v
Admin.v
Frames.v
OrderFacts.v
Bodies.v
Routes.v
Features.v
System.v
Startup.v
SystemFacts.v
Demo.v
AuthProps.v
NoticeProps.v
SystemProps.v
WebhookProps.v
BillingProps.v
SharedProps.v
CommerceProps.v
FeatureProps.v
FileProps.v
ShellProps.v
SchemaProps.v
Conform.v
