(* ===== verification/Prelude.v ===== *)
(** * backend-core: a multi-tenant backend, verified

    backend-core is a FastAPI and SQLAlchemy application: accounts and
    sessions, organizations with members and roles, a billing core that takes
    money through the payment providers Payme, Click and Stripe, notifications
    by e-mail, SMS and Telegram, files, an admin area, an audit journal, and
    three business modules: commerce (products with images, carts, orders),
    saas (entitlements, metering, onboarding) and crm (contacts, companies,
    deals, activities). They rest on a shared runtime: units of work,
    tenant-scoped repositories, an event bus with reliable subscribers, a
    worker with scheduled jobs, permissions, resilient outbound calls, HTTP
    middleware, and a database schema under row level security built by
    migrations. This library models the program as executable functions and
    proves what makes it correct.

    ** How the parts interact

    A request, a provider callback, an event delivery or a scheduled job opens
    a unit of work (a database transaction). Services run in it, read and
    write rows through repositories bound to one tenant, and queue events; the
    commit makes the rows durable and publishes the events. Reliable
    subscribers receive an event through the job queue, once per handler. A
    request passes the middleware; its bearer token names the caller; the
    tenants service resolves what the caller may do. The billing webhook
    processor turns provider callbacks into payment transitions; a succeeded
    subscription payment activates the subscription, whose events move the
    tenant's entitlements; a succeeded order payment reaches the shop as an
    event. Receipts, reset links and invitations are queued in the outbox, from
    which the dispatcher sends them. At start-up the features are found and put
    in order, permissions, screens and routes are declared and checked, the
    adapters are built from the settings and the system roles synchronized.

    ** Files and what they model

    - Prelude: results, the state and error monad, [steps] (whatever the
      outcome, a statement relates its states) with its hint database and the
      [steps_walk] tactic; rows, unique indexes, selections.
    - Errors: src/shared/errors.py. Resilience: src/shared/resilience.py
      (retry policy, circuit breaker, call_resilient).
    - PyLib: the part of Python's str, int, uuid, urllib and json values the
      code uses. Calendar: dates as microseconds since 1 January of year 1,
      and src/core/billing/periods.py.
    - Loader: src/modules/loader.py and src/tools/add_feature.py.
    - Entities, Models: the ORM models and their constraints (unique and
      partial indexes, CHECKs, foreign keys, integer widths) as the decidable
      predicates [db_ok] and [db_ranges].
    - Events: src/shared/context.py and src/shared/events.py.
    - Session: the database session, src/shared/service.py (unit of work,
      emit), repository.py, system_repository.py, money.py, pagination.py.
      [St] holds the session's view [db], the durable [committed], whether the
      transaction is broken, queued and published events, Redis, the object
      storage and the circuit breakers; [Env] holds what the outside decides:
      clocks, identifiers, provider answers, digests, parsers of the standard
      library, and [env_rival], the commits of other transactions seen where a
      statement waits for them. The database itself is the state: a query
      selects rows, a flush checks the constraints and breaks the transaction
      when one fails, a savepoint restores the rows it started from.
    - Cache: Redis and src/core/auth/rate_limit.py. Accounts:
      src/core/auth/service.py with security/, repository.py, directory.py and
      schemas.py. Deps: src/core/auth/deps.py (tokens, request contexts).
    - Access: src/core/auth/permissions.py, access_service.py, guard.py.
      Journal: src/core/audit. Tenants: src/core/tenants (service, roles,
      start-up sync, directory).
    - Templates: src/shared/i18n.py, src/shared/encryption.py and, of
      src/core/notifications, registry.py and channel_config.py. Notices:
      service.py, repository.py, sms_cap.py, the mailers of auth and tenants
      and src/core/billing/receipts.py. Channels: channels/ and ports.py; the
      class [ChannelLaws] is what the dispatcher relies on from a channel.
      Dispatch: dispatcher.py and retention.py.
    - Ports: src/core/billing/ports.py and schemas.py; the class
      [ProviderLaws] is what billing relies on from an adapter. Payme, Click,
      Stripe: the adapters, each with its instance of that class.
    - Payments, Billing: src/core/billing/state_machine.py, service.py
      (PaymentService, BillingService), subscribers.py. Webhooks:
      webhooks.py and router.py. Jobs: jobs.py, the dispatcher of
      src/app/worker.py and src/shared/processed_events.py.
    - Storage: src/core/files/ports.py and adapters/; [StorageLaws] and
      [ThumbnailLaws] (StorageFacts) are what files rely on. Files:
      src/core/files/service.py. Images: src/modules/commerce/product_images.
    - Commerce: src/modules/commerce products, orders and cart with the
      orders' subscribers. Saas: src/modules/saas. Crm: src/modules/crm.
    - Admin: src/core/admin, the screens and every module's permissions.py.
      Routes, Features: the HTTP endpoints with their dependencies and request
      bodies. System: the subscribers a worker registers, the jobs and their
      schedule, the type [request] of everything the deployment serves, the
      step relation [sys_step] and [reachable].
    - Startup: the routes with their permission markers,
      src/app/startup_checks.py, the lifespan of src/app/main.py and the checks
      of src/shared/config.py. Edge: src/app/middleware.py, src/app/errors.py
      and src/shared/error_catalog.py. Redaction: src/app/logging_setup.py and
      src/app/observability.py.
    - Ddl: what the statements of a migration do to a schema, which rows a
      schema accepts, row level security, src/shared/rls.py and
      src/shared/db_provisioning.py. Migrations: every revision of
      src/shared, src/core and src/modules, statement by statement.
    - SessionFacts, Footprints, AccountsFacts, LoginFacts, NoticeFacts,
      ResilienceFacts, DispatchFacts, TenantsFacts, PayFacts, DbFacts,
      StorageFacts, SaasFacts, LinkFacts, Activation, AdapterFacts,
      WebhookFacts, Isolation, Intake, Settlement, CommerceFacts, Frames,
      OrderFacts, Bodies, SystemFacts: the lemmas. [evo R] (SessionFacts) says
      that a statement evolves the session's view and the durable state by
      [R], rival commits included; the classes [Ignores] and [Tolerates] state
      which tables a relation does not look at, and the class [Stmt]
      (Footprints) which relations statements keep, so that one proof per
      operation serves every relation. [good] (Bodies) collects what the
      system's invariants ask of the body of a request.
    - Demo: a concrete deployment. SystemProps, AuthProps, NoticeProps,
      WebhookProps, BillingProps, SharedProps, CommerceProps, FeatureProps,
      FileProps, ShellProps, SchemaProps, Conform and Loader: the theorems,
      C1 to C40 and those beside them, each with a witness on a concrete
      instance where it has hypotheses.

    ** What the theorems show

    - C1 to C3, C5, C6 (the system): in every state reachable by serving
      requests, payments have moved along the state machine and kept their
      terms, closed payments are final, all constraints hold, orders live as
      they should, and every organization has an owner.
    - C4 (the schema): the constraints the model checks at every flush are
      those of the schema the migrations build, neither more nor less, up to
      the links to organizations and users and the catalogs, which are listed.
    - C7 to C9 (accounts): refresh tokens are single use, a session needs every
      factor, passwords can be guessed only so often.
    - C10, C11, C20 (webhooks): a forged callback only leaves a journal row, a
      redelivery changes nothing and repeats the verdict, only authentic
      requests move money.
    - C12, C19, C23 (billing): confirming a payment activates its subscription
      and replaces the old ones, one idempotency key is one payment also under
      a race, the sweep works off abandoned checkouts.
    - C13 (notifications): every message is sent or given up.
    - C14, C15, C17, C18 (the shell): the role tables grant what the code
      declares, requests are admitted by the marker of their route, whatever
      modules are enabled the declarations fit together, and the application
      comes up ready: what it builds keeps the laws the rest is proved against.
    - C21, C22 (shop): placed orders are priced and linked, payments settle
      orders.
    - C24 to C28 (crm and saas): links lead somewhere and are cleared,
      metering refines a log, entitlements follow billing, limits hold.
    - C29 to C31 (files): stored files keep their bytes, uploads download, the
      configured storage keeps its contract.
    - C32 to C34 (shared): events are handled once, a failed one leaves
      nothing, repositories see one tenant.
    - C35 (loader): features are installed after what they require.
    - C16, C36 to C38 (database): row level security keeps tenants apart,
      migrations apply and undo in any order their dependencies allow, history
      is kept, row statements fit the constraints they precede.
    - C39, C40 (edge): oversized bodies are refused, reports are scrubbed.

    ** Bounds and fuel

    [roll_fuel] (Billing) counts periods of 28 days between the end of a free
    period and now: no period is shorter, so [roll_forward] never runs out,
    which [free_subscription_rolls_forward] proves. [order_loop] and [visit]
    (Loader) get as many rounds as there are features: each round installs one,
    each visit marks one; C35 and [chain_spec] show that this is enough.
    [message_keys_from] (Edge) and [ancestors] (SchemaProps) get more steps than
    there are classes and than the longest chain of revisions, and are evaluated.
    The retry loop recurses on the attempts left, the drain of a sweep on
    MAX_DRAIN_BATCHES, both as in the code. Amounts are unbounded integers in
    Python; the database refuses those outside BIGINT or SMALLINT
    ([db_ranges]), which is when the model raises. Statements about periods
    assume dates before the year 9999, after which Python's own datetime
    raises.

    ** Assumptions

    Statements that say [no_rivals] hold for a transaction that no other one
    commits into; those that say [RivalOk R] hold whenever the others keep
    [R]. [draws_differ] and [fresh_ids] say that identifiers are not drawn
    twice. [ProviderLaws], [ChannelLaws], [StorageLaws] and [ThumbnailLaws] are
    proved of the adapters; [AppLaws] states that an application is made of
    adapters that keep them, and C18 proves it of every application that comes
    up. Password hashing, tokens, one-time codes, Fernet, template files,
    Starlette, Pillow, boto3, the disk and network answers are parameters
    ([AuthLib], [NoticeLib], [Starlette], [Pillow], [S3Client], [Os], [Disk])
    about which nothing is assumed, but for [FernetLaws] where secrets are
    rotated.

    ** Not modelled

    Wiring of libraries: loggers and Sentry, engines, Redis and the job queue,
    CORS, argument parsing, Alembic's bookkeeping and its discovery of folders,
    Pydantic's reading of the environment, the context variable that hands a
    handler its unit of work (the model passes the state). Logging and timing
    are left out everywhere. A late answer of S3 is taken to land during the
    call; symbolic links are not followed by [fs_resolve]. The foreign keys
    from components to organizations and users are not part of [db_ok]; they
    are [outer_links] of Conform. *)

From stdpp Require Import base strings gmap list fin_maps sorting.
From Stdlib Require Import ZArith Lia.

(** ** Results: a Python call returns a value or raises *)

Declare Scope py_scope.
Delimit Scope py_scope with py.

Inductive res (E A : Type) : Type :=
| Ok (a : A)
| Raise (e : E).
Arguments Ok {E A} a.
Arguments Raise {E A} e.

(** Statements run over a state [S]; an exception does not undo the effects
    that preceded it, so the state is returned on both outcomes. *)
Definition M (E S A : Type) : Type := S -> res E A * S.

Section Monad.
Context {E S : Type}.

Definition ret {A} (a : A) : M E S A := fun s => (Ok a, s).

Definition bind {A B} (m : M E S A) (k : A -> M E S B) : M E S B := fun s =>
  match m s with
  | (Ok a, s') => k a s'
  | (Raise e, s') => (Raise e, s')
  end.

Definition raise {A} (e : E) : M E S A := fun s => (Raise e, s).

(** [try: m  except e: h e]; a handler that does not match re-raises. *)
Definition catch {A} (m : M E S A) (h : E -> M E S A) : M E S A := fun s =>
  match m s with
  | (Ok a, s') => (Ok a, s')
  | (Raise e, s') => h e s'
  end.

Definition get_st : M E S S := fun s => (Ok s, s).
Definition gets {A} (f : S -> A) : M E S A := fun s => (Ok (f s), s).
Definition modify (f : S -> S) : M E S unit := fun s => (Ok tt, f s).

Definition lift_res {A} (r : res E A) : M E S A := fun s => (r, s).

Definition guardM (b : bool) (e : E) : M E S unit :=
  if b then raise e else ret tt.

Fixpoint for_each {A} (l : list A) (f : A -> M E S unit) : M E S unit :=
  match l with
  | [] => ret tt
  | x :: l' => bind (f x) (fun _ => for_each l' f)
  end.

Fixpoint fold_m {A B} (l : list A) (acc : B) (f : B -> A -> M E S B) : M E S B :=
  match l with
  | [] => ret acc
  | x :: l' => bind (f acc x) (fun acc' => fold_m l' acc' f)
  end.
End Monad.

Notation "x <- c ;; k" := (bind c (fun x => k))
  (at level 100, c at next level, right associativity) : py_scope.
Notation "'let*' p := c 'in' k" := (bind c (fun x => match x with p => k end))
  (at level 100, p pattern, c at next level, k at level 200, right associativity) : py_scope.
Notation "c ;;; k" := (bind c (fun _ => k))
  (at level 100, right associativity) : py_scope.
Open Scope py_scope.

(** ** Reasoning about statements

    [wp m s Q]: running [m] from [s] ends in an outcome and a state
    satisfying [Q].  [steps R m]: whatever the outcome, [m] relates its
    initial and final states by [R]. *)

Definition wp {E S A} (m : M E S A) (s : S) (Q : res E A -> S -> Prop) : Prop :=
  Q (m s).1 (m s).2.

Definition steps {E S A} (R : S -> S -> Prop) (m : M E S A) : Prop :=
  forall s, R s (m s).2.

Create HintDb steps discriminated.

Section Wp.
Context {E S : Type}.

Lemma wp_bind {A B} (m : M E S A) (k : A -> M E S B) s Q :
  wp (bind m k) s Q <->
  wp m s (fun r s' => match r with
                      | Ok a => wp (k a) s' Q
                      | Raise e => Q (Raise e) s' end).
Proof. unfold wp, bind. by destruct (m s) as [[a|e] s']. Qed.

Lemma wp_catch {A} (m : M E S A) (h : E -> M E S A) s Q :
  wp (catch m h) s Q <->
  wp m s (fun r s' => match r with
                      | Ok a => Q (Ok a) s'
                      | Raise e => wp (h e) s' Q end).
Proof. unfold wp, catch. by destruct (m s) as [[a|e] s']. Qed.

Lemma wp_mono {A} (m : M E S A) s (Q Q' : res E A -> S -> Prop) :
  wp m s Q -> (forall r s', Q r s' -> Q' r s') -> wp m s Q'.
Proof. unfold wp. eauto. Qed.

Lemma wp_eq {A} (m : M E S A) s r s' :
  wp m s (fun r0 s0 => r0 = r /\ s0 = s') <-> m s = (r, s').
Proof. unfold wp. destruct (m s); simpl. naive_solver. Qed.
End Wp.

Section Steps.
Context {E S : Type} (R : S -> S -> Prop) `{!PreOrder R}.

Lemma steps_ret {A} (a : A) : steps R (ret (E:=E) a).
Proof. intros s. simpl. reflexivity. Qed.

Lemma steps_raise {A} (e : E) : steps R (raise (A:=A) e).
Proof. intros s. simpl. reflexivity. Qed.

Lemma steps_gets {A} (f : S -> A) : steps R (gets (E:=E) f).
Proof. intros s. simpl. reflexivity. Qed.

Lemma steps_get_st : steps R (get_st (E:=E)).
Proof. intros s. simpl. reflexivity. Qed.

Lemma steps_lift_res {A} (r : res E A) : steps R (lift_res r).
Proof. intros s. simpl. reflexivity. Qed.

Lemma steps_guardM b (e : E) : steps R (guardM b e).
Proof. destruct b; [apply steps_raise | apply steps_ret]. Qed.

Lemma steps_bind {A B} (m : M E S A) (k : A -> M E S B) :
  steps R m -> (forall a, steps R (k a)) -> steps R (bind m k).
Proof.
  intros Hm Hk s. unfold bind. specialize (Hm s).
  destruct (m s) as [[a|e] s']; simpl in *; [|done].
  etransitivity; [done|]. apply Hk.
Qed.

Lemma steps_catch {A} (m : M E S A) h :
  steps R m -> (forall e, steps R (h e)) -> steps R (catch m h).
Proof.
  intros Hm Hh s. unfold catch. specialize (Hm s).
  destruct (m s) as [[a|e] s']; simpl in *; [done|].
  etransitivity; [done|]. apply Hh.
Qed.

Lemma steps_modify f : (forall s, R s (f s)) -> steps R (modify (E:=E) f).
Proof. intros H s. simpl. apply H. Qed.

Lemma steps_for_each {A} (l : list A) (f : A -> M E S unit) :
  (forall a, steps R (f a)) -> steps R (for_each l f).
Proof.
  intros Hf. induction l as [|x l IH]; simpl; [apply steps_ret|].
  apply steps_bind; auto.
Qed.

Lemma steps_fold_m {A B} (l : list A) (acc : B) (f : B -> A -> M E S B) :
  (forall b a, steps R (f b a)) -> steps R (fold_m l acc f).
Proof.
  intros Hf. revert acc. induction l as [|x l IH]; intros acc; simpl; [apply steps_ret|].
  apply steps_bind; auto.
Qed.
End Steps.

#[export] Hint Resolve steps_ret steps_raise steps_gets steps_get_st steps_lift_res
  steps_guardM steps_for_each steps_fold_m : steps.

(** Walks through the statements of a block, leaving the primitive updates. *)
Ltac steps_walk :=
  repeat first
    [ progress intros
    | solve [auto with steps typeclass_instances]
    | match goal with
      | |- steps _ (bind _ _) => apply steps_bind; [typeclasses eauto | |]
      | |- steps _ (catch _ _) => apply steps_catch; [typeclasses eauto | |]
      | |- steps _ (match ?x with _ => _ end) => destruct x
      end ].

(** Symbolic execution of one run: unfolds binds and reduces primitives. *)
Ltac run_step :=
  unfold bind, catch, ret, raise, gets, get_st, modify, lift_res, guardM in *;
  simpl in *.

(** ** SQL tables

    A table is a finite map from primary keys to rows. A (partial) unique
    index is given by a key function: [None] means that the row is outside
    the index (its WHERE clause is false or the column is NULL). *)

Definition rows {A} (t : gmap N A) : list A := (map_to_list t).*2.

Definition unique_by {A K} `{EqDecision K} (key : A -> option K) (t : gmap N A) : bool :=
  bool_decide (NoDup (omap key (rows t))).

(** SELECT ... WHERE p *)
Definition select {A} (p : A -> bool) (t : gmap N A) : list A := List.filter p (rows t).

Definition all_rows {A} (p : A -> bool) (t : gmap N A) : bool := forallb p (rows t).

Section Tables.
Context {A : Type}.
Implicit Types (t : gmap N A) (p : A -> bool).

Lemma elem_of_rows t a : a ∈ rows t <-> exists i, t !! i = Some a.
Proof.
  unfold rows. rewrite list_elem_of_fmap. split.
  - intros [[i x] [-> H]]. exists i. by apply elem_of_map_to_list.
  - intros [i H]. exists (i, a). split; [done|]. by apply elem_of_map_to_list.
Qed.

Lemma elem_of_select p t a :
  a ∈ select p t <-> (exists i, t !! i = Some a) /\ p a = true.
Proof.
  unfold select. rewrite list_elem_of_In, List.filter_In, <- list_elem_of_In.
  by rewrite elem_of_rows.
Qed.

Lemma all_rows_spec p t :
  all_rows p t = true <-> forall i a, t !! i = Some a -> p a = true.
Proof.
  unfold all_rows. rewrite forallb_forall. split.
  - intros H i a Hi. apply H, list_elem_of_In, elem_of_rows. eauto.
  - intros H a Ha. apply list_elem_of_In, elem_of_rows in Ha as [i Hi]. eauto.
Qed.

Lemma all_rows_insert p t i a :
  all_rows p t = true -> p a = true -> all_rows p (<[i:=a]> t) = true.
Proof.
  rewrite !all_rows_spec. intros Ht Ha j b. rewrite lookup_insert.
  case_decide; naive_solver.
Qed.

Lemma NoDup_omap_map_to_list {K} (key : A -> option K) t :
  NoDup (omap key (rows t)) <->
  forall i j a b k, t !! i = Some a -> t !! j = Some b ->
    key a = Some k -> key b = Some k -> i = j.
Proof.
  unfold rows. induction t as [|i x t Hi IH] using map_ind.
  - rewrite map_to_list_empty. simpl. split; [intros _ ?????; by rewrite lookup_empty|].
    intros _. constructor.
  - rewrite map_to_list_insert by done. simpl.
    assert (Hin : forall k, k ∈ omap key (map_to_list t).*2 <->
              exists j b, t !! j = Some b /\ key b = Some k).
    { intros k. rewrite list_elem_of_omap. split.
      - intros (b & Hb & Hk). apply (elem_of_rows t b) in Hb as [j Hj]. eauto.
      - intros (j & b & Hj & Hk). exists b. split; [|done]. apply (elem_of_rows t b). eauto. }
    destruct (key x) as [k|] eqn:Hx.
    + rewrite NoDup_cons, IH, Hin. split.
      * intros [Hne Ht] j1 j2 a b k' H1 H2 Ka Kb.
        rewrite lookup_insert in H1, H2.
        destruct (decide (i = j1)), (decide (i = j2)); simplify_eq; eauto; exfalso; eauto.
      * intros H. split.
        -- intros (j & b & Hj & Hk).
           assert (i ≠ j) by (intros ->; congruence).
           assert (i = j) by (eapply (H i j x b k);
             [by rewrite lookup_insert_eq | by rewrite lookup_insert_ne | done | done]).
           done.
        -- intros j1 j2 a b k' H1 H2 Ka Kb.
           eapply (H j1 j2 a b k'); [| |done|done];
             rewrite lookup_insert_ne; auto; intros ->; congruence.
    + rewrite IH. split.
      * intros Ht j1 j2 a b k' H1 H2 Ka Kb. rewrite lookup_insert in H1, H2.
        destruct (decide (i = j1)), (decide (i = j2)); simplify_eq; eauto.
      * intros H j1 j2 a b k' H1 H2 Ka Kb.
        eapply (H j1 j2 a b k'); [| |done|done];
          rewrite lookup_insert_ne; auto; intros ->; congruence.
Qed.

Lemma unique_by_spec {K} `{EqDecision K} (key : A -> option K) t :
  unique_by key t = true <->
  forall i j a b k, t !! i = Some a -> t !! j = Some b ->
    key a = Some k -> key b = Some k -> i = j.
Proof. unfold unique_by. rewrite bool_decide_eq_true. apply NoDup_omap_map_to_list. Qed.

(** Writing a row keeps an index when the row leaves it or keeps its key,
    or when no other row carries the key. *)
Lemma unique_by_insert {K} `{EqDecision K} (key : A -> option K) t i a :
  unique_by key t = true ->
  (forall k, key a = Some k ->
     forall j b, j ≠ i -> t !! j = Some b -> key b ≠ Some k) ->
  unique_by key (<[i:=a]> t) = true.
Proof.
  rewrite !unique_by_spec. intros Ht Ha j1 j2 b1 b2 k H1 H2 K1 K2.
  rewrite lookup_insert in H1, H2.
  destruct (decide (i = j1)), (decide (i = j2)); simplify_eq; eauto.
  - exfalso. eapply Ha; eauto.
  - exfalso. eapply Ha; eauto.
Qed.

Lemma unique_by_update {K} `{EqDecision K} (key : A -> option K) t i a a' :
  unique_by key t = true -> t !! i = Some a ->
  (key a' = None \/ key a' = key a) ->
  unique_by key (<[i:=a']> t) = true.
Proof.
  intros Hu Hi Hk. apply unique_by_insert; [done|]. intros k Ka j b Hj Hb Kb.
  destruct Hk as [?|Hk]; [congruence|].
  apply unique_by_spec with (i:=j) (j:=i) (a:=b) (b:=a) (k:=k) in Hu; auto. congruence.
Qed.
End Tables.

Lemma length_le_1_spec {A} (l : list A) :
  (length l <= 1)%nat <-> (l = [] \/ exists a, l = [a]).
Proof. destruct l as [|a [|b l]]; simpl; split; try lia; naive_solver. Qed.
