(* ===== verification/Errors.v ===== *)
(** The exceptions the program raises or catches.

    [domain_cls] is the class hierarchy of src/shared/errors.py with its
    class attributes; [exn] adds the exceptions of Python, the driver and
    the event loop that the code names or lets escape. *)

From stdpp Require Import base strings.
From S2P Require Import Prelude.

Inductive domain_cls : Set :=
| DomainError
| NotFoundError
| ConflictError
| InvariantViolationError
| PermissionDeniedError
| AuthenticationError
| PayloadTooLargeError
| RateLimitedError
| ExternalServiceError
| PaymentProviderError
| StripeTransientError        (* src/core/billing/adapters/stripe.py *)
| NotificationChannelError
| ChannelTemporaryError       (* src/core/notifications/ports.py *)
| ChannelPermanentError
| StorageError                (* src/core/files/ports.py *)
| WebhookVerificationError
| CircuitOpenError.

#[export] Instance domain_cls_eq_dec : EqDecision domain_cls.
Proof. solve_decision. Defined.

(** The base class of each class ([None]: Exception). *)
Definition parent (c : domain_cls) : option domain_cls :=
  match c with
  | DomainError => None
  | PaymentProviderError | NotificationChannelError | CircuitOpenError | StorageError =>
      Some ExternalServiceError
  | ChannelTemporaryError => Some NotificationChannelError
  | StripeTransientError => Some PaymentProviderError
  | _ => Some DomainError
  end.

(** [isinstance]: the hierarchy is four levels deep. *)
Fixpoint ancestors (depth : nat) (c : domain_cls) : list domain_cls :=
  c :: match depth, parent c with
       | S n, Some p => ancestors n p
       | _, _ => []
       end.
Definition subclass (c d : domain_cls) : bool := bool_decide (d ∈ ancestors 3 c).

Definition code (c : domain_cls) : string :=
  match c with
  | DomainError => "domain_error"
  | NotFoundError => "not_found"
  | ConflictError => "conflict"
  | InvariantViolationError => "invariant_violation"
  | PermissionDeniedError => "permission_denied"
  | AuthenticationError => "authentication_failed"
  | PayloadTooLargeError => "payload_too_large"
  | RateLimitedError => "rate_limited"
  | ExternalServiceError => "external_service_error"
  | PaymentProviderError | StripeTransientError => "payment_provider_error"
  | NotificationChannelError | ChannelTemporaryError => "notification_channel_error"
  | ChannelPermanentError => "notification_undeliverable"
  | StorageError => "storage_error"
  | WebhookVerificationError => "webhook_verification_failed"
  | CircuitOpenError => "circuit_open"
  end.

Definition message_key (c : domain_cls) : string :=
  match c with
  | ChannelPermanentError => "errors.notification_channel_error"
  | _ => "errors." +:+ code c
  end.

(** [PaymentProviderError] and [NotificationChannelError] inherit 502. *)
Definition http_status (c : domain_cls) : Z :=
  match c with
  | DomainError => 400
  | NotFoundError => 404
  | ConflictError => 409
  | InvariantViolationError => 422
  | PermissionDeniedError => 403
  | AuthenticationError => 401
  | PayloadTooLargeError => 413
  | RateLimitedError => 429
  | ExternalServiceError | PaymentProviderError | StripeTransientError
  | NotificationChannelError | ChannelTemporaryError | StorageError => 502
  | ChannelPermanentError => 422
  | WebhookVerificationError => 403
  | CircuitOpenError => 503
  end.

Inductive exn : Set :=
| EDomain (c : domain_cls) (detail : string)
| EIntegrity                  (* sqlalchemy.exc.IntegrityError *)
| EValue                      (* ValueError *)
| EKey                        (* KeyError *)
| EType                       (* TypeError *)
| EAttribute                  (* AttributeError *)
| ERuntime                    (* RuntimeError *)
| ELookup                     (* LookupError *)
| EOverflow                   (* OverflowError *)
| EDecimal                    (* decimal.InvalidOperation *)
| EMultipleResults            (* sqlalchemy.exc.MultipleResultsFound *)
| ENoResult                   (* sqlalchemy.exc.NoResultFound *)
| ETimeout (msg : string)     (* TimeoutError *)
| EConnection (msg : string)  (* ConnectionError *)
| EOS (msg : string)          (* OSError *)
| EOther (msg : string)       (* any other Exception *)
| ERetry (defer : Z)          (* arq.worker.Retry *)
| ECancelled.                 (* asyncio.CancelledError, not an Exception *)

#[export] Instance exn_eq_dec : EqDecision exn.
Proof. solve_decision. Defined.

Definition is_domain (e : exn) : bool :=
  match e with EDomain _ _ => true | _ => false end.

Definition is_invariant_violation (e : exn) : bool :=
  match e with EDomain c _ => subclass c InvariantViolationError | _ => false end.

(** [str(exc)] of a domain error: the detail, or the code when it is empty. *)
Definition exn_str (c : domain_cls) (detail : string) : string :=
  if bool_decide (detail = "") then code c else detail.

(** Every domain error is a [DomainError], and the hierarchy is transitive. *)
Lemma subclass_root c : subclass c DomainError = true.
Proof. by destruct c. Qed.

(** ** Results that may raise *)

Definition need {A} (o : option A) (e : exn) : res exn A :=
  match o with Some a => Ok a | None => Raise e end.
Definition rbind {A B} (r : res exn A) (k : A -> res exn B) : res exn B :=
  match r with Ok a => k a | Raise e => Raise e end.
