(* ===== verification/Resilience.v ===== *)
(** Resilient outbound calls (src/shared/resilience.py): bounded retries and
    a circuit breaker per target.

    The breaker lives in the caller's state, reached through a [BreakerRef].
    Durations are integers in the clock's unit; the pause between attempts
    changes no state of the program and is left out. *)

From stdpp Require Import base strings list.
From Stdlib Require Import ZArith Lia.
From S2P Require Import Prelude Errors.

Inductive breaker_state : Set := Closed | Opened | HalfOpen.
#[export] Instance breaker_state_eq_dec : EqDecision breaker_state.
Proof. solve_decision. Defined.

Record CircuitBreaker : Set := mkBreaker {
  br_name : string; failure_threshold : Z; recovery_time : Z;
  failures : Z; opened_at : Z; br_state : breaker_state }.

Definition new_breaker (name : string) (threshold recovery : Z) : CircuitBreaker :=
  mkBreaker name threshold recovery 0 0 Closed.

Definition with_state (b : CircuitBreaker) (n opened : Z) (st : breaker_state) : CircuitBreaker :=
  mkBreaker (br_name b) (failure_threshold b) (recovery_time b) n opened st.

(** [allow] at clock reading [t]; the clock is read only when open. *)
Definition allow (t : Z) (b : CircuitBreaker) : bool * CircuitBreaker :=
  let b := if bool_decide (br_state b = Opened) && (recovery_time b <=? t - opened_at b)%Z
           then with_state b (failures b) (opened_at b) HalfOpen else b in
  (negb (bool_decide (br_state b = Opened)), b).

Definition record_success (b : CircuitBreaker) : CircuitBreaker :=
  with_state b 0 (opened_at b) Closed.

Definition record_failure (t : Z) (b : CircuitBreaker) : CircuitBreaker :=
  let n := (failures b + 1)%Z in
  if bool_decide (br_state b = HalfOpen) || (failure_threshold b <=? n)%Z
  then with_state b n t Opened
  else with_state b n (opened_at b) (br_state b).

(** [RetryPolicy.__post_init__] *)
Record RetryPolicy : Set := mkRetry { attempts : nat }.
Definition new_retry_policy (attempts : Z) : res exn RetryPolicy :=
  if (attempts <? 1)%Z then Raise EValue else Ok (mkRetry (Z.to_nat attempts)).
Definition default_retry : RetryPolicy := mkRetry 3.

(** [TRANSIENT_ERRORS] *)
Definition is_external (e : exn) : bool :=
  match e with EDomain c _ => subclass c ExternalServiceError | _ => false end.
Definition is_network (e : exn) : bool :=
  match e with ETimeout _ | EConnection _ | EOS _ => true | _ => false end.
Definition TRANSIENT_ERRORS (e : exn) : bool := is_external e || is_network e.

(** [str(exc)] *)
Definition exn_message (e : exn) : string :=
  match e with
  | EDomain c d => exn_str c d
  | ETimeout m | EConnection m | EOS m | EOther m => m
  | _ => ""
  end.

Section Resilient.
Context {W : Type}.

Record BreakerRef : Type := mkRef {
  ref_get : W -> CircuitBreaker; ref_set : CircuitBreaker -> W -> W }.

Context (clock : M exn W Z) (breaker : option BreakerRef) (transient : exn -> bool)
  (error_cls : domain_cls).

Definition breaker_allow : M exn W bool :=
  match breaker with
  | None => ret true
  | Some r =>
      t <- clock ;;
      b <- gets (ref_get r) ;;
      let '(ok, b') := allow t b in
      modify (ref_set r b') ;;; ret ok
  end.

Definition breaker_update (f : Z -> CircuitBreaker -> CircuitBreaker) : M exn W unit :=
  match breaker with
  | None => ret tt
  | Some r =>
      t <- clock ;;
      b <- gets (ref_get r) ;;
      modify (ref_set r (f t b))
  end.

Definition breaker_name : M exn W string :=
  match breaker with None => ret "" | Some r => b <- gets (ref_get r) ;; ret (br_name b) end.

(** After the loop: an [ExternalServiceError] as it is, anything else wrapped. *)
Definition give_last {A} (last : exn) : M exn W A :=
  if is_external last then raise last else raise (EDomain error_cls (exn_message last)).

(** The loop over attempts; [n] is the number left. *)
Fixpoint resilient_loop {A} (operation : M exn W A) (n : nat) : M exn W A :=
  match n with
  | O => raise (EOther "AssertionError")
  | S n' =>
      ok <- breaker_allow ;;
      if negb ok then
        name <- breaker_name ;;
        raise (EDomain CircuitOpenError ("circuit open for " +:+ name))
      else
        r <- catch (a <- operation ;; ret (inl a)) (fun e =>
               match e with
               | ECancelled => raise ECancelled
               | _ => if transient e then ret (inr e) else raise e
               end) ;;
        match r with
        | inl a => breaker_update (fun _ => record_success) ;;; ret a
        | inr e =>
            breaker_update record_failure ;;;
            match n' with
            | O => give_last e
            | _ => resilient_loop operation n'
            end
        end
  end.

Definition call_resilient {A} (operation : M exn W A) (retry : option RetryPolicy) : M exn W A :=
  resilient_loop operation (attempts (default default_retry retry)).
End Resilient.
Arguments BreakerRef : clear implicits.
