(* ===== verification/PyLib.v ===== *)
(** The parts of Python and its standard library the modelled code uses:
    string methods, [int], [uuid.UUID], the proleptic Gregorian calendar of
    [datetime], and JSON values. Text is a list of ASCII characters. *)

From stdpp Require Import base strings gmap pretty sorting.
From Stdlib Require Import ZArith Lia Ascii.
From S2P Require Import Prelude Errors.

(** Boolean range tests as inequalities. *)
Ltac range_lia :=
  repeat match goal with
  | H : negb _ = true |- _ => apply negb_true_iff in H
  | H : _ || _ = true |- _ => apply orb_true_iff in H
  | H : _ && _ = true |- _ => apply andb_true_iff in H
  | H : (_ <=? _)%N = true |- _ => apply N.leb_le in H
  | H : _ /\ _ |- _ => destruct H
  | H : _ \/ _ |- _ => destruct H
  end; try lia.

(** ** Strings *)

Definition ch (c : ascii) : N := N_of_ascii c.
Definition in_range (lo hi : N) (c : ascii) : bool := (lo <=? ch c)%N && (ch c <=? hi)%N.

Definition ch_upper (c : ascii) : bool := in_range 65 90 c.
Definition ch_lower (c : ascii) : bool := in_range 97 122 c.
Definition ch_alpha (c : ascii) : bool := ch_upper c || ch_lower c.
Definition ch_digit (c : ascii) : bool := in_range 48 57 c.
Definition ch_space (c : ascii) : bool :=
  in_range 9 13 c || in_range 28 32 c || in_range 133 133 c || in_range 160 160 c.
Definition ch_printable (c : ascii) : bool :=
  in_range 32 126 c || in_range 161 172 c || in_range 174 255 c.
Definition ch_ascii (c : ascii) : bool := in_range 0 127 c.
Definition ch_to_lower (c : ascii) : ascii := if ch_upper c then ascii_of_N (ch c + 32) else c.
Definition ch_to_upper (c : ascii) : ascii := if ch_lower c then ascii_of_N (ch c - 32) else c.

Fixpoint str_map (f : ascii -> ascii) (s : string) : string :=
  match s with EmptyString => EmptyString | String c s' => String (f c) (str_map f s') end.
Fixpoint str_all (p : ascii -> bool) (s : string) : bool :=
  match s with EmptyString => true | String c s' => p c && str_all p s' end.
Definition str_any (p : ascii -> bool) (s : string) : bool :=
  negb (str_all (fun c => negb (p c)) s).

Definition str_empty (s : string) : bool := bool_decide (s = "").
Definition str_lower : string -> string := str_map ch_to_lower.
Definition str_upper : string -> string := str_map ch_to_upper.
Definition str_isalpha (s : string) : bool := negb (str_empty s) && str_all ch_alpha s.
Definition str_isdigit (s : string) : bool := negb (str_empty s) && str_all ch_digit s.
Definition str_isupper (s : string) : bool :=
  str_any ch_alpha s && str_all (fun c => negb (ch_lower c)) s.

Definition newline : ascii := ascii_of_nat 10.

Definition startswith (s pre : string) : bool := String.prefix pre s.

Fixpoint str_lstrip (p : ascii -> bool) (s : string) : string :=
  match s with
  | EmptyString => EmptyString
  | String c s' => if p c then str_lstrip p s' else s
  end.
Fixpoint str_rstrip (p : ascii -> bool) (s : string) : string :=
  match s with
  | EmptyString => EmptyString
  | String c s' => let r := str_rstrip p s' in
      if str_empty r && p c then EmptyString else String c r
  end.
Definition str_strip (p : ascii -> bool) (s : string) : string := str_rstrip p (str_lstrip p s).
Definition strip (s : string) : string := str_strip ch_space s.

Fixpoint str_drop (n : nat) (s : string) : string :=
  match n, s with
  | S n', String _ s' => str_drop n' s'
  | _, _ => s
  end.
Fixpoint str_take (n : nat) (s : string) : string :=
  match n, s with
  | S n', String c s' => String c (str_take n' s')
  | _, _ => EmptyString
  end.

(** [s.partition(sep)] for a one-character separator. *)
Fixpoint partition (sep : ascii) (s : string) : string * bool * string :=
  match s with
  | EmptyString => (EmptyString, false, EmptyString)
  | String c s' =>
      if bool_decide (c = sep) then (EmptyString, true, s')
      else let '(a, f, b) := partition sep s' in (String c a, f, b)
  end.

(** [s.split(sep)] for a one-character separator. *)
Fixpoint split (sep : ascii) (s : string) : list string :=
  match s with
  | EmptyString => [EmptyString]
  | String c s' =>
      if bool_decide (c = sep) then EmptyString :: split sep s'
      else match split sep s' with
           | [] => [String c EmptyString]
           | w :: ws => String c w :: ws
           end
  end.

Fixpoint join (sep : string) (l : list string) : string :=
  match l with
  | [] => ""
  | [x] => x
  | x :: l' => x +:+ sep +:+ join sep l'
  end.

(** [s.replace(sub, "")]: occurrences are removed left to right. *)
Fixpoint str_remove (sub : string) (skip : nat) (s : string) : string :=
  match s with
  | EmptyString => EmptyString
  | String c s' =>
      match skip with
      | S k => str_remove sub k s'
      | O => if String.prefix sub s then str_remove sub (String.length sub - 1) s'
             else String c (str_remove sub 0 s')
      end
  end.

(** [hmac.compare_digest] of two strings; [None] is TypeError (non-ASCII). *)
Definition compare_digest (a b : string) : option bool :=
  if str_all ch_ascii a && str_all ch_ascii b then Some (bool_decide (a = b)) else None.

(** [urllib.parse.quote_plus], over the UTF-8 bytes of each character. *)
Definition hex_upper (d : N) : ascii :=
  ascii_of_N (if (d <? 10)%N then 48 + d else 55 + d).
Definition pct (b : N) : string :=
  String "%" (String (hex_upper (b / 16)) (String (hex_upper (b mod 16)) EmptyString)).
Definition quote_ch (c : ascii) : string :=
  if ch_alpha c || ch_digit c || bool_decide (c ∈ ["_"; "."; "-"; "~"]%char)
  then String c EmptyString
  else if bool_decide (c = " "%char) then "+"
  else if ch_ascii c then pct (ch c)
  else pct (192 + ch c / 64) +:+ pct (128 + ch c mod 64).
Fixpoint quote_plus (s : string) : string :=
  match s with EmptyString => "" | String c s' => quote_ch c +:+ quote_plus s' end.
Definition urlencode (q : list (string * string)) : string :=
  join "&" ((fun '(k, v) => quote_plus k +:+ "=" +:+ quote_plus v) <$> q).

(** ** Integers *)

Definition digit_val (c : ascii) : option Z :=
  if ch_digit c then Some (Z.of_N (ch c) - 48)%Z
  else if ch_lower c then Some (Z.of_N (ch c) - 87)%Z
  else if ch_upper c then Some (Z.of_N (ch c) - 55)%Z
  else None.

(** Digits with single underscores between them; [us]: an underscore (or the
    start of the literal) was just read. *)
Fixpoint int_digits (base acc : Z) (us : bool) (s : string) : option Z :=
  match s with
  | EmptyString => if us then None else Some acc
  | String c s' =>
      if bool_decide (c = "_"%char) then
        if us then None else int_digits base acc true s'
      else match digit_val c with
           | Some d => if (d <? base)%Z then int_digits base (acc * base + d)%Z false s' else None
           | None => None
           end
  end.

Definition int_unsigned (base : Z) (s : string) : option Z :=
  if (base =? 16)%Z && (startswith s "0x" || startswith s "0X") then
    let s' := str_drop 2 s in
    int_digits base 0 true (if startswith s' "_" then str_drop 1 s' else s')
  else int_digits base 0 true s.

(** [int(s, base)] for base 10 and 16; [None] is ValueError. *)
Definition py_int (base : Z) (s : string) : option Z :=
  match strip s with
  | String "-" s' => Z.opp <$> int_unsigned base s'
  | String "+" s' => int_unsigned base s'
  | s' => int_unsigned base s'
  end.

(** ** UUIDs: 128-bit integers *)

Abbreviation uuid := N.

Definition hex_char (d : N) : ascii :=
  ascii_of_N (if (d <? 10)%N then 48 + d else 87 + d)%N.

Fixpoint hex_digits (n : nat) (u : N) : string :=
  match n with
  | O => EmptyString
  | S n' => hex_digits n' (u / 16)%N +:+ String (hex_char (u mod 16)%N) EmptyString
  end.

(** [str(u)]: 8-4-4-4-12 lower-case hexadecimal digits. *)
Definition uuid_str (u : uuid) : string :=
  let h := hex_digits 32 u in
  str_take 8 h +:+ "-" +:+ str_take 4 (str_drop 8 h) +:+ "-" +:+
  str_take 4 (str_drop 12 h) +:+ "-" +:+ str_take 4 (str_drop 16 h) +:+ "-" +:+
  str_drop 20 h.

(** [UUID(s)] as written in CPython's uuid.py; [None] is ValueError. *)
Definition uuid_parse (s : string) : option uuid :=
  let h := str_remove "uuid:" 0 (str_remove "urn:" 0 s) in
  let h := str_remove "-" 0
             (str_strip (fun c => bool_decide (c = "{"%char) || bool_decide (c = "}"%char)) h) in
  if negb (Nat.eqb (String.length h) 32) then None
  else match py_int 16 h with
       | Some z => if (0 <=? z)%Z && (z <? 2 ^ 128)%Z then Some (Z.to_N z) else None
       | None => None
       end.

Definition valid_uuid (u : uuid) : Prop := (u < 2 ^ 128)%N.

(** ** JSON values and Python's view of them

    [JFloat] carries the repr of the float; [JIso t] is the string
    [t.isoformat()] of a UTC datetime. *)
Inductive json : Set :=
| JNull
| JBool (b : bool)
| JInt (z : Z)
| JFloat (repr : string)
| JStr (s : string)
| JIso (t : Z)
| JList (l : list json)
| JObj (o : list (string * json)).

Fixpoint assoc {A} (k : string) (o : list (string * A)) : option A :=
  match o with
  | [] => None
  | (k', v) :: o' => if bool_decide (k = k') then Some v else assoc k o'
  end.

(** [bool(v)] *)
Definition truthy (v : json) : bool :=
  match v with
  | JNull => false
  | JBool b => b
  | JInt z => negb (z =? 0)%Z
  | JFloat r => negb (bool_decide (r = "0.0") || bool_decide (r = "-0.0"))
  | JStr s => negb (str_empty s)
  | JIso _ => true
  | JList l => match l with [] => false | _ => true end
  | JObj o => match o with [] => false | _ => true end
  end.

(** Assignment to a dict key: an existing key keeps its position. *)
Fixpoint dict_set {A} (k : string) (v : A) (o : list (string * A)) : list (string * A) :=
  match o with
  | [] => [(k, v)]
  | (k', v') :: o' => if bool_decide (k = k') then (k, v) :: o' else (k', v') :: dict_set k v o'
  end.

Lemma assoc_dict_set {A} k (v : A) o : assoc k (dict_set k v o) = Some v.
Proof.
  induction o as [|[k' v'] o IH]; simpl; [by rewrite bool_decide_true|].
  destruct (bool_decide (k = k')) eqn:E; simpl; [by rewrite bool_decide_true|by rewrite E].
Qed.

Lemma assoc_dict_set_ne {A} k k' (v : A) o : k ≠ k' -> assoc k (dict_set k' v o) = assoc k o.
Proof.
  intros Hne. induction o as [|[k2 v2] o IH]; simpl; [by rewrite bool_decide_false|].
  destruct (bool_decide (k' = k2)) eqn:E; simpl.
  - apply bool_decide_eq_true in E as <-. by rewrite !bool_decide_false.
  - by rewrite IH.
Qed.

(** ** [UUID(str(u)) == u] *)

#[local] Arguments Ascii.ascii_dec : simpl never.
#[local] Arguments String.append : simpl nomatch.

Lemma str_all_app p s1 s2 : str_all p (s1 +:+ s2) = str_all p s1 && str_all p s2.
Proof. induction s1 as [|c s1 IH]; simpl; [done|]. by rewrite IH, andb_assoc. Qed.

Lemma str_all_mono (p q : ascii -> bool) s :
  (forall c, p c = true -> q c = true) -> str_all p s = true -> str_all q s = true.
Proof.
  intros H. induction s as [|c s IH]; simpl; [done|].
  rewrite !andb_true_iff. naive_solver.
Qed.

(** A character of [hex_digits] or a dash. *)
Definition hex_dash (c : ascii) : bool := ch_digit c || in_range 97 102 c || bool_decide (c = "-"%char).
Definition hex_ch (c : ascii) : bool := ch_digit c || in_range 97 102 c.

Lemma below16 (d : N) : (d < 16)%N -> d ∈ (seq 0 16 : list nat) ≫= (fun n => [N.of_nat n]).
Proof.
  intros H. apply list_elem_of_bind. exists (N.to_nat d). split; [|apply elem_of_seq; lia].
  rewrite N2Nat.id. set_solver.
Qed.

Lemma hex_char_spec d : (d < 16)%N ->
  hex_ch (hex_char d) = true /\ digit_val (hex_char d) = Some (Z.of_N d) /\ hex_char d ≠ "_"%char.
Proof.
  intros H%below16. revert d H. apply Forall_forall. simpl.
  repeat constructor; vm_compute; try done; discriminate.
Qed.

Lemma hex_digits_all n u : str_all hex_ch (hex_digits n u) = true.
Proof.
  revert u. induction n as [|n IH]; intros u; simpl; [done|].
  rewrite str_all_app, IH. simpl.
  destruct (hex_char_spec (u mod 16)) as [-> _]; [|done]. by apply N.mod_lt.
Qed.

Lemma length_app_str s1 s2 : String.length (s1 +:+ s2) = (String.length s1 + String.length s2)%nat.
Proof. induction s1; simpl; [done|]. by f_equal. Qed.

Lemma length_hex_digits n u : String.length (hex_digits n u) = n.
Proof. revert u. induction n; intros u; simpl; [done|]. rewrite length_app_str, IHn. simpl. lia. Qed.

Lemma int_digits_snoc base acc us s c d :
  str_all hex_ch s = true -> c ≠ "_"%char -> digit_val c = Some d -> (d < base)%Z ->
  int_digits base acc us (s +:+ String c "") =
  match int_digits base acc (match s with EmptyString => false | _ => us end) s with
  | Some v => Some (v * base + d)%Z | None => None end.
Proof.
  intros Hs Hc Hd Hb. revert acc us Hs. induction s as [|x s IH]; intros acc us Hs; simpl.
  - rewrite bool_decide_false by done. rewrite Hd. by apply Z.ltb_lt in Hb as ->.
  - simpl in Hs. apply andb_true_iff in Hs as [Hx Hs].
    destruct (bool_decide (x = "_"%char)) eqn:Ex.
    { apply bool_decide_eq_true in Ex as ->. done. }
    destruct (digit_val x) as [dx|]; [|done].
    destruct (dx <? base)%Z; [|done].
    rewrite IH by done. by destruct s.
Qed.

Lemma int_digits_hex n u acc us :
  (u < 16 ^ N.of_nat n)%N -> (n = 0%nat -> us = false) ->
  int_digits 16 acc us (hex_digits n u) = Some (acc * 16 ^ Z.of_nat n + Z.of_N u)%Z.
Proof.
  revert u acc us. induction n as [|n IH]; intros u acc us Hu Hus.
  - simpl. rewrite Hus by done. f_equal. simpl in Hu. lia.
  - simpl. destruct (hex_char_spec (u mod 16)) as (H1 & H2 & H3); [by apply N.mod_lt|].
    assert (Hdm : (u mod 16 < 16)%N) by by apply N.mod_lt.
    rewrite (int_digits_snoc _ _ _ _ _ (Z.of_N (u mod 16))); [|apply hex_digits_all|done|done|lia].
    rewrite IH.
    + f_equal. rewrite Nat2Z.inj_succ, Z.pow_succ_r by lia.
      pose proof (N.div_mod' u 16). nia.
    + rewrite Nat2N.inj_succ, N.pow_succ_r' in Hu.
      apply N.Div0.div_lt_upper_bound; lia.
    + by intros ->.
Qed.

Lemma str_remove_none x sub s :
  str_all (fun c => negb (bool_decide (c = x))) s = true ->
  str_remove (String x sub) 0 s = s.
Proof.
  induction s as [|c s IH]; [done|]. simpl. rewrite andb_true_iff. intros [Hc Hs].
  apply negb_true_iff, bool_decide_eq_false in Hc.
  destruct (ascii_dec x c); [congruence|]. f_equal. auto.
Qed.

Lemma str_lstrip_none p s : str_all (fun c => negb (p c)) s = true -> str_lstrip p s = s.
Proof. destruct s; simpl; [done|]. by destruct (p a). Qed.

Lemma str_rstrip_none p s : str_all (fun c => negb (p c)) s = true -> str_rstrip p s = s.
Proof.
  induction s as [|c s IH]; simpl; [done|]. rewrite andb_true_iff. intros [Hc Hs].
  rewrite IH by done. destruct (p c); [done|]. by rewrite andb_false_r.
Qed.

Lemma str_strip_none p s : str_all (fun c => negb (p c)) s = true -> str_strip p s = s.
Proof. intros H. unfold str_strip. by rewrite str_lstrip_none, str_rstrip_none. Qed.

Lemma str_remove_dash_app s1 s2 :
  str_remove "-" 0 (s1 +:+ s2) = str_remove "-" 0 s1 +:+ str_remove "-" 0 s2.
Proof.
  induction s1 as [|c s1 IH]; simpl; [done|].
  destruct (ascii_dec "-" c).
  - assert (String.prefix "" (s1 +:+ s2) = true) as -> by by destruct (s1 +:+ s2).
    assert (String.prefix "" s1 = true) as -> by by destruct s1. by rewrite IH.
  - by rewrite IH.
Qed.

Lemma str_take_drop n s : str_take n s +:+ str_drop n s = s.
Proof. revert s. induction n as [|n IH]; intros [|c s]; try done. simpl. f_equal. apply IH. Qed.

Lemma str_drop_drop n m s : str_drop n (str_drop m s) = str_drop (m + n) s.
Proof. revert s. induction m as [|m IH]; intros s; simpl; [done|]. destruct s; [by destruct n|]. apply IH. Qed.

Lemma str_all_take p n s : str_all p s = true -> str_all p (str_take n s) = true.
Proof. revert s. induction n as [|n IH]; intros [|c s]; simpl; try done. rewrite !andb_true_iff. naive_solver. Qed.
Lemma str_all_drop p n s : str_all p s = true -> str_all p (str_drop n s) = true.
Proof. revert s. induction n as [|n IH]; intros [|c s]; simpl; try done. rewrite !andb_true_iff. naive_solver. Qed.

Lemma hex_ch_not c x :
  hex_ch c = true -> in_range 103 122 x || in_range 65 95 x || in_range 123 125 x
                     || bool_decide (x = "-"%char) || ch_space x = true -> c ≠ x.
Proof.
  unfold hex_ch, ch_digit, in_range, ch_space, in_range. intros H1 H2 ->.
  destruct (bool_decide_reflect (x = "-"%char)) as [->|]; [done|].
  range_lia; congruence.
Qed.

Lemma hex_ch_neq x s :
  in_range 103 122 x || in_range 65 95 x || in_range 123 125 x
    || bool_decide (x = "-"%char) || ch_space x = true ->
  str_all hex_ch s = true -> str_all (fun c => negb (bool_decide (c = x))) s = true.
Proof.
  intros Hx. apply str_all_mono. intros c Hc. apply negb_true_iff, bool_decide_eq_false.
  by apply hex_ch_not.
Qed.

Definition dash_groups (h : string) : string :=
  str_take 8 h +:+ "-" +:+ str_take 4 (str_drop 8 h) +:+ "-" +:+
  str_take 4 (str_drop 12 h) +:+ "-" +:+ str_take 4 (str_drop 16 h) +:+ "-" +:+
  str_drop 20 h.

Lemma dash_groups_remove h :
  str_all hex_ch h = true -> str_remove "-" 0 (dash_groups h) = h.
Proof.
  intros Hh. unfold dash_groups.
  assert (Hn : forall s, str_all hex_ch s = true -> str_remove "-" 0 s = s)
    by (intros s Hs; by apply str_remove_none, hex_ch_neq).
  rewrite !str_remove_dash_app. change (str_remove "-" 0 "-") with "".
  rewrite (Hn (str_take 8 h)), (Hn (str_take 4 (str_drop 8 h))), (Hn (str_take 4 (str_drop 12 h))),
    (Hn (str_take 4 (str_drop 16 h))), (Hn (str_drop 20 h)) by auto using str_all_take, str_all_drop.
  assert (E : forall n m, str_take m (str_drop n h) +:+ "" +:+ str_drop (n + m) h = str_drop n h).
  { intros n m. change ("" +:+ str_drop (n + m) h) with (str_drop (n + m) h).
    rewrite <- str_drop_drop. apply str_take_drop. }
  pose proof (E 16%nat 4%nat) as E1. pose proof (E 12%nat 4%nat) as E2. pose proof (E 8%nat 4%nat) as E3.
  change (16 + 4)%nat with 20%nat in E1. change (12 + 4)%nat with 16%nat in E2.
  change (8 + 4)%nat with 12%nat in E3.
  rewrite E1, E2, E3. apply (str_take_drop 8 h).
Qed.

Lemma uuid_str_dashes u : str_remove "-" 0 (uuid_str u) = hex_digits 32 u.
Proof. apply (dash_groups_remove (hex_digits 32 u)), hex_digits_all. Qed.

Lemma uuid_str_nonempty u : str_empty (uuid_str u) = false.
Proof.
  apply bool_decide_eq_false. intros E. pose proof (uuid_str_dashes u) as H. rewrite E in H.
  pose proof (length_hex_digits 32 u) as Hl. by rewrite <- H in Hl.
Qed.

Lemma uuid_str_chars u : str_all hex_dash (uuid_str u) = true.
Proof.
  unfold uuid_str.
  assert (Hh : str_all hex_dash (hex_digits 32 u) = true).
  { eapply str_all_mono; [|apply hex_digits_all]. intros c. unfold hex_dash, hex_ch. by intros ->. }
  rewrite !str_all_app. rewrite !andb_true_iff. repeat split; auto using str_all_take, str_all_drop.
Qed.

Lemma hex_dash_neq x s :
  (in_range 103 122 x || in_range 123 125 x) = true ->
  str_all hex_dash s = true -> str_all (fun c => negb (bool_decide (c = x))) s = true.
Proof.
  intros Hx. apply str_all_mono. unfold hex_dash. intros c Hc.
  apply negb_true_iff, bool_decide_eq_false. intros ->.
  destruct (bool_decide_reflect (x = "-"%char)) as [->|]; [done|].
  unfold ch_digit, in_range in *. range_lia; congruence.
Qed.

Lemma uuid_parse_str u : valid_uuid u -> uuid_parse (uuid_str u) = Some u.
Proof.
  intros Hu. unfold uuid_parse. pose proof (uuid_str_chars u) as Hc.
  rewrite (str_remove_none "u" "rn:"), (str_remove_none "u" "uid:") by by apply hex_dash_neq.
  rewrite str_strip_none.
  2:{ eapply str_all_mono; [|exact Hc]. unfold hex_dash, ch_digit, in_range. intros c Hcc.
      destruct (bool_decide_reflect (c = "{"%char)) as [->|]; [done|].
      destruct (bool_decide_reflect (c = "}"%char)) as [->|]; [done|]. done. }
  rewrite uuid_str_dashes, length_hex_digits. simpl negb. cbv iota.
  assert (Hp : py_int 16 (hex_digits 32 u) = Some (Z.of_N u)).
  { pose proof (hex_digits_all 32 u) as Ha.
    pose proof (length_hex_digits 32 u) as Hl.
    pose proof (int_digits_hex 32 u 0 true) as Hi.
    assert (Hu' : (u < 16 ^ N.of_nat 32)%N) by (unfold valid_uuid in Hu; exact Hu).
    specialize (Hi Hu' ltac:(discriminate)).
    unfold py_int, strip. rewrite str_strip_none.
    2:{ eapply str_all_mono; [|exact Ha]. intros c Hcc. apply negb_true_iff, not_true_iff_false. intros Hs.
        unfold hex_ch, ch_digit, ch_space, in_range in *. range_lia. }
    remember (hex_digits 32 u) as h eqn:Eh. clear Eh Hc.
    destruct h as [|c1 h]; [done|]. simpl in Ha. apply andb_true_iff in Ha as [Hc1 Ha].
    assert (Hun : int_unsigned 16 (String c1 h) = Some (Z.of_N u)).
    { unfold int_unsigned, startswith. rewrite Hi.
      destruct h as [|c2 h]; [done|]. simpl in Ha. apply andb_true_iff in Ha as [Hc2 Ha].
      simpl (String.prefix _ _).
      destruct (ascii_dec "0" c1); [|done].
      destruct (ascii_dec "x" c2); [subst; done|].
      destruct (ascii_dec "X" c2); [subst; done|]. done. }
    assert (c1 ≠ "-"%char) by by apply hex_ch_not.
    assert (c1 ≠ "+"%char) by (intros ->; done).
    destruct c1 as [[] [] [] [] [] [] [] []]; try exact Hun; congruence. }
  rewrite Hp. replace ((0 <=? Z.of_N u)%Z && (Z.of_N u <? 2 ^ 128)%Z) with true.
  - by rewrite N2Z.id.
  - symmetry. unfold valid_uuid in Hu. apply andb_true_iff. split; [lia|].
    apply Z.ltb_lt. change (2 ^ 128)%Z with (Z.of_N (2 ^ 128)). lia.
Qed.

Lemma uuid_str_inj u v : valid_uuid u -> valid_uuid v -> uuid_str u = uuid_str v -> u = v.
Proof.
  intros Hu Hv E. apply uuid_parse_str in Hu, Hv. rewrite E in Hu. congruence.
Qed.

#[global] Arguments valid_uuid : simpl never.
#[global] Arguments uuid_str : simpl never.
#[global] Arguments uuid_parse : simpl never.
#[global] Arguments py_int : simpl never.
#[global] Arguments hex_digits : simpl never.

(** [sorted(strings)] *)
Definition str_le (a b : string) : Prop := String.leb a b = true.
#[export] Instance str_le_dec a b : Decision (str_le a b).
Proof. unfold str_le. apply _. Defined.
Definition sorted_list (l : list string) : list string := merge_sort str_le l.
