(* ===== verification/Calendar.v ===== *)
(** Datetimes and billing periods.

    A timezone-aware UTC [datetime] is its number of microseconds since
    0001-01-01T00:00; the calendar fields come from CPython's
    [_ord2ymd]/[_ymd2ord]. [period_end] is src/core/billing/periods.py. *)

From stdpp Require Import base list sets strings.
From Stdlib Require Import ZArith Lia.
From S2P Require Import Prelude Errors.

Local Open Scope Z_scope.

Abbreviation datetime := Z.

Definition SECOND : Z := 1000000.
Definition DAY : Z := 86400 * SECOND.
Definition timedelta_seconds (s : Z) : Z := s * SECOND.
Definition timedelta_days (d : Z) : Z := d * DAY.

Definition is_leap (y : Z) : bool :=
  (y mod 4 =? 0) && (negb (y mod 100 =? 0) || (y mod 400 =? 0)).

Definition month_days (leap : bool) (m : Z) : Z :=
  if m =? 2 then (if leap then 29 else 28)
  else if (m =? 4) || (m =? 6) || (m =? 9) || (m =? 11) then 30 else 31.

(** [calendar.monthrange(y, m)[1]] *)
Definition days_in_month (y m : Z) : Z := month_days (is_leap y) m.

Definition days_before_year (y : Z) : Z :=
  let y' := y - 1 in y' * 365 + y' / 4 - y' / 100 + y' / 400.

(** Cumulative days of the months before [m] (1-based). *)
Definition before_month (leap : bool) (m : Z) : Z :=
  nth (Z.to_nat m) [0; 0; 31; 59; 90; 120; 151; 181; 212; 243; 273; 304; 334] 0
  + (if (2 <? m) && leap then 1 else 0).

Definition ymd2ord (y m d : Z) : Z :=
  days_before_year y + before_month (is_leap y) m + d.

(** Month and day of the 0-based day [n] of a year. *)
Definition month_of_day (leap : bool) (n : Z) : Z * Z :=
  let month := Z.shiftr (n + 50) 5 in
  let preceding := before_month leap month in
  if n <? preceding then (month - 1, n - before_month leap (month - 1) + 1)
  else (month, n - preceding + 1).

Definition ord2ymd (ord : Z) : Z * Z * Z :=
  let n := ord - 1 in
  let n400 := n / 146097 in let n := n mod 146097 in
  let n100 := n / 36524 in let n := n mod 36524 in
  let n4 := n / 1461 in let n := n mod 1461 in
  let n1 := n / 365 in let n := n mod 365 in
  let y := n400 * 400 + 1 + n100 * 100 + n4 * 4 + n1 in
  if (n1 =? 4) || (n100 =? 4) then (y - 1, 12, 31)
  else
    let leap := (n1 =? 3) && (negb (n4 =? 24) || (n100 =? 3)) in
    let '(m, d) := month_of_day leap n in (y, m, d).

Definition valid_ymd (y m d : Z) : Prop := 1 <= m <= 12 /\ 1 <= d <= days_in_month y m.

Definition dt_ymd (t : datetime) : Z * Z * Z := ord2ymd (t / DAY + 1).

(** [t.replace(year=y, month=m, day=d)]; the year is limited to 1..9999. *)
Definition dt_replace (t : datetime) (y m d : Z) : res exn datetime :=
  if (y <? 1) || (9999 <? y) then Raise EValue
  else Ok ((ymd2ord y m d - 1) * DAY + t mod DAY).

(** ** src/core/billing/periods.py *)
Definition period_end (start : datetime) (period : string) : res exn datetime :=
  let '(y, m, d) := dt_ymd start in
  if bool_decide (period = "year") then
    let year := y + 1 in
    let day := Z.min d (days_in_month year m) in
    dt_replace start year m day
  else
    let month := m + 1 in
    let '(year, month) := if 12 <? month then (y + 1, 1) else (y, month) in
    let day := Z.min d (days_in_month year month) in
    dt_replace start year month day.

(** ** The calendar is exact *)

Lemma dby_decompose a b c d :
  0 <= b < 4 -> 0 <= c < 25 -> 0 <= d < 4 ->
  days_before_year (a * 400 + 1 + b * 100 + c * 4 + d) =
  146097 * a + 36524 * b + 1461 * c + 365 * d.
Proof.
  intros. unfold days_before_year.
  replace (a * 400 + 1 + b * 100 + c * 4 + d - 1) with (400 * a + 100 * b + 4 * c + d) by lia.
  assert ((400 * a + 100 * b + 4 * c + d) / 4 = 100 * a + 25 * b + c) as -> by
    (symmetry; apply Z.div_unique with d; lia).
  assert ((400 * a + 100 * b + 4 * c + d) / 100 = 4 * a + b) as -> by
    (symmetry; apply Z.div_unique with (4 * c + d); lia).
  assert ((400 * a + 100 * b + 4 * c + d) / 400 = a) as -> by
    (symmetry; apply Z.div_unique with (100 * b + 4 * c + d); lia).
  lia.
Qed.

Lemma leap_decompose a b c d :
  0 <= b < 4 -> 0 <= c < 25 -> 0 <= d < 4 ->
  is_leap (a * 400 + 1 + b * 100 + c * 4 + d) =
  (d =? 3) && (negb (c =? 24) || (b =? 3)).
Proof.
  intros. unfold is_leap. set (y := a * 400 + 1 + b * 100 + c * 4 + d).
  assert (H4 : y mod 4 = if d =? 3 then 0 else d + 1).
  { destruct (Z.eqb_spec d 3); symmetry;
      [apply Z.mod_unique with (100 * a + 25 * b + c + 1)
      |apply Z.mod_unique with (100 * a + 25 * b + c)]; lia. }
  assert (H100 : (y mod 100 =? 0) = (d =? 3) && (c =? 24)).
  { destruct (Z.eqb_spec d 3), (Z.eqb_spec c 24); simpl; apply Z.eqb_eq || apply Z.eqb_neq;
      try (symmetry; apply Z.mod_unique with (4 * a + b + 1); lia);
      intros E; rewrite <- (Z.mod_unique y 100 (4 * a + b) (4 * c + d + 1)) in E; lia. }
  assert (H400 : (y mod 400 =? 0) = (d =? 3) && (c =? 24) && (b =? 3)).
  { destruct (Z.eqb_spec d 3), (Z.eqb_spec c 24), (Z.eqb_spec b 3); simpl;
      apply Z.eqb_eq || apply Z.eqb_neq;
      try (symmetry; apply Z.mod_unique with (a + 1); lia);
      intros E; rewrite <- (Z.mod_unique y 400 a (100 * b + 4 * c + d + 1)) in E; lia. }
  rewrite H4, H100, H400.
  destruct (Z.eqb_spec d 3), (Z.eqb_spec c 24), (Z.eqb_spec b 3); simpl;
    try done; destruct (Z.eqb_spec (d + 1) 0); try done; lia.
Qed.

Definition day_ok (leap : bool) (n : Z) : bool :=
  let '(m, d) := month_of_day leap n in
  (1 <=? m) && (m <=? 12) && (1 <=? d) && (d <=? month_days leap m)
  && (before_month leap m + d =? n + 1).

Lemma day_ok_all (leap : bool) :
  forallb (fun k => day_ok leap (Z.of_nat k)) (seq 0 (if leap then 366%nat else 365%nat)) = true.
Proof. destruct leap; vm_compute; reflexivity. Qed.

Lemma month_of_day_spec (leap : bool) (n m d : Z) :
  0 <= n < (if leap then 366 else 365) -> month_of_day leap n = (m, d) ->
  (1 <= m <= 12) /\ (1 <= d <= month_days leap m) /\ before_month leap m + d = n + 1.
Proof.
  intros Hn E. pose proof (day_ok_all leap) as H. rewrite forallb_forall in H.
  specialize (H (Z.to_nat n)). rewrite Z2Nat.id in H by lia.
  assert (day_ok leap n = true) as Hd.
  { apply H, in_seq. destruct leap; lia. }
  unfold day_ok in Hd. rewrite E in Hd. lia.
Qed.

Lemma ord2ymd_spec ord y m d :
  1 <= ord -> ord2ymd ord = (y, m, d) -> valid_ymd y m d /\ ymd2ord y m d = ord.
Proof.
  intros Ho E. unfold ord2ymd in E.
  set (n := ord - 1) in E.
  pose proof (Z.div_mod n 146097 ltac:(lia)) as D1.
  pose proof (Z.mod_pos_bound n 146097 ltac:(lia)) as B1.
  set (a := n / 146097) in *. set (r := n mod 146097) in *.
  pose proof (Z.div_mod r 36524 ltac:(lia)) as D2.
  pose proof (Z.mod_pos_bound r 36524 ltac:(lia)) as B2.
  set (b := r / 36524) in *. set (r2 := r mod 36524) in *.
  pose proof (Z.div_mod r2 1461 ltac:(lia)) as D3.
  pose proof (Z.mod_pos_bound r2 1461 ltac:(lia)) as B3.
  set (c := r2 / 1461) in *. set (r3 := r2 mod 1461) in *.
  pose proof (Z.div_mod r3 365 ltac:(lia)) as D4.
  pose proof (Z.mod_pos_bound r3 365 ltac:(lia)) as B4.
  set (e := r3 / 365) in *. set (r4 := r3 mod 365) in *.
  assert (0 <= b <= 4 /\ 0 <= c <= 24 /\ 0 <= e <= 4) as (Hb & Hc & He) by lia.
  clearbody a b c e r r2 r3 r4.
  destruct (Z.eqb_spec e 4) as [He4|He4]; [|destruct (Z.eqb_spec b 4) as [Hb4|Hb4]];
    simpl in E.
  - injection E as <- <- <-. assert (r4 = 0) by lia.
    replace (a * 400 + 1 + b * 100 + c * 4 + e - 1) with (a * 400 + 1 + b * 100 + c * 4 + 3) by lia.
    assert (b < 4) by lia.
    unfold valid_ymd, ymd2ord, days_in_month. rewrite dby_decompose, leap_decompose by lia.
    assert (Hl : negb (c =? 24) || (b =? 3) = true) by lia.
    rewrite Hl. split; [by vm_compute|].
    change (before_month _ 12) with 335. subst n. lia.
  - injection E as <- <- <-. assert (r2 = 0 /\ r3 = 0 /\ r4 = 0 /\ c = 0 /\ e = 0) by lia.
    replace (a * 400 + 1 + b * 100 + c * 4 + e - 1) with (a * 400 + 1 + 3 * 100 + 24 * 4 + 3) by lia.
    unfold valid_ymd, ymd2ord, days_in_month. rewrite dby_decompose, leap_decompose by lia.
    split; [by vm_compute|].
    change (before_month _ 12) with 335. subst n. lia.
  - destruct (month_of_day _ r4) as [m' d'] eqn:Em in E. injection E as <- <- <-.
    rewrite <- (leap_decompose a b c e) in Em by lia.
    apply month_of_day_spec in Em; [|destruct (is_leap _); lia].
    unfold valid_ymd, ymd2ord, days_in_month. rewrite dby_decompose by lia.
    subst n. lia.
Qed.

(** ** Lengths of months and years *)

Definition year_days (leap : bool) : Z := if leap then 366 else 365.

Lemma days_before_year_succ y : days_before_year (y + 1) = days_before_year y + year_days (is_leap y).
Proof.
  unfold days_before_year, is_leap, year_days.
  replace (y + 1 - 1) with y by lia.
  pose proof (Z.div_mod (y - 1) 4 ltac:(lia)). pose proof (Z.mod_pos_bound (y - 1) 4 ltac:(lia)).
  pose proof (Z.div_mod (y - 1) 100 ltac:(lia)). pose proof (Z.mod_pos_bound (y - 1) 100 ltac:(lia)).
  pose proof (Z.div_mod (y - 1) 400 ltac:(lia)). pose proof (Z.mod_pos_bound (y - 1) 400 ltac:(lia)).
  pose proof (Z.div_mod y 4 ltac:(lia)). pose proof (Z.mod_pos_bound y 4 ltac:(lia)).
  pose proof (Z.div_mod y 100 ltac:(lia)). pose proof (Z.mod_pos_bound y 100 ltac:(lia)).
  pose proof (Z.div_mod y 400 ltac:(lia)). pose proof (Z.mod_pos_bound y 400 ltac:(lia)).
  destruct (Z.eqb_spec (y mod 4) 0), (Z.eqb_spec (y mod 100) 0), (Z.eqb_spec (y mod 400) 0);
    simpl; lia.
Qed.

Lemma month_range m : 1 <= m <= 12 -> m ∈ [1; 2; 3; 4; 5; 6; 7; 8; 9; 10; 11; 12].
Proof.
  intros. assert (m = 1 \/ m = 2 \/ m = 3 \/ m = 4 \/ m = 5 \/ m = 6 \/ m = 7 \/ m = 8
    \/ m = 9 \/ m = 10 \/ m = 11 \/ m = 12) by lia. set_solver.
Qed.

Lemma before_month_succ leap m : 1 <= m < 12 ->
  before_month leap (m + 1) = before_month leap m + month_days leap m.
Proof.
  intros H. assert (Hm : m ∈ [1; 2; 3; 4; 5; 6; 7; 8; 9; 10; 11; 12]) by (apply month_range; lia).
  revert m Hm H. apply (Forall_forall (fun m => 1 <= m < 12 -> _)).
  destruct leap; repeat constructor; intros; try reflexivity; lia.
Qed.

Lemma month_days_bounds leap m : 28 <= month_days leap m <= 31.
Proof. unfold month_days. destruct leap; repeat case_match; lia. Qed.

Lemma before_month_leap leap m : 1 <= m <= 12 ->
  before_month leap m = before_month false m + (if (2 <? m) && leap then 1 else 0).
Proof. intros. unfold before_month. rewrite andb_false_r. lia. Qed.

(** First of the month after (y, m). *)
Lemma next_month_first y m : 1 <= m <= 12 ->
  ymd2ord (if 12 <? m + 1 then y + 1 else y) (if 12 <? m + 1 then 1 else m + 1) 1 =
  ymd2ord y m 1 + days_in_month y m.
Proof.
  intros Hm. unfold ymd2ord, days_in_month. destruct (Z.ltb_spec 12 (m + 1)).
  - assert (m = 12) as -> by lia. rewrite days_before_year_succ.
    unfold year_days. destruct (is_leap y), (is_leap (y + 1)); vm_compute (before_month _ _);
      vm_compute (month_days _ _); lia.
  - rewrite before_month_succ by lia. lia.
Qed.

Lemma ymd2ord_day y m d : ymd2ord y m d = ymd2ord y m 1 + d - 1.
Proof. unfold ymd2ord. lia. Qed.

(** Adding a month (day clamped) advances by 28 to 31 days. *)
Lemma add_month_days y m d y' m' :
  valid_ymd y m d -> (y', m') = (if 12 <? m + 1 then (y + 1, 1) else (y, m + 1)) ->
  28 <= ymd2ord y' m' (Z.min d (days_in_month y' m')) - ymd2ord y m d <= 31.
Proof.
  intros [Hm Hd] E. pose proof (next_month_first y m Hm) as F.
  assert (y' = (if 12 <? m + 1 then y + 1 else y) /\ m' = if 12 <? m + 1 then 1 else m + 1)
    as [-> ->] by (destruct (12 <? m + 1); by injection E as -> ->).
  set (y' := if 12 <? m + 1 then y + 1 else y) in *.
  set (m' := if 12 <? m + 1 then 1 else m + 1) in *.
  rewrite (ymd2ord_day y' m' (Z.min _ _)), (ymd2ord_day y m d), F.
  pose proof (month_days_bounds (is_leap y) m). pose proof (month_days_bounds (is_leap y') m').
  unfold days_in_month in *. lia.
Qed.

(** Adding a year (Feb 29 clamped) advances by 365 or 366 days. *)
Lemma add_year_days y m d :
  valid_ymd y m d ->
  365 <= ymd2ord (y + 1) m (Z.min d (days_in_month (y + 1) m)) - ymd2ord y m d <= 366.
Proof.
  intros [Hm Hd]. unfold ymd2ord. rewrite days_before_year_succ.
  rewrite (before_month_leap (is_leap y)), (before_month_leap (is_leap (y + 1))) by lia.
  assert (Hl : is_leap y = true -> is_leap (y + 1) = false).
  { unfold is_leap. pose proof (Z.div_mod y 4 ltac:(lia)). pose proof (Z.mod_pos_bound y 4 ltac:(lia)).
    intros Hy. assert (y mod 4 = 0) by lia.
    rewrite <- (Z.mod_unique (y + 1) 4 (y / 4) 1) by lia. reflexivity. }
  unfold days_in_month, month_days, year_days in *.
  destruct (is_leap y), (is_leap (y + 1)); try (specialize (Hl eq_refl); discriminate);
    destruct (Z.ltb_spec 2 m), (Z.eqb_spec m 2); simpl; try lia.
Qed.

Lemma DAY_pos : 0 < DAY.
Proof. done. Qed.

(** The end of a period, when the calendar year stays within 9999: the time
    of day is kept and the date advances by a whole number of days. *)
Lemma period_end_days start period e :
  0 <= start -> period_end start period = Ok e ->
  exists k, e = start + k * DAY /\
    (if bool_decide (period = "year") then 365 <= k <= 366 else 28 <= k <= 31).
Proof.
  intros Hs E. unfold period_end in E.
  destruct (dt_ymd start) as [[y m] d] eqn:Ey. unfold dt_ymd in Ey.
  apply ord2ymd_spec in Ey as [Hv Ho]; [|pose proof (Z.div_pos start DAY Hs DAY_pos); lia].
  pose proof (Z.div_mod start DAY ltac:(pose DAY_pos; lia)) as Hdm.
  assert (Hr : forall y' m' d', dt_replace start y' m' d' = Ok e ->
            e = start + (ymd2ord y' m' d' - ymd2ord y m d) * DAY).
  { intros y' m' d'. unfold dt_replace. destruct (_ || _); [discriminate|]. intros [= <-].
    rewrite Ho. nia. }
  destruct (bool_decide (period = "year")).
  - exists (ymd2ord (y + 1) m (Z.min d (days_in_month (y + 1) m)) - ymd2ord y m d).
    split; [by apply Hr|by apply add_year_days].
  - destruct (if 12 <? m + 1 then (y + 1, 1) else (y, m + 1)) as [y' m'] eqn:Em.
    exists (ymd2ord y' m' (Z.min d (days_in_month y' m')) - ymd2ord y m d).
    split; [by apply Hr|by apply add_month_days].
Qed.

(** A period never shrinks: it lasts at least 28 days. *)
Lemma period_end_progress start period e :
  0 <= start -> period_end start period = Ok e -> start + 28 * DAY <= e.
Proof.
  intros Hs E. apply period_end_days in E as (k & -> & Hk); [|done].
  pose proof DAY_pos. destruct (bool_decide _); nia.
Qed.

(** ** Periods are total before the last calendar year *)

Lemma days_before_year_mono y z : y <= z -> days_before_year y <= days_before_year z.
Proof. unfold days_before_year. intros H. Z.to_euclidean_division_equations. lia. Qed.

Lemma ymd2ord_upper y m d : valid_ymd y m d -> ymd2ord y m d <= days_before_year (y + 1).
Proof.
  intros [Hm Hd]. rewrite days_before_year_succ. unfold ymd2ord, days_in_month in *.
  assert (before_month (is_leap y) m + month_days (is_leap y) m <= year_days (is_leap y)); [|lia].
  apply month_range in Hm. clear Hd.
  destruct (is_leap y); repeat (apply elem_of_cons in Hm as [->|Hm]; [done|]);
    by apply elem_of_nil in Hm.
Qed.

Lemma before_month_nonneg leap m : 1 <= m <= 12 -> 0 <= before_month leap m.
Proof.
  intros Hm%month_range.
  destruct leap; repeat (apply elem_of_cons in Hm as [->|Hm]; [done|]); by apply elem_of_nil in Hm.
Qed.

(** Midnight of 1 January 9999. *)
Definition LAST_YEAR : datetime := days_before_year 9999 * DAY.

Lemma period_end_total start period :
  0 <= start < LAST_YEAR -> exists e, period_end start period = Ok e.
Proof.
  intros [Hs Hl]. unfold period_end.
  destruct (dt_ymd start) as [[y m] d] eqn:Ey. unfold dt_ymd in Ey.
  pose proof (Z.div_pos start DAY Hs DAY_pos) as Hd.
  pose proof (Z.div_lt_upper_bound start DAY (days_before_year 9999) DAY_pos
    ltac:(unfold LAST_YEAR in Hl; lia)) as Hu.
  apply ord2ymd_spec in Ey as [Hv Ho]; [|lia].
  pose proof (ymd2ord_upper _ _ _ Hv) as Hup. destruct Hv as [Hm Hdd].
  pose proof (before_month_nonneg (is_leap y) m Hm) as Hb.
  assert (Hlo : 1 <= y).
  { destruct (Z_lt_le_dec y 1); [|done].
    pose proof (days_before_year_mono (y + 1) 1 ltac:(lia)). change (days_before_year 1) with 0 in *.
    lia. }
  assert (Hhi : y < 9999).
  { destruct (Z_lt_le_dec y 9999); [done|].
    pose proof (days_before_year_mono 9999 y ltac:(lia)). unfold ymd2ord in Ho. lia. }
  assert (Hr : forall y' m' d', y' = y \/ y' = y + 1 ->
            exists e, dt_replace start y' m' d' = Ok e).
  { intros y' m' d' Hy. unfold dt_replace.
    destruct (Z.ltb_spec y' 1), (Z.ltb_spec 9999 y'); simpl; eauto; lia. }
  destruct (bool_decide _); [apply Hr; lia|].
  destruct (12 <? m + 1); apply Hr; lia.
Qed.
