(* ===== verification/Loader.v ===== *)
(** Features and their dependencies: src/modules/loader.py and
    src/tools/add_feature.py.

    The disk and the TOML parser are parameters ([Disk]). A dictionary is an
    association list in insertion order. *)

From stdpp Require Import base strings gmap list sorting relations.
From Stdlib Require Import ZArith Lia Ascii.
From S2P Require Import Prelude Errors PyLib.

(** ** Manifests *)

Definition CORE_MODULES : list string :=
  ["auth"; "tenants"; "billing"; "notifications"; "audit"; "admin"; "files"].

Definition EFeature (msg : string) : exn := EOther ("FeatureError: " +:+ msg).

Record FeatureManifest : Set := mkManifest {
  fm_name : string; fm_module : string; fm_feature : string; fm_path : string;
  fm_description : string; fm_requires_features : list string; fm_requires_core : list string;
  fm_owns_tables : list string; fm_publishes_events : list string; fm_listens_events : list string }.

Definition fm_package (m : FeatureManifest) : string :=
  "modules." +:+ fm_module m +:+ "." +:+ fm_feature m.

(** What the code asks of the disk: directories, their entries by name, texts;
    [tomllib.loads] (None: TOMLDecodeError) and [str(v)] of a parsed value. *)
Record Disk : Type := mkDisk {
  is_dir : string -> bool;
  iterdir : string -> list string;
  read_text : string -> option string;
  toml_loads : string -> option (list (string * json));
  toml_str : json -> string }.

Definition path_join (a b : string) : string := a +:+ "/" +:+ b.

Fixpoint str_items (l : list json) : option (list string) :=
  match l with
  | [] => Some []
  | JStr s :: l' => r ← str_items l'; Some (s :: r)
  | _ :: _ => None
  end.

(** [_as_str_tuple] *)
Definition as_str_tuple (value : option json) (key name : string) : res exn (list string) :=
  let bad := Raise (EFeature ("feature '" +:+ name +:+ "': " +:+ key +:+ " must be a list of strings")) in
  match value with
  | None | Some JNull => Ok []
  | Some (JList l) => match str_items l with Some r => Ok r | None => bad end
  | Some _ => bad
  end.

Definition manifest_path (dir : string) : string := path_join dir "feature.toml".

(** [read_manifest]; the directory is [modules/<module>/<feature>]. *)
Definition read_manifest (disk : Disk) (module_dir module feature : string)
    : res exn FeatureManifest :=
  let dir := path_join module_dir feature in
  match read_text disk (manifest_path dir) with
  | None => Raise (EFeature ("no feature.toml in " +:+ dir))
  | Some text =>
      match toml_loads disk text with
      | None => Raise (EFeature ("malformed " +:+ manifest_path dir))
      | Some data =>
          let expected := module +:+ "." +:+ feature in
          if negb (match assoc "name" data with
                   | Some (JStr n) => bool_decide (n = expected) | _ => false end)
          then Raise (EFeature ("feature.toml name must equal '" +:+ expected +:+ "'"))
          else
            let field key := as_str_tuple (assoc key data) key expected in
            rbind (field "requires_features") (fun rf =>
            rbind (field "requires_core") (fun rc =>
            rbind (field "owns_tables") (fun ot =>
            rbind (field "publishes_events") (fun pe =>
            rbind (field "listens_events") (fun le =>
            Ok (mkManifest expected module feature dir
                  (match assoc "description" data with Some v => toml_str disk v | None => "" end)
                  rf rc ot pe le))))))
      end
  end.

(** The manifests by name, in the order they were found. *)
Definition Manifests : Type := list (string * FeatureManifest).

Fixpoint read_features (disk : Disk) (module_dir module : string) (features : list string)
    (acc : Manifests) : res exn Manifests :=
  match features with
  | [] => Ok acc
  | f :: rest =>
      rbind (read_manifest disk module_dir module f) (fun m =>
        read_features disk module_dir module rest (dict_set (fm_name m) m acc))
  end.

(** [discover_manifests] *)
Fixpoint discover (disk : Disk) (root : string) (modules : list string) (acc : Manifests)
    : res exn Manifests :=
  match modules with
  | [] => Ok acc
  | m :: rest =>
      let dir := path_join (path_join root "modules") m in
      if negb (is_dir disk dir)
      then Raise (EFeature ("ENABLED_MODULES lists '" +:+ m +:+ "', but modules/" +:+ m +:+ " does not exist"))
      else
        let features := sorted_list (List.filter (fun f => bool_decide (is_Some
          (read_text disk (manifest_path (path_join dir f))))) (iterdir disk dir)) in
        rbind (read_features disk dir m features acc) (discover disk root rest)
  end.
Definition discover_manifests (disk : Disk) (root : string) (enabled_modules : list string)
    : res exn Manifests := discover disk root enabled_modules [].

(** ** Dependencies *)

Definition names (ms : Manifests) : list string := ms.*1.
Definition is_name (ms : Manifests) (n : string) : bool := bool_decide (n ∈ names ms).

(** The problems of one manifest. *)
Definition manifest_problems (ms : Manifests) (m : FeatureManifest) : list string :=
  ((fun r => fm_name m +:+ " requires feature '" +:+ r +:+ "', which is not installed") <$>
     List.filter (fun r => negb (is_name ms r)) (fm_requires_features m))
  ++ ((fun r => fm_name m +:+ " requires core '" +:+ r +:+ "', which is not a core module") <$>
     List.filter (fun r => negb (bool_decide (r ∈ CORE_MODULES))) (fm_requires_core m)).

(** A line "- problem" for each. *)
Definition mjoin_lines (l : list string) : string :=
  String.concat "" ((fun p => String newline ("- " +:+ p)) <$> l).

(** [validate_dependencies] *)
Definition validate_dependencies (ms : Manifests) : res exn unit :=
  match concat ((fun e => manifest_problems ms e.2) <$> ms) with
  | [] => Ok tt
  | problems => Raise (EFeature ("Unsatisfied feature dependencies:" +:+ mjoin_lines problems))
  end.

(** The features none of whose requirements is still to be installed. *)
Definition ready (remaining : Manifests) : list string :=
  sorted_list (names (List.filter (fun e =>
    forallb (fun dep => negb (is_name remaining dep)) (fm_requires_features e.2)) remaining)).

Definition drop_all (done : list string) (remaining : Manifests) : Manifests :=
  List.filter (fun e => negb (bool_decide (e.1 ∈ done))) remaining.

(** The loop of [installation_order]; a round that does not stop installs at
    least one feature, so as many rounds as features are enough. *)
Fixpoint order_loop (fuel : nat) (remaining : Manifests) (ordered : list string)
    : res exn (list string) :=
  match remaining with
  | [] => Ok ordered
  | _ =>
      match fuel with
      | O => Raise (EOther "out of fuel")
      | S n =>
          match ready remaining with
          | [] => Raise (EFeature ("cyclic feature dependencies among: "
                    +:+ String.concat ", " (sorted_list (names remaining))))
          | now => order_loop n (drop_all now remaining) (ordered ++ now)
          end
      end
  end.
Definition installation_order (ms : Manifests) : res exn (list string) :=
  order_loop (length ms) ms [].

(** [_ordered_manifests] of src/app/features.py, as names *)
Definition ordered_features (disk : Disk) (root : string) (enabled : list string)
    : res exn (list string) :=
  rbind (discover_manifests disk root enabled) (fun ms =>
  rbind (validate_dependencies ms) (fun _ => installation_order ms)).

(** ** src/tools/add_feature.py *)

(** [_resolve_chain]: [visit] with the set and the order it fills. The set
    grows with every call that goes on, so one more call than there are
    features is enough. *)
Definition requires (ms : Manifests) (n : string) : list string :=
  match assoc n ms with Some m => fm_requires_features m | None => [] end.

(** [for dep in manifests[name].requires_features] *)
Fixpoint visit_deps (ms : Manifests)
    (go : string -> list string * list string -> res exn (list string * list string))
    (name : string) (deps : list string) (st : list string * list string)
    : res exn (list string * list string) :=
  match deps with
  | [] => Ok st
  | dep :: rest =>
      if negb (is_name ms dep)
      then Raise (EFeature (name +:+ " requires '" +:+ dep +:+ "', which is missing from the source"))
      else rbind (go dep st) (visit_deps ms go name rest)
  end.

Fixpoint visit (ms : Manifests) (fuel : nat) (name : string) (st : list string * list string)
    : res exn (list string * list string) :=
  if bool_decide (name ∈ st.1) then Ok st
  else match fuel with
  | O => Raise (EOther "out of fuel")
  | S n =>
      rbind (visit_deps ms (visit ms n) name (requires ms name) (name :: st.1, st.2))
        (fun st' => Ok (st'.1, st'.2 ++ [name]))
  end.

Definition resolve_chain (feature : string) (ms : Manifests) : res exn (list string) :=
  if negb (is_name ms feature)
  then Raise (EFeature ("unknown feature '" +:+ feature +:+ "' in the source project"))
  else rbind (visit ms (length ms) feature ([], [])) (fun st => Ok st.2).

(** [_module_names]: the folders of modules/ that hold a feature. *)
Definition module_names (disk : Disk) (source_root : string) : list string :=
  let root := path_join source_root "modules" in
  List.filter (fun module =>
    let path := path_join root module in
    is_dir disk path &&
    existsb (fun sub => is_dir disk (path_join path sub)
                        && bool_decide (is_Some (read_text disk (manifest_path (path_join path sub)))))
      (iterdir disk path)) (iterdir disk root).

(** The target project: its core modules, its features with what their folders
    hold, and the [__init__.py] files of modules/ and modules/<module>/. *)
Record Target : Type := mkTarget {
  tg_core : list string; tg_features : gmap string string; tg_inits : gmap string string }.

(** [_require_core] *)
Definition require_core (target : Target) (chain : list FeatureManifest) : res exn unit :=
  match sorted_list (remove_dups (List.filter (fun c => negb (bool_decide (c ∈ tg_core target)))
          (concat (fm_requires_core <$> chain)))) with
  | [] => Ok tt
  | missing => Raise (EFeature ("target project lacks required core module(s): "
                 +:+ String.concat ", " missing))
  end.

(** [_ensure_package]: [init] reads an [__init__.py] of the source. *)
Definition package_dirs (module : string) : list string := ["modules"; path_join "modules" module].
Definition ensure_package (init : string -> option string) (module : string) (inits : gmap string string)
    : gmap string string :=
  foldl (fun acc dir => match init dir, acc !! dir with
                        | Some text, None => <[dir := text]> acc
                        | _, _ => acc
                        end) inits (package_dirs module).

Definition module_of (ms : Manifests) (name : string) : string :=
  match assoc name ms with Some m => fm_module m | None => "" end.

(** [shutil.rmtree(dest)]; [_ensure_package] and [shutil.copytree]: [source]
    is what the folders of the source hold, less what [_IGNORE] names. *)
Definition remove_feature (name : string) (t : Target) : Target :=
  mkTarget (tg_core t) (delete name (tg_features t)) (tg_inits t).
Definition copy_feature (ms : Manifests) (source : string -> string) (init : string -> option string)
    (name : string) (t : Target) : Target :=
  mkTarget (tg_core t) (<[name := source name]> (tg_features t))
    (ensure_package init (module_of ms name) (tg_inits t)).

(** The loop of [add_feature]: the target so far and the features copied. *)
Fixpoint copy_chain (ms : Manifests) (source : string -> string) (init : string -> option string)
    (feature : string) (force : bool) (chain : list string) (target : Target) (copied : list string)
    : res exn (list string) * Target :=
  match chain with
  | [] => (Ok copied, target)
  | name :: rest =>
      let go t := copy_chain ms source init feature force rest (copy_feature ms source init name t)
                    (copied ++ [name]) in
      match tg_features target !! name with
      | Some _ =>
          if negb (bool_decide (name = feature))
          then copy_chain ms source init feature force rest target copied
          else if negb force
          then (Raise (EFeature (name +:+ " already exists (use --force to overwrite)")), target)
          else go (remove_feature name target)
      | None => go target
      end
  end.

Definition add_feature (disk : Disk) (source_root : string) (source : string -> string)
    (init : string -> option string) (same_project : bool) (feature : string) (force : bool) (target : Target)
    : res exn (list string) * Target :=
  if same_project then (Raise (EFeature "target is the source project itself; nothing to copy"), target)
  else match rbind (discover_manifests disk source_root (module_names disk source_root)) (fun ms =>
               rbind (resolve_chain feature ms) (fun chain =>
               rbind (require_core target (omap (fun n => assoc n ms) chain)) (fun _ => Ok (ms, chain)))) with
  | Raise e => (Raise e, target)
  | Ok (ms, chain) => copy_chain ms source init feature force chain target []
  end.

(** [main], after its arguments are parsed: the exit code and what is printed. *)
Definition feature_error (e : exn) : option string :=
  match e with
  | EOther text => if startswith text "FeatureError: " then Some (str_drop 14 text) else None
  | _ => None
  end.

Definition add_feature_main (disk : Disk) (source_root : string) (source : string -> string)
    (init : string -> option string) (same_project : bool) (feature : string) (force : bool) (target : Target)
    : res exn (Z * list string) * Target :=
  match add_feature disk source_root source init same_project feature force target with
  | (Raise e, target') =>
      (match feature_error e with
       | Some text => Ok (1%Z, ["error: " +:+ text])
       | None => Raise e
       end, target')
  | (Ok chain, target') =>
      let module := match split "." feature with m :: _ => m | [] => "" end in
      (Ok (0%Z, ["Copied features (install order):"] ++ ((fun name => "  - " +:+ name) <$> chain) ++
             [String newline "Next steps in the target project:";
              "  1. add '" +:+ module +:+ "' to ENABLED_MODULES";
              "  2. run: python -m migrations.cli upgrade heads"]), target')
  end.

(** Facts about the loader: the installation order respects dependencies and
    fails on cycles only; the chain of a feature is what it requires. *)

(** ** The installation order *)

(** [a] comes before [b]. *)
Definition before (l : list string) (a b : string) : Prop :=
  exists l1 l2, l = l1 ++ b :: l2 /\ a ∈ l1.

Lemma before_app l l' a b : before l a b -> before (l ++ l') a b.
Proof. intros (l1 & l2 & -> & Ha). exists l1, (l2 ++ l'). by rewrite <- app_assoc. Qed.

Lemma sorted_perm l : sorted_list l ≡ₚ l.
Proof. apply merge_sort_Permutation. Qed.

Lemma is_name_true ms n : is_name ms n = true <-> n ∈ names ms.
Proof. apply bool_decide_eq_true. Qed.

Lemma elem_of_names (ms : Manifests) n : n ∈ names ms <-> exists m, (n, m) ∈ ms.
Proof.
  unfold names. rewrite list_elem_of_fmap. split.
  - intros ([n' m] & -> & H). by exists m.
  - intros (m & H). by exists (n, m).
Qed.

Lemma elem_of_filter_b {A} (p : A -> bool) l x : x ∈ List.filter p l <-> x ∈ l /\ p x = true.
Proof. rewrite !list_elem_of_In. apply List.filter_In. Qed.

Lemma names_filter_NoDup (p : string * FeatureManifest -> bool) ms :
  NoDup (names ms) -> NoDup (names (List.filter p ms)).
Proof.
  induction ms as [|[n m] ms IH]; simpl; [done|]. intros [Hn Hd]%NoDup_cons.
  destruct (p (n, m)); [|by apply IH]. apply NoDup_cons. split; [|by apply IH].
  intros (m' & [H _]%elem_of_filter_b)%elem_of_names. apply Hn, elem_of_names. eauto.
Qed.

Lemma elem_of_ready rem n :
  n ∈ ready rem <-> exists m, (n, m) ∈ rem /\ forall d, d ∈ fm_requires_features m -> d ∉ names rem.
Proof.
  unfold ready. rewrite sorted_perm, elem_of_names. apply exist_proper. intros m.
  rewrite elem_of_filter_b, forallb_forall. simpl. apply and_iff_compat_l. split.
  - intros H d Hd Hn. specialize (H d). rewrite <- list_elem_of_In in H.
    apply is_name_true in Hn. rewrite Hn in H. by apply H in Hd.
  - intros H d Hd%list_elem_of_In. apply negb_true_iff, bool_decide_eq_false. auto.
Qed.

Lemma elem_of_drop done rem n : n ∈ names (drop_all done rem) <-> n ∈ names rem /\ n ∉ done.
Proof.
  unfold drop_all. rewrite !elem_of_names. split.
  - intros (m & [H Hd%negb_true_iff%bool_decide_eq_false]%elem_of_filter_b). simpl in Hd. eauto.
  - intros [(m & H) Hd]. exists m. apply elem_of_filter_b. split; [done|].
    by apply negb_true_iff, bool_decide_eq_false.
Qed.

(** One round splits what remains. *)
Lemma round_perm rem :
  NoDup (names rem) -> names rem ≡ₚ ready rem ++ names (drop_all (ready rem) rem).
Proof.
  intros Hd. assert (Hr : NoDup (ready rem)).
  { unfold ready. rewrite sorted_perm. by apply names_filter_NoDup. }
  apply NoDup_Permutation; [done| |].
  - apply NoDup_app. split; [done|]. split; [|by apply names_filter_NoDup].
    intros n Hn [_ Hx]%elem_of_drop. done.
  - intros n. rewrite elem_of_app, elem_of_drop. split.
    + intros Hn. destruct (decide (n ∈ ready rem)); auto.
    + intros [(m & Hm & _)%elem_of_ready|[? _]]; [|done]. apply elem_of_names. eauto.
Qed.

(** Every feature once, each after what it requires. *)
Definition topological (ms : Manifests) (order : list string) : Prop :=
  order ≡ₚ names ms /\
  forall n m d, (n, m) ∈ ms -> d ∈ fm_requires_features m -> d ∈ names ms -> before order d n.

(** A set of features each of which requires one of the set. *)
Definition cyclic (ms : Manifests) (c : list string) : Prop :=
  c ≠ [] /\ forall n, n ∈ c -> exists m d, (n, m) ∈ ms /\ d ∈ fm_requires_features m /\ d ∈ c.

(** What was ordered so far is in order, the rest remains. *)
Definition ordering (ms rem : Manifests) (ordered : list string) : Prop :=
  NoDup (names rem) /\ (forall e, e ∈ rem -> e ∈ ms) /\ ordered ++ names rem ≡ₚ names ms /\
  forall n m d, (n, m) ∈ ms -> n ∈ ordered -> d ∈ fm_requires_features m -> d ∈ names ms ->
    before ordered d n.

Lemma ordering_round ms rem ordered :
  NoDup (names ms) -> ordering ms rem ordered ->
  ordering ms (drop_all (ready rem) rem) (ordered ++ ready rem).
Proof.
  intros Hms (Hd & Hsub & Hp & Hb). split; [by apply names_filter_NoDup|].
  split; [intros e [He _]%elem_of_filter_b; by apply Hsub|].
  split; [by rewrite <- app_assoc, <- round_perm|].
  intros n m d Hm Hn Hdep Hdn. apply elem_of_app in Hn as [Hn|Hn]; [by eapply before_app, Hb|].
  pose proof Hn as (m' & Hm' & Hfree)%elem_of_ready.
  assert (m' = m) as ->.
  { apply Hsub in Hm'. apply list_elem_of_lookup in Hm as [i Hi]. apply list_elem_of_lookup in Hm' as [j Hj].
    assert (i = j) as ->.
    { eapply (NoDup_lookup _ i j n); [exact Hms| |]; unfold names; rewrite list_lookup_fmap;
        [by rewrite Hi|by rewrite Hj]. }
    congruence. }
  apply list_elem_of_split in Hn as (l1 & l2 & ->). exists (ordered ++ l1), l2.
  split; [by rewrite <- app_assoc|]. apply elem_of_app. left.
  rewrite <- Hp, elem_of_app in Hdn. destruct Hdn as [?|Hx]; [done|]. by apply Hfree in Hx.
Qed.

Lemma order_loop_spec ms fuel : forall rem ordered,
  NoDup (names ms) -> ordering ms rem ordered -> (length rem <= fuel)%nat ->
  match order_loop fuel rem ordered with
  | Ok order => topological ms order
  | Raise _ => exists c, (forall n, n ∈ c -> n ∈ names ms) /\ cyclic ms c
  end.
Proof.
  induction fuel as [|fuel IH]; intros rem ordered Hms Ho Hf.
  { destruct rem; [|simpl in Hf; lia]. destruct Ho as (_ & _ & Hp & Hb). simpl in *.
    rewrite app_nil_r in Hp. split; [done|]. intros n m d Hm. apply Hb; [done|].
    rewrite Hp. apply elem_of_names. eauto. }
  destruct rem as [|e rem'].
  { destruct Ho as (_ & _ & Hp & Hb). simpl in *. rewrite app_nil_r in Hp. split; [done|].
    intros n m d Hm. apply Hb; [done|]. rewrite Hp. apply elem_of_names. eauto. }
  cbn [order_loop]. set (rem := e :: rem') in *. destruct (ready rem) as [|x now] eqn:Ey.
  - destruct Ho as (_ & Hsub & Hp & _). exists (names rem).
    split; [intros n Hn; rewrite <- Hp, elem_of_app; auto|]. split; [done|].
    intros n (m & Hm)%elem_of_names. exists m.
    destruct (decide (Forall (fun d => d ∉ names rem) (fm_requires_features m))) as [Hall|Hno].
    + exfalso. assert (n ∈ ready rem) as Hx; [|by rewrite Ey in Hx; apply elem_of_nil in Hx].
      apply elem_of_ready. exists m. split; [done|]. by apply Forall_forall.
    + apply not_Forall_Exists in Hno; [|apply _]. apply Exists_exists in Hno as (d & Hd & Hdn).
      exists d. split; [by apply Hsub|]. split; [done|]. by apply dec_stable in Hdn.
  - rewrite <- Ey. apply IH; [done|by apply ordering_round|].
    destruct Ho as (Hd & _). pose proof (round_perm rem Hd) as Hp.
    apply Permutation_length in Hp. rewrite length_app, Ey in Hp. unfold names in Hp.
    rewrite !length_fmap in Hp. rewrite Ey. cbn [length] in Hp. lia.
Qed.

(** ** The chain of a feature *)

(** [b] is [a] or something [a] requires, directly or not. *)
Definition needs (ms : Manifests) : string -> string -> Prop := rtc (fun a b => b ∈ requires ms a).

(** A requirement of something [a] needs that is nowhere to be found. *)
Definition missing (ms : Manifests) (a : string) : Prop :=
  exists x d, needs ms a x /\ d ∈ requires ms x /\ d ∉ names ms.

Section Chain.
Context (ms : Manifests).

(** The features seen so far: known ones, each once. *)
Definition seen_ok (seen : list string) : Prop := NoDup seen /\ forall x, x ∈ seen -> x ∈ names ms.

(** From [st] to [st']: the new features are appended and seen, all of them
    come from [roots], and what they require is seen. *)
Definition extends (roots : string -> Prop) (st st' : list string * list string) : Prop :=
  exists new, st'.2 = st.2 ++ new /\ seen_ok st'.1 /\ NoDup new /\
    (forall x, x ∈ st'.1 <-> x ∈ st.1 \/ x ∈ new) /\ (forall x, x ∈ new -> x ∉ st.1) /\
    (forall x, x ∈ new -> exists r, roots r /\ needs ms r x) /\
    (forall x d, x ∈ new -> d ∈ requires ms x -> d ∈ st'.1).

Lemma extends_refl roots st : seen_ok st.1 -> extends roots st st.
Proof.
  intros H. exists []. rewrite app_nil_r. split; [done|]. split; [done|]. split; [constructor|].
  split; [set_solver|]. split; [set_solver|]. split; set_solver.
Qed.

Lemma extends_trans (roots : string -> Prop) st1 st2 st3 :
  extends roots st1 st2 -> extends roots st2 st3 -> extends roots st1 st3.
Proof.
  intros (n1 & E1 & S1 & D1 & I1 & F1 & R1 & C1) (n2 & E2 & S2 & D2 & I2 & F2 & R2 & C2).
  exists (n1 ++ n2). split; [by rewrite E2, E1, <- app_assoc|]. split; [done|]. split.
  { apply NoDup_app. split; [done|]. split; [|done]. intros x H1 H2. apply (F2 x H2), I1. auto. }
  split; [intros x; rewrite I2, I1, elem_of_app; tauto|].
  split; [intros x [H|H]%elem_of_app; [by apply F1|]; intros Hx; apply (F2 x H), I1; auto|].
  split; [intros x [H|H]%elem_of_app; auto|].
  intros x d [H|H]%elem_of_app Hd; [|by eapply C2]. apply I2. left. by eapply C1.
Qed.

Lemma extends_roots (roots roots' : string -> Prop) st st' :
  (forall r, roots r -> exists r', roots' r' /\ needs ms r' r) -> extends roots st st' ->
  extends roots' st st'.
Proof.
  intros Hr (n & E & S & D & I & F & R & C). exists n. repeat (split; [done|]). split; [|done].
  intros x Hx. destruct (R x Hx) as (r & H1 & H2). destruct (Hr r H1) as (r' & H3 & H4).
  exists r'. split; [done|]. by transitivity r.
Qed.

(** What a visit promises. *)
Definition visit_ok (go : string -> list string * list string -> res exn (list string * list string))
    (room : nat) : Prop :=
  forall name st, seen_ok st.1 -> name ∈ names ms -> (length (names ms) <= room + length st.1)%nat ->
  match go name st with
  | Ok st' => extends (eq name) st st' /\ name ∈ st'.1
  | Raise _ => missing ms name
  end.

Lemma visit_deps_spec go room name deps :
  visit_ok go room -> (forall d, d ∈ deps -> d ∈ requires ms name) ->
  forall st, seen_ok st.1 -> (length (names ms) <= room + length st.1)%nat ->
  match visit_deps ms go name deps st with
  | Ok st' => extends (fun r => r ∈ deps) st st' /\ forall d, d ∈ deps -> d ∈ st'.1
  | Raise _ => missing ms name
  end.
Proof.
  intros Hgo. induction deps as [|dep deps IH]; intros Hd st Hs Hf; cbn [visit_deps].
  { split; [by apply extends_refl|set_solver]. }
  assert (Hdep : dep ∈ requires ms name) by (apply Hd; set_solver).
  destruct (is_name ms dep) eqn:En; cbn [negb].
  2:{ exists name, dep. split; [apply rtc_refl|]. split; [done|]. by apply bool_decide_eq_false in En. }
  apply is_name_true in En. specialize (Hgo dep st Hs En Hf). destruct (go dep st) as [st1|e]; cbn [rbind].
  2:{ destruct Hgo as (x & d & Hx & Hxd & Hn). exists x, d. split; [|done]. by eapply rtc_l. }
  destruct Hgo as [H1 Hin1].
  pose proof H1 as (n1 & _ & S1 & _ & I1 & _).
  assert (Hlen : (length st.1 <= length st1.1)%nat).
  { apply NoDup_incl_length; [by apply NoDup_ListNoDup, Hs|].
    intros x. rewrite <- !list_elem_of_In. rewrite I1. auto. }
  specialize (IH (fun d H => Hd d (list_elem_of_further _ _ _ H)) st1 S1 ltac:(lia)).
  destruct (visit_deps ms go name deps st1) as [st2|e]; [|done]. destruct IH as [H2 Hin2]. split.
  - eapply extends_trans; [eapply extends_roots; [|exact H1]|eapply extends_roots; [|exact H2]].
    + intros r <-. exists dep. split; [set_solver|apply rtc_refl].
    + intros r Hr. exists r. split; [set_solver|apply rtc_refl].
  - intros d [->|H]%elem_of_cons; [|by apply Hin2].
    destruct H2 as (n2 & _ & _ & _ & I2 & _). apply I2. auto.
Qed.

Lemma visit_spec fuel : NoDup (names ms) -> visit_ok (visit ms fuel) fuel.
Proof.
  intros Hms. induction fuel as [|fuel IH]; intros name st Hs Hn Hf; cbn [visit];
    case_bool_decide as Hin; try (split; [by apply extends_refl|done]);
    assert (Hs0 : seen_ok (name :: st.1)) by
      (split; [apply NoDup_cons; split; [done|apply Hs]|intros x [->|Hx]%elem_of_cons; [done|by apply Hs]]).
  - exfalso. assert (Hl : (length (name :: st.1) <= length (names ms))%nat); [|simpl in *; lia].
    apply NoDup_incl_length; [by apply NoDup_ListNoDup, Hs0|].
    intros x. rewrite <- !list_elem_of_In. apply Hs0.
  - pose proof (visit_deps_spec (visit ms fuel) fuel name (requires ms name) IH (fun d H => H)
      (name :: st.1, st.2) Hs0 ltac:(simpl; lia)) as H.
    destruct (visit_deps _ _ _ _ _) as [st'|e]; cbn [rbind]; [|done].
    destruct H as [(n & E & S & D & I & F & R & C) Hall]. simpl in *.
    assert (Hnn : name ∉ n) by (intros Hx; apply (F name Hx); by left).
    split; [|apply I; left; by left]. exists (n ++ [name]). simpl.
    split; [by rewrite E, <- app_assoc|]. split; [done|].
    split; [apply NoDup_app; split; [done|]; split; [set_solver|apply NoDup_singleton]|].
    split; [intros x; rewrite I; set_solver|].
    split; [intros x [Hx| ->%list_elem_of_singleton]%elem_of_app; [|done]; specialize (F x Hx); set_solver|].
    split.
    + intros x [Hx| ->%list_elem_of_singleton]%elem_of_app; exists name; (split; [done|]); [|apply rtc_refl].
      destruct (R x Hx) as (r & Hr & Hrx). by eapply rtc_l.
    + intros x d [Hx| ->%list_elem_of_singleton]%elem_of_app Hd; [by eapply C|by apply Hall].
Qed.

(** The chain: what the feature needs, each once; it fails only when something
    it needs is missing. *)
Lemma chain_spec feature :
  NoDup (names ms) -> feature ∈ names ms ->
  match resolve_chain feature ms with
  | Ok chain => NoDup chain /\ (forall x, x ∈ chain <-> needs ms feature x) /\
                (forall x, x ∈ chain -> x ∈ names ms)
  | Raise _ => missing ms feature
  end.
Proof.
  intros Hms Hf. unfold resolve_chain. rewrite (proj2 (is_name_true _ _) Hf). cbn [negb].
  assert (H0 : seen_ok ([] : list string)) by (split; [constructor|set_solver]).
  pose proof (visit_spec (length ms) Hms feature ([], []) H0 Hf) as H.
  unfold names in H at 1. rewrite length_fmap in H. specialize (H ltac:(simpl; lia)).
  destruct (visit _ _ _ _) as [st|e]; cbn [rbind]; [|done].
  destruct H as [(n & E & S & D & I & F & R & C) Hin]. simpl in *. rewrite E. split; [done|].
  assert (Hn : forall x, x ∈ n <-> x ∈ st.1) by (intros x; rewrite I; set_solver). split.
  - intros x. split; [intros Hx; by destruct (R x Hx) as (r & <- & ?)|].
    intros Hx. apply Hn. clear - C Hn Hx Hin. revert Hin. induction Hx as [|x y z Hxy _ IH]; [done|].
    intros Hx. apply IH. eapply C; [by apply Hn|done].
  - intros x Hx. apply S, Hn, Hx.
Qed.
End Chain.

(** ** Copying *)

(** What a copy leaves of the target: other folders and installed dependencies
    as they were, the feature too unless it may be overwritten. *)
Definition copied_ok (feature : string) (force : bool) (chain : list string)
    (target target' : gmap string string) : Prop :=
  (forall n, n ∉ chain -> target' !! n = target !! n) /\
  (forall n, is_Some (target !! n) -> n ≠ feature \/ force = false -> target' !! n = target !! n) /\
  (forall n, is_Some (target !! n) -> is_Some (target' !! n)).

Lemma copied_step feature force x chain target target1 target' :
  (forall n, n ≠ x -> target1 !! n = target !! n) -> is_Some (target1 !! x) ->
  (is_Some (target !! x) -> x = feature /\ force = true) ->
  copied_ok feature force chain target1 target' -> copied_ok feature force (x :: chain) target target'.
Proof.
  intros Hne Hx Hold (H1 & H2 & H3). split; [|split].
  - intros n [Hn Hc]%not_elem_of_cons. rewrite H1, Hne; done.
  - intros n Hn Hf. destruct (decide (n = x)) as [->|Hnx].
    + destruct (Hold Hn) as [-> ->]. by destruct Hf.
    + rewrite H2, Hne; [done|done|by rewrite Hne|done].
  - intros n Hn. destruct (decide (n = x)) as [->|Hnx]; [by apply H3|]. apply H3. by rewrite Hne.
Qed.

Lemma copied_skip feature force x chain target target' :
  copied_ok feature force chain target target' -> copied_ok feature force (x :: chain) target target'.
Proof. intros (H1 & H2 & H3). split; [|done]. intros n [_ Hc]%not_elem_of_cons. by apply H1. Qed.

(** Packages: an [__init__.py] that is there stays, one the source has is there
    afterwards. *)
Definition inits_kept (inits inits' : gmap string string) : Prop :=
  forall d x, inits !! d = Some x -> inits' !! d = Some x.
Definition packaged (init : string -> option string) (module : string) (inits : gmap string string) : Prop :=
  forall d, d ∈ package_dirs module -> is_Some (init d) -> is_Some (inits !! d).

Lemma inits_kept_refl inits : inits_kept inits inits.
Proof. by intros d x. Qed.

Lemma packaged_later init module inits inits' :
  packaged init module inits -> inits_kept inits inits' -> packaged init module inits'.
Proof. intros Hp Hk d Hd Hi. destruct (Hp d Hd Hi) as [x Hx]. exists x. by apply Hk. Qed.

Lemma ensure_package_spec init module inits :
  inits_kept inits (ensure_package init module inits) /\ packaged init module (ensure_package init module inits).
Proof.
  unfold ensure_package, packaged, inits_kept. revert inits. generalize (package_dirs module). intros l.
  induction l as [|d l IH]; intros inits; [split; [done|set_solver]|]. cbn [foldl].
  set (inits1 := match init d, inits !! d with Some text, None => <[d := text]> inits | _, _ => inits end).
  destruct (IH inits1) as [Hk Hp].
  assert (H1 : forall k x, inits !! k = Some x -> inits1 !! k = Some x).
  { intros k x Hx. unfold inits1. destruct (init d); [|done]. destruct (inits !! d) eqn:E; [done|].
    rewrite lookup_insert_ne; [done|]. intros ->. congruence. }
  split; [eauto|]. intros k [->|Hd]%elem_of_cons Hi; [|by apply Hp].
  assert (Hx : is_Some (inits1 !! d)); [|destruct Hx as [x Hx]; eauto].
  unfold inits1. destruct Hi as [text ->]. destruct (inits !! d) eqn:E; [by rewrite E|]. rewrite lookup_insert_eq. eauto.
Qed.

Section Copying.
Context (ms : Manifests) (source : string -> string) (init : string -> option string).
Context (feature : string) (force : bool).

(** What the loop over [chain] has done to the target. *)
Definition chain_copied (chain : list string) (target : Target) (out : res exn (list string) * Target) : Prop :=
  copied_ok feature force chain (tg_features target) (tg_features out.2) /\
  inits_kept (tg_inits target) (tg_inits out.2) /\
  match out.1 with
  | Ok _ => forall n, n ∈ chain -> is_Some (tg_features out.2 !! n) /\
              (tg_features target !! n = None -> packaged init (module_of ms n) (tg_inits out.2))
  | Raise _ => force = false /\ feature ∈ chain /\ is_Some (tg_features target !! feature)
  end.

Lemma chain_copied_skip x chain target out :
  chain_copied chain target out -> is_Some (tg_features target !! x) -> chain_copied (x :: chain) target out.
Proof.
  intros (Hc & Hk & Hr) Hx. split; [by apply copied_skip|]. split; [done|]. destruct out as [[l|e] t]; simpl in *.
  - intros n [->|Hn]%elem_of_cons; [|by apply Hr]. split; [by apply Hc|]. intros E. rewrite E in Hx. by destruct Hx.
  - destruct Hr as (? & ? & ?). split; [done|]. split; [by right|done].
Qed.

(** A feature is removed, if it may be, and copied. *)
Lemma chain_copied_step x chain target target0 out :
  x ∉ chain -> tg_inits target0 = tg_inits target ->
  (forall n, n ≠ x -> tg_features target0 !! n = tg_features target !! n) ->
  (is_Some (tg_features target !! x) -> x = feature /\ force = true) ->
  chain_copied chain (copy_feature ms source init x target0) out -> chain_copied (x :: chain) target out.
Proof.
  intros Hxc Hi Hne Hold (Hc & Hk & Hr). unfold copy_feature in *. cbn [tg_features tg_inits] in *.
  destruct (ensure_package_spec init (module_of ms x) (tg_inits target0)) as [Hk0 Hp0]. rewrite Hi in *.
  assert (Hsame : forall n, n ≠ x -> <[x := source x]> (tg_features target0) !! n = tg_features target !! n).
  { intros n Hn. by rewrite lookup_insert_ne, Hne. }
  split; [eapply copied_step; [exact Hsame|rewrite lookup_insert_eq; eauto|done|done]|].
  split; [intros d y Hy; apply Hk, Hk0, Hy|]. destruct out as [[l|e] t]; simpl in *.
  - intros n [->|Hn]%elem_of_cons.
    + split; [apply Hc; rewrite lookup_insert_eq; eauto|]. intros _. by eapply packaged_later.
    + destruct (Hr n Hn) as [H1 H2]. split; [done|]. intros E. apply H2. rewrite Hsame; [done|]. by intros ->.
  - destruct Hr as (? & ? & Hs). split; [done|]. split; [by right|].
    rewrite Hsame in Hs; [done|]. by intros ->.
Qed.

Lemma copy_chain_spec chain : NoDup chain -> forall target copied,
  chain_copied chain target (copy_chain ms source init feature force chain target copied).
Proof.
  induction chain as [|x chain IH]; intros Hd target copied; cbn [copy_chain].
  { split; [done|]. split; [apply inits_kept_refl|cbn; set_solver]. }
  apply NoDup_cons in Hd as [Hxc Hd]. specialize (IH Hd).
  destruct (tg_features target !! x) as [old|] eqn:Ex.
  - case_bool_decide as Hx; cbn [negb]; [subst x; destruct force eqn:Ef; cbn [negb]|].
    + eapply (chain_copied_step _ _ _ (remove_feature feature target)); [done|done| |done|apply IH].
      intros n Hn. cbn. by rewrite lookup_delete_ne.
    + split; [done|]. split; [apply inits_kept_refl|]. cbn. rewrite Ex. split; [done|]. split; [by left|eauto].
    + apply chain_copied_skip; [apply IH|eauto].
  - eapply (chain_copied_step _ _ _ target); [done|done|done| |apply IH]. rewrite Ex. by intros [? ?].
Qed.
End Copying.

(** ** What discovery and validation say *)

Lemma names_dict_set n m (ms : Manifests) x : x ∈ names (dict_set n m ms) <-> x = n \/ x ∈ names ms.
Proof.
  induction ms as [|[k v] ms IH]; simpl; [set_solver|].
  case_bool_decide; simpl; [subst; set_solver|]. rewrite !elem_of_cons, IH. tauto.
Qed.

Lemma dict_set_NoDup n m (ms : Manifests) : NoDup (names ms) -> NoDup (names (dict_set n m ms)).
Proof.
  induction ms as [|[k v] ms IH]; simpl.
  { intros _. apply NoDup_singleton. }
  intros [Hn Hd]%NoDup_cons. case_bool_decide; simpl; apply NoDup_cons.
  - by subst.
  - split; [|by apply IH]. intros [->|H']%names_dict_set; done.
Qed.

Lemma read_features_NoDup disk dir module l : forall acc ms,
  NoDup (names acc) -> read_features disk dir module l acc = Ok ms -> NoDup (names ms).
Proof.
  induction l as [|f l IH]; intros acc ms Hd H; simpl in H; [by injection H as <-|].
  destruct (read_manifest _ _ _ f) as [m|]; [|done]. eapply IH; [|exact H]. by apply dict_set_NoDup.
Qed.

Lemma discover_NoDup disk root l : forall acc ms,
  NoDup (names acc) -> discover disk root l acc = Ok ms -> NoDup (names ms).
Proof.
  induction l as [|m l IH]; intros acc ms Hd H; simpl in H; [by injection H as <-|].
  destruct (negb _); [done|]. destruct (read_features _ _ _ _ _) as [acc'|] eqn:E; [|done].
  eapply IH; [|exact H]. by eapply read_features_NoDup.
Qed.

(** A manifest asks for something that is not there. *)
Definition unsatisfied (ms : Manifests) : Prop :=
  exists n m d, (n, m) ∈ ms /\
    (d ∈ fm_requires_features m /\ d ∉ names ms \/ d ∈ fm_requires_core m /\ d ∉ CORE_MODULES).

Lemma filter_b_nil {A} (p : A -> bool) l : List.filter p l = [] <-> forall x, x ∈ l -> p x = false.
Proof.
  split.
  - intros H x Hx. destruct (p x) eqn:E; [|done].
    assert (Hf : x ∈ List.filter p l) by by apply elem_of_filter_b. rewrite H in Hf. set_solver.
  - intros H. destruct (List.filter p l) as [|x l'] eqn:E; [done|].
    assert (Hx : x ∈ List.filter p l) by (rewrite E; by left).
    apply elem_of_filter_b in Hx as [Hx Hp]. by rewrite H in Hp.
Qed.

Lemma problems_nil ms m :
  manifest_problems ms m = [] <->
  (forall d, d ∈ fm_requires_features m -> d ∈ names ms) /\
  (forall c, c ∈ fm_requires_core m -> c ∈ CORE_MODULES).
Proof.
  assert (Hmap : forall (f : string -> string) l, f <$> l = [] <-> l = []) by (intros f [|]; done).
  unfold manifest_problems. rewrite app_nil, !Hmap, !filter_b_nil.
  setoid_rewrite negb_false_iff. unfold is_name. by setoid_rewrite bool_decide_eq_true.
Qed.

Lemma validate_spec ms :
  match validate_dependencies ms with
  | Ok _ => forall n m, (n, m) ∈ ms ->
      (forall d, d ∈ fm_requires_features m -> d ∈ names ms) /\
      (forall c, c ∈ fm_requires_core m -> c ∈ CORE_MODULES)
  | Raise _ => unsatisfied ms
  end.
Proof.
  unfold validate_dependencies. destruct (concat _) as [|p ps] eqn:E.
  - intros n m Hm. apply problems_nil.
    destruct (manifest_problems ms m) as [|x l] eqn:Em; [done|].
    assert (Hx : x ∈ concat ((fun e => manifest_problems ms e.2) <$> ms)); [|rewrite E in Hx; set_solver].
    apply list_elem_of_In, in_concat. exists (manifest_problems ms m). split.
    + apply list_elem_of_In, list_elem_of_fmap. by exists (n, m).
    + rewrite Em. by left.
  - assert (Hp : p ∈ concat ((fun e => manifest_problems ms e.2) <$> ms)) by (rewrite E; by left).
    apply list_elem_of_In, in_concat in Hp as (l & Hl & Hin).
    apply list_elem_of_In, list_elem_of_fmap in Hl as ([n m] & -> & Hm). simpl in Hin.
    apply list_elem_of_In in Hin. exists n, m. unfold manifest_problems in Hin.
    apply elem_of_app in Hin as [(d & _ & [Hd Hn]%elem_of_filter_b)%list_elem_of_fmap
                               |(d & _ & [Hd Hn]%elem_of_filter_b)%list_elem_of_fmap];
      apply negb_true_iff, bool_decide_eq_false in Hn; exists d; auto.
Qed.

(** No order serves a cycle. *)
Lemma cycle_unordered ms order c :
  NoDup (names ms) -> topological ms order -> cyclic ms c -> (forall n, n ∈ c -> n ∈ names ms) -> False.
Proof.
  intros Hms [Hp Ht] [Hne Hc] Hsub.
  assert (Hd : NoDup order) by by rewrite Hp.
  assert (Hno : forall l1 l2, order = l1 ++ l2 -> forall x, x ∈ c -> x ∉ l1).
  { induction l1 as [|y l1 IH] using rev_ind; intros l2 E x Hx; [set_solver|].
    rewrite <- app_assoc in E. intros [Hin| ->%list_elem_of_singleton]%elem_of_app; [by eapply IH|].
    destruct (Hc y Hx) as (m & d & Hm & Hdep & Hdc).
    destruct (Ht y m d Hm Hdep (Hsub d Hdc)) as (a & b & E' & Hda).
    assert (a = l1) as ->; [|by eapply (IH _ E)].
    rewrite E in E', Hd. clear - Hd E'. revert a b E'.
    induction l1 as [|z l1 IHl]; intros [|w a] b E'; simpl in *; [done| | |].
    - injection E' as <- E'. apply NoDup_cons in Hd as [Hn _]. exfalso. apply Hn. rewrite E'. set_solver.
    - injection E' as -> E'. apply NoDup_cons in Hd as [Hn _]. exfalso. apply Hn. set_solver.
    - injection E' as -> E'. f_equal. apply NoDup_cons in Hd as [_ Hd]. by eapply IHl. }
  destruct c as [|x c]; [done|]. assert (Hx : x ∈ order) by (rewrite Hp; apply Hsub; by left).
  apply (Hno order [] (eq_sym (app_nil_r order)) x); [by left|done].
Qed.

(** Starting up with features: the order in which they are installed, and
    copying one into another project. *)

(** C35: features are installed after what they require. Whatever is on the
    disk, start-up ends: either with every discovered feature installed once,
    after each feature it requires, and with all the core modules it asks for;
    or with an error, which means that the manifests could not be read, that
    one asks for something that is not there, or that some features require
    each other in a circle; and a circle always is an error. *)
Theorem features_install_in_order (disk : Disk) (root : string) (enabled : list string) :
  match discover_manifests disk root enabled with
  | Raise e => ordered_features disk root enabled = Raise e
  | Ok ms =>
      match ordered_features disk root enabled with
      | Ok order => order ≡ₚ names ms /\
          (forall n m, (n, m) ∈ ms ->
             (forall d, d ∈ fm_requires_features m -> before order d n) /\
             (forall c, c ∈ fm_requires_core m -> c ∈ CORE_MODULES)) /\
          (forall c, (forall n, n ∈ c -> n ∈ names ms) -> cyclic ms c -> False)
      | Raise _ => unsatisfied ms \/ exists c, (forall n, n ∈ c -> n ∈ names ms) /\ cyclic ms c
      end
  end.
Proof.
  unfold ordered_features. destruct (discover_manifests disk root enabled) as [ms|e] eqn:E; [|done].
  cbn [rbind]. assert (Hd : NoDup (names ms)) by (eapply discover_NoDup; [|exact E]; constructor).
  pose proof (validate_spec ms) as Hv. destruct (validate_dependencies ms); cbn [rbind]; [|by left].
  assert (Ho : ordering ms ms []).
  { split; [done|]. split; [done|]. split; [done|]. set_solver. }
  pose proof (order_loop_spec ms (length ms) ms [] Hd Ho (le_n _)) as H.
  unfold installation_order. destruct (order_loop _ _ _) as [order|e]; [|by right].
  pose proof H as [Hp Ht]. split; [done|]. split.
  - intros n m Hm. destruct (Hv n m Hm) as [H1 H2]. split; [|done].
    intros d Hdep. eapply Ht; [exact Hm|done|by apply H1].
  - intros c Hsub Hc. by eapply cycle_unordered.
Qed.

(** What a run of the tool may do to the target, and what it brings when it
    ends well. *)
Definition brings (ms : Manifests) (init : string -> option string) (feature : string) (force : bool)
    (target : Target) (r : res exn (list string)) (target' : Target) : Prop :=
  (forall n, ~ needs ms feature n -> tg_features target' !! n = tg_features target !! n) /\
  (forall n, is_Some (tg_features target !! n) -> n ≠ feature \/ force = false ->
     tg_features target' !! n = tg_features target !! n) /\
  inits_kept (tg_inits target) (tg_inits target') /\
  match r with
  | Ok _ => forall n, needs ms feature n -> is_Some (tg_features target' !! n) /\
              (tg_features target !! n = None -> packaged init (module_of ms n) (tg_inits target'))
  | Raise _ => True
  end.

Lemma brings_nothing ms init feature force target e : brings ms init feature force target (Raise e) target.
Proof. split; [done|]. split; [done|]. split; [apply inits_kept_refl|done]. Qed.

Lemma main_exit disk root source init same feature force target :
  (exists lines, (add_feature_main disk root source init same feature force target).1 = Ok (0%Z, lines)) <->
  exists copied, (add_feature disk root source init same feature force target).1 = Ok copied.
Proof.
  unfold add_feature_main. destruct (add_feature _ _ _ _ _ _ _ _) as [[l|e] t]; simpl; [split; eauto|].
  destruct (feature_error e); split; intros [? [=]].
Qed.

(** Copying a feature brings what it needs and spares what is there. When the
    manifests of the source are read, a copy that ends well leaves every feature
    it needs, directly or not, in the target, those that were not there with the
    packages they are imported through; in any case a folder outside its chain,
    an installed dependency and a package file stay as they were, and so does
    the feature itself unless overwriting was asked for. The tool exits with 0
    exactly when the copy ended well. *)
Theorem copied_feature_is_complete (disk : Disk) (root : string) (source : string -> string)
    (init : string -> option string) (same force : bool) (feature : string) (target : Target) (ms : Manifests) :
  discover_manifests disk root (module_names disk root) = Ok ms ->
  let '(r, target') := add_feature disk root source init same feature force target in
  brings ms init feature force target r target' /\
  ((exists lines, (add_feature_main disk root source init same feature force target).1 = Ok (0%Z, lines)) <->
   exists copied, r = Ok copied).
Proof.
  intros Hms. pose proof (main_exit disk root source init same feature force target) as Hexit.
  destruct (add_feature disk root source init same feature force target) as [r target'] eqn:E.
  split; [|exact Hexit]. clear Hexit. unfold add_feature in E.
  destruct same; [injection E as <- <-; apply brings_nothing|]. rewrite Hms in E. cbn [rbind] in E.
  assert (Hd : NoDup (names ms)) by (eapply discover_NoDup; [|exact Hms]; constructor).
  destruct (is_name ms feature) eqn:Hf.
  2:{ unfold resolve_chain in E. rewrite Hf in E. cbn [negb rbind] in E. injection E as <- <-. apply brings_nothing. }
  apply is_name_true in Hf. pose proof (chain_spec ms feature Hd Hf) as Hc.
  destruct (resolve_chain feature ms) as [chain|e]; cbn [rbind] in E; [|injection E as <- <-; apply brings_nothing].
  destruct (require_core _ _); cbn [rbind] in E; [|injection E as <- <-; apply brings_nothing].
  destruct Hc as (Hn & Hchain & _).
  pose proof (copy_chain_spec ms source init feature force chain Hn target []) as ((H1 & H2 & _) & Hk & Hr).
  rewrite E in H1, H2, Hk, Hr. simpl in *.
  split; [intros n Hx; apply H1; by rewrite Hchain|]. split; [done|]. split; [done|].
  destruct r; [|done]. intros n Hx. by apply Hr, Hchain.
Qed.

(** A project with three features: orders need products, the cart both. *)
Definition demo_manifest (feature : string) (requires : list string) : string * FeatureManifest :=
  ("commerce." +:+ feature,
   mkManifest ("commerce." +:+ feature) "commerce" feature ("/p/modules/commerce/" +:+ feature) "" requires
     ["billing"] [] [] []).
Definition demo_manifests : Manifests :=
  [demo_manifest "cart" ["commerce.orders"; "commerce.products"];
   demo_manifest "orders" ["commerce.products"]; demo_manifest "products" []].
Definition demo_toml (feature : string) (requires : list string) : string * list (string * json) :=
  ("/p/modules/commerce/" +:+ feature +:+ "/feature.toml",
   [("name", JStr ("commerce." +:+ feature)); ("requires_features", JList (JStr <$> requires));
    ("requires_core", JList [JStr "billing"])]).
Definition demo_tomls : list (string * list (string * json)) :=
  [demo_toml "cart" ["commerce.orders"; "commerce.products"]; demo_toml "orders" ["commerce.products"];
   demo_toml "products" []].
Definition demo_disk : Disk :=
  mkDisk (fun _ => true)
    (fun path => if bool_decide (path = "/p/modules") then ["commerce"] else ["products"; "orders"; "cart"])
    (fun path => if bool_decide (is_Some (assoc path demo_tomls)) then Some path else None)
    (fun text => assoc text demo_tomls) (fun _ => "").
Definition demo_target : Target :=
  mkTarget ["auth"; "billing"] {["commerce.products" := "local changes"]} ∅.
Definition demo_inits (dir : string) : option string := Some ("package " +:+ dir).

Lemma demo_discovered : discover_manifests demo_disk "/p" (module_names demo_disk "/p") = Ok demo_manifests.
Proof. vm_compute. reflexivity. Qed.

Lemma copied_feature_is_complete_witness :
  tg_features (add_feature demo_disk "/p" (fun n => n) demo_inits false "commerce.orders" false demo_target).2
    !! "commerce.products" = Some "local changes".
Proof.
  pose proof (copied_feature_is_complete demo_disk "/p" (fun n => n) demo_inits false false "commerce.orders"
    demo_target demo_manifests demo_discovered) as H.
  destruct (add_feature _ _ _ _ _ _ _ _) as [r target'] eqn:E. destruct H as [(_ & H & _) _].
  simpl. rewrite H; [reflexivity|eexists; reflexivity|left; discriminate].
Defined.

(** What the tool prints for the cart, and the packages it leaves. *)
Example demo_tool :
  let '(r, target) := add_feature_main demo_disk "/p" (fun n => n) demo_inits false "commerce.cart" false demo_target in
  r = Ok (0%Z, ["Copied features (install order):"; "  - commerce.orders"; "  - commerce.cart";
                String newline "Next steps in the target project:"; "  1. add 'commerce' to ENABLED_MODULES";
                "  2. run: python -m migrations.cli upgrade heads"]) /\
  tg_inits target !! "modules/commerce" = Some "package modules/commerce".
Proof. vm_compute. split; reflexivity. Qed.

Example demo_order :
  installation_order demo_manifests = Ok ["commerce.products"; "commerce.orders"; "commerce.cart"].
Proof. vm_compute. reflexivity. Qed.
