(* ===== verification/Entities.v ===== *)
(** Rows of accounts, tenants, notifications, saas, crm and files, with the
    constraints of their tables.

    Rows follow src/core/auth/models.py, src/core/tenants/models.py,
    src/core/notifications/models.py, src/core/files/models.py,
    src/modules/saas/*/models.py, src/modules/crm/*/models.py and
    src/modules/commerce/product_images/models.py; the constraints follow
    their migrations. A foreign key is modelled where both ends are tables
    of one group; keys to tenants and users from other groups are not:
    neither is ever deleted by the code. *)

From stdpp Require Import base strings gmap list.
From Stdlib Require Import ZArith Lia.
From S2P Require Import Prelude PyLib Calendar.

Definition in_table {R} (t : gmap N R) (i : uuid) : bool := bool_decide (is_Some (t !! i)).
Definition opt_in {R} (t : gmap N R) (o : option uuid) : bool :=
  match o with None => true | Some i => in_table t i end.

(** ** Accounts (global tables) *)

Inductive user_status : Set := UActive | UBlocked.
#[export] Instance user_status_eq_dec : EqDecision user_status.
Proof. solve_decision. Defined.

Record User : Set := mkUser {
  u_id : uuid; u_email : string; u_email_verified_at : option datetime;
  u_password_hash : string; u_full_name : option string; u_phone : option string;
  u_locale : string; u_is_superuser : bool; u_status : user_status;
  u_last_login_at : option datetime }.

(** The primary key of [user_totp] is its user. *)
Record UserTotp : Set := mkUserTotp {
  ut_user_id : uuid; ut_secret_encrypted : string; ut_confirmed_at : option datetime }.

Record UserRecoveryCode : Set := mkRecoveryCode {
  rc_id : uuid; rc_user_id : uuid; rc_code_hash : string; rc_used_at : option datetime }.

Record RefreshToken : Set := mkRefreshToken {
  rt_id : uuid; rt_user_id : uuid; rt_family_id : uuid; rt_token_hash : string;
  rt_expires_at : datetime; rt_rotated_at : option datetime; rt_revoked_at : option datetime;
  rt_revoked_reason : option string; rt_ip : option string; rt_user_agent : option string }.

Record AccountsDb : Set := mkAccountsDb {
  a_users : gmap N User; a_totp : gmap N UserTotp;
  a_recovery : gmap N UserRecoveryCode; a_refresh : gmap N RefreshToken }.

(** uq_users_email_lower, uq_refresh_tokens_token_hash *)
Definition uq_email (u : User) : option string := Some (str_lower (u_email u)).
Definition uq_token_hash (r : RefreshToken) : option string := Some (rt_token_hash r).

Definition accounts_ok (a : AccountsDb) : bool :=
  unique_by uq_email (a_users a)
  && unique_by uq_token_hash (a_refresh a)
  && all_rows (fun t => in_table (a_users a) (ut_user_id t)) (a_totp a)
  && all_rows (fun c => in_table (a_users a) (rc_user_id c)) (a_recovery a)
  && all_rows (fun r => in_table (a_users a) (rt_user_id r)) (a_refresh a).

(** ** Tenants *)

Inductive tenant_status : Set := TActive | TSuspended | TDeleted.
Inductive member_status : Set := MActive | MSuspended.
Inductive invite_status : Set := IPending | IAccepted | IRevoked | IExpired.
#[export] Instance tenant_status_eq_dec : EqDecision tenant_status.
Proof. solve_decision. Defined.
#[export] Instance member_status_eq_dec : EqDecision member_status.
Proof. solve_decision. Defined.
#[export] Instance invite_status_eq_dec : EqDecision invite_status.
Proof. solve_decision. Defined.

Record Tenant : Set := mkTenant {
  tn_id : uuid; tn_name : string; tn_slug : string; tn_owner_user_id : uuid;
  tn_status : tenant_status; tn_default_locale : string; tn_created_at : datetime }.

Record Membership : Set := mkMembership {
  mb_id : uuid; mb_tenant_id : uuid; mb_user_id : uuid; mb_role_id : uuid;
  mb_status : member_status; mb_created_at : datetime }.

(** [ro_tenant_id = None] is a system role. *)
Record Role : Set := mkRole {
  ro_id : uuid; ro_tenant_id : option uuid; ro_code : string; ro_name : string;
  ro_is_system : bool }.

Record Invitation : Set := mkInvitation {
  iv_id : uuid; iv_tenant_id : uuid; iv_email : string; iv_role_id : uuid;
  iv_token_hash : string; iv_status : invite_status; iv_invited_by_user_id : option uuid;
  iv_accepted_by_user_id : option uuid; iv_expires_at : datetime;
  iv_accepted_at : option datetime }.

Record TenantsDb : Set := mkTenantsDb {
  t_tenants : gmap N Tenant; t_memberships : gmap N Membership; t_roles : gmap N Role;
  t_role_permissions : gset (N * string); t_invitations : gmap N Invitation }.

(** uq_tenants_slug, uq_memberships_tenant_id_user_id, uq_roles_tenant_id_code
    (NULLS NOT DISTINCT), uq_invitations_token_hash, uq_invitations_pending_email *)
Definition uq_slug (t : Tenant) : option string := Some (tn_slug t).
Definition uq_member (m : Membership) : option (uuid * uuid) :=
  Some (mb_tenant_id m, mb_user_id m).
Definition uq_role (r : Role) : option (option uuid * string) := Some (ro_tenant_id r, ro_code r).
Definition uq_invite_token (i : Invitation) : option string := Some (iv_token_hash i).
Definition uq_invite_email (i : Invitation) : option (uuid * string) :=
  if bool_decide (iv_status i = IPending) then Some (iv_tenant_id i, str_lower (iv_email i))
  else None.

Definition membership_ok (t : TenantsDb) (m : Membership) : bool :=
  in_table (t_tenants t) (mb_tenant_id m) && in_table (t_roles t) (mb_role_id m).
Definition invitation_ok (t : TenantsDb) (i : Invitation) : bool :=
  in_table (t_tenants t) (iv_tenant_id i) && in_table (t_roles t) (iv_role_id i).

Definition tenants_ok (t : TenantsDb) : bool :=
  unique_by uq_slug (t_tenants t)
  && unique_by uq_member (t_memberships t) && all_rows (membership_ok t) (t_memberships t)
  && unique_by uq_role (t_roles t) && all_rows (fun r => opt_in (t_tenants t) (ro_tenant_id r)) (t_roles t)
  && forallb (fun p => in_table (t_roles t) p.1) (elements (t_role_permissions t))
  && unique_by uq_invite_token (t_invitations t) && unique_by uq_invite_email (t_invitations t)
  && all_rows (invitation_ok t) (t_invitations t).

(** ** Notifications *)

Inductive outbox_status : Set := ObPending | ObSending | ObSent | ObFailed | ObDead.
#[export] Instance outbox_status_eq_dec : EqDecision outbox_status.
Proof. solve_decision. Defined.

Record NotificationSetting : Set := mkNotificationSetting {
  ns_id : uuid; ns_tenant_id : uuid; ns_channel : string; ns_config_encrypted : string;
  ns_is_enabled : bool }.

Record NotificationOutbox : Set := mkOutbox {
  ob_id : uuid; ob_notification_id : uuid; ob_dedup_key : option string;
  ob_tenant_id : option uuid; ob_channel : string; ob_recipient : string;
  ob_template_key : string; ob_locale : string; ob_params : list (string * json);
  ob_status : outbox_status; ob_attempts : Z; ob_next_retry_at : datetime;
  ob_last_error : option string; ob_provider_message_id : option string;
  ob_sent_at : option datetime; ob_created_at : datetime }.

Record NoticesDb : Set := mkNoticesDb {
  n_settings : gmap N NotificationSetting; n_outbox : gmap N NotificationOutbox }.

(** uq_notification_settings_tenant_id_channel,
    uq_notification_outbox_tenant_id_dedup_key_channel (NULLS NOT DISTINCT) *)
Definition uq_setting (x : NotificationSetting) : option (uuid * string) :=
  Some (ns_tenant_id x, ns_channel x).
Definition uq_dedup (x : NotificationOutbox) : option (option uuid * string * string) :=
  k ← ob_dedup_key x; Some (ob_tenant_id x, k, ob_channel x).

Definition notices_ok (n : NoticesDb) : bool :=
  unique_by uq_setting (n_settings n) && unique_by uq_dedup (n_outbox n).

(** ** Saas *)

Inductive entitlement_kind : Set := EFlag | ELimit.
#[export] Instance entitlement_kind_eq_dec : EqDecision entitlement_kind.
Proof. solve_decision. Defined.

(** Keyed by (plan_code, entitlement_key). *)
Record PlanEntitlement : Set := mkPlanEntitlement {
  pe_plan_code : string; pe_entitlement_key : string; pe_kind : entitlement_kind;
  pe_bool_value : option bool; pe_int_value : option Z }.

Record TenantEntitlement : Set := mkTenantEntitlement {
  te_id : uuid; te_tenant_id : uuid; te_plan_code : string;
  te_current_period_end : option datetime; te_canceled : bool }.

(** [uc_bucket] is a UTC day, as an ordinal. *)
Record UsageCounter : Set := mkUsageCounter {
  uc_id : uuid; uc_tenant_id : uuid; uc_metric_key : string; uc_bucket : Z; uc_value : Z }.

Record OnboardingProgress : Set := mkProgress {
  op_id : uuid; op_tenant_id : uuid; op_step_key : string; op_completed_at : datetime }.

Record SaasDb : Set := mkSaasDb {
  s_plan_entitlements : gmap (string * string) PlanEntitlement;
  s_tenant_entitlements : gmap N TenantEntitlement;
  s_usage : gmap N UsageCounter; s_onboarding : gmap N OnboardingProgress }.

Definition uq_entitled (e : TenantEntitlement) : option uuid := Some (te_tenant_id e).
Definition uq_bucket (c : UsageCounter) : option (uuid * string * Z) :=
  Some (uc_tenant_id c, uc_metric_key c, uc_bucket c).
Definition uq_step (o : OnboardingProgress) : option (uuid * string) :=
  Some (op_tenant_id o, op_step_key o).

(** ck_value_matches_kind, ck_limit_non_negative *)
Definition plan_entitlement_ok (e : PlanEntitlement) : bool :=
  match pe_kind e, pe_bool_value e, pe_int_value e with
  | EFlag, Some _, None => true
  | ELimit, None, None => true
  | ELimit, None, Some z => (0 <=? z)%Z
  | _, _, _ => false
  end.

Definition saas_ok (s : SaasDb) : bool :=
  forallb (fun e => plan_entitlement_ok e.2) (map_to_list (s_plan_entitlements s))
  && unique_by uq_entitled (s_tenant_entitlements s)
  && unique_by uq_bucket (s_usage s)
  && all_rows (fun c => 0 <=? uc_value c)%Z (s_usage s)
  && unique_by uq_step (s_onboarding s).

(** ** Crm *)

Record Company : Set := mkCompany {
  cm_id : uuid; cm_tenant_id : uuid; cm_name : string; cm_website : option string;
  cm_industry : option string; cm_notes : option string; cm_created_at : datetime }.

Record Contact : Set := mkContact {
  ct_id : uuid; ct_tenant_id : uuid; ct_company_id : option uuid; ct_first_name : string;
  ct_last_name : option string; ct_email : option string; ct_phone : option string;
  ct_position : option string; ct_notes : option string; ct_created_at : datetime }.

Record Deal : Set := mkDeal {
  dl_id : uuid; dl_tenant_id : uuid; dl_title : string; dl_stage : string; dl_amount : Z;
  dl_currency : string; dl_contact_id : option uuid; dl_company_id : option uuid;
  dl_notes : option string; dl_created_at : datetime }.

Record Activity : Set := mkActivity {
  ac_id : uuid; ac_tenant_id : uuid; ac_type : string; ac_subject : string;
  ac_notes : option string; ac_due_at : option datetime; ac_done_at : option datetime;
  ac_assignee_user_id : uuid; ac_contact_id : option uuid; ac_company_id : option uuid;
  ac_deal_id : option uuid; ac_created_at : datetime }.

Record CrmDb : Set := mkCrmDb {
  r_companies : gmap N Company; r_contacts : gmap N Contact;
  r_deals : gmap N Deal; r_activities : gmap N Activity }.

Definition crm_ok (r : CrmDb) : bool :=
  all_rows (fun c => opt_in (r_companies r) (ct_company_id c)) (r_contacts r)
  && all_rows (fun x => 0 <=? dl_amount x)%Z (r_deals r).

(** ** Files and product images *)

Record StoredFile : Set := mkStoredFile {
  sf_id : uuid; sf_tenant_id : uuid; sf_storage_key : string; sf_content_type : string;
  sf_byte_size : Z; sf_checksum_sha256 : string; sf_original_filename : option string }.

Record ProductImage : Set := mkProductImage {
  im_id : uuid; im_tenant_id : uuid; im_product_id : uuid; im_file_id : uuid;
  im_thumbnail_file_id : option uuid; im_position : Z; im_alt_text : option string;
  im_created_at : datetime }.

Record FilesDb : Set := mkFilesDb {
  f_files : gmap N StoredFile; f_images : gmap N ProductImage }.

Definition uq_storage_key (f : StoredFile) : option (uuid * string) :=
  Some (sf_tenant_id f, sf_storage_key f).
Definition files_ok (f : FilesDb) : bool :=
  unique_by uq_storage_key (f_files f) && all_rows (fun x => 0 <=? sf_byte_size x)%Z (f_files f).

(** ** The other groups together *)

Record CoreDb : Set := mkCoreDb {
  x_accounts : AccountsDb; x_tenants : TenantsDb; x_notices : NoticesDb; x_saas : SaasDb;
  x_crm : CrmDb; x_files : FilesDb }.

Definition core_ok (x : CoreDb) : bool :=
  accounts_ok (x_accounts x) && tenants_ok (x_tenants x) && notices_ok (x_notices x)
  && saas_ok (x_saas x) && crm_ok (x_crm x) && files_ok (x_files x).

(** Integer columns: BigInteger (64 bits), Integer (32) and SmallInteger (16). *)
Definition int64 (z : Z) : bool := (- 2 ^ 63 <=? z)%Z && (z <? 2 ^ 63)%Z.
Definition int32 (z : Z) : bool := (- 2 ^ 31 <=? z)%Z && (z <? 2 ^ 31)%Z.
Definition int16 (z : Z) : bool := (- 2 ^ 15 <=? z)%Z && (z <? 2 ^ 15)%Z.

Definition core_ranges (x : CoreDb) : bool :=
  all_rows (fun o => int16 (ob_attempts o)) (n_outbox (x_notices x))
  && all_rows (fun c => int64 (uc_value c)) (s_usage (x_saas x))
  && all_rows (fun d => int64 (dl_amount d)) (r_deals (x_crm x))
  && all_rows (fun f => int64 (sf_byte_size f)) (f_files (x_files x))
  && all_rows (fun i => int32 (im_position i)) (f_images (x_files x)).

Definition empty_core : CoreDb :=
  mkCoreDb (mkAccountsDb ∅ ∅ ∅ ∅) (mkTenantsDb ∅ ∅ ∅ ∅ ∅) (mkNoticesDb ∅ ∅)
    (mkSaasDb ∅ ∅ ∅ ∅) (mkCrmDb ∅ ∅ ∅ ∅) (mkFilesDb ∅ ∅).
