(* ===== verification/Models.v ===== *)
(** The database: rows of billing, commerce and the audit journal, and the
    tables of the whole schema with its constraints.

    Rows follow src/core/billing/models.py, src/core/audit/models.py,
    src/shared/processed_events.py and src/modules/commerce/*/models.py;
    unique indexes, CHECKs and foreign keys follow their migrations. The
    text status columns are enumerations, so their CHECK holds by typing;
    [updated_at] is never read and is left out. *)

From stdpp Require Import base strings gmap.
From Stdlib Require Import ZArith Lia.
From S2P Require Import Prelude PyLib Calendar Entities.

(** ** Billing *)

Inductive payment_status : Set :=
| PCreated | PPending | PSucceeded | PFailed | PCanceled | PExpired.
Inductive sub_status : Set :=
| SPending | STrialing | SActive | SPastDue | SCanceled | SExpired.
Inductive webhook_status : Set :=
| WReceived | WProcessed | WRejected | WFailed.

#[export] Instance payment_status_eq_dec : EqDecision payment_status.
Proof. solve_decision. Defined.
#[export] Instance sub_status_eq_dec : EqDecision sub_status.
Proof. solve_decision. Defined.
#[export] Instance webhook_status_eq_dec : EqDecision webhook_status.
Proof. solve_decision. Defined.

Definition payment_status_str (s : payment_status) : string :=
  match s with
  | PCreated => "created" | PPending => "pending" | PSucceeded => "succeeded"
  | PFailed => "failed" | PCanceled => "canceled" | PExpired => "expired"
  end.
Definition sub_status_str (s : sub_status) : string :=
  match s with
  | SPending => "pending" | STrialing => "trialing" | SActive => "active"
  | SPastDue => "past_due" | SCanceled => "canceled" | SExpired => "expired"
  end.

Record Plan : Set := mkPlan {
  pl_id : uuid; pl_code : string; pl_name : json; pl_price_amount : Z; pl_currency : string;
  pl_period : string; pl_trial_days : Z; pl_is_active : bool }.

Record Subscription : Set := mkSubscription {
  s_id : uuid; s_tenant_id : uuid; s_plan_id : uuid; s_status : sub_status;
  s_price_amount : Z; s_currency : string;
  s_current_period_start : datetime; s_current_period_end : datetime;
  s_cancel_at_period_end : bool; s_canceled_at : option datetime }.

Record Payment : Set := mkPayment {
  p_id : uuid; p_tenant_id : uuid; p_subscription_id : option uuid;
  p_purpose : string; p_reference : string; p_amount : Z; p_currency : string;
  p_status : payment_status; p_provider : string;
  p_provider_transaction_id : option string; p_idempotency_key : string;
  p_failure_code : option string; p_paid_at : option datetime;
  p_metadata : list (string * json); p_created_at : datetime }.

Record PaymentWebhook : Set := mkWebhook {
  w_id : uuid; w_provider : string; w_dedup_key : string;
  w_tenant_id : option uuid; w_payment_id : option uuid;
  w_raw_body : string; w_headers : list (string * string);
  w_signature_valid : option bool; w_status : webhook_status;
  w_error : option string; w_processed_at : option datetime }.

Record BillingDb : Set := mkBillingDb {
  b_currencies : gset string;
  b_plans : gmap N Plan;
  b_subscriptions : gmap N Subscription;
  b_payments : gmap N Payment;
  b_webhooks : gmap N PaymentWebhook }.

(** ** Audit journal and event deduplication *)

Record AuditLog : Set := mkAuditLog {
  au_id : uuid; au_tenant_id : option uuid; au_user_id : option uuid;
  au_request_id : option string; au_event_id : option uuid; au_action : string;
  au_object_type : option string; au_object_id : option string;
  au_ip : option string; au_user_agent : option string;
  au_payload : list (string * json); au_created_at : datetime }.

(** ** Commerce *)

Inductive product_status : Set := ProdActive | ProdArchived.
Inductive cart_status : Set := CartActive | CartCheckedOut | CartAbandoned.
Inductive order_status : Set := OrdPending | OrdPaid | OrdCanceled.
#[export] Instance product_status_eq_dec : EqDecision product_status.
Proof. solve_decision. Defined.
#[export] Instance cart_status_eq_dec : EqDecision cart_status.
Proof. solve_decision. Defined.
#[export] Instance order_status_eq_dec : EqDecision order_status.
Proof. solve_decision. Defined.

Record Product : Set := mkProduct {
  pr_id : uuid; pr_tenant_id : uuid; pr_sku : string; pr_name : string;
  pr_description : option string; pr_price_amount : Z; pr_currency : string;
  pr_status : product_status; pr_created_at : datetime }.

Record Cart : Set := mkCart {
  ca_id : uuid; ca_tenant_id : uuid; ca_customer_user_id : uuid; ca_status : cart_status }.

Record CartItem : Set := mkCartItem {
  ci_id : uuid; ci_tenant_id : uuid; ci_cart_id : uuid; ci_product_id : uuid;
  ci_quantity : Z; ci_unit_price_amount : Z; ci_currency : string; ci_created_at : datetime }.

Record Order : Set := mkOrder {
  o_id : uuid; o_tenant_id : uuid; o_customer_user_id : uuid; o_status : order_status;
  o_total_amount : Z; o_currency : string; o_payment_id : option uuid; o_created_at : datetime }.

Record OrderItem : Set := mkOrderItem {
  oi_id : uuid; oi_tenant_id : uuid; oi_order_id : uuid; oi_product_id : uuid;
  oi_quantity : Z; oi_unit_price_amount : Z; oi_currency : string; oi_created_at : datetime }.

Record CommerceDb : Set := mkCommerceDb {
  c_products : gmap N Product;
  c_carts : gmap N Cart;
  c_cart_items : gmap N CartItem;
  c_orders : gmap N Order;
  c_order_items : gmap N OrderItem }.

Record Db : Set := mkDb {
  d_billing : BillingDb;
  d_commerce : CommerceDb;
  d_audit : gmap N AuditLog;
  d_processed : gmap (string * N) datetime;
  d_core : CoreDb }.

(** ** Tables as typeclass instances: one lens per model *)

Class Table (R : Type) := {
  t_id : R -> uuid;
  t_get : Db -> gmap N R;
  t_set : gmap N R -> Db -> Db }.

Definition on_billing (f : BillingDb -> BillingDb) (d : Db) : Db :=
  mkDb (f (d_billing d)) (d_commerce d) (d_audit d) (d_processed d) (d_core d).
Definition on_commerce (f : CommerceDb -> CommerceDb) (d : Db) : Db :=
  mkDb (d_billing d) (f (d_commerce d)) (d_audit d) (d_processed d) (d_core d).
Definition on_core (f : CoreDb -> CoreDb) (d : Db) : Db :=
  mkDb (d_billing d) (d_commerce d) (d_audit d) (d_processed d) (f (d_core d)).
Definition on_accounts (f : AccountsDb -> AccountsDb) : Db -> Db :=
  on_core (fun x => mkCoreDb (f (x_accounts x)) (x_tenants x) (x_notices x) (x_saas x) (x_crm x)
                             (x_files x)).
Definition on_tenants (f : TenantsDb -> TenantsDb) : Db -> Db :=
  on_core (fun x => mkCoreDb (x_accounts x) (f (x_tenants x)) (x_notices x) (x_saas x) (x_crm x)
                             (x_files x)).
Definition on_notices (f : NoticesDb -> NoticesDb) : Db -> Db :=
  on_core (fun x => mkCoreDb (x_accounts x) (x_tenants x) (f (x_notices x)) (x_saas x) (x_crm x)
                             (x_files x)).
Definition on_saas (f : SaasDb -> SaasDb) : Db -> Db :=
  on_core (fun x => mkCoreDb (x_accounts x) (x_tenants x) (x_notices x) (f (x_saas x)) (x_crm x)
                             (x_files x)).
Definition on_crm (f : CrmDb -> CrmDb) : Db -> Db :=
  on_core (fun x => mkCoreDb (x_accounts x) (x_tenants x) (x_notices x) (x_saas x) (f (x_crm x))
                             (x_files x)).
Definition on_files (f : FilesDb -> FilesDb) : Db -> Db :=
  on_core (fun x => mkCoreDb (x_accounts x) (x_tenants x) (x_notices x) (x_saas x) (x_crm x)
                             (f (x_files x))).

Definition accounts_of (d : Db) : AccountsDb := x_accounts (d_core d).
Definition tenants_of (d : Db) : TenantsDb := x_tenants (d_core d).
Definition notices_of (d : Db) : NoticesDb := x_notices (d_core d).
Definition saas_of (d : Db) : SaasDb := x_saas (d_core d).
Definition crm_of (d : Db) : CrmDb := x_crm (d_core d).
Definition files_of (d : Db) : FilesDb := x_files (d_core d).

#[export] Instance plan_table : Table Plan := {|
  t_id := pl_id; t_get d := b_plans (d_billing d);
  t_set t := on_billing (fun b => mkBillingDb (b_currencies b) t (b_subscriptions b)
                                    (b_payments b) (b_webhooks b)) |}.
#[export] Instance subscription_table : Table Subscription := {|
  t_id := s_id; t_get d := b_subscriptions (d_billing d);
  t_set t := on_billing (fun b => mkBillingDb (b_currencies b) (b_plans b) t
                                    (b_payments b) (b_webhooks b)) |}.
#[export] Instance payment_table : Table Payment := {|
  t_id := p_id; t_get d := b_payments (d_billing d);
  t_set t := on_billing (fun b => mkBillingDb (b_currencies b) (b_plans b) (b_subscriptions b)
                                    t (b_webhooks b)) |}.
#[export] Instance webhook_table : Table PaymentWebhook := {|
  t_id := w_id; t_get d := b_webhooks (d_billing d);
  t_set t := on_billing (fun b => mkBillingDb (b_currencies b) (b_plans b) (b_subscriptions b)
                                    (b_payments b) t) |}.
#[export] Instance audit_table : Table AuditLog := {|
  t_id := au_id; t_get := d_audit;
  t_set t d := mkDb (d_billing d) (d_commerce d) t (d_processed d) (d_core d) |}.
#[export] Instance product_table : Table Product := {|
  t_id := pr_id; t_get d := c_products (d_commerce d);
  t_set t := on_commerce (fun c => mkCommerceDb t (c_carts c) (c_cart_items c)
                                     (c_orders c) (c_order_items c)) |}.
#[export] Instance cart_table : Table Cart := {|
  t_id := ca_id; t_get d := c_carts (d_commerce d);
  t_set t := on_commerce (fun c => mkCommerceDb (c_products c) t (c_cart_items c)
                                     (c_orders c) (c_order_items c)) |}.
#[export] Instance cart_item_table : Table CartItem := {|
  t_id := ci_id; t_get d := c_cart_items (d_commerce d);
  t_set t := on_commerce (fun c => mkCommerceDb (c_products c) (c_carts c) t
                                     (c_orders c) (c_order_items c)) |}.
#[export] Instance order_table : Table Order := {|
  t_id := o_id; t_get d := c_orders (d_commerce d);
  t_set t := on_commerce (fun c => mkCommerceDb (c_products c) (c_carts c) (c_cart_items c)
                                     t (c_order_items c)) |}.
#[export] Instance order_item_table : Table OrderItem := {|
  t_id := oi_id; t_get d := c_order_items (d_commerce d);
  t_set t := on_commerce (fun c => mkCommerceDb (c_products c) (c_carts c) (c_cart_items c)
                                     (c_orders c) t) |}.

#[export] Instance user_table : Table User := {|
  t_id := u_id; t_get d := a_users (accounts_of d); t_set t := on_accounts (fun x => mkAccountsDb t (a_totp x) (a_recovery x) (a_refresh x)) |}.
#[export] Instance totp_table : Table UserTotp := {|
  t_id := ut_user_id; t_get d := a_totp (accounts_of d); t_set t := on_accounts (fun x => mkAccountsDb (a_users x) t (a_recovery x) (a_refresh x)) |}.
#[export] Instance recovery_table : Table UserRecoveryCode := {|
  t_id := rc_id; t_get d := a_recovery (accounts_of d); t_set t := on_accounts (fun x => mkAccountsDb (a_users x) (a_totp x) t (a_refresh x)) |}.
#[export] Instance refresh_table : Table RefreshToken := {|
  t_id := rt_id; t_get d := a_refresh (accounts_of d); t_set t := on_accounts (fun x => mkAccountsDb (a_users x) (a_totp x) (a_recovery x) t) |}.
#[export] Instance tenant_table : Table Tenant := {|
  t_id := tn_id; t_get d := t_tenants (tenants_of d); t_set t := on_tenants (fun x => mkTenantsDb t (t_memberships x) (t_roles x) (t_role_permissions x) (t_invitations x)) |}.
#[export] Instance membership_table : Table Membership := {|
  t_id := mb_id; t_get d := t_memberships (tenants_of d); t_set t := on_tenants (fun x => mkTenantsDb (t_tenants x) t (t_roles x) (t_role_permissions x) (t_invitations x)) |}.
#[export] Instance role_table : Table Role := {|
  t_id := ro_id; t_get d := t_roles (tenants_of d); t_set t := on_tenants (fun x => mkTenantsDb (t_tenants x) (t_memberships x) t (t_role_permissions x) (t_invitations x)) |}.
#[export] Instance invitation_table : Table Invitation := {|
  t_id := iv_id; t_get d := t_invitations (tenants_of d); t_set t := on_tenants (fun x => mkTenantsDb (t_tenants x) (t_memberships x) (t_roles x) (t_role_permissions x) t) |}.
#[export] Instance setting_table : Table NotificationSetting := {|
  t_id := ns_id; t_get d := n_settings (notices_of d); t_set t := on_notices (fun x => mkNoticesDb t (n_outbox x)) |}.
#[export] Instance outbox_table : Table NotificationOutbox := {|
  t_id := ob_id; t_get d := n_outbox (notices_of d); t_set t := on_notices (fun x => mkNoticesDb (n_settings x) t) |}.
#[export] Instance entitlement_table : Table TenantEntitlement := {|
  t_id := te_id; t_get d := s_tenant_entitlements (saas_of d); t_set t := on_saas (fun x => mkSaasDb (s_plan_entitlements x) t (s_usage x) (s_onboarding x)) |}.
#[export] Instance usage_table : Table UsageCounter := {|
  t_id := uc_id; t_get d := s_usage (saas_of d); t_set t := on_saas (fun x => mkSaasDb (s_plan_entitlements x) (s_tenant_entitlements x) t (s_onboarding x)) |}.
#[export] Instance progress_table : Table OnboardingProgress := {|
  t_id := op_id; t_get d := s_onboarding (saas_of d); t_set t := on_saas (fun x => mkSaasDb (s_plan_entitlements x) (s_tenant_entitlements x) (s_usage x) t) |}.
#[export] Instance company_table : Table Company := {|
  t_id := cm_id; t_get d := r_companies (crm_of d); t_set t := on_crm (fun x => mkCrmDb t (r_contacts x) (r_deals x) (r_activities x)) |}.
#[export] Instance contact_table : Table Contact := {|
  t_id := ct_id; t_get d := r_contacts (crm_of d); t_set t := on_crm (fun x => mkCrmDb (r_companies x) t (r_deals x) (r_activities x)) |}.
#[export] Instance deal_table : Table Deal := {|
  t_id := dl_id; t_get d := r_deals (crm_of d); t_set t := on_crm (fun x => mkCrmDb (r_companies x) (r_contacts x) t (r_activities x)) |}.
#[export] Instance activity_table : Table Activity := {|
  t_id := ac_id; t_get d := r_activities (crm_of d); t_set t := on_crm (fun x => mkCrmDb (r_companies x) (r_contacts x) (r_deals x) t) |}.
#[export] Instance file_table : Table StoredFile := {|
  t_id := sf_id; t_get d := f_files (files_of d); t_set t := on_files (fun x => mkFilesDb t (f_images x)) |}.
#[export] Instance image_table : Table ProductImage := {|
  t_id := im_id; t_get d := f_images (files_of d); t_set t := on_files (fun x => mkFilesDb (f_files x) t) |}.

Definition set_processed (t : gmap (string * N) datetime) (d : Db) : Db :=
  mkDb (d_billing d) (d_commerce d) (d_audit d) t (d_core d).
Definition set_role_permissions (t : gset (N * string)) : Db -> Db :=
  on_tenants (fun x => mkTenantsDb (t_tenants x) (t_memberships x) (t_roles x) t (t_invitations x)).

(** Write a row under its primary key. *)
Definition t_put {R} `{Table R} (r : R) (d : Db) : Db := t_set (<[t_id r := r]> (t_get d)) d.
Definition t_del {R} `{Table R} (i : uuid) (d : Db) : Db := t_set (delete i (t_get d)) d.

(** ** Constraints *)

Definition live (s : sub_status) : bool :=
  match s with STrialing | SActive | SPastDue => true | _ => false end.

(** uq_subscriptions_one_live_per_tenant / uq_subscriptions_one_pending_per_tenant *)
Definition uq_live (s : Subscription) : option uuid :=
  if live (s_status s) then Some (s_tenant_id s) else None.
Definition uq_pending (s : Subscription) : option uuid :=
  if bool_decide (s_status s = SPending) then Some (s_tenant_id s) else None.
(** uq_payments_tenant_id_idempotency_key *)
Definition uq_idem (p : Payment) : option (uuid * string) :=
  Some (p_tenant_id p, p_idempotency_key p).
(** uq_payments_provider_provider_transaction_id *)
Definition uq_txn (p : Payment) : option (string * string) :=
  t ← p_provider_transaction_id p; Some (p_provider p, t).
(** uq_payment_webhooks_provider_dedup_key *)
Definition uq_ledger (w : PaymentWebhook) : option (string * string) :=
  Some (w_provider w, w_dedup_key w).
Definition uq_plan_code (p : Plan) : option string := Some (pl_code p).
Definition uq_audit_event (a : AuditLog) : option uuid := au_event_id a.
Definition uq_sku (p : Product) : option (uuid * string) := Some (pr_tenant_id p, pr_sku p).
Definition uq_active_cart (c : Cart) : option (uuid * uuid) :=
  if bool_decide (ca_status c = CartActive) then Some (ca_tenant_id c, ca_customer_user_id c)
  else None.
Definition uq_cart_product (i : CartItem) : option (uuid * uuid) :=
  Some (ci_cart_id i, ci_product_id i).

Definition plan_ok (b : BillingDb) (p : Plan) : bool :=
  (0 <=? pl_price_amount p)%Z
  && (bool_decide (pl_period p = "month") || bool_decide (pl_period p = "year"))
  && bool_decide (pl_currency p ∈ b_currencies b).
Definition subscription_ok (b : BillingDb) (s : Subscription) : bool :=
  (0 <=? s_price_amount s)%Z
  && in_table (b_plans b) (s_plan_id s)
  && bool_decide (s_currency s ∈ b_currencies b).
Definition payment_ok (b : BillingDb) (p : Payment) : bool :=
  (0 <? p_amount p)%Z
  && match p_subscription_id p with None => true | Some i => in_table (b_subscriptions b) i end
  && bool_decide (p_currency p ∈ b_currencies b).
Definition webhook_ok (b : BillingDb) (w : PaymentWebhook) : bool :=
  match w_payment_id w with None => true | Some i => in_table (b_payments b) i end.

Definition subscriptions_ok (b : BillingDb) : bool :=
  unique_by uq_live (b_subscriptions b) && unique_by uq_pending (b_subscriptions b)
  && all_rows (subscription_ok b) (b_subscriptions b).
Definition payments_ok (b : BillingDb) : bool :=
  unique_by uq_idem (b_payments b) && unique_by uq_txn (b_payments b)
  && all_rows (payment_ok b) (b_payments b).
Definition webhooks_ok (b : BillingDb) : bool :=
  unique_by uq_ledger (b_webhooks b) && all_rows (webhook_ok b) (b_webhooks b).
Definition plans_ok (b : BillingDb) : bool :=
  unique_by uq_plan_code (b_plans b) && all_rows (plan_ok b) (b_plans b).
Definition billing_ok (b : BillingDb) : bool :=
  plans_ok b && subscriptions_ok b && payments_ok b && webhooks_ok b.

Definition commerce_ok (c : CommerceDb) : bool :=
  unique_by uq_sku (c_products c)
  && all_rows (fun p => 0 <=? pr_price_amount p)%Z (c_products c)
  && unique_by uq_active_cart (c_carts c)
  && unique_by uq_cart_product (c_cart_items c)
  && all_rows (fun i => (1 <=? ci_quantity i)%Z && (0 <=? ci_unit_price_amount i)%Z
                        && in_table (c_carts c) (ci_cart_id i)) (c_cart_items c)
  && all_rows (fun o => 0 <=? o_total_amount o)%Z (c_orders c)
  && all_rows (fun i => (1 <=? oi_quantity i)%Z && (0 <=? oi_unit_price_amount i)%Z
                        && in_table (c_orders c) (oi_order_id i)) (c_order_items c).

Definition db_ok (d : Db) : bool :=
  billing_ok (d_billing d) && commerce_ok (d_commerce d)
  && unique_by uq_audit_event (d_audit d) && core_ok (d_core d).

Definition db_ranges (d : Db) : bool :=
  all_rows (fun p => int64 (p_amount p)) (b_payments (d_billing d))
  && all_rows (fun s => int64 (s_price_amount s)) (b_subscriptions (d_billing d))
  && all_rows (fun p => int64 (pr_price_amount p)) (c_products (d_commerce d))
  && all_rows (fun i => int16 (ci_quantity i) && int64 (ci_unit_price_amount i))
       (c_cart_items (d_commerce d))
  && all_rows (fun o => int64 (o_total_amount o)) (c_orders (d_commerce d))
  && all_rows (fun i => int16 (oi_quantity i) && int64 (oi_unit_price_amount i))
       (c_order_items (d_commerce d))
  && core_ranges (d_core d).

Definition empty_db : Db :=
  mkDb (mkBillingDb ∅ ∅ ∅ ∅ ∅) (mkCommerceDb ∅ ∅ ∅ ∅ ∅) ∅ ∅ empty_core.
