(* ===== verification/Events.v ===== *)
(** The event bus (src/shared/events.py) and the ambient context
    (src/shared/context.py).

    Event names and subscription patterns, envelopes and their wire form, the
    subscription registry, and delivery: reliable handlers are enqueued,
    others run in process, and no handler failure reaches the publisher. *)

From stdpp Require Import base strings gmap list.
From Stdlib Require Import ZArith Lia Ascii.
From S2P Require Import Prelude Errors PyLib Calendar.

(** ** src/shared/context.py *)

Inductive ActorKind : Set := KUser | KSystem | KIntegration.
#[export] Instance actor_kind_eq_dec : EqDecision ActorKind.
Proof. solve_decision. Defined.

Record Actor : Set := mkActor { a_kind : ActorKind; a_id : option string }.
#[export] Instance actor_eq_dec : EqDecision Actor.
Proof. solve_decision. Defined.

Record RequestContext : Set := mkRequestContext { rq_ip : option string; rq_user_agent : option string }.

Record TenantContext : Set := mkCtx {
  c_tenant_id : option uuid; c_actor : Actor; c_request_id : option string; c_locale : string }.

Definition DEFAULT_LOCALE : string := "ru".
Definition SYSTEM_ACTOR : Actor := mkActor KSystem None.

Definition kind_str (k : ActorKind) : string :=
  match k with KUser => "user" | KSystem => "system" | KIntegration => "integration" end.

(** ** Names and patterns *)

Definition seg_char (c : ascii) : bool := ch_lower c || ch_digit c || bool_decide (c = "_"%char).

(** [[a-z][a-z0-9_]*] *)
Definition is_segment (s : string) : bool :=
  match s with
  | EmptyString => false
  | String c s' => ch_lower c && str_all seg_char s'
  end.

(** Python's [$] also matches before one trailing newline. *)
Fixpoint chomp (s : string) : string :=
  match s with
  | EmptyString => EmptyString
  | String c EmptyString => if bool_decide (c = newline) then EmptyString else s
  | String c s' => String c (chomp s')
  end.

(** [EVENT_NAME_RE.match(name)] *)
Definition event_name_re (name : string) : bool :=
  match split "." (chomp name) with
  | [a; b; c] => is_segment a && is_segment b && is_segment c
  | _ => false
  end.

(** [_PREFIX_PATTERN_RE.match(pattern)] *)
Definition prefix_pattern_re (pattern : string) : bool :=
  match split "." (chomp pattern) with
  | [a; w] => is_segment a && bool_decide (w = "*")
  | [a; b; w] => is_segment a && is_segment b && bool_decide (w = "*")
  | _ => false
  end.

Definition validate_event_name (name : string) : res exn unit :=
  if event_name_re name then Ok tt else Raise EValue.

Definition validate_pattern (pattern : string) : res exn unit :=
  if bool_decide (pattern = "*") then Ok tt
  else if prefix_pattern_re pattern || event_name_re pattern then Ok tt
  else Raise EValue.

(** [s.endswith(suffix)], [s[:-1]] *)
Definition endswith (s suffix : string) : bool :=
  bool_decide (str_drop (String.length s - String.length suffix) s = suffix)
  && (String.length suffix <=? String.length s)%nat.
Definition drop_last (s : string) : string := str_take (String.length s - 1) s.

Definition pattern_matches (pattern name : string) : bool :=
  if bool_decide (pattern = "*") then true
  else if endswith pattern ".*" then startswith name (drop_last pattern)
  else bool_decide (pattern = name).

Definition is_wildcard (pattern : string) : bool :=
  bool_decide (pattern = "*") || endswith pattern ".*".

(** ** Envelopes *)

Record EventEnvelope : Set := mkEnvelope {
  e_event_id : uuid; e_name : string; e_version : Z; e_occurred_at : datetime;
  e_tenant_id : option uuid; e_actor : Actor; e_payload : list (string * json) }.

Definition opt_str (o : option string) : json :=
  match o with Some s => JStr s | None => JNull end.

Definition to_wire (e : EventEnvelope) : list (string * json) :=
  [ ("event_id", JStr (uuid_str (e_event_id e)));
    ("name", JStr (e_name e));
    ("version", JInt (e_version e));
    ("occurred_at", JIso (e_occurred_at e));
    ("tenant_id", match e_tenant_id e with Some t => JStr (uuid_str t) | None => JNull end);
    ("actor", JObj [ ("kind", JStr (kind_str (a_kind (e_actor e))));
                     ("id", opt_str (a_id (e_actor e))) ]);
    ("payload", JObj (e_payload e)) ].

Definition kind_of_str (s : string) : option ActorKind :=
  if bool_decide (s = "user") then Some KUser
  else if bool_decide (s = "system") then Some KSystem
  else if bool_decide (s = "integration") then Some KIntegration
  else None.

Definition uuid_of_json (v : json) : res exn uuid :=
  match v with JStr s => need (uuid_parse s) EValue | _ => Raise EAttribute end.

(** [EventEnvelope.from_wire]: a missing key is KeyError, a value of another
    type than [to_wire] writes is TypeError or ValueError. *)
Definition from_wire (data : list (string * json)) : res exn EventEnvelope :=
  rbind (need (assoc "actor" data) EKey) (fun actor_data =>
  rbind (match actor_data with JObj o => Ok o | _ => Raise EType end) (fun ao =>
  rbind (need (assoc "kind" ao) EKey) (fun kind =>
  rbind (match kind with JStr s => need (kind_of_str s) EValue | _ => Raise EValue end) (fun k =>
  rbind (need (assoc "tenant_id" data) EKey) (fun tenant_raw =>
  rbind (rbind (need (assoc "event_id" data) EKey) uuid_of_json) (fun event_id =>
  rbind (match assoc "name" data with
         | Some (JStr s) => Ok s | Some _ => Raise EType | None => Raise EKey end) (fun name =>
  rbind (match assoc "version" data with
         | Some (JInt z) => Ok z | Some _ => Raise EType | None => Raise EKey end) (fun version =>
  rbind (match assoc "occurred_at" data with
         | Some (JIso t) => Ok t | Some _ => Raise EValue | None => Raise EKey end) (fun occurred =>
  rbind (match tenant_raw with
         | JNull => Ok None
         | v => rbind (uuid_of_json v) (fun u => Ok (Some u)) end) (fun tenant =>
  rbind (match assoc "id" ao with
         | Some (JStr s) => Ok (Some s) | Some JNull => Ok None
         | Some _ => Raise EType | None => Raise EKey end) (fun aid =>
  rbind (match assoc "payload" data with
         | Some (JObj o) => Ok o | Some _ => Raise EType | None => Raise EKey end) (fun payload =>
  Ok (mkEnvelope event_id name version occurred tenant (mkActor k aid) payload))))))))))))).

Definition valid_envelope (e : EventEnvelope) : Prop :=
  valid_uuid (e_event_id e) /\
  match e_tenant_id e with Some t => valid_uuid t | None => True end.

Lemma from_wire_to_wire e : valid_envelope e -> from_wire (to_wire e) = Ok e.
Proof.
  intros [Hi Ht]. set (w := to_wire e).
  assert (assoc "actor" w = Some (JObj [("kind", JStr (kind_str (a_kind (e_actor e))));
                                        ("id", opt_str (a_id (e_actor e)))])) as E1 by reflexivity.
  assert (assoc "tenant_id" w = Some (match e_tenant_id e with
            | Some t => JStr (uuid_str t) | None => JNull end)) as E2 by reflexivity.
  assert (assoc "event_id" w = Some (JStr (uuid_str (e_event_id e)))) as E3 by reflexivity.
  assert (assoc "name" w = Some (JStr (e_name e))) as E4 by reflexivity.
  assert (assoc "version" w = Some (JInt (e_version e))) as E5 by reflexivity.
  assert (assoc "occurred_at" w = Some (JIso (e_occurred_at e))) as E6 by reflexivity.
  assert (assoc "payload" w = Some (JObj (e_payload e))) as E7 by reflexivity.
  clearbody w. unfold from_wire. rewrite E1, E2, E3, E4, E5, E6, E7. clear - Hi Ht.
  destruct e as [i n v o t [k a] p]. cbn [e_event_id e_tenant_id e_actor a_kind a_id] in *.
  cbn [rbind need uuid_of_json].
  change (assoc "kind" _) with (Some (JStr (kind_str k))).
  change (assoc "id" _) with (Some (opt_str a)).
  cbn [rbind need uuid_of_json]. rewrite uuid_parse_str by done.
  assert (kind_of_str (kind_str k) = Some k) as -> by by destruct k.
  cbn [rbind need]. destruct t as [t|]; cbn [rbind need uuid_of_json];
    [rewrite uuid_parse_str by done; cbn [rbind need]|]; by destruct a.
Qed.

(** ** The registry and delivery

    Handlers are statements over the publisher's state [S]. *)
Section Bus.
Context {S : Type}.
Abbreviation HM A := (M exn S A).

Record BusSubscription := mkBusSub {
  bs_pattern : string;
  bs_handler : EventEnvelope -> HM unit;
  bs_reliable : bool;
  bs_handler_id : string;
  bs_maintenance : bool }.

(** [_subscriptions] in registration order; [_by_id] is the same list keyed
    by [handler_id]; [_enqueue] is [None] until startup binds it. *)
Record EventBus := mkBus {
  bus_subscriptions : list BusSubscription;
  bus_enqueue : option (string -> list (string * json) -> HM unit) }.

Definition empty_bus : EventBus := mkBus [] None.
Definition bind_enqueue (enqueue : string -> list (string * json) -> HM unit) (b : EventBus) :=
  mkBus (bus_subscriptions b) (Some enqueue).

(** [resolve]: [None] is LookupError. *)
Definition resolve (b : EventBus) (handler_id : string) : option BusSubscription :=
  List.find (fun s => bool_decide (bs_handler_id s = handler_id)) (bus_subscriptions b).

(** [subscribe(pattern, reliable, maintenance)] applied to the handler
    [module.qualname]. *)
Definition subscribe (pattern : string) (reliable maintenance : bool)
    (module qualname : string) (handler : EventEnvelope -> HM unit)
    (b : EventBus) : res exn EventBus :=
  match validate_pattern pattern with
  | Raise e => Raise e
  | Ok _ =>
    if maintenance && negb reliable then Raise EValue
    else
      let top := hd "" (split "." module) in
      if (is_wildcard pattern || maintenance) && negb (bool_decide (top = "core"))
      then Raise ERuntime
      else
        let handler_id := module +:+ "." +:+ qualname in
        match resolve b handler_id with
        | Some _ => Raise ERuntime
        | None =>
            Ok (mkBus (bus_subscriptions b ++
                       [mkBusSub pattern handler reliable handler_id maintenance])
                      (bus_enqueue b))
        end
  end.

Definition subscriptions_for (b : EventBus) (name : string) : list BusSubscription :=
  List.filter (fun s => pattern_matches (bs_pattern s) name) (bus_subscriptions b).

(** Errors of one delivery are logged: [except Exception] (a cancellation
    is not an [Exception]). *)
Definition swallow (m : HM unit) : HM unit :=
  catch m (fun e => match e with ECancelled => raise ECancelled | _ => ret tt end).

Definition deliver (enq : string -> list (string * json) -> HM unit) (event : EventEnvelope)
    (s : BusSubscription) : HM unit :=
  if bs_reliable s then swallow (enq (bs_handler_id s) (to_wire event))
  else swallow (bs_handler s event).

Definition publish (b : EventBus) (event : EventEnvelope) : HM unit :=
  lift_res (validate_event_name (e_name event)) ;;;
  let matching := subscriptions_for b (e_name event) in
  match bus_enqueue b with
  | None =>
      guardM (existsb bs_reliable matching) ERuntime ;;;
      for_each matching (deliver (fun _ _ => raise ERuntime) event)
  | Some enq => for_each matching (deliver enq event)
  end.
End Bus.
Arguments EventBus : clear implicits.
Arguments BusSubscription : clear implicits.

(** ** Properties of the bus *)

Section BusFacts.
Context {S : Type}.
Implicit Types (b : EventBus S) (s : BusSubscription S).

Definition wf_bus b : Prop :=
  NoDup (bs_handler_id <$> bus_subscriptions b) /\
  Forall (fun s => (bs_maintenance s = true -> bs_reliable s = true) /\
                   validate_pattern (bs_pattern s) = Ok tt) (bus_subscriptions b).

Lemma resolve_None b i :
  resolve b i = None <-> i ∉ (bs_handler_id <$> bus_subscriptions b).
Proof.
  unfold resolve. split.
  - intros H Hin. apply list_elem_of_fmap in Hin as (s & -> & Hs).
    apply list_elem_of_In in Hs.
    pose proof (List.find_none _ _ H _ Hs) as Hf. simpl in Hf.
    by rewrite bool_decide_eq_false in Hf.
  - intros Hin. destruct (List.find _ _) as [s|] eqn:E; [|done].
    apply List.find_some in E as [Hs Hi]. apply bool_decide_eq_true in Hi as <-.
    exfalso. apply Hin, list_elem_of_fmap. exists s. split; [done|]. by apply list_elem_of_In.
Qed.

Lemma subscribe_wf pattern rel maint m q h b b' :
  wf_bus b -> subscribe pattern rel maint m q h b = Ok b' -> wf_bus b'.
Proof.
  intros [Hn Hf] H. unfold subscribe in H.
  destruct (validate_pattern pattern) as [[]|] eqn:Ev; [|done].
  destruct (maint && negb rel) eqn:Em; [done|].
  destruct ((_ || _) && _); [done|].
  destruct (resolve b _) eqn:Er; [done|]. injection H as <-.
  apply resolve_None in Er. split; simpl.
  - rewrite fmap_app. apply NoDup_app. split; [done|]. split; [|apply NoDup_singleton].
    intros x Hx Hs%list_elem_of_singleton. apply Er. by rewrite Hs in Hx.
  - apply Forall_app. split; [done|]. constructor; [|done]. simpl. split; [|done].
    intros ->. by destruct rel.
Qed.

Lemma subscribe_resolves pattern rel maint m q h b b' :
  subscribe pattern rel maint m q h b = Ok b' ->
  exists s, resolve b' (m +:+ "." +:+ q) = Some s /\
            bs_pattern s = pattern /\ bs_reliable s = rel /\ bs_maintenance s = maint.
Proof.
  intros H. unfold subscribe in H.
  destruct (validate_pattern pattern) as [[]|]; [|discriminate].
  destruct (maint && negb rel); [discriminate|].
  destruct ((_ || _) && _); [discriminate|].
  destruct (resolve b _) eqn:Er; [discriminate|]. injection H as <-. unfold resolve in *. simpl.
  exists (mkBusSub pattern h rel (m +:+ "." +:+ q) maint). split; [|done].
  revert Er. generalize (m +:+ "." +:+ q). intros i.
  induction (bus_subscriptions b) as [|s l IH]; simpl.
  - intros _. by rewrite bool_decide_true.
  - destruct (bool_decide _); [discriminate|]. apply IH.
Qed.
End BusFacts.
