(* ===== verification/Session.v ===== *)
(** Sessions, units of work, services and repositories:
    src/shared/service.py, src/shared/repository.py,
    src/shared/system_repository.py, src/shared/money.py,
    src/shared/pagination.py and the settings billing and commerce read.

    A statement of a service is an [SM] computation. ORM entities are
    identified by their primary key: assigning an attribute of a loaded
    entity updates the session's row, so every holder of the entity sees it
    (SQLAlchemy's identity map). [flush] is where PostgreSQL checks ranges
    and constraints; a failed flush outside a savepoint aborts the
    transaction, and any further statement raises. *)

From stdpp Require Import base strings gmap list sorting pretty.
From Stdlib Require Import ZArith Lia Ascii.
From S2P Require Import Prelude Errors PyLib Calendar Entities Models Events Resilience.

(** ** What lies outside the program

    Clock readings, UUIDv7s and opaque tokens in the order they are drawn;
    what concurrent transactions commit while this one waits; library
    functions whose code is not part of the repository. *)
Inductive HttpResult : Set :=
| HttpResponse (status_code : Z) (body : option json)   (* None: not JSON *)
| HttpError (message : string).                          (* httpx.HTTPError *)

Record Env : Type := mkEnv {
  env_now : nat -> datetime;
  env_uuid7 : nat -> uuid;
  env_token : nat -> string;
  env_rival : nat -> Db -> Db;
  env_http : nat -> list (string * string) -> HttpResult;  (* POSTs to the Stripe API *)
  env_mono : nat -> Z;                            (* time.monotonic() *)
  env_epoch : nat -> Z;                           (* time.time(), in microseconds *)
  py_json_loads : string -> option json;          (* None: JSONDecodeError *)
  py_fromisoformat : string -> option datetime;   (* None: ValueError *)
  py_urlsplit : string -> option (string * string);  (* scheme, netloc *)
  py_repr : json -> string;                       (* str() of a list or dict *)
  py_repr_items : list (string * string) -> string;  (* str(sorted(d.items())) *)
  py_isoformat : datetime -> string;
  py_timestamp_ms : datetime -> Z;                (* int(t.timestamp() * 1000) *)
  md5_hex : string -> string;
  sha256_hex : string -> string;
  hmac_sha256_hex : string -> string -> string;
  b64encode : string -> string;
  b64decode : string -> option string }.          (* None: binascii/unicode error *)

(** The service instances of one unit of work. *)
Inductive svc : Set :=
| SvcPayments | SvcBilling | SvcProducts | SvcOrders | SvcCart | SvcAuth | SvcTenants
| SvcNotifications | SvcEntitlements | SvcOnboarding | SvcContacts | SvcDeals | SvcActivities
| SvcFiles | SvcImages.
#[export] Instance svc_eq_dec : EqDecision svc.
Proof. solve_decision. Defined.

(** What Redis stores under a key: a counter's decimal string is kept as
    the number. *)
Inductive rval : Set := RInt (n : Z) | RStr (s : string).
#[export] Instance rval_eq_dec : EqDecision rval.
Proof. solve_decision. Defined.

Record St : Type := mkSt {
  env : Env;
  db : Db;                  (* the session's view *)
  committed : Db;           (* what a rollback returns to *)
  aborted : bool;           (* a flush failed outside a savepoint *)
  callbacks : list (svc * list EventEnvelope);  (* uow._callbacks, pending events of each service *)
  published : list EventEnvelope;               (* events handed to the bus *)
  resolved : gmap N (gset string);              (* AccessService._resolved *)
  n_now : nat; n_uuid : nat; n_token : nat; n_rival : nat;  (* draws so far *)
  breakers : gmap string CircuitBreaker;        (* one per target, for the process's life *)
  n_http : nat;
  redis : gmap string (rval * option datetime);  (* keys with their expiry *)
  blobs : gmap string string;                    (* the object storage *)
  tokens : gmap string string }.                 (* bearer tokens channel instances hold *)

Abbreviation SM A := (M exn St A).

Definition st_db (f : Db -> Db) (s : St) : St :=
  mkSt (env s) (f (db s)) (committed s) (aborted s) (callbacks s) (published s) (resolved s)
       (n_now s) (n_uuid s) (n_token s) (n_rival s) (breakers s) (n_http s) (redis s) (blobs s) (tokens s).
Definition st_abort (b : bool) (s : St) : St :=
  mkSt (env s) (db s) (committed s) b (callbacks s) (published s) (resolved s)
       (n_now s) (n_uuid s) (n_token s) (n_rival s) (breakers s) (n_http s) (redis s) (blobs s) (tokens s).
Definition st_callbacks (f : list (svc * list EventEnvelope) -> list (svc * list EventEnvelope))
    (s : St) : St :=
  mkSt (env s) (db s) (committed s) (aborted s) (f (callbacks s)) (published s) (resolved s)
       (n_now s) (n_uuid s) (n_token s) (n_rival s) (breakers s) (n_http s) (redis s) (blobs s) (tokens s).
Definition st_resolved (f : gmap N (gset string) -> gmap N (gset string)) (s : St) : St :=
  mkSt (env s) (db s) (committed s) (aborted s) (callbacks s) (published s) (f (resolved s))
       (n_now s) (n_uuid s) (n_token s) (n_rival s) (breakers s) (n_http s) (redis s) (blobs s) (tokens s).

(** ** Primitive statements *)

Definition EPendingRollback : exn := EOther "PendingRollbackError".
Definition EData : exn := EOther "DataError".
Definition EDetached : exn := EOther "DetachedInstanceError".

(** A SELECT: refused in an aborted transaction. *)
Definition get_db : SM Db := fun s =>
  if aborted s then (Raise EPendingRollback, s) else (Ok (db s), s).

(** The in-memory state of a loaded entity. *)
Definition load {R} `{Table R} (i : uuid) : SM R := fun s =>
  match t_get (db s) !! i with
  | Some r => (Ok r, s)
  | None => (Raise EDetached, s)
  end.

(** Assignment to attributes of a loaded entity. *)
Definition upd {R} `{Table R} (i : uuid) (f : R -> R) : SM unit :=
  modify (st_db (fun d => t_set (alter f i (t_get d)) d)).

Definition flush : SM unit := fun s =>
  if aborted s then (Raise EPendingRollback, s)
  else if negb (db_ranges (db s)) then (Raise EData, st_abort true s)
  else if negb (db_ok (db s)) then (Raise EIntegrity, st_abort true s)
  else (Ok tt, s).

Definition now : SM datetime := fun s =>
  (Ok (env_now (env s) (n_now s)),
   mkSt (env s) (db s) (committed s) (aborted s) (callbacks s) (published s) (resolved s)
        (S (n_now s)) (n_uuid s) (n_token s) (n_rival s) (breakers s) (n_http s) (redis s) (blobs s) (tokens s)).

Definition new_uuid7 : SM uuid := fun s =>
  (Ok (env_uuid7 (env s) (n_uuid s)),
   mkSt (env s) (db s) (committed s) (aborted s) (callbacks s) (published s) (resolved s)
        (n_now s) (S (n_uuid s)) (n_token s) (n_rival s) (breakers s) (n_http s) (redis s) (blobs s) (tokens s)).

Definition new_opaque_token : SM string := fun s =>
  (Ok (env_token (env s) (n_token s)),
   mkSt (env s) (db s) (committed s) (aborted s) (callbacks s) (published s) (resolved s)
        (n_now s) (n_uuid s) (S (n_token s)) (n_rival s) (breakers s) (n_http s) (redis s) (blobs s) (tokens s)).

(** Concurrent transactions commit while an INSERT waits for them. *)
Definition rivals : SM unit := fun s =>
  let f := env_rival (env s) (n_rival s) in
  (Ok tt,
   mkSt (env s) (f (db s)) (f (committed s)) (aborted s) (callbacks s) (published s) (resolved s)
        (n_now s) (n_uuid s) (n_token s) (S (n_rival s)) (breakers s) (n_http s) (redis s) (blobs s) (tokens s)).

(** src/shared/locks.py: whoever held the lock has committed when it is
    granted, and holders of it are shut out until the transaction ends. *)
Definition advisory_xact_lock (key : string) : SM unit := fun s =>
  if aborted s then (Raise EPendingRollback, s) else rivals s.

(** [session.add(row)] followed by [session.flush()]: an INSERT. A second row
    under one primary key violates its constraint. *)
Definition insert_row {R} `{Table R} (r : R) : SM unit := fun s =>
  if aborted s then (Raise EPendingRollback, s)
  else match t_get (db s) !! t_id r with
       | Some _ => (Raise EIntegrity, st_abort true s)
       | None => flush (st_db (t_put r) s)
       end.

(** [async with session.begin_nested(): body] — flushes, opens a savepoint,
    waits for concurrent inserters, and returns to the savepoint when the
    body raises. *)
Definition begin_nested {A} (body : SM A) : SM A :=
  flush ;;; rivals ;;;
  (fun s => match body s with
            | (Ok a, s') => (Ok a, s')
            | (Raise e, s') => (Raise e, st_abort (aborted s) (st_db (fun _ => db s) s'))
            end).

(** A clock for durations and one for timestamps; a breaker of the process. *)
Definition monotonic : SM Z := t <- now ;; s <- get_st ;; ret (env_mono (env s) (n_now s)).
Definition epoch : SM Z := t <- now ;; s <- get_st ;; ret (env_epoch (env s) (n_now s)).

Definition breaker_at (key : string) (fresh : CircuitBreaker) : BreakerRef St :=
  mkRef (fun s => default fresh (breakers s !! key))
        (fun b s => mkSt (env s) (db s) (committed s) (aborted s) (callbacks s) (published s)
                      (resolved s) (n_now s) (n_uuid s) (n_token s) (n_rival s)
                      (<[key := b]> (breakers s)) (n_http s) (redis s) (blobs s) (tokens s)).

(** ** [str(v)] of a JSON value *)
Definition py_str (en : Env) (v : json) : string :=
  match v with
  | JNull => "None"
  | JBool true => "True"
  | JBool false => "False"
  | JInt z => pretty z
  | JFloat r => r
  | JStr s => s
  | JIso t => py_isoformat en t
  | JList _ | JObj _ => py_repr en v
  end.

(** ** Queries *)

Definition scalar_one_or_none {R} (l : list R) : SM (option R) :=
  match l with
  | [] => ret None
  | [r] => ret (Some r)
  | _ => raise EMultipleResults
  end.

Definition query {R} `{Table R} (p : R -> bool) : SM (list R) :=
  d <- get_db ;; ret (select p (t_get d)).

(** [session.get(Model, pk)] *)
Definition session_get {R} `{Table R} (i : uuid) : SM (option R) :=
  d <- get_db ;; ret (t_get d !! i).

(** ORDER BY a timestamp, ascending or descending. *)
Definition le_by {R} (k : R -> Z) (a b : R) : Prop := (k a <= k b)%Z.
#[export] Instance le_by_dec {R} (k : R -> Z) (a b : R) : Decision (le_by k a b).
Proof. unfold le_by. apply _. Defined.
#[export] Instance le_by_total {R} (k : R -> Z) : Total (le_by k).
Proof. intros a b. unfold le_by. lia. Qed.
#[export] Instance le_by_trans {R} (k : R -> Z) : Transitive (le_by k).
Proof. intros a b c. unfold le_by. lia. Qed.
Definition order_asc {R} (k : R -> Z) : list R -> list R := merge_sort (le_by k).
Definition order_desc {R} (k : R -> Z) : list R -> list R := merge_sort (le_by (fun r => - k r)%Z).

(** ** src/shared/pagination.py *)

Definition MAX_PAGE_LIMIT : Z := 200.
Record Page : Set := mkPage { pg_limit : Z; pg_offset : Z }.
Definition new_page (limit offset : Z) : res exn Page :=
  if negb ((1 <=? limit)%Z && (limit <=? MAX_PAGE_LIMIT)%Z) then Raise EValue
  else if (offset <? 0)%Z then Raise EValue
  else Ok (mkPage limit offset).
Record PageResult (A : Type) : Type := mkPageResult {
  pr_items : list A; pr_total : Z; pr_limit : Z; pr_offset : Z }.
Arguments mkPageResult {A}.
Arguments pr_items {A}. Arguments pr_total {A}. Arguments pr_limit {A}. Arguments pr_offset {A}.

(** LIMIT / OFFSET *)
Definition paginate {R} (page : Page) (l : list R) : list R :=
  take (Z.to_nat (pg_limit page)) (drop (Z.to_nat (pg_offset page)) l).

(** ** src/shared/money.py *)

Record Money : Set := mkMoney { m_amount : Z; m_currency : string }.
#[export] Instance money_eq_dec : EqDecision Money.
Proof. solve_decision. Defined.

(** [Money.__post_init__] *)
Definition new_money (amount : Z) (currency : string) : res exn Money :=
  if (amount <? 0)%Z then Raise EValue
  else if negb (Nat.eqb (String.length currency) 3) || negb (str_isalpha currency)
          || negb (str_isupper currency) then Raise EValue
  else Ok (mkMoney amount currency).

(** [CurrencyRegistry]: exponents loaded once from the currencies table. *)
Definition CurrencyRegistry : Set := gmap string Z.
Definition cr_load (rows : list (string * Z)) : CurrencyRegistry :=
  foldl (fun m '(code, exponent) => <[code := exponent]> m) ∅ rows.
Definition cr_exponent (reg : CurrencyRegistry) (code : string) : res exn Z :=
  match reg !! code with
  | Some e => Ok e
  | None => Raise (EDomain NotFoundError ("unknown currency: " +:+ code))
  end.
Definition cr_is_loaded (reg : CurrencyRegistry) : bool := negb (bool_decide (reg = ∅)).

(** ** Settings (src/shared/config.py) read by the modelled code *)
Record Settings : Set := mkSettings {
  enabled_payment_providers : string;
  payment_checkout_ttl_seconds : Z;
  billing_auto_subscribe : bool;
  billing_default_plan_code : string }.

Definition split_csv (raw : string) : list string :=
  omap (fun item => if str_empty (strip item) then None else Some (strip item)) (split "," raw).
Definition enabled_payment_provider_list (st : Settings) : list string :=
  split_csv (enabled_payment_providers st).

(** ** src/shared/repository.py *)

Class TenantTable (R : Type) `{Table R} := { t_tenant : R -> uuid }.
#[export] Instance sub_tt : TenantTable Subscription := {| t_tenant := s_tenant_id |}.
#[export] Instance pay_tt : TenantTable Payment := {| t_tenant := p_tenant_id |}.
#[export] Instance product_tt : TenantTable Product := {| t_tenant := pr_tenant_id |}.
#[export] Instance cart_tt : TenantTable Cart := {| t_tenant := ca_tenant_id |}.
#[export] Instance cart_item_tt : TenantTable CartItem := {| t_tenant := ci_tenant_id |}.
#[export] Instance order_tt : TenantTable Order := {| t_tenant := o_tenant_id |}.
#[export] Instance order_item_tt : TenantTable OrderItem := {| t_tenant := oi_tenant_id |}.
#[export] Instance membership_tt : TenantTable Membership := {| t_tenant := mb_tenant_id |}.
#[export] Instance invitation_tt : TenantTable Invitation := {| t_tenant := iv_tenant_id |}.
#[export] Instance setting_tt : TenantTable NotificationSetting := {| t_tenant := ns_tenant_id |}.
#[export] Instance entitlement_tt : TenantTable TenantEntitlement := {| t_tenant := te_tenant_id |}.
#[export] Instance usage_tt : TenantTable UsageCounter := {| t_tenant := uc_tenant_id |}.
#[export] Instance progress_tt : TenantTable OnboardingProgress := {| t_tenant := op_tenant_id |}.
#[export] Instance company_tt : TenantTable Company := {| t_tenant := cm_tenant_id |}.
#[export] Instance contact_tt : TenantTable Contact := {| t_tenant := ct_tenant_id |}.
#[export] Instance deal_tt : TenantTable Deal := {| t_tenant := dl_tenant_id |}.
#[export] Instance activity_tt : TenantTable Activity := {| t_tenant := ac_tenant_id |}.
#[export] Instance file_tt : TenantTable StoredFile := {| t_tenant := sf_tenant_id |}.
#[export] Instance image_tt : TenantTable ProductImage := {| t_tenant := im_tenant_id |}.

Section Repository.
Context {R : Type} `{TenantTable R}.

(** [Repository.__init__]: the repository is its tenant. *)
Definition repo_init (ctx : TenantContext) : SM uuid :=
  match c_tenant_id ctx with
  | None => raise (EDomain InvariantViolationError "tenant-scoped repository requires ctx.tenant_id")
  | Some t => ret t
  end.

(** [_select().where(p)]: the tenant filter is part of every query. *)
Definition repo_select (tenant : uuid) (p : R -> bool) : SM (list R) :=
  query (fun r => bool_decide (t_tenant r = tenant) && p r).

Definition repo_get (tenant : uuid) (entity_id : uuid) : SM (option R) :=
  l <- repo_select tenant (fun r => bool_decide (t_id r = entity_id)) ;; scalar_one_or_none l.

Definition repo_get_or_raise (model : string) (tenant entity_id : uuid) : SM R :=
  o <- repo_get tenant entity_id ;;
  match o with
  | None => raise (EDomain NotFoundError (model +:+ " " +:+ uuid_str entity_id +:+ " not found"))
  | Some r => ret r
  end.

Definition repo_find (tenant : uuid) (p : R -> bool) (order_by : list R -> list R)
    (page : option Page) : SM (list R) :=
  l <- repo_select tenant p ;;
  let l := order_by l in
  ret (match page with Some pg => paginate pg l | None => l end).

Definition repo_count (tenant : uuid) (p : R -> bool) : SM Z :=
  l <- repo_select tenant p ;; ret (Z.of_nat (length l)).

Definition repo_find_paged (tenant : uuid) (p : R -> bool) (order_by : list R -> list R)
    (page : Page) : SM (PageResult R) :=
  items <- repo_find tenant p order_by (Some page) ;;
  total <- repo_count tenant p ;;
  ret (mkPageResult items total (pg_limit page) (pg_offset page)).

(** [add]: [entity t] is the entity stamped with tenant [t]; [preset] is the
    tenant it carried before. *)
Definition repo_add (tenant : uuid) (preset : option uuid) (entity : uuid -> R) : SM R :=
  match preset with
  | Some t => if bool_decide (t = tenant) then ret tt
              else raise (EDomain PermissionDeniedError "entity is stamped with another tenant_id")
  | None => ret tt
  end ;;;
  let r := entity tenant in
  insert_row r ;;; ret r.

Definition repo_delete (tenant : uuid) (r : R) : SM unit :=
  if bool_decide (t_tenant r = tenant) then modify (st_db (t_del (t_id r)))
  else raise (EDomain PermissionDeniedError "entity belongs to another tenant").
End Repository.

(** ** [GlobalRepository]: tables without a tenant *)
Section GlobalRepository.
Context {R : Type} `{Table R}.

Definition global_get (pk : uuid) : SM (option R) := session_get pk.

Definition global_get_or_raise (model : string) (pk : uuid) : SM R :=
  o <- global_get pk ;;
  match o with
  | None => raise (EDomain NotFoundError (model +:+ " " +:+ uuid_str pk +:+ " not found"))
  | Some r => ret r
  end.

Definition global_find (p : R -> bool) (order_by : list R -> list R) (page : option Page) : SM (list R) :=
  l <- query p ;;
  let l := order_by l in
  ret (match page with Some pg => paginate pg l | None => l end).

Definition global_count (p : R -> bool) : SM Z := l <- query p ;; ret (Z.of_nat (length l)).

Definition global_add (r : R) : SM R := insert_row r ;;; ret r.

Definition global_delete (r : R) : SM unit := modify (st_db (t_del (t_id r))).
End GlobalRepository.

(** ** src/shared/system_repository.py: reads without a tenant filter *)
Section SystemRepository.
Context {R : Type} `{Table R}.

(** [.limit(2)] and a ValueError on a second match. *)
Definition sys_get_one_or_none (p : R -> bool) : SM (option R) :=
  l <- query p ;;
  match take 2 l with
  | [] => ret None
  | [r] => ret (Some r)
  | _ => raise EValue
  end.

Definition sys_find (p : R -> bool) (order_by : list R -> list R) (limit : option nat)
    : SM (list R) :=
  l <- query p ;;
  let l := order_by l in
  ret (match limit with Some n => take n l | None => l end).

Definition sys_count (p : R -> bool) : SM Z := l <- query p ;; ret (Z.of_nat (length l)).
End SystemRepository.

(** ** src/shared/service.py: events of a transaction, and the transaction *)

(** [Service._envelope] *)
Definition envelope (ctx : TenantContext) (name : string) (payload : list (string * json))
    (version : Z) : SM EventEnvelope :=
  lift_res (validate_event_name name) ;;;
  i <- new_uuid7 ;;
  t <- now ;;
  ret (mkEnvelope i name version t (c_tenant_id ctx) (c_actor ctx) payload).

(** The first event of a service registers its callback; later ones join its
    pending list. *)
Fixpoint queue_event (sv : svc) (e : EventEnvelope) (l : list (svc * list EventEnvelope))
    : list (svc * list EventEnvelope) :=
  match l with
  | [] => [(sv, [e])]
  | (sv', es) :: l' =>
      if bool_decide (sv = sv') then (sv', es ++ [e]) :: l' else (sv', es) :: queue_event sv e l'
  end.

Definition emit (sv : svc) (ctx : TenantContext) (name : string) (payload : list (string * json))
    : SM uuid :=
  e <- envelope ctx name payload 1 ;;
  modify (st_callbacks (queue_event sv e)) ;;;
  ret (e_event_id e).

Definition publish_now (e : EventEnvelope) : SM unit := fun s =>
  (Ok tt,
   mkSt (env s) (db s) (committed s) (aborted s) (callbacks s) (published s ++ [e]) (resolved s)
        (n_now s) (n_uuid s) (n_token s) (n_rival s) (breakers s) (n_http s) (redis s) (blobs s) (tokens s)).

(** [Service.emit_now]: published whatever becomes of the transaction. *)
Definition emit_now (ctx : TenantContext) (name : string) (payload : list (string * json))
    : SM uuid :=
  e <- envelope ctx name payload 1 ;;
  publish_now e ;;;
  ret (e_event_id e).

(** ** Statements on sets of rows *)

(** [session.execute(update(Model).where(p).values(...))]: the session is
    flushed, the rows that match are rewritten, the constraints are checked;
    the result is the number of rows. *)
Definition update_where {R} `{Table R} (p : R -> bool) (f : R -> R) : SM Z :=
  flush ;;;
  d <- get_db ;;
  modify (st_db (fun d => t_set ((fun r => if p r then f r else r) <$> t_get d) d)) ;;;
  flush ;;;
  ret (Z.of_nat (length (select p (t_get d)))).

(** [session.execute(delete(Model).where(p))] *)
Definition delete_where {R} `{Table R} (p : R -> bool) : SM Z :=
  flush ;;;
  d <- get_db ;;
  modify (st_db (fun d => t_set (filter (fun '(_, r) => p r = false) (t_get d)) d)) ;;;
  flush ;;;
  ret (Z.of_nat (length (select p (t_get d)))).

(** [session.delete(entity)] *)
Definition session_delete {R} `{Table R} (i : uuid) : SM unit := modify (st_db (t_del (R:=R) i)).

(** A number drawn from the random source. *)
Definition draw : SM nat := fun s => (Ok (n_token s), (new_opaque_token s).2).

(** [SqlAlchemyUnitOfWork.__aenter__]: a fresh session. *)
Definition uow_enter (s : St) : St :=
  mkSt (env s) (committed s) (committed s) false [] (published s) ∅
       (n_now s) (n_uuid s) (n_token s) (n_rival s) (breakers s) (n_http s) (redis s) (blobs s) (tokens s).

Definition uow_rollback (s : St) : St :=
  mkSt (env s) (committed s) (committed s) false [] (published s) ∅
       (n_now s) (n_uuid s) (n_token s) (n_rival s) (breakers s) (n_http s) (redis s) (blobs s) (tokens s).

(** [session.commit()]: flushes, then makes the session's view durable. *)
Definition session_commit : SM unit :=
  flush ;;;
  modify (fun s => mkSt (env s) (db s) (db s) (aborted s) (callbacks s) (published s) (resolved s)
                        (n_now s) (n_uuid s) (n_token s) (n_rival s) (breakers s) (n_http s) (redis s) (blobs s) (tokens s)).

Definition pending_events (l : list (svc * list EventEnvelope)) : list EventEnvelope :=
  concat (snd <$> l).

(** The post-commit callbacks publish the pending events, service by service. *)
Definition uow_publish (s : St) : St :=
  mkSt (env s) (db s) (committed s) (aborted s) [] (published s ++ pending_events (callbacks s))
       ∅ (n_now s) (n_uuid s) (n_token s) (n_rival s) (breakers s) (n_http s) (redis s) (blobs s) (tokens s).

(** [async with SqlAlchemyUnitOfWork(...) as uow: body] *)
Definition with_uow {A} (body : SM A) : SM A := fun s =>
  match (a <- body ;; session_commit ;;; ret a) (uow_enter s) with
  | (Ok a, s') => (Ok a, uow_publish s')
  | (Raise e, s') => (Raise e, uow_rollback s')
  end.

(** A unit of work on a session of its own, opened while this one goes on:
    [merge] tells what of its commit this session sees. *)
Definition own_uow {A} (merge : Db -> Db -> Db) (body : SM A) : SM A := fun s =>
  let '(r, s1) := with_uow body s in
  (r, mkSt (env s1) (merge (committed s1) (db s)) (committed s1) (aborted s) (callbacks s)
        (published s1) (resolved s) (n_now s1) (n_uuid s1) (n_token s1) (n_rival s1)
        (breakers s1) (n_http s1) (redis s1) (blobs s1) (tokens s1)).
