(* ===== verification/SessionFacts.v ===== *)
(** Reasoning about sessions: rules for the primitive statements, the
    evolution of the database under a block of statements, and atomicity of
    units of work. *)

From stdpp Require Import base strings gmap list sorting.
From Stdlib Require Import ZArith Lia.
From S2P Require Import Prelude Errors PyLib Calendar Entities Models Events Session Resilience.

(** ** Running primitives *)

Section Run.
Context {E S : Type}.

Lemma bind_Ok {A B} (m : M E S A) (k : A -> M E S B) s a s' :
  m s = (Ok a, s') -> bind m k s = k a s'.
Proof. unfold bind. by intros ->. Qed.

Lemma bind_Raise {A B} (m : M E S A) (k : A -> M E S B) s e s' :
  m s = (Raise e, s') -> bind m k s = (Raise e, s').
Proof. unfold bind. by intros ->. Qed.

Lemma bind_inv_Ok {A B} (m : M E S A) (k : A -> M E S B) s b s'' :
  bind m k s = (Ok b, s'') -> exists a s', m s = (Ok a, s') /\ k a s' = (Ok b, s'').
Proof. unfold bind. destruct (m s) as [[a|e] s']; [eauto|done]. Qed.
End Run.

Lemma get_db_run s : aborted s = false -> get_db s = (Ok (db s), s).
Proof. unfold get_db. by intros ->. Qed.

Lemma load_run {R} `{Table R} i (r : R) s : t_get (db s) !! i = Some r -> load i s = (Ok r, s).
Proof. unfold load. by intros ->. Qed.

Lemma flush_run s :
  aborted s = false -> db_ranges (db s) = true -> db_ok (db s) = true -> flush s = (Ok tt, s).
Proof. unfold flush. by intros -> -> ->. Qed.

Lemma flush_inv s r s' :
  flush s = (r, s') ->
  db s' = db s /\ committed s' = committed s /\ env s' = env s /\
  match r with
  | Ok _ => s' = s /\ aborted s = false /\ db_ranges (db s) = true /\ db_ok (db s) = true
  | Raise _ => aborted s' = true
  end.
Proof.
  unfold flush. destruct (aborted s) eqn:?; [by intros [= <- <-]|].
  destruct (db_ranges (db s)) eqn:?; simpl; [|by intros [= <- <-]].
  destruct (db_ok (db s)) eqn:?; simpl; by intros [= <- <-].
Qed.

Lemma query_run {R} `{Table R} (p : R -> bool) s :
  aborted s = false -> query p s = (Ok (select p (t_get (db s))), s).
Proof. intros Ha. unfold query, bind. by rewrite get_db_run. Qed.

Lemma session_get_run {R} `{Table R} i s :
  aborted s = false -> session_get (R:=R) i s = (Ok (t_get (db s) !! i), s).
Proof. intros Ha. unfold session_get, bind. by rewrite get_db_run. Qed.

Lemma alter_insert_Some {A} (f : A -> A) i (t : gmap N A) a :
  t !! i = Some a -> alter f i t = <[i := f a]> t.
Proof.
  intros Hi. apply map_eq. intros j. destruct (decide (i = j)) as [<-|Hne].
  - by rewrite lookup_alter_eq, lookup_insert_eq, Hi.
  - by rewrite lookup_alter_ne, lookup_insert_ne.
Qed.

Lemma upd_run {R} `{Table R} s i (r : R) f :
  t_get (db s) !! i = Some r ->
  upd i f s = (Ok tt, st_db (fun d => t_set (<[i := f r]> (t_get d)) d) s).
Proof.
  intros Hi. unfold upd, modify, st_db. by rewrite (alter_insert_Some f i _ r Hi).
Qed.

(** A SELECT leaves the state as it is, whatever its outcome. *)
Lemma query_state {R} `{Table R} (p : R -> bool) s : (query p s).2 = s.
Proof. unfold query, get_db, bind. by destruct (aborted s). Qed.

(** ** Rows found by primary key and tenant *)

Definition Keyed {R} `{Table R} (d : Db) : Prop :=
  forall i (r : R), t_get d !! i = Some r -> t_id r = i.

Lemma rows_ids_NoDup {R} `{Table R} (d : Db) :
  Keyed (R:=R) d -> NoDup (t_id <$> rows (t_get (R:=R) d)).
Proof.
  intros Hk. unfold rows. rewrite <- list_fmap_compose.
  assert (t_id ∘ snd <$> map_to_list (t_get (R:=R) d) = fst <$> map_to_list (t_get d)) as ->.
  { apply list_fmap_ext. intros j [k r] Hj. simpl.
    apply list_elem_of_lookup_2, elem_of_map_to_list in Hj. by apply Hk. }
  apply NoDup_fst_map_to_list.
Qed.

Lemma NoDup_fmap_filter {A B} (f : A -> B) (p : A -> bool) l :
  NoDup (f <$> l) -> NoDup (f <$> List.filter p l).
Proof.
  induction l as [|x l IH]; simpl; [done|]. intros [Hx Hl]%NoDup_cons.
  destruct (p x); simpl; [|auto]. apply NoDup_cons. split; [|auto].
  intros Hin. apply Hx. apply list_elem_of_fmap in Hin as (y & Hy & Hyl).
  apply list_elem_of_In, List.filter_In in Hyl as [Hyl _].
  rewrite Hy. apply list_elem_of_fmap_2. by apply list_elem_of_In.
Qed.

Lemma select_ids_NoDup {R} `{Table R} (d : Db) (p : R -> bool) :
  Keyed (R:=R) d -> NoDup (t_id <$> select p (t_get d)).
Proof. intros Hk. by apply NoDup_fmap_filter, rows_ids_NoDup. Qed.

Lemma filter_none {A} (p : A -> bool) l : (forall a, a ∈ l -> p a = false) -> List.filter p l = [].
Proof.
  induction l as [|x l IH]; intros H; [done|]. simpl. rewrite H by set_solver. apply IH. set_solver.
Qed.

(** A SELECT that matches one row. *)
Lemma select_unique {R} (p : R -> bool) (t : gmap N R) i a :
  t !! i = Some a -> p a = true ->
  (forall j b, t !! j = Some b -> p b = true -> j = i) -> select p t = [a].
Proof.
  intros Hi Ha Hu. unfold select, rows.
  assert (Hin : (i, a) ∈ map_to_list t) by by apply elem_of_map_to_list.
  assert (Hu' : forall j b, (j, b) ∈ map_to_list t -> p b = true -> j = i)
    by (intros j b Hj%elem_of_map_to_list; eauto).
  pose proof (NoDup_fst_map_to_list t) as Hnd. revert Hin Hu' Hnd.
  generalize (map_to_list t) as l. clear Hi Hu t.
  induction l as [|[j b] l IH]; intros Hin Hu Hnd; [by apply elem_of_nil in Hin|].
  simpl in *. apply NoDup_cons in Hnd as [Hj Hnd].
  assert (Hrest : forall j' b', (j', b') ∈ l -> p b' = true -> j' = i) by (intros; eapply Hu; set_solver).
  apply elem_of_cons in Hin as [Heq|Hin].
  - injection Heq as <- <-. rewrite Ha. f_equal. clear IH Hu.
    assert (Hno : forall b, b ∈ l.*2 -> p b = false).
    { intros b' Hb'. apply list_elem_of_fmap in Hb' as ([j' b2] & -> & Hl). simpl.
      destruct (p b2) eqn:Hp; [|done]. exfalso. apply Hj. rewrite <- (Hrest _ _ Hl Hp).
      apply list_elem_of_fmap. by exists (j', b2). }
    by apply filter_none.
  - destruct (p b) eqn:Hb; [|by apply IH].
    exfalso. apply Hj. rewrite (Hu j b ltac:(set_solver) Hb).
    apply list_elem_of_fmap. by exists (i, a).
Qed.

Lemma select_none {R} (p : R -> bool) (t : gmap N R) :
  (forall j b, t !! j = Some b -> p b = false) -> select p t = [].
Proof.
  intros H. destruct (select p t) as [|x l] eqn:E; [done|]. exfalso.
  assert (Hx : x ∈ select p t) by (rewrite E; set_solver).
  apply elem_of_select in Hx as [[j Hj] Hp]. rewrite (H _ _ Hj) in Hp. done.
Qed.

Lemma select_by_id {R} `{Table R} (d : Db) (p : R -> bool) i :
  Keyed (R:=R) d ->
  select (fun r => bool_decide (t_id r = i) && p r) (t_get d) =
  match t_get d !! i with Some r => if p r then [r] else [] | None => [] end.
Proof.
  intros Hk. destruct (t_get d !! i) as [r|] eqn:Er.
  - pose proof (Hk _ _ Er) as Hi. destruct (p r) eqn:Hp.
    + apply select_unique with (i:=i); [done| |].
      * by rewrite bool_decide_true, Hp.
      * intros j b Hj [Hb _]%andb_prop. apply bool_decide_eq_true in Hb. by rewrite <- Hb, (Hk _ _ Hj).
    + apply select_none. intros j b Hj. destruct (bool_decide_reflect (t_id b = i)) as [Hb|]; [|done].
      rewrite (Hk _ _ Hj) in Hb. subst j. simplify_eq. by rewrite Hp.
  - apply select_none. intros j b Hj. rewrite bool_decide_false; [done|].
    rewrite (Hk _ _ Hj). intros ->. congruence.
Qed.

Lemma select_ext {R} (p q : R -> bool) (t : gmap N R) :
  (forall r, p r = q r) -> select p t = select q t.
Proof.
  intros H. unfold select. induction (rows t) as [|x l IH]; [done|]. simpl. by rewrite H, IH.
Qed.

(** ** Evolution of the database

    [evo R]: a block takes the session's view (and what is committed) from
    [d] to some [d'] with [R d d'], provided concurrent transactions do. *)

Definition RivalOk (R : Db -> Db -> Prop) (en : Env) : Prop := forall k d, R d (env_rival en k d).

(** No transaction commits while this one waits. *)
Definition no_rivals (en : Env) : Prop := forall k d, env_rival en k d = d.

(** Identifiers are not drawn twice. *)
Definition draws_differ (en : Env) : Prop := forall n m, env_uuid7 en n = env_uuid7 en m -> n = m.

(** ... and the block itself neither commits nor publishes. *)
Definition evo (R : Db -> Db -> Prop) (s s' : St) : Prop :=
  env s' = env s /\
  (RivalOk R (env s) -> R (db s) (db s') /\ R (committed s) (committed s')) /\
  (no_rivals (env s) -> committed s' = committed s) /\ published s' = published s.

Lemma evo_intro (R : Db -> Db -> Prop) `{!PreOrder R} s s' :
  env s' = env s -> R (db s) (db s') -> committed s' = committed s ->
  published s' = published s -> evo R s s'.
Proof.
  intros He Hd Hc Hp. split; [done|]. split; [|done]. intros _. split; [done|]. rewrite Hc. reflexivity.
Qed.

#[export] Instance evo_preorder R `{!PreOrder R} : PreOrder (evo R).
Proof.
  split.
  - intros s. by apply (evo_intro R).
  - intros s1 s2 s3 (E1 & H1 & N1 & P1) (E2 & H2 & N2 & P2). rewrite E1 in H2, N2.
    split; [congruence|]. split; [|split; [|congruence]].
    + intros HR. destruct (H1 HR), (H2 HR). split; etransitivity; eauto.
    + intros HN. by rewrite N2, N1.
Qed.

Section Evo.
Context (R : Db -> Db -> Prop) `{!PreOrder R}.

Ltac evo_refl := apply (evo_intro R); [done | simpl; reflexivity | done | done].

Lemma evo_get_db : steps (evo R) get_db.
Proof. intros s. unfold get_db. destruct (aborted s); evo_refl. Qed.

Lemma evo_load {T} `{Table T} i : steps (evo R) (load (R:=T) i).
Proof. intros s. unfold load. destruct (t_get (db s) !! i); evo_refl. Qed.

Lemma evo_flush : steps (evo R) flush.
Proof.
  intros s. unfold flush. destruct (aborted s); [evo_refl|].
  destruct (negb (db_ranges _)); [evo_refl|]. destruct (negb (db_ok _)); evo_refl.
Qed.

Lemma evo_now : steps (evo R) now.
Proof. intros s. evo_refl. Qed.
Lemma evo_new_uuid7 : steps (evo R) new_uuid7.
Proof. intros s. evo_refl. Qed.
Lemma evo_new_opaque_token : steps (evo R) new_opaque_token.
Proof. intros s. evo_refl. Qed.

Lemma evo_rivals : steps (evo R) rivals.
Proof.
  intros s. split; [done|]. split; [intros HR; simpl; split; apply HR|].
  split; [|done]. intros HN. apply HN.
Qed.

Lemma evo_scalar {T} (l : list T) : steps (evo R) (scalar_one_or_none l).
Proof. unfold scalar_one_or_none. steps_walk. Qed.

Lemma evo_query {T} `{Table T} (p : T -> bool) : steps (evo R) (query p).
Proof. unfold query. apply steps_bind; [apply _|apply evo_get_db|]. steps_walk. Qed.

Lemma evo_session_get {T} `{Table T} i : steps (evo R) (session_get (R:=T) i).
Proof. unfold session_get. apply steps_bind; [apply _|apply evo_get_db|]. steps_walk. Qed.

Lemma evo_upd {T} `{Table T} i (f : T -> T) :
  (forall d, R d (t_set (alter f i (t_get d)) d)) -> steps (evo R) (upd i f).
Proof. intros HR s. apply (evo_intro R); [done|apply HR|done|done]. Qed.

Lemma evo_insert_row {T} `{Table T} (r : T) :
  (forall d, t_get d !! t_id r = None -> R d (t_put r d)) -> steps (evo R) (insert_row r).
Proof.
  intros HR s. unfold insert_row. destruct (aborted s); [evo_refl|].
  destruct (t_get (db s) !! t_id r) eqn:E; [evo_refl|].
  transitivity (st_db (t_put r) s); [|apply evo_flush].
  apply (evo_intro R); [done|by apply HR|done|done].
Qed.

Lemma evo_begin_nested {A} (body : SM A) :
  steps (evo R) body -> steps (evo R) (begin_nested body).
Proof.
  intros Hb. unfold begin_nested.
  apply steps_bind; [apply _|apply evo_flush|intros _].
  apply steps_bind; [apply _|apply evo_rivals|intros _].
  intros s. specialize (Hb s). destruct (body s) as [[a|e] s']; simpl in *; [done|].
  destruct Hb as (He & Hr & Hn & Hp). split; [done|]. split; [|done]. intros HR. simpl.
  split; [reflexivity|]. by apply Hr.
Qed.

Lemma evo_repo_init ctx : steps (evo R) (repo_init ctx).
Proof. unfold repo_init. steps_walk. Qed.

Lemma evo_repo_select {T} `{TenantTable T} t (p : T -> bool) : steps (evo R) (repo_select t p).
Proof. apply evo_query. Qed.

Lemma evo_repo_get {T} `{TenantTable T} t i : steps (evo R) (repo_get (R:=T) t i).
Proof.
  unfold repo_get. apply steps_bind; [apply _|apply evo_repo_select|]. intros. apply evo_scalar.
Qed.

Lemma evo_repo_get_or_raise {T} `{TenantTable T} m t i :
  steps (evo R) (repo_get_or_raise (R:=T) m t i).
Proof.
  unfold repo_get_or_raise. apply steps_bind; [apply _|apply evo_repo_get|]. steps_walk.
Qed.

Lemma evo_repo_find {T} `{TenantTable T} t (p : T -> bool) o pg :
  steps (evo R) (repo_find t p o pg).
Proof. unfold repo_find. apply steps_bind; [apply _|apply evo_repo_select|]. steps_walk. Qed.

Lemma evo_repo_count {T} `{TenantTable T} t (p : T -> bool) : steps (evo R) (repo_count t p).
Proof. unfold repo_count. apply steps_bind; [apply _|apply evo_repo_select|]. steps_walk. Qed.

Lemma evo_repo_find_paged {T} `{TenantTable T} t (p : T -> bool) o pg :
  steps (evo R) (repo_find_paged t p o pg).
Proof.
  unfold repo_find_paged. apply steps_bind; [apply _|apply evo_repo_find|]. intros.
  apply steps_bind; [apply _|apply evo_repo_count|]. steps_walk.
Qed.

Lemma evo_repo_add {T} `{TenantTable T} t pre (mk : uuid -> T) :
  (forall d, t_get d !! t_id (mk t) = None -> R d (t_put (mk t) d)) ->
  steps (evo R) (repo_add t pre mk).
Proof.
  intros HR. unfold repo_add. apply steps_bind; [apply _|steps_walk|]. intros _.
  apply steps_bind; [apply _|by apply evo_insert_row|]. steps_walk.
Qed.

Lemma evo_sys_get_one {T} `{Table T} (p : T -> bool) : steps (evo R) (sys_get_one_or_none p).
Proof. unfold sys_get_one_or_none. apply steps_bind; [apply _|apply evo_query|]. steps_walk. Qed.

Lemma evo_sys_find {T} `{Table T} (p : T -> bool) o l : steps (evo R) (sys_find p o l).
Proof. unfold sys_find. apply steps_bind; [apply _|apply evo_query|]. steps_walk. Qed.

Lemma evo_envelope ctx n p v : steps (evo R) (envelope ctx n p v).
Proof.
  unfold envelope. apply steps_bind; [apply _|steps_walk|]. intros _.
  apply steps_bind; [apply _|apply evo_new_uuid7|]. intros.
  apply steps_bind; [apply _|apply evo_now|]. steps_walk.
Qed.

Lemma evo_emit sv ctx n p : steps (evo R) (emit sv ctx n p).
Proof.
  unfold emit. apply steps_bind; [apply _|apply evo_envelope|]. intros.
  apply steps_bind; [apply _| |steps_walk]. intros s. evo_refl.
Qed.

Lemma evo_st_resolved f : steps (evo R) (modify (E:=exn) (st_resolved f)).
Proof. intros s. evo_refl. Qed.

(** ** Units of work are atomic *)

Lemma with_uow_evo {A} (body : SM A) s :
  steps (evo R) body -> RivalOk R (env s) ->
  R (committed s) (committed (with_uow body s).2) /\ env (with_uow body s).2 = env s.
Proof.
  intros Hb HR. unfold with_uow, bind.
  specialize (Hb (uow_enter s)). destruct (body (uow_enter s)) as [[a|e] s1]; simpl in *.
  - destruct Hb as (He & Hr & _). destruct (Hr HR) as [Hd Hc]. simpl in Hd, Hc.
    unfold session_commit, bind.
    destruct (flush s1) as [[[]|e] s2] eqn:Ef;
      apply flush_inv in Ef as (E1 & E2 & E3 & _); simpl; rewrite ?E1, ?E2, ?E3; done.
  - destruct Hb as (He & Hr & _). destruct (Hr HR) as [Hd Hc]. simpl in *. done.
Qed.

(** Without concurrent commits: a block that ends well is committed whole
    and then its events are published; one that raises leaves nothing. *)
Lemma with_uow_cases {A} (body : SM A) s :
  steps (evo R) body -> no_rivals (env s) ->
  (exists a s1, body (uow_enter s) = (Ok a, s1) /\
     aborted s1 = false /\ db_ranges (db s1) = true /\ db_ok (db s1) = true /\
     (with_uow body s).1 = Ok a /\ committed (with_uow body s).2 = db s1 /\
     published (with_uow body s).2 = published s ++ pending_events (callbacks s1)) \/
  (exists e, (with_uow body s).1 = Raise e /\ committed (with_uow body s).2 = committed s /\
     published (with_uow body s).2 = published s).
Proof.
  intros Hb HN. specialize (Hb (uow_enter s)). unfold with_uow, bind.
  destruct (body (uow_enter s)) as [[a|e] s1] eqn:Eb; simpl in Hb;
    destruct Hb as (He & _ & Hc & Hp); specialize (Hc HN).
  - unfold session_commit, bind. destruct (flush s1) as [[[]|e] s2] eqn:Ef.
    + pose proof Ef as (_ & _ & _ & -> & Ha & Hr & Hk)%flush_inv. left. exists a, s1. simpl.
      rewrite Hp. auto 10.
    + right. exists e. simpl. assert (published s2 = published s1) as Hps.
      { unfold flush in Ef. destruct (aborted s1); [by simplify_eq|].
        destruct (db_ranges _); [destruct (db_ok _)|]; simpl in Ef; by simplify_eq. }
      apply flush_inv in Ef as (_ & E2 & _). rewrite E2, Hps. auto.
  - right. exists e. auto.
Qed.

Lemma with_uow_db {A} (body : SM A) s : db (with_uow body s).2 = committed (with_uow body s).2.
Proof.
  unfold with_uow.
  destruct ((a <- body;; session_commit;;; ret a) (uow_enter s)) as [[a|e] s'] eqn:E; [|done].
  simpl. apply bind_inv_Ok in E as (a' & s1 & _ & E).
  apply bind_inv_Ok in E as (u & s2 & E & E'). injection E' as -> <-.
  apply bind_inv_Ok in E as (u' & s3 & _ & E). unfold modify in E. by simplify_eq.
Qed.
End Evo.

#[export] Hint Resolve evo_get_db evo_load evo_flush evo_now evo_new_uuid7 evo_new_opaque_token
  evo_rivals evo_scalar evo_query evo_session_get evo_repo_init evo_repo_select evo_repo_get
  evo_repo_get_or_raise evo_repo_find evo_repo_count evo_repo_find_paged evo_sys_get_one
  evo_sys_find evo_envelope evo_emit evo_st_resolved : steps.

(** ** Tables a relation does not look at *)

Class Ignores (R : Db -> Db -> Prop) (T : Type) `{Table T} : Prop :=
  ignores : forall d (t : gmap N T), R d (t_set t d).

(** A relation that allows any write that keeps primary keys. *)
Class Tolerates (R : Db -> Db -> Prop) (T : Type) `{Table T} : Prop := {
  tol_upd : forall d i (f : T -> T), (forall r, t_id (f r) = t_id r) ->
    R d (t_set (alter f i (t_get d)) d);
  tol_put : forall d (r : T), R d (t_put r d);
  tol_del : forall d i, R d (t_del (R:=T) i d);
  tol_map : forall d (f : T -> T), (forall r, t_id (f r) = t_id r) ->
    R d (t_set (f <$> t_get d) d);
  tol_filter : forall d (P : N * T -> Prop) `{!forall x, Decision (P x)},
    R d (t_set (filter P (t_get d)) d) }.

#[export] Instance ignores_tolerates R T `{Table T, !Ignores R T} : Tolerates R T.
Proof. split; intros; apply ignores. Qed.

Section Tolerated.
Context (R : Db -> Db -> Prop) `{!PreOrder R} {T : Type} `{Table T, !Tolerates R T}.

Lemma evo_upd_tolerated i (f : T -> T) :
  (forall r, t_id (f r) = t_id r) -> steps (evo R) (upd i f).
Proof. intros Hf. apply (evo_upd R). intros d. by apply tol_upd. Qed.

Lemma evo_insert_tolerated (r : T) : steps (evo R) (insert_row r).
Proof. apply (evo_insert_row R). intros d _. apply tol_put. Qed.

Lemma evo_repo_add_tolerated `{!TenantTable T} t pre (mk : uuid -> T) :
  steps (evo R) (repo_add t pre mk).
Proof. apply (evo_repo_add R). intros d _. apply tol_put. Qed.

Lemma evo_put_tolerated (r : T) : steps (evo R) (modify (E:=exn) (st_db (t_put r))).
Proof. intros s. apply (evo_intro R); [done|apply tol_put|done|done]. Qed.

Lemma evo_repo_delete_tolerated `{!TenantTable T} t (r : T) : steps (evo R) (repo_delete t r).
Proof.
  unfold repo_delete. case_bool_decide; [|auto with steps typeclass_instances].
  intros s. apply (evo_intro R); [done|apply tol_del|done|done].
Qed.
End Tolerated.

#[export] Hint Resolve evo_insert_tolerated evo_repo_add_tolerated evo_put_tolerated
  evo_repo_delete_tolerated : steps.
#[export] Hint Extern 2 (steps (evo _) (upd _ _)) =>
  (apply evo_upd_tolerated; [typeclasses eauto|typeclasses eauto|intros; reflexivity]) : steps.

(** A block that depends on the state it starts from. *)
Lemma evo_load_bind {T A} `{Table T} (R : Db -> Db -> Prop) `{!PreOrder R} i (k : T -> SM A) :
  (forall r s, t_get (db s) !! i = Some r -> evo R s (k r s).2) ->
  steps (evo R) (bind (load i) k).
Proof.
  intros Hk s. unfold bind, load. destruct (t_get (db s) !! i) eqn:E; [by apply Hk|]. reflexivity.
Qed.

Lemma rel_bind {E S A B} (R : S -> S -> Prop) `{!PreOrder R} (m : M E S A) (k : A -> M E S B) s :
  R s (m s).2 -> (forall a, steps R (k a)) -> R s (bind m k s).2.
Proof.
  intros Hm Hk. unfold bind. destruct (m s) as [[a|e] s']; simpl in *; [|done].
  etransitivity; [done|apply Hk].
Qed.

Lemma rel_bind_post {E S A B} (R : S -> S -> Prop) `{!PreOrder R} (m : M E S A)
    (k : A -> M E S B) s :
  R s (m s).2 -> (forall a s', m s = (Ok a, s') -> R s' (k a s').2) -> R s (bind m k s).2.
Proof.
  intros Hm Hk. unfold bind. destruct (m s) as [[a|e] s']; simpl in *; [|done].
  etransitivity; [done|by apply Hk].
Qed.

(** ** Inversion of successful inserts and savepoints *)

Lemma insert_row_Ok {T} `{Table T} (r : T) s u s' :
  insert_row r s = (Ok u, s') ->
  s' = st_db (t_put r) s /\ aborted s = false /\ t_get (db s) !! t_id r = None /\
  db_ranges (t_put r (db s)) = true /\ db_ok (t_put r (db s)) = true.
Proof.
  unfold insert_row. destruct (aborted s) eqn:Ha; [done|].
  destruct (t_get (db s) !! t_id r) eqn:Eg; [done|].
  intros Hf. pose proof Hf as (_ & _ & _ & -> & _ & Hr & Hk)%flush_inv. auto.
Qed.

Lemma begin_nested_Ok {A} (body : SM A) s a s' :
  begin_nested body s = (Ok a, s') ->
  db_ok (db s) = true /\ aborted s = false /\ body (rivals s).2 = (Ok a, s').
Proof.
  unfold begin_nested. intros H. apply bind_inv_Ok in H as (u & s1 & Hf & H).
  pose proof Hf as (_ & _ & _ & -> & Ha & _ & Hk)%flush_inv.
  apply bind_inv_Ok in H as (u' & s2 & Hr & H).
  assert ((rivals s).2 = s2) as -> by (by rewrite Hr).
  destruct (body s2) as [[b|e] s3] eqn:Eb; simplify_eq. auto.
Qed.

Lemma repo_add_Ok {T} `{TenantTable T} t pre (mk : uuid -> T) s r s' :
  repo_add t pre mk s = (Ok r, s') ->
  r = mk t /\ s' = st_db (t_put (mk t)) s /\ aborted s = false /\
  t_get (db s) !! t_id (mk t) = None /\ db_ok (db s') = true.
Proof.
  unfold repo_add. intros H1. apply bind_inv_Ok in H1 as (u & s1 & Hp & H1).
  assert (s1 = s) as ->.
  { destruct pre as [t'|]; [case_bool_decide|]; unfold ret, raise in Hp; by simplify_eq. }
  apply bind_inv_Ok in H1 as (u' & s2 & Hi & H1). unfold ret in H1. simplify_eq.
  apply insert_row_Ok in Hi as (-> & ? & ? & ? & ?). auto.
Qed.

Lemma load_inv {R} `{Table R} i s (r : R) s' :
  load i s = (Ok r, s') -> s' = s /\ t_get (db s) !! i = Some r.
Proof. unfold load. destruct (t_get (db s) !! i); naive_solver. Qed.

(** A failed savepoint leaves the session as it was. *)
Lemma begin_nested_Raise {A} (body : SM A) s e s' :
  no_rivals (env s) -> begin_nested body s = (Raise e, s') ->
  db s' = db s.
Proof.
  intros Hr. unfold begin_nested, bind.
  destruct (flush s) as [[u|e1] s1] eqn:Ef.
  - pose proof Ef as (_ & _ & _ & -> & _)%flush_inv. unfold rivals at 1. simpl.
    destruct (body _) as [[a|e1] s2] eqn:Eb; intros H; simplify_eq. simpl. apply Hr.
  - intros H. simplify_eq. by apply flush_inv in Ef as (-> & _).
Qed.

Lemma catch_inv_Ok {E S A} (m : M E S A) h s a s' :
  catch m h s = (Ok a, s') ->
  m s = (Ok a, s') \/ exists e s1, m s = (Raise e, s1) /\ h e s1 = (Ok a, s').
Proof. unfold catch. destruct (m s) as [[b|e] s1]; [auto|eauto]. Qed.


(** ** Blocks that leave the database and the pending events alone *)

Definition quiet (s s' : St) : Prop :=
  env s' = env s /\ db s' = db s /\ committed s' = committed s /\ aborted s' = aborted s /\
  callbacks s' = callbacks s /\ published s' = published s /\ n_uuid s' = n_uuid s /\
  n_rival s' = n_rival s.

#[export] Instance quiet_preorder : PreOrder quiet.
Proof.
  split; unfold quiet.
  - done.
  - intros x y z H1 H2. destruct_and!. repeat split; congruence.
Qed.

Lemma quiet_evo R `{!PreOrder R} s s' : quiet s s' -> evo R s s'.
Proof.
  intros (He & Hd & Hc & _ & _ & Hp & _). apply (evo_intro R); [done| |done|done]. rewrite Hd. reflexivity.
Qed.

Lemma quiet_steps_evo R `{!PreOrder R} {A} (m : SM A) : steps quiet m -> steps (evo R) m.
Proof. intros H s. by apply quiet_evo, H. Qed.

Lemma quiet_now : steps quiet now.
Proof. done. Qed.
Lemma quiet_query {T} `{Table T} (p : T -> bool) : steps quiet (query p).
Proof. intros s. rewrite query_state. reflexivity. Qed.
Lemma quiet_load {T} `{Table T} i : steps quiet (load (R:=T) i).
Proof. intros s. unfold load. destruct (_ !! i); reflexivity. Qed.
#[export] Hint Resolve quiet_now quiet_query quiet_load : steps.

Lemma quiet_get_db : steps quiet get_db.
Proof. intros s. unfold get_db. by destruct (aborted s). Qed.
Lemma quiet_session_get {T} `{Table T} i : steps quiet (session_get (R:=T) i).
Proof. pose proof quiet_get_db. unfold session_get. steps_walk. Qed.
Lemma quiet_scalar {T} (l : list T) : steps quiet (scalar_one_or_none l).
Proof. unfold scalar_one_or_none. steps_walk. Qed.
#[export] Hint Resolve quiet_get_db quiet_session_get quiet_scalar : steps.

Lemma quiet_breaker key fresh b : steps quiet (modify (E:=exn) (ref_set (breaker_at key fresh) b)).
Proof. done. Qed.
Lemma quiet_monotonic : steps quiet monotonic.
Proof. unfold monotonic. steps_walk. Qed.
Lemma quiet_epoch : steps quiet epoch.
Proof. unfold epoch. steps_walk. Qed.
#[export] Hint Resolve quiet_breaker quiet_monotonic quiet_epoch : steps.

(** A resilient call is as quiet as its operation. *)
Lemma quiet_resilient {A} key fresh tr cls (op : SM A) n :
  steps quiet op -> steps quiet (resilient_loop monotonic (Some (breaker_at key fresh)) tr cls op n).
Proof.
  intros Hop. induction n as [|n IH]; simpl; [steps_walk|].
  unfold breaker_allow, breaker_update, breaker_name, give_last. steps_walk; auto.
Qed.

Lemma quiet_db {A} (m : SM A) s r s' : steps quiet m -> m s = (r, s') -> quiet s s'.
Proof. intros H E. specialize (H s). by rewrite E in H. Qed.

(** ** Frames: a part of the database that stays as it is *)

Section Same.
Context {X : Type} (proj : Db -> X).
Definition same (d d' : Db) : Prop := proj d' = proj d.
#[export] Instance same_preorder : PreOrder same.
Proof. split; unfold same; [done|]. intros x y z ??. congruence. Qed.

Lemma no_rivals_same en : no_rivals en -> RivalOk same en.
Proof. intros Hr k d. unfold same. by rewrite Hr. Qed.
End Same.

(** What a unit of work that ended well has committed. *)
Lemma uow_Ok {A} (body : SM A) s a :
  (with_uow body s).1 = Ok a ->
  exists s1, body (uow_enter s) = (Ok a, s1) /\ committed (with_uow body s).2 = db s1 /\
    env (with_uow body s).2 = env s1 /\ db_ok (db s1) = true /\ db_ranges (db s1) = true.
Proof.
  unfold with_uow, bind. destruct (body (uow_enter s)) as [[b|e] s1] eqn:Eb; [|done].
  unfold session_commit, bind. destruct (flush s1) as [[u|e] s2] eqn:Ef; [|done].
  pose proof Ef as (_ & _ & _ & -> & _ & Hr & Hk)%flush_inv. simpl. intros [= ->]. eauto 10.
Qed.
Lemma with_uow_raise {A} (body : SM A) s e s1 :
  body (uow_enter s) = (Raise e, s1) -> with_uow body s = (Raise e, uow_rollback s1).
Proof. intros E. unfold with_uow, bind. by rewrite E. Qed.

Lemma uow_env {A} (body : SM A) s :
  env (body (uow_enter s)).2 = env s -> env (with_uow body s).2 = env s.
Proof.
  intros He. unfold with_uow, bind. destruct (body (uow_enter s)) as [[a|e] s1]; simpl in *; [|done].
  unfold session_commit, bind. destruct (flush s1) as [[u|e] s2] eqn:Ef;
    apply flush_inv in Ef as (_ & _ & E2 & _); simpl; by rewrite E2.
Qed.
