(* ===== verification/Footprints.v ===== *)
(** Footprints of statements that do not wait for other transactions.

    [Stmt R X]: the relation [X] on sessions allows every change of the
    session's view along [R] that commits and publishes nothing and leaves
    Redis and the object storage alone. What a block
    of such statements does is proved once, for every [X]: [evo R] (the block
    is part of a transaction), [direct R] (it may commit on its way). *)

From stdpp Require Import base strings gmap list sorting.
From Stdlib Require Import ZArith Lia.
From S2P Require Import Prelude Errors PyLib Calendar Entities Models Events Session SessionFacts.

Class Stmt (R : Db -> Db -> Prop) (X : St -> St -> Prop) : Prop := {
  stmt_rel : PreOrder R;
  stmt_pre : PreOrder X;
  stmt_intro : forall s s', env s' = env s -> committed s' = committed s ->
    published s' = published s -> redis s' = redis s -> blobs s' = blobs s ->
    R (db s) (db s') -> X s s' }.

(** [X] does not look at Redis either. *)
Class Loose (X : St -> St -> Prop) : Prop := loose : forall s s', quiet s s' -> X s s'.

#[export] Instance stmt_evo R `{!PreOrder R} : Stmt R (evo R).
Proof. split; [apply _..|]. intros s s' He Hc Hp _ _ Hd. by apply (evo_intro R). Qed.
#[export] Instance loose_evo R `{!PreOrder R} : Loose (evo R).
Proof. intros s s'. apply (quiet_evo R). Qed.

Section Stmt.
Context {R : Db -> Db -> Prop} (X : St -> St -> Prop) `{!Stmt R X}.
#[local] Instance X_preorder : PreOrder X := stmt_pre.
#[local] Instance R_preorder : PreOrder R := stmt_rel.

Lemma stmt_same s s' :
  env s' = env s -> committed s' = committed s -> published s' = published s ->
  redis s' = redis s -> blobs s' = blobs s -> db s' = db s -> X s s'.
Proof. intros ????? Hd. apply stmt_intro; [done..|]. rewrite Hd. reflexivity. Qed.

Lemma stmt_quiet `{!Loose X} {A} (m : SM A) : steps quiet m -> steps X m.
Proof. intros H s. by apply loose. Qed.

Lemma stmt_get_db : steps X get_db.
Proof. intros s. unfold get_db. destruct (aborted s); by apply stmt_same. Qed.
Lemma stmt_load {T} `{Table T} i : steps X (load (R:=T) i).
Proof. intros s. unfold load. destruct (_ !! i); by apply stmt_same. Qed.
Lemma stmt_flush : steps X flush.
Proof.
  intros s. unfold flush. destruct (aborted s); [by apply stmt_same|].
  destruct (negb (db_ranges _)); [by apply stmt_same|].
  destruct (negb (db_ok _)); by apply stmt_same.
Qed.
Lemma stmt_now : steps X now.
Proof. intros s. by apply stmt_same. Qed.
Lemma stmt_new_uuid7 : steps X new_uuid7.
Proof. intros s. by apply stmt_same. Qed.
Lemma stmt_new_opaque_token : steps X new_opaque_token.
Proof. intros s. by apply stmt_same. Qed.
Lemma stmt_draw : steps X draw.
Proof. intros s. by apply stmt_same. Qed.
Lemma stmt_resolved f : steps X (modify (E:=exn) (st_resolved f)).
Proof. intros s. by apply stmt_same. Qed.

Lemma stmt_scalar {T} (l : list T) : steps X (scalar_one_or_none l).
Proof. unfold scalar_one_or_none. steps_walk. Qed.
Lemma stmt_query {T} `{Table T} (p : T -> bool) : steps X (query p).
Proof. pose proof stmt_get_db. unfold query. steps_walk. Qed.
Lemma stmt_session_get {T} `{Table T} i : steps X (session_get (R:=T) i).
Proof. pose proof stmt_get_db. unfold session_get. steps_walk. Qed.
Lemma stmt_global_get {T} `{Table T} i : steps X (global_get (R:=T) i).
Proof. apply stmt_session_get. Qed.
Lemma stmt_global_get_or_raise {T} `{Table T} m i : steps X (global_get_or_raise (R:=T) m i).
Proof. pose proof (@stmt_global_get T _). unfold global_get_or_raise. steps_walk. Qed.
Lemma stmt_repo_init ctx : steps X (repo_init ctx).
Proof. unfold repo_init. steps_walk. Qed.
Lemma stmt_repo_select {T} `{TenantTable T} t (p : T -> bool) : steps X (repo_select t p).
Proof. apply stmt_query. Qed.
Lemma stmt_repo_get {T} `{TenantTable T} t i : steps X (repo_get (R:=T) t i).
Proof. pose proof (@stmt_scalar T). pose proof (@stmt_repo_select T _ _). unfold repo_get. steps_walk. Qed.
Lemma stmt_repo_get_or_raise {T} `{TenantTable T} m t i : steps X (repo_get_or_raise (R:=T) m t i).
Proof. pose proof (@stmt_repo_get T _ _). unfold repo_get_or_raise. steps_walk. Qed.
Lemma stmt_repo_find {T} `{TenantTable T} t (p : T -> bool) o pg : steps X (repo_find t p o pg).
Proof. pose proof (@stmt_repo_select T _ _). unfold repo_find. steps_walk. Qed.
Lemma stmt_repo_count {T} `{TenantTable T} t (p : T -> bool) : steps X (repo_count t p).
Proof. pose proof (@stmt_repo_select T _ _). unfold repo_count. steps_walk. Qed.
Lemma stmt_repo_find_paged {T} `{TenantTable T} t (p : T -> bool) o pg :
  steps X (repo_find_paged t p o pg).
Proof.
  pose proof (@stmt_repo_find T _ _). pose proof (@stmt_repo_count T _ _).
  unfold repo_find_paged. steps_walk.
Qed.
Lemma stmt_sys_get_one {T} `{Table T} (p : T -> bool) : steps X (sys_get_one_or_none p).
Proof. pose proof (@stmt_query T _). unfold sys_get_one_or_none. steps_walk. Qed.
Lemma stmt_sys_find {T} `{Table T} (p : T -> bool) o l : steps X (sys_find p o l).
Proof. pose proof (@stmt_query T _). unfold sys_find. steps_walk. Qed.

Lemma stmt_envelope ctx n p v : steps X (envelope ctx n p v).
Proof. pose proof stmt_new_uuid7. pose proof stmt_now. unfold envelope. steps_walk. Qed.
Lemma stmt_emit sv ctx n p : steps X (emit sv ctx n p).
Proof.
  pose proof stmt_envelope. unfold emit. steps_walk. intros s. by apply stmt_same.
Qed.

(** ** Writes to tables [R] tolerates *)

Context {T : Type} `{Table T, !Tolerates R T}.

Lemma stmt_write (g : Db -> Db) : (forall d, R d (g d)) -> steps X (modify (E:=exn) (st_db g)).
Proof. intros Hg s. by apply stmt_intro. Qed.
Lemma stmt_upd i (f : T -> T) : (forall r, t_id (f r) = t_id r) -> steps X (upd i f).
Proof. intros Hf. apply stmt_write. intros d. by apply tol_upd. Qed.
Lemma stmt_put (r : T) : steps X (modify (E:=exn) (st_db (t_put r))).
Proof. apply stmt_write. intros d. apply tol_put. Qed.
Lemma stmt_delete i : steps X (session_delete (R:=T) i).
Proof. apply stmt_write. intros d. apply tol_del. Qed.
Lemma stmt_insert_row (r : T) : steps X (insert_row r).
Proof.
  intros s. unfold insert_row. destruct (aborted s); [by apply stmt_same|].
  destruct (t_get (db s) !! t_id r); [by apply stmt_same|].
  transitivity (st_db (t_put r) s); [|apply stmt_flush]. apply stmt_intro; [done..|]. apply tol_put.
Qed.
Lemma stmt_global_add (r : T) : steps X (global_add r).
Proof. pose proof stmt_insert_row. unfold global_add. steps_walk. Qed.
Lemma stmt_repo_add `{!TenantTable T} t pre (mk : uuid -> T) : steps X (repo_add t pre mk).
Proof. pose proof stmt_insert_row. unfold repo_add. steps_walk. Qed.
Lemma stmt_repo_delete `{!TenantTable T} t (r : T) : steps X (repo_delete t r).
Proof. unfold repo_delete. steps_walk. apply (stmt_delete (t_id r)). Qed.
Lemma stmt_update_where (p : T -> bool) (f : T -> T) :
  (forall r, t_id (f r) = t_id r) -> steps X (update_where p f).
Proof.
  intros Hf. pose proof stmt_flush. pose proof stmt_get_db. unfold update_where. steps_walk.
  apply stmt_write. intros d. apply tol_map. intros r. by destruct (p r).
Qed.
Lemma stmt_delete_where (p : T -> bool) : steps X (delete_where p).
Proof.
  pose proof stmt_flush. pose proof stmt_get_db. unfold delete_where. steps_walk.
  apply stmt_write. intros d. apply tol_filter.
Qed.
End Stmt.

Create HintDb stmt discriminated.
#[export] Hint Resolve stmt_get_db stmt_load stmt_flush stmt_now stmt_new_uuid7
  stmt_new_opaque_token stmt_draw stmt_resolved stmt_scalar stmt_query stmt_session_get
  stmt_global_get stmt_global_get_or_raise stmt_repo_init stmt_repo_select stmt_repo_get
  stmt_repo_get_or_raise stmt_repo_find stmt_repo_count stmt_repo_find_paged stmt_sys_get_one
  stmt_sys_find stmt_emit stmt_put stmt_delete stmt_insert_row stmt_global_add stmt_repo_add
  stmt_repo_delete stmt_delete_where : stmt.
#[export] Hint Extern 2 (steps _ (upd _ _)) =>
  (eapply stmt_upd; [typeclasses eauto..|intros; reflexivity]) : stmt.
#[export] Hint Extern 2 (steps _ (update_where _ _)) =>
  (eapply stmt_update_where; [typeclasses eauto..|intros; reflexivity]) : stmt.

#[export] Hint Extern 3 (steps _ _) =>
  (apply stmt_quiet; [typeclasses eauto|solve [auto with steps]]) : stmt.

(** [steps_walk] over an abstract relation. *)
Ltac stmt_walk :=
  repeat first
    [ progress intros
    | solve [eauto 4 with steps stmt typeclass_instances]
    | match goal with
      | |- steps _ (bind _ _) => apply steps_bind; [typeclasses eauto | |]
      | |- steps _ (catch _ _) => apply steps_catch; [typeclasses eauto | |]
      | |- steps _ (match ?x with _ => _ end) => destruct x
      end ].

(** ** Blocks that may commit *)

(** If what is committed leads to the session's view along [R], it leads to
    what is committed after the block, and that to the view after it. *)
Definition direct (R : Db -> Db -> Prop) (s s' : St) : Prop :=
  env s' = env s /\
  (R (committed s) (db s) -> R (committed s) (committed s') /\ R (committed s') (db s')).

#[export] Instance direct_preorder R `{!PreOrder R} : PreOrder (direct R).
Proof.
  split.
  - intros s. split; [done|]. intros H. split; [reflexivity|done].
  - intros s1 s2 s3 [E1 H1] [E2 H2]. split; [congruence|]. intros H.
    destruct (H1 H) as [A1 B1], (H2 B1) as [A2 B2]. split; [by etransitivity|done].
Qed.

#[export] Instance stmt_direct R `{!PreOrder R} : Stmt R (direct R).
Proof.
  split; [apply _..|]. intros s s' He Hc _ _ _ Hd. split; [done|]. intros H. rewrite Hc.
  split; [reflexivity|]. by etransitivity.
Qed.
#[export] Instance loose_direct R `{!PreOrder R} : Loose (direct R).
Proof.
  intros s s' (He & Hd & Hc & _). split; [done|]. intros H. rewrite Hc, Hd. split; [reflexivity|done].
Qed.

Lemma direct_commit R `{!PreOrder R} : steps (direct R) session_commit.
Proof.
  unfold session_commit. apply steps_bind; [apply _|apply (stmt_flush _)|]. intros _ s.
  split; [done|]. intros H. simpl. split; [done|reflexivity].
Qed.

Lemma direct_emit_now R `{!PreOrder R} ctx n p : steps (direct R) (emit_now ctx n p).
Proof.
  unfold emit_now. apply steps_bind; [apply _|apply (stmt_envelope _)|]. intros e.
  apply steps_bind; [apply _| |steps_walk]. intros s. split; [done|]. intros H.
  split; [reflexivity|done].
Qed.

(** Relations that survive a commit and a publication on the way. *)
Class Committing (X : St -> St -> Prop) : Prop := {
  commit_steps : steps X session_commit;
  emit_now_steps : forall ctx n p, steps X (emit_now ctx n p) }.
#[export] Instance committing_direct R `{!PreOrder R} : Committing (direct R).
Proof. split; [apply (direct_commit R)|apply (direct_emit_now R)]. Qed.

(** A block that commits first and may then wait for other transactions. *)
Definition phase (R : Db -> Db -> Prop) (s s' : St) : Prop :=
  env s' = env s /\
  (RivalOk R (env s) -> R (committed s) (db s) ->
     R (committed s) (committed s') /\ R (committed s) (db s')).

Section Phase.
Context (R : Db -> Db -> Prop) `{!PreOrder R}.

Lemma phase_direct s s' : direct R s s' -> phase R s s'.
Proof.
  intros [He H]. split; [done|]. intros _ Hr. destruct (H Hr) as [H1 H2].
  split; [done|by etransitivity].
Qed.

Lemma phase_evo s s' : evo R s s' -> phase R s s'.
Proof.
  intros (He & H & _). split; [done|]. intros HR Hr. destruct (H HR) as [H1 H2].
  split; [done|by transitivity (db s)].
Qed.

Lemma phase_bind {A B} (m : SM A) (k : A -> SM B) :
  steps (direct R) m -> (forall a, steps (phase R) (k a)) -> steps (phase R) (bind m k).
Proof.
  intros Hm Hk s. specialize (Hm s). unfold bind.
  destruct (m s) as [[a|e] s1]; simpl in *; [|by apply phase_direct].
  specialize (Hk a s1). destruct Hm as [E1 H1], Hk as [E2 H2]. split; [congruence|].
  intros HR Hr. destruct (H1 Hr) as [A1 B1]. rewrite E1 in H2. destruct (H2 HR B1) as [A2 B2].
  split; by transitivity (committed s1).
Qed.

Lemma phase_steps_direct {A} (m : SM A) : steps (direct R) m -> steps (phase R) m.
Proof. intros H s. by apply phase_direct. Qed.
Lemma phase_steps_evo {A} (m : SM A) : steps (evo R) m -> steps (phase R) m.
Proof. intros H s. by apply phase_evo. Qed.

(** What a unit of work with such a body does to the committed database. *)
Lemma uow_phase {A} (body : SM A) s :
  steps (phase R) body -> RivalOk R (env s) ->
  R (committed s) (committed (with_uow body s).2) /\ env (with_uow body s).2 = env s.
Proof.
  intros Hb HR. specialize (Hb (uow_enter s)). unfold with_uow, bind.
  destruct (body (uow_enter s)) as [[a|e] s1]; simpl in *;
    destruct Hb as [He Hb]; (destruct Hb as [Hc Hd]; [done|reflexivity|]); [|done].
  unfold session_commit, bind.
  destruct (flush s1) as [[[]|e] s2] eqn:Ef;
    apply flush_inv in Ef as (E1 & E2 & E3 & _); simpl; rewrite ?E1, ?E2, ?E3; done.
Qed.
End Phase.

Lemma uow_direct R `{!PreOrder R} {A} (body : SM A) s :
  steps (direct R) body ->
  R (committed s) (committed (with_uow body s).2) /\ env (with_uow body s).2 = env s.
Proof.
  intros Hb. specialize (Hb (uow_enter s)). unfold with_uow, bind.
  destruct (body (uow_enter s)) as [[a|e] s1]; simpl in *;
    destruct Hb as [He Hb]; (destruct Hb as [Hc Hd]; [reflexivity|]); [|done].
  unfold session_commit, bind.
  destruct (flush s1) as [[[]|e] s2] eqn:Ef;
    apply flush_inv in Ef as (E1 & E2 & E3 & _); simpl; rewrite ?E1, ?E2, ?E3;
    split; try done; by transitivity (committed s1).
Qed.

(** ** Relations that do not look at the tables of accounts, tenants, ... *)

Class AccountsBlind (R : Db -> Db -> Prop) : Prop := {
  acc_users :: Tolerates R User; acc_totp :: Tolerates R UserTotp;
  acc_codes :: Tolerates R UserRecoveryCode; acc_tokens :: Tolerates R RefreshToken }.

(** The tables of files and of the feature modules. *)
Class FeatureBlind (R : Db -> Db -> Prop) : Prop := {
  feat_entitled :: Tolerates R TenantEntitlement; feat_usage :: Tolerates R UsageCounter;
  feat_progress :: Tolerates R OnboardingProgress; feat_companies :: Tolerates R Company;
  feat_contacts :: Tolerates R Contact; feat_deals :: Tolerates R Deal;
  feat_activities :: Tolerates R Activity; feat_files :: Tolerates R StoredFile;
  feat_images :: Tolerates R ProductImage }.

Class CoreBlind (R : Db -> Db -> Prop) : Prop := {
  core_preorder : PreOrder R;
  core_accounts :: AccountsBlind R;
  core_tenants :: Tolerates R Tenant; core_members :: Tolerates R Membership;
  core_roles :: Tolerates R Role; core_invites :: Tolerates R Invitation;
  core_grants : forall d f, R d (set_role_permissions f d);
  core_settings :: Tolerates R NotificationSetting; core_outbox :: Tolerates R NotificationOutbox;
  core_features :: FeatureBlind R }.

Lemma core_blind R `{!PreOrder R} : (forall f d, R d (on_core f d)) -> CoreBlind R.
Proof.
  intros H. split; [apply _|split|..|split].
  all: try (apply ignores_tolerates; intros d t; apply H).
  intros d f. apply H.
Qed.

(** ** Bodies of units of work

    What is committed on the way, and what the body hands over to the final
    commit when it ends well; what it leaves in the session when it raises
    is dropped. *)
Definition closes {A} (P : Env -> Prop) (R : Db -> Db -> Prop) (body : SM A) : Prop :=
  forall s, env (body s).2 = env s /\
    (P (env s) -> R (committed s) (db s) ->
       R (committed s) (committed (body s).2) /\
       forall a, (body s).1 = Ok a -> R (committed s) (db (body s).2)).

Section Closes.
Context (P : Env -> Prop) (R : Db -> Db -> Prop) `{!PreOrder R}.

Lemma closes_phase {A} (m : SM A) :
  (forall en, P en -> RivalOk R en) -> steps (phase R) m -> closes P R m.
Proof.
  intros HP Hm s. destruct (Hm s) as [He H]. split; [done|]. intros Hp Hr.
  destruct (H (HP _ Hp) Hr). auto.
Qed.
Lemma closes_evo {A} (m : SM A) :
  (forall en, P en -> RivalOk R en) -> (forall s, env (m s).2 = env s) ->
  (forall s, P (env s) -> evo R s (m s).2) -> closes P R m.
Proof.
  intros HP He Hm s. split; [done|]. intros Hp Hr.
  destruct (phase_evo R _ _ (Hm s Hp)) as [_ H]. destruct (H (HP _ Hp) Hr). auto.
Qed.

Lemma uow_closes {A} (body : SM A) s :
  closes P R body -> P (env s) ->
  R (committed s) (committed (with_uow body s).2) /\ env (with_uow body s).2 = env s.
Proof.
  intros Hb HP. destruct (Hb (uow_enter s)) as [He H]. unfold with_uow, bind.
  destruct (body (uow_enter s)) as [[a|e] s1]; simpl in *;
    (destruct H as [Hc Hd]; [done|reflexivity|]); [|done].
  specialize (Hd a eq_refl). unfold session_commit, bind.
  destruct (flush s1) as [[[]|e] s2] eqn:Ef;
    apply flush_inv in Ef as (E1 & E2 & E3 & _); simpl; rewrite ?E1, ?E2, ?E3; done.
Qed.
End Closes.

(** The relation that asks for nothing. *)
Definition anything (d d' : Db) : Prop := True.
#[export] Instance anything_preorder : PreOrder anything.
Proof. by split. Qed.
#[export] Instance anything_core : CoreBlind anything.
Proof. apply core_blind; done. Qed.

(** ** Transactions that never wait *)

(** Inside a transaction: nothing is committed or published. *)
Definition inside (s s' : St) : Prop :=
  env s' = env s /\ committed s' = committed s /\ published s' = published s.
#[export] Instance inside_preorder : PreOrder inside.
Proof. split; unfold inside; [done|]. intros x y z ??. destruct_and!. repeat split; congruence. Qed.
#[export] Instance stmt_inside : Stmt anything inside.
Proof. split; [apply _..|]. by intros. Qed.
#[export] Instance loose_inside : Loose inside.
Proof. intros s s' (?&?&?&?&?&?&?). by split. Qed.

Lemma uow_inside {A} (body : SM A) s :
  steps inside body ->
  (exists a s1, body (uow_enter s) = (Ok a, s1) /\ env s1 = env s /\
     aborted s1 = false /\ db_ranges (db s1) = true /\ db_ok (db s1) = true /\
     (with_uow body s).1 = Ok a /\ committed (with_uow body s).2 = db s1) \/
  (exists e, (with_uow body s).1 = Raise e /\ committed (with_uow body s).2 = committed s).
Proof.
  intros Hb. specialize (Hb (uow_enter s)). unfold with_uow, bind.
  destruct (body (uow_enter s)) as [[a|e] s1] eqn:Eb; simpl in Hb; destruct Hb as (He & Hc & _).
  - unfold session_commit, bind. destruct (flush s1) as [[[]|e] s2] eqn:Ef.
    + pose proof Ef as (_ & _ & _ & -> & Ha & Hr & Hk)%flush_inv. left. exists a, s1. auto 10.
    + right. exists e. simpl. apply flush_inv in Ef as (_ & E2 & _). by rewrite E2.
  - right. by exists e.
Qed.
