(* ===== verification/Cache.v ===== *)
(** Redis as the program uses it, and what is built on it:
    src/core/auth/rate_limit.py.

    A command reads the server's clock once; a key past its expiry is as good
    as gone. A MULTI block is one reading. Redis takes no part in units of
    work: nothing is undone by a rollback. *)

From stdpp Require Import base strings gmap list pretty.
From Stdlib Require Import ZArith Lia Ascii.
From S2P Require Import Prelude Errors PyLib Calendar Entities Models Events Session SessionFacts.

(** ** Commands *)

Abbreviation Redis := (gmap string (rval * option datetime)).

Definition st_redis (f : Redis -> Redis) (s : St) : St :=
  mkSt (env s) (db s) (committed s) (aborted s) (callbacks s) (published s) (resolved s)
       (n_now s) (n_uuid s) (n_token s) (n_rival s) (breakers s) (n_http s) (f (redis s)) (blobs s) (tokens s).

Definition EResponse : exn := EOther "ResponseError".

(** The entry of a key that has not expired at [t]. *)
Definition alive (t : datetime) (m : Redis) (k : string) : option (rval * option datetime) :=
  e ← m !! k;
  match e.2 with
  | Some exp => if (exp <=? t)%Z then None else Some e
  | None => Some e
  end.

Definition redis_get (k : string) : SM (option rval) :=
  t <- now ;; m <- gets redis ;; ret (fst <$> alive t m k).

Definition redis_exists (k : string) : SM bool :=
  v <- redis_get k ;; ret (bool_decide (is_Some v)).

Definition redis_delete (ks : list string) : SM unit :=
  modify (st_redis (fun m => foldr (fun k m => delete k m) m ks)).

(** SET k v EX ex [NX]: whether the key was set. *)
Definition redis_set (k v : string) (ex : Z) (nx : bool) : SM bool :=
  guardM (ex <=? 0)%Z EResponse ;;;
  t <- now ;;
  m <- gets redis ;;
  if nx && bool_decide (is_Some (alive t m k)) then ret false
  else modify (st_redis (<[k := (RStr v, Some (t + timedelta_seconds ex)%Z)]>)) ;;; ret true.

(** MULTI; GET k; DEL k; EXEC *)
Definition redis_getdel (k : string) : SM (option rval) :=
  t <- now ;;
  m <- gets redis ;;
  modify (st_redis (delete k)) ;;;
  ret (fst <$> alive t m k).

Definition rval_int (v : rval) : option Z :=
  match v with RInt n => Some n | RStr s => py_int 10 s end.
Definition rval_str (v : rval) : string :=
  match v with RInt n => pretty n | RStr s => s end.

(** ** [_incr_with_ttl]: MULTI; INCR k; EXPIRE k ttl NX; EXEC *)
Definition incr_with_ttl (k : string) (ttl_seconds : Z) : SM Z :=
  t <- now ;;
  m <- gets redis ;;
  match alive t m k with
  | None =>
      modify (st_redis (if (ttl_seconds <=? 0)%Z then delete k
        else <[k := (RInt 1, Some (t + timedelta_seconds ttl_seconds)%Z)]>)) ;;;
      ret 1%Z
  | Some (v, exp) =>
      match rval_int v with
      | None => raise EResponse
      | Some n =>
          modify (st_redis (match exp with
            | Some e => <[k := (RInt (n + 1), Some e)]>
            | None => if (ttl_seconds <=? 0)%Z then delete k
                else <[k := (RInt (n + 1), Some (t + timedelta_seconds ttl_seconds)%Z)]>
            end)) ;;;
          ret (n + 1)%Z
      end
  end.

(** ** [RateLimiter] *)

Definition rate_key (scope key : string) : string := "rl:" +:+ scope +:+ ":" +:+ key.

Definition limiter_hit (scope key : string) (limit window_seconds : Z) : SM bool :=
  count <- incr_with_ttl (rate_key scope key) window_seconds ;; ret (count <=? limit)%Z.

(** ** [LoginThrottle] *)

Record LoginThrottle : Set := mkThrottle { th_max_failures : Z; th_lockout_seconds : Z }.

Definition fail_key (account_key : string) : string := "auth:fail:" +:+ account_key.
Definition lock_key (account_key : string) : string := "auth:lock:" +:+ account_key.

Definition is_locked (account_key : string) : SM bool := redis_exists (lock_key account_key).

Definition lock_duration (th : LoginThrottle) (failures : Z) : Z :=
  Z.min (th_lockout_seconds th) (60 * 2 ^ (failures - th_max_failures th))%Z.

Definition record_login_failure (th : LoginThrottle) (account_key : string) : SM unit :=
  failures <- incr_with_ttl (fail_key account_key) (th_lockout_seconds th) ;;
  if (th_max_failures th <=? failures)%Z
  then redis_set (lock_key account_key) "1" (lock_duration th failures) false ;;; ret tt
  else ret tt.

Definition clear_failures (account_key : string) : SM unit :=
  redis_delete [fail_key account_key; lock_key account_key].

(** ** [TotpReplayGuard] *)

Definition TOTP_REPLAY_WINDOW : Z := 90.
Definition totp_used_key (user_id code : string) : string :=
  "auth:totp_used:" +:+ user_id +:+ ":" +:+ code.

Definition check_and_mark (user_id code : string) : SM bool :=
  redis_set (totp_used_key user_id code) "1" TOTP_REPLAY_WINDOW true.

(** ** [EphemeralTokenStore] of a namespace *)

Definition store_key (namespace token_hash : string) : string := namespace +:+ ":" +:+ token_hash.

Definition store_put (namespace token_hash value : string) (ttl_seconds : Z) : SM unit :=
  redis_set (store_key namespace token_hash) value ttl_seconds false ;;; ret tt.

Definition store_consume (namespace token_hash : string) : SM (option string) :=
  v <- redis_getdel (store_key namespace token_hash) ;; ret (rval_str <$> v).

Definition store_peek (namespace token_hash : string) : SM (option string) :=
  v <- redis_get (store_key namespace token_hash) ;; ret (rval_str <$> v).

(** ** No command touches the database *)

Lemma quiet_redis f : steps quiet (modify (E:=exn) (st_redis f)).
Proof. done. Qed.
#[export] Hint Resolve quiet_redis : steps.

Lemma quiet_redis_get k : steps quiet (redis_get k).
Proof. unfold redis_get. steps_walk. Qed.
Lemma quiet_redis_set k v ex nx : steps quiet (redis_set k v ex nx).
Proof. unfold redis_set. steps_walk. Qed.
Lemma quiet_redis_getdel k : steps quiet (redis_getdel k).
Proof. unfold redis_getdel. steps_walk. Qed.
Lemma quiet_incr k ttl : steps quiet (incr_with_ttl k ttl).
Proof. unfold incr_with_ttl. steps_walk. Qed.
#[export] Hint Resolve quiet_redis_get quiet_redis_set quiet_redis_getdel quiet_incr : steps.

Lemma quiet_hit scope key limit window : steps quiet (limiter_hit scope key limit window).
Proof. unfold limiter_hit. steps_walk. Qed.
Lemma quiet_is_locked k : steps quiet (is_locked k).
Proof. unfold is_locked, redis_exists. steps_walk. Qed.
Lemma quiet_record_failure th k : steps quiet (record_login_failure th k).
Proof. unfold record_login_failure. steps_walk. Qed.
Lemma quiet_clear k : steps quiet (clear_failures k).
Proof. unfold clear_failures, redis_delete. steps_walk. Qed.
Lemma quiet_check_and_mark u c : steps quiet (check_and_mark u c).
Proof. unfold check_and_mark. steps_walk. Qed.
Lemma quiet_store_put ns h v ttl : steps quiet (store_put ns h v ttl).
Proof. unfold store_put. steps_walk. Qed.
Lemma quiet_store_consume ns h : steps quiet (store_consume ns h).
Proof. unfold store_consume. steps_walk. Qed.
#[export] Hint Resolve quiet_hit quiet_is_locked quiet_record_failure quiet_clear
  quiet_check_and_mark quiet_store_put quiet_store_consume : steps.

(** ** Every key has an expiry *)

(** From Redis to Redis: keys without an expiry do not appear. *)
Definition expiring (m : Redis) : Prop := map_Forall (fun _ e => is_Some e.2) m.
Definition keeps_expiry (s s' : St) : Prop := expiring (redis s) -> expiring (redis s').
#[export] Instance keeps_expiry_preorder : PreOrder keeps_expiry.
Proof. split; [intros x|intros x y z]; unfold keeps_expiry; tauto. Qed.

Lemma expiring_insert m k v e : expiring m -> expiring (<[k := (v, Some e)]> m).
Proof. intros H. by apply map_Forall_insert_2. Qed.
Lemma expiring_delete m k : expiring m -> expiring (delete k m).
Proof. apply map_Forall_delete. Qed.

Lemma expiry_incr k ttl : steps keeps_expiry (incr_with_ttl k ttl).
Proof.
  intros s H. unfold incr_with_ttl, bind, now, gets. simpl.
  destruct (alive _ _ _) as [[v exp]|] eqn:Ea.
  - destruct (rval_int v); [|done]. simpl. destruct exp; [by apply expiring_insert|].
    destruct (_ <=? _)%Z; [by apply expiring_delete|by apply expiring_insert].
  - simpl. destruct (_ <=? _)%Z; [by apply expiring_delete|by apply expiring_insert].
Qed.
Lemma expiry_set k v ex nx : steps keeps_expiry (redis_set k v ex nx).
Proof.
  intros s H. unfold redis_set, guardM, bind, now, gets. destruct (_ <=? _)%Z; [done|]. simpl.
  destruct (nx && _); [done|]. simpl. by apply expiring_insert.
Qed.
Lemma expiry_delete ks : steps keeps_expiry (redis_delete ks).
Proof. intros s H. simpl. induction ks as [|k ks IH]; simpl; [done|]. by apply expiring_delete. Qed.
Lemma expiry_getdel k : steps keeps_expiry (redis_getdel k).
Proof. intros s H. simpl. by apply expiring_delete. Qed.
#[export] Hint Resolve expiry_incr expiry_set expiry_delete expiry_getdel : steps.

(** Rate limits and lockout over runs of commands: what a window admits, when
    an account is locked, and that no lock is for ever. *)

(** The next reading of the clock, and all readings to come. *)
Definition reading (s : St) (i : nat) : datetime := env_now (env s) (n_now s + i).
Definition readings_in (lo hi : datetime) (s : St) : Prop :=
  forall i, (lo <= reading s i < hi)%Z.

(** A command that took [n] readings and left Redis as [m]. *)
Definition left_redis (n : nat) (m : Redis) (s s' : St) : Prop :=
  env s' = env s /\ n_now s' = (n_now s + n)%nat /\ redis s' = m.

Lemma left_trans n1 n2 m1 m2 s1 s2 s3 :
  left_redis n1 m1 s1 s2 -> left_redis n2 m2 s2 s3 -> left_redis (n1 + n2) m2 s1 s3.
Proof. intros (? & ? & ?) (? & ? & ?). repeat split; [congruence|lia|done]. Qed.

Lemma readings_left lo hi n m s s' :
  left_redis n m s s' -> readings_in lo hi s -> readings_in lo hi s'.
Proof.
  intros (He & Hn & _) H i. specialize (H (n + i)%nat). unfold reading in *.
  by rewrite He, Hn, <- Nat.add_assoc.
Qed.

Lemma reading_0 s : env_now (env s) (n_now s) = reading s 0.
Proof. unfold reading. by rewrite Nat.add_0_r. Qed.

Lemma incr_fresh k ttl s :
  alive (reading s 0) (redis s) k = None -> (0 < ttl)%Z ->
  exists s', incr_with_ttl k ttl s = (Ok 1%Z, s') /\
    left_redis 1 (<[k := (RInt 1, Some (reading s 0 + timedelta_seconds ttl)%Z)]> (redis s)) s s'.
Proof.
  intros Ha Ht. unfold incr_with_ttl, bind, now, gets, modify, ret. cbn [env redis n_now].
  rewrite reading_0, Ha. rewrite (proj2 (Z.leb_gt _ _)) by done.
  eexists. split; [reflexivity|]. repeat split. simpl. lia.
Qed.

Lemma incr_counting k ttl s c e :
  alive (reading s 0) (redis s) k = Some (RInt c, Some e) ->
  exists s', incr_with_ttl k ttl s = (Ok (c + 1)%Z, s') /\
    left_redis 1 (<[k := (RInt (c + 1), Some e)]> (redis s)) s s'.
Proof.
  intros Ha. unfold incr_with_ttl, bind, now, gets, modify, ret. cbn [env redis n_now].
  rewrite reading_0, Ha. cbn [rval_int]. eexists. split; [reflexivity|]. repeat split. simpl. lia.
Qed.

Lemma alive_insert t m k v e : (t < e)%Z -> alive t (<[k := (v, Some e)]> m) k = Some (v, Some e).
Proof. intros H. unfold alive. rewrite lookup_insert_eq. simpl. by rewrite (proj2 (Z.leb_gt _ _)). Qed.
Lemma alive_insert_ne t m k k' x : k ≠ k' -> alive t (<[k := x]> m) k' = alive t m k'.
Proof. intros H. unfold alive. by rewrite lookup_insert_ne. Qed.

(** ** The limiter *)

Fixpoint hits (scope key : string) (limit window : Z) (n : nat) : SM (list bool) :=
  match n with
  | O => ret []
  | S n' => b <- limiter_hit scope key limit window ;; l <- hits scope key limit window n' ;; ret (b :: l)
  end.

Section Limiter.
Context (scope key : string) (limit window : Z).
Let k := rate_key scope key.

Lemma hits_counting n : forall s c e,
  readings_in (reading s 0) e s \/ (exists lo, readings_in lo e s) ->
  redis s !! k = Some (RInt c, Some e) ->
  (hits scope key limit window n s).1 =
    Ok ((fun i => c + Z.of_nat i + 1 <=? limit)%Z <$> seq 0 n).
Proof.
  induction n as [|n IH]; intros s c e Hr Hk; [done|].
  assert (exists lo, readings_in lo e s) as [lo Hlo] by (destruct Hr; eauto). clear Hr.
  destruct (incr_counting k window s c e) as (s1 & H1 & L1).
  { unfold alive. rewrite Hk. simpl. rewrite (proj2 (Z.leb_gt _ _)); [done|]. apply Hlo. }
  cbn [hits]. unfold limiter_hit. fold k. unfold bind at 1 2. rewrite H1. unfold ret at 1.
  unfold bind. specialize (IH s1 (c + 1)%Z e).
  rewrite (surjective_pairing (hits scope key limit window n s1)), IH.
  - simpl. f_equal. f_equal; [f_equal; lia|]. rewrite <- fmap_S_seq, <- list_fmap_compose.
    apply list_fmap_ext. intros i x _. simpl. f_equal. lia.
  - right. exists lo. by eapply readings_left.
  - destruct L1 as (_ & _ & ->). apply lookup_insert_eq.
Qed.

(** Within one window the first [limit] hits are admitted and no other. *)
Lemma hits_window n s :
  alive (reading s 0) (redis s) k = None -> (0 < window)%Z ->
  readings_in (reading s 0) (reading s 0 + timedelta_seconds window) s ->
  (hits scope key limit window n s).1 = Ok ((fun i => Z.of_nat i + 1 <=? limit)%Z <$> seq 0 n).
Proof.
  intros Ha Hw Hr. destruct n as [|n]; [done|].
  destruct (incr_fresh k window s Ha Hw) as (s1 & H1 & L1).
  cbn [hits]. unfold limiter_hit. fold k. unfold bind at 1 2. rewrite H1. unfold ret at 1.
  unfold bind. rewrite (surjective_pairing (hits scope key limit window n s1)).
  rewrite (hits_counting n s1 1 (reading s 0 + timedelta_seconds window)).
  - simpl. f_equal. f_equal. rewrite <- fmap_S_seq, <- list_fmap_compose.
    apply list_fmap_ext. intros i x _. simpl. f_equal. lia.
  - right. eexists. by eapply readings_left.
  - destruct L1 as (_ & _ & ->). apply lookup_insert_eq.
Qed.
End Limiter.

(** ** Lockout *)

Section Lockout.
Context (th : LoginThrottle) (a : string).
Hypothesis Hmax : (0 < th_max_failures th)%Z.
Hypothesis Hlock : (0 < th_lockout_seconds th)%Z.

(** No lock is shorter than this, nor longer than [th_lockout_seconds]. *)
Definition shortest_lock : Z := Z.min (th_lockout_seconds th) 60.

Lemma lock_duration_bounds n :
  (th_max_failures th <= n)%Z -> (shortest_lock <= lock_duration th n <= th_lockout_seconds th)%Z.
Proof.
  intros Hn. unfold lock_duration, shortest_lock.
  pose proof (Z.pow_pos_nonneg 2 (n - th_max_failures th)). lia.
Qed.

Lemma keys_differ : fail_key a ≠ lock_key a.
Proof. unfold fail_key, lock_key. simpl. intros H. discriminate H. Qed.

(** After [c] failures, the counter and the lock. *)
Definition throttled (c : Z) (until : datetime) (t0 : datetime) (m : Redis) : Prop :=
  m !! fail_key a = Some (RInt c, Some until) /\
  if (th_max_failures th <=? c)%Z
  then exists v e, m !! lock_key a = Some (v, Some e) /\ (t0 + timedelta_seconds shortest_lock <= e)%Z
  else m !! lock_key a = None.

Lemma failure_next c until t0 s :
  (0 <= c)%Z -> readings_in t0 (t0 + timedelta_seconds shortest_lock) s ->
  (t0 + timedelta_seconds shortest_lock <= until)%Z ->
  (throttled c until t0 (redis s) \/
   (c = 0%Z /\ redis s !! fail_key a = None /\ redis s !! lock_key a = None)) ->
  exists until' n m s', record_login_failure th a s = (Ok tt, s') /\ left_redis n m s s' /\
    (t0 + timedelta_seconds shortest_lock <= until')%Z /\ throttled (c + 1) until' t0 m.
Proof.
  intros Hc Hr Hu Ht. unfold record_login_failure.
  assert (Hi : exists until' s1, incr_with_ttl (fail_key a) (th_lockout_seconds th) s = (Ok (c + 1)%Z, s1) /\
    left_redis 1 (<[fail_key a := (RInt (c + 1), Some until')]> (redis s)) s s1 /\
    (t0 + timedelta_seconds shortest_lock <= until')%Z).
  { destruct Ht as [[Hf _]|(-> & Hf & _)].
    - destruct (incr_counting (fail_key a) (th_lockout_seconds th) s c until) as (s1 & H1 & L1); [|eauto].
      unfold alive. rewrite Hf. simpl. rewrite (proj2 (Z.leb_gt _ _)); [done|].
      specialize (Hr 0%nat). lia.
    - destruct (incr_fresh (fail_key a) (th_lockout_seconds th) s) as (s1 & H1 & L1); [|done|].
      + unfold alive. by rewrite Hf.
      + eexists _, s1. split; [done|]. split; [done|]. specialize (Hr 0%nat).
        unfold shortest_lock, timedelta_seconds, SECOND in *. lia. }
  destruct Hi as (until' & s1 & H1 & L1 & Hu'). unfold bind at 1. rewrite H1. cbv beta iota.
  exists until'. pose proof L1 as (He & Hn & Hm).
  destruct (th_max_failures th <=? c + 1)%Z eqn:Em.
  - apply Z.leb_le in Em. pose proof (lock_duration_bounds _ Em) as [Hd _].
    unfold redis_set, guardM. rewrite (proj2 (Z.leb_gt _ _)) by (unfold shortest_lock in *; lia).
    eexists 2%nat, _, _. split; [reflexivity|]. split; [|split; [done|]].
    + repeat split; simpl; [done|lia].
    + split; cbn -[fail_key lock_key].
      * rewrite lookup_insert_ne by (apply not_eq_sym, keys_differ). rewrite Hm. apply lookup_insert_eq.
      * apply Z.leb_le in Em. rewrite Em. eexists _, _. rewrite lookup_insert_eq. split; [done|].
        pose proof (readings_left _ _ _ _ _ _ L1 Hr 0%nat) as Hr1. rewrite <- reading_0 in Hr1.
        unfold timedelta_seconds, SECOND in *. lia.
  - exists 1%nat, (redis s1), s1. split; [done|]. split; [by rewrite Hm|]. split; [done|].
    rewrite Hm. split; [apply lookup_insert_eq|]. rewrite Em.
    rewrite lookup_insert_ne by apply keys_differ.
    destruct Ht as [[_ Hl]|(_ & _ & Hl)]; [|done].
    destruct (th_max_failures th <=? c)%Z eqn:Ec; [|done]. apply Z.leb_le in Ec. apply Z.leb_gt in Em. lia.
Qed.
End Lockout.

(** A counter's command touches its own key only. *)
Lemma incr_frame k ttl s r s' :
  incr_with_ttl k ttl s = (r, s') ->
  env s' = env s /\ n_now s' = S (n_now s) /\
  (forall k', k ≠ k' -> redis s' !! k' = redis s !! k') /\
  match r with Ok _ => True | Raise e => e = EResponse end.
Proof.
  unfold incr_with_ttl, bind, now, gets, modify, ret, raise. cbn [env redis n_now].
  destruct (alive _ _ _) as [[v exp]|].
  - destruct (rval_int v); [|intros [= <- <-]; done]. intros [= <- <-]. simpl.
    split; [done|]. split; [done|]. split; [|done]. intros k' Hk.
    destruct exp; [by rewrite lookup_insert_ne|].
    destruct (_ <=? _)%Z; [by rewrite lookup_delete_ne|by rewrite lookup_insert_ne].
  - intros [= <- <-]. simpl. split; [done|]. split; [done|]. split; [|done]. intros k' Hk.
    destruct (_ <=? _)%Z; [by rewrite lookup_delete_ne|by rewrite lookup_insert_ne].
Qed.

Lemma rate_lock_differ scope key a : rate_key scope key ≠ lock_key a.
Proof. unfold rate_key, lock_key. simpl. intros H. discriminate H. Qed.

Lemma is_locked_run a s v e :
  redis s !! lock_key a = Some (v, Some e) -> (reading s 0 < e)%Z ->
  exists s', is_locked a s = (Ok true, s').
Proof.
  intros Hk He. unfold is_locked, redis_exists, redis_get, bind, now, gets, ret. cbn [env redis].
  unfold alive. rewrite Hk. cbn [mbind option_bind snd]. rewrite reading_0.
  rewrite (proj2 (Z.leb_gt _ _)) by done. eexists. reflexivity.
Qed.
