(* ===== verification/Accounts.v ===== *)
(** Accounts and sessions: src/core/auth/service.py with its repository,
    security helpers (src/core/auth/security/*.py), directory and schemas.

    argon2, PyJWT, pyotp, Fernet and the random source are parameters
    ([AuthLib]); the reset mailer is a field of the service, as in the code. *)

From stdpp Require Import base strings gmap list.
From Stdlib Require Import ZArith Lia Ascii.
From S2P Require Import Prelude Errors PyLib Calendar Entities Models Events Session SessionFacts.
From S2P Require Import Footprints Cache.

(** ** Libraries *)

Record AuthLib : Type := mkAuthLib {
  argon2_hash : nat -> string -> string;            (* salted: the draw, the password *)
  argon2_verify : string -> string -> bool;         (* false: any exception *)
  lib_DUMMY_HASH : string;
  jwt_encode : list (string * json) -> string -> string -> string;  (* payload, secret, algorithm *)
  jwt_decode : string -> string -> string -> option (list (string * json));  (* None: InvalidTokenError *)
  pyotp_random_base32 : nat -> string;
  pyotp_verify : string -> string -> datetime -> bool;  (* valid_window=1, at the time read *)
  pyotp_uri : string -> string -> string;
  fernet_encrypt : nat -> string -> string;
  fernet_decrypt : string -> option string;         (* None: InvalidToken *)
  secrets_below : nat -> N }.                       (* the random source of secrets.choice *)

Record AuthSettings : Set := mkAuthSettings {
  register_ip_limit_per_hour : Z; login_max_failures : Z; login_lockout_seconds : Z;
  two_factor_challenge_ttl_seconds : Z; refresh_token_ttl_seconds : Z;
  access_token_ttl_seconds : Z; password_reset_ttl_seconds : Z; password_reset_url : string;
  jwt_secret : string; jwt_algorithm : string }.

(** ** src/core/auth/security/passwords.py *)

Definition hash_password (lib : AuthLib) (password : string) : SM string :=
  salt <- draw ;; ret (argon2_hash lib salt password).

Definition verify_password (lib : AuthLib) (password_hash : option string) (password : string)
    : bool :=
  let target := match password_hash with
                | Some h => if str_empty h then lib_DUMMY_HASH lib else h
                | None => lib_DUMMY_HASH lib
                end in
  if argon2_verify lib target password then bool_decide (is_Some password_hash) else false.

(** ** src/core/auth/security/tokens.py and src/shared/security_tokens.py *)

Definition ACCESS_TOKEN_TYPE : string := "access".
Definition UNIX_EPOCH : datetime := ((ymd2ord 1970 1 1 - 1) * DAY)%Z.
(** [int(t.timestamp())] *)
Definition timestamp (t : datetime) : Z := ((t - UNIX_EPOCH) / SECOND)%Z.

Definition opt_uuid (o : option uuid) : json :=
  match o with Some u => JStr (uuid_str u) | None => JNull end.

Definition encode_access_token (lib : AuthLib) (settings : AuthSettings) (user_id : uuid)
    (tenant_id : option uuid) : SM (string * uuid) :=
  issued_at <- now ;;
  jti <- new_uuid7 ;;
  let payload :=
    [("sub", JStr (uuid_str user_id)); ("tenant", opt_uuid tenant_id);
     ("type", JStr ACCESS_TOKEN_TYPE); ("iat", JInt (timestamp issued_at));
     ("exp", JInt (timestamp (issued_at + timedelta_seconds (access_token_ttl_seconds settings))));
     ("jti", JStr (uuid_str jti))] in
  ret (jwt_encode lib payload (jwt_secret settings) (jwt_algorithm settings), jti).

Definition auth_error {A} (msg : string) : res exn A := Raise (EDomain AuthenticationError msg).

Definition decode_access_token (lib : AuthLib) (settings : AuthSettings) (token : string)
    : res exn (list (string * json)) :=
  match jwt_decode lib token (jwt_secret settings) (jwt_algorithm settings) with
  | None => auth_error "invalid access token"
  | Some claims =>
      match assoc "type" claims with
      | Some (JStr ty) =>
          if bool_decide (ty = ACCESS_TOKEN_TYPE) then Ok claims else auth_error "wrong token type"
      | _ => auth_error "wrong token type"
      end
  end.

Definition hash_token (en : Env) (raw : string) : string := sha256_hex en raw.

(** ** src/core/auth/security/totp.py *)

Definition RECOVERY_CODE_COUNT : nat := 10.
Definition RECOVERY_ALPHABET : string := "ABCDEFGHJKLMNPQRSTUVWXYZ23456789".
Definition RECOVERY_LENGTH : nat := 12.

(** [secrets.choice(_RECOVERY_ALPHABET)] *)
Definition recovery_char (lib : AuthLib) (k : nat) : ascii :=
  default "A"%char (String.get
    (N.to_nat (secrets_below lib k mod N.of_nat (String.length RECOVERY_ALPHABET)))
    RECOVERY_ALPHABET).

Fixpoint recovery_code (lib : AuthLib) (n : nat) : SM string :=
  match n with
  | O => ret ""
  | S n' => k <- draw ;; rest <- recovery_code lib n' ;; ret (String (recovery_char lib k) rest)
  end.

Fixpoint recovery_codes (lib : AuthLib) (n : nat) : SM (list string) :=
  match n with
  | O => ret []
  | S n' => c <- recovery_code lib RECOVERY_LENGTH ;; l <- recovery_codes lib n' ;; ret (c :: l)
  end.
Definition generate_recovery_codes (lib : AuthLib) : SM (list string) :=
  recovery_codes lib RECOVERY_CODE_COUNT.

Definition hash_recovery_code (en : Env) (code : string) : string :=
  sha256_hex en (str_upper (strip code)).

Definition verify_totp (lib : AuthLib) (secret code : string) : SM bool :=
  t <- now ;; ret (pyotp_verify lib secret code t).

Definition decrypt (lib : AuthLib) (token : string) : SM string :=
  match fernet_decrypt lib token with Some p => ret p | None => raise (EOther "InvalidToken") end.
Definition encrypt (lib : AuthLib) (plaintext : string) : SM string :=
  k <- draw ;; ret (fernet_encrypt lib k plaintext).

(** ** src/core/auth/schemas.py *)

Record UserDTO : Set := mkUserDTO {
  ud_id : uuid; ud_email : string; ud_full_name : option string; ud_phone : option string;
  ud_locale : string; ud_two_factor_enabled : bool }.
Record TokenPair : Set := mkTokenPair {
  tp_access_token : string; tp_refresh_token : string; tp_expires_in : Z }.
Record AccessToken : Set := mkAccessToken { at_access_token : string; at_expires_in : Z }.
Record TotpSetup : Set := mkTotpSetup { ts_secret : string; ts_otpauth_uri : string }.

(** [LoginResult = TokenPair | TwoFactorChallenge] *)
Inductive LoginResult : Set :=
| LoginTokens (pair : TokenPair)
| TwoFactorChallenge (challenge_token : string).

Definition user_dto (u : User) (two_factor_enabled : bool) : UserDTO :=
  mkUserDTO (u_id u) (u_email u) (u_full_name u) (u_phone u) (u_locale u) two_factor_enabled.

(** ** src/core/auth/repository.py and directory.py *)

(** [UserRepository.get_by_email] *)
Definition get_by_email (email : string) : SM (option User) :=
  l <- query (fun u : User => bool_decide (str_lower (u_email u) = str_lower (strip email))) ;;
  scalar_one_or_none l.

Record UserContact : Set := mkUserContact {
  uc_user_id : uuid; uc_email : option string; uc_phone : option string; uc_locale : string }.

(** [UserDirectory.get_contact] *)
Definition get_contact (user_id : uuid) : SM (option UserContact) :=
  o <- global_get (R:=User) user_id ;;
  ret (u ← o; Some (mkUserContact (u_id u) (Some (u_email u)) (u_phone u) (u_locale u))).

(** ** [AuthService] *)

Definition CHALLENGE_NS : string := "auth:2fa".
Definition RESET_NS : string := "auth:pwreset".

(** [PasswordResetMailer.send]: address, locale, link, minutes *)
Definition ResetMailer : Type := string -> string -> string -> Z -> SM unit.

Record AuthService : Type := mkAuth {
  as_ctx : TenantContext; as_lib : AuthLib; as_settings : AuthSettings; as_mailer : ResetMailer }.

Section AuthService.
Context (self : AuthService).
Let lib := as_lib self.
Let settings := as_settings self.
Let ctx := as_ctx self.

Definition auth_throttle : LoginThrottle :=
  mkThrottle (login_max_failures settings) (login_lockout_seconds settings).

Definition auth_failed {A} (msg : string) : SM A := lift_res (auth_error msg).
Definition rate_limited {A} (msg : string) : SM A := raise (EDomain RateLimitedError msg).

Definition auth_actor_user_id : SM uuid :=
  match a_kind (c_actor ctx), a_id (c_actor ctx) with
  | KUser, Some i =>
      if str_empty i
      then raise (EDomain InvariantViolationError "operation requires a user actor")
      else lift_res (need (uuid_parse i) EValue)
  | _, _ => raise (EDomain InvariantViolationError "operation requires a user actor")
  end.

Definition ip_or_unknown (ip : option string) : string :=
  match ip with Some i => if str_empty i then "unknown" else i | None => "unknown" end.

(** [register] *)
Definition auth_register (email password locale : string) (ip : option string) : SM UserDTO :=
  allowed <- limiter_hit "register_ip" (ip_or_unknown ip) (register_ip_limit_per_hour settings) 3600 ;;
  if negb allowed then rate_limited "too many registrations"
  else
    let normalized := str_lower (strip email) in
    known <- get_by_email normalized ;;
    match known with
    | Some _ => raise (EDomain ConflictError "email already registered")
    | None =>
        i <- new_uuid7 ;;
        password_hash <- hash_password lib password ;;
        let user := mkUser i normalized None password_hash None None locale false UActive None in
        global_add user ;;;
        emit SvcAuth ctx "auth.user.registered"
          [("user_id", JStr (uuid_str i)); ("locale", JStr locale)] ;;;
        ret (user_dto user false)
    end.

Definition issue_two_factor_challenge (user_id : uuid) : SM LoginResult :=
  raw <- new_opaque_token ;;
  en <- gets env ;;
  store_put CHALLENGE_NS (hash_token en raw) (uuid_str user_id)
    (two_factor_challenge_ttl_seconds settings) ;;;
  ret (TwoFactorChallenge raw).

Definition or_empty (o : option string) : string := default "" o.
Definition set_last_login (t : datetime) (u : User) : User :=
  mkUser (u_id u) (u_email u) (u_email_verified_at u) (u_password_hash u) (u_full_name u)
    (u_phone u) (u_locale u) (u_is_superuser u) (u_status u) (Some t).

(** [_issue_tokens]: a new family *)
Definition issue_tokens (user : User) (ip user_agent : option string) : SM TokenPair :=
  access <- encode_access_token lib settings (u_id user) None ;;
  raw_refresh <- new_opaque_token ;;
  en <- gets env ;;
  i <- new_uuid7 ;;
  family <- new_uuid7 ;;
  t <- now ;;
  let row := mkRefreshToken i (u_id user) family (hash_token en raw_refresh)
    (t + timedelta_seconds (refresh_token_ttl_seconds settings))%Z None None None ip user_agent in
  t' <- now ;;
  upd (R:=User) (u_id user) (set_last_login t') ;;;
  insert_row row ;;;
  emit SvcAuth ctx "auth.user.login_succeeded"
    [("user_id", JStr (uuid_str (u_id user))); ("ip", JStr (or_empty ip));
     ("user_agent", JStr (or_empty user_agent))] ;;;
  ret (mkTokenPair access.1 raw_refresh (access_token_ttl_seconds settings)).

Definition two_factor_on (row : option UserTotp) : bool :=
  match row with Some r => bool_decide (is_Some (ut_confirmed_at r)) | None => false end.

(** [authenticate] *)
Definition auth_authenticate (email password : string) (ip user_agent : option string)
    : SM LoginResult :=
  let normalized := str_lower (strip email) in
  allowed <- limiter_hit "login_ip" (ip_or_unknown ip) 30 60 ;;
  if negb allowed then rate_limited "too many attempts"
  else
    user <- get_by_email normalized ;;
    let account_key := match user with
                       | Some u => uuid_str (u_id u) | None => "email:" +:+ normalized end in
    locked <- is_locked account_key ;;
    if (locked : bool) then rate_limited "account temporarily locked"
    else
      let password_ok := verify_password lib (u_password_hash <$> user) password in
      let failed :=
        record_login_failure auth_throttle account_key ;;;
        emit_now ctx "auth.user.login_failed"
          [("user_id", opt_uuid (u_id <$> user)); ("ip", opt_str ip);
           ("reason", JStr "invalid_credentials")] ;;;
        auth_failed "invalid credentials" in
      match user with
      | None => failed
      | Some u =>
          if negb password_ok || negb (bool_decide (u_status u = UActive)) then failed
          else
            clear_failures account_key ;;;
            totp_row <- session_get (R:=UserTotp) (u_id u) ;;
            if two_factor_on totp_row then issue_two_factor_challenge (u_id u)
            else p <- issue_tokens u ip user_agent ;; ret (LoginTokens p)
      end.

(** An UPDATE that decides a race waits for the transactions that hold the
    row, and then looks at what they left. *)
Definition racing_update {R} `{Table R} (p : R -> bool) (f : R -> R) : SM Z :=
  rivals ;;; update_where p f.

Definition spend (t : datetime) (c : UserRecoveryCode) : UserRecoveryCode :=
  mkRecoveryCode (rc_id c) (rc_user_id c) (rc_code_hash c) (Some t).

(** [_verify_totp_or_recovery] *)
Definition verify_totp_or_recovery (user_id : uuid) (code : string) : SM bool :=
  row <- session_get (R:=UserTotp) user_id ;;
  match row with
  | None => ret false
  | Some r =>
      secret <- decrypt lib (ut_secret_encrypted r) ;;
      ok <- verify_totp lib secret code ;;
      if (ok : bool) then check_and_mark (uuid_str user_id) code
      else
        en <- gets env ;;
        t <- now ;;
        spent <- racing_update (fun c : UserRecoveryCode =>
            bool_decide (rc_user_id c = user_id)
            && bool_decide (rc_code_hash c = hash_recovery_code en code)
            && bool_decide (rc_used_at c = None)) (spend t) ;;
        ret (spent =? 1)%Z
  end.

(** [complete_two_factor] *)
Definition auth_complete_two_factor (challenge_token totp_code : string) : SM TokenPair :=
  en <- gets env ;;
  user_id_raw <- store_consume CHALLENGE_NS (hash_token en challenge_token) ;;
  match user_id_raw with
  | None => auth_failed "invalid or expired challenge"
  | Some raw =>
      user_id <- lift_res (need (uuid_parse raw) EValue) ;;
      allowed <- limiter_hit "2fa" (uuid_str user_id) 5 300 ;;
      if negb allowed then rate_limited "too many 2FA attempts"
      else
        user <- global_get (R:=User) user_id ;;
        match user with
        | Some u =>
            if negb (bool_decide (u_status u = UActive))
            then auth_failed "invalid or expired challenge"
            else
              ok <- verify_totp_or_recovery user_id totp_code ;;
              if (ok : bool) then issue_tokens u None None else auth_failed "invalid 2FA code"
        | None => auth_failed "invalid or expired challenge"
        end
  end.

(** ** Refresh tokens *)

Definition revoke (t : datetime) (reason : string) (r : RefreshToken) : RefreshToken :=
  mkRefreshToken (rt_id r) (rt_user_id r) (rt_family_id r) (rt_token_hash r) (rt_expires_at r)
    (rt_rotated_at r) (Some t) (Some reason) (rt_ip r) (rt_user_agent r).
Definition rotate (t : datetime) (r : RefreshToken) : RefreshToken :=
  mkRefreshToken (rt_id r) (rt_user_id r) (rt_family_id r) (rt_token_hash r) (rt_expires_at r)
    (Some t) (rt_revoked_at r) (rt_revoked_reason r) (rt_ip r) (rt_user_agent r).
Definition unrevoked (r : RefreshToken) : bool := bool_decide (rt_revoked_at r = None).
Definition unspent (r : RefreshToken) : bool :=
  bool_decide (rt_rotated_at r = None) && bool_decide (rt_revoked_at r = None).

Definition revoke_family (family_id : uuid) (reason : string) : SM unit :=
  t <- now ;;
  update_where (fun r => bool_decide (rt_family_id r = family_id) && unrevoked r)
    (revoke t reason) ;;; ret tt.
Definition revoke_all_user_tokens (user_id : uuid) (reason : string) : SM unit :=
  t <- now ;;
  update_where (fun r => bool_decide (rt_user_id r = user_id) && unrevoked r)
    (revoke t reason) ;;; ret tt.

Definition token_by_hash (token_hash : string) : SM (option RefreshToken) :=
  l <- query (fun r : RefreshToken => bool_decide (rt_token_hash r = token_hash)) ;;
  scalar_one_or_none l.

(** The checks of [refresh]; what it refuses for good is committed. *)
Definition refresh_admit (refresh_token : string) : SM (RefreshToken * User) :=
  en <- gets env ;;
  found <- token_by_hash (hash_token en refresh_token) ;;
  match found with
  | None => auth_failed "invalid refresh token"
  | Some row =>
      if negb (unspent row) then
        revoke_family (rt_family_id row) "reuse_detected" ;;;
        session_commit ;;;
        auth_failed "refresh token reuse detected"
      else
        t <- now ;;
        if (rt_expires_at row <=? t)%Z then auth_failed "refresh token expired"
        else
          user <- global_get (R:=User) (rt_user_id row) ;;
          let blocked :=
            revoke_family (rt_family_id row) "user_blocked" ;;;
            session_commit ;;;
            auth_failed "invalid refresh token" in
          match user with
          | Some u => if bool_decide (u_status u = UActive) then ret (row, u) else blocked
          | None => blocked
          end
  end.

(** The rotation: a compare-and-set, then the next token of the family. *)
Definition refresh_rotate (row : RefreshToken) (user : User) : SM TokenPair :=
  t <- now ;;
  rowcount <- racing_update (fun r => bool_decide (rt_id r = rt_id row) && unspent r) (rotate t) ;;
  if (rowcount =? 0)%Z then auth_failed "refresh token already rotated"
  else
    access <- encode_access_token lib settings (u_id user) None ;;
    raw_refresh <- new_opaque_token ;;
    en <- gets env ;;
    i <- new_uuid7 ;;
    t' <- now ;;
    insert_row (mkRefreshToken i (u_id user) (rt_family_id row) (hash_token en raw_refresh)
      (t' + timedelta_seconds (refresh_token_ttl_seconds settings))%Z None None None None None) ;;;
    ret (mkTokenPair access.1 raw_refresh (access_token_ttl_seconds settings)).

(** [refresh] *)
Definition auth_refresh (refresh_token : string) : SM TokenPair :=
  admitted <- refresh_admit refresh_token ;; refresh_rotate admitted.1 admitted.2.

Definition auth_issue_tenant_token (tenant_id : uuid) : SM AccessToken :=
  user_id <- auth_actor_user_id ;;
  user <- global_get_or_raise (R:=User) "User" user_id ;;
  if negb (bool_decide (u_status user = UActive)) then auth_failed "account is not active"
  else
    access <- encode_access_token lib settings (u_id user) (Some tenant_id) ;;
    ret (mkAccessToken access.1 (access_token_ttl_seconds settings)).

Definition auth_logout (refresh_token : string) : SM unit :=
  en <- gets env ;;
  t <- now ;;
  update_where (fun r => bool_decide (rt_token_hash r = hash_token en refresh_token) && unrevoked r)
    (revoke t "logout") ;;; ret tt.

(** ** Passwords *)

Definition set_password (h : string) (u : User) : User :=
  mkUser (u_id u) (u_email u) (u_email_verified_at u) h (u_full_name u) (u_phone u) (u_locale u)
    (u_is_superuser u) (u_status u) (u_last_login_at u).

Definition auth_change_password (current_password new_password : string) : SM unit :=
  user_id <- auth_actor_user_id ;;
  user <- global_get_or_raise (R:=User) "User" user_id ;;
  if negb (verify_password lib (Some (u_password_hash user)) current_password)
  then auth_failed "current password is incorrect"
  else
    h <- hash_password lib new_password ;;
    upd (R:=User) (u_id user) (set_password h) ;;;
    flush ;;;
    revoke_all_user_tokens (u_id user) "password_change" ;;;
    emit SvcAuth ctx "auth.user.password_changed" [("user_id", JStr (uuid_str (u_id user)))] ;;;
    ret tt.

(** [s.replace("{token}", raw)] *)
Fixpoint replace_token (fuel : nat) (raw s : string) : string :=
  match fuel with
  | O => s
  | S n => match s with
           | EmptyString => EmptyString
           | String c s' =>
               if startswith s "{token}" then raw +:+ replace_token n raw (str_drop 7 s)
               else String c (replace_token n raw s')
           end
  end.
Definition reset_url (raw : string) : string :=
  let url := password_reset_url settings in replace_token (String.length url) raw url.

Definition auth_request_password_reset (email : string) : SM unit :=
  found <- get_by_email (str_lower (strip email)) ;;
  match found with
  | None => ret tt
  | Some user =>
      allowed <- limiter_hit "pwreset" (uuid_str (u_id user)) 3 900 ;;
      if negb allowed then ret tt
      else
        raw <- new_opaque_token ;;
        en <- gets env ;;
        let ttl := password_reset_ttl_seconds settings in
        store_put RESET_NS (hash_token en raw) (uuid_str (u_id user)) ttl ;;;
        as_mailer self (u_email user) (u_locale user) (reset_url raw) (ttl / 60)%Z ;;;
        emit SvcAuth ctx "auth.user.password_reset_requested"
          [("user_id", JStr (uuid_str (u_id user)))] ;;;
        ret tt
  end.

Definition auth_reset_password (reset_token new_password : string) : SM unit :=
  en <- gets env ;;
  user_id_raw <- store_consume RESET_NS (hash_token en reset_token) ;;
  match user_id_raw with
  | None => auth_failed "invalid or expired reset token"
  | Some raw =>
      user_id <- lift_res (need (uuid_parse raw) EValue) ;;
      user <- global_get_or_raise (R:=User) "User" user_id ;;
      h <- hash_password lib new_password ;;
      upd (R:=User) (u_id user) (set_password h) ;;;
      flush ;;;
      revoke_all_user_tokens (u_id user) "password_change"
  end.

(** ** Two-factor enrolment *)

Definition set_secret (x : string) (r : UserTotp) : UserTotp :=
  mkUserTotp (ut_user_id r) x (ut_confirmed_at r).
Definition confirm_row (t : datetime) (r : UserTotp) : UserTotp :=
  mkUserTotp (ut_user_id r) (ut_secret_encrypted r) (Some t).

Definition auth_enable_totp : SM TotpSetup :=
  user_id <- auth_actor_user_id ;;
  user <- global_get_or_raise (R:=User) "User" user_id ;;
  k <- draw ;;
  let secret := pyotp_random_base32 lib k in
  existing <- session_get (R:=UserTotp) (u_id user) ;;
  match existing with
  | Some r =>
      if bool_decide (is_Some (ut_confirmed_at r))
      then raise (EDomain ConflictError "2FA already enabled")
      else x <- encrypt lib secret ;;
           upd (R:=UserTotp) (u_id user) (set_secret x) ;;; flush
  | None => x <- encrypt lib secret ;; insert_row (mkUserTotp (u_id user) x None)
  end ;;;
  ret (mkTotpSetup secret (pyotp_uri lib secret (u_email user))).

Definition add_recovery_code (user_id : uuid) (code : string) : SM unit :=
  i <- new_uuid7 ;;
  en <- gets env ;;
  insert_row (mkRecoveryCode i user_id (hash_recovery_code en code) None).

Definition auth_confirm_totp (totp_code : string) : SM (list string) :=
  user_id <- auth_actor_user_id ;;
  row <- session_get (R:=UserTotp) user_id ;;
  match row with
  | None => raise (EDomain InvariantViolationError "start 2FA enrollment first")
  | Some r =>
      secret <- decrypt lib (ut_secret_encrypted r) ;;
      ok <- verify_totp lib secret totp_code ;;
      if negb ok then auth_failed "invalid 2FA code"
      else
        t <- now ;;
        upd (R:=UserTotp) user_id (confirm_row t) ;;;
        codes <- generate_recovery_codes lib ;;
        for_each codes (add_recovery_code user_id) ;;;
        flush ;;;
        emit SvcAuth ctx "auth.user.two_factor_enabled" [("user_id", JStr (uuid_str user_id))] ;;;
        ret codes
  end.

Definition auth_disable_totp (totp_code : string) : SM unit :=
  user_id <- auth_actor_user_id ;;
  ok <- verify_totp_or_recovery user_id totp_code ;;
  if negb ok then auth_failed "invalid 2FA code"
  else
    row <- session_get (R:=UserTotp) user_id ;;
    match row with Some _ => session_delete (R:=UserTotp) user_id | None => ret tt end ;;;
    delete_where (fun c : UserRecoveryCode => bool_decide (rc_user_id c = user_id)) ;;;
    flush ;;;
    emit SvcAuth ctx "auth.user.two_factor_disabled" [("user_id", JStr (uuid_str user_id))] ;;;
    ret tt.

Definition auth_get_user (user_id : uuid) : SM UserDTO :=
  o <- global_get (R:=User) user_id ;;
  match o with
  | None => raise (EDomain NotFoundError "user not found")
  | Some user =>
      totp_row <- session_get (R:=UserTotp) user_id ;;
      ret (user_dto user (two_factor_on totp_row))
  end.
End AuthService.
