(* ===== verification/AccountsFacts.v ===== *)
(** Facts about accounts: what each operation may write, rotation and reuse
    of refresh tokens, lockout, single-use tokens. *)

From stdpp Require Import base strings gmap list.
From Stdlib Require Import ZArith Lia Ascii.
From S2P Require Import Prelude Errors PyLib Calendar Entities Models Events Session SessionFacts.
From S2P Require Import Footprints Cache Accounts.

(** ** Footprints *)

Section Plain.
Context {R : Db -> Db -> Prop} (X : St -> St -> Prop) `{!Stmt R X, !AccountsBlind R}.
#[local] Instance X_pre : PreOrder X := stmt_pre.
Abbreviation runs := (steps X).

Lemma runs_hash lib p : runs (hash_password lib p).
Proof. unfold hash_password. stmt_walk. Qed.
Lemma runs_encode lib st u t : runs (encode_access_token lib st u t).
Proof. unfold encode_access_token. stmt_walk. Qed.
Lemma runs_by_email e : runs (get_by_email e).
Proof. unfold get_by_email. stmt_walk. Qed.
Lemma runs_contact u : runs (get_contact u).
Proof. unfold get_contact. stmt_walk. Qed.
Lemma runs_actor self : runs (auth_actor_user_id self).
Proof. unfold auth_actor_user_id. stmt_walk. Qed.
Lemma runs_failed {A} m : runs (auth_failed (A:=A) m).
Proof. unfold auth_failed. stmt_walk. Qed.
Lemma runs_limited {A} m : runs (rate_limited (A:=A) m).
Proof. unfold rate_limited. stmt_walk. Qed.
Lemma runs_recovery_code lib n : runs (recovery_code lib n).
Proof. induction n; simpl; stmt_walk. Qed.
Lemma runs_recovery_codes lib n : runs (recovery_codes lib n).
Proof. pose proof runs_recovery_code. induction n; simpl; stmt_walk. Qed.
Lemma runs_decrypt lib x : runs (decrypt lib x).
Proof. unfold decrypt. stmt_walk. Qed.
Lemma runs_encrypt lib x : runs (encrypt lib x).
Proof. unfold encrypt. stmt_walk. Qed.
Lemma runs_verify lib x c : runs (verify_totp lib x c).
Proof. unfold verify_totp. stmt_walk. Qed.
Hint Resolve runs_hash runs_encode runs_by_email runs_contact runs_actor runs_failed runs_limited
  runs_recovery_codes runs_decrypt runs_encrypt runs_verify : stmt.

Lemma runs_register `{!Loose X} self e p l ip : runs (auth_register self e p l ip).
Proof. unfold auth_register. stmt_walk. Qed.
Lemma runs_challenge `{!Loose X} self u : runs (issue_two_factor_challenge self u).
Proof. unfold issue_two_factor_challenge. stmt_walk. Qed.
Lemma runs_issue self u ip ua : runs (issue_tokens self u ip ua).
Proof. unfold issue_tokens. stmt_walk. Qed.
Lemma runs_revoke_family f r : runs (revoke_family f r).
Proof. unfold revoke_family. stmt_walk. Qed.
Lemma runs_revoke_all u r : runs (revoke_all_user_tokens u r).
Proof. unfold revoke_all_user_tokens. stmt_walk. Qed.
Hint Resolve runs_challenge runs_issue runs_revoke_family runs_revoke_all : stmt.

Lemma runs_tenant_token self t : runs (auth_issue_tenant_token self t).
Proof. unfold auth_issue_tenant_token. stmt_walk. Qed.
Lemma runs_logout r : runs (auth_logout r).
Proof. unfold auth_logout. stmt_walk. Qed.
Lemma runs_change_password self a b : runs (auth_change_password self a b).
Proof. unfold auth_change_password. stmt_walk. Qed.
Lemma runs_reset_password `{!Loose X} self a b : runs (auth_reset_password self a b).
Proof. unfold auth_reset_password. stmt_walk. Qed.
Lemma runs_enable_totp self : runs (auth_enable_totp self).
Proof. unfold auth_enable_totp. stmt_walk. Qed.
Lemma runs_confirm_totp self c : runs (auth_confirm_totp self c).
Proof.
  assert (forall u c, runs (add_recovery_code u c)) by (intros; unfold add_recovery_code; stmt_walk).
  unfold auth_confirm_totp, generate_recovery_codes. stmt_walk.
Qed.
Lemma runs_get_user u : runs (auth_get_user u).
Proof. unfold auth_get_user. stmt_walk. Qed.
Lemma runs_token_by_hash h : runs (token_by_hash h).
Proof. unfold token_by_hash. stmt_walk. Qed.
End Plain.
#[export] Hint Resolve runs_hash runs_encode runs_by_email runs_contact runs_actor runs_failed
  runs_limited runs_recovery_codes runs_decrypt runs_encrypt runs_verify runs_register
  runs_challenge runs_issue runs_revoke_family runs_revoke_all runs_tenant_token runs_logout
  runs_change_password runs_reset_password runs_enable_totp runs_confirm_totp runs_get_user
  runs_token_by_hash : stmt.

(** Blocks that commit or publish on their way. *)
Section Committing.
Context {R : Db -> Db -> Prop} (X : St -> St -> Prop)
  `{!Stmt R X, !Loose X, !Committing X, !AccountsBlind R}.
#[local] Instance X_pre' : PreOrder X := stmt_pre.

Lemma runs_authenticate self e p ip ua : steps X (auth_authenticate self e p ip ua).
Proof. pose proof (emit_now_steps (X:=X)). unfold auth_authenticate. stmt_walk. Qed.
Lemma runs_admit tok : steps X (refresh_admit tok).
Proof. pose proof (commit_steps (X:=X)). unfold refresh_admit. stmt_walk. Qed.
Lemma runs_request_reset self e :
  (forall a b c d, steps X (as_mailer self a b c d)) ->
  steps X (auth_request_password_reset self e).
Proof. intros Hm. unfold auth_request_password_reset. stmt_walk. Qed.
End Committing.

Section Waiting.
Context (R : Db -> Db -> Prop) `{!PreOrder R, !AccountsBlind R}.

Lemma evo_racing {T} `{Table T, !Tolerates R T} (p : T -> bool) f :
  (forall r, t_id (f r) = t_id r) -> steps (evo R) (racing_update p f).
Proof.
  intros Hf. unfold racing_update. apply steps_bind; [apply _|apply evo_rivals|]. intros _.
  by apply (stmt_update_where (evo R)).
Qed.
Lemma evo_verify_or_recovery self u c : steps (evo R) (verify_totp_or_recovery self u c).
Proof. unfold verify_totp_or_recovery. stmt_walk. by apply evo_racing. Qed.
Hint Resolve evo_verify_or_recovery : stmt.

Lemma evo_complete_two_factor self a b : steps (evo R) (auth_complete_two_factor self a b).
Proof. unfold auth_complete_two_factor. stmt_walk. Qed.
Lemma evo_disable_totp self c : steps (evo R) (auth_disable_totp self c).
Proof. unfold auth_disable_totp. stmt_walk. Qed.
Lemma evo_refresh_rotate self row u : steps (evo R) (refresh_rotate self row u).
Proof. unfold refresh_rotate. stmt_walk. by apply evo_racing. Qed.

Lemma phase_refresh self tok : steps (phase R) (auth_refresh self tok).
Proof.
  unfold auth_refresh. apply phase_bind; [apply _|by apply (runs_admit (direct R))|]. intros [row u].
  apply phase_steps_evo, evo_refresh_rotate. apply _.
Qed.
End Waiting.

(** ** Rewriting the rows of a table *)

Definition mapped {T} `{Table T} (p : T -> bool) (f : T -> T) (d : Db) : Db :=
  t_set ((fun r => if p r then f r else r) <$> t_get d) d.

Lemma update_where_run {T} `{Table T} (p : T -> bool) f s :
  aborted s = false -> db_ok (db s) = true -> db_ranges (db s) = true ->
  db_ok (mapped p f (db s)) = true -> db_ranges (mapped p f (db s)) = true ->
  update_where p f s = (Ok (Z.of_nat (length (select p (t_get (db s))))), st_db (mapped p f) s).
Proof.
  intros Ha Ho Hr Ho' Hr'. unfold update_where.
  erewrite bind_Ok by by apply flush_run. erewrite bind_Ok by by apply get_db_run.
  erewrite bind_Ok by reflexivity. erewrite bind_Ok by by apply flush_run. done.
Qed.

Lemma update_where_Ok {T} `{Table T} (p : T -> bool) f s n s' :
  update_where p f s = (Ok n, s') ->
  s' = st_db (mapped p f) s /\ n = Z.of_nat (length (select p (t_get (db s)))) /\
  aborted s = false /\ db_ok (db s') = true /\ db_ranges (db s') = true.
Proof.
  unfold update_where. intros H1. apply bind_inv_Ok in H1 as (u & s1 & Hf & H1).
  pose proof Hf as (_ & _ & _ & -> & Ha & _)%flush_inv.
  rewrite (bind_Ok _ _ _ _ _ (get_db_run s Ha)) in H1.
  erewrite bind_Ok in H1 by reflexivity. apply bind_inv_Ok in H1 as (u' & s2 & Hf' & H1).
  pose proof Hf' as (_ & _ & _ & -> & _ & Hr & Hk)%flush_inv. unfold ret in H1. simplify_eq. auto.
Qed.

Lemma unique_by_fmap {A K} `{EqDecision K} (key : A -> option K) (g : A -> A) (t : gmap N A) :
  (forall a, key (g a) = key a) -> unique_by key t = true -> unique_by key (g <$> t) = true.
Proof.
  rewrite !unique_by_spec. intros Hg H i j a b k Hi Hj Ka Kb. rewrite lookup_fmap in Hi, Hj.
  apply fmap_Some in Hi as (x & Hx & ->), Hj as (y & Hy & ->). rewrite Hg in Ka, Kb. eauto.
Qed.
Lemma all_rows_fmap {A} (q : A -> bool) (g : A -> A) (t : gmap N A) :
  (forall a, q a = true -> q (g a) = true) -> all_rows q t = true -> all_rows q (g <$> t) = true.
Proof.
  rewrite !all_rows_spec. intros Hg H i a Hi. rewrite lookup_fmap in Hi.
  apply fmap_Some in Hi as (x & Hx & ->). eauto.
Qed.

(** ** Refresh tokens *)

Definition tokens_of (d : Db) : gmap N RefreshToken := a_refresh (accounts_of d).
Definition users_of (d : Db) : gmap N User := a_users (accounts_of d).

(** A rewriting of refresh tokens that keeps hashes and users keeps the
    constraints. *)
Lemma tokens_mapped_ok p (f : RefreshToken -> RefreshToken) d :
  (forall r, rt_token_hash (f r) = rt_token_hash r /\ rt_user_id (f r) = rt_user_id r) ->
  db_ok d = true -> db_ok (mapped p f d) = true.
Proof.
  intros Hf. unfold db_ok, core_ok, accounts_ok, mapped. simpl. intros H.
  repeat match goal with H : _ && _ = true |- _ => apply andb_prop in H as [? ?] end.
  repeat match goal with |- _ && _ = true => apply andb_true_intro; split end; try assumption.
  - apply unique_by_fmap; [|done]. intros r. unfold uq_token_hash. destruct (p r); [|done].
    by destruct (Hf r) as [-> _].
  - apply all_rows_fmap; [|done]. intros r. destruct (p r); [|done]. by destruct (Hf r) as [_ ->].
Qed.

Lemma tokens_mapped_ranges p (f : RefreshToken -> RefreshToken) d :
  db_ranges (mapped p f d) = db_ranges d.
Proof. done. Qed.

(** Two rows do not share a hash. *)
Lemma token_hash_unique d i j x y :
  db_ok d = true -> tokens_of d !! i = Some x -> tokens_of d !! j = Some y ->
  rt_token_hash x = rt_token_hash y -> i = j.
Proof.
  unfold db_ok, core_ok, accounts_ok. intros H Hx Hy Hh.
  repeat match goal with H : _ && _ = true |- _ => apply andb_prop in H as [? ?] end.
  match goal with H : unique_by uq_token_hash _ = true |- _ => rewrite unique_by_spec in H end.
  match goal with H : forall i j a b k, _ |- _ => eapply (H i j x y (rt_token_hash x)) end;
    [exact Hx|exact Hy|done|]. unfold uq_token_hash. congruence.
Qed.

Lemma token_by_hash_run s i r h :
  aborted s = false -> db_ok (db s) = true -> tokens_of (db s) !! i = Some r ->
  rt_token_hash r = h -> token_by_hash h s = (Ok (Some r), s).
Proof.
  intros Ha Ho Hi Hh. unfold token_by_hash. erewrite bind_Ok by by apply query_run.
  erewrite (select_unique _ _ i r); [done|exact Hi|by rewrite bool_decide_true|].
  intros j b Hj Hb%bool_decide_eq_true. eapply token_hash_unique; eauto. congruence.
Qed.

Lemma query_Ok {T} `{Table T} (p : T -> bool) s l s' :
  query p s = (Ok l, s') -> s' = s /\ aborted s = false /\ l = select p (t_get (db s)).
Proof.
  unfold query, bind, get_db. destruct (aborted s) eqn:Ha; [done|]. unfold ret. naive_solver.
Qed.

Lemma scalar_Ok {T} (l : list T) s o s' :
  scalar_one_or_none l s = (Ok o, s') ->
  s' = s /\ match o with None => l = [] | Some r => l = [r] end.
Proof. destruct l as [|a [|b l]]; unfold scalar_one_or_none, ret, raise; naive_solver. Qed.

(** A SELECT by a predicate that returns one row. *)
Lemma query_scalar_Ok {T} `{Table T} (p : T -> bool) s o s' :
  (l <- query p ;; scalar_one_or_none l) s = (Ok o, s') ->
  s' = s /\ aborted s = false /\
  match o with
  | None => forall i r, t_get (db s) !! i = Some r -> p r = false
  | Some r => (exists i, t_get (db s) !! i = Some r) /\ p r = true
  end.
Proof.
  intros H1. apply bind_inv_Ok in H1 as (l & s1 & Hq & H1).
  apply query_Ok in Hq as (-> & Ha & ->). apply scalar_Ok in H1 as [-> Ho].
  split; [done|]. split; [done|]. destruct o as [r|].
  - apply elem_of_select. rewrite Ho. by apply list_elem_of_singleton.
  - intros i r Hi. destruct (p r) eqn:Hp; [|done]. exfalso.
    assert (Hin : r ∈ select p (t_get (db s))) by (apply elem_of_select; eauto).
    rewrite Ho in Hin. set_solver.
Qed.

(** Drawing values leaves the database alone. *)
Definition draws_only (s s' : St) : Prop :=
  env s' = env s /\ db s' = db s /\ committed s' = committed s /\ aborted s' = aborted s /\
  n_rival s' = n_rival s.
#[export] Instance draws_preorder : PreOrder draws_only.
Proof.
  split; unfold draws_only; [done|]. intros x y z ??. destruct_and!. repeat split; congruence.
Qed.
Lemma draws_now : steps draws_only now.
Proof. done. Qed.
Lemma draws_uuid : steps draws_only new_uuid7.
Proof. done. Qed.
Lemma draws_token : steps draws_only new_opaque_token.
Proof. done. Qed.
#[export] Hint Resolve draws_now draws_uuid draws_token : steps.
Lemma draws_encode lib st u t : steps draws_only (encode_access_token lib st u t).
Proof. unfold encode_access_token. steps_walk. Qed.

Lemma draws_inv {A} (m : SM A) s r s' : steps draws_only m -> m s = (r, s') -> draws_only s s'.
Proof. intros H E. specialize (H s). by rewrite E in H. Qed.

Lemma admit_Ok tok s row u s1 :
  refresh_admit tok s = (Ok (row, u), s1) ->
  draws_only s s1 /\ aborted s = false /\ (exists i, tokens_of (db s) !! i = Some row) /\
  rt_token_hash row = hash_token (env s) tok /\ unspent row = true /\
  users_of (db s) !! rt_user_id row = Some u /\ u_status u = UActive /\
  (env_now (env s) (n_now s) < rt_expires_at row)%Z.
Proof.
  unfold refresh_admit. rewrite (bind_Ok _ _ s (env s) s) by done. cbv beta.
  intros H. apply bind_inv_Ok in H as (found & s2 & Hf & H).
  apply query_scalar_Ok in Hf as (-> & Ha & Hf).
  destruct found as [r|]; [|done]. destruct Hf as [Hi Hh%bool_decide_eq_true].
  destruct (unspent r) eqn:Hu; simpl in H.
  2:{ apply bind_inv_Ok in H as (? & ? & _ & H). by apply bind_inv_Ok in H as (? & ? & _ & H). }
  erewrite bind_Ok in H by reflexivity. destruct (_ <=? _)%Z eqn:Et; [done|].
  apply Z.leb_gt in Et. apply bind_inv_Ok in H as (o & s3 & Hg & H).
  unfold global_get in Hg. rewrite session_get_run in Hg by done. injection Hg as <- <-.
  simpl in H. assert (Hblocked : forall T (k : SM T), (revoke_family (rt_family_id r) "user_blocked" ;;;
    session_commit ;;; auth_failed "invalid refresh token") (now s).2 = (Ok (row, u), s1) -> False).
  { intros T k Hb. apply bind_inv_Ok in Hb as (? & ? & _ & Hb).
    by apply bind_inv_Ok in Hb as (? & ? & _ & Hb). }
  destruct (a_users _ !! _) as [u'|] eqn:Eu; [|by destruct (Hblocked unit (ret tt))].
  case_bool_decide as Hs; [|by destruct (Hblocked unit (ret tt))].
  unfold ret in H. simplify_eq. repeat split; auto.
Qed.

Lemma tokens_mapped p f d j :
  tokens_of (mapped p f d) !! j = (fun r => if p r then f r else r) <$> tokens_of d !! j.
Proof. unfold tokens_of, mapped. simpl. by rewrite lookup_fmap. Qed.
Lemma tokens_put r d : tokens_of (t_put r d) = <[rt_id r := r]> (tokens_of d).
Proof. done. Qed.

(** A rotation that ends well: the row is rotated and a fresh token of the
    same family stands beside it. *)
Lemma rotate_Ok self row u s pair s2 :
  no_rivals (env s) -> tokens_of (db s) !! rt_id row = Some row -> unspent row = true ->
  refresh_rotate self row u s = (Ok pair, s2) ->
  exists t fresh,
    tokens_of (db s2) = <[rt_id fresh := fresh]> (tokens_of (mapped
      (fun r => bool_decide (rt_id r = rt_id row) && unspent r) (rotate t) (db s))) /\
    rt_id fresh ≠ rt_id row /\ rt_family_id fresh = rt_family_id row /\ unspent fresh = true /\
    rt_token_hash fresh = hash_token (env s) (tp_refresh_token pair) /\
    env s2 = env s /\ aborted s2 = false /\ db_ok (db s2) = true /\ db_ranges (db s2) = true.
Proof.
  intros Hn Hi Hu. unfold refresh_rotate. erewrite bind_Ok by reflexivity. cbv beta.
  intros H. apply bind_inv_Ok in H as (n & s1 & Hr & H).
  unfold racing_update in Hr. erewrite bind_Ok in Hr by reflexivity.
  apply update_where_Ok in Hr as (-> & _ & Ha & _).
  destruct (n =? 0)%Z; [done|]. apply bind_inv_Ok in H as (acc & s3 & He & H).
  apply draws_inv in He as (E3 & D3 & _ & A3 & _); [|apply draws_encode].
  do 4 (erewrite bind_Ok in H by reflexivity). cbv beta in H.
  apply bind_inv_Ok in H as (u' & s4 & Hins & H).
  apply insert_row_Ok in Hins as (-> & _ & Hfree & Hrg & Hok). unfold ret in H.
  injection H as <- <-. cbn [db st_db env aborted tp_refresh_token new_opaque_token new_uuid7 now
    snd rt_id] in *.
  rewrite Hn in D3. eexists _, (mkRefreshToken _ _ _ _ _ _ _ _ _ _).
  rewrite tokens_put, D3. split; [reflexivity|]. split.
  { simpl. intros Heq. change (tokens_of (db s3) !! env_uuid7 (env s3) (n_uuid s3) = None) in Hfree.
    rewrite Heq, D3, tokens_mapped, Hi in Hfree. done. }
  rewrite D3 in Hok, Hrg. rewrite E3 in *. repeat split; auto. by rewrite A3.
Qed.

Definition in_family (f : uuid) (r : RefreshToken) : bool :=
  bool_decide (rt_family_id r = f) && unrevoked r.

Definition EReuse : exn := EDomain AuthenticationError "refresh token reuse detected".

(** A spent token: the whole family is revoked and that is committed, though
    the request is refused. *)
Lemma reuse_run tok s i row :
  aborted s = false -> db_ok (db s) = true -> db_ranges (db s) = true ->
  tokens_of (db s) !! i = Some row -> rt_token_hash row = hash_token (env s) tok ->
  unspent row = false ->
  exists t s', refresh_admit tok s = (Raise EReuse, s') /\ env s' = env s /\
    committed s' = mapped (in_family (rt_family_id row)) (revoke t "reuse_detected") (db s).
Proof.
  intros Ha Ho Hr Hi Hh Hu. unfold refresh_admit. rewrite (bind_Ok _ _ s (env s) s) by done. cbv beta.
  erewrite bind_Ok by by eapply token_by_hash_run. cbv beta iota. rewrite Hu. cbn [negb].
  exists (env_now (env s) (n_now s)).
  assert (Hok : forall t, db_ok (mapped (in_family (rt_family_id row)) (revoke t "reuse_detected") (db s)) = true)
    by (intros t; by apply tokens_mapped_ok).
  erewrite bind_Ok.
  2:{ unfold revoke_family. erewrite bind_Ok by reflexivity. cbv beta.
      erewrite bind_Ok by (apply update_where_run; [done..|apply Hok|done]). reflexivity. }
  erewrite bind_Ok.
  2:{ unfold session_commit. erewrite bind_Ok by (apply flush_run; [done|exact Hr|apply Hok]).
      reflexivity. }
  eexists. split; [reflexivity|]. done.
Qed.

(** ... so the committed database has the family revoked. *)
Lemma refresh_reuse_committed self tok s i row :
  db_ok (committed s) = true -> db_ranges (committed s) = true ->
  tokens_of (committed s) !! i = Some row -> rt_token_hash row = hash_token (env s) tok ->
  unspent row = false ->
  (with_uow (auth_refresh self tok) s).1 = Raise EReuse /\
  env (with_uow (auth_refresh self tok) s).2 = env s /\
  exists t, committed (with_uow (auth_refresh self tok) s).2 =
    mapped (in_family (rt_family_id row)) (revoke t "reuse_detected") (committed s).
Proof.
  intros Ho Hr Hi Hh Hu.
  destruct (reuse_run tok (uow_enter s) i row) as (t & s' & Hrun & He & Hc); [done..|].
  unfold with_uow, auth_refresh. rewrite (bind_Raise _ _ (uow_enter s) EReuse s').
  2:{ by apply bind_Raise. }
  simpl. rewrite He, Hc. eauto.
Qed.

Lemma revoked_spent t reason r : unspent (revoke t reason r) = false.
Proof. unfold unspent. simpl. by rewrite andb_false_r. Qed.

Lemma in_family_mapped f t reason d j r :
  tokens_of d !! j = Some r -> rt_family_id r = f ->
  exists r', tokens_of (mapped (in_family f) (revoke t reason) d) !! j = Some r' /\
    rt_token_hash r' = rt_token_hash r /\ is_Some (rt_revoked_at r').
Proof.
  intros Hj Hf. rewrite tokens_mapped, Hj. eexists. split; [reflexivity|].
  unfold in_family. rewrite bool_decide_true by done. unfold unrevoked. simpl.
  case_bool_decide as Hn; simpl; [eauto|]. split; [done|].
  destruct (rt_revoked_at r); [eauto|done].
Qed.

(** What a successful refresh leaves committed. *)
Lemma refresh_committed self tok s pair :
  no_rivals (env s) -> Keyed (R:=RefreshToken) (committed s) ->
  (with_uow (auth_refresh self tok) s).1 = Ok pair ->
  let s1 := (with_uow (auth_refresh self tok) s).2 in
  env s1 = env s /\ db_ok (committed s1) = true /\ db_ranges (committed s1) = true /\
  exists i j old fresh,
    tokens_of (committed s1) !! i = Some old /\ rt_token_hash old = hash_token (env s) tok /\
    unspent old = false /\
    tokens_of (committed s1) !! j = Some fresh /\ rt_family_id fresh = rt_family_id old /\
    unspent fresh = true /\ rt_token_hash fresh = hash_token (env s) (tp_refresh_token pair).
Proof.
  intros Hn Hk H. apply uow_Ok in H as (s1 & Hb & Hc & He & Hok & Hrg). simpl.
  unfold auth_refresh in Hb. apply bind_inv_Ok in Hb as ([row u] & s0 & Had & Hro).
  apply admit_Ok in Had as ((E0 & D0 & _ & _ & _) & _ & (i & Hi) & Hh & Hu & _).
  simpl in E0, D0, Hi, Hh. pose proof (Hk i row Hi) as Hid. simpl in Hid. subst i. simpl in Hro.
  apply rotate_Ok in Hro as (t & fresh & Ht & Hne & Hf & Hfu & Hfh & E1 & _);
    [|by rewrite E0|by rewrite D0|done].
  rewrite Hc, He, E1, E0, Ht. split; [done|]. split; [done|]. split; [done|].
  exists (rt_id row), (rt_id fresh), (rotate t row), fresh.
  rewrite lookup_insert_ne, tokens_mapped, D0, Hi, lookup_insert_eq by done. simpl.
  rewrite bool_decide_true, Hu by done. rewrite E0 in Hfh. done.
Qed.

(** ** Who gets in *)

Definition totp_of (d : Db) : gmap N UserTotp := a_totp (accounts_of d).

Lemma quiet_inv_db {A} (m : SM A) s r s' :
  steps quiet m -> m s = (r, s') -> db s' = db s /\ aborted s' = aborted s /\ env s' = env s.
Proof. intros H E. by destruct (quiet_db m s r s' H E) as (? & ? & _ & ? & _). Qed.

(** A login that ends well: the account is active, the password is right, and
    two-factor authentication decides between tokens and a challenge. *)
Lemma authenticate_Ok self email pw ip ua s r s' :
  auth_authenticate self email pw ip ua s = (Ok r, s') ->
  exists i u, users_of (db s) !! i = Some u /\
    str_lower (u_email u) = str_lower (strip (str_lower (strip email))) /\
    verify_password (as_lib self) (Some (u_password_hash u)) pw = true /\
    u_status u = UActive /\
    two_factor_on (totp_of (db s) !! u_id u) =
      match r with LoginTokens _ => false | TwoFactorChallenge _ => true end.
Proof.
  unfold auth_authenticate. intros H. apply bind_inv_Ok in H as (al & s1 & H1 & H).
  apply quiet_inv_db in H1 as (D1 & _ & _); [|auto with steps].
  destruct (negb al); [done|]. apply bind_inv_Ok in H as (o & s2 & Ho & H).
  apply query_scalar_Ok in Ho as (-> & _ & Ho). apply bind_inv_Ok in H as (lk & s3 & H3 & H).
  apply quiet_inv_db in H3 as (D3 & A3 & _); [|auto with steps].
  destruct lk; [done|]. destruct o as [u|].
  2:{ exfalso. apply bind_inv_Ok in H as (? & ? & _ & H). by apply bind_inv_Ok in H as (? & ? & _ & H). }
  destruct Ho as [[i Hi] Hm%bool_decide_eq_true].
  destruct (_ || _) eqn:Eo.
  { exfalso. apply bind_inv_Ok in H as (? & ? & _ & H). by apply bind_inv_Ok in H as (? & ? & _ & H). }
  apply orb_false_iff in Eo as [Hp%negb_false_iff Ha%negb_false_iff].
  apply bool_decide_eq_true in Ha. apply bind_inv_Ok in H as (c & s4 & H4 & H).
  apply quiet_inv_db in H4 as (D4 & A4 & _); [|auto with steps].
  apply bind_inv_Ok in H as (tr & s5 & H5 & H).
  assert (tr = totp_of (db s) !! u_id u) as ->.
  { unfold session_get in H5. apply bind_inv_Ok in H5 as (d & s6 & Hd & H5).
    unfold get_db in Hd. destruct (aborted s4); [done|]. unfold ret in H5. simplify_eq.
    by rewrite D4, D3, D1. }
  rewrite D1 in Hi. exists i, u. split; [done|]. split; [done|]. split; [done|]. split; [done|].
  destruct (two_factor_on _).
  - unfold issue_two_factor_challenge in H. apply bind_inv_Ok in H as (? & ? & _ & H).
    apply bind_inv_Ok in H as (? & ? & _ & H). apply bind_inv_Ok in H as (? & ? & _ & H).
    unfold ret in H. by simplify_eq.
  - apply bind_inv_Ok in H as (? & ? & _ & H). unfold ret in H. by simplify_eq.
Qed.

(** ** Sessions end with the password *)

Lemma revoke_all_Ok u reason s x s' :
  revoke_all_user_tokens u reason s = (Ok x, s') ->
  exists t, db s' = mapped (fun r => bool_decide (rt_user_id r = u) && unrevoked r)
                      (revoke t reason) (db s).
Proof.
  unfold revoke_all_user_tokens. erewrite bind_Ok by reflexivity. cbv beta. intros H.
  apply bind_inv_Ok in H as (n & s1 & Hu & H). apply update_where_Ok in Hu as (-> & _).
  unfold ret in H. simplify_eq. eexists. reflexivity.
Qed.

Lemma revoke_all_spec u t reason d j r :
  tokens_of (mapped (fun r => bool_decide (rt_user_id r = u) && unrevoked r) (revoke t reason) d) !! j
    = Some r -> rt_user_id r = u -> is_Some (rt_revoked_at r).
Proof.
  rewrite tokens_mapped, fmap_Some. intros (x & Hx & ->).
  destruct (_ && _) eqn:E; [simpl; eauto|]. intros Hu. apply andb_false_iff in E as [E|E].
  - by apply bool_decide_eq_false in E.
  - apply bool_decide_eq_false in E. destruct (rt_revoked_at x); [eauto|done].
Qed.

(** ** Single-use tokens *)

Definition gone (k : string) (s s' : St) : Prop := redis s !! k = None -> redis s' !! k = None.
#[export] Instance gone_preorder k : PreOrder (gone k).
Proof. split; [intros x|intros x y z]; unfold gone; tauto. Qed.
#[export] Instance gone_stmt k : Stmt (fun _ _ => True) (gone k).
Proof. split; [split; [by intros ?|by intros ???]|apply _|]. intros s s' _ _ _ Hr _ _. unfold gone. by rewrite Hr. Qed.

Lemma uow_redis {A} (body : SM A) s :
  redis (with_uow body s).2 = redis (body (uow_enter s)).2.
Proof.
  unfold with_uow, bind. destruct (body (uow_enter s)) as [[a|e] s1]; simpl; [|done].
  unfold session_commit, bind, flush.
  destruct (aborted s1); [done|]. destruct (negb (db_ranges _)); [done|].
  by destruct (negb (db_ok _)).
Qed.

Lemma consume_gone ns h s : redis (store_consume ns h s).2 !! store_key ns h = None.
Proof. simpl. apply lookup_delete_eq. Qed.

Lemma alive_None t m k : m !! k = None -> alive t m k = None.
Proof. unfold alive. by intros ->. Qed.

Lemma consume_None ns h s :
  redis s !! store_key ns h = None -> (store_consume ns h s).1 = Ok None.
Proof.
  intros H. unfold store_consume, redis_getdel, bind, now, gets, modify, ret.
  cbn [redis fst snd]. by rewrite alive_None.
Qed.

(** Reset tokens: consumed by the first attempt, whatever becomes of it. *)
Lemma reset_consumes self tok pw s :
  redis (with_uow (auth_reset_password self tok pw) s).2 !!
    store_key RESET_NS (hash_token (env s) tok) = None.
Proof.
  set (k := store_key _ _). rewrite uow_redis. unfold auth_reset_password.
  rewrite (bind_Ok _ _ _ (env s) (uow_enter s)) by done. cbv beta.
  pose proof (consume_gone RESET_NS (hash_token (env s) tok) (uow_enter s)) as Hg.
  unfold bind at 1. destruct (store_consume _ _ _) as [[o|e] s1]; simpl in *; [|done].
  destruct o as [raw|]; [|done].
  match goal with |- redis (?m s1).2 !! _ = None =>
    assert (Hm : steps (gone k) m) by
      (assert (CoreBlind (fun _ _ => True)) by (apply core_blind; done); stmt_walk) end.
  by apply Hm.
Qed.

(** ** A locked account *)

Definition account_key (found : option User) (email : string) : string :=
  match found with
  | Some u => uuid_str (u_id u)
  | None => "email:" +:+ str_lower (strip email)
  end.

(** While the lock lasts no password gets in. *)
Lemma locked_refused self email pw ip ua s found v e :
  (get_by_email (str_lower (strip email)) s).1 = Ok found ->
  redis s !! lock_key (account_key found email) = Some (v, Some e) -> (reading s 1 < e)%Z ->
  exists err, (auth_authenticate self email pw ip ua s).1 = Raise err /\
    (err = EResponse \/ exists msg, err = EDomain RateLimitedError msg).
Proof.
  intros Hf Hl He. unfold auth_authenticate, limiter_hit. unfold bind at 1 2.
  destruct (incr_with_ttl _ _ s) as [r s1] eqn:Ei.
  pose proof (quiet_db _ _ _ _ (quiet_incr _ _) Ei) as (_ & D1 & _ & A1 & _).
  apply incr_frame in Ei as (E1 & N1 & K1 & Hr). destruct r as [c|err]; [|subst; simpl; eauto].
  unfold ret at 1. destruct (negb _); [simpl; eauto|].
  assert (Hf1 : get_by_email (str_lower (strip email)) s1 = (Ok found, s1)).
  { unfold get_by_email, query, get_db, bind in *. rewrite D1, A1.
    destruct (aborted s); [done|]. unfold ret in *.
    destruct (select _ _) as [|x [|y l]]; simpl in *; unfold ret, raise in *; simpl in *; congruence. }
  unfold bind at 1. rewrite Hf1.
  destruct (is_locked_run (account_key found email) s1 v e) as (s2 & H2).
  { rewrite K1; [done|]. apply rate_lock_differ. }
  { unfold reading in *. rewrite E1, N1. by replace (S (n_now s) + 0)%nat with (n_now s + 1)%nat by lia. }
  unfold account_key in H2. unfold bind at 1. rewrite H2. simpl. eauto.
Qed.
