(* ===== verification/LoginFacts.v ===== *)
(** Runs of login attempts: how many passwords an attacker gets to try, and
    what the second factor asks for. *)

From stdpp Require Import base strings gmap list.
From Stdlib Require Import ZArith Lia Ascii.
From S2P Require Import Prelude Errors PyLib Calendar Entities Models Events Session SessionFacts.
From S2P Require Import Footprints Cache Accounts AccountsFacts.

(** ** Guessing a password *)

Record Guess : Set := mkGuess { g_password : string; g_ip : option string; g_agent : option string }.

(** One request, whose failure does not stop the attacker. *)
Definition login (self : AuthService) (email : string) (g : Guess) : SM (res exn LoginResult) :=
  fun s => let '(r, s') := with_uow (auth_authenticate self email (g_password g) (g_ip g) (g_agent g)) s
           in (Ok r, s').

Fixpoint logins (self : AuthService) (email : string) (l : list Guess)
    : SM (list (res exn LoginResult)) :=
  match l with
  | [] => ret []
  | g :: l' => r <- login self email g ;; rs <- logins self email l' ;; ret (r :: rs)
  end.

(** The answer tells whether the password was looked at. *)
Definition tested (r : res exn LoginResult) : bool :=
  match r with
  | Raise (EDomain AuthenticationError _) => true
  | _ => false
  end.
Definition tests (l : list (res exn LoginResult)) : Z :=
  Z.of_nat (length (List.filter tested l)).

(** [password] opens no account of that address. *)
Definition wrong (self : AuthService) (email : string) (d : Db) (password : string) : Prop :=
  forall i u, users_of d !! i = Some u ->
    str_lower (u_email u) = str_lower (strip (str_lower (strip email))) ->
    verify_password (as_lib self) (Some (u_password_hash u)) password = false \/ u_status u ≠ UActive.

Section Guessing.
Context (self : AuthService) (email : string) (found : option User) (t0 : datetime).
Let th := auth_throttle self.
Let a := account_key found email.
Let horizon := (t0 + timedelta_seconds (shortest_lock th))%Z.
Hypothesis Hmax : (0 < th_max_failures th)%Z.
Hypothesis Hlock : (0 < th_lockout_seconds th)%Z.

(** [c] failures on record, everything else as it was. *)
Definition watched (d : Db) (c : Z) (s : St) : Prop :=
  committed s = d /\ readings_in t0 horizon s /\ (0 <= c)%Z /\
  exists until, (horizon <= until)%Z /\
    (throttled th a c until t0 (redis s) \/
     (c = 0%Z /\ redis s !! fail_key a = None /\ redis s !! lock_key a = None)).

(** What leaves the record alone. *)
Definition spares (s s' : St) : Prop :=
  env s' = env s /\ (n_now s <= n_now s')%nat /\ committed s' = committed s /\
  redis s' !! fail_key a = redis s !! fail_key a /\ redis s' !! lock_key a = redis s !! lock_key a.
#[local] Instance spares_preorder : PreOrder spares.
Proof.
  split; [done|]. intros x y z (? & ? & ? & ? & ?) (? & ? & ? & ? & ?).
  split; [congruence|]. split; [lia|]. split; [congruence|]. split; congruence.
Qed.

Lemma readings_later lo hi s s' :
  env s' = env s -> (n_now s <= n_now s')%nat -> readings_in lo hi s -> readings_in lo hi s'.
Proof.
  intros E N H i. specialize (H (n_now s' - n_now s + i)%nat). unfold reading in *. rewrite E.
  by replace (n_now s' + i)%nat with (n_now s + (n_now s' - n_now s + i))%nat by lia.
Qed.

Lemma watched_spared d c s s' : spares s s' -> watched d c s -> watched d c s'.
Proof.
  intros (E & N & C & F & L) (Hd & Hr & Hc & until & Hu & Ht). split; [congruence|].
  split; [by eapply readings_later|]. split; [done|]. exists until. split; [done|].
  unfold throttled in *. by rewrite F, L.
Qed.

Lemma spares_hit scope key limit window : steps spares (limiter_hit scope key limit window).
Proof.
  intros s. unfold limiter_hit, bind. destruct (incr_with_ttl _ _ s) as [r s'] eqn:Ei.
  pose proof (quiet_db _ _ _ _ (quiet_incr _ _) Ei) as (_ & _ & C & _).
  apply incr_frame in Ei as (E & N & K & _).
  assert (spares s s').
  { split; [done|]. split; [lia|]. split; [done|]. split; apply K; unfold rate_key; by intros [=]. }
  by destruct r.
Qed.

Lemma spares_locked k : steps spares (is_locked k).
Proof. intros s. simpl. repeat split; simpl; lia. Qed.

Lemma spares_emit_now ctx name payload : steps spares (emit_now ctx name payload).
Proof.
  intros s. unfold emit_now, envelope, bind. destruct (lift_res _ s) as [[u|e] s'] eqn:El;
    unfold lift_res in El; destruct (validate_event_name name); simplify_eq; simpl;
    repeat split; simpl; lia.
Qed.

(** [is_locked] tells the record. *)
Lemma locked_watched d c s b s' :
  watched d c s -> is_locked a s = (Ok b, s') -> b = bool_decide (th_max_failures th <= c)%Z.
Proof.
  intros (_ & Hr & Hc & until & Hu & Ht) H. specialize (Hr 0%nat). rewrite <- reading_0 in Hr.
  unfold is_locked, redis_exists, redis_get, bind, now, gets, ret in H. cbn [env redis] in H.
  unfold alive in H. destruct Ht as [[_ Hl]|(-> & _ & Hl)].
  - destruct (th_max_failures th <=? c)%Z eqn:Em.
    + destruct Hl as (v & e & Hl & He). rewrite Hl in H. cbn [mbind option_bind snd] in H.
      rewrite (proj2 (Z.leb_gt _ _)) in H by (unfold horizon in *; lia). apply (f_equal fst) in H. injection H as <-.
      symmetry. by apply bool_decide_true, Z.leb_le.
    + rewrite Hl in H. apply (f_equal fst) in H. injection H as <-.
      symmetry. apply bool_decide_false.
      apply Z.leb_gt in Em. lia.
  - rewrite Hl in H. apply (f_equal fst) in H. injection H as <-.
    symmetry. apply bool_decide_false. lia.
Qed.

Lemma failure_watched d c s :
  watched d c s ->
  exists s', record_login_failure th a s = (Ok tt, s') /\ watched d (c + 1) s'.
Proof.
  intros (Hd & Hr & Hc & until & Hu & Ht).
  destruct (failure_next th a Hlock c until t0 s Hc Hr Hu Ht) as (u' & n & m & s' & H & Hl & Hu' & Ht').
  exists s'. split; [done|].
  pose proof (quiet_db _ _ _ _ (quiet_record_failure _ _) H) as (_ & _ & C & _).
  split; [congruence|]. split; [by eapply readings_left|]. split; [lia|]. exists u'. split; [done|].
  left. by destruct Hl as (_ & _ & ->).
Qed.

(** A password that was tested and refused: one more failure on record. *)
Lemma refused_watched d c s ctx payload msg :
  watched d c s -> (c < th_max_failures th)%Z ->
  exists e s', (record_login_failure th a ;;; emit_now ctx "auth.user.login_failed" payload ;;;
                auth_failed (A:=LoginResult) msg) s = (Raise e, s') /\
    tested (Raise e) = true /\ watched d (c + 1) s'.
Proof.
  intros W Hc. destruct (failure_watched _ _ _ W) as (s1 & E1 & W1).
  rewrite (bind_Ok _ _ _ _ _ E1). cbv beta. unfold bind.
  pose proof (spares_emit_now ctx "auth.user.login_failed" payload s1) as S2.
  destruct (emit_now _ _ _ s1) as [[i|e] s2] eqn:E2; simpl in S2.
  - pose proof (watched_spared _ _ _ _ S2 W1) as W2. by eexists _, s2.
  - exfalso. unfold emit_now, envelope, bind in E2. vm_compute in E2. done.
Qed.

(** The lookup by address depends on the rows only. *)
Lemma by_email_same e s s1 o :
  db s1 = db s -> aborted s1 = aborted s -> (get_by_email e s).1 = Ok o ->
  get_by_email e s1 = (Ok o, s1).
Proof.
  intros D1 A1 Hf. unfold get_by_email, query, get_db, bind in *. rewrite A1, D1.
  destruct (aborted s); [done|]. unfold ret in *.
  destruct (select _ _) as [|x [|y l]]; simpl in *; unfold ret, raise in *; simpl in *; congruence.
Qed.

(** What becomes of one attempt: refused, and counted when it was tested. *)
Lemma attempt_watched d c pw ip ua s :
  (get_by_email (str_lower (strip email)) (uow_enter s)).1 = Ok found ->
  wrong self email d pw -> watched d c s ->
  exists e s', auth_authenticate self email pw ip ua (uow_enter s) = (Raise e, s') /\
    (if tested (Raise e) then (c < th_max_failures th)%Z /\ watched d (c + 1) s' else watched d c s').
Proof.
  intros Hf Hw Hs. set (s0 := uow_enter s). assert (Hs0 : watched d c s0) by exact Hs.
  unfold auth_authenticate. fold th. unfold bind at 1.
  pose proof (spares_hit "login_ip" (ip_or_unknown ip) 30 60 s0) as S1.
  pose proof (quiet_hit "login_ip" (ip_or_unknown ip) 30 60 s0) as (_ & D1 & _ & A1 & _).
  destruct (limiter_hit _ _ _ _ s0) as [r1 s1] eqn:E1. simpl in S1, D1, A1.
  pose proof (watched_spared _ _ _ _ S1 Hs0) as W1.
  destruct r1 as [al|e].
  2:{ exists e, s1. split; [done|]. unfold limiter_hit, bind in E1.
      destruct (incr_with_ttl _ _ s0) as [[n|e'] s2] eqn:Ei; [done|].
      apply incr_frame in Ei as (_ & _ & _ & ->). by simplify_eq. }
  destruct (negb al); [by eexists _, s1|].
  rewrite (bind_Ok _ _ _ found s1) by by apply (by_email_same _ s0). cbv beta.
  change (match found with Some u => uuid_str (u_id u) | None => "email:" +:+ str_lower (strip email) end)
    with a.
  pose proof (spares_locked a s1) as S2.
  unfold bind at 1. destruct (is_locked a s1) as [[b|e] s2] eqn:E2; [|done]. simpl in S2.
  pose proof (locked_watched _ _ _ _ _ W1 E2) as ->. pose proof (watched_spared _ _ _ _ S2 W1) as W2.
  case_bool_decide as Hc; [by eexists _, s2|]. apply Z.nle_gt in Hc.
  remember found as o eqn:Ef in |- *.
  match goal with |- context [record_login_failure th a ;;; emit_now ?ctx _ ?p ;;; auth_failed ?m] =>
    destruct (refused_watched d c s2 ctx p m W2 Hc) as (e & s3 & Hk & Ht & W3) end.
  destruct o as [u|]; [|exists e, s3; by rewrite Hk, Ht].
  destruct (_ || _) eqn:Eo; [exists e, s3; by rewrite Hk, Ht|]. exfalso.
  apply orb_false_iff in Eo as [Hp%negb_false_iff Ha%negb_false_iff]. apply bool_decide_eq_true in Ha.
  rewrite <- Ef in Hf. unfold get_by_email in Hf. destruct (bind _ _ _) as [r ?] eqn:Eq in Hf.
  simpl in Hf. subst r.
  apply query_scalar_Ok in Eq as (_ & _ & [i Hi] & Hm%bool_decide_eq_true). simpl in Hi.
  destruct Hs as [Hd _].
  destruct (Hw i u); [by rewrite <- Hd|done|simpl in Hp; congruence|done].
Qed.

(** A run of wrong guesses. *)
Lemma logins_watched d l : forall c s,
  (get_by_email (str_lower (strip email)) (uow_enter s)).1 = Ok found ->
  (forall g, g ∈ l -> wrong self email d (g_password g)) -> watched d c s ->
  exists rs s', logins self email l s = (Ok rs, s') /\ watched d (c + tests rs) s' /\
    Forall (fun r => exists e, r = Raise e) rs /\
    (tests rs = 0 \/ c + tests rs <= th_max_failures th)%Z.
Proof.
  induction l as [|g l IH]; intros c s Hf Hw Hs; cbn [logins].
  { exists [], s. split; [done|]. unfold tests. simpl. rewrite Z.add_0_r. auto. }
  destruct (attempt_watched d c (g_password g) (g_ip g) (g_agent g) s Hf) as (e & s1 & H1 & Hc);
    [apply Hw; by left|done|].
  assert (El : login self email g s = (Ok (Raise e), uow_rollback s1)).
  { unfold login, with_uow. by rewrite (bind_Raise _ _ _ _ _ H1). }
  rewrite (bind_Ok _ _ _ _ _ El). cbv beta.
  destruct (IH (if tested (Raise e) then c + 1 else c)%Z (uow_rollback s1)) as (rs & s' & H2 & W2 & F2 & B2).
  - assert (W1 : committed s1 = d) by (destruct (tested _); [apply (proj2 Hc)|apply Hc]).
    destruct Hs as [Hd _].
    rewrite (by_email_same _ (uow_enter s) _ found); [done|simpl; congruence|done|done].
  - intros x Hx. apply Hw. by right.
  - destruct (tested _); [destruct Hc as [_ Hc]|]; exact Hc.
  - rewrite (bind_Ok _ _ _ _ _ H2). exists (Raise e :: rs), s'. split; [done|].
    assert (Et : tests (Raise e :: rs) = ((if tested (Raise e) then 1 else 0) + tests rs)%Z).
    { unfold tests. cbn [List.filter]. destruct (tested _); cbn [length]; lia. }
    rewrite Et. destruct (tested (Raise e)).
    + split; [by rewrite Z.add_assoc|]. split; [constructor; eauto|]. right. lia.
    + split; [done|]. split; [constructor; eauto|]. destruct B2; [left|right]; lia.
Qed.

(** With the record full, no password is looked at. *)
Lemma full_refused d c s pw ip ua :
  (get_by_email (str_lower (strip email)) (uow_enter s)).1 = Ok found ->
  watched d c s -> (th_max_failures th <= c)%Z ->
  exists e, (with_uow (auth_authenticate self email pw ip ua) s).1 = Raise e /\ tested (Raise e) = false.
Proof.
  intros Hf (_ & Hr & _ & until & _ & Ht) Hc.
  destruct Ht as [[_ Hl]|(-> & _)]; [|lia]. rewrite (proj2 (Z.leb_le _ _) Hc) in Hl.
  destruct Hl as (v & x & Hl & Hx).
  destruct (locked_refused self email pw ip ua (uow_enter s) found v x) as (e & He & Hk).
  - done.
  - exact Hl.
  - specialize (Hr 1%nat). unfold horizon in *. unfold reading in *. simpl. lia.
  - exists e. unfold with_uow, bind. destruct (auth_authenticate _ _ _ _ _ _) as [r s1]. simpl in He.
    subst r. split; [done|]. by destruct Hk as [->|[m ->]].
Qed.
End Guessing.

(** ** The second factor *)

Definition recovery_of (d : Db) : gmap N UserRecoveryCode := a_recovery (accounts_of d).

Lemma session_get_Ok {T} `{Table T} i s o s' :
  session_get (R:=T) i s = (Ok o, s') -> s' = s /\ o = t_get (db s) !! i.
Proof.
  unfold session_get, bind, get_db, ret. destruct (aborted s); [done|]. by intros [= <- <-].
Qed.

(** A code is good when it is the current one and was not used before, or is
    an unused recovery code of the account. *)
Definition good_code (self : AuthService) (d : Db) (m : Redis) (en : Env) (u : uuid) (code : string)
    : Prop :=
  exists row secret, totp_of d !! u = Some row /\
    fernet_decrypt (as_lib self) (ut_secret_encrypted row) = Some secret /\
    ((exists t t', pyotp_verify (as_lib self) secret code t = true /\
        alive t' m (totp_used_key (uuid_str u) code) = None) \/
     (exists i c, recovery_of d !! i = Some c /\ rc_user_id c = u /\
        rc_code_hash c = hash_recovery_code en code /\ rc_used_at c = None)).

Lemma length_1_elem {A} (l : list A) : Z.of_nat (length l) = 1%Z -> exists x, x ∈ l.
Proof. destruct l as [|x l]; [done|]. exists x. by left. Qed.

Lemma verify_code_Ok self u code s s' :
  no_rivals (env s) -> verify_totp_or_recovery self u code s = (Ok true, s') ->
  good_code self (db s) (redis s) (env s) u code.
Proof.
  intros Hn H. unfold verify_totp_or_recovery in H. apply bind_inv_Ok in H as (o & s1 & H1 & H).
  apply session_get_Ok in H1 as [-> ->]. destruct (t_get (db s) !! u) as [row|] eqn:Er; [|done].
  unfold decrypt in H. destruct (fernet_decrypt _ _) as [secret|] eqn:Ed; [|done].
  exists row, secret. split; [done|]. split; [done|].
  erewrite bind_Ok in H by reflexivity. cbv beta in H. unfold verify_totp in H.
  erewrite bind_Ok in H by reflexivity. cbv beta in H.
  destruct (pyotp_verify _ _ _ _) eqn:Ev.
  - left. eexists _, _. split; [exact Ev|]. unfold check_and_mark, redis_set in H.
    unfold guardM in H. erewrite bind_Ok in H by reflexivity. cbv beta in H.
    erewrite bind_Ok in H by reflexivity. erewrite bind_Ok in H by reflexivity. cbv beta in H.
    cbn [redis now snd] in H. destruct (alive _ (redis s) _) eqn:Ea; [|exact Ea].
    rewrite bool_decide_true in H by eauto. done.
  - right. do 2 (erewrite bind_Ok in H by reflexivity). cbv beta in H.
    apply bind_inv_Ok in H as (n & s2 & Hr & H). unfold ret in H. injection H as Hn1 <-.
    apply Z.eqb_eq in Hn1. subst n. unfold racing_update in Hr.
    erewrite bind_Ok in Hr by reflexivity. apply update_where_Ok in Hr as (_ & Hl & _).
    symmetry in Hl. apply length_1_elem in Hl as [c Hc]. apply elem_of_select in Hc as [[i Hi] Hp].
    cbn [db st_db now snd] in Hi. rewrite Hn in Hi. exists i, c. split; [exact Hi|].
    rewrite !andb_true_iff, !bool_decide_eq_true in Hp. tauto.
Qed.

(** Whoever completes the challenge had passed the password, is active, and
    showed a good code; the challenge is used up whatever the outcome. *)
Lemma complete_Ok self ch code s pair s' :
  no_rivals (env s) -> auth_complete_two_factor self ch code s = (Ok pair, s') ->
  exists v u acc, alive (reading s 0) (redis s) (store_key CHALLENGE_NS (hash_token (env s) ch)) = Some v /\
    uuid_parse (rval_str v.1) = Some u /\ users_of (db s) !! u = Some acc /\ u_status acc = UActive /\
    exists m, good_code self (db s) m (env s) u code /\
      forall k, (forall h, k ≠ store_key CHALLENGE_NS h) -> (forall x y, k ≠ rate_key x y) -> m !! k = redis s !! k.
Proof.
  intros Hn H. unfold auth_complete_two_factor in H.
  erewrite bind_Ok in H by reflexivity. cbv beta in H.
  apply bind_inv_Ok in H as (raw & s1 & H1 & H). unfold store_consume, redis_getdel in H1.
  erewrite bind_Ok in H1 by reflexivity. cbv beta in H1.
  unfold ret in H1. injection H1 as <- <-. cbn [redis now snd env] in H. rewrite reading_0 in H.
  set (key := store_key _ _) in *. destruct (alive (reading s 0) (redis s) key) as [v|] eqn:Ea; [|done].
  cbn [fmap option_fmap option_map] in H.
  destruct (uuid_parse (rval_str v.1)) as [u|] eqn:Eu; [|done].
  erewrite bind_Ok in H by reflexivity. cbv beta in H.
  apply bind_inv_Ok in H as (al & s2 & H2 & H).
  pose proof (quiet_db _ _ _ _ (quiet_hit _ _ _ _) H2) as (E2 & D2 & _ & A2 & _).
  assert (K2 : forall k, (forall x y, k ≠ rate_key x y) -> redis s2 !! k = delete key (redis s) !! k).
  { intros k Hk. unfold limiter_hit in H2. apply bind_inv_Ok in H2 as (n & s3 & H2 & H3).
    unfold ret in H3. injection H3 as _ ->. apply incr_frame in H2 as (_ & _ & K & _).
    rewrite K; [done|]. intros Heq. by apply (Hk _ _ (eq_sym Heq)). }
  destruct (negb al); [done|]. apply bind_inv_Ok in H as (o & s3 & H3 & H).
  apply session_get_Ok in H3 as [-> ->]. cbn [env db] in E2, D2.
  destruct (t_get (db s2) !! u) as [acc|] eqn:Eacc; [|done].
  destruct (negb (bool_decide (u_status acc = UActive))) eqn:Est; [done|].
  apply negb_false_iff, bool_decide_eq_true in Est.
  apply bind_inv_Ok in H as (ok & s4 & H4 & H). destruct ok; [|done].
  apply verify_code_Ok in H4; [|by rewrite E2]. exists v, u, acc. split; [done|]. split; [done|].
  rewrite D2 in Eacc, H4. rewrite E2 in H4. split; [exact Eacc|]. split; [done|].
  exists (redis s2). split; [exact H4|]. intros k Hk Hr. rewrite K2 by done.
  apply lookup_delete_ne. intros Heq. by apply (Hk (hash_token (env s) ch)).
Qed.

(** ** Reset links *)

Lemma or_raise_Ok {T} `{Table T} model i s (r : T) s' :
  global_get_or_raise model i s = (Ok r, s') -> s' = s /\ t_get (db s) !! i = Some r.
Proof.
  unfold global_get_or_raise. intros Hg. apply bind_inv_Ok in Hg as (o & s1 & H1 & Hg).
  apply session_get_Ok in H1 as [-> ->]. destruct (t_get (db s) !! i); [|done]. unfold ret in Hg.
  by simplify_eq.
Qed.

(** A reset that ends well: the link was alive, its account has the new
    password, and none of its sessions is left. *)
Lemma reset_Ok self tok pw s x s' :
  Keyed (R:=User) (db s) -> auth_reset_password self tok pw s = (Ok x, s') ->
  exists v u acc salt,
    alive (reading s 0) (redis s) (store_key RESET_NS (hash_token (env s) tok)) = Some v /\
    uuid_parse (rval_str v.1) = Some u /\ users_of (db s) !! u = Some acc /\
    users_of (db s') !! u = Some (set_password (argon2_hash (as_lib self) salt pw) acc) /\
    forall j r, tokens_of (db s') !! j = Some r -> rt_user_id r = u -> is_Some (rt_revoked_at r).
Proof.
  intros Hkey H. unfold auth_reset_password in H. erewrite bind_Ok in H by reflexivity. cbv beta in H.
  apply bind_inv_Ok in H as (raw & s1 & H1 & H). unfold store_consume, redis_getdel in H1.
  erewrite bind_Ok in H1 by reflexivity. cbv beta in H1.
  unfold ret in H1. injection H1 as <- <-. cbn [redis now snd env] in H. rewrite reading_0 in H.
  destruct (alive (reading s 0) (redis s) _) as [v|] eqn:Ea; [|done].
  cbn [fmap option_fmap option_map] in H.
  destruct (uuid_parse (rval_str v.1)) as [u|] eqn:Eu; [|done].
  erewrite bind_Ok in H by reflexivity. cbv beta in H.
  apply bind_inv_Ok in H as (acc & s2 & H2 & H). apply or_raise_Ok in H2 as [-> Hacc].
  change (users_of (db s) !! u = Some acc) in Hacc.
  assert (Hid : u_id acc = u) by exact (Hkey u acc Hacc). subst u.
  apply bind_inv_Ok in H as (h & s3 & H3 & H). unfold hash_password in H3.
  erewrite bind_Ok in H3 by reflexivity. unfold ret in H3. injection H3 as <- <-.
  erewrite bind_Ok in H by reflexivity. cbv beta in H.
  apply bind_inv_Ok in H as ([] & s4 & H4 & H). apply flush_inv in H4 as (D4 & _ & _ & -> & _).
  apply revoke_all_Ok in H as (t & D). eexists v, (u_id acc), acc, _. split; [done|]. split; [done|].
  split; [done|]. rewrite D. split; [|intros j r; apply revoke_all_spec].
  unfold mapped, users_of, accounts_of. cbn -[lookup alter]. rewrite lookup_alter_eq.
  change (a_users _ !! u_id acc) with (users_of (db s) !! u_id acc). by rewrite Hacc.
Qed.
