(* ===== verification/Deps.v ===== *)
(** What a request says about its caller: src/core/auth/deps.py.

    The context of a request comes from its bearer token (and, for buyers,
    from the shop they name); anything else is refused before a transaction
    is opened. *)

From stdpp Require Import base strings gmap list.
From Stdlib Require Import ZArith Lia Ascii.
From S2P Require Import Prelude Errors PyLib Calendar Entities Models Events Session SessionFacts Accounts.

(** The parts of an HTTP request the dependencies read: its header values
    and the address of the client. *)
Record HttpRequest : Set := mkHttpRequest {
  hr_authorization : string; hr_shop_tenant : option string; hr_user_agent : option string;
  hr_client_host : option string; hr_request_id : option string }.

(** [_bearer_token] *)
Definition bearer_token (r : HttpRequest) : option string :=
  let '(scheme, _, token) := partition " " (hr_authorization r) in
  if negb (bool_decide (str_lower scheme = "bearer")) || str_empty token then None else Some token.

Section Deps.
Context (lib : AuthLib) (settings : AuthSettings)
  (py_ip_address : string -> bool).   (* ipaddress.ip_address does not raise *)

(** [_valid_ip] and [_request_context] *)
Definition valid_ip (raw : option string) : option string :=
  match raw with
  | Some x => if str_empty x then None else if py_ip_address x then Some x else None
  | None => None
  end.
Definition request_context (r : HttpRequest) : RequestContext :=
  mkRequestContext (valid_ip (hr_client_host r)) (hr_user_agent r).

(** [claims["sub"]]: PyJWT refuses a subject that is not a string. *)
Definition claimed_user (claims : list (string * json)) : res exn Actor :=
  match assoc "sub" claims with
  | None => Raise EKey
  | Some (JStr s) => Ok (mkActor KUser (Some s))
  | Some _ => Raise EType
  end.

(** [UUID(tenant_raw) if tenant_raw else None] *)
Definition claimed_tenant (claims : list (string * json)) : res exn (option uuid) :=
  match assoc "tenant" claims with
  | None => Ok None
  | Some v =>
      if negb (truthy v) then Ok None
      else match v with
           | JStr s => match uuid_parse s with Some u => Ok (Some u) | None => Raise EValue end
           | _ => Raise EAttribute
           end
  end.

(** [_context_from_request] *)
Definition context_from_request (require_auth : bool) (r : HttpRequest) : res exn TenantContext :=
  match bearer_token r with
  | None =>
      if require_auth then auth_error "missing bearer token"
      else Ok (mkCtx None (mkActor KSystem None) (hr_request_id r) DEFAULT_LOCALE)
  | Some token =>
      rbind (decode_access_token lib settings token) (fun claims =>
      rbind (claimed_tenant claims) (fun tenant =>
      rbind (claimed_user claims) (fun actor =>
      Ok (mkCtx tenant actor (hr_request_id r) DEFAULT_LOCALE))))
  end.

(** [_storefront_context] *)
Definition storefront_context (r : HttpRequest) : res exn TenantContext :=
  match bearer_token r with
  | None => auth_error "missing bearer token"
  | Some token =>
      rbind (decode_access_token lib settings token) (fun claims =>
      match hr_shop_tenant r with
      | None => Raise (EDomain InvariantViolationError
                         "X-Shop-Tenant header is required for storefront access")
      | Some raw =>
          if str_empty raw
          then Raise (EDomain InvariantViolationError
                        "X-Shop-Tenant header is required for storefront access")
          else match uuid_parse raw with
               | None => Raise (EDomain InvariantViolationError
                                  "X-Shop-Tenant must be a tenant UUID")
               | Some shop =>
                   rbind (claimed_user claims) (fun actor =>
                   Ok (mkCtx (Some shop) actor (hr_request_id r) DEFAULT_LOCALE))
               end
      end)
  end.

(** [ServiceBundle.user_id] *)
Definition bundle_user_id (ctx : TenantContext) : SM uuid :=
  match a_kind (c_actor ctx), a_id (c_actor ctx) with
  | KUser, Some i => lift_res (need (uuid_parse i) EValue)
  | _, _ => auth_failed "authenticated user required"
  end.
End Deps.
