(* ===== verification/Templates.v ===== *)
(** Locales, message catalogs, notification templates and the cipher of
    secrets: src/shared/i18n.py, src/core/notifications/registry.py and
    channel_config.py, src/shared/encryption.py.

    Template files, Fernet, [json.dumps] and the network are parameters
    ([NoticeLib]). *)

From stdpp Require Import base strings gmap list sorting pretty.
From Stdlib Require Import ZArith Lia Ascii.
From S2P Require Import Prelude Errors PyLib Calendar Entities Models Events Session SessionFacts.

(** ** src/shared/i18n.py *)

Definition SUPPORTED_LOCALES : list string := ["ru"; "uz"].
Definition supported (l : string) : bool := bool_decide (l ∈ SUPPORTED_LOCALES).

(** [s.split("-", 1)[0].strip().lower()] *)
Definition primary_subtag (s : string) : string := str_lower (strip (partition "-" s).1.1).

Fixpoint negotiate_locale (candidates : list (option string)) : string :=
  match candidates with
  | [] => DEFAULT_LOCALE
  | None :: rest => negotiate_locale rest
  | Some c :: rest =>
      if str_empty c then negotiate_locale rest
      else if supported (primary_subtag c) then primary_subtag c else negotiate_locale rest
  end.

Section AcceptLanguage.
(** [float(s)] ([None]: ValueError) and the order of floats. *)
Context {Q : Type} (one : Q) (py_float : string -> option Q) (leq : Q -> Q -> bool).

(** One element of the header: quality, position, tag. *)
Definition accept_part (index : nat) (part : string) : option (Q * nat * string) :=
  let '(token, _, params) := partition ";" (strip part) in
  let tag := primary_subtag token in
  if str_empty tag then None
  else Some (if startswith params "q=" then default one (py_float (str_drop 2 params)) else one,
             index, tag).

(** Descending by quality; ties keep the header's order. *)
Definition accept_before (a b : Q * nat * string) : Prop :=
  negb (leq a.1.1 b.1.1) || (leq b.1.1 a.1.1 && Nat.leb a.1.2 b.1.2) = true.
#[export] Instance accept_before_dec a b : Decision (accept_before a b).
Proof. unfold accept_before. apply _. Defined.

Definition accept_ranked (header : string) : list (Q * nat * string) :=
  merge_sort accept_before (omap (fun '(i, p) => accept_part i p)
    (imap (fun i p => (i, p)) (split "," header))).

Definition parse_accept_language (header : option string) : option string :=
  match header with
  | None => None
  | Some h => if str_empty h then None
              else snd <$> List.find (fun x => supported x.2) (accept_ranked h)
  end.
End AcceptLanguage.

(** [Catalog]: messages by key and locale. *)
Definition Catalog : Set := list (string * list (string * string)).

Definition or_str (a : option string) (b : string) : string :=
  match a with Some x => if str_empty x then b else x | None => b end.

Definition catalog_get (messages : Catalog) (key locale : string) : string :=
  match assoc key messages with
  | None => key
  | Some entry => or_str (assoc locale entry) (or_str (assoc DEFAULT_LOCALE entry) key)
  end.

(** [render]: [format text params] is [text.format( **params )], [None] when it
    misses a parameter. *)
Definition catalog_render (format : string -> list (string * json) -> option string)
    (messages : Catalog) (key locale : string) (params : list (string * json)) : string :=
  let text := catalog_get messages key locale in
  match params with [] => text | _ => default text (format text params) end.

(** [load_locale_catalog]: [file l] is the content of <directory>/<l>.json. *)
Definition load_locale_catalog (file : string -> option (list (string * string))) : Catalog :=
  foldl (fun messages locale =>
           match file locale with
           | None => messages
           | Some data =>
               foldl (fun ms '(key, text) =>
                        dict_set key (dict_set locale text (default [] (assoc key ms))) ms)
                     messages data
           end) [] SUPPORTED_LOCALES.

(** ** src/core/notifications/channel_config.py *)

Definition CHANNEL_CONFIG_FIELDS : list (string * list string) :=
  [("telegram", ["bot_token"]); ("sms_eskiz", ["email"; "password"]);
   ("email", ["host"; "port"; "username"; "password"; "from_address"])].
Definition KNOWN_CHANNELS : list string := fst <$> CHANNEL_CONFIG_FIELDS.
Definition known_channel (c : string) : bool := bool_decide (c ∈ KNOWN_CHANNELS).

Definition require_known_channel (channel : string) : SM unit :=
  if known_channel channel then ret tt
  else raise (EDomain NotFoundError ("unknown notification channel: " +:+ channel)).

(** The text of a sorted list of strings *)
Definition repr_list (en : Env) (l : list string) : string :=
  py_repr en (JList (JStr <$> sorted_list l)).

Definition missing_fields (channel : string) (config : list (string * json)) : list string :=
  List.filter (fun f => negb (match assoc f config with Some v => truthy v | None => false end))
    (default [] (assoc channel CHANNEL_CONFIG_FIELDS)).

Definition validate_channel_config (channel : string) (config : list (string * json)) : SM unit :=
  require_known_channel channel ;;;
  en <- gets env ;;
  match missing_fields channel config with
  | [] => ret tt
  | missing => raise (EDomain InvariantViolationError
      ("channel '" +:+ channel +:+ "' config is missing required field(s): "
       +:+ repr_list en missing))
  end.

Definition str_last (n : nat) (s : string) : string := str_drop (String.length s - n) s.

Definition mask_address (address : string) : string :=
  let '(local, at_sign, domain) := partition "@" address in
  if (at_sign : bool) then
    (if Nat.ltb 2 (String.length local) then str_take 2 local else str_take 1 local)
    +:+ "***@" +:+ domain
  else if Nat.leb (String.length address) 4 then "***"
  else str_take 4 address +:+ "***" +:+ str_last 2 address.

(** ** src/core/notifications/registry.py *)

Record TemplateDef : Set := mkTemplateDef {
  td_key : string; td_default_channels : list string; td_required_context : gset string }.
#[export] Instance template_def_eq_dec : EqDecision TemplateDef.
Proof. solve_decision. Defined.
Record RenderedTemplate : Set := mkRendered { rd_subject : option string; rd_body : string }.

(** The catalog: definitions with the directory they were registered from. *)
Record TemplateRegistry : Set := mkRegistry {
  tr_defs : list (string * TemplateDef); tr_dirs : list (string * string) }.

(** What a delivery by smtplib came to. *)
Inductive SmtpResult : Set :=
| SmtpDelivered
| SmtpRefused (message : string)     (* SMTPRecipientsRefused, SMTPSenderRefused *)
| SmtpFailed (message : string)      (* another SMTPException, or OSError *)
| SmtpRaised (e : exn).

Record NoticeLib : Type := mkNoticeLib {
  nl_file : string -> option string;               (* a text file, by path *)
  nl_encrypt : nat -> string -> string;            (* SecretCipher, Fernet *)
  nl_decrypt : string -> option string;
  nl_dumps : list (string * json) -> string;       (* json.dumps(..., sort_keys=True) *)
  nl_post : nat -> list string -> list (string * string) -> HttpResult;
                                                   (* httpx POST: url and headers, fields *)
  nl_message : list (string * string) -> option exn;  (* EmailMessage: what it raised *)
  nl_smtp : nat -> list string -> list (string * string) -> SmtpResult }.

Definition body_path (dir locale key : string) : string :=
  dir +:+ "/" +:+ locale +:+ "/" +:+ key +:+ ".txt".
Definition subject_path (dir locale key : string) : string :=
  dir +:+ "/" +:+ locale +:+ "/" +:+ key +:+ ".subject.txt".

Section Registry.
Context (lib : NoticeLib).

(** [register], one template after the other. *)
Definition register_template (module templates_dir : string) (r : TemplateRegistry)
    (tdef : TemplateDef) : res exn TemplateRegistry :=
  if negb (startswith (td_key tdef) (module +:+ ".")) then Raise EValue
  else match assoc (td_key tdef) (tr_defs r) with
       | Some existing => if bool_decide (existing = tdef) then Ok r else Raise ERuntime
       | None =>
           if forallb (fun l => bool_decide
                (is_Some (nl_file lib (body_path templates_dir l (td_key tdef))))) SUPPORTED_LOCALES
           then Ok (mkRegistry (dict_set (td_key tdef) tdef (tr_defs r))
                      (dict_set (td_key tdef) templates_dir (tr_dirs r)))
           else Raise ERuntime
       end.

Fixpoint register_templates (module : string) (templates : list TemplateDef)
    (templates_dir : string) (r : TemplateRegistry) : res exn TemplateRegistry :=
  match templates with
  | [] => Ok r
  | tdef :: rest =>
      match register_template module templates_dir r tdef with
      | Ok r' => register_templates module rest templates_dir r'
      | Raise e => Raise e
      end
  end.

Definition registry_get (r : TemplateRegistry) (key : string) : res exn TemplateDef :=
  match assoc key (tr_defs r) with
  | Some tdef => Ok tdef
  | None => Raise (EDomain NotFoundError ("unknown notification template: " +:+ key))
  end.

(** *** [string.Template(s).safe_substitute(subst)] *)

Definition id_start (c : ascii) : bool := ch_alpha c || bool_decide (c = "_"%char).
Definition id_char (c : ascii) : bool := id_start c || ch_digit c.

(** Where the scanner stands: in text, after "$", in a name, after "${". *)
Inductive scan : Set := InText | AfterDollar | InName (acc : string) | InBraces (acc : string).

Definition snoc (s : string) (c : ascii) : string := s +:+ String c EmptyString.

Definition value_of (subst : list (string * string)) (name missing : string) : string :=
  default missing (assoc name subst).

Fixpoint substitute (subst : list (string * string)) (m : scan) (s : string) : string :=
  let named acc := value_of subst acc ("$" +:+ acc) in
  match s with
  | EmptyString =>
      match m with
      | InText => ""
      | AfterDollar => "$"
      | InName acc => named acc
      | InBraces acc => "${" +:+ acc
      end
  | String c s' =>
      let text := if bool_decide (c = "$"%char) then substitute subst AfterDollar s'
                  else String c (substitute subst InText s') in
      match m with
      | InText => text
      | AfterDollar =>
          if bool_decide (c = "$"%char) then String "$" (substitute subst InText s')
          else if id_start c then substitute subst (InName (String c "")) s'
          else if bool_decide (c = "{"%char) then substitute subst (InBraces "") s'
          else String "$" text
      | InName acc =>
          if id_char c then substitute subst (InName (snoc acc c)) s' else named acc +:+ text
      | InBraces acc =>
          if (if str_empty acc then id_start c else id_char c)
          then substitute subst (InBraces (snoc acc c)) s'
          else if bool_decide (c = "}"%char) && negb (str_empty acc)
          then value_of subst acc ("${" +:+ acc +:+ "}") +:+ substitute subst InText s'
          else "${" +:+ acc +:+ text
      end
  end.

Definition safe_substitute (subst : list (string * string)) (s : string) : string :=
  substitute subst InText s.

(** [_read]: the files do not change while the process runs, so its cache is
    not kept apart. *)
Definition read_file (path : string) : res exn string := need (nl_file lib path) (EOS path).

(** [render] *)
Definition registry_render (en : Env) (r : TemplateRegistry) (key locale : string)
    (params : list (string * json)) : res exn RenderedTemplate :=
  match registry_get r key with
  | Raise e => Raise e
  | Ok tdef =>
      match assoc (td_key tdef) (tr_dirs r) with
      | None => Raise EKey
      | Some base =>
          let subst := (fun '(k, v) => (k, py_str en v)) <$> params in
          match read_file (body_path base locale key) with
          | Raise e => Raise e
          | Ok text =>
              Ok (mkRendered
                (s ← nl_file lib (subject_path base locale key); Some (strip (safe_substitute subst s)))
                (safe_substitute subst text))
          end
      end
  end.
End Registry.

(** Facts about locales and templates: negotiated locales are supported,
    substitution means what its pieces mean, registered templates render. *)

Lemma negotiate_supported l : supported (negotiate_locale l) = true.
Proof.
  induction l as [|[c|] l IH]; simpl; [done| |done].
  destruct (str_empty c); [done|]. by destruct (supported (primary_subtag c)) eqn:E.
Qed.

(** ** Substitution piece by piece *)

Inductive piece : Set :=
| Lit (s : string) | Escape | Named (name : string) | Braced (name : string).

Definition piece_source (p : piece) : string :=
  match p with
  | Lit s => s
  | Escape => "$$"
  | Named n => "$" +:+ n
  | Braced n => "${" +:+ n +:+ "}"
  end.
Definition source (l : list piece) : string := foldr (fun p s => piece_source p +:+ s) "" l.

(** What a piece stands for; an unknown variable stays as it is written. *)
Definition piece_text (subst : list (string * string)) (p : piece) : string :=
  match p with
  | Lit s => s
  | Escape => "$"
  | Named n | Braced n => value_of subst n (piece_source p)
  end.
Definition text (subst : list (string * string)) (l : list piece) : string :=
  foldr (fun p s => piece_text subst p +:+ s) "" l.

Definition identifier (n : string) : bool :=
  match n with String c n' => id_start c && str_all id_char n' | EmptyString => false end.
Definition no_dollar (s : string) : bool := str_all (fun c => negb (bool_decide (c = "$"%char))) s.
Definition ends_name (s : string) : bool :=
  match s with String c _ => negb (id_char c) | EmptyString => true end.

Fixpoint pieces_ok (l : list piece) : bool :=
  match l with
  | [] => true
  | p :: l' =>
      match p with
      | Lit s => no_dollar s
      | Escape => true
      | Named n => identifier n && ends_name (source l')
      | Braced n => identifier n
      end && pieces_ok l'
  end.

Section Substitute.
Context (subst : list (string * string)).
Abbreviation go := (substitute subst).

Lemma go_lit s r : no_dollar s = true -> go InText (s +:+ r) = s +:+ go InText r.
Proof.
  induction s as [|c s IH]; [done|]. unfold no_dollar. cbn [str_all]. intros [Hc Hs]%andb_prop.
  change (String c s +:+ r) with (String c (s +:+ r)). cbn [substitute].
  apply negb_true_iff in Hc. rewrite Hc. by rewrite IH.
Qed.

Lemma snoc_app acc c s : snoc acc c +:+ s = acc +:+ String c s.
Proof.
  induction acc as [|a acc IH]; [done|].
  change (snoc (String a acc) c +:+ s) with (String a (snoc acc c +:+ s)). by rewrite IH.
Qed.
Lemma app_empty_r s : s +:+ "" = s.
Proof. induction s as [|c s IH]; [done|]. change (String c (s +:+ "") = String c s). by rewrite IH. Qed.
Lemma app_assoc_str a b c : (a +:+ b) +:+ c = a +:+ (b +:+ c).
Proof.
  induction a as [|x a IH]; [done|].
  change (String x ((a +:+ b) +:+ c) = String x (a +:+ (b +:+ c))). by rewrite IH.
Qed.

Lemma go_name n acc r :
  str_all id_char n = true -> ends_name r = true ->
  go (InName acc) (n +:+ r) = value_of subst (acc +:+ n) ("$" +:+ (acc +:+ n)) +:+ go InText r.
Proof.
  revert acc. induction n as [|c n IH]; intros acc Hn Hr.
  - rewrite !app_empty_r. destruct r as [|c r]; simpl; [by rewrite app_empty_r|].
    simpl in Hr. apply negb_true_iff in Hr. by rewrite Hr.
  - simpl in Hn. apply andb_prop in Hn as [Hc Hn].
    change (String c n +:+ r) with (String c (n +:+ r)). simpl. rewrite Hc.
    rewrite IH by done. by rewrite snoc_app.
Qed.

Lemma go_braces n acc r :
  str_all id_char n = true -> str_empty acc = false ->
  go (InBraces acc) (n +:+ String "}" r) =
  value_of subst (acc +:+ n) ("${" +:+ (acc +:+ n) +:+ "}") +:+ go InText r.
Proof.
  revert acc. induction n as [|c n IH]; intros acc Hn Ha.
  - rewrite !app_empty_r. simpl. rewrite Ha. simpl. done.
  - simpl in Hn. apply andb_prop in Hn as [Hc Hn].
    change (String c n +:+ String "}" r) with (String c (n +:+ String "}" r)).
    cbn [substitute]. rewrite Ha, Hc. rewrite IH; [by rewrite snoc_app|done|].
    by destruct acc.
Qed.

Lemma id_start_not_dollar c : id_start c = true -> bool_decide (c = "$"%char) = false.
Proof. destruct (bool_decide_reflect (c = "$"%char)); [by subst|done]. Qed.

(** Scanning a template is reading it piece by piece. *)
Lemma substitute_pieces l : pieces_ok l = true -> safe_substitute subst (source l) = text subst l.
Proof.
  unfold safe_substitute. induction l as [|p l IH]; [done|].
  change (source (p :: l)) with (piece_source p +:+ source l).
  change (text subst (p :: l)) with (piece_text subst p +:+ text subst l).
  cbn [pieces_ok]. intros [Hp Hl]%andb_prop. specialize (IH Hl).
  destruct p as [s| |n|n]; cbn [piece_source piece_text] in *.
  - rewrite go_lit by done. by rewrite IH.
  - change ("$$" +:+ ?s) with (String "$" (String "$" s)). simpl. by f_equal.
  - apply andb_prop in Hp as [Hn He]. destruct n as [|c n]; [done|].
    apply andb_prop in Hn as [Hc Hn].
    transitivity (go AfterDollar (String c (n +:+ source l))); [done|].
    cbn [substitute]. rewrite id_start_not_dollar, Hc by done.
    rewrite (go_name n (String c "")) by done. by rewrite IH.
  - destruct n as [|c n]; [done|]. apply andb_prop in Hp as [Hc Hn].
    rewrite !app_assoc_str.
    transitivity (go (InBraces "") (String c (n +:+ String "}" (source l)))); [done|].
    cbn [substitute]. change (str_empty "") with true. cbv iota. rewrite Hc.
    change (snoc "" c) with (String c ""). rewrite (go_braces n (String c "")) by done.
    by rewrite IH.
Qed.
End Substitute.

(** ** The catalog of templates *)

Section Registry.
Context (lib : NoticeLib).

(** Every registered template has a directory with its bodies. *)
Definition registry_ok (r : TemplateRegistry) : Prop :=
  forall key tdef, assoc key (tr_defs r) = Some tdef ->
    td_key tdef = key /\
    exists dir, assoc key (tr_dirs r) = Some dir /\
      forall l, supported l = true -> is_Some (nl_file lib (body_path dir l key)).

Lemma register_keeps module dir r tdef r' :
  registry_ok r -> register_template lib module dir r tdef = Ok r' -> registry_ok r'.
Proof.
  intros Hr. unfold register_template. destruct (negb _); [done|].
  destruct (assoc (td_key tdef) (tr_defs r)) as [x|] eqn:Ex.
  { case_bool_decide; [|done]. by injection 1 as <-. }
  destruct (forallb _ _) eqn:Ef; [|done]. injection 1 as <-.
  rewrite forallb_forall in Ef. intros key t. simpl. destruct (decide (key = td_key tdef)) as [->|Hne].
  - rewrite !assoc_dict_set. intros [= <-]. split; [done|]. exists dir. split; [done|].
    intros l Hl%bool_decide_eq_true. specialize (Ef l).
    apply bool_decide_eq_true in Ef; [done|]. by apply list_elem_of_In.
  - rewrite !assoc_dict_set_ne by done. apply Hr.
Qed.

Lemma registers_keep module ts dir r r' :
  registry_ok r -> register_templates lib module ts dir r = Ok r' -> registry_ok r'.
Proof.
  revert r. induction ts as [|t ts IH]; simpl; intros r Hr; [by intros [= <-]|].
  destruct (register_template lib module dir r t) as [r1|] eqn:E; [|done].
  apply IH. by eapply register_keeps.
Qed.

(** Rendering fails only for a template nobody registered. *)
Lemma render_total en r key locale params :
  registry_ok r -> supported locale = true ->
  match registry_render lib en r key locale params with
  | Ok _ => is_Some (assoc key (tr_defs r))
  | Raise e => exists m, e = EDomain NotFoundError m
  end.
Proof.
  intros Hr Hl. unfold registry_render, registry_get.
  destruct (assoc key (tr_defs r)) as [tdef|] eqn:Ed; [|by eexists].
  destruct (Hr _ _ Ed) as (Hk & dir & Hd & Hf). rewrite Hk, Hd. unfold read_file.
  destruct (Hf _ Hl) as [x Hx]. rewrite Hx. by eexists.
Qed.
End Registry.

(** ** src/shared/encryption.py *)

(** [Fernet(key).encrypt], which draws an initialization vector and reads the
    clock (the number tells the call), [Fernet(key).decrypt] ([None]:
    InvalidToken) and [base64(sha256(...))] are the libraries'. *)
Record FernetLib : Type := mkFernetLib {
  fernet_encrypt : nat -> string -> string -> string;
  fernet_decrypt : string -> string -> option string;
  b64_sha256 : string -> string }.

Section SecretCipher.
Context (lib : FernetLib).

(** [_dev_key] *)
Definition dev_key : string := b64_sha256 lib "backend-core-dev-encryption-key".

(** The keys of the [MultiFernet], the primary one first. *)
Record SecretCipher : Set := mkCipher { sc_primary : string; sc_older : list string }.
Definition sc_keys (self : SecretCipher) : list string := sc_primary self :: sc_older self.

Definition new_cipher (keys : list string) : SecretCipher :=
  match keys with
  | k :: ks => mkCipher k ks
  | [] => mkCipher dev_key []
  end.

(** [MultiFernet] encrypts with the first key and decrypts with the first that
    fits. *)
Definition cipher_encrypt (self : SecretCipher) (draw : nat) (plaintext : string) : string :=
  fernet_encrypt lib draw (sc_primary self) plaintext.
Fixpoint decrypt_first (keys : list string) (token : string) : option string :=
  match keys with
  | [] => None
  | k :: ks => match fernet_decrypt lib k token with Some p => Some p | None => decrypt_first ks token end
  end.
Definition cipher_decrypt (self : SecretCipher) (token : string) : option string :=
  decrypt_first (sc_keys self) token.
Definition cipher_rotate (self : SecretCipher) (draw : nat) (token : string) : option string :=
  p ← cipher_decrypt self token; Some (cipher_encrypt self draw p).

(** Fernet is authenticated: a token is read with its own key and with no other. *)
Class FernetLaws : Prop := {
  fernet_reads : forall n k p, fernet_decrypt lib k (fernet_encrypt lib n k p) = Some p;
  fernet_refuses : forall n k k' p, k' ≠ k -> fernet_decrypt lib k' (fernet_encrypt lib n k p) = None }.

Lemma decrypt_first_spec `{!FernetLaws} n k p keys :
  decrypt_first keys (fernet_encrypt lib n k p) = if decide (k ∈ keys) then Some p else None.
Proof.
  induction keys as [|x keys IH]; [done|]. cbn [decrypt_first]. destruct (decide (x = k)) as [->|Hne].
  - rewrite fernet_reads, decide_True by left. done.
  - rewrite fernet_refuses, IH by done. apply decide_ext. rewrite elem_of_cons. naive_solver.
Qed.

(** Secrets survive a change of keys. What a cipher encrypted is read by every
    later cipher that still lists its primary key, by none that does not; and
    once rotated it is read with the new primary key alone, so that the old
    keys can be dropped. *)
Theorem secrets_survive_rotation `{!FernetLaws} keys keys' draw draw' plaintext :
  let old := new_cipher keys in let current := new_cipher keys' in
  let token := cipher_encrypt old draw plaintext in
  cipher_decrypt current token = (if decide (sc_primary old ∈ sc_keys current) then Some plaintext else None) /\
  (sc_primary old ∈ sc_keys current ->
   exists token', cipher_rotate current draw' token = Some token' /\
     forall later, sc_primary current ∈ sc_keys (new_cipher later) ->
       cipher_decrypt (new_cipher later) token' = Some plaintext).
Proof.
  cbv zeta. unfold cipher_rotate, cipher_decrypt, cipher_encrypt. rewrite decrypt_first_spec. split; [done|].
  intros Hin. rewrite decide_True by done. eexists. split; [reflexivity|]. intros later Hl.
  by rewrite decrypt_first_spec, decide_True.
Qed.
End SecretCipher.

(** A toy cipher whose tokens name their key. *)
Fixpoint toy_encrypt (k p : string) : string :=
  match k with
  | EmptyString => String "0" p
  | String c k' => String "1" (String c (toy_encrypt k' p))
  end.
Fixpoint toy_decode (t : string) : option (string * string) :=
  match t with
  | String "0" p => Some ("", p)
  | String "1" (String c t') => kp ← toy_decode t'; Some (String c kp.1, kp.2)
  | _ => None
  end.
Definition toy_fernet : FernetLib :=
  mkFernetLib (fun _ => toy_encrypt)
    (fun k t => kp ← toy_decode t; if bool_decide (kp.1 = k) then Some kp.2 else None) (fun s => s).

Lemma toy_decode_encrypt k p : toy_decode (toy_encrypt k p) = Some (k, p).
Proof. induction k as [|c k IH]; [done|]. cbn [toy_encrypt toy_decode]. by rewrite IH. Qed.

#[export] Instance toy_laws : FernetLaws toy_fernet.
Proof.
  split; intros; cbn [fernet_encrypt fernet_decrypt toy_fernet]; rewrite toy_decode_encrypt; simpl.
  - by rewrite bool_decide_true.
  - by rewrite bool_decide_false.
Qed.

Lemma secrets_survive_rotation_witness :
  cipher_decrypt toy_fernet (new_cipher toy_fernet ["new"; "old"])
    (cipher_encrypt toy_fernet (new_cipher toy_fernet ["old"]) 0 "secret") = Some "secret".
Proof. exact (proj1 (secrets_survive_rotation toy_fernet ["old"] ["new"; "old"] 0 1 "secret")). Defined.
