(* ===== verification/Edge.v ===== *)
(** The edge of the application: src/app/middleware.py, src/app/errors.py and
    [_add_middleware] of src/app/main.py.

    An ASGI application is the tree of what it does: it receives messages,
    sends messages and returns or raises; what [receive] and [send] answer, an
    exception included, is a branch. Middleware rewrites the tree. Starlette is
    a parameter. *)

From stdpp Require Import base strings gmap list sorting pretty.
From Stdlib Require Import ZArith Lia Ascii.
From S2P Require Import Prelude Errors PyLib Session Templates.

(** ** ASGI *)

Definition headers : Set := list (string * string).

Inductive message : Set :=
| HttpRequest_ (body : string) (more_body : bool)
| HttpDisconnect
| ResponseStart (status : Z) (hs : headers)
| ResponseBody (body : string) (more_body : bool)
| OtherMessage (type : string).

(** What the metrics and the access log record of a request: one more in
    [HTTP_REQUESTS_TOTAL] under these labels, a duration (whose value is left
    out) in [HTTP_REQUEST_DURATION_SECONDS] under method and path, and a line. *)
Record Observation : Set := mkObservation { obs_method : string; obs_path : string; obs_status : Z }.

Inductive asgi : Type :=
| AReturn
| ARaise (e : exn)
| AReceive (k : res exn message -> asgi)
| ASend (m : message) (k : option exn -> asgi)    (* what [send] raises *)
| AObserve (o : Observation) (k : asgi).

Record Scope : Set := mkScope {
  sc_type : string; sc_method : string; sc_path : string; sc_headers : headers; sc_request_id : option string }.

Definition asgi_app : Type := Scope -> asgi.

(** Starlette: headers by lower-case name, and what a JSONResponse sends. *)
Record Starlette : Type := mkStarlette {
  hs_get : headers -> string -> option string;
  hs_set : headers -> string -> string -> headers;
  hs_setdefault : headers -> string -> string -> headers;
  json_headers : json -> headers;
  json_body : json -> string }.

Class StarletteLaws (lib : Starlette) : Prop := {
  get_set h k v : str_lower k = k -> hs_get lib (hs_set lib h k v) k = Some v;
  get_set_other h k v k' : str_lower k = k -> str_lower k' = k' -> k' ≠ k ->
    hs_get lib (hs_set lib h k v) k' = hs_get lib h k';
  get_setdefault h k v : str_lower k = k ->
    hs_get lib (hs_setdefault lib h k v) k = Some (default v (hs_get lib h k));
  get_setdefault_other h k v k' : str_lower k = k -> str_lower k' = k' -> k' ≠ k ->
    hs_get lib (hs_setdefault lib h k v) k' = hs_get lib h k' }.

(** What is sent passes through [f]. *)
Fixpoint with_send (f : message -> message) (t : asgi) : asgi :=
  match t with
  | AReturn => AReturn
  | ARaise e => ARaise e
  | AReceive k => AReceive (fun r => with_send f (k r))
  | ASend m k => ASend (f m) (fun r => with_send f (k r))
  | AObserve o k => AObserve o (with_send f k)
  end.

Definition on_start (f : headers -> headers) (m : message) : message :=
  match m with ResponseStart status hs => ResponseStart status (f hs) | m => m end.

(** ** src/shared/error_catalog.py

    The files of src/shared/locales/errors, in UTF-8. *)

Definition errors_ru : list (string * string) :=
  [("errors.domain_error", "Ошибка запроса.");
   ("errors.not_found", "Ресурс не найден.");
   ("errors.conflict", "Конфликт данных.");
   ("errors.invariant_violation", "Нарушено бизнес-правило.");
   ("errors.permission_denied", "Недостаточно прав для этого действия.");
   ("errors.authentication_failed", "Не удалось пройти аутентификацию.");
   ("errors.payload_too_large", "Слишком большой запрос.");
   ("errors.rate_limited", "Слишком много запросов, попробуйте позже.");
   ("errors.external_service_error", "Внешний сервис временно недоступен.");
   ("errors.payment_provider_error", "Ошибка платёжного провайдера.");
   ("errors.notification_channel_error", "Ошибка канала уведомлений.");
   ("errors.storage_error", "Ошибка хранилища файлов.");
   ("errors.webhook_verification_failed", "Проверка подписи вебхука не пройдена.");
   ("errors.circuit_open", "Сервис временно недоступен, попробуйте позже.")].
Definition errors_uz : list (string * string) :=
  [("errors.domain_error", "So'rovda xatolik.");
   ("errors.not_found", "Resurs topilmadi.");
   ("errors.conflict", "Ma'lumotlar to'qnashuvi.");
   ("errors.invariant_violation", "Biznes qoidasi buzildi.");
   ("errors.permission_denied", "Bu amal uchun ruxsat yetarli emas.");
   ("errors.authentication_failed", "Autentifikatsiyadan o'tib bo'lmadi.");
   ("errors.payload_too_large", "So'rov hajmi juda katta.");
   ("errors.rate_limited", "So'rovlar juda ko'p, keyinroq urinib ko'ring.");
   ("errors.external_service_error", "Tashqi xizmat vaqtincha ishlamayapti.");
   ("errors.payment_provider_error", "To'lov provayderi xatosi.");
   ("errors.notification_channel_error", "Bildirishnoma kanali xatosi.");
   ("errors.storage_error", "Fayl xotirasi xatosi.");
   ("errors.webhook_verification_failed", "Vebhuk imzosini tekshirib bo'lmadi.");
   ("errors.circuit_open", "Xizmat vaqtincha ishlamayapti, keyinroq urinib ko'ring.")].
Definition errors_file (locale : string) : option (list (string * string)) :=
  if bool_decide (locale = "ru") then Some errors_ru
  else if bool_decide (locale = "uz") then Some errors_uz else None.
Definition ERROR_CATALOG : Catalog := load_locale_catalog errors_file.

Definition domain_classes : list domain_cls :=
  [DomainError; NotFoundError; ConflictError; InvariantViolationError; PermissionDeniedError; AuthenticationError;
   PayloadTooLargeError; RateLimitedError; ExternalServiceError; PaymentProviderError; StripeTransientError;
   NotificationChannelError; ChannelTemporaryError; ChannelPermanentError; StorageError; WebhookVerificationError;
   CircuitOpenError].
(** [__subclasses__] *)
Definition subclasses (c : domain_cls) : list domain_cls :=
  List.filter (fun d => bool_decide (parent d = Some c)) domain_classes.

(** The loop of [domain_error_message_keys]; every class is on the stack once. *)
Fixpoint message_keys_from (fuel : nat) (stack : list domain_cls) (keys : gset string) : option (gset string) :=
  match fuel, last stack with
  | _, None => Some keys
  | O, Some _ => None
  | S n, Some current =>
      message_keys_from n (removelast stack ++ subclasses current) ({[message_key current]} ∪ keys)
  end.
Definition domain_error_message_keys : option (gset string) :=
  message_keys_from (length domain_classes) [DomainError] {[message_key DomainError]}.

Section Edge.
Context (lib : Starlette).
(** [float], the order of floats and the error catalog. *)
Context {Q : Type} (one : Q) (py_float : string -> option Q) (leq : Q -> Q -> bool) (catalog : Catalog).

(** ** app/errors.py *)

Definition send_all (l : list message) : asgi :=
  foldr (fun m rest => ASend m (fun r => match r with Some e => ARaise e | None => rest end)) AReturn l.

(** [render_domain_error]: its status and content; a [JSONResponse] *)
Definition render_domain_error (c : domain_cls) (detail : option string) (accept_language : option string)
    : Z * json :=
  let locale := negotiate_locale [parse_accept_language one py_float leq accept_language] in
  (http_status c,
   JObj [("error", JObj [("code", JStr (code c)); ("message_key", JStr (message_key c));
                         ("message", JStr (catalog_get catalog (message_key c) locale));
                         ("detail", match detail with Some d => JStr d | None => JNull end)])]).

Definition json_response (answer : Z * json) : asgi :=
  send_all [ResponseStart answer.1 (json_headers lib answer.2); ResponseBody (json_body lib answer.2) false].

(** ** RequestIDMiddleware *)

Definition REQUEST_ID_HEADER : string := "x-request-id".

(** [_SAFE_REQUEST_ID] *)
Definition safe_ch (c : ascii) : bool :=
  ch_alpha c || ch_digit c || bool_decide (c ∈ ["."; "_"; ":"; "-"]%char).
Definition safe_request_id (s : string) : bool :=
  str_all safe_ch s && Nat.leb 1 (String.length s) && Nat.leb (String.length s) 128.

(** [_request_id]; [fresh] is [new_uuid7()]. *)
Definition request_id (inbound : option string) (fresh : uuid) : string :=
  match inbound with
  | Some s => if negb (str_empty s) && safe_request_id s then s else hex_digits 32 fresh
  | None => hex_digits 32 fresh
  end.

Definition RequestIDMiddleware (fresh : uuid) (app : asgi_app) : asgi_app := fun scope =>
  if negb (bool_decide (sc_type scope = "http")) then app scope
  else
    let rid := request_id (hs_get lib (sc_headers scope) REQUEST_ID_HEADER) fresh in
    with_send (on_start (fun hs => hs_set lib hs REQUEST_ID_HEADER rid))
      (app (mkScope (sc_type scope) (sc_method scope) (sc_path scope) (sc_headers scope) (Some rid))).

(** ** BodySizeLimitMiddleware *)

(** [_CappedExchange] *)
Record Exchange : Set := mkExchange { ex_received : Z; ex_overflow : bool; ex_started : bool }.

Definition replaceable (ex : Exchange) : bool := ex_overflow ex && negb (ex_started ex).

Definition body_length (body : string) : Z := Z.of_nat (String.length body).

Definition too_large (limit : Z) : exn :=
  EDomain PayloadTooLargeError ("request body over " +:+ pretty limit +:+ " bytes").

(** The application on the exchange; when it is done, [reject] answers if the
    exchange is replaceable. A cancellation is no Exception. *)
Fixpoint capped (limit : Z) (reject : asgi) (ex : Exchange) (t : asgi) : asgi :=
  match t with
  | AReturn => if replaceable ex then reject else AReturn
  | ARaise e => if replaceable ex && negb (bool_decide (e = ECancelled)) then reject else ARaise e
  | AReceive k => AReceive (fun r =>
      match r with
      | Ok (HttpRequest_ body more) =>
          let received := (ex_received ex + body_length body)%Z in
          if (limit <? received)%Z
          then capped limit reject (mkExchange received true (ex_started ex)) (k (Raise (too_large limit)))
          else capped limit reject (mkExchange received (ex_overflow ex) (ex_started ex)) (k r)
      | _ => capped limit reject ex (k r)
      end)
  | ASend m k =>
      if replaceable ex then capped limit reject ex (k None)
      else
        let started := match m with ResponseStart _ _ => true | _ => ex_started ex end in
        ASend m (fun r => capped limit reject (mkExchange (ex_received ex) (ex_overflow ex) started) (k r))
  | AObserve o k => AObserve o (capped limit reject ex k)
  end.

(** [_reject] *)
Definition reject_response (scope : Scope) : asgi :=
  json_response (render_domain_error PayloadTooLargeError None (hs_get lib (sc_headers scope) "accept-language")).

(** [declared is not None and declared.isdigit() and int(declared) > limit] *)
Definition declared_over (limit : Z) (declared : option string) : bool :=
  match declared with
  | Some d => str_isdigit d && match py_int 10 d with Some n => (limit <? n)%Z | None => false end
  | None => false
  end.

Definition BodySizeLimitMiddleware (default_limit : Z) (path_limits : list (string * Z)) (app : asgi_app)
    : asgi_app := fun scope =>
  if negb (bool_decide (sc_type scope = "http")) then app scope
  else
    let limit := default default_limit (assoc (sc_path scope) path_limits) in
    if declared_over limit (hs_get lib (sc_headers scope) "content-length") then reject_response scope
    else capped limit (reject_response scope) (mkExchange 0 false false) (app scope).

(** ** SecurityHeadersMiddleware *)

Definition SECURITY_HEADERS : list (string * string) :=
  [("strict-transport-security", "max-age=31536000; includeSubDomains");
   ("x-content-type-options", "nosniff"); ("x-frame-options", "DENY"); ("referrer-policy", "no-referrer")].

Definition SecurityHeadersMiddleware (app : asgi_app) : asgi_app := fun scope =>
  if negb (bool_decide (sc_type scope = "http")) then app scope
  else with_send (on_start (fun hs => foldl (fun hs '(n, v) => hs_setdefault lib hs n v) hs SECURITY_HEADERS))
         (app scope).

(** ** MetricsMiddleware

    [status] is [status_holder]; the finally block runs when the application is
    done, whether it returns or raises. *)

Fixpoint metered (method path_template : string) (status : option Z) (t : asgi) : asgi :=
  let record := AObserve (mkObservation method path_template (default 500%Z status)) in
  match t with
  | AReturn => record AReturn
  | ARaise e => record (ARaise e)
  | AReceive k => AReceive (fun r => metered method path_template status (k r))
  | ASend m k =>
      let status := match m with ResponseStart st _ => Some st | _ => status end in
      ASend m (fun r => metered method path_template status (k r))
  | AObserve o k => AObserve o (metered method path_template status k)
  end.

(** [matched]: the path of the route the router put into the scope, if any. *)
Definition MetricsMiddleware (matched : Scope -> option string) (app : asgi_app) : asgi_app := fun scope =>
  if negb (bool_decide (sc_type scope = "http")) then app scope
  else
    let path_template := match matched scope with
                         | Some p => if str_empty p then "<unmatched>" else p
                         | None => "<unmatched>" end in
    metered (sc_method scope) path_template None (app scope).

(** ** [_add_middleware]; [cors]: Starlette's middleware, with origins configured *)

Definition MULTIPART_OVERHEAD : Z := 64 * 1024.

Definition add_middleware (max_request_body_bytes files_max_upload_bytes : Z)
    (matched : Scope -> option string) (cors : option (asgi_app -> asgi_app)) (fresh : uuid) (app : asgi_app)
    : asgi_app :=
  let inner := MetricsMiddleware matched (SecurityHeadersMiddleware
    (BodySizeLimitMiddleware max_request_body_bytes
       [("/api/files", (files_max_upload_bytes + MULTIPART_OVERHEAD)%Z)] app)) in
  RequestIDMiddleware fresh (match cors with Some c => c inner | None => inner end).
End Edge.

(** ** Running an application

    [inp n] is what the [n]th receive answers, [out n] what the [n]th send
    raises. *)
Section Run.
Context (inp : nat -> res exn message) (out : nat -> option exn).

Fixpoint run (i j : nat) (t : asgi) : list message * option exn :=
  match t with
  | AReturn => ([], None)
  | ARaise e => ([], Some e)
  | AReceive k => run (S i) j (k (inp i))
  | ASend m k => let '(l, e) := run i (S j) (k (out j)) in (m :: l, e)
  | AObserve _ k => run i j k
  end.

(** What is recorded meanwhile. *)
Fixpoint recorded (i j : nat) (t : asgi) : list Observation :=
  match t with
  | AReturn | ARaise _ => []
  | AReceive k => recorded (S i) j (k (inp i))
  | ASend m k => recorded i (S j) (k (out j))
  | AObserve o k => o :: recorded i j k
  end.

(** The body bytes a receive delivers. *)
Definition weight (r : res exn message) : Z :=
  match r with Ok (HttpRequest_ body _) => body_length body | _ => 0 end.

(** .. of [n] receives from the [i]th. *)
Fixpoint total (i n : nat) : Z :=
  match n with O => 0 | S n' => (weight (inp i) + total (S i) n')%Z end.

(** Applications that do the same as long as they have received at most [room]
    bytes. *)
Inductive agree : Z -> asgi -> asgi -> Prop :=
| agree_return room : agree room AReturn AReturn
| agree_raise room e : agree room (ARaise e) (ARaise e)
| agree_send room m k1 k2 :
    (forall r, agree room (k1 r) (k2 r)) -> agree room (ASend m k1) (ASend m k2)
| agree_receive room k1 k2 :
    (forall r, (weight r <= room)%Z -> agree (room - weight r) (k1 r) (k2 r)) ->
    agree room (AReceive k1) (AReceive k2)
| agree_observe room o k1 k2 : agree room k1 k2 -> agree room (AObserve o k1) (AObserve o k2).

(** How many receives happen before a response is started. *)
Fixpoint reads (i j : nat) (t : asgi) : nat :=
  match t with
  | AReceive k => S (reads (S i) j (k (inp i)))
  | ASend (ResponseStart _ _) _ => 0
  | ASend _ k => reads i (S j) (k (out j))
  | AObserve _ k => reads i j k
  | _ => 0
  end.

Definition first_start (l : list message) : option Z :=
  head (omap (fun m => match m with ResponseStart status _ => Some status | _ => None end) l).

Lemma weight_nonneg r : (0 <= weight r)%Z.
Proof. destruct r as [[]|]; simpl; unfold body_length; lia. Qed.
Lemma total_nonneg i n : (0 <= total i n)%Z.
Proof. revert i. induction n as [|n IH]; intros i; simpl; [lia|]. pose proof (weight_nonneg (inp i)). specialize (IH (S i)). lia. Qed.

Lemma run_with_send f t i j :
  run i j (with_send f t) = (f <$> (run i j t).1, (run i j t).2).
Proof.
  revert i j. induction t as [|e|k IH|m k IH|o k IH]; intros i j; simpl; try done.
  rewrite IH. by destruct (run i (S j) (k (out j))) as [l e].
Qed.

Section Capped.
Context (limit : Z) (reject : asgi).
#[local] Abbreviation go := (capped limit reject).

(** Within the limit the exchange is not noticed. *)
Lemma capped_transparent t i j ex :
  (forall n, (ex_received ex + total i n <= limit)%Z) -> ex_overflow ex = false ->
  run i j (go ex t) = run i j t.
Proof.
  revert i j ex. induction t as [|e|k IH|m k IH|o k IH]; intros i j ex Hn Ho; simpl; unfold replaceable; rewrite ?Ho; simpl; try done.
  - pose proof (Hn 1%nat) as H1. simpl in H1.
    assert (Hrest : forall n, (ex_received ex + weight (inp i) + total (S i) n <= limit)%Z).
    { intros n. specialize (Hn (S n)). simpl in Hn. lia. }
    destruct (inp i) as [[body more| | | |]|e]; simpl in *;
      try (apply IH; [intros n; specialize (Hrest n); simpl; lia|done]).
    destruct (Z.ltb_spec limit (ex_received ex + body_length body)); [lia|].
    apply IH; [|done]. intros n. specialize (Hrest n). simpl. lia.
  - by rewrite IH.
  - by apply IH.
Qed.

(** After an overflow with no response started, the application's own answer is
    dropped; the rejection is all there is, unless the application is canceled. *)
Lemma capped_overflown t i j ex :
  replaceable ex = true ->
  (exists i', run i j (go ex t) = run i' j reject) \/ run i j (go ex t) = ([], Some ECancelled).
Proof.
  revert i j ex. induction t as [|e|k IH|m k IH|o k IH]; intros i j ex Hr; simpl; rewrite ?Hr; simpl.
  - eauto.
  - case_bool_decide; simpl; [right; by subst e|eauto].
  - unfold replaceable in Hr. apply andb_prop in Hr as [Ho Hs].
    assert (Hr : forall n, replaceable (mkExchange n true (ex_started ex)) = true)
      by (intros n; unfold replaceable; simpl; exact Hs).
    assert (Hx : replaceable ex = true) by (unfold replaceable; by rewrite Ho, Hs).
    destruct (inp i) as [[body more| | | |]|e]; auto. rewrite Ho.
    destruct (limit <? _)%Z; auto.
  - auto.
  - auto.
Qed.

Lemma first_start_cons m l :
  first_start (m :: l) = match m with ResponseStart st _ => Some st | _ => first_start l end.
Proof. by destruct m. Qed.

(** The status of the response: the rejection's if more than the limit is read
    before the application starts its own. *)
Lemma capped_status t i j ex status :
  (forall i' j', first_start (run i' j' reject).1 = Some status) ->
  ex_overflow ex = false -> ex_started ex = false -> (ex_received ex <= limit)%Z ->
  first_start (run i j (go ex t)).1 =
    (if (limit <? ex_received ex + total i (reads i j t))%Z then Some status else first_start (run i j t).1) \/
  (run i j (go ex t)).2 = Some ECancelled.
Proof.
  intros Hrej. revert i j ex. induction t as [|e|k IH|m k IH|o k IH]; intros i j [rec ov st] Ho Hs Hle;
    simpl in *; subst ov st; unfold replaceable; simpl.
  - left. destruct (Z.ltb_spec limit (rec + 0)); [lia|done].
  - left. destruct (Z.ltb_spec limit (rec + 0)); [lia|done].
  - pose proof (total_nonneg (S i) (reads (S i) j (k (inp i)))) as Hn.
    destruct (inp i) as [[body more| | | |]|e] eqn:Ei; simpl in *;
      try (rewrite <- Ei; specialize (IH (inp i) (S i) j (mkExchange rec false false) eq_refl eq_refl Hle);
           simpl in IH; rewrite Ei in *; exact IH).
    destruct (Z.ltb_spec limit (rec + body_length body)) as [Hover|Hin].
    + destruct (capped_overflown (k (Raise (too_large limit))) (S i) j
        (mkExchange (rec + body_length body) true false) eq_refl) as [[i' E]|E]; rewrite E.
      * left. rewrite Hrej. destruct (Z.ltb_spec limit
          (rec + (body_length body + total (S i) (reads (S i) j (k (Ok (HttpRequest_ body more)))))))%Z; [done|lia].
      * by right.
    + specialize (IH (Ok (HttpRequest_ body more)) (S i) j
        (mkExchange (rec + body_length body) false false) eq_refl eq_refl Hin). simpl in IH.
      by rewrite Z.add_assoc.
  - destruct m as [b mo| |status' hs|b mo|ty]; simpl;
      try (specialize (IH (out j) i (S j) (mkExchange rec false false) eq_refl eq_refl Hle); simpl in IH;
           destruct (run i (S j) (go (mkExchange rec false false) (k (out j)))) as [l e];
           destruct (run i (S j) (k (out j))) as [l0 e0]; simpl in *;
           destruct IH as [IH|IH]; [left|by right]; by rewrite ?first_start_cons).
    left. destruct (run i (S j) _) as [l e]. destruct (run i (S j) _) as [l0 e0]. simpl.
    rewrite !first_start_cons. destruct (Z.ltb_spec limit (rec + 0)); [lia|done].
  - exact (IH i j (mkExchange rec false false) eq_refl eq_refl Hle).
Qed.

(** Nothing beyond the limit reaches the application. *)
Lemma capped_agree room t1 t2 :
  agree room t1 t2 -> forall i j ex, (0 <= room)%Z ->
  (ex_received ex + room = limit)%Z \/ (limit < ex_received ex)%Z ->
  run i j (go ex t1) = run i j (go ex t2).
Proof.
  induction 1 as [room|room e|room m k1 k2 H IH|room k1 k2 H IH|room o k1 k2 H IH]; intros i j ex Hp Hr; simpl; try done.
  - destruct (replaceable ex); [by apply IH|]. simpl. by rewrite (IH (out j)).
  - assert (Hz : forall r, weight r = 0%Z -> forall ex', (ex_received ex' + room = limit)%Z \/ (limit < ex_received ex')%Z ->
      run (S i) j (go ex' (k1 r)) = run (S i) j (go ex' (k2 r))).
    { intros r Hw ex' Hx. apply IH; [lia|lia|]. rewrite Hw. lia. }
    destruct (inp i) as [[body more| | | |]|e]; try (apply Hz; [done|lia]).
    assert (0 <= body_length body)%Z by (unfold body_length; lia).
    destruct (Z.ltb_spec limit (ex_received ex + body_length body)) as [Hover|Hin].
    + apply Hz; [done|simpl; lia].
    + destruct Hr as [Hr|Hr]; [|lia].
      apply IH; simpl; [lia|lia|]. left. lia.
  - by apply IH.
Qed.
End Capped.

(** ** What the metrics record *)

(** The status of the last response started. *)
Definition last_start (l : list message) : option Z :=
  last (omap (fun m => match m with ResponseStart status _ => Some status | _ => None end) l).

Lemma last_start_cons m l :
  last_start (m :: l) =
    match last_start l with
    | Some st => Some st
    | None => match m with ResponseStart st _ => Some st | _ => None end
    end.
Proof.
  unfold last_start. destruct m; cbn [omap list_omap]; try (by destruct (last _)). rewrite last_cons. by destruct (last _).
Qed.

(** Metering changes nothing of the exchange and adds one record, under the
    status sent. *)
Lemma run_metered method path t i j status :
  run i j (metered method path status t) = run i j t /\
  recorded i j (metered method path status t) =
    recorded i j t ++ [mkObservation method path
      (default 500%Z (match last_start (run i j t).1 with Some st => Some st | None => status end))].
Proof.
  revert i j status. induction t as [|e|k IH|m k IH|o k IH]; intros i j status; simpl.
  - done.
  - done.
  - apply IH.
  - destruct (IH (out j) i (S j) (match m with ResponseStart st _ => Some st | _ => status end)) as [E1 E2].
    rewrite E1, E2. split; [done|]. destruct (run i (S j) (k (out j))) as [l e]. simpl. do 3 f_equal.
    rewrite last_start_cons. destruct (last_start l); [done|]. by destruct m.
  - destruct (IH i j status) as [E1 E2]. rewrite E1, E2. done.
Qed.

Lemma recorded_with_send f t i j : recorded i j (with_send f t) = recorded i j t.
Proof. revert i j. induction t as [|e|k IH|m k IH|o k IH]; intros i j; simpl; congruence. Qed.
Lemma last_start_on_start f l : last_start (on_start f <$> l) = last_start l.
Proof.
  induction l as [|m l IH]; [done|]. rewrite fmap_cons, !last_start_cons, IH. by destruct m.
Qed.

(** Applications that record nothing themselves. *)
Inductive silent : asgi -> Prop :=
| silent_return : silent AReturn
| silent_raise e : silent (ARaise e)
| silent_receive k : (forall r, silent (k r)) -> silent (AReceive k)
| silent_send m k : (forall r, silent (k r)) -> silent (ASend m k).

Lemma silent_recorded t : silent t -> forall i j, recorded i j t = [].
Proof. induction 1; intros i j; simpl; auto. Qed.
Lemma silent_send_all l : silent (send_all l).
Proof. induction l as [|m l IH]; simpl; constructor. intros [e|]; [constructor|done]. Qed.
Lemma silent_capped limit reject t ex : silent reject -> silent t -> silent (capped limit reject ex t).
Proof.
  intros Hr Ht. revert ex. induction Ht as [|e|k Hk IH|m k Hk IH]; intros ex; simpl.
  - destruct (replaceable ex); [done|constructor].
  - destruct (_ && _); [done|constructor].
  - constructor. intros r. destruct r as [[body more| | | |]|e]; auto. destruct (limit <? _)%Z; auto.
  - destruct (replaceable ex); [auto|]. constructor. auto.
Qed.
Lemma silent_with_send f t : silent t -> silent (with_send f t).
Proof. induction 1; simpl; constructor; auto. Qed.
End Run.
