(* ===== verification/Redaction.v ===== *)
(** What leaves the process for logs and error reports: src/app/logging_setup.py
    (masking of log records) and src/app/observability.py (scrubbing of Sentry
    events). *)

From stdpp Require Import base strings gmap list.
From Stdlib Require Import ZArith Lia Ascii.
From S2P Require Import Prelude Errors PyLib.

(** ** Python's [re], as far as the two patterns need it

    A pattern is a sequence of character classes with greedy quantifiers;
    [pmatch] answers what follows the match the backtracking search finds. *)

Record piece : Type := mkPiece { pc_class : ascii -> bool; pc_min : nat; pc_max : option nat }.
Definition pattern : Type := list piece.

(** One character of the class at least, as many as the rest [k] permits. *)
Fixpoint greedy (k : list ascii -> option (list ascii)) (p : ascii -> bool) (lo : nat) (hi : option nat)
    (s : list ascii) : option (list ascii) :=
  let stop := if Nat.eqb lo 0 then k s else None in
  match s with
  | c :: s' =>
      if p c && negb (bool_decide (hi = Some 0)) then
        match greedy k p (Nat.pred lo) (Nat.pred <$> hi) s' with Some rest => Some rest | None => stop end
      else stop
  | [] => stop
  end.

Fixpoint pmatch (r : pattern) (s : list ascii) : option (list ascii) :=
  match r with
  | [] => Some s
  | pc :: r' => greedy (pmatch r') (pc_class pc) (pc_min pc) (pc_max pc) s
  end.

(** [pattern.sub(repl, text)] for a pattern that does not match the empty text;
    [skip] characters still belong to the last match. *)
Fixpoint re_sub (r : pattern) (repl : list ascii) (skip : nat) (s : list ascii) : list ascii :=
  match s with
  | [] => []
  | c :: s' =>
      match skip with
      | S n => re_sub r repl n s'
      | O =>
          match pmatch r s with
          | Some rest => repl ++ re_sub r repl (length s' - length rest) s'
          | None => c :: re_sub r repl 0 s'
          end
      end
  end.

Definition re_plus (p : ascii -> bool) : piece := mkPiece p 1 None.
Definition re_one (p : ascii -> bool) : piece := mkPiece p 1 (Some 1).
Definition re_lit (c : ascii) : piece := re_one (fun x => bool_decide (x = c)).
Definition re_at_least (n : nat) (p : ascii -> bool) : piece := mkPiece p n None.
Definition re_maybe (c : ascii) : piece := mkPiece (fun x => bool_decide (x = c)) 0 (Some 1).

(** [\w] *)
Definition word_ch (c : ascii) : bool := ch_alpha c || ch_digit c || bool_decide (c = "_"%char).
Definition word_or (l : list ascii) (c : ascii) : bool := word_ch c || bool_decide (c ∈ l).
Definition digit_or (l : list ascii) (c : ascii) : bool := ch_digit c || bool_decide (c ∈ l).

(** ** Log records *)

Definition REDACTED : string := "[redacted]".

Definition SENSITIVE_KEY_MARKERS : list string :=
  ["password"; "token"; "secret"; "authorization"; "api_key"; "apikey"; "totp"; "card_number"; "cookie";
   "credential"].

Definition MAX_MASK_DEPTH : nat := 8.

(** [sub in value] *)
Fixpoint str_contains (sub value : string) : bool :=
  startswith value sub || match value with EmptyString => false | String _ v => str_contains sub v end.

Definition is_sensitive_key (key : string) : bool :=
  existsb (fun marker => str_contains marker (str_lower key)) SENSITIVE_KEY_MARKERS.

(** [_mask_recursive], [room] levels above the depth limit *)
Fixpoint mask_within (room : nat) (value : json) : json :=
  match room with
  | O => value
  | S room' =>
      match value with
      | JObj o =>
          JObj ((fun kv => (kv.1, if is_sensitive_key kv.1 then JStr REDACTED else mask_within room' kv.2)) <$> o)
      | JList l => JList (mask_within room' <$> l)
      | _ => value
      end
  end.
Definition mask_recursive (value : json) (depth : nat) : json := mask_within (MAX_MASK_DEPTH - depth) value.

Definition mask_sensitive_data (event_dict : list (string * json)) : list (string * json) :=
  (fun kv => (kv.1, if is_sensitive_key kv.1 then JStr REDACTED else mask_recursive kv.2 1)) <$> event_dict.

(** ** Sentry events *)

Definition EMAIL_RE : pattern :=
  [re_plus (word_or ["."; "+"; "-"]%char); re_lit "@"; re_plus (word_or ["-"]%char); re_lit ".";
   re_plus (word_or ["."; "-"]%char)].
Definition PHONE_RE : pattern :=
  [re_maybe "+"; re_one ch_digit; re_at_least 7 (digit_or [" "; "("; ")"; "-"]%char); re_one ch_digit].

Definition redact (r : pattern) (text : list ascii) : list ascii :=
  re_sub r (String.list_ascii_of_string REDACTED) 0 text.

(** [_mask_pii_text] *)
Definition mask_pii_text (text : string) : string :=
  String.string_of_list_ascii (redact PHONE_RE (redact EMAIL_RE (String.list_ascii_of_string text))).

Definition SCRUBBED_FIELDS : list string := ["data"; "headers"; "cookies"; "env"; "query_string"].

(** [d.pop(k, None)] *)
Definition dict_pop {A} (k : string) (o : list (string * A)) : list (string * A) :=
  List.filter (fun kv => negb (bool_decide (kv.1 = k))) o.

Definition scrub_request (data : list (string * json)) : list (string * json) :=
  match assoc "request" data with
  | Some (JObj request) => dict_set "request" (JObj (foldl (fun o k => dict_pop k o) request SCRUBBED_FIELDS)) data
  | _ => data
  end.
Definition scrub_message (data : list (string * json)) : list (string * json) :=
  match assoc "message" data with
  | Some (JStr message) => dict_set "message" (JStr (mask_pii_text message)) data
  | _ => data
  end.
Definition scrub_logentry (data : list (string * json)) : list (string * json) :=
  match assoc "logentry" data with
  | Some (JObj logentry) => dict_set "logentry" (JObj (scrub_message logentry)) data
  | _ => data
  end.
Definition scrub_extra (data : list (string * json)) : list (string * json) :=
  match assoc "extra" data with
  | Some (JObj extra) => dict_set "extra" (JObj (mask_sensitive_data extra)) data
  | _ => data
  end.

Definition scrub_sentry_event (event : list (string * json)) : list (string * json) :=
  scrub_extra (scrub_logentry (scrub_message (scrub_request event))).

(** ** Facts *)

(** What a pattern matches. *)
Fixpoint lang (r : pattern) (w : list ascii) : Prop :=
  match r with
  | [] => w = []
  | pc :: r' =>
      exists w1 w2, w = w1 ++ w2 /\ forallb (pc_class pc) w1 = true /\ pc_min pc <= length w1 /\
        match pc_max pc with Some n => length w1 <= n | None => True end /\ lang r' w2
  end.

Definition occurs (w s : list ascii) : Prop := exists pre post, s = pre ++ w ++ post.

Lemma greedy_complete k p lo hi w1 s :
  k s ≠ None -> forallb p w1 = true -> lo <= length w1 ->
  match hi with Some n => length w1 <= n | None => True end -> greedy k p lo hi (w1 ++ s) ≠ None.
Proof.
  intros Hk. revert lo hi. induction w1 as [|c w1 IH]; intros lo hi Hp Hlo Hhi; simpl in *.
  - assert (lo = 0) as -> by lia. simpl. destruct s as [|c s]; simpl; [done|].
    destruct (p c && _); [|done]. by destruct (greedy k p 0 (Nat.pred <$> hi) s).
  - apply andb_prop in Hp as [Hc Hp]. rewrite Hc.
    assert (negb (bool_decide (hi = Some 0)) = true) as ->.
    { apply negb_true_iff, bool_decide_eq_false. intros ->. lia. }
    specialize (IH (Nat.pred lo) (Nat.pred <$> hi) Hp ltac:(lia)). simpl.
    destruct (greedy _ _ _ _ (w1 ++ s)); [done|]. exfalso. apply IH; [|done].
    destruct hi as [n|]; simpl; [lia|done].
Qed.

Lemma pmatch_complete r w s : lang r w -> pmatch r (w ++ s) ≠ None.
Proof.
  revert w s. induction r as [|pc r IH]; simpl; [done|].
  intros w s (w1 & w2 & -> & Hp & Hlo & Hhi & Hw). rewrite <- app_assoc. apply greedy_complete; auto.
Qed.

(** The replacement: bracketed, so that no match touches it. *)
Definition word_in : list ascii := String.list_ascii_of_string "redacted".
Definition brackets : list ascii := ["["; "]"]%char.

(** A pattern that matches no bracket, and nothing of the word between. *)
Definition apart (r : pattern) : Prop :=
  Forall (fun pc => Forall (fun c => pc_class pc c = false) brackets) r /\
  Exists (fun pc => 1 <= pc_min pc /\ Forall (fun c => pc_class pc c = false) word_in) r.

Lemma lang_no_bracket r w c : apart r -> lang r w -> c ∈ brackets -> c ∉ w.
Proof.
  intros [Hb _] Hw Hc. revert w Hw. induction Hb as [|pc r Hpc Hb IH]; simpl; [intros w ->; set_solver|].
  intros w (w1 & w2 & -> & Hp & _ & _ & Hw). rewrite elem_of_app. intros [H|H]; [|by apply (IH w2)].
  rewrite forallb_forall in Hp. apply list_elem_of_In, Hp in H.
  rewrite Forall_forall in Hpc. rewrite (Hpc c Hc) in H. done.
Qed.

Lemma lang_outside_word r w : apart r -> lang r w -> exists c, c ∈ w /\ c ∉ word_in.
Proof.
  intros [_ He]. revert w. induction He as [pc r [Hlo Hw]|pc r He IH]; simpl;
    intros w (w1 & w2 & -> & Hp & Hmin & _ & Hl).
  - destruct w1 as [|c w1]; simpl in *; [lia|]. apply andb_prop in Hp as [Hp _].
    exists c. split; [by left|]. intros Hin. rewrite Forall_forall in Hw. by rewrite (Hw c Hin) in Hp.
  - destruct (IH w2 Hl) as (c & Hc & Hn). exists c. rewrite elem_of_app. auto.
Qed.

Lemma sub_prefix r skip s w post :
  re_sub r (String.list_ascii_of_string REDACTED) skip s = w ++ post -> "["%char ∉ w -> skip = 0 ->
  exists post', s = w ++ post'.
Proof.
  revert skip w. induction s as [|c s IH]; intros skip w E Hw ->.
  - simpl in E. destruct w; [|done]. by exists [].
  - cbn [re_sub] in E. destruct (pmatch r (c :: s)).
    + destruct w as [|x w]; [by exists (c :: s)|]. injection E as <- _. exfalso. apply Hw. by left.
    + destruct w as [|x w]; [by exists (c :: s)|]. injection E as <- E.
      destruct (IH 0 w E) as [post' ->]; [set_solver|done|]. by exists post'.
Qed.

Lemma prefix_before (l : list ascii) x X w post : l ++ x :: X = w ++ post -> x ∉ w -> exists z, l = w ++ z.
Proof.
  revert w. induction l as [|c l IH]; intros [|y w] E Hx; simpl in *; try (by eexists).
  - injection E as -> _. set_solver.
  - injection E as -> E. destruct (IH w E) as [z ->]; [set_solver|]. by exists z.
Qed.

Lemma occurs_around (a : list ascii) x X pre w post :
  a ++ x :: X = pre ++ w ++ post -> x ∉ w -> occurs w a \/ exists pre', X = pre' ++ w ++ post.
Proof.
  revert pre. induction a as [|c a IH]; intros [|y pre] E Hx; simpl in E.
  - left. destruct (prefix_before [] x X w post E Hx) as [z Hz]. by exists [], z.
  - right. injection E as _ ->. by exists pre.
  - left. destruct (prefix_before (c :: a) x X w post E Hx) as [z Hz]. by exists [], z.
  - injection E as _ E. destruct (IH pre E Hx) as [(p & q & ->)|H]; [left|by right]. by exists (c :: p), q.
Qed.

(** Text of the result without brackets is text between the matches, where no
    match starts, or part of a replacement. *)
Lemma sub_occurs r skip s pre w post :
  re_sub r (String.list_ascii_of_string REDACTED) skip s = pre ++ w ++ post ->
  w ≠ [] -> (forall c, c ∈ brackets -> c ∉ w) ->
  occurs w word_in \/ exists s1 s2, s = s1 ++ w ++ s2 /\ pmatch r (w ++ s2) = None.
Proof.
  intros E Hw Hb. revert skip pre E. induction s as [|c s IH]; intros skip pre E.
  { simpl in E. by destruct pre, w. }
  assert (Hcons : forall skip' pre', re_sub r (String.list_ascii_of_string REDACTED) skip' s = pre' ++ w ++ post ->
    occurs w word_in \/ exists s1 s2, c :: s = s1 ++ w ++ s2 /\ pmatch r (w ++ s2) = None).
  { intros skip' pre' E'. destruct (IH _ _ E') as [H|(s1 & s2 & -> & Hn)]; [by left|right]. by exists (c :: s1), s2. }
  destruct skip as [|n]; [|by apply (Hcons n pre)]. cbn [re_sub] in E.
  destruct (pmatch r (c :: s)) as [rest|] eqn:Em.
  - set (tail := re_sub r _ _ s) in E.
    assert (E0 : [] ++ "["%char :: (word_in ++ "]"%char :: tail) = pre ++ w ++ post) by exact E.
    destruct (occurs_around [] _ _ _ _ _ E0) as [(p & q & Ho)|[pre1 E1]]; [apply Hb; by left| |].
    { by destruct p, w. }
    destruct (occurs_around word_in _ _ _ _ _ E1) as [Ho|[pre2 E2]]; [apply Hb; right; by left|by left|].
    by apply (Hcons (length s - length rest) pre2).
  - destruct pre as [|y pre]; simpl in E; [|injection E as _ E; by apply (Hcons 0 pre)].
    right. exists []. destruct w as [|x w]; [done|]. injection E as -> E.
    destruct (sub_prefix r 0 s w post E) as [s2 ->]; [|done|].
    { intros H. apply (Hb "["%char); [by left|by right]. }
    exists s2. split; [done|]. exact Em.
Qed.

Lemma lang_nonempty r w : apart r -> lang r w -> w ≠ [].
Proof. intros Ha Hl ->. destruct (lang_outside_word r [] Ha Hl) as (c & Hc & _). set_solver. Qed.
Lemma lang_not_in_word r w : apart r -> lang r w -> ~ occurs w word_in.
Proof.
  intros Ha Hl (p & q & E). destruct (lang_outside_word r w Ha Hl) as (c & Hc & Hn). apply Hn. rewrite E. set_solver.
Qed.

(** After the substitution nothing matches the pattern .. *)
Lemma redact_clears r s w : apart r -> lang r w -> ~ occurs w (redact r s).
Proof.
  intros Ha Hl (pre & post & E). unfold redact in E.
  destruct (sub_occurs r 0 s pre w post E) as [Ho|(s1 & s2 & -> & Hn)].
  - by eapply lang_nonempty.
  - intros c Hc. by eapply lang_no_bracket.
  - by apply (lang_not_in_word r w).
  - by apply (pmatch_complete r w s2).
Qed.
(** .. and it brings in no match of another one. *)
Lemma redact_keeps_clear r r' s :
  apart r' -> (forall w, lang r' w -> ~ occurs w s) -> forall w, lang r' w -> ~ occurs w (redact r s).
Proof.
  intros Ha Hs w Hl (pre & post & E). unfold redact in E.
  destruct (sub_occurs r 0 s pre w post E) as [Ho|(s1 & s2 & -> & _)].
  - by eapply lang_nonempty.
  - intros c Hc. by eapply lang_no_bracket.
  - by apply (lang_not_in_word r' w).
  - apply (Hs w Hl). by exists s1, s2.
Qed.

Lemma email_apart : apart EMAIL_RE.
Proof.
  split; [repeat constructor; vm_compute; reflexivity|]. apply Exists_cons_tl, Exists_cons_hd.
  split; [simpl; lia|repeat constructor; vm_compute; reflexivity].
Qed.
Lemma phone_apart : apart PHONE_RE.
Proof.
  split; [repeat constructor; vm_compute; reflexivity|]. apply Exists_cons_tl, Exists_cons_hd.
  split; [simpl; lia|repeat constructor; vm_compute; reflexivity].
Qed.

(** What [mask_pii_text] leaves holds neither an e-mail address nor a phone
    number. *)
Lemma masked_text_is_clear text w :
  lang EMAIL_RE w \/ lang PHONE_RE w -> ~ occurs w (String.list_ascii_of_string (mask_pii_text text)).
Proof.
  unfold mask_pii_text. rewrite String.list_ascii_of_string_of_list_ascii. intros [H|H].
  - apply (redact_keeps_clear _ EMAIL_RE); [apply email_apart| |done]. intros w'. apply redact_clears, email_apart.
  - apply redact_clears; [apply phone_apart|done].
Qed.

(** *** Masked values, by their place *)

Inductive pstep : Set := Key (k : string) | Index (n : nat).

Fixpoint at_path (path : list pstep) (v : json) : option json :=
  match path with
  | [] => Some v
  | Key k :: path' => match v with JObj o => assoc k o ≫= at_path path' | _ => None end
  | Index n :: path' => match v with JList l => l !! n ≫= at_path path' | _ => None end
  end.

Definition plain_step (st : pstep) : Prop :=
  match st with Key k => is_sensitive_key k = false | Index _ => True end.

Lemma assoc_fmap {A B} (f : string -> A -> B) k o :
  assoc k ((fun kv => (kv.1, f kv.1 kv.2)) <$> o) = f k <$> assoc k o.
Proof.
  induction o as [|[k' v] o IH]; [done|]. simpl. case_bool_decide as E; [by subst k'|done].
Qed.
Lemma mask_obj room o k :
  assoc k ((fun kv => (kv.1, if is_sensitive_key kv.1 then JStr REDACTED else mask_within room kv.2)) <$> o) =
  (if is_sensitive_key k then (fun _ => JStr REDACTED) <$> assoc k o else mask_within room <$> assoc k o).
Proof.
  rewrite (assoc_fmap (fun k v => if is_sensitive_key k then JStr REDACTED else mask_within room v)).
  by destruct (is_sensitive_key k).
Qed.

Lemma mask_within_hides room v path k x :
  length path < room -> is_sensitive_key k = true ->
  at_path (path ++ [Key k]) (mask_within room v) = Some x -> x = JStr REDACTED.
Proof.
  intros Hl Hk. revert room v Hl. induction path as [|[k'|n] path IH]; intros [|room] v Hl; simpl in Hl; try lia;
    destruct v as [| | | | | |l|o]; cbn [mask_within app at_path]; try discriminate.
  - rewrite mask_obj, Hk. destruct (assoc k o); simpl; [|done]. by intros [= <-].
  - rewrite mask_obj. destruct (is_sensitive_key k'), (assoc k' o) as [y|]; simpl; try done.
    + by destruct path as [|[]].
    + apply IH. lia.
  - rewrite list_lookup_fmap. destruct (l !! n) as [y|]; simpl; [|done]. apply IH. lia.
Qed.

Lemma mask_within_keeps room v path x :
  Forall plain_step path -> at_path path v = Some x ->
  at_path path (mask_within room v) = Some (mask_within (room - length path) x).
Proof.
  intros Hp. revert room v. induction Hp as [|[k|n] path Hs Hp IH]; intros room v; cbn [at_path length].
  - intros [= ->]. by rewrite Nat.sub_0_r.
  - destruct v as [| | | | | |l|o]; try discriminate. destruct (assoc k o) as [y|] eqn:E; [|done]. simpl. intros Hy.
    destruct room as [|room]; cbn [mask_within]; [by rewrite E|]. rewrite mask_obj. simpl in Hs. rewrite Hs, E.
    simpl. by apply IH.
  - destruct v as [| | | | | |l|o]; try discriminate. destruct (l !! n) as [y|] eqn:E; [|done]. simpl. intros Hy.
    destruct room as [|room]; cbn [mask_within]; [by rewrite E|]. rewrite list_lookup_fmap, E. simpl. by apply IH.
Qed.

Lemma masked_record o : JObj (mask_sensitive_data o) = mask_within MAX_MASK_DEPTH (JObj o).
Proof. reflexivity. Qed.

(** *** The parts of a scrubbed event *)

Lemma assoc_dict_pop {A} k k' (o : list (string * A)) :
  assoc k (dict_pop k' o) = if bool_decide (k = k') then None else assoc k o.
Proof.
  unfold dict_pop. induction o as [|[k2 v] o IH]; simpl; [by case_bool_decide|].
  destruct (bool_decide (k2 = k')) eqn:E2; simpl.
  - rewrite IH. apply bool_decide_eq_true in E2 as ->. repeat case_bool_decide; congruence.
  - apply bool_decide_eq_false in E2. rewrite IH. repeat case_bool_decide; congruence.
Qed.
Lemma assoc_pops {A} k l (o : list (string * A)) :
  assoc k (foldl (fun o k' => dict_pop k' o) o l) = if bool_decide (k ∈ l) then None else assoc k o.
Proof.
  revert o. induction l as [|k' l IH]; intros o; simpl; [done|]. rewrite IH, assoc_dict_pop.
  repeat case_bool_decide; set_solver.
Qed.

Ltac scrub_tac :=
  match goal with |- context [match assoc ?k0 ?d with _ => _ end] =>
    destruct (assoc k0 d) as [[]|] eqn:?; try done; rewrite ?assoc_dict_set_ne by done end; try done.

Lemma scrub_request_other k d : k ≠ "request" -> assoc k (scrub_request d) = assoc k d.
Proof. intros H. unfold scrub_request. scrub_tac. Qed.
Lemma scrub_message_other k d : k ≠ "message" -> assoc k (scrub_message d) = assoc k d.
Proof. intros H. unfold scrub_message. scrub_tac. Qed.
Lemma scrub_logentry_other k d : k ≠ "logentry" -> assoc k (scrub_logentry d) = assoc k d.
Proof. intros H. unfold scrub_logentry. scrub_tac. Qed.
Lemma scrub_extra_other k d : k ≠ "extra" -> assoc k (scrub_extra d) = assoc k d.
Proof. intros H. unfold scrub_extra. scrub_tac. Qed.

Lemma message_cleared d text w :
  assoc "message" (scrub_message d) = Some (JStr text) -> lang EMAIL_RE w \/ lang PHONE_RE w ->
  ~ occurs w (String.list_ascii_of_string text).
Proof.
  intros H Hw. unfold scrub_message in H. destruct (assoc "message" d) as [[]|] eqn:E; try congruence.
  rewrite assoc_dict_set in H. injection H as <-. by apply masked_text_is_clear.
Qed.
