(* ===== verification/Ddl.v ===== *)
(** The database schema as migrations see it: what the statements of a
    migration do to tables, indexes, policies, grants and functions, what row
    level security then lets a role do, and the helpers of src/shared/rls.py.
    A statement that PostgreSQL refuses is an error.

    The frame rule at the end is what makes components independent: a statement
    does to a schema what it does to the tables it is about. *)

From stdpp Require Import base strings gmap list sorting.
From Stdlib Require Import ZArith Lia Ascii.
From S2P Require Import Prelude Errors PyLib Calendar Entities Models Events.

(** ** Conditions: CHECK constraints, partial indexes, policies *)

Inductive cond : Set :=
| CTrue
| CIn (col : string) (values : list string)        (* col IN ('a', 'b') *)
| CIs (col value : string)                         (* col = 'a' *)
| CAtLeast (col : string) (n : Z)                  (* col >= n *)
| CAbove (col : string) (n : Z)                    (* col > n *)
| CBetween (col : string) (lo hi : Z)              (* col BETWEEN lo AND hi *)
| CNull (col : string)                             (* col IS NULL *)
| CNotNull (col : string)                          (* col IS NOT NULL *)
| CAnd (c d : cond)
| COr (c d : cond)
| CTenant (col : string)                           (* col = app_current_tenant_id() *)
| CUser (col : string)                             (* col = app_current_user_id() *)
| CExists (table inner outer : string) (c : cond). (* EXISTS (SELECT 1 FROM table x WHERE
                                                       x.inner = outer AND c) *)

(** ** Tables *)

Inductive sqltype : Set :=
| TUuid | TText | TString (n : N) | TSmallInteger | TInteger | TBigInteger | TBoolean
| TTimestamptz | TDate | TJsonb | TInet | TBytea.

Inductive sqldefault : Set := DNow | DText (s : string) | DTrue | DFalse | DEmptyObject.

Record Column : Set := mkCol {
  co_name : string; co_type : sqltype; co_nullable : bool; co_default : option sqldefault }.

Inductive ondelete : Set := Restrict | Cascade | SetNull.

Inductive constraint : Set :=
| PrimaryKey (cols : list string)
| ForeignKey (col table refcol : string) (action : ondelete)
| Checked (c : cond).

Inductive ixkey : Set := KCol (col : string) | KLower (col : string) | KDesc (col : string).

Record Index : Set := mkIndex {
  ix_keys : list ixkey; ix_unique : bool; ix_where : option cond;
  ix_nulls_not_distinct : bool; ix_using : option string }.

Inductive privilege : Set := Select | Insert | Update | Delete.
#[export] Instance privilege_eq_dec : EqDecision privilege.
Proof. solve_decision. Defined.
#[export] Instance privilege_countable : Countable privilege.
Proof.
  refine (inj_countable' (fun p => match p with Select => 0 | Insert => 1 | Update => 2 | Delete => 3 end)
    (fun n => match n with 0 => Select | 1 => Insert | 2 => Update | _ => Delete end) _). by intros [].
Defined.

(** FOR ALL is [None]. *)
Record Policy : Set := mkPolicy {
  pl_cmd : option privilege; pl_role : string; pl_using : option cond;
  pl_check : option cond }.

Record TableDef : Set := mkTable {
  tb_columns : list Column; tb_constraints : gmap string constraint; tb_indexes : gmap string Index;
  tb_rls : bool; tb_policies : gmap string Policy; tb_grants : gset (string * privilege) }.

Definition values {A} (m : gmap string A) : list A := (map_to_list m).*2.

Record Schema : Set := mkSchema {
  sc_tables : gmap string TableDef; sc_functions : gset string; sc_roles : gset string }.

#[export] Instance cond_eq_dec : EqDecision cond.
Proof. solve_decision. Defined.
#[export] Instance sqltype_eq_dec : EqDecision sqltype.
Proof. solve_decision. Defined.
#[export] Instance sqldefault_eq_dec : EqDecision sqldefault.
Proof. solve_decision. Defined.
#[export] Instance column_eq_dec : EqDecision Column.
Proof. solve_decision. Defined.
#[export] Instance ondelete_eq_dec : EqDecision ondelete.
Proof. solve_decision. Defined.
#[export] Instance constraint_eq_dec : EqDecision constraint.
Proof. solve_decision. Defined.
#[export] Instance ixkey_eq_dec : EqDecision ixkey.
Proof. solve_decision. Defined.
#[export] Instance index_eq_dec : EqDecision Index.
Proof. solve_decision. Defined.
#[export] Instance policy_eq_dec : EqDecision Policy.
Proof. solve_decision. Defined.
#[export] Instance tabledef_eq_dec : EqDecision TableDef.
Proof. solve_decision. Defined.
#[export] Instance schema_eq_dec : EqDecision Schema.
Proof. solve_decision. Defined.

(** ** Statements *)

Inductive statement : Set :=
| CreateTable (t : string) (columns : list Column) (constraints : list (string * constraint))
| DropTable (t : string)
| CreateIndex (t name : string) (ix : Index)
| DropIndex (t name : string)
| AddColumn (t : string) (c : Column)
| DropColumn (t name : string)
| CreateCheck (t name : string) (c : cond)
| DropConstraint (t name : string)
| EnableRls (t : string)
| DisableRls (t : string)
| CreatePolicy (t name : string) (p : Policy)
| DropPolicyIfExists (t name : string)
| Grant (privileges : list privilege) (t : string) (roles : list string)
| RevokeAll (t : string) (roles : list string)
| CreateFunction (f : string)
| DropFunctionIfExists (f : string)
| RequireRoles (roles : list string)       (* _check_roles_present *)
| Rows (t : string).                       (* INSERT or UPDATE: no effect on the schema *)

Definition TENANT_FN : string := "app_current_tenant_id".
Definition USER_FN : string := "app_current_user_id".

Definition column_names (T : TableDef) : list string := co_name <$> tb_columns T.

(** Columns, tables and functions a condition names. *)
Fixpoint cond_columns (c : cond) : list string :=
  match c with
  | CTrue => []
  | CIn x _ | CIs x _ | CAtLeast x _ | CAbove x _ | CBetween x _ _ | CNull x | CNotNull x
  | CTenant x | CUser x => [x]
  | CAnd c d | COr c d => cond_columns c ++ cond_columns d
  | CExists _ _ outer _ => [outer]
  end.
Fixpoint cond_tables (c : cond) : list (string * list string) :=
  match c with
  | CAnd c d | COr c d => cond_tables c ++ cond_tables d
  | CExists t inner _ c => (t, inner :: cond_columns c) :: cond_tables c
  | _ => []
  end.
Fixpoint cond_functions (c : cond) : list string :=
  match c with
  | CTenant _ => [TENANT_FN]
  | CUser _ => [USER_FN]
  | CAnd c d | COr c d => cond_functions c ++ cond_functions d
  | CExists _ _ _ c => cond_functions c
  | _ => []
  end.
Definition policy_conds (p : Policy) : list cond := option_list (pl_using p) ++ option_list (pl_check p).
Definition policy_tables (p : Policy) : list (string * list string) := mjoin (cond_tables <$> policy_conds p).
Definition policy_functions (p : Policy) : list string := mjoin (cond_functions <$> policy_conds p).
Definition key_column (k : ixkey) : string := match k with KCol c | KLower c | KDesc c => c end.

Definition fk_tables (cs : list constraint) : list (string * list string) :=
  omap (fun c => match c with ForeignKey _ t refcol _ => Some (t, [refcol]) | _ => None end) cs.

(** Tables another table depends on: through foreign keys and policies. *)
Definition depends_tables (T : TableDef) : list string :=
  (fk_tables (values (tb_constraints T))).*1 ++ mjoin ((fun p => (policy_tables p).*1) <$> values (tb_policies T)).
Definition depends_functions (T : TableDef) : list string := mjoin (policy_functions <$> values (tb_policies T)).

(** Tables, indexes and primary keys share one name space. *)
Definition pk_names (cs : list (string * constraint)) : list string :=
  omap (fun c => match c.2 with PrimaryKey _ => Some c.1 | _ => None end) cs.
Definition relation_names (t : string) (T : TableDef) : list string :=
  t :: pk_names (map_to_list (tb_constraints T)) ++ (map_to_list (tb_indexes T)).*1.
Definition names_free (names : list string) (tables : gmap string TableDef) : bool :=
  bool_decide (map_Forall (fun t T => Forall (fun n => n ∉ relation_names t T) names) tables).

(** The tables exist and have the columns. *)
Definition has_columns (tables : gmap string TableDef) (x : string * list string) : bool :=
  match tables !! x.1 with Some T => bool_decide (x.2 ⊆ column_names T) | None => false end.

Definition sql_error {A} : res exn A := Raise (EOther "sqlalchemy.exc.ProgrammingError").

Definition constraint_columns (c : constraint) : list string :=
  match c with PrimaryKey cols => cols | ForeignKey col _ _ _ => [col] | Checked c => cond_columns c end.
Definition index_columns (ix : Index) : list string :=
  (key_column <$> ix_keys ix) ++ mjoin (cond_columns <$> option_list (ix_where ix)).

(** [f] on a table that exists. *)
Definition on_table (t : string) (f : TableDef -> res exn TableDef) (s : Schema) : res exn Schema :=
  match sc_tables s !! t with
  | Some T => rbind (f T) (fun T' => Ok (mkSchema (<[t := T']> (sc_tables s)) (sc_functions s) (sc_roles s)))
  | None => sql_error
  end.
Definition req (b : bool) {A} (r : res exn A) : res exn A := if b then r else sql_error.

Definition set_columns f (T : TableDef) :=
  mkTable (f (tb_columns T)) (tb_constraints T) (tb_indexes T) (tb_rls T) (tb_policies T) (tb_grants T).
Definition set_constraints f (T : TableDef) :=
  mkTable (tb_columns T) (f (tb_constraints T)) (tb_indexes T) (tb_rls T) (tb_policies T) (tb_grants T).
Definition set_indexes f (T : TableDef) :=
  mkTable (tb_columns T) (tb_constraints T) (f (tb_indexes T)) (tb_rls T) (tb_policies T) (tb_grants T).
Definition set_rls b (T : TableDef) :=
  mkTable (tb_columns T) (tb_constraints T) (tb_indexes T) b (tb_policies T) (tb_grants T).
Definition set_policies f (T : TableDef) :=
  mkTable (tb_columns T) (tb_constraints T) (tb_indexes T) (tb_rls T) (f (tb_policies T)) (tb_grants T).
Definition set_grants f (T : TableDef) :=
  mkTable (tb_columns T) (tb_constraints T) (tb_indexes T) (tb_rls T) (tb_policies T) (f (tb_grants T)).

(** A statement on the table it is about, in the schema [s]. Indexes and
    constraints on a column go with it; a policy on it keeps it. *)
Definition alter (st : statement) (s : Schema) (T : TableDef) : res exn TableDef :=
  match st with
  | CreateIndex t n ix =>
      req (names_free [n] (sc_tables s)
           && bool_decide (index_columns ix ⊆ column_names T))
        (Ok (set_indexes <[n := ix]> T))
  | DropIndex t n => req (bool_decide (is_Some (tb_indexes T !! n))) (Ok (set_indexes (delete n) T))
  | AddColumn t c =>
      req (negb (bool_decide (co_name c ∈ column_names T))) (Ok (set_columns (fun l => l ++ [c]) T))
  | DropColumn t n =>
      req (bool_decide (n ∈ column_names T)
           && forallb (fun p => negb (bool_decide (n ∈ mjoin (cond_columns <$> policy_conds p)))) (values (tb_policies T)))
        (Ok (set_columns (List.filter (fun c => negb (bool_decide (co_name c = n))))
            (set_constraints (filter (fun x => n ∉ constraint_columns x.2))
            (set_indexes (filter (fun x => n ∉ index_columns x.2)) T))))
  | CreateCheck t n c =>
      req (bool_decide (tb_constraints T !! n = None) && bool_decide (cond_columns c ⊆ column_names T))
        (Ok (set_constraints <[n := Checked c]> T))
  | DropConstraint t n =>
      req (bool_decide (is_Some (tb_constraints T !! n))) (Ok (set_constraints (delete n) T))
  | EnableRls t => Ok (set_rls true T)
  | DisableRls t => Ok (set_rls false T)
  | CreatePolicy t n p =>
      req (bool_decide (tb_policies T !! n = None)
           && bool_decide (mjoin (cond_columns <$> policy_conds p) ⊆ column_names T)
           && forallb (has_columns (sc_tables s)) (policy_tables p)
           && forallb (fun f => bool_decide (f ∈ sc_functions s)) (policy_functions p)
           && bool_decide (pl_role p ∈ sc_roles s))
        (Ok (set_policies <[n := p]> T))
  | DropPolicyIfExists t n => Ok (set_policies (delete n) T)
  | Grant privileges t roles =>
      req (forallb (fun r => bool_decide (r ∈ sc_roles s)) roles)
        (Ok (set_grants (fun g => g ∪ list_to_set (r ← roles; p ← privileges; [(r, p)])) T))
  | RevokeAll t roles =>
      req (forallb (fun r => bool_decide (r ∈ sc_roles s)) roles)
        (Ok (set_grants (fun g => filter (fun rp => rp.1 ∉ roles) g) T))
  | _ => Ok T
  end.

Definition exec (st : statement) (s : Schema) : res exn Schema :=
  match st with
  | CreateTable t columns constraints =>
      let T := mkTable columns (list_to_map constraints) ∅ false ∅ ∅ in
      req (names_free (t :: pk_names constraints) (sc_tables s)
           && bool_decide (NoDup (co_name <$> columns)) && bool_decide (NoDup constraints.*1)
           && bool_decide (mjoin ((fun c => constraint_columns c.2) <$> constraints) ⊆ column_names T)
           && forallb (has_columns (sc_tables s)) (fk_tables constraints.*2))
        (Ok (mkSchema (<[t := T]> (sc_tables s)) (sc_functions s) (sc_roles s)))
  | DropTable t =>
      req (bool_decide (is_Some (sc_tables s !! t))
           && bool_decide (map_Forall (fun t' T => t' ≠ t -> t ∉ depends_tables T) (sc_tables s)))
        (Ok (mkSchema (delete t (sc_tables s)) (sc_functions s) (sc_roles s)))
  | CreateFunction f =>
      req (negb (bool_decide (f ∈ sc_functions s)))
        (Ok (mkSchema (sc_tables s) ({[f]} ∪ sc_functions s) (sc_roles s)))
  | DropFunctionIfExists f =>
      req (bool_decide (map_Forall (fun _ T => f ∉ depends_functions T) (sc_tables s)))
        (Ok (mkSchema (sc_tables s) (sc_functions s ∖ {[f]}) (sc_roles s)))
  | RequireRoles roles =>
      if forallb (fun r => bool_decide (r ∈ sc_roles s)) roles then Ok s else Raise ERuntime
  | CreateIndex t _ _ | DropIndex t _ | AddColumn t _ | DropColumn t _ | CreateCheck t _ _ | DropConstraint t _
  | EnableRls t | DisableRls t | CreatePolicy t _ _ | DropPolicyIfExists t _ | Grant _ t _ | RevokeAll t _
  | Rows t => on_table t (alter st s) s
  end.

(** Alembic runs a migration in one transaction. *)
Fixpoint exec_all (l : list statement) (s : Schema) : res exn Schema :=
  match l with [] => Ok s | st :: l' => rbind (exec st s) (exec_all l') end.

(** ** src/shared/db_provisioning.py and src/shared/rls.py *)

Definition ROLE_MIGRATOR : string := "app_migrator".
Definition ROLE_USER : string := "app_user".
Definition ROLE_MAINTENANCE : string := "app_maintenance".
Definition ROLE_RETENTION : string := "app_retention".
Definition RUNTIME_ROLES : list string := [ROLE_USER; ROLE_MAINTENANCE; ROLE_RETENTION].
Definition ALL_ROLES : list string := ROLE_MIGRATOR :: RUNTIME_ROLES.

(** [_IDENT_RE]; [$] also matches before a final newline. *)
Definition ident_re (name : string) : bool :=
  match chomp name with
  | String c rest => (ch_lower c || bool_decide (c = "_"%char))
                     && str_all (fun c => ch_lower c || ch_digit c || bool_decide (c = "_"%char)) rest
  | EmptyString => false
  end.
Definition sql_ident (name : string) : res exn string := if ident_re name then Ok name else Raise EValue.

Definition CRUD : list privilege := [Select; Insert; Update; Delete].

Fixpoint sql_idents (l : list string) : res exn (list string) :=
  match l with [] => Ok [] | x :: l' => rbind (sql_ident x) (fun x => rbind (sql_idents l') (fun l' => Ok (x :: l'))) end.

Definition grant_crud (table : string) (roles : list string) : res exn (list statement) :=
  rbind (sql_ident table) (fun table => rbind (sql_idents roles) (fun grantees => Ok [Grant CRUD table grantees])).
Definition revoke_all (table : string) (roles : list string) : res exn (list statement) :=
  rbind (sql_ident table) (fun table => rbind (sql_idents roles) (fun grantees => Ok [RevokeAll table grantees])).

Definition tenant_isolation : Policy :=
  mkPolicy None ROLE_USER (Some (CTenant "tenant_id")) (Some (CTenant "tenant_id")).
Definition maintenance_all : Policy :=
  mkPolicy None ROLE_MAINTENANCE (Some CTrue) (Some CTrue).

Definition enable_tenant_rls (table : string) : res exn (list statement) :=
  rbind (sql_ident table) (fun table =>
  rbind (grant_crud table [ROLE_USER; ROLE_MAINTENANCE]) (fun grants =>
    Ok ([EnableRls table; CreatePolicy table "tenant_isolation" tenant_isolation;
         CreatePolicy table "maintenance_all" maintenance_all] ++ grants))).
Definition disable_tenant_rls (table : string) : res exn (list statement) :=
  rbind (sql_ident table) (fun table =>
  rbind (revoke_all table [ROLE_USER; ROLE_MAINTENANCE]) (fun revokes =>
    Ok (revokes ++ [DropPolicyIfExists table "maintenance_all"; DropPolicyIfExists table "tenant_isolation";
                    DisableRls table]))).

(** Provisioning the roles; the dictionary of passwords by role. *)
Definition DEV_ROLE_PASSWORDS : gmap string string := list_to_map ((fun r => (r, r)) <$> ALL_ROLES).
(** [_PASSWORD_RE] *)
Definition password_re (password : string) : bool :=
  negb (str_empty (chomp password))
  && str_all (fun c => ch_alpha c || ch_digit c || bool_decide (c = "_"%char)) (chomp password).

Definition role_statement (pw : gmap string string) (role : string) : res exn string :=
  rbind (sql_ident role) (fun _ =>
  match pw !! role with
  | None => Raise EKey
  | Some password =>
      if password_re password
      then Ok ("DO $$ BEGIN IF NOT EXISTS (SELECT FROM pg_roles WHERE rolname = '" +:+ role +:+ "') THEN CREATE ROLE "
               +:+ role +:+ " LOGIN PASSWORD '" +:+ password
               +:+ "' NOSUPERUSER NOBYPASSRLS NOINHERIT; END IF; END $$")
      else Raise EValue
  end).
Fixpoint role_statements (pw : gmap string string) (roles : list string) : res exn (list string) :=
  match roles with
  | [] => Ok []
  | r :: roles' => rbind (role_statement pw r) (fun s => rbind (role_statements pw roles') (fun l => Ok (s :: l)))
  end.
Definition render_role_bootstrap_statements (passwords : option (gmap string string)) : res exn (list string) :=
  let pw := match passwords with
            | Some p => if bool_decide (p = ∅) then DEV_ROLE_PASSWORDS else p
            | None => DEV_ROLE_PASSWORDS end in
  rbind (role_statements pw ALL_ROLES) (fun statements =>
    Ok (statements ++
        ["GRANT CREATE, USAGE ON SCHEMA public TO " +:+ ROLE_MIGRATOR;
         "GRANT USAGE ON SCHEMA public TO " +:+ ROLE_USER +:+ ", " +:+ ROLE_MAINTENANCE +:+ ", " +:+ ROLE_RETENTION])).

(** Provisioning works exactly when every role has a password of letters, digits
    and underscores. *)
Lemma bootstrap_renders p :
  p ≠ ∅ ->
  (exists l, render_role_bootstrap_statements (Some p) = Ok l) <->
  forall r, r ∈ ALL_ROLES -> exists w, p !! r = Some w /\ password_re w = true.
Proof.
  intros Hp. unfold render_role_bootstrap_statements. rewrite bool_decide_false by done.
  assert (Hi : forall r, r ∈ ALL_ROLES -> sql_ident r = Ok r).
  { assert (A : Forall (fun r => sql_ident r = Ok r) ALL_ROLES) by (repeat constructor). by apply Forall_forall. }
  assert (H : (exists l, role_statements p ALL_ROLES = Ok l) <->
              forall r, r ∈ ALL_ROLES -> exists w, p !! r = Some w /\ password_re w = true).
  { generalize ALL_ROLES, Hi. intros l Hl. clear Hi. induction l as [|r l IH]; cbn [role_statements].
    - split; [intros _ r Hr; set_solver|eauto].
    - assert (IH' := IH (fun x Hx => Hl x (list_elem_of_further _ _ _ Hx))). clear IH.
      assert (Hr : sql_ident r = Ok r) by (apply Hl; by left). unfold role_statement. rewrite Hr. cbn [rbind].
      setoid_rewrite elem_of_cons. split.
      + intros [x Hx]. destruct (p !! r) as [w|] eqn:E; [|done]. destruct (password_re w) eqn:W; [|done].
        cbn [rbind] in Hx. destruct (role_statements p l) as [y|] eqn:Ey; [|done].
        assert (IH2 := proj1 IH' (ex_intro _ y eq_refl)). intros r' [->|H']; [eauto|auto].
      + intros H. destruct (H r (or_introl eq_refl)) as (w & -> & ->). cbn [rbind].
        destruct (proj2 IH' (fun x Hx => H x (or_intror Hx))) as [y ->]. cbn [rbind]. eauto. }
  rewrite <- H. destruct (role_statements p ALL_ROLES) as [l|]; cbn [rbind]; split; intros [x Hx]; try done; eauto.
Qed.

(** The statements of a migration, part by part. *)
Fixpoint script (parts : list (res exn (list statement))) : res exn (list statement) :=
  match parts with
  | [] => Ok []
  | p :: parts' => rbind p (fun l => rbind (script parts') (fun l' => Ok (l ++ l')))
  end.

(** ** Row level security *)

Inductive value : Set := VNull | VText (s : string) | VInt (n : Z) | VUuid (u : uuid) | VDate (day : Z) | VOther.
#[export] Instance value_eq_dec : EqDecision value.
Proof. solve_decision. Defined.

Abbreviation Row := (gmap string value).
Definition cell (r : Row) (col : string) : value := default VNull (r !! col).

(** Who asks: the role of the connection and what the two functions answer. *)
Record Asker : Set := mkAsker { ak_role : string; ak_tenant : option uuid; ak_user : option uuid }.

(** [apply_tenant_context] (src/shared/db.py): the values of [app.tenant_id] and
    [app.user_id] for the transaction. *)
Definition apply_tenant_context (ctx : TenantContext) : string * string :=
  (match c_tenant_id ctx with Some t => uuid_str t | None => "" end,
   match a_kind (c_actor ctx), a_id (c_actor ctx) with KUser, Some i => i | _, _ => "" end).

(** [NULLIF(current_setting(..), '')::uuid]; a text that [pg_uuid], the cast,
    refuses fails the statement, so it reaches no row. *)
Definition current_id (pg_uuid : string -> option uuid) (setting : string) : option uuid :=
  if bool_decide (setting = "") then None else pg_uuid setting.
Definition asker (pg_uuid : string -> option uuid) (role : string) (ctx : TenantContext) : Asker :=
  mkAsker role (current_id pg_uuid (apply_tenant_context ctx).1) (current_id pg_uuid (apply_tenant_context ctx).2).

(** Truth values of SQL: [None] is unknown. *)
Definition and3 (a b : option bool) : option bool :=
  match a, b with
  | Some false, _ | _, Some false => Some false
  | Some true, Some true => Some true
  | _, _ => None
  end.
Definition or3 (a b : option bool) : option bool :=
  match a, b with
  | Some true, _ | _, Some true => Some true
  | Some false, Some false => Some false
  | _, _ => None
  end.
Definition text_test (v : value) (p : string -> bool) : option bool :=
  match v with VText s => Some (p s) | _ => None end.
Definition int_test (v : value) (p : Z -> bool) : option bool :=
  match v with VInt n => Some (p n) | _ => None end.
Definition is_id (v : value) (u : option uuid) : option bool :=
  match v, u with VUuid x, Some y => Some (bool_decide (x = y)) | _, _ => None end.
Definition eq3 (v w : value) : option bool :=
  match v, w with VNull, _ | _, VNull => None | _, _ => Some (bool_decide (v = w)) end.

(** [sub t]: the rows of [t] a subquery sees. *)
Fixpoint eval (sub : string -> list Row) (ak : Asker) (c : cond) (r : Row) : option bool :=
  match c with
  | CTrue => Some true
  | CIn x l => text_test (cell r x) (fun s => bool_decide (s ∈ l))
  | CIs x v => text_test (cell r x) (fun s => bool_decide (s = v))
  | CAtLeast x n => int_test (cell r x) (fun z => (n <=? z)%Z)
  | CAbove x n => int_test (cell r x) (fun z => (n <? z)%Z)
  | CBetween x lo hi => int_test (cell r x) (fun z => (lo <=? z)%Z && (z <=? hi)%Z)
  | CNull x => Some (bool_decide (cell r x = VNull))
  | CNotNull x => Some (negb (bool_decide (cell r x = VNull)))
  | CAnd c d => and3 (eval sub ak c r) (eval sub ak d r)
  | COr c d => or3 (eval sub ak c r) (eval sub ak d r)
  | CTenant x => is_id (cell r x) (ak_tenant ak)
  | CUser x => is_id (cell r x) (ak_user ak)
  | CExists t inner outer c =>
      Some (existsb (fun x => bool_decide (eq3 (cell x inner) (cell r outer) = Some true)
                              && bool_decide (eval sub ak c x = Some true)) (sub t))
  end.
Definition holds sub ak c r : bool := bool_decide (eval sub ak c r = Some true).

(** Policies are permissive: one that applies suffices; none, nothing. *)
Definition applies (ak : Asker) (cmd : privilege) (p : Policy) : bool :=
  bool_decide (pl_role p = ak_role ak)
  && match pl_cmd p with None => true | Some c => bool_decide (c = cmd) end.
Definition using_ok sub ak cmd (T : TableDef) (r : Row) : bool :=
  negb (tb_rls T)
  || existsb (fun p => applies ak cmd p && match pl_using p with Some c => holds sub ak c r | None => false end)
       (values (tb_policies T)).
(** Without WITH CHECK, USING counts. *)
Definition check_ok sub ak cmd (T : TableDef) (r : Row) : bool :=
  negb (tb_rls T)
  || existsb (fun p => applies ak cmd p
                && match pl_check p with
                   | Some c => holds sub ak c r
                   | None => match pl_using p with Some c => holds sub ak c r | None => false end
                   end) (values (tb_policies T)).

Inductive access : Set := Reads (r : Row) | Inserts (r : Row) | Updates (old new : Row) | Deletes (r : Row).

Definition granted_to (T : TableDef) (ak : Asker) (p : privilege) : bool :=
  bool_decide ((ak_role ak, p) ∈ tb_grants T).

Definition may sub ak (T : TableDef) (a : access) : bool :=
  match a with
  | Reads r => granted_to T ak Select && using_ok sub ak Select T r
  | Inserts r => granted_to T ak Insert && check_ok sub ak Insert T r
  | Updates old new => granted_to T ak Update && using_ok sub ak Update T old && check_ok sub ak Update T new
  | Deletes r => granted_to T ak Delete && using_ok sub ak Delete T r
  end.

(** Row level security holds within the subqueries of a policy too; the tables
    they name have policies without subqueries. *)
Definition visible (s : Schema) (ak : Asker) (db : string -> list Row) (t : string) : list Row :=
  match sc_tables s !! t with
  | Some T => List.filter (fun r => may (fun _ => []) ak T (Reads r)) (db t)
  | None => []
  end.
Definition allowed (s : Schema) (ak : Asker) (db : string -> list Row) (t : string) (a : access) : bool :=
  match sc_tables s !! t with Some T => may (visible s ak db) ak T a | None => false end.

(** ** Rows a schema accepts *)

(** A value fits its column; times, booleans, documents and bytes are not told
    apart. *)
Definition column_fits (c : Column) (v : value) : bool :=
  match v with
  | VNull => co_nullable c
  | VUuid _ => match co_type c with TUuid => true | _ => false end
  | VText s => match co_type c with
               | TText => true
               | TString n => (N.of_nat (String.length s) <=? n)%N
               | _ => false
               end
  | VInt z => match co_type c with
              | TSmallInteger => int16 z | TInteger => int32 z | TBigInteger => int64 z
              | _ => false
              end
  | VDate _ => match co_type c with TDate => true | _ => false end
  | VOther => match co_type c with
              | TBoolean | TTimestamptz | TJsonb | TInet | TBytea => true
              | _ => false
              end
  end.

Definition key_value (k : ixkey) (r : Row) : value :=
  match k with
  | KCol c | KDesc c => cell r c
  | KLower c => match cell r c with VText s => VText (str_lower s) | v => v end
  end.

(** What a CHECK and a partial index may look at is the row alone. *)
Definition truth (c : cond) (r : Row) : option bool := eval (fun _ => []) (mkAsker "" None None) c r.

(** The entry of a row in an index; two rows may not have the same in a unique
    one. *)
Definition index_key (ix : Index) (r : Row) : option (list value) :=
  let key := (fun k => key_value k r) <$> ix_keys ix in
  if match ix_where ix with None => true | Some c => bool_decide (truth c r = Some true) end
     && (ix_nulls_not_distinct ix || forallb (fun v => negb (bool_decide (v = VNull))) key)
  then Some key else None.
Definition unique_rows (key : Row -> option (list value)) (l : list Row) : bool :=
  bool_decide (NoDup (omap key l)).

Definition refers (target : list Row) (refcol : string) (v : value) : bool :=
  bool_decide (v = VNull) || existsb (fun x => bool_decide (cell x refcol = v)) target.

Definition constraint_ok (db : string -> list Row) (c : constraint) (l : list Row) : bool :=
  match c with
  | PrimaryKey cols => unique_rows (fun r => Some (cell r <$> cols)) l
  | ForeignKey col t refcol _ => forallb (fun r => refers (db t) refcol (cell r col)) l
  | Checked c => forallb (fun r => negb (bool_decide (truth c r = Some false))) l
  end.

Definition table_accepts (db : string -> list Row) (cols : list Column) (cs : list constraint)
    (uniques : list Index) (l : list Row) : bool :=
  forallb (fun r => forallb (fun c => column_fits c (cell r (co_name c))) cols) l
  && forallb (fun c => constraint_ok db c l) cs
  && forallb (fun ix => unique_rows (index_key ix) l) uniques.

Definition accepts (s : Schema) (db : string -> list Row) : bool :=
  forallb (fun x => table_accepts db (tb_columns x.2) (values (tb_constraints x.2))
                      (List.filter ix_unique (values (tb_indexes x.2))) (db x.1))
          (map_to_list (sc_tables s)).

(** ** The frame rule *)

(** The schema with further tables. *)
Definition beside (s : Schema) (extra : gmap string TableDef) : Schema :=
  mkSchema (sc_tables s ∪ extra) (sc_functions s) (sc_roles s).

(** A table the statement has nothing to do with, by its names, the tables and
    the functions it depends on. *)
Definition indep_with (names tables functions : list string) (st : statement) : bool :=
  match st with
  | CreateTable t' _ constraints => bool_decide (Forall (fun n => n ∉ names) (t' :: pk_names constraints))
  | CreateIndex _ n _ => bool_decide (Forall (fun n => n ∉ names) [n])
  | DropTable t' => negb (bool_decide (t' ∈ tables))
  | DropFunctionIfExists f => negb (bool_decide (f ∈ functions))
  | _ => true
  end.
Definition indep (st : statement) (t : string) (T : TableDef) : bool :=
  indep_with (relation_names t T) (depends_tables T) (depends_functions T) st.

Section Frame.
Context (extra : gmap string TableDef).

Lemma names_free_beside names m :
  m ##ₘ extra -> names_free names m = true ->
  map_Forall (fun t T => Forall (fun n => n ∉ relation_names t T) names) extra ->
  names_free names (m ∪ extra) = true.
Proof.
  unfold names_free. intros Hd H He. apply bool_decide_eq_true in H. apply bool_decide_eq_true.
  apply map_Forall_union; auto.
Qed.

Lemma has_columns_beside m x : has_columns m x = true -> has_columns (m ∪ extra) x = true.
Proof.
  unfold has_columns. destruct (m !! x.1) as [T|] eqn:E; [|done].
  by rewrite (lookup_union_Some_l m extra x.1 T E).
Qed.
Lemma all_columns_beside m l :
  forallb (has_columns m) l = true -> forallb (has_columns (m ∪ extra)) l = true.
Proof. rewrite !forallb_forall. intros H x Hx. by apply has_columns_beside, H. Qed.

Lemma req_Ok {A} b (r : res exn A) x : req b r = Ok x <-> b = true /\ r = Ok x.
Proof. destruct b; simpl; [tauto|]. split; [done|by intros []]. Qed.

Lemma alter_beside st s T T' :
  sc_tables s ##ₘ extra -> map_Forall (fun t T => indep st t T = true) extra ->
  alter st s T = Ok T' -> alter st (beside s extra) T = Ok T'.
Proof.
  intros Hd Hi. destruct st; simpl; try done.
  - rewrite !req_Ok, !andb_true_iff. intros [[Hf Hc] HT]. repeat split; [|done..].
    apply names_free_beside; [done..|]. intros t' T0 H. specialize (Hi t' T0 H). by apply bool_decide_eq_true in Hi.
  - rewrite !req_Ok, !andb_true_iff. intros [[[[[H1 H2] H3] H4] H5] HT]. repeat split; try done.
    by apply all_columns_beside.
Qed.

Lemma on_table_beside st t s s' :
  sc_tables s ##ₘ extra -> map_Forall (fun t T => indep st t T = true) extra ->
  on_table t (alter st s) s = Ok s' ->
  on_table t (alter st (beside s extra)) (beside s extra) = Ok (beside s' extra) /\ sc_tables s' ##ₘ extra.
Proof.
  intros Hd Hi. unfold on_table. destruct (sc_tables s !! t) as [T|] eqn:E; [|done].
  assert (sc_tables (beside s extra) !! t = Some T) as -> by (simpl; by apply lookup_union_Some_l).
  destruct (alter st s T) as [T'|] eqn:Ea; [|done]. simpl. intros [= <-].
  rewrite (alter_beside st s T T' Hd Hi Ea). simpl. split.
  - unfold beside. simpl. by rewrite insert_union_l.
  - simpl. apply map_disjoint_insert_l_2; [|done]. by eapply map_disjoint_Some_l.
Qed.

(** What a statement does beside tables it has nothing to do with. *)
Lemma exec_frame st s s' :
  sc_tables s ##ₘ extra -> map_Forall (fun t T => indep st t T = true) extra -> exec st s = Ok s' ->
  exec st (beside s extra) = Ok (beside s' extra) /\ sc_tables s' ##ₘ extra.
Proof.
  intros Hd Hi. destruct st; try (by apply on_table_beside); cbn [exec].
  - rewrite !req_Ok, !andb_true_iff. intros [[[[[Hf H2] H3] H4] H5] [= <-]].
    assert (Hn : map_Forall (fun t' T => Forall (fun n => n ∉ relation_names t' T) (t :: pk_names constraints)) extra)
      by (intros t' T0 H; specialize (Hi t' T0 H); by apply bool_decide_eq_true in Hi).
    split.
    + split; [repeat split; try done|].
      * by apply names_free_beside.
      * by apply all_columns_beside.
      * unfold beside. simpl. by rewrite insert_union_l.
    + simpl. apply map_disjoint_insert_l_2; [|done]. apply eq_None_not_Some. intros [T HT].
      specialize (Hn t T HT). apply Forall_cons in Hn as [Hn _]. apply Hn. unfold relation_names. by left.
  - rewrite !req_Ok, !andb_true_iff. intros [[H1 H2] [= <-]]. apply bool_decide_eq_true in H1, H2. split.
    + split; [split|].
      * apply bool_decide_eq_true. destruct H1 as [T HT]. exists T. simpl. by apply lookup_union_Some_l.
      * apply bool_decide_eq_true. simpl. apply map_Forall_union; [done|]. split; [done|].
        intros t' T HT _. specialize (Hi t' T HT). simpl in Hi. by apply negb_true_iff, bool_decide_eq_false in Hi.
      * unfold beside. simpl. rewrite delete_union, (delete_id extra); [done|].
        destruct H1 as [T HT]. by eapply map_disjoint_Some_l.
    + simpl. by apply map_disjoint_delete_l.
  - rewrite !req_Ok. intros [H [= <-]]. simpl. by rewrite H.
  - rewrite !req_Ok. intros [H [= <-]]. apply bool_decide_eq_true in H. split; [|done]. split; [|done].
    apply bool_decide_eq_true. simpl. apply map_Forall_union; [done|]. split; [done|].
    intros t' T HT. specialize (Hi t' T HT). simpl in Hi. by apply negb_true_iff, bool_decide_eq_false in Hi.
  - simpl. destruct (forallb _ _); [|done]. by intros [= <-].
Qed.

Lemma exec_all_frame l s s' :
  sc_tables s ##ₘ extra -> map_Forall (fun t T => forallb (fun st => indep st t T) l = true) extra ->
  exec_all l s = Ok s' -> exec_all l (beside s extra) = Ok (beside s' extra) /\ sc_tables s' ##ₘ extra.
Proof.
  revert s. induction l as [|st l IH]; intros s Hd Hi; simpl; [by intros [= <-]|].
  destruct (exec st s) as [s1|] eqn:E; [|done]. simpl. intros Hl.
  destruct (exec_frame st s s1 Hd) as [-> Hd1]; [|done|].
  - intros t T H. specialize (Hi t T H). by apply andb_prop in Hi as [? _].
  - simpl. apply IH; [done| |done]. intros t T H. specialize (Hi t T H). by apply andb_prop in Hi as [_ ?].
Qed.
End Frame.
