(* ===== verification/Migrations.v ===== *)
(** The migrations: every revision of src/shared/migrations,
    src/core/*/migrations and src/modules/*/*/migrations, statement by statement.
    Statements on rows are told apart from those on the schema; what they do to
    rows is at the end. *)

From stdpp Require Import base strings gmap list sorting.
From Stdlib Require Import ZArith Lia Ascii.
From S2P Require Import Prelude Errors PyLib Calendar Entities Models Events Ddl.

Record Revision : Type := mkRevision {
  rv_id : string; rv_down_revision : option string; rv_depends_on : list string;
  rv_upgrade : res exn (list statement); rv_downgrade : res exn (list statement) }.

(** Columns that are not nullable, nullable; indexes and unique indexes, also on
    some rows only. *)
Definition col (n : string) (t : sqltype) : Column := mkCol n t false None.
Definition colnull (n : string) (t : sqltype) : Column := mkCol n t true None.
Definition ix (cols : list string) : Index := mkIndex (KCol <$> cols) false None false None.
Definition uq (cols : list string) : Index := mkIndex (KCol <$> cols) true None false None.
Definition ix_only (cols : list string) (c : cond) : Index := mkIndex (KCol <$> cols) false (Some c) false None.
Definition uq_where (cols : list string) (c : cond) : Index := mkIndex (KCol <$> cols) true (Some c) false None.

(** [_timestamps] *)
Definition timestamps : list Column :=
  [mkCol "created_at" TTimestamptz false (Some DNow); mkCol "updated_at" TTimestamptz false (Some DNow)].

(** ** src/shared/migrations/20260706_shared0001_processed_events.py *)

Definition shared0001_upgrade : list statement :=
  [CreateTable "processed_events"
      [col "handler" TText;
       col "event_id" TUuid;
       mkCol "processed_at" TTimestamptz false (Some DNow)]
      [("pk_processed_events", PrimaryKey ["handler"; "event_id"])];
   CreateIndex "processed_events" "ix_processed_events_processed_at" (ix ["processed_at"])].
Definition shared0001_downgrade : list statement :=
  [DropIndex "processed_events" "ix_processed_events_processed_at";
   DropTable "processed_events"].
Definition shared0001 : Revision :=
  mkRevision "shared0001" None []
    (Ok shared0001_upgrade) (Ok shared0001_downgrade).

(** ** src/shared/migrations/20260706_shared0002_rls_context.py *)

Definition shared0002_upgrade : list statement :=
  [RequireRoles ALL_ROLES;
   CreateFunction TENANT_FN;
   CreateFunction USER_FN;
   Grant [Select; Insert] "processed_events" [ROLE_USER];
   Grant [Select; Insert; Delete] "processed_events" [ROLE_MAINTENANCE]].
Definition shared0002_downgrade : list statement :=
  [RevokeAll "processed_events" [ROLE_MAINTENANCE];
   RevokeAll "processed_events" [ROLE_USER];
   DropFunctionIfExists USER_FN;
   DropFunctionIfExists TENANT_FN].
Definition shared0002 : Revision :=
  mkRevision "shared0002" (Some "shared0001") []
    (Ok shared0002_upgrade) (Ok shared0002_downgrade).

(** ** src/core/auth/migrations/20260706_core_auth0001_auth_tables.py *)

Definition core_auth0001_upgrade : list statement :=
  [CreateTable "users"
      [col "id" TUuid;
       col "email" TText;
       colnull "email_verified_at" TTimestamptz;
       col "password_hash" TText;
       colnull "full_name" TText;
       colnull "phone" TText;
       mkCol "locale" TText false (Some (DText "ru"));
       mkCol "is_superuser" TBoolean false (Some DFalse);
       mkCol "status" TText false (Some (DText "active"));
       colnull "last_login_at" TTimestamptz;
       mkCol "created_at" TTimestamptz false (Some DNow);
       mkCol "updated_at" TTimestamptz false (Some DNow)]
      [("ck_users_status", Checked (CIn "status" ["active"; "blocked"]));
       ("pk_users", PrimaryKey ["id"])];
   CreateIndex "users" "uq_users_email_lower" (mkIndex [KLower "email"] true None false None);
   CreateTable "user_totp"
      [col "user_id" TUuid;
       col "secret_encrypted" TBytea;
       colnull "confirmed_at" TTimestamptz;
       mkCol "created_at" TTimestamptz false (Some DNow);
       mkCol "updated_at" TTimestamptz false (Some DNow)]
      [("fk_user_totp_user_id_users", ForeignKey "user_id" "users" "id" Cascade);
       ("pk_user_totp", PrimaryKey ["user_id"])];
   CreateTable "user_recovery_codes"
      [col "id" TUuid;
       col "user_id" TUuid;
       col "code_hash" TText;
       colnull "used_at" TTimestamptz;
       mkCol "created_at" TTimestamptz false (Some DNow);
       mkCol "updated_at" TTimestamptz false (Some DNow)]
      [("fk_user_recovery_codes_user_id_users", ForeignKey "user_id" "users" "id" Cascade);
       ("pk_user_recovery_codes", PrimaryKey ["id"])];
   CreateIndex "user_recovery_codes" "ix_user_recovery_codes_user_id" (ix ["user_id"]);
   CreateTable "refresh_tokens"
      [col "id" TUuid;
       col "user_id" TUuid;
       col "family_id" TUuid;
       col "token_hash" TText;
       col "expires_at" TTimestamptz;
       colnull "rotated_at" TTimestamptz;
       colnull "revoked_at" TTimestamptz;
       colnull "revoked_reason" TText;
       colnull "ip" TInet;
       colnull "user_agent" TText;
       mkCol "created_at" TTimestamptz false (Some DNow);
       mkCol "updated_at" TTimestamptz false (Some DNow)]
      [("fk_refresh_tokens_user_id_users", ForeignKey "user_id" "users" "id" Cascade);
       ("pk_refresh_tokens", PrimaryKey ["id"])];
   CreateIndex "refresh_tokens" "uq_refresh_tokens_token_hash" (uq ["token_hash"]);
   CreateIndex "refresh_tokens" "ix_refresh_tokens_user_id" (ix ["user_id"]);
   CreateIndex "refresh_tokens" "ix_refresh_tokens_family_id" (ix ["family_id"]);
   CreateIndex "refresh_tokens" "ix_refresh_tokens_expires_at" (ix ["expires_at"]);
   Grant CRUD "users" [ROLE_USER];
   Grant CRUD "user_totp" [ROLE_USER];
   Grant CRUD "user_recovery_codes" [ROLE_USER];
   Grant CRUD "refresh_tokens" [ROLE_USER]].
Definition core_auth0001_downgrade : list statement :=
  [RevokeAll "users" [ROLE_USER];
   RevokeAll "user_totp" [ROLE_USER];
   RevokeAll "user_recovery_codes" [ROLE_USER];
   RevokeAll "refresh_tokens" [ROLE_USER];
   DropTable "refresh_tokens";
   DropTable "user_recovery_codes";
   DropTable "user_totp";
   DropIndex "users" "uq_users_email_lower";
   DropTable "users"].
Definition core_auth0001 : Revision :=
  mkRevision "core_auth0001" None ["shared0002"]
    (Ok core_auth0001_upgrade) (Ok core_auth0001_downgrade).

(** ** src/core/tenants/migrations/20260706_core_tenants0001_tenant_tables.py *)

Definition core_tenants0001_create_tables : list statement :=
  [CreateTable "tenants"
      ([col "id" TUuid;
       col "name" TText;
       col "slug" TText;
       col "owner_user_id" TUuid;
       mkCol "status" TText false (Some (DText "active"));
       mkCol "default_locale" TText false (Some (DText "ru"))] ++ timestamps)
      [("ck_tenants_status", Checked (CIn "status" ["active"; "suspended"; "deleted"]));
       ("fk_tenants_owner_user_id_users", ForeignKey "owner_user_id" "users" "id" Restrict);
       ("pk_tenants", PrimaryKey ["id"])];
   CreateIndex "tenants" "uq_tenants_slug" (uq ["slug"]);
   CreateIndex "tenants" "ix_tenants_owner_user_id" (ix ["owner_user_id"]);
   CreateTable "roles"
      ([col "id" TUuid;
       colnull "tenant_id" TUuid;
       col "code" TText;
       col "name" TText;
       mkCol "is_system" TBoolean false (Some DFalse)] ++ timestamps)
      [("fk_roles_tenant_id_tenants", ForeignKey "tenant_id" "tenants" "id" Restrict);
       ("pk_roles", PrimaryKey ["id"])];
   CreateIndex "roles" "ix_roles_tenant_id" (ix ["tenant_id"]);
   CreateIndex "roles" "uq_roles_tenant_id_code" (mkIndex [KCol "tenant_id"; KCol "code"] true None true
       None);
   CreateTable "role_permissions"
      ([col "role_id" TUuid;
       col "permission_code" TText] ++ timestamps)
      [("fk_role_permissions_role_id_roles", ForeignKey "role_id" "roles" "id" Cascade);
       ("pk_role_permissions", PrimaryKey ["role_id"; "permission_code"])];
   CreateTable "memberships"
      ([col "id" TUuid;
       col "tenant_id" TUuid;
       col "user_id" TUuid;
       col "role_id" TUuid;
       mkCol "status" TText false (Some (DText "active"))] ++ timestamps)
      [("ck_memberships_status", Checked (CIn "status" ["active"; "suspended"]));
       ("fk_memberships_tenant_id_tenants", ForeignKey "tenant_id" "tenants" "id" Restrict);
       ("fk_memberships_user_id_users", ForeignKey "user_id" "users" "id" Cascade);
       ("fk_memberships_role_id_roles", ForeignKey "role_id" "roles" "id" Restrict);
       ("pk_memberships", PrimaryKey ["id"])];
   CreateIndex "memberships" "uq_memberships_tenant_id_user_id" (uq ["tenant_id"; "user_id"]);
   CreateIndex "memberships" "ix_memberships_user_id" (ix ["user_id"]);
   CreateIndex "memberships" "ix_memberships_role_id" (ix ["role_id"]);
   CreateTable "invitations"
      ([col "id" TUuid;
       col "tenant_id" TUuid;
       col "email" TText;
       col "role_id" TUuid;
       col "token_hash" TText;
       mkCol "status" TText false (Some (DText "pending"));
       colnull "invited_by_user_id" TUuid;
       colnull "accepted_by_user_id" TUuid;
       col "expires_at" TTimestamptz;
       colnull "accepted_at" TTimestamptz] ++ timestamps)
      [("ck_invitations_status", Checked (CIn "status" ["pending"; "accepted"; "revoked"; "expired"]));
       ("fk_invitations_tenant_id_tenants", ForeignKey "tenant_id" "tenants" "id" Restrict);
       ("fk_invitations_role_id_roles", ForeignKey "role_id" "roles" "id" Restrict);
       ("fk_invitations_invited_by_user_id_users", ForeignKey "invited_by_user_id" "users" "id" SetNull);
       ("fk_invitations_accepted_by_user_id_users", ForeignKey "accepted_by_user_id" "users" "id" SetNull);
       ("pk_invitations", PrimaryKey ["id"])];
   CreateIndex "invitations" "uq_invitations_token_hash" (uq ["token_hash"]);
   CreateIndex "invitations" "ix_invitations_tenant_id_status" (ix ["tenant_id"; "status"]);
   CreateIndex "invitations" "ix_invitations_role_id" (ix ["role_id"]);
   CreateIndex "invitations" "uq_invitations_pending_email" (mkIndex [KCol "tenant_id"; KLower "email"]
       true (Some (CIs "status" "pending")) false None)].
Definition core_tenants0001_apply_rls : list statement :=
  [EnableRls "tenants";
   CreatePolicy "tenants" "member_visible" (mkPolicy (Some Select) ROLE_USER (Some (COr (CTenant "id")
       (CExists "memberships" "tenant_id" "id" (CUser "user_id")))) None);
   CreatePolicy "tenants" "tenant_self_update" (mkPolicy (Some Update) ROLE_USER (Some (CTenant "id"))
       (Some (CTenant "id")));
   CreatePolicy "tenants" "maintenance_all" maintenance_all;
   Grant [Select; Update] "tenants" [ROLE_USER];
   Grant CRUD "tenants" [ROLE_MAINTENANCE];
   EnableRls "roles";
   CreatePolicy "roles" "hybrid_read" (mkPolicy (Some Select) ROLE_USER (Some (COr (CNull "tenant_id")
       (CTenant "tenant_id"))) None);
   CreatePolicy "roles" "hybrid_write" tenant_isolation;
   CreatePolicy "roles" "maintenance_all" maintenance_all;
   Grant CRUD "roles" [ROLE_USER];
   Grant CRUD "roles" [ROLE_MAINTENANCE];
   EnableRls "role_permissions";
   CreatePolicy "role_permissions" "via_role_read" (mkPolicy (Some Select) ROLE_USER (Some (CExists "roles"
       "id" "role_id" (COr (CNull "tenant_id") (CTenant "tenant_id")))) None);
   CreatePolicy "role_permissions" "via_role_insert" (mkPolicy (Some Insert) ROLE_USER None (Some (CExists
       "roles" "id" "role_id" (CTenant "tenant_id"))));
   CreatePolicy "role_permissions" "via_role_delete" (mkPolicy (Some Delete) ROLE_USER (Some (CExists
       "roles" "id" "role_id" (CTenant "tenant_id"))) None);
   CreatePolicy "role_permissions" "maintenance_all" maintenance_all;
   Grant [Select; Insert; Delete] "role_permissions" [ROLE_USER];
   Grant CRUD "role_permissions" [ROLE_MAINTENANCE];
   EnableRls "memberships";
   CreatePolicy "memberships" "tenant_or_own" (mkPolicy (Some Select) ROLE_USER (Some (COr (CTenant
       "tenant_id") (CUser "user_id"))) None);
   CreatePolicy "memberships" "tenant_write" tenant_isolation;
   CreatePolicy "memberships" "maintenance_all" maintenance_all;
   Grant [Select; Update; Delete] "memberships" [ROLE_USER];
   Grant CRUD "memberships" [ROLE_MAINTENANCE];
   EnableRls "invitations";
   CreatePolicy "invitations" "tenant_isolation" tenant_isolation;
   CreatePolicy "invitations" "maintenance_all" maintenance_all;
   Grant CRUD "invitations" [ROLE_USER];
   Grant CRUD "invitations" [ROLE_MAINTENANCE]].
Definition core_tenants0001_upgrade : res exn (list statement) :=
  script
    [Ok core_tenants0001_create_tables;
     Ok core_tenants0001_apply_rls].
Definition core_tenants0001_downgrade : list statement :=
  [DropPolicyIfExists "tenants" "member_visible";
   RevokeAll "invitations" [ROLE_USER];
   RevokeAll "invitations" [ROLE_MAINTENANCE];
   RevokeAll "memberships" [ROLE_USER];
   RevokeAll "memberships" [ROLE_MAINTENANCE];
   RevokeAll "role_permissions" [ROLE_USER];
   RevokeAll "role_permissions" [ROLE_MAINTENANCE];
   RevokeAll "roles" [ROLE_USER];
   RevokeAll "roles" [ROLE_MAINTENANCE];
   RevokeAll "tenants" [ROLE_USER];
   RevokeAll "tenants" [ROLE_MAINTENANCE];
   DropTable "invitations";
   DropTable "memberships";
   DropTable "role_permissions";
   DropTable "roles";
   DropTable "tenants"].
Definition core_tenants0001 : Revision :=
  mkRevision "core_tenants0001" None ["core_auth0001"; "shared0002"]
    core_tenants0001_upgrade (Ok core_tenants0001_downgrade).

(** ** src/core/billing/migrations/20260706_core_billing0001_billing_tables.py *)

(** [_financial_rls] *)
Definition financial_rls (table : string) : list statement :=
  [EnableRls table;
   CreatePolicy table "tenant_isolation" tenant_isolation;
   CreatePolicy table "maintenance_all" maintenance_all;
   Grant [Select; Insert; Update] table [ROLE_USER];
   Grant [Select; Insert; Update] table [ROLE_MAINTENANCE]].
Definition core_billing0001_create_tables : list statement :=
  [CreateTable "currencies"
      ([col "code" (TString 3);
       col "exponent" TSmallInteger;
       col "name" TText] ++ timestamps)
      [("ck_currencies_exponent_range", Checked (CBetween "exponent" 0 4));
       ("pk_currencies", PrimaryKey ["code"])];
   CreateTable "plans"
      ([col "id" TUuid;
       col "code" TText;
       col "name" TJsonb;
       colnull "description" TJsonb;
       col "price_amount" TBigInteger;
       mkCol "currency" (TString 3) false (Some (DText "UZS"));
       mkCol "period" TText false (Some (DText "month"));
       mkCol "trial_days" TSmallInteger false (Some (DText "0"));
       mkCol "is_active" TBoolean false (Some DTrue)] ++ timestamps)
      [("ck_plans_price_non_negative", Checked (CAtLeast "price_amount" 0));
       ("ck_plans_period", Checked (CIn "period" ["month"; "year"]));
       ("fk_plans_currency_currencies", ForeignKey "currency" "currencies" "code" Restrict);
       ("pk_plans", PrimaryKey ["id"])];
   CreateIndex "plans" "uq_plans_code" (uq ["code"]);
   CreateTable "subscriptions"
      ([col "id" TUuid;
       col "tenant_id" TUuid;
       col "plan_id" TUuid;
       col "status" TText;
       col "price_amount" TBigInteger;
       col "currency" (TString 3);
       col "current_period_start" TTimestamptz;
       col "current_period_end" TTimestamptz;
       mkCol "cancel_at_period_end" TBoolean false (Some DFalse);
       colnull "canceled_at" TTimestamptz] ++ timestamps)
      [("ck_subscriptions_status", Checked (CIn "status" ["pending"; "trialing"; "active"; "past_due";
          "canceled"; "expired"]));
       ("ck_subscriptions_price_non_negative", Checked (CAtLeast "price_amount" 0));
       ("fk_subscriptions_tenant_id_tenants", ForeignKey "tenant_id" "tenants" "id" Restrict);
       ("fk_subscriptions_plan_id_plans", ForeignKey "plan_id" "plans" "id" Restrict);
       ("fk_subscriptions_currency_currencies", ForeignKey "currency" "currencies" "code" Restrict);
       ("pk_subscriptions", PrimaryKey ["id"])];
   CreateIndex "subscriptions" "uq_subscriptions_one_live_per_tenant" (uq_where ["tenant_id"] (CIn "status"
       ["pending"; "trialing"; "active"; "past_due"]));
   CreateIndex "subscriptions" "ix_subscriptions_tenant_id_created_at" (ix ["tenant_id"; "created_at"]);
   CreateIndex "subscriptions" "ix_subscriptions_plan_id" (ix ["plan_id"]);
   CreateIndex "subscriptions" "ix_subscriptions_status_current_period_end" (ix ["status";
       "current_period_end"]);
   CreateTable "payments"
      ([col "id" TUuid;
       col "tenant_id" TUuid;
       colnull "subscription_id" TUuid;
       col "purpose" TText;
       col "reference" TText;
       col "amount" TBigInteger;
       mkCol "currency" (TString 3) false (Some (DText "UZS"));
       mkCol "status" TText false (Some (DText "created"));
       col "provider" TText;
       colnull "provider_transaction_id" TText;
       col "idempotency_key" TText;
       colnull "failure_code" TText;
       colnull "paid_at" TTimestamptz;
       mkCol "metadata" TJsonb false (Some DEmptyObject)] ++ timestamps)
      [("ck_payments_status", Checked (CIn "status" ["created"; "pending"; "succeeded"; "failed";
          "canceled"; "expired"]));
       ("ck_payments_amount_positive", Checked (CAbove "amount" 0));
       ("fk_payments_tenant_id_tenants", ForeignKey "tenant_id" "tenants" "id" Restrict);
       ("fk_payments_subscription_id_subscriptions", ForeignKey "subscription_id" "subscriptions" "id"
           Restrict);
       ("fk_payments_currency_currencies", ForeignKey "currency" "currencies" "code" Restrict);
       ("pk_payments", PrimaryKey ["id"])];
   CreateIndex "payments" "uq_payments_tenant_id_idempotency_key" (uq ["tenant_id"; "idempotency_key"]);
   CreateIndex "payments" "uq_payments_provider_provider_transaction_id" (uq_where ["provider";
       "provider_transaction_id"] (CNotNull "provider_transaction_id"));
   CreateIndex "payments" "ix_payments_tenant_id_created_at" (ix ["tenant_id"; "created_at"]);
   CreateIndex "payments" "ix_payments_subscription_id" (ix ["subscription_id"]);
   CreateIndex "payments" "ix_payments_tenant_id_purpose_reference" (ix ["tenant_id"; "purpose";
       "reference"]);
   CreateIndex "payments" "ix_payments_live" (ix_only ["created_at"] (CIn "status" ["created"; "pending"]));
   CreateTable "payment_webhooks"
      ([col "id" TUuid;
       col "provider" TText;
       col "dedup_key" TText;
       colnull "tenant_id" TUuid;
       colnull "payment_id" TUuid;
       col "raw_body" TText;
       mkCol "headers" TJsonb false (Some DEmptyObject);
       colnull "signature_valid" TBoolean;
       mkCol "status" TText false (Some (DText "received"));
       colnull "error" TText;
       mkCol "attempts" TSmallInteger false (Some (DText "0"));
       colnull "processed_at" TTimestamptz] ++ timestamps)
      [("ck_payment_webhooks_status", Checked (CIn "status" ["received"; "processed"; "rejected";
          "failed"]));
       ("fk_payment_webhooks_tenant_id_tenants", ForeignKey "tenant_id" "tenants" "id" Restrict);
       ("fk_payment_webhooks_payment_id_payments", ForeignKey "payment_id" "payments" "id" Restrict);
       ("pk_payment_webhooks", PrimaryKey ["id"])];
   CreateIndex "payment_webhooks" "uq_payment_webhooks_provider_dedup_key" (uq ["provider"; "dedup_key"]);
   CreateIndex "payment_webhooks" "ix_payment_webhooks_unprocessed" (ix_only ["created_at"] (CIn "status"
       ["received"; "failed"]));
   CreateIndex "payment_webhooks" "ix_payment_webhooks_payment_id" (ix ["payment_id"]);
   CreateIndex "payment_webhooks" "ix_payment_webhooks_tenant_id" (ix ["tenant_id"])].
Definition core_billing0001_apply_rls : list statement :=
  [Grant [Select] "currencies" [ROLE_USER; ROLE_MAINTENANCE];
   Grant [Select] "plans" [ROLE_USER; ROLE_MAINTENANCE]] ++
  financial_rls "subscriptions" ++
  financial_rls "payments" ++
  [EnableRls "payment_webhooks";
   CreatePolicy "payment_webhooks" "tenant_read" (mkPolicy (Some Select) ROLE_USER (Some (CTenant
       "tenant_id")) None);
   CreatePolicy "payment_webhooks" "maintenance_all" maintenance_all;
   Grant [Select] "payment_webhooks" [ROLE_USER];
   Grant [Select; Insert; Update] "payment_webhooks" [ROLE_MAINTENANCE]].
Definition core_billing0001_seed : list statement :=
  [Rows "currencies";
   Rows "plans"].
Definition core_billing0001_upgrade : res exn (list statement) :=
  script
    [Ok core_billing0001_create_tables;
     Ok core_billing0001_apply_rls;
     Ok core_billing0001_seed].
Definition core_billing0001_downgrade : list statement :=
  [RevokeAll "payment_webhooks" [ROLE_USER];
   RevokeAll "payment_webhooks" [ROLE_MAINTENANCE];
   RevokeAll "payments" [ROLE_USER];
   RevokeAll "payments" [ROLE_MAINTENANCE];
   RevokeAll "subscriptions" [ROLE_USER];
   RevokeAll "subscriptions" [ROLE_MAINTENANCE];
   RevokeAll "plans" [ROLE_USER];
   RevokeAll "plans" [ROLE_MAINTENANCE];
   RevokeAll "currencies" [ROLE_USER];
   RevokeAll "currencies" [ROLE_MAINTENANCE];
   DropTable "payment_webhooks";
   DropTable "payments";
   DropTable "subscriptions";
   DropTable "plans";
   DropTable "currencies"].
Definition core_billing0001 : Revision :=
  mkRevision "core_billing0001" None ["core_tenants0001"; "shared0002"]
    core_billing0001_upgrade (Ok core_billing0001_downgrade).

(** ** src/core/billing/migrations/20261015_core_billing0002_pending_subscription.py *)

Definition core_billing0002_upgrade : list statement :=
  [DropIndex "subscriptions" "uq_subscriptions_one_live_per_tenant";
   CreateIndex "subscriptions" "uq_subscriptions_one_live_per_tenant" (uq_where ["tenant_id"] (CIn "status"
       ["trialing"; "active"; "past_due"]));
   CreateIndex "subscriptions" "uq_subscriptions_one_pending_per_tenant" (uq_where ["tenant_id"] (CIs
       "status" "pending"))].
Definition core_billing0002_downgrade : list statement :=
  [DropIndex "subscriptions" "uq_subscriptions_one_pending_per_tenant";
   DropIndex "subscriptions" "uq_subscriptions_one_live_per_tenant";
   CreateIndex "subscriptions" "uq_subscriptions_one_live_per_tenant" (uq_where ["tenant_id"] (CIn "status"
       ["pending"; "trialing"; "active"; "past_due"]))].
Definition core_billing0002 : Revision :=
  mkRevision "core_billing0002" (Some "core_billing0001") []
    (Ok core_billing0002_upgrade) (Ok core_billing0002_downgrade).

(** ** src/core/audit/migrations/20260706_core_audit0001_audit_log.py *)

Definition core_audit0001_upgrade : list statement :=
  [CreateTable "audit_log"
      [col "id" TUuid;
       colnull "tenant_id" TUuid;
       colnull "user_id" TUuid;
       colnull "request_id" TText;
       colnull "event_id" TUuid;
       col "action" TText;
       colnull "object_type" TText;
       colnull "object_id" TText;
       colnull "ip" TInet;
       colnull "user_agent" TText;
       mkCol "payload" TJsonb false (Some DEmptyObject);
       mkCol "created_at" TTimestamptz false (Some DNow)]
      [("pk_audit_log", PrimaryKey ["id"])];
   CreateIndex "audit_log" "uq_audit_log_event_id" (uq_where ["event_id"] (CNotNull "event_id"));
   CreateIndex "audit_log" "ix_audit_log_tenant_id_created_at" (mkIndex [KCol "tenant_id"; KDesc
       "created_at"] false None false None);
   CreateIndex "audit_log" "ix_audit_log_tenant_object" (mkIndex [KCol "tenant_id"; KCol "object_type";
       KCol "object_id"; KDesc "created_at"] false None false None);
   CreateIndex "audit_log" "ix_audit_log_tenant_user" (mkIndex [KCol "tenant_id"; KCol "user_id"; KDesc
       "created_at"] false None false None);
   CreateIndex "audit_log" "ix_audit_log_created_at_brin" (mkIndex [KCol "created_at"] false None false
       (Some "brin"));
   EnableRls "audit_log";
   CreatePolicy "audit_log" "tenant_read" (mkPolicy (Some Select) ROLE_USER (Some (CTenant "tenant_id"))
       None);
   CreatePolicy "audit_log" "tenant_insert" (mkPolicy (Some Insert) ROLE_USER None (Some (CTenant
       "tenant_id")));
   CreatePolicy "audit_log" "maintenance_all" maintenance_all;
   Grant [Select; Insert] "audit_log" [ROLE_USER];
   Grant [Select; Insert] "audit_log" [ROLE_MAINTENANCE];
   Grant [Select; Delete] "audit_log" [ROLE_RETENTION]].
Definition core_audit0001_downgrade : list statement :=
  [RevokeAll "audit_log" [ROLE_RETENTION];
   RevokeAll "audit_log" [ROLE_MAINTENANCE];
   RevokeAll "audit_log" [ROLE_USER];
   DropTable "audit_log"].
Definition core_audit0001 : Revision :=
  mkRevision "core_audit0001" None ["shared0002"]
    (Ok core_audit0001_upgrade) (Ok core_audit0001_downgrade).

(** ** src/core/audit/migrations/20260707_core_audit0002_retention_policy.py *)

Definition core_audit0002_upgrade : list statement :=
  [CreatePolicy "audit_log" "retention_read" (mkPolicy (Some Select) ROLE_RETENTION (Some CTrue) None);
   CreatePolicy "audit_log" "retention_delete" (mkPolicy (Some Delete) ROLE_RETENTION (Some CTrue) None)].
Definition core_audit0002_downgrade : list statement :=
  [DropPolicyIfExists "audit_log" "retention_delete";
   DropPolicyIfExists "audit_log" "retention_read"].
Definition core_audit0002 : Revision :=
  mkRevision "core_audit0002" (Some "core_audit0001") []
    (Ok core_audit0002_upgrade) (Ok core_audit0002_downgrade).

(** ** src/core/notifications/migrations/20260707_core_notifications0001_notifications_tables.py *)

Definition core_notifications0001_create_tables : list statement :=
  [CreateTable "notification_settings"
      ([col "id" TUuid;
       col "tenant_id" TUuid;
       col "channel" TText;
       col "config_encrypted" TBytea;
       mkCol "is_enabled" TBoolean false (Some DTrue)] ++ timestamps)
      [("fk_notification_settings_tenant_id_tenants", ForeignKey "tenant_id" "tenants" "id" Restrict);
       ("pk_notification_settings", PrimaryKey ["id"])];
   CreateIndex "notification_settings" "uq_notification_settings_tenant_id_channel" (uq ["tenant_id";
       "channel"]);
   CreateTable "notification_outbox"
      ([col "id" TUuid;
       col "notification_id" TUuid;
       colnull "dedup_key" TText;
       colnull "tenant_id" TUuid;
       col "channel" TText;
       col "recipient" TText;
       col "template_key" TText;
       mkCol "locale" TText false (Some (DText "ru"));
       mkCol "params" TJsonb false (Some DEmptyObject);
       mkCol "status" TText false (Some (DText "pending"));
       mkCol "attempts" TSmallInteger false (Some (DText "0"));
       mkCol "next_retry_at" TTimestamptz false (Some DNow);
       colnull "last_error" TText;
       colnull "provider_message_id" TText;
       colnull "sent_at" TTimestamptz] ++ timestamps)
      [("ck_notification_outbox_status", Checked (CIn "status" ["pending"; "sending"; "sent"; "failed";
          "dead"]));
       ("fk_notification_outbox_tenant_id_tenants", ForeignKey "tenant_id" "tenants" "id" Restrict);
       ("pk_notification_outbox", PrimaryKey ["id"])];
   CreateIndex "notification_outbox" "uq_notification_outbox_tenant_id_dedup_key_channel" (mkIndex [KCol
       "tenant_id"; KCol "dedup_key"; KCol "channel"] true (Some (CNotNull "dedup_key")) true None);
   CreateIndex "notification_outbox" "ix_notification_outbox_due" (ix_only ["next_retry_at"] (CIn "status"
       ["pending"; "failed"; "sending"]));
   CreateIndex "notification_outbox" "ix_notification_outbox_notification_id" (ix ["notification_id"]);
   CreateIndex "notification_outbox" "ix_notification_outbox_tenant_id_created_at" (ix ["tenant_id";
       "created_at"])].
Definition core_notifications0001_apply_rls : res exn (list statement) :=
  script
    [enable_tenant_rls "notification_settings";
     Ok [EnableRls "notification_outbox";
       CreatePolicy "notification_outbox" "tenant_isolation" tenant_isolation;
       CreatePolicy "notification_outbox" "maintenance_all" maintenance_all;
       Grant [Select; Insert] "notification_outbox" [ROLE_USER];
       Grant CRUD "notification_outbox" [ROLE_MAINTENANCE]]].
Definition core_notifications0001_upgrade : res exn (list statement) :=
  script
    [Ok core_notifications0001_create_tables;
     core_notifications0001_apply_rls].
Definition core_notifications0001_downgrade : res exn (list statement) :=
  script
    [Ok [RevokeAll "notification_outbox" [ROLE_USER];
       RevokeAll "notification_outbox" [ROLE_MAINTENANCE];
       DropTable "notification_outbox"];
     disable_tenant_rls "notification_settings";
     Ok [DropTable "notification_settings"]].
Definition core_notifications0001 : Revision :=
  mkRevision "core_notifications0001" None ["core_tenants0001"; "shared0002"]
    core_notifications0001_upgrade core_notifications0001_downgrade.

(** ** src/core/files/migrations/20260708_core_files0001_files.py *)

Definition core_files0001_upgrade : res exn (list statement) :=
  script
    [Ok [CreateTable "files"
      [col "id" TUuid;
       col "tenant_id" TUuid;
       col "storage_key" TText;
       col "content_type" TText;
       col "byte_size" TBigInteger;
       col "checksum_sha256" TText;
       colnull "original_filename" TText;
       mkCol "created_at" TTimestamptz false (Some DNow);
       mkCol "updated_at" TTimestamptz false (Some DNow)]
      [("fk_files_tenant_id_tenants", ForeignKey "tenant_id" "tenants" "id" Restrict);
       ("ck_files_byte_size_non_negative", Checked (CAtLeast "byte_size" 0));
       ("pk_files", PrimaryKey ["id"])];
       CreateIndex "files" "ix_files_tenant_id" (ix ["tenant_id"]);
       CreateIndex "files" "uq_files_tenant_id_storage_key" (uq ["tenant_id"; "storage_key"])];
     enable_tenant_rls "files"].
Definition core_files0001_downgrade : res exn (list statement) :=
  script
    [disable_tenant_rls "files";
     Ok [DropIndex "files" "uq_files_tenant_id_storage_key";
       DropIndex "files" "ix_files_tenant_id";
       DropTable "files"]].
Definition core_files0001 : Revision :=
  mkRevision "core_files0001" None ["core_tenants0001"; "shared0002"]
    core_files0001_upgrade core_files0001_downgrade.

(** ** src/modules/commerce/cart/migrations/20260707_commerce_cart0001_cart.py *)

Definition commerce_cart0001_upgrade : res exn (list statement) :=
  script
    [Ok [CreateTable "commerce_carts"
      [col "id" TUuid;
       col "tenant_id" TUuid;
       col "customer_user_id" TUuid;
       mkCol "status" TText false (Some (DText "active"));
       mkCol "created_at" TTimestamptz false (Some DNow);
       mkCol "updated_at" TTimestamptz false (Some DNow)]
      [("fk_commerce_carts_tenant_id_tenants", ForeignKey "tenant_id" "tenants" "id" Restrict);
       ("ck_commerce_carts_status", Checked (CIn "status" ["active"; "checked_out"]));
       ("pk_commerce_carts", PrimaryKey ["id"])];
       CreateIndex "commerce_carts" "ix_commerce_carts_tenant_id_customer_user_id" (ix ["tenant_id";
           "customer_user_id"]);
       CreateTable "commerce_cart_items"
      [col "id" TUuid;
       col "tenant_id" TUuid;
       col "cart_id" TUuid;
       col "product_id" TUuid;
       col "quantity" TSmallInteger;
       col "unit_price_amount" TBigInteger;
       mkCol "currency" TText false (Some (DText "UZS"));
       mkCol "created_at" TTimestamptz false (Some DNow);
       mkCol "updated_at" TTimestamptz false (Some DNow)]
      [("fk_commerce_cart_items_tenant_id_tenants", ForeignKey "tenant_id" "tenants" "id" Restrict);
       ("fk_commerce_cart_items_cart_id_commerce_carts", ForeignKey "cart_id" "commerce_carts" "id"
           Cascade);
       ("ck_commerce_cart_items_quantity", Checked (CAtLeast "quantity" 1));
       ("ck_commerce_cart_items_price_non_negative", Checked (CAtLeast "unit_price_amount" 0));
       ("pk_commerce_cart_items", PrimaryKey ["id"])];
       CreateIndex "commerce_cart_items" "uq_commerce_cart_items_cart_id_product_id" (uq ["cart_id";
           "product_id"])];
     enable_tenant_rls "commerce_carts";
     enable_tenant_rls "commerce_cart_items"].
Definition commerce_cart0001_downgrade : res exn (list statement) :=
  script
    [disable_tenant_rls "commerce_cart_items";
     disable_tenant_rls "commerce_carts";
     Ok [DropIndex "commerce_cart_items" "uq_commerce_cart_items_cart_id_product_id";
       DropTable "commerce_cart_items";
       DropIndex "commerce_carts" "ix_commerce_carts_tenant_id_customer_user_id";
       DropTable "commerce_carts"]].
Definition commerce_cart0001 : Revision :=
  mkRevision "commerce_cart0001" None ["core_tenants0001"; "shared0002"]
    commerce_cart0001_upgrade commerce_cart0001_downgrade.

(** ** src/modules/commerce/cart/migrations/20261015_commerce_cart0002_one_active_cart.py *)

Definition commerce_cart0002_upgrade : list statement :=
  [DropConstraint "commerce_carts" "ck_commerce_carts_status";
   CreateCheck "commerce_carts" "ck_commerce_carts_status" (CIn "status" ["active"; "checked_out";
       "abandoned"]);
   Rows "commerce_carts";
   CreateIndex "commerce_carts" "uq_commerce_carts_one_active_per_customer" (uq_where ["tenant_id";
       "customer_user_id"] (CIs "status" "active"))].
Definition commerce_cart0002_downgrade : list statement :=
  [DropIndex "commerce_carts" "uq_commerce_carts_one_active_per_customer";
   Rows "commerce_carts";
   DropConstraint "commerce_carts" "ck_commerce_carts_status";
   CreateCheck "commerce_carts" "ck_commerce_carts_status" (CIn "status" ["active"; "checked_out"])].
Definition commerce_cart0002 : Revision :=
  mkRevision "commerce_cart0002" (Some "commerce_cart0001") []
    (Ok commerce_cart0002_upgrade) (Ok commerce_cart0002_downgrade).

(** ** src/modules/commerce/orders/migrations/20260707_commerce_orders0001_orders.py *)

Definition commerce_orders0001_upgrade : res exn (list statement) :=
  script
    [Ok [CreateTable "commerce_orders"
      [col "id" TUuid;
       col "tenant_id" TUuid;
       col "customer_user_id" TUuid;
       mkCol "status" TText false (Some (DText "pending"));
       col "total_amount" TBigInteger;
       mkCol "currency" TText false (Some (DText "UZS"));
       colnull "payment_id" TUuid;
       mkCol "created_at" TTimestamptz false (Some DNow);
       mkCol "updated_at" TTimestamptz false (Some DNow)]
      [("fk_commerce_orders_tenant_id_tenants", ForeignKey "tenant_id" "tenants" "id" Restrict);
       ("ck_commerce_orders_status", Checked (CIn "status" ["pending"; "paid"; "canceled"]));
       ("ck_commerce_orders_total_non_negative", Checked (CAtLeast "total_amount" 0));
       ("pk_commerce_orders", PrimaryKey ["id"])];
       CreateIndex "commerce_orders" "ix_commerce_orders_tenant_id_customer_user_id" (ix ["tenant_id";
           "customer_user_id"]);
       CreateIndex "commerce_orders" "ix_commerce_orders_tenant_id_status" (ix ["tenant_id"; "status"]);
       CreateTable "commerce_order_items"
      [col "id" TUuid;
       col "tenant_id" TUuid;
       col "order_id" TUuid;
       col "product_id" TUuid;
       col "quantity" TSmallInteger;
       col "unit_price_amount" TBigInteger;
       mkCol "currency" TText false (Some (DText "UZS"));
       mkCol "created_at" TTimestamptz false (Some DNow);
       mkCol "updated_at" TTimestamptz false (Some DNow)]
      [("fk_commerce_order_items_tenant_id_tenants", ForeignKey "tenant_id" "tenants" "id" Restrict);
       ("fk_commerce_order_items_order_id_commerce_orders", ForeignKey "order_id" "commerce_orders" "id"
           Cascade);
       ("ck_commerce_order_items_quantity", Checked (CAtLeast "quantity" 1));
       ("ck_commerce_order_items_price_non_negative", Checked (CAtLeast "unit_price_amount" 0));
       ("pk_commerce_order_items", PrimaryKey ["id"])];
       CreateIndex "commerce_order_items" "ix_commerce_order_items_order_id" (ix ["order_id"])];
     enable_tenant_rls "commerce_orders";
     enable_tenant_rls "commerce_order_items"].
Definition commerce_orders0001_downgrade : res exn (list statement) :=
  script
    [disable_tenant_rls "commerce_order_items";
     disable_tenant_rls "commerce_orders";
     Ok [DropIndex "commerce_order_items" "ix_commerce_order_items_order_id";
       DropTable "commerce_order_items";
       DropIndex "commerce_orders" "ix_commerce_orders_tenant_id_status";
       DropIndex "commerce_orders" "ix_commerce_orders_tenant_id_customer_user_id";
       DropTable "commerce_orders"]].
Definition commerce_orders0001 : Revision :=
  mkRevision "commerce_orders0001" None ["core_tenants0001"; "shared0002"]
    commerce_orders0001_upgrade commerce_orders0001_downgrade.

(** **
    src/modules/commerce/product_images/migrations/20260708_commerce_product_images0001_product_images.py *)

Definition commerce_product_images0001_upgrade : res exn (list statement) :=
  script
    [Ok [CreateTable "commerce_product_images"
      [col "id" TUuid;
       col "tenant_id" TUuid;
       col "product_id" TUuid;
       col "file_id" TUuid;
       mkCol "position" TInteger false (Some (DText "0"));
       colnull "alt_text" TText;
       mkCol "created_at" TTimestamptz false (Some DNow);
       mkCol "updated_at" TTimestamptz false (Some DNow)]
      [("fk_commerce_product_images_tenant_id_tenants", ForeignKey "tenant_id" "tenants" "id" Restrict);
       ("pk_commerce_product_images", PrimaryKey ["id"])];
       CreateIndex "commerce_product_images" "ix_commerce_product_images_tenant_id_product_id" (ix
           ["tenant_id"; "product_id"])];
     enable_tenant_rls "commerce_product_images"].
Definition commerce_product_images0001_downgrade : res exn (list statement) :=
  script
    [disable_tenant_rls "commerce_product_images";
     Ok [DropIndex "commerce_product_images" "ix_commerce_product_images_tenant_id_product_id";
       DropTable "commerce_product_images"]].
Definition commerce_product_images0001 : Revision :=
  mkRevision "commerce_product_images0001" None ["core_tenants0001"; "shared0002"]
    commerce_product_images0001_upgrade commerce_product_images0001_downgrade.

(** **
    src/modules/commerce/product_images/migrations/20260708_commerce_product_images0002_thumbnail_file_id.py *)

Definition commerce_product_images0002_upgrade : list statement :=
  [AddColumn "commerce_product_images" (colnull "thumbnail_file_id" TUuid)].
Definition commerce_product_images0002_downgrade : list statement :=
  [DropColumn "commerce_product_images" "thumbnail_file_id"].
Definition commerce_product_images0002 : Revision :=
  mkRevision "commerce_product_images0002" (Some "commerce_product_images0001") []
    (Ok commerce_product_images0002_upgrade) (Ok commerce_product_images0002_downgrade).

(** ** src/modules/commerce/products/migrations/20260707_commerce_products0001_products.py *)

Definition commerce_products0001_upgrade : res exn (list statement) :=
  script
    [Ok [CreateTable "commerce_products"
      [col "id" TUuid;
       col "tenant_id" TUuid;
       col "sku" TText;
       col "name" TText;
       colnull "description" TText;
       col "price_amount" TBigInteger;
       mkCol "currency" TText false (Some (DText "UZS"));
       mkCol "status" TText false (Some (DText "active"));
       mkCol "created_at" TTimestamptz false (Some DNow);
       mkCol "updated_at" TTimestamptz false (Some DNow)]
      [("fk_commerce_products_tenant_id_tenants", ForeignKey "tenant_id" "tenants" "id" Restrict);
       ("ck_commerce_products_status", Checked (CIn "status" ["active"; "archived"]));
       ("ck_commerce_products_price_non_negative", Checked (CAtLeast "price_amount" 0));
       ("pk_commerce_products", PrimaryKey ["id"])];
       CreateIndex "commerce_products" "uq_commerce_products_tenant_id_sku" (uq ["tenant_id"; "sku"]);
       CreateIndex "commerce_products" "ix_commerce_products_tenant_id_status" (ix ["tenant_id";
           "status"])];
     enable_tenant_rls "commerce_products"].
Definition commerce_products0001_downgrade : res exn (list statement) :=
  script
    [disable_tenant_rls "commerce_products";
     Ok [DropIndex "commerce_products" "ix_commerce_products_tenant_id_status";
       DropIndex "commerce_products" "uq_commerce_products_tenant_id_sku";
       DropTable "commerce_products"]].
Definition commerce_products0001 : Revision :=
  mkRevision "commerce_products0001" None ["core_tenants0001"; "shared0002"]
    commerce_products0001_upgrade commerce_products0001_downgrade.

(** ** src/modules/crm/activities/migrations/20261015_crm_activities0001_activities.py *)

Definition crm_activities0001_upgrade : res exn (list statement) :=
  script
    [Ok [CreateTable "crm_activities"
      [col "id" TUuid;
       col "tenant_id" TUuid;
       col "type" TText;
       col "subject" TText;
       colnull "notes" TText;
       colnull "due_at" TTimestamptz;
       colnull "done_at" TTimestamptz;
       col "assignee_user_id" TUuid;
       colnull "contact_id" TUuid;
       colnull "company_id" TUuid;
       colnull "deal_id" TUuid;
       mkCol "created_at" TTimestamptz false (Some DNow);
       mkCol "updated_at" TTimestamptz false (Some DNow)]
      [("fk_crm_activities_tenant_id_tenants", ForeignKey "tenant_id" "tenants" "id" Restrict);
       ("pk_crm_activities", PrimaryKey ["id"])];
       CreateIndex "crm_activities" "ix_crm_activities_tenant_id_assignee_user_id_done_at" (ix
           ["tenant_id"; "assignee_user_id"; "done_at"]);
       CreateIndex "crm_activities" "ix_crm_activities_tenant_id_due_at" (ix ["tenant_id"; "due_at"]);
       CreateIndex "crm_activities" "ix_crm_activities_tenant_id_deal_id" (ix ["tenant_id"; "deal_id"]);
       CreateIndex "crm_activities" "ix_crm_activities_tenant_id_contact_id" (ix ["tenant_id";
           "contact_id"])];
     enable_tenant_rls "crm_activities"].
Definition crm_activities0001_downgrade : res exn (list statement) :=
  script
    [disable_tenant_rls "crm_activities";
     Ok [DropIndex "crm_activities" "ix_crm_activities_tenant_id_contact_id";
       DropIndex "crm_activities" "ix_crm_activities_tenant_id_deal_id";
       DropIndex "crm_activities" "ix_crm_activities_tenant_id_due_at";
       DropIndex "crm_activities" "ix_crm_activities_tenant_id_assignee_user_id_done_at";
       DropTable "crm_activities"]].
Definition crm_activities0001 : Revision :=
  mkRevision "crm_activities0001" None ["core_tenants0001"; "shared0002"]
    crm_activities0001_upgrade crm_activities0001_downgrade.

(** ** src/modules/crm/contacts/migrations/20260713_crm_contacts0001_contacts.py *)

Definition crm_contacts0001_upgrade : res exn (list statement) :=
  script
    [Ok [CreateTable "crm_companies"
      [col "id" TUuid;
       col "tenant_id" TUuid;
       col "name" TText;
       colnull "website" TText;
       colnull "industry" TText;
       colnull "notes" TText;
       mkCol "created_at" TTimestamptz false (Some DNow);
       mkCol "updated_at" TTimestamptz false (Some DNow)]
      [("fk_crm_companies_tenant_id_tenants", ForeignKey "tenant_id" "tenants" "id" Restrict);
       ("pk_crm_companies", PrimaryKey ["id"])];
       CreateIndex "crm_companies" "ix_crm_companies_tenant_id_name" (ix ["tenant_id"; "name"])];
     enable_tenant_rls "crm_companies";
     Ok [CreateTable "crm_contacts"
      [col "id" TUuid;
       col "tenant_id" TUuid;
       colnull "company_id" TUuid;
       col "first_name" TText;
       colnull "last_name" TText;
       colnull "email" TText;
       colnull "phone" TText;
       colnull "position" TText;
       colnull "notes" TText;
       mkCol "created_at" TTimestamptz false (Some DNow);
       mkCol "updated_at" TTimestamptz false (Some DNow)]
      [("fk_crm_contacts_tenant_id_tenants", ForeignKey "tenant_id" "tenants" "id" Restrict);
       ("fk_crm_contacts_company_id_crm_companies", ForeignKey "company_id" "crm_companies" "id" SetNull);
       ("pk_crm_contacts", PrimaryKey ["id"])];
       CreateIndex "crm_contacts" "ix_crm_contacts_tenant_id_company_id" (ix ["tenant_id"; "company_id"])];
     enable_tenant_rls "crm_contacts"].
Definition crm_contacts0001_downgrade : res exn (list statement) :=
  script
    [disable_tenant_rls "crm_contacts";
     Ok [DropIndex "crm_contacts" "ix_crm_contacts_tenant_id_company_id";
       DropTable "crm_contacts"];
     disable_tenant_rls "crm_companies";
     Ok [DropIndex "crm_companies" "ix_crm_companies_tenant_id_name";
       DropTable "crm_companies"]].
Definition crm_contacts0001 : Revision :=
  mkRevision "crm_contacts0001" None ["core_tenants0001"; "shared0002"]
    crm_contacts0001_upgrade crm_contacts0001_downgrade.

(** ** src/modules/crm/deals/migrations/20260713_crm_deals0001_deals.py *)

Definition crm_deals0001_upgrade : res exn (list statement) :=
  script
    [Ok [CreateTable "crm_deals"
      [col "id" TUuid;
       col "tenant_id" TUuid;
       col "title" TText;
       col "stage" TText;
       col "amount" TBigInteger;
       mkCol "currency" TText false (Some (DText "UZS"));
       colnull "contact_id" TUuid;
       colnull "company_id" TUuid;
       colnull "notes" TText;
       mkCol "created_at" TTimestamptz false (Some DNow);
       mkCol "updated_at" TTimestamptz false (Some DNow)]
      [("fk_crm_deals_tenant_id_tenants", ForeignKey "tenant_id" "tenants" "id" Restrict);
       ("ck_crm_deals_amount_non_negative", Checked (CAtLeast "amount" 0));
       ("pk_crm_deals", PrimaryKey ["id"])];
       CreateIndex "crm_deals" "ix_crm_deals_tenant_id_stage" (ix ["tenant_id"; "stage"]);
       CreateIndex "crm_deals" "ix_crm_deals_tenant_id_contact_id" (ix ["tenant_id"; "contact_id"])];
     enable_tenant_rls "crm_deals"].
Definition crm_deals0001_downgrade : res exn (list statement) :=
  script
    [disable_tenant_rls "crm_deals";
     Ok [DropIndex "crm_deals" "ix_crm_deals_tenant_id_contact_id";
       DropIndex "crm_deals" "ix_crm_deals_tenant_id_stage";
       DropTable "crm_deals"]].
Definition crm_deals0001 : Revision :=
  mkRevision "crm_deals0001" None ["core_tenants0001"; "shared0002"]
    crm_deals0001_upgrade crm_deals0001_downgrade.

(** ** src/modules/saas/entitlements/migrations/20260708_saas_entitlements0001_entitlements.py *)

Definition saas_entitlements0001_upgrade : res exn (list statement) :=
  script
    [Ok [CreateTable "saas_plan_entitlements"
      ([col "plan_code" TText;
       col "entitlement_key" TText;
       col "kind" TText;
       colnull "bool_value" TBoolean;
       colnull "int_value" TBigInteger] ++ timestamps)
      [("ck_saas_plan_entitlements_kind", Checked (CIn "kind" ["flag"; "limit"]));
       ("ck_saas_plan_entitlements_value_matches_kind", Checked (COr (CAnd (CIs "kind" "flag") (CAnd
           (CNotNull "bool_value") (CNull "int_value"))) (CAnd (CIs "kind" "limit") (CNull "bool_value"))));
       ("ck_saas_plan_entitlements_limit_non_negative", Checked (COr (CNull "int_value") (CAtLeast
           "int_value" 0)));
       ("pk_saas_plan_entitlements", PrimaryKey ["plan_code"; "entitlement_key"])];
       CreateTable "saas_tenant_entitlements"
      ([col "id" TUuid;
       col "tenant_id" TUuid;
       col "plan_code" TText;
       colnull "current_period_end" TTimestamptz;
       mkCol "canceled" TBoolean false (Some DFalse)] ++ timestamps)
      [("fk_saas_tenant_entitlements_tenant_id_tenants", ForeignKey "tenant_id" "tenants" "id" Restrict);
       ("pk_saas_tenant_entitlements", PrimaryKey ["id"])];
       CreateIndex "saas_tenant_entitlements" "uq_saas_tenant_entitlements_tenant_id" (uq ["tenant_id"]);
       Grant [Select] "saas_plan_entitlements" [ROLE_USER; ROLE_MAINTENANCE]];
     enable_tenant_rls "saas_tenant_entitlements"].
Definition saas_entitlements0001_downgrade : res exn (list statement) :=
  script
    [disable_tenant_rls "saas_tenant_entitlements";
     Ok [RevokeAll "saas_plan_entitlements" [ROLE_USER; ROLE_MAINTENANCE];
       DropIndex "saas_tenant_entitlements" "uq_saas_tenant_entitlements_tenant_id";
       DropTable "saas_tenant_entitlements";
       DropTable "saas_plan_entitlements"]].
Definition saas_entitlements0001 : Revision :=
  mkRevision "saas_entitlements0001" None ["core_tenants0001"; "shared0002"]
    saas_entitlements0001_upgrade saas_entitlements0001_downgrade.

(** ** src/modules/saas/metering/migrations/20260708_saas_metering0001_usage_counters.py *)

Definition saas_metering0001_upgrade : res exn (list statement) :=
  script
    [Ok [CreateTable "saas_usage_counters"
      [col "id" TUuid;
       col "tenant_id" TUuid;
       col "metric_key" TText;
       col "bucket" TDate;
       mkCol "value" TBigInteger false (Some (DText "0"));
       mkCol "created_at" TTimestamptz false (Some DNow);
       mkCol "updated_at" TTimestamptz false (Some DNow)]
      [("fk_saas_usage_counters_tenant_id_tenants", ForeignKey "tenant_id" "tenants" "id" Restrict);
       ("ck_saas_usage_counters_value_non_negative", Checked (CAtLeast "value" 0));
       ("pk_saas_usage_counters", PrimaryKey ["id"])];
       CreateIndex "saas_usage_counters" "uq_saas_usage_counters_tenant_id_metric_key_bucket" (uq
           ["tenant_id"; "metric_key"; "bucket"])];
     enable_tenant_rls "saas_usage_counters"].
Definition saas_metering0001_downgrade : res exn (list statement) :=
  script
    [disable_tenant_rls "saas_usage_counters";
     Ok [DropIndex "saas_usage_counters" "uq_saas_usage_counters_tenant_id_metric_key_bucket";
       DropTable "saas_usage_counters"]].
Definition saas_metering0001 : Revision :=
  mkRevision "saas_metering0001" None ["core_tenants0001"; "shared0002"]
    saas_metering0001_upgrade saas_metering0001_downgrade.

(** ** src/modules/saas/onboarding/migrations/20260708_saas_onboarding0001_progress.py *)

Definition saas_onboarding0001_upgrade : res exn (list statement) :=
  script
    [Ok [CreateTable "saas_onboarding_progress"
      [col "id" TUuid;
       col "tenant_id" TUuid;
       col "step_key" TText;
       col "completed_at" TTimestamptz;
       mkCol "created_at" TTimestamptz false (Some DNow);
       mkCol "updated_at" TTimestamptz false (Some DNow)]
      [("fk_saas_onboarding_progress_tenant_id_tenants", ForeignKey "tenant_id" "tenants" "id" Restrict);
       ("pk_saas_onboarding_progress", PrimaryKey ["id"])];
       CreateIndex "saas_onboarding_progress" "uq_saas_onboarding_progress_tenant_id_step_key" (uq
           ["tenant_id"; "step_key"])];
     enable_tenant_rls "saas_onboarding_progress"].
Definition saas_onboarding0001_downgrade : res exn (list statement) :=
  script
    [disable_tenant_rls "saas_onboarding_progress";
     Ok [DropIndex "saas_onboarding_progress" "uq_saas_onboarding_progress_tenant_id_step_key";
       DropTable "saas_onboarding_progress"]].
Definition saas_onboarding0001 : Revision :=
  mkRevision "saas_onboarding0001" None ["core_tenants0001"; "shared0002"]
    saas_onboarding0001_upgrade saas_onboarding0001_downgrade.

(** Every revision, in the order of their dependencies. *)
Definition revisions : list Revision :=
  [shared0001;
   shared0002;
   core_auth0001;
   core_tenants0001;
   core_billing0001;
   core_billing0002;
   core_audit0001;
   core_audit0002;
   core_notifications0001;
   core_files0001;
   commerce_cart0001;
   commerce_cart0002;
   commerce_orders0001;
   commerce_product_images0001;
   commerce_product_images0002;
   commerce_products0001;
   crm_activities0001;
   crm_contacts0001;
   crm_deals0001;
   saas_entitlements0001;
   saas_metering0001;
   saas_onboarding0001].

(** ** What the statements on rows do *)

(** commerce_cart0002: [(newer.created_at, newer.id) > (c.created_at, c.id)] *)
Definition newer_cart (created_at : uuid -> datetime) (n c : Cart) : bool :=
  (created_at (ca_id c) <? created_at (ca_id n))%Z
  || (created_at (ca_id c) =? created_at (ca_id n))%Z && (ca_id c <? ca_id n)%N.

(** .. an active cart of the buyer that is newer *)
Definition superseded (created_at : uuid -> datetime) (carts : gmap N Cart) (c : Cart) : bool :=
  bool_decide (ca_status c = CartActive)
  && existsb (fun n => bool_decide (ca_tenant_id n = ca_tenant_id c)
                       && bool_decide (ca_customer_user_id n = ca_customer_user_id c)
                       && bool_decide (ca_status n = CartActive) && newer_cart created_at n c) (rows carts).

Definition set_cart_status (status : cart_status) (c : Cart) : Cart :=
  mkCart (ca_id c) (ca_tenant_id c) (ca_customer_user_id c) status.

(** the UPDATE of the upgrade *)
Definition abandon_duplicates (created_at : uuid -> datetime) (carts : gmap N Cart) : gmap N Cart :=
  (fun c => if superseded created_at carts c then set_cart_status CartAbandoned c else c) <$> carts.
(** .. and of the downgrade *)
Definition close_abandoned (carts : gmap N Cart) : gmap N Cart :=
  (fun c => if bool_decide (ca_status c = CartAbandoned) then set_cart_status CartCheckedOut c else c) <$> carts.

(** uq_subscriptions_one_live_per_tenant as core_billing0001 creates it, the key
    of the index core_billing0002 replaces *)
Definition uq_live_or_pending (s : Subscription) : option uuid :=
  if live (s_status s) || bool_decide (s_status s = SPending) then Some (s_tenant_id s) else None.
