(* ===== verification/Notices.v ===== *)
(** Notifications up to the outbox: receipts (src/core/billing/receipts.py), the
    daily SMS cap (src/core/notifications/sms_cap.py), repositories,
    NotificationService (service.py), and its callers: the mailers of auth and
    tenants (src/core/auth/notifications.py, src/core/tenants/notifications.py). *)

From stdpp Require Import base strings gmap list sorting pretty.
From Stdlib Require Import ZArith Lia Ascii.
From S2P Require Import Prelude Errors PyLib Calendar Entities Models Events Session SessionFacts Footprints.
From S2P Require Import Cache Accounts Templates.

(** ** src/core/billing/receipts.py

    The notification service and the tenant directory are parameters: [Send] is
    NotificationService.send for a user, [OwnerOf] is
    TenantDirectory.get_owner_user_id. *)

Record Notice : Set := mkNotice {
  nt_user : uuid; nt_template : string; nt_context : list (string * json);
  nt_dedup_key : option string }.

Definition Send : Type := TenantContext -> Notice -> SM uuid.
Definition OwnerOf : Type := uuid -> SM (option uuid).

(** The context a handler runs in, rebuilt from the envelope. *)
Definition handler_ctx (event : EventEnvelope) : TenantContext :=
  mkCtx (e_tenant_id event) (e_actor event) None DEFAULT_LOCALE.

Section Receipts.
Context (send : Send) (owner_of : OwnerOf).

(** [_send_receipt] *)
Definition send_receipt (ctx : TenantContext) (template : string) (context : list (string * json))
    (dedup_key : string) : SM unit :=
  match c_tenant_id ctx with
  | None => ret tt
  | Some tenant_id =>
      owner <- owner_of tenant_id ;;
      match owner with
      | None => ret tt
      | Some user => send ctx (mkNotice user template context (Some dedup_key)) ;;; ret tt
      end
  end.

(** [event.payload.get(k)] and [str(event.payload.get(k, ""))] *)
Definition payload_get (event : EventEnvelope) (k : string) : json :=
  default JNull (assoc k (e_payload event)).
Definition payload_str (en : Env) (event : EventEnvelope) (k : string) : string :=
  match assoc k (e_payload event) with Some v => py_str en v | None => "" end.

Definition send_payment_receipt (event : EventEnvelope) : SM unit :=
  en <- gets env ;;
  let payment_id := payload_str en event "payment_id" in
  send_receipt (handler_ctx event) "billing.payment_succeeded"
    [("amount", payload_get event "amount"); ("currency", payload_get event "currency");
     ("payment_id", JStr payment_id)]
    ("receipt:payment:" +:+ payment_id).

Definition send_subscription_activated (event : EventEnvelope) : SM unit :=
  en <- gets env ;;
  let subscription_id := payload_str en event "subscription_id" in
  send_receipt (handler_ctx event) "billing.subscription_activated"
    [("plan_code", payload_get event "plan_code"); ("subscription_id", JStr subscription_id)]
    ("receipt:subscription_activated:" +:+ subscription_id).

(** ** Receipts do what the two services do *)

Context (R : St -> St -> Prop) `{!PreOrder R}.
Hypothesis Hsend : forall ctx n, steps R (send ctx n).
Hypothesis Howner : forall t, steps R (owner_of t).

Lemma steps_send_receipt ctx t c k : steps R (send_receipt ctx t c k).
Proof. unfold send_receipt. steps_walk. Qed.
Lemma steps_payment_receipt e : steps R (send_payment_receipt e).
Proof. pose proof steps_send_receipt. unfold send_payment_receipt. steps_walk. Qed.
Lemma steps_activation_receipt e : steps R (send_subscription_activated e).
Proof. pose proof steps_send_receipt. unfold send_subscription_activated. steps_walk. Qed.
End Receipts.

(** ** src/core/notifications/sms_cap.py *)

Definition CAP_TTL_SECONDS : Z := 25 * 3600.

(** INCR k: a new key has no expiry, an old one keeps its own. *)
Definition redis_incr (k : string) : SM Z :=
  t <- now ;;
  m <- gets redis ;;
  match alive t m k with
  | None => modify (st_redis <[k := (RInt 1, None)]>) ;;; ret 1%Z
  | Some (v, exp) =>
      match rval_int v with
      | None => raise EResponse
      | Some n => modify (st_redis <[k := (RInt (n + 1), exp)]>) ;;; ret (n + 1)%Z
      end
  end.

(** EXPIRE k ttl *)
Definition redis_expire (k : string) (ttl_seconds : Z) : SM unit :=
  t <- now ;;
  m <- gets redis ;;
  match alive t m k with
  | None => ret tt
  | Some (v, _) =>
      modify (st_redis (if (ttl_seconds <=? 0)%Z then delete k
        else <[k := (v, Some (t + timedelta_seconds ttl_seconds)%Z)]>))
  end.

(** [strftime("%Y%m%d")] *)
Definition pad (n : nat) (z : Z) : string :=
  let s := pretty z in String.concat "" (replicate (n - String.length s) "0") +:+ s.
Definition day_str (t : datetime) : string :=
  let '(y, m, d) := dt_ymd t in pad 4 y +:+ pad 2 m +:+ pad 2 d.

Definition cap_key (tenant_id : option uuid) (t : datetime) : string :=
  "sms:cap:" +:+ match tenant_id with Some u => uuid_str u | None => "platform" end
  +:+ ":" +:+ day_str t.

(** [SmsDailyCap.try_consume] *)
Definition try_consume (cap : Z) (tenant_id : option uuid) : SM bool :=
  if (cap <=? 0)%Z then ret true
  else
    t <- now ;;
    count <- redis_incr (cap_key tenant_id t) ;;
    (if (count =? 1)%Z then redis_expire (cap_key tenant_id t) CAP_TTL_SECONDS else ret tt) ;;;
    ret (count <=? cap)%Z.

(** ** src/core/notifications/schemas.py *)

Inductive Recipient : Set :=
| UserRecipient (user_id : uuid)
| AddressRecipient (channel address : string).

Inductive NotificationStatus : Set := NQueued | NSent | NPartiallyFailed | NFailed.
#[export] Instance notification_status_eq_dec : EqDecision NotificationStatus.
Proof. solve_decision. Defined.

Record ChannelStatusDTO : Set := mkChannelStatus {
  cs_channel : string; cs_configured : bool; cs_is_enabled : bool }.

(** ** src/core/notifications/repository.py *)

(** [NotificationOutboxRepository.notification_id_for_dedup] *)
Definition notification_id_for_dedup (tenant_id : option uuid) (dedup_key : string)
    : SM (option uuid) :=
  l <- query (fun o => bool_decide (ob_dedup_key o = Some dedup_key)
                       && bool_decide (ob_tenant_id o = tenant_id)) ;;
  ret (ob_notification_id <$> head l).

(** [add_all] *)
Definition add_all (rows : list NotificationOutbox) : SM unit := for_each rows insert_row.

(** [rows_for_notification] *)
Definition rows_for_notification (notification_id : uuid) : SM (list NotificationOutbox) :=
  query (fun o => bool_decide (ob_notification_id o = notification_id)).

(** [NotificationSettingRepository.get_by_channel] *)
Definition get_by_channel (tenant : uuid) (channel : string) : SM (option NotificationSetting) :=
  l <- repo_find tenant (fun x => bool_decide (ns_channel x = channel)) (fun l => l) None ;;
  ret (head l).

(** ** [NotificationService] *)

Definition terminal (s : outbox_status) : bool :=
  match s with ObSent | ObDead => true | _ => false end.

(** [_aggregate_status] *)
Definition aggregate_status (rows : list NotificationOutbox) : NotificationStatus :=
  if existsb (fun o => negb (terminal (ob_status o))) rows then NQueued
  else match rows with
       | [] => NPartiallyFailed
       | _ => if forallb (fun o => bool_decide (ob_status o = ObSent)) rows then NSent
              else if forallb (fun o => bool_decide (ob_status o = ObDead)) rows then NFailed
              else NPartiallyFailed
       end.

(** [_jsonable] *)
Definition jsonable (en : Env) (params : list (string * json)) : list (string * json) :=
  (fun '(k, v) => (k, match v with JList _ | JObj _ => JStr (py_str en v) | _ => v end)) <$> params.

Definition USER_PROFILE_CHANNELS : list string := ["email"; "sms_eskiz"].

Record NotificationService : Type := mkNotifications {
  nf_ctx : TenantContext; nf_registry : TemplateRegistry; nf_lib : NoticeLib;
  nf_directory : bool }.      (* whether a user directory was passed *)

Section NotificationService.
Context (self : NotificationService).
Let ctx := nf_ctx self.
Let lib := nf_lib self.

(** [by_channel.get(channel)] *)
Definition profile_address (contact : UserContact) (channel : string) : option string :=
  if bool_decide (channel = "email") then uc_email contact
  else if bool_decide (channel = "sms_eskiz") then uc_phone contact else None.

Definition profile_addresses (contact : UserContact) (channels : list string)
    : list (string * string) :=
  foldl (fun resolved channel =>
           if negb (bool_decide (channel ∈ USER_PROFILE_CHANNELS)) then resolved
           else match profile_address contact channel with
                | Some a => if str_empty a then resolved else dict_set channel a resolved
                | None => resolved
                end) [] channels.

(** [_resolve_addresses] *)
Definition resolve_addresses (recipient : Recipient) (channels : list string)
    : SM (list (string * string) * option string) :=
  match recipient with
  | AddressRecipient channel address =>
      ret (if bool_decide (channel ∈ channels) then [(channel, address)] else [], None)
  | UserRecipient user_id =>
      if negb (nf_directory self)
      then raise (EDomain InvariantViolationError "user recipient requires a user directory")
      else
        contact <- get_contact user_id ;;
        match contact with
        | None => raise (EDomain NotFoundError ("recipient user not found: " +:+ uuid_str user_id))
        | Some c => ret (profile_addresses c channels, Some (uc_locale c))
        end
  end.

(** The rows of one send, one per address; [t] is the database's clock. *)
Fixpoint new_rows (mk : uuid -> string -> string -> NotificationOutbox)
    (addresses : list (string * string)) : SM (list NotificationOutbox) :=
  match addresses with
  | [] => ret []
  | (channel, address) :: rest =>
      i <- new_uuid7 ;; rows <- new_rows mk rest ;; ret (mk i channel address :: rows)
  end.

Definition outbox_row (notification_id : uuid) (dedup_key : option string)
    (template locale : string) (params : list (string * json)) (t : datetime)
    (i : uuid) (channel address : string) : NotificationOutbox :=
  mkOutbox i notification_id dedup_key (c_tenant_id ctx) channel address template locale params
    ObPending 0 t None None None t.

(** [set(a) - set(b)] *)
Definition minus (a b : list string) : list string :=
  remove_dups (List.filter (fun x => negb (bool_decide (x ∈ b))) a).

(** The lookup by key, when there is one. *)
Definition dedup_lookup (dedup_key : option string) : SM (option uuid) :=
  match dedup_key with
  | Some k => notification_id_for_dedup (c_tenant_id ctx) k
  | None => ret None
  end.

(** The rows of [send] written; a send with the same key may commit first. *)
Definition queue_rows (dedup_key : option string) (template locale : string)
    (context : list (string * json)) (addresses : list (string * string)) : SM uuid :=
  notification_id <- new_uuid7 ;;
  en <- gets env ;;
  t <- now ;;
  rows <- new_rows (outbox_row notification_id dedup_key template locale (jsonable en context) t)
            addresses ;;
  (if bool_decide (is_Some dedup_key) then rivals else ret tt) ;;;
  catch (add_all rows ;;; ret notification_id) (fun e =>
    if bool_decide (e = EIntegrity) then
      existing <- dedup_lookup dedup_key ;;
      match existing with Some n => ret n | None => raise e end
    else raise e).

(** [send] *)
Definition send (recipient : Recipient) (template : string) (context : list (string * json))
    (channels : option (list string)) (locale dedup_key : option string) : SM uuid :=
  tdef <- lift_res (registry_get (nf_registry self) template) ;;
  let selected := default (td_default_channels tdef) channels in
  en <- gets env ;;
  match minus selected KNOWN_CHANNELS with
  | _ :: _ as unknown =>
      raise (EDomain NotFoundError ("unknown channel(s): " +:+ repr_list en unknown))
  | [] =>
      match minus (elements (td_required_context tdef)) (fst <$> context) with
      | _ :: _ as missing =>
          raise (EDomain InvariantViolationError
                   ("missing required context: " +:+ repr_list en missing))
      | [] =>
          resolved <- resolve_addresses recipient selected ;;
          match resolved.1 with
          | [] => raise (EDomain InvariantViolationError
                           "recipient has no address for any requested channel")
          | addresses =>
              let resolved_locale := negotiate_locale [locale; resolved.2; Some (c_locale ctx)] in
              existing <- dedup_lookup dedup_key ;;
              match existing with
              | Some n => ret n
              | None => queue_rows dedup_key template resolved_locale context addresses
              end
          end
      end
  end.

(** [get_status] *)
Definition get_status (notification_id : uuid) : SM NotificationStatus :=
  rows <- rows_for_notification notification_id ;;
  match rows with
  | [] => raise (EDomain NotFoundError ("notification not found: " +:+ uuid_str notification_id))
  | _ => ret (aggregate_status rows)
  end.

Definition set_config (x : string) (r : NotificationSetting) : NotificationSetting :=
  mkNotificationSetting (ns_id r) (ns_tenant_id r) (ns_channel r) x (ns_is_enabled r).

(** [set_channel_config] *)
Definition set_channel_config (channel : string) (config : list (string * json)) : SM unit :=
  validate_channel_config channel config ;;;
  tenant <- repo_init ctx ;;
  k <- draw ;;
  let encrypted := nl_encrypt lib k (nl_dumps lib config) in
  existing <- get_by_channel tenant channel ;;
  match existing with
  | Some r => upd (R:=NotificationSetting) (ns_id r) (set_config encrypted) ;;; flush
  | None =>
      i <- new_uuid7 ;;
      repo_add tenant None (fun t => mkNotificationSetting i t channel encrypted true) ;;; ret tt
  end.

(** [get_channel_status] *)
Definition get_channel_status (channel : string) : SM ChannelStatusDTO :=
  require_known_channel channel ;;;
  tenant <- repo_init ctx ;;
  existing <- get_by_channel tenant channel ;;
  ret (mkChannelStatus channel (bool_decide (is_Some existing))
         (match existing with Some r => ns_is_enabled r | None => false end)).
End NotificationService.

(** ** Callers *)

Definition PASSWORD_RESET_TEMPLATE : string := "auth.password_reset".
Definition AUTH_TEMPLATES : list TemplateDef :=
  [mkTemplateDef PASSWORD_RESET_TEMPLATE ["email"] {["reset_url"; "ttl_minutes"]}].
Definition INVITATION_TEMPLATE : string := "tenants.invitation".
Definition TENANTS_TEMPLATES : list TemplateDef :=
  [mkTemplateDef INVITATION_TEMPLATE ["email"] {["accept_url"; "tenant_name"; "ttl_days"]}].

Section Callers.
Context (lib : NoticeLib) (registry : TemplateRegistry).

Definition reset_ctx : TenantContext :=
  mkCtx None (mkActor KSystem (Some "auth.password_reset")) None DEFAULT_LOCALE.

(** What a transaction sees of another one's new outbox rows. *)
Definition see_notices (theirs ours : Db) : Db := on_notices (fun _ => notices_of theirs) ours.

(** [PasswordResetMailer.send]: a transaction of its own. *)
Definition password_reset_mailer : ResetMailer := fun email locale reset_url ttl_minutes =>
  own_uow see_notices (
    send (mkNotifications reset_ctx registry lib false) (AddressRecipient "email" email)
      PASSWORD_RESET_TEMPLATE
      [("reset_url", JStr reset_url); ("ttl_minutes", JInt ttl_minutes)] None (Some locale) None) ;;;
  ret tt.

(** [InvitationMailer.send]: in the transaction of the invitation. *)
Definition invitation_mailer (accept_url_template : string) (ctx : TenantContext)
    (email token tenant_name locale : string) (ttl_days : Z) : SM unit :=
  send (mkNotifications ctx registry lib false) (AddressRecipient "email" email)
    INVITATION_TEMPLATE
    [("accept_url", JStr (replace_token (String.length accept_url_template) token
                            accept_url_template));
     ("tenant_name", JStr tenant_name); ("ttl_days", JInt ttl_days)] None (Some locale) None ;;;
  ret tt.

(** The notices of receipts.py and of orders' subscribers. *)
Definition send_notice : Send := fun ctx n =>
  send (mkNotifications ctx registry lib true) (UserRecipient (nt_user n)) (nt_template n)
    (nt_context n) None None (nt_dedup_key n).
End Callers.
