(* ===== verification/NoticeFacts.v ===== *)
(** Facts about notifications up to the outbox: what a send may write, its
    idempotence, template substitution, locales, the SMS cap. *)

From stdpp Require Import base strings gmap list sorting pretty.
From Stdlib Require Import ZArith Lia Ascii.
From S2P Require Import Prelude Errors PyLib Calendar Entities Models Events Session SessionFacts.
From S2P Require Import Footprints Cache Accounts AccountsFacts Templates Notices.

(** ** Footprints *)

Section Plain.
Context {R : Db -> Db -> Prop} (X : St -> St -> Prop) `{!Stmt R X}
  `{!Tolerates R NotificationSetting, !Tolerates R NotificationOutbox}.
#[local] Instance X_pre : PreOrder X := stmt_pre.
Abbreviation runs := (steps X).

Lemma runs_require_channel c : runs (require_known_channel c).
Proof. unfold require_known_channel. stmt_walk. Qed.
Lemma runs_validate_config c cfg : runs (validate_channel_config c cfg).
Proof. pose proof runs_require_channel. unfold validate_channel_config. stmt_walk. Qed.
Lemma runs_resolve_addresses self r cs : runs (resolve_addresses self r cs).
Proof. unfold resolve_addresses. stmt_walk. Qed.
Lemma runs_new_rows mk l : runs (new_rows mk l).
Proof. induction l as [|[c a] l IH]; simpl; stmt_walk. Qed.
Lemma runs_add_all rows : runs (add_all rows).
Proof. unfold add_all. stmt_walk. Qed.
Lemma runs_for_dedup t k : runs (notification_id_for_dedup t k).
Proof. unfold notification_id_for_dedup. stmt_walk. Qed.
Lemma runs_dedup_lookup self k : runs (dedup_lookup self k).
Proof. pose proof runs_for_dedup. unfold dedup_lookup. stmt_walk. Qed.
Lemma runs_get_by_channel t c : runs (get_by_channel t c).
Proof. unfold get_by_channel. stmt_walk. Qed.
Hint Resolve runs_require_channel runs_validate_config runs_resolve_addresses runs_new_rows
  runs_add_all runs_dedup_lookup runs_get_by_channel : stmt.

(** A send is a block of the caller's transaction once waiting is. *)
Lemma runs_queue self k t l c a : (k = None \/ runs rivals) -> runs (queue_rows self k t l c a).
Proof.
  intros Hk. assert (runs (if bool_decide (is_Some k) then rivals else ret tt)).
  { destruct Hk as [->|Hr]; [|destruct (bool_decide _); stmt_walk].
    rewrite bool_decide_false by (by intros [? ?]). stmt_walk. }
  unfold queue_rows. stmt_walk.
Qed.
Lemma runs_send self r t c cs l k : (k = None \/ runs rivals) -> runs (send self r t c cs l k).
Proof. intros Hk. pose proof runs_queue. unfold send. stmt_walk. Qed.
Lemma runs_get_status n : runs (get_status n).
Proof. unfold get_status, rows_for_notification. stmt_walk. Qed.
Lemma runs_set_channel_config self c cfg : runs (set_channel_config self c cfg).
Proof. unfold set_channel_config. stmt_walk. Qed.
Lemma runs_channel_status self c : runs (get_channel_status self c).
Proof. unfold get_channel_status. stmt_walk. Qed.
Lemma runs_invitation_mail lib reg u ctx e t n l d :
  runs (invitation_mailer lib reg u ctx e t n l d).
Proof. unfold invitation_mailer. stmt_walk. apply runs_send. by left. Qed.
End Plain.
#[export] Hint Resolve runs_get_status runs_set_channel_config runs_channel_status
  runs_invitation_mail : stmt.

Class NoticesFree (R : Db -> Db -> Prop) : Prop :=
  notices_free : forall f d, R d (on_notices f d).

(** Nothing but notices changes. *)
Definition notices_only (d d' : Db) : Prop := d' = on_notices (fun _ => notices_of d') d.
#[export] Instance notices_only_preorder : PreOrder notices_only.
Proof.
  split; unfold notices_only; [by intros [b c a p []]|]. intros x y z -> ->. done.
Qed.
#[export] Instance notices_only_settings : Tolerates notices_only NotificationSetting.
Proof. apply ignores_tolerates. by intros [b c a p []] t. Qed.
#[export] Instance notices_only_outbox : Tolerates notices_only NotificationOutbox.
Proof. apply ignores_tolerates. by intros [b c a p []] t. Qed.

Lemma notices_back d d' : notices_only d d' -> d = on_notices (fun _ => notices_of d) d'.
Proof. intros ->. by destruct d as [b c a p []]. Qed.

Section Waiting.
Context (R : Db -> Db -> Prop) `{!PreOrder R}
  `{!Tolerates R NotificationSetting, !Tolerates R NotificationOutbox}.

Lemma evo_send self r t c cs l k : steps (evo R) (send self r t c cs l k).
Proof. apply (runs_send (evo R)). right. apply evo_rivals. Qed.
Lemma evo_send_notice lib reg ctx n : steps (evo R) (send_notice lib reg ctx n).
Proof. apply evo_send. Qed.

(** A transaction of its own that writes notices only: what it commits leads
    on, and this session sees no more of it than its outbox rows. *)
Context `{!NoticesFree R}.
Lemma direct_own_notices {A} (body : SM A) :
  steps (direct notices_only) body -> steps (direct R) (own_uow see_notices body).
Proof.
  intros Hb s. destruct (uow_direct notices_only body s Hb) as [Hc He]. unfold own_uow.
  destruct (with_uow body s) as [r s1]. simpl in *. split; [done|]. intros Hr.
  split; [rewrite Hc; apply notices_free|]. transitivity (db s); [|apply notices_free].
  transitivity (committed s); [|done]. rewrite (notices_back _ _ Hc). apply notices_free.
Qed.

Lemma direct_reset_mail lib reg e l u t : steps (direct R) (password_reset_mailer lib reg e l u t).
Proof.
  unfold password_reset_mailer. stmt_walk. apply direct_own_notices.
  apply (runs_send (direct notices_only)). by left.
Qed.
End Waiting.

(** ** What a send writes *)

Definition outbox_of (d : Db) : gmap N NotificationOutbox := n_outbox (notices_of d).

(** What passes the checks of [send], and where it goes from there. *)
Definition admitted (self : NotificationService) (recipient : Recipient) (template : string)
    (context : list (string * json)) (channels : option (list string)) (s : St)
    (addresses : list (string * string)) (user_locale : option string) : Prop :=
  exists tdef, registry_get (nf_registry self) template = Ok tdef /\
    minus (default (td_default_channels tdef) channels) KNOWN_CHANNELS = [] /\
    minus (elements (td_required_context tdef)) (fst <$> context) = [] /\
    resolve_addresses self recipient (default (td_default_channels tdef) channels) s =
      (Ok (addresses, user_locale), s) /\
    addresses ≠ [].

Section Send.
Context (self : NotificationService) (recipient : Recipient) (template : string)
  (context : list (string * json)) (channels : option (list string)) (locale : option string).
Abbreviation send_it := (send self recipient template context channels locale).
Abbreviation admits := (admitted self recipient template context channels).
Definition used_locale (user_locale : option string) : string :=
  negotiate_locale [locale; user_locale; Some (c_locale (nf_ctx self))].

Lemma resolve_state r cs s : (resolve_addresses self r cs s).2 = s.
Proof.
  unfold resolve_addresses. destruct r; [|done]. destruct (nf_directory self); [|done]. simpl.
  unfold get_contact, global_get, session_get, bind, get_db. destruct (aborted s); [done|]. simpl.
  by destruct (_ !! _).
Qed.

Lemma dedup_lookup_state k s : (dedup_lookup self k s).2 = s.
Proof.
  unfold dedup_lookup, notification_id_for_dedup, bind. destruct k as [k|]; [|done].
  rewrite (surjective_pairing (query _ s)), query_state. by destruct (query _ s) as [[]].
Qed.

Lemma send_Ok key s n s' :
  send_it key s = (Ok n, s') ->
  exists addresses ul, admits s addresses ul /\
    (dedup_lookup self key s = (Ok (Some n), s) /\ s' = s \/
     dedup_lookup self key s = (Ok None, s) /\
     queue_rows self key template (used_locale ul) context addresses s = (Ok n, s')).
Proof.
  unfold send. intros H. apply bind_inv_Ok in H as (tdef & s1 & Ht & H).
  injection Ht as Ht <-. rewrite (bind_Ok _ _ s (env s) s) in H by done. cbv beta in H.
  destruct (minus _ KNOWN_CHANNELS) eqn:E1; [|done].
  destruct (minus _ (fst <$> context)) eqn:E2; [|done].
  apply bind_inv_Ok in H as ([addresses ul] & s2 & Hr & H). simpl in H.
  pose proof (resolve_state recipient (default (td_default_channels tdef) channels) s) as Hs.
  rewrite Hr in Hs. simpl in Hs. subst s2. destruct addresses as [|a rest] eqn:Ea; [done|].
  rewrite <- Ea in *. apply bind_inv_Ok in H as (existing & s3 & Hd & H).
  pose proof (dedup_lookup_state key s) as Hs. rewrite Hd in Hs. simpl in Hs. subst s3.
  exists addresses, ul. split; [exists tdef; rewrite Ea in *; naive_solver|].
  destruct existing; [left|right; by rewrite Ea in *]. unfold ret in H. by simplify_eq.
Qed.

Lemma send_known key s n addresses ul :
  admits s addresses ul -> dedup_lookup self key s = (Ok (Some n), s) -> send_it key s = (Ok n, s).
Proof.
  intros (tdef & Ht & E1 & E2 & Hr & Hne) Hd. unfold send.
  erewrite bind_Ok by (unfold lift_res; by rewrite Ht).
  rewrite (bind_Ok _ _ s (env s) s) by done. cbv beta. rewrite E1, E2.
  erewrite bind_Ok by exact Hr. simpl. destruct addresses; [done|].
  by erewrite bind_Ok by exact Hd.
Qed.
End Send.

(** The rows of one send. *)
Definition put_all (rows : list NotificationOutbox) (d : Db) : Db :=
  foldl (fun d o => t_put o d) d rows.

Lemma outbox_put o d : outbox_of (t_put o d) = <[ob_id o := o]> (outbox_of d).
Proof. done. Qed.

(** Rows are added, none is replaced. *)
Lemma add_all_Ok rows : forall s u s',
  add_all rows s = (Ok u, s') ->
  s' = st_db (put_all rows) s /\
  (forall i x, outbox_of (db s) !! i = Some x -> outbox_of (db s') !! i = Some x) /\
  (forall i x, outbox_of (db s') !! i = Some x -> outbox_of (db s) !! i = Some x \/ x ∈ rows) /\
  (forall o, o ∈ rows -> outbox_of (db s') !! ob_id o = Some o).
Proof.
  induction rows as [|o rows IH]; intros s u s' H.
  { unfold add_all, for_each, ret in H. injection H as _ <-. destruct s.
    repeat split; [auto..|]. by intros o Ho%elem_of_nil. }
  change (add_all (o :: rows)) with (insert_row o ;;; add_all rows) in H.
  apply bind_inv_Ok in H as ([] & s1 & Hi & H).
  apply insert_row_Ok in Hi as (-> & _ & Hnone & _).
  destruct (IH _ _ _ H) as (-> & Hkeep & Hold & Hnew).
  change (db (st_db (t_put o) s)) with (t_put o (db s)) in *.
  assert (Ho : outbox_of (t_put o (db s)) !! ob_id o = Some o)
    by (rewrite outbox_put; apply lookup_insert_eq).
  split; [done|]. split; [|split].
  - intros i x Hx. apply Hkeep. rewrite outbox_put. destruct (decide (i = ob_id o)) as [->|Hne].
    + change (outbox_of (db s) !! ob_id o = None) in Hnone. congruence.
    + by rewrite lookup_insert_ne.
  - intros i x Hx. destruct (Hold _ _ Hx) as [Hx'|Hx']; [|right; set_solver].
    rewrite outbox_put in Hx'. destruct (decide (i = ob_id o)) as [->|Hne].
    + rewrite lookup_insert_eq in Hx'. right. set_solver.
    + rewrite lookup_insert_ne in Hx' by done. by left.
  - intros x [->|Hx]%elem_of_cons; [|by apply Hnew]. by apply Hkeep.
Qed.

Lemma new_rows_Ok mk l : forall s rows s',
  new_rows mk l s = (Ok rows, s') ->
  draws_only s s' /\ Forall2 (fun a o => exists i, o = mk i a.1 a.2) l rows.
Proof.
  induction l as [|[c a] l IH]; intros s rows s' H; simpl in H.
  { unfold ret in H. simplify_eq. split; [reflexivity|constructor]. }
  apply bind_inv_Ok in H as (i & s1 & Hi & H). apply bind_inv_Ok in H as (rest & s2 & Hr & H).
  unfold ret in H. simplify_eq. destruct (IH _ _ _ Hr) as [Hd Hf]. split.
  - transitivity s1; [|done]. by apply (draws_inv _ _ _ _ draws_uuid Hi).
  - constructor; [by exists i|done].
Qed.

(** After a failed insert the transaction is aborted: the lookup for the
    winner of a race is refused. *)
Lemma add_all_Raise rows : forall s e s', add_all rows s = (Raise e, s') -> aborted s' = true.
Proof.
  induction rows as [|o rows IH]; intros s e s' H; [done|].
  change (add_all (o :: rows)) with (insert_row o ;;; add_all rows) in H. unfold bind in H.
  destruct (insert_row o s) as [[u|x] s1] eqn:Ei; [by eapply IH|]. injection H as _ <-.
  unfold insert_row in Ei. destruct (aborted s) eqn:Ha; [by simplify_eq|].
  destruct (t_get (db s) !! t_id o); [by simplify_eq|].
  by apply flush_inv in Ei as (_ & _ & _ & Hx).
Qed.

Lemma lookup_refused self k s : aborted s = true -> dedup_lookup self (Some k) s = (Raise EPendingRollback, s).
Proof.
  intros Ha. unfold dedup_lookup, notification_id_for_dedup, query, bind, get_db. by rewrite Ha.
Qed.

Lemma queue_handler self key (n : uuid) rows s e s1 r s2 :
  (add_all rows ;;; ret n) s = (Raise e, s1) -> e = EIntegrity ->
  (existing <- dedup_lookup self key ;;
   match existing with Some n => ret n | None => raise e end) s1 = (r, s2) ->
  r = Raise (if key then EPendingRollback else EIntegrity) /\ s2 = s1.
Proof.
  intros H -> Hh. assert (Ha : aborted s1 = true).
  { unfold bind in H. destruct (add_all rows s) as [[u|x] s'] eqn:E; [done|].
    injection H as -> <-. by eapply add_all_Raise. }
  destruct key as [k|]; [|unfold bind, dedup_lookup, ret, raise in Hh; naive_solver].
  unfold bind in Hh. rewrite lookup_refused in Hh by done. by simplify_eq.
Qed.

(** What a send that found no earlier one leaves: one pending row per address,
    all of one notification, beside the rows that were there. *)
Lemma queue_Ok self key template locale context addresses s n s' :
  no_rivals (env s) ->
  queue_rows self key template locale context addresses s = (Ok n, s') ->
  exists rows t,
    Forall2 (fun a o => exists i, o = outbox_row self n key template locale
               (jsonable (env s) context) t i a.1 a.2) addresses rows /\
    db s' = put_all rows (db s) /\ aborted s' = aborted s /\
    (forall i x, outbox_of (db s) !! i = Some x -> outbox_of (db s') !! i = Some x) /\
    (forall i x, outbox_of (db s') !! i = Some x -> outbox_of (db s) !! i = Some x \/ x ∈ rows) /\
    (forall o, o ∈ rows -> outbox_of (db s') !! ob_id o = Some o).
Proof.
  intros Hn H. unfold queue_rows in H. apply bind_inv_Ok in H as (nid & s1 & H1 & H).
  apply (draws_inv _ _ _ _ draws_uuid) in H1 as (E1 & D1 & _ & A1 & _).
  rewrite (bind_Ok _ _ s1 (env s1) s1) in H by done. cbv beta in H.
  apply bind_inv_Ok in H as (t & s2 & H2 & H).
  apply (draws_inv _ _ _ _ draws_now) in H2 as (E2 & D2 & _ & A2 & _).
  apply bind_inv_Ok in H as (rows & s3 & H3 & H). apply new_rows_Ok in H3 as [(E3 & D3 & _ & A3 & _) Hrows].
  apply bind_inv_Ok in H as ([] & s4 & H4 & H).
  assert (H5 : env s4 = env s /\ db s4 = db s /\ aborted s4 = aborted s).
  { destruct (bool_decide _); [|unfold ret in H4; injection H4 as <-; repeat split; congruence].
    unfold rivals in H4. injection H4 as <-. simpl. rewrite E3, E2, E1, Hn. repeat split; congruence. }
  destruct H5 as (E4 & D4 & A4). apply catch_inv_Ok in H as [H|(e & s5 & H & He)].
  - apply bind_inv_Ok in H as ([] & s5 & Ha & H). unfold ret in H. simplify_eq.
    apply add_all_Ok in Ha as (-> & Hkeep & Hold & Hnew). rewrite E1 in Hrows.
    exists rows, t. rewrite <- D4. repeat split; auto.
  - case_bool_decide as Hi; [|done]. destruct (queue_handler _ _ _ _ _ _ _ _ _ H Hi He). done.
Qed.

Lemma dedup_lookup_run self k s :
  aborted s = false ->
  dedup_lookup self (Some k) s =
  (Ok (ob_notification_id <$> head (select (fun o => bool_decide (ob_dedup_key o = Some k) &&
         bool_decide (ob_tenant_id o = c_tenant_id (nf_ctx self))) (outbox_of (db s)))), s).
Proof.
  intros Ha. unfold dedup_lookup, notification_id_for_dedup. by erewrite bind_Ok by by apply query_run.
Qed.

Lemma lookup_not_aborted self k s r s' : dedup_lookup self (Some k) s = (Ok r, s') -> aborted s = false.
Proof. destruct (aborted s) eqn:Ha; [|done]. by rewrite lookup_refused. Qed.

(** After a send the key is taken by its notification. *)
Lemma queue_taken self k template locale context addresses s n s' :
  no_rivals (env s) -> addresses ≠ [] -> dedup_lookup self (Some k) s = (Ok None, s) ->
  queue_rows self (Some k) template locale context addresses s = (Ok n, s') ->
  dedup_lookup self (Some k) s' = (Ok (Some n), s').
Proof.
  intros Hn Hne Hl H. pose proof (lookup_not_aborted _ _ _ _ _ Hl) as Ha.
  destruct (queue_Ok _ _ _ _ _ _ _ _ _ Hn H) as (rows & t & Hrows & _ & Ha' & Hkeep & Hold & Hnew).
  rewrite dedup_lookup_run in Hl by done. injection Hl as Hl.
  rewrite dedup_lookup_run by congruence.
  set (p := fun o => _) in *. do 2 f_equal.
  assert (Hall : forall o, o ∈ select p (outbox_of (db s')) -> ob_notification_id o = n).
  { intros o [[i Hi] Hp]%elem_of_select. destruct (Hold _ _ Hi) as [Hi'|Hi'].
    - assert (Ho : o ∈ select p (outbox_of (db s))) by (apply elem_of_select; eauto).
      by destruct (select p (outbox_of (db s))); [apply elem_of_nil in Ho|].
    - apply list_elem_of_lookup in Hi' as [j Hj].
      destruct (Forall2_lookup_r _ _ _ _ _ Hrows Hj) as (a & _ & id & ->). done. }
  destruct rows as [|o rows]; [inversion Hrows; by subst|].
  assert (Ho : o ∈ select p (outbox_of (db s'))).
  { apply elem_of_select. split; [exists (ob_id o); apply Hnew; set_solver|].
    inversion Hrows as [|a ? ? ? (i & ->)]; subst. unfold p. simpl. by rewrite !bool_decide_true. }
  destruct (select p (outbox_of (db s'))) as [|x l]; [by apply elem_of_nil in Ho|].
  simpl. f_equal. apply Hall. set_solver.
Qed.

(** Reads of [send] see the same before and after its rows are written. *)
Lemma admitted_same self r t c cs s s' a ul :
  admitted self r t c cs s a ul -> aborted s' = aborted s -> users_of (db s') = users_of (db s) ->
  admitted self r t c cs s' a ul.
Proof.
  intros (tdef & Ht & E1 & E2 & Hr & Hne) Ha Hu. exists tdef. repeat split; try done.
  unfold resolve_addresses in *. destruct r as [u|]; [|unfold ret in *; by simplify_eq].
  destruct (nf_directory self); [|done]. simpl in *.
  unfold get_contact, global_get, session_get, bind, get_db in *. rewrite Ha.
  destruct (aborted s); [done|]. unfold ret in *. simpl in *. unfold users_of in Hu. rewrite Hu.
  destruct (a_users _ !! _); simpl in *; by simplify_eq.
Qed.

Lemma put_all_users rows : forall d, users_of (put_all rows d) = users_of d.
Proof. induction rows as [|o rows IH]; intros d; [done|]. simpl. by rewrite IH. Qed.

Lemma lookup_same self k s s2 o :
  aborted s2 = aborted s -> db s2 = db s -> dedup_lookup self (Some k) s = (Ok o, s) ->
  dedup_lookup self (Some k) s2 = (Ok o, s2).
Proof.
  intros Ha Hd H. pose proof (lookup_not_aborted _ _ _ _ _ H) as Ha'.
  rewrite dedup_lookup_run in H by done. rewrite dedup_lookup_run by congruence. rewrite Hd.
  by injection H as ->.
Qed.

(** Once a send with a key went through, a state with its rows answers the
    same. *)
Lemma send_again self r t c cs l k s n s' s2 :
  no_rivals (env s) -> send self r t c cs l (Some k) s = (Ok n, s') ->
  aborted s2 = aborted s' -> db s2 = db s' ->
  send self r t c cs l (Some k) s2 = (Ok n, s2).
Proof.
  intros Hn H Ha2 Hd2. destruct (send_Ok _ _ _ _ _ _ _ _ _ _ H) as (a & ul & Hadm & [[Hl ->]|[Hl Hq]]).
  { eapply send_known; [|by eapply lookup_same]. eapply admitted_same; [exact Hadm|done|by rewrite Hd2]. }
  pose proof Hadm as (_ & _ & _ & _ & _ & Hne).
  destruct (queue_Ok _ _ _ _ _ _ _ _ _ Hn Hq) as (rows & t0 & _ & Hdb & Ha & _).
  eapply send_known; [|eapply lookup_same; [exact Ha2|done|by eapply queue_taken]].
  eapply admitted_same; [exact Hadm|congruence|]. rewrite Hd2, Hdb. apply put_all_users.
Qed.
