(* ===== verification/ResilienceFacts.v ===== *)
(** Facts about resilient calls: how the breaker moves, what escapes from the
    retry loop, and how often the operation runs. *)

From stdpp Require Import base strings list gmap.
From Stdlib Require Import ZArith Lia.
From S2P Require Import Prelude Errors Resilience PyLib Calendar Entities Models Events Session.
From S2P Require Import SessionFacts.

(** ** The breaker *)

Definition fail_all (b : CircuitBreaker) (ts : list Z) : CircuitBreaker :=
  foldl (fun b t => record_failure t b) b ts.

Lemma record_failure_config t b :
  failure_threshold (record_failure t b) = failure_threshold b /\
  recovery_time (record_failure t b) = recovery_time b /\
  failures (record_failure t b) = (failures b + 1)%Z.
Proof. unfold record_failure. by destruct (_ || _). Qed.

Lemma fail_all_state b ts :
  br_state b = Closed -> (failures b < failure_threshold b)%Z ->
  br_state (fail_all b ts) =
    if (failure_threshold b <=? failures b + Z.of_nat (length ts))%Z then Opened else Closed.
Proof.
  intros Hc Hf. unfold fail_all. induction ts as [|t ts IH] using rev_ind.
  { cbn [foldl length]. rewrite Hc. destruct (Z.leb_spec (failure_threshold b) (failures b + Z.of_nat 0)); [exfalso; lia|done]. }
  rewrite foldl_app, length_app. cbn [foldl length].
  set (b1 := foldl _ b ts) in *.
  assert (Hcfg : failure_threshold b1 = failure_threshold b /\
                 failures b1 = (failures b + Z.of_nat (length ts))%Z).
  { clear IH. unfold b1. induction ts as [|t' ts' IH'] using rev_ind; simpl; [split; lia|].
    rewrite foldl_app, length_app. simpl.
    destruct (record_failure_config t' (foldl (fun b t => record_failure t b) b ts')) as (-> & _ & ->).
    destruct IH' as [-> ->]. split; [done|lia]. }
  destruct Hcfg as [Ht Hn]. unfold record_failure. rewrite Ht, Hn.
  destruct (Z.leb_spec (failure_threshold b) (failures b + Z.of_nat (length ts))) as [Hle|Hlt].
  - replace (failure_threshold b <=? failures b + Z.of_nat (length ts) + 1)%Z with true by lia.
    rewrite orb_true_r. cbn [br_state with_state]. destruct (Z.leb_spec (failure_threshold b) (failures b + Z.of_nat (length ts + 1))); [done|exfalso; lia].
  - rewrite IH. rewrite bool_decide_false by done. cbn [orb].
    destruct (Z.leb_spec (failure_threshold b) (failures b + Z.of_nat (length ts) + 1));
      cbn [br_state with_state].
    + destruct (Z.leb_spec (failure_threshold b) (failures b + Z.of_nat (length ts + 1))); [done|exfalso; lia].
    + destruct (Z.leb_spec (failure_threshold b) (failures b + Z.of_nat (length ts + 1))); [exfalso; lia|done].
Qed.

(** ** The retry loop *)

Section Loop.
Context {W A : Type} (clk : M exn W Z) (breaker : option (BreakerRef W)) (transient : exn -> bool)
  (cls : domain_cls) (op : M exn W A).
Hypothesis clk_ok : forall w, exists t w', clk w = (Ok t, w').

Lemma breaker_allow_ok w : exists b w', breaker_allow clk breaker w = (Ok b, w').
Proof.
  unfold breaker_allow. destruct breaker as [r|]; [|by eexists _, _].
  destruct (clk_ok w) as (t & w1 & E). erewrite bind_Ok by exact E. erewrite bind_Ok by done.
  destruct (allow t (ref_get r w1)) as [ok b']. by eexists _, _.
Qed.

Lemma breaker_update_ok f w : exists w', breaker_update clk breaker f w = (Ok tt, w').
Proof.
  unfold breaker_update. destruct breaker as [r|]; [|by eexists].
  destruct (clk_ok w) as (t & w1 & E). erewrite bind_Ok by exact E. by eexists.
Qed.

Lemma breaker_name_ok w : exists n, breaker_name breaker w = (Ok n, w).
Proof. unfold breaker_name. destruct breaker; by eexists. Qed.

(** What may come out of the loop. *)
Definition escapes (e : exn) : Prop :=
  e = ECancelled \/ transient e = false \/ is_external e = true \/ exists m, e = EDomain cls m.

Lemma loop_escapes n w e : (0 < n)%nat ->
  (resilient_loop clk breaker transient cls op n w).1 = Raise e -> escapes e.
Proof.
  revert w. induction n as [|n IH]; intros w Hn H; [lia|]. cbn [resilient_loop] in H.
  destruct (breaker_allow_ok w) as (ok & w1 & E1). erewrite bind_Ok in H by exact E1.
  destruct ok; simpl in H.
  2:{ destruct (breaker_name_ok w1) as [nm E2]. erewrite bind_Ok in H by exact E2.
      unfold raise in H. simpl in H. injection H as <-. right; right; left. reflexivity. }
  unfold bind at 1 in H. unfold catch in H.
  destruct (bind op _ w1) as [r w2] eqn:Eop. destruct r as [x|x].
  - unfold bind in Eop. destruct (op w1) as [[a|x'] w']; [|done]. unfold ret in Eop.
    injection Eop as <- <-. destruct (breaker_update_ok (fun _ => record_success) w') as [w3 E3].
    by erewrite bind_Ok in H by exact E3.
  - assert (Hcase : x = ECancelled \/ transient x = false \/ (x ≠ ECancelled /\ transient x = true)).
    { destruct (transient x); [|auto]. destruct x; auto; right; right; done. }
    destruct Hcase as [->|[Ht|[Hne Ht]]].
    + simpl in H. injection H as <-. by left.
    + assert (e = x) as ->.
      { destruct x; rewrite ?Ht in H; unfold raise, bind in H; simpl in H; by injection H as <-. }
      right; by left.
    + assert (H' : ((breaker_update clk breaker record_failure ;;;
               match n with O => give_last cls x | S _ => resilient_loop clk breaker transient cls op n end)
               w2).1 = Raise e).
      { destruct x; rewrite ?Ht in H; try done. }
      clear H. destruct (breaker_update_ok record_failure w2) as [w3 E3].
      erewrite bind_Ok in H' by exact E3. destruct n as [|n]; [|apply (IH w3); [lia|exact H']].
      unfold give_last in H'. destruct (is_external x) eqn:Ex; unfold raise in H'; simpl in H';
        injection H' as <-; [right; right; by left|right; right; right; by eexists].
Qed.

(** The operation runs at most once per attempt. *)
Context (count : W -> nat).
Hypothesis clk_count : forall w, count (clk w).2 = count w.
Hypothesis set_count : forall r b w, breaker = Some r -> count (ref_set r b w) = count w.
Hypothesis op_count : forall w, (count (op w).2 <= S (count w))%nat.

Lemma allow_count w : count (breaker_allow clk breaker w).2 = count w.
Proof.
  unfold breaker_allow. destruct breaker as [r|] eqn:Eb; [|done].
  pose proof (clk_count w) as Hc. destruct (clk_ok w) as (t & w1 & E). rewrite E in Hc.
  erewrite bind_Ok by exact E. erewrite bind_Ok by done.
  destruct (allow t (ref_get r w1)) as [ok b']. erewrite bind_Ok by done. simpl in *.
  by rewrite set_count.
Qed.

Lemma update_count f w : count (breaker_update clk breaker f w).2 = count w.
Proof.
  unfold breaker_update. destruct breaker as [r|] eqn:Eb; [|done].
  pose proof (clk_count w) as Hc. destruct (clk_ok w) as (t & w1 & E). rewrite E in Hc.
  erewrite bind_Ok by exact E. erewrite bind_Ok by done. simpl in *. by rewrite set_count.
Qed.

Lemma loop_count n w :
  (count (resilient_loop clk breaker transient cls op n w).2 <= count w + n)%nat.
Proof.
  revert w. induction n as [|n IH]; intros w; [simpl; lia|]. cbn [resilient_loop].
  pose proof (allow_count w) as C1. destruct (breaker_allow_ok w) as (ok & w1 & E1).
  rewrite E1 in C1. simpl in C1. erewrite bind_Ok by exact E1. destruct ok; simpl.
  2:{ destruct (breaker_name_ok w1) as [nm E2]. erewrite bind_Ok by exact E2. simpl. lia. }
  pose proof (op_count w1) as C2. unfold bind at 1. unfold catch. unfold bind at 1.
  destruct (op w1) as [[a|x] w2]; simpl in C2.
  - unfold ret at 1. pose proof (update_count (fun _ => record_success) w2) as C3.
    destruct (breaker_update_ok (fun _ => record_success) w2) as [w3 E3].
    erewrite bind_Ok by exact E3. rewrite E3 in C3. simpl in *. lia.
  - assert (Hrest : (count ((breaker_update clk breaker record_failure ;;;
               match n with O => give_last cls x | S _ => resilient_loop clk breaker transient cls op n end)
               w2).2 <= count w + S n)%nat).
    { pose proof (update_count record_failure w2) as C3.
      destruct (breaker_update_ok record_failure w2) as [w3 E3]. rewrite E3 in C3. simpl in C3.
      erewrite bind_Ok by exact E3. destruct n as [|n].
      - unfold give_last. destruct (is_external x); simpl; lia.
      - specialize (IH w3). lia. }
    destruct x; try destruct (transient _); unfold raise, ret; simpl; first [exact Hrest | lia].
Qed.
End Loop.
