(* ===== verification/Channels.v ===== *)
(** The notification-channel port (src/core/notifications/ports.py) and its
    adapters (src/core/notifications/channels/*.py).

    An instance is known by a key: its breaker and, for Eskiz, its bearer
    token live in the process under that key. The platform's instances last
    as long as the process; a tenant's is built for one message. *)

From stdpp Require Import base strings gmap list pretty.
From Stdlib Require Import ZArith Lia Ascii.
From S2P Require Import Prelude Errors PyLib Calendar Entities Models Events Session SessionFacts.
From S2P Require Import Resilience ResilienceFacts Templates.

Record RenderedMessage : Set := mkMessage {
  ms_notification_id : uuid; ms_address : string; ms_subject : option string; ms_body : string;
  ms_locale : string }.

(** The result is the provider's message id. *)
Record NotificationChannel : Type := mkChannel {
  ch_configured : bool; ch_send : RenderedMessage -> SM (option string) }.

(** What the dispatcher relies on: sending does not touch the database. *)
Class ChannelLaws (c : NotificationChannel) : Prop :=
  channel_quiet : forall m, steps quiet (ch_send c m).

Definition temporary {A} (msg : string) : SM A := raise (EDomain ChannelTemporaryError msg).
Definition permanent {A} (msg : string) : SM A := raise (EDomain ChannelPermanentError msg).

(** A call over the network. *)
Definition net {A} (f : nat -> A) : SM A := fun s =>
  (Ok (f (n_http s)),
   mkSt (env s) (db s) (committed s) (aborted s) (callbacks s) (published s) (resolved s)
        (n_now s) (n_uuid s) (n_token s) (n_rival s) (breakers s) (S (n_http s)) (redis s)
        (blobs s) (tokens s)).

Definition st_tokens (f : gmap string string -> gmap string string) (s : St) : St :=
  mkSt (env s) (db s) (committed s) (aborted s) (callbacks s) (published s) (resolved s)
       (n_now s) (n_uuid s) (n_token s) (n_rival s) (breakers s) (n_http s) (redis s)
       (blobs s) (f (tokens s)).

Definition str_truthy (o : option string) : bool :=
  match o with Some s => negb (str_empty s) | None => false end.
(** [s or None] *)
Definition or_none (s : string) : option string := if str_empty s then None else Some s.

(** [response.json()] as an object, and [d.get(k)] *)
Definition json_object (body : option json) : SM (list (string * json)) :=
  match body with
  | None => raise EValue
  | Some (JObj o) => ret o
  | Some _ => raise EAttribute
  end.
Definition get_key (k : string) (o : list (string * json)) : json := default JNull (assoc k o).

(** [d[k]] of a JSON value *)
Definition index (v : json) (k : string) : SM json :=
  match v with
  | JObj o => lift_res (need (assoc k o) EKey)
  | _ => raise EType
  end.

Definition retryable (status : Z) : bool := (500 <=? status)%Z || (status =? 429)%Z.

Definition channel_breaker (key name : string) : BreakerRef St :=
  breaker_at key (new_breaker name 5 (60 * SECOND)).

Definition resiliently {A} (key name : string) (op : SM A) : SM A :=
  call_resilient monotonic (Some (channel_breaker key name)) TRANSIENT_ERRORS ChannelTemporaryError
    op (Some (mkRetry 2)).

Section Channels.
Context (lib : NoticeLib).

(** ** telegram.py *)

Definition TELEGRAM_API_BASE : string := "https://api.telegram.org".

Definition telegram_op (bot_token : string) (message : RenderedMessage) : SM string :=
  response <- net (fun k => nl_post lib k [TELEGRAM_API_BASE +:+ "/bot" +:+ bot_token +:+ "/sendMessage"]
                     [("chat_id", ms_address message); ("text", ms_body message)]) ;;
  match response with
  | HttpError m => temporary ("telegram transport error: " +:+ m)
  | HttpResponse status body =>
      if retryable status then temporary ("telegram http " +:+ pretty status)
      else
        data <- json_object body ;;
        en <- gets env ;;
        if negb (truthy (get_key "ok" data))
        then permanent ("telegram rejected: " +:+ py_str en (get_key "description" data))
        else
          result <- index (JObj data) "result" ;;
          message_id <- index result "message_id" ;;
          ret (py_str en message_id)
  end.

Definition telegram_send (key : string) (bot_token : option string) (message : RenderedMessage)
    : SM (option string) :=
  match bot_token with
  | Some token =>
      if str_empty token then ret None
      else message_id <- resiliently key "telegram" (telegram_op token message) ;; ret (Some message_id)
  | None => ret None
  end.

Definition telegram_channel (key : string) (bot_token : option string) : NotificationChannel :=
  mkChannel (str_truthy bot_token) (telegram_send key bot_token).

(** ** eskiz.py *)

Definition ESKIZ_API_BASE : string := "https://notify.eskiz.uz/api".
Definition MAX_SMS_LEN : nat := 280.
Definition DEFAULT_SENDER : string := "4546".

(** [re.sub(r"\D", "", raw)] *)
Fixpoint only_digits (s : string) : string :=
  match s with
  | EmptyString => EmptyString
  | String c s' => if ch_digit c then String c (only_digits s') else only_digits s'
  end.

Definition normalize_uz_phone (raw : string) : res exn string :=
  let digits := only_digits raw in
  let digits := if Nat.eqb (String.length digits) 9 then "998" +:+ digits else digits in
  if Nat.eqb (String.length digits) 12 && startswith digits "998" then Ok digits
  else Raise (EDomain ChannelPermanentError
                ("not a valid UZ phone number: " +:+ mask_address raw)).

(** [_ensure_token] *)
Definition eskiz_ensure_token (key email password : string) : SM (res string string) :=
  held <- gets (fun s => tokens s !! key) ;;
  match held with
  | Some t => ret (Ok t)
  | None =>
      response <- net (fun k => nl_post lib k [ESKIZ_API_BASE +:+ "/auth/login"]
                         [("email", email); ("password", password)]) ;;
      match response with
      | HttpError m => ret (Raise m)
      | HttpResponse status body =>
          if retryable status then temporary ("eskiz auth http " +:+ pretty status)
          else if (400 <=? status)%Z then permanent ("eskiz auth rejected: http " +:+ pretty status)
          else
            o <- json_object body ;;
            en <- gets env ;;
            let token := match assoc "data" o with
                         | None => Ok JNull
                         | Some (JObj d) => Ok (get_key "token" d)
                         | Some _ => Raise EAttribute
                         end in
            v <- lift_res token ;;
            if negb (truthy v) then temporary "eskiz auth returned no token"
            else modify (st_tokens <[key := py_str en v]>) ;;; ret (Ok (py_str en v))
      end
  end.

(** [_post_sms]; [Raise m]: httpx.HTTPError *)
Definition eskiz_post_sms (key email password phone body : string)
    : SM (res string (Z * option json)) :=
  token <- eskiz_ensure_token key email password ;;
  match token with
  | Raise m => ret (Raise m)
  | Ok t =>
      response <- net (fun k => nl_post lib k [ESKIZ_API_BASE +:+ "/message/sms/send";
                                               "Bearer " +:+ t]
                         [("mobile_phone", phone); ("message", body); ("from", DEFAULT_SENDER)]) ;;
      ret (match response with
           | HttpError m => Raise m
           | HttpResponse status b => Ok (status, b)
           end)
  end.

(** [_parse_send] *)
Definition eskiz_parse_send (status : Z) (body : option json) : SM string :=
  if retryable status then temporary ("eskiz http " +:+ pretty status)
  else if (400 <=? status)%Z then permanent ("eskiz rejected: http " +:+ pretty status)
  else
    data <- json_object body ;;
    en <- gets env ;;
    if bool_decide (py_str en (get_key "status" data) = "error")
    then permanent ("eskiz error: " +:+ py_str en (get_key "message" data))
    else ret (if truthy (get_key "id" data) then py_str en (get_key "id" data) else "").

(** [send]'s operation: a 401 drops the token and posts again, once. *)
Definition eskiz_op (key email password phone body : string) : SM string :=
  first <- eskiz_post_sms key email password phone body ;;
  response <- match first with
              | Ok (401%Z, _) =>
                  modify (st_tokens (delete key)) ;;; eskiz_post_sms key email password phone body
              | r => ret r
              end ;;
  match response with
  | Raise m => temporary ("eskiz transport error: " +:+ m)
  | Ok (status, b) => eskiz_parse_send status b
  end.

Definition eskiz_configured (email password : option string) : bool :=
  str_truthy email && str_truthy password.

Definition eskiz_send (key : string) (email password : option string) (message : RenderedMessage)
    : SM (option string) :=
  if negb (eskiz_configured email password) then ret None
  else
    phone <- lift_res (normalize_uz_phone (ms_address message)) ;;
    let body := str_take MAX_SMS_LEN (ms_body message) in
    message_id <- resiliently key "sms_eskiz"
                    (eskiz_op key (default "" email) (default "" password) phone body) ;;
    ret (Some message_id).

Definition eskiz_channel (key : string) (email password : option string) : NotificationChannel :=
  mkChannel (eskiz_configured email password) (eskiz_send key email password).

(** ** email.py *)

Record EmailConfig : Set := mkEmail {
  em_host : option string; em_port : Z; em_username : option string; em_password : option string;
  em_from : string }.

(** [_deliver] *)
Definition email_deliver (cfg : EmailConfig) (host : string) (headers : list (string * string))
    : SM unit :=
  let login := if str_truthy (em_username cfg) && str_truthy (em_password cfg)
               then [default "" (em_username cfg); default "" (em_password cfg)] else [] in
  r <- net (fun k => nl_smtp lib k (host :: pretty (em_port cfg) :: login) headers) ;;
  match r with
  | SmtpDelivered => ret tt
  | SmtpRefused m => permanent ("smtp refused address: " +:+ m)
  | SmtpFailed m => temporary ("smtp error: " +:+ m)
  | SmtpRaised e => raise e
  end.

Definition email_send (key : string) (cfg : EmailConfig) (message : RenderedMessage)
    : SM (option string) :=
  match em_host cfg with
  | Some host =>
      if str_empty host then ret None
      else
        let headers := [("From", em_from cfg); ("To", ms_address message);
                        ("Subject", default "" (ms_subject message)); ("", ms_body message)] in
        match nl_message lib headers with
        | Some e => raise e
        | None => resiliently key "email" (email_deliver cfg host headers) ;;; ret None
        end
  | None => ret None
  end.

Definition email_channel (key : string) (cfg : EmailConfig) : NotificationChannel :=
  mkChannel (str_truthy (em_host cfg)) (email_send key cfg).

(** ** channels/__init__.py *)

Record ChannelSettings : Set := mkChannelSettings {
  telegram_bot_token : string; eskiz_email : string; eskiz_password : string;
  smtp_host : string; smtp_port : Z; smtp_user : string; smtp_password : string;
  smtp_from : string }.

Definition build_notification_channels (st : ChannelSettings) : list (string * NotificationChannel) :=
  [("telegram", telegram_channel "telegram" (or_none (telegram_bot_token st)));
   ("sms_eskiz", eskiz_channel "sms_eskiz" (or_none (eskiz_email st)) (or_none (eskiz_password st)));
   ("email", email_channel "email"
      (mkEmail (or_none (smtp_host st)) (smtp_port st) (or_none (smtp_user st))
         (or_none (smtp_password st)) (smtp_from st)))].

(** A new instance: a closed breaker, no token. *)
Definition new_instance (key name : string) : SM unit :=
  modify (fun s => st_tokens (delete key)
    (ref_set (channel_breaker key name) (new_breaker name 5 (60 * SECOND)) s)).

Definition TENANT_INSTANCE : string := "tenant".

Definition build_channel_from_config (channel : string) (config : list (string * json))
    : SM NotificationChannel :=
  en <- gets env ;;
  let field k := v <- index (JObj config) k ;; ret (py_str en v) in
  if bool_decide (channel = "telegram") then
    token <- field "bot_token" ;;
    new_instance TENANT_INSTANCE channel ;;;
    ret (telegram_channel TENANT_INSTANCE (Some token))
  else if bool_decide (channel = "sms_eskiz") then
    email <- field "email" ;;
    password <- field "password" ;;
    new_instance TENANT_INSTANCE channel ;;;
    ret (eskiz_channel TENANT_INSTANCE (Some email) (Some password))
  else if bool_decide (channel = "email") then
    host <- field "host" ;;
    port_str <- field "port" ;;
    port <- lift_res (need (py_int 10 port_str) EValue) ;;
    username <- field "username" ;;
    password <- field "password" ;;
    from_address <- field "from_address" ;;
    new_instance TENANT_INSTANCE channel ;;;
    ret (email_channel TENANT_INSTANCE
           (mkEmail (Some host) port (Some username) (Some password) from_address))
  else raise EValue.
End Channels.

(** ** The adapters keep the port's law *)

Lemma quiet_net {A} (f : nat -> A) : steps quiet (net f).
Proof. done. Qed.
Lemma quiet_tokens f : steps quiet (modify (E:=exn) (st_tokens f)).
Proof. done. Qed.
Lemma quiet_temporary {A} m : steps quiet (temporary (A:=A) m).
Proof. done. Qed.
Lemma quiet_permanent {A} m : steps quiet (permanent (A:=A) m).
Proof. done. Qed.
Lemma quiet_json_object b : steps quiet (json_object b).
Proof. unfold json_object. steps_walk. Qed.
Lemma quiet_index v k : steps quiet (index v k).
Proof. unfold index. steps_walk. Qed.
#[export] Hint Resolve quiet_net quiet_tokens quiet_temporary quiet_permanent quiet_json_object
  quiet_index : steps.

Lemma quiet_resiliently {A} key name (op : SM A) : steps quiet op -> steps quiet (resiliently key name op).
Proof. intros Hop. unfold resiliently, call_resilient, channel_breaker. by apply quiet_resilient. Qed.

Section Laws.
Context (lib : NoticeLib).

#[export] Instance telegram_laws key token : ChannelLaws (telegram_channel lib key token).
Proof.
  intros m. simpl. unfold telegram_send. steps_walk. apply quiet_resiliently.
  unfold telegram_op. steps_walk.
Qed.

Lemma quiet_ensure_token key e p : steps quiet (eskiz_ensure_token lib key e p).
Proof. unfold eskiz_ensure_token. steps_walk. Qed.
Lemma quiet_post_sms key e p ph b : steps quiet (eskiz_post_sms lib key e p ph b).
Proof. pose proof quiet_ensure_token. unfold eskiz_post_sms. steps_walk. Qed.
Lemma quiet_eskiz_op key e p ph b : steps quiet (eskiz_op lib key e p ph b).
Proof. pose proof quiet_post_sms. unfold eskiz_op, eskiz_parse_send. steps_walk. Qed.

#[export] Instance eskiz_laws key e p : ChannelLaws (eskiz_channel lib key e p).
Proof.
  intros m. simpl. unfold eskiz_send. steps_walk. apply quiet_resiliently, quiet_eskiz_op.
Qed.

#[export] Instance email_laws key cfg : ChannelLaws (email_channel lib key cfg).
Proof.
  intros m. simpl. unfold email_send. steps_walk. apply quiet_resiliently.
  unfold email_deliver. steps_walk.
Qed.

Lemma platform_laws st code c :
  assoc code (build_notification_channels lib st) = Some c -> ChannelLaws c.
Proof.
  unfold build_notification_channels. simpl. intros H.
  repeat (case_bool_decide; [injection H as <-; apply _|]). done.
Qed.

Lemma quiet_build channel config : steps quiet (build_channel_from_config lib channel config).
Proof.
  assert (forall key name, steps quiet (new_instance key name)) by done.
  unfold build_channel_from_config. steps_walk.
Qed.

Lemma built_laws channel config s c s' :
  build_channel_from_config lib channel config s = (Ok c, s') -> ChannelLaws c.
Proof.
  unfold build_channel_from_config. intros H. apply bind_inv_Ok in H as (en & s1 & _ & H).
  repeat case_bool_decide;
    repeat match type of H with
    | bind _ _ _ = (Ok _, _) => apply bind_inv_Ok in H as (? & ? & _ & H)
    end; unfold ret, raise in H; simplify_eq; apply _.
Qed.
End Laws.
