(* ===== verification/Dispatch.v ===== *)
(** The outbox dispatcher (src/core/notifications/dispatcher.py) and the
    retention sweep (retention.py).

    [skip] says which rows another worker has locked: SKIP LOCKED passes over
    them. *)

From stdpp Require Import base strings gmap list sorting pretty.
From Stdlib Require Import ZArith Lia Ascii.
From S2P Require Import Prelude Errors PyLib Calendar Entities Models Events Session SessionFacts.
From S2P Require Import Resilience Cache Templates Notices Channels.

Definition DUE_STATES (s : outbox_status) : bool := negb (terminal s).
Definition BACKOFF_BASE_SECONDS : Z := 60.
Definition BACKOFF_CAP_SECONDS : Z := 16 * 60.
Definition SMS_CHANNEL : string := "sms_eskiz".

Definition dispatcher_actor : Actor := mkActor KSystem (Some "notifications.dispatcher").

(** [_ClaimedRow] *)
Record ClaimedRow : Set := mkClaimed {
  cl_id : uuid; cl_notification_id : uuid; cl_tenant_id : option uuid; cl_channel : string;
  cl_recipient : string; cl_template_key : string; cl_locale : string;
  cl_params : list (string * json); cl_attempts : Z }.

Record DispatchSettings : Set := mkDispatchSettings {
  notification_lease_seconds : Z; notification_max_attempts : Z; sms_daily_cap_per_tenant : Z;
  notification_retention_days : Z }.

(** ** Changes of a row *)

Definition ob_claim (lease_deadline : datetime) (o : NotificationOutbox) : NotificationOutbox :=
  mkOutbox (ob_id o) (ob_notification_id o) (ob_dedup_key o) (ob_tenant_id o) (ob_channel o)
    (ob_recipient o) (ob_template_key o) (ob_locale o) (ob_params o) ObSending
    (ob_attempts o + 1) lease_deadline (ob_last_error o) (ob_provider_message_id o)
    (ob_sent_at o) (ob_created_at o).

Definition ob_sent (t : datetime) (message_id : option string) (o : NotificationOutbox)
    : NotificationOutbox :=
  mkOutbox (ob_id o) (ob_notification_id o) (ob_dedup_key o) (ob_tenant_id o) (ob_channel o)
    (ob_recipient o) (ob_template_key o) (ob_locale o) (ob_params o) ObSent (ob_attempts o)
    (ob_next_retry_at o) None message_id (Some t) (ob_created_at o).

Definition ob_failed (next_retry : datetime) (error : string) (o : NotificationOutbox)
    : NotificationOutbox :=
  mkOutbox (ob_id o) (ob_notification_id o) (ob_dedup_key o) (ob_tenant_id o) (ob_channel o)
    (ob_recipient o) (ob_template_key o) (ob_locale o) (ob_params o) ObFailed (ob_attempts o)
    next_retry (Some (str_take 500 error)) (ob_provider_message_id o) (ob_sent_at o)
    (ob_created_at o).

Definition ob_dead (error : string) (o : NotificationOutbox) : NotificationOutbox :=
  mkOutbox (ob_id o) (ob_notification_id o) (ob_dedup_key o) (ob_tenant_id o) (ob_channel o)
    (ob_recipient o) (ob_template_key o) (ob_locale o) (ob_params o) ObDead (ob_attempts o)
    (ob_next_retry_at o) (Some (str_take 500 error)) (ob_provider_message_id o) (ob_sent_at o)
    (ob_created_at o).

Definition claimed_row (o : NotificationOutbox) : ClaimedRow :=
  mkClaimed (ob_id o) (ob_notification_id o) (ob_tenant_id o) (ob_channel o) (ob_recipient o)
    (ob_template_key o) (ob_locale o) (ob_params o) (ob_attempts o).

Section Dispatcher.
Context (lib : NoticeLib) (settings : DispatchSettings) (registry : TemplateRegistry)
  (channels : list (string * NotificationChannel)).

Definition is_due (t : datetime) (o : NotificationOutbox) : bool :=
  DUE_STATES (ob_status o) && (ob_next_retry_at o <=? t)%Z.

(** [_claim_batch] *)
Definition claim_batch (skip : uuid -> bool) (batch : nat) : SM (list ClaimedRow) :=
  t <- now ;;
  with_uow (
    due <- query (fun o => is_due t o && negb (skip (ob_id o))) ;;
    let rows := take batch (order_asc ob_next_retry_at due) in
    let lease_deadline := (t + timedelta_seconds (notification_lease_seconds settings))%Z in
    for_each rows (fun o => upd (R:=NotificationOutbox) (ob_id o) (ob_claim lease_deadline)) ;;;
    ret ((fun o => claimed_row (ob_claim lease_deadline o)) <$> rows)).

(** [_update_row]: a transaction of its own. *)
Definition update_row (row_id : uuid) (apply : SM (NotificationOutbox -> NotificationOutbox))
    : SM unit :=
  with_uow (
    row <- session_get (R:=NotificationOutbox) row_id ;;
    match row with
    | None => ret tt
    | Some _ => f <- apply ;; upd (R:=NotificationOutbox) row_id f
    end).

Definition mark_sent (row : ClaimedRow) (message_id : option string) : SM unit :=
  update_row (cl_id row) (t <- now ;; ret (ob_sent t message_id)).

(** [min(60 * 2 ** (attempts - 1), 960)] *)
Definition backoff_delay (attempts : Z) : Z :=
  Z.min (BACKOFF_BASE_SECONDS * 2 ^ (attempts - 1)) BACKOFF_CAP_SECONDS.

Definition reschedule (row : ClaimedRow) (error : string) : SM unit :=
  t <- now ;;
  let next_retry := (t + timedelta_seconds (backoff_delay (cl_attempts row)))%Z in
  update_row (cl_id row) (ret (ob_failed next_retry error)).

Definition dead (row : ClaimedRow) (error : string) : SM unit :=
  update_row (cl_id row) (ret (ob_dead error)) ;;;
  i <- new_uuid7 ;;
  t <- now ;;
  publish_now (mkEnvelope i "notifications.message.failed" 1 t (cl_tenant_id row) dispatcher_actor
    [("notification_id", JStr (uuid_str (cl_notification_id row)));
     ("channel", JStr (cl_channel row)); ("recipient", JStr (mask_address (cl_recipient row)));
     ("template_key", JStr (cl_template_key row)); ("error", JStr (str_take 200 error))]).

(** [_resolve_channel] *)
Definition setting_of (tenant : uuid) (channel : string) : SM (option NotificationSetting) :=
  with_uow (
    l <- query (fun x => bool_decide (ns_tenant_id x = tenant)
                         && bool_decide (ns_channel x = channel) && ns_is_enabled x) ;;
    scalar_one_or_none l).

Definition platform_channel (row : ClaimedRow) : SM NotificationChannel :=
  lift_res (need (assoc (cl_channel row) channels) EKey).

Definition tenant_channel (row : ClaimedRow) (blob : string) : SM NotificationChannel :=
  plain <- lift_res (need (nl_decrypt lib blob) (EOther "InvalidToken")) ;;
  en <- gets env ;;
  config <- lift_res (need (py_json_loads en plain) EValue) ;;
  match config with
  | JObj o => build_channel_from_config lib (cl_channel row) o
  | _ => raise EType
  end.

Definition resolve_channel (row : ClaimedRow) : SM NotificationChannel :=
  match cl_tenant_id row with
  | None => platform_channel row
  | Some tenant =>
      setting <- setting_of tenant (cl_channel row) ;;
      match setting with
      | Some x => tenant_channel row (ns_config_encrypted x)
      | None => platform_channel row
      end
  end.

Definition is_permanent (e : exn) : bool :=
  match e with EDomain c _ => subclass c ChannelPermanentError | _ => false end.
Definition is_not_found (e : exn) : bool :=
  match e with EDomain c _ => subclass c NotFoundError | _ => false end.

(** The end of [_process_row]: one attempt to send. *)
Definition deliver_row (channel : NotificationChannel) (message : RenderedMessage)
    (row : ClaimedRow) : SM unit :=
  r <- catch (id <- ch_send channel message ;; ret (Ok id)) (fun e =>
         match e with ECancelled => raise ECancelled | _ => ret (Raise e) end) ;;
  match r with
  | Ok message_id => mark_sent row message_id
  | Raise e =>
      if is_permanent e then dead row ("permanent: " +:+ exn_message e)
      else if (notification_max_attempts settings <=? cl_attempts row)%Z
      then dead row ("exhausted: " +:+ exn_message e)
      else reschedule row (exn_message e)
  end.

(** [_process_row] *)
Definition process_row (row : ClaimedRow) : SM unit :=
  en <- gets env ;;
  match registry_render lib en registry (cl_template_key row) (cl_locale row) (cl_params row) with
  | Raise e => if is_not_found e then dead row ("unknown template: " +:+ exn_message e) else raise e
  | Ok rendered =>
      channel <- resolve_channel row ;;
      admitted <- (if bool_decide (cl_channel row = SMS_CHANNEL) && ch_configured channel
                   then try_consume (sms_daily_cap_per_tenant settings) (cl_tenant_id row)
                   else ret true) ;;
      if negb admitted then dead row "sms_daily_cap_exceeded"
      else deliver_row channel
             (mkMessage (cl_notification_id row) (cl_recipient row) (rd_subject rendered)
                (rd_body rendered) (cl_locale row)) row
  end.

(** An unexpected error is logged and the row falls due again after its
    lease; a cancellation is no Exception. *)
Definition log_row (row : ClaimedRow) (e : exn) : SM (list uuid) :=
  match e with ECancelled => raise ECancelled | _ => ret [cl_id row] end.

(** The loop over the claimed rows. The result lists the rows logged. *)
Fixpoint process_all (claimed : list ClaimedRow) : SM (list uuid) :=
  match claimed with
  | [] => ret []
  | row :: rest =>
      logged <- catch (process_row row ;;; ret []) (log_row row) ;;
      others <- process_all rest ;;
      ret (logged ++ others)
  end.

(** One pass: the rows claimed and the rows logged. *)
Definition dispatch_pass (skip : uuid -> bool) (batch : nat) : SM (list ClaimedRow * list uuid) :=
  claimed <- claim_batch skip batch ;;
  logged <- process_all claimed ;;
  ret (claimed, logged).

(** [dispatch_due_notifications] *)
Definition dispatch_due_notifications (skip : uuid -> bool) (batch : nat) : SM Z :=
  pass <- dispatch_pass skip batch ;; ret (Z.of_nat (length pass.1)).

(** ** retention.py *)

Definition NOTICE_SWEEP_BATCH : nat := 1000.

Definition expired_notice (cutoff : datetime) (o : NotificationOutbox) : bool :=
  terminal (ob_status o) && (ob_created_at o <? cutoff)%Z.

Definition purge_expired_notifications : SM Z :=
  t <- now ;;
  let cutoff := (t - timedelta_days (notification_retention_days settings))%Z in
  with_uow (
    l <- query (expired_notice cutoff) ;;
    let oldest := ob_id <$> take NOTICE_SWEEP_BATCH (order_asc ob_created_at l) in
    delete_where (fun o : NotificationOutbox => bool_decide (ob_id o ∈ oldest))).
End Dispatcher.
