(* ===== verification/DispatchFacts.v ===== *)
(** Facts about the dispatcher: what one pass does to the outbox, and that
    every message is sent or given up. *)

From stdpp Require Import base strings gmap list sorting.
From Stdlib Require Import ZArith Lia Ascii.
From S2P Require Import Prelude Errors PyLib Calendar Entities Models Events Session SessionFacts.
From S2P Require Import Resilience Footprints Cache Templates Notices.
From S2P Require Import NoticeFacts Channels Dispatch.

(** ** One row *)

(** What a message says, to whom, and how far its delivery has come. *)
Definition message_of (o : NotificationOutbox) :=
  (ob_id o, ob_notification_id o, ob_dedup_key o, ob_tenant_id o, ob_channel o, ob_recipient o,
   ob_template_key o, ob_locale o, ob_params o, ob_created_at o).

(** What processing makes of a claimed row. *)
Definition finish (o o' : NotificationOutbox) : Prop :=
  (exists t m, o' = ob_sent t m o) \/ (exists t e, o' = ob_failed t e o) \/ (exists e, o' = ob_dead e o).

Lemma finish_message o o' :
  finish o o' -> message_of o' = message_of o /\ ob_attempts o' = ob_attempts o.
Proof. by intros [(t & m & ->)|[(t & e & ->)|(e & ->)]]. Qed.

(** One row of the outbox replaced. *)
Definition put_row (i : uuid) (o : NotificationOutbox) (d : Db) : Db :=
  t_set (<[i := o]> (outbox_of d)) d.

Lemma put_row_eq i o d : outbox_of (put_row i o d) !! i = Some o.
Proof. apply lookup_insert_eq. Qed.
Lemma put_row_ne i j o d : j ≠ i -> outbox_of (put_row i o d) !! j = outbox_of d !! j.
Proof. intros Hne. by apply lookup_insert_ne. Qed.

Lemma put_row_ok i o o' d :
  outbox_of d !! i = Some o -> uq_dedup o' = uq_dedup o -> db_ok d = true ->
  db_ok (put_row i o' d) = true.
Proof.
  intros Hi Hu. unfold db_ok, core_ok, notices_ok, put_row. simpl. intros H.
  repeat match goal with H : _ && _ = true |- _ => apply andb_prop in H as [? ?] end.
  repeat match goal with |- _ && _ = true => apply andb_true_intro; split end; try assumption.
  eapply unique_by_update; [eassumption|exact Hi|by right].
Qed.

Lemma put_row_ranges i o d :
  int16 (ob_attempts o) = true -> db_ranges d = true -> db_ranges (put_row i o d) = true.
Proof.
  intros Ho. unfold db_ranges, core_ranges, put_row. simpl. intros H.
  repeat match goal with H : _ && _ = true |- _ => apply andb_prop in H as [? ?] end.
  repeat match goal with |- _ && _ = true => apply andb_true_intro; split end; try assumption.
  by apply all_rows_insert.
Qed.

Lemma attempts_in_range i o d :
  db_ranges d = true -> outbox_of d !! i = Some o -> int16 (ob_attempts o) = true.
Proof.
  unfold db_ranges, core_ranges. intros H Hi.
  repeat match goal with H : _ && _ = true |- _ => apply andb_prop in H as [? ?] end.
  match goal with H : all_rows _ (n_outbox _) = true |- _ =>
    rewrite all_rows_spec in H; by apply (H i) end.
Qed.

Lemma finish_ok i o o' d :
  outbox_of d !! i = Some o -> finish o o' -> db_ok d = true -> db_ranges d = true ->
  db_ok (put_row i o' d) = true /\ db_ranges (put_row i o' d) = true.
Proof.
  intros Hi Hf Hok Hr. pose proof (finish_message _ _ Hf) as [_ Ha]. split.
  - eapply put_row_ok; [exact Hi| |done]. by destruct Hf as [(?&?&->)|[(?&?&->)|(?&->)]].
  - apply put_row_ranges; [|done]. rewrite Ha. by eapply attempts_in_range.
Qed.

(** ** [update_row] *)

Section UpdateRow.
Context (i : uuid) (apply : SM (NotificationOutbox -> NotificationOutbox))
  (P : NotificationOutbox -> NotificationOutbox -> Prop).
Hypothesis Happly : forall s, exists f s', apply s = (Ok f, s') /\ quiet s s' /\ forall o, P o (f o).

Lemma get_row s :
  session_get (R:=NotificationOutbox) i (uow_enter s) =
  (Ok (outbox_of (committed s) !! i), uow_enter s).
Proof. exact (session_get_run (R:=NotificationOutbox) i (uow_enter s) eq_refl). Qed.

(** The row is there: the change is committed unless the commit fails. *)
Lemma update_row_present s o :
  outbox_of (committed s) !! i = Some o ->
  exists o', P o o' /\ env (update_row i apply s).2 = env s /\
    (db_ok (put_row i o' (committed s)) = true -> db_ranges (put_row i o' (committed s)) = true ->
       (update_row i apply s).1 = Ok tt) /\
    (committed (update_row i apply s).2 = put_row i o' (committed s) /\
       (update_row i apply s).1 = Ok tt \/
     committed (update_row i apply s).2 = committed s /\ exists e, (update_row i apply s).1 = Raise e).
Proof.
  intros Hi. destruct (Happly (uow_enter s)) as (f & s1 & Ha & Hq & HP). exists (f o).
  split; [apply HP|]. unfold update_row, with_uow.
  destruct Hq as (Qe & Qd & Qc & Qa & _). simpl in Qe, Qd, Qc, Qa.
  set (s2 := st_db (fun d => t_set (<[i := f o]> (t_get d)) d) s1).
  assert (Hb : (row <- session_get (R:=NotificationOutbox) i ;;
     match row with None => ret tt | Some _ => g <- apply ;; upd (R:=NotificationOutbox) i g end)
     (uow_enter s) = (Ok tt, s2)).
  { erewrite bind_Ok by apply get_row. rewrite Hi. erewrite bind_Ok by exact Ha.
    apply upd_run. change (outbox_of (db s1) !! i = Some o). by rewrite Qd. }
  assert (Hd : db s2 = put_row i (f o) (committed s)).
  { unfold s2, put_row. simpl. by rewrite Qd. }
  erewrite bind_Ok by exact Hb. unfold session_commit, bind. rewrite <- Hd.
  unfold flush. change (aborted s2) with (aborted s1). rewrite Qa.
  destruct (db_ranges (db s2)) eqn:Er, (db_ok (db s2)) eqn:Eo; simpl;
    (split; [done|]); split; (try done); eauto 10.
Qed.

Lemma update_row_absent s :
  outbox_of (committed s) !! i = None ->
  committed (update_row i apply s).2 = committed s /\ env (update_row i apply s).2 = env s.
Proof.
  intros Hi. unfold update_row, with_uow.
  erewrite bind_Ok; [|erewrite bind_Ok by apply get_row; rewrite Hi; reflexivity].
  unfold session_commit, bind. destruct (flush (uow_enter s)) as [[u|e] s2] eqn:Ef;
    apply flush_inv in Ef as (E1 & E2 & E3 & _); simpl; rewrite ?E1, ?E2, ?E3; done.
Qed.
End UpdateRow.

(** ** Processing one row *)

(** A block that does not touch what is committed. *)
Definition calm (s s' : St) : Prop := env s' = env s /\ committed s' = committed s.
#[export] Instance calm_preorder : PreOrder calm.
Proof. split; unfold calm; [done|]. intros x y z [? ?] [? ?]. split; congruence. Qed.

Lemma calm_quiet {A} (m : SM A) : steps quiet m -> steps calm m.
Proof. intros H s. by destruct (H s) as (? & _ & ? & _). Qed.

Lemma calm_uow {A} (body : SM A) : steps quiet body -> steps calm (with_uow body).
Proof.
  intros Hb s. assert (Hi : steps inside body) by (intros s'; by destruct (Hb s') as (?&?&?&?&?&?&?)).
  split; [apply (uow_direct anything body s)|].
  { intros s'. destruct (Hb s') as (?&?&?&?&?&?&?). by split. }
  destruct (uow_inside body s Hi) as [(a & s1 & Hr & _ & _ & _ & _ & _ & Hc)|(e & _ & Hc)]; [|done].
  rewrite Hc. specialize (Hb (uow_enter s)). rewrite Hr in Hb. by destruct Hb as (_ & Hd & _).
Qed.

(** A block that ends row [i], or raises before it does. *)
Definition closing (i : uuid) (Q : NotificationOutbox -> Prop) (m : SM unit) : Prop := forall s,
  env (m s).2 = env s /\
  (committed (m s).2 = committed s /\
     (outbox_of (committed s) !! i = None \/ exists e, (m s).1 = Raise e) \/
   exists o o', outbox_of (committed s) !! i = Some o /\ finish o o' /\ Q o' /\
     committed (m s).2 = put_row i o' (committed s)).

Lemma closing_bind {A} i Q (m : SM A) (k : A -> SM unit) :
  steps calm m -> (forall a s s1, m s = (Ok a, s1) -> closing i Q (k a)) -> closing i Q (bind m k).
Proof.
  intros Hm Hk s. specialize (Hm s). unfold bind. destruct (m s) as [[a|e] s1] eqn:E; simpl in *.
  - destruct Hm as [He Hc], (Hk _ _ _ E s1) as [He' H]. rewrite Hc in H. split; [congruence|done].
  - destruct Hm as [He Hc]. split; [done|]. left. split; [done|]. right. by exists e.
Qed.

Lemma closing_raise i Q e : closing i Q (raise e).
Proof. intros s. split; [done|]. left. split; [done|]. right. by exists e. Qed.

Lemma closing_update i Q apply :
  (forall s, exists f s', apply s = (Ok f, s') /\ quiet s s' /\ forall o, finish o (f o) /\ Q (f o)) ->
  closing i Q (update_row i apply).
Proof.
  intros Ha s. destruct (outbox_of (committed s) !! i) as [o|] eqn:Hi.
  - destruct (update_row_present i apply (fun o o' => finish o o' /\ Q o') Ha s o Hi)
      as (o' & [Hf HQ] & He & _ & [[Hc Hr]|[Hc Hr]]); (split; [done|]); [right|left]; eauto 10.
  - destruct (update_row_absent i apply s Hi) as [Hc He]. auto.
Qed.

(** Nothing after the update undoes it. *)
Lemma closing_then i Q (m k : SM unit) :
  closing i Q m -> steps calm k -> closing i Q (m ;;; k).
Proof.
  intros Hm Hk s. specialize (Hm s). unfold bind. destruct (m s) as [[[]|e] s1]; simpl in *; [|done].
  specialize (Hk s1). destruct (k s1) as [r s2]; simpl in *. destruct Hk as [He Hc].
  rewrite He, Hc. destruct Hm as [H1 H2]. split; [done|].
  destruct H2 as [[H2 [H3|[e' H3]]]|H2]; [left; split; [done|]; by left|done|by right].
Qed.

Section Process.
Context (lib : NoticeLib) (settings : DispatchSettings) (registry : TemplateRegistry)
  (channels : list (string * NotificationChannel)).
Hypothesis Hchannels : forall code c, assoc code channels = Some c -> ChannelLaws c.

(** A row that was processed is over, or may be tried again. *)
Definition settled (row : ClaimedRow) (o : NotificationOutbox) : Prop :=
  terminal (ob_status o) = true \/ (cl_attempts row < notification_max_attempts settings)%Z.

Lemma closing_dead row e : closing (cl_id row) (settled row) (dead row e).
Proof.
  unfold dead. apply closing_then.
  - apply closing_update. intros s. exists (ob_dead e), s. split; [done|]. split; [reflexivity|].
    intros o. split; [right; right; by exists e|by left].
  - by intros s.
Qed.
Lemma closing_sent row m : closing (cl_id row) (settled row) (mark_sent row m).
Proof.
  apply closing_update. intros s. eexists _, _. split; [reflexivity|]. split; [done|].
  intros o. split; [left; by eexists _, _|by left].
Qed.
Lemma closing_reschedule row e :
  (cl_attempts row < notification_max_attempts settings)%Z ->
  closing (cl_id row) (settled row) (reschedule row e).
Proof.
  intros Ha. unfold reschedule. apply closing_bind; [by intros s|]. intros t s s1 _.
  apply closing_update. intros s'. eexists _, s'. split; [reflexivity|]. split; [reflexivity|].
  intros o. split; [right; left; by eexists _, _|by right].
Qed.

Lemma quiet_try_consume cap t : steps quiet (try_consume cap t).
Proof.
  assert (forall k, steps quiet (redis_incr k)) by (intros; unfold redis_incr; steps_walk).
  assert (forall k n, steps quiet (redis_expire k n)) by (intros; unfold redis_expire; steps_walk).
  unfold try_consume. steps_walk.
Qed.

Lemma closing_deliver c m row :
  ChannelLaws c -> closing (cl_id row) (settled row) (deliver_row settings c m row).
Proof.
  intros Hc. unfold deliver_row. apply closing_bind.
  - apply calm_quiet. pose proof (channel_quiet (c:=c) m). steps_walk.
  - intros [id|e] s s1 _; [apply closing_sent|]. destruct (is_permanent e); [apply closing_dead|].
    destruct (_ <=? _)%Z eqn:El; [apply closing_dead|]. apply Z.leb_gt in El.
    by apply closing_reschedule.
Qed.

Lemma calm_resolve row : steps calm (resolve_channel lib channels row).
Proof.
  assert (Hp : steps calm (platform_channel channels row)) by (unfold platform_channel; steps_walk).
  assert (Ht : forall b, steps calm (tenant_channel lib row b)).
  { intros b. apply calm_quiet. pose proof (quiet_build lib). unfold tenant_channel. steps_walk. }
  assert (Hs : forall t c, steps calm (setting_of t c)).
  { intros t c. apply calm_uow. unfold scalar_one_or_none. steps_walk. }
  unfold resolve_channel. steps_walk.
Qed.

Lemma resolved_laws row s c s' : resolve_channel lib channels row s = (Ok c, s') -> ChannelLaws c.
Proof.
  assert (Hp : forall s1, platform_channel channels row s1 = (Ok c, s') -> ChannelLaws c).
  { intros s1. unfold platform_channel, lift_res, need. destruct (assoc _ _) eqn:E; [|done].
    injection 1 as <- <-. by eapply Hchannels. }
  unfold resolve_channel. destruct (cl_tenant_id row); [|apply Hp]. intros H.
  apply bind_inv_Ok in H as ([x|] & s1 & _ & H); [|by eapply Hp].
  unfold tenant_channel in H. apply bind_inv_Ok in H as (p & s2 & _ & H).
  apply bind_inv_Ok in H as (en & s3 & _ & H). apply bind_inv_Ok in H as (cfg & s4 & _ & H).
  destruct cfg; try done. by eapply built_laws.
Qed.

Lemma closing_process row :
  closing (cl_id row) (settled row) (process_row lib settings registry channels row).
Proof.
  unfold process_row. apply closing_bind; [by intros s|]. intros en s0 s1 _.
  destruct (registry_render _ _ _ _ _ _) as [rendered|e].
  2:{ destruct (is_not_found e); [apply closing_dead|apply closing_raise]. }
  apply closing_bind; [apply calm_resolve|]. intros c s2 s3 Hc%resolved_laws.
  apply closing_bind.
  { apply calm_quiet. pose proof quiet_try_consume. steps_walk. }
  intros [] s4 s5 _; simpl; [by apply closing_deliver|apply closing_dead].
Qed.

(** What became of a claimed row [o]: finished, or left as it was and logged. *)
Definition fate (logged : option (list uuid)) (row : ClaimedRow) (o : NotificationOutbox)
    (x : option NotificationOutbox) : Prop :=
  x = Some o /\ match logged with Some l => cl_id row ∈ l | None => True end \/
  exists o', x = Some o' /\ finish o o' /\ settled row o'.

Definition ok_list {A} (r : res exn (list A)) : option (list A) :=
  match r with Ok l => Some l | Raise _ => None end.

Abbreviation process := (process_row lib settings registry channels).
Abbreviation process_rows := (process_all lib settings registry channels).

Lemma process_one_fate row s :
  let m := catch (process row ;;; ret []) (log_row row) in
  env (m s).2 = env s /\
  (forall i, i ≠ cl_id row -> outbox_of (committed (m s).2) !! i = outbox_of (committed s) !! i) /\
  (forall o, outbox_of (committed s) !! cl_id row = Some o ->
     fate (ok_list (m s).1) row o (outbox_of (committed (m s).2) !! cl_id row)).
Proof.
  intros m. destruct (closing_process row s) as [He H]. unfold m, catch, bind.
  destruct (process row s) as [[[]|e] s1]; simpl in *.
  - split; [done|]. destruct H as [[Hc Hr]|(o & o' & Ho & Hf & HQ & Hc)]; rewrite Hc.
    + split; [done|]. intros o Ho. destruct Hr as [Hr|[e Hr]]; congruence.
    + split; [intros i Hi; by apply put_row_ne|]. intros o1 Ho1. right. exists o'.
      rewrite put_row_eq. assert (o1 = o) as -> by congruence. done.
  - assert (Hs : forall r s2, log_row row e s1 = (r, s2) ->
        s2 = s1 /\ match ok_list r with Some l => cl_id row ∈ l | None => True end).
    { destruct e; unfold log_row, ret, raise; intros r s2 [= <- <-]; split; try done; simpl; set_solver. }
    destruct (log_row row e s1) as [r s2] eqn:E.
    destruct (Hs _ _ eq_refl) as [-> Hl]. simpl. split; [done|].
    destruct H as [[Hc Hr]|(o & o' & Ho & Hf & HQ & Hc)]; rewrite Hc.
    + split; [done|]. intros o Ho. by left.
    + split; [intros i Hi; by apply put_row_ne|]. intros o1 Ho1. right. exists o'.
      rewrite put_row_eq. assert (o1 = o) as -> by congruence. done.
Qed.

Lemma process_all_fate rows : NoDup (cl_id <$> rows) -> forall s,
  env (process_rows rows s).2 = env s /\
  (forall i, i ∉ cl_id <$> rows ->
     outbox_of (committed (process_rows rows s).2) !! i = outbox_of (committed s) !! i) /\
  (forall row o, row ∈ rows -> outbox_of (committed s) !! cl_id row = Some o ->
     fate (ok_list (process_rows rows s).1) row o
       (outbox_of (committed (process_rows rows s).2) !! cl_id row)).
Proof.
  induction rows as [|row rows IH]; intros Hn s.
  { split; [done|]. split; [done|]. by intros row o Hr%elem_of_nil. }
  rewrite fmap_cons in Hn. apply NoDup_cons in Hn as [Hni Hn]. specialize (IH Hn).
  destruct (process_one_fate row s) as (He & Hne & Hrow). cbn [process_all].
  set (m := catch _ _) in *. unfold bind. destruct (m s) as [[l|e] s1]; simpl in *.
  - specialize (IH s1). destruct (process_rows rows s1) as [[l'|e] s2]; simpl in *;
      destruct IH as (He2 & Hne2 & Hrows); (split; [congruence|]); split.
    + intros i Hi. rewrite Hne2, Hne; set_solver.
    + intros x o [->|Hx]%elem_of_cons Ho.
      * rewrite (Hne2 _ Hni). destruct (Hrow _ Ho) as [[Hx Hl]|Hx]; [left|by right].
        split; [done|]. set_solver.
      * assert (Hid : cl_id x ≠ cl_id row) by (intros E; apply Hni; rewrite <- E; by apply list_elem_of_fmap_2).
        rewrite <- (Hne _ Hid) in Ho. destruct (Hrows _ _ Hx Ho) as [[Hy Hl]|Hy]; [left|by right].
        split; [done|]. set_solver.
    + intros i Hi. rewrite Hne2, Hne; set_solver.
    + intros x o [->|Hx]%elem_of_cons Ho.
      * rewrite (Hne2 _ Hni). destruct (Hrow _ Ho) as [[Hx Hl]|Hx]; [left|by right]. done.
      * assert (Hid : cl_id x ≠ cl_id row) by (intros E; apply Hni; rewrite <- E; by apply list_elem_of_fmap_2).
        rewrite <- (Hne _ Hid) in Ho. destruct (Hrows _ _ Hx Ho) as [[Hy Hl]|Hy]; [left|by right]. done.
  - split; [done|]. split; [intros i Hi; apply Hne; set_solver|].
    intros x o [->|Hx]%elem_of_cons Ho; [by apply Hrow|].
    left. split; [|done]. rewrite Hne; [done|]. intros E. apply Hni. rewrite <- E. by apply list_elem_of_fmap_2.
Qed.
End Process.

(** ** Claiming *)

Definition claim_all (deadline : datetime) (rows : list NotificationOutbox) (d : Db) : Db :=
  foldl (fun d o => t_set (alter (ob_claim deadline) (ob_id o) (outbox_of d)) d) d rows.

Lemma claim_rows_run deadline rows : forall s,
  for_each rows (fun o => upd (R:=NotificationOutbox) (ob_id o) (ob_claim deadline)) s =
  (Ok tt, st_db (claim_all deadline rows) s).
Proof.
  induction rows as [|o rows IH]; intros s; [by destruct s|]. cbn [for_each].
  erewrite bind_Ok by reflexivity. rewrite IH. done.
Qed.

Lemma claim_all_lookup deadline rows : NoDup (ob_id <$> rows) -> forall d i,
  outbox_of (claim_all deadline rows d) !! i =
  if bool_decide (i ∈ ob_id <$> rows) then ob_claim deadline <$> outbox_of d !! i
  else outbox_of d !! i.
Proof.
  induction rows as [|o rows IH]; intros Hn d i; [done|].
  rewrite fmap_cons in *. apply NoDup_cons in Hn as [Hni Hn].
  change (claim_all deadline (o :: rows) d) with
    (claim_all deadline rows (t_set (alter (ob_claim deadline) (ob_id o) (outbox_of d)) d)).
  rewrite IH by done.
  change (outbox_of (t_set ?t d)) with t.
  destruct (decide (i = ob_id o)) as [->|Hne].
  - rewrite bool_decide_false, bool_decide_true by set_solver. apply lookup_alter_eq.
  - rewrite lookup_alter_ne by done. do 2 case_bool_decide; set_solver.
Qed.

Section Claim.
Context (settings : DispatchSettings) (skip : uuid -> bool) (batch : nat).
Definition claim_time (s : St) : datetime := env_now (env s) (n_now s).
Definition lease_end (s : St) : datetime :=
  (claim_time s + timedelta_seconds (notification_lease_seconds settings))%Z.

(** The rows a claim takes: due rows, each once. *)
Definition due_rows (s : St) : list NotificationOutbox :=
  take batch (order_asc ob_next_retry_at
    (select (fun o => is_due (claim_time s) o && negb (skip (ob_id o))) (outbox_of (committed s)))).

Lemma due_rows_spec s o :
  o ∈ due_rows s -> (exists i, outbox_of (committed s) !! i = Some o) /\
    is_due (claim_time s) o = true /\ skip (ob_id o) = false.
Proof.
  unfold due_rows. intros Ho. apply elem_of_take in Ho as (j & Hj & _).
  apply list_elem_of_lookup_2 in Hj. unfold order_asc in Hj. rewrite merge_sort_Permutation in Hj.
  apply elem_of_select in Hj as [Hi [Hd Hs%negb_true_iff]%andb_prop]. auto.
Qed.

Lemma due_rows_NoDup s :
  Keyed (R:=NotificationOutbox) (committed s) -> NoDup (ob_id <$> due_rows s).
Proof.
  intros Hk. unfold due_rows. rewrite fmap_take. eapply sublist_NoDup; [|apply sublist_take].
  unfold order_asc. rewrite merge_sort_Permutation. exact (select_ids_NoDup (R:=NotificationOutbox) (committed s) _ Hk).
Qed.

Lemma claim_body_run s :
  env (claim_batch settings skip batch s).2 = env s /\
  match claim_batch settings skip batch s with
  | (Ok l, s') =>
      l = (fun o => claimed_row (ob_claim (lease_end s) o)) <$> due_rows s /\
      committed s' = claim_all (lease_end s) (due_rows s) (committed s)
  | (Raise _, s') => committed s' = committed s
  end.
Proof.
  unfold claim_batch. erewrite bind_Ok by reflexivity. fold (claim_time s).
  change (claim_time s + _)%Z with (lease_end s). unfold with_uow.
  erewrite bind_Ok.
  2:{ erewrite bind_Ok by by apply query_run. erewrite bind_Ok by apply claim_rows_run. reflexivity. }
  change (take batch _) with (due_rows s). unfold session_commit, bind.
  destruct (flush _) as [[u|e] s2] eqn:Ef; pose proof (flush_inv _ _ _ Ef) as (E1 & E2 & E3 & _);
    simpl in *; rewrite ?E1, ?E2, ?E3; done.
Qed.
End Claim.

(** ** One pass *)

Section Pass.
Context (lib : NoticeLib) (settings : DispatchSettings) (registry : TemplateRegistry)
  (channels : list (string * NotificationChannel)).
Hypothesis Hchannels : forall code c, assoc code channels = Some c -> ChannelLaws c.
Abbreviation pass := (dispatch_pass lib settings registry channels).

(** What a pass that started at [t] made of row [o]. *)
Definition passed (t : datetime) (r : res exn (list ClaimedRow * list uuid))
    (o o' : NotificationOutbox) : Prop :=
  match r with
  | Ok (claimed, logged) =>
      o' = o /\ ob_id o ∉ cl_id <$> claimed \/
      is_due t o = true /\ message_of o' = message_of o /\ ob_attempts o' = (ob_attempts o + 1)%Z /\
      ob_id o ∈ cl_id <$> claimed /\
      (ob_id o ∈ logged \/ terminal (ob_status o') = true \/
       (ob_attempts o' < notification_max_attempts settings)%Z)
  | Raise _ =>
      o' = o \/
      is_due t o = true /\ message_of o' = message_of o /\ ob_attempts o' = (ob_attempts o + 1)%Z
  end.

Lemma claimed_ids D (rows : list NotificationOutbox) : cl_id <$> ((fun o => claimed_row (ob_claim D o)) <$> rows) = ob_id <$> rows.
Proof. by rewrite <- list_fmap_compose. Qed.

Lemma pass_rows skip batch s :
  Keyed (R:=NotificationOutbox) (committed s) ->
  env (pass skip batch s).2 = env s /\
  forall i,
    match outbox_of (committed s) !! i with
    | None => outbox_of (committed (pass skip batch s).2) !! i = None
    | Some o => exists o', outbox_of (committed (pass skip batch s).2) !! i = Some o' /\
                  passed (claim_time s) (pass skip batch s).1 o o'
    end.
Proof.
  intros Hk. destruct (claim_body_run settings skip batch s) as [He Hc].
  unfold dispatch_pass. destruct (claim_batch settings skip batch s) as [[l|e] s1] eqn:E.
  2:{ rewrite (bind_Raise _ _ _ _ _ E). simpl in *. split; [done|]. intros i. rewrite Hc.
      destruct (outbox_of (committed s) !! i) as [o|]; [|done]. exists o. by split; [|left]. }
  destruct Hc as [-> Hc]. rewrite (bind_Ok _ _ _ _ _ E). clear E. simpl in He.
  set (rows := due_rows skip batch s) in *. set (D := lease_end settings s) in *.
  set (claimed := (fun o => claimed_row (ob_claim D o)) <$> rows).
  assert (Hn : NoDup (cl_id <$> claimed)) by (unfold claimed; rewrite claimed_ids; by apply due_rows_NoDup).
  pose proof (process_all_fate lib settings registry channels Hchannels claimed Hn s1) as (He1 & Hne & Hrow).
  unfold claimed in Hne. rewrite claimed_ids in Hne. fold claimed in Hne.
  assert (Hat : forall i, outbox_of (committed s1) !! i =
            if bool_decide (i ∈ ob_id <$> rows) then ob_claim D <$> outbox_of (committed s) !! i
            else outbox_of (committed s) !! i).
  { intros i. rewrite Hc. apply claim_all_lookup, due_rows_NoDup, Hk. }
  assert (Hres : exists r s2, (logged <- process_all lib settings registry channels claimed ;;
            ret (claimed, logged)) s1 = (r, s2) /\ env s2 = env s /\
            s2 = (process_all lib settings registry channels claimed s1).2 /\
            match r with Ok (c, l) => c = claimed /\ (process_all lib settings registry channels claimed s1).1 = Ok l
                       | Raise e => (process_all lib settings registry channels claimed s1).1 = Raise e end).
  { unfold bind. destruct (process_all lib settings registry channels claimed s1) as [[l|e] s2];
      simpl in *; eexists _, _; (split; [reflexivity|]); split; try done; congruence. }
  destruct Hres as (r & s2 & -> & He2 & -> & Hr). simpl. split; [done|]. intros i.
  specialize (Hat i). specialize (Hne i).
  destruct (decide (i ∈ ob_id <$> rows)) as [Hi|Hi].
  2:{ rewrite (Hne Hi), Hat, bool_decide_false by done.
      destruct (outbox_of (committed s) !! i) as [o|] eqn:Eo; [|done]. exists o. split; [done|].
      pose proof (Hk _ _ Eo) as Hid. simpl in Hid.
      destruct r as [[c l]|e]; [|by left]. left. split; [done|]. destruct Hr as [-> _].
      unfold claimed. rewrite claimed_ids. by rewrite Hid. }
  rewrite bool_decide_true in Hat by done. apply list_elem_of_fmap in Hi as (o & -> & Ho).
  destruct (due_rows_spec _ _ _ _ Ho) as ([j Hj] & Hdue & _).
  pose proof (Hk _ _ Hj) as Hid. simpl in Hid. subst j. rewrite Hj in Hat |- *. simpl in Hat.
  set (row := claimed_row (ob_claim D o)).
  destruct (Hrow row (ob_claim D o)) as [[Hx Hl]|(o' & Hx & Hf & Hs)].
  { unfold claimed. by apply (list_elem_of_fmap_2 (fun o => claimed_row (ob_claim D o))). }
  { exact Hat. }
  - exists (ob_claim D o). split; [exact Hx|]. destruct r as [[c l]|e]; [|by right].
    destruct Hr as [-> Hr]. rewrite Hr in Hl. right. repeat split; try done.
    + unfold claimed. rewrite claimed_ids. by apply list_elem_of_fmap_2.
    + by left.
  - exists o'. split; [exact Hx|]. destruct (finish_message _ _ Hf) as [Hm Ha].
    destruct r as [[c l]|e]; [|by right]. right. destruct Hr as [-> Hr].
    split; [done|]. split; [done|]. split; [done|]. split.
    + unfold claimed. rewrite claimed_ids. by apply list_elem_of_fmap_2.
    + right. destruct Hs as [Hs|Hs]; [by left|right]. rewrite Ha. done.
Qed.
Lemma passed_id t r o o' : passed t r o o' -> ob_id o' = ob_id o.
Proof.
  unfold passed. destruct r as [[c l]|e].
  - intros [[-> _]|(_ & Hm & _)]; [done|]. by injection Hm.
  - intros [->|(_ & Hm & _)]; [done|]. by injection Hm.
Qed.

Lemma pass_keyed skip batch s :
  Keyed (R:=NotificationOutbox) (committed s) ->
  Keyed (R:=NotificationOutbox) (committed (pass skip batch s).2).
Proof.
  intros Hk i o' Hi. destruct (pass_rows skip batch s Hk) as [_ Hp]. specialize (Hp i).
  change (outbox_of (committed (pass skip batch s).2) !! i = Some o') in Hi.
  destruct (outbox_of (committed s) !! i) as [o|] eqn:Ho; [|congruence].
  destruct Hp as (x & Hx & Hp). assert (x = o') as -> by congruence.
  pose proof (passed_id _ _ _ _ Hp) as Hid. pose proof (Hk _ _ Ho) as Hid'. simpl in *. congruence.
Qed.

(** A message that is over is not touched. *)
Lemma terminal_passed t r o o' : passed t r o o' -> terminal (ob_status o) = true -> o' = o.
Proof.
  intros Hp Ht. assert (Hd : is_due t o = true -> False).
  { unfold is_due, DUE_STATES. by rewrite Ht. }
  unfold passed in Hp. destruct r as [[c l]|e]; destruct Hp as [Hp|(Hp & _)];
    try (by destruct (Hd Hp)); naive_solver.
Qed.

(** ** Attempts at one message *)

(** A due row nobody has locked is claimed by a pass with room for it. *)
Lemma due_claimed skip batch s claimed logged s' i o :
  pass skip batch s = (Ok (claimed, logged), s') ->
  Keyed (R:=NotificationOutbox) (committed s) -> outbox_of (committed s) !! i = Some o ->
  is_due (claim_time s) o = true -> skip i = false ->
  (length (select (is_due (claim_time s)) (outbox_of (committed s))) <= batch)%nat ->
  i ∈ cl_id <$> claimed.
Proof.
  intros Hp Hk Ho Hdue Hs Hlen. unfold dispatch_pass in Hp.
  destruct (claim_body_run settings skip batch s) as [_ Hc].
  apply bind_inv_Ok in Hp as (l & s1 & Hl & Hp). rewrite Hl in Hc. destruct Hc as [-> _].
  apply bind_inv_Ok in Hp as (lg & s2 & _ & Hp). unfold ret in Hp. simplify_eq.
  rewrite claimed_ids. pose proof (Hk _ _ Ho) as Hid. simpl in Hid. subst i.
  apply list_elem_of_fmap_2. unfold due_rows. rewrite firstn_all2.
  - unfold order_asc. rewrite merge_sort_Permutation. apply elem_of_select.
    split; [by eexists|]. by rewrite Hdue, Hs.
  - unfold order_asc. rewrite merge_sort_Permutation. etransitivity; [|exact Hlen].
    unfold select. apply sublist_length. induction (rows (outbox_of (committed s))) as [|x l IH]; [done|].
    simpl. destruct (is_due (claim_time s) x); simpl; [|done].
    destruct (negb _); by constructor.
Qed.

(** [served i n s s']: between [s] and [s'], [n] passes had room for row [i],
    came when it was due unless it was over, found it unlocked, and met no
    unexpected error with it; whatever else happened left it alone. *)
Inductive served (i : uuid) : nat -> St -> St -> Prop :=
| served_none s : served i 0 s s
| served_pass n s1 s2 s3 skip batch claimed logged :
    served i n s1 s2 -> pass skip batch s2 = (Ok (claimed, logged), s3) ->
    (forall o, outbox_of (committed s2) !! i = Some o -> terminal (ob_status o) = false ->
       (ob_next_retry_at o <= claim_time s2)%Z) ->
    skip i = false ->
    (length (select (is_due (claim_time s2)) (outbox_of (committed s2))) <= batch)%nat ->
    i ∉ logged -> served i (S n) s1 s3
| served_other n s1 s2 s3 :
    served i n s1 s2 -> outbox_of (committed s3) !! i = outbox_of (committed s2) !! i ->
    Keyed (R:=NotificationOutbox) (committed s3) -> served i n s1 s3.

Lemma served_counted i n s s' o :
  served i n s s' -> Keyed (R:=NotificationOutbox) (committed s) ->
  outbox_of (committed s) !! i = Some o ->
  Keyed (R:=NotificationOutbox) (committed s') /\
  exists o', outbox_of (committed s') !! i = Some o' /\ message_of o' = message_of o /\
    (terminal (ob_status o') = true \/
     ob_attempts o' = (ob_attempts o + Z.of_nat n)%Z /\
     (n = 0%nat \/ (ob_attempts o' < notification_max_attempts settings)%Z)).
Proof.
  intros Ha Hk Ho. induction Ha as [s|n s1 s2 s3 skip batch claimed logged Ha IH Hp Htime Hskip Hroom Hnl
    |n s1 s2 s3 Ha IH Hsame Hk3].
  - split; [done|]. exists o. repeat split; [done|]. right. split; [lia|]. by left.
  - destruct (IH Hk Ho) as (Hk2 & o2 & Ho2 & Hm2 & H2).
    pose proof (pass_keyed skip batch s2 Hk2) as Hk3.
    destruct (pass_rows skip batch s2 Hk2) as [_ Hr]. specialize (Hr i). rewrite Ho2 in Hr.
    rewrite Hp in Hr, Hk3. simpl in Hr, Hk3. destruct Hr as (o3 & Ho3 & Hr).
    assert (Hid : ob_id o2 = i) by exact (Hk2 _ _ Ho2).
    split; [done|]. exists o3. split; [done|].
    destruct (terminal (ob_status o2)) eqn:Et.
    { assert (o3 = o2) as -> by (eapply (terminal_passed _ (Ok (claimed, logged))); eauto). auto. }
    assert (Hin : i ∈ cl_id <$> claimed).
    { eapply due_claimed; try done. unfold is_due, DUE_STATES. rewrite Et. simpl.
      by apply Z.leb_le, Htime. }
    rewrite Hid in Hr. destruct Hr as [[_ Hr]|(_ & Hm3 & Hn3 & _ & Hr)]; [done|].
    split; [congruence|]. destruct H2 as [H2|[H2 _]]; [done|].
    destruct Hr as [Hr|[Hr|Hr]]; [done|by left|]. right. split; [lia|]. by right.
  - destruct (IH Hk Ho) as (Hk2 & o2 & Ho2 & H2). split; [done|]. exists o2. by rewrite Hsame.
Qed.
End Pass.
