(* ===== verification/Access.v ===== *)
(** Role-based access control, the reading side: the permission catalog
    (src/core/auth/permissions.py), the access service
    (src/core/auth/access_service.py) and the guard inside services
    (src/core/auth/guard.py). *)

From stdpp Require Import base strings gmap list.
From Stdlib Require Import ZArith Lia Ascii.
From S2P Require Import Prelude Errors PyLib Events Session SessionFacts.

(** ** The catalog *)

(** [_CODE_RE]: <module>.<resource>:<action> *)
Definition code_re (code : string) : bool :=
  match split "." (chomp code) with
  | [m; rest] =>
      is_segment m &&
      match split ":" rest with
      | [r; a] => is_segment r && is_segment a
      | _ => false
      end
  | _ => false
  end.

Record PermissionDef : Set := mkPerm { pd_code : string; pd_title_key : string }.
#[export] Instance perm_eq_dec : EqDecision PermissionDef.
Proof. solve_decision. Defined.

Record PermissionRegistry : Set := mkRegistry {
  by_code : gmap string PermissionDef; by_module : gmap string (gset string) }.

Definition empty_registry : PermissionRegistry := mkRegistry ∅ ∅.

Definition register_one (module : string) (perm : PermissionDef)
    : M exn PermissionRegistry unit := fun reg =>
  if negb (code_re (pd_code perm)) then (Raise EValue, reg)
  else if negb (startswith (pd_code perm) (module +:+ ".")) then (Raise EValue, reg)
  else match by_code reg !! pd_code perm with
       | Some existing =>
           if bool_decide (existing = perm) then (Ok tt, reg) else (Raise ERuntime, reg)
       | None =>
           (Ok tt, mkRegistry (<[pd_code perm := perm]> (by_code reg))
                     (<[module := {[pd_code perm]} ∪ default ∅ (by_module reg !! module)]>
                        (by_module reg)))
       end.

Definition register (module : string) (perms : list PermissionDef) : M exn PermissionRegistry unit :=
  for_each perms (register_one module).

Definition is_registered (reg : PermissionRegistry) (code : string) : bool :=
  bool_decide (is_Some (by_code reg !! code)).
Definition all_codes (reg : PermissionRegistry) : gset string := dom (by_code reg).
Definition require_registered (reg : PermissionRegistry) (code : string) : res exn unit :=
  if is_registered reg code then Ok tt else Raise ERuntime.

(** ** AccessService and PermissionGuard *)

(** [PermissionResolver.get_permission_codes] *)
Definition Resolver : Type := uuid -> SM (gset string).

Definition list_permissions (resolver : Resolver) (user_id : uuid) : SM (gset string) :=
  known <- gets resolved ;;
  match known !! user_id with
  | Some codes => ret codes
  | None =>
      codes <- resolver user_id ;;
      modify (st_resolved (<[user_id := codes]>)) ;;;
      ret codes
  end.

Definition has_permission (resolver : Resolver) (user_id : uuid) (permission : string) : SM bool :=
  codes <- list_permissions resolver user_id ;; ret (bool_decide (permission ∈ codes)).

Definition denied {A} (permission : string) : SM A :=
  raise (EDomain PermissionDeniedError ("missing permission: " +:+ permission)).

Definition access_require (resolver : Resolver) (user_id : uuid) (permission : string) : SM unit :=
  ok <- has_permission resolver user_id permission ;;
  if ok then ret tt else denied permission.

Definition guard_require (access : option Resolver) (ctx : TenantContext) (permission : string)
    : SM unit :=
  let actor := c_actor ctx in
  if negb (bool_decide (a_kind actor = KUser)) then ret tt
  else match access, a_id actor with
       | Some resolver, Some aid =>
           match uuid_parse aid with
           | Some u => access_require resolver u permission
           | None => raise EValue
           end
       | _, _ => denied permission
       end.

(** ** Facts *)

Definition wf_registry (reg : PermissionRegistry) : Prop :=
  (forall c p, by_code reg !! c = Some p -> pd_code p = c /\ code_re c = true) /\
  (forall m cs c, by_module reg !! m = Some cs -> c ∈ cs ->
     is_Some (by_code reg !! c) /\ startswith c (m +:+ ".") = true).

Lemma register_one_wf module perm reg :
  wf_registry reg -> wf_registry (register_one module perm reg).2.
Proof.
  intros [H1 H2]. unfold register_one.
  destruct (code_re (pd_code perm)) eqn:Ec; simpl; [|done].
  destruct (startswith _ _) eqn:Es; simpl; [|done].
  destruct (by_code reg !! pd_code perm) as [ex|] eqn:El; [by case_bool_decide|]. simpl.
  split; simpl.
  - intros c p. rewrite lookup_insert. case_decide; naive_solver.
  - intros m cs c. rewrite !lookup_insert. case_decide as Hm.
    + intros [= <-] Hc. apply elem_of_union in Hc as [Hc|Hc].
      * apply elem_of_singleton in Hc as ->. rewrite decide_True by done. subst. eauto.
      * destruct (by_module reg !! module) as [cs|] eqn:Em; simpl in Hc; [|set_solver].
        destruct (H2 _ _ _ Em Hc) as [? ?]. subst. case_decide; eauto.
    + intros Hcs Hc. destruct (H2 _ _ _ Hcs Hc). case_decide; eauto.
Qed.

Lemma register_wf module perms reg :
  wf_registry reg -> wf_registry (register module perms reg).2.
Proof.
  revert reg. unfold register. induction perms as [|p l IH]; intros reg Hw; simpl; [done|].
  unfold bind. pose proof (register_one_wf module p reg Hw) as Hp.
  destruct (register_one module p reg) as [[[]|e] reg']; simpl in *; auto.
Qed.

(** What the guard decides, for a resolver that answers. *)
Lemma guard_user_spec resolver ctx aid u codes permission s s' :
  c_actor ctx = mkActor KUser (Some aid) -> uuid_parse aid = Some u ->
  resolved s !! u = None -> resolver u s = (Ok codes, s') ->
  guard_require (Some resolver) ctx permission s =
  (if bool_decide (permission ∈ codes) then Ok tt
   else Raise (EDomain PermissionDeniedError ("missing permission: " +:+ permission)),
   st_resolved (<[u := codes]>) s').
Proof.
  intros Ha Hu Hn Hr. unfold guard_require. rewrite Ha. simpl. rewrite Hu.
  unfold access_require, has_permission, list_permissions, bind, gets, ret, modify, denied, raise.
  rewrite Hn, Hr. by case_bool_decide.
Qed.

(** A permission resolver only reads. *)
Class QuietAccess (access : option Resolver) : Prop :=
  quiet_access : forall resolver u, access = Some resolver -> steps quiet (resolver u).

#[export] Instance quiet_access_None : QuietAccess None.
Proof. done. Qed.

Lemma quiet_st_resolved f : steps quiet (modify (E:=exn) (st_resolved f)).
Proof. done. Qed.
#[export] Hint Resolve quiet_st_resolved : steps.

Lemma quiet_guard access `{!QuietAccess access} ctx permission :
  steps quiet (guard_require access ctx permission).
Proof.
  unfold guard_require, access_require, has_permission, list_permissions, denied.
  destruct access as [resolver|]; steps_walk.
Qed.

Lemma evo_guard R `{!PreOrder R} access `{!QuietAccess access} ctx permission :
  steps (evo R) (guard_require access ctx permission).
Proof. apply (quiet_steps_evo R), quiet_guard, _. Qed.
#[export] Hint Resolve evo_guard : steps.
