(* ===== verification/Journal.v ===== *)
(** The audit journal (src/core/audit/service.py, subscribers.py,
    retention.py): append-only rows, one per action, deduplicated by event id. *)

From stdpp Require Import base strings gmap list sorting.
From Stdlib Require Import ZArith Lia Ascii.
From S2P Require Import Prelude Errors PyLib Calendar Entities Models Events Session SessionFacts.
From S2P Require Import Access.

Definition RECORD_READ : string := "audit.record:read".
Definition AUDIT_EXCLUDED_EVENTS : list string := ["notifications.message.sent"].

(** INSERT ... ON CONFLICT DO NOTHING: waits for concurrent inserters, then
    does nothing when [conflict] holds of a row. Returns whether it inserted. *)
Definition insert_on_conflict_do_nothing {R} `{Table R} (conflict : R -> bool) (r : R) : SM bool :=
  flush ;;; rivals ;;;
  l <- query conflict ;;
  match l with
  | [] => insert_row r ;;; ret true
  | _ => ret false
  end.

Definition same_event (event_id : uuid) (a : AuditLog) : bool :=
  bool_decide (au_event_id a = Some event_id).

(** [_actor_user_id] *)
Definition actor_user_id_opt (actor : Actor) : res exn (option uuid) :=
  match a_kind actor, a_id actor with
  | KUser, Some aid =>
      if str_empty aid then Ok None
      else match uuid_parse aid with Some u => Ok (Some u) | None => Raise EValue end
  | _, _ => Ok None
  end.

(** [AuditService.record] *)
Definition audit_record (ctx : TenantContext) (action : string)
    (object_type object_id : option string) (metadata : list (string * json))
    (event_id : option uuid) (request : option RequestContext) : SM unit :=
  i <- new_uuid7 ;;
  user_id <- lift_res (actor_user_id_opt (c_actor ctx)) ;;
  t <- now ;;
  let row := mkAuditLog i (c_tenant_id ctx) user_id (c_request_id ctx) event_id action
               object_type object_id (r ← request; rq_ip r) (r ← request; rq_user_agent r)
               metadata t in
  match event_id with
  | Some ev => insert_on_conflict_do_nothing (same_event ev) row ;;; ret tt
  | None => flush ;;; insert_row row
  end.

(** [AuditService.record_event] *)
Definition audit_record_event (event : EventEnvelope) : SM unit :=
  if bool_decide (e_name event ∈ AUDIT_EXCLUDED_EVENTS) then ret tt
  else
    user_id <- lift_res (actor_user_id_opt (e_actor event)) ;;
    i <- new_uuid7 ;;
    t <- now ;;
    insert_on_conflict_do_nothing (same_event (e_event_id event))
      (mkAuditLog i (e_tenant_id event) user_id None (Some (e_event_id event)) (e_name event)
         None None None None (e_payload event) t) ;;;
    ret tt.

(** [audit_sink] *)
Definition audit_sink (event : EventEnvelope) : SM unit := audit_record_event event.

Record AuditQuery : Set := mkAuditQuery {
  q_action_prefix : option string; q_actor_user_id : option uuid;
  q_object_type : option string; q_object_id : option string;
  q_date_from : option datetime; q_date_to : option datetime }.

Definition opt_test {A} (o : option A) (p : A -> bool) : bool :=
  match o with Some a => p a | None => true end.

(** The WHERE clause of [AuditService.search]; a NULL column equals nothing. *)
Definition audit_where (tenant : option uuid) (q : AuditQuery) (a : AuditLog) : bool :=
  match tenant, au_tenant_id a with
  | Some t, Some t' => bool_decide (t = t')
  | _, _ => false
  end
  && opt_test (q_action_prefix q) (fun p => str_empty p || startswith (au_action a) p)
  && opt_test (q_actor_user_id q) (fun u => bool_decide (au_user_id a = Some u))
  && opt_test (q_object_type q) (fun o => bool_decide (au_object_type a = Some o))
  && opt_test (q_object_id q) (fun o => bool_decide (au_object_id a = Some o))
  && opt_test (q_date_from q) (fun t => (t <=? au_created_at a)%Z)
  && opt_test (q_date_to q) (fun t => (au_created_at a <? t)%Z).

(** ORDER BY created_at DESC, id DESC *)
Definition audit_before (a b : AuditLog) : Prop :=
  (au_created_at b < au_created_at a)%Z \/
  (au_created_at a = au_created_at b /\ (au_id b <= au_id a)%N).
#[export] Instance audit_before_dec a b : Decision (audit_before a b).
Proof. unfold audit_before. apply _. Defined.

Definition audit_search (access : option Resolver) (ctx : TenantContext) (q : AuditQuery)
    (page : Page) : SM (PageResult AuditLog) :=
  guard_require access ctx RECORD_READ ;;;
  l <- query (audit_where (c_tenant_id ctx) q) ;;
  let total := Z.of_nat (length l) in
  l' <- query (audit_where (c_tenant_id ctx) q) ;;
  ret (mkPageResult (paginate page (merge_sort audit_before l')) total (pg_limit page)
                    (pg_offset page)).

(** ** src/core/audit/retention.py *)

Definition AUDIT_SWEEP_BATCH : nat := 1000.

Definition audit_delete (ids : list uuid) (d : Db) : Db :=
  t_set (foldr (fun i t => delete i t) (d_audit d) ids) d.

(** One bounded batch of rows past the horizon, oldest first. *)
Definition purge_expired_audit (audit_retention_days : Z) : SM Z :=
  t <- now ;;
  let cutoff := (t - timedelta_days audit_retention_days)%Z in
  with_uow (
    l <- query (fun a : AuditLog => (au_created_at a <? cutoff)%Z) ;;
    let oldest := au_id <$> take AUDIT_SWEEP_BATCH (order_asc au_created_at l) in
    modify (st_db (audit_delete oldest)) ;;;
    ret (Z.of_nat (length oldest))).

(** ** Facts *)

Section AuditEvo.
Context (R : Db -> Db -> Prop) `{!PreOrder R}.

Lemma evo_on_conflict {T} `{Table T} conflict (r : T) :
  (forall d, t_get d !! t_id r = None -> R d (t_put r d)) ->
  steps (evo R) (insert_on_conflict_do_nothing conflict r).
Proof.
  intros Hr. unfold insert_on_conflict_do_nothing. steps_walk. by apply evo_insert_row.
Qed.

(** Journal writes are invisible to a relation that ignores the journal. *)
Context `{!Tolerates R AuditLog}.

Lemma evo_audit_record ctx action ot oi md ev rq :
  steps (evo R) (audit_record ctx action ot oi md ev rq).
Proof.
  unfold audit_record. destruct ev; steps_walk.
  apply (evo_on_conflict). intros. apply tol_put.
Qed.

Lemma evo_audit_record_event e : steps (evo R) (audit_record_event e).
Proof.
  unfold audit_record_event. steps_walk. apply (evo_on_conflict). intros. apply tol_put.
Qed.
End AuditEvo.
#[export] Hint Resolve evo_audit_record evo_audit_record_event : steps.
