(* ===== verification/Tenants.v ===== *)
(** Organizations, members, roles and invitations: src/core/tenants/service.py,
    permissions.py, sync.py and directory.py.

    The service is also the permission resolver behind [AccessService] and
    the shop check of storefront requests; the invitation mailer is a field of
    the service, as in the code. Row-level security is not modelled: each
    query carries the filters the code writes. *)

From stdpp Require Import base strings gmap list sorting.
From Stdlib Require Import ZArith Lia Ascii.
From S2P Require Import Prelude Errors PyLib Calendar Entities Models Events Session SessionFacts.
From S2P Require Import Footprints Access Journal Accounts.

(** ** src/core/tenants/permissions.py *)

Definition TENANT_READ : string := "tenants.tenant:read".
Definition TENANT_UPDATE : string := "tenants.tenant:update".
Definition MEMBER_READ : string := "tenants.member:read".
Definition MEMBER_INVITE : string := "tenants.member:invite".
Definition MEMBER_REMOVE : string := "tenants.member:remove".
Definition MEMBER_UPDATE_ROLE : string := "tenants.member:update_role".
Definition ROLE_READ : string := "tenants.role:read".
Definition ROLE_MANAGE : string := "tenants.role:manage".

Definition TENANTS_PERMISSIONS : list PermissionDef :=
  [ mkPerm TENANT_READ "perm.tenants.tenant.read"; mkPerm TENANT_UPDATE "perm.tenants.tenant.update";
    mkPerm MEMBER_READ "perm.tenants.member.read"; mkPerm MEMBER_INVITE "perm.tenants.member.invite";
    mkPerm MEMBER_REMOVE "perm.tenants.member.remove";
    mkPerm MEMBER_UPDATE_ROLE "perm.tenants.member.update_role";
    mkPerm ROLE_READ "perm.tenants.role.read"; mkPerm ROLE_MANAGE "perm.tenants.role.manage" ].

Definition ROLE_OWNER : string := "owner".
Definition ROLE_ADMIN : string := "admin".
Definition ROLE_MEMBER : string := "member".
Definition SYSTEM_ROLE_TITLES : list (string * string) :=
  [(ROLE_OWNER, "role.owner"); (ROLE_ADMIN, "role.admin"); (ROLE_MEMBER, "role.member")].

(** [SystemRoleGrants]: a dictionary of sets, in the order of its roles. *)
Definition Grants : Type := list (string * gset string).

Definition new_grants (roles : list string) : Grants := (fun r => (r, ∅)) <$> roles.

Fixpoint grants_update (role : string) (codes : gset string) (g : Grants) : res exn Grants :=
  match g with
  | [] => Raise EKey
  | (r, cs) :: g' =>
      if bool_decide (r = role) then Ok ((r, cs ∪ codes) :: g')
      else rbind (grants_update role codes g') (fun g'' => Ok ((r, cs) :: g''))
  end.

(** [extend] *)
Fixpoint grants_extend (more : Grants) (g : Grants) : res exn Grants :=
  match more with
  | [] => Ok g
  | (role, codes) :: more' => rbind (grants_update role codes g) (grants_extend more')
  end.

Definition ALL_TENANT_PERMISSIONS : gset string := list_to_set (pd_code <$> TENANTS_PERMISSIONS).

Definition TENANTS_SYSTEM_ROLE_GRANTS : Grants :=
  [ (ROLE_OWNER, ALL_TENANT_PERMISSIONS);
    (ROLE_ADMIN, {[ TENANT_READ; TENANT_UPDATE; MEMBER_READ; MEMBER_INVITE; MEMBER_REMOVE;
                    MEMBER_UPDATE_ROLE; ROLE_READ; ROLE_MANAGE ]});
    (ROLE_MEMBER, {[ TENANT_READ; MEMBER_READ; ROLE_READ ]}) ].

Definition system_role_grants : res exn Grants :=
  grants_extend TENANTS_SYSTEM_ROLE_GRANTS (new_grants [ROLE_OWNER; ROLE_ADMIN; ROLE_MEMBER]).

(** ** Lookups *)

Definition role_codes (g : gset (N * string)) (role_id : uuid) : gset string :=
  set_map snd (filter (fun p => p.1 = role_id) g).

Definition tenant_active (d : Db) (t : uuid) : bool :=
  match t_tenants (tenants_of d) !! t with
  | Some x => bool_decide (tn_status x = TActive)
  | None => false
  end.

(** JOIN memberships/tenants: an active membership in an active tenant. *)
Definition active_in (d : Db) (tenant user : uuid) (m : Membership) : bool :=
  bool_decide (mb_tenant_id m = tenant) && bool_decide (mb_user_id m = user)
  && bool_decide (mb_status m = MActive) && tenant_active d (mb_tenant_id m).

(** src/core/tenants/directory.py *)
Definition tenant_by_id (tenant_id : uuid) : SM (option Tenant) :=
  l <- query (fun t : Tenant => bool_decide (tn_id t = tenant_id)) ;; scalar_one_or_none l.
Definition get_owner_user_id (tenant_id : uuid) : SM (option uuid) :=
  o <- tenant_by_id tenant_id ;; ret (tn_owner_user_id <$> o).
Definition get_default_locale (tenant_id : uuid) : SM (option string) :=
  o <- tenant_by_id tenant_id ;; ret (tn_default_locale <$> o).
Definition is_active_member (tenant_id user_id : uuid) : SM bool :=
  d <- get_db ;;
  ret (negb (bool_decide (select (active_in d tenant_id user_id) (t_memberships (tenants_of d)) = []))).

(** ** [TenantService] *)

(** [InvitationMailer.send]: address, token, tenant name, locale, days *)
Definition InvitationMailer : Type :=
  TenantContext -> string -> string -> string -> string -> Z -> SM unit.

Record TenantService : Type := mkTenantService {
  tns_ctx : TenantContext; tns_mailer : option InvitationMailer }.

Definition INVITATION_TTL_DAYS : Z := 7.

Record TenantDTO : Set := mkTenantDTO {
  td_id : uuid; td_name : string; td_slug : string; td_status : tenant_status;
  td_default_locale : string }.
Record MembershipDTO : Set := mkMembershipDTO {
  md_id : uuid; md_tenant_id : uuid; md_user_id : uuid; md_role_id : uuid; md_role_code : string;
  md_status : member_status }.
Record InvitationDTO : Set := mkInvitationDTO {
  idt_id : uuid; idt_tenant_id : uuid; idt_email : string; idt_role_code : string;
  idt_status : invite_status; idt_expires_at : datetime }.

Definition tenant_dto (t : Tenant) : TenantDTO :=
  mkTenantDTO (tn_id t) (tn_name t) (tn_slug t) (tn_status t) (tn_default_locale t).
Definition membership_dto (m : Membership) (role_code : string) : MembershipDTO :=
  mkMembershipDTO (mb_id m) (mb_tenant_id m) (mb_user_id m) (mb_role_id m) role_code (mb_status m).

(** A column compared with an optional id: NULL matches no row. *)
Definition is_opt (o : option uuid) (i : uuid) : bool := bool_decide (o = Some i).

Section TenantService.
Context (self : TenantService).
Let ctx := tns_ctx self.

(** [get_permission_codes] *)
Definition get_permission_codes (user_id : uuid) : SM (gset string) :=
  d <- get_db ;;
  let ms := select (fun m => is_opt (c_tenant_id ctx) (mb_tenant_id m)
                             && active_in d (mb_tenant_id m) user_id m) (t_memberships (tenants_of d)) in
  ret (⋃ (role_codes (t_role_permissions (tenants_of d)) <$> (mb_role_id <$> ms))).

Definition tns_require (permission : string) : SM unit :=
  guard_require (Some get_permission_codes) ctx permission.

Definition has_active_membership (tenant_id user_id : uuid) : SM bool :=
  is_active_member tenant_id user_id.

Definition current_tenant : SM (option Tenant) :=
  match c_tenant_id ctx with Some t => session_get t | None => ret None end.

Definition current_tenant_is_active : SM bool :=
  o <- current_tenant ;;
  ret (match o with Some t => bool_decide (tn_status t = TActive) | None => false end).

(** JOIN roles ON roles.id = memberships.role_id *)
Definition with_role_code (d : Db) (m : Membership) : option (Membership * string) :=
  r ← t_roles (tenants_of d) !! mb_role_id m; Some (m, ro_code r).

Definition own_membership (user_id : uuid) (m : Membership) : bool :=
  is_opt (c_tenant_id ctx) (mb_tenant_id m) && bool_decide (mb_user_id m = user_id).

Definition get_membership (user_id : uuid) : SM (option MembershipDTO) :=
  d <- get_db ;;
  ret (match omap (with_role_code d) (select (own_membership user_id) (t_memberships (tenants_of d))) with
       | (m, code) :: _ => Some (membership_dto m code)
       | [] => None
       end).

Definition current_tenant_or_404 : SM Tenant :=
  o <- current_tenant ;;
  match o with Some t => ret t | None => raise (EDomain NotFoundError "tenant not found") end.

Definition get_tenant : SM TenantDTO :=
  tns_require TENANT_READ ;;; t <- current_tenant_or_404 ;; ret (tenant_dto t).

Definition tns_actor_user_id : SM uuid :=
  match a_kind (c_actor ctx), a_id (c_actor ctx) with
  | KUser, Some i =>
      if str_empty i
      then raise (EDomain InvariantViolationError "operation requires a user actor")
      else lift_res (need (uuid_parse i) EValue)
  | _, _ => raise (EDomain InvariantViolationError "operation requires a user actor")
  end.

Definition list_user_tenants : SM (list TenantDTO) :=
  actor_id <- tns_actor_user_id ;;
  d <- get_db ;;
  let mine := select (fun m => bool_decide (mb_user_id m = actor_id)) (t_memberships (tenants_of d)) in
  let ts := omap (fun m => t_tenants (tenants_of d) !! mb_tenant_id m) mine in
  let active := List.filter (fun t => bool_decide (tn_status t = TActive)) ts in
  ret (tenant_dto <$> order_asc tn_created_at active).

Definition list_members (page : Page) : SM (PageResult MembershipDTO) :=
  tns_require MEMBER_READ ;;;
  d <- get_db ;;
  let ms := order_asc mb_created_at
    (select (fun m => is_opt (c_tenant_id ctx) (mb_tenant_id m)) (t_memberships (tenants_of d))) in
  let rows := paginate page (omap (with_role_code d) ms) in
  tenant <- repo_init ctx ;;
  total <- repo_count (R:=Membership) tenant (fun _ => true) ;;
  ret (mkPageResult ((fun r => membership_dto r.1 r.2) <$> rows) total (pg_limit page) (pg_offset page)).

(** [_system_role] *)
Definition system_role (code : string) : SM Role :=
  l <- query (fun r : Role => bool_decide (ro_tenant_id r = None) && bool_decide (ro_code r = code)) ;;
  o <- scalar_one_or_none l ;;
  match o with
  | Some r => ret r
  | None => raise (EDomain NotFoundError ("system role '" +:+ code +:+ "' is not provisioned"))
  end.

(** [_tenant_or_system_role]: the first of the rows, in no stated order *)
Definition tenant_or_system_role (code : string) : SM Role :=
  l <- query (fun r : Role => bool_decide (ro_code r = code)
         && (match ro_tenant_id r with None => true | Some t => is_opt (c_tenant_id ctx) t end)) ;;
  match l with
  | r :: _ => ret r
  | [] => raise (EDomain NotFoundError ("role '" +:+ code +:+ "' not found"))
  end.

(** [_member_or_raise] *)
Definition member_or_raise (user_id : uuid) : SM Membership :=
  l <- query (own_membership user_id) ;;
  o <- scalar_one_or_none l ;;
  match o with
  | Some m => ret m
  | None => raise (EDomain NotFoundError "membership not found")
  end.

(** [create_tenant] *)
Definition create_tenant (name slug : string) : SM TenantDTO :=
  actor_id <- tns_actor_user_id ;;
  let normalized_slug := str_lower (strip slug) in
  existing <- query (fun t : Tenant => bool_decide (tn_slug t = normalized_slug)) ;;
  match existing with
  | _ :: _ => raise (EDomain ConflictError "tenant slug already taken")
  | [] =>
      i <- new_uuid7 ;;
      t <- now ;;
      let tenant := mkTenant i name normalized_slug actor_id TActive DEFAULT_LOCALE t in
      insert_row tenant ;;;
      owner_role <- system_role ROLE_OWNER ;;
      mi <- new_uuid7 ;;
      mt <- now ;;
      insert_row (mkMembership mi i actor_id (ro_id owner_role) MActive mt) ;;;
      emit SvcTenants ctx "tenants.tenant.created"
        [("tenant_id", JStr (uuid_str i)); ("name", JStr name);
         ("owner_user_id", JStr (uuid_str actor_id))] ;;;
      ret (tenant_dto tenant)
  end.

Definition accept_row (user : uuid) (t : datetime) (i : Invitation) : Invitation :=
  mkInvitation (iv_id i) (iv_tenant_id i) (iv_email i) (iv_role_id i) (iv_token_hash i) IAccepted
    (iv_invited_by_user_id i) (Some user) (iv_expires_at i) (Some t).
Definition revoke_row (i : Invitation) : Invitation :=
  mkInvitation (iv_id i) (iv_tenant_id i) (iv_email i) (iv_role_id i) (iv_token_hash i) IRevoked
    (iv_invited_by_user_id i) (iv_accepted_by_user_id i) (iv_expires_at i) (iv_accepted_at i).

(** [accept_invitation]: the row is locked, so concurrent accepts go first *)
Definition accept_invitation (invitation_token accepting_email : string) : SM MembershipDTO :=
  actor_id <- tns_actor_user_id ;;
  en <- gets env ;;
  rivals ;;;
  l <- query (fun i : Invitation => bool_decide (iv_token_hash i = hash_token en invitation_token)) ;;
  found <- scalar_one_or_none l ;;
  match found with
  | None => raise (EDomain NotFoundError "invitation not found or not pending")
  | Some inv =>
      guardM (negb (bool_decide (iv_status inv = IPending)))
        (EDomain NotFoundError "invitation not found or not pending") ;;;
      t <- now ;;
      guardM (iv_expires_at inv <=? t)%Z (EDomain InvariantViolationError "invitation expired") ;;;
      guardM (negb (bool_decide (iv_email inv = str_lower (strip accepting_email))))
        (EDomain PermissionDeniedError "invitation was issued to another email") ;;;
      already <- query (fun m : Membership => bool_decide (mb_tenant_id m = iv_tenant_id inv)
                                             && bool_decide (mb_user_id m = actor_id)) ;;
      guardM (negb (bool_decide (already = [])))
        (EDomain ConflictError "already a member of this tenant") ;;;
      mi <- new_uuid7 ;;
      mt <- now ;;
      let membership := mkMembership mi (iv_tenant_id inv) actor_id (iv_role_id inv) MActive mt in
      ta <- now ;;
      upd (R:=Invitation) (iv_id inv) (accept_row actor_id ta) ;;;
      insert_row membership ;;;
      role <- session_get (R:=Role) (iv_role_id inv) ;;
      match role with
      | None => raise EAttribute
      | Some r =>
          emit SvcTenants ctx "tenants.member.joined"
            [("tenant_id", JStr (uuid_str (iv_tenant_id inv))); ("user_id", JStr (uuid_str actor_id));
             ("role", JStr (ro_code r))] ;;;
          ret (membership_dto membership (ro_code r))
      end
  end.

Definition set_tenant (name locale : option string) (status : option tenant_status) (t : Tenant)
    : Tenant :=
  mkTenant (tn_id t) (default (tn_name t) name) (tn_slug t) (tn_owner_user_id t)
    (default (tn_status t) status) (default (tn_default_locale t) locale) (tn_created_at t).

Definition update_tenant (name default_locale : option string) : SM TenantDTO :=
  tns_require TENANT_UPDATE ;;;
  t <- current_tenant_or_404 ;;
  upd (R:=Tenant) (tn_id t) (set_tenant name default_locale None) ;;;
  flush ;;;
  t' <- load (R:=Tenant) (tn_id t) ;;
  ret (tenant_dto t').

(** [invite_member] *)
Definition invite_member (email role : string) : SM InvitationDTO :=
  tns_require MEMBER_INVITE ;;;
  match tns_mailer self with
  | None => raise (EDomain InvariantViolationError "invitations require an invitation mailer")
  | Some mailer =>
      tenant <- current_tenant_or_404 ;;
      role_row <- tenant_or_system_role role ;;
      raw_token <- new_opaque_token ;;
      en <- gets env ;;
      i <- new_uuid7 ;;
      inviter <- tns_actor_user_id ;;
      t <- now ;;
      repo <- repo_init ctx ;;
      let row tid := mkInvitation i tid (str_lower (strip email)) (ro_id role_row)
        (hash_token en raw_token) IPending (Some inviter) None
        (t + timedelta_days INVITATION_TTL_DAYS)%Z None in
      invitation <- catch (begin_nested (repo_add repo (c_tenant_id ctx) row))
        (fun e => match e with
                  | EIntegrity => raise (EDomain ConflictError
                      "a pending invitation for this email already exists")
                  | _ => raise e
                  end) ;;
      mailer ctx (iv_email invitation) raw_token (tn_name tenant) (tn_default_locale tenant)
        INVITATION_TTL_DAYS ;;;
      emit SvcTenants ctx "tenants.member.invited"
        [("tenant_id", opt_uuid (c_tenant_id ctx)); ("invitation_id", JStr (uuid_str (iv_id invitation)));
         ("role", JStr role)] ;;;
      ret (mkInvitationDTO (iv_id invitation) (iv_tenant_id invitation) (iv_email invitation) role
             (iv_status invitation) (iv_expires_at invitation))
  end.

Definition revoke_invitation (invitation_id : uuid) : SM unit :=
  tns_require MEMBER_INVITE ;;;
  repo <- repo_init ctx ;;
  inv <- repo_get_or_raise (R:=Invitation) "Invitation" repo invitation_id ;;
  guardM (negb (bool_decide (iv_status inv = IPending)))
    (EDomain InvariantViolationError "only pending invitations can be revoked") ;;;
  upd (R:=Invitation) invitation_id revoke_row ;;;
  flush.

(** [_guard_last_owner]: counts, and takes no lock; other transactions may
    commit before the caller writes *)
Definition guard_last_owner (user_id : uuid) : SM unit :=
  owner_role <- system_role ROLE_OWNER ;;
  target <- member_or_raise user_id ;;
  if negb (bool_decide (mb_role_id target = ro_id owner_role)) then ret tt
  else
    owners <- query (fun m : Membership => is_opt (c_tenant_id ctx) (mb_tenant_id m)
                                           && bool_decide (mb_role_id m = ro_id owner_role)) ;;
    guardM (Nat.leb (length owners) 1)
      (EDomain InvariantViolationError "cannot remove or demote the last owner") ;;;
    rivals.

Definition set_role (role_id : uuid) (m : Membership) : Membership :=
  mkMembership (mb_id m) (mb_tenant_id m) (mb_user_id m) role_id (mb_status m) (mb_created_at m).

Definition change_member_role (user_id : uuid) (role : string) : SM MembershipDTO :=
  tns_require MEMBER_UPDATE_ROLE ;;;
  membership <- member_or_raise user_id ;;
  new_role <- tenant_or_system_role role ;;
  (if negb (bool_decide (ro_code new_role = ROLE_OWNER)) then guard_last_owner user_id else ret tt) ;;;
  upd (R:=Membership) (mb_id membership) (set_role (ro_id new_role)) ;;;
  flush ;;;
  emit SvcTenants ctx "tenants.member.role_changed"
    [("tenant_id", opt_uuid (c_tenant_id ctx)); ("user_id", JStr (uuid_str user_id));
     ("role", JStr role)] ;;;
  m <- load (R:=Membership) (mb_id membership) ;;
  ret (membership_dto m (ro_code new_role)).

Definition remove_member (user_id : uuid) : SM unit :=
  tns_require MEMBER_REMOVE ;;;
  membership <- member_or_raise user_id ;;
  guard_last_owner user_id ;;;
  event_id <- emit SvcTenants ctx "tenants.member.removed"
    [("tenant_id", opt_uuid (c_tenant_id ctx)); ("user_id", JStr (uuid_str user_id))] ;;
  session_delete (R:=Membership) (mb_id membership) ;;;
  flush ;;;
  audit_record ctx "tenants.member.removed" (Some "member") (Some (uuid_str user_id)) []
    (Some event_id) None.

Definition settable_status (status : string) : option tenant_status :=
  if bool_decide (status = "active") then Some TActive
  else if bool_decide (status = "suspended") then Some TSuspended else None.

Definition set_status (tenant_id : uuid) (status : string) (reason : option string) : SM unit :=
  match settable_status status with
  | None => raise (EDomain InvariantViolationError "status must be 'active' or 'suspended'")
  | Some st =>
      o <- session_get (R:=Tenant) tenant_id ;;
      match o with
      | None => raise (EDomain NotFoundError "tenant not found")
      | Some _ =>
          upd (R:=Tenant) tenant_id (set_tenant None None (Some st)) ;;;
          flush ;;;
          emit SvcTenants ctx "tenants.tenant.status_changed"
            [("tenant_id", JStr (uuid_str tenant_id)); ("status", JStr status);
             ("reason", opt_str reason)] ;;;
          ret tt
      end
  end.
End TenantService.

(** ** src/core/tenants/sync.py *)

Definition is_system_role (code : string) (r : Role) : bool :=
  bool_decide (ro_tenant_id r = None) && bool_decide (ro_code r = code).

(** The grants of one role: the missing are added, the stale dropped. *)
Definition reconcile (role_id : uuid) (grants : gset string) : SM unit :=
  d <- get_db ;;
  let current := role_codes (t_role_permissions (tenants_of d)) role_id in
  let add := set_map (pair role_id) (grants ∖ current) : gset (N * string) in
  let drop := set_map (pair role_id) (current ∖ grants) : gset (N * string) in
  modify (st_db (fun d => set_role_permissions
    ((t_role_permissions (tenants_of d) ∪ add) ∖ drop) d)) ;;;
  flush.

Definition sync_role (reg : PermissionRegistry) (entry : string * gset string) : SM unit :=
  let '(code, grants) := entry in
  for_each (elements grants) (fun p => lift_res (require_registered reg p)) ;;;
  i <- new_uuid7 ;;
  title <- lift_res (need (assoc code SYSTEM_ROLE_TITLES) EKey) ;;
  insert_on_conflict_do_nothing (is_system_role code) (mkRole i None code title true) ;;;
  l <- query (is_system_role code) ;;
  o <- scalar_one_or_none l ;;
  match o with
  | None => raise ENoResult
  | Some role => reconcile (ro_id role) grants
  end.

Definition sync_system_roles (reg : PermissionRegistry) (grants : Grants) : SM unit :=
  for_each grants (sync_role reg) ;;; session_commit.
