(* ===== verification/TenantsFacts.v ===== *)
(** Facts about tenants: footprints, the seat of the owner, invitations, and
    the grants of system roles. *)

From stdpp Require Import base strings gmap list sorting.
From Stdlib Require Import ZArith Lia Ascii.
From S2P Require Import Prelude Errors PyLib Calendar Entities Models Events Session SessionFacts.
From S2P Require Import Footprints Access Journal Accounts AccountsFacts Tenants.

(** ** What other components rely on: resolvers and directories only read *)

Lemma quiet_codes self u : steps quiet (get_permission_codes self u).
Proof. unfold get_permission_codes. steps_walk. Qed.
#[export] Instance tenant_access self : QuietAccess (Some (get_permission_codes self)).
Proof. intros r u [= <-]. apply quiet_codes. Qed.

Lemma quiet_tns_require self p : steps quiet (tns_require self p).
Proof. apply quiet_guard, _. Qed.
Lemma quiet_current_tenant self : steps quiet (current_tenant self).
Proof. unfold current_tenant. steps_walk. Qed.
#[export] Hint Resolve quiet_codes quiet_tns_require quiet_current_tenant : steps.
Lemma quiet_tenant_or_404 self : steps quiet (current_tenant_or_404 self).
Proof. unfold current_tenant_or_404. steps_walk. Qed.
Lemma quiet_shop_active self : steps quiet (current_tenant_is_active self).
Proof. unfold current_tenant_is_active. steps_walk. Qed.
Lemma quiet_tenant_by_id t : steps quiet (tenant_by_id t).
Proof. unfold tenant_by_id. steps_walk. Qed.
#[export] Hint Resolve quiet_tenant_by_id quiet_tenant_or_404 quiet_shop_active : steps.
Lemma quiet_owner_user_id t : steps quiet (get_owner_user_id t).
Proof. unfold get_owner_user_id. steps_walk. Qed.
Lemma quiet_locale t : steps quiet (get_default_locale t).
Proof. unfold get_default_locale. steps_walk. Qed.
Lemma quiet_is_member t u : steps quiet (is_active_member t u).
Proof. unfold is_active_member. steps_walk. Qed.
Lemma quiet_tns_actor self : steps quiet (tns_actor_user_id self).
Proof. unfold tns_actor_user_id. steps_walk. Qed.
Lemma quiet_system_role c : steps quiet (system_role c).
Proof. unfold system_role. steps_walk. Qed.
Lemma quiet_any_role self c : steps quiet (tenant_or_system_role self c).
Proof. unfold tenant_or_system_role. steps_walk. Qed.
Lemma quiet_member self u : steps quiet (member_or_raise self u).
Proof. unfold member_or_raise. steps_walk. Qed.
#[export] Hint Resolve quiet_owner_user_id quiet_locale quiet_is_member quiet_tns_actor
  quiet_system_role quiet_any_role quiet_member : steps.

(** ** Footprints *)

Section Footprints.
Context (R : Db -> Db -> Prop) `{!PreOrder R, !CoreBlind R}.
Abbreviation runs := (steps (evo R)).

Lemma runs_get_tenant self : runs (get_tenant self).
Proof. unfold get_tenant. stmt_walk. Qed.
Lemma runs_list_user_tenants self : runs (list_user_tenants self).
Proof. unfold list_user_tenants. stmt_walk. Qed.
Lemma runs_list_members self p : runs (list_members self p).
Proof. unfold list_members. stmt_walk. Qed.
Lemma runs_create_tenant self n sl : runs (create_tenant self n sl).
Proof. unfold create_tenant. stmt_walk. Qed.
Lemma runs_accept self t e : runs (accept_invitation self t e).
Proof. unfold accept_invitation. stmt_walk. Qed.
Lemma runs_update_tenant self n l : runs (update_tenant self n l).
Proof. unfold update_tenant. stmt_walk. Qed.
Lemma runs_invite self e r :
  (forall m c a b d f k, tns_mailer self = Some m -> runs (m c a b d f k)) ->
  runs (invite_member self e r).
Proof.
  intros Hm. unfold invite_member. destruct (tns_mailer self) as [m|] eqn:Em; stmt_walk.
  apply (evo_begin_nested R). stmt_walk.
Qed.
Lemma runs_revoke_invitation self i : runs (revoke_invitation self i).
Proof. unfold revoke_invitation. stmt_walk. Qed.
Lemma runs_guard_owner self u : runs (guard_last_owner self u).
Proof. unfold guard_last_owner. stmt_walk. Qed.
Hint Resolve runs_guard_owner : stmt.
Lemma runs_change_role self u r : runs (change_member_role self u r).
Proof. unfold change_member_role. stmt_walk. Qed.
Lemma runs_remove `{!Tolerates R AuditLog} self u : runs (remove_member self u).
Proof. unfold remove_member. stmt_walk. Qed.
Lemma runs_set_status self t st r : runs (set_status self t st r).
Proof. unfold set_status. stmt_walk. Qed.
Lemma runs_reconcile r g : runs (reconcile r g).
Proof. unfold reconcile. stmt_walk. apply (stmt_write (evo R)). intros d. apply core_grants. Qed.
Lemma runs_sync_role reg e : runs (sync_role reg e).
Proof.
  pose proof runs_reconcile. unfold sync_role. destruct e as [code grants]. stmt_walk.
  apply (evo_on_conflict R). intros. apply tol_put.
Qed.
End Footprints.

(** ** The owner's seat *)

Definition members_of (d : Db) : gmap N Membership := t_memberships (tenants_of d).
Definition roles_of (d : Db) : gmap N Role := t_roles (tenants_of d).
Definition tenant_rows (d : Db) : gmap N Tenant := t_tenants (tenants_of d).

(** [m] holds the system role "owner". *)
Definition is_owner (d : Db) (m : Membership) : Prop :=
  exists r ro, roles_of d !! r = Some ro /\ is_system_role ROLE_OWNER ro = true /\
    mb_role_id m = ro_id ro.
Definition has_owner (d : Db) (t : uuid) : Prop :=
  exists i m, members_of d !! i = Some m /\ mb_tenant_id m = t /\ is_owner d m.

(** Rows are under their keys, no tenant shadows the system role, and every
    tenant has an owner. *)
Record seats (d : Db) : Prop := {
  se_members : Keyed (R:=Membership) d;
  se_tenants : Keyed (R:=Tenant) d;
  se_roles : Keyed (R:=Role) d;
  se_system : forall r ro, roles_of d !! r = Some ro -> ro_tenant_id ro = None;
  se_owner : forall i t, tenant_rows d !! i = Some t -> has_owner d i }.

Definition seats_evo (d d' : Db) : Prop := seats d -> seats d'.
#[export] Instance seats_evo_preorder : PreOrder seats_evo.
Proof. split; [intros x|intros x y z]; unfold seats_evo; tauto. Qed.

(** Writes outside tenants, members and roles. *)
Lemma seats_evo_same d d' :
  members_of d' = members_of d -> roles_of d' = roles_of d -> tenant_rows d' = tenant_rows d ->
  seats_evo d d'.
Proof.
  intros Hm Hr Ht [K1 K2 K3 S O]. unfold members_of, roles_of, tenant_rows in *. split.
  - intros i m. unfold t_get. simpl. rewrite Hm. apply K1.
  - intros i m. unfold t_get. simpl. rewrite Ht. apply K2.
  - intros i m. unfold t_get. simpl. rewrite Hr. apply K3.
  - intros r ro. unfold roles_of. rewrite Hr. apply S.
  - intros i t. unfold tenant_rows. rewrite Ht. intros Hi. destruct (O i t Hi) as (j & m & Hj & Hmt & Ho).
    exists j, m. unfold members_of. rewrite Hm. split; [done|]. split; [done|].
    destruct Ho as (r & ro & Hro & ?). exists r, ro. unfold roles_of. by rewrite Hr.
Qed.

(** Members may change as long as each tenant keeps an owner. *)
Lemma seats_members d d' :
  seats d -> roles_of d' = roles_of d -> tenant_rows d' = tenant_rows d ->
  Keyed (R:=Membership) d' -> (forall t, has_owner d t -> has_owner d' t) -> seats d'.
Proof.
  intros [K1 K2 K3 S O] Hr Ht K Ho. unfold roles_of, tenant_rows in *. split; [done|..].
  - intros i m. unfold t_get. simpl. rewrite Ht. apply K2.
  - intros i m. unfold t_get. simpl. rewrite Hr. apply K3.
  - intros r ro. unfold roles_of. rewrite Hr. apply S.
  - intros i t. unfold tenant_rows. rewrite Ht. intros Hi. eauto.
Qed.

(** A member that is not the only owner can leave the seat. *)
Lemma owner_remains d d' i target orole t :
  seats d -> members_of d !! i = Some target ->
  (forall r ro, roles_of d !! r = Some ro -> is_system_role ROLE_OWNER ro = true -> ro_id ro = ro_id orole) ->
  roles_of d' = roles_of d ->
  (forall j, j ≠ i -> members_of d' !! j = members_of d !! j) ->
  (mb_role_id target ≠ ro_id orole \/
   (2 <= length (select (fun m => bool_decide (mb_tenant_id m = mb_tenant_id target)
                    && bool_decide (mb_role_id m = ro_id orole)) (members_of d)))%nat) ->
  has_owner d t -> has_owner d' t.
Proof.
  intros Hs Hi Hu Hr Hm Hc (j & m & Hj & Ht & (r & ro & Hro & Hsys & Hid)).
  assert (Hsame : forall k x, k ≠ i -> members_of d !! k = Some x -> mb_tenant_id x = t ->
    mb_role_id x = ro_id orole -> has_owner d' t).
  { intros k x Hk Hx Hxt Hxr. exists k, x. rewrite Hm by done. split; [done|]. split; [done|].
    exists r, ro. rewrite Hr. split; [done|]. split; [done|]. rewrite Hxr. symmetry. by eapply Hu. }
  assert (Hmr : mb_role_id m = ro_id orole) by (rewrite Hid; by eapply Hu).
  destruct (decide (j = i)) as [->|Hne]; [|by eapply Hsame].
  rewrite Hi in Hj. injection Hj as <-. destruct Hc as [?|Hlen]; [done|].
  destruct Hs as [K1 _ _ _ _].
  set (p := fun m => _) in Hlen.
  pose proof (select_ids_NoDup (R:=Membership) d p K1 : NoDup (mb_id <$> select p (members_of d))) as Hnd.
  destruct (select p (members_of d)) as [|x [|y l]] eqn:Esel; [simpl in Hlen; lia..|].
  assert (Hin : forall z, z ∈ x :: y :: l -> exists k, members_of d !! k = Some z /\ p z = true).
  { intros z Hz. rewrite <- Esel in Hz. apply elem_of_select in Hz as [[k Hk] Hp]. eauto. }
  assert (Hz : exists z, z ∈ x :: y :: l /\ mb_id z ≠ i).
  { destruct (decide (mb_id x = i)) as [Hx|Hx]; [|exists x; set_solver].
    exists y. split; [set_solver|]. simpl in Hnd. apply NoDup_cons in Hnd as [Hnx _].
    intros Hy. apply Hnx. rewrite Hx, <- Hy. set_solver. }
  destruct Hz as (z & Hz & Hzi). destruct (Hin z Hz) as (k & Hk & Hp). unfold p in Hp.
  apply andb_prop in Hp as [Hp1%bool_decide_eq_true Hp2%bool_decide_eq_true].
  eapply (Hsame k z); [|exact Hk|congruence|done]. intros ->. by apply Hzi, (K1 i z).
Qed.

(** What the guard found out when it let the caller go on. *)
Lemma guard_last_owner_Ok self u s x s' :
  no_rivals (env s) -> guard_last_owner self u s = (Ok x, s') ->
  db s' = db s /\ exists orole i target,
    (forall r ro, roles_of (db s) !! r = Some ro -> is_system_role ROLE_OWNER ro = true ->
       ro_id ro = ro_id orole) /\
    members_of (db s) !! i = Some target /\ own_membership self u target = true /\
    (mb_role_id target ≠ ro_id orole \/
     (2 <= length (select (fun m => is_opt (c_tenant_id (tns_ctx self)) (mb_tenant_id m)
                    && bool_decide (mb_role_id m = ro_id orole)) (members_of (db s))))%nat).
Proof.
  intros Hn. unfold guard_last_owner. intros H. apply bind_inv_Ok in H as (orole & s1 & Hs & H).
  pose proof (quiet_db _ _ _ _ (quiet_system_role _) Hs) as (E1 & D1 & _ & A1 & _).
  apply bind_inv_Ok in H as (target & s2 & Hm & H).
  pose proof (quiet_db _ _ _ _ (quiet_member _ _) Hm) as (E2 & D2 & _ & A2 & _).
  assert (Hu : forall r ro, roles_of (db s) !! r = Some ro -> is_system_role ROLE_OWNER ro = true ->
    ro_id ro = ro_id orole).
  { unfold system_role in Hs. apply bind_inv_Ok in Hs as (l & s3 & Hq & Hs).
    apply query_Ok in Hq as (-> & _ & ->). apply bind_inv_Ok in Hs as (o & s3 & Hq & Hs).
    apply scalar_Ok in Hq as [-> Hq]. destruct o as [r0|]; [|done]. unfold ret in Hs. injection Hs as -> <-.
    intros r ro Hr Hsys.
    assert (Hin : ro ∈ select (is_system_role ROLE_OWNER) (t_get (db s)))
      by (apply elem_of_select; eauto).
    change (fun r => _) with (is_system_role ROLE_OWNER) in Hq. rewrite Hq in Hin.
    by apply list_elem_of_singleton in Hin as ->. }
  assert (Ht : exists i, members_of (db s) !! i = Some target /\ own_membership self u target = true).
  { unfold member_or_raise in Hm. apply bind_inv_Ok in Hm as (l & s3 & Hq & Hm).
    apply query_Ok in Hq as (-> & _ & ->). apply bind_inv_Ok in Hm as (o & s3 & Hq & Hm).
    apply scalar_Ok in Hq as [-> Hq]. destruct o as [r0|]; [|done]. unfold ret in Hm. injection Hm as -> <-.
    assert (Hin : target ∈ select (own_membership self u) (t_get (db s1))) by (rewrite Hq; set_solver).
    apply elem_of_select in Hin as [[i Hi] Hp]. rewrite D1 in Hi. eauto. }
  destruct Ht as (i & Hi & Hp). case_bool_decide as Hr; simpl in H.
  - apply bind_inv_Ok in H as (l & s3 & Hq & H). apply query_Ok in Hq as (-> & _ & ->).
    apply bind_inv_Ok in H as (v & s3 & Hg & H). unfold guardM in Hg.
    destruct (Nat.leb _ 1) eqn:El; [done|]. unfold ret in Hg. injection Hg as _ <-.
    injection H as _ <-. simpl. rewrite E2, E1, Hn, D2, D1. split; [done|].
    exists orole, i, target. split; [done|]. split; [done|]. split; [done|]. right.
    rewrite D2, D1 in El. apply Nat.leb_gt in El. exact El.
  - unfold ret in H. simplify_eq. rewrite D2, D1. split; [done|].
    exists orole, i, target. auto.
Qed.

Lemma own_membership_tenant self u m :
  own_membership self u m = true -> c_tenant_id (tns_ctx self) = Some (mb_tenant_id m).
Proof. unfold own_membership, is_opt. intros [H%bool_decide_eq_true _]%andb_prop. done. Qed.

Lemma select_same_tenant self u m0 (q : Membership -> bool) t :
  own_membership self u m0 = true ->
  select (fun m => is_opt (c_tenant_id (tns_ctx self)) (mb_tenant_id m) && q m) t =
  select (fun m => bool_decide (mb_tenant_id m = mb_tenant_id m0) && q m) t.
Proof.
  intros H%own_membership_tenant. apply select_ext. intros r. unfold is_opt. rewrite H. f_equal.
  apply bool_decide_ext. split; [by intros [= ->]|by intros ->].
Qed.

Lemma member_Ok self u s m s' :
  member_or_raise self u s = (Ok m, s') ->
  s' = s /\ (exists i, members_of (db s) !! i = Some m) /\ own_membership self u m = true /\
  forall i x, members_of (db s) !! i = Some x -> own_membership self u x = true -> x = m.
Proof.
  unfold member_or_raise. intros H. apply bind_inv_Ok in H as (l & s1 & Hq & H).
  apply query_Ok in Hq as (-> & _ & ->). apply bind_inv_Ok in H as (o & s1 & Hq & H).
  apply scalar_Ok in Hq as [-> Hq]. destruct o as [r|]; [|done]. unfold ret in H.
  injection H as -> <-. split; [done|].
  assert (Hin : forall x, x ∈ select (own_membership self u) (members_of (db s)) <-> x = m).
  { intros x. unfold members_of. change (t_memberships (tenants_of (db s))) with (t_get (R:=Membership) (db s)).
    rewrite Hq. apply list_elem_of_singleton. }
  pose proof (proj2 (Hin m) eq_refl) as [Hi Hp]%elem_of_select. split; [exact Hi|]. split; [done|].
  intros i x Hx Hox. apply Hin, elem_of_select. eauto.
Qed.

Lemma evo_seats_intro s g :
  seats_evo (db s) (g (db s)) -> evo seats_evo s (modify (E:=exn) (st_db g) s).2.
Proof. intros H. by apply (evo_intro seats_evo). Qed.

(** The member whose seat may be vacated: the row, its key, the guard's facts. *)
Lemma vacated self u s m s1 x s2 d' :
  no_rivals (env s) -> member_or_raise self u s = (Ok m, s1) ->
  guard_last_owner self u s1 = (Ok x, s2) ->
  roles_of d' = roles_of (db s) -> tenant_rows d' = tenant_rows (db s) ->
  (forall j, j ≠ mb_id m -> members_of d' !! j = members_of (db s) !! j) ->
  (Keyed (R:=Membership) (db s) -> Keyed (R:=Membership) d') -> db s2 = db s /\ seats_evo (db s) d'.
Proof.
  intros Hn Hm Hg Hr Ht Ho Hk. apply member_Ok in Hm as (-> & (i & Hi) & Hown & Huniq).
  apply guard_last_owner_Ok in Hg as (D & orole & j & target & Hu & Hj & Hj' & Hc); [|done].
  split; [done|]. intros Hs. assert (target = m) as -> by eauto.
  assert (j = mb_id m) as -> by (symmetry; exact (se_members _ Hs j m Hj)).
  eapply seats_members; [done..|apply Hk, Hs|]. intros t.
  eapply owner_remains; [done|exact Hj|exact Hu|done|done|].
  by rewrite (select_same_tenant self u m (fun m0 => bool_decide (mb_role_id m0 = ro_id orole))) in Hc.
Qed.

#[export] Instance seats_audit : Ignores seats_evo AuditLog.
Proof. intros d t. by apply seats_evo_same. Qed.
#[export] Instance seats_invites : Ignores seats_evo Invitation.
Proof. intros d t. by apply seats_evo_same. Qed.

Lemma Keyed_members_del d i : Keyed (R:=Membership) d -> Keyed (R:=Membership) (t_del (R:=Membership) i d).
Proof.
  intros Hk j m Hj. unfold t_get, t_del, t_set in Hj. simpl in Hj.
  apply lookup_delete_Some in Hj as [_ Hj]. exact (Hk j m Hj).
Qed.

Lemma Keyed_members_alter d i (f : Membership -> Membership) :
  (forall m, mb_id (f m) = mb_id m) -> Keyed (R:=Membership) d ->
  Keyed (R:=Membership) (t_set (alter f i (t_get d)) d).
Proof.
  intros Hf Hk j m Hj. unfold t_get, t_set in Hj. simpl in Hj.
  destruct (decide (i = j)) as [<-|Hne].
  - rewrite lookup_alter_eq in Hj. apply fmap_Some in Hj as (x & Hx & ->). simpl. rewrite Hf.
    exact (Hk i x Hx).
  - rewrite lookup_alter_ne in Hj by done. exact (Hk j m Hj).
Qed.

(** Alone, a statement that only reads and draws leaves the view alone. *)
Lemma alone_db {A} (m : SM A) s r s' :
  no_rivals (env s) -> steps (evo (same id)) m -> m s = (r, s') -> db s' = db s /\ env s' = env s.
Proof.
  intros Hn Hm E. destruct (Hm s) as (He & Hd & _). rewrite E in He, Hd. simpl in He, Hd.
  split; [|done]. by apply Hd, no_rivals_same.
Qed.

Lemma remove_seats self u s :
  no_rivals (env s) -> evo seats_evo s (remove_member self u s).2.
Proof.
  intros Hn. unfold remove_member.
  apply (rel_bind_post _); [apply (quiet_evo _), quiet_tns_require|]. intros a s1 H1.
  pose proof (quiet_db _ _ _ _ (quiet_tns_require _ _) H1) as (E1 & D1 & _). rewrite <- E1 in Hn.
  apply (rel_bind_post _); [apply (quiet_evo _), quiet_member|]. intros m s2 H2.
  pose proof (member_Ok _ _ _ _ _ H2) as (-> & _).
  apply (rel_bind_post _); [apply (runs_guard_owner seats_evo)|]. intros x s3 H3.
  destruct (vacated self u s1 m s1 x s3 (t_del (R:=Membership) (mb_id m) (db s1))) as [D3 Hev]; try done.
  { intros j Hj. unfold members_of. simpl. by rewrite lookup_delete_ne. }
  { apply Keyed_members_del. }
  apply (rel_bind_post _); [apply (evo_emit _)|]. intros ev s4 H4.
  apply alone_db in H4 as [D4 _]; [| |apply (evo_emit _)].
  2:{ apply (alone_db _ _ _ _ Hn (runs_guard_owner (same id) self u)) in H3 as [_ ->]. done. }
  apply (rel_bind _).
  - apply evo_seats_intro. rewrite D4, D3. exact Hev.
  - intros _. pose proof (evo_audit_record seats_evo). steps_walk.
Qed.

(** The role found is one of the table. *)
Lemma any_role_Ok self c s r s' :
  tenant_or_system_role self c s = (Ok r, s') ->
  s' = s /\ (exists i, roles_of (db s) !! i = Some r) /\ ro_code r = c.
Proof.
  unfold tenant_or_system_role. intros H. apply bind_inv_Ok in H as (l & s1 & Hq & H).
  apply query_Ok in Hq as (-> & _ & ->). destruct (select _ _) as [|x l] eqn:Es; [done|].
  unfold ret in H. injection H as -> <-. split; [done|].
  match type of Es with select ?p ?t = _ => assert (Hin : r ∈ select p t) by (rewrite Es; set_solver) end.
  apply elem_of_select in Hin as [Hi [Hp%bool_decide_eq_true _]%andb_prop]. done.
Qed.

(** A promotion to owner vacates no seat. *)
Lemma promoted d m r ro :
  seats d -> roles_of d !! r = Some ro -> ro_code ro = ROLE_OWNER ->
  seats (t_set (alter (set_role (ro_id ro)) (mb_id m) (t_get d)) d).
Proof.
  intros Hs Hr Hc. eapply seats_members; [done..| |].
  { apply Keyed_members_alter; [done|apply Hs]. }
  intros t (j & x & Hj & Ht & Ho). destruct (decide (mb_id m = j)) as [Heq|Hne].
  - exists j, (set_role (ro_id ro) x). split; [|split; [done|]].
    + unfold members_of. simpl. rewrite Heq, lookup_alter_eq. unfold members_of in Hj. by rewrite Hj.
    + exists r, ro. split; [done|]. split; [|done]. unfold is_system_role.
      rewrite (bool_decide_true (ro_tenant_id ro = None)) by exact (se_system _ Hs r ro Hr).
      by rewrite bool_decide_true.
  - exists j, x. split; [|done]. unfold members_of. simpl. by rewrite lookup_alter_ne.
Qed.

Lemma change_role_seats self u role s :
  no_rivals (env s) -> evo seats_evo s (change_member_role self u role s).2.
Proof.
  intros Hn. unfold change_member_role.
  apply (rel_bind_post _); [apply (quiet_evo _), quiet_tns_require|]. intros a s1 H1.
  pose proof (quiet_db _ _ _ _ (quiet_tns_require _ _) H1) as (E1 & D1 & _). rewrite <- E1 in Hn.
  apply (rel_bind_post _); [apply (quiet_evo _), quiet_member|]. intros m s2 H2.
  pose proof (member_Ok _ _ _ _ _ H2) as (-> & _).
  apply (rel_bind_post _); [apply (quiet_evo _), quiet_any_role|]. intros ro s2 Hro.
  apply any_role_Ok in Hro as (-> & (r & Hr) & _).
  set (d' := t_set (alter (set_role (ro_id ro)) (mb_id m) (t_get (db s1))) (db s1)).
  assert (Hrest : forall s3, db s3 = db s1 -> seats_evo (db s1) d' ->
    evo seats_evo s3 ((upd (R:=Membership) (mb_id m) (set_role (ro_id ro)) ;;; flush ;;;
      emit SvcTenants (tns_ctx self) "tenants.member.role_changed"
        [("tenant_id", opt_uuid (c_tenant_id (tns_ctx self))); ("user_id", JStr (uuid_str u));
         ("role", JStr role)] ;;;
      m <- load (R:=Membership) (mb_id m) ;; ret (membership_dto m (ro_code ro))) s3).2).
  { intros s3 D3 Hev. apply (rel_bind _); [apply evo_seats_intro; by rewrite D3|]. steps_walk. }
  case_bool_decide as Hc; cbn [negb].
  - apply (rel_bind_post _); [simpl; reflexivity|]. intros x s3 [= _ <-]. apply Hrest; [done|].
    intros Hs. by eapply promoted.
  - apply (rel_bind_post _); [apply (runs_guard_owner seats_evo)|]. intros x s3 H3.
    destruct (vacated self u s1 m s1 x s3 d') as [D3 Hev]; try done; [|by apply Keyed_members_alter|auto].
    intros j Hj. unfold members_of. simpl. by rewrite lookup_alter_ne.
Qed.

(** ** The other operations *)

Lemma seats_put_member d m :
  t_get (R:=Membership) d !! mb_id m = None -> seats_evo d (t_put m d).
Proof.
  intros Hf Hs. eapply seats_members; [done..| |].
  - intros i x Hx. unfold t_get, t_put, t_set in Hx. simpl in Hx. rewrite lookup_insert in Hx.
    case_decide; [by simplify_eq|]. exact (se_members _ Hs i x Hx).
  - intros t (j & x & Hj & Ht & Ho). exists j, x. split; [|done]. unfold members_of in *. simpl.
    rewrite lookup_insert_ne; [done|]. intros <-. unfold t_get in Hf. simpl in Hf. congruence.
Qed.

Lemma seats_upd_tenant d i (f : Tenant -> Tenant) :
  (forall t, tn_id (f t) = tn_id t) -> seats_evo d (t_set (alter f i (t_get d)) d).
Proof.
  intros Hf [K1 K2 K3 S O]. split; [exact K1| |exact K3|exact S|].
  - intros j t Hj. unfold t_get, t_set in Hj. simpl in Hj. destruct (decide (i = j)) as [<-|Hne].
    + rewrite lookup_alter_eq in Hj. apply fmap_Some in Hj as (x & Hx & ->). simpl. rewrite Hf.
      exact (K2 i x Hx).
    + rewrite lookup_alter_ne in Hj by done. exact (K2 j t Hj).
  - intros j t Hj. unfold tenant_rows in Hj. simpl in Hj. destruct (decide (i = j)) as [<-|Hne].
    + rewrite lookup_alter_eq in Hj. apply fmap_Some in Hj as (x & Hx & ->). exact (O i x Hx).
    + rewrite lookup_alter_ne in Hj by done. exact (O j t Hj).
Qed.

Lemma seats_put_role d ro :
  t_get (R:=Role) d !! ro_id ro = None -> ro_tenant_id ro = None -> seats_evo d (t_put ro d).
Proof.
  intros Hf Hn [K1 K2 K3 S O]. split; [exact K1|exact K2|..].
  - intros i x Hx. unfold t_get, t_put, t_set in Hx. simpl in Hx. rewrite lookup_insert in Hx.
    case_decide; [by simplify_eq|]. exact (K3 i x Hx).
  - intros r x. unfold roles_of. simpl. rewrite lookup_insert. case_decide; [by intros [= <-]|apply S].
  - intros i t Hi. destruct (O i t Hi) as (j & m & Hj & Ht & (r & x & Hr & Hx)). exists j, m.
    split; [done|]. split; [done|]. exists r, x. split; [|done]. unfold roles_of. simpl.
    rewrite lookup_insert_ne; [exact Hr|]. intros <-. unfold roles_of in Hr. unfold t_get in Hf.
    simpl in Hf. congruence.
Qed.

Lemma accept_seats self t e : steps (evo seats_evo) (accept_invitation self t e).
Proof.
  unfold accept_invitation. stmt_walk. apply (evo_insert_row seats_evo). intros d Hd.
  by apply seats_put_member.
Qed.
Lemma update_tenant_seats self n l : steps (evo seats_evo) (update_tenant self n l).
Proof. unfold update_tenant. stmt_walk. apply (evo_upd seats_evo). intros d. by apply seats_upd_tenant. Qed.
Lemma set_status_seats self t st r : steps (evo seats_evo) (set_status self t st r).
Proof. unfold set_status. stmt_walk. apply (evo_upd seats_evo). intros d. by apply seats_upd_tenant. Qed.
Lemma revoke_invitation_seats self i : steps (evo seats_evo) (revoke_invitation self i).
Proof. unfold revoke_invitation. stmt_walk. Qed.
Lemma invite_seats self e r :
  (forall m c a b d f k, tns_mailer self = Some m -> steps (evo seats_evo) (m c a b d f k)) ->
  steps (evo seats_evo) (invite_member self e r).
Proof.
  intros Hm. unfold invite_member. destruct (tns_mailer self) as [m|] eqn:Em; stmt_walk.
  apply (evo_begin_nested seats_evo). stmt_walk.
Qed.
Lemma sync_role_seats reg e : steps (evo seats_evo) (sync_role reg e).
Proof.
  assert (forall r g, steps (evo seats_evo) (reconcile r g)).
  { intros r g. unfold reconcile. stmt_walk. apply (stmt_write (evo seats_evo)). intros d.
    by apply seats_evo_same. }
  unfold sync_role. destruct e as [code grants]. stmt_walk.
  apply (evo_on_conflict seats_evo). intros d Hd. by apply seats_put_role.
Qed.

Lemma seats_new_tenant d tn mb r ro :
  t_get (R:=Membership) d !! mb_id mb = None -> mb_tenant_id mb = tn_id tn ->
  mb_role_id mb = ro_id ro -> roles_of d !! r = Some ro -> is_system_role ROLE_OWNER ro = true ->
  seats_evo d (t_put mb (t_put tn d)).
Proof.
  intros Hf Ht Hro Hr Hsys [K1 K2 K3 S O]. split.
  - intros i x Hx. unfold t_get, t_put, t_set in Hx. simpl in Hx. rewrite lookup_insert in Hx.
    case_decide; [by simplify_eq|]. exact (K1 i x Hx).
  - intros i x Hx. unfold t_get, t_put, t_set in Hx. simpl in Hx. rewrite lookup_insert in Hx.
    case_decide; [by simplify_eq|]. exact (K2 i x Hx).
  - exact K3.
  - exact S.
  - intros i t Hi. unfold tenant_rows in Hi. simpl in Hi. rewrite lookup_insert in Hi.
    case_decide as Hd.
    + exists (mb_id mb), mb. unfold members_of. simpl. rewrite lookup_insert_eq.
      split; [done|]. split; [by rewrite Ht|]. exists r, ro. by split.
    + destruct (O i t Hi) as (j & m & Hj & Hjt & Ho). exists j, m. split; [|by split].
      unfold members_of in *. simpl. rewrite lookup_insert_ne; [done|]. intros <-.
      unfold t_get in Hf. simpl in Hf. congruence.
Qed.

(** A new tenant comes with its owner. *)
Lemma create_tenant_Ok self name slug s a s' :
  no_rivals (env s) -> create_tenant self name slug s = (Ok a, s') -> seats_evo (db s) (db s').
Proof.
  intros Hn. unfold create_tenant. intros H. apply bind_inv_Ok in H as (u & s1 & Hu & H).
  pose proof (quiet_db _ _ _ _ (quiet_tns_actor _) Hu) as (E1 & D1 & _).
  apply bind_inv_Ok in H as (l & s2 & Hq & H). apply query_Ok in Hq as (-> & _ & ->).
  destruct (select _ _); [|done]. do 2 (erewrite bind_Ok in H by reflexivity). cbv beta in H.
  apply bind_inv_Ok in H as (u2 & s3 & Hi & H). apply insert_row_Ok in Hi as (-> & _ & Hf & _).
  apply bind_inv_Ok in H as (ro & s4 & Hr & H).
  assert (s4 = st_db (t_put (mkTenant (env_uuid7 (env s1) (n_uuid s1)) name (str_lower (strip slug)) u
    TActive DEFAULT_LOCALE (env_now (env s1) (n_now s1)))) (now (new_uuid7 s1).2).2 /\
    exists r, roles_of (db s1) !! r = Some ro /\ is_system_role ROLE_OWNER ro = true) as [-> (r & Hr1 & Hr2)].
  { unfold system_role in Hr. apply bind_inv_Ok in Hr as (l & s5 & Hq & Hr).
    apply query_Ok in Hq as (-> & _ & ->). apply bind_inv_Ok in Hr as (o & s5 & Hq & Hr).
    apply scalar_Ok in Hq as [-> Hq]. destruct o as [r0|]; [|done]. unfold ret in Hr.
    injection Hr as -> <-. split; [reflexivity|].
    match type of Hq with select ?p ?t = _ => assert (Hin : ro ∈ select p t) by (rewrite Hq; set_solver) end.
    apply elem_of_select in Hin as [[i Hi] Hp]. exists i. split; [exact Hi|exact Hp]. }
  do 2 (erewrite bind_Ok in H by reflexivity). cbv beta in H.
  apply bind_inv_Ok in H as (u3 & s5 & Hi & H). apply insert_row_Ok in Hi as (-> & _ & Hfm & _).
  apply bind_inv_Ok in H as (ev & s6 & He & H). unfold ret in H. injection H as _ <-.
  apply alone_db in He as [-> _]; [|by cbn; rewrite E1|apply (evo_emit _)]. rewrite <- D1. intros Hs.
  set (tn := mkTenant _ _ _ _ _ _ _) in *. set (mb := mkMembership _ _ _ _ _ _) in *.
  by apply (seats_new_tenant (db s1) tn mb r ro).
Qed.

Lemma create_tenant_closes self name slug : closes no_rivals seats_evo (create_tenant self name slug).
Proof.
  intros s.
  destruct (runs_create_tenant anything self name slug s) as (He & _ & Hcm & _).
  split; [done|]. intros Hn Hs.
  rewrite (Hcm Hn). split; [reflexivity|]. intros a Ha.
  destruct (create_tenant self name slug s) as [r s'] eqn:E. simpl in Ha. subst r.
  etransitivity; [exact Hs|]. by eapply create_tenant_Ok.
Qed.

(** ** Permissions *)

Definition grants_of (d : Db) : gset (N * string) := t_role_permissions (tenants_of d).

Lemma elem_of_role_codes g r c : c ∈ role_codes g r <-> (r, c) ∈ g.
Proof.
  unfold role_codes. rewrite elem_of_map. split.
  - intros ([r' c'] & -> & [Hr Hg]%elem_of_filter). simpl in *. by subst.
  - intros H. exists (r, c). split; [done|]. by apply elem_of_filter.
Qed.

(** A permission is held through an active membership in an active tenant. *)
Lemma permission_codes_spec self u s :
  aborted s = false ->
  exists codes, get_permission_codes self u s = (Ok codes, s) /\
    forall c, c ∈ codes <->
      exists i m, members_of (db s) !! i = Some m /\
        c_tenant_id (tns_ctx self) = Some (mb_tenant_id m) /\ mb_user_id m = u /\
        mb_status m = MActive /\ tenant_active (db s) (mb_tenant_id m) = true /\
        (mb_role_id m, c) ∈ grants_of (db s).
Proof.
  intros Ha. unfold get_permission_codes. rewrite (bind_Ok _ _ _ _ _ (get_db_run s Ha)). cbv beta.
  eexists. split; [reflexivity|]. intros c. rewrite elem_of_union_list. split.
  - intros (X & HX & Hc). apply list_elem_of_fmap in HX as (r & -> & Hr).
    apply list_elem_of_fmap in Hr as (m & -> & Hm). apply elem_of_role_codes in Hc.
    apply elem_of_select in Hm as [[i Hi] Hp]. unfold is_opt, active_in in Hp.
    repeat match goal with H : _ && _ = true |- _ => apply andb_prop in H as [? ?] end.
    repeat match goal with H : bool_decide _ = true |- _ => apply bool_decide_eq_true in H end.
    exists i, m. auto 10.
  - intros (i & m & Hi & Ht & Hu & Hs & Hta & Hg).
    exists (role_codes (grants_of (db s)) (mb_role_id m)). split; [|by apply elem_of_role_codes].
    apply list_elem_of_fmap. exists (mb_role_id m). split; [done|]. apply list_elem_of_fmap.
    exists m. split; [done|]. apply elem_of_select. split; [eauto|].
    unfold is_opt, active_in. rewrite Hta. by rewrite !bool_decide_true.
Qed.

(** ** Startup sync *)

Lemma reconcile_codes (g : gset (N * string)) role (grants : gset string) r :
  let current := role_codes g role in
  role_codes ((g ∪ set_map (pair role) (grants ∖ current)) ∖ set_map (pair role) (current ∖ grants)) r
  = if bool_decide (r = role) then grants else role_codes g r.
Proof.
  intros current. apply set_eq. intros c. rewrite elem_of_role_codes, elem_of_difference, elem_of_union.
  rewrite !elem_of_map. unfold current. case_bool_decide as Hr.
  - subst r. split.
    + intros [[Hg|(x & [= <-] & Hx)] Hn]; [|set_solver].
      destruct (decide (c ∈ grants)); [done|]. exfalso. apply Hn. exists c. split; [done|].
      apply elem_of_difference. split; [by apply elem_of_role_codes|done].
    + intros Hc. split.
      * destruct (decide ((role, c) ∈ g)); [by left|right]. exists c. split; [done|].
        apply elem_of_difference. split; [done|]. by rewrite elem_of_role_codes.
      * intros (x & [= <-] & Hx). set_solver.
  - rewrite elem_of_role_codes. split.
    + intros [[?|(x & [= ? ?] & _)] _]; [done|congruence].
    + intros Hg. split; [by left|]. intros (x & [= ? ?] & _). congruence.
Qed.

(** What one role's sync does. *)
Lemma sync_role_Ok reg code grants s x s' :
  no_rivals (env s) -> sync_role reg (code, grants) s = (Ok x, s') ->
  env s' = env s /\ aborted s' = false /\ members_of (db s') = members_of (db s) /\
  tenant_rows (db s') = tenant_rows (db s) /\
  (Keyed (R:=Role) (db s) -> Keyed (R:=Role) (db s')) /\
  (forall r ro, roles_of (db s) !! r = Some ro -> roles_of (db s') !! r = Some ro) /\
  exists r ro, roles_of (db s') !! r = Some ro /\ is_system_role code ro = true /\
    (forall r' ro', roles_of (db s') !! r' = Some ro' -> is_system_role code ro' = true -> ro' = ro) /\
    forall k, role_codes (grants_of (db s')) k =
      if bool_decide (k = ro_id ro) then grants else role_codes (grants_of (db s)) k.
Proof.
  intros Hn. unfold sync_role. intros H. apply bind_inv_Ok in H as (u & s1 & Hreg & H).
  assert (s1 = s) as ->.
  { clear H. revert Hreg. generalize (elements grants). intros l. induction l as [|p l IH]; simpl.
    - intros Hr. injection Hr as _ <-. done.
    - unfold bind, lift_res. destruct (require_registered reg p); [done|]. intros [=]. }
  erewrite bind_Ok in H by reflexivity. cbv beta in H.
  apply bind_inv_Ok in H as (title & s2 & Ht & H). unfold lift_res in Ht. injection Ht as _ <-.
  apply bind_inv_Ok in H as (b & s3 & Hins & H).
  assert (Hs3 : env s3 = env s /\ aborted s3 = false /\ members_of (db s3) = members_of (db s) /\
    tenant_rows (db s3) = tenant_rows (db s) /\ grants_of (db s3) = grants_of (db s) /\
    (Keyed (R:=Role) (db s) -> Keyed (R:=Role) (db s3)) /\
    forall r ro, roles_of (db s) !! r = Some ro -> roles_of (db s3) !! r = Some ro).
  { unfold insert_on_conflict_do_nothing in Hins. apply bind_inv_Ok in Hins as (v & s4 & Hf & Hins).
    pose proof Hf as (_ & _ & _ & -> & Ha & _)%flush_inv. simpl in Ha.
    erewrite bind_Ok in Hins by reflexivity. apply bind_inv_Ok in Hins as (l & s4 & Hq & Hins).
    apply query_Ok in Hq as (-> & _ & _). destruct l.
    - apply bind_inv_Ok in Hins as (w & s5 & Hi & Hins). apply insert_row_Ok in Hi as (-> & _ & Hfree & _).
      unfold ret in Hins. injection Hins as _ <-. simpl in *. rewrite Hn in *.
      repeat split; try done.
      + intros Hk j y Hj. unfold t_get, t_put, t_set in Hj. simpl in Hj. rewrite lookup_insert in Hj.
        case_decide; [by simplify_eq|]. exact (Hk j y Hj).
      + intros r ro Hr. unfold roles_of in *. simpl.
        rewrite lookup_insert_ne; [done|]. intros <-. unfold t_get in Hfree. simpl in Hfree. congruence.
    - unfold ret in Hins. injection Hins as _ <-. simpl. by rewrite Hn. }
  destruct Hs3 as (E3 & A3 & M3 & T3 & G3 & K3 & R3).
  apply bind_inv_Ok in H as (l & s4 & Hq & H). apply query_Ok in Hq as (-> & _ & ->).
  apply bind_inv_Ok in H as (o & s4 & Hq & H). apply scalar_Ok in Hq as [-> Hq].
  destruct o as [ro|]; [|done]. unfold reconcile in H.
  rewrite (bind_Ok _ _ _ _ _ (get_db_run s3 A3)) in H. cbv beta in H.
  erewrite bind_Ok in H by reflexivity. pose proof H as (_ & _ & _ & -> & Ha & _)%flush_inv.
  assert (Hin : forall y, y ∈ select (is_system_role code) (roles_of (db s3)) <-> y = ro).
  { intros y. unfold roles_of. change (t_roles (tenants_of (db s3))) with (t_get (R:=Role) (db s3)).
    rewrite Hq. apply list_elem_of_singleton. }
  pose proof (proj2 (Hin ro) eq_refl) as [[r Hr] Hp]%elem_of_select.
  split; [done|]. split; [done|]. split; [done|]. split; [done|]. split; [exact K3|]. split; [done|].
  exists r, ro. split; [exact Hr|]. split; [done|]. split.
  { intros r' ro' Hr' Hp'. apply Hin, elem_of_select. split; [exists r'; exact Hr'|done]. }
  intros k. unfold grants_of. simpl. fold (grants_of (db s3)). rewrite G3. apply reconcile_codes.
Qed.

(** The database grants a system role what the code declares for it. *)
Definition in_sync (d : Db) (entry : string * gset string) : Prop :=
  exists r ro, roles_of d !! r = Some ro /\ is_system_role entry.1 ro = true /\
    role_codes (grants_of d) (ro_id ro) = entry.2.

Lemma in_sync_step reg e e' s x s' :
  no_rivals (env s) -> Keyed (R:=Role) (db s) -> sync_role reg e' s = (Ok x, s') -> e.1 ≠ e'.1 ->
  in_sync (db s) e -> in_sync (db s') e.
Proof.
  intros Hn Hk H Hne (r & ro & Hr & Hsys & Hg). destruct e' as [code' grants'].
  apply sync_role_Ok in H as (_ & _ & _ & _ & K & R & r' & ro' & Hr' & Hsys' & _ & Hc); [|done].
  exists r, ro. split; [by apply R|]. split; [done|]. rewrite Hc, bool_decide_false; [done|].
  intros Hid. apply Hne. specialize (K Hk). apply R in Hr.
  assert (r = r').
  { pose proof (K r ro Hr) as H1. pose proof (K r' ro' Hr') as H2. simpl in H1, H2. congruence. }
  subst r'. rewrite Hr in Hr'. injection Hr' as ->. unfold is_system_role in Hsys, Hsys'.
  apply andb_prop in Hsys as [_ H1%bool_decide_eq_true], Hsys' as [_ H2%bool_decide_eq_true].
  simpl in *. congruence.
Qed.

Lemma sync_roles_Ok reg l : forall s x s',
  no_rivals (env s) -> Keyed (R:=Role) (db s) -> NoDup l.*1 ->
  for_each l (sync_role reg) s = (Ok x, s') ->
  (forall e, e ∈ l -> in_sync (db s') e) /\
  (forall e, e.1 ∉ l.*1 -> in_sync (db s) e -> in_sync (db s') e) /\
  members_of (db s') = members_of (db s) /\ tenant_rows (db s') = tenant_rows (db s).
Proof.
  induction l as [|[code grants] l IH]; intros s x s' Hn Hk Hnd H; cbn [for_each] in H.
  - injection H as _ <-. split; [set_solver|]. auto.
  - apply bind_inv_Ok in H as (u & s1 & H1 & H). simpl in Hnd. apply NoDup_cons in Hnd as [Hni Hnd].
    pose proof H1 as (E1 & _ & M1 & T1 & K1 & _ & r & ro & Hr & Hsys & _ & Hc)%sync_role_Ok; [|done].
    destruct (IH s1 u s') as (Hin & Hkeep & M & T); [by rewrite E1|auto|done|by destruct x, u|].
    split; [|split; [|by rewrite M, T]].
    + intros e [->|He]%elem_of_cons; [|by apply Hin]. apply Hkeep; [done|].
      exists r, ro. split; [done|]. split; [done|]. simpl. by rewrite Hc, bool_decide_true.
    + intros e He Hs. simpl in He. apply Hkeep; [set_solver|].
      eapply (in_sync_step reg e (code, grants)); [done|done|exact H1| |done]. simpl. set_solver.
Qed.

(** ** What the unique indexes say *)

Lemma member_unique d i j x y :
  db_ok d = true -> members_of d !! i = Some x -> members_of d !! j = Some y ->
  mb_tenant_id x = mb_tenant_id y -> mb_user_id x = mb_user_id y -> i = j.
Proof.
  unfold db_ok, core_ok, tenants_ok. intros H Hx Hy Ht Hu.
  repeat match goal with H : _ && _ = true |- _ => apply andb_prop in H as [? ?] end.
  match goal with H : unique_by uq_member _ = true |- _ => rewrite unique_by_spec in H end.
  match goal with H : forall i j a b k, _ |- _ =>
    eapply (H i j x y (mb_tenant_id x, mb_user_id x)) end; [exact Hx|exact Hy|done|].
  unfold uq_member. congruence.
Qed.

Lemma system_role_unique d i j x y code :
  db_ok d = true -> roles_of d !! i = Some x -> roles_of d !! j = Some y ->
  is_system_role code x = true -> is_system_role code y = true -> i = j.
Proof.
  unfold db_ok, core_ok, tenants_ok, is_system_role. intros H Hx Hy Sx Sy.
  repeat match goal with H : _ && _ = true |- _ => apply andb_prop in H as [? ?] end.
  repeat match goal with H : bool_decide _ = true |- _ => apply bool_decide_eq_true in H end.
  match goal with H : unique_by uq_role _ = true |- _ => rewrite unique_by_spec in H end.
  match goal with H : forall i j a b k, _ |- _ =>
    eapply (H i j x y (None, code)) end; [exact Hx|exact Hy| |]; unfold uq_role; congruence.
Qed.

(** With one membership to look at, the resolver answers its role's grants. *)
Lemma codes_of_member self d i m s :
  aborted s = false -> db s = d -> db_ok d = true -> members_of d !! i = Some m ->
  mb_status m = MActive -> tenant_active d (mb_tenant_id m) = true ->
  c_tenant_id (tns_ctx self) = Some (mb_tenant_id m) ->
  get_permission_codes self (mb_user_id m) s = (Ok (role_codes (grants_of d) (mb_role_id m)), s).
Proof.
  intros Ha <- Hok Hm Hs Ht Hc.
  destruct (permission_codes_spec self (mb_user_id m) s Ha) as (codes & -> & H).
  f_equal. f_equal. apply set_eq. intros c. rewrite H, elem_of_role_codes. split.
  - intros (j & y & Hj & Hcy & Hu & _ & _ & Hg). rewrite Hc in Hcy. injection Hcy as Hcy.
    assert (j = i) as -> by (eapply member_unique; [done|exact Hj|exact Hm|done|done]). congruence.
  - intros Hg. exists i, m. auto 10.
Qed.
