(* ===== verification/Ports.v ===== *)
(** The payment-provider port (src/core/billing/ports.py) and billing's DTOs
    (src/core/billing/schemas.py). The port is a record of operations; its
    laws are the class [ProviderLaws], discharged by each adapter and used by
    the payment service. *)

From stdpp Require Import base strings gmap pretty.
From Stdlib Require Import ZArith Lia Ascii.
From S2P Require Import Prelude Errors PyLib Calendar Entities Models Events Session SessionFacts.

(** ** Data transfer objects *)

Record PlanDTO : Set := mkPlanDTO {
  pld_id : uuid; pld_code : string; pld_name : json; pld_price : Money; pld_period : string;
  pld_trial_days : Z }.
Record SubscriptionDTO : Set := mkSubscriptionDTO {
  sd_id : uuid; sd_plan_code : string; sd_status : sub_status;
  sd_current_period_end : datetime; sd_cancel_at_period_end : bool }.
Record PaymentProviderInfo : Set := mkProviderInfo {
  pi_code : string; pi_title_key : string; pi_enabled : bool }.
Record PaymentDTO : Set := mkPaymentDTO {
  pd_id : uuid; pd_status : payment_status; pd_amount : Money; pd_purpose : string;
  pd_reference : string; pd_provider : string; pd_paid_at : option datetime;
  pd_pending_at : option datetime; pd_closed_at : option datetime;
  pd_failure_code : option string }.
Record CheckoutDTO : Set := mkCheckoutDTO {
  co_payment_id : uuid; co_provider : string; co_checkout_url : string;
  co_expires_at : option datetime }.

(** ** Callbacks and outcomes *)

Inductive CallbackAction : Set := ACheck | ACreate | AConfirm | ACancel | AStatus.
Inductive OutcomeStatus : Set :=
| OutOk | OutAlreadyProcessed | OutInvalidSignature | OutNotFound | OutAmountMismatch
| OutInvalidState.
#[export] Instance callback_action_eq_dec : EqDecision CallbackAction.
Proof. solve_decision. Defined.
#[export] Instance outcome_status_eq_dec : EqDecision OutcomeStatus.
Proof. solve_decision. Defined.

Definition action_str (a : CallbackAction) : string :=
  match a with
  | ACheck => "check" | ACreate => "create" | AConfirm => "confirm" | ACancel => "cancel"
  | AStatus => "status"
  end.

Record RawWebhook : Set := mkRaw {
  rw_headers : list (string * string); rw_body : string; rw_form : list (string * string) }.

(** [RawWebhook.header]: case-insensitive, first match. *)
Definition header (raw : RawWebhook) (name : string) : option string :=
  let lowered := str_lower name in
  match List.find (fun '(key, _) => bool_decide (str_lower key = lowered)) (rw_headers raw) with
  | Some (_, value) => Some value
  | None => None
  end.

Record ProviderCallback : Set := mkCallback {
  cb_provider : string; cb_provider_txn_id : option string; cb_action : CallbackAction;
  cb_payment_reference : string; cb_amount : option Money; cb_raw : list (string * json);
  cb_signature_valid : bool; cb_reason : option string }.

Record CallbackOutcome : Set := mkOutcome {
  oc_status : OutcomeStatus; oc_payment : option PaymentDTO;
  oc_callback : option ProviderCallback }.

Record WebhookResponse : Set := mkResponse { rs_status_code : Z; rs_body : list (string * json) }.

Record PaymentProvider : Type := mkProvider {
  pv_code : string;
  pv_create_checkout : PaymentDTO -> option string -> SM CheckoutDTO;
  pv_parse_webhook : RawWebhook -> SM ProviderCallback;
  pv_build_webhook_response : CallbackOutcome -> SM WebhookResponse }.

(** ** What an adapter promises

    A checkout is for the payment it was asked for; a callback names the
    adapter; none of the three operations touches the session's database or
    its pending events. *)
Class ProviderLaws (p : PaymentProvider) : Prop := {
  law_checkout : forall pay url s c s', pv_create_checkout p pay url s = (Ok c, s') ->
    co_payment_id c = pd_id pay /\ co_provider c = pv_code p;
  law_checkout_quiet : forall pay url, steps quiet (pv_create_checkout p pay url);
  law_callback : forall raw s cb s', pv_parse_webhook p raw s = (Ok cb, s') ->
    cb_provider cb = pv_code p;
  law_parse_quiet : forall raw, steps quiet (pv_parse_webhook p raw);
  law_response_quiet : forall oc, steps quiet (pv_build_webhook_response p oc) }.
