(* ===== verification/Payments.v ===== *)
(** Payment intake: the state machine (src/core/billing/state_machine.py) and
    [PaymentService] (src/core/billing/service.py).

    A payment or subscription entity is its primary key; attributes are read
    with [load] and assigned with [upd], so that two holders of one entity
    see the same row, as in the session's identity map. *)

From stdpp Require Import base strings gmap list.
From Stdlib Require Import ZArith Lia Ascii.
From S2P Require Import Prelude Errors PyLib Calendar Entities Models Events Session SessionFacts.
From S2P Require Import Access Journal Ports.

(** ** src/core/billing/state_machine.py *)

Definition TERMINAL_STATES : list payment_status := [PSucceeded; PFailed; PCanceled; PExpired].

Definition TRANSITIONS (current : payment_status) : list payment_status :=
  match current with
  | PCreated => [PPending; PSucceeded; PFailed; PCanceled; PExpired]
  | PPending => [PSucceeded; PFailed; PCanceled; PExpired]
  | PSucceeded => []
  | PFailed => []
  | PCanceled => []
  | PExpired => [PSucceeded]
  end.

Definition can_transition (current target : payment_status) : bool :=
  bool_decide (target ∈ TRANSITIONS current).

Definition assert_transition (current target : payment_status) : res exn unit :=
  if negb (can_transition current target)
  then Raise (EDomain InvariantViolationError
                ("invalid payment transition: " +:+ payment_status_str current +:+ " -> "
                 +:+ payment_status_str target))
  else Ok tt.

Definition is_terminal (status : payment_status) : bool := bool_decide (status ∈ TERMINAL_STATES).

(** ** Rows as the service assigns them *)

Definition set_metadata (m : list (string * json)) (p : Payment) : Payment :=
  mkPayment (p_id p) (p_tenant_id p) (p_subscription_id p) (p_purpose p) (p_reference p)
    (p_amount p) (p_currency p) (p_status p) (p_provider p) (p_provider_transaction_id p)
    (p_idempotency_key p) (p_failure_code p) (p_paid_at p) m (p_created_at p).
Definition set_state (st : payment_status) (txn failure : option string) (paid : option datetime)
    (p : Payment) : Payment :=
  mkPayment (p_id p) (p_tenant_id p) (p_subscription_id p) (p_purpose p) (p_reference p)
    (p_amount p) (p_currency p) st (p_provider p) txn
    (p_idempotency_key p) failure paid (p_metadata p) (p_created_at p).

(** [_stamp]: the metadata dict is replaced by one with the time added. *)
Definition stamp (key : string) (t : datetime) (p : Payment) : Payment :=
  set_metadata (dict_set key (JIso t) (p_metadata p)) p.

Definition to_pending (txn : string) (t : datetime) (p : Payment) : Payment :=
  stamp "pending_at" t (set_state PPending (Some txn) (p_failure_code p) (p_paid_at p) p).
Definition to_succeeded (t : datetime) (p : Payment) : Payment :=
  set_state PSucceeded (p_provider_transaction_id p) (p_failure_code p) (Some t) p.
Definition to_closed (target : payment_status) (reason : option string) (t : datetime)
    (p : Payment) : Payment :=
  let failure := match reason with Some r => Some r | None => p_failure_code p end in
  stamp "closed_at" t (set_state target (p_provider_transaction_id p) failure (p_paid_at p) p).

Definition set_sub (st : sub_status) (start finish : datetime) (flag : bool)
    (canceled : option datetime) (s : Subscription) : Subscription :=
  mkSubscription (s_id s) (s_tenant_id s) (s_plan_id s) st (s_price_amount s) (s_currency s)
    start finish flag canceled.
Definition sub_closed (st : sub_status) (canceled : option datetime) (s : Subscription)
    : Subscription :=
  set_sub st (s_current_period_start s) (s_current_period_end s) (s_cancel_at_period_end s)
    canceled s.
Definition sub_activated (start finish : datetime) (s : Subscription) : Subscription :=
  set_sub SActive start finish false (s_canceled_at s) s.

(** ** DTOs *)

(** [datetime.fromisoformat] of a stored string; [JIso] is an isoformat()
    result, which it inverts. *)
Definition fromisoformat (v : json) : SM datetime :=
  match v with
  | JIso t => ret t
  | JStr s => en <- gets env ;;
              match py_fromisoformat en s with Some t => ret t | None => raise EValue end
  | _ => raise EType
  end.

(** [_meta_time] *)
Definition meta_time (meta : list (string * json)) (key : string) : SM (option datetime) :=
  match assoc key meta with
  | Some (JIso t) => ret (Some t)
  | Some (JStr s) => if str_empty s then ret None else t <- fromisoformat (JStr s) ;; ret (Some t)
  | _ => ret None
  end.

Definition payment_dto (p : Payment) : SM PaymentDTO :=
  let meta := p_metadata p in
  amount <- lift_res (new_money (p_amount p) (p_currency p)) ;;
  pending_at <- meta_time meta "pending_at" ;;
  closed_at <- meta_time meta "closed_at" ;;
  ret (mkPaymentDTO (p_id p) (p_status p) amount (p_purpose p) (p_reference p) (p_provider p)
         (p_paid_at p) pending_at closed_at (p_failure_code p)).

Definition plan_dto (p : Plan) : SM PlanDTO :=
  price <- lift_res (new_money (pl_price_amount p) (pl_currency p)) ;;
  ret (mkPlanDTO (pl_id p) (pl_code p) (pl_name p) price (pl_period p) (pl_trial_days p)).

Definition subscription_dto (s : Subscription) (plan_code : string) : SubscriptionDTO :=
  mkSubscriptionDTO (s_id s) plan_code (s_status s) (s_current_period_end s)
    (s_cancel_at_period_end s).

Definition payment_event_payload (p : Payment) : list (string * json) :=
  [("payment_id", JStr (uuid_str (p_id p))); ("amount", JInt (p_amount p));
   ("currency", JStr (p_currency p)); ("purpose", JStr (p_purpose p));
   ("reference", JStr (p_reference p)); ("provider", JStr (p_provider p))].

Definition MAX_RETURN_URL_LENGTH : nat := Z.to_nat 2048.

(** [_validate_return_url] *)
Definition validate_return_url (url : option string) : SM unit :=
  match url with
  | None => ret tt
  | Some url =>
      let unsafe := str_any (fun c => bool_decide (c = ";"%char) || ch_space c
                                      || negb (ch_printable c)) url in
      en <- gets env ;;
      match py_urlsplit en url with
      | None => raise EValue
      | Some (scheme, netloc) =>
          if unsafe || Nat.ltb MAX_RETURN_URL_LENGTH (String.length url)
             || negb (bool_decide (scheme = "http") || bool_decide (scheme = "https"))
             || str_empty netloc
          then raise (EDomain InvariantViolationError "return_url must be an absolute http(s) URL")
          else ret tt
      end
  end.

(** ** PaymentService *)

Record PaymentService : Type := mkPayments {
  ps_ctx : TenantContext;
  ps_tenant : uuid;                            (* self._payments: the repository's tenant *)
  ps_providers : list (string * PaymentProvider);
  ps_settings : Settings;
  ps_access : option Resolver }.

Definition new_payment_service (ctx : TenantContext) (providers : list (string * PaymentProvider))
    (settings : Settings) (access : option Resolver) : SM PaymentService :=
  tenant <- repo_init ctx ;;
  ret (mkPayments ctx tenant providers settings access).

Definition PLAN_READ : string := "billing.plan:read".
Definition SUBSCRIPTION_READ : string := "billing.subscription:read".
Definition SUBSCRIPTION_MANAGE : string := "billing.subscription:manage".

Definition list_providers (ps : PaymentService) : SM (list PaymentProviderInfo) :=
  guard_require (ps_access ps) (ps_ctx ps) PLAN_READ ;;;
  ret ((fun code => mkProviderInfo code ("payment.provider." +:+ code) true)
       <$> enabled_payment_provider_list (ps_settings ps)).

(** The request an idempotency key stands for. *)
Definition payment_request (p : Payment) : Z * string * string * string * string :=
  (p_amount p, p_currency p, p_purpose p, p_reference p, p_provider p).

Definition by_idempotency_key (ps : PaymentService) (key : string) : SM (option Payment) :=
  rows <- repo_find (R:=Payment) (ps_tenant ps)
            (fun p => bool_decide (p_idempotency_key p = key)) id None ;;
  ret (head rows).

Definition replay_checkout (p : Payment) (request : Z * string * string * string * string)
    : SM CheckoutDTO :=
  if negb (bool_decide (payment_request p = request))
  then raise (EDomain ConflictError "idempotency key already used for a different payment")
  else
    en <- gets env ;;
    let meta := p_metadata p in
    expires_at <- match assoc "expires_at" meta with
                  | Some raw => if truthy raw then t <- fromisoformat raw ;; ret (Some t)
                                else ret None
                  | None => ret None
                  end ;;
    ret (mkCheckoutDTO (p_id p) (p_provider p)
           (match assoc "checkout_url" meta with Some v => py_str en v | None => "" end)
           expires_at).

Definition iso_opt (t : option datetime) : json :=
  match t with Some t => JIso t | None => JNull end.

Definition create_payment (ps : PaymentService) (amount : Money) (purpose reference provider : string)
    (idempotency_key : string) (return_url : option string) (subscription_id : option uuid)
    : SM CheckoutDTO :=
  match assoc provider (ps_providers ps) with
  | None => raise (EDomain NotFoundError ("unknown or disabled payment provider: " +:+ provider))
  | Some adapter =>
    guardM (m_amount amount <=? 0)%Z
      (EDomain InvariantViolationError "payment amount must be positive") ;;;
    validate_return_url return_url ;;;
    let request := (m_amount amount, m_currency amount, purpose, reference, provider) in
    existing <- by_idempotency_key ps idempotency_key ;;
    match existing with
    | Some p => replay_checkout p request
    | None =>
      i <- new_uuid7 ;;
      t <- now ;;
      won <- catch
        (begin_nested
           (repo_add (ps_tenant ps) None (fun tenant =>
              mkPayment i tenant subscription_id purpose reference (m_amount amount)
                (m_currency amount) PCreated provider None idempotency_key None None [] t)) ;;;
         ret None)
        (fun e => match e with
                  | EIntegrity =>
                      winner <- by_idempotency_key ps idempotency_key ;;
                      match winner with
                      | None => raise EIntegrity
                      | Some w => c <- replay_checkout w request ;; ret (Some c)
                      end
                  | _ => raise e
                  end) ;;
      match won with
      | Some c => ret c
      | None =>
        p <- load i ;;
        dto <- payment_dto p ;;
        checkout <- pv_create_checkout adapter dto return_url ;;
        upd i (fun p => set_metadata
                 (dict_set "expires_at" (iso_opt (co_expires_at checkout))
                    (dict_set "checkout_url" (JStr (co_checkout_url checkout)) (p_metadata p))) p) ;;;
        flush ;;;
        p <- load i ;;
        emit SvcPayments (ps_ctx ps) "billing.payment.created" (payment_event_payload p) ;;;
        ret checkout
      end
    end
  end.

Definition get_payment (ps : PaymentService) (payment_id : uuid) : SM PaymentDTO :=
  p <- repo_get_or_raise "Payment" (ps_tenant ps) payment_id ;; payment_dto p.

(** [_audit] *)
Definition payments_audit (ps : PaymentService) (action : string) (payment : uuid)
    (event_id : uuid) : SM unit :=
  audit_record (ps_ctx ps) action (Some "payment") (Some (uuid_str payment)) [] (Some event_id) None.

(** [_locked_subscription] *)
Definition locked_subscription (payment : uuid) : SM (option Subscription) :=
  p <- load (R:=Payment) payment ;;
  subscription_id <- match p_subscription_id p with
                     | Some i => ret i
                     | None => match uuid_parse (p_reference p) with
                               | Some i => ret i
                               | None => raise EValue
                               end
                     end ;;
  l <- query (fun s => bool_decide (s_id s = subscription_id)
                       && bool_decide (s_tenant_id s = p_tenant_id p)) ;;
  scalar_one_or_none l.

(** [_drop_pending_subscription] *)
Definition drop_pending_subscription (payment : uuid) (payment_status : payment_status) : SM unit :=
  subscription <- locked_subscription payment ;;
  match subscription with
  | None => ret tt
  | Some s =>
      if negb (bool_decide (s_status s = SPending)) then ret tt
      else
        (if bool_decide (payment_status = PExpired)
         then upd (s_id s) (fun s => sub_closed SExpired (s_canceled_at s) s)
         else t <- now ;; upd (s_id s) (sub_closed SCanceled (Some t))) ;;;
        flush
  end.

(** [start] after the replaced subscriptions: the latest end of a live period
    of the same plan, or now. *)
Definition extend_start (plan : uuid) (start : datetime) (old : Subscription) : datetime :=
  if bool_decide (s_plan_id old = plan) && (start <? s_current_period_end old)%Z
  then s_current_period_end old else start.

Definition plan_code_or (plan : option Plan) : string :=
  match plan with Some p => pl_code p | None => "" end.
Definition plan_period_or (plan : option Plan) : string :=
  match plan with Some p => pl_period p | None => "month" end.

(** [_activate_subscription] *)
Definition activate_subscription (ps : PaymentService) (payment : uuid) : SM unit :=
  subscription <- locked_subscription payment ;;
  match subscription with
  | None => raise (EDomain NotFoundError "subscription for payment not found")
  | Some sub =>
    plan <- session_get (R:=Plan) (s_plan_id sub) ;;
    t <- now ;;
    p <- load (R:=Payment) payment ;;
    replaced <- query (fun s => bool_decide (s_tenant_id s = p_tenant_id p) && live (s_status s)
                                && negb (bool_decide (s_id s = s_id sub))) ;;
    start <- fold_m replaced t (fun start old =>
               upd (s_id old) (sub_closed SCanceled (Some t)) ;;;
               ret (extend_start (s_plan_id sub) start old)) ;;
    flush ;;;
    finish <- lift_res (period_end start (plan_period_or plan)) ;;
    upd (s_id sub) (sub_activated start finish) ;;;
    flush ;;;
    for_each replaced (fun old =>
      emit SvcPayments (ps_ctx ps) "billing.subscription.replaced"
        [("subscription_id", JStr (uuid_str (s_id old)));
         ("replaced_by", JStr (uuid_str (s_id sub)))] ;;; ret tt) ;;;
    emit SvcPayments (ps_ctx ps) "billing.subscription.activated"
      [("subscription_id", JStr (uuid_str (s_id sub))); ("plan_code", JStr (plan_code_or plan));
       ("current_period_end", JIso finish)] ;;;
    ret tt
  end.

(** [_close] *)
Definition close_payment (ps : PaymentService) (payment : uuid) (target : payment_status)
    (reason : option string) : SM unit :=
  p <- load payment ;;
  lift_res (assert_transition (p_status p) target) ;;;
  t <- now ;;
  upd payment (to_closed target reason t) ;;;
  flush ;;;
  p <- load payment ;;
  (if bool_decide (p_purpose p = "subscription")
   then drop_pending_subscription payment target else ret tt) ;;;
  p <- load payment ;;
  let payload := payment_event_payload p ++
    (if bool_decide (target = PFailed)
     then [("reason", match reason with Some r => JStr r | None => JNull end)] else []) in
  event_id <- emit SvcPayments (ps_ctx ps) ("billing.payment." +:+ payment_status_str target)
                payload ;;
  payments_audit ps ("billing.payment." +:+ payment_status_str target) payment event_id.

Definition cancel_payment (ps : PaymentService) (payment_id : uuid) : SM PaymentDTO :=
  l <- query (fun p : Payment => bool_decide (p_id p = payment_id)
                       && bool_decide (Some (p_tenant_id p) = c_tenant_id (ps_ctx ps))) ;;
  o <- scalar_one_or_none l ;;
  match o with
  | None => raise (EDomain NotFoundError ("Payment " +:+ uuid_str payment_id +:+ " not found"))
  | Some p =>
      close_payment ps (p_id p) PCanceled None ;;;
      p' <- load (p_id p) ;;
      payment_dto p'
  end.

Definition mark_pending (payment : uuid) (provider_txn_id : string) : SM unit :=
  p <- load payment ;;
  lift_res (assert_transition (p_status p) PPending) ;;;
  t <- now ;;
  upd payment (to_pending provider_txn_id t) ;;;
  flush.

Definition mark_succeeded (ps : PaymentService) (payment : uuid) : SM unit :=
  p <- load payment ;;
  let previous := p_status p in
  lift_res (assert_transition previous PSucceeded) ;;;
  t <- now ;;
  upd payment (to_succeeded t) ;;;
  flush ;;;
  p <- load payment ;;
  (if bool_decide (p_purpose p = "subscription") then activate_subscription ps payment
   else ret tt) ;;;
  p <- load payment ;;
  event_id <- emit SvcPayments (ps_ctx ps) "billing.payment.succeeded"
    (payment_event_payload p ++
     [("paid_at", JIso t); ("late", JBool (bool_decide (previous = PExpired)))]) ;;
  payments_audit ps "billing.payment.succeeded" payment event_id.

Definition mark_failed (ps : PaymentService) (payment : uuid) (reason : string) : SM unit :=
  close_payment ps payment PFailed (Some reason).
Definition mark_canceled_by_provider (ps : PaymentService) (payment : uuid)
    (reason : option string) : SM unit := close_payment ps payment PCanceled reason.
Definition mark_expired (ps : PaymentService) (payment : uuid) : SM unit :=
  close_payment ps payment PExpired None.
