(* ===== verification/PayFacts.v ===== *)
(** What the payment service does to payments: every operation moves every
    payment along the state machine, and never touches what identifies it. *)

From stdpp Require Import base strings gmap list relations.
From Stdlib Require Import ZArith Lia Ascii.
From S2P Require Import Prelude Errors PyLib Calendar Entities Models Events Session SessionFacts.
From S2P Require Import Access Journal Ports Payments.

(** ** The life of one payment row *)

Inductive pay_step : Payment -> Payment -> Prop :=
| step_checkout p m : p_status p = PCreated -> pay_step p (set_metadata m p)
| step_pending p txn t : can_transition (p_status p) PPending = true ->
    pay_step p (to_pending txn t p)
| step_succeeded p t : can_transition (p_status p) PSucceeded = true ->
    pay_step p (to_succeeded t p)
| step_closed p target reason t : can_transition (p_status p) target = true ->
    target ∈ [PFailed; PCanceled; PExpired] -> pay_step p (to_closed target reason t p).

Abbreviation pay_path := (rtc pay_step).

(** The attributes no operation assigns. *)
Definition pay_identity (p : Payment) :=
  (p_id p, p_tenant_id p, p_subscription_id p, payment_request p, p_idempotency_key p,
   p_created_at p).

Lemma pay_path_identity p p' : pay_path p p' -> pay_identity p' = pay_identity p.
Proof. induction 1 as [|p p1 p2 Hs _ IH]; [done|]. rewrite IH. by destruct Hs. Qed.

Lemma can_transition_iff a b : can_transition a b = true <-> b ∈ TRANSITIONS a.
Proof. unfold can_transition. by rewrite bool_decide_eq_true. Qed.

Lemma pay_step_status p p' :
  pay_step p p' -> p_status p = PCreated /\ p_status p' = PCreated \/
  can_transition (p_status p) (p_status p') = true.
Proof. destruct 1; simpl; auto. Qed.

(** A terminal payment is frozen, except for a late success after expiry. *)
Lemma pay_path_terminal p p' :
  pay_path p p' -> is_terminal (p_status p) = true -> p_status p ≠ PExpired -> p' = p.
Proof.
  intros Hp Ht Hne. destruct Hp as [|p p1 p2 Hs _]; [done|]. exfalso.
  apply pay_step_status in Hs.
  destruct (p_status p); try done; naive_solver.
Qed.

Lemma pay_path_expired p p' :
  pay_path p p' -> p_status p = PExpired ->
  p' = p \/ exists t, p' = to_succeeded t p.
Proof.
  intros Hp He. destruct Hp as [|p p1 p2 Hs Hr]; [by left|]. right.
  destruct Hs as [p m Hc|p txn t Hc|p t Hc|p tg rs t Hc Hin]; rewrite He in Hc; try done.
  - exists t. by apply pay_path_terminal in Hr.
  - destruct tg; try done. set_solver.
Qed.

Lemma pay_path_transition p p' :
  pay_path p p' -> p_status p' = p_status p \/ can_transition (p_status p) (p_status p') = true.
Proof.
  induction 1 as [|p p1 p2 Hs _ IH]; [auto|].
  apply pay_step_status in Hs.
  destruct (p_status p), (p_status p1), (p_status p2); try naive_solver.
Qed.

(** ** The payments table over time *)

Definition payments_of (d : Db) : gmap N Payment := b_payments (d_billing d).

Record pay_evo (d d' : Db) : Prop := {
  pe_old : forall i p, payments_of d !! i = Some p ->
    exists p', payments_of d' !! i = Some p' /\ pay_path p p';
  pe_new : forall i p', payments_of d !! i = None -> payments_of d' !! i = Some p' ->
    exists p0, p_status p0 = PCreated /\ p_paid_at p0 = None /\ p_id p0 = i /\ pay_path p0 p' }.

#[export] Instance pay_evo_preorder : PreOrder pay_evo.
Proof.
  split.
  - intros d. split; [eauto using rtc_refl|]. intros i p H1 H2. congruence.
  - intros d1 d2 d3 [O1 N1] [O2 N2]. split.
    + intros i p Hp. destruct (O1 _ _ Hp) as (p1 & Hp1 & H1).
      destruct (O2 _ _ Hp1) as (p2 & Hp2 & H2). exists p2. split; [done|]. by etransitivity.
    + intros i p3 Hn Hp3. destruct (payments_of d2 !! i) as [p2|] eqn:E2; [|eauto].
      destruct (N1 _ _ Hn E2) as (p0 & Hs0 & Hd0 & Hi0 & H02).
      destruct (O2 _ _ E2) as (p3' & Hp3' & H23). simplify_eq. exists p0.
      repeat split; auto. by etransitivity.
Qed.

Lemma pay_evo_same d d' : payments_of d' = payments_of d -> pay_evo d d'.
Proof. intros H. split; rewrite H; [eauto using rtc_refl|]. intros. congruence. Qed.

#[export] Instance pay_evo_plans : Ignores pay_evo Plan.
Proof. intros d t. by apply pay_evo_same. Qed.
#[export] Instance pay_evo_subs : Ignores pay_evo Subscription.
Proof. intros d t. by apply pay_evo_same. Qed.
#[export] Instance pay_evo_webhooks : Ignores pay_evo PaymentWebhook.
Proof. intros d t. by apply pay_evo_same. Qed.
#[export] Instance pay_evo_audit : Ignores pay_evo AuditLog.
Proof. intros d t. by apply pay_evo_same. Qed.
#[export] Instance pay_evo_products : Ignores pay_evo Product.
Proof. intros d t. by apply pay_evo_same. Qed.
#[export] Instance pay_evo_carts : Ignores pay_evo Cart.
Proof. intros d t. by apply pay_evo_same. Qed.
#[export] Instance pay_evo_cart_items : Ignores pay_evo CartItem.
Proof. intros d t. by apply pay_evo_same. Qed.
#[export] Instance pay_evo_orders : Ignores pay_evo Order.
Proof. intros d t. by apply pay_evo_same. Qed.
#[export] Instance pay_evo_order_items : Ignores pay_evo OrderItem.
Proof. intros d t. by apply pay_evo_same. Qed.

Lemma pay_evo_step d i p f :
  payments_of d !! i = Some p -> pay_step p (f p) ->
  pay_evo d (t_set (alter f i (payments_of d)) d).
Proof.
  intros Hp Hs. split; unfold payments_of in *; simpl.
  - intros j q Hq. destruct (decide (i = j)) as [<-|Hne].
    + rewrite lookup_alter_eq, Hp. simpl. simplify_eq. eauto using rtc_once.
    + rewrite lookup_alter_ne by done. eauto using rtc_refl.
  - intros j q Hn Hq. exfalso. destruct (decide (i = j)) as [<-|Hne]; [congruence|].
    rewrite lookup_alter_ne in Hq by done. congruence.
Qed.

Lemma pay_evo_born d p :
  payments_of d !! p_id p = None -> p_status p = PCreated -> p_paid_at p = None ->
  pay_evo d (t_put p d).
Proof.
  intros Hn Hc Hp. split; unfold payments_of in *; simpl.
  - intros j q Hq. exists q. split; [|apply rtc_refl]. rewrite lookup_insert_ne; [done|].
    intros Hj. unfold t_id in Hj. simpl in Hj. congruence.
  - intros j q Hj Hq. rewrite lookup_insert in Hq. case_decide as Hd; simplify_eq.
    exists q. repeat split; auto using rtc_refl.
Qed.

(** Assigning attributes of a payment whose current row allows the step. *)
Lemma evo_upd_step s i p f :
  payments_of (db s) !! i = Some p -> pay_step p (f p) -> evo pay_evo s (upd i f s).2.
Proof.
  intros Hp Hs. apply (evo_intro pay_evo); [done|by eapply pay_evo_step|done|done].
Qed.

Lemma assert_transition_Ok a b u : assert_transition a b = Ok u -> can_transition a b = true.
Proof. unfold assert_transition. by destruct (can_transition a b). Qed.

(** ** Every operation moves payments along the machine *)

Section Ops.
Abbreviation moves := (steps (evo pay_evo)).

Lemma guarded_moves {A} i (target : payment_status) (f : Z -> Payment -> Payment)
    (k : Payment -> Z -> SM A) :
  (forall p t, can_transition (p_status p) target = true -> pay_step p (f t p)) ->
  (forall p t, moves (k p t)) ->
  moves (p <- load i ;; lift_res (assert_transition (p_status p) target) ;;;
         t <- now ;; upd i (f t) ;;; k p t).
Proof.
  intros Hf Hk. apply evo_load_bind; [apply _|]. intros p s Hp. unfold lift_res, bind at 1.
  destruct (assert_transition (p_status p) target) as [u|e] eqn:Ha; [|reflexivity].
  apply assert_transition_Ok in Ha. unfold bind at 1. simpl.
  etransitivity; [apply (evo_now pay_evo)|]. simpl. apply (rel_bind (evo pay_evo)).
  - eapply evo_upd_step; [exact Hp|]. by apply Hf.
  - intros _. apply Hk.
Qed.

Lemma moves_locked i : moves (locked_subscription i).
Proof. unfold locked_subscription. steps_walk. Qed.
Hint Resolve moves_locked : steps.

Lemma moves_drop i st : moves (drop_pending_subscription i st).
Proof. unfold drop_pending_subscription. steps_walk. Qed.
Hint Resolve moves_drop : steps.

Lemma moves_activate ps i : moves (activate_subscription ps i).
Proof.
  unfold activate_subscription. steps_walk.
  - apply (steps_fold_m (evo pay_evo)). steps_walk.
  - apply (steps_for_each (evo pay_evo)). steps_walk.
Qed.
Hint Resolve moves_activate : steps.

Lemma moves_audit ps a i e : moves (payments_audit ps a i e).
Proof. apply (evo_audit_record pay_evo). Qed.
Hint Resolve moves_audit : steps.

Lemma moves_pending i txn : moves (mark_pending i txn).
Proof.
  unfold mark_pending.
  apply (guarded_moves i PPending (to_pending txn) (fun _ _ => flush)).
  - intros p t Hc. by constructor.
  - steps_walk.
Qed.

Lemma moves_succeeded ps i : moves (mark_succeeded ps i).
Proof.
  unfold mark_succeeded. apply (guarded_moves i PSucceeded to_succeeded).
  - intros p t Hc. by constructor.
  - steps_walk.
Qed.

Lemma moves_close ps i target reason :
  target ∈ [PFailed; PCanceled; PExpired] -> moves (close_payment ps i target reason).
Proof.
  intros Ht. unfold close_payment. apply (guarded_moves i target (to_closed target reason)).
  - intros p t Hc. by constructor.
  - steps_walk.
Qed.

Lemma moves_failed ps i r : moves (mark_failed ps i r).
Proof. apply moves_close. set_solver. Qed.
Lemma moves_canceled ps i r : moves (mark_canceled_by_provider ps i r).
Proof. apply moves_close. set_solver. Qed.
Lemma moves_expired ps i : moves (mark_expired ps i).
Proof. apply moves_close. set_solver. Qed.

Lemma quiet_fromiso v : steps quiet (fromisoformat v).
Proof. unfold fromisoformat. steps_walk. Qed.
Lemma quiet_meta_time m k : steps quiet (meta_time m k).
Proof. unfold meta_time. pose proof quiet_fromiso. steps_walk. Qed.
Lemma quiet_payment_dto p : steps quiet (payment_dto p).
Proof. unfold payment_dto. pose proof quiet_meta_time. steps_walk. Qed.
Lemma quiet_replay p r : steps quiet (replay_checkout p r).
Proof. unfold replay_checkout. pose proof quiet_fromiso. steps_walk. Qed.
Lemma quiet_return_url u : steps quiet (validate_return_url u).
Proof. unfold validate_return_url. steps_walk. Qed.
Hint Resolve quiet_payment_dto quiet_replay quiet_return_url : steps.

Lemma moves_cancel ps i : moves (cancel_payment ps i).
Proof.
  unfold cancel_payment. steps_walk; [apply moves_close; set_solver|].
  by apply (quiet_steps_evo pay_evo), quiet_payment_dto.
Qed.

Lemma moves_by_key ps k : moves (by_idempotency_key ps k).
Proof. unfold by_idempotency_key. steps_walk. Qed.
Hint Resolve moves_by_key : steps.

Lemma moves_replay p r : moves (replay_checkout p r).
Proof. apply (quiet_steps_evo pay_evo), quiet_replay. Qed.
Lemma moves_return_url u : moves (validate_return_url u).
Proof. apply (quiet_steps_evo pay_evo), quiet_return_url. Qed.
Hint Resolve moves_replay moves_return_url : steps.

(** The row just inserted is the one the checkout is stored on. *)
Lemma moves_checkout {A} (adapter : PaymentProvider) `{!ProviderLaws adapter} i url m
    (k : CheckoutDTO -> SM A) s p :
  payments_of (db s) !! i = Some p -> p_status p = PCreated -> (forall c, moves (k c)) ->
  evo pay_evo s ((p <- load i ;; dto <- payment_dto p ;;
                  checkout <- pv_create_checkout adapter dto url ;;
                  upd i (fun p => set_metadata (m checkout p) p) ;;; k checkout) s).2.
Proof.
  intros Hp Hc Hk. unfold bind at 1. rewrite (load_run i p) by done.
  apply (rel_bind_post (evo pay_evo)).
  { apply (quiet_evo pay_evo), quiet_payment_dto. }
  intros dto s1 E1. pose proof (quiet_db _ _ _ _ (quiet_payment_dto p) E1) as Q1.
  apply (rel_bind_post (evo pay_evo)).
  { apply (quiet_evo pay_evo), law_checkout_quiet. }
  intros c s2 E2. pose proof (quiet_db _ _ _ _ (law_checkout_quiet dto url) E2) as Q2.
  apply (rel_bind (evo pay_evo)); [|intros _; apply Hk].
  apply evo_upd_step with (p:=p); [|by constructor].
  destruct Q1 as (_ & D1 & _), Q2 as (_ & D2 & _). by rewrite D2, D1.
Qed.

Definition providers_ok (ps : PaymentService) : Prop :=
  forall code adapter, assoc code (ps_providers ps) = Some adapter -> ProviderLaws adapter.

Lemma moves_create ps amount purpose reference provider key url sub :
  providers_ok ps -> moves (create_payment ps amount purpose reference provider key url sub).
Proof.
  intros Hps. unfold create_payment.
  destruct (assoc provider (ps_providers ps)) as [adapter|] eqn:Ea; [|steps_walk].
  specialize (Hps _ _ Ea).
  do 3 (apply (steps_bind (evo pay_evo)); [steps_walk|intros ?x]).
  destruct x1; [steps_walk|].
  do 2 (apply (steps_bind (evo pay_evo)); [steps_walk|intros ?x]).
  match goal with |- moves (won <- catch ?b ?h ;; _) => set (body := b); set (handler := h) end.
  assert (Hb : moves body).
  { unfold body. steps_walk. apply evo_begin_nested; [apply _|].
    apply (evo_repo_add pay_evo). intros d Hd. by apply pay_evo_born. }
  assert (Hh : forall e, moves (handler e)) by (intros e; unfold handler; destruct e; steps_walk).
  intros s. apply (rel_bind_post (evo pay_evo)).
  { apply (steps_catch (evo pay_evo)); auto. }
  intros won s1 E1. destruct won as [c|]; [reflexivity|].
  apply catch_inv_Ok in E1 as [E1|(e & s2 & _ & E1)].
  - unfold body in E1. apply bind_inv_Ok in E1 as (r & s2 & E1 & E2). unfold ret in E2.
    simplify_eq. apply begin_nested_Ok in E1 as (_ & _ & E1).
    apply repo_add_Ok in E1 as (_ & -> & _).
    eapply moves_checkout; [exact Hps|apply lookup_insert_eq|done|steps_walk].
  - exfalso. unfold handler in E1. destruct e; try done.
    apply bind_inv_Ok in E1 as (w & s3 & _ & E1). destruct w as [w|]; [|done].
    apply bind_inv_Ok in E1 as (c & s4 & _ & E1). done.
Qed.
End Ops.
#[export] Hint Resolve moves_pending moves_succeeded moves_failed moves_canceled moves_expired
  moves_cancel moves_create : steps.

Lemma payment_dto_id p s d s' : payment_dto p s = (Ok d, s') -> pd_id d = p_id p.
Proof.
  intros H. unfold payment_dto in H.
  apply bind_inv_Ok in H as (m & s1 & _ & H). apply bind_inv_Ok in H as (a & s2 & _ & H).
  apply bind_inv_Ok in H as (b & s3 & _ & H). unfold ret in H. by simplify_eq.
Qed.
