(* ===== verification/DbFacts.v ===== *)
(** Updates of rows that keep the database's constraints, and states in which
    a statement cannot fail for reasons of the database. *)

From stdpp Require Import base strings gmap list.
From Stdlib Require Import ZArith Lia.
From S2P Require Import Prelude Errors PyLib Calendar Entities Models Events Session SessionFacts.
From S2P Require Import Ports Payments PayFacts.

(** Statements are run by their lemmas, not by reduction. *)
#[global] Arguments upd : simpl never.
#[global] Arguments load : simpl never.
#[global] Arguments flush : simpl never.
#[global] Arguments query : simpl never.
#[global] Arguments session_get : simpl never.
#[global] Arguments emit : simpl never.
#[global] Arguments now : simpl never.

Definition subs_of (d : Db) : gmap N Subscription := b_subscriptions (d_billing d).

(** Rows are stored under their primary key. *)
Record keyed (d : Db) : Prop := {
  k_plan : Keyed (R:=Plan) d; k_sub : Keyed (R:=Subscription) d; k_pay : Keyed (R:=Payment) d;
  k_hook : Keyed (R:=PaymentWebhook) d; k_audit : Keyed (R:=AuditLog) d;
  k_prod : Keyed (R:=Product) d; k_cart : Keyed (R:=Cart) d; k_ci : Keyed (R:=CartItem) d;
  k_ord : Keyed (R:=Order) d; k_oi : Keyed (R:=OrderItem) d;
  k_user : Keyed (R:=User) d; k_totp : Keyed (R:=UserTotp) d;
  k_code : Keyed (R:=UserRecoveryCode) d; k_token : Keyed (R:=RefreshToken) d;
  k_tenant : Keyed (R:=Tenant) d; k_member : Keyed (R:=Membership) d; k_role : Keyed (R:=Role) d;
  k_invite : Keyed (R:=Invitation) d; k_setting : Keyed (R:=NotificationSetting) d;
  k_outbox : Keyed (R:=NotificationOutbox) d; k_entitled : Keyed (R:=TenantEntitlement) d;
  k_usage : Keyed (R:=UsageCounter) d; k_step : Keyed (R:=OnboardingProgress) d;
  k_company : Keyed (R:=Company) d; k_contact : Keyed (R:=Contact) d; k_deal : Keyed (R:=Deal) d;
  k_activity : Keyed (R:=Activity) d; k_file : Keyed (R:=StoredFile) d;
  k_image : Keyed (R:=ProductImage) d }.

(** A session in which every statement so far succeeded. *)
Record healthy (s : St) : Prop := {
  h_ok : db_ok (db s) = true;
  h_rng : db_ranges (db s) = true;
  h_open : aborted s = false;
  h_keyed : keyed (db s) }.

Lemma healthy_flush s : healthy s -> flush s = (Ok tt, s).
Proof. intros []. by apply flush_run. Qed.

Lemma in_table_insert {R} (t : gmap N R) i r j :
  in_table t j = true -> in_table (<[i := r]> t) j = true.
Proof.
  unfold in_table. rewrite !bool_decide_eq_true. intros [x Hx].
  rewrite lookup_insert. case_decide; eauto.
Qed.

Lemma in_table_insert_eq {R} (t : gmap N R) i r r0 j :
  t !! i = Some r0 -> in_table (<[i := r]> t) j = in_table t j.
Proof.
  intros Hi. unfold in_table. apply bool_decide_ext. rewrite lookup_insert.
  case_decide; [subst|done]. rewrite Hi. split; eauto.
Qed.

Lemma all_rows_impl {R} (p q : R -> bool) (t : gmap N R) :
  (forall r, p r = true -> q r = true) -> all_rows p t = true -> all_rows q t = true.
Proof. rewrite !all_rows_spec. eauto. Qed.

Ltac split_ok :=
  repeat match goal with
         | H : _ && _ = true |- _ => apply andb_prop in H as [? ?]
         end.

Ltac join_ok :=
  repeat match goal with |- _ && _ = true => apply andb_true_intro; split end.

(** ** Subscriptions *)

Definition sub_frame (s s' : Subscription) : Prop :=
  s_id s' = s_id s /\ s_tenant_id s' = s_tenant_id s /\ s_plan_id s' = s_plan_id s /\
  s_price_amount s' = s_price_amount s /\ s_currency s' = s_currency s.

Definition with_sub (i : uuid) (x : Subscription) (d : Db) : Db :=
  t_set (<[i := x]> (subs_of d)) d.

Lemma with_sub_ok d i s s' :
  db_ok d = true -> subs_of d !! i = Some s -> sub_frame s s' ->
  (uq_live s' = None \/ uq_live s' = uq_live s \/
   forall j x, j ≠ i -> subs_of d !! j = Some x -> uq_live x ≠ uq_live s') ->
  (uq_pending s' = None \/ uq_pending s' = uq_pending s) ->
  db_ok (with_sub i s' d) = true.
Proof.
  intros Hok Hi (Hid & Ht & Hp & Ha & Hc) Hl Hpend.
  unfold db_ok, billing_ok, subscriptions_ok, payments_ok, with_sub, subs_of in *. simpl.
  split_ok.
  assert (L : unique_by uq_live (<[i:=s']> (b_subscriptions (d_billing d))) = true).
  { destruct Hl as [Hl|[Hl|Hl]]; [by eapply unique_by_update; eauto..|].
    apply unique_by_insert; [done|]. intros k Hk j x Hj Hx Hxk.
    apply (Hl j x Hj Hx). congruence. }
  assert (P : unique_by uq_pending (<[i:=s']> (b_subscriptions (d_billing d))) = true)
    by (eapply unique_by_update; eauto).
  rewrite L, P.
  join_ok; auto.
  - eapply all_rows_impl; [|apply all_rows_insert; [eassumption|]].
    + intros r Hr. exact Hr.
    + unfold subscription_ok. simpl. rewrite Ha, Hp, Hc.
      match goal with H : all_rows (subscription_ok _) _ = true |- _ =>
        apply all_rows_spec with (i:=i) (a:=s) in H; [exact H|exact Hi] end.
  - match goal with H : all_rows (payment_ok _) _ = true |- _ =>
      eapply all_rows_impl; [|exact H] end.
    intros r. unfold payment_ok. simpl. destruct (p_subscription_id r); [|done].
    by erewrite in_table_insert_eq by exact Hi.
Qed.

Lemma with_sub_ranges d i s s' :
  db_ranges d = true -> subs_of d !! i = Some s -> s_price_amount s' = s_price_amount s ->
  db_ranges (with_sub i s' d) = true.
Proof.
  intros Hr Hi Ha. unfold db_ranges, with_sub, subs_of in *. simpl. split_ok.
  join_ok; auto.
  apply all_rows_insert; [done|]. rewrite Ha.
  match goal with H : all_rows (fun s => int64 (s_price_amount s)) _ = true |- _ =>
    by apply all_rows_spec with (i:=i) (a:=s) in H end.
Qed.

Lemma keyed_with_sub d i s : keyed d -> s_id s = i -> keyed (with_sub i s d).
Proof.
  intros [] Hi. split; try done. intros j r. unfold with_sub, t_get. simpl.
  rewrite lookup_insert. case_decide; [naive_solver|auto].
Qed.

(** A healthy session stays healthy when a subscription is rewritten within
    its frame and keeps or leaves its slots. *)
Lemma healthy_with_sub st i s s' :
  healthy st -> subs_of (db st) !! i = Some s -> sub_frame s s' ->
  (uq_live s' = None \/ uq_live s' = uq_live s \/
   forall j x, j ≠ i -> subs_of (db st) !! j = Some x -> uq_live x ≠ uq_live s') ->
  (uq_pending s' = None \/ uq_pending s' = uq_pending s) ->
  healthy (st_db (with_sub i s') st).
Proof.
  intros [Hok Hr Hopen Hk] Hi Hf Hl Hp. pose proof Hf as (Hid & _ & _ & Ha & _).
  pose proof (k_sub _ Hk _ _ Hi) as Hs.
  split; simpl; [by eapply with_sub_ok|by eapply with_sub_ranges|done|].
  apply keyed_with_sub; [done|]. rewrite Hid. exact Hs.
Qed.

Lemma upd_sub_run st i s (f : Subscription -> Subscription) :
  subs_of (db st) !! i = Some s -> upd i f st = (Ok tt, st_db (with_sub i (f s)) st).
Proof. intros Hi. by rewrite (upd_run st i s). Qed.

(** ** Payments *)

Definition with_pay (i : uuid) (x : Payment) (d : Db) : Db :=
  t_set (<[i := x]> (payments_of d)) d.

Lemma with_pay_ok d i p p' :
  db_ok d = true -> payments_of d !! i = Some p -> pay_identity p' = pay_identity p ->
  (uq_txn p' = uq_txn p \/
   forall j x, j ≠ i -> payments_of d !! j = Some x -> uq_txn x ≠ uq_txn p') ->
  db_ok (with_pay i p' d) = true.
Proof.
  intros Hok Hi Hid Ht. unfold pay_identity, payment_request in Hid.
  injection Hid as _ Hten Hsub Ha Hc _ _ _ Hik _.
  unfold db_ok, billing_ok, payments_ok, webhooks_ok, with_pay, payments_of in *. simpl.
  split_ok.
  assert (U1 : unique_by uq_idem (<[i:=p']> (b_payments (d_billing d))) = true).
  { eapply unique_by_update; eauto. right. unfold uq_idem. congruence. }
  assert (U2 : unique_by uq_txn (<[i:=p']> (b_payments (d_billing d))) = true).
  { destruct Ht as [Ht|Ht]; [eapply unique_by_update; eauto|].
    apply unique_by_insert; [done|]. intros k Hk j x Hj Hx Hxk. apply (Ht j x Hj Hx). congruence. }
  rewrite U1, U2. join_ok; auto.
  - apply all_rows_insert; [done|]. unfold payment_ok in *. simpl.
    match goal with H : all_rows (fun p => _ && bool_decide (p_currency _ ∈ _)) _ = true |- _ =>
      apply all_rows_spec with (i:=i) (a:=p) in H; [|exact Hi] end.
    by rewrite Ha, Hsub, Hc.
  - match goal with H : all_rows (webhook_ok _) _ = true |- _ =>
      eapply all_rows_impl; [|exact H] end.
    intros r. unfold webhook_ok. simpl. destruct (w_payment_id r); [|done].
    by erewrite in_table_insert_eq by exact Hi.
Qed.

Lemma with_pay_ranges d i p p' :
  db_ranges d = true -> payments_of d !! i = Some p -> p_amount p' = p_amount p ->
  db_ranges (with_pay i p' d) = true.
Proof.
  intros Hr Hi Ha. unfold db_ranges, with_pay, payments_of in *. simpl. split_ok.
  join_ok; auto.
  apply all_rows_insert; [done|]. rewrite Ha.
  match goal with H : all_rows (fun s => int64 (p_amount s)) _ = true |- _ =>
    by apply all_rows_spec with (i:=i) (a:=p) in H end.
Qed.

Lemma keyed_with_pay d i p : keyed d -> p_id p = i -> keyed (with_pay i p d).
Proof.
  intros [] Hi. split; try done. intros j r. unfold with_pay, t_get. simpl.
  rewrite lookup_insert. case_decide; [naive_solver|auto].
Qed.

Lemma healthy_with_pay st i p p' :
  healthy st -> payments_of (db st) !! i = Some p -> pay_identity p' = pay_identity p ->
  (uq_txn p' = uq_txn p \/
   forall j x, j ≠ i -> payments_of (db st) !! j = Some x -> uq_txn x ≠ uq_txn p') ->
  healthy (st_db (with_pay i p') st).
Proof.
  intros [Hok Hr Hopen Hk] Hi Hid Ht. pose proof Hid as Hid'.
  unfold pay_identity, payment_request in Hid'.
  injection Hid' as Hii _ _ Ha _ _ _ _ _ _.
  pose proof (k_pay _ Hk _ _ Hi) as Hs.
  split; simpl; [by eapply with_pay_ok|by eapply with_pay_ranges|done|].
  apply keyed_with_pay; [done|]. unfold t_id in Hs. simpl in Hs. congruence.
Qed.

Lemma upd_pay_run st i p (f : Payment -> Payment) :
  payments_of (db st) !! i = Some p -> upd i f st = (Ok tt, st_db (with_pay i (f p)) st).
Proof. intros Hi. by rewrite (upd_run st i p). Qed.

(** ** Running statements in a healthy session *)

Definition clock (s : St) : datetime := env_now (env s) (n_now s).
Definition next_uuid (s : St) : uuid := env_uuid7 (env s) (n_uuid s).
Definition tick (s : St) : St := (now s).2.
Definition drew_uuid (s : St) : St := (new_uuid7 s).2.

Lemma now_run s : now s = (Ok (clock s), tick s).
Proof. done. Qed.
Lemma new_uuid7_run s : new_uuid7 s = (Ok (next_uuid s), drew_uuid s).
Proof. done. Qed.

Lemma healthy_db s s' : db s' = db s -> aborted s' = aborted s -> healthy s -> healthy s'.
Proof. intros Hd Ha []. split; by rewrite ?Hd, ?Ha. Qed.

Lemma healthy_tick s : healthy s -> healthy (tick s).
Proof. by apply healthy_db. Qed.

(** The state after an event is queued. *)
Definition emitted (sv : svc) (ctx : TenantContext) (name : string)
    (payload : list (string * json)) (s : St) : St := (emit sv ctx name payload s).2.

Lemma emit_run sv ctx name payload s :
  event_name_re name = true ->
  emit sv ctx name payload s = (Ok (next_uuid s), emitted sv ctx name payload s).
Proof.
  intros Hn. unfold emitted, emit, envelope, validate_event_name. rewrite Hn. done.
Qed.

Lemma emitted_db sv ctx name payload s :
  db (emitted sv ctx name payload s) = db s /\ aborted (emitted sv ctx name payload s) = aborted s
  /\ env (emitted sv ctx name payload s) = env s
  /\ committed (emitted sv ctx name payload s) = committed s
  /\ (n_uuid s <= n_uuid (emitted sv ctx name payload s))%nat.
Proof.
  unfold emitted, emit, envelope, validate_event_name. destruct (event_name_re name); simpl; auto 10 with arith.
Qed.

Lemma emitted_queue sv ctx name payload s :
  event_name_re name = true ->
  exists e, callbacks (emitted sv ctx name payload s) = queue_event sv e (callbacks s) /\
    published (emitted sv ctx name payload s) = published s /\
    n_uuid (emitted sv ctx name payload s) = S (n_uuid s) /\
    e_name e = name /\ e_tenant_id e = c_tenant_id ctx /\ e_payload e = payload.
Proof.
  intros Hn. unfold emitted, emit, envelope, validate_event_name. rewrite Hn. by eexists.
Qed.

Lemma emit_inv sv ctx name payload s r s' :
  emit sv ctx name payload s = (r, s') -> db s' = db s.
Proof.
  intros H. destruct (emitted_db sv ctx name payload s) as (Hd & _). unfold emitted in Hd.
  by rewrite H in Hd.
Qed.

Lemma healthy_emitted sv ctx name payload s :
  healthy s -> healthy (emitted sv ctx name payload s).
Proof. destruct (emitted_db sv ctx name payload s) as (? & ? & _). by apply healthy_db. Qed.

(** SELECT ... WHERE id = i AND p, at most one row. *)
Lemma query_one_run {R A} `{Table R} (key : R -> uuid) (p : R -> bool) i
    (k : option R -> SM A) s :
  (forall r, key r = t_id r) -> aborted s = false -> Keyed (R:=R) (db s) ->
  (l <- query (fun r => bool_decide (key r = i) && p r) ;; o <- scalar_one_or_none l ;; k o) s =
  k (match t_get (db s) !! i with Some r => if p r then Some r else None | None => None end) s.
Proof.
  intros He Ha Hk. erewrite bind_Ok by (by apply query_run).
  rewrite (select_ext _ (fun r => bool_decide (t_id r = i) && p r)) by (intros r; by rewrite He).
  rewrite select_by_id by done.
  destruct (t_get (db s) !! i) as [r|]; [|done]. by destruct (p r).
Qed.

Lemma repo_find_run {R} `{TenantTable R} t (p : R -> bool) o s :
  aborted s = false ->
  repo_find t p o None s =
  (Ok (o (select (fun r => bool_decide (t_tenant r = t) && p r) (t_get (db s)))), s).
Proof.
  intros Ha. unfold repo_find, repo_select. by erewrite bind_Ok by (by apply query_run).
Qed.

(** ** Inserting a subscription into a free slot *)
Lemma put_sub_ok d x :
  db_ok d = true -> subs_of d !! s_id x = None -> subscription_ok (d_billing d) x = true ->
  (forall j y, subs_of d !! j = Some y -> uq_live x = None \/ uq_live y ≠ uq_live x) ->
  (forall j y, subs_of d !! j = Some y -> uq_pending x = None \/ uq_pending y ≠ uq_pending x) ->
  db_ok (t_put x d) = true.
Proof.
  intros Hok Hn Hx Hl Hp.
  unfold db_ok, billing_ok, subscriptions_ok, payments_ok, t_put, subs_of in *. simpl. split_ok.
  assert (L : unique_by uq_live (<[s_id x:=x]> (b_subscriptions (d_billing d))) = true).
  { apply unique_by_insert; [done|]. intros k Hk j y _ Hy Hyk.
    destruct (Hl j y Hy); congruence. }
  assert (P : unique_by uq_pending (<[s_id x:=x]> (b_subscriptions (d_billing d))) = true).
  { apply unique_by_insert; [done|]. intros k Hk j y _ Hy Hyk.
    destruct (Hp j y Hy); congruence. }
  rewrite L, P. join_ok; auto.
  - apply all_rows_insert; done.
  - match goal with H : all_rows (payment_ok _) _ = true |- _ =>
      eapply all_rows_impl; [|exact H] end.
    intros r. unfold payment_ok. simpl. destruct (p_subscription_id r) as [j|]; [|done].
    intros Hr. split_ok. join_ok; auto. by apply in_table_insert.
Qed.

Lemma put_sub_ranges d x :
  db_ranges d = true -> int64 (s_price_amount x) = true -> db_ranges (t_put x d) = true.
Proof.
  intros Hr Hx. unfold db_ranges, t_put in *. simpl. split_ok. join_ok; auto.
  apply all_rows_insert; done.
Qed.

(** What a lookup by key has found. *)
Lemma repo_get_inv {T} `{TenantTable T} t i s (r : T) s' :
  repo_get t i s = (Ok (Some r), s') ->
  s' = s /\ (exists j, t_get (db s) !! j = Some r) /\ t_tenant r = t /\ t_id r = i.
Proof.
  intros E. unfold repo_get, repo_select in E. apply bind_inv_Ok in E as (l & s1 & Hq & E).
  unfold query, get_db, bind in Hq. destruct (aborted s); [done|]. unfold ret in Hq.
  injection Hq as <- <-. destruct (select _ _) as [|y [|]] eqn:Es;
    unfold scalar_one_or_none, ret, raise in E; simplify_eq.
  assert (Hin : r ∈ select (fun r => bool_decide (t_tenant r = t) && bool_decide (t_id r = i))
                     (t_get (db s'))) by (rewrite Es; set_solver).
  apply elem_of_select in Hin as [Hj Hb]. split_ok.
  repeat match goal with H : bool_decide _ = true |- _ => apply bool_decide_eq_true in H end.
  auto.
Qed.
Lemma repo_get_or_raise_Ok {T} `{TenantTable T} m t i s (r : T) s' :
  repo_get_or_raise m t i s = (Ok r, s') ->
  s' = s /\ (exists j, t_get (db s) !! j = Some r) /\ t_id r = i /\ t_tenant r = t.
Proof.
  unfold repo_get_or_raise. intros E. apply bind_inv_Ok in E as (o & s1 & Eg & E).
  destruct o as [r'|]; [|done]. apply repo_get_inv in Eg as (-> & Hj & Ht & Hi).
  unfold ret in E. by injection E as <- <-.
Qed.
Lemma repo_get_run {T} `{TenantTable T} tenant i s :
  aborted s = false -> Keyed (R:=T) (db s) ->
  repo_get (R:=T) tenant i s =
  (Ok (match t_get (db s) !! i with
       | Some r => if bool_decide (t_tenant r = tenant) then Some r else None
       | None => None end), s).
Proof.
  intros Ha Hk. unfold repo_get, repo_select.
  rewrite (bind_Ok _ _ s _ s) by (by apply query_run).
  rewrite (select_ext _ (fun r => bool_decide (t_id r = i) && bool_decide (t_tenant r = tenant)))
    by (intros r; apply andb_comm).
  rewrite select_by_id by done. destruct (t_get (db s) !! i) as [r|]; [|done].
  by destruct (bool_decide (t_tenant r = tenant)).
Qed.

(** A table reads back what was written to it. *)
Class TableLaws (T : Type) `{Table T} : Prop :=
  t_get_set : forall (t : gmap N T) d, t_get (t_set t d) = t.
#[export] Hint Extern 0 (TableLaws _) => (intros ??; reflexivity) : typeclass_instances.

(** The first event of a unit of work. *)
Lemma emit_first sv ctx name payload s i s' :
  callbacks s = [] -> emit sv ctx name payload s = (Ok i, s') ->
  db s' = db s /\ exists e, callbacks s' = [(sv, [e])] /\ e_name e = name /\
    e_tenant_id e = c_tenant_id ctx /\ e_payload e = payload.
Proof.
  intros Hc He. unfold emit in He. apply bind_inv_Ok in He as (e & s1 & Hv & He).
  unfold envelope in Hv. apply bind_inv_Ok in Hv as (u & s2 & Hn & Hv).
  assert (s2 = s) as -> by (unfold lift_res in Hn; destruct (validate_event_name name); by simplify_eq).
  unfold bind, new_uuid7, now, ret in Hv. injection Hv as <- <-.
  unfold bind, modify, ret in He. injection He as _ <-. simpl. rewrite Hc. split; [done|]. by eexists.
Qed.

Lemma insert_row_run {R} `{Table R} (r : R) s :
  aborted s = false -> t_get (db s) !! t_id r = None ->
  db_ranges (t_put r (db s)) = true -> db_ok (t_put r (db s)) = true ->
  insert_row r s = (Ok tt, st_db (t_put r) s).
Proof.
  intros Ha Hn Hr Hk. unfold insert_row. rewrite Ha, Hn. by apply flush_run.
Qed.

(** An INSERT that breaks a constraint. *)
Lemma insert_row_conflict {R} `{Table R} (r : R) s :
  aborted s = false ->
  (t_get (db s) !! t_id r = None ->
   db_ranges (t_put r (db s)) = true /\ db_ok (t_put r (db s)) = false) ->
  exists s', insert_row r s = (Raise EIntegrity, s') /\ env s' = env s.
Proof.
  intros Ha Hc. unfold insert_row. rewrite Ha.
  destruct (t_get (db s) !! t_id r) eqn:E; [by eexists|]. destruct (Hc eq_refl) as [Hr Hk].
  unfold flush. simpl. rewrite Ha, Hr, Hk. simpl. by eexists.
Qed.
