(* ===== verification/Storage.v ===== *)
(** Object storage and thumbnails: the ports of core/files and their adapters
    (src/core/files/ports.py and src/core/files/adapters).

    The object store is [blobs]: the bytes held at a location, a path of the
    file system or a key of a bucket. The operating system, boto3 and Pillow
    are parameters; each call of the first two draws its own answer, and a call
    that fails may have done its work or not. *)

From stdpp Require Import base strings gmap list.
From Stdlib Require Import ZArith Lia Ascii.
From S2P Require Import Prelude Errors Resilience PyLib Calendar Entities Models Events Session SessionFacts.
From S2P Require Import Ports Channels.

(** ** ports.py *)

Record StoragePort : Type := mkStorage {
  sp_put : string -> string -> string -> SM unit;   (* key, data, content type *)
  sp_get : string -> SM string;
  sp_delete : string -> SM unit }.

Record ThumbnailPort : Type := mkThumbnailer {
  tp_generate : string -> Z -> SM (string * string) }.  (* data, longest edge *)

Definition st_blobs (f : gmap string string -> gmap string string) (s : St) : St :=
  mkSt (env s) (db s) (committed s) (aborted s) (callbacks s) (published s) (resolved s)
       (n_now s) (n_uuid s) (n_token s) (n_rival s) (breakers s) (n_http s) (redis s)
       (f (blobs s)) (tokens s).

Definition storage_error {A} (msg : string) : SM A := raise (EDomain StorageError msg).

(** The key of a file: [f"{tenant_id}/{file_id}"] *)
Definition storage_key (tenant_id file_id : uuid) : string :=
  uuid_str tenant_id +:+ "/" +:+ uuid_str file_id.

(** ** The settings of files *)

Record FilesSettings : Set := mkFilesSettings {
  files_storage_backend : string; files_filesystem_root : string;
  files_max_upload_bytes : Z; files_allowed_content_types : string;
  files_s3_bucket : string; files_s3_access_key : string; files_s3_secret_key : string;
  files_thumbnail_max_edge : Z }.

Definition files_allowed_content_type_list (self : FilesSettings) : list string :=
  split_csv (files_allowed_content_types self).

(** ** filesystem.py *)

(** What the operating system answers to its [n]th call: [None] is success.
    A write that fails leaves what the second component says at the path. *)
Record Os : Type := mkOs {
  os_write : nat -> string -> string -> option (string * option string);
  os_read : nat -> string -> option string;
  os_unlink : nat -> string -> option string;
  os_missing : string -> string;               (* str(FileNotFoundError) *)
  os_cwd : list string; os_tempdir : string }.

(** The components of a path; pathlib drops empty ones and dots. *)
Definition path_parts (path : string) : list string :=
  List.filter (fun c => negb (bool_decide (c = "")) && negb (bool_decide (c = "."))) (split "/" path).

(** [Path.resolve()] of an absolute path without symbolic links *)
Definition resolve_parts (l : list string) : list string :=
  foldl (fun acc c => if bool_decide (c = "..") then removelast acc else acc ++ [c]) [] l.

(** [base / path] *)
Definition path_join (base : list string) (path : string) : list string :=
  if startswith path "/" then path_parts path else base ++ path_parts path.

Definition path_str (l : list string) : string := "/" +:+ join "/" l.

Section Filesystem.
Context (os : Os).

(** [FilesystemStorage.__init__] *)
Definition fs_root (root : string) : list string := resolve_parts (path_join (os_cwd os) root).

Definition under (root target : list string) : bool :=
  bool_decide (take (length root) target = root).

(** [_resolve] *)
Definition fs_resolve (root : list string) (key : string) : SM string :=
  en <- gets env ;;
  let target := resolve_parts (path_join root key) in
  if negb (under root target)
  then storage_error ("storage key escapes the root: " +:+ py_repr en (JStr key))
  else ret (path_str target).

Definition fs_put (root : list string) (key data content_type : string) : SM unit :=
  path <- fs_resolve root key ;;
  r <- net (fun n => os_write os n path data) ;;
  match r with
  | None => modify (st_blobs <[path := data]>)
  | Some (msg, rest) =>
      modify (st_blobs (fun m => match rest with Some b => <[path := b]> m | None => delete path m end)) ;;;
      storage_error ("filesystem write failed: " +:+ msg)
  end.

Definition fs_get (root : list string) (key : string) : SM string :=
  path <- fs_resolve root key ;;
  r <- net (fun n => os_read os n path) ;;
  held <- gets (fun s => blobs s !! path) ;;
  match r, held with
  | Some msg, _ => storage_error ("filesystem read failed: " +:+ msg)
  | None, None => storage_error ("filesystem read failed: " +:+ os_missing os path)
  | None, Some data => ret data
  end.

(** [unlink(missing_ok=True)] *)
Definition fs_delete (root : list string) (key : string) : SM unit :=
  path <- fs_resolve root key ;;
  r <- net (fun n => os_unlink os n path) ;;
  match r with
  | None => modify (st_blobs (delete path))
  | Some msg => storage_error ("filesystem delete failed: " +:+ msg)
  end.

Definition FilesystemStorage (root : string) : StoragePort :=
  mkStorage (fs_put (fs_root root)) (fs_get (fs_root root)) (fs_delete (fs_root root)).
End Filesystem.

(** ** s3.py *)

(** What a call of the client does: it returns, raises BotoCoreError or
    ClientError, or is cut off by the timeout; whether the object store carried
    it out then is the last component. *)
Inductive S3Answer : Set :=
| S3Done
| S3Failed (msg : string) (landed : bool)
| S3TimedOut (landed : bool).

Record S3Client : Type := mkS3Client {
  put_object : nat -> string -> string -> string -> string -> S3Answer;
  get_object : nat -> string -> string -> S3Answer;
  delete_object : nat -> string -> string -> S3Answer;
  no_such_key : string -> string }.            (* str(ClientError) *)

Section S3.
Context (client : S3Client) (bucket : string).

Definition s3_breaker : BreakerRef St := breaker_at "s3" (new_breaker "s3" 5 (30 * SECOND)).

Definition s3_resiliently {A} (op : SM A) : SM A :=
  call_resilient monotonic (Some s3_breaker) TRANSIENT_ERRORS StorageError op (Some (mkRetry 3)).

(** Where the bucket keeps a key. *)
Definition s3_location (key : string) : string := bucket +:+ "/" +:+ key.

(** An operation that writes, carried out as its answer says. *)
Definition s3_write (what : string) (f : gmap string string -> gmap string string)
    (answer : S3Answer) : SM unit :=
  match answer with
  | S3Done => modify (st_blobs f)
  | S3Failed msg landed =>
      (if (landed : bool) then modify (st_blobs f) else ret tt) ;;;
      storage_error ("s3 " +:+ what +:+ " failed: " +:+ msg)
  | S3TimedOut landed =>
      (if (landed : bool) then modify (st_blobs f) else ret tt) ;;; raise (ETimeout "")
  end.

Definition s3_put_op (key data content_type : string) : SM unit :=
  answer <- net (fun n => put_object client n bucket key data content_type) ;;
  s3_write "put_object" <[s3_location key := data]> answer.

Definition s3_put (key data content_type : string) : SM unit :=
  s3_resiliently (s3_put_op key data content_type).

Definition s3_get_op (key : string) : SM string :=
  answer <- net (fun n => get_object client n bucket key) ;;
  held <- gets (fun s => blobs s !! s3_location key) ;;
  match answer, held with
  | S3Done, Some data => ret data
  | S3Done, None => storage_error ("s3 get_object failed: " +:+ no_such_key client key)
  | S3Failed msg _, _ => storage_error ("s3 get_object failed: " +:+ msg)
  | S3TimedOut _, _ => raise (ETimeout "")
  end.

Definition s3_get (key : string) : SM string := s3_resiliently (s3_get_op key).

Definition s3_delete_op (key : string) : SM unit :=
  answer <- net (fun n => delete_object client n bucket key) ;;
  s3_write "delete_object" (delete (s3_location key)) answer.

Definition s3_delete (key : string) : SM unit := s3_resiliently (s3_delete_op key).

(** [S3Storage.__init__] *)
Definition S3Storage (access_key secret_key : string) : res exn StoragePort :=
  if str_empty bucket || str_empty access_key || str_empty secret_key
  then Raise (EDomain StorageError "S3 storage requires a bucket, access key and secret key")
  else Ok (mkStorage s3_put s3_get s3_delete).
End S3.

(** [S3Storage.from_settings] *)
Definition s3_from_settings (client : S3Client) (settings : FilesSettings) : res exn StoragePort :=
  S3Storage client (files_s3_bucket settings) (files_s3_access_key settings) (files_s3_secret_key settings).

(** ** adapters/__init__.py *)

Definition default_filesystem_root (os : Os) : string :=
  path_str (path_join (path_parts (os_tempdir os)) "backend-core-files").

Definition build_storage (en : Env) (os : Os) (client : S3Client) (settings : FilesSettings)
    : res exn StoragePort :=
  let backend := files_storage_backend settings in
  if bool_decide (backend = "filesystem") then
    let root := files_filesystem_root settings in
    Ok (FilesystemStorage os (if str_empty root then default_filesystem_root os else root))
  else if bool_decide (backend = "s3") then s3_from_settings client settings
  else Raise (EDomain InvariantViolationError
                ("unknown files storage backend: " +:+ py_repr en (JStr backend))).

(** ** pillow.py *)

(** Pillow; [None]: OSError, ValueError or DecompressionBombError. *)
Record Pillow : Type := mkPillow {
  pil_image : Type;
  pil_open : string -> option pil_image;
  pil_format : pil_image -> option string;
  pil_mode : pil_image -> string;
  pil_convert : pil_image -> string -> option pil_image;
  pil_thumbnail : pil_image -> Z -> option pil_image;
  pil_save : pil_image -> string -> option string }.

Definition OUTPUT : list (string * (string * string)) :=
  [("JPEG", ("JPEG", "image/jpeg")); ("PNG", ("PNG", "image/png"));
   ("WEBP", ("WEBP", "image/webp")); ("GIF", ("PNG", "image/png"))].
Definition DEFAULT_OUTPUT : string * string := ("PNG", "image/png").

Section Pillow.
Context (pil : Pillow).

(** [_normalize_mode] *)
Definition normalize_mode (image : pil_image pil) (save_format : string) : option (pil_image pil) :=
  if bool_decide (save_format = "JPEG") then pil_convert pil image "RGB"
  else if bool_decide (pil_mode pil image ∈ ["RGB"; "RGBA"; "L"]) then Some image
  else pil_convert pil image "RGBA".

(** [_render] *)
Definition render (data : string) (max_edge : Z) : res exn (string * string) :=
  match (image ← pil_open pil data;
         let '(save_format, content_type) :=
           default DEFAULT_OUTPUT (assoc (str_upper (default "" (pil_format pil image))) OUTPUT) in
         prepared ← normalize_mode image save_format;
         small ← pil_thumbnail pil prepared max_edge;
         bytes ← pil_save pil small save_format;
         Some (bytes, content_type)) with
  | Some out => Ok out
  | None => Raise (EDomain InvariantViolationError "image could not be processed")
  end.

Definition pillow_generate (data : string) (max_edge : Z) : SM (string * string) :=
  guardM (max_edge <=? 0)%Z (EDomain InvariantViolationError "thumbnail max edge must be positive") ;;;
  lift_res (render data max_edge).

Definition PillowThumbnailer : ThumbnailPort := mkThumbnailer pillow_generate.

Definition build_thumbnailer (settings : FilesSettings) : ThumbnailPort := PillowThumbnailer.
End Pillow.
