(* ===== verification/StorageFacts.v ===== *)
(** The contract of the storage port, and that both adapters keep it. *)

From stdpp Require Import base strings gmap list.
From Stdlib Require Import ZArith Lia Ascii.
From S2P Require Import Prelude Errors Resilience PyLib Calendar Entities Models Events Session SessionFacts.
From S2P Require Import ResilienceFacts Ports Channels Storage.

(** ** The contract *)

(** Nothing but the clock, the breakers and the count of calls moves. *)
Definition reads (s s' : St) : Prop := quiet s s' /\ blobs s' = blobs s.
(** .. and the object at one location. *)
Definition only_blob (k : string) (s s' : St) : Prop :=
  quiet s s' /\ forall k', k' ≠ k -> blobs s' !! k' = blobs s !! k'.

#[export] Instance reads_preorder : PreOrder reads.
Proof.
  split; [by intros s|]. intros s1 s2 s3 [Q1 B1] [Q2 B2]. split; [by etransitivity|congruence].
Qed.
#[export] Instance only_blob_preorder k : PreOrder (only_blob k).
Proof.
  split; [by intros s|]. intros s1 s2 s3 [Q1 B1] [Q2 B2]. split; [by etransitivity|].
  intros k' Hk. by rewrite B2, B1.
Qed.

Lemma reads_only k s s' : reads s s' -> only_blob k s s'.
Proof. intros [Hq Hb]. split; [done|]. intros. by rewrite Hb. Qed.

(** What core/files relies on; [loc] tells where a key is kept. *)
Class StorageLaws (sp : StoragePort) (loc : string -> string) : Prop := {
  put_only k d ct : steps (only_blob (loc k)) (sp_put sp k d ct);
  put_stores k d ct s u s' : sp_put sp k d ct s = (Ok u, s') -> blobs s' !! loc k = Some d;
  get_reads k : steps reads (sp_get sp k);
  get_finds k s d s' : sp_get sp k s = (Ok d, s') -> blobs s !! loc k = Some d;
  delete_only k : steps (only_blob (loc k)) (sp_delete sp k);
  delete_clears k s u s' : sp_delete sp k s = (Ok u, s') -> blobs s' !! loc k = None;
  loc_inj t i t' i' : valid_uuid t -> valid_uuid i -> valid_uuid t' -> valid_uuid i' ->
    loc (storage_key t i) = loc (storage_key t' i') -> t = t' /\ i = i' }.

Class ThumbnailLaws (tp : ThumbnailPort) : Prop :=
  thumbnail_reads data edge : steps reads (tp_generate tp data edge).

(** ** Steps that only read *)

Lemma reads_net {A} (f : nat -> A) : steps reads (net f).
Proof. done. Qed.
Lemma reads_gets {A} (f : St -> A) : steps reads (gets (E:=exn) f).
Proof. done. Qed.
Lemma reads_storage_error {A} m : steps reads (storage_error (A:=A) m).
Proof. done. Qed.
Lemma reads_monotonic : steps reads monotonic.
Proof. done. Qed.
Lemma reads_breaker key fresh b : steps reads (modify (E:=exn) (ref_set (breaker_at key fresh) b)).
Proof. done. Qed.
#[export] Hint Resolve reads_net reads_gets reads_storage_error reads_monotonic reads_breaker : steps.

Lemma steps_weaken {A} (X Y : St -> St -> Prop) (m : SM A) :
  (forall s s', X s s' -> Y s s') -> steps X m -> steps Y m.
Proof. intros H Hm s. apply H, Hm. Qed.

Lemma reads_run {A} (m : SM A) s r s' : steps reads m -> m s = (r, s') -> reads s s'.
Proof. intros H E. specialize (H s). by rewrite E in H. Qed.

(** ** Resilient calls *)

Section Resiliently.
Context (X : St -> St -> Prop) `{!PreOrder X} (HX : forall s s', reads s s' -> X s s').
Context {A : Type} (key : string) (fresh : CircuitBreaker) (tr : exn -> bool) (cls : domain_cls) (op : SM A).
Hypothesis Hop : steps X op.

Lemma allow_reads : steps reads (breaker_allow monotonic (Some (breaker_at key fresh))).
Proof. unfold breaker_allow. steps_walk. Qed.
Lemma update_reads f : steps reads (breaker_update monotonic (Some (breaker_at key fresh)) f).
Proof. unfold breaker_update. steps_walk. Qed.
Lemma name_reads : steps reads (breaker_name (Some (breaker_at key fresh))).
Proof. unfold breaker_name. steps_walk. Qed.

Lemma resilient_steps n : steps X (resilient_loop monotonic (Some (breaker_at key fresh)) tr cls op n).
Proof.
  pose proof (steps_weaken _ _ _ HX allow_reads).
  pose proof (fun f => steps_weaken _ _ _ HX (update_reads f)).
  pose proof (steps_weaken _ _ _ HX name_reads).
  assert (Hr : forall {B} e, steps X (raise (A:=B) (E:=exn) (S:=St) e)) by (intros B e s; reflexivity).
  assert (Ht : forall {B} (b : B), steps X (ret (E:=exn) (S:=St) b)) by (intros B b s; reflexivity).
  induction n as [|n IH]; [apply Hr|]. cbn [resilient_loop]. unfold give_last. steps_walk; auto.
Qed.

(** A call that ends well has run its operation to a good end, and only read
    since. *)
Lemma resilient_Ok n s a s' :
  resilient_loop monotonic (Some (breaker_at key fresh)) tr cls op n s = (Ok a, s') ->
  exists s1 s2, X s s1 /\ op s1 = (Ok a, s2) /\ reads s2 s'.
Proof.
  revert s. induction n as [|n IH]; intros s H; [done|]. cbn [resilient_loop] in H.
  apply bind_inv_Ok in H as (ok & s1 & E1 & H). apply (reads_run _ _ _ _ allow_reads) in E1.
  destruct ok; simpl in H.
  2:{ apply bind_inv_Ok in H as (nm & s2 & _ & H). done. }
  apply bind_inv_Ok in H as (r & s2 & E2 & H). unfold catch in E2.
  destruct ((a0 <- op ;; ret (inl a0)) s1) as [[x|x] s3] eqn:Eo.
  - injection E2 as <- <-. apply bind_inv_Ok in Eo as (a' & s4 & Eo & Er). unfold ret in Er. injection Er as <- <-.
    apply bind_inv_Ok in H as (u & s5 & E5 & H). unfold ret in H. injection H as <- <-.
    apply (reads_run _ _ _ _ (update_reads _)) in E5. exists s1, s4. eauto.
  - assert (Hs3 : X s1 s3).
    { assert (Hb : steps X (a0 <- op ;; ret (E:=exn) (inl (B:=exn) a0))).
      { apply steps_bind; [done|done|]. intros b w. reflexivity. }
      specialize (Hb s1). by rewrite Eo in Hb. }
    destruct r as [y|y].
    { exfalso. destruct x; try (destruct (tr _); [|done]); unfold ret, raise in E2; simpl in E2; congruence. }
    assert (s2 = s3) as ->.
    { destruct x; try (destruct (tr _); [|done]); unfold ret, raise in E2; simpl in E2; congruence. }
    apply bind_inv_Ok in H as (u & s5 & E5 & H). apply (reads_run _ _ _ _ (update_reads _)) in E5.
    destruct n as [|n].
    { unfold give_last in H. by destruct (is_external y). }
    destruct (IH s5 H) as (s6 & s7 & H6 & Eo' & H7). exists s6, s7. split; [|done].
    transitivity s1; [by apply HX|]. transitivity s3; [done|]. transitivity s5; [by apply HX|done].
Qed.
End Resiliently.

(** ** Keys *)

Definition free_of (c : ascii) (s : string) : bool := str_all (fun x => negb (bool_decide (x = c))) s.

Lemma split_free c s : free_of c s = true -> split c s = [s].
Proof.
  induction s as [|x s IH]; [done|]. unfold free_of. simpl. intros [Hx Hs]%andb_true_iff.
  apply negb_true_iff in Hx. rewrite Hx. by rewrite (IH Hs).
Qed.
Lemma split_first c a b : free_of c a = true -> split c (a +:+ String c b) = a :: split c b.
Proof.
  induction a as [|x a IH]; intros H; simpl.
  - by rewrite bool_decide_true.
  - unfold free_of in H. simpl in H. apply andb_true_iff in H as [Hx Ha]. apply negb_true_iff in Hx.
    rewrite Hx. by rewrite (IH Ha).
Qed.

Lemma uuid_no_slash u : free_of "/" (uuid_str u) = true.
Proof.
  eapply str_all_mono; [|apply uuid_str_chars]. unfold hex_dash. intros c Hc.
  apply negb_true_iff, bool_decide_eq_false. by intros ->.
Qed.
Lemma uuid_nonempty u : uuid_str u ≠ "".
Proof. pose proof (uuid_str_nonempty u) as H. by apply bool_decide_eq_false in H. Qed.
Lemma uuid_not_dot u c s : uuid_str u = String c s -> c ≠ "."%char.
Proof. intros E ->. pose proof (uuid_str_chars u) as H. by rewrite E in H. Qed.

Lemma split_key t i : split "/" (storage_key t i) = [uuid_str t; uuid_str i].
Proof.
  unfold storage_key. change ("/" +:+ uuid_str i) with (String "/" (uuid_str i)).
  rewrite split_first by apply uuid_no_slash. by rewrite split_free by apply uuid_no_slash.
Qed.

Lemma storage_key_inj t i t' i' :
  valid_uuid t -> valid_uuid i -> valid_uuid t' -> valid_uuid i' ->
  storage_key t i = storage_key t' i' -> t = t' /\ i = i'.
Proof.
  intros Ht Hi Ht' Hi' H. apply (f_equal (split "/")) in H. rewrite !split_key in H.
  pose proof (f_equal (hd "") H) as H1. pose proof (f_equal (fun l => hd "" (tl l)) H) as H2.
  split; [exact (uuid_str_inj t t' Ht Ht' H1)|exact (uuid_str_inj i i' Hi Hi' H2)].
Qed.

(** ** S3 *)

Lemma blob_write k f : (forall m k', k' ≠ k -> f m !! k' = (m : gmap string string) !! k') ->
  steps (only_blob k) (modify (E:=exn) (st_blobs f)).
Proof. intros Hf s. split; [done|]. intros k' Hk. simpl. by apply Hf. Qed.

Lemma insert_elsewhere (k d : string) (m : gmap string string) k' : k' ≠ k -> <[k := d]> m !! k' = m !! k'.
Proof. intros Hk. by rewrite lookup_insert_ne. Qed.
Lemma delete_elsewhere (k : string) (m : gmap string string) k' : k' ≠ k -> delete k m !! k' = m !! k'.
Proof. intros Hk. by rewrite lookup_delete_ne. Qed.

Section S3.
Context (client : S3Client) (bucket : string).

Lemma s3_write_only k what f answer :
  (forall m k', k' ≠ k -> f m !! k' = (m : gmap string string) !! k') ->
  steps (only_blob k) (s3_write what f answer).
Proof.
  intros Hf. pose proof (blob_write k f Hf).
  assert (Hr : forall {B} e, steps (only_blob k) (raise (A:=B) (E:=exn) e)) by (intros B e s; reflexivity).
  assert (Ht : steps (only_blob k) (ret (E:=exn) tt)) by (intros s; reflexivity).
  unfold s3_write, storage_error. destruct answer as [|m []|[]]; steps_walk.
Qed.

Lemma s3_write_Ok what f answer s u s' :
  s3_write what f answer s = (Ok u, s') -> blobs s' = f (blobs s).
Proof.
  destruct answer as [|m b|b]; [|destruct b; done..]. unfold s3_write, modify. intros [= _ <-]. done.
Qed.

(** A writing operation, called resiliently. *)
Lemma s3_writes what key f (op : nat -> S3Answer) :
  (forall m k', k' ≠ s3_location bucket key -> f m !! k' = (m : gmap string string) !! k') ->
  let call := s3_resiliently (answer <- net op ;; s3_write what f answer) in
  steps (only_blob (s3_location bucket key)) call /\
  forall s u s', call s = (Ok u, s') -> exists m, blobs s' = f m.
Proof.
  intros Hf call.
  assert (Hop : steps (only_blob (s3_location bucket key)) (answer <- net op ;; s3_write what f answer)).
  { apply steps_bind; [apply _|intros s; by apply reads_only|]. intros a. by apply s3_write_only. }
  split.
  - apply resilient_steps; [apply _|apply reads_only|done].
  - intros s u s' H.
    apply (resilient_Ok _ (reads_only (s3_location bucket key)) _ _ _ _ _ Hop) in H
      as (s1 & s2 & _ & E & [_ Hb]).
    apply bind_inv_Ok in E as (a & s3 & _ & E). apply s3_write_Ok in E. rewrite Hb, E. by eexists.
Qed.

Lemma s3_get_op_reads key : steps reads (s3_get_op client bucket key).
Proof.
  assert (Hr : forall {B} e, steps reads (raise (A:=B) (E:=exn) e)) by (intros B e s; reflexivity).
  unfold s3_get_op. steps_walk. destruct a; steps_walk.
Qed.

#[export] Instance s3_laws : StorageLaws (mkStorage (s3_put client bucket) (s3_get client bucket)
                                            (s3_delete client bucket)) (s3_location bucket).
Proof.
  split; simpl.
  - intros k d ct. by apply (s3_writes "put_object" k <[s3_location bucket k := d]>), insert_elsewhere.
  - intros k d ct s u s' H.
    destruct (s3_writes "put_object" k <[s3_location bucket k := d]>
      (fun n => put_object client n bucket k d ct) (insert_elsewhere _ _)) as [_ Hw].
    destruct (Hw s u s' H) as [m ->]. by rewrite lookup_insert_eq.
  - intros k. apply resilient_steps; [apply _|done|apply s3_get_op_reads].
  - intros k s d s' H.
    apply (resilient_Ok reads (fun _ _ H => H) _ _ _ _ _ (s3_get_op_reads k)) in H as (s1 & s2 & [_ H1] & E & _).
    unfold s3_get_op in E. apply bind_inv_Ok in E as (a & s3 & En & E). unfold net in En. injection En as <- <-.
    erewrite bind_Ok in E by reflexivity. cbv beta in E. rewrite <- H1.
    destruct (get_object _ _ _ _), (blobs _ !! _) eqn:Eh; try done. injection E as <- _. done.
  - intros k. by apply (s3_writes "delete_object" k (delete (s3_location bucket k))), delete_elsewhere.
  - intros k s u s' H.
    destruct (s3_writes "delete_object" k (delete (s3_location bucket k))
      (fun n => delete_object client n bucket k) (delete_elsewhere _)) as [_ Hw].
    destruct (Hw s u s' H) as [m ->]. by rewrite lookup_delete_eq.
  - intros t i t' i' Ht Hi Ht' Hi' H. unfold s3_location in H. do 2 apply (inj (String.append _)) in H.
    by apply storage_key_inj.
Qed.
End S3.

(** ** The file system *)

Section Fs.
Context (os : Os).

Lemma uuid_kept u :
  negb (bool_decide (uuid_str u = "")) && negb (bool_decide (uuid_str u = ".")) = true.
Proof.
  apply andb_true_iff. split; apply negb_true_iff, bool_decide_eq_false; [apply uuid_nonempty|].
  intros E. by apply (uuid_not_dot u) in E.
Qed.
Lemma path_parts_key t i : path_parts (storage_key t i) = [uuid_str t; uuid_str i].
Proof. unfold path_parts. rewrite split_key. cbn [List.filter]. by rewrite !uuid_kept. Qed.

Lemma prefix_ne a b c s : c ≠ a -> String.prefix (String a b) (String c s) = false.
Proof.
  intros Hc. change (String.prefix (String a b) (String c s)) with
    (if ascii_dec a c then String.prefix b s else false).
  destruct (ascii_dec a c); [congruence|done].
Qed.
Lemma key_relative t i : startswith (storage_key t i) "/" = false.
Proof.
  unfold startswith, storage_key. destruct (uuid_str t) as [|c s] eqn:E; [by apply uuid_nonempty in E|].
  pose proof (uuid_no_slash t) as H. rewrite E in H. unfold free_of in H. simpl in H.
  apply andb_true_iff in H as [Hc _]. apply negb_true_iff, bool_decide_eq_false in Hc.
  change (String c s +:+ "/" +:+ uuid_str i) with (String c (s +:+ "/" +:+ uuid_str i)).
  by apply prefix_ne.
Qed.

Lemma resolve_app l1 l2 :
  Forall (fun c => c ≠ "..") l2 -> resolve_parts (l1 ++ l2) = resolve_parts l1 ++ l2.
Proof.
  unfold resolve_parts. rewrite foldl_app. 
  generalize (foldl (fun acc c => if bool_decide (c = "..") then removelast acc else acc ++ [c]) [] l1).
  induction l2 as [|c l2 IH]; intros acc H; simpl; [by rewrite app_nil_r|].
  inversion_clear H. rewrite bool_decide_false by done. rewrite IH by done. by rewrite <- app_assoc.
Qed.

(** Resolving leaves no way up. *)
Lemma resolve_no_dots l : Forall (fun c => c ≠ "..") (resolve_parts l).
Proof.
  assert (G : forall acc : list string, Forall (fun c => c ≠ "..") acc -> Forall (fun c => c ≠ "..")
    (foldl (fun acc c => if bool_decide (c = "..") then removelast acc else acc ++ [c]) acc l));
    [|by apply G].
  induction l as [|c l IH]; intros acc H; simpl; [done|]. apply IH.
  case_bool_decide; [|apply Forall_app; by repeat constructor].
  clear -H. induction H as [|x l Hx Hl IH]; [done|]. simpl. destruct l; [done|]. by constructor.
Qed.

Lemma resolve_root root :
  resolve_parts (fs_root os root) = fs_root os root /\
  forall t i, resolve_parts (path_join (fs_root os root) (storage_key t i)) =
              fs_root os root ++ [uuid_str t; uuid_str i].
Proof.
  assert (H : resolve_parts (fs_root os root) = fs_root os root).
  { rewrite <- (app_nil_l (fs_root os root)) at 1. rewrite resolve_app; [done|apply resolve_no_dots]. }
  split; [done|]. intros t i. unfold path_join. rewrite key_relative, path_parts_key, resolve_app, H; [done|].
  assert (Hu : forall u, uuid_str u ≠ "..") by (intros u E; by apply (uuid_not_dot u) in E).
  by repeat constructor.
Qed.

Definition fs_location (root : list string) (key : string) : string :=
  path_str (resolve_parts (path_join root key)).

Lemma fs_resolve_cases root key s :
  fs_resolve root key s = (Ok (fs_location root key), s) \/
  exists e, fs_resolve root key s = (Raise e, s).
Proof.
  unfold fs_resolve. erewrite bind_Ok by reflexivity. cbv zeta. destruct (negb _); [|by left].
  right. by eexists.
Qed.

Lemma str_app_assoc (a b c : string) : a +:+ (b +:+ c) = (a +:+ b) +:+ c.
Proof. induction a as [|x a IH]; [done|]. exact (f_equal (String x) IH). Qed.
Lemma join_last l (a b : string) :
  join "/" (l ++ [a; b]) = (match l with [] => "" | _ => join "/" l +:+ "/" end) +:+ (a +:+ "/" +:+ b).
Proof.
  induction l as [|x l IH]; [done|]. destruct l as [|y l].
  - cbn [app join]. by rewrite !str_app_assoc.
  - change (join "/" ((x :: y :: l) ++ [a; b])) with (x +:+ "/" +:+ join "/" ((y :: l) ++ [a; b])).
    rewrite IH. change (join "/" (x :: y :: l)) with (x +:+ "/" +:+ join "/" (y :: l)).
    by rewrite !str_app_assoc.
Qed.

Lemma fs_location_key root t i :
  exists pre, fs_location (fs_root os root) (storage_key t i) = pre +:+ storage_key t i /\
    forall t' i', fs_location (fs_root os root) (storage_key t' i') = pre +:+ storage_key t' i'.
Proof.
  destruct (resolve_root root) as [_ H].
  assert (E : forall t i, fs_location (fs_root os root) (storage_key t i) =
    (("/" +:+ match fs_root os root with [] => "" | _ => join "/" (fs_root os root) +:+ "/" end) +:+ storage_key t i)).
  { intros t0 i0. unfold fs_location. rewrite H. unfold path_str. rewrite join_last. done. }
  eexists. split; [apply E|]. intros t' i'. apply E.
Qed.

Lemma fs_put_Ok root k d ct s u s' :
  fs_put os root k d ct s = (Ok u, s') -> blobs s' !! fs_location root k = Some d.
Proof.
  intros H. unfold fs_put in H. destruct (fs_resolve_cases root k s) as [E|[e E]];
    [|by erewrite bind_Raise in H by exact E].
  erewrite bind_Ok in H by exact E. apply bind_inv_Ok in H as (r & s1 & _ & H).
  destruct r as [[msg rest]|]; [by erewrite bind_Ok in H by reflexivity|].
  unfold modify in H. injection H as _ <-. simpl. by rewrite lookup_insert_eq.
Qed.
Lemma fs_delete_Ok root k s u s' :
  fs_delete os root k s = (Ok u, s') -> blobs s' !! fs_location root k = None.
Proof.
  intros H. unfold fs_delete in H. destruct (fs_resolve_cases root k s) as [E|[e E]];
    [|by erewrite bind_Raise in H by exact E].
  erewrite bind_Ok in H by exact E. apply bind_inv_Ok in H as (r & s1 & _ & H).
  destruct r; [done|]. unfold modify in H. injection H as _ <-. simpl. by rewrite lookup_delete_eq.
Qed.

(** A call that resolves its key first acts on that location only. *)
Lemma fs_only {A} root k (f : string -> SM A) X `{!PreOrder X} :
  (forall s s', reads s s' -> X s s') -> steps X (f (fs_location root k)) ->
  steps X (path <- fs_resolve root k ;; f path).
Proof.
  intros HX Hf s. destruct (fs_resolve_cases root k s) as [E|[e E]].
  - erewrite bind_Ok by exact E. apply Hf.
  - erewrite bind_Raise by exact E. reflexivity.
Qed.

#[export] Instance filesystem_laws root : StorageLaws (FilesystemStorage os root) (fs_location (fs_root os root)).
Proof.
  assert (Hr : forall k {B} e, steps (only_blob k) (raise (A:=B) (E:=exn) e)) by (intros k B e s; reflexivity).
  split; simpl.
  - intros k d ct. apply (fs_only _ _ _ (only_blob _)); [apply reads_only|].
    apply steps_bind; [apply _|intros s; by apply reads_only|].
    intros [[msg rest]|]; [|apply blob_write, insert_elsewhere].
    apply steps_bind; [apply _| |intros; apply Hr]. apply blob_write. intros m k' Hk.
    destruct rest; [by apply insert_elsewhere|by apply delete_elsewhere].
  - intros k d ct s u s'. apply fs_put_Ok.
  - intros k. apply (fs_only _ _ _ reads); [done|]. steps_walk. destruct a, a0; steps_walk.
  - intros k s d s' H. unfold fs_get in H. destruct (fs_resolve_cases (fs_root os root) k s) as [E|[e E]];
      [|by erewrite bind_Raise in H by exact E].
    erewrite bind_Ok in H by exact E. apply bind_inv_Ok in H as (r & s1 & En & H). unfold net in En.
    injection En as <- <-. erewrite bind_Ok in H by reflexivity. cbv beta in H. simpl in H.
    destruct (os_read _ _ _); [done|]. destruct (blobs s !! _) as [x|] eqn:Eh; [|done]. by injection H as <- _.
  - intros k. apply (fs_only _ _ _ (only_blob _)); [apply reads_only|].
    apply steps_bind; [apply _|intros s; by apply reads_only|].
    intros [msg|]; [apply Hr|]. apply blob_write, delete_elsewhere.
  - intros k s u s'. apply fs_delete_Ok.
  - intros t i t' i' Ht Hi Ht' Hi' H. destruct (fs_location_key root t i) as (pre & E1 & E2).
    rewrite E1, E2 in H. apply (inj (String.append pre)) in H. by apply storage_key_inj.
Qed.

(** Whatever key is asked for, the file is below the root. *)
Lemma fs_stays_below root k s p s' :
  fs_resolve (fs_root os root) k s = (Ok p, s') ->
  exists rest, p = path_str (fs_root os root ++ rest) /\ Forall (fun c => c ≠ "..") (fs_root os root ++ rest).
Proof.
  unfold fs_resolve. erewrite bind_Ok by reflexivity. cbv zeta.
  destruct (under _ _) eqn:E; [|done]. intros [= <- _]. unfold under in E. apply bool_decide_eq_true in E.
  set (target := resolve_parts _) in *. exists (drop (length (fs_root os root)) target).
  assert (Ht : fs_root os root ++ drop (length (fs_root os root)) target = target).
  { rewrite <- E at 1. apply take_drop. }
  rewrite Ht. split; [done|]. apply resolve_no_dots.
Qed.
End Fs.

(** ** Thumbnails and the configured storage *)

#[export] Instance pillow_laws pil : ThumbnailLaws (PillowThumbnailer pil).
Proof.
  assert (Hr : forall {B} e, steps reads (raise (A:=B) (E:=exn) e)) by (intros B e s; reflexivity).
  intros data edge. simpl. unfold pillow_generate, guardM, lift_res. steps_walk.
Qed.

Lemma build_storage_laws en os client settings sp :
  build_storage en os client settings = Ok sp -> exists loc, StorageLaws sp loc.
Proof.
  unfold build_storage, s3_from_settings, S3Storage. intros H.
  destruct (bool_decide (files_storage_backend settings = "filesystem")).
  - injection H as <-. eexists. apply filesystem_laws.
  - destruct (bool_decide (files_storage_backend settings = "s3")); [|done].
    destruct (_ || _ || _); [done|]. injection H as <-. eexists. apply s3_laws.
Qed.
