(* ===== verification/Files.v ===== *)
(** Files: uploads checked by their leading bytes and kept in the object store
    (src/core/files/service.py, content_types.py, schemas.py). Bytes are the
    characters of a string. *)

From stdpp Require Import base strings gmap list.
From Stdlib Require Import ZArith Lia Ascii.
From S2P Require Import Prelude Errors PyLib Calendar Entities Models Events Session SessionFacts Footprints.
From S2P Require Import Channels Access Payments PayFacts DbFacts Storage StorageFacts.

Definition FILE_READ : string := "files.file:read".
Definition FILE_UPLOAD : string := "files.file:upload".
Definition FILE_DELETE : string := "files.file:delete".

(** ** content_types.py *)

Fixpoint bytes (l : list N) : string :=
  match l with [] => "" | n :: l' => String (ascii_of_N n) (bytes l') end.

(** [data[a:b]] *)
Definition slice (a b : nat) (data : string) : string := str_take (b - a) (str_drop a data).

Definition sniff_content_type (data : string) : option string :=
  if bool_decide (slice 0 3 data = bytes [255; 216; 255]%N) then Some "image/jpeg"
  else if bool_decide (slice 0 8 data = bytes [137; 80; 78; 71; 13; 10; 26; 10]%N) then Some "image/png"
  else if bool_decide (slice 0 6 data = "GIF87a") || bool_decide (slice 0 6 data = "GIF89a")
  then Some "image/gif"
  else if bool_decide (slice 0 4 data = "RIFF") && bool_decide (slice 8 12 data = "WEBP")
  then Some "image/webp"
  else None.

(** ** service.py *)

Definition MAX_FILENAME_LENGTH : nat := 255.

Fixpoint str_filter (p : ascii -> bool) (s : string) : string :=
  match s with
  | EmptyString => EmptyString
  | String c s' => if p c then String c (str_filter p s') else str_filter p s'
  end.

Definition BACKSLASH : ascii := ascii_of_N 92.
Definition QUOTE : ascii := ascii_of_N 34.
Definition CR : ascii := ascii_of_N 13.
Definition LF : ascii := ascii_of_N 10.

(** [_sanitize_filename] *)
Definition sanitize_filename (name : option string) : option string :=
  match name with
  | None => None
  | Some name =>
      if str_empty name then None
      else
        let slashed := str_map (fun c => if bool_decide (c = BACKSLASH) then "/"%char else c) name in
        let basename := List.last (split "/" slashed) "" in
        let cleaned := strip (str_filter (fun c => ch_printable c && negb (bool_decide (c ∈ [QUOTE; CR; LF])))
                                basename) in
        or_none (str_take MAX_FILENAME_LENGTH cleaned)
  end.

Record FileDTO : Set := mkFileDTO {
  fd_id : uuid; fd_content_type : string; fd_byte_size : Z; fd_checksum_sha256 : string;
  fd_original_filename : option string }.

(** [_to_dto] *)
Definition file_dto (f : StoredFile) : FileDTO :=
  mkFileDTO (sf_id f) (sf_content_type f) (sf_byte_size f) (sf_checksum_sha256 f) (sf_original_filename f).

Record FileService : Type := mkFiles {
  fls_ctx : TenantContext; fls_tenant : uuid; fls_storage : StoragePort;
  fls_thumbnailer : ThumbnailPort; fls_settings : FilesSettings; fls_access : option Resolver }.

Definition new_file_service (ctx : TenantContext) (storage : StoragePort) (thumbnailer : ThumbnailPort)
    (settings : FilesSettings) (access : option Resolver) : SM FileService :=
  tenant <- repo_init ctx ;; ret (mkFiles ctx tenant storage thumbnailer settings access).

Definition byte_length (data : string) : Z := Z.of_nat (String.length data).

(** The metadata row of an upload. *)
Definition file_row (en : Env) (file_id : uuid) (content_type : string) (filename : option string)
    (data : string) (tenant : uuid) : StoredFile :=
  mkStoredFile file_id tenant (storage_key tenant file_id) content_type (byte_length data)
    (sha256_hex en data) (sanitize_filename filename).

(** The row first, the bytes last: a failure takes the row back. *)
Definition upload (self : FileService) (filename declared_content_type : option string) (data : string)
    : SM FileDTO :=
  guard_require (fls_access self) (fls_ctx self) FILE_UPLOAD ;;;
  guardM (str_empty data) (EDomain InvariantViolationError "uploaded file is empty") ;;;
  guardM (files_max_upload_bytes (fls_settings self) <? byte_length data)%Z
    (EDomain InvariantViolationError "uploaded file exceeds the maximum allowed size") ;;;
  match sniff_content_type data with
  | Some content_type =>
      guardM (negb (bool_decide (content_type ∈ files_allowed_content_type_list (fls_settings self))))
        (EDomain InvariantViolationError "unsupported file type (allowed: images)") ;;;
      file_id <- new_uuid7 ;;
      en <- gets env ;;
      stored <- repo_add (fls_tenant self) None (file_row en file_id content_type filename data) ;;
      sp_put (fls_storage self) (sf_storage_key stored) data content_type ;;;
      emit SvcFiles (fls_ctx self) "files.file.uploaded"
        [("file_id", JStr (uuid_str file_id)); ("content_type", JStr content_type);
         ("byte_size", JInt (byte_length data))] ;;;
      ret (file_dto stored)
  | None => raise (EDomain InvariantViolationError "unsupported file type (allowed: images)")
  end.

Definition create_thumbnail (self : FileService) (source_file_id : uuid) (max_edge : option Z)
    : SM FileDTO :=
  source <- repo_get_or_raise (R:=StoredFile) "StoredFile" (fls_tenant self) source_file_id ;;
  original <- sp_get (fls_storage self) (sf_storage_key source) ;;
  let edge := default (files_thumbnail_max_edge (fls_settings self)) max_edge in
  thumb <- tp_generate (fls_thumbnailer self) original edge ;;
  upload self None (Some thumb.2) thumb.1.

Definition file_get (self : FileService) (file_id : uuid) : SM FileDTO :=
  guard_require (fls_access self) (fls_ctx self) FILE_READ ;;;
  stored <- repo_get_or_raise (R:=StoredFile) "StoredFile" (fls_tenant self) file_id ;;
  ret (file_dto stored).

Definition file_open (self : FileService) (file_id : uuid) : SM (FileDTO * string) :=
  guard_require (fls_access self) (fls_ctx self) FILE_READ ;;;
  stored <- repo_get_or_raise (R:=StoredFile) "StoredFile" (fls_tenant self) file_id ;;
  data <- sp_get (fls_storage self) (sf_storage_key stored) ;;
  ret (file_dto stored, data).

Definition file_delete (self : FileService) (file_id : uuid) : SM unit :=
  guard_require (fls_access self) (fls_ctx self) FILE_DELETE ;;;
  stored <- repo_get_or_raise (R:=StoredFile) "StoredFile" (fls_tenant self) file_id ;;
  repo_delete (fls_tenant self) stored ;;;
  flush ;;;
  sp_delete (fls_storage self) (sf_storage_key stored) ;;;
  emit SvcFiles (fls_ctx self) "files.file.deleted" [("file_id", JStr (uuid_str file_id))] ;;;
  ret tt.

(** ** router.py *)

(** [await upload.read(n)] *)
Definition read_at_most (n : Z) (body : string) : string :=
  if (n <? 0)%Z then body else str_take (Z.to_nat n) body.

(** [_content_disposition] *)
Definition content_disposition (filename : option string) : string :=
  let safe := str_filter (fun c => ch_ascii c && (ch_alpha c || ch_digit c
                                     || bool_decide (c ∈ ["."; "_"; "-"; " "]%char)))
                (default "" filename) in
  if str_empty safe then "inline"
  else "inline; filename=" +:+ String QUOTE safe +:+ String QUOTE "".

(** Files keep their bytes: every committed row has its object in the store,
    with the size, checksum and type it says, whatever fails on the way; only
    a deletion that fails half-way can lose the object of its own row. *)

Definition stored_of (d : Db) : gmap N StoredFile := t_get d.

(** ** What is kept *)

Section Kept.
Context (loc : string -> string).

(** The object of a row is the upload the row describes. *)
Definition intact (s : St) (f : StoredFile) : Prop :=
  exists data, blobs s !! loc (sf_storage_key f) = Some data /\
    sf_byte_size f = byte_length data /\ sf_checksum_sha256 f = sha256_hex (env s) data /\
    sniff_content_type data = Some (sf_content_type f).

Definition well_named (i : N) (f : StoredFile) : Prop :=
  sf_id f = i /\ sf_storage_key f = storage_key (sf_tenant_id f) i /\
  valid_uuid (sf_tenant_id f) /\ valid_uuid i.

(** Every row of [d] is well named, and intact unless it is one of [lost]. *)
Definition files_safe (lost : gset N) (d : Db) (s : St) : Prop :=
  forall i f, stored_of d !! i = Some f -> well_named i f /\ (i ∈ lost \/ intact s f).

Lemma files_safe_more lost lost' d s : lost ⊆ lost' -> files_safe lost d s -> files_safe lost' d s.
Proof. intros Hl H i f Hi. destruct (H i f Hi) as [? [?|?]]; split; auto. Qed.
End Kept.

(** Statements that leave the object store alone and change the session's view
    along [R]. *)
Definition calm (R : Db -> Db -> Prop) (s s' : St) : Prop :=
  env s' = env s /\ committed s' = committed s /\ blobs s' = blobs s /\ R (db s) (db s').

#[export] Instance calm_preorder R `{!PreOrder R} : PreOrder (calm R).
Proof.
  split; [intros s; repeat split; reflexivity|].
  intros s1 s2 s3 (E1 & C1 & B1 & R1) (E2 & C2 & B2 & R2). repeat split; try congruence. by etransitivity.
Qed.
#[export] Instance stmt_calm R `{!PreOrder R} : Stmt R (calm R).
Proof. split; [apply _..|]. intros s s' He Hc _ _ Hb Hd. by repeat split. Qed.

Lemma calm_reads R `{!PreOrder R} s s' : reads s s' -> calm R s s'.
Proof. intros [(He & Hd & Hc & _) Hb]. repeat split; try done. rewrite Hd. reflexivity. Qed.
Lemma calm_weaken (R R' : Db -> Db -> Prop) s s' : (forall d d', R d d' -> R' d d') -> calm R s s' -> calm R' s s'.
Proof. intros H (? & ? & ? & ?). repeat split; auto. Qed.

(** The permission check reads the database only. *)
Class ReadAccess (access : option Resolver) : Prop :=
  read_access : forall resolver u, access = Some resolver -> steps reads (resolver u).
#[export] Instance read_access_None : ReadAccess None.
Proof. done. Qed.

Lemma reads_resolved f : steps reads (modify (E:=exn) (st_resolved f)).
Proof. done. Qed.
Lemma reads_guard access `{!ReadAccess access} ctx p : steps reads (guard_require access ctx p).
Proof.
  assert (Hr : forall {B} e, steps reads (raise (A:=B) (E:=exn) e)) by (intros B e s; reflexivity).
  pose proof reads_resolved.
  unfold guard_require, access_require, has_permission, list_permissions, denied.
  destruct access as [resolver|]; [pose proof (fun u => read_access resolver u eq_refl)|]; steps_walk.
Qed.

(** ** Blocks of a unit of work *)

Section Block.
Context (loc : string -> string) (lost : gset N) (s0 : St).

(** What a rollback returns to has its objects, but for [D], the files the
    block has set out to delete. *)
Definition covers (D : gset N) (s : St) : Prop :=
  env s = env s0 /\ committed s = committed s0 /\ files_safe loc (lost ∪ D) (committed s0) s.

(** .. and so has the session's view, which still has the rows not deleted. *)
Definition sound_view (D : gset N) (s : St) : Prop :=
  covers D s /\ files_safe loc lost (db s) s /\
  forall i, is_Some (stored_of (committed s0) !! i) -> is_Some (stored_of (db s) !! i) \/ i ∈ D.

Definition block {A} (D D' : gset N) (m : SM A) : Prop :=
  forall s, sound_view D s -> match m s with
                              | (Ok _, s') => sound_view D' s'
                              | (Raise _, s') => covers D' s'
                              end.

Lemma intact_calm R s s' f : calm R s s' -> intact loc s f -> intact loc s' f.
Proof. intros (He & _ & Hb & _). unfold intact. by rewrite He, Hb. Qed.

Lemma covers_calm R D s s' : calm R s s' -> covers D s -> covers D s'.
Proof.
  intros Hc (He & Hd & Hf). pose proof Hc as (E & C & _). split; [congruence|]. split; [congruence|].
  intros i f Hi. destruct (Hf i f Hi) as [? [?|?]]; split; auto. right. by apply (intact_calm R s).
Qed.

Lemma view_calm D s s' : calm (same stored_of) s s' -> sound_view D s -> sound_view D s'.
Proof.
  intros Hc (Hcov & Hf & Hr). pose proof Hc as (_ & _ & _ & Hs). unfold same in Hs.
  split; [by apply (covers_calm (same stored_of) D s)|]. split; [|by rewrite Hs].
  intros i f. rewrite Hs. intros Hi. destruct (Hf i f Hi) as [? [?|?]]; split; auto.
  right. by apply (intact_calm (same stored_of) s).
Qed.

Lemma block_calm {A} D (m : SM A) : steps (calm (same stored_of)) m -> block D D m.
Proof.
  intros Hm s Hs. specialize (Hm s). destruct (m s) as [[a|e] s']; simpl in Hm.
  - by apply (view_calm D s).
  - by apply (covers_calm (same stored_of) D s); [|apply Hs].
Qed.

Lemma block_reads {A} D (m : SM A) : steps reads m -> block D D m.
Proof. intros Hm. apply block_calm. intros s. apply (calm_reads _), Hm. Qed.

Lemma covers_more D D' s : D ⊆ D' -> covers D s -> covers D' s.
Proof.
  intros H (? & ? & ?). split; [done|]. split; [done|]. eapply files_safe_more; [|done]. set_solver.
Qed.

Lemma view_more D D' s : D ⊆ D' -> sound_view D s -> sound_view D' s.
Proof.
  intros H (Hc & Hf & Hr). split; [by apply (covers_more D)|]. split; [done|].
  intros i Hi. destruct (Hr i Hi); [by left|right; set_solver].
Qed.

Lemma block_bind {A B} D D1 D2 (m : SM A) (k : A -> SM B) :
  D1 ⊆ D2 -> block D D1 m -> (forall a, block D1 D2 (k a)) -> block D D2 (bind m k).
Proof.
  intros Hsub Hm Hk s Hs. specialize (Hm s Hs). unfold bind. destruct (m s) as [[a|e] s1].
  - by apply Hk.
  - by eapply covers_more.
Qed.

(** The whole unit of work. *)
Lemma block_uow {A} D (body : SM A) :
  (sound_view ∅ (uow_enter s0) -> match body (uow_enter s0) with
                                  | (Ok _, s') => sound_view D s'
                                  | (Raise _, s') => covers D s'
                                  end) ->
  files_safe loc lost (committed s0) s0 ->
  let '(r, s') := with_uow body s0 in
  env s' = env s0 /\
  match r with
  | Ok _ => files_safe loc lost (committed s') s'
  | Raise _ => files_safe loc (lost ∪ D) (committed s') s'
  end.
Proof.
  intros Hb Hf. assert (H0 : sound_view ∅ (uow_enter s0)).
  { split; [|split; [done|by left]]. split; [done|]. split; [done|].
    eapply files_safe_more; [|exact Hf]. set_solver. }
  specialize (Hb H0). unfold with_uow, bind. destruct (body (uow_enter s0)) as [[a|e] s1].
  - unfold session_commit, bind. pose proof (stmt_flush (calm eq) s1) as Hfl.
    pose proof Hb as ((He0 & _) & _). pose proof Hfl as (He & _).
    destruct (flush s1) as [[[]|e] s2]; simpl in Hfl, He; (split; [simpl; congruence|]).
    + destruct Hb as (_ & Hv & _). destruct Hfl as (_ & _ & Hbl & Hd). simpl. rewrite <- Hd.
      intros i f Hi. destruct (Hv i f Hi) as [? [?|?]]; split; auto. right.
      unfold intact in *. simpl. by rewrite He, Hbl.
    + destruct Hb as (Hc & _). apply (covers_calm eq D s1) in Hfl; [|done]. simpl.
      destruct Hfl as (_ & -> & H). exact H.
  - simpl. destruct Hb as (He & -> & H). split; [exact He|exact H].
Qed.
(** With a storage that keeps the contract. *)
Context (sp : StoragePort) `{!StorageLaws sp loc}.

(** An object changed at the location of another file. *)
Lemma intact_elsewhere t i j f s s' :
  valid_uuid t -> valid_uuid i -> well_named j f -> j ≠ i ->
  only_blob (loc (storage_key t i)) s s' -> intact loc s f -> intact loc s' f.
Proof.
  intros Ht Hi (Hid & Hk & Hft & Hj) Hne [(He & _) Hb] (data & Hd & H). exists data.
  split; [|by rewrite He]. rewrite Hb; [done|]. rewrite Hk. intros E. apply loc_inj in E as [_ E]; done.
Qed.

Lemma covers_elsewhere D t i s s' :
  valid_uuid t -> valid_uuid i -> (is_Some (stored_of (committed s0) !! i) -> i ∈ D) ->
  only_blob (loc (storage_key t i)) s s' -> covers D s -> covers D s'.
Proof.
  intros Ht Hi Hin Hb (He & Hc & Hf). pose proof Hb as [(E & _ & C & _) _].
  split; [congruence|]. split; [congruence|]. intros j f Hj. destruct (Hf j f Hj) as [Hw [?|Hx]]; split; auto.
  destruct (decide (j = i)) as [->|Hne]; [left|right].
  - apply elem_of_union_r, Hin. by exists f.
  - by apply (intact_elsewhere t i j f s).
Qed.

(** Storing a file: the row, then the bytes. *)
Lemma block_store D t i en ct name data :
  en = env s0 -> valid_uuid t -> valid_uuid i -> sniff_content_type data = Some ct ->
  block D D (stored <- repo_add t None (file_row en i ct name data) ;;
             sp_put sp (sf_storage_key stored) data ct ;;; ret stored).
Proof.
  intros -> Ht Hi Hct s Hs. destruct Hs as (Hc & Hf & Hr). unfold bind at 1.
  destruct (repo_add t None (file_row (env s0) i ct name data) s) as [[r|e] s1] eqn:Ea.
  2:{ pose proof (stmt_repo_add (calm anything) t None (file_row (env s0) i ct name data) s) as H.
      rewrite Ea in H. by apply (covers_calm anything D s). }
  apply repo_add_Ok in Ea as (-> & -> & _ & Hfresh & _). cbn [sf_storage_key file_row].
  set (row := file_row (env s0) i ct name data t) in *. set (s1 := st_db (t_put row) s) in *.
  change (t_get (db s) !! t_id row) with (stored_of (db s) !! i) in Hfresh.
  assert (Hin : is_Some (stored_of (committed s0) !! i) -> i ∈ D).
  { intros Hx. destruct (Hr i Hx) as [[b Hb]|?]; [congruence|done]. }
  pose proof (put_only (loc:=loc) (storage_key t i) data ct s1) as Hp. unfold bind.
  destruct (sp_put sp (storage_key t i) data ct s1) as [[u|e] s2] eqn:Ep; simpl in Hp.
  2:{ by apply (covers_elsewhere D t i s1). }
  pose proof Hp as [(E & Hdb & _) _]. split; [by apply (covers_elsewhere D t i s1)|]. split.
  - intros j f Hj. rewrite Hdb in Hj. change (<[i := row]> (stored_of (db s)) !! j = Some f) in Hj.
    rewrite lookup_insert in Hj. case_decide as Hd; [subst j; injection Hj as <-|].
    + split; [done|]. right. exists data. split; [by eapply put_stores|]. rewrite E. change (env s1) with (env s).
      destruct Hc as (-> & _). done.
    + destruct (Hf j f Hj) as [Hw [?|Hx]]; split; auto. right.
      by apply (intact_elsewhere t i j f s1).
  - intros j Hj. rewrite Hdb. change (is_Some (<[i := row]> (stored_of (db s)) !! j) \/ j ∈ D).
    destruct (Hr j Hj) as [Hx|?]; [left|by right]. rewrite lookup_insert. case_decide; [by eexists|done].
Qed.

(** Dropping a file: the row, then the bytes. *)
Lemma block_drop {A} D m t i (k : StoredFile -> SM A) :
  (forall f, sf_id f = i -> steps (calm (same stored_of)) (k f)) ->
  block D (D ∪ {[i]})
    (f <- repo_get_or_raise (R:=StoredFile) m t i ;;
     repo_delete t f ;;; flush ;;; sp_delete sp (sf_storage_key f) ;;; k f).
Proof.
  intros Hk s Hs. unfold bind at 1.
  pose proof (stmt_repo_get_or_raise (calm (same stored_of)) (T:=StoredFile) m t i s) as Hg.
  destruct (repo_get_or_raise m t i s) as [[f|e] s1] eqn:Eg; simpl in Hg.
  2:{ apply (covers_more D); [set_solver|]. by apply (covers_calm (same stored_of) D s); [|apply Hs]. }
  apply repo_get_or_raise_Ok in Eg as (-> & (j & Hj) & Hi & Ht). rename f into r. clear Hg. destruct Hs as (Hc & Hf & Hr). destruct (Hf j r Hj) as [Hw _].
  pose proof Hw as (Hid & Hkey & Hvt & Hvj). change (sf_id r = i) in Hi. rewrite Hi in Hid. subst j.
  change (sf_tenant_id r = t) in Ht. unfold bind at 1. unfold repo_delete.
  rewrite (bool_decide_true (t_tenant r = t)) by done. unfold modify. cbv beta iota.
  change (t_id r) with (sf_id r). rewrite Hi. set (s1 := st_db (t_del i) s).
  assert (Hc1 : covers (D ∪ {[i]}) s1) by (apply (covers_more D); [set_solver|done]).
  unfold bind at 1. pose proof (stmt_flush (calm eq) s1) as Hfl.
  destruct (flush s1) as [[u|e] s2]; simpl in Hfl; [|by apply (covers_calm eq _ s1)].
  apply (covers_calm eq _ _ _ Hfl) in Hc1 as Hc2.
  unfold bind at 1. rewrite Hkey, Ht.
  pose proof (delete_only (loc:=loc) (storage_key t i) s2) as Hd.
  destruct (sp_delete sp (storage_key t i) s2) as [[u'|e] s3] eqn:Ed; simpl in Hd.
  2:{ apply (covers_elsewhere _ t i s2); [congruence|done|set_solver|done|done]. }
  assert (Hv : sound_view (D ∪ {[i]}) s3).
  { assert (Hdb : stored_of (db s3) = delete i (stored_of (db s))).
    { destruct Hd as [(_ & -> & _) _], Hfl as (_ & _ & _ & <-). done. }
    split; [apply (covers_elsewhere _ t i s2); [congruence|done|set_solver|done|done]|]. split.
    - intros j g. rewrite Hdb, lookup_delete. case_decide as Hji; [done|]. intros Hg.
      destruct (Hf j g Hg) as [Hwg [?|Hx]]; split; auto. right.
      apply (intact_elsewhere t i j g s2); [congruence|done|done|done|done|].
      by apply (intact_calm eq s1).
    - intros j Hx. rewrite Hdb, lookup_delete. destruct (decide (i = j)) as [->|Hne]; [right; set_solver|].
      destruct (Hr j Hx) as [?|?]; [by left|right; set_solver]. }
  exact (block_calm _ (k r) (Hk r Hi) s3 Hv).
Qed.
End Block.

(** ** The service *)

Section Service.
Context (self : FileService) (loc : string -> string) `{!StorageLaws (fls_storage self) loc}.
Context `{!ThumbnailLaws (fls_thumbnailer self), !ReadAccess (fls_access self)}.
Context (lost : gset N) (s0 : St).
Hypothesis Hids : forall n, valid_uuid (env_uuid7 (env s0) n).
Hypothesis Htenant : valid_uuid (fls_tenant self).

#[local] Abbreviation block := (block loc lost s0).

Lemma block_guard D p : block D D (guard_require (fls_access self) (fls_ctx self) p).
Proof. apply block_reads, reads_guard, _. Qed.
Lemma block_guardM D b e : block D D (guardM b e).
Proof. apply block_reads. intros s. unfold guardM. by destruct b. Qed.
Lemma block_raise {A} D e : block D D (raise (A:=A) e).
Proof. apply block_reads. by intros s. Qed.
Lemma block_ret {A} D (a : A) : block D D (ret a).
Proof. apply block_reads. by intros s. Qed.
Lemma block_event D sv ctx n p : block D D (emit sv ctx n p).
Proof. apply block_calm, (stmt_emit (calm (same stored_of))). Qed.

(** The draw of an identifier. *)
Lemma block_draw {A} D D' (k : uuid -> SM A) :
  (forall i, valid_uuid i -> block D D' (k i)) -> block D D' (i <- new_uuid7 ;; k i).
Proof.
  intros Hk s Hs. unfold bind, new_uuid7. apply Hk.
  - destruct Hs as ((-> & _) & _). apply Hids.
  - apply (view_calm loc lost s0 D s); [|done]. by repeat split.
Qed.
Lemma block_env {A} D D' (k : Env -> SM A) : block D D' (k (env s0)) -> block D D' (en <- gets env ;; k en).
Proof.
  intros Hk s Hs. erewrite bind_Ok by reflexivity. pose proof Hs as ((-> & _) & _). by apply Hk.
Qed.

Lemma block_seq {A B} D (m : SM A) (k : A -> SM B) :
  block D D m -> (forall a, block D D (k a)) -> block D D (bind m k).
Proof. intros Hm Hk. by apply (block_bind _ _ _ D D). Qed.
Lemma block_ext {A} D D' (m m' : SM A) : (forall s, m s = m' s) -> block D D' m' -> block D D' m.
Proof. intros E H s Hs. rewrite E. by apply H. Qed.

Lemma bind_keep {A B C} (m : SM A) (p : A -> SM B) (k : A -> SM C) s :
  bind m (fun a => p a ;;; k a) s = bind (bind m (fun a => p a ;;; ret a)) k s.
Proof. unfold bind. destruct (m s) as [[a|e] s1]; [|done]. by destruct (p a s1) as [[b|e] s2]. Qed.

Lemma block_upload D name ct data : block D D (upload self name ct data).
Proof.
  unfold upload. apply block_seq; [apply block_guard|intros _].
  apply block_seq; [apply block_guardM|intros _]. apply block_seq; [apply block_guardM|intros _].
  destruct (sniff_content_type data) as [content|] eqn:Ec; [|apply block_raise].
  apply block_seq; [apply block_guardM|intros _]. apply block_draw. intros i Hi. apply block_env.
  set (k := fun stored : StoredFile => emit SvcFiles (fls_ctx self) "files.file.uploaded"
        [("file_id", JStr (uuid_str i)); ("content_type", JStr content);
         ("byte_size", JInt (byte_length data))] ;;; ret (file_dto stored)).
  apply (block_ext _ _ _ (bind (stored <- repo_add (fls_tenant self) None (file_row (env s0) i content name data) ;;
             sp_put (fls_storage self) (sf_storage_key stored) data content ;;; ret stored) k)).
  { apply bind_keep. }
  apply block_seq; [by eapply block_store|]. intros r. unfold k.
  apply block_seq; [apply block_event|intros _; apply block_ret].
Qed.

Lemma block_found {A} D D' m i (k : StoredFile -> SM A) :
  D ⊆ D' -> (forall f, block D D' (k f)) ->
  block D D' (f <- repo_get_or_raise (R:=StoredFile) m (fls_tenant self) i ;; k f).
Proof.
  intros HD Hk. apply (block_bind _ _ _ D D); [done| |done].
  apply block_calm, (stmt_repo_get_or_raise (calm (same stored_of))).
Qed.

Lemma block_thumbnail D i edge : block D D (create_thumbnail self i edge).
Proof.
  unfold create_thumbnail. apply block_found; [done|intros f].
  apply block_seq; [apply block_reads, (get_reads (loc:=loc))|intros original].
  apply block_seq; [apply block_reads, thumbnail_reads|intros thumb]. apply block_upload.
Qed.
Lemma block_get D i : block D D (file_get self i).
Proof. unfold file_get. apply block_seq; [apply block_guard|intros _]. apply block_found; [done|intros; apply block_ret]. Qed.
Lemma block_open D i : block D D (file_open self i).
Proof.
  unfold file_open. apply block_seq; [apply block_guard|intros _]. apply block_found; [done|intros f].
  apply block_seq; [apply block_reads, (get_reads (loc:=loc))|intros; apply block_ret].
Qed.
Lemma block_delete D i : block D (D ∪ {[i]}) (file_delete self i).
Proof.
  unfold file_delete. apply (block_bind _ _ _ D D); [set_solver|apply block_guard|intros _].
  apply (block_drop loc _ _ _ D "StoredFile" (fls_tenant self) i (fun f =>
    emit SvcFiles (fls_ctx self) "files.file.deleted" [("file_id", JStr (uuid_str i))] ;;; ret tt)).
  intros f _. pose proof (fun n p => stmt_emit (calm (same stored_of)) SvcFiles (fls_ctx self) n p). steps_walk.
Qed.
End Service.

(** ** Footprints *)

Section Footprints.
Context (R : Db -> Db -> Prop) `{!PreOrder R, !Tolerates R StoredFile}.
Context (self : FileService) (loc : string -> string) `{!StorageLaws (fls_storage self) loc}.
Context `{!ThumbnailLaws (fls_thumbnailer self), !QuietAccess (fls_access self)}.

Lemma evo_put k d ct : steps (evo R) (sp_put (fls_storage self) k d ct).
Proof. intros s. apply (quiet_evo R), (put_only (loc:=loc) k d ct s). Qed.
Lemma evo_fetch k : steps (evo R) (sp_get (fls_storage self) k).
Proof. intros s. apply (quiet_evo R), (get_reads (loc:=loc) k s). Qed.
Lemma evo_erase k : steps (evo R) (sp_delete (fls_storage self) k).
Proof. intros s. apply (quiet_evo R), (delete_only (loc:=loc) k s). Qed.

Lemma evo_upload n ct data : steps (evo R) (upload self n ct data).
Proof. pose proof evo_put. unfold upload. stmt_walk. Qed.
Lemma evo_thumbnail i e : steps (evo R) (create_thumbnail self i e).
Proof.
  pose proof evo_fetch. pose proof evo_upload.
  assert (forall d e, steps (evo R) (tp_generate (fls_thumbnailer self) d e)).
  { intros d e' s. apply (quiet_evo R), (thumbnail_reads d e' s). }
  unfold create_thumbnail. stmt_walk.
Qed.
Lemma evo_file_get i : steps (evo R) (file_get self i).
Proof. unfold file_get. stmt_walk. Qed.
Lemma evo_file_open i : steps (evo R) (file_open self i).
Proof. pose proof evo_fetch. unfold file_open. stmt_walk. Qed.
Lemma evo_file_delete i : steps (evo R) (file_delete self i).
Proof. pose proof evo_erase. unfold file_delete. stmt_walk. Qed.
End Footprints.
