(* ===== verification/Saas.v ===== *)
(** The saas module: entitlements, metering and onboarding
    (src/modules/saas/entitlements, metering and onboarding).

    Entitlements follow billing through three subscribers; metering and
    onboarding are called by other features. A date is the ordinal of its day,
    as in [date.toordinal]. *)

From stdpp Require Import base strings gmap list pretty sorting.
From Stdlib Require Import ZArith Lia Ascii.
From S2P Require Import Prelude Errors PyLib Calendar Entities Models Events Session SessionFacts Footprints.
From S2P Require Import Notices Access Payments PayFacts.

(** ** saas.entitlements *)

Definition ENTITLEMENT_READ : string := "saas.entitlement:read".

Record EntitlementsDTO : Type := mkEntitlementsDTO {
  en_plan_code : option string;
  en_flags : gmap string bool; en_limits : gmap string (option Z) }.

Record EntitlementService : Type := mkEntitlements {
  ens_ctx : TenantContext; ens_tenant : uuid; ens_access : option Resolver }.

Definition new_entitlement_service (ctx : TenantContext) (access : option Resolver)
    : SM EntitlementService :=
  tenant <- repo_init ctx ;; ret (mkEntitlements ctx tenant access).

(** [_current_row] *)
Definition current_row (self : EntitlementService) : SM (option TenantEntitlement) :=
  rows <- repo_find (ens_tenant self) (fun _ => true) id None ;; ret (head rows).

(** A canceled plan covers until its period end, if it has one. *)
Definition effective_plan_code (self : EntitlementService) : SM (option string) :=
  row <- current_row self ;;
  match row with
  | None => ret None
  | Some row =>
      if te_canceled row then
        match te_current_period_end row with
        | None => ret None
        | Some e => t <- now ;; ret (if (e <=? t)%Z then None else Some (te_plan_code row))
        end
      else ret (Some (te_plan_code row))
  end.

Definition plan_rows (p : PlanEntitlement -> bool) : SM (list PlanEntitlement) :=
  d <- get_db ;;
  ret (List.filter p (snd <$> map_to_list (s_plan_entitlements (saas_of d)))).

(** [_grant] *)
Definition grant_of (plan_code key : string) (kind : entitlement_kind) : SM (option PlanEntitlement) :=
  rows <- plan_rows (fun e => bool_decide (pe_plan_code e = plan_code)
                           && bool_decide (pe_entitlement_key e = key)
                           && bool_decide (pe_kind e = kind)) ;;
  scalar_one_or_none rows.

Definition bool_of (v : option bool) : bool := match v with Some b => b | None => false end.

Definition is_enabled (self : EntitlementService) (flag_key : string) : SM bool :=
  plan <- effective_plan_code self ;;
  match plan with
  | None => ret false
  | Some plan =>
      row <- grant_of plan flag_key EFlag ;;
      ret (match row with Some e => bool_of (pe_bool_value e) | None => false end)
  end.

Definition get_limit (self : EntitlementService) (limit_key : string) : SM (option Z) :=
  plan <- effective_plan_code self ;;
  match plan with
  | None => ret None
  | Some plan =>
      row <- grant_of plan limit_key ELimit ;;
      ret (match row with Some e => pe_int_value e | None => None end)
  end.

Definition limit_lock (self : EntitlementService) (limit_key : string) : string :=
  "saas.limit:" +:+ uuid_str (ens_tenant self) +:+ ":" +:+ limit_key.

Definition limit_message (limit_key : string) (current limit : Z) : string :=
  "plan limit '" +:+ limit_key +:+ "' reached (" +:+ pretty current +:+ "/" +:+ pretty limit +:+ ")".

Definition require_within_limit (self : EntitlementService) (limit_key : string) (count : SM Z)
    : SM unit :=
  limit <- get_limit self limit_key ;;
  match limit with
  | None => ret tt
  | Some limit =>
      advisory_xact_lock (limit_lock self limit_key) ;;;
      current <- count ;;
      guardM (limit <=? current)%Z (EDomain ConflictError (limit_message limit_key current limit))
  end.

(** The dictionaries of [snapshot], row by row. *)
Definition add_grant (acc : gmap string bool * gmap string (option Z)) (e : PlanEntitlement)
    : gmap string bool * gmap string (option Z) :=
  match pe_kind e with
  | EFlag => (<[pe_entitlement_key e := bool_of (pe_bool_value e)]> acc.1, acc.2)
  | ELimit => (acc.1, <[pe_entitlement_key e := pe_int_value e]> acc.2)
  end.

Definition snapshot (self : EntitlementService) : SM EntitlementsDTO :=
  guard_require (ens_access self) (ens_ctx self) ENTITLEMENT_READ ;;;
  plan <- effective_plan_code self ;;
  match plan with
  | None => ret (mkEntitlementsDTO None ∅ ∅)
  | Some code =>
      rows <- plan_rows (fun e => bool_decide (pe_plan_code e = code)) ;;
      let '(flags, limits) := foldl add_grant (∅, ∅) rows in
      ret (mkEntitlementsDTO plan flags limits)
  end.

(** Kept in step with billing. *)

Definition set_entitled (plan : string) (period_end : option datetime) (canceled : bool)
    (e : TenantEntitlement) : TenantEntitlement :=
  mkTenantEntitlement (te_id e) (te_tenant_id e) plan period_end canceled.

Definition entitlement_changed (self : EntitlementService) (plan_code : string) : SM unit :=
  emit SvcEntitlements (ens_ctx self) "saas.entitlement.changed" [("plan_code", JStr plan_code)] ;;;
  ret tt.

Definition set_active_plan (self : EntitlementService) (plan_code : string)
    (current_period_end : option datetime) : SM unit :=
  row <- current_row self ;;
  match row with
  | None =>
      i <- new_uuid7 ;;
      repo_add (ens_tenant self) None (fun tenant =>
        mkTenantEntitlement i tenant plan_code current_period_end false) ;;;
      ret tt
  | Some row =>
      upd (te_id row) (set_entitled plan_code current_period_end false) ;;;
      flush
  end ;;;
  entitlement_changed self plan_code.

Definition mark_canceled (self : EntitlementService) : SM unit :=
  row <- current_row self ;;
  match row with
  | None => ret tt
  | Some row =>
      upd (te_id row) (fun e => set_entitled (te_plan_code e) (te_current_period_end e) true e) ;;;
      flush ;;;
      entitlement_changed self (te_plan_code row)
  end.

(** The earlier of the period end and the end billing reported. *)
Definition ended_end (period_end : option datetime) (ended_at : datetime) : option datetime :=
  match period_end with
  | None => Some ended_at
  | Some e => if (ended_at <? e)%Z then Some ended_at else Some e
  end.

Definition end_plan (self : EntitlementService) (plan_code : string) (ended_at : datetime) : SM unit :=
  row <- current_row self ;;
  match row with
  | None => ret tt
  | Some row =>
      if negb (bool_decide (te_plan_code row = plan_code)) then ret tt
      else
        upd (te_id row) (fun e => set_entitled (te_plan_code e)
                                    (ended_end (te_current_period_end e) ended_at) true e) ;;;
        flush ;;;
        entitlement_changed self plan_code
  end.

(** ** src/modules/saas/entitlements/subscribers.py *)

(** [str(event.payload.get(key) or "")] *)
Definition payload_str (en : Env) (event : EventEnvelope) (key : string) : string :=
  match assoc key (e_payload event) with
  | Some v => if truthy v then py_str en v else ""
  | None => ""
  end.

(** [datetime.fromisoformat(str(raw))] *)
Definition iso_of (raw : json) : SM datetime :=
  en <- gets env ;;
  match raw with JIso t => ret t | v => fromisoformat (JStr (py_str en v)) end.

Definition on_subscription_activated (event : EventEnvelope) : SM unit :=
  en <- gets env ;;
  let plan_code := payload_str en event "plan_code" in
  if str_empty plan_code then ret tt
  else match c_tenant_id (handler_ctx event) with
  | None => ret tt
  | Some _ =>
      period_end <- match assoc "current_period_end" (e_payload event) with
                    | Some raw => if truthy raw then t <- iso_of raw ;; ret (Some t) else ret None
                    | None => ret None
                    end ;;
      service <- new_entitlement_service (handler_ctx event) None ;;
      set_active_plan service plan_code period_end
  end.

Definition on_subscription_canceled (event : EventEnvelope) : SM unit :=
  match c_tenant_id (handler_ctx event) with
  | None => ret tt
  | Some _ =>
      service <- new_entitlement_service (handler_ctx event) None ;;
      mark_canceled service
  end.

Definition on_subscription_ended (event : EventEnvelope) : SM unit :=
  en <- gets env ;;
  let plan_code := payload_str en event "plan_code" in
  if str_empty plan_code then ret tt
  else match c_tenant_id (handler_ctx event) with
  | None => ret tt
  | Some _ =>
      service <- new_entitlement_service (handler_ctx event) None ;;
      end_plan service plan_code (e_occurred_at event)
  end.

(** ** saas.metering *)

Definition USAGE_READ : string := "saas.usage:read".

Definition MAX_METRIC_KEY_LEN : nat := 128.

(** [t.date()] of a UTC datetime *)
Definition date_of (t : datetime) : Z := (t / DAY + 1)%Z.

Record MeteringService : Type := mkMetering {
  mts_ctx : TenantContext; mts_tenant : uuid; mts_access : option Resolver }.

Definition new_metering_service (ctx : TenantContext) (access : option Resolver) : SM MeteringService :=
  match c_tenant_id ctx with
  | None => raise (EDomain InvariantViolationError "metering requires a tenant context")
  | Some tenant => ret (mkMetering ctx tenant access)
  end.

Definition same_bucket (tenant : uuid) (metric_key : string) (bucket : Z) (c : UsageCounter) : bool :=
  bool_decide (uq_bucket c = Some (tenant, metric_key, bucket)).

Definition add_usage (delta : Z) (c : UsageCounter) : UsageCounter :=
  mkUsageCounter (uc_id c) (uc_tenant_id c) (uc_metric_key c) (uc_bucket c) (uc_value c + delta)%Z.

(** INSERT .. ON CONFLICT DO UPDATE: waits for whoever inserts the same
    counter, then adds to its row. *)
Definition upsert_usage (row : UsageCounter) : SM unit :=
  flush ;;;
  rivals ;;;
  rows <- query (same_bucket (uc_tenant_id row) (uc_metric_key row) (uc_bucket row)) ;;
  match rows with
  | [] => insert_row row
  | c :: _ => upd (uc_id c) (add_usage (uc_value row)) ;;; flush
  end.

Definition record_usage (self : MeteringService) (metric_key : string) (delta : Z)
    (at_ : option datetime) : SM unit :=
  guardM (str_empty metric_key || Nat.ltb MAX_METRIC_KEY_LEN (String.length metric_key))
    (EDomain InvariantViolationError "metric_key must be 1..128 chars") ;;;
  guardM (delta <? 1)%Z (EDomain InvariantViolationError "delta must be a positive integer") ;;;
  t <- match at_ with Some t => ret t | None => now end ;;
  i <- new_uuid7 ;;
  upsert_usage (mkUsageCounter i (mts_tenant self) metric_key (date_of t) delta).

(** [_window] *)
Definition in_window (since until : option Z) (c : UsageCounter) : bool :=
  match since with Some d => (d <=? uc_bucket c)%Z | None => true end
  && match until with Some d => (uc_bucket c <=? d)%Z | None => true end.

Definition sum_values (l : list UsageCounter) : Z := foldr (fun c z => (uc_value c + z)%Z) 0%Z l.

Definition usage_total (self : MeteringService) (metric_key : string) (since until : option Z) : SM Z :=
  rows <- query (fun c => bool_decide (uc_tenant_id c = mts_tenant self)
                       && bool_decide (uc_metric_key c = metric_key) && in_window since until c) ;;
  ret (sum_values rows).

(** GROUP BY metric_key *)
Definition add_metric (acc : gmap string Z) (c : UsageCounter) : gmap string Z :=
  <[uc_metric_key c := (default 0 (acc !! uc_metric_key c) + uc_value c)%Z]> acc.

Definition usage_summary (self : MeteringService) (since until : option Z) : SM (gmap string Z) :=
  guard_require (mts_access self) (mts_ctx self) USAGE_READ ;;;
  rows <- query (fun c => bool_decide (uc_tenant_id c = mts_tenant self) && in_window since until c) ;;
  ret (foldl add_metric ∅ rows).

(** ** src/modules/saas/metering/retention.py *)

Definition USAGE_SWEEP_BATCH : nat := 1000.

Definition purge_expired_usage (saas_usage_retention_days : Z) : SM Z :=
  t <- now ;;
  let cutoff := date_of (t - timedelta_days saas_usage_retention_days)%Z in
  with_uow (
    l <- query (fun c => (uc_bucket c <? cutoff)%Z) ;;
    let oldest := uc_id <$> take USAGE_SWEEP_BATCH (order_asc uc_bucket l) in
    delete_where (fun c : UsageCounter => bool_decide (uc_id c ∈ oldest))).

(** ** saas.onboarding *)

Definition ONBOARDING_READ : string := "saas.onboarding:read".
Definition ONBOARDING_UPDATE : string := "saas.onboarding:update".

Record OnboardingStepDTO : Set := mkStepDTO {
  os_key : string; os_completed : bool; os_completed_at : option datetime }.
Record OnboardingProgressDTO : Set := mkProgressDTO {
  og_steps : list OnboardingStepDTO; og_completed_count : nat; og_total : nat; og_is_complete : bool }.

Record OnboardingService : Type := mkOnboarding {
  obs_ctx : TenantContext; obs_tenant : uuid; obs_steps : list string; obs_access : option Resolver }.

Definition new_onboarding_service (ctx : TenantContext) (steps : list string)
    (access : option Resolver) : SM OnboardingService :=
  tenant <- repo_init ctx ;; ret (mkOnboarding ctx tenant steps access).

(** [_completed]; a dictionary, so a later row of a step wins. *)
Definition completed (self : OnboardingService) : SM (gmap string datetime) :=
  rows <- repo_find (R:=OnboardingProgress) (obs_tenant self) (fun _ => true) id None ;;
  ret (foldl (fun acc r => <[op_step_key r := op_completed_at r]> acc) ∅ rows).

(** [_to_dto] *)
Definition to_dto (self : OnboardingService) (done : gmap string datetime) : OnboardingProgressDTO :=
  let steps := (fun step => mkStepDTO step (bool_decide (is_Some (done !! step))) (done !! step))
               <$> obs_steps self in
  let count := length (List.filter os_completed steps) in
  mkProgressDTO steps count (length (obs_steps self))
    (match obs_steps self with [] => false | _ => Nat.eqb count (length (obs_steps self)) end).

Definition all_done (self : OnboardingService) (done : gmap string datetime) : bool :=
  match obs_steps self with
  | [] => false
  | steps => forallb (fun step => bool_decide (is_Some (done !! step))) steps
  end.

Definition onboarding_lock (self : OnboardingService) : string :=
  "saas.onboarding:" +:+ uuid_str (obs_tenant self).

Definition complete_step (self : OnboardingService) (step_key : string) : SM OnboardingProgressDTO :=
  en <- gets env ;;
  guardM (negb (bool_decide (step_key ∈ obs_steps self)))
    (EDomain InvariantViolationError ("unknown onboarding step: " +:+ py_repr en (JStr step_key))) ;;;
  advisory_xact_lock (onboarding_lock self) ;;;
  done <- completed self ;;
  if bool_decide (is_Some (done !! step_key)) then ret (to_dto self done)
  else
    t <- now ;;
    let done := <[step_key := t]> done in
    i <- new_uuid7 ;;
    repo_add (obs_tenant self) None (fun tenant => mkProgress i tenant step_key t) ;;;
    (if all_done self done
     then emit SvcOnboarding (obs_ctx self) "saas.onboarding.completed" [] ;;; ret tt
     else ret tt) ;;;
    ret (to_dto self done).

Definition onboarding_progress (self : OnboardingService) : SM OnboardingProgressDTO :=
  guard_require (obs_access self) (obs_ctx self) ONBOARDING_READ ;;;
  done <- completed self ;;
  ret (to_dto self done).

(** Facts about the saas module: what its operations write, that the counters
    of metering are a log of recordings, that coverage follows billing's
    events, and that onboarding completes once. *)

(** ** Footprints *)

Section Footprints.
Context (R : Db -> Db -> Prop) `{!PreOrder R}.

Lemma evo_lock key : steps (evo R) (advisory_xact_lock key).
Proof.
  intros s. unfold advisory_xact_lock. destruct (aborted s); [reflexivity|]. by apply (evo_rivals R).
Qed.

Lemma quiet_current_row self : steps quiet (current_row self).
Proof. unfold current_row, repo_find, repo_select. steps_walk. Qed.
Lemma quiet_effective_plan self : steps quiet (effective_plan_code self).
Proof. pose proof quiet_current_row. unfold effective_plan_code. steps_walk. Qed.
Lemma quiet_plan_rows p : steps quiet (plan_rows p).
Proof. pose proof quiet_get_db. unfold plan_rows. steps_walk. Qed.
Lemma quiet_grant plan key kind : steps quiet (grant_of plan key kind).
Proof.
  pose proof quiet_plan_rows. pose proof (@quiet_scalar PlanEntitlement). unfold grant_of. steps_walk.
Qed.
Lemma quiet_is_enabled self key : steps quiet (is_enabled self key).
Proof.
  pose proof quiet_effective_plan. pose proof quiet_grant. unfold is_enabled. steps_walk.
Qed.
Lemma quiet_limit self key : steps quiet (get_limit self key).
Proof. pose proof quiet_effective_plan. pose proof quiet_grant. unfold get_limit. steps_walk. Qed.
Lemma quiet_snapshot self `{!QuietAccess (ens_access self)} : steps quiet (snapshot self).
Proof.
  pose proof quiet_effective_plan. pose proof quiet_plan_rows.
  pose proof (fun c p => quiet_guard (ens_access self) c p). unfold snapshot. steps_walk.
Qed.

Lemma evo_within_limit self key (count : SM Z) :
  steps (evo R) count -> steps (evo R) (require_within_limit self key count).
Proof.
  intros Hc. pose proof (fun s k => quiet_steps_evo R _ (quiet_limit s k)). pose proof evo_lock.
  unfold require_within_limit. steps_walk.
Qed.

Lemma quiet_usage self m since until : steps quiet (usage_total self m since until).
Proof. unfold usage_total. steps_walk. Qed.
Lemma quiet_summary self since until `{!QuietAccess (mts_access self)} :
  steps quiet (usage_summary self since until).
Proof.
  pose proof (fun c p => quiet_guard (mts_access self) c p). unfold usage_summary. steps_walk.
Qed.

Lemma quiet_completed self : steps quiet (completed self).
Proof. unfold completed, repo_find, repo_select. steps_walk. Qed.
Lemma quiet_progress self `{!QuietAccess (obs_access self)} : steps quiet (onboarding_progress self).
Proof.
  pose proof quiet_completed. pose proof (fun c p => quiet_guard (obs_access self) c p).
  unfold onboarding_progress. steps_walk.
Qed.

(** Writes. *)
Context `{!FeatureBlind R}.

Lemma evo_entitlement_changed self p : steps (evo R) (entitlement_changed self p).
Proof. unfold entitlement_changed. steps_walk. Qed.
Lemma evo_set_active self p e : steps (evo R) (set_active_plan self p e).
Proof.
  pose proof (fun s => quiet_steps_evo R _ (quiet_current_row s)). pose proof evo_entitlement_changed.
  unfold set_active_plan. stmt_walk.
Qed.
Lemma evo_mark_canceled self : steps (evo R) (mark_canceled self).
Proof.
  pose proof (fun s => quiet_steps_evo R _ (quiet_current_row s)). pose proof evo_entitlement_changed.
  unfold mark_canceled. stmt_walk.
Qed.
Lemma evo_end_plan self p t : steps (evo R) (end_plan self p t).
Proof.
  pose proof (fun s => quiet_steps_evo R _ (quiet_current_row s)). pose proof evo_entitlement_changed.
  unfold end_plan. stmt_walk.
Qed.

Lemma evo_new_entitlements ctx a : steps (evo R) (new_entitlement_service ctx a).
Proof. unfold new_entitlement_service. steps_walk. Qed.
Lemma quiet_iso_of v : steps quiet (iso_of v).
Proof. pose proof quiet_fromiso. unfold iso_of. steps_walk. Qed.

Lemma evo_on_activated e : steps (evo R) (on_subscription_activated e).
Proof.
  pose proof evo_set_active. pose proof evo_new_entitlements.
  pose proof (fun v => quiet_steps_evo R _ (quiet_iso_of v)).
  unfold on_subscription_activated. stmt_walk.
Qed.
Lemma evo_on_canceled e : steps (evo R) (on_subscription_canceled e).
Proof.
  pose proof evo_mark_canceled. pose proof evo_new_entitlements.
  unfold on_subscription_canceled. stmt_walk.
Qed.
Lemma evo_on_ended e : steps (evo R) (on_subscription_ended e).
Proof.
  pose proof evo_end_plan. pose proof evo_new_entitlements. unfold on_subscription_ended. stmt_walk.
Qed.

Lemma evo_upsert row : steps (evo R) (upsert_usage row).
Proof. pose proof (evo_rivals R). unfold upsert_usage. stmt_walk. Qed.
Lemma evo_record self m d t : steps (evo R) (record_usage self m d t).
Proof. pose proof evo_upsert. unfold record_usage. stmt_walk. Qed.

Lemma evo_complete_step self k : steps (evo R) (complete_step self k).
Proof.
  pose proof (fun s => quiet_steps_evo R _ (quiet_completed s)). pose proof evo_lock.
  unfold complete_step. stmt_walk.
Qed.
End Footprints.
