(* ===== verification/SaasFacts.v ===== *)
(** Metering as a log: the daily counters of saas.metering hold, for every
    set of buckets, the sum of what was recorded into them. *)

From stdpp Require Import base strings gmap list sorting.
From Stdlib Require Import ZArith Lia Ascii.
From S2P Require Import Prelude Errors PyLib Calendar Entities Models Events Session SessionFacts Footprints.
From S2P Require Import Notices Access Payments PayFacts DbFacts Saas.

(** ** The abstract log *)

(** Whose metric, which metric, which day. *)
Definition bucket : Type := uuid * string * Z.

Record Recording : Set := mkRecording {
  rec_tenant : uuid; rec_metric : string; rec_day : Z; rec_delta : Z }.
Definition rec_bucket (r : Recording) : bucket := (rec_tenant r, rec_metric r, rec_day r).

Definition log_sum (p : bucket -> bool) (log : list Recording) : Z :=
  foldr (fun r z => (if p (rec_bucket r) then rec_delta r else 0) + z)%Z 0%Z log.

Lemma log_sum_app p l1 l2 : log_sum p (l1 ++ l2) = (log_sum p l1 + log_sum p l2)%Z.
Proof. induction l1 as [|r l IH]; simpl; [done|]. rewrite IH. lia. Qed.

Lemma log_sum_nonneg p log : Forall (fun r => 1 <= rec_delta r)%Z log -> (0 <= log_sum p log)%Z.
Proof. induction 1 as [|r l Hr _ IH]; simpl; [done|]. destruct (p (rec_bucket r)); lia. Qed.

(** ** The counters *)

Definition usage_of (d : Db) : gmap N UsageCounter := s_usage (saas_of d).
Definition bucket_of (c : UsageCounter) : bucket := (uc_tenant_id c, uc_metric_key c, uc_bucket c).
Definition counted (p : bucket -> bool) (t : gmap N UsageCounter) : Z :=
  sum_values (select (fun c => p (bucket_of c)) t).

Lemma sum_values_perm l1 l2 : l1 ≡ₚ l2 -> sum_values l1 = sum_values l2.
Proof. induction 1; simpl; lia. Qed.
Lemma sum_values_app l1 l2 : sum_values (l1 ++ l2) = (sum_values l1 + sum_values l2)%Z.
Proof. induction l1 as [|c l IH]; simpl; [done|]. rewrite IH. lia. Qed.

Lemma filter_perm {A} (p : A -> bool) l1 l2 : l1 ≡ₚ l2 -> List.filter p l1 ≡ₚ List.filter p l2.
Proof.
  induction 1; simpl.
  - done.
  - destruct (p x); [by constructor|done].
  - destruct (p x), (p y); try done. constructor.
  - by etransitivity.
Qed.

Lemma filter_twice {A} (p q : A -> bool) l :
  List.filter p (List.filter q l) = List.filter (fun x => q x && p x) l.
Proof.
  induction l as [|x l IH]; simpl; [done|]. destruct (q x); simpl; [|done]. destruct (p x); by rewrite IH.
Qed.

Lemma counted_new p t i c :
  t !! i = None ->
  counted p (<[i := c]> t) = ((if p (bucket_of c) then uc_value c else 0) + counted p t)%Z.
Proof.
  intros Hi. unfold counted, select, rows.
  rewrite (sum_values_perm _ (List.filter (fun c => p (bucket_of c)) (c :: (map_to_list t).*2))).
  - simpl. destruct (p (bucket_of c)); simpl; lia.
  - apply filter_perm. by rewrite map_to_list_insert.
Qed.

Lemma counted_add p t i c delta :
  t !! i = Some c ->
  counted p (<[i := add_usage delta c]> t) =
    (counted p t + if p (bucket_of c) then delta else 0)%Z.
Proof.
  intros Hi. rewrite <- (insert_delete_eq t). rewrite counted_new by apply lookup_delete_eq.
  rewrite <- (insert_delete_id t i c Hi) at 2. rewrite counted_new by apply lookup_delete_eq.
  change (bucket_of (add_usage delta c)) with (bucket_of c). simpl.
  destruct (p (bucket_of c)); lia.
Qed.

(** ** The counters hold the log *)

Record meter_rep (d : Db) (log : list Recording) : Prop := {
  rep_sum : forall p, counted p (usage_of d) = log_sum p log;
  rep_pos : forall i c, usage_of d !! i = Some c -> (1 <= uc_value c)%Z;
  rep_log : Forall (fun r => 1 <= rec_delta r)%Z log }.

Definition is_bucket (b b' : bucket) : bool := bool_decide (b' = b).

Lemma same_bucket_is t m day c : same_bucket t m day c = is_bucket (t, m, day) (bucket_of c).
Proof.
  unfold same_bucket, is_bucket, uq_bucket, bucket_of. apply bool_decide_ext.
  split; [by intros [= -> -> ->]|by intros [= -> -> ->]].
Qed.

(** What is found under one bucket. *)
Lemma bucket_rows d t m day :
  db_ok d = true ->
  match select (same_bucket t m day) (usage_of d) with
  | [] => counted (is_bucket (t, m, day)) (usage_of d) = 0%Z /\
          forall i c, usage_of d !! i = Some c -> uq_bucket c ≠ Some (t, m, day)
  | c :: _ => (exists i, usage_of d !! i = Some c) /\ bucket_of c = (t, m, day) /\
              counted (is_bucket (t, m, day)) (usage_of d) = uc_value c
  end.
Proof.
  intros Hok. assert (Hu : unique_by uq_bucket (usage_of d) = true).
  { unfold db_ok, core_ok, saas_ok in Hok.
    by split_ok. }
  rewrite unique_by_spec in Hu.
  assert (He : select (fun c => is_bucket (t, m, day) (bucket_of c)) (usage_of d) =
               select (same_bucket t m day) (usage_of d)).
  { apply select_ext. intros c. by rewrite same_bucket_is. }
  unfold counted. rewrite He. clear He.
  destruct (select (same_bucket t m day) (usage_of d)) as [|c l] eqn:E.
  - split; [done|]. intros i c Hi Hb.
    assert (Hc : c ∈ select (same_bucket t m day) (usage_of d)).
    { apply elem_of_select. split; [by exists i|]. by apply bool_decide_eq_true. }
    rewrite E in Hc. by apply not_elem_of_nil in Hc.
  - assert (Hc : c ∈ select (same_bucket t m day) (usage_of d)) by (rewrite E; set_solver).
    apply elem_of_select in Hc as [[i Hi] Hb]. split; [by exists i|].
    pose proof Hb as Hb'. apply bool_decide_eq_true in Hb. split; [unfold bucket_of; unfold uq_bucket in Hb; congruence|].
    assert (Hs : select (same_bucket t m day) (usage_of d) = [c]).
    { apply select_unique with (i := i); [done..|]. intros j b Hj Hbj.
      apply bool_decide_eq_true in Hbj. by apply (Hu j i b c (t, m, day)). }
    rewrite E in Hs. injection Hs as ->. simpl. lia.
Qed.

(** ** Writing a counter *)

Definition put_usage (i : uuid) (c : UsageCounter) (d : Db) : Db :=
  t_set (<[i := c]> (usage_of d)) d.

Lemma put_usage_ok i c d :
  (forall j b, j ≠ i -> usage_of d !! j = Some b -> uq_bucket b ≠ uq_bucket c) ->
  (0 <= uc_value c)%Z -> db_ok d = true -> db_ok (put_usage i c d) = true.
Proof.
  intros Hu Hc. unfold db_ok, core_ok, saas_ok, put_usage. simpl. intros H.
  split_ok. join_ok; try assumption.
  - apply unique_by_insert; [assumption|]. intros k Hk j b Hj Hb Hkb. apply (Hu j b Hj Hb). congruence.
  - apply all_rows_insert; [assumption|by apply Z.leb_le].
Qed.

Lemma put_usage_ranges i c d :
  int64 (uc_value c) = true -> db_ranges d = true -> db_ranges (put_usage i c d) = true.
Proof.
  intros Hc. unfold db_ranges, core_ranges, put_usage. simpl. intros H.
  split_ok. join_ok; try assumption.
  by apply all_rows_insert.
Qed.

Lemma add_usage_ok i c delta d :
  usage_of d !! i = Some c -> (0 <= uc_value c + delta)%Z -> db_ok d = true ->
  db_ok (put_usage i (add_usage delta c) d) = true.
Proof.
  intros Hi Hc Hok. apply put_usage_ok; [|done|done]. intros j b Hj Hb Hk.
  assert (Hu : unique_by uq_bucket (usage_of d) = true).
  { unfold db_ok, core_ok, saas_ok in Hok.
    by split_ok. }
  rewrite unique_by_spec in Hu. by apply Hj, (Hu j i b c (bucket_of c)).
Qed.

Definition fits (z : Z) : Prop := (z < 2 ^ 63)%Z.

Lemma fits_int64 z : (1 <= z)%Z -> fits z -> int64 z = true.
Proof. unfold fits, int64. intros. apply andb_true_intro. split; [apply Z.leb_le|apply Z.ltb_lt]; lia. Qed.

Section Upsert.
Context (row : UsageCounter) (s : St).
Hypothesis Hn : no_rivals (env s).
Hypothesis Hk : Keyed (R:=UsageCounter) (db s).
Hypothesis Hpos : forall i c, usage_of (db s) !! i = Some c -> (1 <= uc_value c)%Z.
Hypothesis Hrow : (1 <= uc_value row)%Z.

Let total : Z := counted (is_bucket (bucket_of row)) (usage_of (db s)).

Lemma rivals_alone : (rivals s).1 = Ok tt /\ db (rivals s).2 = db s /\ aborted (rivals s).2 = aborted s.
Proof. split; [done|]. simpl. split; [apply Hn|done]. Qed.

(** A recording with room for it succeeds. *)
Lemma upsert_fits :
  aborted s = false -> db_ok (db s) = true -> db_ranges (db s) = true ->
  fits (total + uc_value row) -> usage_of (db s) !! uc_id row = None ->
  exists s1, upsert_usage row s = (Ok tt, s1) /\ aborted s1 = false /\
    db_ok (db s1) = true /\ db_ranges (db s1) = true.
Proof.
  intros Ha Hok Hr Hfit Hfresh. destruct rivals_alone as (E1 & E2 & E3). rewrite Ha in E3.
  unfold upsert_usage. erewrite bind_Ok by (by apply flush_run).
  destruct (rivals s) as [r s1] eqn:Es. simpl in *. subst r. erewrite bind_Ok by exact Es.
  erewrite bind_Ok by (by apply query_run). rewrite E2.
  pose proof (bucket_rows (db s) (uc_tenant_id row) (uc_metric_key row) (uc_bucket row) Hok) as Hb.
  change (t_get (db s)) with (usage_of (db s)). destruct (select _ _) as [|c l].
  - destruct Hb as [H0 Hnone]. exists (st_db (t_put row) s1).
    assert (Hok' : db_ok (t_put row (db s)) = true).
    { apply put_usage_ok; [|lia|done]. intros j b _ Hj. by apply (Hnone j). }
    assert (Hr' : db_ranges (t_put row (db s)) = true).
    { apply put_usage_ranges; [|done]. apply fits_int64; [done|]. unfold total, bucket_of in Hfit.
      rewrite H0 in Hfit. done. }
    unfold insert_row. rewrite E3, E2. simpl. unfold usage_of in Hfresh. simpl in Hfresh.
    rewrite Hfresh. split; [apply flush_run; simpl; by rewrite ?E2|].
    simpl. by rewrite E2.
  - destruct Hb as ([i Hi] & Hb & Hc). assert (Hid : uc_id c = i) by (by apply Hk).
    exists (st_db (put_usage i (add_usage (uc_value row) c)) s1).
    assert (Hok' : db_ok (put_usage i (add_usage (uc_value row) c) (db s)) = true)
      by (apply add_usage_ok; [done|specialize (Hpos _ _ Hi); lia|done]).
    assert (Hr' : db_ranges (put_usage i (add_usage (uc_value row) c) (db s)) = true).
    { apply put_usage_ranges; [|done]. apply fits_int64; simpl; [specialize (Hpos _ _ Hi); lia|].
      unfold total, bucket_of in Hfit. by rewrite Hc in Hfit. }
    rewrite Hid. erewrite bind_Ok by (apply (upd_run s1 i c); by rewrite E2).
    split; [apply flush_run; simpl; by rewrite ?E2|]. simpl. by rewrite E2.
Qed.

(** What a successful recording adds. *)
Lemma upsert_adds s1 :
  upsert_usage row s = (Ok tt, s1) ->
  (forall p, counted p (usage_of (db s1)) =
             (counted p (usage_of (db s)) + if p (bucket_of row) then uc_value row else 0)%Z) /\
  (forall i c, usage_of (db s1) !! i = Some c -> (1 <= uc_value c)%Z) /\
  Keyed (R:=UsageCounter) (db s1).
Proof.
  intros H. destruct rivals_alone as (E1 & E2 & E3). unfold upsert_usage in H.
  apply bind_inv_Ok in H as (u & s2 & Hf & H). pose proof Hf as (_ & _ & _ & -> & Ha & _ & Hok)%flush_inv.
  apply bind_inv_Ok in H as (u' & s2 & Hs & H). rewrite Hs in E1, E2, E3. simpl in *.
  erewrite bind_Ok in H by (apply query_run; by rewrite E3). rewrite E2 in H.
  pose proof (bucket_rows (db s) (uc_tenant_id row) (uc_metric_key row) (uc_bucket row) Hok) as Hb.
  change (t_get (db s)) with (usage_of (db s)) in H. destruct (select _ _) as [|c l].
  - apply insert_row_Ok in H as (-> & _ & Hfresh & _). rewrite E2 in Hfresh. cbn [db st_db]. rewrite E2.
    change (usage_of (t_put row (db s))) with (<[uc_id row := row]> (usage_of (db s))).
    split; [intros p; rewrite counted_new by exact Hfresh; lia|].
    split; intros i c; [|change (t_get (t_put row (db s))) with (<[uc_id row := row]> (usage_of (db s)))];
      rewrite lookup_insert; case_decide; [by intros [= <-]|apply Hpos|by intros [= <-]|apply Hk].
  - destruct Hb as ([i Hi] & Hb & Hc). assert (Hid : uc_id c = i) by (by apply Hk). rewrite Hid in H.
    erewrite bind_Ok in H by (apply (upd_run s2 i c); by rewrite E2).
    pose proof H as (_ & _ & _ & -> & _)%flush_inv. cbn [db st_db]. rewrite E2.
    assert (Hu : usage_of (put_usage i (add_usage (uc_value row) c) (db s)) =
                 <[i := add_usage (uc_value row) c]> (usage_of (db s))) by done.
    unfold put_usage in Hu. change (t_get (db s)) with (usage_of (db s)). rewrite Hu.
    split; [intros p; rewrite (counted_add p _ i c) by done; by rewrite Hb|].
    split; intros j b.
    + rewrite lookup_insert. case_decide; [|apply Hpos]. intros [= <-]. simpl.
      specialize (Hpos _ _ Hi). lia.
    + change (usage_of (put_usage i (add_usage (uc_value row) c) (db s)) !! j = Some b -> uc_id b = j).
      unfold put_usage. rewrite Hu, lookup_insert. case_decide; [|apply Hk]. intros [= <-]. simpl. congruence.
Qed.
End Upsert.

(** ** Calls, and what the log answers *)

Inductive meter_call : Type :=
| CRecord (ctx : TenantContext) (metric : string) (delta : Z) (at_ : option datetime)
| CUsage (ctx : TenantContext) (metric : string) (since until : option Z)
| CSummary (ctx : TenantContext) (since until : option Z).
Inductive meter_answer : Type :=
| ARecorded
| ATotal (total : Z)
| ATotals (totals : gmap string Z).

Definition call_ctx (c : meter_call) : TenantContext :=
  match c with CRecord ctx _ _ _ | CUsage ctx _ _ _ | CSummary ctx _ _ => ctx end.

(** A call in a unit of work of its own. *)
Definition meter_op (self : MeteringService) (c : meter_call) : SM meter_answer :=
  match c with
  | CRecord _ metric delta at_ => record_usage self metric delta at_ ;;; ret ARecorded
  | CUsage _ metric since until => z <- usage_total self metric since until ;; ret (ATotal z)
  | CSummary _ since until => m <- usage_summary self since until ;; ret (ATotals m)
  end.
Definition meter_body (access : option Resolver) (c : meter_call) : SM meter_answer :=
  self <- new_metering_service (call_ctx c) access ;; meter_op self c.
Definition meter (access : option Resolver) (c : meter_call) : SM meter_answer :=
  with_uow (meter_body access c).

Definition in_days (since until : option Z) (day : Z) : bool :=
  match since with Some d => (d <=? day)%Z | None => true end
  && match until with Some d => (day <=? d)%Z | None => true end.

Definition tenant_days (tenant : uuid) (since until : option Z) (b : bucket) : bool :=
  bool_decide (b.1.1 = tenant) && in_days since until b.2.
Definition metric_days (tenant : uuid) (metric : string) (since until : option Z) (b : bucket) : bool :=
  bool_decide (b.1.2 = metric) && tenant_days tenant since until b.

Definition add_recording (tenant : uuid) (since until : option Z) (acc : gmap string Z) (r : Recording)
    : gmap string Z :=
  if tenant_days tenant since until (rec_bucket r)
  then <[rec_metric r := (default 0 (acc !! rec_metric r) + rec_delta r)%Z]> acc
  else acc.
Definition log_totals (tenant : uuid) (since until : option Z) (log : list Recording) : gmap string Z :=
  foldl (add_recording tenant since until) ∅ log.

Definition metric_ok (metric : string) : bool :=
  negb (str_empty metric || Nat.ltb MAX_METRIC_KEY_LEN (String.length metric)).

(** One call on the log. [clash]: the identifier drawn for a counter is in use. *)
Inductive meter_spec (en : Env) (clash : Prop) (denied : TenantContext -> Prop) (log : list Recording)
    : meter_call -> res exn meter_answer -> list Recording -> Prop :=
| spec_record ctx tenant metric delta at_ t :
    c_tenant_id ctx = Some tenant -> metric_ok metric = true -> (1 <= delta)%Z ->
    (at_ = Some t \/ at_ = None /\ exists k, t = env_now en k) ->
    meter_spec en clash denied log (CRecord ctx metric delta at_) (Ok ARecorded)
      (log ++ [mkRecording tenant metric (date_of t) delta])
| spec_usage ctx tenant metric since until :
    c_tenant_id ctx = Some tenant ->
    meter_spec en clash denied log (CUsage ctx metric since until)
      (Ok (ATotal (log_sum (metric_days tenant metric since until) log))) log
| spec_summary ctx tenant since until :
    c_tenant_id ctx = Some tenant ->
    meter_spec en clash denied log (CSummary ctx since until)
      (Ok (ATotals (log_totals tenant since until log))) log
| spec_no_tenant c e : c_tenant_id (call_ctx c) = None -> meter_spec en clash denied log c (Raise e) log
| spec_invalid ctx metric delta at_ e :
    metric_ok metric = false \/ (delta < 1)%Z ->
    meter_spec en clash denied log (CRecord ctx metric delta at_) (Raise e) log
| spec_full ctx tenant metric delta at_ t e :
    c_tenant_id ctx = Some tenant ->
    (at_ = Some t \/ at_ = None /\ exists k, t = env_now en k) ->
    ~ fits (log_sum (is_bucket (tenant, metric, date_of t)) log + delta) ->
    meter_spec en clash denied log (CRecord ctx metric delta at_) (Raise e) log
| spec_clash ctx metric delta at_ e :
    clash -> meter_spec en clash denied log (CRecord ctx metric delta at_) (Raise e) log
| spec_denied ctx since until e : denied ctx ->
    meter_spec en clash denied log (CSummary ctx since until) (Raise e) log.

(** ** Sums by metric *)

Definition metric_sum (k : string) (l : list UsageCounter) : Z :=
  sum_values (List.filter (fun c => bool_decide (uc_metric_key c = k)) l).

Lemma metric_sum_nonneg k l : Forall (fun c => 1 <= uc_value c)%Z l -> (0 <= metric_sum k l)%Z.
Proof.
  unfold metric_sum. induction 1 as [|c l Hc _ IH]; simpl; [done|].
  case_bool_decide; simpl; lia.
Qed.

Lemma totals_lookup l k acc :
  Forall (fun c => 1 <= uc_value c)%Z l ->
  foldl add_metric acc l !! k =
    if (0 <? metric_sum k l)%Z then Some (default 0 (acc !! k) + metric_sum k l)%Z else acc !! k.
Proof.
  intros Hl. revert acc. induction Hl as [|c l Hc Hl IH]; intros acc; [done|]. simpl.
  rewrite IH. pose proof (metric_sum_nonneg k l Hl) as H0. unfold add_metric, metric_sum in *. simpl.
  rewrite lookup_insert. destruct (decide (uc_metric_key c = k)) as [->|Hne].
  - rewrite bool_decide_true by done. simpl. set (z := sum_values _) in *.
    rewrite (proj2 (Z.ltb_lt 0 (uc_value c + z))) by lia.
    destruct (0 <? z)%Z eqn:E; [|apply Z.ltb_ge in E]; f_equal; simpl; lia.
  - by rewrite bool_decide_false.
Qed.

Lemma log_totals_lookup tenant since until log k acc :
  Forall (fun r => 1 <= rec_delta r)%Z log ->
  foldl (add_recording tenant since until) acc log !! k =
    let z := log_sum (metric_days tenant k since until) log in
    if (0 <? z)%Z then Some (default 0 (acc !! k) + z)%Z else acc !! k.
Proof.
  intros Hl. revert acc. induction Hl as [|r l Hr Hl IH]; intros acc; [done|]. simpl in *.
  rewrite IH. pose proof (log_sum_nonneg (metric_days tenant k since until) l Hl) as H0.
  set (z := log_sum _ l) in *. unfold add_recording, metric_days. cbn [rec_bucket fst snd].
  destruct (tenant_days tenant since until (rec_bucket r)); [|by rewrite andb_false_r].
  rewrite lookup_insert. destruct (decide (rec_metric r = k)) as [->|Hne].
  - rewrite bool_decide_true by done. simpl. rewrite (proj2 (Z.ltb_lt 0 (rec_delta r + z))) by lia.
    destruct (0 <? z)%Z eqn:E; [|apply Z.ltb_ge in E]; f_equal; simpl; lia.
  - by rewrite bool_decide_false.
Qed.

(** ** One call *)

Record meter_inv (s : St) (log : list Recording) : Prop := {
  mi_alone : no_rivals (env s);
  mi_ok : db_ok (committed s) = true;
  mi_ranges : db_ranges (committed s) = true;
  mi_keyed : Keyed (R:=UsageCounter) (committed s);
  mi_rep : meter_rep (committed s) log }.

Definition read_denied (access : option Resolver) (s : St) (ctx : TenantContext) : Prop :=
  forall u s', guard_require access ctx USAGE_READ (uow_enter s) ≠ (Ok u, s').
Definition id_clash (s : St) : Prop := is_Some (usage_of (committed s) !! env_uuid7 (env s) (n_uuid s)).

(** Calls that only read leave the committed rows. *)
Lemma uow_reads {A} (body : SM A) s :
  steps quiet body -> no_rivals (env s) ->
  committed (with_uow body s).2 = committed s /\
  forall a, (with_uow body s).1 = Ok a -> exists s1, body (uow_enter s) = (Ok a, s1).
Proof.
  intros Hq Hn. destruct (with_uow_cases eq body s) as [(a & s1 & Eb & _ & _ & _ & E1 & E2 & _)|(e & E1 & E2 & _)].
  - by apply (quiet_steps_evo eq).
  - done.
  - pose proof (quiet_db _ _ _ _ Hq Eb) as (_ & Hd & _). rewrite E2, Hd. split; [done|].
    intros b. rewrite E1. intros [= <-]. by exists s1.
  - rewrite E2. split; [done|]. intros a. by rewrite E1.
Qed.

Lemma inv_same s s' log :
  meter_inv s log -> env s' = env s -> committed s' = committed s -> meter_inv s' log.
Proof. intros [] He Hc. split; rewrite ?He, ?Hc; done. Qed.

Lemma counted_ext p (q : UsageCounter -> bool) t :
  (forall c, q c = p (bucket_of c)) -> sum_values (select q t) = counted p t.
Proof. intros H. unfold counted. by rewrite (select_ext q (fun c => p (bucket_of c))). Qed.

Section Call.
Context (access : option Resolver) `{!QuietAccess access} (s : St) (log : list Recording).
Hypothesis Hinv : meter_inv s log.

Lemma meter_body_tenant c t :
  c_tenant_id (call_ctx c) = Some t ->
  meter_body access c = meter_op (mkMetering (call_ctx c) t access) c.
Proof. intros Ht. unfold meter_body, new_metering_service. by rewrite Ht. Qed.

Lemma meter_body_none c :
  c_tenant_id (call_ctx c) = None ->
  meter_body access c = raise (EDomain InvariantViolationError "metering requires a tenant context").
Proof. intros Ht. unfold meter_body, new_metering_service. by rewrite Ht. Qed.

Lemma meter_body_evo c : steps (evo anything) (meter_body access c).
Proof.
  destruct (c_tenant_id (call_ctx c)) as [t|] eqn:Et.
  - rewrite (meter_body_tenant c t Et). unfold meter_op.
    pose proof (evo_record anything).
    pose proof (fun s m a b => quiet_steps_evo anything _ (quiet_usage s m a b)).
    assert (forall ctx a b, steps (evo anything) (usage_summary (mkMetering ctx t access) a b)).
    { intros. by apply quiet_steps_evo, quiet_summary. }
    steps_walk.
  - rewrite (meter_body_none c Et). steps_walk.
Qed.

Lemma meter_env c : env (meter access c s).2 = env s.
Proof. apply uow_env. by destruct (meter_body_evo c (uow_enter s)) as [-> _]. Qed.

(** Calls that only read. *)
Lemma meter_reads c : steps quiet (meter_body access c) -> meter_inv (meter access c s).2 log.
Proof.
  intros Hq. apply (inv_same s); [done|apply meter_env|].
  destruct (uow_reads _ s Hq) as [E _]; [apply Hinv|]. exact E.
Qed.

Lemma no_tenant_spec c :
  c_tenant_id (call_ctx c) = None ->
  meter_inv (meter access c s).2 log /\ exists e, (meter access c s).1 = Raise e.
Proof.
  intros Ht. pose proof (meter_body_none c Ht) as Hb.
  split; [apply meter_reads; rewrite Hb; steps_walk|]. unfold meter. rewrite Hb. by eexists.
Qed.

Lemma usage_spec ctx t metric since until :
  c_tenant_id ctx = Some t ->
  meter_inv (meter access (CUsage ctx metric since until) s).2 log /\
  (meter access (CUsage ctx metric since until) s).1 =
    Ok (ATotal (log_sum (metric_days t metric since until) log)).
Proof.
  intros Ht. pose proof (meter_body_tenant (CUsage ctx metric since until) t Ht) as Hb.
  pose proof quiet_usage. destruct Hinv as [Hn Hok Hr Hk [Hs _ _]].
  split; [apply meter_reads; rewrite Hb; unfold meter_op; steps_walk|].
  unfold meter. rewrite Hb. unfold meter_op, usage_total, with_uow.
  rewrite (bind_Ok _ _ _ (ATotal (log_sum (metric_days t metric since until) log)) (uow_enter s)).
  - unfold session_commit, bind. by rewrite flush_run.
  - erewrite bind_Ok by (erewrite bind_Ok by (by apply query_run); reflexivity).
    unfold ret. do 3 f_equal. rewrite <- Hs. apply counted_ext. intros c.
    unfold metric_days, tenant_days, in_days, in_window. simpl.
    destruct (bool_decide (uc_metric_key c = metric)), (bool_decide (uc_tenant_id c = t)); done.
Qed.

Lemma totals_of_log t since until :
  foldl add_metric ∅ (select (fun c => bool_decide (uc_tenant_id c = t) && in_window since until c)
                        (usage_of (committed s))) = log_totals t since until log.
Proof.
  destruct Hinv as [_ _ _ _ [Hs Hp Hl]]. apply map_eq. intros k.
  assert (Hf : Forall (fun c => 1 <= uc_value c)%Z
    (select (fun c => bool_decide (uc_tenant_id c = t) && in_window since until c) (usage_of (committed s)))).
  { apply Forall_forall. intros c [[i Hi] _]%elem_of_select. by apply (Hp i). }
  rewrite totals_lookup by done. unfold log_totals. rewrite log_totals_lookup by done. simpl.
  rewrite <- Hs. unfold metric_sum, select. rewrite filter_twice.
  rewrite <- (counted_ext (metric_days t k since until)
    (fun c => (bool_decide (uc_tenant_id c = t) && in_window since until c) && bool_decide (uc_metric_key c = k)));
    [done|].
  intros c. unfold metric_days, tenant_days, in_days, in_window. simpl.
  by destruct (bool_decide (uc_metric_key c = k)); rewrite ?andb_true_r, ?andb_false_r.
Qed.

Lemma summary_spec ctx t since until :
  c_tenant_id ctx = Some t ->
  meter_inv (meter access (CSummary ctx since until) s).2 log /\
  (forall a, (meter access (CSummary ctx since until) s).1 = Ok a -> a = ATotals (log_totals t since until log)) /\
  (forall e, (meter access (CSummary ctx since until) s).1 = Raise e -> read_denied access s ctx).
Proof.
  intros Ht. pose proof (meter_body_tenant (CSummary ctx since until) t Ht) as Hb.
  assert (Hq : steps quiet (meter_body access (CSummary ctx since until))).
  { rewrite Hb. unfold meter_op. apply steps_bind; [apply _|by apply quiet_summary|steps_walk]. }
  split; [by apply meter_reads|]. split.
  2:{ intros e He u s1 Eg.
      pose proof (quiet_db _ _ _ _ (quiet_guard access ctx USAGE_READ) Eg) as (_ & Hd & _ & Hab & _).
      revert He. unfold meter, with_uow. rewrite Hb. unfold meter_op, usage_summary.
      erewrite bind_Ok; [|erewrite bind_Ok; [reflexivity|]].
      2:{ erewrite bind_Ok by exact Eg. by erewrite bind_Ok by (by apply query_run). }
      unfold session_commit, bind. by rewrite flush_run; [|by rewrite Hab|rewrite Hd; apply Hinv..]. }
  intros a Ha.
  destruct (uow_reads _ s Hq) as [_ H]; [apply Hinv|]. destruct (H a Ha) as [s1 E]. rewrite Hb in E.
  unfold meter_op, usage_summary in E. apply bind_inv_Ok in E as (m & s2 & E & Er).
  apply bind_inv_Ok in E as (u & s3 & Eg & E).
  pose proof (quiet_db _ _ _ _ (quiet_guard access ctx USAGE_READ) Eg) as (_ & Hd & _ & Hab & _).
  erewrite bind_Ok in E by (by apply query_run). rewrite Hd in E. unfold ret in E, Er.
  injection E as <- <-. injection Er as <- _. f_equal. apply totals_of_log.
Qed.

Definition moment (at_ : option datetime) (t : datetime) : Prop :=
  at_ = Some t \/ at_ = None /\ exists k, t = env_now (env s) k.

(** Up to its upsert a recording only reads the clock and draws an identifier. *)
Lemma record_prefix self metric delta at_ :
  metric_ok metric = true -> (1 <= delta)%Z ->
  exists t s1, moment at_ t /\ quiet (uow_enter s) s1 /\
    record_usage self metric delta at_ (uow_enter s) =
    upsert_usage (mkUsageCounter (env_uuid7 (env s) (n_uuid s)) (mts_tenant self) metric (date_of t) delta)
      (new_uuid7 s1).2.
Proof.
  intros Hm Hd. unfold record_usage. unfold metric_ok in Hm. apply negb_true_iff in Hm. rewrite Hm.
  rewrite (proj2 (Z.ltb_ge delta 1)) by done. destruct at_ as [t|].
  - exists t, (uow_enter s). split; [by left|]. split; [reflexivity|done].
  - exists (env_now (env s) (n_now s)), (now (uow_enter s)).2.
    split; [right; eauto|]. split; [apply quiet_now|done].
Qed.

Lemma record_valid self metric delta at_ s0 s1 :
  record_usage self metric delta at_ s0 = (Ok tt, s1) -> metric_ok metric = true /\ (1 <= delta)%Z.
Proof.
  unfold record_usage, metric_ok. intros H. apply bind_inv_Ok in H as (u & s2 & Hm & H).
  apply bind_inv_Ok in H as (u' & s3 & Hd & _). unfold guardM in Hm, Hd.
  destruct (_ || _); [done|]. destruct (Z.ltb_spec delta 1); [done|]. done.
Qed.

(** The state in which the upsert runs. *)
Lemma upsert_ready s1 :
  quiet (uow_enter s) s1 ->
  let s2 := (new_uuid7 s1).2 in
  no_rivals (env s2) /\ db s2 = committed s /\ aborted s2 = false.
Proof.
  intros (He & Hd & _ & Ha & _). simpl. rewrite He, Hd, Ha. split; [apply Hinv|done].
Qed.

Lemma record_Ok ctx t metric delta at_ s1 :
  record_usage (mkMetering ctx t access) metric delta at_ (uow_enter s) = (Ok tt, s1) ->
  exists m, moment at_ m /\ metric_ok metric = true /\ (1 <= delta)%Z /\
    Keyed (R:=UsageCounter) (db s1) /\
    meter_rep (db s1) (log ++ [mkRecording t metric (date_of m) delta]).
Proof.
  intros H. destruct (record_valid _ _ _ _ _ _ H) as [Hm Hd].
  destruct (record_prefix (mkMetering ctx t access) metric delta at_ Hm Hd) as (m & s2 & Hat & Hq & E).
  rewrite E in H. destruct (upsert_ready s2 Hq) as (Hn & Hdb & _). destruct Hinv as [_ _ _ Hk [Hs Hp Hl]].
  rewrite <- Hdb in Hk, Hs, Hp.
  pose proof (fun Hrow => upsert_adds _ _ Hn Hk Hp Hrow s1 H) as HA.
  destruct (HA Hd) as (A1 & A2 & A3). exists m.
  split; [done|]. split; [done|]. split; [done|]. split; [done|]. split.
  - intros p. rewrite A1, Hs, log_sum_app. simpl. by rewrite Z.add_0_r.
  - done.
  - apply Forall_app. split; [done|]. by constructor.
Qed.

Lemma record_refused ctx t metric delta at_ e :
  c_tenant_id ctx = Some t -> (meter access (CRecord ctx metric delta at_) s).1 = Raise e ->
  meter_spec (env s) (id_clash s) (read_denied access s) log (CRecord ctx metric delta at_) (Raise e) log.
Proof.
  intros Ht He. destruct (metric_ok metric) eqn:Hm; [|apply spec_invalid; by left].
  destruct (Z.lt_ge_cases delta 1) as [Hd|Hd]; [apply spec_invalid; by right|].
  destruct (record_prefix (mkMetering ctx t access) metric delta at_ Hm Hd) as (m & s2 & Hat & Hq & E).
  destruct (Z.lt_ge_cases (log_sum (is_bucket (t, metric, date_of m)) log + delta) (2 ^ 63)) as [Hfit|Hfull];
    [|apply (spec_full _ _ _ _ _ t _ _ _ m); [done|done|]; unfold fits; lia].
  destruct (usage_of (committed s) !! env_uuid7 (env s) (n_uuid s)) as [c|] eqn:Hid;
    [apply spec_clash; unfold id_clash; by rewrite Hid|]. exfalso.
  destruct (upsert_ready s2 Hq) as (Hn & Hdb & Hab). destruct Hinv as [_ Hok Hr Hk [Hs Hp Hl]].
  rewrite <- Hdb in Hk, Hs, Hp, Hok, Hr, Hid. rewrite <- Hs in Hfit.
  destruct (upsert_fits (mkUsageCounter (env_uuid7 (env s) (n_uuid s)) t metric (date_of m) delta) _
    Hn Hk Hp Hd Hab Hok Hr Hfit Hid) as (s3 & E3 & Ha3 & Hok3 & Hr3).
  revert He. unfold meter, with_uow. rewrite (meter_body_tenant (CRecord ctx metric delta at_) t Ht).
  unfold meter_op. rewrite (bind_Ok _ _ _ ARecorded s3).
  - unfold session_commit, bind. by rewrite flush_run.
  - cbn [call_ctx]. by erewrite bind_Ok by (rewrite E; exact E3).
Qed.

Lemma record_spec ctx t metric delta at_ :
  c_tenant_id ctx = Some t ->
  exists log', meter_spec (env s) (id_clash s) (read_denied access s) log (CRecord ctx metric delta at_)
    (meter access (CRecord ctx metric delta at_) s).1 log' /\
    meter_inv (meter access (CRecord ctx metric delta at_) s).2 log'.
Proof.
  intros Ht. set (c := CRecord ctx metric delta at_).
  pose proof (meter_body_tenant c t Ht) as Hb. pose proof (meter_env c) as He.
  destruct (with_uow_cases _ (meter_body access c) s (meter_body_evo c) (mi_alone _ _ Hinv))
    as [(a & s1 & Eb & Ha & Hr & Hok & E1 & E2 & _)|(e & E1 & E2 & _)].
  - rewrite Hb in Eb. unfold meter_op in Eb. apply bind_inv_Ok in Eb as ([] & s2 & Eb & Er).
    unfold ret in Er. injection Er as <- ->.
    destruct (record_Ok _ _ _ _ _ _ Eb) as (m & Hat & Hm & Hd & Hk & Hrep).
    exists (log ++ [mkRecording t metric (date_of m) delta]). unfold meter at 1. rewrite E1.
    split; [by apply spec_record|]. split; rewrite ?He; [apply Hinv|..]; unfold meter; by rewrite E2.
  - exists log. pose proof E1 as E1'. unfold meter at 1. rewrite E1.
    split; [by apply (record_refused ctx t)|]. by apply (inv_same s).
Qed.
End Call.

(** The counters are related to the log before and after every call, and the
    log explains its answer. *)
Lemma meter_simulates access `{!QuietAccess access} c s log :
  meter_inv s log ->
  exists log', meter_spec (env s) (id_clash s) (read_denied access s) log c (meter access c s).1 log' /\
    meter_inv (meter access c s).2 log'.
Proof.
  intros Hi. destruct (c_tenant_id (call_ctx c)) as [t|] eqn:Et.
  - destruct c as [ctx m d a|ctx m since until|ctx since until]; simpl in Et.
    + by eapply record_spec.
    + destruct (usage_spec access s log Hi ctx t m since until Et) as [H1 H2]. exists log.
      rewrite H2. split; [by apply spec_usage|done].
    + destruct (summary_spec access s log Hi ctx t since until Et) as (H1 & H2 & H3). exists log.
      split; [|done]. destruct (meter access (CSummary ctx since until) s).1 as [x|e] eqn:E.
      * rewrite (H2 x eq_refl). by apply spec_summary.
      * apply spec_denied. by apply (H3 e).
  - destruct (no_tenant_spec access s log Hi c Et) as [H1 [e He]]. exists log. rewrite He.
    split; [by apply spec_no_tenant|done].
Qed.

(** Coverage: the rows of saas.entitlements follow the subscription events of
    billing, and limits hold at the time something is created. *)

(** ** The abstract state: what each tenant is covered by *)

Record Coverage : Set := mkCoverage {
  cv_plan : string; cv_end : option datetime; cv_canceled : bool }.

Definition covered (t : datetime) (c : Coverage) : option string :=
  if cv_canceled c then
    match cv_end c with
    | None => None
    | Some e => if (e <=? t)%Z then None else Some (cv_plan c)
    end
  else Some (cv_plan c).

Inductive plan_change : Set :=
| PlanActivated (plan : string) (period_end : option datetime)
| PlanCanceled
| PlanEnded (plan : string) (ended_at : datetime).

Definition cover_change (c : option Coverage) (ch : plan_change) : option Coverage :=
  match ch, c with
  | PlanActivated p e, _ => Some (mkCoverage p e false)
  | PlanCanceled, Some c => Some (mkCoverage (cv_plan c) (cv_end c) true)
  | PlanEnded p at_, Some c =>
      if bool_decide (cv_plan c = p) then Some (mkCoverage p (ended_end (cv_end c) at_) true) else Some c
  | _, None => None
  end.

(** ** The rows *)

Definition entitled_of (d : Db) : gmap N TenantEntitlement := s_tenant_entitlements (saas_of d).
Definition row_of (d : Db) (t : uuid) : option TenantEntitlement :=
  head (select (fun r => bool_decide (te_tenant_id r = t)) (entitled_of d)).
Definition cover_of (r : TenantEntitlement) : Coverage :=
  mkCoverage (te_plan_code r) (te_current_period_end r) (te_canceled r).

Definition cover_rep (d : Db) (cov : uuid -> option Coverage) : Prop :=
  forall t, cover_of <$> row_of d t = cov t.

Lemma entitled_unique d i j a b :
  db_ok d = true -> entitled_of d !! i = Some a -> entitled_of d !! j = Some b ->
  te_tenant_id a = te_tenant_id b -> i = j.
Proof.
  intros Hok Hi Hj Ht. assert (Hu : unique_by uq_entitled (entitled_of d) = true).
  { unfold db_ok, core_ok, saas_ok in Hok.
    by split_ok. }
  rewrite unique_by_spec in Hu. apply (Hu i j a b (te_tenant_id a)); try done.
  unfold uq_entitled. by rewrite Ht.
Qed.

Lemma row_of_spec d t r :
  db_ok d = true ->
  row_of d t = Some r <-> exists i, entitled_of d !! i = Some r /\ te_tenant_id r = t.
Proof.
  intros Hok. unfold row_of. split.
  - intros H. assert (Hr : r ∈ select (fun r => bool_decide (te_tenant_id r = t)) (entitled_of d)).
    { destruct (select _ _); simpl in H; [done|]. injection H as ->. set_solver. }
    apply elem_of_select in Hr as [[i Hi] Ht]. exists i. by apply bool_decide_eq_true in Ht.
  - intros (i & Hi & Ht). rewrite (select_unique _ _ i r); [done|done|by apply bool_decide_eq_true|].
    intros j b Hj Hb. apply bool_decide_eq_true in Hb. apply (entitled_unique d j i b r); congruence.
Qed.

Lemma row_of_None d t :
  db_ok d = true -> row_of d t = None <-> forall i r, entitled_of d !! i = Some r -> te_tenant_id r ≠ t.
Proof.
  intros Hok. split.
  - intros H i r Hi Ht. assert (row_of d t = Some r) by (apply row_of_spec; eauto). congruence.
  - intros H. destruct (row_of d t) as [r|] eqn:E; [|done]. apply row_of_spec in E as (i & Hi & Ht); [|done].
    by destruct (H i r Hi).
Qed.

(** Writing the row of one tenant. *)
Definition put_entitled (i : uuid) (r : TenantEntitlement) (d : Db) : Db :=
  t_set (<[i := r]> (entitled_of d)) d.

Lemma put_entitled_ok i r d :
  (forall j b, j ≠ i -> entitled_of d !! j = Some b -> te_tenant_id b ≠ te_tenant_id r) ->
  db_ok d = true -> db_ok (put_entitled i r d) = true.
Proof.
  intros Hu. unfold db_ok, core_ok, saas_ok, put_entitled. simpl. intros H.
  split_ok. join_ok; try assumption.
  apply unique_by_insert; [assumption|]. unfold uq_entitled. intros k [= <-] j b Hj Hb [= Ht].
  by apply (Hu j b Hj Hb).
Qed.

Lemma row_of_put i r d t :
  (forall j b, j ≠ i -> entitled_of d !! j = Some b -> te_tenant_id b ≠ te_tenant_id r) ->
  (forall b, entitled_of d !! i = Some b -> te_tenant_id b = te_tenant_id r) ->
  db_ok d = true ->
  row_of (put_entitled i r d) t = if bool_decide (t = te_tenant_id r) then Some r else row_of d t.
Proof.
  intros Hother Hself Hok. pose proof (put_entitled_ok i r d Hother Hok) as Hok'.
  assert (Hl : forall j, entitled_of (put_entitled i r d) !! j =
                         if decide (i = j) then Some r else entitled_of d !! j).
  { intros j. apply lookup_insert. }
  case_bool_decide as Ht.
  - apply row_of_spec; [done|]. exists i. rewrite Hl. by rewrite decide_True.
  - destruct (row_of d t) as [b|] eqn:E.
    + apply row_of_spec in E as (j & Hj & Hb); [|done]. apply row_of_spec; [done|]. exists j.
      rewrite Hl, decide_False; [done|]. intros <-. apply Ht. rewrite <- Hb. by apply Hself.
    + apply row_of_None; [done|]. intros j b. rewrite Hl. case_decide; [intros [= <-]; congruence|].
      by apply row_of_None.
Qed.

(** ** Reading *)

Lemma current_row_run self s :
  aborted s = false -> current_row self s = (Ok (row_of (db s) (ens_tenant self)), s).
Proof.
  intros Ha. unfold current_row, repo_find, repo_select, row_of.
  erewrite bind_Ok by (erewrite bind_Ok by (by apply query_run); reflexivity).
  unfold ret, id. do 3 f_equal. apply select_ext. intros r. by rewrite andb_true_r.
Qed.

Lemma effective_plan_run self s :
  aborted s = false ->
  exists s', effective_plan_code self s =
    (Ok (row_of (db s) (ens_tenant self) ≫= (fun r => covered (env_now (env s) (n_now s)) (cover_of r))), s').
Proof.
  intros Ha. unfold effective_plan_code. erewrite bind_Ok by (by apply current_row_run).
  destruct (row_of (db s) (ens_tenant self)) as [r|]; [|by eexists]. simpl. unfold covered. simpl.
  destruct (te_canceled r); [|by eexists]. destruct (te_current_period_end r); by eexists.
Qed.

(** ** Writing *)

Definition cover_ready (s : St) : Prop :=
  aborted s = false /\ db_ok (db s) = true /\ db_ranges (db s) = true /\
  Keyed (R:=TenantEntitlement) (db s).

(** A state whose tenants are covered as before, but for one change. *)
Definition changed (t : uuid) (ch : plan_change) (d d' : Db) : Prop :=
  forall u, cover_of <$> row_of d' u =
    if bool_decide (u = t) then cover_change (cover_of <$> row_of d t) ch else cover_of <$> row_of d u.

Lemma changed_event_run self p s :
  exists s', entitlement_changed self p s = (Ok tt, s') /\ db s' = db s /\ aborted s' = aborted s.
Proof. eexists. split; [reflexivity|done]. Qed.

Lemma keyed_put i r d :
  te_id r = i -> Keyed (R:=TenantEntitlement) d -> Keyed (R:=TenantEntitlement) (put_entitled i r d).
Proof.
  intros Hi Hk j b. change (t_get (put_entitled i r d)) with (<[i := r]> (entitled_of d)).
  rewrite lookup_insert. case_decide; [|apply Hk]. intros [= <-]. by subst.
Qed.

(** The row of a tenant rewritten. *)
Lemma rewrite_row self r f s p :
  cover_ready s -> row_of (db s) (ens_tenant self) = Some r ->
  te_id (f r) = te_id r -> te_tenant_id (f r) = te_tenant_id r ->
  exists s', (upd (te_id r) f ;;; flush ;;; entitlement_changed self p) s = (Ok tt, s') /\ cover_ready s' /\
    forall u, row_of (db s') u = if bool_decide (u = ens_tenant self) then Some (f r) else row_of (db s) u.
Proof.
  intros (Ha & Hok & Hr & Hk) Hrow Hid Hten.
  pose proof Hrow as (i & Hi & Ht)%row_of_spec; [|done].
  assert (te_id r = i) as Hri by by apply Hk. rewrite Hri in *.
  set (d' := put_entitled i (f r) (db s)).
  assert (Hother : forall j b, j ≠ i -> entitled_of (db s) !! j = Some b ->
                     te_tenant_id b ≠ te_tenant_id (f r)).
  { intros j b Hj Hb Hx. apply Hj. apply (entitled_unique (db s) j i b r); congruence. }
  assert (Hok' : db_ok d' = true) by by apply put_entitled_ok.
  assert (Hr' : db_ranges d' = true) by done.
  set (s1 := st_db (put_entitled i (f r)) s).
  destruct (changed_event_run self p s1) as (s2 & E2 & D2 & A2). exists s2. split; [|split].
  - erewrite bind_Ok by (by apply (upd_run s i r)). erewrite bind_Ok by (by apply flush_run). exact E2.
  - split; [by rewrite A2|]. rewrite D2. split; [done|]. split; [done|]. by apply keyed_put.
  - intros u. rewrite D2. change (db s1) with d'. unfold d'.
    rewrite row_of_put; [by rewrite Hten, Ht|done| |done]. intros b Hb. congruence.
Qed.

Lemma mark_canceled_changes self s :
  cover_ready s -> exists s', mark_canceled self s = (Ok tt, s') /\ cover_ready s' /\
    changed (ens_tenant self) PlanCanceled (db s) (db s').
Proof.
  intros Hs. unfold mark_canceled. erewrite bind_Ok by (apply current_row_run; apply Hs).
  destruct (row_of (db s) (ens_tenant self)) as [r|] eqn:Er.
  - destruct (rewrite_row self r (fun e => set_entitled (te_plan_code e) (te_current_period_end e) true e)
      s (te_plan_code r) Hs Er eq_refl eq_refl) as (s' & E & Hs' & Hrows).
    exists s'. split; [exact E|]. split; [done|]. intros u. rewrite Hrows. case_bool_decide; [|done].
    by rewrite Er.
  - exists s. split; [done|]. split; [done|]. intros u. case_bool_decide as Hu; [|done]. subst u. by rewrite Er.
Qed.

Lemma end_plan_changes self p at_ s :
  cover_ready s -> exists s', end_plan self p at_ s = (Ok tt, s') /\ cover_ready s' /\
    changed (ens_tenant self) (PlanEnded p at_) (db s) (db s').
Proof.
  intros Hs. unfold end_plan. erewrite bind_Ok by (apply current_row_run; apply Hs).
  assert (Hkeep : cover_change (cover_of <$> row_of (db s) (ens_tenant self)) (PlanEnded p at_) =
                  (cover_of <$> row_of (db s) (ens_tenant self)) ->
                  changed (ens_tenant self) (PlanEnded p at_) (db s) (db s)).
  { intros Heq u. case_bool_decide as Hu; [by rewrite Heq, Hu|done]. }
  destruct (row_of (db s) (ens_tenant self)) as [r|] eqn:Er; [|exists s; auto].
  simpl in Hkeep. destruct (bool_decide_reflect (te_plan_code r = p)) as [Hp|Hp]; [|exists s; auto].
  destruct (rewrite_row self r (fun e => set_entitled (te_plan_code e)
      (ended_end (te_current_period_end e) at_) true e) s p Hs Er eq_refl eq_refl) as (s' & E & Hs' & Hrows).
  exists s'. split; [exact E|]. split; [done|]. intros u. rewrite Hrows. case_bool_decide; [|done].
  rewrite Er. simpl. rewrite bool_decide_true by done. by rewrite <- Hp.
Qed.

Lemma bind_bind {A B C} (m : SM A) (f : A -> SM B) (g : B -> SM C) s :
  bind (bind m f) g s = bind m (fun a => bind (f a) g) s.
Proof. unfold bind. by destruct (m s) as [[a|e] s1]. Qed.

Definition entitlement_clash (s : St) : Prop := is_Some (entitled_of (db s) !! env_uuid7 (env s) (n_uuid s)).

Lemma set_active_changes self p e s :
  cover_ready s -> (row_of (db s) (ens_tenant self) = None -> ~ entitlement_clash s) ->
  exists s', set_active_plan self p e s = (Ok tt, s') /\ cover_ready s' /\
    changed (ens_tenant self) (PlanActivated p e) (db s) (db s').
Proof.
  intros Hs Hc. unfold set_active_plan. erewrite bind_Ok by (apply current_row_run; apply Hs).
  destruct (row_of (db s) (ens_tenant self)) as [r|] eqn:Er.
  - destruct (rewrite_row self r (set_entitled p e false) s p Hs Er eq_refl eq_refl) as (s' & E & Hs' & Hrows).
    exists s'. split; [by rewrite bind_bind|]. split; [done|]. intros u. rewrite Hrows.
    by case_bool_decide.
  - destruct Hs as (Ha & Hok & Hr & Hk). set (i := env_uuid7 (env s) (n_uuid s)).
    set (r := mkTenantEntitlement i (ens_tenant self) p e false). set (d' := put_entitled i r (db s)).
    assert (Hfresh : entitled_of (db s) !! i = None).
    { destruct (entitled_of (db s) !! i) as [b|] eqn:Ei; [|done]. destruct (Hc eq_refl). by exists b. }
    assert (Hother : forall j b, j ≠ i -> entitled_of (db s) !! j = Some b -> te_tenant_id b ≠ te_tenant_id r).
    { intros j b _ Hb. by eapply row_of_None. }
    assert (Hok' : db_ok d' = true) by by apply put_entitled_ok.
    assert (Hr' : db_ranges d' = true) by done.
    set (s1 := st_db (put_entitled i r) (new_uuid7 s).2).
    destruct (changed_event_run self p s1) as (s2 & E2 & D2 & A2). exists s2. split; [|split].
    + rewrite (bind_Ok _ _ _ tt s1); [exact E2|]. erewrite bind_Ok by reflexivity.
      erewrite bind_Ok; [reflexivity|]. unfold repo_add. erewrite bind_Ok by reflexivity.
      by erewrite bind_Ok by (by apply insert_row_run).
    + split; [by rewrite A2|]. rewrite D2. split; [done|]. split; [done|]. by apply keyed_put.
    + intros u. rewrite D2. change (db s1) with d'. unfold d'.
      rewrite row_of_put; [|done| |done]; [|intros b Hb; congruence].
      change (te_tenant_id r) with (ens_tenant self). by case_bool_decide.
Qed.

(** ** The subscribers *)

Inductive sub_event : Set := SubActivated | SubCanceled | SubEnded.
Definition on_subscription (k : sub_event) (e : EventEnvelope) : SM unit :=
  match k with
  | SubActivated => on_subscription_activated e
  | SubCanceled => on_subscription_canceled e
  | SubEnded => on_subscription_ended e
  end.

(** The period end an event carries; [None]: it is not a date. *)
Definition period_of (en : Env) (e : EventEnvelope) : option (option datetime) :=
  match assoc "current_period_end" (e_payload e) with
  | None => Some None
  | Some v =>
      if truthy v then
        match v with
        | JIso t => Some (Some t)
        | v => t ← py_fromisoformat en (py_str en v); Some (Some t)
        end
      else Some None
  end.

(** What an event means; [None]: nothing. *)
Definition change_of (en : Env) (k : sub_event) (e : EventEnvelope) : option plan_change :=
  let plan := payload_str en e "plan_code" in
  match k with
  | SubActivated => if str_empty plan then None else period_end ← period_of en e; Some (PlanActivated plan period_end)
  | SubCanceled => Some PlanCanceled
  | SubEnded => if str_empty plan then None else Some (PlanEnded plan (e_occurred_at e))
  end.

Definition cover_event (en : Env) (k : sub_event) (e : EventEnvelope) (cov : uuid -> option Coverage)
    : uuid -> option Coverage :=
  match e_tenant_id e, change_of en k e with
  | Some t, Some ch => fun u => if bool_decide (u = t) then cover_change (cov t) ch else cov u
  | _, _ => cov
  end.

Lemma changed_rep t ch d d' cov :
  cover_rep d cov -> changed t ch d d' ->
  cover_rep d' (fun u => if bool_decide (u = t) then cover_change (cov t) ch else cov u).
Proof. intros Hr Hc u. rewrite Hc. by rewrite (Hr t), (Hr u). Qed.

Lemma entitlements_run e t s :
  c_tenant_id (handler_ctx e) = Some t ->
  new_entitlement_service (handler_ctx e) None s = (Ok (mkEntitlements (handler_ctx e) t None), s).
Proof. intros Ht. unfold new_entitlement_service, repo_init. by rewrite Ht. Qed.

(** An activation whose date cannot be read raises. *)
Lemma on_activated_run e t s :
  e_tenant_id e = Some t ->
  str_empty (payload_str (env s) e "plan_code") = false ->
  match period_of (env s) e with
  | None => exists err, on_subscription_activated e s = (Raise err, s)
  | Some pe => on_subscription_activated e s =
      set_active_plan (mkEntitlements (handler_ctx e) t None) (payload_str (env s) e "plan_code") pe s
  end.
Proof.
  intros Ht Hp. unfold on_subscription_activated. erewrite bind_Ok by reflexivity. cbv zeta. rewrite Hp.
  change (c_tenant_id (handler_ctx e)) with (e_tenant_id e). rewrite Ht.
  assert (Hs : forall pe, (service <- new_entitlement_service (handler_ctx e) None ;;
     set_active_plan service (payload_str (env s) e "plan_code") pe) s =
     set_active_plan (mkEntitlements (handler_ctx e) t None) (payload_str (env s) e "plan_code") pe s).
  { intros pe. by erewrite bind_Ok by (by apply entitlements_run). }
  unfold period_of. destruct (assoc _ _) as [v|]; [|by rewrite <- Hs].
  destruct (truthy v); [|by rewrite <- Hs].
  assert (Hiso : match v with JIso m => Some (Some m) | v => t ← py_fromisoformat (env s) (py_str (env s) v); Some (Some t) end
                 = match iso_of v s with (Ok m, _) => Some (Some m) | _ => None end /\ (iso_of v s).2 = s).
  { unfold iso_of, fromisoformat. destruct v; simpl; try done;
      (unfold bind, gets, get_st, ret, raise; simpl; by destruct (py_fromisoformat _ _)). }
  destruct Hiso as [-> E]. destruct (iso_of v s) as [[m|err] s1] eqn:Ei; simpl in E; subst s1.
  - rewrite <- Hs. erewrite bind_Ok; [reflexivity|]. by erewrite bind_Ok by exact Ei.
  - exists err. erewrite bind_Raise; [reflexivity|]. by erewrite bind_Raise by exact Ei.
Qed.

Lemma set_active_clash self p e s :
  aborted s = false -> row_of (db s) (ens_tenant self) = None -> entitlement_clash s ->
  exists err s', set_active_plan self p e s = (Raise err, s').
Proof.
  intros Ha Er [b Hb]. unfold set_active_plan. erewrite bind_Ok by (by apply current_row_run). rewrite Er.
  exists EIntegrity, (st_abort true (new_uuid7 s).2). erewrite bind_Raise; [reflexivity|].
  erewrite bind_Ok by reflexivity. erewrite bind_Raise; [reflexivity|].
  unfold repo_add. erewrite bind_Ok by reflexivity. erewrite bind_Raise; [reflexivity|].
  unfold insert_row. change (aborted (new_uuid7 s).2) with (aborted s). rewrite Ha.
  match goal with |- context [?x !! ?y] => replace (x !! y) with (Some b) by (symmetry; exact Hb) end.
  done.
Qed.

Lemma on_subscription_cases k e s cov :
  cover_ready s -> cover_rep (db s) cov ->
  (exists s', on_subscription k e s = (Ok tt, s') /\ cover_ready s' /\
     cover_rep (db s') (cover_event (env s) k e cov)) \/
  (exists err s', on_subscription k e s = (Raise err, s')) /\
    (period_of (env s) e = None \/ entitlement_clash s).
Proof.
  intros Hs Hr. unfold cover_event. destruct (e_tenant_id e) as [t|] eqn:Et; cycle 1.
  { left. exists s. split; [|done]. destruct k; simpl;
      unfold on_subscription_activated, on_subscription_canceled, on_subscription_ended;
      change (c_tenant_id (handler_ctx e)) with (e_tenant_id e); rewrite Et; [|done|];
      erewrite bind_Ok by reflexivity; cbv zeta; by destruct (str_empty _). }
  destruct k; unfold on_subscription, change_of; cbv zeta.
  - destruct (str_empty (payload_str (env s) e "plan_code")) eqn:Ep.
    { left. exists s. split; [|done]. unfold on_subscription_activated.
      erewrite bind_Ok by reflexivity. cbv zeta. by rewrite Ep. }
    pose proof (on_activated_run e t s Et Ep) as H. destruct (period_of (env s) e) as [pe|].
    + rewrite H. set (self := mkEntitlements (handler_ctx e) t None).
      assert (Hd : row_of (db s) t = None /\ entitlement_clash s \/
                   (row_of (db s) t = None -> ~ entitlement_clash s)).
      { destruct (row_of (db s) t); [by right|].
        destruct (entitled_of (db s) !! env_uuid7 (env s) (n_uuid s)) as [b|] eqn:Ec; [left; split; [done|by exists b]|].
        right. intros _ [b Hb]. congruence. }
      destruct Hd as [[Er Hc]|Hc].
      * right. split; [|by right]. apply set_active_clash; [apply Hs|done..].
      * destruct (set_active_changes self (payload_str (env s) e "plan_code") pe s Hs Hc)
          as (s' & E & Hs' & Hch).
        left. exists s'. split; [done|]. split; [done|].
        exact (changed_rep t (PlanActivated _ pe) (db s) (db s') cov Hr Hch).
    + right. split; [|by left]. destruct H as [err H]. by exists err, s.
  - destruct (mark_canceled_changes (mkEntitlements (handler_ctx e) t None) s Hs) as (s' & E & Hs' & Hc).
    left. exists s'. split; [|split; [done|exact (changed_rep t _ (db s) (db s') cov Hr Hc)]].
    unfold on_subscription_canceled. change (c_tenant_id (handler_ctx e)) with (e_tenant_id e).
    rewrite Et. by erewrite bind_Ok by (by apply entitlements_run).
  - destruct (str_empty (payload_str (env s) e "plan_code")) eqn:Ep.
    { left. exists s. split; [|done]. unfold on_subscription_ended.
      erewrite bind_Ok by reflexivity. cbv zeta. by rewrite Ep. }
    destruct (end_plan_changes (mkEntitlements (handler_ctx e) t None) (payload_str (env s) e "plan_code")
      (e_occurred_at e) s Hs) as (s' & E & Hs' & Hc).
    left. exists s'. split; [|split; [done|exact (changed_rep t _ (db s) (db s') cov Hr Hc)]].
    unfold on_subscription_ended. erewrite bind_Ok by reflexivity. cbv zeta. rewrite Ep.
    change (c_tenant_id (handler_ctx e)) with (e_tenant_id e).
    rewrite Et. by erewrite bind_Ok by (by apply entitlements_run).
Qed.

(** ** Limits *)

Section Limit.
Context {T : Type} `{TenantTable T, !TableLaws T}.

(** The rows a limit counts. *)
Definition counted_rows (tenant : uuid) (p : T -> bool) (d : Db) : Z :=
  Z.of_nat (length (select (fun r => bool_decide (t_tenant r = tenant) && p r) (t_get d))).

Lemma repo_count_run tenant (p : T -> bool) s :
  aborted s = false -> repo_count tenant p s = (Ok (counted_rows tenant p (db s)), s).
Proof.
  intros Ha. unfold repo_count, repo_select. by erewrite bind_Ok by (by apply query_run).
Qed.

Lemma select_new_length (q : T -> bool) (t : gmap N T) i r :
  t !! i = None -> (length (select q (<[i := r]> t)) <= S (length (select q t)))%nat.
Proof.
  intros Hi. unfold select, rows.
  assert (E : List.filter q (map_to_list (<[i := r]> t)).*2 ≡ₚ List.filter q (r :: (map_to_list t).*2)).
  { assert (Hp : (map_to_list (<[i := r]> t)).*2 ≡ₚ r :: (map_to_list t).*2)
      by by rewrite map_to_list_insert.
    induction Hp; simpl; repeat case_match; try done; try by constructor. by etransitivity. }
  rewrite E. simpl. destruct (q r); simpl; lia.
Qed.

Context (self : EntitlementService) (key : string) (tenant : uuid) (p : T -> bool).

(** Whatever others committed while this transaction waited for the lock. *)
Lemma within_limit_cases s s0 limit :
  get_limit self key s = (Ok (Some limit), s0) -> aborted s0 = false ->
  let s1 := (rivals s0).2 in
  require_within_limit self key (repo_count tenant p) s =
    if (limit <=? counted_rows tenant p (db s1))%Z
    then (Raise (EDomain ConflictError (limit_message key (counted_rows tenant p (db s1)) limit)), s1)
    else (Ok tt, s1).
Proof.
  intros Hl Ha s1. unfold require_within_limit. erewrite bind_Ok by exact Hl. cbv beta iota.
  rewrite (bind_Ok _ _ _ tt s1); [|unfold advisory_xact_lock; by rewrite Ha].
  cbv beta. erewrite bind_Ok by (by apply repo_count_run). unfold guardM. by destruct (_ <=? _)%Z.
Qed.

Lemma limit_kept s s' s0 limit pre (mk : uuid -> T) r :
  get_limit self key s = (Ok (Some limit), s0) -> aborted s = false ->
  (require_within_limit self key (repo_count tenant p) ;;; repo_add tenant pre mk) s = (Ok r, s') ->
  (counted_rows tenant p (db s') <= limit)%Z.
Proof.
  intros Hl Ha Hrun. pose proof (quiet_db _ _ _ _ (quiet_limit self key) Hl) as (_ & _ & _ & Ha0 & _).
  rewrite Ha in Ha0. apply bind_inv_Ok in Hrun as ([] & s1 & Hreq & Hadd).
  rewrite (within_limit_cases s s0 limit Hl Ha0) in Hreq.
  remember (rivals s0).2 as s2 eqn:E2. clear E2.
  destruct (Z.leb_spec limit (counted_rows tenant p (db s2))) as [|Hlt]; [done|].
  injection Hreq as <-. apply repo_add_Ok in Hadd as (_ & -> & _ & Hfresh & _).
  unfold counted_rows in *. cbn [db st_db]. unfold t_put.
  rewrite t_get_set.
  pose proof (select_new_length (fun r => bool_decide (t_tenant r = tenant) && p r) _ _ (mk tenant) Hfresh).
  lia.
Qed.
End Limit.

(** Onboarding: the checklist of a tenant only grows, and its completion is
    announced once. *)

Definition progress_of (d : Db) : gmap N OnboardingProgress := s_onboarding (saas_of d).

(** The tenant has done the step. *)
Definition step_done (d : Db) (tenant : uuid) (step : string) : Prop :=
  exists i r, progress_of d !! i = Some r /\ op_tenant_id r = tenant /\ op_step_key r = step.

(** There are steps, and all of them are done. *)
Definition finished (d : Db) (self : OnboardingService) : Prop :=
  obs_steps self ≠ [] /\ forall step, step ∈ obs_steps self -> step_done d (obs_tenant self) step.

(** ** Reading *)

Lemma fold_steps l acc k :
  is_Some (foldl (fun acc r => <[op_step_key r := op_completed_at r]> acc) acc l !! k) <->
  is_Some ((acc : gmap string datetime) !! k) \/ exists r, r ∈ l /\ op_step_key r = k.
Proof.
  revert acc. induction l as [|r l IH]; intros acc; simpl; [set_solver|]. rewrite IH, lookup_insert.
  split.
  - intros [H|(r' & Hr & Hk)]; [|right; set_solver]. case_decide; [right; exists r; set_solver|by left].
  - intros [H|(r' & [->|Hr]%elem_of_cons & Hk)]; [|left; by rewrite decide_True|right; by exists r'].
    left. case_decide; [by eexists|done].
Qed.

Lemma completed_run self s :
  aborted s = false ->
  exists done, completed self s = (Ok done, s) /\
    forall k, is_Some (done !! k) <-> step_done (db s) (obs_tenant self) k.
Proof.
  intros Ha. eexists. split.
  - unfold completed, repo_find, repo_select.
    erewrite bind_Ok by (erewrite bind_Ok by (by apply query_run); reflexivity). reflexivity.
  - intros k. rewrite fold_steps, lookup_empty. unfold id, step_done. split.
    + intros [[? ?]|(r & [[i Hi] Hp]%elem_of_select & Hk)]; [done|].
      rewrite andb_true_r in Hp. apply bool_decide_eq_true in Hp. by exists i, r.
    + intros (i & r & Hi & Ht & Hk). right. exists r. split; [|done]. apply elem_of_select.
      split; [by exists i|]. rewrite andb_true_r. by apply bool_decide_eq_true.
Qed.

Lemma all_done_spec self (done : gmap string datetime) d :
  (forall k, is_Some (done !! k) <-> step_done d (obs_tenant self) k) ->
  all_done self done = true <-> finished d self.
Proof.
  intros Hd. unfold all_done, finished. destruct (obs_steps self) as [|k l]; [naive_solver|].
  rewrite forallb_forall. split.
  - intros H. split; [done|]. intros step Hs. apply Hd.
    apply list_elem_of_In, H in Hs. by apply bool_decide_eq_true in Hs.
  - intros [_ H] step Hs. apply bool_decide_eq_true, Hd, H. by apply list_elem_of_In.
Qed.

(** The answer's [is_complete] says the same. *)
Lemma is_complete_spec self (done : gmap string datetime) :
  og_is_complete (to_dto self done) = all_done self done.
Proof.
  unfold to_dto, all_done. simpl. destruct (obs_steps self) as [|k l]; [done|].
  set (f := fun step => bool_decide (is_Some (done !! step))).
  assert (Hlen : forall steps : list string, (length (List.filter os_completed
      ((fun step => mkStepDTO step (f step) (done !! step)) <$> steps)) <= length steps)%nat /\
    (length (List.filter os_completed ((fun step => mkStepDTO step (f step) (done !! step)) <$> steps))
       =? length steps)%nat = forallb f steps).
  { induction steps as [|x steps [IH1 IH2]]; [done|]. rewrite fmap_cons.
    cbn [List.filter os_completed length forallb]. destruct (f x); cbn [length andb].
    - split; [lia|done].
    - split; [lia|]. apply Nat.eqb_neq. lia. }
  by destruct (Hlen (k :: l)).
Qed.

(** ** One call *)

(** What a call publishes: the completion, exactly when it finished the list. *)
Definition announces (self : OnboardingService) (es : list EventEnvelope) (before after : Prop) : Prop :=
  (after -> before) /\ es = [] \/
  after /\ ~ before /\ exists e, es = [e] /\ e_name e = "saas.onboarding.completed" /\
    e_tenant_id e = c_tenant_id (obs_ctx self).

Lemma finished_grows d d' self :
  progress_of d ⊆ progress_of d' -> finished d self -> finished d' self.
Proof.
  intros Hs [Hn Hf]. split; [done|]. intros step Hstep. destruct (Hf step Hstep) as (i & r & Hi & H).
  exists i, r. split; [by eapply lookup_weaken|done].
Qed.

Lemma step_put d r tenant k :
  op_tenant_id r = tenant -> progress_of d !! op_id r = None ->
  step_done (t_put r d) tenant k <-> op_step_key r = k \/ step_done d tenant k.
Proof.
  intros Ht Hn. unfold step_done. change (progress_of (t_put r d)) with (<[op_id r := r]> (progress_of d)).
  split.
  - intros (i & b & Hi & Hb & Hk). rewrite lookup_insert in Hi. case_decide; [left; congruence|].
    right. by exists i, b.
  - intros [Hk|(i & b & Hi & Hb & Hk)].
    + exists (op_id r), r. by rewrite lookup_insert_eq.
    + exists i, b. rewrite lookup_insert_ne; [done|]. congruence.
Qed.

(** The dictionary after the new row is in. *)
Lemma steps_after d self (done : gmap string datetime) row :
  (forall k, is_Some (done !! k) <-> step_done d (obs_tenant self) k) ->
  op_tenant_id row = obs_tenant self -> progress_of d !! op_id row = None ->
  forall k, is_Some (<[op_step_key row := op_completed_at row]> done !! k) <->
            step_done (t_put row d) (obs_tenant self) k.
Proof.
  intros Hd Ht Hfresh k. rewrite (step_put d row (obs_tenant self) k Ht Hfresh), lookup_insert, <- Hd.
  case_decide as Hx; [split; [by left|by eexists]|]. split; [by right|]. by intros [?|?].
Qed.

(** What the emission of the completion leaves pending. *)
Lemma completion_emitted self s u s' :
  callbacks s = [] ->
  (emit SvcOnboarding (obs_ctx self) "saas.onboarding.completed" [] ;;; ret tt) s = (Ok u, s') ->
  db s' = db s /\ exists e, callbacks s' = [(SvcOnboarding, [e])] /\
    e_name e = "saas.onboarding.completed" /\ e_tenant_id e = c_tenant_id (obs_ctx self).
Proof.
  intros Hc He. apply bind_inv_Ok in He as (x & s7 & He & Hx). unfold ret in Hx. injection Hx as _ <-.
  apply emit_first in He as (Hd & e & H1 & H2 & H3 & _); [|done]. split; [done|]. by exists e.
Qed.

Section Step.
Context (self : OnboardingService) (key : string) (s : St).
Hypothesis Hn : no_rivals (env s).

Lemma lock_alone k s0 :
  no_rivals (env s0) -> aborted s0 = false ->
  exists s1, advisory_xact_lock k s0 = (Ok tt, s1) /\ db s1 = db s0 /\ aborted s1 = false /\
    callbacks s1 = callbacks s0.
Proof.
  intros H0 Ha. unfold advisory_xact_lock. rewrite Ha. eexists. split; [reflexivity|].
  simpl. split; [apply H0|done].
Qed.

(** What a call that ends well has done in its session. *)
Lemma complete_step_Ok dto s1 :
  complete_step self key (uow_enter s) = (Ok dto, s1) ->
  key ∈ obs_steps self /\ progress_of (committed s) ⊆ progress_of (db s1) /\
  step_done (db s1) (obs_tenant self) key /\
  (og_is_complete dto = true <-> finished (db s1) self) /\
  announces self (pending_events (callbacks s1)) (finished (committed s) self) (finished (db s1) self).
Proof.
  intros H. unfold complete_step in H. erewrite bind_Ok in H by reflexivity.
  apply bind_inv_Ok in H as (u & s2 & Hg & H). unfold guardM in Hg.
  destruct (bool_decide_reflect (key ∈ obs_steps self)) as [Hk|]; [|done]. simpl in Hg.
  unfold ret in Hg. injection Hg as _ <-.
  destruct (lock_alone (onboarding_lock self) (uow_enter s) Hn eq_refl) as (s3 & El & D3 & A3 & C3).
  erewrite bind_Ok in H by exact El. destruct (completed_run self s3 A3) as (done & Ec & Hd).
  erewrite bind_Ok in H by exact Ec. rewrite D3 in Hd. change (db (uow_enter s)) with (committed s) in Hd, D3.
  split; [done|]. cbv beta in H. destruct (bool_decide_reflect (is_Some (done !! key))) as [Hs|Hs].
  - unfold ret in H. injection H as <- <-. rewrite D3, C3. split; [done|]. split; [by apply Hd|].
    rewrite is_complete_spec, (all_done_spec self done _ Hd). split; [done|]. left. by split.
  - erewrite bind_Ok in H by reflexivity. cbv zeta beta in H. erewrite bind_Ok in H by reflexivity.
    set (t := env_now (env s3) (n_now s3)) in *. cbv beta in H.
    apply bind_inv_Ok in H as (r & s5 & Ha & H).
    apply repo_add_Ok in Ha as (_ & -> & _ & Hfresh & _). cbn [db now new_uuid7 snd] in Hfresh.
    rewrite D3 in Hfresh. set (row := mkProgress _ _ key t) in *.
    set (s4 := st_db (t_put row) _) in H.
    assert (D4 : db s4 = t_put row (committed s)) by (unfold s4; simpl; by rewrite D3).
    assert (C4 : callbacks s4 = []) by (unfold s4; simpl; by rewrite C3).
    pose proof (steps_after (committed s) self done row Hd eq_refl Hfresh) as Hd'. cbn [op_step_key op_completed_at row] in Hd'.
    assert (Hbefore : ~ finished (committed s) self).
    { intros [_ Hf]. apply Hs, Hd, Hf, Hk. }
    assert (Hsub : progress_of (committed s) ⊆ progress_of (t_put row (committed s)))
      by by apply insert_subseteq.
    pose proof (all_done_spec self (<[key := t]> done) _ Hd') as Hall.
    assert (Hfin : forall s6, db s6 = t_put row (committed s) -> to_dto self (<[key := t]> done) = dto ->
      progress_of (committed s) ⊆ progress_of (db s6) /\ step_done (db s6) (obs_tenant self) key /\
      (og_is_complete dto = true <-> finished (db s6) self)).
    { intros s6 -> <-. split; [done|]. split; [apply Hd'; by rewrite lookup_insert_eq|].
      by rewrite is_complete_spec. }
    destruct (all_done self (<[key := t]> done)) eqn:Eall.
    + apply bind_inv_Ok in H as (u' & s6 & He & H). unfold ret in H. injection H as Hdto <-.
      pose proof (completion_emitted self s4 u' s6 C4 He) as D6.
      destruct D6 as (D6 & e & C6 & Hne & Hte). rewrite D4 in D6.
      destruct (Hfin s6 D6 Hdto) as (F1 & F2 & F3). split; [done|]. split; [done|]. split; [done|].
      right. rewrite C6, D6. split; [by apply Hall|]. split; [done|]. by exists e.
    + erewrite bind_Ok in H by reflexivity. unfold ret in H. injection H as Hdto <-.
      destruct (Hfin s4 D4 Hdto) as (F1 & F2 & F3). split; [done|]. split; [done|]. split; [done|].
      left. rewrite C4, D4. split; [|done]. intros Hx. by apply Hall in Hx.
Qed.
End Step.

(** ** Runs *)

(** Calls one after another, each in a unit of work of its own. *)
Fixpoint complete_all (self : OnboardingService) (keys : list string) (s : St) : St :=
  match keys with
  | [] => s
  | k :: rest => complete_all self rest (with_uow (complete_step self k) s).2
  end.

Lemma complete_step_uow self key s :
  no_rivals (env s) ->
  let s' := (with_uow (complete_step self key) s).2 in
  env s' = env s /\ progress_of (committed s) ⊆ progress_of (committed s') /\
  exists es, published s' = published s ++ es /\
    announces self es (finished (committed s) self) (finished (committed s') self).
Proof.
  intros Hn s'. pose proof (evo_complete_step anything self key) as He.
  split; [apply uow_env; by destruct (He (uow_enter s))|].
  destruct (with_uow_cases _ _ s He Hn)
    as [(dto & s1 & Eb & _ & _ & _ & _ & E2 & E3)|(e & _ & E2 & E3)]; fold s' in E2, E3; rewrite E2.
  - destruct (complete_step_Ok self key s Hn dto s1 Eb) as (_ & Hs & _ & _ & Ha).
    split; [done|]. by exists (pending_events (callbacks s1)).
  - split; [done|]. exists []. rewrite E3, app_nil_r. split; [done|]. by left.
Qed.

Lemma complete_all_announces self keys s :
  no_rivals (env s) ->
  let s' := complete_all self keys s in
  progress_of (committed s) ⊆ progress_of (committed s') /\
  exists es, published s' = published s ++ es /\
    announces self es (finished (committed s) self) (finished (committed s') self).
Proof.
  revert s. induction keys as [|k keys IH]; intros s Hn; simpl.
  - split; [done|]. exists []. rewrite app_nil_r. split; [done|]. by left.
  - destruct (complete_step_uow self k s Hn) as (He & Hs1 & es1 & P1 & A1).
    set (s1 := (with_uow (complete_step self k) s).2) in *. rewrite <- He in Hn.
    destruct (IH s1 Hn) as (Hs2 & es2 & P2 & A2). split; [by etransitivity|].
    exists (es1 ++ es2). split; [by rewrite P2, P1, app_assoc|].
    pose proof (finished_grows _ _ self Hs1) as G1. pose proof (finished_grows _ _ self Hs2) as G2.
    destruct A1 as [[A1 ->]|(A1 & B1 & C1)], A2 as [[A2 ->]|(A2 & B2 & C2)]; rewrite ?app_nil_r.
    + left. split; [auto|done].
    + right. split; [done|]. split; [auto|done].
    + right. split; [auto|]. by split.
    + by destruct B2.
Qed.
