(* ===== verification/Crm.v ===== *)
(** The crm module: companies and contacts (src/modules/crm/contacts), deals
    (src/modules/crm/deals) and activities (src/modules/crm/activities).

    A deal or an activity stores the ids of what it is linked to by value;
    the services check them through their siblings when they are set, and
    subscribers clear them when the sibling reports a deletion. *)

From stdpp Require Import base strings gmap list sorting.
From Stdlib Require Import ZArith Lia Ascii.
From S2P Require Import Prelude Errors PyLib Calendar Entities Models Events Session SessionFacts Footprints.
From S2P Require Import Notices Access Journal Tenants Payments PayFacts DbFacts.

(** A field of a PATCH body. *)
Inductive sent (A : Type) : Type :=
| NotSent
| SentNull
| Sent (a : A).
Arguments NotSent {A}.
Arguments SentNull {A}.
Arguments Sent {A} a.

Definition sent_value {A} (x : sent A) : option A := match x with Sent a => Some a | _ => None end.
Definition sent_null {A} (x : sent A) : bool := match x with SentNull => true | _ => false end.

(** [if value is not None: entity.field = value] *)
Definition patched {A} (value : option A) (old : A) : A := match value with Some a => a | None => old end.
Definition patched_opt {A} (value old : option A) : option A :=
  match value with Some a => Some a | None => old end.

(** ** crm.contacts *)

Definition COMPANY_READ : string := "crm.company:read".
Definition COMPANY_CREATE : string := "crm.company:create".
Definition COMPANY_UPDATE : string := "crm.company:update".
Definition COMPANY_DELETE : string := "crm.company:delete".
Definition CONTACT_READ : string := "crm.contact:read".
Definition CONTACT_CREATE : string := "crm.contact:create".
Definition CONTACT_UPDATE : string := "crm.contact:update".
Definition CONTACT_DELETE : string := "crm.contact:delete".

Record ContactsService : Type := mkContacts {
  cts_ctx : TenantContext; cts_tenant : uuid; cts_access : option Resolver }.

Definition new_contacts_service (ctx : TenantContext) (access : option Resolver) : SM ContactsService :=
  tenant <- repo_init ctx ;; ret (mkContacts ctx tenant access).

Definition ensure_contact (self : ContactsService) (contact_id : uuid) : SM unit :=
  repo_get_or_raise (R:=Contact) "Contact" (cts_tenant self) contact_id ;;; ret tt.
Definition ensure_company (self : ContactsService) (company_id : uuid) : SM unit :=
  repo_get_or_raise (R:=Company) "Company" (cts_tenant self) company_id ;;; ret tt.

Definition company_event (self : ContactsService) (name : string) (i : uuid) : SM unit :=
  emit SvcContacts (cts_ctx self) name [("company_id", JStr (uuid_str i))] ;;; ret tt.
Definition contact_event (self : ContactsService) (name : string) (i : uuid) : SM unit :=
  emit SvcContacts (cts_ctx self) name [("contact_id", JStr (uuid_str i))] ;;; ret tt.

Record CompanyIn : Set := mkCompanyIn {
  ci_name : string; ci_website : option string; ci_industry : option string; ci_notes : option string }.

Definition create_company (self : ContactsService) (b : CompanyIn) : SM Company :=
  guard_require (cts_access self) (cts_ctx self) COMPANY_CREATE ;;;
  i <- new_uuid7 ;;
  t <- now ;;
  company <- repo_add (cts_tenant self) None (fun tenant =>
    mkCompany i tenant (ci_name b) (ci_website b) (ci_industry b) (ci_notes b) t) ;;
  company_event self "crm.company.created" i ;;;
  ret company.

Record CompanyPatch : Set := mkCompanyPatch {
  cp_name : option string; cp_website : option string; cp_industry : option string;
  cp_notes : option string }.

Definition patch_company (b : CompanyPatch) (c : Company) : Company :=
  mkCompany (cm_id c) (cm_tenant_id c) (patched (cp_name b) (cm_name c))
    (patched_opt (cp_website b) (cm_website c)) (patched_opt (cp_industry b) (cm_industry c))
    (patched_opt (cp_notes b) (cm_notes c)) (cm_created_at c).

Definition update_company (self : ContactsService) (company_id : uuid) (b : CompanyPatch) : SM Company :=
  guard_require (cts_access self) (cts_ctx self) COMPANY_UPDATE ;;;
  company <- repo_get_or_raise "Company" (cts_tenant self) company_id ;;
  let i := cm_id company in
  upd i (patch_company b) ;;;
  flush ;;;
  company_event self "crm.company.updated" i ;;;
  load i.

Definition get_company (self : ContactsService) (company_id : uuid) : SM Company :=
  guard_require (cts_access self) (cts_ctx self) COMPANY_READ ;;;
  repo_get_or_raise "Company" (cts_tenant self) company_id.

Definition name_le (a b : Company) : Prop := str_le (cm_name a) (cm_name b).
#[export] Instance name_le_dec a b : Decision (name_le a b).
Proof. unfold name_le. apply _. Defined.

Definition list_companies (self : ContactsService) (page : Page) : SM (PageResult Company) :=
  guard_require (cts_access self) (cts_ctx self) COMPANY_READ ;;;
  repo_find_paged (cts_tenant self) (fun _ => true) (merge_sort name_le) page.

Definition set_company (company : option uuid) (c : Contact) : Contact :=
  mkContact (ct_id c) (ct_tenant_id c) company (ct_first_name c) (ct_last_name c) (ct_email c)
    (ct_phone c) (ct_position c) (ct_notes c) (ct_created_at c).

(** ON DELETE SET NULL on [crm_contacts.company_id] *)
Definition unassign (company : uuid) (c : Contact) : Contact :=
  if bool_decide (ct_company_id c = Some company) then set_company None c else c.
Definition on_delete_company (company : uuid) : SM unit :=
  modify (st_db (fun d => t_set (unassign company <$> t_get d) d)).

Definition delete_company (self : ContactsService) (company_id : uuid) : SM unit :=
  guard_require (cts_access self) (cts_ctx self) COMPANY_DELETE ;;;
  company <- repo_get_or_raise (R:=Company) "Company" (cts_tenant self) company_id ;;
  repo_delete (cts_tenant self) company ;;;
  on_delete_company (cm_id company) ;;;
  company_event self "crm.company.deleted" company_id.

Record ContactIn : Set := mkContactIn {
  ki_first_name : string; ki_last_name : option string; ki_email : option string;
  ki_phone : option string; ki_position : option string; ki_company_id : option uuid;
  ki_notes : option string }.

(** [if company_id is not None: await self._companies.get_or_raise(company_id)] *)
Definition check_company (self : ContactsService) (company_id : option uuid) : SM unit :=
  match company_id with Some c => ensure_company self c | None => ret tt end.

Definition create_contact (self : ContactsService) (b : ContactIn) : SM Contact :=
  guard_require (cts_access self) (cts_ctx self) CONTACT_CREATE ;;;
  check_company self (ki_company_id b) ;;;
  i <- new_uuid7 ;;
  t <- now ;;
  contact <- repo_add (cts_tenant self) None (fun tenant =>
    mkContact i tenant (ki_company_id b) (ki_first_name b) (ki_last_name b) (ki_email b) (ki_phone b)
      (ki_position b) (ki_notes b) t) ;;
  contact_event self "crm.contact.created" i ;;;
  ret contact.

Record ContactPatch : Set := mkContactPatch {
  kp_first_name : option string; kp_last_name : option string; kp_email : option string;
  kp_phone : option string; kp_position : option string; kp_company_id : option uuid;
  kp_notes : option string }.

Definition patch_contact (b : ContactPatch) (c : Contact) : Contact :=
  mkContact (ct_id c) (ct_tenant_id c) (patched_opt (kp_company_id b) (ct_company_id c))
    (patched (kp_first_name b) (ct_first_name c)) (patched_opt (kp_last_name b) (ct_last_name c))
    (patched_opt (kp_email b) (ct_email c)) (patched_opt (kp_phone b) (ct_phone c))
    (patched_opt (kp_position b) (ct_position c)) (patched_opt (kp_notes b) (ct_notes c))
    (ct_created_at c).

Definition update_contact (self : ContactsService) (contact_id : uuid) (b : ContactPatch) : SM Contact :=
  guard_require (cts_access self) (cts_ctx self) CONTACT_UPDATE ;;;
  contact <- repo_get_or_raise "Contact" (cts_tenant self) contact_id ;;
  check_company self (kp_company_id b) ;;;
  let i := ct_id contact in
  upd i (patch_contact b) ;;;
  flush ;;;
  contact_event self "crm.contact.updated" i ;;;
  load i.

Definition get_contact (self : ContactsService) (contact_id : uuid) : SM Contact :=
  guard_require (cts_access self) (cts_ctx self) CONTACT_READ ;;;
  repo_get_or_raise "Contact" (cts_tenant self) contact_id.

Definition eq_filter {A R} `{EqDecision A} (column : R -> option A) (value : option A) (r : R) : bool :=
  match value with Some v => bool_decide (column r = Some v) | None => true end.

Definition list_contacts (self : ContactsService) (page : Page) (company_id : option uuid)
    : SM (PageResult Contact) :=
  guard_require (cts_access self) (cts_ctx self) CONTACT_READ ;;;
  repo_find_paged (cts_tenant self) (eq_filter ct_company_id company_id) (order_desc ct_created_at) page.

Definition delete_contact (self : ContactsService) (contact_id : uuid) : SM unit :=
  guard_require (cts_access self) (cts_ctx self) CONTACT_DELETE ;;;
  contact <- repo_get_or_raise (R:=Contact) "Contact" (cts_tenant self) contact_id ;;
  repo_delete (cts_tenant self) contact ;;;
  contact_event self "crm.contact.deleted" contact_id.

(** ** crm.deals *)

Definition DEAL_READ : string := "crm.deal:read".
Definition DEAL_CREATE : string := "crm.deal:create".
Definition DEAL_UPDATE : string := "crm.deal:update".
Definition DEAL_DELETE : string := "crm.deal:delete".

Record DealService : Type := mkDeals {
  dls_ctx : TenantContext; dls_tenant : uuid; dls_contacts : ContactsService;
  dls_stages : list string; dls_currencies : CurrencyRegistry; dls_access : option Resolver }.

Definition new_deal_service (ctx : TenantContext) (contacts : ContactsService) (stages : list string)
    (currencies : CurrencyRegistry) (access : option Resolver) : SM DealService :=
  tenant <- repo_init ctx ;; ret (mkDeals ctx tenant contacts stages currencies access).

(** [_require_stage] *)
Definition require_stage (self : DealService) (stage : string) : SM unit :=
  en <- gets env ;;
  guardM (negb (bool_decide (stage ∈ dls_stages self)))
    (EDomain InvariantViolationError ("unknown deal stage: " +:+ py_repr en (JStr stage))).

(** [_resolve_stage] *)
Definition resolve_stage (self : DealService) (stage : option string) : SM string :=
  match stage with
  | None =>
      match dls_stages self with
      | [] => raise (EDomain InvariantViolationError "no deal stages configured (set CRM_DEAL_STAGES)")
      | first :: _ => ret first
      end
  | Some stage => require_stage self stage ;;; ret stage
  end.

(** [DealService._validate_links] *)
Definition validate_links (contacts : ContactsService) (contact_id company_id : option uuid) : SM unit :=
  match contact_id with Some c => ensure_contact contacts c | None => ret tt end ;;;
  match company_id with Some c => ensure_company contacts c | None => ret tt end.

Record CreateDealIn : Set := mkDealIn {
  di_title : string; di_amount : Z; di_currency : string; di_stage : option string;
  di_contact_id : option uuid; di_company_id : option uuid; di_notes : option string }.

Definition deal_event (self : DealService) (name : string) (i : uuid) : SM unit :=
  emit SvcDeals (dls_ctx self) name [("deal_id", JStr (uuid_str i))] ;;; ret tt.

Definition deal_create (self : DealService) (b : CreateDealIn) : SM Deal :=
  guard_require (dls_access self) (dls_ctx self) DEAL_CREATE ;;;
  lift_res (new_money (di_amount b) (di_currency b)) ;;;
  lift_res (cr_exponent (dls_currencies self) (di_currency b)) ;;;
  stage <- resolve_stage self (di_stage b) ;;
  validate_links (dls_contacts self) (di_contact_id b) (di_company_id b) ;;;
  i <- new_uuid7 ;;
  t <- now ;;
  deal <- repo_add (dls_tenant self) None (fun tenant =>
    mkDeal i tenant (di_title b) stage (di_amount b) (di_currency b) (di_contact_id b)
      (di_company_id b) (di_notes b) t) ;;
  deal_event self "crm.deal.created" i ;;;
  ret deal.

Record UpdateDealIn : Set := mkUpdateDealIn {
  ui_title : sent string; ui_amount : sent Z; ui_currency : sent string; ui_stage : sent string;
  ui_contact_id : sent uuid; ui_company_id : sent uuid; ui_notes : sent string }.

Record DealChanges : Set := mkDealChanges {
  dc_title : option string; dc_amount : option Z; dc_currency : option string;
  dc_stage : option string; dc_contact_id : option uuid; dc_company_id : option uuid;
  dc_notes : option string; dc_clear_contact : bool; dc_clear_company : bool }.

(** [DealChanges.from_request] *)
Definition deal_changes (b : UpdateDealIn) : DealChanges :=
  mkDealChanges (sent_value (ui_title b)) (sent_value (ui_amount b)) (sent_value (ui_currency b))
    (sent_value (ui_stage b)) (sent_value (ui_contact_id b)) (sent_value (ui_company_id b))
    (sent_value (ui_notes b)) (sent_null (ui_contact_id b)) (sent_null (ui_company_id b)).

(** A link of a PATCH: set, cleared or kept. *)
Definition patched_link (value : option uuid) (clear : bool) (old : option uuid) : option uuid :=
  match value with Some a => Some a | None => if clear then None else old end.

Definition patch_deal (b : DealChanges) (x : Deal) : Deal :=
  mkDeal (dl_id x) (dl_tenant_id x) (patched (dc_title b) (dl_title x))
    (patched (dc_stage b) (dl_stage x)) (patched (dc_amount b) (dl_amount x))
    (patched (dc_currency b) (dl_currency x))
    (patched_link (dc_contact_id b) (dc_clear_contact b) (dl_contact_id x))
    (patched_link (dc_company_id b) (dc_clear_company b) (dl_company_id x))
    (patched_opt (dc_notes b) (dl_notes x)) (dl_created_at x).

Definition deal_update (self : DealService) (deal_id : uuid) (changes : DealChanges) : SM Deal :=
  guard_require (dls_access self) (dls_ctx self) DEAL_UPDATE ;;;
  deal <- repo_get_or_raise "Deal" (dls_tenant self) deal_id ;;
  validate_links (dls_contacts self) (dc_contact_id changes) (dc_company_id changes) ;;;
  match dc_currency changes with
  | Some c => lift_res (cr_exponent (dls_currencies self) c) ;;; ret tt
  | None => ret tt
  end ;;;
  match dc_stage changes with Some stage => require_stage self stage | None => ret tt end ;;;
  let i := dl_id deal in
  let previous_stage := dl_stage deal in
  upd i (patch_deal changes) ;;;
  d <- load (R:=Deal) i ;;
  lift_res (new_money (dl_amount d) (dl_currency d)) ;;;
  flush ;;;
  deal_event self "crm.deal.updated" i ;;;
  (if negb (bool_decide (dl_stage d = previous_stage))
   then emit SvcDeals (dls_ctx self) "crm.deal.stage_changed"
          [("deal_id", JStr (uuid_str i)); ("from", JStr previous_stage); ("to", JStr (dl_stage d))] ;;;
        ret tt
   else ret tt) ;;;
  load i.

Definition ensure_deal (self : DealService) (deal_id : uuid) : SM unit :=
  repo_get_or_raise (R:=Deal) "Deal" (dls_tenant self) deal_id ;;; ret tt.

Definition deal_get (self : DealService) (deal_id : uuid) : SM Deal :=
  guard_require (dls_access self) (dls_ctx self) DEAL_READ ;;;
  repo_get_or_raise "Deal" (dls_tenant self) deal_id.

Definition deal_list (self : DealService) (page : Page) (stage : option string)
    (contact_id company_id : option uuid) : SM (PageResult Deal) :=
  guard_require (dls_access self) (dls_ctx self) DEAL_READ ;;;
  repo_find_paged (dls_tenant self)
    (fun d => eq_filter (fun d => Some (dl_stage d)) stage d && eq_filter dl_contact_id contact_id d
              && eq_filter dl_company_id company_id d)
    (order_desc dl_created_at) page.

Definition deal_delete (self : DealService) (deal_id : uuid) : SM unit :=
  guard_require (dls_access self) (dls_ctx self) DEAL_DELETE ;;;
  deal <- repo_get_or_raise (R:=Deal) "Deal" (dls_tenant self) deal_id ;;
  repo_delete (dls_tenant self) deal ;;;
  deal_event self "crm.deal.deleted" deal_id.

Definition set_deal_links (contact company : option uuid) (x : Deal) : Deal :=
  mkDeal (dl_id x) (dl_tenant_id x) (dl_title x) (dl_stage x) (dl_amount x) (dl_currency x) contact
    company (dl_notes x) (dl_created_at x).

(** [_unlink]; [clear] is the assignment of None to the attribute. *)
Definition deal_unlink (self : DealService) (where_ : Deal -> bool) (clear : Deal -> Deal) : SM Z :=
  deals <- repo_find (dls_tenant self) where_ id None ;;
  for_each deals (fun d => upd (dl_id d) clear) ;;;
  flush ;;;
  for_each deals (fun d => deal_event self "crm.deal.updated" (dl_id d)) ;;;
  ret (Z.of_nat (length deals)).

Definition deal_unlink_contact (self : DealService) (contact_id : uuid) : SM Z :=
  deal_unlink self (fun d => bool_decide (dl_contact_id d = Some contact_id))
    (fun d => set_deal_links None (dl_company_id d) d).
Definition deal_unlink_company (self : DealService) (company_id : uuid) : SM Z :=
  deal_unlink self (fun d => bool_decide (dl_company_id d = Some company_id))
    (fun d => set_deal_links (dl_contact_id d) None d).

(** ** src/modules/crm/deals/subscribers.py *)

(** [event.payload.get(key)], if it is there and the event has a tenant. *)
Definition deleted_id (event : EventEnvelope) (key : string) : SM (option uuid) :=
  en <- gets env ;;
  match assoc key (e_payload event), c_tenant_id (handler_ctx event) with
  | Some raw, Some _ =>
      if truthy raw then
        match uuid_parse (py_str en raw) with Some u => ret (Some u) | None => raise EValue end
      else ret None
  | _, _ => ret None
  end.

(** [_deals] *)
Definition handler_deals (event : EventEnvelope) : SM DealService :=
  contacts <- new_contacts_service (handler_ctx event) None ;;
  new_deal_service (handler_ctx event) contacts [] ∅ None.

Definition deals_on_contact_deleted (event : EventEnvelope) : SM unit :=
  id <- deleted_id event "contact_id" ;;
  match id with
  | Some c => self <- handler_deals event ;; deal_unlink_contact self c ;;; ret tt
  | None => ret tt
  end.
Definition deals_on_company_deleted (event : EventEnvelope) : SM unit :=
  id <- deleted_id event "company_id" ;;
  match id with
  | Some c => self <- handler_deals event ;; deal_unlink_company self c ;;; ret tt
  | None => ret tt
  end.

(** ** crm.activities *)

Definition ACTIVITY_READ : string := "crm.activity:read".
Definition ACTIVITY_CREATE : string := "crm.activity:create".
Definition ACTIVITY_UPDATE : string := "crm.activity:update".
Definition ACTIVITY_DELETE : string := "crm.activity:delete".

Record ActivityService : Type := mkActivities {
  acs_ctx : TenantContext; acs_tenant : uuid; acs_contacts : ContactsService; acs_deals : DealService;
  acs_types : list string; acs_access : option Resolver }.

Definition new_activity_service (ctx : TenantContext) (contacts : ContactsService) (deals : DealService)
    (types : list string) (access : option Resolver) : SM ActivityService :=
  tenant <- repo_init ctx ;; ret (mkActivities ctx tenant contacts deals types access).

(** [_resolve_type] *)
Definition resolve_type (self : ActivityService) (activity_type : option string) : SM string :=
  match acs_types self, activity_type with
  | [], _ => raise (EDomain InvariantViolationError "no activity types configured (set CRM_ACTIVITY_TYPES)")
  | first :: _, None => ret first
  | types, Some ty =>
      en <- gets env ;;
      guardM (negb (bool_decide (ty ∈ types)))
        (EDomain InvariantViolationError ("unknown activity type: " +:+ py_repr en (JStr ty))) ;;;
      ret ty
  end.

(** [ActivityService._validate_links] *)
Definition activity_links (self : ActivityService) (contact_id company_id deal_id : option uuid) : SM unit :=
  validate_links (acs_contacts self) contact_id company_id ;;;
  match deal_id with Some d => ensure_deal (acs_deals self) d | None => ret tt end.

(** [_require_member] *)
Definition require_member (self : ActivityService) (user_id : uuid) : SM unit :=
  ok <- match c_tenant_id (acs_ctx self) with
        | None => ret false
        | Some tenant => is_active_member tenant user_id
        end ;;
  guardM (negb ok) (EDomain NotFoundError
    ("assignee " +:+ uuid_str user_id +:+ " is not a member of this tenant")).

(** [_actor_user_id] *)
Definition acs_actor_user_id (self : ActivityService) : SM (option uuid) :=
  lift_res (actor_user_id_opt (c_actor (acs_ctx self))).

Definition activity_event (self : ActivityService) (name : string) (i : uuid) : SM unit :=
  emit SvcActivities (acs_ctx self) name [("activity_id", JStr (uuid_str i))] ;;; ret tt.

Record CreateActivityIn : Set := mkActivityIn {
  ai_subject : string; ai_type : option string; ai_notes : option string; ai_due_at : option datetime;
  ai_assignee_user_id : option uuid; ai_contact_id : option uuid; ai_company_id : option uuid;
  ai_deal_id : option uuid }.

Definition activity_create (self : ActivityService) (data : CreateActivityIn) : SM Activity :=
  guard_require (acs_access self) (acs_ctx self) ACTIVITY_CREATE ;;;
  ty <- resolve_type self (ai_type data) ;;
  assignee <- match ai_assignee_user_id data with
              | Some u => ret (Some u)
              | None => acs_actor_user_id self
              end ;;
  match assignee with
  | None => raise (EDomain InvariantViolationError "an activity needs an assignee")
  | Some assignee =>
      require_member self assignee ;;;
      activity_links self (ai_contact_id data) (ai_company_id data) (ai_deal_id data) ;;;
      i <- new_uuid7 ;;
      t <- now ;;
      activity <- repo_add (acs_tenant self) None (fun tenant =>
        mkActivity i tenant ty (ai_subject data) (ai_notes data) (ai_due_at data) None assignee
          (ai_contact_id data) (ai_company_id data) (ai_deal_id data) t) ;;
      activity_event self "crm.activity.created" i ;;;
      ret activity
  end.

Record UpdateActivityIn : Set := mkUpdateActivityIn {
  vi_subject : sent string; vi_type : sent string; vi_notes : sent string; vi_due_at : sent datetime;
  vi_assignee_user_id : sent uuid; vi_contact_id : sent uuid; vi_company_id : sent uuid;
  vi_deal_id : sent uuid }.

(** [cleared] of the four fields a null clears; a null for another field
    means unchanged. *)
Record ActivityChanges : Set := mkActivityChanges {
  av_subject : option string; av_type : option string; av_notes : option string;
  av_due_at : option datetime; av_assignee_user_id : option uuid; av_contact_id : option uuid;
  av_company_id : option uuid; av_deal_id : option uuid;
  av_clear_contact : bool; av_clear_company : bool; av_clear_deal : bool; av_clear_due : bool }.

(** [ActivityChanges.from_request] *)
Definition activity_changes (b : UpdateActivityIn) : ActivityChanges :=
  mkActivityChanges (sent_value (vi_subject b)) (sent_value (vi_type b)) (sent_value (vi_notes b))
    (sent_value (vi_due_at b)) (sent_value (vi_assignee_user_id b)) (sent_value (vi_contact_id b))
    (sent_value (vi_company_id b)) (sent_value (vi_deal_id b))
    (sent_null (vi_contact_id b)) (sent_null (vi_company_id b)) (sent_null (vi_deal_id b))
    (sent_null (vi_due_at b)).

Definition patch_activity (b : ActivityChanges) (a : Activity) : Activity :=
  mkActivity (ac_id a) (ac_tenant_id a) (patched (av_type b) (ac_type a))
    (patched (av_subject b) (ac_subject a)) (patched_opt (av_notes b) (ac_notes a))
    (match av_due_at b with Some t => Some t | None => if av_clear_due b then None else ac_due_at a end)
    (ac_done_at a) (patched (av_assignee_user_id b) (ac_assignee_user_id a))
    (patched_link (av_contact_id b) (av_clear_contact b) (ac_contact_id a))
    (patched_link (av_company_id b) (av_clear_company b) (ac_company_id a))
    (patched_link (av_deal_id b) (av_clear_deal b) (ac_deal_id a)) (ac_created_at a).

Definition activity_update (self : ActivityService) (activity_id : uuid) (changes : ActivityChanges)
    : SM Activity :=
  guard_require (acs_access self) (acs_ctx self) ACTIVITY_UPDATE ;;;
  activity <- repo_get_or_raise "Activity" (acs_tenant self) activity_id ;;
  match av_type changes with Some ty => resolve_type self (Some ty) ;;; ret tt | None => ret tt end ;;;
  match av_assignee_user_id changes with Some u => require_member self u | None => ret tt end ;;;
  activity_links self (av_contact_id changes) (av_company_id changes) (av_deal_id changes) ;;;
  let i := ac_id activity in
  let previous := ac_assignee_user_id activity in
  upd i (patch_activity changes) ;;;
  flush ;;;
  activity_event self "crm.activity.updated" i ;;;
  a <- load (R:=Activity) i ;;
  (if negb (bool_decide (ac_assignee_user_id a = previous))
   then emit SvcActivities (acs_ctx self) "crm.activity.assigned"
          [("activity_id", JStr (uuid_str i)); ("from", JStr (uuid_str previous));
           ("to", JStr (uuid_str (ac_assignee_user_id a)))] ;;;
        ret tt
   else ret tt) ;;;
  ret a.

Definition set_done (done : option datetime) (a : Activity) : Activity :=
  mkActivity (ac_id a) (ac_tenant_id a) (ac_type a) (ac_subject a) (ac_notes a) (ac_due_at a) done
    (ac_assignee_user_id a) (ac_contact_id a) (ac_company_id a) (ac_deal_id a) (ac_created_at a).

Definition activity_complete (self : ActivityService) (activity_id : uuid) : SM Activity :=
  guard_require (acs_access self) (acs_ctx self) ACTIVITY_UPDATE ;;;
  activity <- repo_get_or_raise "Activity" (acs_tenant self) activity_id ;;
  match ac_done_at activity with
  | Some _ => ret activity
  | None =>
      let i := ac_id activity in
      t <- now ;;
      upd i (set_done (Some t)) ;;;
      flush ;;;
      activity_event self "crm.activity.completed" i ;;;
      load i
  end.

Definition activity_reopen (self : ActivityService) (activity_id : uuid) : SM Activity :=
  guard_require (acs_access self) (acs_ctx self) ACTIVITY_UPDATE ;;;
  activity <- repo_get_or_raise "Activity" (acs_tenant self) activity_id ;;
  match ac_done_at activity with
  | None => ret activity
  | Some _ =>
      let i := ac_id activity in
      upd i (set_done None) ;;;
      flush ;;;
      activity_event self "crm.activity.reopened" i ;;;
      load i
  end.

Definition activity_delete (self : ActivityService) (activity_id : uuid) : SM unit :=
  guard_require (acs_access self) (acs_ctx self) ACTIVITY_DELETE ;;;
  activity <- repo_get_or_raise (R:=Activity) "Activity" (acs_tenant self) activity_id ;;
  repo_delete (acs_tenant self) activity ;;;
  activity_event self "crm.activity.deleted" activity_id.

Definition activity_get (self : ActivityService) (activity_id : uuid) : SM Activity :=
  guard_require (acs_access self) (acs_ctx self) ACTIVITY_READ ;;;
  repo_get_or_raise "Activity" (acs_tenant self) activity_id.

(** [status]: [Some true] is done, [Some false] open. *)
Record ActivityQuery : Set := mkActivityQuery {
  aq_assignee_user_id : option uuid; aq_mine : bool; aq_status : option bool; aq_overdue : bool;
  aq_due_today : bool; aq_type : option string; aq_deal_id : option uuid;
  aq_contact_id : option uuid; aq_company_id : option uuid }.

Definition open_activity (a : Activity) : bool := bool_decide (ac_done_at a = None).
Definition due_before (t : datetime) (a : Activity) : bool :=
  match ac_due_at a with Some due => (due <? t)%Z | None => false end.

(** Midnight of the UTC day of [t]. *)
Definition day_start (t : datetime) : datetime := (t - t mod DAY)%Z.

(** [_filters] *)
Definition activity_filters (self : ActivityService) (q : ActivityQuery) : SM (Activity -> bool) :=
  assignee <- (if aq_mine q then
                 me <- acs_actor_user_id self ;;
                 match me with
                 | None => raise (EDomain InvariantViolationError "'mine' requires a user actor")
                 | Some u => ret (Some u)
                 end
               else ret (aq_assignee_user_id q)) ;;
  t <- now ;;
  let start := day_start t in
  ret (fun a =>
    eq_filter (fun a => Some (ac_assignee_user_id a)) assignee a
    && match aq_status q with
       | Some done => bool_decide (done = negb (open_activity a))
       | None => true
       end
    && (if aq_overdue q then open_activity a && due_before t a else true)
    && (if aq_due_today q
        then match ac_due_at a with Some due => (start <=? due)%Z | None => false end
             && due_before (start + timedelta_days 1)%Z a
        else true)
    && eq_filter (fun a => Some (ac_type a)) (aq_type q) a && eq_filter ac_deal_id (aq_deal_id q) a
    && eq_filter ac_contact_id (aq_contact_id q) a && eq_filter ac_company_id (aq_company_id q) a).

(** [_ORDER]: open first, then by due date, undated last, then the newest. *)
Definition activity_le_b (a b : Activity) : bool :=
  match open_activity a, open_activity b with
  | true, false => true
  | false, true => false
  | _, _ =>
      match ac_due_at a, ac_due_at b with
      | Some x, Some y =>
          (x <? y)%Z || ((x =? y)%Z && (ac_created_at b <=? ac_created_at a)%Z)
      | Some _, None => true
      | None, Some _ => false
      | None, None => (ac_created_at b <=? ac_created_at a)%Z
      end
  end.
Definition activity_le (a b : Activity) : Prop := activity_le_b a b = true.
#[export] Instance activity_le_dec a b : Decision (activity_le a b).
Proof. unfold activity_le. apply _. Defined.

Definition activity_list (self : ActivityService) (page : Page) (q : ActivityQuery)
    : SM (PageResult Activity) :=
  guard_require (acs_access self) (acs_ctx self) ACTIVITY_READ ;;;
  p <- activity_filters self q ;;
  repo_find_paged (acs_tenant self) p (merge_sort activity_le) page.

Definition set_activity_links (contact company deal : option uuid) (a : Activity) : Activity :=
  mkActivity (ac_id a) (ac_tenant_id a) (ac_type a) (ac_subject a) (ac_notes a) (ac_due_at a)
    (ac_done_at a) (ac_assignee_user_id a) contact company deal (ac_created_at a).

(** [_unlink] *)
Definition activity_unlink (self : ActivityService) (where_ : Activity -> bool)
    (clear : Activity -> Activity) : SM Z :=
  activities <- repo_find (acs_tenant self) where_ id None ;;
  for_each activities (fun a => upd (ac_id a) clear) ;;;
  flush ;;;
  for_each activities (fun a => activity_event self "crm.activity.updated" (ac_id a)) ;;;
  ret (Z.of_nat (length activities)).

Definition activity_unlink_contact (self : ActivityService) (contact_id : uuid) : SM Z :=
  activity_unlink self (fun a => bool_decide (ac_contact_id a = Some contact_id))
    (fun a => set_activity_links None (ac_company_id a) (ac_deal_id a) a).
Definition activity_unlink_company (self : ActivityService) (company_id : uuid) : SM Z :=
  activity_unlink self (fun a => bool_decide (ac_company_id a = Some company_id))
    (fun a => set_activity_links (ac_contact_id a) None (ac_deal_id a) a).
Definition activity_unlink_deal (self : ActivityService) (deal_id : uuid) : SM Z :=
  activity_unlink self (fun a => bool_decide (ac_deal_id a = Some deal_id))
    (fun a => set_activity_links (ac_contact_id a) (ac_company_id a) None a).

(** ** src/modules/crm/activities/subscribers.py *)

(** [_activities] *)
Definition handler_activities (event : EventEnvelope) : SM ActivityService :=
  contacts <- new_contacts_service (handler_ctx event) None ;;
  deals <- new_deal_service (handler_ctx event) contacts [] ∅ None ;;
  new_activity_service (handler_ctx event) contacts deals [] None.

Definition activities_on_deleted (key : string) (unlink : ActivityService -> uuid -> SM Z)
    (event : EventEnvelope) : SM unit :=
  id <- deleted_id event key ;;
  match id with
  | Some i => self <- handler_activities event ;; unlink self i ;;; ret tt
  | None => ret tt
  end.
Definition activities_on_contact_deleted : EventEnvelope -> SM unit :=
  activities_on_deleted "contact_id" activity_unlink_contact.
Definition activities_on_company_deleted : EventEnvelope -> SM unit :=
  activities_on_deleted "company_id" activity_unlink_company.
Definition activities_on_deal_deleted : EventEnvelope -> SM unit :=
  activities_on_deleted "deal_id" activity_unlink_deal.

(** Facts about the crm module: what its operations write, and that the links
    of deals and activities lead to rows of their tenant or to a deletion that
    has been announced. *)

(** ** Footprints *)

Section Footprints.
Context (R : Db -> Db -> Prop) `{!PreOrder R, !FeatureBlind R}.

Lemma evo_ensure_contact self c : steps (evo R) (ensure_contact self c).
Proof. unfold ensure_contact. steps_walk. Qed.
Lemma evo_ensure_company self c : steps (evo R) (ensure_company self c).
Proof. unfold ensure_company. steps_walk. Qed.
Lemma evo_check_company self c : steps (evo R) (check_company self c).
Proof. pose proof evo_ensure_company. unfold check_company. steps_walk. Qed.
Lemma evo_validate_links contacts a b : steps (evo R) (validate_links contacts a b).
Proof. pose proof evo_ensure_contact. pose proof evo_ensure_company. unfold validate_links. steps_walk. Qed.
Lemma evo_company_event self n i : steps (evo R) (company_event self n i).
Proof. unfold company_event. steps_walk. Qed.
Lemma evo_contact_event self n i : steps (evo R) (contact_event self n i).
Proof. unfold contact_event. steps_walk. Qed.
Lemma evo_deal_event self n i : steps (evo R) (deal_event self n i).
Proof. unfold deal_event. steps_walk. Qed.
Lemma evo_activity_event self n i : steps (evo R) (activity_event self n i).
Proof. unfold activity_event. steps_walk. Qed.
#[local] Hint Resolve evo_ensure_contact evo_ensure_company evo_check_company evo_validate_links
  evo_company_event evo_contact_event evo_deal_event evo_activity_event : steps.

Section Contacts.
Context (self : ContactsService) `{!QuietAccess (cts_access self)}.

Lemma evo_create_company b : steps (evo R) (create_company self b).
Proof. unfold create_company. stmt_walk. Qed.
Lemma evo_update_company i b : steps (evo R) (update_company self i b).
Proof. unfold update_company. stmt_walk. Qed.
Lemma evo_get_company i : steps (evo R) (get_company self i).
Proof. unfold get_company. stmt_walk. Qed.
Lemma evo_list_companies p : steps (evo R) (list_companies self p).
Proof. unfold list_companies. stmt_walk. Qed.
Lemma evo_on_delete_company c : steps (evo R) (on_delete_company c).
Proof.
  unfold on_delete_company. apply (stmt_write _). intros d. apply tol_map.
  intros r. unfold unassign. by case_bool_decide.
Qed.
Lemma evo_delete_company i : steps (evo R) (delete_company self i).
Proof. pose proof evo_on_delete_company. unfold delete_company. stmt_walk. Qed.
Lemma evo_create_contact b : steps (evo R) (create_contact self b).
Proof. unfold create_contact. stmt_walk. Qed.
Lemma evo_update_contact i b : steps (evo R) (update_contact self i b).
Proof. unfold update_contact. stmt_walk. Qed.
Lemma evo_get_contact i : steps (evo R) (get_contact self i).
Proof. unfold get_contact. stmt_walk. Qed.
Lemma evo_list_contacts p c : steps (evo R) (list_contacts self p c).
Proof. unfold list_contacts. stmt_walk. Qed.
Lemma evo_delete_contact i : steps (evo R) (delete_contact self i).
Proof. unfold delete_contact. stmt_walk. Qed.
End Contacts.

Section Deals.
Context (self : DealService).

Lemma evo_require_stage st : steps (evo R) (require_stage self st).
Proof. unfold require_stage. stmt_walk. Qed.
Lemma evo_resolve_stage st : steps (evo R) (resolve_stage self st).
Proof. pose proof evo_require_stage. unfold resolve_stage. stmt_walk. Qed.
Lemma evo_ensure_deal i : steps (evo R) (ensure_deal self i).
Proof. unfold ensure_deal. stmt_walk. Qed.

Lemma evo_deal_unlink p f : (forall d, dl_id (f d) = dl_id d) -> steps (evo R) (deal_unlink self p f).
Proof.
  intros Hf. unfold deal_unlink. apply steps_bind; [apply _|stmt_walk|]. intros l.
  apply steps_bind; [apply _|apply (steps_for_each (evo R)); intros; by apply (stmt_upd _)|]. intros _.
  apply steps_bind; [apply _|stmt_walk|]. intros _.
  apply steps_bind; [apply _|apply (steps_for_each (evo R)); intros; stmt_walk|stmt_walk].
Qed.
Lemma evo_deal_unlink_contact c : steps (evo R) (deal_unlink_contact self c).
Proof. by apply evo_deal_unlink. Qed.
Lemma evo_deal_unlink_company c : steps (evo R) (deal_unlink_company self c).
Proof. by apply evo_deal_unlink. Qed.

Context `{!QuietAccess (dls_access self)}.
Lemma evo_deal_create b : steps (evo R) (deal_create self b).
Proof. pose proof evo_resolve_stage. unfold deal_create. stmt_walk. Qed.
Lemma evo_deal_update i b : steps (evo R) (deal_update self i b).
Proof. pose proof evo_require_stage. unfold deal_update. stmt_walk. Qed.
Lemma evo_deal_get i : steps (evo R) (deal_get self i).
Proof. unfold deal_get. stmt_walk. Qed.
Lemma evo_deal_list p st c k : steps (evo R) (deal_list self p st c k).
Proof. unfold deal_list. stmt_walk. Qed.
Lemma evo_deal_delete i : steps (evo R) (deal_delete self i).
Proof. unfold deal_delete. stmt_walk. Qed.
End Deals.

Section Activities.
Context (self : ActivityService).

Lemma evo_resolve_type ty : steps (evo R) (resolve_type self ty).
Proof. unfold resolve_type. stmt_walk. Qed.
Lemma evo_activity_links a b c : steps (evo R) (activity_links self a b c).
Proof. pose proof evo_ensure_deal. unfold activity_links. stmt_walk. Qed.
Lemma evo_require_member u : steps (evo R) (require_member self u).
Proof. unfold require_member, is_active_member. stmt_walk. Qed.
Lemma evo_activity_unlink p f :
  (forall a, ac_id (f a) = ac_id a) -> steps (evo R) (activity_unlink self p f).
Proof.
  intros Hf. unfold activity_unlink. apply steps_bind; [apply _|stmt_walk|]. intros l.
  apply steps_bind; [apply _|apply (steps_for_each (evo R)); intros; by apply (stmt_upd _)|]. intros _.
  apply steps_bind; [apply _|stmt_walk|]. intros _.
  apply steps_bind; [apply _|apply (steps_for_each (evo R)); intros; stmt_walk|stmt_walk].
Qed.

Context `{!QuietAccess (acs_access self)}.
Lemma evo_activity_create b : steps (evo R) (activity_create self b).
Proof.
  pose proof evo_resolve_type. pose proof evo_activity_links. pose proof evo_require_member.
  unfold activity_create, acs_actor_user_id. stmt_walk.
Qed.
Lemma evo_activity_update i b : steps (evo R) (activity_update self i b).
Proof.
  pose proof evo_resolve_type. pose proof evo_activity_links. pose proof evo_require_member.
  unfold activity_update. stmt_walk.
Qed.
Lemma evo_activity_complete i : steps (evo R) (activity_complete self i).
Proof. unfold activity_complete. stmt_walk. Qed.
Lemma evo_activity_reopen i : steps (evo R) (activity_reopen self i).
Proof. unfold activity_reopen. stmt_walk. Qed.
Lemma evo_activity_delete i : steps (evo R) (activity_delete self i).
Proof. unfold activity_delete. stmt_walk. Qed.
Lemma evo_activity_get i : steps (evo R) (activity_get self i).
Proof. unfold activity_get. stmt_walk. Qed.
Lemma evo_activity_list p q : steps (evo R) (activity_list self p q).
Proof. unfold activity_list, activity_filters, acs_actor_user_id. stmt_walk. Qed.
End Activities.

(** Subscribers. *)
Lemma evo_deleted_id e k : steps (evo R) (deleted_id e k).
Proof. unfold deleted_id. stmt_walk. Qed.
Lemma evo_handler_deals e : steps (evo R) (handler_deals e).
Proof. unfold handler_deals, new_contacts_service, new_deal_service. stmt_walk. Qed.
Lemma evo_handler_activities e : steps (evo R) (handler_activities e).
Proof.
  unfold handler_activities, new_contacts_service, new_deal_service, new_activity_service. stmt_walk.
Qed.
Lemma evo_deals_on_contact e : steps (evo R) (deals_on_contact_deleted e).
Proof.
  pose proof evo_deleted_id. pose proof evo_handler_deals. pose proof evo_deal_unlink_contact.
  unfold deals_on_contact_deleted. stmt_walk.
Qed.
Lemma evo_deals_on_company e : steps (evo R) (deals_on_company_deleted e).
Proof.
  pose proof evo_deleted_id. pose proof evo_handler_deals. pose proof evo_deal_unlink_company.
  unfold deals_on_company_deleted. stmt_walk.
Qed.
Lemma evo_activities_on k unlink e :
  (forall self i, steps (evo R) (unlink self i)) -> steps (evo R) (activities_on_deleted k unlink e).
Proof.
  intros Hu. pose proof evo_deleted_id. pose proof evo_handler_activities.
  unfold activities_on_deleted. stmt_walk.
Qed.
End Footprints.
