(* ===== verification/LinkFacts.v ===== *)
(** The links of deals and activities: each leads to a row of its tenant, or
    the deletion of that row has been announced. *)

From stdpp Require Import base strings gmap list sorting.
From Stdlib Require Import ZArith Lia Ascii.
From S2P Require Import Prelude Errors PyLib Calendar Entities Models Events Session SessionFacts.
From S2P Require Import Footprints Access Journal Tenants Payments PayFacts Notices DbFacts Crm.

Definition contacts_of (d : Db) : gmap N Contact := r_contacts (crm_of d).
Definition companies_of (d : Db) : gmap N Company := r_companies (crm_of d).
Definition deals_of (d : Db) : gmap N Deal := r_deals (crm_of d).
Definition activities_of (d : Db) : gmap N Activity := r_activities (crm_of d).

Inductive link_kind : Set := LContact | LCompany | LDeal.
#[export] Instance link_kind_eq_dec : EqDecision link_kind.
Proof. solve_decision. Defined.

Definition deal_link (k : link_kind) (x : Deal) : option uuid :=
  match k with LContact => dl_contact_id x | LCompany => dl_company_id x | LDeal => None end.
Definition activity_link (k : link_kind) (a : Activity) : option uuid :=
  match k with LContact => ac_contact_id a | LCompany => ac_company_id a | LDeal => ac_deal_id a end.

(** A deal or an activity of the tenant is linked to [i]. *)
Definition deal_linked (d : Db) (k : link_kind) (t i : uuid) : Prop :=
  exists j x, deals_of d !! j = Some x /\ dl_tenant_id x = t /\ deal_link k x = Some i.
Definition activity_linked (d : Db) (k : link_kind) (t i : uuid) : Prop :=
  exists j a, activities_of d !! j = Some a /\ ac_tenant_id a = t /\ activity_link k a = Some i.
Definition linked (d : Db) (k : link_kind) (t i : uuid) : Prop :=
  deal_linked d k t i \/ activity_linked d k t i.

(** The tenant has a row [i] of that kind. *)
Definition present (d : Db) (k : link_kind) (t i : uuid) : Prop :=
  match k with
  | LContact => exists j c, contacts_of d !! j = Some c /\ ct_id c = i /\ ct_tenant_id c = t
  | LCompany => exists j c, companies_of d !! j = Some c /\ cm_id c = i /\ cm_tenant_id c = t
  | LDeal => exists j x, deals_of d !! j = Some x /\ dl_id x = i /\ dl_tenant_id x = t
  end.

Definition deletion (k : link_kind) : string * string :=
  match k with
  | LContact => ("crm.contact.deleted", "contact_id")
  | LCompany => ("crm.company.deleted", "company_id")
  | LDeal => ("crm.deal.deleted", "deal_id")
  end.
Definition announces_deletion (k : link_kind) (t i : uuid) (e : EventEnvelope) : Prop :=
  e_name e = (deletion k).1 /\ e_tenant_id e = Some t /\
  assoc (deletion k).2 (e_payload e) = Some (JStr (uuid_str i)).

Definition links_sound (d : Db) (log : list EventEnvelope) : Prop :=
  forall k t i, linked d k t i ->
    present d k t i \/ exists e, e ∈ log /\ announces_deletion k t i e.

(** ** Changes that keep links sound without an announcement *)

Record crm_keep (d d' : Db) : Prop := {
  keep_present : forall k t i, present d k t i -> present d' k t i;
  keep_links : forall k t i, linked d' k t i -> present d' k t i \/ linked d k t i }.

#[export] Instance crm_keep_preorder : PreOrder crm_keep.
Proof.
  split.
  - intros d. split; auto.
  - intros d1 d2 d3 [P1 L1] [P2 L2]. split; [auto|]. intros k t i H.
    destruct (L2 _ _ _ H) as [?|H']; [auto|]. destruct (L1 _ _ _ H'); auto.
Qed.

Lemma keep_sound d d' log : crm_keep d d' -> links_sound d log -> links_sound d' log.
Proof.
  intros [Hp Hl] Hs k t i H. destruct (Hl _ _ _ H) as [?|H']; [auto|].
  destruct (Hs _ _ _ H'); auto.
Qed.

(** Writes to one of the tables. *)
Lemma keep_put_contact c d : contacts_of d !! ct_id c = None -> crm_keep d (t_put c d).
Proof.
  intros Hn. split; [|by right]. intros [] t i; try done. intros (j & x & Hj & H). exists j, x.
  split; [|done]. change (<[ct_id c := c]> (contacts_of d) !! j = Some x).
  rewrite lookup_insert_ne; [done|]. congruence.
Qed.
Lemma keep_put_company c d : companies_of d !! cm_id c = None -> crm_keep d (t_put c d).
Proof.
  intros Hn. split; [|by right]. intros [] t i; try done. intros (j & x & Hj & H). exists j, x.
  split; [|done]. change (<[cm_id c := c]> (companies_of d) !! j = Some x).
  rewrite lookup_insert_ne; [done|]. congruence.
Qed.

(** The links of a row lead to rows of its tenant. *)
Definition links_in (d : Db) (t : uuid) (link : link_kind -> option uuid) : Prop :=
  forall k i, link k = Some i -> present d k t i.

Lemma keep_put_deal x d :
  deals_of d !! dl_id x = None -> links_in d (dl_tenant_id x) (fun k => deal_link k x) ->
  crm_keep d (t_put x d).
Proof.
  intros Hn Hl. assert (Hd : deals_of (t_put x d) = <[dl_id x := x]> (deals_of d)) by done.
  assert (Hp : forall k t i, present d k t i -> present (t_put x d) k t i).
  { intros [] t i; try done. intros (j & y & Hj & H). exists j, y. split; [|done]. rewrite Hd.
    rewrite lookup_insert_ne; [done|]. congruence. }
  split; [done|]. intros k t i [(j & y & Hj & Ht & Hi)|H]; [|by right; right].
  rewrite Hd, lookup_insert in Hj. case_decide; [|right; left; by exists j, y].
  injection Hj as <-. left. apply Hp. subst t. by apply Hl.
Qed.

Lemma keep_upd_deal j (f : Deal -> Deal) d :
  (forall x, dl_id (f x) = dl_id x) -> (forall x, dl_tenant_id (f x) = dl_tenant_id x) ->
  (forall x, deals_of d !! j = Some x -> forall k i, deal_link k (f x) = Some i ->
     deal_link k x = Some i \/ present d k (dl_tenant_id x) i) ->
  crm_keep d (t_set (alter f j (t_get d)) d).
Proof.
  intros Hid Ht Hl.
  assert (Hd : deals_of (t_set (alter f j (t_get d)) d) = alter f j (deals_of d)) by done.
  assert (Hp : forall k t i, present d k t i -> present (t_set (alter f j (t_get d)) d) k t i).
  { intros [] t i; try done. intros (j' & y & Hj & H1 & H2). unfold present. rewrite Hd.
    destruct (decide (j = j')) as [<-|Hne].
    - exists j, (f y). by rewrite lookup_alter_eq, Hj, Hid, Ht.
    - exists j', y. by rewrite lookup_alter_ne. }
  split; [done|]. intros k t i [(j' & y & Hj & Hy & Hi)|H]; [|by right; right].
  rewrite Hd in Hj. destruct (decide (j = j')) as [<-|Hne].
  - rewrite lookup_alter_eq in Hj. destruct (deals_of d !! j) as [x|] eqn:Ex; [|done]. injection Hj as <-.
    rewrite Ht in Hy. destruct (Hl x eq_refl k i Hi) as [Hx|Hx]; [right; left; by exists j, x|].
    left. apply Hp. by rewrite <- Hy.
  - rewrite lookup_alter_ne in Hj by done. right. left. by exists j', y.
Qed.

Lemma keep_put_activity x d :
  links_in d (ac_tenant_id x) (fun k => activity_link k x) -> crm_keep d (t_put x d).
Proof.
  intros Hl. split; [by intros []|]. intros k t i [H|(j & y & Hj & Ht & Hi)]; [by right; left|].
  assert (Hd : activities_of (t_put x d) = <[ac_id x := x]> (activities_of d)) by done.
  rewrite Hd, lookup_insert in Hj. case_decide; [|right; right; by exists j, y].
  injection Hj as <-. left. subst t. specialize (Hl k i Hi). by destruct k.
Qed.

Lemma keep_upd_activity j (f : Activity -> Activity) d :
  (forall x, ac_tenant_id (f x) = ac_tenant_id x) ->
  (forall x, activities_of d !! j = Some x -> forall k i, activity_link k (f x) = Some i ->
     activity_link k x = Some i \/ present d k (ac_tenant_id x) i) ->
  crm_keep d (t_set (alter f j (t_get d)) d).
Proof.
  intros Ht Hl. split; [by intros []|]. intros k t i [H|(j' & y & Hj & Hy & Hi)]; [by right; left|].
  assert (Hd : activities_of (t_set (alter f j (t_get d)) d) = alter f j (activities_of d)) by done.
  rewrite Hd in Hj. destruct (decide (j = j')) as [<-|Hne].
  - rewrite lookup_alter_eq in Hj. destruct (activities_of d !! j) as [x|] eqn:Ex; [|done].
    injection Hj as <-. rewrite Ht in Hy. destruct (Hl x eq_refl k i Hi) as [Hx|Hx];
      [right; right; by exists j, x|]. left. rewrite <- Hy. by destruct k.
  - rewrite lookup_alter_ne in Hj by done. right. right. by exists j', y.
Qed.

Lemma keep_upd_contact j (f : Contact -> Contact) d :
  (forall x, ct_id (f x) = ct_id x) -> (forall x, ct_tenant_id (f x) = ct_tenant_id x) ->
  crm_keep d (t_set (alter f j (t_get d)) d).
Proof.
  intros Hid Ht. split; [|by right]. intros [] t i; try done. intros (j' & y & Hj & H1 & H2).
  unfold present. change (contacts_of (t_set (alter f j (t_get d)) d)) with (alter f j (contacts_of d)).
  destruct (decide (j = j')) as [<-|Hne].
  - exists j, (f y). by rewrite lookup_alter_eq, Hj, Hid, Ht.
  - exists j', y. by rewrite lookup_alter_ne.
Qed.
Lemma keep_upd_company j (f : Company -> Company) d :
  (forall x, cm_id (f x) = cm_id x) -> (forall x, cm_tenant_id (f x) = cm_tenant_id x) ->
  crm_keep d (t_set (alter f j (t_get d)) d).
Proof.
  intros Hid Ht. split; [|by right]. intros [] t i; try done. intros (j' & y & Hj & H1 & H2).
  unfold present. change (companies_of (t_set (alter f j (t_get d)) d)) with (alter f j (companies_of d)).
  destruct (decide (j = j')) as [<-|Hne].
  - exists j, (f y). by rewrite lookup_alter_eq, Hj, Hid, Ht.
  - exists j', y. by rewrite lookup_alter_ne.
Qed.

(** ** Statements *)

Lemma keep_insert {T} `{Table T} (r : T) s :
  (t_get (db s) !! t_id r = None -> crm_keep (db s) (t_put r (db s))) ->
  evo crm_keep s (insert_row r s).2.
Proof.
  intros Hp. unfold insert_row. destruct (aborted s); [reflexivity|].
  destruct (t_get (db s) !! t_id r) eqn:E; [by apply (evo_intro crm_keep)|].
  transitivity (st_db (t_put r) s); [|apply (evo_flush crm_keep)].
  apply (evo_intro crm_keep); [done|by apply Hp|done|done].
Qed.

Lemma keep_add {T} `{TenantTable T} t (mk : uuid -> T) s :
  (t_get (db s) !! t_id (mk t) = None -> crm_keep (db s) (t_put (mk t) (db s))) ->
  evo crm_keep s (repo_add t None mk s).2.
Proof.
  intros Hp. unfold repo_add. apply (rel_bind_post _); [reflexivity|]. intros [] s' [= <-].
  apply (rel_bind _); [by apply keep_insert|]. intros []. steps_walk.
Qed.

Lemma keep_write {T} `{Table T} i (f : T -> T) s :
  crm_keep (db s) (t_set (alter f i (t_get (db s))) (db s)) -> evo crm_keep s (upd i f s).2.
Proof. intros Hk. by apply (evo_intro crm_keep). Qed.

(** After a quiet statement the rows are the same. *)
Lemma keep_quiet {A B} (m : SM A) (k : A -> SM B) s :
  steps quiet m ->
  (forall a s', m s = (Ok a, s') -> db s' = db s -> evo crm_keep s' (k a s').2) ->
  evo crm_keep s (bind m k s).2.
Proof.
  intros Hq Hk. apply (rel_bind_post _); [by apply (quiet_steps_evo crm_keep)|]. intros a s' E.
  apply Hk; [done|]. by pose proof (quiet_db _ _ _ _ Hq E) as (_ & ? & _).
Qed.

(** Drawing an identifier and reading the clock. *)
Lemma keep_drawn {B} (k : uuid -> datetime -> SM B) s :
  (forall i t s', db s' = db s -> evo crm_keep s' (k i t s').2) ->
  evo crm_keep s ((i <- new_uuid7 ;; t <- now ;; k i t) s).2.
Proof.
  intros Hk. apply (rel_bind_post _); [by apply (evo_new_uuid7 crm_keep)|]. intros i s1 [= <- <-].
  apply (rel_bind_post _); [by apply (evo_now crm_keep)|]. intros t s2 [= <- <-]. by apply Hk.
Qed.

(** ** Validation *)

Lemma ensure_contact_Ok self c s u s' :
  ensure_contact self c s = (Ok u, s') -> s' = s /\ present (db s) LContact (cts_tenant self) c.
Proof.
  unfold ensure_contact. intros E. apply bind_inv_Ok in E as (r & s1 & E & Er).
  apply repo_get_or_raise_Ok in E as (-> & [j Hj] & Hi & Ht). injection Er as _ <-. split; [done|].
  by exists j, r.
Qed.
Lemma ensure_company_Ok self c s u s' :
  ensure_company self c s = (Ok u, s') -> s' = s /\ present (db s) LCompany (cts_tenant self) c.
Proof.
  unfold ensure_company. intros E. apply bind_inv_Ok in E as (r & s1 & E & Er).
  apply repo_get_or_raise_Ok in E as (-> & [j Hj] & Hi & Ht). injection Er as _ <-. split; [done|].
  by exists j, r.
Qed.
Lemma ensure_deal_Ok self c s u s' :
  ensure_deal self c s = (Ok u, s') -> s' = s /\ present (db s) LDeal (dls_tenant self) c.
Proof.
  unfold ensure_deal. intros E. apply bind_inv_Ok in E as (r & s1 & E & Er).
  apply repo_get_or_raise_Ok in E as (-> & [j Hj] & Hi & Ht). injection Er as _ <-. split; [done|].
  by exists j, r.
Qed.

Lemma validate_links_Ok contacts a b s u s' :
  validate_links contacts a b s = (Ok u, s') ->
  s' = s /\ (forall i, a = Some i -> present (db s) LContact (cts_tenant contacts) i) /\
  (forall i, b = Some i -> present (db s) LCompany (cts_tenant contacts) i).
Proof.
  unfold validate_links. intros E. apply bind_inv_Ok in E as (v & s1 & E1 & E2).
  assert (H1 : s1 = s /\ forall i, a = Some i -> present (db s) LContact (cts_tenant contacts) i).
  { destruct a as [c|]; [|by injection E1 as _ <-]. apply ensure_contact_Ok in E1 as [-> Hc].
    split; [done|]. by intros i [= <-]. }
  destruct H1 as [-> H1].
  destruct b as [c|]; [|by injection E2 as _ <-]. apply ensure_company_Ok in E2 as [-> Hc].
  split; [done|]. split; [done|]. by intros i [= <-].
Qed.

Lemma activity_links_Ok self a b c s u s' :
  activity_links self a b c s = (Ok u, s') ->
  cts_tenant (acs_contacts self) = acs_tenant self -> dls_tenant (acs_deals self) = acs_tenant self ->
  s' = s /\ links_in (db s) (acs_tenant self)
    (fun k => match k with LContact => a | LCompany => b | LDeal => c end).
Proof.
  unfold activity_links. intros E T1 T2. apply bind_inv_Ok in E as (v & s1 & E1 & E2).
  apply validate_links_Ok in E1 as (-> & H1 & H2). rewrite T1 in H1, H2.
  assert (H3 : s' = s /\ forall i, c = Some i -> present (db s) LDeal (acs_tenant self) i).
  { destruct c as [x|]; [|by injection E2 as _ <-]. apply ensure_deal_Ok in E2 as [-> Hc].
    rewrite T2 in Hc. split; [done|]. by intros i [= <-]. }
  destruct H3 as [-> H3]. split; [done|]. intros [] i; auto.
Qed.

(** ** The operations *)

Section Contacts.
Context (self : ContactsService) `{!QuietAccess (cts_access self)}.

Lemma keep_create_company b : steps (evo crm_keep) (create_company self b).
Proof.
  intros s. unfold create_company. apply keep_quiet; [by apply quiet_guard|]. intros u s1 _ _.
  apply keep_drawn. intros i t s2 _. apply (rel_bind _).
  - apply keep_add. intros Hn. by apply keep_put_company.
  - intros c. unfold company_event. steps_walk.
Qed.
Lemma keep_update_company i b : steps (evo crm_keep) (update_company self i b).
Proof.
  unfold update_company. apply steps_bind; [apply _|by apply (evo_guard crm_keep)|]. intros _.
  apply steps_bind; [apply _|steps_walk|]. intros c. apply steps_bind; [apply _| |unfold company_event; steps_walk].
  intros s. apply keep_write. by apply keep_upd_company.
Qed.
Lemma keep_create_contact b : steps (evo crm_keep) (create_contact self b).
Proof.
  unfold create_contact. apply steps_bind; [apply _|by apply (evo_guard crm_keep)|]. intros _.
  apply steps_bind; [apply _|by apply (evo_check_company crm_keep)|]. intros _ s.
  apply keep_drawn. intros i t s2 _. apply (rel_bind _).
  - apply keep_add. intros Hn. by apply keep_put_contact.
  - intros c. unfold contact_event. steps_walk.
Qed.
Lemma keep_update_contact i b : steps (evo crm_keep) (update_contact self i b).
Proof.
  unfold update_contact. apply steps_bind; [apply _|by apply (evo_guard crm_keep)|]. intros _.
  apply steps_bind; [apply _|steps_walk|]. intros c.
  apply steps_bind; [apply _|by apply (evo_check_company crm_keep)|]. intros _.
  apply steps_bind; [apply _| |unfold contact_event; steps_walk].
  intros s. apply keep_write. by apply keep_upd_contact.
Qed.
End Contacts.

(** A PATCH of a link sets a validated one, keeps the old one or clears it. *)
Lemma patched_link_spec v clear old i :
  patched_link v clear old = Some i -> v = Some i \/ old = Some i.
Proof. destruct v as [x|]; simpl; [auto|]. destruct clear; [done|auto]. Qed.

Section Deals.
Context (self : DealService) `{!QuietAccess (dls_access self)}.
Hypothesis Htenant : cts_tenant (dls_contacts self) = dls_tenant self.

Lemma keep_deal_create b : steps (evo crm_keep) (deal_create self b).
Proof.
  unfold deal_create. apply steps_bind; [apply _|by apply (evo_guard crm_keep)|]. intros _.
  apply steps_bind; [apply _|steps_walk|]. intros _. apply steps_bind; [apply _|steps_walk|]. intros _.
  apply steps_bind; [apply _|by apply (evo_resolve_stage crm_keep)|]. intros stage s.
  apply (rel_bind_post _); [by apply (evo_validate_links crm_keep)|]. intros u s1 E.
  apply validate_links_Ok in E as (-> & H1 & H2). rewrite Htenant in H1, H2.
  apply keep_drawn. intros i t s2 Hd. apply (rel_bind _); [|intros d; unfold deal_event; steps_walk].
  apply keep_add. intros Hn. apply keep_put_deal; [done|]. rewrite Hd. intros [] c Hc; [auto|auto|done].
Qed.

Lemma keep_deal_update i b s :
  Keyed (R:=Deal) (db s) -> evo crm_keep s (deal_update self i b s).2.
Proof.
  intros Hk. unfold deal_update. apply keep_quiet; [by apply quiet_guard|]. intros u0 s0 _ D0.
  rewrite <- D0 in Hk. clear D0.
  apply (rel_bind_post _); [by apply (evo_repo_get_or_raise crm_keep)|]. intros deal s1 E.
  apply repo_get_or_raise_Ok in E as (-> & [j Hj] & Hi & Ht).
  apply (rel_bind_post _); [by apply (evo_validate_links crm_keep)|]. intros u s1 E.
  apply validate_links_Ok in E as (-> & H1 & H2). rewrite Htenant in H1, H2.
  apply keep_quiet; [steps_walk|]. intros u1 s1 _ D1.
  apply keep_quiet; [unfold require_stage; steps_walk|]. intros u2 s2 _ D2. rewrite D1 in D2.
  apply (rel_bind _); [|intros; unfold deal_event; steps_walk].
  apply keep_write, keep_upd_deal; [done|done|]. rewrite D2. intros x Hx k c Hc.
  assert (x = deal) as ->.
  { pose proof (Hk j deal Hj) as Hid. change (t_id deal) with (dl_id deal) in Hid. rewrite Hid in Hx.
    unfold deals_of in Hx. change (t_get (db s0) !! j = Some x) in Hx. congruence. }
  change (t_tenant deal) with (dl_tenant_id deal) in Ht. rewrite Ht.
  destruct k; simpl in Hc; [| |done]; apply patched_link_spec in Hc as [Hc|Hc]; auto.
Qed.

(** Clearing links. *)
Lemma keep_deal_unlink p (f : Deal -> Deal) :
  (forall x, dl_id (f x) = dl_id x) -> (forall x, dl_tenant_id (f x) = dl_tenant_id x) ->
  (forall x k i, deal_link k (f x) = Some i -> deal_link k x = Some i) ->
  steps (evo crm_keep) (deal_unlink self p f).
Proof.
  intros Hid Ht Hl. unfold deal_unlink. apply steps_bind; [apply _|steps_walk|]. intros l.
  apply steps_bind; [apply _| |].
  - apply (steps_for_each (evo crm_keep)). intros x s. apply keep_write, keep_upd_deal; auto.
  - intros _. apply steps_bind; [apply _|steps_walk|]. intros _.
    apply steps_bind; [apply _| |steps_walk]. apply (steps_for_each (evo crm_keep)). intros x.
    unfold deal_event. steps_walk.
Qed.
End Deals.

Section Activities.
Context (self : ActivityService) `{!QuietAccess (acs_access self)}.
Hypothesis Htenant : cts_tenant (acs_contacts self) = acs_tenant self.
Hypothesis Htenant' : dls_tenant (acs_deals self) = acs_tenant self.

Lemma keep_activity_create b : steps (evo crm_keep) (activity_create self b).
Proof.
  unfold activity_create, acs_actor_user_id. apply steps_bind; [apply _|by apply (evo_guard crm_keep)|]. intros _.
  apply steps_bind; [apply _|by apply (evo_resolve_type crm_keep)|]. intros ty.
  apply steps_bind; [apply _|steps_walk|]. intros [assignee|]; [|steps_walk].
  apply steps_bind; [apply _|by apply (evo_require_member crm_keep)|]. intros _ s.
  apply (rel_bind_post _); [by apply (evo_activity_links crm_keep)|]. intros u s1 E.
  apply activity_links_Ok in E as [-> Hl]; [|done..].
  apply keep_drawn. intros i t s2 Hd. apply (rel_bind _); [|intros d; unfold activity_event; steps_walk].
  apply keep_add. intros Hn. apply keep_put_activity. rewrite Hd. intros [] c Hc; by apply Hl.
Qed.

Lemma keep_activity_update i b s :
  Keyed (R:=Activity) (db s) -> evo crm_keep s (activity_update self i b s).2.
Proof.
  intros Hk. unfold activity_update. apply keep_quiet; [by apply quiet_guard|]. intros u0 s0 _ D0.
  rewrite <- D0 in Hk. clear D0.
  apply (rel_bind_post _); [by apply (evo_repo_get_or_raise crm_keep)|]. intros a s1 E.
  apply repo_get_or_raise_Ok in E as (-> & [j Hj] & Hi & Ht).
  apply keep_quiet; [unfold resolve_type; steps_walk|]. intros u1 s1 _ D1.
  apply keep_quiet; [unfold require_member, is_active_member; steps_walk; apply quiet_get_db|].
  intros u2 s2 _ D2. rewrite D1 in D2.
  apply (rel_bind_post _); [by apply (evo_activity_links crm_keep)|]. intros u s3 E.
  apply activity_links_Ok in E as [-> Hl]; [|done..]. rewrite D2 in Hl.
  apply (rel_bind _); [|intros; unfold activity_event; steps_walk].
  apply keep_write, keep_upd_activity; [done|]. rewrite D2. intros x Hx k c Hc.
  assert (x = a) as ->.
  { pose proof (Hk j a Hj) as Hid. change (t_id a) with (ac_id a) in Hid. rewrite Hid in Hx.
    change (t_get (db s0) !! j = Some x) in Hx. congruence. }
  change (t_tenant a) with (ac_tenant_id a) in Ht. rewrite Ht.
  destruct k; simpl in Hc; apply patched_link_spec in Hc as [Hc|Hc]; auto; right; by apply Hl.
Qed.

Lemma keep_set_done i (m : SM (option datetime)) s :
  steps quiet m -> evo crm_keep s ((t <- m ;; upd i (set_done t)) s).2.
Proof.
  intros Hq. apply keep_quiet; [done|]. intros t s1 _ _. apply keep_write, keep_upd_activity; [done|].
  intros x _ [] c Hc; by left.
Qed.
Lemma keep_activity_complete i : steps (evo crm_keep) (activity_complete self i).
Proof.
  unfold activity_complete. apply steps_bind; [apply _|by apply (evo_guard crm_keep)|]. intros _.
  apply steps_bind; [apply _|steps_walk|]. intros a. destruct (ac_done_at a); [steps_walk|].
  apply steps_bind; [apply _|steps_walk|]. intros t.
  apply steps_bind; [apply _| |unfold activity_event; steps_walk].
  intros s. apply (keep_set_done _ (ret (Some t))). steps_walk.
Qed.
Lemma keep_activity_reopen i : steps (evo crm_keep) (activity_reopen self i).
Proof.
  unfold activity_reopen. apply steps_bind; [apply _|by apply (evo_guard crm_keep)|]. intros _.
  apply steps_bind; [apply _|steps_walk|]. intros a. destruct (ac_done_at a); [|steps_walk].
  apply steps_bind; [apply _| |unfold activity_event; steps_walk].
  intros s. apply (keep_set_done _ (ret None)). steps_walk.
Qed.

Lemma keep_activity_unlink p (f : Activity -> Activity) :
  (forall x, ac_tenant_id (f x) = ac_tenant_id x) ->
  (forall x k i, activity_link k (f x) = Some i -> activity_link k x = Some i) ->
  steps (evo crm_keep) (activity_unlink self p f).
Proof.
  intros Ht Hl. unfold activity_unlink. apply steps_bind; [apply _|steps_walk|]. intros l.
  apply steps_bind; [apply _| |].
  - apply (steps_for_each (evo crm_keep)). intros x s. apply keep_write, keep_upd_activity; auto.
  - intros _. apply steps_bind; [apply _|steps_walk|]. intros _.
    apply steps_bind; [apply _| |steps_walk]. apply (steps_for_each (evo crm_keep)). intros x.
    unfold activity_event. steps_walk.
Qed.
End Activities.

(** ** Deletions *)

Lemma deletion_sound k t i d d' log es e :
  (forall k' t' i', present d k' t' i' -> present d' k' t' i' \/ (k', t', i') = (k, t, i)) ->
  (forall k' t' i', linked d' k' t' i' -> linked d k' t' i') ->
  announces_deletion k t i e -> e ∈ es -> links_sound d log -> links_sound d' (log ++ es).
Proof.
  intros Hp Hl Ha He Hs k' t' i' H. destruct (Hs _ _ _ (Hl _ _ _ H)) as [H'|(e' & He' & Ha')].
  - destruct (Hp _ _ _ H') as [?|[= -> -> ->]]; [by left|]. right. exists e. set_solver.
  - right. exists e'. set_solver.
Qed.

(** A row found by the repository is the one under its key. *)
Lemma found_row {T} `{TenantTable T} m t i s (r : T) s' :
  Keyed (R:=T) (db s) -> repo_get_or_raise m t i s = (Ok r, s') ->
  s' = s /\ t_get (db s) !! i = Some r /\ t_id r = i /\ t_tenant r = t.
Proof.
  intros Hk E. apply repo_get_or_raise_Ok in E as (-> & [j Hj] & Hi & Ht).
  pose proof (Hk j r Hj) as Hid. rewrite Hi in Hid. subst j. done.
Qed.

Lemma repo_delete_Ok {T} `{TenantTable T} t (r : T) s u s' :
  repo_delete t r s = (Ok u, s') -> s' = st_db (t_del (R:=T) (t_id r)) s.
Proof. unfold repo_delete. case_bool_decide; [|done]. unfold modify. by intros [= _ <-]. Qed.

(** What a deletion leaves behind, with its announcement pending. *)
Definition deleted (k : link_kind) (t i : uuid) (d d' : Db) (cs : list (svc * list EventEnvelope)) : Prop :=
  (forall k' t' i', present d k' t' i' -> present d' k' t' i' \/ (k', t', i') = (k, t, i)) /\
  (forall k' t' i', linked d' k' t' i' -> linked d k' t' i') /\
  exists e, announces_deletion k t i e /\ e ∈ pending_events cs.

Section Deletions.
Context (ctx : TenantContext) (t : uuid) (s : St).
Hypothesis Ht : c_tenant_id ctx = Some t.
Hypothesis Hc : callbacks s = [].

Lemma announced_first sv k i s0 u s' :
  callbacks s0 = [] ->
  (emit sv ctx (deletion k).1 [((deletion k).2, JStr (uuid_str i))] ;;; ret tt) s0 = (Ok u, s') ->
  db s' = db s0 /\ exists e, announces_deletion k t i e /\ e ∈ pending_events (callbacks s').
Proof.
  intros H0 E. apply bind_inv_Ok in E as (x & s1 & E & Er). unfold ret in Er. injection Er as _ <-.
  apply emit_first in E as (Hd & e & E1 & E2 & E3 & E4); [|done]. split; [done|]. exists e. split.
  - split; [done|]. split; [by rewrite E3|]. rewrite E4. simpl. by rewrite bool_decide_true.
  - rewrite E1. simpl. set_solver.
Qed.

(** The common beginning of the deletions. *)
Lemma delete_prefix {T A} `{TenantTable T} (g : SM unit) model i (rest : T -> SM A) a s' :
  steps quiet g -> Keyed (R:=T) (db s) ->
  (g ;;; r <- repo_get_or_raise model t i ;; repo_delete t r ;;; rest r) s = (Ok a, s') ->
  exists r s1, t_get (db s) !! i = Some r /\ t_id r = i /\ t_tenant r = t /\
    db s1 = t_del (R:=T) i (db s) /\ callbacks s1 = [] /\ rest r s1 = (Ok a, s').
Proof.
  intros Hq Hk E. apply bind_inv_Ok in E as (v & s1 & Eg & E).
  pose proof (quiet_db _ _ _ _ Hq Eg) as (_ & D1 & _ & _ & C1 & _).
  rewrite <- D1 in Hk. apply bind_inv_Ok in E as (r & s2 & Ef & E).
  apply found_row in Ef as (-> & Hi & Hid & Hten); [|done].
  apply bind_inv_Ok in E as (v' & s3 & Ed & E). apply repo_delete_Ok in Ed. rewrite Hid in Ed. subst s3.
  exists r, (st_db (t_del (R:=T) i) s1). rewrite D1 in Hi. simpl. rewrite D1, C1. done.
Qed.

(** The other rows stay. *)
Lemma del_present {T} `{TenantTable T, !TableLaws T} d i (r : T) t' i' :
  t_get d !! i = Some r -> t_id r = i -> t_tenant r = t ->
  (exists j c, t_get d !! j = Some c /\ t_id c = i' /\ t_tenant c = t') ->
  (exists j c, t_get (t_del (R:=T) i d) !! j = Some c /\ t_id c = i' /\ t_tenant c = t') \/ (t', i') = (t, i).
Proof.
  intros Hi Hid Hr (j & c & Hj & Hcd & Hct). destruct (decide (j = i)) as [->|Hne].
  - right. assert (c = r) as -> by congruence. congruence.
  - left. exists j, c. unfold t_del. rewrite t_get_set, lookup_delete_ne by done. done.
Qed.

Lemma delete_contact_Ok a i u s' :
  QuietAccess a -> Keyed (R:=Contact) (db s) ->
  delete_contact (mkContacts ctx t a) i s = (Ok u, s') -> deleted LContact t i (db s) (db s') (callbacks s').
Proof.
  intros Ha Hk E. apply delete_prefix in E as (r & s1 & Hi & Hid & Hten & D1 & C1 & E); [|by apply quiet_guard|done].
  destruct (announced_first SvcContacts LContact i s1 u s' C1 E) as [D3 He]. rewrite D3, D1.
  split; [|split; [by intros k' t' i' [?|?]; [left|right]|done]].
  intros [] t' i' H; try by left.
  destruct (del_present (db s) i r t' i' Hi Hid Hten H) as [?|[= -> ->]]; [by left|by right].
Qed.

Lemma deal_delete_Ok contacts stages currencies a i u s' :
  QuietAccess a -> Keyed (R:=Deal) (db s) ->
  deal_delete (mkDeals ctx t contacts stages currencies a) i s = (Ok u, s') ->
  deleted LDeal t i (db s) (db s') (callbacks s').
Proof.
  intros Ha Hk E. apply delete_prefix in E as (r & s1 & Hi & Hid & Hten & D1 & C1 & E); [|by apply quiet_guard|done].
  destruct (announced_first SvcDeals LDeal i s1 u s' C1 E) as [D3 He]. rewrite D3, D1.
  split; [|split; [|done]].
  - intros [] t' i' H; try by left.
    destruct (del_present (db s) i r t' i' Hi Hid Hten H) as [?|[= -> ->]]; [by left|by right].
  - intros k' t' i' [(j & x & Hj & Hx)|H]; [|by right]. left. exists j, x. split; [|done].
    change (delete i (deals_of (db s)) !! j = Some x) in Hj. by apply lookup_delete_Some in Hj as [_ ?].
Qed.

Lemma delete_company_Ok a i u s' :
  QuietAccess a -> Keyed (R:=Company) (db s) ->
  delete_company (mkContacts ctx t a) i s = (Ok u, s') -> deleted LCompany t i (db s) (db s') (callbacks s').
Proof.
  intros Ha Hk E. apply delete_prefix in E as (r & s1 & Hi & Hid & Hten & D1 & C1 & E); [|by apply quiet_guard|done].
  unfold on_delete_company in E. erewrite bind_Ok in E by reflexivity. cbv beta in E.
  match type of E with company_event _ _ _ ?x = _ => set (s2 := x) in E end.
  destruct (announced_first SvcContacts LCompany i s2 u s') as [D3 He]; [done|exact E|].
  rewrite D3. unfold s2. cbn [db st_db]. rewrite D1.
  set (d1 := t_del (R:=Company) i (db s)). split; [|split; [by intros k' t' i' [?|?]; [left|right]|done]].
  intros [] t' i' H; try by left.
  - left. destruct H as (j & c & Hj & Hcc). exists j, (unassign (cm_id r) c). split.
    + change (contacts_of (t_set (unassign (cm_id r) <$> t_get d1) d1)) with (unassign (cm_id r) <$> contacts_of (db s)).
      by rewrite lookup_fmap, Hj.
    + unfold unassign. by case_bool_decide.
  - destruct (del_present (db s) i r t' i' Hi Hid Hten H) as [?|[= -> ->]]; [by left|by right].
Qed.
End Deletions.

Lemma keep_activity_delete self `{!QuietAccess (acs_access self)} i :
  steps (evo crm_keep) (activity_delete self i).
Proof.
  unfold activity_delete. apply steps_bind; [apply _|by apply (evo_guard crm_keep)|]. intros _.
  apply steps_bind; [apply _|steps_walk|]. intros a.
  apply steps_bind; [apply _| |intros; unfold activity_event; steps_walk].
  intros s. unfold repo_delete. case_bool_decide; [|reflexivity].
  apply (evo_intro crm_keep); [done| |done|done]. split; [by intros []|].
  intros k t' i' [Hl|(j & x & Hj & Hx)]; [by right; left|]. right. right. exists j, x. split; [|done].
  change (delete (ac_id a) (activities_of (db s)) !! j = Some x) in Hj. by apply lookup_delete_Some in Hj as [_ ?].
Qed.

(** ** Clearing *)

Lemma for_each_upd {T} `{Table T, !TableLaws T} (f : T -> T) (l : list T) s u s' :
  (forall x, f (f x) = f x) ->
  for_each l (fun x => upd (t_id x) f) s = (Ok u, s') ->
  (aborted s' = aborted s) /\
  forall j, t_get (db s') !! j =
    if bool_decide (j ∈ t_id <$> l) then f <$> t_get (R:=T) (db s) !! j else t_get (db s) !! j.
Proof.
  intros Hf. revert s. induction l as [|x l IH]; intros s E; simpl in E.
  - unfold ret in E. injection E as _ <-. split; [done|]. intros j. rewrite bool_decide_false; [done|set_solver].
  - erewrite bind_Ok in E by reflexivity. destruct (IH _ E) as [Ha Hl]. split; [by rewrite Ha|].
    intros j. rewrite Hl. cbn [db st_db]. rewrite t_get_set. rewrite fmap_cons.
    destruct (decide (j = t_id x)) as [->|Hne].
    + rewrite lookup_alter_eq, (bool_decide_true (t_id x ∈ t_id x :: _)) by set_solver.
      destruct (t_get (db s) !! t_id x) as [y|]; simpl; case_bool_decide; by rewrite ?Hf.
    + rewrite lookup_alter_ne by done.
      by rewrite (bool_decide_ext (j ∈ t_id x :: _) (j ∈ t_id <$> l)) by set_solver.
Qed.

Lemma for_each_quiet_db {A} (l : list A) (f : A -> SM unit) s u s' :
  (forall a s u s', f a s = (Ok u, s') -> db s' = db s) -> for_each l f s = (Ok u, s') -> db s' = db s.
Proof.
  intros Hf. revert s. induction l as [|a l IH]; intros s E; simpl in E.
  - unfold ret in E. by injection E as _ <-.
  - apply bind_inv_Ok in E as (v & s1 & E1 & E). rewrite (IH _ E). by eapply Hf.
Qed.

Lemma emit_db sv ctx n p s i s' : emit sv ctx n p s = (Ok i, s') -> db s' = db s.
Proof.
  unfold emit, envelope. intros E. apply bind_inv_Ok in E as (e & s1 & Hv & E).
  apply bind_inv_Ok in Hv as (u & s2 & Hn & Hv).
  assert (s2 = s) as -> by (unfold lift_res in Hn; destruct (validate_event_name n); by simplify_eq).
  unfold bind, new_uuid7, now, ret in Hv. injection Hv as <- <-.
  unfold bind, modify, ret in E. by injection E as _ <-.
Qed.

(** Both [_unlink] methods, over their table. *)
Lemma unlink_clears {T} `{TenantTable T, !TableLaws T} t (p : T -> bool) (f : T -> T) (ev : T -> SM unit)
    s z s' :
  (forall x, f (f x) = f x) -> (forall x, t_tenant (f x) = t_tenant x) -> (forall x, p (f x) = false) ->
  (forall x s u s', ev x s = (Ok u, s') -> db s' = db s) -> Keyed (R:=T) (db s) ->
  (rows <- repo_find t p id None ;;
   for_each rows (fun x => upd (t_id x) f) ;;;
   flush ;;;
   for_each rows ev ;;;
   ret (Z.of_nat (length rows))) s = (Ok z, s') ->
  forall j x, t_get (db s') !! j = Some x -> t_tenant x = t -> p x = false.
Proof.
  intros Hf Hten Hp Hev Hk E j x Hj Hx. apply bind_inv_Ok in E as (rs & s1 & Eq & E).
  assert (Hrs : s1 = s /\ rs = select (fun r => bool_decide (t_tenant r = t) && p r) (t_get (db s))).
  { unfold repo_find, repo_select, query, get_db, bind in Eq. destruct (aborted s); [done|].
    unfold ret in Eq. by injection Eq as <- <-. }
  destruct Hrs as [-> Hrs]. apply bind_inv_Ok in E as (u1 & s2 & E1 & E).
  destruct (for_each_upd f rs s u1 s2 Hf E1) as [_ Hl].
  apply bind_inv_Ok in E as (u2 & s3 & E2 & E). pose proof E2 as (_ & _ & _ & -> & _)%flush_inv.
  apply bind_inv_Ok in E as (u3 & s4 & E3 & E). unfold ret in E. injection E as _ <-.
  apply for_each_quiet_db in E3; [|done]. rewrite E3, Hl in Hj.
  case_bool_decide as Hin.
  - destruct (t_get (db s) !! j) as [y|]; [|done]. injection Hj as <-. apply Hp.
  - destruct (p x) eqn:Ep; [|done]. destruct Hin. rewrite <- (Hk j x Hj). apply list_elem_of_fmap_2.
    rewrite Hrs. apply elem_of_select. split; [by exists j|]. by rewrite bool_decide_true, Ep.
Qed.

Lemma deal_event_db self n i s u s' : deal_event self n i s = (Ok u, s') -> db s' = db s.
Proof.
  unfold deal_event. intros E. apply bind_inv_Ok in E as (x & s1 & E & Er). unfold ret in Er.
  injection Er as _ <-. by eapply emit_db.
Qed.
Lemma activity_event_db self n i s u s' : activity_event self n i s = (Ok u, s') -> db s' = db s.
Proof.
  unfold activity_event. intros E. apply bind_inv_Ok in E as (x & s1 & E & Er). unfold ret in Er.
  injection Er as _ <-. by eapply emit_db.
Qed.

Lemma deal_unlink_all self (p : Deal -> bool) f s z s' :
  (forall x, f (f x) = f x) -> (forall x, dl_tenant_id (f x) = dl_tenant_id x) -> (forall x, p (f x) = false) ->
  Keyed (R:=Deal) (db s) -> deal_unlink self p f s = (Ok z, s') ->
  forall j x, deals_of (db s') !! j = Some x -> dl_tenant_id x = dls_tenant self -> p x = false.
Proof.
  intros Hf Ht Hp Hk E. refine (unlink_clears (dls_tenant self) p f
    (fun d => deal_event self "crm.deal.updated" (dl_id d)) s z s' Hf Ht Hp _ Hk E).
  intros x. apply deal_event_db.
Qed.
Lemma activity_unlink_all self (p : Activity -> bool) f s z s' :
  (forall x, f (f x) = f x) -> (forall x, ac_tenant_id (f x) = ac_tenant_id x) -> (forall x, p (f x) = false) ->
  Keyed (R:=Activity) (db s) -> activity_unlink self p f s = (Ok z, s') ->
  forall j x, activities_of (db s') !! j = Some x -> ac_tenant_id x = acs_tenant self -> p x = false.
Proof.
  intros Hf Ht Hp Hk E. refine (unlink_clears (acs_tenant self) p f
    (fun a => activity_event self "crm.activity.updated" (ac_id a)) s z s' Hf Ht Hp _ Hk E).
  intros x. apply activity_event_db.
Qed.

(** The handler of deals for a kind of deletion, and the one of activities. *)
Definition deal_cleaner (k : link_kind) (self : DealService) (i : uuid) : SM Z :=
  match k with LContact => deal_unlink_contact self i | _ => deal_unlink_company self i end.
Definition activity_cleaner (k : link_kind) (self : ActivityService) (i : uuid) : SM Z :=
  match k with
  | LContact => activity_unlink_contact self i
  | LCompany => activity_unlink_company self i
  | LDeal => activity_unlink_deal self i
  end.

Lemma deal_cleaner_clears k self c s z s' :
  k ≠ LDeal -> Keyed (R:=Deal) (db s) -> deal_cleaner k self c s = (Ok z, s') ->
  ~ deal_linked (db s') k (dls_tenant self) c.
Proof.
  intros Hd Hk E (j & x & Hj & Ht & Hl). destruct k; [| |done];
    (eapply deal_unlink_all in E; [|done..|exact Hj|exact Ht]; simpl in Hl;
     by rewrite bool_decide_true in E).
Qed.
Lemma activity_cleaner_clears k self c s z s' :
  Keyed (R:=Activity) (db s) -> activity_cleaner k self c s = (Ok z, s') ->
  ~ activity_linked (db s') k (acs_tenant self) c.
Proof.
  intros Hk E (j & x & Hj & Ht & Hl). destruct k;
    (eapply activity_unlink_all in E; [|done..|exact Hj|exact Ht]; simpl in Hl;
     by rewrite bool_decide_true in E).
Qed.

(** ** Subscribers *)

Lemma keep_deal_cleaner k self i : steps (evo crm_keep) (deal_cleaner k self i).
Proof. destruct k; apply keep_deal_unlink; try done; by intros x []. Qed.
Lemma keep_activity_cleaner k self i : steps (evo crm_keep) (activity_cleaner k self i).
Proof. destruct k; apply keep_activity_unlink; try done; by intros x []. Qed.

(** The subscribers to the deletion of one kind of row. *)
Definition deals_subscriber (k : link_kind) (e : EventEnvelope) : SM unit :=
  match k with
  | LContact => deals_on_contact_deleted e
  | LCompany => deals_on_company_deleted e
  | LDeal => ret tt
  end.
Definition activities_subscriber (k : link_kind) : EventEnvelope -> SM unit :=
  match k with
  | LContact => activities_on_contact_deleted
  | LCompany => activities_on_company_deleted
  | LDeal => activities_on_deal_deleted
  end.

Lemma keep_deals_subscriber k e : steps (evo crm_keep) (deals_subscriber k e).
Proof.
  pose proof (evo_deleted_id crm_keep). pose proof (evo_handler_deals crm_keep).
  destruct k; unfold deals_subscriber, deals_on_contact_deleted, deals_on_company_deleted; [| |steps_walk].
  - pose proof (keep_deal_cleaner LContact). steps_walk.
  - pose proof (keep_deal_cleaner LCompany). steps_walk.
Qed.
Lemma keep_activities_subscriber k e : steps (evo crm_keep) (activities_subscriber k e).
Proof.
  pose proof (evo_deleted_id crm_keep). pose proof (evo_handler_activities crm_keep).
  pose proof (keep_activity_cleaner k). destruct k; unfold activities_subscriber, activities_on_contact_deleted,
    activities_on_company_deleted, activities_on_deal_deleted, activities_on_deleted; steps_walk.
Qed.

(** ** The subscribers end well *)

Definition okd (d : Db) : Prop := db_ok d = true /\ db_ranges d = true.

Lemma all_rows_alter {A} (q : A -> bool) (f : A -> A) j (t : gmap N A) :
  (forall x, q (f x) = q x) -> all_rows q t = true -> all_rows q (alter f j t) = true.
Proof.
  rewrite !all_rows_spec. intros Hf Ht i a Hi. destruct (decide (j = i)) as [<-|Hne].
  - rewrite lookup_alter_eq in Hi. destruct (t !! j) as [x|] eqn:Ex; [|done]. injection Hi as <-.
    rewrite Hf. by eapply Ht.
  - rewrite lookup_alter_ne in Hi by done. by eapply Ht.
Qed.

Lemma okd_alter_deal (f : Deal -> Deal) j d :
  (forall x, dl_amount (f x) = dl_amount x) -> okd d -> okd (t_set (alter f j (t_get d)) d).
Proof.
  intros Hf [Hok Hr]. split.
  - unfold db_ok, core_ok, crm_ok in *. simpl in *. split_ok. join_ok; try assumption.
    apply all_rows_alter; [|assumption]. intros x. by rewrite Hf.
  - unfold db_ranges, core_ranges in *. simpl in *. split_ok. join_ok; try assumption.
    apply all_rows_alter; [|assumption]. intros x. by rewrite Hf.
Qed.
Lemma okd_alter_activity (f : Activity -> Activity) j d : okd d -> okd (t_set (alter f j (t_get d)) d).
Proof. by intros []. Qed.

Lemma with_uow_run {A} (body : SM A) s a s1 :
  body (uow_enter s) = (Ok a, s1) -> aborted s1 = false -> okd (db s1) ->
  (with_uow body s).1 = Ok a /\ committed (with_uow body s).2 = db s1.
Proof.
  intros E Ha [Hk Hr]. unfold with_uow, bind. rewrite E. unfold session_commit, bind.
  by rewrite (flush_run s1).
Qed.

(** Statements that always end well and only queue an event. *)
Definition queues (m : SM unit) : Prop :=
  forall s, exists s', m s = (Ok tt, s') /\ db s' = db s /\ aborted s' = aborted s.

Lemma for_each_queues {A} (l : list A) (f : A -> SM unit) : (forall a, queues (f a)) -> queues (for_each l f).
Proof.
  intros Hf. induction l as [|a l IH]; intros s; [by exists s|]. simpl.
  destruct (Hf a s) as (s1 & E1 & D1 & A1), (IH s1) as (s2 & E2 & D2 & A2). exists s2.
  erewrite bind_Ok by exact E1. split; [done|]. split; congruence.
Qed.

Lemma unlink_runs {T} `{TenantTable T} (P : Db -> Prop) t (p : T -> bool) (f : T -> T) (ev : T -> SM unit) s :
  (forall d, P d -> okd d) -> (forall d j, P d -> P (t_set (alter f j (t_get d)) d)) -> (forall x, queues (ev x)) ->
  aborted s = false -> P (db s) ->
  exists z s', (rows <- repo_find t p id None ;;
    for_each rows (fun x => upd (t_id x) f) ;;;
    flush ;;;
    for_each rows ev ;;;
    ret (Z.of_nat (length rows))) s = (Ok z, s') /\ aborted s' = false /\ P (db s').
Proof.
  intros HP Hf Hev Ha Hok. unfold repo_find, repo_select.
  erewrite bind_Ok by (erewrite bind_Ok by (by apply query_run); reflexivity). cbv beta.
  set (rs := id _). clearbody rs.
  assert (H1 : exists s1, for_each rs (fun x => upd (t_id x) f) s = (Ok tt, s1) /\ aborted s1 = false /\ P (db s1)).
  { revert s Ha Hok. induction rs as [|x rs IH]; intros s Ha Hok; [by exists s|]. simpl.
    erewrite bind_Ok by reflexivity. apply IH; [done|]. by apply Hf. }
  destruct H1 as (s1 & E1 & A1 & O1). erewrite bind_Ok by exact E1.
  erewrite bind_Ok by (by apply flush_run; [|apply (HP _ O1)..]).
  destruct (for_each_queues rs ev Hev s1) as (s2 & E2 & D2 & A2). erewrite bind_Ok by exact E2.
  exists (Z.of_nat (length rs)), s2. rewrite D2, A2. done.
Qed.

Lemma deal_cleaner_runs k self i s :
  aborted s = false -> okd (db s) ->
  exists z s', deal_cleaner k self i s = (Ok z, s') /\ aborted s' = false /\ okd (db s').
Proof.
  assert (Hq : forall x : Deal, queues (deal_event self "crm.deal.updated" (dl_id x))).
  { intros x s0. eexists. split; [reflexivity|done]. }
  intros Ha Ho. destruct k;
    refine (unlink_runs okd (dls_tenant self) _ _ (fun d => deal_event self "crm.deal.updated" (dl_id d)) s
      (fun _ H => H) _ Hq Ha Ho);
    intros d j; by apply okd_alter_deal.
Qed.
Lemma activity_cleaner_runs k self i s :
  aborted s = false -> okd (db s) ->
  exists z s', activity_cleaner k self i s = (Ok z, s') /\ aborted s' = false /\ okd (db s') /\
    deals_of (db s') = deals_of (db s).
Proof.
  assert (Hq : forall x : Activity, queues (activity_event self "crm.activity.updated" (ac_id x))).
  { intros x s0. eexists. split; [reflexivity|done]. }
  intros Ha Ho. set (P := fun d => okd d /\ deals_of d = deals_of (db s)). destruct k;
    refine (unlink_runs P (acs_tenant self) _ _ (fun a => activity_event self "crm.activity.updated" (ac_id a)) s
      (fun _ H => proj1 H) _ Hq Ha (conj Ho eq_refl));
    intros d j [H1 H2]; (split; [by apply okd_alter_activity|done]).
Qed.

(** A subscriber called with an announcement cleans up for its tenant. *)
Section Announced.
Context (k : link_kind) (t i : uuid) (e : EventEnvelope).
Hypothesis He : announces_deletion k t i e.
Hypothesis Hi : valid_uuid i.

Lemma deleted_id_run s : deleted_id e (deletion k).2 s = (Ok (Some i), s).
Proof.
  destruct He as (_ & Ht & Hp). unfold deleted_id. erewrite bind_Ok by reflexivity. rewrite Hp.
  change (c_tenant_id (handler_ctx e)) with (e_tenant_id e). rewrite Ht.
  cbv iota. cbn [truthy py_str]. rewrite uuid_str_nonempty. cbn [negb]. cbv iota.
  by rewrite (uuid_parse_str i Hi).
Qed.

Lemma deals_subscriber_run s :
  k ≠ LDeal -> exists self, dls_tenant self = t /\
    deals_subscriber k e s = (deal_cleaner k self i ;;; ret tt) s.
Proof.
  intros Hk. destruct He as (_ & Ht & _). exists (mkDeals (handler_ctx e) t (mkContacts (handler_ctx e) t None) [] ∅ None).
  split; [done|]. pose proof (deleted_id_run s) as Hd.
  assert (Hh : handler_deals e s = (Ok (mkDeals (handler_ctx e) t (mkContacts (handler_ctx e) t None) [] ∅ None), s)).
  { unfold handler_deals, new_contacts_service, new_deal_service, repo_init.
    change (c_tenant_id (handler_ctx e)) with (e_tenant_id e). by rewrite Ht. }
  destruct k; [| |done]; unfold deals_subscriber, deals_on_contact_deleted, deals_on_company_deleted;
    erewrite bind_Ok by exact Hd; cbv beta iota; by erewrite bind_Ok by exact Hh.
Qed.

Lemma activities_subscriber_run s :
  exists self, acs_tenant self = t /\
    activities_subscriber k e s = (activity_cleaner k self i ;;; ret tt) s.
Proof.
  destruct He as (_ & Ht & _).
  set (self := mkActivities (handler_ctx e) t (mkContacts (handler_ctx e) t None)
                 (mkDeals (handler_ctx e) t (mkContacts (handler_ctx e) t None) [] ∅ None) [] None).
  exists self. split; [done|]. pose proof (deleted_id_run s) as Hd.
  assert (Hh : handler_activities e s = (Ok self, s)).
  { unfold handler_activities, new_contacts_service, new_deal_service, new_activity_service, repo_init.
    change (c_tenant_id (handler_ctx e)) with (e_tenant_id e). by rewrite Ht. }
  destruct k; unfold activities_subscriber, activities_on_contact_deleted, activities_on_company_deleted,
    activities_on_deal_deleted, activities_on_deleted;
    erewrite bind_Ok by exact Hd; cbv beta iota; by erewrite bind_Ok by exact Hh.
Qed.

Lemma deals_cleared s :
  aborted s = false -> okd (db s) -> Keyed (R:=Deal) (db s) ->
  exists s', deals_subscriber k e s = (Ok tt, s') /\ aborted s' = false /\ okd (db s') /\
    ~ deal_linked (db s') k t i.
Proof.
  intros Ha Hok Hkey. destruct (decide (k = LDeal)) as [Ek|Hk].
  { rewrite Ek. exists s. split; [done|]. split; [done|]. split; [done|]. by intros (j & x & _ & _ & ?). }
  destruct (deals_subscriber_run s Hk) as (self & <- & E).
  destruct (deal_cleaner_runs k self i s Ha Hok) as (z & s' & Ec & Ha' & Hok').
  exists s'. rewrite E. erewrite bind_Ok by exact Ec. split; [done|]. split; [done|]. split; [done|].
  by eapply deal_cleaner_clears.
Qed.
Lemma activities_cleared s :
  aborted s = false -> okd (db s) -> Keyed (R:=Activity) (db s) ->
  exists s', activities_subscriber k e s = (Ok tt, s') /\ aborted s' = false /\ okd (db s') /\
    deals_of (db s') = deals_of (db s) /\ ~ activity_linked (db s') k t i.
Proof.
  intros Ha Hok Hkey. destruct (activities_subscriber_run s) as (self & <- & E).
  destruct (activity_cleaner_runs k self i s Ha Hok) as (z & s' & Ec & Ha' & Hok' & Hd).
  exists s'. rewrite E. erewrite bind_Ok by exact Ec. split; [done|]. split; [done|]. split; [done|].
  split; [done|]. by eapply activity_cleaner_clears.
Qed.
End Announced.
