(* ===== verification/Billing.v ===== *)
(** [BillingService] (src/core/billing/service.py): plans and subscriptions,
    the end of billing periods, and the subscriber that gives a new tenant its
    free plan (src/core/billing/subscribers.py). *)

From stdpp Require Import base strings gmap list.
From Stdlib Require Import ZArith Lia Ascii.
From S2P Require Import Prelude Errors PyLib Calendar Entities Models Events Session SessionFacts Access.
From S2P Require Import Journal Ports Payments PayFacts DbFacts.

Record BillingService : Type := mkBilling {
  bs_ctx : TenantContext;
  bs_tenant : uuid;                       (* self._subscriptions: the repository's tenant *)
  bs_payments : PaymentService;
  bs_access : option Resolver }.

Definition new_billing_service (ctx : TenantContext) (payments : PaymentService)
    (access : option Resolver) : SM BillingService :=
  tenant <- repo_init ctx ;;
  ret (mkBilling ctx tenant payments access).

(** Pure traversal with effects, for the DTO comprehensions. *)
Fixpoint map_m {A B} (f : A -> SM B) (l : list A) : SM (list B) :=
  match l with
  | [] => ret []
  | a :: l' => b <- f a ;; bs <- map_m f l' ;; ret (b :: bs)
  end.

Definition list_plans (bs : BillingService) : SM (list PlanDTO) :=
  guard_require (bs_access bs) (bs_ctx bs) PLAN_READ ;;;
  l <- query (fun p : Plan => pl_is_active p) ;;
  map_m plan_dto (order_asc pl_price_amount l).

Definition live_or_pending (s : Subscription) : bool :=
  live (s_status s) || bool_decide (s_status s = SPending).

Definition get_subscription (bs : BillingService) : SM (option SubscriptionDTO) :=
  guard_require (bs_access bs) (bs_ctx bs) SUBSCRIPTION_READ ;;;
  rows <- repo_find (bs_tenant bs) live_or_pending id None ;;
  match rows with
  | [] => ret None
  | first :: _ =>
      let sub := default first
        (List.find (fun s => negb (bool_decide (s_status s = SPending))) rows) in
      plan <- session_get (R:=Plan) (s_plan_id sub) ;;
      ret (Some (subscription_dto sub (plan_code_or plan)))
  end.

(** [_plan_by_code] *)
Definition plan_by_code (plan_code : string) : SM Plan :=
  l <- query (fun p => bool_decide (pl_code p = plan_code) && pl_is_active p) ;;
  o <- scalar_one_or_none l ;;
  match o with
  | None => raise (EDomain NotFoundError ("plan not found: " +:+ plan_code))
  | Some p => ret p
  end.

(** [_checkout_for] *)
Definition checkout_for (bs : BillingService) (sub : Subscription) (provider : string)
    : SM CheckoutDTO :=
  amount <- lift_res (new_money (s_price_amount sub) (s_currency sub)) ;;
  create_payment (bs_payments bs) amount "subscription" (uuid_str (s_id sub)) provider
    ("subscription:" +:+ uuid_str (s_id sub)) None (Some (s_id sub)).

Definition in_progress : exn :=
  EDomain ConflictError "a subscription checkout is already in progress".

Definition start_subscription (bs : BillingService) (plan_code provider : string)
    : SM CheckoutDTO :=
  guard_require (bs_access bs) (bs_ctx bs) SUBSCRIPTION_MANAGE ;;;
  plan <- plan_by_code plan_code ;;
  guardM (pl_price_amount plan =? 0)%Z
    (EDomain InvariantViolationError "a free plan is assigned automatically, not purchased") ;;;
  pending <- repo_find (bs_tenant bs) (fun s => bool_decide (s_status s = SPending)) id None ;;
  match pending with
  | first :: _ =>
      if negb (bool_decide (s_plan_id first = pl_id plan)) then raise in_progress
      else checkout_for bs first provider
  | [] =>
      t <- now ;;
      i <- new_uuid7 ;;
      finish <- lift_res (period_end t (pl_period plan)) ;;
      sub <- catch
        (begin_nested (repo_add (bs_tenant bs) None (fun tenant =>
           mkSubscription i tenant (pl_id plan) SPending (pl_price_amount plan)
             (pl_currency plan) t finish false None)))
        (fun e => match e with EIntegrity => raise in_progress | _ => raise e end) ;;
      checkout_for bs sub provider
  end.

Definition is_live (s : Subscription) : bool := live (s_status s).

Definition cancel_subscription (bs : BillingService) : SM SubscriptionDTO :=
  guard_require (bs_access bs) (bs_ctx bs) SUBSCRIPTION_MANAGE ;;;
  sub <- repo_find (bs_tenant bs) is_live id None ;;
  match sub with
  | [] => raise (EDomain NotFoundError "no active subscription")
  | first :: _ =>
      let i := s_id first in
      t <- now ;;
      upd i (fun s => set_sub (s_status s) (s_current_period_start s) (s_current_period_end s)
                        true (Some t) s) ;;;
      flush ;;;
      s <- load i ;;
      plan <- session_get (R:=Plan) (s_plan_id s) ;;
      emit SvcBilling (bs_ctx bs) "billing.subscription.canceled"
        [("subscription_id", JStr (uuid_str i)); ("plan_code", JStr (plan_code_or plan))] ;;;
      ret (subscription_dto s (plan_code_or plan))
  end.

Definition auto_subscribe (bs : BillingService) (plan_code : string) : SM unit :=
  plan <- plan_by_code plan_code ;;
  guardM (negb (pl_price_amount plan =? 0)%Z)
    (EDomain InvariantViolationError "auto-subscribe requires a zero-price plan") ;;;
  existing <- repo_find (bs_tenant bs) is_live id None ;;
  match existing with
  | _ :: _ => ret tt
  | [] =>
      t <- now ;;
      let status := if (0 <? pl_trial_days plan)%Z then STrialing else SActive in
      i <- new_uuid7 ;;
      finish <- lift_res (period_end t (pl_period plan)) ;;
      repo_add (bs_tenant bs) None (fun tenant =>
        mkSubscription i tenant (pl_id plan) status (pl_price_amount plan) (pl_currency plan)
          t finish false None) ;;;
      emit SvcBilling (bs_ctx bs) "billing.subscription.activated"
        [("subscription_id", JStr (uuid_str i)); ("plan_code", JStr (pl_code plan));
         ("current_period_end", JIso finish)] ;;;
      ret tt
  end.

(** The loop that rolls a free subscription forward. A period lasts at least
    28 days, so [roll_fuel] iterations are enough ([roll_forward_total]). *)
Definition EFuel : exn := EOther "out of fuel".

Definition sub_start (t : datetime) (s : Subscription) : Subscription :=
  set_sub (s_status s) t (s_current_period_end s) (s_cancel_at_period_end s) (s_canceled_at s) s.
Definition sub_end (t : datetime) (s : Subscription) : Subscription :=
  set_sub (s_status s) (s_current_period_start s) t (s_cancel_at_period_end s)
    (s_canceled_at s) s.

Fixpoint roll_forward (fuel : nat) (sub : uuid) (t : datetime) (period : string) : SM unit :=
  s <- load sub ;;
  if (s_current_period_end s <=? t)%Z then
    match fuel with
    | O => raise EFuel
    | S fuel' =>
        upd sub (sub_start (s_current_period_end s)) ;;;
        finish <- lift_res (period_end (s_current_period_end s) period) ;;
        upd sub (sub_end finish) ;;;
        roll_forward fuel' sub t period
    end
  else ret tt.

Definition roll_fuel (period_end t : datetime) : nat :=
  S (Z.to_nat ((t - period_end) / (28 * DAY))).

(** A zero-price plan without a requested cancellation never lapses. *)
Definition rolls_forward (plan : option Plan) (flag : bool) : bool :=
  match plan with Some pl => (pl_price_amount pl =? 0)%Z && negb flag | None => false end.

Definition close_ended_period (bs : BillingService) (subscription_id : uuid)
    (fallback_plan_code : option string) : SM bool :=
  l <- query (fun s : Subscription => bool_decide (s_id s = subscription_id)
                       && bool_decide (Some (s_tenant_id s) = c_tenant_id (bs_ctx bs))) ;;
  o <- scalar_one_or_none l ;;
  t <- now ;;
  match o with
  | None => ret false
  | Some sub =>
    if negb (live (s_status sub)) || (t <? s_current_period_end sub)%Z then ret false
    else
      let i := s_id sub in
      plan <- session_get (R:=Plan) (s_plan_id sub) ;;
      let flag := s_cancel_at_period_end sub in
      if rolls_forward plan flag then
        roll_forward (roll_fuel (s_current_period_end sub) t) i t (plan_period_or plan) ;;;
        upd i (fun s => set_sub SActive (s_current_period_start s) (s_current_period_end s)
                          (s_cancel_at_period_end s) (s_canceled_at s) s) ;;;
        flush ;;;
        ret true
      else
        let status := if flag then SCanceled else SExpired in
        let canceled_at := match s_canceled_at sub with
                           | None => if flag then Some t else None
                           | Some c => Some c
                           end in
        upd i (sub_closed status canceled_at) ;;;
        flush ;;;
        emit SvcBilling (bs_ctx bs) "billing.subscription.ended"
          [("subscription_id", JStr (uuid_str i)); ("plan_code", JStr (plan_code_or plan));
           ("status", JStr (sub_status_str status))] ;;;
        match fallback_plan_code with
        | Some code =>
            if str_empty code then ret tt
            else catch (auto_subscribe bs code)
                   (fun e => if is_domain e then ret tt else raise e)
        | None => ret tt
        end ;;;
        ret true
  end.

(** [auto_subscribe_new_tenant] (src/core/billing/subscribers.py), run in the
    dispatcher's transaction. *)
Definition auto_subscribe_new_tenant (settings : Settings) (event : EventEnvelope) : SM unit :=
  if negb (billing_auto_subscribe settings) then ret tt
  else match assoc "tenant_id" (e_payload event) with
  | None => ret tt
  | Some raw =>
    if negb (truthy raw) then ret tt
    else
      en <- gets env ;;
      match uuid_parse (py_str en raw) with
      | None => raise EValue
      | Some tenant =>
        let ctx := mkCtx (Some tenant) (mkActor KSystem (Some "billing.auto_subscribe")) None DEFAULT_LOCALE in
        payments <- new_payment_service ctx [] settings None ;;
        billing <- new_billing_service ctx payments None ;;
        catch (auto_subscribe billing (billing_default_plan_code settings))
          (fun e => if is_domain e then ret tt else raise e)
      end
  end.

(** Facts about subscriptions: payments keep moving along the machine, ended
    periods are closed, and a free period always rolls past the present. *)

Open Scope Z_scope.

(** ** Payments move along the machine *)

Section Moves.
Abbreviation moves := (steps (evo pay_evo)).

Lemma moves_roll fuel i t p : moves (roll_forward fuel i t p).
Proof. induction fuel; simpl; steps_walk; auto. Qed.
Hint Resolve moves_roll : steps.

Lemma moves_plan_by_code c : moves (plan_by_code c).
Proof. unfold plan_by_code. steps_walk. Qed.
Hint Resolve moves_plan_by_code : steps.

Lemma moves_auto_subscribe bs c : moves (auto_subscribe bs c).
Proof. unfold auto_subscribe. steps_walk. Qed.
Hint Resolve moves_auto_subscribe : steps.

Lemma moves_close_ended bs i f : moves (close_ended_period bs i f).
Proof. unfold close_ended_period. steps_walk. Qed.

Lemma moves_checkout_for bs s p : providers_ok (bs_payments bs) -> moves (checkout_for bs s p).
Proof. intros H. unfold checkout_for. steps_walk. Qed.

Context (bs : BillingService) `{!QuietAccess (bs_access bs)}.

Lemma moves_start plan provider :
  providers_ok (bs_payments bs) -> moves (start_subscription bs plan provider).
Proof.
  intros H. pose proof (fun s p => moves_checkout_for bs s p H).
  unfold start_subscription. steps_walk. apply evo_begin_nested; [apply _|]. steps_walk.
Qed.

Lemma moves_cancel_subscription : moves (cancel_subscription bs).
Proof. unfold cancel_subscription. steps_walk. Qed.
End Moves.
#[export] Hint Resolve moves_auto_subscribe moves_close_ended moves_start
  moves_cancel_subscription : steps.

Lemma moves_new_payments ctx pv st acc : steps (evo pay_evo) (new_payment_service ctx pv st acc).
Proof. unfold new_payment_service. steps_walk. Qed.
Lemma moves_new_billing ctx ps acc : steps (evo pay_evo) (new_billing_service ctx ps acc).
Proof. unfold new_billing_service. steps_walk. Qed.
#[export] Hint Resolve moves_new_payments moves_new_billing : steps.

Lemma moves_auto_subscribe_new_tenant st e : steps (evo pay_evo) (auto_subscribe_new_tenant st e).
Proof. unfold auto_subscribe_new_tenant. steps_walk. Qed.

(** ** A free period rolls past the present *)

Lemma with_sub_twice i x y d : with_sub i y (with_sub i x d) = with_sub i y d.
Proof. unfold with_sub, subs_of, t_set. simpl. unfold on_billing. simpl. by rewrite insert_insert_eq. Qed.

Lemma st_db_twice f g s : st_db g (st_db f s) = st_db (fun d => g (f d)) s.
Proof. done. Qed.

Lemma st_with_sub_twice i x y s :
  st_db (with_sub i y) (st_db (with_sub i x) s) = st_db (with_sub i y) s.
Proof. rewrite st_db_twice. unfold st_db. simpl. by rewrite with_sub_twice. Qed.

Lemma subs_with_sub i x d : subs_of (with_sub i x d) !! i = Some x.
Proof. apply lookup_insert_eq. Qed.

(** What the loop leaves: the same subscription with a period that contains
    the present, reached by consecutive periods. *)
Definition rolled (period : string) (t : datetime) (s s' : Subscription) : Prop :=
  s' = set_sub (s_status s) (s_current_period_start s') (s_current_period_end s')
         (s_cancel_at_period_end s) (s_canceled_at s) s /\
  s_current_period_start s' <= t < s_current_period_end s' /\
  period_end (s_current_period_start s') period = Ok (s_current_period_end s').

Lemma roll_forward_total fuel i t period st s :
  subs_of (db st) !! i = Some s ->
  0 <= s_current_period_end s <= t -> t < LAST_YEAR ->
  (t - s_current_period_end s) / (28 * DAY) < Z.of_nat fuel ->
  exists s', roll_forward fuel i t period st = (Ok tt, st_db (with_sub i s') st) /\
             rolled period t s s'.
Proof.
  revert st s. induction fuel as [|fuel IH]; intros st s Hi He Ht Hf.
  { exfalso. pose proof (Z.div_pos (t - s_current_period_end s) (28 * DAY)
      ltac:(lia) ltac:(pose DAY_pos; lia)). lia. }
  destruct (period_end_total (s_current_period_end s) period ltac:(lia)) as [e Hpe].
  pose proof (period_end_progress _ _ _ (proj1 He) Hpe) as Hprog.
  set (s1 := sub_end e (sub_start (s_current_period_end s) s)).
  assert (Hrun : roll_forward (S fuel) i t period st =
                 roll_forward fuel i t period (st_db (with_sub i s1) st)).
  { cbn [roll_forward]. rewrite (bind_Ok _ _ _ s st) by (by apply load_run).
    replace (s_current_period_end s <=? t) with true by lia.
    erewrite bind_Ok by (by apply upd_sub_run). rewrite Hpe.
    erewrite bind_Ok by done. erewrite bind_Ok by (apply upd_sub_run, subs_with_sub).
    by rewrite st_with_sub_twice. }
  rewrite Hrun. clear Hrun.
  destruct (Z_le_gt_dec e t) as [Hle|Hgt].
  - destruct (IH (st_db (with_sub i s1) st) s1) as (s' & Hrun & Hs & Hp).
    + apply subs_with_sub.
    + simpl. pose proof DAY_pos. lia.
    + done.
    + simpl. pose proof (Z.div_le_mono (t - e) (t - s_current_period_end s + (-1) * (28 * DAY))
        (28 * DAY) ltac:(pose DAY_pos; lia) ltac:(lia)) as Hq.
      rewrite Z.div_add in Hq by (pose DAY_pos; lia). lia.
    + exists s'. rewrite Hrun, st_with_sub_twice. split; [done|]. split; [|done]. by rewrite Hs.
  - exists s1. split.
    + destruct fuel; simpl; unfold bind, load; simpl;
        rewrite lookup_insert_eq; simpl; by replace (e <=? t) with false by lia.
    + split; [done|]. simpl. split; [lia|done].
Qed.

(** ** Period ends *)

Lemma live_neq_pending s : live (s_status s) = true -> uq_pending s = None.
Proof. unfold uq_pending. by destruct (s_status s). Qed.

(** The row after the free branch. *)
Definition rolled_active (s s' : Subscription) : Subscription :=
  set_sub SActive (s_current_period_start s') (s_current_period_end s')
    (s_cancel_at_period_end s) (s_canceled_at s) s.

Lemma close_ended_period_free bs i fb st s pl :
  healthy st -> subs_of (db st) !! i = Some s ->
  c_tenant_id (bs_ctx bs) = Some (s_tenant_id s) -> live (s_status s) = true ->
  0 <= s_current_period_end s <= clock st -> clock st < LAST_YEAR ->
  b_plans (d_billing (db st)) !! s_plan_id s = Some pl -> pl_price_amount pl = 0 ->
  s_cancel_at_period_end s = false ->
  exists s', rolled (pl_period pl) (clock st) s s' /\
    close_ended_period bs i fb st =
      (Ok true, st_db (with_sub i (rolled_active s s')) (tick st)) /\
    healthy (st_db (with_sub i (rolled_active s s')) (tick st)).
Proof.
  intros Hh Hi Ht Hl He Hc Hpl Hp0 Hfl.
  destruct (roll_forward_total (roll_fuel (s_current_period_end s) (clock st)) i (clock st)
    (pl_period pl) (tick st) s) as (s' & Hrun & Hro); [done|done|done| |].
  { unfold roll_fuel. rewrite Nat2Z.inj_succ, Z2Nat.id; [lia|].
    apply Z.div_pos; [lia|pose DAY_pos; lia]. }
  exists s'. split; [done|]. pose proof Hro as (Hs & _).
  pose proof (k_sub _ (h_keyed _ Hh) _ _ Hi) as Hid. unfold t_id in Hid; simpl in Hid.
  assert (Hh' : healthy (st_db (with_sub i (rolled_active s s')) (tick st))).
  { apply healthy_with_sub with (s:=s); [by apply healthy_tick|done|done| |by left].
    right; left. unfold uq_live, rolled_active. simpl. by rewrite Hl. }
  split; [|done]. unfold close_ended_period.
  rewrite (query_one_run s_id
    (fun s => bool_decide (Some (s_tenant_id s) = c_tenant_id (bs_ctx bs)))) by (done || apply Hh). unfold t_get; simpl. unfold subs_of in Hi. rewrite Hi, Ht.
  rewrite bool_decide_true by done. erewrite bind_Ok by apply now_run.
  replace (clock st <? s_current_period_end s) with false by lia. rewrite Hl. simpl.
  rewrite Hid. erewrite bind_Ok by (apply session_get_run, Hh).
  unfold t_get; simpl. rewrite Hpl. simpl. rewrite Hp0, Hfl. simpl.
  erewrite bind_Ok by exact Hrun. erewrite bind_Ok by (apply upd_sub_run, subs_with_sub).
  rewrite st_with_sub_twice.
  assert (set_sub SActive (s_current_period_start s') (s_current_period_end s')
            (s_cancel_at_period_end s') (s_canceled_at s') s' = rolled_active s s') as ->.
  { rewrite Hs. done. }
  by erewrite bind_Ok by (by apply healthy_flush).
Qed.

(** The row after the closing branch. *)
Definition ended (t : datetime) (s : Subscription) : Subscription :=
  sub_closed (if s_cancel_at_period_end s then SCanceled else SExpired)
    (match s_canceled_at s with
     | None => if s_cancel_at_period_end s then Some t else None
     | Some c => Some c
     end) s.

Lemma close_ended_period_paid bs i st s :
  healthy st -> subs_of (db st) !! i = Some s ->
  c_tenant_id (bs_ctx bs) = Some (s_tenant_id s) -> live (s_status s) = true ->
  s_current_period_end s <= clock st ->
  rolls_forward (b_plans (d_billing (db st)) !! s_plan_id s) (s_cancel_at_period_end s) = false ->
  exists st', close_ended_period bs i None st = (Ok true, st') /\ healthy st' /\
    db st' = with_sub i (ended (clock st) s) (db st).
Proof.
  intros Hh Hi Ht Hl He Hr.
  pose proof (k_sub _ (h_keyed _ Hh) _ _ Hi) as Hid. unfold t_id in Hid; simpl in Hid.
  assert (Hh' : healthy (st_db (with_sub i (ended (clock st) s)) (tick st))).
  { apply healthy_with_sub with (s:=s); [by apply healthy_tick|done|done|left|left];
      unfold uq_live, uq_pending, ended; simpl; by destruct (s_cancel_at_period_end s). }
  unfold close_ended_period.
  rewrite (query_one_run s_id
    (fun s => bool_decide (Some (s_tenant_id s) = c_tenant_id (bs_ctx bs)))) by (done || apply Hh). unfold t_get; simpl. unfold subs_of in Hi. rewrite Hi, Ht.
  rewrite bool_decide_true by done. erewrite bind_Ok by apply now_run.
  replace (clock st <? s_current_period_end s) with false by lia. rewrite Hl. simpl.
  rewrite Hid. erewrite bind_Ok by (apply session_get_run, Hh).
  unfold t_get; simpl. rewrite Hr.
  erewrite bind_Ok by (by apply upd_sub_run). erewrite bind_Ok by (by apply healthy_flush).
  erewrite bind_Ok by (by apply emit_run). eexists. split; [reflexivity|].
  split; [by apply healthy_emitted|]. apply emitted_db.
Qed.
