(* ===== verification/Activation.v ===== *)
(** A successful subscription payment activates its subscription in the same
    transaction: the activation never fails on a healthy database, replaces
    whatever subscription was live, and never shortens paid time. *)

From stdpp Require Import base strings gmap list.
From Stdlib Require Import ZArith Lia Ascii.
From S2P Require Import Prelude Errors PyLib Calendar Entities Models Events Session SessionFacts.
From S2P Require Import Access Journal Ports Payments PayFacts DbFacts Billing.

Open Scope Z_scope.

(** ** Closing the replaced subscriptions *)

Definition replaced_row (t : datetime) : Subscription -> Subscription :=
  sub_closed SCanceled (Some t).

Definition cancel_rows (t : datetime) (l : list Subscription) (d : Db) : Db :=
  foldl (fun d old => with_sub (s_id old) (replaced_row t old) d) d l.

Lemma cancel_rows_lookup t l d j :
  NoDup (s_id <$> l) ->
  subs_of (cancel_rows t l d) !! j =
  match List.find (fun old => bool_decide (s_id old = j)) l with
  | Some old => Some (replaced_row t old)
  | None => subs_of d !! j
  end.
Proof.
  revert d. induction l as [|x l IH]; intros d Hn; [done|].
  simpl in Hn. apply NoDup_cons in Hn as [Hx Hn]. simpl. rewrite IH by done.
  destruct (bool_decide_reflect (s_id x = j)) as [Hj|Hj].
  - destruct (List.find _ l) as [y|] eqn:Ef.
    + apply List.find_some in Ef as [Hy Hyj]. apply bool_decide_eq_true in Hyj.
      exfalso. apply Hx. rewrite Hj, <- Hyj. apply list_elem_of_fmap_2. by apply list_elem_of_In.
    + rewrite <- Hj. apply lookup_insert_eq.
  - destruct (List.find _ l); [done|]. by apply lookup_insert_ne.
Qed.

Lemma cancel_rows_payments t l d : payments_of (cancel_rows t l d) = payments_of d.
Proof. revert d. induction l as [|x l IH]; intros d; simpl; [done|]. by rewrite IH. Qed.

Lemma cancel_rows_plans t l d : b_plans (d_billing (cancel_rows t l d)) = b_plans (d_billing d).
Proof. revert d. induction l as [|x l IH]; intros d; simpl; [done|]. by rewrite IH. Qed.

Lemma cancel_rows_audit t l d : d_audit (cancel_rows t l d) = d_audit d.
Proof. revert d. induction l as [|x l IH]; intros d; simpl; [done|]. by rewrite IH. Qed.

Lemma cancel_loop t plan start l st :
  healthy st -> NoDup (s_id <$> l) ->
  (forall old, old ∈ l -> subs_of (db st) !! s_id old = Some old) ->
  fold_m l start (fun start old =>
    upd (s_id old) (sub_closed SCanceled (Some t)) ;;; ret (extend_start plan start old)) st =
  (Ok (foldl (extend_start plan) start l), st_db (cancel_rows t l) st) /\
  healthy (st_db (cancel_rows t l) st).
Proof.
  revert start st. induction l as [|x l IH]; intros start st Hh Hn Hl.
  { simpl. split; [|by apply (healthy_db st)]. unfold ret, st_db. simpl. by destruct st. }
  simpl in Hn. apply NoDup_cons in Hn as [Hx Hn].
  pose proof (Hl x ltac:(set_solver)) as Hxr.
  assert (Hh' : healthy (st_db (with_sub (s_id x) (replaced_row t x)) st)).
  { apply healthy_with_sub with (s:=x); [done|done|done|by left|by left]. }
  destruct (IH (extend_start plan start x) (st_db (with_sub (s_id x) (replaced_row t x)) st))
    as [E Hh2]; [done|done| |].
  { intros old Ho. simpl. unfold with_sub, subs_of at 1. simpl.
    rewrite lookup_insert_ne; [apply Hl; set_solver|].
    intros Heq. apply Hx. rewrite Heq. by apply list_elem_of_fmap_2. }
  split; [|exact Hh2]. cbn [fold_m foldl].
  rewrite (bind_Ok _ _ _ (extend_start plan start x)
             (st_db (with_sub (s_id x) (replaced_row t x)) st)); [exact E|].
  by erewrite bind_Ok by (by apply upd_sub_run).
Qed.

(** The paid time of the same plan that is still ahead is kept. *)
Lemma extend_start_ge plan l start :
  start <= foldl (extend_start plan) start l /\
  forall old, old ∈ l -> s_plan_id old = plan ->
    s_current_period_end old <= foldl (extend_start plan) start l.
Proof.
  revert start. induction l as [|x l IH]; intros start; simpl; [split; [lia|set_solver]|].
  destruct (IH (extend_start plan start x)) as [H1 H2].
  assert (Hs : start <= extend_start plan start x /\
               (s_plan_id x = plan -> s_current_period_end x <= extend_start plan start x)).
  { unfold extend_start. destruct (bool_decide_reflect (s_plan_id x = plan)); simpl; [|split; [lia|done]].
    destruct (Z.ltb_spec start (s_current_period_end x)); lia. }
  split; [lia|]. intros old [->|Ho]%elem_of_cons Hp; [|by apply H2]. destruct Hs. lia.
Qed.

Lemma extend_start_lt plan l start bound :
  start < bound -> (forall old, old ∈ l -> s_current_period_end old < bound) ->
  foldl (extend_start plan) start l < bound.
Proof.
  revert start. induction l as [|x l IH]; intros start Hs Hl; simpl; [done|].
  apply IH; [|set_solver]. unfold extend_start. destruct (_ && _); [apply Hl; set_solver|done].
Qed.

(** ** Which subscription a payment pays for *)

Definition pays_for (p : Payment) : option uuid :=
  match p_subscription_id p with Some i => Some i | None => uuid_parse (p_reference p) end.

Lemma locked_run st i p sid s :
  healthy st -> payments_of (db st) !! i = Some p -> pays_for p = Some sid ->
  subs_of (db st) !! sid = Some s -> s_tenant_id s = p_tenant_id p ->
  locked_subscription i st = (Ok (Some s), st).
Proof.
  intros Hh Hp Hf Hs Ht. unfold locked_subscription.
  erewrite bind_Ok by (by apply load_run).
  erewrite bind_Ok; [|unfold pays_for in Hf; destruct (p_subscription_id p);
    [by simplify_eq|by rewrite Hf]].
  erewrite bind_Ok by (apply query_run, Hh).
  rewrite (select_unique _ _ sid s); [done|exact Hs| |].
  - rewrite Ht, !bool_decide_true; [done..|]. exact (k_sub _ (h_keyed _ Hh) _ _ Hs).
  - intros j b Hj [Hb _]%andb_prop. apply bool_decide_eq_true in Hb.
    rewrite <- Hb. symmetry. exact (k_sub _ (h_keyed _ Hh) _ _ Hj).
Qed.

(** ** Activation *)

(** The other live subscriptions of the tenant. *)
Definition others_live (tenant sid : uuid) (d : Db) : list Subscription :=
  select (fun s => bool_decide (s_tenant_id s = tenant) && live (s_status s)
                   && negb (bool_decide (s_id s = sid))) (subs_of d).

Definition activated_db (t start finish : datetime) (p : Payment) (s : Subscription) (d : Db) : Db :=
  with_sub (s_id s) (sub_activated start finish s)
    (cancel_rows t (others_live (p_tenant_id p) (s_id s) d) d).

Lemma emit_each {A} sv ctx (name : string) (payload : A -> list (string * json)) l st :
  event_name_re name = true ->
  exists st', for_each l (fun a => emit sv ctx name (payload a) ;;; ret tt) st = (Ok tt, st') /\
    db st' = db st /\ aborted st' = aborted st /\ env st' = env st /\ committed st' = committed st
    /\ (n_uuid st <= n_uuid st')%nat.
Proof.
  intros Hn. revert st. induction l as [|x l IH]; intros st; [by exists st|].
  cbn [for_each].
  destruct (IH (emitted sv ctx name (payload x) st)) as (st' & E & Hd & Ha & He & Hc & Hu).
  destruct (emitted_db sv ctx name (payload x) st) as (Hd' & Ha' & He' & Hc' & Hu').
  exists st'. split; [|rewrite Hd, Ha, He, Hc; repeat split; auto; lia].
  erewrite bind_Ok; [exact E|]. by erewrite bind_Ok by (by apply emit_run).
Qed.

Lemma others_live_NoDup d tenant sid :
  Keyed (R:=Subscription) d -> NoDup (s_id <$> others_live tenant sid d).
Proof. exact (select_ids_NoDup (R:=Subscription) d _). Qed.

Lemma others_live_spec d tenant sid old :
  Keyed (R:=Subscription) d -> old ∈ others_live tenant sid d ->
  subs_of d !! s_id old = Some old /\ s_tenant_id old = tenant /\ live (s_status old) = true /\
  s_id old ≠ sid.
Proof.
  intros Hk Ho. apply elem_of_select in Ho as [[j Hj] Hp]. split_ok.
  rewrite <- (Hk _ _ Hj) in Hj.
  repeat match goal with H : bool_decide _ = true |- _ => apply bool_decide_eq_true in H end.
  match goal with H : negb _ = true |- _ => apply negb_true_iff, bool_decide_eq_false in H end.
  auto.
Qed.

Lemma others_live_complete d tenant sid j x :
  Keyed (R:=Subscription) d -> subs_of d !! j = Some x -> s_tenant_id x = tenant ->
  live (s_status x) = true -> j ≠ sid -> x ∈ others_live tenant sid d.
Proof.
  intros Hk Hj Ht Hl Hne. apply elem_of_select. split; [by exists j|].
  rewrite Ht, Hl, bool_decide_true by done. simpl.
  rewrite bool_decide_false; [done|]. intros Heq. apply Hne. rewrite <- Heq.
  symmetry. exact (Hk _ _ Hj).
Qed.

Lemma others_live_find d tenant sid j x :
  Keyed (R:=Subscription) d -> subs_of d !! j = Some x -> j ≠ sid ->
  List.find (fun old => bool_decide (s_id old = j)) (others_live tenant sid d) =
  if bool_decide (s_tenant_id x = tenant) && live (s_status x) then Some x else None.
Proof.
  intros Hk Hj Hne.
  destruct (List.find _ _) as [y|] eqn:Ef.
  - apply List.find_some in Ef as [Hy Hyj]. apply bool_decide_eq_true in Hyj.
    apply list_elem_of_In, others_live_spec in Hy as (Hy & Ht & Hl & _); [|done].
    rewrite Hyj, Hj in Hy. simplify_eq. by rewrite bool_decide_true, Hl.
  - destruct (bool_decide_reflect (s_tenant_id x = tenant)) as [Ht|]; [|done].
    destruct (live (s_status x)) eqn:Hl; [|done]. exfalso.
    pose proof (others_live_complete _ _ _ _ _ Hk Hj Ht Hl Hne) as Hx.
    apply list_elem_of_In in Hx. apply (List.find_none _ _ Ef) in Hx.
    rewrite bool_decide_eq_false in Hx. apply Hx. exact (Hk _ _ Hj).
Qed.

(** Every subscription after the activation: the paid one is active, every
    other live one of the tenant is canceled, and the rest are untouched. *)
Lemma activated_lookup t start finish p s sid d j x :
  Keyed (R:=Subscription) d -> subs_of d !! sid = Some s -> subs_of d !! j = Some x ->
  subs_of (activated_db t start finish p s d) !! j =
  Some (if bool_decide (j = sid) then sub_activated start finish s
        else if bool_decide (s_tenant_id x = p_tenant_id p) && live (s_status x)
        then replaced_row t x else x).
Proof.
  intros Hk Hs Hj. pose proof (Hk _ _ Hs) as Hsid. unfold t_id in Hsid; simpl in Hsid.
  unfold activated_db. rewrite Hsid. destruct (bool_decide_reflect (j = sid)) as [->|Hne].
  - apply lookup_insert_eq.
  - unfold with_sub, subs_of at 1. simpl. rewrite lookup_insert_ne by done.
    change (b_subscriptions (d_billing ?d)) with (subs_of d).
    rewrite cancel_rows_lookup by (by apply others_live_NoDup).
    rewrite (others_live_find _ _ _ _ x) by done. destruct (_ && _); [done|done].
Qed.

Lemma activated_lookup_None t start finish p s sid d j :
  Keyed (R:=Subscription) d -> subs_of d !! sid = Some s -> subs_of d !! j = None ->
  subs_of (activated_db t start finish p s d) !! j = None.
Proof.
  intros Hk Hs Hj. pose proof (Hk _ _ Hs) as Hsid. unfold t_id in Hsid; simpl in Hsid.
  unfold activated_db. rewrite Hsid. unfold with_sub, subs_of at 1. simpl.
  rewrite lookup_insert_ne by congruence. change (b_subscriptions (d_billing ?d)) with (subs_of d).
  rewrite cancel_rows_lookup by (by apply others_live_NoDup).
  destruct (List.find _ _) as [y|] eqn:Ef; [|done]. exfalso.
  apply List.find_some in Ef as [Hy Hyj]. apply bool_decide_eq_true in Hyj.
  apply list_elem_of_In, others_live_spec in Hy as (Hy & _); [|done]. congruence.
Qed.

(** The start of the new period lies before the end of the calendar. *)
Lemma extended_start_bounds d plan tenant sid t :
  Keyed (R:=Subscription) d -> 0 <= t < LAST_YEAR ->
  (forall j x, subs_of d !! j = Some x -> s_current_period_end x < LAST_YEAR) ->
  0 <= foldl (extend_start plan) t (others_live tenant sid d) < LAST_YEAR.
Proof.
  intros Hk Ht Hy. split.
  - pose proof (proj1 (extend_start_ge plan (others_live tenant sid d) t)). lia.
  - apply extend_start_lt; [lia|]. intros old Ho.
    apply others_live_spec in Ho as (Ho & _); [|done]. by eapply Hy.
Qed.

(** The paid subscription is not among the replaced ones. *)
Lemma others_cancel_lookup t d tenant sid s :
  Keyed (R:=Subscription) d -> subs_of d !! sid = Some s ->
  subs_of (cancel_rows t (others_live tenant sid d) d) !! sid = Some s.
Proof.
  intros Hk Hs. rewrite cancel_rows_lookup by (by apply others_live_NoDup).
  destruct (List.find _ _) as [y|] eqn:Ef; [|done]. exfalso.
  apply List.find_some in Ef as [Hy1 Hy2]. apply bool_decide_eq_true in Hy2.
  by apply list_elem_of_In, others_live_spec in Hy1 as (_ & _ & _ & Hy1).
Qed.

(** With the others canceled its slot is free. *)
Lemma healthy_activated st tenant sid s t start finish :
  Keyed (R:=Subscription) (db st) -> subs_of (db st) !! sid = Some s -> s_tenant_id s = tenant ->
  healthy (st_db (cancel_rows t (others_live tenant sid (db st))) st) ->
  healthy (st_db (with_sub sid (sub_activated start finish s))
             (st_db (cancel_rows t (others_live tenant sid (db st))) st)).
Proof.
  intros Hk Hs Ht Hh. apply healthy_with_sub with (s:=s);
    [done|by apply others_cancel_lookup|done| |by left].
  right; right. intros j x Hj Hx. simpl in Hx.
  rewrite cancel_rows_lookup in Hx by (by apply others_live_NoDup).
  unfold uq_live at 2. simpl. destruct (List.find _ _) as [y|] eqn:Ef; simplify_eq; [done|].
  rewrite (others_live_find _ _ _ _ x) in Ef by done.
  unfold uq_live. destruct (live (s_status x)); [|done].
  intros Heq. rewrite bool_decide_true in Ef by congruence. done.
Qed.

Lemma activate_run ps i st p sid s :
  healthy st -> payments_of (db st) !! i = Some p -> pays_for p = Some sid ->
  subs_of (db st) !! sid = Some s -> s_tenant_id s = p_tenant_id p ->
  0 <= clock st < LAST_YEAR ->
  (forall j x, subs_of (db st) !! j = Some x -> s_current_period_end x < LAST_YEAR) ->
  exists st' start finish,
    activate_subscription ps i st = (Ok tt, st') /\ healthy st' /\ env st' = env st /\
    (n_uuid st <= n_uuid st')%nat /\
    db st' = activated_db (clock st) start finish p s (db st) /\
    start = foldl (extend_start (s_plan_id s)) (clock st)
              (others_live (p_tenant_id p) sid (db st)) /\
    period_end start (plan_period_or (b_plans (d_billing (db st)) !! s_plan_id s)) = Ok finish.
Proof.
  intros Hh Hp Hf Hs Ht Hc Hy.
  pose proof (k_sub _ (h_keyed _ Hh)) as Hk.
  pose proof (Hk _ _ Hs) as Hsid. unfold t_id in Hsid; simpl in Hsid.
  set (t := clock st). set (l := others_live (p_tenant_id p) sid (db st)).
  set (start := foldl (extend_start (s_plan_id s)) t l).
  assert (Hstart : 0 <= start < LAST_YEAR) by (by apply extended_start_bounds).
  destruct (period_end_total start
    (plan_period_or (b_plans (d_billing (db st)) !! s_plan_id s)) Hstart) as [finish Hfin].
  destruct (cancel_loop t (s_plan_id s) t l (tick st)) as [Hloop Hh1].
  { by apply healthy_tick. }
  { by apply others_live_NoDup. }
  { intros old Ho. by apply others_live_spec in Ho as (Ho & _). }
  assert (Hs1 : subs_of (db (st_db (cancel_rows t l) (tick st))) !! sid = Some s)
    by (by apply others_cancel_lookup).
  set (st2 := st_db (with_sub sid (sub_activated start finish s))
                (st_db (cancel_rows t l) (tick st))).
  assert (Hh2 : healthy st2) by (by apply (healthy_activated (tick st) (p_tenant_id p))).
  destruct (emit_each SvcPayments (ps_ctx ps) "billing.subscription.replaced"
    (fun old => [("subscription_id", JStr (uuid_str (s_id old)));
                 ("replaced_by", JStr (uuid_str (s_id s)))]) l st2 eq_refl)
    as (st3 & Hemit & Hd3 & Ha3 & He3 & Hc3 & Hu3).
  eexists _, start, finish. split; [|split; [|split; [|split; [|split; [|split]]]]].
  - unfold activate_subscription. erewrite bind_Ok by (by eapply locked_run). cbv beta iota.
    erewrite bind_Ok by (apply session_get_run, Hh). erewrite bind_Ok by apply now_run.
    erewrite bind_Ok by (by apply (load_run i p)).
    erewrite bind_Ok by (apply query_run, Hh). rewrite Hsid.
    erewrite bind_Ok by exact Hloop. erewrite bind_Ok by (by apply healthy_flush).
    erewrite bind_Ok; [|unfold lift_res; apply (f_equal (fun r => (r, _))); exact Hfin].
    erewrite bind_Ok by (by apply upd_sub_run). erewrite bind_Ok by (by apply (healthy_flush st2)).
    rewrite Hsid in Hemit. erewrite bind_Ok by exact Hemit.
    by erewrite bind_Ok by (by apply emit_run).
  - apply healthy_emitted. by apply (healthy_db st2).
  - etransitivity; [apply emitted_db|]. done.
  - etransitivity; [|apply emitted_db]. exact Hu3.
  - etransitivity; [apply emitted_db|]. rewrite Hd3. unfold st2, activated_db. simpl.
    by rewrite Hsid.
  - done.
  - done.
Qed.

(** ** Journal rows *)

Lemma put_audit_ok d a :
  db_ok d = true ->
  (forall ev, au_event_id a = Some ev -> forall j b, d_audit d !! j = Some b ->
     au_event_id b ≠ Some ev) ->
  db_ok (t_put a d) = true.
Proof.
  intros Hok Hev. unfold db_ok, t_put in *. simpl. split_ok. join_ok; auto.
  apply unique_by_insert; [done|]. intros k Hk j b _ Hb. by apply (Hev k Hk j b).
Qed.

(** The identifiers still to be drawn are new to the journal. *)
Definition fresh_ids (st : St) : Prop :=
  forall n, (n_uuid st <= n)%nat ->
    d_audit (db st) !! env_uuid7 (env st) n = None /\
    forall j a, d_audit (db st) !! j = Some a -> au_event_id a ≠ Some (env_uuid7 (env st) n).

Lemma fresh_ids_later st st' :
  fresh_ids st -> env st' = env st -> (n_uuid st <= n_uuid st')%nat ->
  d_audit (db st') = d_audit (db st) -> fresh_ids st'.
Proof. intros Hf He Hu Hd n Hn. rewrite He, Hd. apply Hf. lia. Qed.

Lemma healthy_put_audit st a :
  healthy st -> (forall ev, au_event_id a = Some ev -> forall j b, d_audit (db st) !! j = Some b ->
     au_event_id b ≠ Some ev) ->
  healthy (st_db (t_put a) st).
Proof.
  intros [Hok Hr Ho Hk] Hev. split; simpl; [by apply put_audit_ok|done|done|].
  destruct Hk. split; try done. intros j r. unfold t_get. simpl. rewrite lookup_insert.
  case_decide; [naive_solver|auto].
Qed.

Lemma audit_record_run st ctx action ot oi md ev rq u :
  healthy st -> no_rivals (env st) -> actor_user_id_opt (c_actor ctx) = Ok u ->
  d_audit (db st) !! next_uuid st = None ->
  (forall j a, d_audit (db st) !! j = Some a -> au_event_id a ≠ Some ev) ->
  exists row st', audit_record ctx action ot oi md (Some ev) rq st = (Ok tt, st') /\ healthy st' /\
    env st' = env st /\ db st' = t_put row (db st) /\ au_id row = next_uuid st /\
    au_action row = action /\ au_tenant_id row = c_tenant_id ctx /\ au_user_id row = u /\
    au_event_id row = Some ev /\ au_object_id row = oi /\
    n_uuid st' = S (n_uuid st) /\ callbacks st' = callbacks st /\ published st' = published st.
Proof.
  intros Hh Hr Ha Hn Hev. unfold audit_record. erewrite bind_Ok by apply new_uuid7_run.
  rewrite Ha. erewrite bind_Ok by done. erewrite bind_Ok by apply now_run.
  match goal with |- context [mkAuditLog ?a ?b ?c ?d ?e ?f ?g ?h ?i ?j ?k ?l] =>
    set (row := mkAuditLog a b c d e f g h i j k l) end.
  set (st2 := tick (drew_uuid st)).
  assert (Hh2 : healthy st2) by by apply (healthy_db st).
  set (st3 := (rivals st2).2).
  assert (Hd3 : db st3 = db st) by (apply Hr).
  assert (Hh3 : healthy st3) by by apply (healthy_db st).
  assert (Hp : healthy (st_db (t_put row) st3)).
  { apply healthy_put_audit; [done|]. intros e [= <-] j b Hb. rewrite Hd3 in Hb. by eapply Hev. }
  exists row, (st_db (t_put row) st3). split; [|split; [exact Hp|]].
  - unfold insert_on_conflict_do_nothing.
    erewrite bind_Ok; [reflexivity|]. erewrite bind_Ok by (by apply healthy_flush).
    rewrite (bind_Ok _ _ _ tt st3) by done. erewrite bind_Ok by (apply query_run, Hh3).
    rewrite select_none.
    + erewrite bind_Ok; [reflexivity|]. apply insert_row_run; [apply Hh3| |apply Hp|apply Hp].
      change (d_audit (db st3) !! next_uuid st = None). by rewrite Hd3.
    + intros j b Hj. unfold same_event. apply bool_decide_eq_false.
      change (d_audit (db st3) !! j = Some b) in Hj. rewrite Hd3 in Hj. by eapply Hev.
  - change (db (st_db (t_put row) st3)) with (t_put row (db st3)). rewrite Hd3. auto 15.
Qed.

(** ** A payment succeeds *)

Lemma mark_succeeded_run ps i st p sid s u :
  healthy st -> no_rivals (env st) -> fresh_ids st ->
  actor_user_id_opt (c_actor (ps_ctx ps)) = Ok u ->
  payments_of (db st) !! i = Some p -> can_transition (p_status p) PSucceeded = true ->
  p_purpose p = "subscription" -> pays_for p = Some sid ->
  subs_of (db st) !! sid = Some s -> s_tenant_id s = p_tenant_id p ->
  0 <= clock (tick st) < LAST_YEAR ->
  (forall j x, subs_of (db st) !! j = Some x -> s_current_period_end x < LAST_YEAR) ->
  exists st' start finish row,
    mark_succeeded ps i st = (Ok tt, st') /\ healthy st' /\
    db st' = t_put row (activated_db (clock (tick st)) start finish p s
                          (with_pay i (to_succeeded (clock st) p) (db st))) /\
    start = foldl (extend_start (s_plan_id s)) (clock (tick st))
              (others_live (p_tenant_id p) sid (db st)) /\
    period_end start (plan_period_or (b_plans (d_billing (db st)) !! s_plan_id s)) = Ok finish /\
    au_action row = "billing.payment.succeeded" /\ au_object_id row = Some (uuid_str i).
Proof.
  intros Hh Hr Hf Hu Hp Hc Hpu Hpf Hs Ht Hck Hy.
  set (p' := to_succeeded (clock st) p).
  set (st1 := st_db (with_pay i p') (tick st)).
  assert (Hh1 : healthy st1).
  { apply healthy_with_pay with (p:=p); [by apply healthy_tick|done|done|by left]. }
  assert (Hp1 : payments_of (db st1) !! i = Some p') by apply lookup_insert_eq.
  destruct (activate_run ps i st1 p' sid s) as (st2 & start & finish & Hact & Hh2 & He2 & Hu2 & Hd2
    & Hstart & Hfin); [done|done|done|done|done|done|done|].
  assert (Hp2 : payments_of (db st2) !! i = Some p').
  { rewrite Hd2. unfold activated_db. unfold payments_of at 1, with_sub. simpl.
    change (b_payments (d_billing ?d)) with (payments_of d). by rewrite cancel_rows_payments. }
  set (payload := payment_event_payload p' ++
     [("paid_at", JIso (clock st)); ("late", JBool (bool_decide (p_status p = PExpired)))]).
  set (st3 := emitted SvcPayments (ps_ctx ps) "billing.payment.succeeded" payload st2).
  destruct (emitted_db SvcPayments (ps_ctx ps) "billing.payment.succeeded" payload st2)
    as (Hd3 & Ha3 & He3 & _ & Hu3). fold st3 in Hd3, Ha3, He3, Hu3.
  assert (Haud : d_audit (db st3) = d_audit (db st)).
  { rewrite Hd3, Hd2. unfold activated_db, with_sub. simpl. by rewrite cancel_rows_audit. }
  assert (Hn : (n_uuid st <= n_uuid st2)%nat) by exact Hu2.
  destruct (audit_record_run st3 (ps_ctx ps) "billing.payment.succeeded" (Some "payment")
    (Some (uuid_str i)) [] (next_uuid st2) None u) as (row & st4 & Hrec & Hh4 & _ & Hd4 & _ & Hact4
    & _ & _ & _ & Hoi & _).
  { by apply healthy_emitted. }
  { intros k d. rewrite He3, He2. apply Hr. }
  { done. }
  { unfold next_uuid. rewrite He3, He2, Haud. apply Hf. lia. }
  { intros j a. rewrite Haud. unfold next_uuid. rewrite He2. by apply Hf. }
  exists st4, start, finish, row.
  split; [|split; [done|split; [|split; [done|split; [done|split; [done|done]]]]]].
  - unfold mark_succeeded. erewrite bind_Ok by (by apply load_run).
    unfold assert_transition. rewrite Hc. erewrite bind_Ok by done.
    erewrite bind_Ok by apply now_run. erewrite bind_Ok by (by apply (upd_pay_run _ i p)).
    erewrite bind_Ok by (by apply (healthy_flush st1)).
    erewrite bind_Ok by (by apply (load_run i p' st1)).
    rewrite bool_decide_true by done. erewrite bind_Ok by exact Hact.
    erewrite bind_Ok by (by apply (load_run i p' st2)).
    erewrite bind_Ok by (by apply emit_run). exact Hrec.
  - rewrite Hd4, Hd3, Hd2. done.
Qed.
