(* ===== verification/Payme.v ===== *)
(** The Payme adapter (src/core/billing/adapters/payme.py): JSON-RPC callbacks
    under HTTP Basic authentication, amounts in tiyin. *)

From stdpp Require Import base strings gmap list pretty.
From Stdlib Require Import ZArith Lia Ascii.
From S2P Require Import Prelude Errors PyLib Calendar Entities Models Events Session SessionFacts.
From S2P Require Import Ports.

Definition TIYIN_PER_SUM : Z := 100.
Definition PAYME_CURRENCY : string := "UZS".

(** [_METHOD_ACTIONS] *)
Definition METHOD_ACTIONS (method : string) : option CallbackAction :=
  assoc method
    [("CheckPerformTransaction", ACheck); ("CreateTransaction", ACreate);
     ("PerformTransaction", AConfirm); ("CancelTransaction", ACancel);
     ("CheckTransaction", AStatus)].
Definition TXN_KEYED_ACTIONS : list CallbackAction := [AConfirm; ACancel; AStatus].

Definition ERR_INSUFFICIENT_PRIVILEGE : Z := -32504.
Definition ERR_INVALID_AMOUNT : Z := -31001.
Definition ERR_TRANSACTION_NOT_FOUND : Z := -31003.
Definition ERR_UNABLE_TO_PERFORM : Z := -31008.
Definition ERR_ORDER_NOT_FOUND : Z := -31050.

(** [_ERROR_MESSAGES.get(status, default)] *)
Definition payme_error (status : OutcomeStatus) : Z * string :=
  match status with
  | OutInvalidSignature => (ERR_INSUFFICIENT_PRIVILEGE, "Insufficient privilege")
  | OutAmountMismatch => (ERR_INVALID_AMOUNT, "Invalid amount")
  | OutInvalidState => (ERR_UNABLE_TO_PERFORM, "Unable to perform operation")
  | OutNotFound => (ERR_ORDER_NOT_FOUND, "Order not found")
  | _ => (ERR_UNABLE_TO_PERFORM, "Unable to perform operation")
  end.

Definition STATE_OPEN : Z := 1.
Definition STATE_PERFORMED : Z := 2.
Definition STATE_CANCELED : Z := -1.
Definition REASON_TIMEOUT : Z := 4.

Definition provider_error {A} (detail : string) : res exn A :=
  Raise (EDomain PaymentProviderError detail).

Definition to_tiyin (money : Money) : res exn Z :=
  if negb (bool_decide (m_currency money = PAYME_CURRENCY))
  then provider_error ("Payme supports only UZS, got " +:+ m_currency money)
  else Ok (m_amount money * TIYIN_PER_SUM)%Z.

(** [isinstance(v, int)]: a bool is an int. *)
Definition as_int (v : json) : option Z :=
  match v with
  | JInt z => Some z
  | JBool b => Some (if b then 1 else 0)%Z
  | _ => None
  end.

Definition minor_units_from_tiyin (tiyin : json) : res exn Z :=
  match as_int tiyin with
  | None => provider_error "invalid Payme amount in tiyin"
  | Some z =>
      if (z <? 0)%Z || negb (z mod TIYIN_PER_SUM =? 0)%Z
      then provider_error "invalid Payme amount in tiyin"
      else Ok (z / TIYIN_PER_SUM)%Z
  end.

(** [_ms] *)
Definition payme_ms (en : Env) (moment : option datetime) : Z :=
  match moment with Some t => py_timestamp_ms en t | None => 0%Z end.

(** [_state] *)
Definition payme_state (p : PaymentDTO) : Z :=
  match pd_status p with
  | PSucceeded => STATE_PERFORMED
  | PCreated | PPending => STATE_OPEN
  | _ => STATE_CANCELED
  end.

(** [_reason] *)
Definition payme_reason (p : PaymentDTO) : res exn json :=
  if negb (payme_state p =? STATE_CANCELED)%Z then Ok JNull
  else
    let fallback := Ok (if bool_decide (pd_status p = PExpired) then JInt REASON_TIMEOUT else JNull) in
    match pd_failure_code p with
    | Some code =>
        if str_isdigit (str_lstrip (fun c => bool_decide (c = "-"%char)) code)
        then match py_int 10 code with Some z => Ok (JInt z) | None => Raise EValue end
        else fallback
    | None => fallback
    end.

Record PaymeConfig : Set := mkPayme { pm_merchant_id : string; pm_expected_auth : string }.

Definition payme_code : string := "payme".
Definition payme_checkout_base_url : string := "https://checkout.paycom.uz".
Definition payme_account_field : string := "payment_id".

(** [PaymeProvider.__init__] *)
Definition new_payme (merchant_id merchant_key : string) : res exn PaymeConfig :=
  if str_empty merchant_id || str_empty merchant_key
  then provider_error "Payme adapter requires merchant_id and merchant_key"
  else Ok (mkPayme merchant_id ("Paycom:" +:+ merchant_key)).

Definition payme_create_checkout (cfg : PaymeConfig) (payment : PaymentDTO)
    (return_url : option string) : SM CheckoutDTO :=
  tiyin <- lift_res (to_tiyin (pd_amount payment)) ;;
  let params := ["m=" +:+ pm_merchant_id cfg;
                 "ac." +:+ payme_account_field +:+ "=" +:+ uuid_str (pd_id payment);
                 "a=" +:+ pretty tiyin] in
  let params := match return_url with
                | Some url => if str_empty url then params else params ++ ["c=" +:+ url]
                | None => params
                end in
  en <- gets env ;;
  let encoded := b64encode en (join ";" params) in
  ret (mkCheckoutDTO (pd_id payment) payme_code
         (payme_checkout_base_url +:+ "/" +:+ encoded) None).

Definition verification_error {A} (detail : string) : SM A :=
  raise (EDomain WebhookVerificationError detail).

(** [_decode_jsonrpc] *)
Definition decode_jsonrpc (body : string) : SM (list (string * json)) :=
  en <- gets env ;;
  match py_json_loads en body with
  | None => verification_error "payme: body is not valid JSON"
  | Some (JObj data) =>
      match assoc "method" data with
      | None => verification_error "payme: not a JSON-RPC request"
      | Some _ => ret data
      end
  | Some _ => verification_error "payme: not a JSON-RPC request"
  end.

(** [_auth_ok] *)
Definition payme_auth_ok (cfg : PaymeConfig) (raw : RawWebhook) : SM bool :=
  en <- gets env ;;
  match header raw "authorization" with
  | None => ret false
  | Some h =>
      if str_empty h || negb (startswith (str_lower h) "basic ") then ret false
      else match b64decode en (strip (str_drop 6 h)) with
           | None => ret false
           | Some decoded =>
               match compare_digest decoded (pm_expected_auth cfg) with
               | Some b => ret b
               | None => raise EType
               end
           end
  end.

(** [v or {}] *)
Definition or_empty (v : option json) : json :=
  match v with Some v => if truthy v then v else JObj [] | None => JObj [] end.

Definition get_or_null (k : string) (o : list (string * json)) : json := default JNull (assoc k o).

(** [_normalize] *)
Definition payme_normalize (en : Env) (action : CallbackAction) (params : list (string * json))
    : option string * string * option Money :=
  let txn := match assoc "id" params with Some v => Some (py_str en v) | None => None end in
  match action with
  | ACheck | ACreate =>
      let reference := match or_empty (assoc "account" params) with
                       | JObj account => match assoc payme_account_field account with
                                         | Some v => py_str en v | None => "" end
                       | _ => ""
                       end in
      let amount := match minor_units_from_tiyin (default (JInt 0) (assoc "amount" params)) with
                    | Ok z => mkMoney z PAYME_CURRENCY
                    | Raise _ => mkMoney 0 PAYME_CURRENCY
                    end in
      (if bool_decide (action = ACreate) then txn else None, reference, Some amount)
  | _ => (txn, "", None)
  end.

Definition payme_parse_webhook (cfg : PaymeConfig) (raw : RawWebhook) : SM ProviderCallback :=
  data <- decode_jsonrpc (rw_body raw) ;;
  en <- gets env ;;
  let method := get_or_null "method" data in
  match (match method with JNull => None | v => METHOD_ACTIONS (py_str en v) end) with
  | None => verification_error "payme: unsupported method"
  | Some action =>
      match or_empty (assoc "params" data) with
      | JObj params =>
          let '(provider_txn_id, reference, amount) := payme_normalize en action params in
          let reason := match action, assoc "reason" params with
                        | ACancel, Some JNull => None
                        | ACancel, Some v => Some (py_str en v)
                        | _, _ => None
                        end in
          ok <- payme_auth_ok cfg raw ;;
          ret (mkCallback payme_code provider_txn_id action reference amount
                 [("id", get_or_null "id" data); ("method", method); ("params", JObj params)]
                 ok reason)
      | _ => verification_error "payme: params is not an object"
      end
  end.

(** [_success_result] *)
Definition payme_success_result (en : Env) (outcome : CallbackOutcome)
    : res exn (list (string * json)) :=
  let action := cb_action <$> oc_callback outcome in
  if bool_decide (action = Some ACheck) then Ok [("allow", JBool true)]
  else match oc_payment outcome with
  | None => Ok []
  | Some p =>
      let transaction := JStr (uuid_str (pd_id p)) in
      let state := JInt (payme_state p) in
      let create_time := JInt (payme_ms en (pd_pending_at p)) in
      let perform_time := JInt (payme_ms en (pd_paid_at p)) in
      let cancel_time := JInt (payme_ms en (pd_closed_at p)) in
      match action with
      | Some ACreate =>
          Ok [("create_time", create_time); ("transaction", transaction); ("state", state)]
      | Some AConfirm =>
          Ok [("transaction", transaction); ("perform_time", perform_time); ("state", state)]
      | Some ACancel =>
          Ok [("transaction", transaction); ("cancel_time", cancel_time); ("state", state)]
      | _ =>
          match payme_reason p with
          | Raise e => Raise e
          | Ok reason =>
              Ok [("create_time", create_time); ("perform_time", perform_time);
                  ("cancel_time", cancel_time); ("transaction", transaction);
                  ("state", state); ("reason", reason)]
          end
      end
  end.

Definition decided_ok (s : OutcomeStatus) : bool :=
  match s with OutOk | OutAlreadyProcessed => true | _ => false end.

Definition payme_build_webhook_response (outcome : CallbackOutcome) : SM WebhookResponse :=
  en <- gets env ;;
  let request_id := match oc_callback outcome with
                    | Some cb => get_or_null "id" (cb_raw cb)
                    | None => JNull
                    end in
  let action := cb_action <$> oc_callback outcome in
  let status :=
    match oc_payment outcome with
    | Some p => if bool_decide (action = Some ACreate) && decided_ok (oc_status outcome)
                   && negb (bool_decide (pd_status p = PPending))
                then OutInvalidState else oc_status outcome
    | None => oc_status outcome
    end in
  if decided_ok status then
    result <- lift_res (payme_success_result en outcome) ;;
    ret (mkResponse 200 [("result", JObj result); ("id", request_id)])
  else
    let '(code, message) :=
      if bool_decide (status = OutNotFound)
         && match action with Some a => bool_decide (a ∈ TXN_KEYED_ACTIONS) | None => false end
      then (ERR_TRANSACTION_NOT_FOUND, "Transaction not found") else payme_error status in
    ret (mkResponse 200 [("error", JObj [("code", JInt code); ("message", JStr message)]);
                         ("id", request_id)]).

Definition payme_provider (cfg : PaymeConfig) : PaymentProvider :=
  mkProvider payme_code (payme_create_checkout cfg) (payme_parse_webhook cfg)
    payme_build_webhook_response.

(** ** The adapter keeps the port's laws *)

Lemma quiet_payme_auth cfg raw : steps quiet (payme_auth_ok cfg raw).
Proof. unfold payme_auth_ok. steps_walk. Qed.

#[export] Instance payme_laws cfg : ProviderLaws (payme_provider cfg).
Proof.
  split; simpl.
  - intros pay url s c s' H. unfold payme_create_checkout in H.
    apply bind_inv_Ok in H as (z & s1 & _ & H). apply bind_inv_Ok in H as (en & s2 & _ & H).
    unfold ret in H. by simplify_eq.
  - intros. unfold payme_create_checkout. steps_walk.
  - intros raw s cb s' H. unfold payme_parse_webhook, verification_error in H.
    apply bind_inv_Ok in H as (data & s1 & _ & H). apply bind_inv_Ok in H as (en & s2 & _ & H).
    destruct (match get_or_null "method" data with JNull => None | _ => _ end) as [a|]; [|done].
    destruct (or_empty (assoc "params" data)); try done.
    destruct (payme_normalize en a o) as [[txn r] am].
    apply bind_inv_Ok in H as (ok & s3 & _ & H). unfold ret in H. by simplify_eq.
  - intros. pose proof quiet_payme_auth.
    unfold payme_parse_webhook, decode_jsonrpc, verification_error. steps_walk.
  - intros. unfold payme_build_webhook_response. steps_walk.
Qed.
