(* ===== verification/Click.v ===== *)
(** The Click adapter (src/core/billing/adapters/click.py): form-encoded
    Prepare/Complete callbacks signed with md5, amounts in sums. *)

From stdpp Require Import base strings gmap list pretty.
From Stdlib Require Import ZArith Lia Ascii.
From S2P Require Import Prelude Errors PyLib Calendar Entities Models Events Session SessionFacts.
From S2P Require Import Ports Payme.

Definition CLICK_CURRENCY : string := "UZS".
Definition ACTION_PREPARE : string := "0".
Definition ACTION_COMPLETE : string := "1".
(** [_ACTIONS] *)
Definition CLICK_ACTIONS (code : string) : option CallbackAction :=
  assoc code [(ACTION_PREPARE, ACreate); (ACTION_COMPLETE, AConfirm)].

Definition ERR_SUCCESS : Z := 0.
Definition ERR_SIGN_CHECK_FAILED : Z := -1.
Definition ERR_INCORRECT_AMOUNT : Z := -2.
Definition ERR_ALREADY_PAID : Z := -4.
Definition CLICK_ORDER_NOT_FOUND : Z := -5.
Definition CLICK_TRANSACTION_NOT_FOUND : Z := -6.
Definition ERR_TRANSACTION_CANCELLED : Z := -9.

(** [_ERROR_CODES.get(status, default)] *)
Definition click_error (status : OutcomeStatus) : Z * string :=
  match status with
  | OutInvalidSignature => (ERR_SIGN_CHECK_FAILED, "SIGN CHECK FAILED")
  | OutAmountMismatch => (ERR_INCORRECT_AMOUNT, "Incorrect parameter amount")
  | OutNotFound => (CLICK_ORDER_NOT_FOUND, "Order not found")
  | OutInvalidState => (ERR_ALREADY_PAID, "Already paid")
  | _ => (CLICK_TRANSACTION_NOT_FOUND, "Transaction does not exist")
  end.

(** ** [decimal.Decimal] as far as amounts need it *)

Inductive decimal : Set :=
| DFinite (neg : bool) (coeff exp : Z)       (* coeff * 10^exp *)
| DInf (neg : bool)
| DNaN.

Fixpoint digits_val (acc : Z) (s : string) : option Z :=
  match s with
  | EmptyString => Some acc
  | String c s' => if ch_digit c then digits_val (acc * 10 + (Z.of_N (ch c) - 48))%Z s' else None
  end.

(** Optional sign. *)
Definition take_sign (s : string) : bool * string :=
  match s with
  | String c s' => if bool_decide (c = "-"%char) then (true, s')
                   else if bool_decide (c = "+"%char) then (false, s') else (false, s)
  | EmptyString => (false, s)
  end.

(** Digits with an optional point, at least one digit. *)
Definition mantissa (s : string) : option (Z * Z) :=
  let '(ip, _, fp) := partition "." s in
  if str_empty ip && str_empty fp then None
  else match digits_val 0 ip with
       | None => None
       | Some i => match digits_val i fp with
                   | None => None
                   | Some c => Some (c, - Z.of_nat (String.length fp))%Z
                   end
       end.

(** The exponent: an optional sign and digits. *)
Definition exponent (s : string) : option Z :=
  let '(neg, ds) := take_sign s in
  if str_empty ds then None
  else match digits_val 0 ds with Some e => Some (if neg then - e else e)%Z | None => None end.

Definition drop_underscores (s : string) : string := str_remove "_" 0 s.

(** [Decimal(s)]; [None] is InvalidOperation (ConversionSyntax). *)
Definition parse_decimal (s : string) : option decimal :=
  let '(neg, body) := take_sign (str_lower (drop_underscores (strip s))) in
  if bool_decide (body = "inf") || bool_decide (body = "infinity") then Some (DInf neg)
  else if startswith body "nan" && str_all ch_digit (str_drop 3 body) then Some DNaN
  else if startswith body "snan" && str_all ch_digit (str_drop 4 body) then Some DNaN
  else
    let '(m, has_exp, e) := partition "e" body in
    match mantissa m, (if has_exp then exponent e else Some 0%Z) with
    | Some (c, x), Some y => Some (DFinite neg c (x + y))
    | _, _ => None
    end.

Definition to_sum_amount (money : Money) : res exn string :=
  if negb (bool_decide (m_currency money = CLICK_CURRENCY))
  then provider_error ("Click supports only UZS, got " +:+ m_currency money)
  else Ok (pretty (m_amount money)).

(** Comparing a NaN raises InvalidOperation; [int] of an infinity raises
    OverflowError. *)
Definition minor_units_from_sum (value : string) : res exn Z :=
  match parse_decimal value with
  | None => provider_error "invalid Click amount"
  | Some DNaN => Raise EDecimal
  | Some (DInf neg) =>
      if neg then provider_error "non-integral Click amount for UZS" else Raise EOverflow
  | Some (DFinite neg c e) =>
      if (neg && (0 <? c)%Z) || ((e <? 0)%Z && negb (c mod 10 ^ (- e) =? 0)%Z)
      then provider_error "non-integral Click amount for UZS"
      else Ok (if (e <? 0)%Z then c / 10 ^ (- e) else c * 10 ^ e)%Z
  end.

(** [_int_or_none]; [str(None)] is not a number. *)
Definition int_or_none (value : option string) : option Z :=
  match value with Some v => py_int 10 v | None => None end.

(** ** ClickProvider *)

Record ClickConfig : Set := mkClick {
  ck_service_id : string; ck_merchant_id : string; ck_secret_key : string }.

Definition click_code : string := "click".
Definition click_checkout_base_url : string := "https://my.click.uz/services/pay".

(** [ClickProvider.__init__] *)
Definition new_click (service_id merchant_id secret_key : string) : res exn ClickConfig :=
  if str_empty service_id || str_empty merchant_id || str_empty secret_key
  then provider_error "Click adapter requires service_id, merchant_id and secret_key"
  else Ok (mkClick service_id merchant_id secret_key).

Definition click_create_checkout (cfg : ClickConfig) (payment : PaymentDTO)
    (return_url : option string) : SM CheckoutDTO :=
  amount <- lift_res (to_sum_amount (pd_amount payment)) ;;
  let query := [("service_id", ck_service_id cfg); ("merchant_id", ck_merchant_id cfg);
                ("amount", amount); ("transaction_param", uuid_str (pd_id payment))] in
  let query := match return_url with
               | Some url => if str_empty url then query else query ++ [("return_url", url)]
               | None => query
               end in
  ret (mkCheckoutDTO (pd_id payment) click_code
         (click_checkout_base_url +:+ "?" +:+ urlencode query) None).

Definition field (form : list (string * string)) (k : string) : string := default "" (assoc k form).

(** [_sign] *)
Definition click_sign (en : Env) (cfg : ClickConfig) (form : list (string * string))
    (action_code : string) : string :=
  let parts := [field form "click_trans_id"; field form "service_id"; ck_secret_key cfg;
                field form "merchant_trans_id"] in
  let parts := if bool_decide (action_code = ACTION_COMPLETE)
               then parts ++ [field form "merchant_prepare_id"] else parts in
  md5_hex en (join "" (parts ++ [field form "amount"; action_code; field form "sign_time"])).

(** [_sign_ok] *)
Definition click_sign_ok (cfg : ClickConfig) (form : list (string * string)) (action_code : string)
    : SM bool :=
  en <- gets env ;;
  match compare_digest (field form "sign_string") (click_sign en cfg form action_code) with
  | Some b => ret b
  | None => raise EType
  end.

Definition click_parse_webhook (cfg : ClickConfig) (raw : RawWebhook) : SM ProviderCallback :=
  let form := rw_form raw in
  match assoc "action" form, assoc "click_trans_id" form with
  | Some action_code, Some txn =>
      match CLICK_ACTIONS action_code with
      | None => verification_error "click: unsupported action"
      | Some action =>
          amount <- lift_res
            match minor_units_from_sum (default "0" (assoc "amount" form)) with
            | Ok z => Ok (mkMoney z CLICK_CURRENCY)
            | Raise (EDomain PaymentProviderError _) => Ok (mkMoney 0 CLICK_CURRENCY)
            | Raise e => Raise e
            end ;;
          let failed := match int_or_none (assoc "error" form) with
                        | Some z => if bool_decide (action = AConfirm) && (z <? 0)%Z
                                    then Some z else None
                        | None => None
                        end in
          let '(action, amount, reason) :=
            match failed with
            | Some z => (ACancel, None, Some (pretty z))
            | None => (action, Some amount, None)
            end in
          ok <- click_sign_ok cfg form action_code ;;
          ret (mkCallback click_code (Some txn) action (field form "merchant_trans_id") amount
                 ((fun '(k, v) => (k, JStr v)) <$> form) ok reason)
      end
  | _, _ => verification_error "click: not a SHOP-API callback"
  end.

Definition click_build_webhook_response (outcome : CallbackOutcome) : SM WebhookResponse :=
  let raw := match oc_callback outcome with Some cb => cb_raw cb | None => [] end in
  let echoed := get_or_null "merchant_prepare_id" raw in
  let prepare_id := if truthy echoed then Some echoed
                    else (fun p => JStr (uuid_str (pd_id p))) <$> oc_payment outcome in
  let canceled := match oc_callback outcome with
                  | Some cb => bool_decide (cb_action cb = ACancel)
                  | None => false
                  end in
  let '(code, note) :=
    if decided_ok (oc_status outcome) && canceled
    then (ERR_TRANSACTION_CANCELLED, "Transaction cancelled")
    else if decided_ok (oc_status outcome) then (ERR_SUCCESS, "Success")
    else click_error (oc_status outcome) in
  ret (mkResponse 200
    ([("click_trans_id", get_or_null "click_trans_id" raw);
      ("merchant_trans_id", get_or_null "merchant_trans_id" raw)]
     ++ match prepare_id with Some v => [("merchant_prepare_id", v)] | None => [] end
     ++ [("error", JInt code); ("error_note", JStr note)])).

Definition click_provider (cfg : ClickConfig) : PaymentProvider :=
  mkProvider click_code (click_create_checkout cfg) (click_parse_webhook cfg)
    click_build_webhook_response.

(** ** The adapter keeps the port's laws *)

Lemma quiet_click_sign cfg form a : steps quiet (click_sign_ok cfg form a).
Proof. unfold click_sign_ok. steps_walk. Qed.

#[export] Instance click_laws cfg : ProviderLaws (click_provider cfg).
Proof.
  split; simpl.
  - intros pay url s c s' H. unfold click_create_checkout in H.
    apply bind_inv_Ok in H as (z & s1 & _ & H). unfold ret in H. by simplify_eq.
  - intros. unfold click_create_checkout. steps_walk.
  - intros raw s cb s' H. unfold click_parse_webhook, verification_error in H.
    destruct (assoc "action" _) as [code|]; [|done].
    destruct (assoc "click_trans_id" _) as [txn|]; [|done].
    destruct (CLICK_ACTIONS code) as [a|]; [|done].
    apply bind_inv_Ok in H as (am & s1 & _ & H).
    destruct (match int_or_none _ with Some _ => _ | None => _ end);
      apply bind_inv_Ok in H as (ok & s2 & _ & H); unfold ret in H; by simplify_eq.
  - intros. pose proof quiet_click_sign. unfold click_parse_webhook, verification_error.
    steps_walk.
  - intros. unfold click_build_webhook_response. steps_walk.
Qed.
