(* ===== verification/Stripe.v ===== *)
(** The Stripe adapter (src/core/billing/adapters/stripe.py) and the registry
    of providers (src/core/billing/adapters/__init__.py). Checkouts are one
    bounded call to the Stripe API behind a circuit breaker; webhooks are
    signed with HMAC-SHA256 over a recent timestamp. *)

From stdpp Require Import base strings gmap list pretty.
From Stdlib Require Import ZArith Lia Ascii.
From S2P Require Import Prelude Errors Resilience PyLib Calendar Entities Models Events Session.
From S2P Require Import SessionFacts Ports Payme Click.

Definition EVENT_COMPLETED : string := "checkout.session.completed".
Definition EVENT_EXPIRED : string := "checkout.session.expired".
Definition SIGNATURE_TOLERANCE_SECONDS : Z := 300.

(** [_CHECKOUT_TRANSIENT] *)
Definition CHECKOUT_TRANSIENT (e : exn) : bool :=
  match e with EDomain c _ => subclass c StripeTransientError | _ => false end || is_network e.

Definition to_stripe_amount (money : Money) : Z := m_amount money.

(** [_normalize_currency] *)
Definition normalize_currency (en : Env) (currency : option json) : res exn string :=
  let code := str_upper (match currency with
                         | Some v => if truthy v then py_str en v else ""
                         | None => ""
                         end) in
  if negb (Nat.eqb (String.length code) 3) || negb (str_isalpha code)
  then provider_error "invalid Stripe currency" else Ok code.

(** An [int] that is not a [bool] and not negative. *)
Definition minor_units_from_stripe (en : Env) (amount currency : option json) : res exn Money :=
  match amount with
  | Some (JInt z) =>
      if (z <? 0)%Z then provider_error "invalid Stripe amount"
      else match normalize_currency en currency with
           | Ok code => new_money z code
           | Raise e => Raise e
           end
  | _ => provider_error "invalid Stripe amount"
  end.

Record StripeConfig : Set := mkStripe {
  sk_secret_key : string; sk_webhook_secret : string; sk_success_url : string;
  sk_cancel_url : string; sk_tolerance_seconds : Z }.

Definition stripe_code : string := "stripe".

(** [StripeProvider.__init__] *)
Definition new_stripe (secret_key webhook_secret success_url cancel_url : string)
    : res exn StripeConfig :=
  if str_empty secret_key || str_empty webhook_secret
  then provider_error "Stripe adapter requires secret_key and webhook_secret"
  else Ok (mkStripe secret_key webhook_secret success_url cancel_url SIGNATURE_TOLERANCE_SECONDS).

(** The adapter's breaker: five failures, thirty seconds. *)
Definition stripe_breaker : BreakerRef St := breaker_at "stripe" (new_breaker "stripe" 5 (30 * SECOND)).

Definition http_post (form : list (string * string)) : SM HttpResult := fun s =>
  (Ok (env_http (env s) (n_http s) form),
   mkSt (env s) (db s) (committed s) (aborted s) (callbacks s) (published s) (resolved s)
        (n_now s) (n_uuid s) (n_token s) (n_rival s) (breakers s) (S (n_http s)) (redis s) (blobs s) (tokens s)).

(** [_post_checkout] *)
Definition post_checkout (form : list (string * string)) : SM (list (string * json)) :=
  response <- http_post form ;;
  match response with
  | HttpError m => raise (EDomain StripeTransientError ("stripe transport error: " +:+ m))
  | HttpResponse status body =>
      if (500 <=? status)%Z || (status =? 429)%Z
      then raise (EDomain StripeTransientError ("stripe http " +:+ pretty status))
      else if (400 <=? status)%Z
      then raise (EDomain PaymentProviderError ("stripe rejected checkout: http " +:+ pretty status))
      else match body with
           | None => raise EValue
           | Some (JObj data) => ret data
           | Some _ => raise (EDomain PaymentProviderError
                                "stripe returned a non-object checkout session")
           end
  end.

(** [a or b] of strings *)
Definition str_or (a : option string) (b : string) : string :=
  match a with Some x => if str_empty x then b else x | None => b end.

Definition stripe_form (cfg : StripeConfig) (payment : PaymentDTO) (return_url : option string)
    : list (string * string) :=
  [("mode", "payment"); ("client_reference_id", uuid_str (pd_id payment));
   ("success_url", str_or return_url (sk_success_url cfg)); ("cancel_url", sk_cancel_url cfg);
   ("line_items[0][quantity]", "1");
   ("line_items[0][price_data][currency]", str_lower (m_currency (pd_amount payment)));
   ("line_items[0][price_data][unit_amount]", pretty (to_stripe_amount (pd_amount payment)));
   ("line_items[0][price_data][product_data][name]", str_or (Some (pd_purpose payment)) "Payment");
   ("metadata[payment_id]", uuid_str (pd_id payment))].

Definition stripe_create_checkout (cfg : StripeConfig) (payment : PaymentDTO)
    (return_url : option string) : SM CheckoutDTO :=
  let form := stripe_form cfg payment return_url in
  session <- call_resilient monotonic (Some stripe_breaker) CHECKOUT_TRANSIENT PaymentProviderError
               (post_checkout form) (Some (mkRetry 1)) ;;
  en <- gets env ;;
  match assoc "url" session with
  | Some url => if truthy url
                then ret (mkCheckoutDTO (pd_id payment) stripe_code (py_str en url) None)
                else raise (EDomain PaymentProviderError "Stripe checkout session has no url")
  | None => raise (EDomain PaymentProviderError "Stripe checkout session has no url")
  end.

(** [_decode_event] *)
Definition decode_event (body : string) : SM (list (string * json)) :=
  en <- gets env ;;
  match py_json_loads en body with
  | None => verification_error "stripe: body is not valid JSON"
  | Some (JObj data) =>
      match assoc "type" data, assoc "data" data with
      | Some _, Some _ => ret data
      | _, _ => verification_error "stripe: not an Event object"
      end
  | Some _ => verification_error "stripe: not an Event object"
  end.

(** [_event_object] *)
Definition event_object (event : list (string * json)) : list (string * json) :=
  match assoc "data" event with
  | Some (JObj data) => match assoc "object" data with Some (JObj o) => o | _ => [] end
  | _ => []
  end.

(** [_parse_signature_header] *)
Definition parse_signature_header (h : string) : option string * list string :=
  foldl (fun '(timestamp, signatures) part =>
           let '(key, _, value) := partition "=" (strip part) in
           if bool_decide (key = "t") then (Some value, signatures)
           else if bool_decide (key = "v1") then (timestamp, signatures ++ [value])
           else (timestamp, signatures))
        (None, []) (split "," h).

(** [any(hmac.compare_digest(expected, c) for c in signatures)]: stops at the
    first match; TypeError on a non-ASCII candidate before it. *)
Fixpoint any_digest (expected : string) (signatures : list string) : res exn bool :=
  match signatures with
  | [] => Ok false
  | c :: l => match compare_digest expected c with
              | None => Raise EType
              | Some true => Ok true
              | Some false => any_digest expected l
              end
  end.

(** [_signature_ok] *)
Definition stripe_signature_ok (cfg : StripeConfig) (raw : RawWebhook) : SM bool :=
  match header raw "stripe-signature" with
  | None => ret false
  | Some h =>
      if str_empty h then ret false
      else match parse_signature_header h with
      | (Some timestamp, (_ :: _) as signatures) =>
          if negb (str_isdigit timestamp) then ret false
          else match py_int 10 timestamp with
          | None => raise EValue
          | Some ts =>
              t <- epoch ;;
              if (sk_tolerance_seconds cfg * SECOND <? Z.abs (t - ts * SECOND))%Z then ret false
              else
                en <- gets env ;;
                let expected := hmac_sha256_hex en (sk_webhook_secret cfg)
                                  (timestamp +:+ "." +:+ rw_body raw) in
                lift_res (any_digest expected signatures)
          end
      | _ => ret false
      end
  end.

(** [_normalize] *)
Definition stripe_normalize (en : Env) (event : list (string * json)) (event_type : string)
    (obj : list (string * json))
    : res exn (CallbackAction * string * option string * option Money) :=
  let event_id := match assoc "id" event with
                  | None | Some JNull => None
                  | Some v => Some (py_str en v)
                  end in
  let reference := match assoc "client_reference_id" obj with
                   | Some v => if truthy v then py_str en v else ""
                   | None => ""
                   end in
  let paid := match assoc "payment_status" obj with
              | Some (JStr s) => bool_decide (s = "paid")
              | _ => false
              end in
  if bool_decide (event_type = EVENT_COMPLETED) && paid then
    match minor_units_from_stripe en (assoc "amount_total" obj) (assoc "currency" obj) with
    | Ok amount => Ok (AConfirm, reference, event_id, Some amount)
    | Raise e => Raise e
    end
  else if bool_decide (event_type = EVENT_EXPIRED) then Ok (ACancel, reference, event_id, None)
  else Ok (AStatus, "", None, None).

Definition stripe_parse_webhook (cfg : StripeConfig) (raw : RawWebhook) : SM ProviderCallback :=
  event <- decode_event (rw_body raw) ;;
  en <- gets env ;;
  let event_type := py_str en (get_or_null "type" event) in
  let obj := event_object event in
  signature_valid <- stripe_signature_ok cfg raw ;;
  n <- lift_res (stripe_normalize en event event_type obj) ;;
  let '(action, reference, provider_txn_id, amount) := n in
  ret (mkCallback stripe_code provider_txn_id action reference amount
         [("id", get_or_null "id" event); ("type", JStr event_type)] signature_valid None).

Definition stripe_build_webhook_response (outcome : CallbackOutcome) : SM WebhookResponse :=
  ret (if bool_decide (oc_status outcome = OutInvalidSignature)
       then mkResponse 400 [("error", JStr "invalid signature")]
       else mkResponse 200 [("received", JBool true)]).

Definition stripe_provider (cfg : StripeConfig) : PaymentProvider :=
  mkProvider stripe_code (stripe_create_checkout cfg) (stripe_parse_webhook cfg)
    stripe_build_webhook_response.

(** ** src/core/billing/adapters/__init__.py *)

Record ProviderSettings : Set := mkProviderSettings {
  payme_merchant_id : string; payme_merchant_key : string;
  click_service_id : string; click_merchant_id : string; click_secret_key : string;
  stripe_secret_key : string; stripe_webhook_secret : string;
  stripe_success_url : string; stripe_cancel_url : string }.

Definition res_map {A B} (f : A -> B) (r : res exn A) : res exn B :=
  match r with Ok a => Ok (f a) | Raise e => Raise e end.

Definition provider_for (cfg : ProviderSettings) (code : string) : res exn PaymentProvider :=
  if bool_decide (code = payme_code) then
    res_map payme_provider (new_payme (payme_merchant_id cfg) (payme_merchant_key cfg))
  else if bool_decide (code = click_code) then
    res_map click_provider
      (new_click (click_service_id cfg) (click_merchant_id cfg) (click_secret_key cfg))
  else if bool_decide (code = stripe_code) then
    res_map stripe_provider
      (new_stripe (stripe_secret_key cfg) (stripe_webhook_secret cfg) (stripe_success_url cfg)
         (stripe_cancel_url cfg))
  else Raise (EDomain InvariantViolationError ("unknown payment provider in config: " +:+ code)).

Fixpoint build_providers (cfg : ProviderSettings) (acc : list (string * PaymentProvider))
    (codes : list string) : res exn (list (string * PaymentProvider)) :=
  match codes with
  | [] => Ok acc
  | code :: codes' =>
      match provider_for cfg code with
      | Ok p => build_providers cfg (dict_set code p acc) codes'
      | Raise e => Raise e
      end
  end.

Definition build_payment_providers (st : Settings) (cfg : ProviderSettings)
    : res exn (list (string * PaymentProvider)) :=
  build_providers cfg [] (enabled_payment_provider_list st).

(** ** The adapter keeps the port's laws *)

Lemma quiet_http form : steps quiet (http_post form).
Proof. done. Qed.
#[export] Hint Resolve quiet_http : steps.

#[export] Instance stripe_laws cfg : ProviderLaws (stripe_provider cfg).
Proof.
  split; simpl.
  - intros pay url s c s' H. unfold stripe_create_checkout in H.
    apply bind_inv_Ok in H as (d & s1 & _ & H). apply bind_inv_Ok in H as (en & s2 & _ & H).
    destruct (assoc "url" d); [|done]. destruct (truthy j); [|done]. unfold ret in H.
    by simplify_eq.
  - intros. unfold stripe_create_checkout, call_resilient. steps_walk.
    apply quiet_resilient. unfold post_checkout. steps_walk.
  - intros raw s cb s' H. unfold stripe_parse_webhook in H.
    apply bind_inv_Ok in H as (ev & s1 & _ & H). apply bind_inv_Ok in H as (en & s2 & _ & H).
    apply bind_inv_Ok in H as (b & s3 & _ & H). apply bind_inv_Ok in H as (n & s4 & _ & H).
    destruct n as [[[a r] t] m]. unfold ret in H. by simplify_eq.
  - intros. unfold stripe_parse_webhook, decode_event, stripe_signature_ok, verification_error.
    steps_walk.
  - intros. unfold stripe_build_webhook_response. steps_walk.
Qed.

(** Every configured provider keeps the laws and is registered under its code. *)
Definition registry_ok (l : list (string * PaymentProvider)) : Prop :=
  forall code p, assoc code l = Some p -> ProviderLaws p /\ pv_code p = code.

Lemma provider_for_ok cfg code p :
  provider_for cfg code = Ok p -> ProviderLaws p /\ pv_code p = code.
Proof.
  unfold provider_for, res_map, new_payme, new_click, new_stripe, provider_error. intros H.
  repeat case_bool_decide; subst;
    repeat match type of H with context [if ?b then _ else _] => destruct b end;
    simplify_eq; split; try done; apply _.
Qed.

Lemma build_payment_providers_ok st cfg l :
  build_payment_providers st cfg = Ok l -> registry_ok l.
Proof.
  unfold build_payment_providers.
  assert (H : forall codes acc, registry_ok acc -> build_providers cfg acc codes = Ok l -> registry_ok l).
  { induction codes as [|c codes IH]; simpl; intros acc Ha H; [by simplify_eq|].
    destruct (provider_for cfg c) as [p|] eqn:Ep; [|done]. eapply IH; [|exact H].
    intros c' p' Hp'. destruct (decide (c' = c)) as [->|Hne].
    - rewrite assoc_dict_set in Hp'. simplify_eq. by eapply provider_for_ok.
    - rewrite assoc_dict_set_ne in Hp' by done. by apply Ha. }
  intros E. eapply H; [|exact E]. done.
Qed.
