(* ===== verification/AdapterFacts.v ===== *)
(** Facts about the provider adapters: amounts survive the trip to the
    provider and back, callbacks are authenticated, and a Stripe checkout is
    posted at most once. *)

From stdpp Require Import base strings gmap list pretty.
From Stdlib Require Import ZArith Lia Ascii.
From S2P Require Import Prelude Errors Resilience PyLib Calendar Entities Models Events Session.
From S2P Require Import SessionFacts ResilienceFacts Ports Payme Click Stripe.

(** ** Decimal digits *)

Lemma below10 (x : N) : (x < 10)%N -> x ∈ [0; 1; 2; 3; 4; 5; 6; 7; 8; 9]%N.
Proof.
  intros. assert (x = 0 \/ x = 1 \/ x = 2 \/ x = 3 \/ x = 4 \/ x = 5 \/ x = 6 \/ x = 7 \/ x = 8
    \/ x = 9)%N by lia. set_solver.
Qed.

Lemma digit_char x : (x < 10)%N ->
  ch_digit (pretty_N_char x) = true /\ (Z.of_N (ch (pretty_N_char x)) - 48)%Z = Z.of_N x.
Proof.
  intros Hx%below10. repeat (apply elem_of_cons in Hx as [->|Hx]; [done|]). by apply elem_of_nil in Hx.
Qed.

Lemma digits_go x s : digits_val 0 (pretty_N_go x s) = digits_val (Z.of_N x) s.
Proof.
  revert s. induction (N.lt_wf_0 x) as [x _ IH]; intros s.
  destruct (decide (x = 0%N)) as [->|Hx]; [done|].
  rewrite pretty_N_go_step by lia. rewrite IH by (apply N.div_lt; lia).
  cbn [digits_val]. destruct (digit_char (x mod 10)) as [-> ->]; [by apply N.mod_lt|].
  f_equal. rewrite N2Z.inj_div, N2Z.inj_mod. pose proof (Z.div_mod (Z.of_N x) 10 ltac:(lia)). lia.
Qed.

Lemma go_all_digits x s : str_all ch_digit s = true -> str_all ch_digit (pretty_N_go x s) = true.
Proof.
  revert s. induction (N.lt_wf_0 x) as [x _ IH]; intros s Hs.
  destruct (decide (x = 0%N)) as [->|Hx]; [done|].
  rewrite pretty_N_go_step by lia. apply IH; [apply N.div_lt; lia|]. cbn [str_all].
  destruct (digit_char (x mod 10)) as [-> _]; [by apply N.mod_lt|done].
Qed.

Lemma go_nonempty x s : s ≠ "" -> pretty_N_go x s ≠ "".
Proof.
  revert s. induction (N.lt_wf_0 x) as [x _ IH]; intros s Hs.
  destruct (decide (x = 0%N)) as [->|Hx]; [done|].
  rewrite pretty_N_go_step by lia. apply IH; [apply N.div_lt; lia|done].
Qed.

Lemma pretty_digits z : (0 <= z)%Z ->
  digits_val 0 (pretty z) = Some z /\ str_all ch_digit (pretty z) = true /\ pretty z ≠ "".
Proof.
  intros Hz. destruct z as [|q|q]; [done| |lia].
  change (pretty (Z.pos q)) with (pretty (N.pos q)). unfold pretty, pretty_N.
  rewrite decide_False by done. split; [|split].
  - by rewrite digits_go.
  - by apply go_all_digits.
  - rewrite pretty_N_go_step by lia. by apply go_nonempty.
Qed.

(** A string of digits holds no other character. *)
Lemma digits_avoid x s : ch_digit x = false -> str_all ch_digit s = true ->
  str_all (fun c => negb (bool_decide (c = x))) s = true.
Proof.
  intros Hx. apply str_all_mono. intros c Hc. apply negb_true_iff, bool_decide_eq_false.
  intros ->. congruence.
Qed.

Lemma partition_none x s : str_all (fun c => negb (bool_decide (c = x))) s = true ->
  partition x s = (s, false, "").
Proof.
  induction s as [|c s IH]; [done|]. cbn [str_all partition]. intros [Hc Hs]%andb_prop.
  apply negb_true_iff in Hc. by rewrite Hc, IH.
Qed.

Lemma digit_not (c : ascii) : ch_digit c = true -> ch_space c = false /\ ch_upper c = false.
Proof.
  unfold ch_digit, ch_space, ch_upper, in_range. intros H. apply andb_prop in H as [H1 H2].
  apply N.leb_le in H1, H2. split.
  - repeat match goal with |- context [(?a <=? ?b)%N] => destruct (N.leb_spec a b) end; simpl; try done; lia.
  - repeat match goal with |- context [(?a <=? ?b)%N] => destruct (N.leb_spec a b) end; simpl; try done; lia.
Qed.

Lemma digits_clean s : str_all ch_digit s = true ->
  strip s = s /\ drop_underscores s = s /\ str_lower s = s.
Proof.
  intros Hs. split; [|split].
  - apply str_strip_none. revert Hs. apply str_all_mono. intros c Hc.
    by destruct (digit_not c Hc) as [-> _].
  - apply str_remove_none. by apply digits_avoid.
  - unfold str_lower. induction s as [|c s IH]; [done|]. cbn [str_all str_map] in *.
    apply andb_prop in Hs as [Hc Hs]. rewrite IH by done. f_equal. unfold ch_to_lower.
    by destruct (digit_not c Hc) as [_ ->].
Qed.

Lemma parse_decimal_digits s z :
  str_all ch_digit s = true -> s ≠ "" -> digits_val 0 s = Some z ->
  parse_decimal s = Some (DFinite false z 0).
Proof.
  intros Hs Hne Hz. unfold parse_decimal. destruct (digits_clean s Hs) as (-> & -> & ->).
  assert (Hsign : take_sign s = (false, s)).
  { destruct s as [|c s]; [done|]. simpl in *. apply andb_prop in Hs as [Hc _].
    rewrite !bool_decide_false; [done|..]; intros ->; discriminate. }
  rewrite Hsign. assert (Hhead : forall p, match p with EmptyString => False | String x _ => ch_digit x = false end ->
    startswith s p = false).
  { intros p Hp. destruct s as [|c s]; [done|]. destruct p as [|x p]; [done|]. unfold startswith. simpl.
    destruct (ascii_dec x c) as [->|]; [|done]. simpl in Hs. by rewrite Hp in Hs. }
  rewrite !bool_decide_false; cycle 1.
  { intros ->. discriminate. } { intros ->. discriminate. }
  rewrite !Hhead by done. simpl.
  rewrite partition_none by (by apply digits_avoid).
  unfold mantissa. rewrite partition_none by (by apply digits_avoid).
  assert (str_empty s = false) as -> by (by apply bool_decide_eq_false). simpl. by rewrite Hz.
Qed.

(** ** Amounts *)

Lemma sum_round_trip z amount :
  (0 <= z)%Z -> to_sum_amount (mkMoney z CLICK_CURRENCY) = Ok amount -> minor_units_from_sum amount = Ok z.
Proof.
  intros Hz E. unfold to_sum_amount in E. simpl in E. injection E as <-.
  destruct (pretty_digits z Hz) as (H1 & H2 & H3). unfold minor_units_from_sum.
  rewrite (parse_decimal_digits _ z) by done. simpl. by rewrite Z.mul_1_r.
Qed.

Lemma tiyin_round_trip z tiyin :
  (0 <= z)%Z -> to_tiyin (mkMoney z PAYME_CURRENCY) = Ok tiyin ->
  minor_units_from_tiyin (JInt tiyin) = Ok z.
Proof.
  intros Hz E. unfold to_tiyin in E. simpl in E. injection E as <-. unfold minor_units_from_tiyin.
  cbn [as_int]. rewrite Z.mod_mul, Z.div_mul by done. unfold TIYIN_PER_SUM.
  by replace (z * 100 <? 0)%Z with false by lia.
Qed.

(** ** Authentication *)

Lemma compare_digest_true a b : compare_digest a b = Some true -> a = b.
Proof.
  unfold compare_digest. destruct (_ && _); [|done]. intros [= H].
  by apply bool_decide_eq_true in H.
Qed.

Lemma any_digest_true expected l : any_digest expected l = Ok true -> expected ∈ l.
Proof.
  induction l as [|c l IH]; [done|]. cbn [any_digest].
  destruct (compare_digest expected c) as [[|]|] eqn:E; [|intros H; set_solver|done].
  apply compare_digest_true in E as ->. set_solver.
Qed.

(** The coefficient of a parsed decimal is not negative. *)
Lemma digits_val_nonneg s : forall acc z, (0 <= acc)%Z -> digits_val acc s = Some z -> (0 <= z)%Z.
Proof.
  induction s as [|c s IH]; intros acc z Ha H; simpl in H; [by simplify_eq|].
  destruct (ch_digit c) eqn:Ec; [|done]. apply IH in H; [done|].
  unfold ch_digit, in_range, ch in *. apply andb_true_iff in Ec as [E1 _]. apply N.leb_le in E1. lia.
Qed.

Lemma parse_decimal_nonneg v neg c e : parse_decimal v = Some (DFinite neg c e) -> (0 <= c)%Z.
Proof.
  unfold parse_decimal. destruct (take_sign _) as [n body]. destruct (_ || _); [done|].
  destruct (_ && _); [done|]. destruct (_ && _); [done|].
  destruct (partition "e" body) as [[m has_exp] ex].
  destruct (mantissa m) as [[c' x]|] eqn:Em; [|done].
  destruct (if has_exp then _ else _); [|done]. intros [= <- <- <-].
  unfold mantissa in Em. destruct (partition "." m) as [[ip b] fp]. destruct (_ && _); [done|].
  destruct (digits_val 0 ip) as [i|] eqn:Ei; [|done].
  destruct (digits_val i fp) as [y|] eqn:Ez; [|done]. simplify_eq.
  eapply digits_val_nonneg, Ez. by eapply digits_val_nonneg, Ei.
Qed.

(** What a valid Stripe signature proves. *)
Definition stripe_authentic (cfg : StripeConfig) (en : Env) (now : Z) (raw : RawWebhook) : Prop :=
  exists h timestamp signatures ts,
    header raw "stripe-signature" = Some h /\
    parse_signature_header h = (Some timestamp, signatures) /\ py_int 10 timestamp = Some ts /\
    (Z.abs (now - ts * SECOND) <= sk_tolerance_seconds cfg * SECOND)%Z /\
    hmac_sha256_hex en (sk_webhook_secret cfg) (timestamp +:+ "." +:+ rw_body raw) ∈ signatures.

Lemma stripe_signature_sound cfg raw s s' :
  stripe_signature_ok cfg raw s = (Ok true, s') ->
  exists now, stripe_authentic cfg (env s) now raw.
Proof.
  intros H. unfold stripe_signature_ok in H. destruct (header raw _) as [h|] eqn:Eh; [|done].
  destruct (str_empty h); [done|].
  destruct (parse_signature_header h) as [[timestamp|] [|c signatures]] eqn:Ep; try done.
  destruct (str_isdigit timestamp); [|done]. simpl in H.
  destruct (py_int 10 timestamp) as [ts|] eqn:Ei; [|done].
  apply bind_inv_Ok in H as (t & s1 & Ht & H).
  assert (env s1 = env s) as En.
  { pose proof (quiet_db _ _ _ _ quiet_epoch Ht) as (-> & _). done. }
  destruct (Z.ltb_spec (sk_tolerance_seconds cfg * SECOND) (Z.abs (t - ts * SECOND))); [done|].
  apply bind_inv_Ok in H as (en & s2 & Hg & H). unfold gets in Hg. injection Hg as <- <-.
  unfold lift_res in H. injection H as H _. apply (any_digest_true _ (c :: signatures)) in H.
  rewrite En in H.
  exists t, h, timestamp, (c :: signatures), ts. auto 10.
Qed.

Lemma stripe_callback_authentic cfg raw s cb s' :
  stripe_parse_webhook cfg raw s = (Ok cb, s') -> cb_signature_valid cb = true ->
  exists now, stripe_authentic cfg (env s) now raw.
Proof.
  intros H Hv. unfold stripe_parse_webhook in H.
  apply bind_inv_Ok in H as (ev & s1 & H1 & H). apply bind_inv_Ok in H as (en & s2 & H2 & H).
  apply bind_inv_Ok in H as (b & s3 & H3 & H). apply bind_inv_Ok in H as (n & s4 & _ & H).
  destruct n as [[[a r] t] am]. unfold ret in H. injection H as <- <-. simpl in Hv. subst b.
  assert (En : env s2 = env s).
  { assert (Hq : steps quiet (decode_event (rw_body raw)))
      by (unfold decode_event, verification_error; steps_walk).
    pose proof (quiet_db _ _ _ _ Hq H1) as (E1 & _).
    unfold gets in H2. injection H2 as <- <-. done. }
  apply stripe_signature_sound in H3. by rewrite En in H3.
Qed.

(** Payme: the Basic credentials are the merchant's. *)
Definition payme_authentic (cfg : PaymeConfig) (en : Env) (raw : RawWebhook) : Prop :=
  exists h, header raw "authorization" = Some h /\ startswith (str_lower h) "basic " = true /\
    b64decode en (strip (str_drop 6 h)) = Some (pm_expected_auth cfg).

Lemma payme_auth_sound cfg raw s s' :
  payme_auth_ok cfg raw s = (Ok true, s') -> payme_authentic cfg (env s) raw.
Proof.
  intros H. unfold payme_auth_ok in H. apply bind_inv_Ok in H as (en & s1 & Hg & H).
  unfold gets in Hg. injection Hg as <- <-. destruct (header raw _) as [h|] eqn:Eh; [|done].
  destruct (str_empty h); [done|]. destruct (startswith (str_lower h) "basic ") eqn:Es; [|done].
  simpl in H. destruct (b64decode (env s) _) as [d|] eqn:Ed; [|done].
  destruct (compare_digest d _) as [b|] eqn:Ec; [|done]. unfold ret in H. injection H as -> <-.
  apply compare_digest_true in Ec as ->. by exists h.
Qed.

Lemma payme_callback_authentic cfg raw s cb s' :
  payme_parse_webhook cfg raw s = (Ok cb, s') -> cb_signature_valid cb = true ->
  payme_authentic cfg (env s) raw.
Proof.
  intros H Hv. unfold payme_parse_webhook, verification_error in H.
  apply bind_inv_Ok in H as (data & s1 & H1 & H). apply bind_inv_Ok in H as (en & s2 & H2 & H).
  assert (En : env s2 = env s).
  { assert (Hq : steps quiet (decode_jsonrpc (rw_body raw)))
      by (unfold decode_jsonrpc, verification_error; steps_walk).
    pose proof (quiet_db _ _ _ _ Hq H1) as (E1 & _).
    unfold gets in H2. injection H2 as <- <-. done. }
  destruct (match get_or_null "method" data with JNull => None | _ => _ end) as [a|]; [|done].
  destruct (or_empty (assoc "params" data)); try done.
  destruct (payme_normalize en a o) as [[txn r] am].
  apply bind_inv_Ok in H as (ok & s3 & H3 & H). unfold ret in H. injection H as <- <-.
  simpl in Hv. subst ok. rewrite <- En. by eapply payme_auth_sound.
Qed.

(** Click: the form is signed with the merchant's secret. *)
Definition click_authentic (cfg : ClickConfig) (en : Env) (raw : RawWebhook) : Prop :=
  exists action_code, assoc "action" (rw_form raw) = Some action_code /\
    field (rw_form raw) "sign_string" = click_sign en cfg (rw_form raw) action_code.

Lemma click_callback_authentic cfg raw s cb s' :
  click_parse_webhook cfg raw s = (Ok cb, s') -> cb_signature_valid cb = true ->
  click_authentic cfg (env s) raw.
Proof.
  intros H Hv. unfold click_parse_webhook, verification_error in H.
  destruct (assoc "action" _) as [code|] eqn:Ea; [|done].
  destruct (assoc "click_trans_id" _) as [txn|]; [|done].
  destruct (CLICK_ACTIONS code) as [a|]; [|done].
  apply bind_inv_Ok in H as (am & s1 & H1 & H). unfold lift_res in H1. injection H1 as _ <-.
  destruct (match int_or_none _ with Some _ => _ | None => _ end);
    apply bind_inv_Ok in H as (ok & s2 & H2 & H); unfold ret in H; injection H as <- <-;
    simpl in Hv; subst ok; exists code; (split; [done|]);
    unfold click_sign_ok in H2; apply bind_inv_Ok in H2 as (en & s3 & Hg & H2);
    unfold gets in Hg; injection Hg as <- <-;
    destruct (compare_digest _ _) as [b|] eqn:Ec; try done; unfold ret in H2; injection H2 as -> <-;
    by apply compare_digest_true.
Qed.

(** ** Checkout posts *)

Lemma monotonic_ok w : exists t w', monotonic w = (Ok t, w').
Proof. by eexists _, _. Qed.

Lemma post_once form s : (n_http (post_checkout form s).2 <= S (n_http s))%nat.
Proof.
  unfold post_checkout. unfold bind at 1. unfold http_post.
  destruct (env_http _ _ _) as [status body|m]; simpl; [|lia].
  destruct (_ || _); simpl; [lia|]. destruct (_ <=? _)%Z; simpl; [lia|].
  destruct body as [[]|]; simpl; lia.
Qed.

Lemma stripe_posts_once cfg payment url s :
  (n_http (stripe_create_checkout cfg payment url s).2 <= S (n_http s))%nat.
Proof.
  unfold stripe_create_checkout. unfold bind at 1.
  pose proof (loop_count monotonic (Some stripe_breaker) CHECKOUT_TRANSIENT PaymentProviderError
    (post_checkout (stripe_form cfg payment url)) monotonic_ok n_http
    (fun w => eq_refl) (fun r b w H => ltac:(by injection H as <-))
    (post_once _) 1 s) as H.
  unfold call_resilient. change (attempts _) with 1%nat.
  destruct (resilient_loop _ _ _ _ _ 1 s) as [[d|e] s1]; simpl in H; [|simpl; lia].
  unfold bind, gets. destruct (assoc "url" d) as [u|]; [|simpl; lia].
  destruct (truthy u); simpl; lia.
Qed.

(** ** The providers of a deployment *)

(** The request carries the credentials configured for the provider. *)
Definition authentic (cfg : ProviderSettings) (code : string) (en : Env) (raw : RawWebhook) : Prop :=
  (code = payme_code /\ exists c, new_payme (payme_merchant_id cfg) (payme_merchant_key cfg) = Ok c /\
     payme_authentic c en raw) \/
  (code = click_code /\ exists c, new_click (click_service_id cfg) (click_merchant_id cfg)
     (click_secret_key cfg) = Ok c /\ click_authentic c en raw) \/
  (code = stripe_code /\ exists c now, new_stripe (stripe_secret_key cfg) (stripe_webhook_secret cfg)
     (stripe_success_url cfg) (stripe_cancel_url cfg) = Ok c /\ stripe_authentic c en now raw).

Lemma build_provider_for st cfg l code p :
  build_payment_providers st cfg = Ok l -> assoc code l = Some p -> provider_for cfg code = Ok p.
Proof.
  unfold build_payment_providers.
  assert (H : forall codes acc, (forall c q, assoc c acc = Some q -> provider_for cfg c = Ok q) ->
    build_providers cfg acc codes = Ok l -> forall c q, assoc c l = Some q -> provider_for cfg c = Ok q).
  { induction codes as [|c codes IH]; simpl; intros acc Ha E; [by simplify_eq|].
    destruct (provider_for cfg c) as [q|] eqn:Ep; [|done]. eapply IH; [|exact E].
    intros c' p' Hp'. destruct (decide (c' = c)) as [->|Hne].
    - rewrite assoc_dict_set in Hp'. by simplify_eq.
    - rewrite assoc_dict_set_ne in Hp' by done. by apply Ha. }
  intros E Ha. eapply H; [|exact E|exact Ha]. done.
Qed.

Lemma res_map_inv {A B} (f : A -> B) r b : res_map f r = Ok b -> exists a, r = Ok a /\ b = f a.
Proof. destruct r; simpl; intros [= <-]. eauto. Qed.

Lemma provider_callback_authentic cfg code p raw s cb s' :
  provider_for cfg code = Ok p -> pv_parse_webhook p raw s = (Ok cb, s') ->
  cb_signature_valid cb = true -> authentic cfg code (env s) raw.
Proof.
  unfold provider_for. intros Hp H Hv.
  destruct (bool_decide_reflect (code = payme_code)) as [->|_].
  { apply res_map_inv in Hp as (c & Hc & ->). left. split; [done|]. exists c. split; [done|].
    by eapply payme_callback_authentic. }
  destruct (bool_decide_reflect (code = click_code)) as [->|_].
  { apply res_map_inv in Hp as (c & Hc & ->). right; left. split; [done|]. exists c. split; [done|].
    by eapply click_callback_authentic. }
  destruct (bool_decide_reflect (code = stripe_code)) as [->|_]; [|done].
  apply res_map_inv in Hp as (c & Hc & ->). right; right. split; [done|].
  destruct (stripe_callback_authentic _ _ _ _ _ H Hv) as [t Ht]. by exists c, t.
Qed.
