(* ===== verification/Webhooks.v ===== *)
(** Webhook intake (src/core/billing/webhooks.py) and its routes
    (src/core/billing/router.py): verification, the deduplication ledger,
    tenant binding from our own records, and the transition, in one
    transaction. *)

From stdpp Require Import base strings gmap list.
From Stdlib Require Import ZArith Lia Ascii.
From S2P Require Import Prelude Errors PyLib Calendar Entities Models Events Session SessionFacts.
From S2P Require Import Access Journal Ports Payments PayFacts DbFacts.

Definition READ_ONLY_ACTIONS : list CallbackAction := [ACheck; AStatus].
Definition REDACT_HEADERS : list string :=
  ["authorization"; "cookie"; "proxy-authorization"; "x-api-key"].
Definition REJECTED_BODY_LIMIT : nat := Z.to_nat 4096.

(** [_redact_headers]; [value.split(" ", 1)[0]] is what precedes the first space. *)
Definition redact_headers (headers : list (string * string)) : list (string * string) :=
  foldl (fun out '(key, value) =>
           let lowered := str_lower key in
           let shown :=
             if bool_decide (lowered = "authorization")
             then strip (((partition " " value).1.1) +:+ " [redacted]")
             else if bool_decide (lowered ∈ REDACT_HEADERS) then "[redacted]" else value in
           dict_set key shown out) [] headers.

Record WebhookProcessor : Type := mkProcessor {
  wp_providers : list (string * PaymentProvider); wp_settings : Settings }.

(** [_as_uuid] *)
Definition as_uuid (value : string) : option uuid := uuid_parse value.

(** [_find_payment]: from our records only. *)
Definition find_payment (cb : ProviderCallback) : SM (option Payment) :=
  let reference := cb_payment_reference cb in
  found <- match (if str_empty reference then None else as_uuid reference) with
           | Some payment_id =>
               sys_get_one_or_none (fun p => bool_decide (p_id p = payment_id)
                                             && bool_decide (p_provider p = cb_provider cb))
           | None => ret None
           end ;;
  match found with
  | Some p => ret (Some p)
  | None =>
      match cb_provider_txn_id cb with
      | Some txn =>
          if str_empty txn then ret None
          else sys_get_one_or_none (fun p => bool_decide (p_provider p = cb_provider cb)
                 && bool_decide (p_provider_transaction_id p = Some txn))
      | None => ret None
      end
  end.

(** [_amount_ok] *)
Definition amount_ok (cb : ProviderCallback) (p : Payment) : res exn bool :=
  match cb_amount cb with
  | None => Ok true
  | Some m => match new_money (p_amount p) (p_currency p) with
              | Ok m' => Ok (bool_decide (m = m'))
              | Raise e => Raise e
              end
  end.

(** [_handle_read_only] *)
Definition handle_read_only (cb : ProviderCallback) : SM CallbackOutcome :=
  if negb (cb_signature_valid cb) then ret (mkOutcome OutInvalidSignature None (Some cb))
  else
    payment <- find_payment cb ;;
    match payment with
    | None => ret (mkOutcome OutNotFound None (Some cb))
    | Some p =>
        dto <- payment_dto p ;;
        ok <- lift_res (amount_ok cb p) ;;
        if negb ok then ret (mkOutcome OutAmountMismatch (Some dto) (Some cb))
        else if bool_decide (cb_action cb = ACheck)
                && negb (bool_decide (p_status p ∈ [PCreated; PPending]))
        then ret (mkOutcome OutInvalidState (Some dto) (Some cb))
        else ret (mkOutcome OutOk (Some dto) (Some cb))
    end.

Definition dedup_key (cb : ProviderCallback) : string :=
  match cb_provider_txn_id cb with Some t => t | None => "None" end +:+ ":"
  +:+ action_str (cb_action cb).

Definition same_key (provider_code key : string) (w : PaymentWebhook) : bool :=
  bool_decide (w_provider w = provider_code) && bool_decide (w_dedup_key w = key).

(** [_claim_ledger] *)
Definition claim_ledger (provider_code key : string) (raw : RawWebhook)
    : SM (option PaymentWebhook) :=
  i <- new_uuid7 ;;
  inserted <- insert_on_conflict_do_nothing (same_key provider_code key)
    (mkWebhook i provider_code key None None (rw_body raw) (redact_headers (rw_headers raw))
       (Some true) WReceived None None) ;;
  if (inserted : bool) then session_get i else ret None.

(** Assignments to a ledger row. *)
Definition w_bind (tenant payment : uuid) (w : PaymentWebhook) : PaymentWebhook :=
  mkWebhook (w_id w) (w_provider w) (w_dedup_key w) (Some tenant) (Some payment) (w_raw_body w)
    (w_headers w) (w_signature_valid w) (w_status w) (w_error w) (w_processed_at w).
Definition w_decide (st : webhook_status) (error : option string) (t : datetime)
    (w : PaymentWebhook) : PaymentWebhook :=
  mkWebhook (w_id w) (w_provider w) (w_dedup_key w) (w_tenant_id w) (w_payment_id w) (w_raw_body w)
    (w_headers w) (w_signature_valid w) st
    (match error with Some e => Some e | None => w_error w end) (Some t).

Definition decide_webhook (w : uuid) (st : webhook_status) (error : option string) : SM unit :=
  t <- now ;; upd w (w_decide st error t).

(** [_apply_action] *)
Definition apply_action (ps : PaymentService) (payment : uuid) (cb : ProviderCallback) : SM unit :=
  match cb_action cb with
  | ACreate =>
      p <- load (R:=Payment) payment ;;
      if negb (bool_decide (p_status p = PCreated))
      then raise (EDomain InvariantViolationError
                    ("create for payment in state " +:+ payment_status_str (p_status p)))
      else mark_pending payment (default "" (cb_provider_txn_id cb))
  | AConfirm => mark_succeeded ps payment
  | ACancel => mark_canceled_by_provider ps payment (cb_reason cb)
  | a => raise (EDomain InvariantViolationError ("unsupported action: " +:+ action_str a))
  end.

Definition integration_ctx (tenant : option uuid) (provider_code : string) : TenantContext :=
  mkCtx tenant (mkActor KIntegration (Some provider_code)) None DEFAULT_LOCALE.

(** [_process_transition] *)
Definition process_transition (wp : WebhookProcessor) (provider_code : string)
    (cb : ProviderCallback) (webhook : uuid) : SM CallbackOutcome :=
  payment <- find_payment cb ;;
  match payment with
  | None =>
      decide_webhook webhook WRejected (Some "payment not found") ;;;
      ret (mkOutcome OutNotFound None (Some cb))
  | Some p =>
      let tenant_ctx := integration_ctx (Some (p_tenant_id p)) provider_code in
      upd webhook (w_bind (p_tenant_id p) (p_id p)) ;;;
      ok <- lift_res (amount_ok cb p) ;;
      if negb ok then
        decide_webhook webhook WRejected (Some "amount mismatch") ;;;
        dto <- payment_dto p ;;
        ret (mkOutcome OutAmountMismatch (Some dto) (Some cb))
      else
        payments <- new_payment_service tenant_ctx (wp_providers wp) (wp_settings wp) None ;;
        failed <- catch (apply_action payments (p_id p) cb ;;; ret None)
                    (fun e => match e with
                              | EDomain c d => if subclass c InvariantViolationError
                                               then ret (Some (exn_str c d)) else raise e
                              | _ => raise e
                              end) ;;
        match failed with
        | Some message =>
            decide_webhook webhook WFailed (Some message) ;;;
            p' <- load (p_id p) ;;
            dto <- payment_dto p' ;;
            ret (mkOutcome OutInvalidState (Some dto) (Some cb))
        | None =>
            decide_webhook webhook WProcessed None ;;;
            p' <- load (p_id p) ;;
            dto <- payment_dto p' ;;
            ret (mkOutcome OutOk (Some dto) (Some cb))
        end
  end.

(** [_replay] *)
Definition replay (provider_code key : string) (cb : ProviderCallback) : SM CallbackOutcome :=
  l <- query (same_key provider_code key) ;;
  match l with
  | [] => raise ENoResult
  | [w] =>
      payment <- match w_payment_id w with
                 | Some i => session_get (R:=Payment) i
                 | None => ret None
                 end ;;
      dto <- match payment with
             | Some p => d <- payment_dto p ;; ret (Some d)
             | None => ret None
             end ;;
      ret (match w_status w with
           | WRejected =>
               mkOutcome (if startswith (default "" (w_error w)) "amount"
                          then OutAmountMismatch else OutNotFound) dto (Some cb)
           | WFailed => mkOutcome OutInvalidState dto (Some cb)
           | _ => match payment with
                  | None => mkOutcome OutNotFound None (Some cb)
                  | Some _ => mkOutcome OutAlreadyProcessed dto (Some cb)
                  end
           end)
  | _ => raise EMultipleResults
  end.

Definition rejected_key (digest : string) : string := "rejected:" +:+ digest.

(** [_journal_rejected] *)
Definition journal_rejected (provider_code : string) (raw : RawWebhook) : SM unit :=
  en <- gets env ;;
  let key := rejected_key (sha256_hex en (rw_body raw +:+ "|" +:+ py_repr_items en (rw_form raw))) in
  i <- new_uuid7 ;;
  t <- now ;;
  insert_on_conflict_do_nothing (same_key provider_code key)
    (mkWebhook i provider_code key None None (str_take REJECTED_BODY_LIMIT (rw_body raw))
       (redact_headers (rw_headers raw)) (Some false) WRejected (Some "invalid signature")
       (Some t)) ;;;
  ret tt.

(** [_dispatch] *)
Definition dispatch (wp : WebhookProcessor) (provider_code : string) (cb : ProviderCallback)
    (raw : RawWebhook) : SM CallbackOutcome :=
  if bool_decide (cb_action cb ∈ READ_ONLY_ACTIONS) then handle_read_only cb
  else if negb (cb_signature_valid cb) then
    journal_rejected provider_code raw ;;;
    ret (mkOutcome OutInvalidSignature None (Some cb))
  else
    let key := dedup_key cb in
    webhook <- claim_ledger provider_code key raw ;;
    match webhook with
    | None => replay provider_code key cb
    | Some w => process_transition wp provider_code cb (w_id w)
    end.

Definition process (wp : WebhookProcessor) (provider_code : string) (raw : RawWebhook)
    : SM (Z * list (string * json)) :=
  match assoc provider_code (wp_providers wp) with
  | None => raise (EDomain WebhookVerificationError
                     ("unknown or disabled provider: " +:+ provider_code))
  | Some provider =>
      callback <- pv_parse_webhook provider raw ;;
      outcome <- with_uow (dispatch wp provider_code callback raw) ;;
      response <- pv_build_webhook_response provider outcome ;;
      ret (rs_status_code response, rs_body response)
  end.

(** [_handle] of the routes *)
Definition handle (wp : WebhookProcessor) (provider_code : string) (raw : RawWebhook)
    : SM (Z * list (string * json)) :=
  catch (process wp provider_code raw) (fun e =>
    match e with
    | EDomain c _ =>
        if subclass c WebhookVerificationError
        then ret (403%Z, [("error", JObj [("code", JStr "webhook_verification_failed")])])
        else raise e
    | _ => raise e
    end).
Definition payme_webhook (wp : WebhookProcessor) := handle wp "payme".
Definition click_webhook (wp : WebhookProcessor) := handle wp "click".
Definition stripe_webhook (wp : WebhookProcessor) := handle wp "stripe".
