(* ===== verification/WebhookFacts.v ===== *)
(** Facts about webhook intake: payments move along the machine, forged
    callbacks touch nothing but the journal, duplicates are replayed. *)

From stdpp Require Import base strings gmap list.
From Stdlib Require Import ZArith Lia Ascii.
From S2P Require Import Prelude Errors PyLib Calendar Entities Models Events Session SessionFacts.
From S2P Require Import Access Journal Ports Payments PayFacts DbFacts Activation Webhooks.

(** ** Payments move along the machine *)

Section Moves.
Abbreviation moves := (steps (evo pay_evo)).

Lemma quiet_sys_get_one {T} `{Table T} (p : T -> bool) : steps quiet (sys_get_one_or_none p).
Proof. unfold sys_get_one_or_none. steps_walk. Qed.
Hint Resolve quiet_sys_get_one : steps.
Lemma quiet_find_payment cb : steps quiet (find_payment cb).
Proof. unfold find_payment. steps_walk. Qed.
Hint Resolve quiet_find_payment quiet_payment_dto : steps.
Lemma quiet_read_only cb : steps quiet (handle_read_only cb).
Proof. unfold handle_read_only. steps_walk. Qed.

Lemma quiet_replay_webhook code key cb : steps quiet (replay code key cb).
Proof. unfold replay. steps_walk. Qed.

Lemma moves_find_payment cb : moves (find_payment cb).
Proof. apply (quiet_steps_evo pay_evo), quiet_find_payment. Qed.
Lemma moves_payment_dto p : moves (payment_dto p).
Proof. apply (quiet_steps_evo pay_evo), quiet_payment_dto. Qed.
Hint Resolve moves_find_payment moves_payment_dto : steps.

Lemma moves_claim code key raw : moves (claim_ledger code key raw).
Proof.
  unfold claim_ledger. steps_walk. apply evo_on_conflict; [apply _|]. intros. apply tol_put.
Qed.
Lemma moves_journal code raw : moves (journal_rejected code raw).
Proof.
  unfold journal_rejected. steps_walk. apply evo_on_conflict; [apply _|]. intros. apply tol_put.
Qed.
Lemma moves_decide w st e : moves (decide_webhook w st e).
Proof. unfold decide_webhook. steps_walk. Qed.
Lemma moves_apply ps i cb : moves (apply_action ps i cb).
Proof. unfold apply_action. steps_walk. Qed.
Hint Resolve moves_claim moves_journal moves_decide moves_apply : steps.

Lemma moves_new_service ctx pv st acc : moves (new_payment_service ctx pv st acc).
Proof. unfold new_payment_service. steps_walk. Qed.
Hint Resolve moves_new_service : steps.

Lemma moves_transition wp code cb w : moves (process_transition wp code cb w).
Proof. unfold process_transition. steps_walk. Qed.

Lemma moves_dispatch wp code cb raw : moves (dispatch wp code cb raw).
Proof.
  pose proof moves_transition. unfold dispatch.
  pose proof (fun cb => quiet_steps_evo pay_evo _ (quiet_read_only cb)).
  pose proof (fun a b c => quiet_steps_evo pay_evo _ (quiet_replay_webhook a b c)).
  steps_walk.
Qed.
End Moves.
#[export] Hint Resolve quiet_sys_get_one quiet_find_payment quiet_payment_dto
  quiet_read_only quiet_replay_webhook : steps.

(** ** The ledger is written by the intake alone *)

Definition hooks_of (d : Db) : gmap N PaymentWebhook := b_webhooks (d_billing d).

Section ApplyFrame.
Abbreviation keeps := (steps (evo (same hooks_of))).

#[local] Instance hooks_subs : Ignores (same hooks_of) Subscription.
Proof. done. Qed.
#[local] Instance hooks_pays : Ignores (same hooks_of) Payment.
Proof. done. Qed.
#[local] Instance hooks_audit : Ignores (same hooks_of) AuditLog.
Proof. done. Qed.

Lemma keeps_locked i : keeps (locked_subscription i).
Proof. unfold locked_subscription. steps_walk. Qed.
Hint Resolve keeps_locked : steps.

Lemma keeps_activate ps i : keeps (activate_subscription ps i).
Proof.
  unfold activate_subscription. steps_walk.
  - apply (steps_fold_m (evo (same hooks_of))). steps_walk.
  - apply (steps_for_each (evo (same hooks_of))). steps_walk.
Qed.
Lemma keeps_close ps i t r : keeps (close_payment ps i t r).
Proof. unfold close_payment, drop_pending_subscription, payments_audit. steps_walk. Qed.
Hint Resolve keeps_activate keeps_close : steps.

(** The transition itself never writes the ledger. *)
Lemma keeps_apply ps i cb : keeps (apply_action ps i cb).
Proof.
  unfold apply_action, mark_pending, mark_succeeded, mark_canceled_by_provider, payments_audit.
  steps_walk.
Qed.
End ApplyFrame.

(** ** Running the ledger's INSERT ... ON CONFLICT DO NOTHING *)

Lemma on_conflict_inv {R} `{Table R} (conflict : R -> bool) (r : R) s res s' :
  no_rivals (env s) -> insert_on_conflict_do_nothing conflict r s = (res, s') ->
  env s' = env s /\
  ((res = Ok true /\ db s' = t_put r (db s) /\ t_get (db s) !! t_id r = None /\
    select conflict (t_get (db s)) = []) \/
   (res = Ok false /\ db s' = db s /\ select conflict (t_get (db s)) ≠ []) \/
   (exists e, res = Raise e /\ (db s' = db s \/
      (db s' = t_put r (db s) /\ aborted s' = true /\
       select conflict (t_get (db s)) = [])))).
Proof.
  intros Hr H1. unfold insert_on_conflict_do_nothing in H1. unfold bind at 1 in H1.
  destruct (flush s) as [[[]|e] s1] eqn:Ef.
  2:{ apply flush_inv in Ef as (Hd & _ & He & _). simplify_eq. naive_solver. }
  pose proof Ef as (_ & _ & _ & -> & Ha & _)%flush_inv. clear Ef.
  unfold bind at 1 in H1. unfold rivals in H1.
  set (s2 := mkSt _ _ _ _ _ _ _ _ _ _ _ _ _ _ _ _) in H1.
  assert (Hd2 : db s2 = db s) by apply Hr. assert (He2 : env s2 = env s) by done.
  assert (Ha2 : aborted s2 = false) by done. clearbody s2.
  erewrite bind_Ok in H1 by (by apply query_run). rewrite Hd2 in H1.
  destruct (select conflict (t_get (db s))) as [|x l] eqn:Es.
  - unfold bind in H1. destruct (insert_row r s2) as [[u|e] s3] eqn:Ei.
    + apply insert_row_Ok in Ei as (-> & _ & Hn & _). unfold ret in H1. simplify_eq. simpl.
      rewrite Hd2 in *. split; [done|]. left. auto.
    + simplify_eq. unfold insert_row in Ei. rewrite Ha2 in Ei.
      destruct (t_get (db s2) !! t_id r); [simplify_eq; simpl; naive_solver|].
      unfold flush in Ei. simpl in Ei. rewrite Ha2 in Ei. rewrite Hd2 in Ei.
      destruct (db_ranges _); simpl in Ei; [destruct (db_ok _); simpl in Ei|];
        simplify_eq; simpl; rewrite Hd2; naive_solver.
  - unfold ret in H1. simplify_eq. rewrite Hd2. naive_solver.
Qed.

(** ** Forged callbacks *)

Definition hex_digest (d : string) : Prop := String.length d = 64%nat /\ str_all hex_ch d = true.

Lemma str_all_drop_prefix p a b : str_all p (a +:+ b) = true -> str_all p b = true.
Proof. rewrite str_all_app. by intros [_ ?]%andb_prop. Qed.

(** A key that ends in [:action] is not a key of the rejected namespace: a
    digest holds no colon and is longer than the name of an action. *)
Lemma rejected_key_not_dedup digest cb :
  hex_digest digest -> rejected_key digest ≠ dedup_key cb.
Proof.
  intros [Hl Hh] Heq. unfold rejected_key, dedup_key in Heq.
  assert (Hcut : forall t a, "rejected:" +:+ digest = t +:+ ":" +:+ a ->
            (t = "rejected" /\ a = digest) \/ exists x y, digest = x +:+ String ":" y).
  { clear. intros t a. unfold String.append at 1.
    do 9 (destruct t as [|? t]; [intros [= H]; first [by left | fail] |
      cbn [String.append]; intros H; injection H as <- H; revert H]).
    intros ->. right. exists t, a. done. }
  apply Hcut in Heq as [[_ Ha]|(x & y & ->)].
  - rewrite <- Ha in Hl. by destruct (cb_action cb).
  - apply str_all_drop_prefix in Hh. done.
Qed.

(** What a forged callback can leave behind: at most one ledger row, in the
    rejected namespace. *)
Definition only_journal (code : string) (en : Env) (d d' : Db) : Prop :=
  d' = d \/ exists w x, d' = t_put w d /\ hooks_of d !! w_id w = None /\ w_provider w = code /\
    w_dedup_key w = rejected_key (sha256_hex en x) /\ w_status w = WRejected /\
    w_payment_id w = None.

Lemma journal_rejected_inv code raw s res s' :
  no_rivals (env s) -> journal_rejected code raw s = (res, s') ->
  env s' = env s /\
  match res with
  | Ok _ => only_journal code (env s) (db s) (db s')
  | Raise _ => db s' = db s \/ aborted s' = true
  end.
Proof.
  intros Hr H. unfold journal_rejected in H.
  erewrite bind_Ok in H by done. erewrite bind_Ok in H by apply new_uuid7_run.
  erewrite bind_Ok in H by apply now_run. unfold bind in H.
  destruct (insert_on_conflict_do_nothing _ _ _) as [[b|e] s1] eqn:Ei; unfold ret in H;
    simplify_eq; apply on_conflict_inv in Ei as (He & Hc); [|done| |done].
  - split; [exact He|]. destruct Hc as [(Hb & Hd & Hn & _)|[(Hb & Hd & _)|(e & ? & _)]];
      simplify_eq; [|by left].
    right. eexists _, (rw_body raw +:+ "|" +:+ py_repr_items (env s) (rw_form raw)).
    split; [exact Hd|]. split; [exact Hn|]. done.
  - split; [exact He|]. destruct Hc as [(? & _)|[(? & _)|(e' & _ & Hd)]]; simplify_eq.
    destruct Hd as [Hd|(_ & Hd & _)]; auto.
Qed.

(** A row of the rejected namespace is invisible to the deduplication of
    authenticated callbacks. *)
Lemma select_put_other {R} `{Table R} (p : R -> bool) (d : Db) (r : R) :
  (forall d t, t_get (t_set (R:=R) t d) = t) ->
  t_get d !! t_id r = None -> p r = false ->
  forall x, x ∈ select p (t_get (t_put r d)) <-> x ∈ select p (t_get d).
Proof.
  intros Hg Hn Hp x. unfold t_put. rewrite Hg, !elem_of_select. split.
  - intros [[i Hi] Hx]. rewrite lookup_insert in Hi.
    case_decide; simplify_eq; [congruence|eauto].
  - intros [[i Hi] Hx]. split; [|done]. exists i. rewrite lookup_insert_ne; [done|congruence].
Qed.


(** ** A callback inside its transaction *)

Lemma dispatch_forged wp code cb raw s o s' :
  no_rivals (env s) -> cb_signature_valid cb = false ->
  dispatch wp code cb raw s = (Ok o, s') ->
  oc_status o = OutInvalidSignature /\ only_journal code (env s) (db s) (db s').
Proof.
  intros Hr Hv H. unfold dispatch in H. destruct (bool_decide _).
  - unfold handle_read_only in H. rewrite Hv in H. simpl in H. unfold ret in H. simplify_eq.
    split; [done|by left].
  - rewrite Hv in H. simpl in H. apply bind_inv_Ok in H as (u & s1 & Hj & H).
    unfold ret in H. simplify_eq. split; [done|].
    by apply journal_rejected_inv in Hj as [_ Hj].
Qed.

(** Authenticated and state-changing. *)
Definition acts (cb : ProviderCallback) : Prop :=
  cb_signature_valid cb = true /\ cb_action cb ∉ READ_ONLY_ACTIONS.

Lemma dispatch_acts wp code cb raw :
  acts cb ->
  dispatch wp code cb raw =
  (webhook <- claim_ledger code (dedup_key cb) raw ;;
   match webhook with
   | None => replay code (dedup_key cb) cb
   | Some w => process_transition wp code cb (w_id w)
   end).
Proof.
  intros [Hv Ha]. unfold dispatch. by rewrite bool_decide_false, Hv by done.
Qed.

Definition claimed (code key : string) (d : Db) : Prop :=
  exists i w, hooks_of d !! i = Some w /\ same_key code key w = true.

Lemma claimed_select code key d : claimed code key d <-> select (same_key code key) (hooks_of d) ≠ [].
Proof.
  split.
  - intros (i & w & Hi & Hw) Hs.
    assert (Hin : w ∈ select (same_key code key) (hooks_of d)) by (apply elem_of_select; eauto).
    rewrite Hs in Hin. by apply elem_of_nil in Hin.
  - intros Hs. destruct (select _ _) as [|w l] eqn:E; [done|].
    assert (Hin : w ∈ select (same_key code key) (hooks_of d)) by (rewrite E; set_solver).
    apply elem_of_select in Hin as [[i Hi] Hw]. by exists i, w.
Qed.

Lemma claim_ledger_taken code key raw s :
  no_rivals (env s) -> claimed code key (db s) ->
  exists r s', claim_ledger code key raw s = (r, s') /\ db s' = db s /\ env s' = env s /\
    (forall w, r ≠ Ok (Some w)).
Proof.
  intros Hr Hc. apply claimed_select in Hc. unfold claim_ledger.
  erewrite bind_Ok by apply new_uuid7_run. unfold bind.
  destruct (insert_on_conflict_do_nothing _ _ _) as [[b|e] s1] eqn:Ei;
    apply on_conflict_inv in Ei as [He Hi]; [|done| |done].
  - destruct Hi as [(? & _ & _ & Hs)|[(? & Hd & _)|(e & ? & _)]]; simplify_eq.
    eexists _, _. split; [reflexivity|]. by repeat split.
  - destruct Hi as [(? & _)|[(? & _)|(e' & ? & Hd)]]; simplify_eq.
    eexists _, _. split; [reflexivity|]. repeat split; [|done|done].
    destruct Hd as [Hd|(_ & _ & Hs)]; [exact Hd|]. exfalso. apply Hc. exact Hs.
Qed.

(** A delivery whose key is taken changes nothing. *)
Lemma dispatch_duplicate wp code cb raw s :
  no_rivals (env s) -> acts cb -> claimed code (dedup_key cb) (db s) ->
  db (dispatch wp code cb raw s).2 = db s.
Proof.
  intros Hr Ha Hc. rewrite dispatch_acts by done.
  destruct (claim_ledger_taken code (dedup_key cb) raw s Hr Hc) as (r & s' & E & Hd & He & Hn).
  unfold bind. rewrite E. destruct r as [[w|]|e]; [by destruct (Hn w)| |done].
  destruct (quiet_replay_webhook code (dedup_key cb) cb s') as (_ & Hq & _). by rewrite Hq.
Qed.

(** ** The verdict written to the ledger *)

(** What the ledger row says after an outcome, and what a replay answers. *)
Definition verdict (o : CallbackOutcome) (w : PaymentWebhook) : Prop :=
  match oc_status o with
  | OutNotFound => w_status w = WRejected /\ w_error w = Some "payment not found"
  | OutAmountMismatch => w_status w = WRejected /\ w_error w = Some "amount mismatch"
  | OutInvalidState => w_status w = WFailed
  | OutOk => w_status w = WProcessed
  | _ => False
  end /\
  (oc_status o ≠ OutNotFound ->
   exists dto, oc_payment o = Some dto /\ w_payment_id w = Some (pd_id dto)).

Definition replay_status (o : OutcomeStatus) : OutcomeStatus :=
  match o with OutOk => OutAlreadyProcessed | x => x end.

Definition key_of (w : PaymentWebhook) := (w_id w, w_provider w, w_dedup_key w).

Lemma decide_inv w st e s u s' row :
  decide_webhook w st e s = (Ok u, s') -> hooks_of (db s) !! w = Some row ->
  env s' = env s /\ payments_of (db s') = payments_of (db s) /\
  exists t, hooks_of (db s') = <[w := w_decide st e t row]> (hooks_of (db s)).
Proof.
  intros H Hw. unfold decide_webhook in H. erewrite bind_Ok in H by apply now_run.
  rewrite (upd_run _ w row) in H by exact Hw. simplify_eq.
  split; [done|]. split; [done|]. exists (clock s). done.
Qed.

(** The last statements of a transition: load, render, answer. *)
Lemma answer_inv i st cb s o s' :
  (p <- load (R:=Payment) i ;; dto <- payment_dto p ;; ret (mkOutcome st (Some dto) (Some cb))) s
    = (Ok o, s') ->
  db s' = db s /\ oc_status o = st /\
  exists p dto, payments_of (db s) !! i = Some p /\ oc_payment o = Some dto /\ pd_id dto = p_id p.
Proof.
  intros H. apply bind_inv_Ok in H as (p & s1 & Hl & H). apply load_inv in Hl as [-> Hl].
  apply bind_inv_Ok in H as (dto & s2 & Hd & H). unfold ret in H. simplify_eq.
  pose proof (quiet_db _ _ _ _ (quiet_payment_dto p) Hd) as (_ & Hdb & _).
  apply payment_dto_id in Hd. eauto 10.
Qed.

Lemma transition_verdict wp code cb w s row o s' :
  no_rivals (env s) -> Keyed (R:=Payment) (db s') ->
  hooks_of (db s) !! w = Some row -> process_transition wp code cb w s = (Ok o, s') ->
  exists row', hooks_of (db s') = <[w := row']> (hooks_of (db s)) /\ key_of row' = key_of row /\
    verdict o row'.
Proof.
  intros Hr Hk Hw H. unfold process_transition in H.
  apply bind_inv_Ok in H as (found & s1 & Hf & H).
  pose proof (quiet_db _ _ _ _ (quiet_find_payment cb) Hf) as (E1 & D1 & _).
  rewrite <- D1 in Hw |- *. rewrite <- E1 in Hr. clear Hf D1 E1.
  destruct found as [p|].
  2:{ apply bind_inv_Ok in H as (u & s2 & Hdec & H). unfold ret in H. simplify_eq.
      eapply decide_inv in Hdec as (_ & _ & t & Hh); [|done].
      eexists. split; [exact Hh|]. split; [done|]. by split. }
  erewrite bind_Ok in H by (by apply (upd_run _ w row)).
  set (row1 := w_bind (p_tenant_id p) (p_id p) row) in *.
  set (s2 := st_db _ s1) in H.
  assert (Hw2 : hooks_of (db s2) = <[w := row1]> (hooks_of (db s1))) by done.
  assert (Hr2 : no_rivals (env s2)) by done.
  assert (Hl2 : hooks_of (db s2) !! w = Some row1) by (rewrite Hw2; apply lookup_insert_eq).
  assert (Hback : forall row', <[w := row']> (hooks_of (db s2)) = <[w := row']> (hooks_of (db s1))).
  { intros row'. rewrite Hw2. apply insert_insert_eq. }
  clearbody s2.
  apply bind_inv_Ok in H as (ok & s3 & Ha & H). unfold lift_res in Ha. simplify_eq.
  destruct ok; simpl in H.
  2:{ apply bind_inv_Ok in H as (u & s4 & Hdec & H).
      eapply decide_inv in Hdec as (_ & _ & t & Hh); [|done].
      apply bind_inv_Ok in H as (dto & s5 & Hd & H). unfold ret in H. simplify_eq.
      pose proof (quiet_db _ _ _ _ (quiet_payment_dto p) Hd) as (_ & D5 & _).
      rewrite D5, Hh, Hback. eexists. split; [reflexivity|]. split; [done|]. split; [done|].
      intros _. exists dto. simpl. by rewrite (payment_dto_id _ _ _ _ Hd). }
  apply bind_inv_Ok in H as (pay & s3' & Hn & H). cbv in Hn. injection Hn as _ <-.
  apply bind_inv_Ok in H as (failed & s4 & Ec & H).
  match type of Ec with ?m _ = _ => assert (Hkeep : steps (evo (same hooks_of)) m) end.
  { pose proof keeps_apply. steps_walk. }
  specialize (Hkeep s3). rewrite Ec in Hkeep.
  destruct Hkeep as (E4 & H4 & _). destruct (H4 (no_rivals_same _ _ Hr2)) as [H5 _].
  unfold same in H5. simpl in H5. simpl in E4.
  assert (Hend : forall stw e st, (decide_webhook w stw e ;;;
      p' <- load (p_id p) ;; dto <- payment_dto p' ;; ret (mkOutcome st (Some dto) (Some cb))) s4
      = (Ok o, s') -> exists t, hooks_of (db s') = <[w := w_decide stw e t row1]> (hooks_of (db s1))
        /\ oc_status o = st /\ exists dto, oc_payment o = Some dto /\ pd_id dto = p_id p).
  { intros stw e st Hx. apply bind_inv_Ok in Hx as (u & s5 & Hdec & Hx).
    eapply decide_inv in Hdec as (_ & Hpp & t & Hh); [|by rewrite H5].
    apply answer_inv in Hx as (D6 & Hst & p' & dto & Hp' & Ho & Hid).
    exists t. rewrite D6, Hh, H5, Hback. split; [done|]. split; [done|]. exists dto.
    split; [done|]. rewrite Hid. unfold payments_of in Hp'. rewrite <- D6 in Hp'.
    exact (Hk _ _ Hp'). }
  destruct failed as [message|]; apply Hend in H as (t & Hh & Hst & dto & Ho & Hid);
    (eexists; split; [exact Hh|]; split; [done|]; split; [by rewrite Hst|];
     intros _; exists dto; split; [done|]; simpl; by rewrite Hid).
Qed.

Lemma claim_ledger_new code key raw s w s' :
  no_rivals (env s) -> claim_ledger code key raw s = (Ok (Some w), s') ->
  env s' = env s /\ db s' = t_put w (db s) /\ hooks_of (db s) !! w_id w = None /\
  same_key code key w = true.
Proof.
  intros Hr H. unfold claim_ledger in H. erewrite bind_Ok in H by apply new_uuid7_run.
  apply bind_inv_Ok in H as (b & s1 & Hi & H).
  apply on_conflict_inv in Hi as [He Hi]; [|done].
  destruct Hi as [(? & Hd & Hn & _)|[(? & _)|(e & ? & _)]]; simplify_eq.
  unfold session_get in H. apply bind_inv_Ok in H as (d & s2 & Hg & H).
  unfold get_db in Hg. destruct (aborted s1); simplify_eq. unfold ret in H. simplify_eq.
  match goal with Hl : _ !! _ = Some w |- _ => rewrite Hd in Hl; rename Hl into Hlook end.
  unfold t_get, t_put in Hlook. simpl in Hlook. unfold t_id in Hlook. simpl in Hlook.
  rewrite lookup_insert_eq in Hlook. simplify_eq.
  split; [done|]. split; [exact Hd|]. split; [exact Hn|]. unfold same_key. simpl.
  by rewrite !bool_decide_true.
Qed.

(** The first delivery of a key leaves its verdict in the ledger. *)
Lemma dispatch_verdict wp code cb raw s o s' :
  no_rivals (env s) -> acts cb -> ~ claimed code (dedup_key cb) (db s) ->
  Keyed (R:=Payment) (db s') -> dispatch wp code cb raw s = (Ok o, s') ->
  exists i row, hooks_of (db s') = <[i := row]> (hooks_of (db s)) /\ hooks_of (db s) !! i = None /\
    w_id row = i /\ same_key code (dedup_key cb) row = true /\ verdict o row.
Proof.
  intros Hr Ha Hc Hk H. rewrite dispatch_acts in H by done.
  apply bind_inv_Ok in H as (ow & s1 & Hcl & H). destruct ow as [w|].
  - apply claim_ledger_new in Hcl as (He & Hd & Hn & Hs); [|done].
    eapply transition_verdict in H as (row' & Hh & Hkey & Hv);
      [|by intros k d; rewrite He; apply Hr|done|rewrite Hd; apply lookup_insert_eq].
    injection Hkey as Hk1 Hk2 Hk3. exists (w_id w), row'. rewrite Hd in Hh.
    split; [|split; [done|split; [done|split; [|done]]]].
    + rewrite Hh. unfold hooks_of, t_put, t_get, t_set. simpl. apply insert_insert_eq.
    + unfold same_key in *. by rewrite Hk2, Hk3.
  - exfalso. apply Hc, claimed_select. intros Hsel. unfold claim_ledger in Hcl.
    erewrite bind_Ok in Hcl by apply new_uuid7_run.
    apply bind_inv_Ok in Hcl as (b & s2 & Hi & Hcl).
    apply on_conflict_inv in Hi as [He Hi]; [|done].
    destruct Hi as [(? & Hd & _)|[(? & _ & Hs)|(e & ? & _)]]; simplify_eq.
    unfold session_get in Hcl. apply bind_inv_Ok in Hcl as (d & s3 & Hg & Hcl).
    unfold get_db in Hg. destruct (aborted s2); simplify_eq. unfold ret in Hcl. injection Hcl as Hlook _. rewrite Hd in Hlook.
    unfold t_get, t_put in Hlook. simpl in Hlook. unfold t_id in Hlook. simpl in Hlook.
    by rewrite lookup_insert_eq in Hlook.
Qed.

(** A ledger key belongs to one row. *)
Lemma ledger_unique d code key i w :
  db_ok d = true -> hooks_of d !! i = Some w -> same_key code key w = true ->
  select (same_key code key) (hooks_of d) = [w].
Proof.
  intros Hok Hi Hw. apply select_unique with (i:=i); [done|done|]. intros j b Hj Hb.
  unfold db_ok, billing_ok, webhooks_ok in Hok. split_ok.
  match goal with H : unique_by uq_ledger _ = true |- _ =>
    eapply (proj1 (unique_by_spec uq_ledger _) H j i b w (code, key)); [exact Hj|exact Hi| |] end;
    unfold same_key, uq_ledger in *; split_ok;
    repeat match goal with H : bool_decide _ = true |- _ => apply bool_decide_eq_true in H end;
    congruence.
Qed.

(** Redelivery: nothing changes, and the answer is the first one's. *)
Lemma dispatch_redelivery wp code cb raw s i row o r s' :
  healthy s -> no_rivals (env s) -> acts cb ->
  hooks_of (db s) !! i = Some row -> same_key code (dedup_key cb) row = true -> verdict o row ->
  dispatch wp code cb raw s = (r, s') ->
  db s' = db s /\ forall o', r = Ok o' -> oc_status o' = replay_status (oc_status o).
Proof.
  intros Hh Hr Ha Hi Hw [Hv Hp] H.
  assert (Hc : claimed code (dedup_key cb) (db s)) by (by exists i, row).
  split.
  { pose proof (dispatch_duplicate wp code cb raw s Hr Ha Hc) as Hd. by rewrite H in Hd. }
  intros o' ->. rewrite dispatch_acts in H by done.
  apply bind_inv_Ok in H as (ow & s1 & Hcl & H).
  destruct (claim_ledger_taken code (dedup_key cb) raw s Hr Hc) as (r1 & s2 & E & Hd & He & Hn).
  rewrite E in Hcl. simplify_eq. destruct ow as [w|]; [by destruct (Hn w)|].
  unfold replay in H. apply bind_inv_Ok in H as (l & s2 & Hq & H).
  pose proof (query_state (same_key code (dedup_key cb)) s1) as Hst. rewrite Hq in Hst.
  simpl in Hst. subst s2.
  assert (l = [row]) as ->.
  { unfold query, get_db, bind in Hq. destruct (aborted s1); [done|]. unfold ret in Hq.
    injection Hq as <-. rewrite Hd. eapply ledger_unique; [apply Hh|exact Hi|done]. }
  apply bind_inv_Ok in H as (op & s3 & Hg & H). apply bind_inv_Ok in H as (od & s4 & _ & H).
  unfold ret in H. injection H as <- <-.
  assert (Hsome : oc_status o ≠ OutNotFound -> is_Some op).
  { intros Hne. destruct (Hp Hne) as (dto & _ & Hpid). rewrite Hpid in Hg.
    unfold session_get in Hg. apply bind_inv_Ok in Hg as (d & s5 & Hg1 & Hg).
    unfold get_db in Hg1. destruct (aborted s1); simplify_eq. unfold ret in Hg. simplify_eq.
    pose proof (h_ok _ Hh) as Hok. unfold db_ok, billing_ok, webhooks_ok in Hok. split_ok.
    match goal with H : all_rows (webhook_ok _) _ = true |- _ =>
      apply all_rows_spec with (i:=i) (a:=row) in H; [|exact Hi]; unfold webhook_ok in H;
      rewrite Hpid in H; unfold in_table in H; apply bool_decide_eq_true in H end.
    by rewrite Hd. }
  destruct (oc_status o); simpl in *; destruct_and?; try done;
    repeat match goal with H : w_status row = _ |- _ => rewrite H; clear H
           | H : w_error row = _ |- _ => rewrite H; clear H end; try done.
  destruct (Hsome ltac:(done)) as [p ->]. done.
Qed.
