(* ===== verification/Isolation.v ===== *)
(** Tenant binding of webhooks: a callback reaches one payment, found by our
    own records, and subscriptions of that payment's tenant only. *)

From stdpp Require Import base strings gmap list.
From Stdlib Require Import ZArith Lia Ascii.
From S2P Require Import Prelude Errors PyLib Calendar Entities Models Events Session SessionFacts.
From S2P Require Import Access Journal Ports Payments PayFacts DbFacts Activation Webhooks.
From S2P Require Import WebhookFacts.

(** [reach i t]: of payments only [i] is written, of subscriptions only rows
    of tenant [t]; the catalog of plans and commerce are untouched. *)
Record reach (i t : uuid) (d d' : Db) : Prop := {
  re_pay : forall j, j ≠ i -> payments_of d' !! j = payments_of d !! j;
  re_own : forall p, payments_of d !! i = Some p ->
    exists p', payments_of d' !! i = Some p' /\ pay_identity p' = pay_identity p;
  re_sub : forall j x, subs_of d !! j = Some x ->
    exists x', subs_of d' !! j = Some x' /\ sub_frame x x' /\ (s_tenant_id x ≠ t -> x' = x);
  re_new : forall j, subs_of d !! j = None -> subs_of d' !! j = None;
  re_rest : b_plans (d_billing d') = b_plans (d_billing d) /\ d_commerce d' = d_commerce d }.

#[export] Instance reach_preorder i t : PreOrder (reach i t).
Proof.
  split.
  - intros d. split; eauto. intros j x Hx. exists x. by repeat split.
  - intros d1 d2 d3 [P1 O1 S1 N1 [L1 C1]] [P2 O2 S2 N2 [L2 C2]]. split.
    + intros j Hj. by rewrite P2, P1.
    + intros p Hp. destruct (O1 p Hp) as (p1 & Hp1 & E1). destruct (O2 p1 Hp1) as (p2 & Hp2 & E2).
      exists p2. split; [done|congruence].
    + intros j x Hx. destruct (S1 j x Hx) as (x1 & Hx1 & F1 & T1).
      destruct (S2 j x1 Hx1) as (x2 & Hx2 & F2 & T2). exists x2. split; [done|].
      unfold sub_frame in *. destruct_and!. split; [repeat split; congruence|].
      intros Hne. rewrite T2, T1; [done|done|congruence].
    + eauto.
    + split; congruence.
Qed.

Lemma reach_same i t d d' :
  payments_of d' = payments_of d -> subs_of d' = subs_of d ->
  b_plans (d_billing d') = b_plans (d_billing d) -> d_commerce d' = d_commerce d -> reach i t d d'.
Proof.
  intros Hp Hs Hl Hc. split; rewrite ?Hp, ?Hs; eauto. intros j x Hx. exists x. by repeat split.
Qed.

#[export] Instance reach_hooks i t : Ignores (reach i t) PaymentWebhook.
Proof. intros d tb. by apply reach_same. Qed.
#[export] Instance reach_audit i t : Ignores (reach i t) AuditLog.
Proof. intros d tb. by apply reach_same. Qed.

Lemma reach_own i t d f :
  (forall p, pay_identity (f p) = pay_identity p) ->
  reach i t d (t_set (alter f i (payments_of d)) d).
Proof.
  intros Hf. split; unfold payments_of, subs_of; simpl; eauto.
  - intros j Hj. by rewrite lookup_alter_ne.
  - intros p Hp. exists (f p). by rewrite lookup_alter_eq, Hp.
  - intros j x Hx. exists x. by repeat split.
Qed.

(** ** Steps from a state in which some subscriptions are known to be [t]'s *)

Section Reach.
Context (i t : uuid).

Definition owned (j : uuid) (d : Db) : Prop :=
  exists x, subs_of d !! j = Some x /\ s_tenant_id x = t.

Record known (js : list uuid) (s : St) : Prop := {
  kn_rivals : no_rivals (env s);
  kn_keyed : Keyed (R:=Subscription) (db s);
  kn_pay : exists p, payments_of (db s) !! i = Some p /\ p_tenant_id p = t;
  kn_subs : forall j, j ∈ js -> owned j (db s) }.

Lemma reach_evo_db s s' : no_rivals (env s) -> evo (reach i t) s s' -> reach i t (db s) (db s').
Proof.
  intros Hr (_ & H & _). apply H. intros k d. rewrite Hr. reflexivity.
Qed.

Lemma known_stable js s s' : known js s -> evo (reach i t) s s' -> known js s'.
Proof.
  intros [Hr Hk (p & Hp & Ht) Hs] He. pose proof (reach_evo_db _ _ Hr He) as [P O S N _].
  destruct He as (Ee & _). split.
  - by rewrite Ee.
  - intros j x Hx. destruct (subs_of (db s) !! j) as [y|] eqn:Ey.
    + destruct (S j y Ey) as (x' & Hx' & (Hid & _) & _). unfold subs_of in Hx'.
      unfold t_get in Hx. simpl in Hx. simplify_eq. etransitivity; [exact Hid|]. exact (Hk _ _ Ey).
    + apply N in Ey. unfold subs_of in Ey. unfold t_get in Hx. simpl in Hx. congruence.
  - destruct (O p Hp) as (p' & Hp' & Hid). exists p'. split; [done|].
    unfold pay_identity in Hid. congruence.
  - intros j Hj. destruct (Hs j Hj) as (x & Hx & Hxt). destruct (S j x Hx) as (x' & Hx' & Hf & _).
    exists x'. split; [done|]. destruct Hf as (_ & -> & _). done.
Qed.

Definition from (js : list uuid) (s s' : St) : Prop := known js s -> evo (reach i t) s s'.

#[export] Instance from_preorder js : PreOrder (from js).
Proof.
  split.
  - intros s _. reflexivity.
  - intros s1 s2 s3 H1 H2 K1. pose proof (H1 K1) as E1.
    etransitivity; [exact E1|]. apply H2. by eapply known_stable.
Qed.

Lemma from_evo {A} js (m : SM A) : steps (evo (reach i t)) m -> steps (from js) m.
Proof. intros H s _. apply H. Qed.

Lemma from_upd_sub js j f :
  j ∈ js -> (forall x, sub_frame x (f x)) -> steps (from js) (upd (R:=Subscription) j f).
Proof.
  intros Hj Hf s [_ _ _ Hs]. destruct (Hs j Hj) as (y & Hy & Hyt).
  apply (evo_intro (reach i t)); [done| |done|done].
  split; unfold payments_of, subs_of in *; simpl; eauto.
  - intros k x Hx. destruct (decide (j = k)) as [<-|Hne].
    + exists (f x). rewrite lookup_alter_eq, Hx. simplify_eq. split; [done|]. split; [apply Hf|done].
    + exists x. rewrite lookup_alter_ne by done. by repeat split.
  - intros k Hk. destruct (decide (j = k)) as [<-|Hne]; [congruence|].
    by rewrite lookup_alter_ne.
Qed.

Lemma from_upd_own js f :
  (forall p, pay_identity (f p) = pay_identity p) -> steps (from js) (upd (R:=Payment) i f).
Proof.
  intros Hf s _. apply (evo_intro (reach i t)); [done|by apply reach_own|done|done].
Qed.

(** A block that starts with a query learns what the query returned. *)
Lemma from_bind_post {A B} js (m : SM A) (k : A -> SM B) (Q : A -> St -> Prop) :
  steps (from js) m ->
  (forall s a s', known js s -> m s = (Ok a, s') -> Q a s') ->
  (forall a s', known js s' -> Q a s' -> evo (reach i t) s' (k a s').2) ->
  steps (from js) (bind m k).
Proof.
  intros Hm HQ Hk s Ks. specialize (Hm s Ks). unfold bind.
  destruct (m s) as [[a|e] s'] eqn:Em; simpl in *; [|done].
  etransitivity; [exact Hm|]. apply Hk; [by eapply known_stable|by eapply HQ].
Qed.

Lemma from_more {A} js js' (m : SM A) s :
  steps (from (js' ++ js)) m -> known js s -> (forall j, j ∈ js' -> owned j (db s)) ->
  evo (reach i t) s (m s).2.
Proof.
  intros Hm [] Hj. apply Hm. split; auto. intros j [?|?]%elem_of_app; auto.
Qed.
End Reach.

Ltac reach_walk :=
  repeat first
    [ progress intros
    | solve [apply from_evo; auto with steps typeclass_instances]
    | solve [auto with steps typeclass_instances]
    | match goal with
      | |- steps _ (bind _ _) => apply steps_bind; [typeclasses eauto | |]
      | |- steps _ (catch _ _) => apply steps_catch; [typeclasses eauto | |]
      | |- steps _ (match ?x with _ => _ end) => destruct x
      end ].

Section Ops.
Context (i t : uuid).
Abbreviation within js := (steps (from i t js)).

Lemma quiet_locked p : steps quiet (locked_subscription p).
Proof. unfold locked_subscription, scalar_one_or_none. steps_walk. Qed.

(** The subscription locked for the payment is its tenant's. *)
Lemma locked_owned s x s' :
  known i t [] s -> locked_subscription i s = (Ok (Some x), s') -> owned t (s_id x) (db s').
Proof.
  intros [_ Hk (p & Hp & Ht) _] H. pose proof (quiet_db _ _ _ _ (quiet_locked i) H) as (_ & Hd & _).
  unfold locked_subscription in H. apply bind_inv_Ok in H as (p' & s1 & Hl & H).
  apply load_inv in Hl as [-> Hl]. unfold payments_of in Hp. unfold t_get in Hl. simpl in Hl.
  simplify_eq. apply bind_inv_Ok in H as (sid & s1 & Hsid & H).
  assert (s1 = s) as ->.
  { unfold ret, raise in Hsid. destruct (p_subscription_id p); [congruence|].
    destruct (uuid_parse _); congruence. }
  apply bind_inv_Ok in H as (l & s1 & Hq & H).
  unfold query, get_db, bind in Hq. destruct (aborted s); [done|]. unfold ret in Hq.
  injection Hq as <- <-.
  destruct (select _ _) as [|y [|]] eqn:Es; unfold scalar_one_or_none, ret, raise in H; simplify_eq.
  assert (Hin : x ∈ select (fun s0 => bool_decide (s_id s0 = sid)
      && bool_decide (s_tenant_id s0 = p_tenant_id p)) (subs_of (db s'))).
  { unfold subs_of. unfold t_get in Es. simpl in Es. rewrite Es. set_solver. }
  apply elem_of_select in Hin as [[j Hj] Hx]. split_ok.
  repeat match goal with H : bool_decide _ = true |- _ => apply bool_decide_eq_true in H end.
  exists x. split; [|done]. rewrite <- (Hk _ _ Hj) in Hj. exact Hj.
Qed.

Lemma within_locked js p : within js (locked_subscription p).
Proof. apply from_evo, (quiet_steps_evo (reach i t)), quiet_locked. Qed.

Lemma within_drop st : within [] (drop_pending_subscription i st).
Proof.
  unfold drop_pending_subscription.
  apply (from_bind_post i t [] _ _ (fun o s => forall x, o = Some x -> owned t (s_id x) (db s))).
  - apply within_locked.
  - intros s a s' Ks Hl x ->. by eapply locked_owned.
  - intros o s Ks Ho. destruct o as [x|]; [|reflexivity].
    apply (from_more i t [] [s_id x]); [|done|intros j ->%list_elem_of_singleton; by apply Ho].
    reach_walk; apply from_upd_sub; try set_solver; done.
Qed.

Lemma within_activate ps : within [] (activate_subscription ps i).
Proof.
  unfold activate_subscription.
  apply (from_bind_post i t [] _ _ (fun o s => forall x, o = Some x -> owned t (s_id x) (db s))).
  { apply within_locked. }
  { intros s a s' Ks Hl x ->. by eapply locked_owned. }
  intros o s Ks Ho. destruct o as [x|]; [|reflexivity]. specialize (Ho x eq_refl).
  apply (from_more i t [] [s_id x]); [|done|by intros j ->%list_elem_of_singleton].
  apply steps_bind; [apply _|reach_walk|intros plan].
  apply steps_bind; [apply _|reach_walk|intros tm].
  apply (from_bind_post i t _ _ _ (fun p s => p_tenant_id p = t)); [reach_walk| |].
  { intros s1 p s2 [_ _ (p0 & Hp0 & Ht0) _] Hl. apply load_inv in Hl as [-> Hl].
    unfold t_get in Hl. simpl in Hl. unfold payments_of in Hp0. congruence. }
  intros p s1 Ks1 Hp. revert s1 Ks1.
  match goal with |- forall s1, _ -> evo _ s1 (?m s1).2 => change (within ([s_id x] ++ []) m) end.
  apply (from_bind_post i t _ _ _ (fun l s => forall old, old ∈ l -> owned t (s_id old) (db s))).
  { reach_walk. }
  { intros s1 l s2 [_ Hk _ _] Hq old Ho'. unfold query, get_db, bind in Hq.
    destruct (aborted s1); [done|]. unfold ret in Hq. injection Hq as <- <-.
    apply elem_of_select in Ho' as [[j Hj] Hb]. split_ok.
    repeat match goal with H : bool_decide _ = true |- _ => apply bool_decide_eq_true in H end.
    exists old. split; [|congruence]. rewrite <- (Hk _ _ Hj) in Hj. exact Hj. }
  intros l s2 Ks2 Hl.
  apply (from_more i t [s_id x ] (s_id <$> l)).
  2:{ exact Ks2. }
  2:{ intros j Hj. apply list_elem_of_fmap in Hj as (old & -> & Hin). by apply Hl. }
  apply steps_bind; [apply _| |intros start].
  { match goal with |- steps (from i t ?js) (fold_m l tm ?f) =>
      assert (Hf : forall l' acc, (forall old, old ∈ l' -> s_id old ∈ js) ->
                     steps (from i t js) (fold_m l' acc f)) end.
    { induction l' as [|y l' IH]; intros acc Hsub; cbn [fold_m]; [reach_walk|].
      apply steps_bind; [apply _| |intros b; apply IH; set_solver].
      apply steps_bind; [apply _|apply from_upd_sub; [apply Hsub; set_solver|done]|reach_walk]. }
    apply Hf. intros old Hin. apply elem_of_app. left. by apply list_elem_of_fmap_2. }
  reach_walk.
  - apply from_upd_sub; [set_solver|done].
  - apply from_evo, (steps_for_each (evo (reach i t))). steps_walk.
Qed.

Lemma within_audit js ps a p e : within js (payments_audit ps a p e).
Proof. apply from_evo. apply (evo_audit_record (reach i t)). Qed.
Hint Resolve within_audit within_activate within_drop : steps.

Lemma within_apply ps cb : within [] (apply_action ps i cb).
Proof.
  unfold apply_action, mark_pending, mark_succeeded, mark_canceled_by_provider, close_payment.
  reach_walk; by apply from_upd_own.
Qed.
End Ops.

(** ** The payment a callback finds is one of ours, with its provider *)

Lemma sys_get_one_inv {R} `{Table R} (f : R -> bool) s r s' :
  sys_get_one_or_none f s = (Ok (Some r), s') ->
  s' = s /\ (exists j, t_get (db s) !! j = Some r) /\ f r = true.
Proof.
  intros E. unfold sys_get_one_or_none in E. apply bind_inv_Ok in E as (l & s1 & Hq & E).
  unfold query, get_db, bind in Hq. destruct (aborted s); [done|]. unfold ret in Hq.
  injection Hq as <- <-. destruct (select f _) as [|y [|z l]] eqn:Es; simpl in E;
    unfold ret, raise in E; simplify_eq.
  split; [done|]. apply elem_of_select. rewrite Es. set_solver.
Qed.

Lemma find_payment_inv cb s p s' :
  find_payment cb s = (Ok (Some p), s') ->
  s' = s /\ (exists j, payments_of (db s) !! j = Some p) /\ p_provider p = cb_provider cb.
Proof.
  intros H. unfold find_payment in H. apply bind_inv_Ok in H as (found & s1 & Hf & H).
  destruct found as [q|].
  - unfold ret in H. simplify_eq. destruct (if str_empty _ then _ else _); [|done].
    apply sys_get_one_inv in Hf as (-> & Hj & Hb). split_ok. split; [done|]. split; [exact Hj|].
    by eapply bool_decide_eq_true_1.
  - assert (s1 = s) as ->.
    { destruct (if str_empty _ then _ else _).
      - unfold sys_get_one_or_none in Hf. apply bind_inv_Ok in Hf as (l & s2 & Hq & Hf).
        pose proof (query_state (fun p0 : Payment => bool_decide (p_id p0 = n) &&
          bool_decide (p_provider p0 = cb_provider cb)) s) as Hst. rewrite Hq in Hst. simpl in Hst.
        subst s2. destruct (take 2 l) as [|? [|]]; unfold ret, raise in Hf; by simplify_eq.
      - unfold ret in Hf. by simplify_eq. }
    destruct (cb_provider_txn_id cb) as [txn|]; [|done]. destruct (str_empty txn); [done|].
    apply sys_get_one_inv in H as (-> & Hj & Hb). split_ok. split; [done|]. split; [exact Hj|].
    by eapply bool_decide_eq_true_1.
Qed.

(** ** The reach of a transition *)

(** Either no payment and no subscription is written, or the callback found
    payment [p] of its own provider, the amounts agree, and the writes stay
    within [p] and the subscriptions of [p]'s tenant. *)
Definition bounded_reach (cb : ProviderCallback) (d d' : Db) : Prop :=
  (payments_of d' = payments_of d /\ subs_of d' = subs_of d) \/
  exists p, payments_of d !! p_id p = Some p /\ p_provider p = cb_provider cb /\
    amount_ok cb p = Ok true /\ reach (p_id p) (p_tenant_id p) d d'.

Lemma decide_untouched w st e s :
  payments_of (db (decide_webhook w st e s).2) = payments_of (db s) /\
  subs_of (db (decide_webhook w st e s).2) = subs_of (db s).
Proof. done. Qed.

Lemma transition_reach wp code cb w s :
  no_rivals (env s) -> Keyed (R:=Payment) (db s) -> Keyed (R:=Subscription) (db s) ->
  bounded_reach cb (db s) (db (process_transition wp code cb w s).2).
Proof.
  intros Hr Hkp Hks. unfold process_transition. unfold bind at 1.
  pose proof (quiet_find_payment cb s) as (_ & Hd1 & _).
  destruct (find_payment cb s) as [[found|e] s1] eqn:Ef; simpl in Hd1;
    [|left; simpl; by rewrite Hd1].
  destruct found as [p|].
  2:{ left. cbn. by rewrite <- Hd1. }
  apply find_payment_inv in Ef as (-> & [j Hj] & Hprov). clear Hd1.
  assert (Hp : payments_of (db s) !! p_id p = Some p).
  { pose proof (Hkp _ _ Hj) as Hid. unfold t_id in Hid. simpl in Hid. by rewrite Hid. }
  unfold bind at 1. unfold upd at 1, modify at 1. cbn beta iota.
  set (s2 := st_db _ s).
  assert (Hs2 : payments_of (db s2) = payments_of (db s) /\ subs_of (db s2) = subs_of (db s) /\
    b_plans (d_billing (db s2)) = b_plans (d_billing (db s)) /\
    d_commerce (db s2) = d_commerce (db s) /\ env s2 = env s) by done.
  clearbody s2. destruct Hs2 as (P2 & S2 & L2 & C2 & E2).
  unfold bind at 1, lift_res at 1.
  destruct (amount_ok cb p) as [ok|e] eqn:Ea; [|left; simpl; by rewrite P2, S2].
  destruct ok; simpl.
  2:{ left. match goal with |- context [db (?m s2).2] =>
        assert (Hm : steps (evo (same (fun d => (payments_of d, subs_of d)))) m) end.
      { pose proof (fun q => quiet_steps_evo (same (fun d => (payments_of d, subs_of d))) _
                               (quiet_payment_dto q)).
        unfold decide_webhook. steps_walk. apply (evo_upd _). done. }
      destruct (Hm s2) as (_ & Hx & _).
      destruct Hx as [Hx _]; [by apply no_rivals_same; rewrite E2|].
      unfold same in Hx. injection Hx as -> ->. by rewrite P2, S2. }
  right. exists p. split; [done|]. split; [done|]. split; [done|].
  transitivity (db s2); [by apply reach_same|].
  apply (reach_evo_db (p_id p) (p_tenant_id p)); [by rewrite E2|].
  match goal with |- evo _ s2 (?m s2).2 =>
    assert (Hm : steps (from (p_id p) (p_tenant_id p) []) m) end.
  { pose proof (within_apply (p_id p) (p_tenant_id p)).
    pose proof (fun js q => from_evo (p_id p) (p_tenant_id p) js _
                  (quiet_steps_evo (reach (p_id p) (p_tenant_id p)) _ (quiet_payment_dto q))).
    unfold decide_webhook, new_payment_service. reach_walk. }
  apply Hm. split; [by rewrite E2| | |set_solver].
  - intros k x Hx. unfold t_get in Hx. simpl in Hx.
    change (b_subscriptions (d_billing (db s2))) with (subs_of (db s2)) in Hx. rewrite S2 in Hx.
    exact (Hks _ _ Hx).
  - exists p. by rewrite P2.
Qed.

(** Everything [reach] speaks about. *)
Definition money_tables (d : Db) :=
  (payments_of d, subs_of d, b_plans (d_billing d), d_commerce d).

#[export] Instance money_hooks : Ignores (same money_tables) PaymentWebhook.
Proof. done. Qed.

Lemma same_money_of {A} (m : SM A) s :
  no_rivals (env s) -> steps (evo (same money_tables)) m ->
  payments_of (db (m s).2) = payments_of (db s) /\ subs_of (db (m s).2) = subs_of (db s) /\
  forall i t, reach i t (db s) (db (m s).2).
Proof.
  intros Hr Hm. destruct (Hm s) as (_ & Hx & _). destruct Hx as [Hx _]; [by apply no_rivals_same|].
  unfold same, money_tables in Hx. injection Hx as Hp Hs Hl Hc.
  split; [done|]. split; [done|]. intros i t. by apply reach_same.
Qed.

(** Ledger writes touch neither payments nor subscriptions. *)
Lemma ledger_same_money code key raw :
  steps (evo (same money_tables)) (claim_ledger code key raw) /\
  steps (evo (same money_tables)) (journal_rejected code raw).
Proof.
  split; unfold claim_ledger, journal_rejected; steps_walk;
    (apply evo_on_conflict; [apply _|]; intros; apply tol_put).
Qed.

Lemma dispatch_reach wp code cb raw s :
  no_rivals (env s) -> Keyed (R:=Payment) (db s) -> Keyed (R:=Subscription) (db s) ->
  bounded_reach cb (db s) (db (dispatch wp code cb raw s).2).
Proof.
  intros Hr Hkp Hks. unfold dispatch.
  destruct (bool_decide _).
  { destruct (quiet_read_only cb s) as (_ & Hd & _). left. by rewrite Hd. }
  destruct (ledger_same_money code (dedup_key cb) raw) as [Hc Hj].
  destruct (cb_signature_valid cb); simpl.
  2:{ left. match goal with |- context [db (?m s).2] =>
        destruct (same_money_of m s Hr) as (HP & HS & _); [steps_walk|done] end. }
  pose proof (same_money_of _ s Hr Hc) as (Pc & Sc & Rc). pose proof (Hc s) as (Ec & _).
  unfold bind. destruct (claim_ledger _ _ _ s) as [[w|e] s1]; simpl in *; [|by left].
  destruct w as [w|].
  2:{ destruct (quiet_replay_webhook code (dedup_key cb) cb s1) as (_ & Hd & _). left. by rewrite Hd. }
  assert (Hkp1 : Keyed (R:=Payment) (db s1)).
  { intros j x Hx. apply Hkp. unfold t_get in *. simpl in *. unfold payments_of in Pc. congruence. }
  assert (Hks1 : Keyed (R:=Subscription) (db s1)).
  { intros j x Hx. apply Hks. unfold t_get in *. simpl in *. unfold subs_of in Sc. congruence. }
  destruct (transition_reach wp code cb (w_id w) s1) as [[Pt St]|(p & Hp & Hpr & Ha & Hre)];
    [by rewrite Ec|done|done| |].
  - left. by rewrite Pt, St.
  - right. exists p. rewrite Pc in Hp. split; [done|]. split; [done|]. split; [done|].
    by etransitivity; [apply Rc|].
Qed.
