(* ===== verification/Intake.v ===== *)
(** Payment intake: one idempotency key stands for one payment, also when two
    requests race, and a checkout is always for the payment asked for. *)

From stdpp Require Import base strings gmap list.
From Stdlib Require Import ZArith Lia Ascii.
From S2P Require Import Prelude Errors PyLib Calendar Entities Models Events Session SessionFacts.
From S2P Require Import Access Journal Ports Payments PayFacts DbFacts Activation.

(** ** Looking a key up *)

Definition keyed_by (ps : PaymentService) (key : string) (p : Payment) : Prop :=
  p_tenant_id p = ps_tenant ps /\ p_idempotency_key p = key.

Lemma by_key_found ps key s i p :
  aborted s = false -> db_ok (db s) = true -> payments_of (db s) !! i = Some p ->
  keyed_by ps key p -> by_idempotency_key ps key s = (Ok (Some p), s).
Proof.
  intros Ha Hok Hi [Ht Hk]. unfold by_idempotency_key.
  erewrite bind_Ok by (by apply repo_find_run).
  rewrite (select_unique _ _ i p); [done|exact Hi| |].
  - unfold t_tenant. simpl. by rewrite !bool_decide_true.
  - intros j b Hj Hb. split_ok.
    repeat match goal with H : bool_decide _ = true |- _ => apply bool_decide_eq_true in H end.
    unfold db_ok, billing_ok, payments_ok in Hok. split_ok.
    match goal with H : unique_by uq_idem _ = true |- _ =>
      eapply (proj1 (unique_by_spec uq_idem _) H j i b p (ps_tenant ps, key)); [exact Hj|exact Hi| |] end;
      unfold uq_idem; unfold t_tenant in *; simpl in *; congruence.
Qed.

Lemma by_key_none ps key s :
  aborted s = false -> (forall i p, payments_of (db s) !! i = Some p -> ~ keyed_by ps key p) ->
  by_idempotency_key ps key s = (Ok None, s).
Proof.
  intros Ha Hn. unfold by_idempotency_key. erewrite bind_Ok by (by apply repo_find_run).
  rewrite select_none; [done|]. intros j b Hj. specialize (Hn j b Hj). unfold t_tenant. simpl.
  destruct (bool_decide_reflect (p_tenant_id b = ps_tenant ps)); [|done].
  destruct (bool_decide_reflect (p_idempotency_key b = key)); [|done].
  exfalso. apply Hn. by split.
Qed.

Lemma by_key_inv ps key s p s' :
  by_idempotency_key ps key s = (Ok (Some p), s') ->
  s' = s /\ (exists i, payments_of (db s) !! i = Some p) /\ keyed_by ps key p.
Proof.
  intros H. unfold by_idempotency_key in H. apply bind_inv_Ok in H as (l & s1 & Hf & H).
  unfold repo_find, repo_select in Hf. apply bind_inv_Ok in Hf as (l0 & s2 & Hq & Hf).
  unfold query, get_db, bind in Hq. destruct (aborted s); [done|]. unfold ret in *.
  injection Hq as <- <-. injection Hf as <- <-. injection H as Hh <-.
  split; [done|]. unfold id in Hh.
  match type of Hh with head ?l = _ => destruct l as [|x l'] eqn:El end; [done|].
  simpl in Hh. injection Hh as ->.
  match type of El with select ?f ?t = _ =>
    assert (Hin : p ∈ select f t) by (rewrite El; set_solver) end.
  apply elem_of_select in Hin as [Hj Hb]. split_ok.
  repeat match goal with H : bool_decide _ = true |- _ => apply bool_decide_eq_true in H end.
  split; [exact Hj|]. by split.
Qed.

(** ** Replays *)

Lemma replay_inv p request s c s' :
  replay_checkout p request s = (Ok c, s') ->
  db s' = db s /\ payment_request p = request /\ co_payment_id c = p_id p /\
  co_provider c = p_provider p.
Proof.
  intros H. pose proof (quiet_db _ _ _ _ (quiet_replay p request) H) as (_ & Hd & _).
  unfold replay_checkout in H.
  destruct (bool_decide_reflect (payment_request p = request)) as [Hreq|]; [|done]. simpl in H.
  apply bind_inv_Ok in H as (en & s1 & _ & H). apply bind_inv_Ok in H as (ex & s2 & _ & H).
  unfold ret in H. by simplify_eq.
Qed.

Lemma replay_conflict p request s :
  payment_request p ≠ request ->
  replay_checkout p request s =
  (Raise (EDomain ConflictError "idempotency key already used for a different payment"), s).
Proof. intros H. unfold replay_checkout. by rewrite bool_decide_false. Qed.

Section Create.
Context (ps : PaymentService) (amount : Money) (purpose reference provider key : string)
  (url : option string) (sub : option uuid).

Definition the_request := (m_amount amount, m_currency amount, purpose, reference, provider).
Abbreviation create := (create_payment ps amount purpose reference provider key url sub).

(** The payment a checkout stands for: exactly the requested amount, purpose,
    reference and provider, under this tenant and key. *)
Definition answered (c : CheckoutDTO) (s : St) : Prop :=
  exists p, payments_of (db s) !! co_payment_id c = Some p /\
    payment_request p = the_request /\ keyed_by ps key p.

Lemma replay_answered p s c s' :
  (exists i, payments_of (db s) !! i = Some p) -> Keyed (R:=Payment) (db s) -> keyed_by ps key p ->
  replay_checkout p the_request s = (Ok c, s') -> answered c s'.
Proof.
  intros [i Hi] Hk Hkp Hrep. apply replay_inv in Hrep as (D & Hreq & Hid & _).
  exists p. rewrite D, Hid. split; [|done]. pose proof (Hk _ _ Hi) as Hidi.
  unfold t_id in Hidi. simpl in Hidi. by rewrite Hidi.
Qed.

(** The provider's checkout for the payment just inserted. *)
Lemma checkout_answered adapter `{!ProviderLaws adapter} i row s c s' :
  payments_of (db s) !! i = Some row -> p_id row = i -> payment_request row = the_request ->
  keyed_by ps key row ->
  (p <- load i ;;
   dto <- payment_dto p ;;
   checkout <- pv_create_checkout adapter dto url ;;
   upd i (fun p => set_metadata
            (dict_set "expires_at" (iso_opt (co_expires_at checkout))
               (dict_set "checkout_url" (JStr (co_checkout_url checkout)) (p_metadata p))) p) ;;;
   flush ;;;
   p <- load i ;;
   emit SvcPayments (ps_ctx ps) "billing.payment.created" (payment_event_payload p) ;;;
   ret checkout) s = (Ok c, s') -> answered c s'.
Proof.
  intros Hrow Hidr Hreq Hkp H. erewrite bind_Ok in H by (by apply load_run).
  apply bind_inv_Ok in H as (dto & s7 & Hdto & H).
  pose proof (quiet_db _ _ _ _ (quiet_payment_dto row) Hdto) as (_ & D7 & _).
  apply payment_dto_id in Hdto.
  apply bind_inv_Ok in H as (co & s8 & Hco & H).
  pose proof (quiet_db _ _ _ _ (law_checkout_quiet dto url) Hco) as (_ & D8 & _).
  apply law_checkout in Hco as [Hid _]. rewrite <- D7, <- D8 in Hrow.
  erewrite bind_Ok in H by (by apply upd_pay_run).
  apply bind_inv_Ok in H as (u2 & s9 & Hf & H).
  pose proof Hf as (_ & _ & _ & -> & _)%flush_inv.
  apply bind_inv_Ok in H as (p9 & s10 & Hl & H). apply load_inv in Hl as [-> Hl].
  apply bind_inv_Ok in H as (ev & s11 & Hem & H). unfold ret in H. injection H as <- <-.
  apply emit_inv in Hem as D11. unfold answered. rewrite D11, Hid, Hdto, Hidr. exists p9.
  split; [exact Hl|].
  unfold t_get in Hl. simpl in Hl. rewrite lookup_insert_eq in Hl. by injection Hl as <-.
Qed.

(** Every successful call answers for a payment as requested. *)
Lemma create_payment_Ok s c s' :
  no_rivals (env s) -> providers_ok ps -> Keyed (R:=Payment) (db s) ->
  create s = (Ok c, s') -> answered c s'.
Proof.
  intros Hr Hps Hk H. unfold create_payment in H.
  destruct (assoc provider (ps_providers ps)) as [adapter|] eqn:Ea; [|done].
  specialize (Hps _ _ Ea).
  apply bind_inv_Ok in H as (u & s1 & Hg & H).
  assert (s1 = s) as -> by (unfold guardM in Hg; destruct (_ <=? _)%Z; unfold ret, raise in Hg;
    by simplify_eq).
  apply bind_inv_Ok in H as (u' & s1 & Hv & H).
  pose proof (quiet_db _ _ _ _ (quiet_return_url url) Hv) as (E1 & D1 & _).
  rewrite <- E1 in Hr. rewrite <- D1 in Hk. clear Hv Hg E1 D1 s.
  apply bind_inv_Ok in H as (ex & s2 & Hb & H). destruct ex as [p|].
  { apply by_key_inv in Hb as (-> & Hi & Hkp). by eapply replay_answered. }
  assert (Hq : steps quiet (by_idempotency_key ps key)).
  { unfold by_idempotency_key, repo_find, repo_select. steps_walk. }
  destruct (quiet_db _ _ _ _ Hq Hb) as (E2 & D2 & _).
  rewrite <- D2 in Hk. rewrite <- E2 in Hr. clear Hb D2 E2 s1 Hq.
  erewrite bind_Ok in H by apply new_uuid7_run. erewrite bind_Ok in H by apply now_run.
  set (i := next_uuid s2) in *. set (t := clock _) in *.
  set (s3 := tick (drew_uuid s2)) in *.
  assert (Hr3 : no_rivals (env s3)) by done. assert (D3 : db s3 = db s2) by done.
  clearbody i t s3. rewrite <- D3 in Hk. clear D3 Hr s2.
  apply bind_inv_Ok in H as (won & s4 & Hc & H).
  apply catch_inv_Ok in Hc as [Hc|(e & s5 & Hc & Hh)].
  - apply bind_inv_Ok in Hc as (row & s5 & Hn & Hc). unfold ret in Hc. injection Hc as <- <-.
    apply begin_nested_Ok in Hn as (_ & _ & Hn). apply repo_add_Ok in Hn as (-> & -> & _).
    set (row := mkPayment _ _ _ _ _ _ _ _ _ _ _ _ _ _ _) in H.
    by eapply (checkout_answered adapter i row _ c s' (lookup_insert_eq _ i row)), H.
  - destruct e; try done. unfold bind at 1 in Hc.
    destruct (begin_nested _ s3) as [[row|e] s6] eqn:En; [done|]. injection Hc as -> ->.
    apply begin_nested_Raise in En as D5; [|done]. rewrite <- D5 in Hk.
    apply bind_inv_Ok in Hh as (w & s6 & Hb & Hh). destruct w as [w|]; [|done].
    apply by_key_inv in Hb as (-> & Hj & Hkp).
    apply bind_inv_Ok in Hh as (c' & s7 & Hrep & Hh). unfold ret in *. simplify_eq.
    by eapply replay_answered.
Qed.

(** ** Repeating a request *)

Context (adapter : PaymentProvider).
Hypothesis Hadapter : assoc provider (ps_providers ps) = Some adapter.
Hypothesis Hpos : (0 < m_amount amount)%Z.

Hypothesis Hurl : forall s, validate_return_url url s = (Ok tt, s).

(** After the checks: the lookup, and an INSERT if it finds nothing. *)
Lemma create_start s :
  create s = (existing <- by_idempotency_key ps key ;;
              match existing with
              | Some p => replay_checkout p the_request
              | None => fun s => (create s)
              end) s \/ forall p s', by_idempotency_key ps key s ≠ (Ok (Some p), s').
Proof.
  destruct (by_idempotency_key ps key s) as [[[p|]|e] s1] eqn:Eb; [left|right; congruence..].
  unfold create_payment. rewrite Hadapter. unfold guardM.
  replace (m_amount amount <=? 0)%Z with false by lia.
  erewrite bind_Ok by done. erewrite bind_Ok by apply Hurl.
  erewrite bind_Ok by exact Eb. by erewrite bind_Ok by exact Eb.
Qed.

(** A repeated request is answered from the first one's payment. *)
Lemma create_repeat s i p :
  aborted s = false -> db_ok (db s) = true -> payments_of (db s) !! i = Some p ->
  keyed_by ps key p -> create s = replay_checkout p the_request s.
Proof.
  intros Ha Hok Hi Hk. pose proof (by_key_found ps key s i p Ha Hok Hi Hk) as Eb.
  destruct (create_start s) as [->|Hn]; [|by destruct (Hn _ _ Eb)].
  by erewrite bind_Ok by exact Eb.
Qed.

(** The row a request would insert, and its INSERT against a winner's row. *)
Definition row_of (s : St) (tenant : uuid) : Payment :=
  mkPayment (next_uuid s) tenant sub purpose reference (m_amount amount)
    (m_currency amount) PCreated provider None key None None [] (clock (drew_uuid s)).

Lemma losing_insert s s2 i w :
  aborted s2 = false -> db_ranges (db s2) = true -> int64 (m_amount amount) = true ->
  payments_of (db s2) !! i = Some w -> keyed_by ps key w ->
  exists s4, repo_add (ps_tenant ps) None (row_of s) s2 = (Raise EIntegrity, s4) /\ env s4 = env s2.
Proof.
  intros Ha Hr Hint Hw Hkw.
  destruct (insert_row_conflict (row_of s (ps_tenant ps)) s2) as (s4 & Ei & E4); [done| |].
  - intros El. split.
    { unfold db_ranges, t_put in *. simpl. split_ok. join_ok; auto. by apply all_rows_insert. }
    destruct (db_ok (t_put _ (db s2))) eqn:Eo; [|done]. exfalso.
    assert (Hne : i ≠ next_uuid s).
    { intros ->. unfold t_get, t_id in El. simpl in El. unfold payments_of in Hw. congruence. }
    apply Hne. unfold db_ok, billing_ok, payments_ok, t_put in Eo. simpl in Eo. split_ok.
    match goal with H : unique_by uq_idem _ = true |- _ =>
      eapply (proj1 (unique_by_spec uq_idem _) H i (next_uuid s) w (row_of s (ps_tenant ps))
                (ps_tenant ps, key)) end.
    + rewrite lookup_insert_ne; [exact Hw|]. unfold t_id. simpl. auto.
    + apply lookup_insert_eq.
    + destruct Hkw. unfold uq_idem. congruence.
    + done.
  - exists s4. split; [|done]. unfold repo_add. erewrite bind_Ok by done.
    by erewrite bind_Raise by exact Ei.
Qed.

(** Two requests race: ours looked the key up before the other committed.
    The INSERT waits, fails on the unique index, and the answer comes from
    the winner's row; no second payment appears. *)
Lemma create_race s i w :
  let won := env_rival (env s) (n_rival s) (db s) in
  aborted s = false -> db_ok (db s) = true -> db_ranges (db s) = true ->
  (forall j p, payments_of (db s) !! j = Some p -> ~ keyed_by ps key p) ->
  db_ok won = true -> db_ranges won = true -> int64 (m_amount amount) = true ->
  payments_of won !! i = Some w -> keyed_by ps key w ->
  exists s', db s' = won /\ env s' = env s /\ (create s).2 = (replay_checkout w the_request s').2 /\
    (create s).1 = (replay_checkout w the_request s').1.
Proof.
  intros won Ha Hok Hrg Hnone Hwok Hwr Hint Hw Hkw.
  set (s2 := tick (drew_uuid s)). set (row := row_of s).
  set (body := repo_add (ps_tenant ps) None row).
  destruct (losing_insert s (rivals s2).2 i w) as (s4 & Eadd & E4); try done.
  set (s5 := st_abort (aborted (rivals s2).2) (st_db (fun _ => db (rivals s2).2) s4)).
  exists s5. split; [done|]. split; [done|].
  assert (Hb : by_idempotency_key ps key s5 = (Ok (Some w), s5)).
  { by apply by_key_found with (i:=i). }
  assert (Hnest : begin_nested body s2 = (Raise EIntegrity, s5)).
  { unfold begin_nested. erewrite bind_Ok by (by apply flush_run).
    rewrite (bind_Ok _ _ _ tt (rivals s2).2) by done.
    change (body (rivals s2).2 = (Raise EIntegrity, s4)) in Eadd. by rewrite Eadd. }
  assert (Hc : create s = (won <- (fun s => replay_checkout w the_request s) ;; ret won) s5).
  { unfold create_payment. rewrite Hadapter. unfold guardM.
    replace (m_amount amount <=? 0)%Z with false by lia.
    erewrite bind_Ok by done. erewrite bind_Ok by apply Hurl.
    erewrite bind_Ok by (by apply by_key_none). cbv beta iota.
    erewrite bind_Ok by apply new_uuid7_run. erewrite bind_Ok by apply now_run.
    change (repo_add (ps_tenant ps) None (fun tenant => _)) with body. fold s2. unfold bind at 1. unfold catch at 1.
    rewrite (bind_Raise _ _ _ EIntegrity s5) by exact Hnest.
    rewrite (bind_Ok _ _ _ (Some w) s5) by exact Hb. fold the_request. unfold bind.
    by destruct (replay_checkout w the_request s5) as [[c|e] s6]. }
  rewrite Hc. unfold bind. by destruct (replay_checkout w the_request s5) as [[c|e] s6].
Qed.
End Create.
