(* ===== verification/Jobs.v ===== *)
(** Background work: the billing sweeps (src/core/billing/jobs.py), reliable
    event delivery and retention (src/app/worker.py,
    src/shared/processed_events.py). *)

From stdpp Require Import base strings gmap list.
From Stdlib Require Import ZArith Lia Ascii.
From S2P Require Import Prelude Errors PyLib Calendar Entities Models Events Session SessionFacts Access.
From S2P Require Import Journal Ports Payments PayFacts DbFacts Billing Activation.

(** ** src/core/billing/jobs.py *)

Definition SWEEP_BATCH : nat := 500.
Definition LIVE_STATES : list payment_status := [PCreated; PPending].

(** [_ctx] *)
Definition job_ctx (tenant_id : option uuid) (job : string) : TenantContext :=
  mkCtx tenant_id (mkActor KSystem (Some job)) None DEFAULT_LOCALE.

Definition is_open (p : Payment) : bool := bool_decide (p_status p ∈ LIVE_STATES).

(** One target of the expiry sweep, in its own transaction: whether it expired. *)
Definition expire_one (settings : Settings) (target : uuid * uuid) : SM bool :=
  let '(payment_id, tenant_id) := target in
  let tenant_ctx := job_ctx (Some tenant_id) "billing.expiry" in
  with_uow (
    l <- query (fun p : Payment => bool_decide (p_id p = payment_id) && true) ;;
    o <- scalar_one_or_none l ;;
    match o with
    | None => ret false
    | Some p =>
        if negb (is_open p) then ret false
        else
          payments <- new_payment_service tenant_ctx [] settings None ;;
          catch (mark_expired payments (p_id p) ;;; ret true)
            (fun e => if is_invariant_violation e then ret false else raise e)
    end).

Definition count_m {A} (f : A -> SM bool) (l : list A) : SM Z :=
  fold_m l 0%Z (fun n a => b <- f a ;; ret (if (b : bool) then n + 1 else n)%Z).

Definition expire_stale_checkouts (settings : Settings) : SM Z :=
  t <- now ;;
  let cutoff := (t - timedelta_seconds (payment_checkout_ttl_seconds settings))%Z in
  targets <- with_uow (
    stale <- sys_find (fun p => is_open p && (p_created_at p <? cutoff)%Z)
               (order_asc p_created_at) (Some SWEEP_BATCH) ;;
    ret ((fun p => (p_id p, p_tenant_id p)) <$> stale)) ;;
  count_m (expire_one settings) targets.

(** One target of the period-end sweep. *)
Definition close_one (settings : Settings) (target : uuid * uuid) : SM bool :=
  let '(subscription_id, tenant_id) := target in
  let tenant_ctx := job_ctx (Some tenant_id) "billing.period_end" in
  let fallback := if billing_auto_subscribe settings
                  then Some (billing_default_plan_code settings) else None in
  with_uow (
    payments <- new_payment_service tenant_ctx [] settings None ;;
    billing <- new_billing_service tenant_ctx payments None ;;
    close_ended_period billing subscription_id fallback).

Definition expire_ended_subscriptions (settings : Settings) : SM Z :=
  t <- now ;;
  targets <- with_uow (
    due <- sys_find (fun s => live (s_status s) && (s_current_period_end s <=? t)%Z)
             (order_asc s_current_period_end) (Some SWEEP_BATCH) ;;
    ret ((fun s => (s_id s, s_tenant_id s)) <$> due)) ;;
  count_m (close_one settings) targets.

(** ** src/app/worker.py *)

Definition MAX_TRIES : Z := 5.
Definition RETRY_BASE_DELAY_SECONDS : Z := 15.
Definition MAX_DRAIN_BATCHES : nat := 100.

(** INSERT INTO processed_events ... ON CONFLICT DO NOTHING: whether a row was
    inserted. *)
Definition mark_processed (handler_id : string) (event_id : uuid) : SM bool :=
  t <- now ;;
  flush ;;; rivals ;;;
  d <- get_db ;;
  match d_processed d !! (handler_id, event_id) with
  | Some _ => ret false
  | None =>
      modify (st_db (fun d => set_processed (<[(handler_id, event_id) := t]> (d_processed d)) d)) ;;;
      ret true
  end.

(** [except Exception: ...] *)
Definition retry_or_raise {A} (job_try : Z) (e : exn) : SM A :=
  match e with
  | ECancelled => raise e
  | _ => if (MAX_TRIES <=? job_try)%Z then raise e
         else raise (ERetry (RETRY_BASE_DELAY_SECONDS * 2 ^ (job_try - 1)))
  end.

(** [ctx.get("job_try") or 1] *)
Definition job_try_of (job_try : option Z) : Z :=
  match job_try with Some n => if (n =? 0)%Z then 1%Z else n | None => 1%Z end.

Definition dispatch_event (bus : EventBus St) (job_try : option Z) (handler_id : string)
    (wire : list (string * json)) : SM unit :=
  envelope <- lift_res (from_wire wire) ;;
  match resolve bus handler_id with
  | None => raise ELookup
  | Some subscription =>
      catch
        (with_uow (
           fresh <- mark_processed handler_id (e_event_id envelope) ;;
           if negb fresh then ret tt else bs_handler subscription envelope))
        (retry_or_raise (job_try_of job_try))
  end.

(** [_drain] *)
Fixpoint drain_loop (n : nat) (sweep : SM Z) (total : Z) : SM Z :=
  match n with
  | O => ret total
  | S n' =>
      deleted <- sweep ;;
      if (deleted =? 0)%Z then ret (total + deleted)%Z
      else drain_loop n' sweep (total + deleted)%Z
  end.
Definition drain (sweep : SM Z) : SM Z := drain_loop MAX_DRAIN_BATCHES sweep 0.

(** ** src/shared/processed_events.py *)

Definition purge_processed_events (processed_events_retention_days : Z) : SM Z :=
  t <- now ;;
  let cutoff := (t - timedelta_days processed_events_retention_days)%Z in
  with_uow (
    d <- get_db ;;
    let kept := filter (fun kv => (cutoff <= kv.2)%Z) (d_processed d) in
    let deleted := (Z.of_nat (size (d_processed d)) - Z.of_nat (size kept))%Z in
    modify (st_db (set_processed kept)) ;;;
    ret deleted).

(** Facts about background work: an event handler runs effectively once, a
    failed one leaves nothing, and the sweeps respect the state machine. *)

(** ** Event delivery *)

(** What the dispatcher relies on: a handler neither commits nor publishes by
    itself, nor does it touch the deduplication table. *)
Definition handler_ok (h : EventEnvelope -> SM unit) : Prop :=
  forall e, steps (evo (same d_processed)) (h e).

#[export] Instance top_preorder : PreOrder (fun _ _ : Db => True).
Proof. by split. Qed.

Lemma mark_processed_inv h e s b s' :
  no_rivals (env s) -> mark_processed h e s = (Ok b, s') ->
  if b then d_processed (db s) !! (h, e) = None /\ is_Some (d_processed (db s') !! (h, e))
  else is_Some (d_processed (db s) !! (h, e)) /\ db s' = db s.
Proof.
  intros Hr H. unfold mark_processed in H. erewrite bind_Ok in H by apply now_run.
  apply bind_inv_Ok in H as (u & s1 & Hf & H). pose proof Hf as (_ & _ & _ & -> & Ha & _)%flush_inv.
  rewrite (bind_Ok _ _ _ tt (rivals (tick s)).2) in H by done.
  set (s2 := (rivals (tick s)).2) in H. assert (D2 : db s2 = db s) by apply Hr.
  assert (A2 : aborted s2 = false) by done. clearbody s2.
  erewrite bind_Ok in H by (by apply get_db_run). rewrite D2 in H.
  destruct (d_processed (db s) !! (h, e)) eqn:El.
  - unfold ret in H. simplify_eq. eauto.
  - unfold modify, bind, ret in H. simplify_eq. split; [done|]. simpl. rewrite lookup_insert_eq. eauto.
Qed.

Lemma mark_processed_evo h e : steps (evo (fun _ _ => True)) (mark_processed h e).
Proof.
  unfold mark_processed. steps_walk. intros s. by apply (evo_intro (fun _ _ => True)).
Qed.

Lemma catch_Ok {E S A} (m : M E S A) h s a : (m s).1 = Ok a -> catch m h s = m s.
Proof. unfold catch. destruct (m s) as [[b|x] s']; simpl; [done|by intros ?]. Qed.

Lemma catch_Raise {E S A} (m : M E S A) h s x : (m s).1 = Raise x -> catch m h s = h x (m s).2.
Proof. unfold catch. destruct (m s) as [[b|y] s']; simpl; [done|by intros [= ->]]. Qed.

(** What the worker reports for a failed delivery: a retry with exponential
    delay, or the error itself for the last try and for a cancellation. *)
Lemma retry_or_raise_spec {A} n x (s : St) :
  retry_or_raise (A:=A) n x s =
  (Raise (if bool_decide (x = ECancelled) || (MAX_TRIES <=? n)%Z then x
          else ERetry (RETRY_BASE_DELAY_SECONDS * 2 ^ (n - 1))), s).
Proof.
  unfold retry_or_raise, raise.
  destruct x; try (rewrite bool_decide_false by done; by destruct (_ <=? _)%Z).
  by rewrite bool_decide_true.
Qed.

Section Dispatch.
Context (bus : EventBus St) (sub : BusSubscription St) (e : EventEnvelope).
Hypothesis Hres : resolve bus (bs_handler_id sub) = Some sub.
Hypothesis Hh : handler_ok (bs_handler sub).
Hypothesis Hv : valid_envelope e.

Definition attempt : SM unit :=
  with_uow (fresh <- mark_processed (bs_handler_id sub) (e_event_id e) ;;
            if negb fresh then ret tt else bs_handler sub e).

Lemma dispatch_event_unfold job_try s :
  dispatch_event bus job_try (bs_handler_id sub) (to_wire e) s =
  catch attempt (retry_or_raise (job_try_of job_try)) s.
Proof.
  unfold dispatch_event. erewrite bind_Ok by (unfold lift_res; by rewrite from_wire_to_wire).
  by rewrite Hres.
Qed.

Lemma attempt_body_evo : steps (evo (fun _ _ => True))
  (fresh <- mark_processed (bs_handler_id sub) (e_event_id e) ;;
   if negb fresh then ret tt else bs_handler sub e).
Proof.
  pose proof mark_processed_evo.
  assert (steps (evo (fun _ _ => True)) (bs_handler sub e)).
  { intros s. destruct (Hh e s) as (He & _ & Hc & Hp). by split. }
  steps_walk.
Qed.

(** One delivery: either it is recorded as processed together with the
    handler's writes, or it fails and leaves no trace. *)
Lemma attempt_cases s :
  no_rivals (env s) ->
  ((attempt s).1 = Ok tt /\ db_ok (committed (attempt s).2) = true /\
   db_ranges (committed (attempt s).2) = true /\
   is_Some (d_processed (committed (attempt s).2) !! (bs_handler_id sub, e_event_id e))) \/
  (exists x, (attempt s).1 = Raise x /\ committed (attempt s).2 = committed s /\
     published (attempt s).2 = published s).
Proof.
  intros Hr. unfold attempt.
  destruct (with_uow_cases (fun _ _ => True) _ s attempt_body_evo Hr)
    as [(a & s1 & Eb & _ & Hrg & Hok & E1 & E2 & _)|Hfail]; [left|by right].
  destruct a. split; [done|]. rewrite E2. split; [done|]. split; [done|].
  apply bind_inv_Ok in Eb as (b & s2 & Hm & Eb).
  apply mark_processed_inv in Hm as Hm'; [|done]. destruct b; simpl in Eb.
  - destruct (Hh e s2) as (He & Hd & _). rewrite Eb in Hd. simpl in Hd.
    destruct (mark_processed_evo (bs_handler_id sub) (e_event_id e) (uow_enter s)) as [Hen _].
    rewrite Hm in Hen. simpl in Hen.
    destruct Hd as [Hd _]; [apply no_rivals_same; by rewrite Hen|]. unfold same in Hd.
    rewrite Hd. apply Hm'.
  - unfold ret in Eb. simplify_eq. destruct Hm' as [Hm' Hd]. by rewrite Hd.
Qed.

(** A delivery that was already processed does nothing. *)
Lemma attempt_duplicate s :
  no_rivals (env s) -> db_ok (committed s) = true -> db_ranges (committed s) = true ->
  is_Some (d_processed (committed s) !! (bs_handler_id sub, e_event_id e)) ->
  (attempt s).1 = Ok tt /\ committed (attempt s).2 = committed s /\
  published (attempt s).2 = published s.
Proof.
  intros Hr Hok Hrg [t Ht]. unfold attempt, with_uow.
  set (s0 := uow_enter s). set (s2 := (rivals (tick s0)).2).
  assert (D2 : db s2 = committed s) by apply Hr.
  assert (C2 : committed s2 = committed s) by apply Hr.
  assert (Em : mark_processed (bs_handler_id sub) (e_event_id e) s0 = (Ok false, s2)).
  { unfold mark_processed. erewrite bind_Ok by apply now_run.
    erewrite bind_Ok by (by apply flush_run). rewrite (bind_Ok _ _ _ tt s2) by done.
    erewrite bind_Ok by (by apply get_db_run). by rewrite D2, Ht. }
  assert (P2 : published s2 = published s) by done.
  assert (K2 : callbacks s2 = []) by done. assert (A2 : aborted s2 = false) by done.
  clearbody s2.
  rewrite (bind_Ok _ _ _ tt s2); [|by erewrite bind_Ok by exact Em].
  unfold session_commit. erewrite bind_Ok; [|erewrite bind_Ok by (apply flush_run; by rewrite ?D2); done].
  simpl. rewrite D2, P2, K2. simpl. by rewrite app_nil_r.
Qed.
End Dispatch.

(** ** The sweeps *)

Lemma moves_expire_body settings pid tid :
  steps (evo pay_evo)
   (l <- query (fun p : Payment => bool_decide (p_id p = pid) && true) ;;
    o <- scalar_one_or_none l ;;
    match o with
    | None => ret false
    | Some p =>
        if negb (is_open p) then ret false
        else
          payments <- new_payment_service (job_ctx (Some tid) "billing.expiry") [] settings None ;;
          catch (mark_expired payments (p_id p) ;;; ret true)
            (fun e => if is_invariant_violation e then ret false else raise e)
    end).
Proof. steps_walk. Qed.

(** A payment that a callback closed between the scan and the sweep is left
    alone, and nothing is announced. *)
Lemma expire_one_closed settings pid tid s p :
  no_rivals (env s) -> keyed (committed s) -> db_ok (committed s) = true ->
  db_ranges (committed s) = true ->
  payments_of (committed s) !! pid = Some p -> is_open p = false ->
  (expire_one settings (pid, tid) s).1 = Ok false /\
  committed (expire_one settings (pid, tid) s).2 = committed s /\
  published (expire_one settings (pid, tid) s).2 = published s.
Proof.
  intros Hr Hk Hok Hrg Hp Ho. unfold expire_one, with_uow. set (s0 := uow_enter s).
  rewrite (bind_Ok _ _ _ false s0).
  2:{ rewrite (query_one_run p_id (fun _ => true)) by (done || apply Hk).
      unfold t_get. simpl. unfold payments_of in Hp. by rewrite Hp, Ho. }
  unfold session_commit. erewrite bind_Ok; [|erewrite bind_Ok by (by apply flush_run); done].
  simpl. by rewrite app_nil_r.
Qed.
