(* ===== verification/Settlement.v ===== *)
(** How payments end: a closed payment releases its pending subscription, a
    sweep expires the checkouts past their time, and an authentic confirmation settles the
    payment from the callback to the ledger. *)

From stdpp Require Import base strings gmap list.
From Stdlib Require Import ZArith Lia Ascii.
From S2P Require Import Prelude Errors PyLib Calendar Entities Models Events Session SessionFacts.
From S2P Require Import Access Journal Ports Payments PayFacts DbFacts Billing.
From S2P Require Import Activation Webhooks WebhookFacts Isolation Jobs.

Open Scope Z_scope.

(** ** Closing a payment *)

(** The subscription a closed payment leaves behind. *)
Definition dropped (target : payment_status) (t : datetime) (s : Subscription) : Subscription :=
  if bool_decide (s_status s = SPending) then
    if bool_decide (target = PExpired) then sub_closed SExpired (s_canceled_at s) s
    else sub_closed SCanceled (Some t) s
  else s.

Lemma with_sub_same d i s : subs_of d !! i = Some s -> with_sub i s d = d.
Proof.
  intros Hi. unfold with_sub, t_set, subs_of in *. simpl. rewrite insert_id by done.
  by destruct d as [[] ? ? ?].
Qed.

(** What a closed payment does to the subscriptions: the one it pays for, when
    it is there and of the same organization, is released. *)
Definition released (target : payment_status) (t : datetime) (p : Payment) (d : Db) : Db :=
  if bool_decide (p_purpose p = "subscription") then
    match pays_for p with
    | Some sid => match subs_of d !! sid with
                  | Some s => if bool_decide (s_tenant_id s = p_tenant_id p)
                              then with_sub sid (dropped target t s) d else d
                  | None => d
                  end
    | None => d
    end
  else d.

Lemma released_sub target t p d sid s :
  p_purpose p = "subscription" -> pays_for p = Some sid ->
  subs_of d !! sid = Some s -> s_tenant_id s = p_tenant_id p ->
  released target t p d = with_sub sid (dropped target t s) d.
Proof. intros Hp Hf Hs Ht. unfold released. by rewrite bool_decide_true, Hf, Hs, bool_decide_true. Qed.

Lemma released_frame target t p d :
  payments_of (released target t p d) = payments_of d /\ d_audit (released target t p d) = d_audit d.
Proof.
  unfold released. destruct (bool_decide _); [|done]. destruct (pays_for p) as [sid|]; [|done].
  destruct (subs_of d !! sid) as [s|]; [|done]. by destruct (bool_decide _).
Qed.

(** The payment's subscription, if any, as the row lock finds it. *)
Lemma locked_run_opt st i p sid :
  healthy st -> payments_of (db st) !! i = Some p -> pays_for p = Some sid ->
  locked_subscription i st =
    (Ok (match subs_of (db st) !! sid with
         | Some s => if bool_decide (s_tenant_id s = p_tenant_id p) then Some s else None
         | None => None end), st).
Proof.
  intros Hh Hp Hf. unfold locked_subscription. erewrite bind_Ok by (by apply load_run).
  erewrite bind_Ok; [|unfold pays_for in Hf; destruct (p_subscription_id p);
    [by simplify_eq|by rewrite Hf]].
  etransitivity; [|exact (query_one_run s_id (fun s => bool_decide (s_tenant_id s = p_tenant_id p)) sid ret st
    (fun _ => eq_refl) (h_open _ Hh) (k_sub _ (h_keyed _ Hh)))].
  unfold bind. destruct (query _ st) as [[l|e] s']; [|done].
  by destruct l as [|x [|]].
Qed.

Lemma drop_pending_run st i p sid target :
  healthy st -> payments_of (db st) !! i = Some p ->
  p_purpose p = "subscription" -> pays_for p = Some sid ->
  exists st', drop_pending_subscription i target st = (Ok tt, st') /\ healthy st' /\
    env st' = env st /\ n_uuid st' = n_uuid st /\ callbacks st' = callbacks st /\
    published st' = published st /\ db st' = released target (clock st) p (db st).
Proof.
  intros Hh Hp Hpu Hf. unfold drop_pending_subscription, released.
  rewrite (bool_decide_true (p_purpose p = "subscription")), Hf by done.
  erewrite bind_Ok by (by apply (locked_run_opt st i p sid)).
  destruct (subs_of (db st) !! sid) as [s|] eqn:Hs; [|by exists st].
  destruct (bool_decide (s_tenant_id s = p_tenant_id p)); [|by exists st]. cbv beta iota.
  pose proof (k_sub _ (h_keyed _ Hh) _ _ Hs) as Hid. unfold t_id in Hid; simpl in Hid.
  unfold dropped. destruct (bool_decide_reflect (s_status s = SPending)) as [Hsp|Hsp]; simpl.
  2:{ exists st. rewrite with_sub_same by done. auto 10. }
  rewrite Hid. destruct (bool_decide_reflect (target = PExpired)).
  - assert (Hh' : healthy (st_db (with_sub sid (sub_closed SExpired (s_canceled_at s) s)) st)).
    { apply healthy_with_sub with (s:=s); [done|done|done|by left|by left]. }
    eexists. split; [|split; [exact Hh'|auto 10]].
    erewrite bind_Ok by (by apply upd_sub_run). by apply healthy_flush.
  - assert (Hh' : healthy (st_db (with_sub sid (sub_closed SCanceled (Some (clock st)) s)) (tick st))).
    { apply healthy_with_sub with (s:=s); [by apply healthy_tick|done|done|by left|by left]. }
    eexists. split; [|split; [exact Hh'|auto 10]].
    erewrite bind_Ok; [|erewrite bind_Ok by apply now_run; by apply upd_sub_run].
    by apply healthy_flush.
Qed.

(** The step of [close_payment] that releases the subscription. *)
Lemma release_run st i p target :
  healthy st -> payments_of (db st) !! i = Some p ->
  (p_purpose p = "subscription" -> is_Some (pays_for p)) ->
  exists st', (if bool_decide (p_purpose p = "subscription")
               then drop_pending_subscription i target else ret tt) st = (Ok tt, st') /\ healthy st' /\
    env st' = env st /\ n_uuid st' = n_uuid st /\ callbacks st' = callbacks st /\
    published st' = published st /\ db st' = released target (clock st) p (db st).
Proof.
  intros Hh Hp Hf. destruct (bool_decide_reflect (p_purpose p = "subscription")) as [Hpu|Hpu].
  - destruct (Hf Hpu) as [sid Hsid]. by apply (drop_pending_run st i p sid).
  - exists st. unfold released. rewrite bool_decide_false by done. auto 10.
Qed.

Lemma closing_event target : target ∈ [PFailed; PCanceled; PExpired] ->
  event_name_re ("billing.payment." +:+ payment_status_str target) = true.
Proof. intros H. destruct target; [exfalso; set_solver..| | |]; by vm_compute. Qed.

Lemma close_payment_run ps i st p u target reason :
  healthy st -> no_rivals (env st) -> fresh_ids st ->
  actor_user_id_opt (c_actor (ps_ctx ps)) = Ok u ->
  payments_of (db st) !! i = Some p -> can_transition (p_status p) target = true ->
  target ∈ [PFailed; PCanceled; PExpired] ->
  (p_purpose p = "subscription" -> is_Some (pays_for p)) ->
  exists st' row e,
    close_payment ps i target reason st = (Ok tt, st') /\ healthy st' /\ env st' = env st /\
    db st' = t_put row (released target (clock (tick st)) p
                          (with_pay i (to_closed target reason (clock st) p) (db st))) /\
    au_object_id row = Some (uuid_str i) /\ n_uuid st' = S (S (n_uuid st)) /\
    au_id row = env_uuid7 (env st) (S (n_uuid st)) /\
    au_event_id row = Some (env_uuid7 (env st) (n_uuid st)) /\
    callbacks st' = queue_event SvcPayments e (callbacks st) /\ published st' = published st /\
    e_name e = "billing.payment." +:+ payment_status_str target /\
    e_tenant_id e = c_tenant_id (ps_ctx ps) /\ assoc "payment_id" (e_payload e) = Some (JStr (uuid_str (p_id p))).
Proof.
  intros Hh Hr Hf Hu Hp Hc Htg Hpf.
  set (p' := to_closed target reason (clock st) p).
  set (st1 := st_db (with_pay i p') (tick st)).
  assert (Hh1 : healthy st1).
  { apply healthy_with_pay with (p:=p); [by apply healthy_tick|done|done|by left]. }
  assert (Hp1 : payments_of (db st1) !! i = Some p') by apply lookup_insert_eq.
  destruct (release_run st1 i p' target) as (st2 & Hdrop & Hh2 & He2 & Hu2 & Hcb2 & Hpb2 & Hd2); [done|done|exact Hpf|].
  assert (Hdr : db st2 = released target (clock (tick st)) p (with_pay i p' (db st))) by exact Hd2.
  destruct (released_frame target (clock (tick st)) p (with_pay i p' (db st))) as [Hrp Hra].
  assert (Hp2 : payments_of (db st2) !! i = Some p') by (rewrite Hdr, Hrp; exact Hp1).
  set (payload := payment_event_payload p' ++
    (if bool_decide (target = PFailed)
     then [("reason", match reason with Some r => JStr r | None => JNull end)] else [])).
  set (name := "billing.payment." +:+ payment_status_str target).
  assert (Hname : event_name_re name = true) by (by apply closing_event).
  set (st3 := emitted SvcPayments (ps_ctx ps) name payload st2).
  destruct (emitted_db SvcPayments (ps_ctx ps) name payload st2) as (Hd3 & Ha3 & He3 & _).
  destruct (emitted_queue SvcPayments (ps_ctx ps) name payload st2 Hname) as (e & Hcb3 & Hpb3 & Hu3 & Hen & Het & Hep).
  fold st3 in Hd3, Ha3, He3, Hcb3, Hpb3, Hu3.
  assert (Haud : d_audit (db st3) = d_audit (db st)) by (by rewrite Hd3, Hdr, Hra).
  destruct (audit_record_run st3 (ps_ctx ps) name (Some "payment")
    (Some (uuid_str i)) [] (next_uuid st2) None u) as (row & st4 & Hrec & Hh4 & He4 & Hd4 & Hai & _
    & _ & _ & Hae & Hoi & Hu4 & Hcb4 & Hpb4).
  { by apply healthy_emitted. }
  { intros k d. rewrite He3, He2. apply Hr. }
  { done. }
  { unfold next_uuid. rewrite He3, He2, Haud. apply Hf. rewrite Hu3, Hu2. simpl. lia. }
  { intros j a. rewrite Haud. unfold next_uuid. rewrite He2. apply Hf. by rewrite Hu2. }
  exists st4, row, e. split; [|split; [done|split; [by rewrite He4, He3, He2|split; [by rewrite Hd4, Hd3, Hdr|]]]].
  - unfold close_payment. erewrite bind_Ok by (by apply load_run).
    unfold assert_transition. rewrite Hc. erewrite bind_Ok by done.
    erewrite bind_Ok by apply now_run. erewrite bind_Ok by (by apply (upd_pay_run _ i p)).
    erewrite bind_Ok by (by apply (healthy_flush st1)).
    erewrite bind_Ok by (by apply (load_run i p' st1)). erewrite bind_Ok by exact Hdrop.
    erewrite bind_Ok by (by apply (load_run i p' st2)).
    erewrite bind_Ok by (by apply emit_run). exact Hrec.
  - split; [done|]. split; [by rewrite Hu4, Hu3, Hu2|].
    split; [rewrite Hai; unfold next_uuid; by rewrite He3, He2, Hu3, Hu2|].
    split; [rewrite Hae; unfold next_uuid; by rewrite He2, Hu2|].
    split; [by rewrite Hcb4, Hcb3, Hcb2|]. split; [by rewrite Hpb4, Hpb3, Hpb2|].
    split; [done|]. split; [done|]. by rewrite Hep.
Qed.

(** ** A checkout past its time *)

(** A body that ends well in a healthy session is committed. *)
Lemma uow_commit {A} (body : SM A) s a s1 :
  body (uow_enter s) = (Ok a, s1) -> healthy s1 ->
  (with_uow body s).1 = Ok a /\ committed (with_uow body s).2 = db s1 /\
  published (with_uow body s).2 = published s1 ++ pending_events (callbacks s1).
Proof.
  intros E Hh. unfold with_uow. rewrite (bind_Ok _ _ _ _ _ E).
  unfold session_commit. erewrite bind_Ok; [|erewrite bind_Ok by (by apply healthy_flush); done].
  done.
Qed.

(** A unit of work that only reads. *)
Definition scanned (s : St) : St := uow_publish (uow_enter s).

Lemma uow_read {A} (body : SM A) s a :
  body (uow_enter s) = (Ok a, uow_enter s) -> healthy (uow_enter s) -> with_uow body s = (Ok a, scanned s).
Proof.
  intros E Hh. unfold with_uow. rewrite (bind_Ok _ _ _ _ _ E).
  unfold session_commit. erewrite bind_Ok; [|erewrite bind_Ok by (by apply healthy_flush); reflexivity]. done.
Qed.

Lemma healthy_enter s :
  db_ok (committed s) = true -> db_ranges (committed s) = true -> keyed (committed s) ->
  healthy (uow_enter s).
Proof. intros. by split. Qed.

(** The event announces that the payment has expired. *)
Definition announces_expiry (p : Payment) (e : EventEnvelope) : Prop :=
  e_name e = "billing.payment.expired" /\ e_tenant_id e = Some (p_tenant_id p) /\
  assoc "payment_id" (e_payload e) = Some (JStr (uuid_str (p_id p))).

Lemma fresh_ids_put st st' d a :
  fresh_ids st -> draws_differ (env st) -> env st' = env st -> n_uuid st' = S (S (n_uuid st)) ->
  db st' = t_put a d -> d_audit d = d_audit (db st) ->
  au_id a = env_uuid7 (env st) (S (n_uuid st)) -> au_event_id a = Some (env_uuid7 (env st) (n_uuid st)) ->
  fresh_ids st'.
Proof.
  intros Hf Hd He Hu Hdb Ha Hi Hev n Hn. rewrite Hu in Hn. rewrite He, Hdb.
  destruct (Hf n) as [Hf1 Hf2]; [lia|].
  change (d_audit (t_put a d)) with (<[au_id a := a]> (d_audit d)). rewrite Ha, Hi.
  assert (Hne : env_uuid7 (env st) (S (n_uuid st)) ≠ env_uuid7 (env st) n) by (intros E%Hd; lia).
  split; [by rewrite lookup_insert_ne|]. intros j b Hb. apply lookup_insert_Some in Hb as [[<- <-]|[_ Hb]].
  - rewrite Hev. intros [= E%Hd]. lia.
  - by apply (Hf2 j b).
Qed.

Lemma expire_one_run settings s p :
  no_rivals (env s) -> healthy (uow_enter s) -> fresh_ids (uow_enter s) ->
  payments_of (committed s) !! p_id p = Some p -> is_open p = true ->
  (p_purpose p = "subscription" -> is_Some (pays_for p)) ->
  exists s' row e,
    expire_one settings (p_id p, p_tenant_id p) s = (Ok true, s') /\ healthy (uow_enter s') /\
    env s' = env s /\
    committed s' = t_put row (released PExpired (clock (tick s)) p
                     (with_pay (p_id p) (to_closed PExpired None (clock s) p) (committed s))) /\
    n_uuid s' = S (S (n_uuid s)) /\ au_id row = env_uuid7 (env s) (S (n_uuid s)) /\
    au_event_id row = Some (env_uuid7 (env s) (n_uuid s)) /\
    published s' = published s ++ [e] /\ announces_expiry p e.
Proof.
  intros Hr Hh Hf Hp Ho Hpf.
  set (ps := mkPayments (job_ctx (Some (p_tenant_id p)) "billing.expiry") (p_tenant_id p) [] settings None).
  destruct (close_payment_run ps (p_id p) (uow_enter s) p None PExpired None)
    as (st' & row & e & Hrun & Hh' & He & Hd & _ & Hu & Hai & Hae & Hcb & Hpb & Hen & Het & Hep);
    [done|done|done|done|done| |set_solver|done|].
  { unfold is_open in Ho. apply bool_decide_eq_true in Ho. destruct (p_status p); try done;
      exfalso; set_solver. }
  set (s' := uow_publish (mkSt (env st') (db st') (db st') (aborted st') (callbacks st') (published st') (resolved st')
    (n_now st') (n_uuid st') (n_token st') (n_rival st') (breakers st') (n_http st') (redis st') (blobs st') (tokens st'))).
  exists s', row, e. split; [|split; [|split; [exact He|split; [exact Hd|split; [exact Hu|split; [exact Hai|]]]]]].
  - unfold expire_one. cbv beta iota zeta. unfold with_uow.
    erewrite bind_Ok; [|rewrite (query_one_run p_id (fun _ => true)) by (done || apply Hh);
      assert (Hp' : t_get (R:=Payment) (db (uow_enter s)) !! p_id p = Some p) by exact Hp;
      rewrite Hp', Ho; simpl; rewrite (bind_Ok _ _ _ ps (uow_enter s)) by done;
      unfold catch, mark_expired; by erewrite bind_Ok by exact Hrun].
    unfold session_commit. erewrite bind_Ok; [|erewrite bind_Ok by (by apply healthy_flush); reflexivity]. done.
  - destruct Hh' as [H1 H2 H3 H4]. by split.
  - split; [exact Hae|]. split.
    + change (published s') with (published st' ++ pending_events (callbacks st')). by rewrite Hpb, Hcb.
    + by split; [rewrite Hen|].
Qed.

(** ** The sweep *)

(** A subscription whose checkout the swept payment was. *)
Definition checkout_of (sid : uuid) (x : Subscription) (p : Payment) : bool :=
  bool_decide (p_purpose p = "subscription") && bool_decide (pays_for p = Some sid)
  && bool_decide (s_tenant_id x = p_tenant_id p).

(** What a sweep of the payments [l] makes of a subscription. *)
Definition swept (l : list Payment) (sid : uuid) (x : Subscription) : Subscription :=
  if existsb (checkout_of sid x) l && bool_decide (s_status x = SPending)
  then sub_closed SExpired (s_canceled_at x) x else x.

Lemma released_swept t p d sid :
  subs_of (released PExpired t p d) !! sid = swept [p] sid <$> subs_of d !! sid.
Proof.
  unfold swept, checkout_of, released. cbn [existsb].
  destruct (bool_decide (p_purpose p = "subscription")); cbn [andb]; [|by destruct (subs_of d !! sid)].
  destruct (pays_for p) as [i|] eqn:Ei; [|by destruct (subs_of d !! sid)].
  destruct (decide (i = sid)) as [->|Hne].
  - rewrite (bool_decide_true (Some sid = Some sid)) by done. cbn [andb].
    destruct (subs_of d !! sid) as [x|] eqn:Ex; [|by rewrite Ex].
    destruct (bool_decide (s_tenant_id x = p_tenant_id p)) eqn:Et; simpl; rewrite Et; [|by rewrite Ex].
    unfold with_sub. change (subs_of (t_set ?m d)) with m. rewrite lookup_insert_eq.
    simpl. unfold dropped. by destruct (bool_decide (s_status x = SPending)).
  - rewrite (bool_decide_false (Some i = Some sid)) by congruence.
    assert (E : forall y : option Subscription, y = (fun x => x) <$> y) by (by intros []). cbn [andb orb]. rewrite <- E.
    destruct (subs_of d !! i) as [x|]; [|done]. destruct (bool_decide _); [|done].
    unfold with_sub. change (subs_of (t_set ?m d)) with m. by rewrite lookup_insert_ne.
Qed.

Lemma swept_app l k sid x : swept k sid (swept l sid x) = swept (l ++ k) sid x.
Proof.
  unfold swept. rewrite existsb_app.
  destruct (bool_decide (s_status x = SPending)) eqn:Es; [|by rewrite !andb_false_r, Es, andb_false_r].
  rewrite !andb_true_r. destruct (existsb (checkout_of sid x) l) eqn:El; cbn [orb]; [|by rewrite Es, andb_true_r].
  by rewrite andb_false_r.
Qed.

Lemma expire_all_run settings l : forall s (k : Z),
  no_rivals (env s) -> draws_differ (env s) -> healthy (uow_enter s) -> fresh_ids (uow_enter s) ->
  NoDup (p_id <$> l) ->
  (forall p, p ∈ l -> payments_of (committed s) !! p_id p = Some p /\ is_open p = true /\
     (p_purpose p = "subscription" -> is_Some (pays_for p))) ->
  exists s' es,
    fold_m ((fun p => (p_id p, p_tenant_id p)) <$> l) k
      (fun n a => b <- expire_one settings a ;; ret (if (b : bool) then n + 1 else n)) s
      = (Ok (k + Z.of_nat (length l)), s') /\ healthy (uow_enter s') /\
    (forall p, p ∈ l -> exists t, payments_of (committed s') !! p_id p = Some (to_closed PExpired None t p)) /\
    (forall i, i ∉ p_id <$> l -> payments_of (committed s') !! i = payments_of (committed s) !! i) /\
    (forall sid, subs_of (committed s') !! sid = swept l sid <$> subs_of (committed s) !! sid) /\
    published s' = published s ++ es /\ Forall2 announces_expiry l es.
Proof.
  induction l as [|p l IH]; intros s k Hr Hdd Hh Hf Hnd Hl.
  { exists s, []. rewrite app_nil_r. split; [cbn; by rewrite Z.add_0_r|]. split; [done|]. split; [set_solver|].
    split; [done|]. split; [|done]. intros sid. by destruct (subs_of (committed s) !! sid). }
  apply NoDup_cons in Hnd as [Hni Hnd].
  destruct (Hl p) as (Hp & Ho & Hpf); [set_solver|].
  destruct (expire_one_run settings s p Hr Hh Hf Hp Ho Hpf)
    as (s1 & row & e & Hrun & Hh1 & He1 & Hc1 & Hu1 & Hai & Hae & Hpb1 & Han).
  set (d1 := with_pay (p_id p) (to_closed PExpired None (clock s) p) (committed s)) in *.
  destruct (released_frame PExpired (clock (tick s)) p d1) as [Hrp Hra].
  assert (Hpay : payments_of (committed s1) = <[p_id p := to_closed PExpired None (clock s) p]> (payments_of (committed s))).
  { rewrite Hc1. exact Hrp. }
  assert (Hsub : forall sid, subs_of (committed s1) !! sid = swept [p] sid <$> subs_of (committed s) !! sid).
  { intros sid. rewrite Hc1. exact (released_swept (clock (tick s)) p d1 sid). }
  destruct (IH s1 (k + 1)) as (s' & es & E & Hh' & Hcl & Hot & Hsu & Hpb & Hes); [by rewrite He1|by rewrite He1|done| |done| |].
  { apply (fresh_ids_put (uow_enter s) (uow_enter s1) (released PExpired (clock (tick s)) p d1) row); try done. }
  { intros q Hq. destruct (Hl q) as (Hq1 & Hq2 & Hq3); [set_solver|]. split; [|done].
    rewrite Hpay, lookup_insert_ne; [done|]. intros Heq. apply Hni. rewrite Heq. by apply list_elem_of_fmap_2. }
  exists s', (e :: es). split; [|split; [exact Hh'|split; [|split; [|split; [|split; [|by constructor]]]]]].
  - rewrite fmap_cons. cbn [fold_m]. erewrite bind_Ok by (erewrite bind_Ok by exact Hrun; reflexivity).
    rewrite E. f_equal. f_equal. cbn [length]. lia.
  - intros q Hq. apply elem_of_cons in Hq as [->|Hq]; [|by apply Hcl].
    exists (clock s). rewrite Hot by done. by rewrite Hpay, lookup_insert_eq.
  - intros i Hi. rewrite Hot by set_solver. rewrite Hpay, lookup_insert_ne; [done|]. set_solver.
  - intros sid. rewrite Hsu, Hsub. destruct (subs_of (committed s) !! sid) as [x|]; [|done].
    simpl. by rewrite swept_app.
  - by rewrite Hpb, Hpb1, <- app_assoc.
Qed.

(** The open payments created before the cutoff. *)
Definition backlog (cutoff : datetime) (d : Db) : list Payment :=
  select (fun p => is_open p && (p_created_at p <? cutoff)) (payments_of d).

Lemma backlog_NoDup cutoff d : keyed d -> NoDup (p_id <$> backlog cutoff d).
Proof. intros Hk. exact (select_ids_NoDup (R:=Payment) d _ (k_pay _ Hk)). Qed.

Lemma elem_of_backlog cutoff d p :
  keyed d -> p ∈ backlog cutoff d <->
  payments_of d !! p_id p = Some p /\ is_open p = true /\ (p_created_at p < cutoff)%Z.
Proof.
  intros Hk. unfold backlog. rewrite elem_of_select, andb_true_iff, Z.ltb_lt. split; intros [H1 H2]; [|by eauto].
  destruct H1 as [i Hi]. pose proof (k_pay _ Hk _ _ Hi) as Hid. unfold t_id in Hid; simpl in Hid. by rewrite Hid.
Qed.

Lemma to_closed_shut t p : is_open (to_closed PExpired None t p) = false.
Proof. done. Qed.

(** The batch a sweep takes, oldest first, is what leaves the backlog. *)
Lemma backlog_shrinks cutoff d d' l k :
  keyed d -> keyed d' -> l ++ k ≡ₚ backlog cutoff d ->
  (forall p, p ∈ l -> exists t, payments_of d' !! p_id p = Some (to_closed PExpired None t p)) ->
  (forall i, i ∉ p_id <$> l -> payments_of d' !! i = payments_of d !! i) ->
  backlog cutoff d' ≡ₚ k.
Proof.
  intros Hk Hk' Hp Hcl Hot. pose proof (backlog_NoDup cutoff d Hk) as Hnd. rewrite <- Hp, fmap_app in Hnd.
  apply NoDup_app in Hnd as (_ & Hdj & Hndk).
  apply NoDup_Permutation; [by eapply (NoDup_fmap_1 p_id), backlog_NoDup|by eapply (NoDup_fmap_1 p_id)|].
  intros q. rewrite elem_of_backlog by done. split.
  - intros (Hq & Ho & Hc). destruct (decide (p_id q ∈ p_id <$> l)) as [Hin|Hni].
    + apply list_elem_of_fmap in Hin as (p & Hid & Hin). destruct (Hcl p Hin) as [t Ht]. rewrite Hid, Ht in Hq.
      injection Hq as <-. by rewrite to_closed_shut in Ho.
    + rewrite Hot in Hq by done. assert (Hb : q ∈ l ++ k) by (rewrite Hp; by apply elem_of_backlog).
      apply elem_of_app in Hb as [Hb|Hb]; [|done]. destruct Hni. by apply list_elem_of_fmap_2.
  - intros Hq. assert (Hb : q ∈ backlog cutoff d) by (rewrite <- Hp; set_solver).
    apply elem_of_backlog in Hb as (Hq1 & Hb); [|done]. split; [|done]. rewrite Hot; [done|].
    intros Hin. apply (Hdj _ Hin). by apply list_elem_of_fmap_2.
Qed.

(** ** An authentic confirmation settles the payment *)

(** The callback names the payment by our reference or by the provider's
    transaction. *)
Definition names (cb : ProviderCallback) (p : Payment) : Prop :=
  p_provider p = cb_provider cb /\
  (str_empty (cb_payment_reference cb) = false /\ as_uuid (cb_payment_reference cb) = Some (p_id p) \/
   str_empty (cb_payment_reference cb) = true /\
   exists txn, cb_provider_txn_id cb = Some txn /\ str_empty txn = false /\
     p_provider_transaction_id p = Some txn).

Lemma sys_get_one_run {R} `{Table R} (f : R -> bool) s i r :
  aborted s = false -> t_get (db s) !! i = Some r -> f r = true ->
  (forall j x, t_get (db s) !! j = Some x -> f x = true -> j = i) ->
  sys_get_one_or_none f s = (Ok (Some r), s).
Proof.
  intros Ha Hi Hf Hu. unfold sys_get_one_or_none. erewrite bind_Ok by (by apply query_run).
  by rewrite (select_unique f _ i r).
Qed.

Lemma find_payment_run cb s i p :
  healthy s -> payments_of (db s) !! i = Some p -> names cb p ->
  find_payment cb s = (Ok (Some p), s).
Proof.
  intros Hh Hi [Hpr Hn]. pose proof (k_pay _ (h_keyed _ Hh)) as Hk.
  pose proof (Hk _ _ Hi) as Hid. unfold t_id in Hid; simpl in Hid.
  unfold find_payment. destruct Hn as [[He Hu]|(He & txn & Htx & Hte & Hpt)]; rewrite He.
  - rewrite Hu. rewrite (bind_Ok _ _ _ (Some p) s); [done|]. apply (sys_get_one_run _ s i p); [apply Hh|done| |].
    + by rewrite Hpr, !bool_decide_true.
    + intros j x Hj Hx. split_ok. apply bool_decide_eq_true_1 in H. rewrite Hid in H.
      rewrite <- H. symmetry. exact (Hk _ _ Hj).
  - erewrite bind_Ok by done. cbv beta iota. rewrite Htx, Hte.
    apply (sys_get_one_run _ s i p); [apply Hh|done| |].
    + by rewrite Hpr, Hpt, !bool_decide_true.
    + intros j x Hj Hx. split_ok. apply bool_decide_eq_true_1 in H, H0.
      pose proof (h_ok _ Hh) as Hok. unfold db_ok, billing_ok, payments_ok in Hok. split_ok.
      match goal with H : unique_by uq_txn _ = true |- _ => rewrite unique_by_spec in H;
        apply (H j i x p (p_provider p, txn) Hj Hi) end;
        unfold uq_txn; rewrite ?H, ?H0, ?Hpt; simpl; congruence.
Qed.

(** Writing a ledger row under a free key. *)
Lemma healthy_put_hook st w :
  healthy st ->
  (forall j x, j ≠ w_id w -> hooks_of (db st) !! j = Some x -> uq_ledger x ≠ uq_ledger w) ->
  webhook_ok (d_billing (db st)) w = true -> healthy (st_db (t_put w) st).
Proof.
  intros [Hok Hr Ho Hk] Hu Hw. split; simpl; [|exact Hr|done|].
  - unfold db_ok, billing_ok, webhooks_ok, t_put in *. simpl. split_ok. join_ok; auto.
    + apply unique_by_insert; [done|]. intros k Hk' j b Hj Hb Hbk.
      apply (Hu j b Hj Hb). congruence.
    + by apply all_rows_insert.
  - destruct Hk. split; try done. intros j r. unfold t_get. simpl. rewrite lookup_insert.
    case_decide; [naive_solver|auto].
Qed.

(** A ledger row keeps its key to itself. *)
Lemma healthy_redecide st w w' :
  healthy st -> hooks_of (db st) !! w_id w = Some w -> w_id w' = w_id w ->
  uq_ledger w' = uq_ledger w -> webhook_ok (d_billing (db st)) w' = true ->
  healthy (st_db (t_put w') st).
Proof.
  intros Hh Hw Hid Hu Hok. apply healthy_put_hook; [done| |done]. rewrite Hid, Hu.
  intros j x Hj Hx Heq. apply Hj. pose proof (h_ok _ Hh) as Ho.
  unfold db_ok, billing_ok, webhooks_ok in Ho. split_ok.
  match goal with H : unique_by uq_ledger _ = true |- _ => rewrite unique_by_spec in H;
    apply (H j (w_id w) x w (w_provider w, w_dedup_key w) Hx Hw) end; [|done].
  by rewrite Heq.
Qed.

Lemma webhook_ok_bound b w i :
  w_payment_id w = Some i -> is_Some (b_payments b !! i) -> webhook_ok b w = true.
Proof. intros Hw Hi. unfold webhook_ok, in_table. rewrite Hw. by rewrite bool_decide_true. Qed.

Lemma upd_hook_run st w f :
  hooks_of (db st) !! w_id w = Some w -> w_id (f w) = w_id w ->
  upd (R:=PaymentWebhook) (w_id w) f st = (Ok tt, st_db (t_put (f w)) st).
Proof.
  intros Hw Hid. rewrite (upd_run st (w_id w) w) by exact Hw. unfold t_put, t_id. simpl.
  by rewrite Hid.
Qed.

Lemma claim_ledger_run code key raw s :
  healthy s -> no_rivals (env s) -> ~ claimed code key (db s) ->
  hooks_of (db s) !! next_uuid s = None ->
  exists w st, claim_ledger code key raw s = (Ok (Some w), st) /\ healthy st /\
    env st = env s /\ db st = t_put w (db s) /\ n_uuid st = S (n_uuid s) /\ n_now st = n_now s /\
    w_provider w = code /\ w_dedup_key w = key /\ hooks_of (db s) !! w_id w = None.
Proof.
  intros Hh Hr Hn Hi. unfold claim_ledger. erewrite bind_Ok by apply new_uuid7_run.
  set (w := mkWebhook _ _ _ _ _ _ _ _ _ _ _).
  set (s1 := drew_uuid s). set (s2 := (rivals s1).2).
  assert (D2 : db s2 = db s) by apply Hr.
  assert (Hh2 : healthy s2) by by apply (healthy_db s).
  assert (Hsel : select (same_key code key) (hooks_of (db s)) = []).
  { destruct (select _ _) eqn:E; [done|]. exfalso. apply Hn, claimed_select. by rewrite E. }
  assert (Hfree : forall j x, hooks_of (db s) !! j = Some x -> same_key code key x = false).
  { intros j x Hx. destruct (same_key code key x) eqn:E; [|done]. exfalso. apply Hn. by exists j, x. }
  assert (Hw : healthy (st_db (t_put w) s2)).
  { apply healthy_put_hook; [done| |done]. intros j x _ Hx Heq. rewrite D2 in Hx.
    specialize (Hfree j x Hx). unfold uq_ledger in Heq. injection Heq as E1 E2.
    unfold same_key in Hfree. by rewrite !bool_decide_true in Hfree. }
  exists w, (st_db (t_put w) s2). split; [|split; [done|]].
  - erewrite bind_Ok; [|unfold insert_on_conflict_do_nothing;
      erewrite bind_Ok by (apply healthy_flush; by apply (healthy_db s));
      rewrite (bind_Ok _ _ _ tt s2) by done; erewrite bind_Ok by (apply query_run, Hh2);
      change (t_get (R:=PaymentWebhook) (db s2)) with (hooks_of (db s2)); rewrite D2, Hsel;
      erewrite bind_Ok by (apply insert_row_run; [apply Hh2| |apply Hw|apply Hw];
        change (hooks_of (db s2) !! next_uuid s = None); by rewrite D2); done].
    cbv beta iota. rewrite session_get_run by apply Hw.
    apply (f_equal (fun x => (Ok x, st_db (t_put w) s2))). apply lookup_insert_eq.
  - change (db (st_db (t_put w) s2)) with (t_put w (db s2)). rewrite D2. by repeat split.
Qed.

Lemma payment_dto_run p s m :
  new_money (p_amount p) (p_currency p) = Ok m ->
  (forall k str, k ∈ ["pending_at"; "closed_at"] -> assoc k (p_metadata p) ≠ Some (JStr str)) ->
  exists d, payment_dto p s = (Ok d, s) /\ pd_id d = p_id p /\ pd_status d = p_status p.
Proof.
  intros Hm Hj.
  assert (Ht : forall k, k ∈ ["pending_at"; "closed_at"] ->
            exists o, meta_time (p_metadata p) k s = (Ok o, s)).
  { intros k Hk. unfold meta_time. specialize (fun str => Hj k str Hk).
    destruct (assoc k (p_metadata p)) as [[]|]; try by eexists. by destruct (Hj s0). }
  destruct (Ht "pending_at" ltac:(set_solver)) as [o1 E1].
  destruct (Ht "closed_at" ltac:(set_solver)) as [o2 E2].
  unfold payment_dto, lift_res. rewrite Hm. erewrite bind_Ok by done.
  erewrite bind_Ok by exact E1. erewrite bind_Ok by exact E2. by eexists.
Qed.

Lemma cancel_rows_rest t l d :
  hooks_of (cancel_rows t l d) = hooks_of d.
Proof. revert d. induction l as [|x l IH]; intros d; simpl; [done|]. by rewrite IH. Qed.

Lemma activated_rest t start finish p s d :
  hooks_of (activated_db t start finish p s d) = hooks_of d /\
  payments_of (activated_db t start finish p s d) = payments_of d.
Proof.
  unfold activated_db. split.
  - etransitivity; [|apply cancel_rows_rest]. done.
  - etransitivity; [|apply cancel_rows_payments]. done.
Qed.

Section Confirm.
Context (wp : WebhookProcessor) (code : string) (cb : ProviderCallback) (raw : RawWebhook).
Context (s : St) (i sid : uuid) (p : Payment) (sub : Subscription) (m : Money).
Hypothesis Hr : no_rivals (env s).
Hypothesis Hk : keyed (committed s).
Hypothesis Hok : db_ok (committed s) = true.
Hypothesis Hrg : db_ranges (committed s) = true.
(** identifiers still to be drawn are new *)
Hypothesis Hfresh : fresh_ids (uow_enter s).
Hypothesis Hnew : hooks_of (committed s) !! next_uuid s = None.
(** an authentic confirmation that was not seen before *)
Hypothesis Hacts : acts cb.
Hypothesis Hconf : cb_action cb = AConfirm.
Hypothesis Hclaim : ~ claimed code (dedup_key cb) (committed s).
(** of a payment that may succeed *)
Hypothesis Hp : payments_of (committed s) !! i = Some p.
Hypothesis Hnames : names cb p.
Hypothesis Hamount : amount_ok cb p = Ok true.
Hypothesis Hcan : can_transition (p_status p) PSucceeded = true.
Hypothesis Hmoney : new_money (p_amount p) (p_currency p) = Ok m.
Hypothesis Hmeta : forall k str, k ∈ ["pending_at"; "closed_at"] ->
  assoc k (p_metadata p) ≠ Some (JStr str).
(** for a subscription of its tenant *)
Hypothesis Hpurpose : p_purpose p = "subscription".
Hypothesis Hfor : pays_for p = Some sid.
Hypothesis Hsub : subs_of (committed s) !! sid = Some sub.
Hypothesis Htenant : s_tenant_id sub = p_tenant_id p.
(** before the calendar ends *)
Hypothesis Hclock : 0 <= clock (tick s) < LAST_YEAR.
Hypothesis Hyears : forall j x, subs_of (committed s) !! j = Some x ->
  s_current_period_end x < LAST_YEAR.

Definition the_ctx := integration_ctx (Some (p_tenant_id p)) code.
Definition the_service :=
  mkPayments the_ctx (p_tenant_id p) (wp_providers wp) (wp_settings wp) None.

(** The transition once its ledger row is claimed. *)
Lemma transition_run s1 w s3 dto :
  let w1 := w_bind (p_tenant_id p) (p_id p) w in
  let w2 := w_decide WProcessed None (clock s3) w1 in
  healthy s1 -> payments_of (db s1) !! i = Some p -> hooks_of (db s1) !! w_id w = Some w ->
  mark_succeeded the_service i (st_db (t_put w1) s1) = (Ok tt, s3) ->
  payments_of (db s3) !! i = Some (to_succeeded (clock s) p) ->
  hooks_of (db s3) !! w_id w = Some w1 ->
  payment_dto (to_succeeded (clock s) p) (st_db (t_put w2) (tick s3)) =
    (Ok dto, st_db (t_put w2) (tick s3)) ->
  process_transition wp code cb (w_id w) s1 =
    (Ok (mkOutcome OutOk (Some dto) (Some cb)), st_db (t_put w2) (tick s3)).
Proof using All.
  intros w1 w2 Hh1 Hp1 Hw1 Erun Hp3 H3 Edto.
  pose proof (k_pay _ Hk _ _ Hp) as Hid. unfold t_id in Hid; simpl in Hid.
  unfold process_transition. erewrite bind_Ok by (by eapply find_payment_run). cbv beta iota.
  erewrite bind_Ok by (by apply (upd_hook_run s1 w)). fold w1.
  erewrite bind_Ok by (unfold lift_res; rewrite Hamount; done). cbn [negb].
  rewrite (bind_Ok _ _ _ the_service (st_db (t_put w1) s1)) by done.
  rewrite (bind_Ok _ _ _ None s3).
  2:{ unfold catch, apply_action. rewrite Hconf, Hid. by rewrite (bind_Ok _ _ _ tt s3). }
  cbv beta iota. rewrite (bind_Ok _ _ _ tt (st_db (t_put w2) (tick s3))).
  2:{ unfold decide_webhook. erewrite bind_Ok by apply now_run.
      change (w_id w) with (w_id w1). by apply (upd_hook_run (tick s3) w1). }
  rewrite Hid. erewrite bind_Ok by (apply load_run; exact Hp3).
  by erewrite bind_Ok by exact Edto.
Qed.

Lemma confirm_run :
  exists o st start finish,
    dispatch wp code cb raw (uow_enter s) = (Ok o, st) /\ healthy st /\ oc_status o = OutOk /\
    payments_of (db st) !! i = Some (to_succeeded (clock s) p) /\
    (forall j x, subs_of (committed s) !! j = Some x ->
       subs_of (db st) !! j =
       Some (if bool_decide (j = sid) then sub_activated start finish sub
             else if bool_decide (s_tenant_id x = p_tenant_id p) && live (s_status x)
             then replaced_row (clock (tick s)) x else x)) /\
    start = foldl (extend_start (s_plan_id sub)) (clock (tick s))
              (others_live (p_tenant_id p) sid (committed s)) /\
    period_end start (plan_period_or (b_plans (d_billing (committed s)) !! s_plan_id sub)) = Ok finish.
Proof using All.
  set (s0 := uow_enter s). assert (Hh0 : healthy s0) by by apply healthy_enter.
  destruct (claim_ledger_run code (dedup_key cb) raw s0)
    as (w & s1 & Ecl & Hh1 & En1 & D1 & U1 & N1 & Wp & Wk & Wn); [done|done|done|done|].
  set (w1 := w_bind (p_tenant_id p) (p_id p) w). set (s2 := st_db (t_put w1) s1).
  assert (Hw1 : hooks_of (db s1) !! w_id w = Some w) by (rewrite D1; apply lookup_insert_eq).
  assert (Hp1 : payments_of (db s1) !! i = Some p) by by rewrite D1.
  pose proof (k_pay _ Hk _ _ Hp) as Hid. unfold t_id in Hid; simpl in Hid.
  assert (Hh2 : healthy s2).
  { apply (healthy_redecide s1 w); try done. apply (webhook_ok_bound _ _ i); [by rewrite <- Hid|].
    unfold payments_of in Hp1. eauto. }
  assert (S2 : subs_of (db s2) = subs_of (committed s)) by exact (f_equal subs_of D1).
  destruct (mark_succeeded_run the_service i s2 p sid sub None)
    as (s3 & start & finish & row & Erun & Hh3 & D3 & Hstart & Hfin & _);
    [done|by intros k d; rewrite (En1 : env s2 = env s0); apply Hr| |done|done|done|done|done
    |by rewrite S2|done|by unfold clock; simpl; rewrite N1, En1|by rewrite S2|].
  { apply (fresh_ids_later s0); [done|done|change (n_uuid s0 <= n_uuid s1)%nat; lia|].
    exact (f_equal d_audit D1). }
  assert (Cs : clock s2 = clock s) by (unfold clock; simpl; by rewrite N1, En1).
  assert (Ct : clock (tick s2) = clock (tick s)) by (unfold clock; simpl; by rewrite N1, En1).
  rewrite Cs, Ct in *. set (p' := to_succeeded (clock s) p) in *.
  set (d2 := with_pay i p' (db s2)) in *.
  destruct (activated_rest (clock (tick s)) start finish p sub d2) as [RH RP].
  assert (Hp3 : payments_of (db s3) !! i = Some p').
  { rewrite D3. change (payments_of (t_put row ?d)) with (payments_of d). rewrite RP.
    apply lookup_insert_eq. }
  assert (H3 : hooks_of (db s3) !! w_id w1 = Some w1).
  { rewrite D3. change (hooks_of (t_put row ?d)) with (hooks_of d). rewrite RH. apply lookup_insert_eq. }
  set (w2 := w_decide WProcessed None (clock s3) w1). set (s4 := st_db (t_put w2) (tick s3)).
  assert (Hh4 : healthy s4).
  { apply (healthy_redecide (tick s3) w1); try done; [by apply healthy_tick|].
    apply (webhook_ok_bound _ _ i); [by rewrite <- Hid|]. unfold payments_of in Hp3. eauto. }
  destruct (payment_dto_run p' s4 m) as (dto & Edto & _); [done|done|].
  exists (mkOutcome OutOk (Some dto) (Some cb)), s4, start, finish.
  split; [|split; [exact Hh4|split; [done|split; [exact Hp3|split; [|split]]]]].
  - rewrite dispatch_acts by done. erewrite bind_Ok by exact Ecl. cbv beta iota.
    by apply transition_run.
  - intros j x Hx. change (subs_of (db s4)) with (subs_of (db s3)). rewrite D3.
    change (subs_of (t_put row ?d)) with (subs_of d).
    change (subs_of (db s2)) with (subs_of d2) in S2.
    apply activated_lookup; [exact (k_sub _ (h_keyed _ Hh2))|by rewrite S2..].
  - rewrite Hstart. unfold others_live. by rewrite S2.
  - by rewrite (f_equal (fun d => b_plans (d_billing d)) D1 : b_plans (d_billing (db s2)) = _) in Hfin.
Qed.
End Confirm.
