(* ===== verification/Commerce.v ===== *)
(** The commerce module: products (src/modules/commerce/products/service.py),
    orders (src/modules/commerce/orders/service.py, subscribers.py) and the
    cart (src/modules/commerce/cart/service.py). Orders price their lines
    through products and take payment through billing. *)

From stdpp Require Import base strings gmap list pretty.
From Stdlib Require Import ZArith Lia Ascii.
From S2P Require Import Prelude Errors PyLib Calendar Entities Models Events Session SessionFacts.
From S2P Require Import Access Journal Ports Payments PayFacts Notices.

(** ** Products *)

Definition PRODUCT_READ : string := "commerce.product:read".
Definition PRODUCT_CREATE : string := "commerce.product:create".
Definition PRODUCT_UPDATE : string := "commerce.product:update".

Record ProductService : Type := mkProducts {
  prs_ctx : TenantContext; prs_tenant : uuid; prs_access : option Resolver;
  prs_currencies : CurrencyRegistry }.

Definition new_product_service (ctx : TenantContext) (access : option Resolver)
    (currencies : CurrencyRegistry) : SM ProductService :=
  tenant <- repo_init ctx ;; ret (mkProducts ctx tenant access currencies).

Definition product_event (svc_ : ProductService) (name : string) (i : uuid) : SM unit :=
  emit SvcProducts (prs_ctx svc_) name [("product_id", JStr (uuid_str i))] ;;; ret tt.

Definition product_create (ps : ProductService) (sku name : string) (price_amount : Z)
    (currency : string) (description : option string) : SM Product :=
  guard_require (prs_access ps) (prs_ctx ps) PRODUCT_CREATE ;;;
  lift_res (new_money price_amount currency) ;;;
  lift_res (cr_exponent (prs_currencies ps) currency) ;;;
  n <- repo_count (prs_tenant ps) (fun p => bool_decide (pr_sku p = sku)) ;;
  guardM (negb (n =? 0)%Z)
    (EDomain ConflictError ("product with sku " +:+ sku +:+ " already exists")) ;;;
  i <- new_uuid7 ;;
  t <- now ;;
  p <- repo_add (prs_tenant ps) None (fun tenant =>
         mkProduct i tenant sku name description price_amount currency ProdActive t) ;;
  product_event ps "commerce.product.created" i ;;;
  ret p.

Definition set_product (name : string) (description : option string) (price : Z)
    (currency : string) (status : product_status) (p : Product) : Product :=
  mkProduct (pr_id p) (pr_tenant_id p) (pr_sku p) name description price currency status
    (pr_created_at p).

Definition or_else {A} (o : option A) (d : A) : A := match o with Some a => a | None => d end.

Definition product_update (ps : ProductService) (product_id : uuid) (name description : option string)
    (price_amount : option Z) (currency : option string) : SM Product :=
  guard_require (prs_access ps) (prs_ctx ps) PRODUCT_UPDATE ;;;
  product <- repo_get_or_raise "Product" (prs_tenant ps) product_id ;;
  if bool_decide (pr_status product = ProdArchived)
  then raise (EDomain InvariantViolationError "cannot update an archived product")
  else
    let i := pr_id product in
    upd i (fun p => set_product (or_else name (pr_name p))
                      (match description with Some d => Some d | None => pr_description p end)
                      (or_else price_amount (pr_price_amount p)) (pr_currency p) (pr_status p) p) ;;;
    match currency with
    | Some c =>
        lift_res (cr_exponent (prs_currencies ps) c) ;;;
        upd i (fun p => set_product (pr_name p) (pr_description p) (pr_price_amount p) c
                          (pr_status p) p)
    | None => ret tt
    end ;;;
    p <- load (R:=Product) i ;;
    lift_res (new_money (pr_price_amount p) (pr_currency p)) ;;;
    flush ;;;
    product_event ps "commerce.product.updated" i ;;;
    load i.

Definition product_archive (ps : ProductService) (product_id : uuid) : SM Product :=
  guard_require (prs_access ps) (prs_ctx ps) PRODUCT_UPDATE ;;;
  product <- repo_get_or_raise "Product" (prs_tenant ps) product_id ;;
  if bool_decide (pr_status product = ProdArchived) then ret product
  else
    let i := pr_id product in
    upd i (fun p => set_product (pr_name p) (pr_description p) (pr_price_amount p) (pr_currency p)
                      ProdArchived p) ;;;
    flush ;;;
    product_event ps "commerce.product.archived" i ;;;
    load i.

Definition product_get (ps : ProductService) (product_id : uuid) : SM Product :=
  guard_require (prs_access ps) (prs_ctx ps) PRODUCT_READ ;;;
  repo_get_or_raise "Product" (prs_tenant ps) product_id.

Definition product_list (ps : ProductService) (page : Page) : SM (PageResult Product) :=
  guard_require (prs_access ps) (prs_ctx ps) PRODUCT_READ ;;;
  repo_find_paged (prs_tenant ps) (fun _ => true) (order_desc pr_created_at) page.

Definition ensure_exists (ps : ProductService) (product_id : uuid) : SM unit :=
  repo_get_or_raise (R:=Product) "Product" (prs_tenant ps) product_id ;;; ret tt.

Definition get_sale_info (ps : ProductService) (product_id : uuid) : SM Money :=
  product <- repo_get_or_raise "Product" (prs_tenant ps) product_id ;;
  if negb (bool_decide (pr_status product = ProdActive))
  then raise (EDomain InvariantViolationError "product is not available for sale")
  else lift_res (new_money (pr_price_amount product) (pr_currency product)).

(** ** Orders *)

Definition ORDER_READ : string := "commerce.order:read".

Record OrderLineIn : Set := mkLine { ln_product_id : uuid; ln_quantity : Z }.
Record OrderItemDTO : Set := mkItemDTO {
  id_product_id : uuid; id_quantity : Z; id_unit_price : Z; id_currency : string }.
Record OrderDTO : Set := mkOrderDTO {
  od_id : uuid; od_status : order_status; od_total_amount : Z; od_currency : string;
  od_payment_id : option uuid; od_items : list OrderItemDTO }.
Record OrderCheckoutDTO : Set := mkOrderCheckout {
  oc_order_id : uuid; oc_payment_id : uuid; oc_provider : string; oc_checkout_url : string }.

Record OrderService : Type := mkOrders {
  ors_ctx : TenantContext; ors_tenant : uuid;
  ors_products : option ProductService; ors_payments : option PaymentService;
  ors_access : option Resolver }.

Definition new_order_service (ctx : TenantContext) (products : option ProductService)
    (payments : option PaymentService) (access : option Resolver) : SM OrderService :=
  tenant <- repo_init ctx ;; ret (mkOrders ctx tenant products payments access).

(** [_customer_id] *)
Definition customer_id (ctx : TenantContext) : SM uuid :=
  match c_actor ctx with
  | mkActor KUser (Some i) =>
      match uuid_parse i with Some u => ret u | None => raise EValue end
  | _ => raise (EDomain AuthenticationError "storefront requires an authenticated buyer")
  end.

(** The pricing loop: [priced], [total], [currency]. *)
Definition priced_line : Type := uuid * Z * Money.
Definition price_line (products : ProductService) (acc : list priced_line * Z * string)
    (line : OrderLineIn) : SM (list priced_line * Z * string) :=
  let '(priced, total, currency) := acc in
  price <- get_sale_info products (ln_product_id line) ;;
  currency <- (if str_empty currency then ret (m_currency price)
               else if negb (bool_decide (currency = m_currency price))
               then raise (EDomain InvariantViolationError "order items must share one currency")
               else ret currency) ;;
  ret (priced ++ [(ln_product_id line, ln_quantity line, price)],
       (total + m_amount price * ln_quantity line)%Z, currency).

Definition order_status_str (s : order_status) : string :=
  match s with OrdPending => "pending" | OrdPaid => "paid" | OrdCanceled => "canceled" end.

Definition set_order (status : order_status) (payment : option uuid) (o : Order) : Order :=
  mkOrder (o_id o) (o_tenant_id o) (o_customer_user_id o) status (o_total_amount o) (o_currency o)
    payment (o_created_at o).

Definition add_order_item (tenant order : uuid) (x : priced_line) : SM unit :=
  let '(product, quantity, price) := x in
  i <- new_uuid7 ;;
  t <- now ;;
  repo_add tenant None (fun tenant =>
    mkOrderItem i tenant order product quantity (m_amount price) (m_currency price) t) ;;;
  ret tt.

Definition place_order (os : OrderService) (lines : list OrderLineIn) (provider : string)
    : SM OrderCheckoutDTO :=
  match ors_products os, ors_payments os with
  | Some products, Some payments =>
    customer <- customer_id (ors_ctx os) ;;
    acc <- fold_m lines ([], 0%Z, "") (price_line products) ;;
    let '(priced, total, currency) := acc in
    guardM (str_empty currency)
      (EDomain InvariantViolationError "order must contain at least one item") ;;;
    i <- new_uuid7 ;;
    t <- now ;;
    repo_add (ors_tenant os) None (fun tenant =>
      mkOrder i tenant customer OrdPending total currency None t) ;;;
    for_each priced (add_order_item (ors_tenant os) i) ;;;
    emit SvcOrders (ors_ctx os) "commerce.order.created"
      [("order_id", JStr (uuid_str i)); ("customer_user_id", JStr (uuid_str customer));
       ("total_amount", JInt total); ("currency", JStr currency)] ;;;
    amount <- lift_res (new_money total currency) ;;
    checkout <- create_payment payments amount "commerce.order" (uuid_str i) provider
                  ("order:" +:+ uuid_str i) None None ;;
    upd i (fun o => set_order (o_status o) (Some (co_payment_id checkout)) o) ;;;
    flush ;;;
    ret (mkOrderCheckout i (co_payment_id checkout) (co_provider checkout) (co_checkout_url checkout))
  | _, _ =>
    raise (EDomain InvariantViolationError "place_order requires products and payments services")
  end.

(** [_to_dtos]: all the orders' lines in one query. *)
Definition item_dto (it : OrderItem) : OrderItemDTO :=
  mkItemDTO (oi_product_id it) (oi_quantity it) (oi_unit_price_amount it) (oi_currency it).

Definition to_dtos (os : OrderService) (orders : list Order) : SM (list OrderDTO) :=
  items <- match orders with
           | [] => ret []
           | _ => repo_find (ors_tenant os) (fun it => bool_decide (oi_order_id it ∈ o_id <$> orders))
                    (order_asc oi_created_at) None
           end ;;
  ret ((fun o => mkOrderDTO (o_id o) (o_status o) (o_total_amount o) (o_currency o) (o_payment_id o)
                   (item_dto <$> List.filter (fun it => bool_decide (oi_order_id it = o_id o)) items))
       <$> orders).

Definition get_own (os : OrderService) (order_id : uuid) : SM OrderDTO :=
  order <- repo_get_or_raise "Order" (ors_tenant os) order_id ;;
  me <- customer_id (ors_ctx os) ;;
  if negb (bool_decide (o_customer_user_id order = me))
  then raise (EDomain NotFoundError ("Order " +:+ uuid_str order_id +:+ " not found"))
  else
    dtos <- to_dtos os [order] ;;
    match dtos with d :: _ => ret d | [] => raise EOverflow end.

(** [_page] *)
Definition order_page (os : OrderService) (result : PageResult Order) : SM (PageResult OrderDTO) :=
  items <- to_dtos os (pr_items result) ;;
  ret (mkPageResult items (pr_total result) (pr_limit result) (pr_offset result)).

Definition list_own (os : OrderService) (page : Page) : SM (PageResult OrderDTO) :=
  me <- customer_id (ors_ctx os) ;;
  result <- repo_find_paged (ors_tenant os) (fun o => bool_decide (o_customer_user_id o = me))
              (order_desc o_created_at) page ;;
  order_page os result.

Definition list_all (os : OrderService) (page : Page) : SM (PageResult OrderDTO) :=
  guard_require (ors_access os) (ors_ctx os) ORDER_READ ;;;
  result <- repo_find_paged (ors_tenant os) (fun _ => true) (order_desc o_created_at) page ;;
  order_page os result.

Definition mark_paid (os : OrderService) (order_id : uuid) (payment_id : option uuid) (late : bool)
    : SM (option Order) :=
  o <- repo_get (ors_tenant os) order_id ;;
  match o with
  | None => ret None
  | Some order =>
    if bool_decide (o_status order = OrdPaid) then ret (Some order)
    else
      let revived := bool_decide (o_status order = OrdCanceled) in
      if revived && negb (late && match payment_id with
                                  | Some p => bool_decide (o_payment_id order = Some p)
                                  | None => false end)
      then ret None
      else
        let i := o_id order in
        upd i (fun o => set_order OrdPaid
                 (match payment_id with Some p => Some p | None => o_payment_id o end) o) ;;;
        flush ;;;
        emit SvcOrders (ors_ctx os) "commerce.order.paid"
          [("order_id", JStr (uuid_str i));
           ("payment_id", match payment_id with Some p => JStr (uuid_str p) | None => JNull end);
           ("late", JBool revived)] ;;;
        o' <- load i ;;
        ret (Some o')
  end.

Definition order_cancel (os : OrderService) (order_id : uuid) (reason : string) : SM unit :=
  o <- repo_get (ors_tenant os) order_id ;;
  match o with
  | None => ret tt
  | Some order =>
    if bool_decide (o_status order ∈ [OrdPaid; OrdCanceled]) then ret tt
    else
      let i := o_id order in
      upd i (fun o => set_order OrdCanceled (o_payment_id o) o) ;;;
      flush ;;;
      emit SvcOrders (ors_ctx os) "commerce.order.canceled"
        [("order_id", JStr (uuid_str i)); ("reason", JStr reason)] ;;;
      ret tt
  end.

(** ** src/modules/commerce/orders/subscribers.py

    Handlers run in the dispatcher's unit of work with the context rebuilt
    from the envelope; [send] is NotificationService.send. *)

(** [_is_order_payment] *)
Definition is_order_payment (en : Env) (event : EventEnvelope) : option string :=
  match assoc "purpose" (e_payload event) with
  | Some (JStr p) =>
      if bool_decide (p = "commerce.order") then
        match assoc "reference" (e_payload event) with
        | Some r => if truthy r then Some (py_str en r) else None
        | None => None
        end
      else None
  | _ => None
  end.

Definition parse_uuid (s : string) : SM uuid :=
  match uuid_parse s with Some u => ret u | None => raise EValue end.

Definition mark_order_paid (send : Send) (event : EventEnvelope) : SM unit :=
  en <- gets env ;;
  match is_order_payment en event with
  | None => ret tt
  | Some order_id =>
    service <- new_order_service (handler_ctx event) None None None ;;
    oid <- parse_uuid order_id ;;
    payment_id <- match assoc "payment_id" (e_payload event) with
                  | Some raw => if truthy raw then u <- parse_uuid (py_str en raw) ;; ret (Some u)
                                else ret None
                  | None => ret None
                  end ;;
    let late := match assoc "late" (e_payload event) with Some v => truthy v | None => false end in
    order <- mark_paid service oid payment_id late ;;
    match order with
    | None => ret tt
    | Some o =>
        send (handler_ctx event) (mkNotice (o_customer_user_id o) "commerce.order_paid"
          [("order_id", JStr (uuid_str (o_id o))); ("amount", JInt (o_total_amount o));
           ("currency", JStr (o_currency o))] (Some ("order_paid:" +:+ uuid_str (o_id o)))) ;;;
        ret tt
    end
  end.

(** [_cancel_order], the handler of failed, canceled and expired payments. *)
Definition cancel_order (event : EventEnvelope) : SM unit :=
  en <- gets env ;;
  match is_order_payment en event with
  | None => ret tt
  | Some order_id =>
    service <- new_order_service (handler_ctx event) None None None ;;
    oid <- parse_uuid order_id ;;
    order_cancel service oid (e_name event)
  end.

(** ** Cart *)

Definition MAX_LINE_QUANTITY : Z := 1000.

Record CartDTO : Set := mkCartDTO {
  cd_id : uuid; cd_status : cart_status; cd_currency : string; cd_total_amount : Z;
  cd_items : list OrderItemDTO }.

Record CartService : Type := mkCarts {
  cs_ctx : TenantContext; cs_tenant : uuid; cs_products : ProductService;
  cs_orders : option OrderService; cs_customer : uuid }.

Definition new_cart_service (ctx : TenantContext) (products : ProductService)
    (orders : option OrderService) : SM CartService :=
  tenant <- repo_init ctx ;;
  customer <- customer_id ctx ;;
  ret (mkCarts ctx tenant products orders customer).

(** [_active_cart] *)
Definition active_cart (cs : CartService) : SM (option Cart) :=
  found <- repo_find (cs_tenant cs)
             (fun c => bool_decide (ca_customer_user_id c = cs_customer cs)
                       && bool_decide (ca_status c = CartActive)) id None ;;
  ret (head found).

(** [_open_cart] *)
Definition open_cart (cs : CartService) : SM Cart :=
  cart <- active_cart cs ;;
  match cart with
  | Some c => ret c
  | None =>
    i <- new_uuid7 ;;
    catch (begin_nested (repo_add (cs_tenant cs) None (fun tenant =>
             mkCart i tenant (cs_customer cs) CartActive)) ;;; ret tt)
      (fun e => match e with EIntegrity => ret tt | _ => raise e end) ;;;
    cart <- active_cart cs ;;
    match cart with
    | Some c => ret c
    | None => raise (EDomain InvariantViolationError "could not open a cart")
    end
  end.

Definition items_of (cs : CartService) (cart : uuid) (p : CartItem -> bool)
    (order_by : list CartItem -> list CartItem) : SM (list CartItem) :=
  repo_find (cs_tenant cs) (fun it => bool_decide (ci_cart_id it = cart) && p it) order_by None.

Definition cart_item_dto (it : CartItem) : OrderItemDTO :=
  mkItemDTO (ci_product_id it) (ci_quantity it) (ci_unit_price_amount it) (ci_currency it).

Definition line_total (it : CartItem) : Z := (ci_unit_price_amount it * ci_quantity it)%Z.

(** [_to_dto] *)
Definition cart_to_dto (cs : CartService) (cart : Cart) : SM CartDTO :=
  items <- items_of cs (ca_id cart) (fun _ => true) (order_asc ci_created_at) ;;
  let total := foldr Z.add 0%Z (line_total <$> items) in
  let currency := match items with it :: _ => ci_currency it | [] => "UZS" end in
  ret (mkCartDTO (ca_id cart) (ca_status cart) currency total (cart_item_dto <$> items)).

Definition set_item (quantity price : Z) (currency : string) (it : CartItem) : CartItem :=
  mkCartItem (ci_id it) (ci_tenant_id it) (ci_cart_id it) (ci_product_id it) quantity price currency
    (ci_created_at it).

Definition add_item (cs : CartService) (product_id : uuid) (quantity : Z) : SM CartDTO :=
  price <- get_sale_info (cs_products cs) product_id ;;
  cart <- open_cart cs ;;
  existing <- items_of cs (ca_id cart) (fun it => bool_decide (ci_product_id it = product_id)) id ;;
  current_items <- items_of cs (ca_id cart) (fun _ => true) id ;;
  guardM (match current_items with
          | it :: _ => negb (bool_decide (ci_currency it = m_currency price))
          | [] => false
          end) (EDomain InvariantViolationError "cart items must share one currency") ;;;
  let total_quantity := (quantity + match existing with it :: _ => ci_quantity it | [] => 0 end)%Z in
  guardM (MAX_LINE_QUANTITY <? total_quantity)%Z
    (EDomain InvariantViolationError "at most 1000 of one product per cart") ;;;
  match existing with
  | it :: _ =>
      upd (ci_id it) (set_item total_quantity (m_amount price) (m_currency price)) ;;;
      flush
  | [] =>
      i <- new_uuid7 ;;
      t <- now ;;
      repo_add (cs_tenant cs) None (fun tenant =>
        mkCartItem i tenant (ca_id cart) product_id quantity (m_amount price) (m_currency price) t) ;;;
      ret tt
  end ;;;
  cart_to_dto cs cart.

(** [_require_active_cart] *)
Definition require_active_cart (cs : CartService) : SM Cart :=
  cart <- active_cart cs ;;
  match cart with
  | Some c => ret c
  | None => raise (EDomain NotFoundError "no active cart")
  end.

Definition remove_item (cs : CartService) (product_id : uuid) : SM CartDTO :=
  cart <- require_active_cart cs ;;
  items <- items_of cs (ca_id cart) (fun it => bool_decide (ci_product_id it = product_id)) id ;;
  match items with
  | [] => raise (EDomain NotFoundError "product is not in the cart")
  | it :: _ =>
      repo_delete (cs_tenant cs) it ;;;
      flush ;;;
      cart_to_dto cs cart
  end.

Definition get_cart (cs : CartService) : SM CartDTO :=
  cart <- require_active_cart cs ;; cart_to_dto cs cart.

(** [OrderLineIn(...)]: pydantic's bounds; a ValidationError is a ValueError. *)
Definition new_line (product_id : uuid) (quantity : Z) : res exn OrderLineIn :=
  if (1 <=? quantity)%Z && (quantity <=? 1000)%Z then Ok (mkLine product_id quantity) else Raise EValue.

Fixpoint new_lines (items : list CartItem) : res exn (list OrderLineIn) :=
  match items with
  | [] => Ok []
  | it :: l => match new_line (ci_product_id it) (ci_quantity it) with
               | Raise e => Raise e
               | Ok x => match new_lines l with Ok xs => Ok (x :: xs) | Raise e => Raise e end
               end
  end.

Definition checkout (cs : CartService) (provider : string) : SM OrderCheckoutDTO :=
  match cs_orders cs with
  | None => raise (EDomain InvariantViolationError "checkout requires the orders service")
  | Some orders =>
    cart <- require_active_cart cs ;;
    items <- items_of cs (ca_id cart) (fun _ => true) (order_asc ci_created_at) ;;
    match items with
    | [] => raise (EDomain InvariantViolationError "cannot checkout an empty cart")
    | _ =>
      lines <- lift_res (new_lines items) ;;
      placed <- place_order orders lines provider ;;
      upd (ca_id cart) (fun c => mkCart (ca_id c) (ca_tenant_id c) (ca_customer_user_id c)
                                   CartCheckedOut) ;;;
      flush ;;;
      emit SvcCart (cs_ctx cs) "commerce.cart.checked_out"
        [("cart_id", JStr (uuid_str (ca_id cart)));
         ("customer_user_id", JStr (uuid_str (cs_customer cs)));
         ("order_id", JStr (uuid_str (oc_order_id placed)))] ;;;
      ret placed
    end
  end.
