(* ===== verification/CommerceFacts.v ===== *)
(** Facts about commerce: what happens to payments, orders and cart lines. *)

From stdpp Require Import base strings gmap list relations.
From Stdlib Require Import ZArith Lia Ascii.
From S2P Require Import Prelude Errors PyLib Calendar Entities Models Events Session SessionFacts.
From S2P Require Import Access Journal Ports Payments PayFacts DbFacts Notices Commerce.

(** ** Payments move along the machine *)

Section Moves.
Context (R : Db -> Db -> Prop) `{!PreOrder R}.
Abbreviation runs := (steps (evo R)).

Lemma runs_sale_info ps i : runs (get_sale_info ps i).
Proof. unfold get_sale_info. steps_walk. Qed.
Lemma runs_customer ctx : runs (customer_id ctx).
Proof. unfold customer_id. steps_walk. Qed.
Lemma runs_to_dtos os l : runs (to_dtos os l).
Proof. unfold to_dtos. steps_walk. Qed.
Lemma runs_new_orders ctx p q a : runs (new_order_service ctx p q a).
Proof. unfold new_order_service. steps_walk. Qed.
Lemma runs_new_products ctx a c : runs (new_product_service ctx a c).
Proof. unfold new_product_service. steps_walk. Qed.
Lemma runs_parse_uuid s : runs (parse_uuid s).
Proof. unfold parse_uuid. steps_walk. Qed.
Lemma runs_product_event p n i : runs (product_event p n i).
Proof. unfold product_event. steps_walk. Qed.
Lemma runs_active_cart cs : runs (active_cart cs).
Proof. unfold active_cart. steps_walk. Qed.
Lemma runs_items_of cs i p o : runs (items_of cs i p o).
Proof. unfold items_of. steps_walk. Qed.
End Moves.
#[export] Hint Resolve runs_sale_info runs_customer runs_to_dtos runs_new_orders runs_new_products
  runs_parse_uuid runs_product_event runs_active_cart runs_items_of : steps.

Section Moves2.
Context (R : Db -> Db -> Prop) `{!PreOrder R}.
Abbreviation runs := (steps (evo R)).

Lemma runs_new_cart ctx p o : runs (new_cart_service ctx p o).
Proof. unfold new_cart_service. steps_walk. Qed.
Lemma runs_require_cart cs : runs (require_active_cart cs).
Proof. unfold require_active_cart. steps_walk. Qed.
Lemma runs_cart_dto cs c : runs (cart_to_dto cs c).
Proof. unfold cart_to_dto. steps_walk. Qed.
Lemma runs_price_line ps acc l : runs (price_line ps acc l).
Proof. unfold price_line. steps_walk. Qed.
Lemma runs_get_own os i : runs (get_own os i).
Proof. unfold get_own. steps_walk. Qed.
Lemma runs_get_cart cs : runs (get_cart cs).
Proof.
  unfold get_cart. pose proof runs_require_cart. pose proof runs_cart_dto. steps_walk.
Qed.

Lemma runs_open_cart cs `{!Tolerates R Cart} : runs (open_cart cs).
Proof. unfold open_cart. steps_walk. apply evo_begin_nested; [apply _|]. steps_walk. Qed.

Lemma runs_add_item cs i q `{!Tolerates R Cart, !Tolerates R CartItem} : runs (add_item cs i q).
Proof.
  unfold add_item. pose proof runs_open_cart. pose proof runs_cart_dto. steps_walk.
Qed.

Lemma runs_remove_item cs i `{!Tolerates R CartItem} : runs (remove_item cs i).
Proof.
  unfold remove_item. pose proof runs_require_cart. pose proof runs_cart_dto. steps_walk.
Qed.

(** Taking a payment is invisible to a relation that ignores payments. *)
Lemma runs_create ps amount purpose reference provider key url sub `{!Tolerates R Payment} :
  providers_ok ps -> runs (create_payment ps amount purpose reference provider key url sub).
Proof.
  intros Hps. unfold create_payment.
  destruct (assoc provider (ps_providers ps)) as [adapter|] eqn:Ea; [|steps_walk].
  specialize (Hps _ _ Ea).
  pose proof (fun u => quiet_steps_evo R _ (quiet_return_url u)).
  pose proof (fun p r => quiet_steps_evo R _ (quiet_replay p r)).
  pose proof (fun p => quiet_steps_evo R _ (quiet_payment_dto p)).
  pose proof (fun d u => quiet_steps_evo R _ (law_checkout_quiet (p:=adapter) d u)).
  assert (forall k, runs (by_idempotency_key ps k)) by (unfold by_idempotency_key; steps_walk).
  steps_walk. apply evo_begin_nested; [apply _|]. steps_walk.
Qed.
End Moves2.
#[export] Hint Resolve runs_new_cart runs_require_cart runs_cart_dto runs_price_line runs_get_own
  runs_get_cart runs_open_cart runs_add_item runs_remove_item : steps.

(** ** The life of one order *)

Inductive order_step : Order -> Order -> Prop :=
| order_link o pay : o_status o = OrdPending -> o_payment_id o = None ->
    order_step o (set_order OrdPending (Some pay) o)
| order_paid o pay : o_status o = OrdPending -> order_step o (set_order OrdPaid pay o)
| order_canceled o : o_status o = OrdPending ->
    order_step o (set_order OrdCanceled (o_payment_id o) o)
| order_revived o p : o_status o = OrdCanceled -> o_payment_id o = Some p ->
    order_step o (set_order OrdPaid (Some p) o).

Abbreviation order_path := (rtc order_step).

(** What was sold, to whom and for how much never changes. *)
Definition order_identity (o : Order) :=
  (o_id o, o_tenant_id o, o_customer_user_id o, o_total_amount o, o_currency o, o_created_at o).

Lemma order_path_identity o o' : order_path o o' -> order_identity o' = order_identity o.
Proof. induction 1 as [|o o1 o2 Hs _ IH]; [done|]. rewrite IH. by destruct Hs. Qed.

(** A paid order is frozen. *)
Lemma order_path_paid o o' : order_path o o' -> o_status o = OrdPaid -> o' = o.
Proof. intros Hp Ho. destruct Hp as [|o o1 o2 Hs _]; [done|]. destruct Hs; congruence. Qed.

(** A canceled order is either left alone or revived by its own payment. *)
Lemma order_path_canceled o o' :
  order_path o o' -> o_status o = OrdCanceled ->
  o' = o \/ exists p, o_payment_id o = Some p /\ o' = set_order OrdPaid (Some p) o.
Proof.
  intros Hp Ho. destruct Hp as [|o o1 o2 Hs Hr]; [by left|]. right.
  destruct Hs as [| | |o p Hst Hpay]; try congruence.
  exists p. split; [done|]. by apply order_path_paid in Hr.
Qed.

Definition orders_of (d : Db) : gmap N Order := c_orders (d_commerce d).

Record order_evo (d d' : Db) : Prop := {
  oe_old : forall i o, orders_of d !! i = Some o ->
    exists o', orders_of d' !! i = Some o' /\ order_path o o';
  oe_new : forall i o', orders_of d !! i = None -> orders_of d' !! i = Some o' ->
    exists o0, o_status o0 = OrdPending /\ order_path o0 o' }.

#[export] Instance order_evo_preorder : PreOrder order_evo.
Proof.
  split.
  - intros d. split; [eauto using rtc_refl|]. intros i o H1 H2. congruence.
  - intros d1 d2 d3 [O1 N1] [O2 N2]. split.
    + intros i o Ho. destruct (O1 _ _ Ho) as (o1 & Ho1 & H1).
      destruct (O2 _ _ Ho1) as (o2 & Ho2 & H2). exists o2. split; [done|]. by etransitivity.
    + intros i o3 Hn Ho3. destruct (orders_of d2 !! i) as [o2|] eqn:E2; [|eauto].
      destruct (N1 _ _ Hn E2) as (o0 & Hs0 & H02).
      destruct (O2 _ _ E2) as (o3' & Ho3' & H23). simplify_eq. exists o0.
      split; [done|]. by etransitivity.
Qed.

Lemma order_evo_same d d' : orders_of d' = orders_of d -> order_evo d d'.
Proof. intros H. split; rewrite H; [eauto using rtc_refl|]. intros. congruence. Qed.

#[export] Instance order_evo_plans : Ignores order_evo Plan.
Proof. intros d t. by apply order_evo_same. Qed.
#[export] Instance order_evo_subs : Ignores order_evo Subscription.
Proof. intros d t. by apply order_evo_same. Qed.
#[export] Instance order_evo_pays : Ignores order_evo Payment.
Proof. intros d t. by apply order_evo_same. Qed.
#[export] Instance order_evo_hooks : Ignores order_evo PaymentWebhook.
Proof. intros d t. by apply order_evo_same. Qed.
#[export] Instance order_evo_audit : Ignores order_evo AuditLog.
Proof. intros d t. by apply order_evo_same. Qed.
#[export] Instance order_evo_products : Ignores order_evo Product.
Proof. intros d t. by apply order_evo_same. Qed.
#[export] Instance order_evo_carts : Ignores order_evo Cart.
Proof. intros d t. by apply order_evo_same. Qed.
#[export] Instance order_evo_cart_items : Ignores order_evo CartItem.
Proof. intros d t. by apply order_evo_same. Qed.
#[export] Instance order_evo_items : Ignores order_evo OrderItem.
Proof. intros d t. by apply order_evo_same. Qed.

Lemma order_evo_step d i o f :
  orders_of d !! i = Some o -> order_step o (f o) ->
  order_evo d (t_set (alter f i (orders_of d)) d).
Proof.
  intros Ho Hs. split; unfold orders_of in *; simpl.
  - intros j q Hq. destruct (decide (i = j)) as [<-|Hne].
    + rewrite lookup_alter_eq, Ho. simpl. simplify_eq. eauto using rtc_once.
    + rewrite lookup_alter_ne by done. eauto using rtc_refl.
  - intros j q Hn Hq. exfalso. destruct (decide (i = j)) as [<-|Hne]; [congruence|].
    rewrite lookup_alter_ne in Hq by done. congruence.
Qed.

Lemma order_evo_born d o :
  orders_of d !! o_id o = None -> o_status o = OrdPending -> order_evo d (t_put o d).
Proof.
  intros Hn Hc. split; unfold orders_of in *; simpl.
  - intros j q Hq. exists q. split; [|apply rtc_refl]. rewrite lookup_insert_ne; [done|].
    intros Hj. unfold t_id in Hj. simpl in Hj. congruence.
  - intros j q Hj Hq. rewrite lookup_insert in Hq. case_decide as Hd; simplify_eq.
    exists q. auto using rtc_refl.
Qed.

Lemma evo_upd_order s i o f :
  orders_of (db s) !! i = Some o -> order_step o (f o) -> evo order_evo s (upd i f s).2.
Proof.
  intros Ho Hs. apply (evo_intro order_evo); [done|by eapply order_evo_step|done|done].
Qed.

(** ** Every operation on orders follows that life *)

(** A relation that may rely on rows being stored under their key. *)
Definition when_keyed (R : Db -> Db -> Prop) (d d' : Db) : Prop :=
  Keyed (R:=Order) d -> R d d' /\ Keyed (R:=Order) d'.

Definition order_rel : Db -> Db -> Prop := when_keyed order_evo.

#[export] Instance order_rel_preorder : PreOrder order_rel.
Proof.
  split; unfold order_rel, when_keyed.
  - intros d Hk. split; [reflexivity|done].
  - intros d1 d2 d3 H1 H2 K1. destruct (H1 K1) as [E1 K2]. destruct (H2 K2) as [E2 K3].
    split; [by etransitivity|done].
Qed.

Lemma order_rel_same d d' : orders_of d' = orders_of d -> order_rel d d'.
Proof.
  intros H Hk. split; [by apply order_evo_same|]. intros j r Hj. apply Hk.
  unfold t_get in *. simpl in *. unfold orders_of in H. congruence.
Qed.

#[export] Instance order_rel_plans : Ignores order_rel Plan.
Proof. intros d t. by apply order_rel_same. Qed.
#[export] Instance order_rel_subs : Ignores order_rel Subscription.
Proof. intros d t. by apply order_rel_same. Qed.
#[export] Instance order_rel_pays : Ignores order_rel Payment.
Proof. intros d t. by apply order_rel_same. Qed.
#[export] Instance order_rel_hooks : Ignores order_rel PaymentWebhook.
Proof. intros d t. by apply order_rel_same. Qed.
#[export] Instance order_rel_audit : Ignores order_rel AuditLog.
Proof. intros d t. by apply order_rel_same. Qed.
#[export] Instance order_rel_products : Ignores order_rel Product.
Proof. intros d t. by apply order_rel_same. Qed.
#[export] Instance order_rel_carts : Ignores order_rel Cart.
Proof. intros d t. by apply order_rel_same. Qed.
#[export] Instance order_rel_cart_items : Ignores order_rel CartItem.
Proof. intros d t. by apply order_rel_same. Qed.
#[export] Instance order_rel_items : Ignores order_rel OrderItem.
Proof. intros d t. by apply order_rel_same. Qed.

(** Assigning attributes of the order a query returned. *)
Lemma evo_upd_found s j o f :
  orders_of (db s) !! j = Some o -> o_id (f o) = o_id o -> order_step o (f o) ->
  evo order_rel s (upd (o_id o) f s).2.
Proof.
  intros Ho Hid Hs. apply (evo_intro order_rel); [done| |done|done]. intros Hk.
  pose proof (Hk _ _ Ho) as Hj. unfold t_id in Hj. simpl in Hj. subst j.
  split; [by eapply order_evo_step|]. intros j r. unfold t_get. simpl.
  intros Hr. destruct (decide (o_id o = j)) as [<-|Hne].
  - unfold orders_of in Ho. rewrite lookup_alter_eq, Ho in Hr. simpl in Hr. by simplify_eq.
  - rewrite lookup_alter_ne in Hr by done. by apply Hk.
Qed.

Section OrderMoves.
Abbreviation runs := (steps (evo order_rel)).

Lemma runs_mark_paid os i pay late : runs (mark_paid os i pay late).
Proof.
  unfold mark_paid. intros s. apply (rel_bind_post (evo order_rel)); [apply (evo_repo_get _)|].
  intros o s1 E. destruct o as [o|]; [|reflexivity].
  apply repo_get_inv in E as (-> & [j Hj] & _).
  destruct (bool_decide_reflect (o_status o = OrdPaid)); [reflexivity|].
  destruct (bool_decide (o_status o = OrdCanceled) && _) eqn:Eb; [reflexivity|].
  apply (rel_bind (evo order_rel)); [|steps_walk].
  apply evo_upd_found with (j:=j); [done|done|].
  destruct (o_status o) eqn:Eo; [by constructor|done|].
  simpl in Eb. destruct late; [|done]. destruct pay as [p|]; [|done]. simpl in Eb.
  apply negb_false_iff, bool_decide_eq_true in Eb. by constructor.
Qed.

Lemma runs_order_cancel os i reason : runs (order_cancel os i reason).
Proof.
  unfold order_cancel. intros s. apply (rel_bind_post (evo order_rel)); [apply (evo_repo_get _)|].
  intros o s1 E. destruct o as [o|]; [|reflexivity].
  apply repo_get_inv in E as (-> & [j Hj] & _).
  destruct (bool_decide_reflect (o_status o ∈ [OrdPaid; OrdCanceled])) as [|Hn]; [reflexivity|].
  apply (rel_bind (evo order_rel)); [|steps_walk].
  apply evo_upd_found with (j:=j); [done|done|]. constructor.
  destruct (o_status o); [done| |]; exfalso; apply Hn; set_solver.
Qed.

Lemma runs_mark_order_paid send e :
  (forall ctx n, runs (send ctx n)) -> runs (mark_order_paid send e).
Proof. intros Hs. unfold mark_order_paid. pose proof runs_mark_paid. steps_walk. Qed.

Lemma runs_cancel_order e : runs (cancel_order e).
Proof. unfold cancel_order. pose proof runs_order_cancel. steps_walk. Qed.

(** Taking the payment leaves the orders alone, so the order linked to it is
    the one just inserted. *)
#[local] Instance same_orders_items : Ignores (same orders_of) OrderItem.
Proof. done. Qed.
#[local] Instance same_orders_pays : Ignores (same orders_of) Payment.
Proof. done. Qed.

Lemma solo_keep {A B} (m : SM A) (k : A -> SM B) s :
  steps (evo (same orders_of)) m -> no_rivals (env s) ->
  (forall a s', no_rivals (env s') -> orders_of (db s') = orders_of (db s) ->
     evo order_rel s' (k a s').2) ->
  evo order_rel s (bind m k s).2.
Proof.
  intros Hm Hr Hk. pose proof (Hm s) as (He & Hd & Hc & Hp).
  destruct (Hd (no_rivals_same _ _ Hr)) as [Hs _]. unfold same in Hs.
  assert (Hm' : evo order_rel s (m s).2).
  { apply (evo_intro order_rel); [done|by apply order_rel_same|by apply Hc|done]. }
  apply (rel_bind_post (evo order_rel)); [done|]. intros a s' E. rewrite E in *. simpl in *.
  apply Hk; [by rewrite He|done].
Qed.

Lemma runs_place_order os lines provider s :
  no_rivals (env s) -> (forall ps, ors_payments os = Some ps -> providers_ok ps) ->
  evo order_rel s (place_order os lines provider s).2.
Proof.
  intros Hr Hps. unfold place_order.
  destruct (ors_products os) as [products|]; [|reflexivity].
  destruct (ors_payments os) as [payments|]; [|reflexivity]. specialize (Hps _ eq_refl).
  apply solo_keep; [steps_walk|done|]. intros customer s' Hr' _; clear s Hr; rename s' into s, Hr' into Hr.
  apply solo_keep; [|done|].
  { apply (steps_fold_m (evo (same orders_of))). intros. apply (runs_price_line _). }
  intros [[priced total] currency] s' Hr' _; clear s Hr; rename s' into s, Hr' into Hr.
  apply solo_keep; [steps_walk|done|]. intros _ s' Hr' _; clear s Hr; rename s' into s, Hr' into Hr.
  apply solo_keep; [steps_walk|done|]. intros i s' Hr' _; clear s Hr; rename s' into s, Hr' into Hr.
  apply solo_keep; [steps_walk|done|]. intros t s' Hr' _; clear s Hr; rename s' into s, Hr' into Hr.
  set (o := fun tenant => mkOrder i tenant customer OrdPending total currency None t).
  assert (Hadd : steps (evo order_rel) (repo_add (ors_tenant os) None o)).
  { apply (evo_repo_add order_rel). intros d Hn Hk. split; [by apply order_evo_born|].
    intros j r. unfold t_get. simpl. rewrite lookup_insert. case_decide; [naive_solver|apply Hk]. }
  apply (rel_bind_post (evo order_rel)); [apply Hadd|]. intros r s1 E1.
  assert (Hr1 : no_rivals (env s1)).
  { destruct (Hadd s) as [He _]. rewrite E1 in He. simpl in He. by rewrite He. }
  apply repo_add_Ok in E1 as (_ & E1 & _).
  assert (Ho : orders_of (db s1) !! i = Some (o (ors_tenant os))).
  { rewrite E1. apply lookup_insert_eq. }
  clear E1 Hadd Hr s. revert Ho. generalize (ors_tenant os) at 1. intros tenant Ho.
  apply solo_keep; [|done|].
  { apply (steps_for_each (evo (same orders_of))). intros [[p q] m]. unfold add_order_item.
    steps_walk. }
  intros _ s2 Hr2 O2. rewrite <- O2 in Ho. clear O2 Hr1 s1.
  apply solo_keep; [steps_walk|done|]. intros _ s3 Hr3 O3. rewrite <- O3 in Ho. clear O3 Hr2 s2.
  apply solo_keep; [steps_walk|done|]. intros amount s4 Hr4 O4. rewrite <- O4 in Ho. clear O4 Hr3 s3.
  apply solo_keep; [by apply (runs_create _)|done|]. intros c s5 Hr5 O5. rewrite <- O5 in Ho.
  clear O5 Hr4 s4.
  apply (rel_bind (evo order_rel)); [|steps_walk].
  pose proof (evo_upd_found s5 i (o tenant)
    (fun o => set_order (o_status o) (Some (co_payment_id c)) o) Ho) as Hu. simpl in Hu.
  apply Hu; [done|]. by apply order_link.
Qed.

Lemma runs_checkout cs provider s :
  no_rivals (env s) ->
  (forall os ps, cs_orders cs = Some os -> ors_payments os = Some ps -> providers_ok ps) ->
  evo order_rel s (checkout cs provider s).2.
Proof.
  intros Hr Hps. unfold checkout. destruct (cs_orders cs) as [os|]; [|reflexivity].
  apply solo_keep; [steps_walk|done|]. intros cart s' Hr' _; clear s Hr; rename s' into s, Hr' into Hr.
  apply solo_keep; [steps_walk|done|]. intros items s' Hr' _; clear s Hr; rename s' into s, Hr' into Hr.
  destruct items; [reflexivity|].
  apply solo_keep; [steps_walk|done|]. intros lines s' Hr' _; clear s Hr; rename s' into s, Hr' into Hr.
  apply (rel_bind (evo order_rel)); [apply runs_place_order; eauto|steps_walk].
Qed.
End OrderMoves.
