(* ===== verification/Images.v ===== *)
(** Product images: files attached to a product, each with a thumbnail
    (src/modules/commerce/product_images/service.py and deps.py). *)

From stdpp Require Import base strings gmap list sorting.
From Stdlib Require Import ZArith Lia Ascii.
From S2P Require Import Prelude Errors PyLib Calendar Entities Models Events Session SessionFacts.
From S2P Require Import Footprints Access DbFacts Channels Storage StorageFacts Files.
From S2P Require Import Ports Payments PayFacts Commerce.

Definition PRODUCT_IMAGE_READ : string := "commerce.product_image:read".
Definition PRODUCT_IMAGE_MANAGE : string := "commerce.product_image:manage".

Record ProductImageService : Type := mkImages {
  ims_ctx : TenantContext; ims_tenant : uuid; ims_products : ProductService; ims_files : FileService;
  ims_access : option Resolver }.

Definition new_image_service (ctx : TenantContext) (products : ProductService) (files : FileService)
    (access : option Resolver) : SM ProductImageService :=
  tenant <- repo_init ctx ;; ret (mkImages ctx tenant products files access).

Definition image_attach (self : ProductImageService) (product_id : uuid)
    (filename declared_content_type : option string) (data : string) (alt_text : option string)
    (position : Z) : SM ProductImage :=
  guard_require (ims_access self) (ims_ctx self) PRODUCT_IMAGE_MANAGE ;;;
  ensure_exists (ims_products self) product_id ;;;
  stored <- upload (ims_files self) filename declared_content_type data ;;
  thumbnail <- create_thumbnail (ims_files self) (fd_id stored) None ;;
  i <- new_uuid7 ;;
  t <- now ;;
  image <- repo_add (ims_tenant self) None (fun tenant =>
    mkProductImage i tenant product_id (fd_id stored) (Some (fd_id thumbnail)) position alt_text t) ;;
  emit SvcImages (ims_ctx self) "commerce.product_image.added"
    [("image_id", JStr (uuid_str i)); ("product_id", JStr (uuid_str product_id));
     ("file_id", JStr (uuid_str (fd_id stored)));
     ("thumbnail_file_id", JStr (uuid_str (fd_id thumbnail)))] ;;;
  ret image.

(** [order_by=[position, created_at]] *)
Definition image_le (a b : ProductImage) : Prop :=
  ((im_position a <? im_position b)%Z
   || ((im_position a =? im_position b)%Z && (im_created_at a <=? im_created_at b)%Z)) = true.
#[export] Instance image_le_dec a b : Decision (image_le a b).
Proof. unfold image_le. apply _. Defined.

Definition list_for_product (self : ProductImageService) (product_id : uuid) : SM (list ProductImage) :=
  guard_require (ims_access self) (ims_ctx self) PRODUCT_IMAGE_READ ;;;
  repo_find (ims_tenant self) (fun im => bool_decide (im_product_id im = product_id))
    (merge_sort image_le) None.

(** [thumb]: the variant asked for. *)
Definition open_content (self : ProductImageService) (image_id : uuid) (thumb : bool)
    : SM (FileDTO * string) :=
  guard_require (ims_access self) (ims_ctx self) PRODUCT_IMAGE_READ ;;;
  image <- repo_get_or_raise (R:=ProductImage) "ProductImage" (ims_tenant self) image_id ;;
  file_open (ims_files self)
    (if thumb then default (im_file_id image) (im_thumbnail_file_id image) else im_file_id image).

Definition image_remove (self : ProductImageService) (image_id : uuid) : SM unit :=
  guard_require (ims_access self) (ims_ctx self) PRODUCT_IMAGE_MANAGE ;;;
  image <- repo_get_or_raise (R:=ProductImage) "ProductImage" (ims_tenant self) image_id ;;
  repo_delete (ims_tenant self) image ;;;
  flush ;;;
  match im_thumbnail_file_id image with
  | Some thumbnail => file_delete (ims_files self) thumbnail
  | None => ret tt
  end ;;;
  file_delete (ims_files self) (im_file_id image) ;;;
  emit SvcImages (ims_ctx self) "commerce.product_image.removed"
    [("image_id", JStr (uuid_str image_id)); ("product_id", JStr (uuid_str (im_product_id image)));
     ("file_id", JStr (uuid_str (im_file_id image)))] ;;;
  ret tt.

(** ** What happens to the files *)

Section Blocks.
Context (self : ProductImageService) (loc : string -> string).
Context `{!StorageLaws (fls_storage (ims_files self)) loc, !ThumbnailLaws (fls_thumbnailer (ims_files self))}.
Context `{!ReadAccess (fls_access (ims_files self)), !ReadAccess (ims_access self)}.
Context (lost : gset N) (s0 : St).
Hypothesis Hids : forall n, valid_uuid (env_uuid7 (env s0) n).
Hypothesis Htenant : valid_uuid (fls_tenant (ims_files self)).

#[local] Abbreviation block := (block loc lost s0).
#[local] Instance images_elsewhere : Tolerates (same stored_of) ProductImage.
Proof. split; by intros. Qed.

Lemma block_attach D p n ct data alt pos : block D D (image_attach self p n ct data alt pos).
Proof.
  unfold image_attach. apply block_seq; [apply block_reads, reads_guard, _|intros _].
  apply block_seq.
  { apply block_calm. unfold ensure_exists.
    pose proof (stmt_repo_get_or_raise (calm (same stored_of)) (T:=Product) "Product"
      (prs_tenant (ims_products self)) p). steps_walk. }
  intros _. apply block_seq; [by apply block_upload|intros stored].
  apply block_seq; [by apply block_thumbnail|intros thumbnail].
  apply block_seq; [apply block_calm, (stmt_new_uuid7 _)|intros i].
  apply block_seq; [apply block_calm, (stmt_now _)|intros t].
  apply block_seq; [apply block_calm, (stmt_repo_add _)|intros image].
  apply block_seq; [apply block_event|intros _; apply block_ret].
Qed.
Lemma block_content D i th : block D D (open_content self i th).
Proof.
  unfold open_content. apply block_seq; [apply block_reads, reads_guard, _|intros _].
  apply block_seq; [apply block_calm, (stmt_repo_get_or_raise _)|intros im]. by apply block_open.
Qed.

(** The files a removal sets out to delete. *)
Definition image_file_ids (im : ProductImage) : gset N :=
  {[im_file_id im]} ∪ match im_thumbnail_file_id im with Some t => {[t]} | None => ∅ end.
Definition image_files (d : Db) (i : uuid) : gset N :=
  ⋃ (image_file_ids <$> select (fun im => bool_decide (im_id im = i)) (t_get d)).

Lemma image_files_found d i j im :
  t_get d !! j = Some im -> im_id im = i -> image_file_ids im ⊆ image_files d i.
Proof.
  intros Hj Hi x Hx. apply elem_of_union_list. exists (image_file_ids im). split; [|done].
  apply list_elem_of_fmap. exists im. split; [done|]. apply elem_of_select. split; [by exists j|].
  by apply bool_decide_eq_true.
Qed.

Lemma block_remove_files im :
  block ∅ (image_file_ids im)
    (match im_thumbnail_file_id im with Some t => file_delete (ims_files self) t | None => ret tt end ;;;
     file_delete (ims_files self) (im_file_id im)).
Proof.
  unfold image_file_ids. destruct (im_thumbnail_file_id im) as [t|].
  - apply (block_bind _ _ _ ∅ (∅ ∪ {[t]})); [set_solver|by apply block_delete|intros _].
    replace ({[im_file_id im]} ∪ {[t]}) with ((∅ ∪ {[t]}) ∪ {[im_file_id im]} : gset N) by set_solver.
    by apply block_delete.
  - apply (block_bind _ _ _ ∅ ∅); [set_solver|apply block_ret|intros _].
    replace ({[im_file_id im]} ∪ ∅) with (∅ ∪ {[im_file_id im]} : gset N) by set_solver.
    by apply block_delete.
Qed.

Lemma block_remove_found im i :
  block ∅ (image_file_ids im)
    (repo_delete (ims_tenant self) im ;;;
     flush ;;;
     match im_thumbnail_file_id im with Some t => file_delete (ims_files self) t | None => ret tt end ;;;
     file_delete (ims_files self) (im_file_id im) ;;;
     emit SvcImages (ims_ctx self) "commerce.product_image.removed"
       [("image_id", JStr (uuid_str i)); ("product_id", JStr (uuid_str (im_product_id im)));
        ("file_id", JStr (uuid_str (im_file_id im)))] ;;;
     ret tt).
Proof.
  apply (block_bind _ _ _ ∅ ∅); [set_solver|apply block_calm, (stmt_repo_delete _)|intros _].
  apply (block_bind _ _ _ ∅ ∅); [set_solver|apply block_calm, (stmt_flush _)|intros _].
  set (k := emit SvcImages _ _ _ ;;; ret tt).
  apply (block_ext _ _ _ ∅ (image_file_ids im) _
    ((match im_thumbnail_file_id im with Some t => file_delete (ims_files self) t | None => ret tt end ;;;
      file_delete (ims_files self) (im_file_id im)) ;;; k)).
  { intros s. generalize (match im_thumbnail_file_id im with
      Some t => file_delete (ims_files self) t | None => ret tt end).
    intros m. unfold bind. by destruct (m s) as [[a|e] s1]. }
  apply (block_bind _ _ _ ∅ (image_file_ids im)); [done|apply block_remove_files|intros _].
  unfold k. apply block_seq; [apply block_event|intros _; apply block_ret].
Qed.

(** A removal, from the beginning of its unit of work. *)
Lemma remove_run i :
  sound_view loc lost s0 ∅ (uow_enter s0) ->
  match image_remove self i (uow_enter s0) with
  | (Ok _, s') => sound_view loc lost s0 (image_files (committed s0) i) s'
  | (Raise _, s') => covers loc lost s0 (image_files (committed s0) i) s'
  end.
Proof.
  intros Hs. unfold image_remove, bind at 1.
  pose proof (reads_guard (ims_access self) (ims_ctx self) PRODUCT_IMAGE_MANAGE (uow_enter s0)) as Hg.
  destruct (guard_require (ims_access self) (ims_ctx self) PRODUCT_IMAGE_MANAGE (uow_enter s0)) as [[u|e] s1];
    simpl in Hg; pose proof (calm_reads (same stored_of) _ _ Hg) as Hc.
  2:{ apply (covers_more _ _ _ ∅); [set_solver|]. by apply (covers_calm loc lost s0 (same stored_of) ∅ (uow_enter s0)); [|apply Hs]. }
  apply (view_calm loc lost s0 ∅ _ s1) in Hs; [|done]. unfold bind at 1.
  pose proof (stmt_repo_get_or_raise (calm (same stored_of)) (T:=ProductImage) "ProductImage" (ims_tenant self) i s1) as Hr.
  destruct (repo_get_or_raise "ProductImage" (ims_tenant self) i s1) as [[im|e] s2] eqn:Er; simpl in Hr.
  2:{ apply (covers_more _ _ _ ∅); [set_solver|]. by apply (covers_calm loc lost s0 (same stored_of) ∅ s1); [|apply Hs]. }
  apply repo_get_or_raise_Ok in Er as (-> & (j & Hj) & Hi & _). rename im into r.
  destruct Hg as [(_ & Hdb & _) _]. rewrite Hdb in Hj.
  pose proof (image_files_found (committed s0) i j r Hj Hi) as Hsub.
  pose proof (block_remove_found r i s1 Hs) as Hb. destruct (bind _ _ s1) as [[a|e] s2].
  - by eapply view_more.
  - by eapply covers_more.
Qed.
End Blocks.

(** ** Footprints *)

Section Footprints.
Context (R : Db -> Db -> Prop) `{!PreOrder R, !Tolerates R StoredFile, !Tolerates R ProductImage}.
Context (self : ProductImageService) (loc : string -> string).
Context `{!StorageLaws (fls_storage (ims_files self)) loc, !ThumbnailLaws (fls_thumbnailer (ims_files self))}.
Context `{!QuietAccess (fls_access (ims_files self)), !QuietAccess (ims_access self)}.

Lemma evo_attach p n ct data alt pos : steps (evo R) (image_attach self p n ct data alt pos).
Proof.
  pose proof (evo_upload R (ims_files self) loc). pose proof (evo_thumbnail R (ims_files self) loc).
  unfold image_attach, ensure_exists. stmt_walk.
Qed.
Lemma evo_list_images p : steps (evo R) (list_for_product self p).
Proof. unfold list_for_product. stmt_walk. Qed.
Lemma evo_content i th : steps (evo R) (open_content self i th).
Proof. pose proof (evo_file_open R (ims_files self) loc). unfold open_content. stmt_walk. Qed.
Lemma evo_remove i : steps (evo R) (image_remove self i).
Proof. pose proof (evo_file_delete R (ims_files self) loc). unfold image_remove. stmt_walk. Qed.
End Footprints.
