(* ===== verification/Admin.v ===== *)
(** What is declared at start-up about permissions and admin screens: the
    permission catalogs and default grants of every module
    (src/core/*/permissions.py, src/modules/*/*/permissions.py), the admin
    screens (src/core/admin, src/core/audit/admin.py,
    src/modules/commerce/orders/admin.py, src/app/admin_screens.py). *)

From stdpp Require Import base strings gmap list sorting.
From Stdlib Require Import ZArith Lia Ascii.
From S2P Require Import Prelude Errors PyLib Calendar Entities Models Events Session Access.
From S2P Require Import Journal Tenants Payments Files Saas Crm Commerce Images.

(** ** Permissions *)

Definition SCREEN_READ : string := "admin.screen:read".

(** What a module's [register_.._rbac] declares. *)
Record Rbac : Type := mkRbac {
  rb_module : string; rb_permissions : list PermissionDef; rb_grants : Grants }.

Definition codes_of (l : list PermissionDef) : gset string := list_to_set (pd_code <$> l).

Definition TENANTS_RBAC : Rbac := mkRbac "tenants" TENANTS_PERMISSIONS [].

Definition BILLING_PERMISSIONS : list PermissionDef :=
  [mkPerm PLAN_READ "perm.billing.plan.read"; mkPerm SUBSCRIPTION_READ "perm.billing.subscription.read";
   mkPerm SUBSCRIPTION_MANAGE "perm.billing.subscription.manage"].
Definition BILLING_RBAC : Rbac := mkRbac "billing" BILLING_PERMISSIONS
  [(ROLE_OWNER, {[PLAN_READ; SUBSCRIPTION_READ; SUBSCRIPTION_MANAGE]});
   (ROLE_ADMIN, {[PLAN_READ; SUBSCRIPTION_READ; SUBSCRIPTION_MANAGE]});
   (ROLE_MEMBER, {[PLAN_READ; SUBSCRIPTION_READ]})].

Definition FILES_PERMISSIONS : list PermissionDef :=
  [mkPerm FILE_READ "perm.files.file.read"; mkPerm FILE_UPLOAD "perm.files.file.upload";
   mkPerm FILE_DELETE "perm.files.file.delete"].
Definition FILES_RBAC : Rbac := mkRbac "files" FILES_PERMISSIONS
  [(ROLE_OWNER, {[FILE_READ; FILE_UPLOAD; FILE_DELETE]});
   (ROLE_ADMIN, {[FILE_READ; FILE_UPLOAD; FILE_DELETE]}); (ROLE_MEMBER, {[FILE_READ]})].

Definition AUDIT_PERMISSIONS : list PermissionDef := [mkPerm RECORD_READ "perm.audit.record.read"].
Definition AUDIT_RBAC : Rbac := mkRbac "audit" AUDIT_PERMISSIONS
  [(ROLE_OWNER, {[RECORD_READ]}); (ROLE_ADMIN, {[RECORD_READ]})].

Definition ADMIN_PERMISSIONS : list PermissionDef := [mkPerm SCREEN_READ "perm.admin.screen.read"].
Definition ADMIN_RBAC : Rbac := mkRbac "admin" ADMIN_PERMISSIONS
  [(ROLE_OWNER, {[SCREEN_READ]}); (ROLE_ADMIN, {[SCREEN_READ]})].

Definition PRODUCTS_PERMISSIONS : list PermissionDef :=
  [mkPerm PRODUCT_READ "perm.commerce.product.read"; mkPerm PRODUCT_CREATE "perm.commerce.product.create";
   mkPerm PRODUCT_UPDATE "perm.commerce.product.update"].
Definition PRODUCTS_RBAC : Rbac := mkRbac "commerce" PRODUCTS_PERMISSIONS
  [(ROLE_OWNER, {[PRODUCT_READ; PRODUCT_CREATE; PRODUCT_UPDATE]});
   (ROLE_ADMIN, {[PRODUCT_READ; PRODUCT_CREATE; PRODUCT_UPDATE]}); (ROLE_MEMBER, {[PRODUCT_READ]})].

Definition ORDERS_PERMISSIONS : list PermissionDef := [mkPerm ORDER_READ "perm.commerce.order.read"].
Definition ORDERS_RBAC : Rbac := mkRbac "commerce" ORDERS_PERMISSIONS
  [(ROLE_OWNER, {[ORDER_READ]}); (ROLE_ADMIN, {[ORDER_READ]})].

Definition PRODUCT_IMAGES_PERMISSIONS : list PermissionDef :=
  [mkPerm PRODUCT_IMAGE_READ "perm.commerce.product_image.read";
   mkPerm PRODUCT_IMAGE_MANAGE "perm.commerce.product_image.manage"].
Definition PRODUCT_IMAGES_RBAC : Rbac := mkRbac "commerce" PRODUCT_IMAGES_PERMISSIONS
  [(ROLE_OWNER, {[PRODUCT_IMAGE_READ; PRODUCT_IMAGE_MANAGE]});
   (ROLE_ADMIN, {[PRODUCT_IMAGE_READ; PRODUCT_IMAGE_MANAGE]}); (ROLE_MEMBER, {[PRODUCT_IMAGE_READ]})].

Definition CRM_CONTACTS_PERMISSIONS : list PermissionDef :=
  [mkPerm COMPANY_READ "perm.crm.company.read"; mkPerm COMPANY_CREATE "perm.crm.company.create";
   mkPerm COMPANY_UPDATE "perm.crm.company.update"; mkPerm COMPANY_DELETE "perm.crm.company.delete";
   mkPerm CONTACT_READ "perm.crm.contact.read"; mkPerm CONTACT_CREATE "perm.crm.contact.create";
   mkPerm CONTACT_UPDATE "perm.crm.contact.update"; mkPerm CONTACT_DELETE "perm.crm.contact.delete"].
Definition CONTACTS_WORK : gset string :=
  {[COMPANY_READ; COMPANY_CREATE; COMPANY_UPDATE; CONTACT_READ; CONTACT_CREATE; CONTACT_UPDATE]}.
Definition CRM_CONTACTS_RBAC : Rbac := mkRbac "crm" CRM_CONTACTS_PERMISSIONS
  [(ROLE_OWNER, CONTACTS_WORK ∪ {[COMPANY_DELETE; CONTACT_DELETE]});
   (ROLE_ADMIN, CONTACTS_WORK ∪ {[COMPANY_DELETE; CONTACT_DELETE]}); (ROLE_MEMBER, CONTACTS_WORK)].

Definition CRM_DEALS_PERMISSIONS : list PermissionDef :=
  [mkPerm DEAL_READ "perm.crm.deal.read"; mkPerm DEAL_CREATE "perm.crm.deal.create";
   mkPerm DEAL_UPDATE "perm.crm.deal.update"; mkPerm DEAL_DELETE "perm.crm.deal.delete"].
Definition DEALS_WORK : gset string := {[DEAL_READ; DEAL_CREATE; DEAL_UPDATE]}.
Definition CRM_DEALS_RBAC : Rbac := mkRbac "crm" CRM_DEALS_PERMISSIONS
  [(ROLE_OWNER, DEALS_WORK ∪ {[DEAL_DELETE]}); (ROLE_ADMIN, DEALS_WORK ∪ {[DEAL_DELETE]});
   (ROLE_MEMBER, DEALS_WORK)].

Definition CRM_ACTIVITIES_PERMISSIONS : list PermissionDef :=
  [mkPerm ACTIVITY_READ "perm.crm.activity.read"; mkPerm ACTIVITY_CREATE "perm.crm.activity.create";
   mkPerm ACTIVITY_UPDATE "perm.crm.activity.update"; mkPerm ACTIVITY_DELETE "perm.crm.activity.delete"].
Definition ACTIVITIES_WORK : gset string := {[ACTIVITY_READ; ACTIVITY_CREATE; ACTIVITY_UPDATE]}.
Definition CRM_ACTIVITIES_RBAC : Rbac := mkRbac "crm" CRM_ACTIVITIES_PERMISSIONS
  [(ROLE_OWNER, ACTIVITIES_WORK ∪ {[ACTIVITY_DELETE]});
   (ROLE_ADMIN, ACTIVITIES_WORK ∪ {[ACTIVITY_DELETE]}); (ROLE_MEMBER, ACTIVITIES_WORK)].

Definition SAAS_ENTITLEMENTS_PERMISSIONS : list PermissionDef :=
  [mkPerm ENTITLEMENT_READ "perm.saas.entitlement.read"].
Definition SAAS_ENTITLEMENTS_RBAC : Rbac := mkRbac "saas" SAAS_ENTITLEMENTS_PERMISSIONS
  [(ROLE_OWNER, {[ENTITLEMENT_READ]}); (ROLE_ADMIN, {[ENTITLEMENT_READ]})].

Definition SAAS_METERING_PERMISSIONS : list PermissionDef := [mkPerm USAGE_READ "perm.saas.usage.read"].
Definition SAAS_METERING_RBAC : Rbac := mkRbac "saas" SAAS_METERING_PERMISSIONS
  [(ROLE_OWNER, {[USAGE_READ]}); (ROLE_ADMIN, {[USAGE_READ]})].

Definition SAAS_ONBOARDING_PERMISSIONS : list PermissionDef :=
  [mkPerm ONBOARDING_READ "perm.saas.onboarding.read";
   mkPerm ONBOARDING_UPDATE "perm.saas.onboarding.update"].
Definition SAAS_ONBOARDING_RBAC : Rbac := mkRbac "saas" SAAS_ONBOARDING_PERMISSIONS
  [(ROLE_OWNER, {[ONBOARDING_READ; ONBOARDING_UPDATE]});
   (ROLE_ADMIN, {[ONBOARDING_READ; ONBOARDING_UPDATE]})].

(** ** Registration *)

Record Declared : Type := mkDeclared { dc_registry : PermissionRegistry; dc_grants : Grants }.

(** [register_.._rbac]: the catalog, then the grants. *)
Definition register_rbac (r : Rbac) (d : Declared) : res exn Declared :=
  match register (rb_module r) (rb_permissions r) (dc_registry d) with
  | (Raise e, _) => Raise e
  | (Ok _, reg) => rbind (grants_extend (rb_grants r) (dc_grants d)) (fun g => Ok (mkDeclared reg g))
  end.

(** [_register_core_rbac] *)
Definition core_rbac : list Rbac := [TENANTS_RBAC; BILLING_RBAC; FILES_RBAC; AUDIT_RBAC; ADMIN_RBAC].

(** [install()] of the features, in the order of installation. *)
Definition feature_rbac : list Rbac :=
  [PRODUCTS_RBAC; CRM_CONTACTS_RBAC; SAAS_ENTITLEMENTS_RBAC; SAAS_METERING_RBAC; SAAS_ONBOARDING_RBAC;
   ORDERS_RBAC; PRODUCT_IMAGES_RBAC; CRM_DEALS_RBAC; CRM_ACTIVITIES_RBAC].

Definition installed_rbac (modules : list string) : list Rbac :=
  core_rbac ++ List.filter (fun r => bool_decide (rb_module r ∈ modules)) feature_rbac.

(** The catalog and the grants of an application with these modules. *)
Definition declared_rbac (modules : list string) : res exn Declared :=
  rbind system_role_grants (fun g =>
    foldl (fun d r => rbind d (register_rbac r)) (Ok (mkDeclared empty_registry g))
      (installed_rbac modules)).

(** ** src/core/admin/registry.py *)

Definition ADMIN_PREFIX : string := "/api/admin".

(** [as_object]: which object it is; its router is told by [as_module]. *)
Record AdminScreen : Set := mkScreen {
  as_object : N; as_slug : string; as_title_key : string; as_module : string; as_permission : string }.

Definition slug_char (c : ascii) : bool :=
  ch_lower c || ch_digit c || bool_decide (c ∈ ["_"; "-"]%char).

(** [_SLUG_RE] *)
Definition slug_re (slug : string) : bool :=
  match chomp slug with
  | String c rest => ch_lower c && str_all slug_char rest
  | EmptyString => false
  end.

(** [_by_slug] *)
Definition AdminRegistry : Set := list (string * AdminScreen).

Definition register_screen (screen : AdminScreen) (reg : AdminRegistry) : res exn AdminRegistry :=
  if negb (slug_re (as_slug screen)) then Raise EValue
  else match assoc (as_slug screen) reg with
       | Some existing =>
           if bool_decide (as_object existing = as_object screen) then Ok reg else Raise ERuntime
       | None => Ok (reg ++ [(as_slug screen, screen)])
       end.

Definition slug_le (a b : string * AdminScreen) : Prop := str_le a.1 b.1.
#[export] Instance slug_le_dec a b : Decision (slug_le a b).
Proof. unfold slug_le. apply _. Defined.

Definition screens (reg : AdminRegistry) : list AdminScreen := snd <$> merge_sort slug_le reg.

(** ** src/core/admin/service.py *)

Record AdminScreenInfo : Set := mkScreenInfo {
  si_slug : string; si_title_key : string; si_permission : string; si_path : string }.

Definition screen_info (screen : AdminScreen) : AdminScreenInfo :=
  mkScreenInfo (as_slug screen) (as_title_key screen) (as_permission screen)
    (ADMIN_PREFIX +:+ "/" +:+ as_slug screen).

Definition screens_for (access : Resolver) (registry : AdminRegistry) (user_id : uuid)
    : SM (list AdminScreenInfo) :=
  granted <- list_permissions access user_id ;;
  ret (screen_info <$>
         List.filter (fun screen => bool_decide (as_permission screen ∈ granted)) (screens registry)).

(** ** The screens *)

Definition AUDIT_SCREEN : AdminScreen := mkScreen 0 "audit" "admin.screen.audit" "audit" RECORD_READ.
Definition ORDERS_SCREEN : AdminScreen :=
  mkScreen 1 "orders" "admin.screen.orders" "commerce.orders" ORDER_READ.

(** [register_admin_screens] and the features' [install()], on a registry
    that was reset. *)
Definition app_screens (modules : list string) : res exn AdminRegistry :=
  rbind (register_screen AUDIT_SCREEN []) (fun reg =>
    if bool_decide ("commerce" ∈ modules) then register_screen ORDERS_SCREEN reg else Ok reg).

(** [mount_admin_screens]: the prefixes of the mounted routers. *)
Fixpoint mount_screens (reg : PermissionRegistry) (l : list AdminScreen) : res exn (list string) :=
  match l with
  | [] => Ok []
  | screen :: l' =>
      rbind (require_registered reg (as_permission screen)) (fun _ =>
        rbind (mount_screens reg l') (fun mounted =>
          Ok ((ADMIN_PREFIX +:+ "/" +:+ as_slug screen) :: mounted)))
  end.
Definition mount_admin_screens (reg : PermissionRegistry) (registry : AdminRegistry)
    : res exn (list string) := mount_screens reg (screens registry).

(** ** What every start-up declares *)

(** The enabled modules count only through the three there are. *)
Definition module_flags (commerce crm saas : bool) : list string :=
  (if commerce then ["commerce"] else []) ++ (if crm then ["crm"] else []) ++ (if saas then ["saas"] else []).

Lemma flags_spec c k s :
  bool_decide ("commerce" ∈ module_flags c k s) = c /\ bool_decide ("crm" ∈ module_flags c k s) = k /\
  bool_decide ("saas" ∈ module_flags c k s) = s.
Proof. destruct c, k, s; vm_compute; auto. Qed.

Lemma installed_flags modules :
  installed_rbac modules =
  installed_rbac (module_flags (bool_decide ("commerce" ∈ modules)) (bool_decide ("crm" ∈ modules))
                    (bool_decide ("saas" ∈ modules))).
Proof.
  unfold installed_rbac. f_equal. unfold feature_rbac. cbn [List.filter rb_module PRODUCTS_RBAC
    CRM_CONTACTS_RBAC SAAS_ENTITLEMENTS_RBAC SAAS_METERING_RBAC SAAS_ONBOARDING_RBAC ORDERS_RBAC
    PRODUCT_IMAGES_RBAC CRM_DEALS_RBAC CRM_ACTIVITIES_RBAC].
  destruct (flags_spec (bool_decide ("commerce" ∈ modules)) (bool_decide ("crm" ∈ modules))
    (bool_decide ("saas" ∈ modules))) as (-> & -> & ->). done.
Qed.

(** What is asked of the declarations of an application. *)
Definition granted (g : Grants) (role : string) : gset string := default ∅ (assoc role g).
Definition rbac_sound (d : Declared) : bool :=
  bool_decide (fst <$> dc_grants d = [ROLE_OWNER; ROLE_ADMIN; ROLE_MEMBER])
  && bool_decide (granted (dc_grants d) ROLE_OWNER = all_codes (dc_registry d))
  && bool_decide (granted (dc_grants d) ROLE_ADMIN ⊆ granted (dc_grants d) ROLE_OWNER)
  && bool_decide (granted (dc_grants d) ROLE_MEMBER ⊆ granted (dc_grants d) ROLE_ADMIN).

Lemma declared_sound modules :
  exists d, declared_rbac modules = Ok d /\ rbac_sound d = true.
Proof.
  unfold declared_rbac. rewrite installed_flags.
  generalize (bool_decide ("commerce" ∈ modules)) (bool_decide ("crm" ∈ modules))
    (bool_decide ("saas" ∈ modules)). intros c k s.
  assert (H : match rbind system_role_grants (fun g =>
      foldl (fun d r => rbind d (register_rbac r)) (Ok (mkDeclared empty_registry g))
        (installed_rbac (module_flags c k s))) with Ok d => rbac_sound d | Raise _ => false end = true).
  { destruct c, k, s; vm_compute; reflexivity. }
  destruct (rbind _ _) as [d|]; [|done]. by exists d.
Qed.
