(* ===== verification/Frames.v ===== *)
(** Everything billing does is invisible to a relation that looks only at
    other tables: the footprint of payments, subscriptions, webhooks and the
    billing jobs. *)

From stdpp Require Import base strings gmap list relations.
From Stdlib Require Import ZArith Lia Ascii.
From S2P Require Import Prelude Errors PyLib Calendar Entities Models Events Session SessionFacts.
From S2P Require Import Access Journal Ports Payments PayFacts DbFacts Billing.
From S2P Require Import Webhooks WebhookFacts Jobs Notices Commerce CommerceFacts.

Class BillingBlind (R : Db -> Db -> Prop) : Prop := {
  blind_preorder :: PreOrder R;
  blind_subs :: Tolerates R Subscription;
  blind_pays :: Tolerates R Payment;
  blind_hooks :: Tolerates R PaymentWebhook;
  blind_audit :: Tolerates R AuditLog }.

Section Blind.
Context (R : Db -> Db -> Prop) `{!BillingBlind R}.
Abbreviation runs := (steps (evo R)).

Lemma runs_locked i : runs (locked_subscription i).
Proof. unfold locked_subscription. steps_walk. Qed.
Hint Resolve runs_locked : steps.

Lemma runs_activate ps i : runs (activate_subscription ps i).
Proof.
  unfold activate_subscription. steps_walk.
  - apply (steps_fold_m (evo R)). steps_walk.
  - apply (steps_for_each (evo R)). steps_walk.
Qed.
Lemma runs_close ps i t r : runs (close_payment ps i t r).
Proof. unfold close_payment, drop_pending_subscription, payments_audit. steps_walk. Qed.
Hint Resolve runs_activate runs_close : steps.

Lemma runs_mark_expired ps i : runs (mark_expired ps i).
Proof. apply runs_close. Qed.

Lemma runs_apply ps i cb : runs (apply_action ps i cb).
Proof.
  unfold apply_action, mark_pending, mark_succeeded, mark_canceled_by_provider, payments_audit.
  steps_walk.
Qed.
Hint Resolve runs_mark_expired runs_apply : steps.

Lemma runs_new_payments ctx pv st acc : runs (new_payment_service ctx pv st acc).
Proof. unfold new_payment_service. steps_walk. Qed.
Lemma runs_new_billing ctx ps acc : runs (new_billing_service ctx ps acc).
Proof. unfold new_billing_service. steps_walk. Qed.
Hint Resolve runs_new_payments runs_new_billing : steps.

Lemma runs_transition wp code cb w : runs (process_transition wp code cb w).
Proof.
  pose proof (fun cb => quiet_steps_evo R _ (quiet_find_payment cb)).
  pose proof (fun p => quiet_steps_evo R _ (quiet_payment_dto p)).
  unfold process_transition, decide_webhook. steps_walk.
Qed.

Lemma runs_claim code key raw : runs (claim_ledger code key raw).
Proof.
  unfold claim_ledger. steps_walk. apply evo_on_conflict; [apply _|]. intros. apply tol_put.
Qed.
Lemma runs_journal code raw : runs (journal_rejected code raw).
Proof.
  unfold journal_rejected. steps_walk. apply evo_on_conflict; [apply _|]. intros. apply tol_put.
Qed.
Hint Resolve runs_transition runs_claim runs_journal : steps.

Lemma runs_dispatch wp code cb raw : runs (dispatch wp code cb raw).
Proof.
  pose proof (fun cb => quiet_steps_evo R _ (quiet_read_only cb)).
  pose proof (fun a b c => quiet_steps_evo R _ (quiet_replay_webhook a b c)).
  unfold dispatch. steps_walk.
Qed.

(** ** Subscriptions *)

Lemma runs_roll fuel i t p : runs (roll_forward fuel i t p).
Proof. induction fuel; simpl; steps_walk; auto. Qed.
Lemma runs_plan_by_code c : runs (plan_by_code c).
Proof. unfold plan_by_code. steps_walk. Qed.
Hint Resolve runs_roll runs_plan_by_code : steps.
Lemma runs_auto_subscribe bs c : runs (auto_subscribe bs c).
Proof. unfold auto_subscribe. steps_walk. Qed.
Hint Resolve runs_auto_subscribe : steps.
Lemma runs_close_ended bs i f : runs (close_ended_period bs i f).
Proof. unfold close_ended_period. steps_walk. Qed.
Lemma runs_auto_subscribe_new_tenant st e : runs (auto_subscribe_new_tenant st e).
Proof. unfold auto_subscribe_new_tenant. steps_walk. Qed.

Lemma runs_start bs plan provider `{!QuietAccess (bs_access bs)} :
  providers_ok (bs_payments bs) -> runs (start_subscription bs plan provider).
Proof.
  intros Hps. assert (forall s p, runs (checkout_for bs s p)).
  { intros. unfold checkout_for. steps_walk. apply (runs_create R); [apply _..|done]. }
  unfold start_subscription. steps_walk. apply evo_begin_nested; [apply _|]. steps_walk.
Qed.

Lemma runs_cancel_subscription bs `{!QuietAccess (bs_access bs)} : runs (cancel_subscription bs).
Proof. unfold cancel_subscription. steps_walk. Qed.
End Blind.
#[export] Hint Resolve runs_mark_expired runs_apply runs_new_payments runs_new_billing runs_dispatch
  runs_close_ended runs_auto_subscribe_new_tenant runs_start runs_cancel_subscription : steps.

(** ** Orders, for any relation that tolerates writes *)

Class ShopBlind (R : Db -> Db -> Prop) : Prop := {
  shop_billing :: BillingBlind R;
  shop_carts :: Tolerates R Cart;
  shop_orders :: Tolerates R Order;
  shop_order_items :: Tolerates R OrderItem }.

Section ShopRuns.
Context (R : Db -> Db -> Prop) `{!ShopBlind R}.
Abbreviation runs := (steps (evo R)).

Lemma shop_place_order os lines provider :
  (forall ps, ors_payments os = Some ps -> providers_ok ps) ->
  runs (place_order os lines provider).
Proof.
  intros Hps. unfold place_order.
  destruct (ors_products os) as [products|]; [|steps_walk].
  destruct (ors_payments os) as [payments|]; [|steps_walk]. specialize (Hps _ eq_refl).
  assert (forall t i x, runs (add_order_item t i x)).
  { intros t i [[p q] m]. unfold add_order_item. steps_walk. }
  pose proof (fun a b c d e f g => runs_create R payments a b c d e f g Hps).
  steps_walk.
Qed.

Lemma shop_checkout cs provider :
  (forall os ps, cs_orders cs = Some os -> ors_payments os = Some ps -> providers_ok ps) ->
  runs (checkout cs provider).
Proof.
  intros Hps. unfold checkout. destruct (cs_orders cs) as [os|]; [|steps_walk].
  pose proof (fun l p => shop_place_order os l p (fun ps H => Hps os ps eq_refl H)).
  steps_walk.
Qed.

Lemma shop_mark_order_paid send e :
  (forall ctx n, runs (send ctx n)) -> runs (mark_order_paid send e).
Proof. intros Hs. unfold mark_order_paid, mark_paid. steps_walk. Qed.

Lemma shop_cancel_order e : runs (cancel_order e).
Proof. unfold cancel_order, order_cancel. steps_walk. Qed.
End ShopRuns.

(** ** Rows stay under their primary keys *)

Definition keyed_evo (d d' : Db) : Prop := keyed d -> keyed d'.

#[export] Instance keyed_evo_preorder : PreOrder keyed_evo.
Proof. split; [intros x|intros x y z]; unfold keyed_evo; tauto. Qed.

Definition ids_ok {A} (key : A -> uuid) (t : gmap N A) : Prop :=
  forall i r, t !! i = Some r -> key r = i.

Section Ids.
Context {A : Type} (key : A -> uuid).

Lemma ids_alter t i f : (forall r, key (f r) = key r) -> ids_ok key t -> ids_ok key (alter f i t).
Proof.
  intros Hf Ht j r Hj. destruct (decide (i = j)) as [<-|Hne].
  - rewrite lookup_alter_eq in Hj. apply fmap_Some in Hj as (x & Hx & ->). rewrite Hf. by apply Ht.
  - rewrite lookup_alter_ne in Hj by done. by apply Ht.
Qed.
Lemma ids_insert t r : ids_ok key t -> ids_ok key (<[key r := r]> t).
Proof. intros Ht j x. rewrite lookup_insert. case_decide; [naive_solver|apply Ht]. Qed.
Lemma ids_delete t i : ids_ok key t -> ids_ok key (delete i t).
Proof. intros Ht j x [_ Hj]%lookup_delete_Some. by apply Ht. Qed.
Lemma ids_fmap t (f : A -> A) : (forall r, key (f r) = key r) -> ids_ok key t -> ids_ok key (f <$> t).
Proof.
  intros Hf Ht j x. rewrite lookup_fmap, fmap_Some. intros (y & Hy & ->). rewrite Hf. by apply Ht.
Qed.
Lemma ids_filter t (P : N * A -> Prop) `{!forall x, Decision (P x)} :
  ids_ok key t -> ids_ok key (filter P t).
Proof. intros Ht j x [Hj _]%map_lookup_filter_Some. by apply Ht. Qed.
End Ids.

(** One field of [keyed] changes, the others are as they were. *)
Ltac tolerate :=
  split; intros; intros []; split; try assumption;
  first [by apply ids_alter | by apply ids_insert | by apply ids_delete | by apply ids_fmap
        | by apply ids_filter].

#[export] Instance keyed_plans : Tolerates keyed_evo Plan.
Proof. tolerate. Qed.
#[export] Instance keyed_subs : Tolerates keyed_evo Subscription.
Proof. tolerate. Qed.
#[export] Instance keyed_pays : Tolerates keyed_evo Payment.
Proof. tolerate. Qed.
#[export] Instance keyed_hooks : Tolerates keyed_evo PaymentWebhook.
Proof. tolerate. Qed.
#[export] Instance keyed_audit : Tolerates keyed_evo AuditLog.
Proof. tolerate. Qed.
#[export] Instance keyed_products : Tolerates keyed_evo Product.
Proof. tolerate. Qed.
#[export] Instance keyed_carts : Tolerates keyed_evo Cart.
Proof. tolerate. Qed.
#[export] Instance keyed_cart_items : Tolerates keyed_evo CartItem.
Proof. tolerate. Qed.
#[export] Instance keyed_orders : Tolerates keyed_evo Order.
Proof. tolerate. Qed.
#[export] Instance keyed_order_items : Tolerates keyed_evo OrderItem.
Proof. tolerate. Qed.

#[export] Instance keyed_users : Tolerates keyed_evo User.
Proof. tolerate. Qed.
#[export] Instance keyed_totp : Tolerates keyed_evo UserTotp.
Proof. tolerate. Qed.
#[export] Instance keyed_recovery : Tolerates keyed_evo UserRecoveryCode.
Proof. tolerate. Qed.
#[export] Instance keyed_refresh : Tolerates keyed_evo RefreshToken.
Proof. tolerate. Qed.
#[export] Instance keyed_tenants : Tolerates keyed_evo Tenant.
Proof. tolerate. Qed.
#[export] Instance keyed_members : Tolerates keyed_evo Membership.
Proof. tolerate. Qed.
#[export] Instance keyed_roles : Tolerates keyed_evo Role.
Proof. tolerate. Qed.
#[export] Instance keyed_invites : Tolerates keyed_evo Invitation.
Proof. tolerate. Qed.
#[export] Instance keyed_settings : Tolerates keyed_evo NotificationSetting.
Proof. tolerate. Qed.
#[export] Instance keyed_outbox : Tolerates keyed_evo NotificationOutbox.
Proof. tolerate. Qed.
#[export] Instance keyed_entitled : Tolerates keyed_evo TenantEntitlement.
Proof. tolerate. Qed.
#[export] Instance keyed_usage : Tolerates keyed_evo UsageCounter.
Proof. tolerate. Qed.
#[export] Instance keyed_progress : Tolerates keyed_evo OnboardingProgress.
Proof. tolerate. Qed.
#[export] Instance keyed_companies : Tolerates keyed_evo Company.
Proof. tolerate. Qed.
#[export] Instance keyed_contacts : Tolerates keyed_evo Contact.
Proof. tolerate. Qed.
#[export] Instance keyed_deals : Tolerates keyed_evo Deal.
Proof. tolerate. Qed.
#[export] Instance keyed_activities : Tolerates keyed_evo Activity.
Proof. tolerate. Qed.
#[export] Instance keyed_files : Tolerates keyed_evo StoredFile.
Proof. tolerate. Qed.
#[export] Instance keyed_images : Tolerates keyed_evo ProductImage.
Proof. tolerate. Qed.

#[export] Instance keyed_blind : ShopBlind keyed_evo.
Proof. split; [split|..]; apply _. Qed.
