(* ===== verification/OrderFacts.v ===== *)
(** What placing an order and filling a cart leave in the database. *)

From stdpp Require Import base strings gmap list relations.
From Stdlib Require Import ZArith Lia Ascii.
From S2P Require Import Prelude Errors PyLib Calendar Entities Models Events Session SessionFacts.
From S2P Require Import Access Journal Ports Payments PayFacts DbFacts Billing.
From S2P Require Import Webhooks WebhookFacts Intake Jobs Notices Commerce CommerceFacts Frames.

Open Scope Z_scope.

(** ** Prices *)

Lemma new_money_inv a c m : new_money a c = Ok m -> m = mkMoney a c /\ 0 <= a /\ str_empty c = false.
Proof.
  unfold new_money. destruct (Z.ltb_spec a 0); [done|].
  destruct (negb (Nat.eqb (String.length c) 3)) eqn:El; [done|].
  destruct (_ || _); [done|]. intros [= <-]. split; [done|]. split; [done|].
  apply bool_decide_eq_false. intros ->. done.
Qed.

(** A line priced from an active product of the shop. *)
Definition priced_at (d : Db) (tenant : uuid) (x : priced_line) : Prop :=
  let '(product, quantity, price) := x in
  exists j p, c_products (d_commerce d) !! j = Some p /\ pr_id p = product /\
    pr_tenant_id p = tenant /\ pr_status p = ProdActive /\
    price = mkMoney (pr_price_amount p) (pr_currency p) /\ 0 <= pr_price_amount p.

Lemma sale_info_inv ps i s m s' :
  get_sale_info ps i s = (Ok m, s') ->
  s' = s /\ (forall q, priced_at (db s) (prs_tenant ps) (i, q, m)) /\ str_empty (m_currency m) = false.
Proof.
  intros E. unfold get_sale_info in E. apply bind_inv_Ok in E as (p & s1 & Hg & E).
  unfold repo_get_or_raise in Hg. apply bind_inv_Ok in Hg as (o & s2 & Hg & Hr).
  destruct o as [q|]; [|done]. unfold ret in Hr. injection Hr as -> <-.
  apply repo_get_inv in Hg as (-> & [j Hj] & Hid & Ht).
  destruct (bool_decide_reflect (pr_status p = ProdActive)) as [Ha|]; [|done]. simpl in E.
  unfold lift_res in E. injection E as E <-. apply new_money_inv in E as (-> & Hp & Hc).
  split; [done|]. split; [|done]. intros q. by exists j, p.
Qed.

Fixpoint lines_total (l : list priced_line) : Z :=
  match l with [] => 0 | (_, q, m) :: l' => m_amount m * q + lines_total l' end.

Lemma lines_total_app l1 l2 : lines_total (l1 ++ l2) = lines_total l1 + lines_total l2.
Proof. induction l1 as [|[[p q] m] l IH]; simpl; [done|]. rewrite IH. lia. Qed.

Definition line_of (x : priced_line) : OrderLineIn := let '(p, q, _) := x in mkLine p q.

Lemma price_lines_inv ps lines p0 t0 c0 s p1 t1 c1 s' :
  fold_m lines (p0, t0, c0) (price_line ps) s = (Ok (p1, t1, c1), s') ->
  s' = s /\ exists l, p1 = p0 ++ l /\ line_of <$> l = lines /\ t1 = t0 + lines_total l /\
    Forall (priced_at (db s) (prs_tenant ps)) l /\ Forall (fun x => m_currency x.2 = c1) l /\
    (str_empty c0 = false -> c1 = c0) /\ (l = [] -> c1 = c0).
Proof.
  revert p0 t0 c0 s. induction lines as [|[pid q] lines IH]; intros p0 t0 c0 s E.
  { unfold fold_m, ret in E. simplify_eq. split; [done|]. exists []. rewrite app_nil_r. simpl.
    repeat split; auto; lia. }
  cbn [fold_m] in E. apply bind_inv_Ok in E as ([[p2 t2] c2] & s1 & Hl & E).
  unfold price_line in Hl. apply bind_inv_Ok in Hl as (m & s2 & Hi & Hl).
  apply sale_info_inv in Hi as (-> & Hp & Hm).
  apply bind_inv_Ok in Hl as (c & s3 & Hc & Hl). unfold ret in Hl.
  assert (Hcur : s3 = s /\ c = m_currency m /\ (str_empty c0 = false -> c = c0)).
  { destruct (str_empty c0); [unfold ret in Hc; by simplify_eq|].
    destruct (bool_decide_reflect (c0 = m_currency m)) as [Heq|]; [|done].
    simpl in Hc. unfold ret in Hc. injection Hc as <- <-. auto. }
  destruct Hcur as (-> & -> & Hc0). injection Hl as <- <- <- <-. simpl in E.
  apply IH in E as (-> & l & -> & Hlines & -> & Hpr & Hcs & Hc1 & _).
  specialize (Hc1 Hm). subst c1.
  split; [done|]. exists ((pid, q, m) :: l). rewrite <- app_assoc.
  split; [done|]. split; [rewrite fmap_cons; by rewrite Hlines|]. split; [cbn [lines_total]; lia|].
  split; [constructor; [apply Hp|done]|]. split; [by constructor|]. split; [done|done].
Qed.

(** ** Placing an order *)

(** A block that leaves the orders alone. *)
Lemma carry {A} (m : SM A) s a s' :
  m s = (Ok a, s') -> no_rivals (env s) ->
  steps (evo (same orders_of)) m -> steps (evo keyed_evo) m ->
  no_rivals (env s') /\ orders_of (db s') = orders_of (db s) /\ (keyed (db s) -> keyed (db s')).
Proof.
  intros E Hr Ho Hk. destruct (Ho s) as (He & Hd & _), (Hk s) as (_ & Hd' & _).
  rewrite E in *. simpl in *. split; [by rewrite He|]. split.
  - by apply Hd, no_rivals_same.
  - apply Hd'. intros k d. rewrite Hr. reflexivity.
Qed.

#[local] Instance frame_items : Ignores (same orders_of) OrderItem.
Proof. done. Qed.
#[local] Instance frame_pays : Ignores (same orders_of) Payment.
Proof. done. Qed.

Lemma place_order_Ok os lines provider s c s' ps pays :
  no_rivals (env s) -> keyed (db s) -> ors_products os = Some ps -> ors_payments os = Some pays ->
  providers_ok pays -> place_order os lines provider s = (Ok c, s') ->
  exists o l p,
    orders_of (db s') !! oc_order_id c = Some o /\ o_status o = OrdPending /\
    o_tenant_id o = ors_tenant os /\ o_payment_id o = Some (oc_payment_id c) /\
    line_of <$> l = lines /\ Forall (priced_at (db s) (prs_tenant ps)) l /\
    Forall (fun x => m_currency x.2 = o_currency o) l /\ o_total_amount o = lines_total l /\
    payments_of (db s') !! oc_payment_id c = Some p /\
    payment_request p = (o_total_amount o, o_currency o, "commerce.order", uuid_str (oc_order_id c),
                         provider).
Proof.
  intros Hr Hk Eps Epay Hps E. unfold place_order in E. rewrite Eps, Epay in E.
  apply bind_inv_Ok in E as (cust & s1 & Hc & E).
  apply carry in Hc as Hc'; [|done|apply runs_customer, _|apply runs_customer, _].
  assert (s1 = s) as ->.
  { unfold customer_id, ret, raise in Hc. destruct (c_actor _) as [[] [i|]]; try done.
    destruct (uuid_parse i); by simplify_eq. }
  clear Hc Hc'. apply bind_inv_Ok in E as ([[priced total] cur] & s2 & Hf & E).
  apply price_lines_inv in Hf as (-> & l & -> & Hl & -> & Hpr & Hcs & _). simpl in E.
  rewrite Z.add_0_l in E. apply bind_inv_Ok in E as (u & s3 & Hg & E).
  assert (s3 = s) as -> by (unfold guardM in Hg; destruct (str_empty cur); unfold ret, raise in Hg; by simplify_eq).
  erewrite bind_Ok in E by apply new_uuid7_run. erewrite bind_Ok in E by apply now_run.
  set (i := next_uuid s) in *. set (t := clock _) in *.
  set (s4 := tick (drew_uuid s)) in *.
  assert (Hr4 : no_rivals (env s4)) by done. assert (Hk4 : keyed (db s4)) by done.
  clearbody i t s4.
  apply bind_inv_Ok in E as (row & s5 & Ha & E).
  set (o0 := fun tenant => mkOrder i tenant cust OrdPending (lines_total l) cur None t) in *.
  assert (Hk5 : keyed (db s5) /\ no_rivals (env s5)).
  { pose proof (evo_repo_add_tolerated keyed_evo (ors_tenant os) None o0 s4) as (He & Hd & _).
    rewrite Ha in He, Hd. simpl in He, Hd. split; [apply Hd; [|done]|by rewrite He].
    intros k d. rewrite Hr4. reflexivity. }
  destruct Hk5 as [Hk5 Hr5]. apply repo_add_Ok in Ha as (_ & -> & _).
  assert (Ho : orders_of (db (st_db (t_put (o0 (ors_tenant os))) s4)) !! i = Some (o0 (ors_tenant os)))
    by apply lookup_insert_eq.
  revert Hk5 Hr5 Ho E. generalize (st_db (t_put (o0 (ors_tenant os))) s4). clear s4 Hr4 Hk4.
  intros s5 Hk5 Hr5 Ho E.
  apply bind_inv_Ok in E as ([] & s6 & Hi & E).
  assert (Hitem : forall R, PreOrder R -> Tolerates R OrderItem -> forall l,
            steps (evo R) (for_each l (add_order_item (ors_tenant os) i))).
  { intros R ?? l'. apply (steps_for_each (evo R)). intros [[p q] m]. unfold add_order_item. steps_walk. }
  apply carry in Hi as (Hr6 & O6 & Hk6); [|done|apply Hitem; apply _|apply Hitem; apply _].
  apply bind_inv_Ok in E as (ev & s7 & He & E).
  apply carry in He as (Hr7 & O7 & Hk7); [|done|steps_walk|steps_walk].
  apply bind_inv_Ok in E as (amount & s8 & Hm & E). unfold lift_res in Hm. injection Hm as Hm <-.
  apply new_money_inv in Hm as (-> & _ & _).
  apply bind_inv_Ok in E as (co & s9 & Hcr & E).
  apply carry in Hcr as Hcar; [|done|by apply (runs_create _)|
    apply (runs_create keyed_evo); [apply _..|done]].
  destruct Hcar as (Hr9 & O9 & Hk9).
  apply create_payment_Ok in Hcr as (p & Hp & Hreq & _); [|done|done|apply k_pay; auto].
  assert (Ho9 : orders_of (db s9) !! i = Some (o0 (ors_tenant os))) by (by rewrite O9, O7, O6).
  erewrite bind_Ok in E by (by apply (upd_run _ i (o0 (ors_tenant os)))).
  apply bind_inv_Ok in E as (u' & s10 & Hfl & E). pose proof Hfl as (_ & _ & _ & -> & _)%flush_inv.
  unfold ret in E. injection E as <- <-. cbn [oc_order_id oc_payment_id].
  exists (set_order OrdPending (Some (co_payment_id co)) (o0 (ors_tenant os))), l, p.
  split; [apply lookup_insert_eq|]. by repeat (split; [done|]).
Qed.

(** ** Carts *)

Definition cart_items_of (d : Db) : gmap N CartItem := c_cart_items (d_commerce d).

(** One currency per cart, and at most 1000 of one product. *)
Record cart_ok (d : Db) : Prop := {
  co_currency : forall i j x y, cart_items_of d !! i = Some x -> cart_items_of d !! j = Some y ->
    ci_cart_id x = ci_cart_id y -> ci_tenant_id x = ci_tenant_id y -> ci_currency x = ci_currency y;
  co_quantity : forall i x, cart_items_of d !! i = Some x -> ci_quantity x <= MAX_LINE_QUANTITY }.

Definition cart_rel (d d' : Db) : Prop :=
  Keyed (R:=CartItem) d -> cart_ok d -> Keyed (R:=CartItem) d' /\ cart_ok d'.

#[export] Instance cart_rel_preorder : PreOrder cart_rel.
Proof.
  split.
  - intros d Hk Ho. done.
  - intros d1 d2 d3 H1 H2 Hk Ho. destruct (H1 Hk Ho). by apply H2.
Qed.

Lemma cart_rel_same d d' : cart_items_of d' = cart_items_of d -> cart_rel d d'.
Proof.
  intros E Hk [Hc Hq]. split.
  - intros i r Hi. apply Hk. unfold t_get in *. simpl in *. unfold cart_items_of in E. congruence.
  - split; rewrite E; done.
Qed.

#[export] Instance cart_rel_carts : Ignores cart_rel Cart.
Proof. intros d t. by apply cart_rel_same. Qed.
#[export] Instance cart_rel_subs : Ignores cart_rel Subscription.
Proof. intros d t. by apply cart_rel_same. Qed.
#[export] Instance cart_rel_pays : Ignores cart_rel Payment.
Proof. intros d t. by apply cart_rel_same. Qed.
#[export] Instance cart_rel_hooks : Ignores cart_rel PaymentWebhook.
Proof. intros d t. by apply cart_rel_same. Qed.
#[export] Instance cart_rel_audit : Ignores cart_rel AuditLog.
Proof. intros d t. by apply cart_rel_same. Qed.
#[export] Instance cart_rel_products : Ignores cart_rel Product.
Proof. intros d t. by apply cart_rel_same. Qed.
#[export] Instance cart_rel_orders : Ignores cart_rel Order.
Proof. intros d t. by apply cart_rel_same. Qed.
#[export] Instance cart_rel_order_items : Ignores cart_rel OrderItem.
Proof. intros d t. by apply cart_rel_same. Qed.
#[export] Instance cart_blind : ShopBlind cart_rel.
Proof. split; [split|..]; apply _. Qed.

Lemma items_of_inv cs cart p o s l s' :
  items_of cs cart p o s = (Ok l, s') ->
  s' = s /\ l = o (select (fun it => bool_decide (ci_tenant_id it = cs_tenant cs) &&
                       (bool_decide (ci_cart_id it = cart) && p it)) (cart_items_of (db s))).
Proof.
  intros E. unfold items_of, repo_find, repo_select in E. apply bind_inv_Ok in E as (l0 & s1 & Hq & E).
  unfold query, get_db, bind in Hq. destruct (aborted s); [done|]. unfold ret in *.
  injection Hq as <- <-. injection E as <- <-. done.
Qed.

(** Writing a line of the cart's currency and an allowed quantity. *)
Lemma cart_rel_put d tenant cart cur i x :
  (forall j y, cart_items_of d !! j = Some y -> ci_cart_id y = cart -> ci_tenant_id y = tenant ->
     j = i \/ ci_currency y = cur) ->
  ci_id x = i -> ci_cart_id x = cart -> ci_tenant_id x = tenant -> ci_currency x = cur ->
  ci_quantity x <= MAX_LINE_QUANTITY ->
  cart_rel d (t_set (<[i := x]> (cart_items_of d)) d).
Proof.
  intros Hall Hid Hcart Hten Hcur Hq Hk [Hc Hqs].
  assert (Hl : forall j y, cart_items_of (t_set (<[i := x]> (cart_items_of d)) d) !! j = Some y ->
            (j = i /\ y = x) \/ (j ≠ i /\ cart_items_of d !! j = Some y)).
  { intros j y. unfold cart_items_of at 1. simpl. rewrite lookup_insert. case_decide; naive_solver. }
  split.
  - intros j y Hy. destruct (Hl j y Hy) as [[-> ->]|[_ Hy']]; [done|]. by apply Hk.
  - split.
    + intros j k y z Hy Hz Hyz Ht. destruct (Hl _ _ Hy) as [[-> ->]|[Hj Hy']],
        (Hl _ _ Hz) as [[-> ->]|[Hk' Hz']]; [done| | |by eapply Hc].
      * destruct (Hall k z Hz') as [?|?]; congruence.
      * destruct (Hall j y Hy') as [?|?]; congruence.
    + intros j y Hy. destruct (Hl _ _ Hy) as [[-> ->]|[_ Hy']]; [done|by eapply Hqs].
Qed.

Lemma elem_of_items cs cart p d it :
  it ∈ select (fun it => bool_decide (ci_tenant_id it = cs_tenant cs) &&
                 (bool_decide (ci_cart_id it = cart) && p it)) (cart_items_of d) <->
  (exists j, cart_items_of d !! j = Some it) /\ ci_tenant_id it = cs_tenant cs /\
  ci_cart_id it = cart /\ p it = true.
Proof.
  rewrite elem_of_select, !andb_true_iff, !bool_decide_eq_true. tauto.
Qed.

Lemma evo_insert_at R `{!PreOrder R} {T} `{TenantTable T} t (mk : uuid -> T) s :
  R (db s) (t_put (mk t) (db s)) -> evo R s (repo_add t None mk s).2.
Proof.
  intros HR. unfold repo_add. erewrite bind_Ok by done.
  apply (rel_bind (evo R)); [|steps_walk]. unfold insert_row.
  destruct (aborted s); [reflexivity|].
  destruct (t_get (db s) !! t_id (mk t)); [apply (evo_intro R); (done || simpl; reflexivity)|].
  transitivity (st_db (t_put (mk t)) s); [by apply (evo_intro R)|apply (evo_flush R)].
Qed.

Lemma runs_add_item_cart cs pid q : steps (evo cart_rel) (add_item cs pid q).
Proof.
  unfold add_item. apply steps_bind; [apply _|steps_walk|intros price].
  apply steps_bind; [apply _|apply (runs_open_cart _); apply _|intros cart]. intros s.
  apply (rel_bind_post (evo cart_rel)); [apply (runs_items_of _)|]. intros existing s1 E1.
  apply items_of_inv in E1 as [-> Eex].
  apply (rel_bind_post (evo cart_rel)); [apply (runs_items_of _)|]. intros current s1 E2.
  apply items_of_inv in E2 as [-> Ecur]. unfold id in Eex, Ecur. cbv zeta.
  apply (rel_bind_post (evo cart_rel)); [apply (steps_guardM _)|]. intros [] s1 E3.
  apply (rel_bind_post (evo cart_rel)); [apply (steps_guardM _)|]. intros [] s2 E4.
  unfold guardM, ret, raise in E3, E4.
  destruct (match current with [] => false | _ => _ end) eqn:Eg; [done|]. assert (s1 = s) as -> by congruence.
  destruct (MAX_LINE_QUANTITY <? _) eqn:Eq; [done|]. assert (s2 = s) as -> by congruence.
  apply Z.ltb_ge in Eq.
  assert (Hcur : cart_ok (db s) -> forall j y, cart_items_of (db s) !! j = Some y ->
            ci_cart_id y = ca_id cart -> ci_tenant_id y = cs_tenant cs ->
            ci_currency y = m_currency price).
  { intros [Hc _] j y Hy Hcart Hten.
    assert (Hin : y ∈ current) by (rewrite Ecur; apply elem_of_items; eauto).
    destruct current as [|z rest]; [by apply elem_of_nil in Hin|].
    apply negb_false_iff, bool_decide_eq_true in Eg. rewrite <- Eg.
    assert (Hz : z ∈ z :: rest) by set_solver. rewrite Ecur in Hz.
    apply elem_of_items in Hz as ([k Hk] & Ht & Hca & _). apply (Hc j k y z); congruence. }
  apply (rel_bind (evo cart_rel)); [|intros _; apply (runs_cart_dto _)].
  destruct existing as [|it rest].
  - erewrite bind_Ok by apply new_uuid7_run. erewrite bind_Ok by apply now_run.
    transitivity (tick (drew_uuid s)); [by apply (evo_intro cart_rel)|].
    apply (rel_bind (evo cart_rel)); [|steps_walk]. apply (evo_insert_at cart_rel). simpl.
    intros Hkey Hok. rewrite Z.add_0_r in Eq.
    apply (cart_rel_put (db s) (cs_tenant cs) (ca_id cart) (m_currency price)); auto.
    intros j y Hy Hyc Hyt. right. by apply (Hcur Hok j y).
  - assert (Hit : it ∈ it :: rest) by set_solver. rewrite Eex in Hit.
    apply elem_of_items in Hit as ([k Hk] & Ht & Hca & _).
    apply (rel_bind (evo cart_rel)); [|steps_walk].
    apply (evo_intro cart_rel); [done| |done|done]. intros Hkey Hok.
    pose proof (Hkey _ _ Hk) as Hid. unfold t_id in Hid. simpl in Hid. rewrite Hid.
    unfold upd, modify. simpl. unfold cart_items_of in Hk. rewrite (alter_insert_Some _ k _ it Hk).
    apply (cart_rel_put (db s) (cs_tenant cs) (ca_id cart) (m_currency price)); auto.
    intros j y Hy Hyc Hyt. right. by apply (Hcur Hok j y).
Qed.

Lemma runs_remove_item_cart cs pid : steps (evo cart_rel) (remove_item cs pid).
Proof.
  unfold remove_item. apply steps_bind; [apply _|steps_walk|intros cart].
  apply steps_bind; [apply _|steps_walk|intros items]. destruct items as [|it rest]; [steps_walk|].
  apply steps_bind; [apply _| |steps_walk].
  unfold repo_delete. case_bool_decide; [|steps_walk]. intros s.
  apply (evo_intro cart_rel); [done| |done|done]. intros Hk [Hc Hq].
  assert (Hl : forall j y, cart_items_of (t_del (R:=CartItem) (t_id it) (db s)) !! j = Some y ->
            cart_items_of (db s) !! j = Some y).
  { intros j y Hy. unfold cart_items_of in Hy. simpl in Hy. by apply lookup_delete_Some in Hy as [_ Hy]. }
  split; [intros j y Hy; apply Hk; by apply Hl|].
  split; [intros i j x y Hx Hy; eapply Hc; by apply Hl|intros i x Hx; eapply Hq; by apply Hl].
Qed.

(** ** Settling an order *)

Definition with_order (i : uuid) (o : Order) (d : Db) : Db := t_set (<[i := o]> (orders_of d)) d.

Lemma healthy_with_order st i o o' :
  healthy st -> orders_of (db st) !! i = Some o -> order_identity o' = order_identity o ->
  healthy (st_db (with_order i o') st).
Proof.
  intros [Hok Hr Hopen Hk] Hi Hid. unfold order_identity in Hid.
  injection Hid as Hoi _ _ Ha _ _. pose proof (k_ord _ Hk _ _ Hi) as Hs.
  unfold with_order, orders_of in *. split; simpl; [| |done|].
  - unfold db_ok, commerce_ok in *. simpl. split_ok. join_ok; auto.
    + apply all_rows_insert; [done|]. rewrite Ha.
      match goal with H : all_rows (fun o => 0 <=? o_total_amount o) _ = true |- _ =>
        by apply all_rows_spec with (i:=i) (a:=o) in H end.
    + match goal with H : all_rows (fun x => _ && in_table _ (oi_order_id x)) _ = true |- _ =>
        eapply all_rows_impl; [|exact H] end.
      intros r. simpl. by erewrite in_table_insert_eq by exact Hi.
  - unfold db_ranges in *. simpl. split_ok. join_ok; auto. apply all_rows_insert; [done|]. rewrite Ha.
    match goal with H : all_rows (fun o => int64 (o_total_amount o)) _ = true |- _ =>
      by apply all_rows_spec with (i:=i) (a:=o) in H end.
  - destruct Hk. split; try done. intros j r. unfold t_get, t_id. simpl. rewrite lookup_insert.
    unfold t_id in Hs. simpl in Hs. case_decide; [naive_solver|auto].
Qed.

(** A late payment revives the canceled order it was made for. *)
Definition revives (pay : option uuid) (late : bool) (o : Order) : bool :=
  late && match pay with Some p => bool_decide (o_payment_id o = Some p) | None => false end.

Definition paid_order (pay : option uuid) (o : Order) : Order :=
  set_order OrdPaid (match pay with Some p => Some p | None => o_payment_id o end) o.

Lemma mark_paid_run os i pay late o s :
  healthy s -> orders_of (db s) !! i = Some o -> o_tenant_id o = ors_tenant os ->
  o_status o = OrdPending \/ (o_status o = OrdCanceled /\ revives pay late o = true) ->
  exists s', mark_paid os i pay late s = (Ok (Some (paid_order pay o)), s') /\ healthy s' /\
    db s' = with_order i (paid_order pay o) (db s).
Proof.
  intros Hh Ho Ht Hst. pose proof (k_ord _ (h_keyed _ Hh)) as Hk. pose proof (Hk _ _ Ho) as Hid.
  unfold t_id in Hid. simpl in Hid. unfold mark_paid.
  erewrite bind_Ok by (by apply repo_get_run; [apply Hh|]).
  change (t_get (db s)) with (orders_of (db s)). rewrite Ho.
  change (t_tenant o) with (o_tenant_id o). rewrite bool_decide_true by done. cbv beta iota.
  rewrite bool_decide_false by (destruct Hst as [?|[? _]]; congruence).
  destruct (bool_decide (o_status o = OrdCanceled) && negb _) eqn:Eg.
  { exfalso. destruct Hst as [Hp|[_ Hr]]; [by rewrite Hp in Eg|].
    unfold revives in Hr. rewrite Hr in Eg. by rewrite andb_false_r in Eg. }
  cbv zeta. rewrite Hid.
  set (s1 := st_db (with_order i (paid_order pay o)) s).
  assert (Hh1 : healthy s1) by (by eapply healthy_with_order).
  erewrite bind_Ok by (by apply (upd_run s i o)).
  change (st_db _ s) with s1. erewrite bind_Ok by (by apply healthy_flush).
  erewrite bind_Ok by (by apply emit_run).
  set (s2 := emitted _ _ _ _ s1). assert (D2 : db s2 = db s1) by apply emitted_db.
  exists s2. split; [|split; [by apply healthy_emitted|exact D2]].
  erewrite bind_Ok; [reflexivity|]. unfold load. rewrite D2.
  change (t_get (db s1)) with (<[i := paid_order pay o]> (orders_of (db s))).
  by rewrite lookup_insert_eq.
Qed.

Lemma mark_paid_refused os i pay late o s :
  healthy s -> orders_of (db s) !! i = Some o -> o_tenant_id o = ors_tenant os ->
  o_status o = OrdPaid \/ (o_status o = OrdCanceled /\ revives pay late o = false) ->
  mark_paid os i pay late s =
  (Ok (if bool_decide (o_status o = OrdPaid) then Some o else None), s).
Proof.
  intros Hh Ho Ht Hst. unfold mark_paid.
  erewrite bind_Ok by (by apply repo_get_run; [apply Hh|apply (k_ord _ (h_keyed _ Hh))]).
  change (t_get (db s)) with (orders_of (db s)). rewrite Ho.
  change (t_tenant o) with (o_tenant_id o). rewrite bool_decide_true by done. cbv beta iota.
  destruct Hst as [Hp|[Hc Hr]]; [by rewrite bool_decide_true|].
  rewrite bool_decide_false by congruence. rewrite (bool_decide_true (o_status o = OrdCanceled)) by done.
  unfold revives in Hr. by rewrite Hr.
Qed.
