(* ===== verification/Bodies.v ===== *)
(** Bodies of units of work and what they do to the committed database: one
    notion for all the relations the system keeps. *)

From stdpp Require Import base strings gmap list relations.
From Stdlib Require Import ZArith Lia Ascii.
From S2P Require Import Prelude Errors PyLib Calendar Entities Models Events Session SessionFacts.
From S2P Require Import Footprints Access Journal Accounts AccountsFacts Tenants TenantsFacts.
From S2P Require Import Templates Notices NoticeFacts Ports Payments PayFacts DbFacts.
From S2P Require Import Billing Webhooks Commerce CommerceFacts Frames OrderFacts.

(** ** Who ignores what *)

#[export] Instance pay_core : CoreBlind pay_evo.
Proof. apply core_blind; [apply _|]. intros f d. by apply pay_evo_same. Qed.
#[export] Instance order_core : CoreBlind order_rel.
Proof. apply core_blind; [apply _|]. intros f d. by apply order_rel_same. Qed.
#[export] Instance cart_core : CoreBlind cart_rel.
Proof. apply core_blind; [apply _|]. intros f d. by apply cart_rel_same. Qed.
#[export] Instance keyed_core : CoreBlind keyed_evo.
Proof. split; try apply _; [split; apply _| |split; apply _]. intros d f []. by split. Qed.

#[export] Instance pay_notices : NoticesFree pay_evo.
Proof. intros f d. by apply pay_evo_same. Qed.
#[export] Instance order_notices : NoticesFree order_rel.
Proof. intros f d. by apply order_rel_same. Qed.
#[export] Instance cart_notices : NoticesFree cart_rel.
Proof. intros f d. by apply cart_rel_same. Qed.
#[export] Instance seats_notices : NoticesFree seats_evo.
Proof. intros f d. by apply seats_evo_same. Qed.

(** The owner's seat does not depend on other tables. *)
#[export] Instance seats_plans : Ignores seats_evo Plan.
Proof. intros d t. by apply seats_evo_same. Qed.
#[export] Instance seats_subs : Ignores seats_evo Subscription.
Proof. intros d t. by apply seats_evo_same. Qed.
#[export] Instance seats_pays : Ignores seats_evo Payment.
Proof. intros d t. by apply seats_evo_same. Qed.
#[export] Instance seats_hooks : Ignores seats_evo PaymentWebhook.
Proof. intros d t. by apply seats_evo_same. Qed.
#[export] Instance seats_products : Ignores seats_evo Product.
Proof. intros d t. by apply seats_evo_same. Qed.
#[export] Instance seats_carts : Ignores seats_evo Cart.
Proof. intros d t. by apply seats_evo_same. Qed.
#[export] Instance seats_cart_items : Ignores seats_evo CartItem.
Proof. intros d t. by apply seats_evo_same. Qed.
#[export] Instance seats_orders : Ignores seats_evo Order.
Proof. intros d t. by apply seats_evo_same. Qed.
#[export] Instance seats_order_items : Ignores seats_evo OrderItem.
Proof. intros d t. by apply seats_evo_same. Qed.
#[export] Instance seats_shop : ShopBlind seats_evo.
Proof. split; [split|..]; apply _. Qed.
#[export] Instance seats_settings : Ignores seats_evo NotificationSetting.
Proof. intros d t. by apply seats_evo_same. Qed.
#[export] Instance seats_outbox : Ignores seats_evo NotificationOutbox.
Proof. intros d t. by apply seats_evo_same. Qed.
#[export] Instance seats_accounts : AccountsBlind seats_evo.
Proof. split; apply ignores_tolerates; intros d t; by apply seats_evo_same. Qed.
#[export] Instance seats_features : FeatureBlind seats_evo.
Proof. split; apply ignores_tolerates; intros d t; by apply seats_evo_same. Qed.

(** ** Committed states *)

(** [kept P R]: where [P] holds of the environment, what is committed evolves
    by [R]. *)
Definition kept (P : Env -> Prop) (R : Db -> Db -> Prop) (s s' : St) : Prop :=
  env s' = env s /\ (P (env s) -> R (committed s) (committed s')).

#[export] Instance kept_preorder P R `{!PreOrder R} : PreOrder (kept P R).
Proof.
  split.
  - intros s. split; [done|]. intros _. reflexivity.
  - intros s1 s2 s3 [E1 H1] [E2 H2]. rewrite E1 in H2. split; [congruence|].
    intros HP. etransitivity; eauto.
Qed.

Lemma kept_closes {A} P R `{!PreOrder R} (body : SM A) :
  closes P R body -> steps (kept P R) (with_uow body).
Proof.
  intros Hb s. split; [|apply (uow_closes P R body s Hb)].
  destruct (Hb (uow_enter s)) as [He _]. unfold with_uow, bind.
  destruct (body (uow_enter s)) as [[a|e] s1]; simpl in *; [|done].
  unfold session_commit, bind. destruct (flush s1) as [[u|e] s2] eqn:Ef;
    apply flush_inv in Ef as (_ & _ & E2 & _); simpl; by rewrite E2.
Qed.

(** ** Soundness *)

(** The constraints hold and rows are under their primary keys. *)
Definition sound (d : Db) : Prop := db_ok d = true /\ db_ranges d = true /\ keyed d.
Definition stays_sound (d d' : Db) : Prop := sound d -> sound d'.
#[export] Instance stays_sound_preorder : PreOrder stays_sound.
Proof. split; [intros x|intros x y z]; unfold stays_sound; tauto. Qed.

(** What is committed is sound and the session's rows are under their keys. *)
Definition sane (s : St) : Prop := sound (committed s) /\ keyed (db s).
Definition stays_sane (s s' : St) : Prop := env s' = env s /\ (sane s -> sane s').
#[export] Instance stays_sane_preorder : PreOrder stays_sane.
Proof.
  split; unfold stays_sane; [done|]. intros x y z [E1 H1] [E2 H2]. split; [congruence|tauto].
Qed.
#[export] Instance sane_stmt : Stmt keyed_evo stays_sane.
Proof.
  split; [apply _..|]. intros s s' He Hc _ _ _ Hd. split; [done|]. unfold sane. rewrite Hc.
  intros [? ?]. split; [done|]. by apply Hd.
Qed.
#[export] Instance sane_loose : Loose stays_sane.
Proof.
  intros s s' (He & Hd & Hc & _). split; [done|]. unfold sane. by rewrite Hc, Hd.
Qed.

Lemma commit_sane s : keyed (db s) -> sound (committed s) -> sound (committed (session_commit s).2).
Proof.
  intros Hk Hc. unfold session_commit, bind. destruct (flush s) as [[u|e] s'] eqn:Ef.
  - apply flush_inv in Ef as (_ & _ & _ & -> & _ & Hr & Ho). by split.
  - apply flush_inv in Ef as (_ & E2 & _). simpl. by rewrite E2.
Qed.
Lemma commit_frame s :
  env (session_commit s).2 = env s /\ db (session_commit s).2 = db s.
Proof.
  unfold session_commit, bind. destruct (flush s) as [[u|e] s'] eqn:Ef;
    apply flush_inv in Ef as (E1 & _ & E3 & _); simpl; by rewrite ?E1, ?E3.
Qed.

#[export] Instance sane_committing : Committing stays_sane.
Proof.
  split.
  - intros s. destruct (commit_frame s) as [He Hd]. split; [done|]. intros [Hc Hk]. split.
    + by apply commit_sane.
    + by rewrite Hd.
  - intros ctx n p. unfold emit_now. apply steps_bind; [apply _|apply (stmt_envelope _)|].
    intros e. apply steps_bind; [apply _| |steps_walk]. by intros s.
Qed.

(** A body after which a commit is sound: what it committed on the way is. *)
Definition closes_sound {A} (body : SM A) : Prop := forall s,
  env (body s).2 = env s /\
  (no_rivals (env s) -> sane s ->
     sound (committed (body s).2) /\ forall a, (body s).1 = Ok a -> keyed (db (body s).2)).

Lemma sound_sane {A} (body : SM A) : steps stays_sane body -> closes_sound body.
Proof. intros H s. destruct (H s) as [He Hs]. split; [done|]. intros _ H1. by destruct (Hs H1). Qed.

Lemma sound_evo {A} (body : SM A) : steps (evo keyed_evo) body -> closes_sound body.
Proof.
  intros H s. destruct (H s) as (He & Hd & Hc & _). split; [done|]. intros Hn [Hs Hk].
  rewrite (Hc Hn). split; [done|]. intros a _. apply Hd; [|done]. intros k d. by rewrite Hn.
Qed.

Lemma sound_bind {A B} (m : SM A) (k : A -> SM B) :
  steps stays_sane m -> (forall a, closes_sound (k a)) -> closes_sound (bind m k).
Proof.
  intros Hm Hk s. destruct (Hm s) as [He Hs]. unfold bind.
  destruct (m s) as [[a|e] s1]; simpl in *.
  - destruct (Hk a s1) as [He' H]. rewrite He in *. split; [done|]. intros Hn H1. by apply H, Hs.
  - split; [done|]. intros _ H1. destruct (Hs H1). by split.
Qed.

Lemma uow_sound {A} (body : SM A) :
  closes_sound body -> steps (kept no_rivals stays_sound) (with_uow body).
Proof.
  intros Hb s. destruct (Hb (uow_enter s)) as [He H]. split.
  - unfold with_uow, bind. destruct (body (uow_enter s)) as [[a|e] s1]; simpl in *; [|done].
    destruct (commit_frame s1) as [E _]. destruct (session_commit s1) as [[u|e] s2]; simpl in *; congruence.
  - intros Hn Hs. destruct (H Hn) as [Hc Hd]; [split; [done|]; by destruct Hs as (_ & _ & ?)|].
    unfold with_uow, bind. destruct (body (uow_enter s)) as [[a|e] s1]; simpl in *; [|done].
    pose proof (commit_sane s1 (Hd a eq_refl) Hc) as Hx.
    destruct (session_commit s1) as [[u|e] s2]; simpl in *; done.
Qed.

(** ** Every unit of work

    Payments move along the machine, carts stay in bounds; alone, orders live
    as they should and every tenant keeps an owner. *)
Definition fine (s s' : St) : Prop :=
  evo pay_evo s s' /\ evo keyed_evo s s' /\ evo cart_rel s s' /\
  (no_rivals (env s) -> evo order_rel s s' /\ evo seats_evo s s').

#[export] Instance fine_preorder : PreOrder fine.
Proof.
  split.
  - intros s. split; [reflexivity|]. split; [reflexivity|]. split; [reflexivity|].
    intros _. split; reflexivity.
  - intros s1 s2 s3 (P1 & K1 & C1 & O1) (P2 & K2 & C2 & O2). split; [by etransitivity|].
    split; [by etransitivity|]. split; [by etransitivity|]. intros Hr.
    destruct (O1 Hr) as [A1 B1]. destruct O2 as [A2 B2]; [by destruct P1 as [-> _]|].
    split; by etransitivity.
Qed.

Lemma fine_of {A} (m : SM A) :
  steps (evo pay_evo) m -> steps (evo keyed_evo) m -> steps (evo cart_rel) m ->
  steps (evo order_rel) m -> steps (evo seats_evo) m -> steps fine m.
Proof.
  intros Hp Hk Hc Ho Hs s. split; [apply Hp|]. split; [apply Hk|]. split; [apply Hc|].
  intros _. split; [apply Ho|apply Hs].
Qed.

Lemma quiet_fine s s' : quiet s s' -> fine s s'.
Proof.
  intros H. split; [by apply (quiet_evo _)|]. split; [by apply (quiet_evo _)|].
  split; [by apply (quiet_evo _)|]. intros _. split; by apply (quiet_evo _).
Qed.
Lemma fine_quiet {A} (m : SM A) : steps quiet m -> steps fine m.
Proof. intros H s. by apply quiet_fine. Qed.

(** A write outside the tables of payments, orders, carts and tenants. *)
Lemma fine_modify f :
  (forall d, payments_of (f d) = payments_of d /\ orders_of (f d) = orders_of d /\
             cart_items_of (f d) = cart_items_of d /\ tenants_of (f d) = tenants_of d /\
             keyed_evo d (f d)) -> steps fine (modify (E:=exn) (st_db f)).
Proof.
  intros Hf. apply fine_of; intros s; destruct (Hf (db s)) as (H1 & H2 & H3 & H4 & H5).
  - apply (evo_intro pay_evo); [done|by apply pay_evo_same|done|done].
  - by apply (evo_intro keyed_evo).
  - apply (evo_intro cart_rel); [done|by apply cart_rel_same|done|done].
  - apply (evo_intro order_rel); [done|by apply order_rel_same|done|done].
  - apply (evo_intro seats_evo); [done| |done|done].
    by apply seats_evo_same; unfold members_of, roles_of, tenant_rows; simpl; rewrite H4.
Qed.

(** What the system needs of the body of a unit of work. *)
Record good {A} (body : SM A) : Prop := {
  good_pay : closes (RivalOk pay_evo) pay_evo body;
  good_carts : closes (RivalOk cart_rel) cart_rel body;
  good_orders : closes no_rivals order_rel body;
  good_seats : closes no_rivals seats_evo body;
  good_sound : closes_sound body }.

Lemma alone_rivals R `{!PreOrder R} en : no_rivals en -> RivalOk R en.
Proof. intros H k d. by rewrite H. Qed.

Lemma fine_good {A} (body : SM A) : steps fine body -> good body.
Proof.
  intros H. assert (He : forall s, env (body s).2 = env s) by (intros s; by destruct (H s) as [[? _] _]).
  split.
  - apply closes_evo; [apply _|done..|]. intros s _. by destruct (H s).
  - apply closes_evo; [apply _|done..|]. intros s _. by destruct (H s) as (_ & _ & ? & _).
  - apply closes_evo; [apply _|apply (alone_rivals _)|done|]. intros s Hn.
    destruct (H s) as (_ & _ & _ & Ho). by destruct (Ho Hn).
  - apply closes_evo; [apply _|apply (alone_rivals _)|done|]. intros s Hn.
    destruct (H s) as (_ & _ & _ & Ho). by destruct (Ho Hn).
  - apply sound_evo. intros s. by destruct (H s) as (_ & ? & _).
Qed.

(** ** Bodies that commit on their way *)

Lemma good_phase {A} (body : SM A) :
  (forall R, PreOrder R -> AccountsBlind R -> NoticesFree R -> steps (phase R) body) ->
  closes_sound body -> good body.
Proof.
  intros H Hs. split; [..|done]; apply closes_phase; try apply _; try done;
    try apply (alone_rivals _); apply H; apply _.
Qed.

Lemma good_direct {A} (body : SM A) :
  (forall R, PreOrder R -> AccountsBlind R -> NoticesFree R -> steps (direct R) body) ->
  steps stays_sane body -> good body.
Proof.
  intros H Hs. apply good_phase; [|by apply sound_sane]. intros R HR HA HN.
  apply phase_steps_direct; [done|]. by apply H.
Qed.

(** A transaction of its own that writes notices. *)
Lemma keyed_see_notices c d : keyed c -> keyed d -> keyed (see_notices c d).
Proof. intros [] []. by split. Qed.

Lemma sane_own {A} (body : SM A) : steps stays_sane body -> steps stays_sane (own_uow see_notices body).
Proof.
  intros Hb s. destruct (Hb (uow_enter s)) as [He Hs]. unfold own_uow, with_uow, bind.
  assert (Hx : sane s -> sane (uow_enter s)).
  { intros [Hc _]. split; [done|]. by destruct Hc as (_ & _ & ?). }
  destruct (body (uow_enter s)) as [[a|e] s1]; simpl in *.
  - pose proof (commit_frame s1) as [E1 E2]. pose proof (commit_sane s1) as Hc.
    destruct (session_commit s1) as [[u|e] s2]; simpl in *; (split; [simpl; congruence|]); intros H1;
      destruct (Hs (Hx H1)) as [H2 H3]; specialize (Hc H3 H2); (split; [done|]);
      (apply keyed_see_notices; [by destruct Hc as (_ & _ & ?)|by destruct H1]).
  - split; [done|]. intros H1. destruct (Hs (Hx H1)) as [H2 H3]. split; [done|].
    apply keyed_see_notices; [by destruct H2 as (_ & _ & ?)|by destruct H1].
Qed.

Lemma sane_reset_mail lib reg e l u t : steps stays_sane (password_reset_mailer lib reg e l u t).
Proof.
  unfold password_reset_mailer. stmt_walk. apply sane_own. apply (runs_send stays_sane). by left.
Qed.

(** ** Accounts *)

Lemma good_authenticate self e p ip ua : good (auth_authenticate self e p ip ua).
Proof.
  apply good_direct; [intros R HR HA _; apply (runs_authenticate (direct R))
                     |apply (runs_authenticate stays_sane)].
Qed.
Lemma good_refresh self tok : good (auth_refresh self tok).
Proof.
  apply good_phase; [intros R HR HA _; by apply phase_refresh|].
  unfold auth_refresh. apply sound_bind; [apply (runs_admit stays_sane)|]. intros [row u].
  apply sound_evo, evo_refresh_rotate; apply _.
Qed.
Lemma good_request_reset lib reg ctx al st e :
  good (auth_request_password_reset (mkAuth ctx al st (password_reset_mailer lib reg)) e).
Proof.
  apply good_direct.
  - intros R HR HA HN. apply (runs_request_reset (direct R)). intros. by apply direct_reset_mail.
  - apply (runs_request_reset stays_sane). intros. apply sane_reset_mail.
Qed.

(** ** Tenants *)

Lemma good_create_tenant self n sl : good (create_tenant self n sl).
Proof.
  assert (H : forall R, PreOrder R -> CoreBlind R -> steps (evo R) (create_tenant self n sl))
    by (intros; by apply runs_create_tenant).
  split.
  - apply closes_phase; [done|]. apply phase_steps_evo; [apply _|]. apply H; apply _.
  - apply closes_phase; [done|]. apply phase_steps_evo; [apply _|]. apply H; apply _.
  - apply closes_phase; [apply (alone_rivals _)|]. apply phase_steps_evo; [apply _|].
    apply H; apply _.
  - apply create_tenant_closes.
  - apply sound_evo, H; apply _.
Qed.

Lemma fine_tenants {A} (m : SM A) :
  (forall R, PreOrder R -> CoreBlind R -> Tolerates R AuditLog -> steps (evo R) m) ->
  (forall s, no_rivals (env s) -> evo seats_evo s (m s).2) -> steps fine m.
Proof.
  intros H Hs s. split; [by apply H; apply _|]. split; [by apply H; apply _|].
  split; [by apply H; apply _|]. intros Hn. split; [by apply H; apply _|by apply Hs].
Qed.
