(* ===== verification/Routes.v ===== *)
(** HTTP endpoints: src/core/auth/router.py, src/core/tenants/router.py,
    src/core/billing/api.py, deps.py and the routers and deps of
    src/modules/commerce. A route is one unit of work: its marker runs
    first, then the dependencies build the service, then the body is
    validated (a failure is answered 422), then the service is called. *)

From stdpp Require Import base strings gmap list.
From Stdlib Require Import ZArith Lia Ascii.
From S2P Require Import Prelude Errors PyLib Calendar Entities Models Events Session Access Journal Ports.
From S2P Require Import Accounts Deps Tenants Templates Notices Channels Dispatch.
From S2P Require Import Payments Billing Webhooks Storage Commerce.

(** ** Settings of the feature modules *)

Record SaasSettings : Set := mkSaasSettings {
  saas_usage_retention_days : Z; saas_onboarding_steps : string }.
Definition saas_onboarding_step_list (self : SaasSettings) : list string :=
  split_csv (saas_onboarding_steps self).

Record CrmSettings : Set := mkCrmSettings { crm_deal_stages : string; crm_activity_types : string }.
Definition crm_deal_stage_list (self : CrmSettings) : list string := split_csv (crm_deal_stages self).
Definition crm_activity_type_list (self : CrmSettings) : list string :=
  split_csv (crm_activity_types self).

(** ** What the lifespan puts into the application state *)

Record App : Type := mkApp {
  app_settings : Settings;
  app_providers : list (string * PaymentProvider);
  app_currencies : CurrencyRegistry;
  app_audit_days : Z;
  app_processed_days : Z;
  app_auth_lib : AuthLib;
  app_auth_settings : AuthSettings;
  app_ip_address : string -> bool;
  app_notice_lib : NoticeLib;
  app_templates : TemplateRegistry;
  app_dispatch : DispatchSettings;
  app_channels : list (string * NotificationChannel);
  app_invitation_url : string;
  app_enabled_modules : string;
  app_saas : SaasSettings;
  app_crm : CrmSettings;
  app_files : FilesSettings;
  app_storage : StoragePort;
  app_thumbnailer : ThumbnailPort }.

Definition enabled_module_list (app : App) : list string := split_csv (app_enabled_modules app).

(** [_open_bundle]: the services of a request, on its unit of work. *)
Definition app_tenants (app : App) (ctx : TenantContext) : TenantService :=
  mkTenantService ctx
    (Some (invitation_mailer (app_notice_lib app) (app_templates app) (app_invitation_url app))).
Definition app_auth (app : App) (ctx : TenantContext) : AuthService :=
  mkAuth ctx (app_auth_lib app) (app_auth_settings app)
    (password_reset_mailer (app_notice_lib app) (app_templates app)).
Definition app_access (app : App) (ctx : TenantContext) : Resolver :=
  get_permission_codes (app_tenants app ctx).
Definition app_shop_active (app : App) (ctx : TenantContext) : SM bool :=
  current_tenant_is_active (app_tenants app ctx).

(** The services subscribers call. *)
Definition app_send (app : App) : Send := send_notice (app_notice_lib app) (app_templates app).
Definition app_owner (app : App) : OwnerOf := get_owner_user_id.

Definition app_processor (app : App) : WebhookProcessor :=
  mkProcessor (app_providers app) (app_settings app).

(** [require_permission(code)] on a route *)
Definition require_permission (app : App) (ctx : TenantContext) (code : string) : SM unit :=
  match c_tenant_id ctx, a_id (c_actor ctx) with
  | Some _, Some aid =>
      match uuid_parse aid with
      | Some u => access_require (app_access app ctx) u code
      | None => raise EValue
      end
  | _, _ => raise (EDomain PermissionDeniedError "tenant-scoped access token required")
  end.

(** [billing_services] *)
Definition billing_services (app : App) (ctx : TenantContext) : SM BillingService :=
  payments <- new_payment_service ctx (app_providers app) (app_settings app)
                (Some (app_access app ctx)) ;;
  new_billing_service ctx payments (Some (app_access app ctx)).

(** [product_service] (staff) *)
Definition product_service (app : App) (ctx : TenantContext) : SM ProductService :=
  new_product_service ctx (Some (app_access app ctx)) (app_currencies app).

(** [storefront_bundle]: a suspended or unknown shop has no storefront. *)
Definition storefront (app : App) (ctx : TenantContext) : SM unit :=
  active <- app_shop_active app ctx ;;
  if (active : bool) then ret tt else raise (EDomain NotFoundError "shop not found").

(** [order_service] (storefront) *)
Definition order_service (app : App) (ctx : TenantContext) : SM OrderService :=
  products <- new_product_service ctx None (app_currencies app) ;;
  payments <- new_payment_service ctx (app_providers app) (app_settings app) None ;;
  new_order_service ctx (Some products) (Some payments) None.

(** [cart_service] *)
Definition cart_service (app : App) (ctx : TenantContext) : SM CartService :=
  orders <- order_service app ctx ;;
  products <- new_product_service ctx None (app_currencies app) ;;
  new_cart_service ctx products (Some orders).

(** ** Request bodies

    pydantic's length and range constraints. *)

Definition EValidation : exn := EOther "RequestValidationError".

Definition len_in (lo hi : nat) (s : string) : bool :=
  Nat.leb lo (String.length s) && Nat.leb (String.length s) hi.
Definition opt_ok {A} (p : A -> bool) (o : option A) : bool :=
  match o with Some a => p a | None => true end.

Record StartSubscriptionIn : Set := mkStartIn { si_plan_code : string; si_provider : string }.

Record CreateProductIn : Set := mkCreateIn {
  cp_sku : string; cp_name : string; cp_description : option string; cp_price_amount : Z;
  cp_currency : string }.
Definition create_product_in_ok (b : CreateProductIn) : bool :=
  len_in 1 64 (cp_sku b) && len_in 1 200 (cp_name b) && opt_ok (len_in 0 2000) (cp_description b)
  && (0 <=? cp_price_amount b)%Z && len_in 3 3 (cp_currency b).

Record UpdateProductIn : Set := mkUpdateIn {
  up_name : option string; up_description : option string; up_price_amount : option Z;
  up_currency : option string }.
Definition update_product_in_ok (b : UpdateProductIn) : bool :=
  opt_ok (len_in 1 200) (up_name b) && opt_ok (len_in 0 2000) (up_description b)
  && opt_ok (Z.leb 0) (up_price_amount b) && opt_ok (len_in 3 3) (up_currency b).

Definition quantity_ok (q : Z) : bool := (1 <=? q)%Z && (q <=? 1000)%Z.

Record PlaceOrderIn : Set := mkPlaceIn { po_provider : string; po_items : list OrderLineIn }.
Definition place_order_in_ok (b : PlaceOrderIn) : bool :=
  len_in 1 32 (po_provider b)
  && Nat.leb 1 (length (po_items b)) && Nat.leb (length (po_items b)) 100
  && forallb (fun l => quantity_ok (ln_quantity l)) (po_items b).

Record AddItemIn : Set := mkAddIn { ai_product_id : uuid; ai_quantity : Z }.
Record CheckoutIn : Set := mkCheckoutIn { ck_provider : string }.

(** [limit: int = Query(ge=1, le=MAX_PAGE_LIMIT)], [offset: int = Query(ge=0)] *)
Definition page_query_ok (limit offset : Z) : bool :=
  (1 <=? limit)%Z && (limit <=? MAX_PAGE_LIMIT)%Z && (0 <=? offset)%Z.

(** ** Staff endpoints *)

Section Staff.
Context (app : App) (ctx : TenantContext).

(** A route under [require_permission(code)]: the service, the body's check,
    the call. *)
Definition staff_body {S A} (code : string) (service : SM S) (valid : bool) (call : S -> SM A)
    : SM A :=
  require_permission app ctx code ;;;
  svc_ <- service ;;
  guardM (negb valid) EValidation ;;;
  call svc_.
Definition staff_route {S A} (code : string) (service : SM S) (valid : bool) (call : S -> SM A)
    : SM A :=
  with_uow (staff_body code service valid call).

Definition list_plans_route : SM (list PlanDTO) :=
  staff_route PLAN_READ (billing_services app ctx) true list_plans.
Definition list_providers_route : SM (list PaymentProviderInfo) :=
  staff_route PLAN_READ (billing_services app ctx) true (fun b => list_providers (bs_payments b)).
Definition get_subscription_route : SM (option SubscriptionDTO) :=
  staff_route SUBSCRIPTION_READ (billing_services app ctx) true get_subscription.
Definition start_subscription_route (body : StartSubscriptionIn) : SM CheckoutDTO :=
  staff_route SUBSCRIPTION_MANAGE (billing_services app ctx) true (fun b =>
    start_subscription b (si_plan_code body) (si_provider body)).
Definition cancel_subscription_route : SM SubscriptionDTO :=
  staff_route SUBSCRIPTION_MANAGE (billing_services app ctx) true cancel_subscription.

Definition list_products_route (limit offset : Z) : SM (PageResult Product) :=
  staff_route PRODUCT_READ (product_service app ctx) (page_query_ok limit offset) (fun p =>
    page <- lift_res (new_page limit offset) ;; product_list p page).
Definition create_product_route (body : CreateProductIn) : SM Product :=
  staff_route PRODUCT_CREATE (product_service app ctx) (create_product_in_ok body) (fun p =>
    product_create p (cp_sku body) (cp_name body) (cp_price_amount body) (cp_currency body)
      (cp_description body)).
Definition get_product_route (product_id : uuid) : SM Product :=
  staff_route PRODUCT_READ (product_service app ctx) true (fun p => product_get p product_id).
Definition update_product_route (product_id : uuid) (body : UpdateProductIn) : SM Product :=
  staff_route PRODUCT_UPDATE (product_service app ctx) (update_product_in_ok body) (fun p =>
    product_update p product_id (up_name body) (up_description body) (up_price_amount body)
      (up_currency body)).
Definition archive_product_route (product_id : uuid) : SM Product :=
  staff_route PRODUCT_UPDATE (product_service app ctx) true (fun p => product_archive p product_id).
End Staff.

(** ** Storefront endpoints *)

Section Storefront.
Context (app : App) (ctx : TenantContext).

Definition buyer_route {S A} (service : SM S) (valid : bool) (call : S -> SM A) : SM A :=
  with_uow (
    storefront app ctx ;;;
    svc_ <- service ;;
    guardM (negb valid) EValidation ;;;
    call svc_).

Definition place_order_route (body : PlaceOrderIn) : SM OrderCheckoutDTO :=
  buyer_route (order_service app ctx) (place_order_in_ok body) (fun o =>
    place_order o (po_items body) (po_provider body)).
Definition list_my_orders_route (limit offset : Z) : SM (PageResult OrderDTO) :=
  buyer_route (order_service app ctx) (page_query_ok limit offset) (fun o =>
    page <- lift_res (new_page limit offset) ;; list_own o page).
Definition get_my_order_route (order_id : uuid) : SM OrderDTO :=
  buyer_route (order_service app ctx) true (fun o => get_own o order_id).

Definition get_cart_route : SM CartDTO :=
  buyer_route (cart_service app ctx) true get_cart.
Definition add_item_route (body : AddItemIn) : SM CartDTO :=
  buyer_route (cart_service app ctx) (quantity_ok (ai_quantity body)) (fun c =>
    add_item c (ai_product_id body) (ai_quantity body)).
Definition remove_item_route (product_id : uuid) : SM CartDTO :=
  buyer_route (cart_service app ctx) true (fun c => remove_item c product_id).
Definition checkout_route (body : CheckoutIn) : SM OrderCheckoutDTO :=
  buyer_route (cart_service app ctx) (len_in 1 32 (ck_provider body)) (fun c =>
    checkout c (ck_provider body)).
End Storefront.

(** ** Accounts: src/core/auth/router.py *)

Section Accounts.
Context (app : App) (http : HttpRequest).

Definition caller (require_auth : bool) : res exn TenantContext :=
  context_from_request (app_auth_lib app) (app_auth_settings app) require_auth http.
Definition caller_ip : option string := rq_ip (request_context (app_ip_address app) http).

(** [public_bundle], [authed_bundle]: the context, then a unit of work. *)
Definition bundle_route {A} (require_auth : bool) (call : TenantContext -> SM A) : SM A :=
  ctx <- lift_res (caller require_auth) ;; with_uow (call ctx).
Definition auth_route {A} (require_auth : bool) (call : AuthService -> SM A) : SM A :=
  bundle_route require_auth (fun ctx => call (app_auth app ctx)).
Definition tenant_route {A} (call : TenantService -> SM A) : SM A :=
  bundle_route true (fun ctx => call (app_tenants app ctx)).

Definition register_route (email password locale : string) : SM UserDTO :=
  auth_route false (fun a => auth_register a email password locale caller_ip).
Definition login_route (email password : string) : SM LoginResult :=
  auth_route false (fun a => auth_authenticate a email password caller_ip (hr_user_agent http)).
Definition verify_two_factor_route (challenge_token code : string) : SM TokenPair :=
  auth_route false (fun a => auth_complete_two_factor a challenge_token code).
Definition refresh_route (refresh_token : string) : SM TokenPair :=
  auth_route false (fun a => auth_refresh a refresh_token).
Definition request_password_reset_route (email : string) : SM unit :=
  auth_route false (fun a => auth_request_password_reset a email).
Definition reset_password_route (reset_token new_password : string) : SM unit :=
  auth_route false (fun a => auth_reset_password a reset_token new_password).
Definition me_route : SM UserDTO :=
  bundle_route true (fun ctx => u <- bundle_user_id ctx ;; auth_get_user u).
Definition logout_route (refresh_token : string) : SM unit :=
  auth_route true (fun _ => auth_logout refresh_token).
Definition change_password_route (current_password new_password : string) : SM unit :=
  auth_route true (fun a => auth_change_password a current_password new_password).
Definition enable_two_factor_route : SM TotpSetup := auth_route true auth_enable_totp.
Definition confirm_two_factor_route (code : string) : SM (list string) :=
  auth_route true (fun a => auth_confirm_totp a code).
Definition disable_two_factor_route (code : string) : SM unit :=
  auth_route true (fun a => auth_disable_totp a code).

(** [select_tenant] *)
Definition select_tenant_route (tenant_id : uuid) : SM AccessToken :=
  bundle_route true (fun ctx =>
    u <- bundle_user_id ctx ;;
    member <- has_active_membership tenant_id u ;;
    if negb member
    then raise (EDomain PermissionDeniedError "not an active member of an active tenant")
    else auth_issue_tenant_token (app_auth app ctx) tenant_id).

(** ** Tenants: src/core/tenants/router.py *)

Definition create_tenant_route (name slug : string) : SM TenantDTO :=
  tenant_route (fun t => create_tenant t name slug).
Definition list_my_tenants_route : SM (list TenantDTO) := tenant_route list_user_tenants.

(** The caller's address is read in a session of its own, which sees the same
    rows. *)
Definition accept_invitation_route (invitation_token : string) : SM MembershipDTO :=
  bundle_route true (fun ctx =>
    u <- bundle_user_id ctx ;;
    profile <- auth_get_user u ;;
    accept_invitation (app_tenants app ctx) invitation_token (ud_email profile)).

(** A route under [require_permission(code)]. *)
Definition member_route {A} (code : string) (call : TenantService -> SM A) : SM A :=
  bundle_route true (fun ctx =>
    require_permission app ctx code ;;; call (app_tenants app ctx)).

Definition get_current_tenant_route : SM TenantDTO := member_route TENANT_READ get_tenant.
Definition update_current_tenant_route (name default_locale : option string) : SM TenantDTO :=
  member_route TENANT_UPDATE (fun t => update_tenant t name default_locale).
Definition list_members_route (limit offset : Z) : SM (PageResult MembershipDTO) :=
  member_route MEMBER_READ (fun t => page <- lift_res (new_page limit offset) ;; list_members t page).
Definition invite_member_route (email role : string) : SM InvitationDTO :=
  member_route MEMBER_INVITE (fun t => invite_member t email role).
Definition revoke_invitation_route (invitation_id : uuid) : SM unit :=
  member_route MEMBER_INVITE (fun t => revoke_invitation t invitation_id).
Definition change_member_role_route (user_id : uuid) (role : string) : SM MembershipDTO :=
  member_route MEMBER_UPDATE_ROLE (fun t => change_member_role t user_id role).
Definition remove_member_route (user_id : uuid) : SM unit :=
  member_route MEMBER_REMOVE (fun t => remove_member t user_id).
End Accounts.
