(* ===== verification/Features.v ===== *)
(** HTTP endpoints of files and of the feature modules saas and crm and of
    product images: the routers and deps of src/core/files, src/modules/saas,
    src/modules/crm and src/modules/commerce/product_images. *)

From stdpp Require Import base strings gmap list relations.
From Stdlib Require Import ZArith Lia Ascii.
From S2P Require Import Prelude Errors PyLib Calendar Entities Models Events Session SessionFacts Footprints.
From S2P Require Import Accounts Deps Channels Access Journal Tenants TenantsFacts Ports Payments PayFacts.
From S2P Require Import DbFacts Storage StorageFacts Files Saas Crm Stripe Commerce CommerceFacts Images.
From S2P Require Import Admin Frames OrderFacts Bodies Routes.

(** A feature's router is mounted when its module is enabled. *)
Definition mounted {A} (app : App) (module : string) (route : SM A) : SM A :=
  if bool_decide (module ∈ enabled_module_list app) then route
  else raise (EOther "Not Found").

(** ** Services of a request *)

Section Deps.
Context (app : App) (ctx : TenantContext).
#[local] Abbreviation access := (Some (app_access app ctx)).

Definition file_service : SM FileService :=
  new_file_service ctx (app_storage app) (app_thumbnailer app) (app_files app) access.
Definition product_image_service : SM ProductImageService :=
  products <- new_product_service ctx None (app_currencies app) ;;
  files <- file_service ;;
  new_image_service ctx products files access.
Definition entitlement_service : SM EntitlementService := new_entitlement_service ctx access.
Definition metering_service : SM MeteringService := new_metering_service ctx access.
Definition onboarding_service : SM OnboardingService :=
  new_onboarding_service ctx (saas_onboarding_step_list (app_saas app)) access.
Definition contacts_service : SM ContactsService := new_contacts_service ctx access.
Definition deal_service : SM DealService :=
  contacts <- contacts_service ;;
  new_deal_service ctx contacts (crm_deal_stage_list (app_crm app)) (app_currencies app) access.
Definition activity_service : SM ActivityService :=
  contacts <- contacts_service ;;
  deals <- new_deal_service ctx contacts (crm_deal_stage_list (app_crm app)) (app_currencies app) access ;;
  new_activity_service ctx contacts deals (crm_activity_type_list (app_crm app)) access.
End Deps.

(** ** Request bodies *)

Definition sent_ok {A} (p : A -> bool) (x : sent A) : bool :=
  match x with Sent a => p a | _ => true end.

Definition create_company_in_ok (b : CompanyIn) : bool :=
  len_in 1 200 (ci_name b) && opt_ok (len_in 0 500) (ci_website b)
  && opt_ok (len_in 0 120) (ci_industry b) && opt_ok (len_in 0 2000) (ci_notes b).
Definition update_company_in_ok (b : CompanyPatch) : bool :=
  opt_ok (len_in 1 200) (Crm.cp_name b) && opt_ok (len_in 0 500) (cp_website b)
  && opt_ok (len_in 0 120) (cp_industry b) && opt_ok (len_in 0 2000) (cp_notes b).
Definition create_contact_in_ok (b : ContactIn) : bool :=
  len_in 1 120 (ki_first_name b) && opt_ok (len_in 0 120) (ki_last_name b)
  && opt_ok (len_in 0 320) (ki_email b) && opt_ok (len_in 0 40) (ki_phone b)
  && opt_ok (len_in 0 120) (ki_position b) && opt_ok (len_in 0 2000) (ki_notes b).
Definition update_contact_in_ok (b : ContactPatch) : bool :=
  opt_ok (len_in 1 120) (kp_first_name b) && opt_ok (len_in 0 120) (kp_last_name b)
  && opt_ok (len_in 0 320) (kp_email b) && opt_ok (len_in 0 40) (kp_phone b)
  && opt_ok (len_in 0 120) (kp_position b) && opt_ok (len_in 0 2000) (kp_notes b).
Definition create_deal_in_ok (b : CreateDealIn) : bool :=
  len_in 1 200 (di_title b) && (0 <=? di_amount b)%Z && len_in 3 3 (di_currency b)
  && opt_ok (len_in 1 64) (di_stage b) && opt_ok (len_in 0 2000) (di_notes b).
Definition update_deal_in_ok (b : UpdateDealIn) : bool :=
  sent_ok (len_in 1 200) (ui_title b) && sent_ok (Z.leb 0) (ui_amount b)
  && sent_ok (len_in 3 3) (ui_currency b) && sent_ok (len_in 1 64) (ui_stage b)
  && sent_ok (len_in 0 2000) (ui_notes b).
Definition create_activity_in_ok (b : CreateActivityIn) : bool :=
  len_in 1 200 (ai_subject b) && opt_ok (len_in 1 64) (ai_type b) && opt_ok (len_in 0 2000) (ai_notes b).
Definition update_activity_in_ok (b : UpdateActivityIn) : bool :=
  sent_ok (len_in 1 200) (vi_subject b) && sent_ok (len_in 1 64) (vi_type b)
  && sent_ok (len_in 0 2000) (vi_notes b).

(** [ActivityListParams]: the filters and a page *)
Definition activity_list_params_ok (q : ActivityQuery) (limit offset : Z) : bool :=
  opt_ok (len_in 0 64) (aq_type q) && page_query_ok limit offset.

(** ** Files and product images *)

Record UploadFile : Set := mkUpload {
  uf_filename : option string; uf_content_type : option string; uf_body : string }.

(** A response with bytes: their type and the header Content-Disposition. *)
Record FileResponse : Set := mkFileResponse {
  fr_content : string; fr_media_type : string; fr_disposition : string }.

Section FileRoutes.
Context (app : App) (ctx : TenantContext).

Definition upload_file_route (up : UploadFile) : SM FileDTO :=
  staff_route app ctx FILE_UPLOAD (file_service app ctx) true (fun service =>
    upload service (uf_filename up) (uf_content_type up)
      (read_at_most (files_max_upload_bytes (fls_settings service) + 1) (uf_body up))).
Definition get_file_meta_route (file_id : uuid) : SM FileDTO :=
  staff_route app ctx FILE_READ (file_service app ctx) true (fun service => file_get service file_id).
Definition download_file_route (file_id : uuid) : SM FileResponse :=
  staff_route app ctx FILE_READ (file_service app ctx) true (fun service =>
    found <- file_open service file_id ;;
    ret (mkFileResponse found.2 (fd_content_type found.1)
           (content_disposition (fd_original_filename found.1)))).
Definition delete_file_route (file_id : uuid) : SM unit :=
  staff_route app ctx FILE_DELETE (file_service app ctx) true (fun service =>
    file_delete service file_id).

Definition attach_image_route (product_id : uuid) (up : UploadFile) (alt_text : option string)
    (position : Z) : SM ProductImage :=
  staff_route app ctx PRODUCT_IMAGE_MANAGE (product_image_service app ctx) true (fun service =>
    image_attach service product_id (uf_filename up) (uf_content_type up)
      (read_at_most (files_max_upload_bytes (fls_settings (ims_files service)) + 1) (uf_body up))
      alt_text position).
Definition list_images_route (product_id : uuid) : SM (list ProductImage) :=
  staff_route app ctx PRODUCT_IMAGE_READ (product_image_service app ctx) true (fun service =>
    list_for_product service product_id).
Definition get_image_content_route (image_id : uuid) (thumb : bool) : SM FileResponse :=
  staff_route app ctx PRODUCT_IMAGE_READ (product_image_service app ctx) true (fun service =>
    found <- open_content service image_id thumb ;;
    ret (mkFileResponse found.2 (fd_content_type found.1) "inline")).
Definition remove_image_route (image_id : uuid) : SM unit :=
  staff_route app ctx PRODUCT_IMAGE_MANAGE (product_image_service app ctx) true (fun service =>
    image_remove service image_id).
End FileRoutes.

(** ** Admin screens *)

Section AdminRoutes.
Context (app : App) (ctx : TenantContext).

Definition list_screens_route : SM (list AdminScreenInfo) :=
  staff_route app ctx SCREEN_READ (lift_res (app_screens (enabled_module_list app))) true (fun registry =>
    u <- bundle_user_id ctx ;; screens_for (app_access app ctx) registry u).

(** [_audit_query] and the page *)
Definition audit_query_ok (q : AuditQuery) (limit offset : Z) : bool :=
  opt_ok (len_in 0 100) (q_action_prefix q) && opt_ok (len_in 0 100) (q_object_type q)
  && opt_ok (len_in 0 200) (q_object_id q) && page_query_ok limit offset.

Definition search_audit_route (q : AuditQuery) (limit offset : Z) : SM (PageResult AuditLog) :=
  staff_route app ctx RECORD_READ (ret tt) (audit_query_ok q limit offset) (fun _ =>
    page <- lift_res (new_page limit offset) ;;
    audit_search (Some (app_access app ctx)) ctx q page).

Definition staff_order_service : SM OrderService :=
  new_order_service ctx None None (Some (app_access app ctx)).
Definition list_orders_route (limit offset : Z) : SM (PageResult OrderDTO) :=
  staff_route app ctx ORDER_READ staff_order_service (page_query_ok limit offset) (fun service =>
    page <- lift_res (new_page limit offset) ;; list_all service page).
End AdminRoutes.

(** ** The saas module *)

Record UsageWindowDTO : Type := mkUsageWindow {
  uw_since : option Z; uw_until : option Z; uw_metrics : gmap string Z }.

Section SaasRoutes.
Context (app : App) (ctx : TenantContext).

Definition my_entitlements_route : SM EntitlementsDTO :=
  staff_route app ctx ENTITLEMENT_READ (entitlement_service app ctx) true snapshot.
Definition my_usage_route (since until : option Z) : SM UsageWindowDTO :=
  staff_route app ctx USAGE_READ (metering_service app ctx) true (fun service =>
    metrics <- usage_summary service since until ;; ret (mkUsageWindow since until metrics)).
Definition my_progress_route : SM OnboardingProgressDTO :=
  staff_route app ctx ONBOARDING_READ (onboarding_service app ctx) true onboarding_progress.
Definition complete_step_route (step_key : string) : SM OnboardingProgressDTO :=
  staff_route app ctx ONBOARDING_UPDATE (onboarding_service app ctx) true (fun service =>
    complete_step service step_key).
End SaasRoutes.

(** ** The crm module *)

Section CrmRoutes.
Context (app : App) (ctx : TenantContext).

Definition contacts_route {A} (code : string) (valid : bool) (call : ContactsService -> SM A) : SM A :=
  staff_route app ctx code (contacts_service app ctx) valid call.
Definition deals_route {A} (code : string) (valid : bool) (call : DealService -> SM A) : SM A :=
  staff_route app ctx code (deal_service app ctx) valid call.
Definition activities_route {A} (code : string) (valid : bool) (call : ActivityService -> SM A) : SM A :=
  staff_route app ctx code (activity_service app ctx) valid call.

Definition list_companies_route (limit offset : Z) : SM (PageResult Company) :=
  contacts_route COMPANY_READ (page_query_ok limit offset) (fun service =>
    page <- lift_res (new_page limit offset) ;; list_companies service page).
Definition create_company_route (body : CompanyIn) : SM Company :=
  contacts_route COMPANY_CREATE (create_company_in_ok body) (fun service => create_company service body).
Definition get_company_route (company_id : uuid) : SM Company :=
  contacts_route COMPANY_READ true (fun service => get_company service company_id).
Definition update_company_route (company_id : uuid) (body : CompanyPatch) : SM Company :=
  contacts_route COMPANY_UPDATE (update_company_in_ok body) (fun service =>
    update_company service company_id body).
Definition delete_company_route (company_id : uuid) : SM unit :=
  contacts_route COMPANY_DELETE true (fun service => delete_company service company_id).

Definition list_contacts_route (company_id : option uuid) (limit offset : Z) : SM (PageResult Contact) :=
  contacts_route CONTACT_READ (page_query_ok limit offset) (fun service =>
    page <- lift_res (new_page limit offset) ;; list_contacts service page company_id).
Definition create_contact_route (body : ContactIn) : SM Contact :=
  contacts_route CONTACT_CREATE (create_contact_in_ok body) (fun service => create_contact service body).
Definition get_contact_route (contact_id : uuid) : SM Contact :=
  contacts_route CONTACT_READ true (fun service => Crm.get_contact service contact_id).
Definition update_contact_route (contact_id : uuid) (body : ContactPatch) : SM Contact :=
  contacts_route CONTACT_UPDATE (update_contact_in_ok body) (fun service =>
    update_contact service contact_id body).
Definition delete_contact_route (contact_id : uuid) : SM unit :=
  contacts_route CONTACT_DELETE true (fun service => delete_contact service contact_id).

Definition list_deals_route (stage : option string) (contact_id company_id : option uuid)
    (limit offset : Z) : SM (PageResult Deal) :=
  deals_route DEAL_READ (page_query_ok limit offset) (fun service =>
    page <- lift_res (new_page limit offset) ;; deal_list service page stage contact_id company_id).
Definition create_deal_route (body : CreateDealIn) : SM Deal :=
  deals_route DEAL_CREATE (create_deal_in_ok body) (fun service => deal_create service body).
Definition get_deal_route (deal_id : uuid) : SM Deal :=
  deals_route DEAL_READ true (fun service => deal_get service deal_id).
Definition update_deal_route (deal_id : uuid) (body : UpdateDealIn) : SM Deal :=
  deals_route DEAL_UPDATE (update_deal_in_ok body) (fun service =>
    deal_update service deal_id (deal_changes body)).
Definition delete_deal_route (deal_id : uuid) : SM unit :=
  deals_route DEAL_DELETE true (fun service => deal_delete service deal_id).

Definition list_activities_route (filters : ActivityQuery) (limit offset : Z) : SM (PageResult Activity) :=
  activities_route ACTIVITY_READ (activity_list_params_ok filters limit offset) (fun service =>
    page <- lift_res (new_page limit offset) ;; activity_list service page filters).
Definition create_activity_route (body : CreateActivityIn) : SM Activity :=
  activities_route ACTIVITY_CREATE (create_activity_in_ok body) (fun service =>
    activity_create service body).
Definition get_activity_route (activity_id : uuid) : SM Activity :=
  activities_route ACTIVITY_READ true (fun service => activity_get service activity_id).
Definition update_activity_route (activity_id : uuid) (body : UpdateActivityIn) : SM Activity :=
  activities_route ACTIVITY_UPDATE (update_activity_in_ok body) (fun service =>
    activity_update service activity_id (activity_changes body)).
Definition complete_activity_route (activity_id : uuid) : SM Activity :=
  activities_route ACTIVITY_UPDATE true (fun service => activity_complete service activity_id).
Definition reopen_activity_route (activity_id : uuid) : SM Activity :=
  activities_route ACTIVITY_UPDATE true (fun service => activity_reopen service activity_id).
Definition delete_activity_route (activity_id : uuid) : SM unit :=
  activities_route ACTIVITY_DELETE true (fun service => activity_delete service activity_id).
End CrmRoutes.

(** ** Requests *)

Inductive feature_request : Type :=
| PostFile (up : UploadFile)
| GetFileMeta (i : uuid)
| GetFile (i : uuid)
| DeleteFile (i : uuid)
| AttachImage (product_id : uuid) (up : UploadFile) (alt_text : option string) (position : Z)
| ListImages (product_id : uuid)
| GetImageContent (i : uuid) (thumb : bool)
| RemoveImage (i : uuid)
| ListScreens
| SearchAudit (q : AuditQuery) (limit offset : Z)
| ListOrders (limit offset : Z)
| MyEntitlements
| MyUsage (since until : option Z)
| MyProgress
| CompleteStep (step_key : string)
| ListCompanies (limit offset : Z)
| CreateCompany (body : CompanyIn)
| GetCompany (i : uuid)
| UpdateCompany (i : uuid) (body : CompanyPatch)
| DeleteCompany (i : uuid)
| ListContacts (company_id : option uuid) (limit offset : Z)
| CreateContact (body : ContactIn)
| GetContact (i : uuid)
| UpdateContact (i : uuid) (body : ContactPatch)
| DeleteContact (i : uuid)
| ListDeals (stage : option string) (contact_id company_id : option uuid) (limit offset : Z)
| CreateDeal (body : CreateDealIn)
| GetDeal (i : uuid)
| UpdateDeal (i : uuid) (body : UpdateDealIn)
| DeleteDeal (i : uuid)
| ListActivities (filters : ActivityQuery) (limit offset : Z)
| CreateActivity (body : CreateActivityIn)
| GetActivity (i : uuid)
| UpdateActivity (i : uuid) (body : UpdateActivityIn)
| CompleteActivity (i : uuid)
| ReopenActivity (i : uuid)
| DeleteActivity (i : uuid).

(** The module whose feature serves a request; files and the admin menu belong
    to core. *)
Definition feature_module (r : feature_request) : option string :=
  match r with
  | PostFile _ | GetFileMeta _ | GetFile _ | DeleteFile _ | ListScreens | SearchAudit _ _ _ => None
  | AttachImage _ _ _ _ | ListImages _ | GetImageContent _ _ | RemoveImage _
  | ListOrders _ _ => Some "commerce"
  | MyEntitlements | MyUsage _ _ | MyProgress | CompleteStep _ => Some "saas"
  | _ => Some "crm"
  end.

Definition drop_value {A} (m : SM A) : SM unit := m ;;; ret tt.

Definition feature_route (app : App) (ctx : TenantContext) (r : feature_request) : SM unit :=
  match r with
  | PostFile up => drop_value (upload_file_route app ctx up)
  | GetFileMeta i => drop_value (get_file_meta_route app ctx i)
  | GetFile i => drop_value (download_file_route app ctx i)
  | DeleteFile i => delete_file_route app ctx i
  | AttachImage p up alt pos => drop_value (attach_image_route app ctx p up alt pos)
  | ListImages p => drop_value (list_images_route app ctx p)
  | GetImageContent i thumb => drop_value (get_image_content_route app ctx i thumb)
  | RemoveImage i => remove_image_route app ctx i
  | ListScreens => drop_value (list_screens_route app ctx)
  | SearchAudit q limit offset => drop_value (search_audit_route app ctx q limit offset)
  | ListOrders limit offset => drop_value (list_orders_route app ctx limit offset)
  | MyEntitlements => drop_value (my_entitlements_route app ctx)
  | MyUsage since until => drop_value (my_usage_route app ctx since until)
  | MyProgress => drop_value (my_progress_route app ctx)
  | CompleteStep k => drop_value (complete_step_route app ctx k)
  | ListCompanies limit offset => drop_value (list_companies_route app ctx limit offset)
  | CreateCompany b => drop_value (create_company_route app ctx b)
  | GetCompany i => drop_value (get_company_route app ctx i)
  | UpdateCompany i b => drop_value (update_company_route app ctx i b)
  | DeleteCompany i => delete_company_route app ctx i
  | ListContacts c limit offset => drop_value (list_contacts_route app ctx c limit offset)
  | CreateContact b => drop_value (create_contact_route app ctx b)
  | GetContact i => drop_value (get_contact_route app ctx i)
  | UpdateContact i b => drop_value (update_contact_route app ctx i b)
  | DeleteContact i => delete_contact_route app ctx i
  | ListDeals st c k limit offset => drop_value (list_deals_route app ctx st c k limit offset)
  | CreateDeal b => drop_value (create_deal_route app ctx b)
  | GetDeal i => drop_value (get_deal_route app ctx i)
  | UpdateDeal i b => drop_value (update_deal_route app ctx i b)
  | DeleteDeal i => delete_deal_route app ctx i
  | ListActivities q limit offset => drop_value (list_activities_route app ctx q limit offset)
  | CreateActivity b => drop_value (create_activity_route app ctx b)
  | GetActivity i => drop_value (get_activity_route app ctx i)
  | UpdateActivity i b => drop_value (update_activity_route app ctx i b)
  | CompleteActivity i => drop_value (complete_activity_route app ctx i)
  | ReopenActivity i => drop_value (reopen_activity_route app ctx i)
  | DeleteActivity i => delete_activity_route app ctx i
  end.

(** What the endpoints of files and of the feature modules write: their own
    tables only. *)

(** ** What the system relies on *)

Class AppLaws (app : App) : Prop := {
  app_providers_ok : Stripe.registry_ok (app_providers app);
  app_channels_ok : forall code c, assoc code (app_channels app) = Some c -> ChannelLaws c;
  app_storage_ok : exists loc, StorageLaws (app_storage app) loc;
  app_thumbnailer_ok : ThumbnailLaws (app_thumbnailer app) }.

Section Deps.
Context (app : App) `{!AppLaws app}.

#[export] Instance app_access_ok ctx : QuietAccess (Some (app_access app ctx)).
Proof. intros resolver u [= <-]. apply quiet_codes. Qed.

Lemma quiet_require ctx code : steps quiet (require_permission app ctx code).
Proof.
  pose proof quiet_codes as Hq. unfold require_permission, app_access, access_require, has_permission,
    list_permissions, denied. steps_walk.
Qed.

(** Building a service reads nothing: it gives a service that satisfies [P], or
    refuses the context. *)
Definition built {S} (service : SM S) (P : S -> Prop) : Prop :=
  (exists x, P x /\ service = ret x) \/ exists e, service = raise e.

Ltac build ctx :=
  unfold file_service, product_image_service, entitlement_service, metering_service, onboarding_service,
    contacts_service, deal_service, activity_service, new_file_service, new_image_service,
    new_product_service, new_entitlement_service, new_metering_service, new_onboarding_service,
    new_contacts_service, new_deal_service, new_activity_service, file_service, contacts_service,
    new_file_service, new_contacts_service, repo_init;
  destruct (c_tenant_id ctx) as [t|]; [left; eexists; split; [|reflexivity]|right; by eexists].

Definition files_built (x : FileService) : Prop :=
  fls_storage x = app_storage app /\ fls_thumbnailer x = app_thumbnailer app /\
  QuietAccess (fls_access x).
Definition images_built (x : ProductImageService) : Prop :=
  files_built (ims_files x) /\ QuietAccess (ims_access x).

Lemma build_files ctx : built (file_service app ctx) files_built.
Proof. build ctx. split; [done|]. split; [done|]. apply app_access_ok. Qed.
Lemma build_images ctx : built (product_image_service app ctx) images_built.
Proof.
  build ctx. split; [|apply app_access_ok]. split; [done|]. split; [done|]. apply app_access_ok.
Qed.
Lemma build_entitlements ctx : built (entitlement_service app ctx) (fun x => QuietAccess (ens_access x)).
Proof. build ctx. apply app_access_ok. Qed.
Lemma build_metering ctx : built (metering_service app ctx) (fun x => QuietAccess (mts_access x)).
Proof. build ctx. apply app_access_ok. Qed.
Lemma build_onboarding ctx : built (onboarding_service app ctx) (fun x => QuietAccess (obs_access x)).
Proof. build ctx. apply app_access_ok. Qed.
Lemma build_contacts ctx : built (contacts_service app ctx) (fun x => QuietAccess (cts_access x)).
Proof. build ctx. apply app_access_ok. Qed.
Lemma build_deals ctx : built (deal_service app ctx) (fun x => QuietAccess (dls_access x)).
Proof. build ctx. apply app_access_ok. Qed.
Lemma build_activities ctx : built (activity_service app ctx) (fun x => QuietAccess (acs_access x)).
Proof. build ctx. apply app_access_ok. Qed.

Section Calls.
Context (R : Db -> Db -> Prop) `{!PreOrder R, !FeatureBlind R}.

(** A route under a permission writes what its call writes. *)
Lemma evo_staff {S A} ctx code (service : SM S) P valid (call : S -> SM A) :
  built service P -> (forall x, P x -> steps (evo R) (call x)) ->
  steps (evo R) (staff_body app ctx code service valid call).
Proof.
  intros Hs Hc. unfold staff_body. apply steps_bind; [apply _|apply (quiet_steps_evo R), quiet_require|].
  intros _. destruct Hs as [(x & Hx & ->)|[e ->]]; [|intros s; simpl; reflexivity].
  specialize (Hc x Hx). intros s. unfold bind, ret, guardM. destruct valid; [apply Hc|reflexivity].
Qed.

Lemma files_laws x : files_built x ->
  exists loc, StorageLaws (fls_storage x) loc /\ ThumbnailLaws (fls_thumbnailer x) /\
    QuietAccess (fls_access x).
Proof.
  intros (-> & -> & Ha). destruct app_storage_ok as [loc Hl]. exists loc. split; [done|].
  split; [apply app_thumbnailer_ok|done].
Qed.

Lemma evo_paged {A} limit offset (call : Page -> SM A) :
  (forall page, steps (evo R) (call page)) ->
  steps (evo R) (page <- lift_res (new_page limit offset) ;; call page).
Proof. intros H. steps_walk. Qed.
Lemma evo_answer {A B} (m : SM A) (f : A -> B) : steps (evo R) m -> steps (evo R) (a <- m ;; ret (f a)).
Proof. intros H. steps_walk. Qed.
End Calls.

(** Bodies that write only the features' tables. *)
Lemma fine_features {A} (m : SM A) :
  (forall R, PreOrder R -> FeatureBlind R -> steps (evo R) m) -> steps fine m.
Proof. intros H. apply fine_of; apply H; apply _. Qed.

(** ** Every request of a feature *)

Section Served.
Context (keeps : St -> St -> Prop) `{!PreOrder keeps}.
Hypothesis commits : forall A (body : SM A), good body -> steps keeps (with_uow body).

Lemma keeps_staff {S A} ctx code (service : SM S) P valid (call : S -> SM A) :
  built service P ->
  (forall x, P x -> forall R, PreOrder R -> FeatureBlind R -> steps (evo R) (call x)) ->
  steps keeps (staff_route app ctx code service valid call).
Proof.
  intros Hs Hc. apply commits, fine_good, fine_features. intros R HR HF.
  apply (evo_staff R _ _ _ P); [done|]. intros x Hx. by apply Hc.
Qed.

Lemma quiet_user_id ctx : steps quiet (bundle_user_id ctx).
Proof. unfold bundle_user_id, auth_failed, auth_error. steps_walk. Qed.
Lemma quiet_permissions ctx u : steps quiet (list_permissions (app_access app ctx) u).
Proof. pose proof quiet_codes as Hq. unfold list_permissions, app_access. steps_walk. Qed.

Lemma keeps_screens ctx : steps keeps (list_screens_route app ctx).
Proof.
  apply commits, fine_good, fine_quiet. pose proof (quiet_require ctx). pose proof (quiet_user_id ctx).
  pose proof (quiet_permissions ctx). unfold staff_body, screens_for. steps_walk.
Qed.
Lemma keeps_audit ctx q limit offset : steps keeps (search_audit_route app ctx q limit offset).
Proof.
  apply commits, fine_good, fine_quiet. pose proof (quiet_require ctx).
  pose proof (fun c p => quiet_guard (Some (app_access app ctx)) c p).
  unfold staff_body, audit_search. steps_walk.
Qed.
Lemma keeps_orders ctx limit offset : steps keeps (list_orders_route app ctx limit offset).
Proof.
  apply (keeps_staff _ _ _ (fun x => QuietAccess (ors_access x)));
    [|intros x Hx R HR HF; cbv beta; apply (evo_paged R); intros page].
  - unfold staff_order_service, new_order_service, repo_init.
    destruct (c_tenant_id ctx) as [t|]; [|right; by eexists].
    left. eexists. split; [|reflexivity]. apply app_access_ok.
  - unfold list_all, order_page. stmt_walk.
Qed.

Lemma keeps_files ctx r : feature_module r = None \/ feature_module r = Some "commerce" ->
  steps keeps (feature_route app ctx r).
Proof.
  assert (Hd : forall A (m : SM A), steps keeps m -> steps keeps (drop_value m)).
  { intros A m Hm. unfold drop_value. steps_walk. }
  destruct r; try (intros [|]; discriminate); intros _; simpl; try apply Hd;
    try solve [apply keeps_screens|apply keeps_audit|apply keeps_orders];
    (eapply keeps_staff; [first [apply build_files|apply build_images]|]); intros x Hx R HR HF; cbv beta.
  1-4: destruct (files_laws x Hx) as (loc & H1 & H2 & H3).
  5-8: destruct Hx as [Hx H0]; destruct (files_laws _ Hx) as (loc & H1 & H2 & H3).
  - by apply (evo_upload R x loc).
  - by apply (evo_file_get R x).
  - apply (evo_answer R). by apply (evo_file_open R x loc).
  - by apply (evo_file_delete R x loc).
  - by apply (evo_attach R x loc).
  - by apply (evo_list_images R x).
  - apply (evo_answer R). by apply (evo_content R x loc).
  - by apply (evo_remove R x loc).
Qed.

Lemma keeps_saas ctx r : feature_module r = Some "saas" -> steps keeps (feature_route app ctx r).
Proof.
  assert (Hd : forall A (m : SM A), steps keeps m -> steps keeps (drop_value m)).
  { intros A m Hm. unfold drop_value. steps_walk. }
  destruct r; try discriminate; intros _; simpl; try apply Hd;
    (eapply keeps_staff;
       [first [apply build_entitlements|apply build_metering|apply build_onboarding]|]);
    intros x Hx R HR HF; cbv beta.
  - by apply (quiet_steps_evo R), quiet_snapshot.
  - apply (evo_answer R). by apply (quiet_steps_evo R), quiet_summary.
  - by apply (quiet_steps_evo R), quiet_progress.
  - by apply (evo_complete_step R).
Qed.

Lemma keeps_crm ctx r : feature_module r = Some "crm" -> steps keeps (feature_route app ctx r).
Proof.
  assert (Hd : forall A (m : SM A), steps keeps m -> steps keeps (drop_value m)).
  { intros A m Hm. unfold drop_value. steps_walk. }
  destruct r; try discriminate; intros _; simpl; try apply Hd;
    (eapply keeps_staff; [first [apply build_contacts|apply build_deals|apply build_activities]|]);
    intros x Hx R HR HF; cbv beta; try (apply (evo_paged R); intros page).
  - by apply (evo_list_companies R).
  - by apply (evo_create_company R).
  - by apply (evo_get_company R).
  - by apply (evo_update_company R).
  - by apply (evo_delete_company R).
  - by apply (evo_list_contacts R).
  - by apply (evo_create_contact R).
  - by apply (evo_get_contact R).
  - by apply (evo_update_contact R).
  - by apply (evo_delete_contact R).
  - by apply (evo_deal_list R).
  - by apply (evo_deal_create R).
  - by apply (evo_deal_get R).
  - by apply (evo_deal_update R).
  - by apply (evo_deal_delete R).
  - by apply (evo_activity_list R).
  - by apply (evo_activity_create R).
  - by apply (evo_activity_get R).
  - by apply (evo_activity_update R).
  - by apply (evo_activity_complete R).
  - by apply (evo_activity_reopen R).
  - by apply (evo_activity_delete R).
Qed.

Lemma keeps_feature ctx r : steps keeps (feature_route app ctx r).
Proof.
  destruct (feature_module r) as [m|] eqn:E; [|by apply keeps_files; left].
  assert (H : m = "commerce" \/ m = "saas" \/ m = "crm") by (destruct r; simplify_eq/=; auto).
  destruct H as [->|[->| ->]]; [by apply keeps_files; right|by apply keeps_saas|by apply keeps_crm].
Qed.
End Served.
End Deps.
