(* ===== verification/System.v ===== *)
(** The deployed system: the subscribers registered at import time, the
    worker's jobs (src/app/worker.py), the requests, and the step relation of
    the whole. *)

From stdpp Require Import base strings gmap list relations.
From Stdlib Require Import ZArith Lia Ascii.
From S2P Require Import Prelude Errors PyLib Calendar Entities Models Events Session SessionFacts Access.
From S2P Require Import Journal Ports Payments Billing Webhooks Jobs Notices Commerce Deps Dispatch.
From S2P Require Import Saas Crm Routes Features.

(** ** Subscribers registered at import time, in the worker's order

    Every one of them is reliable. *)

Record Subscriber : Type := mkSubscriber {
  sb_pattern : string; sb_module : string; sb_qualname : string; sb_maintenance : bool;
  sb_handler : EventEnvelope -> SM unit }.

(** [import core.subscribers] *)
Definition core_subscribers (app : App) : list Subscriber :=
  [mkSubscriber "*" "core.audit.subscribers" "audit_sink" true audit_sink;
   mkSubscriber "billing.payment.succeeded" "core.billing.receipts" "send_payment_receipt" false
     (send_payment_receipt (app_send app) (app_owner app));
   mkSubscriber "billing.subscription.activated" "core.billing.receipts" "send_subscription_activated"
     false (send_subscription_activated (app_send app) (app_owner app));
   mkSubscriber "tenants.tenant.created" "core.billing.subscribers" "auto_subscribe_new_tenant" false
     (auto_subscribe_new_tenant (app_settings app))].

(** The features' subscribers with their module, in the order the features
    are installed. *)
Definition feature_subscribers (app : App) : list (string * Subscriber) :=
  [("saas", mkSubscriber "billing.subscription.activated" "modules.saas.entitlements.subscribers"
     "on_subscription_activated" false on_subscription_activated);
   ("saas", mkSubscriber "billing.subscription.canceled" "modules.saas.entitlements.subscribers"
     "on_subscription_canceled" false on_subscription_canceled);
   ("saas", mkSubscriber "billing.subscription.ended" "modules.saas.entitlements.subscribers"
     "on_subscription_ended" false on_subscription_ended);
   ("commerce", mkSubscriber "billing.payment.succeeded" "modules.commerce.orders.subscribers"
     "mark_order_paid" false (mark_order_paid (app_send app)));
   ("commerce", mkSubscriber "billing.payment.failed" "modules.commerce.orders.subscribers"
     "cancel_order_on_failure" false cancel_order);
   ("commerce", mkSubscriber "billing.payment.canceled" "modules.commerce.orders.subscribers"
     "cancel_order_on_cancellation" false cancel_order);
   ("commerce", mkSubscriber "billing.payment.expired" "modules.commerce.orders.subscribers"
     "cancel_order_on_expiry" false cancel_order);
   ("crm", mkSubscriber "crm.contact.deleted" "modules.crm.deals.subscribers" "on_contact_deleted" false
     deals_on_contact_deleted);
   ("crm", mkSubscriber "crm.company.deleted" "modules.crm.deals.subscribers" "on_company_deleted" false
     deals_on_company_deleted);
   ("crm", mkSubscriber "crm.contact.deleted" "modules.crm.activities.subscribers" "on_contact_deleted"
     false activities_on_contact_deleted);
   ("crm", mkSubscriber "crm.company.deleted" "modules.crm.activities.subscribers" "on_company_deleted"
     false activities_on_company_deleted);
   ("crm", mkSubscriber "crm.deal.deleted" "modules.crm.activities.subscribers" "on_deal_deleted" false
     activities_on_deal_deleted)].

Definition app_subscribers (app : App) : list Subscriber :=
  core_subscribers app ++
  (snd <$> List.filter (fun x => bool_decide (x.1 ∈ enabled_module_list app)) (feature_subscribers app)).

Definition subscribe_reliable (sub : Subscriber) (b : EventBus St) : res exn (EventBus St) :=
  subscribe (sb_pattern sub) true (sb_maintenance sub) (sb_module sub) (sb_qualname sub)
    (sb_handler sub) b.

Definition app_bus (app : App) : res exn (EventBus St) :=
  foldl (fun b sub => rbind b (subscribe_reliable sub)) (Ok empty_bus) (app_subscribers app).

(** ** Scheduled jobs *)

Record RetentionCounts : Set := mkCounts {
  rc_audit_log : Z; rc_processed_events : Z; rc_notification_outbox : Z;
  rc_saas_usage_counters : option Z }.

(** [dispatch_notifications]; [skip]: the rows other workers have locked. *)
Definition NOTICE_BATCH : nat := 50.
Definition dispatch_notifications (app : App) (skip : uuid -> bool) : SM Z :=
  dispatch_due_notifications (app_notice_lib app) (app_dispatch app) (app_templates app)
    (app_channels app) skip NOTICE_BATCH.

Definition purge_retention (app : App) : SM RetentionCounts :=
  audit <- drain (purge_expired_audit (app_audit_days app)) ;;
  processed <- drain (purge_processed_events (app_processed_days app)) ;;
  outbox <- drain (purge_expired_notifications (app_dispatch app)) ;;
  usage <- (if bool_decide ("saas" ∈ enabled_module_list app)
            then n <- drain (purge_expired_usage (saas_usage_retention_days (app_saas app))) ;;
                 ret (Some n)
            else ret None) ;;
  ret (mkCounts audit processed outbox usage).

(** ** Requests *)

Inductive request : Type :=
| PaymeWebhook (raw : RawWebhook)
| ClickWebhook (raw : RawWebhook)
| StripeWebhook (raw : RawWebhook)
| ListPlans (http : HttpRequest)
| ListProviders (http : HttpRequest)
| GetSubscription (http : HttpRequest)
| StartSubscription (http : HttpRequest) (body : StartSubscriptionIn)
| CancelSubscription (http : HttpRequest)
| ListProducts (http : HttpRequest) (limit offset : Z)
| CreateProduct (http : HttpRequest) (body : CreateProductIn)
| GetProduct (http : HttpRequest) (product_id : uuid)
| UpdateProduct (http : HttpRequest) (product_id : uuid) (body : UpdateProductIn)
| ArchiveProduct (http : HttpRequest) (product_id : uuid)
| PlaceOrder (http : HttpRequest) (body : PlaceOrderIn)
| ListMyOrders (http : HttpRequest) (limit offset : Z)
| GetMyOrder (http : HttpRequest) (order_id : uuid)
| GetCart (http : HttpRequest)
| AddItem (http : HttpRequest) (body : AddItemIn)
| RemoveItem (http : HttpRequest) (product_id : uuid)
| Checkout (http : HttpRequest) (body : CheckoutIn)
| Register (http : HttpRequest) (email password locale : string)
| Login (http : HttpRequest) (email password : string)
| VerifyTwoFactor (http : HttpRequest) (challenge_token code : string)
| Refresh (http : HttpRequest) (refresh_token : string)
| RequestPasswordReset (http : HttpRequest) (email : string)
| ResetPassword (http : HttpRequest) (reset_token new_password : string)
| Me (http : HttpRequest)
| Logout (http : HttpRequest) (refresh_token : string)
| ChangePassword (http : HttpRequest) (current_password new_password : string)
| EnableTwoFactor (http : HttpRequest)
| ConfirmTwoFactor (http : HttpRequest) (code : string)
| DisableTwoFactor (http : HttpRequest) (code : string)
| SelectTenant (http : HttpRequest) (tenant_id : uuid)
| CreateTenant (http : HttpRequest) (name slug : string)
| ListMyTenants (http : HttpRequest)
| AcceptInvitation (http : HttpRequest) (invitation_token : string)
| GetCurrentTenant (http : HttpRequest)
| UpdateCurrentTenant (http : HttpRequest) (name default_locale : option string)
| ListMembers (http : HttpRequest) (limit offset : Z)
| InviteMember (http : HttpRequest) (email role : string)
| RevokeInvitation (http : HttpRequest) (invitation_id : uuid)
| ChangeMemberRole (http : HttpRequest) (user_id : uuid) (role : string)
| RemoveMember (http : HttpRequest) (user_id : uuid)
| Feature (http : HttpRequest) (r : feature_request)
| DispatchEvent (job_try : option Z) (handler_id : string) (wire : list (string * json))
| ExpireCheckouts
| CloseEndedSubscriptions
| DispatchNotifications (skip : uuid -> bool)
| PurgeRetention.

(** [authed_bundle] and [storefront_bundle]: the caller's context first. *)
Definition as_member {A} (app : App) (http : HttpRequest) (route : TenantContext -> SM A) : SM unit :=
  ctx <- lift_res (context_from_request (app_auth_lib app) (app_auth_settings app) true http) ;;
  drop_value (route ctx).
Definition as_buyer {A} (app : App) (http : HttpRequest) (route : TenantContext -> SM A) : SM unit :=
  ctx <- lift_res (storefront_context (app_auth_lib app) (app_auth_settings app) http) ;;
  drop_value (route ctx).
Definition shop_member {A} (app : App) (http : HttpRequest) (route : TenantContext -> SM A) : SM unit :=
  mounted app "commerce" (as_member app http route).
Definition shop_buyer {A} (app : App) (http : HttpRequest) (route : TenantContext -> SM A) : SM unit :=
  mounted app "commerce" (as_buyer app http route).

Definition serve (app : App) (r : request) : SM unit :=
  match r with
  | PaymeWebhook raw => drop_value (payme_webhook (app_processor app) raw)
  | ClickWebhook raw => drop_value (click_webhook (app_processor app) raw)
  | StripeWebhook raw => drop_value (stripe_webhook (app_processor app) raw)
  | ListPlans h => as_member app h (list_plans_route app)
  | ListProviders h => as_member app h (list_providers_route app)
  | GetSubscription h => as_member app h (get_subscription_route app)
  | StartSubscription h body => as_member app h (fun ctx => start_subscription_route app ctx body)
  | CancelSubscription h => as_member app h (cancel_subscription_route app)
  | ListProducts h limit offset => shop_member app h (fun ctx => list_products_route app ctx limit offset)
  | CreateProduct h body => shop_member app h (fun ctx => create_product_route app ctx body)
  | GetProduct h i => shop_member app h (fun ctx => get_product_route app ctx i)
  | UpdateProduct h i body => shop_member app h (fun ctx => update_product_route app ctx i body)
  | ArchiveProduct h i => shop_member app h (fun ctx => archive_product_route app ctx i)
  | PlaceOrder h body => shop_buyer app h (fun ctx => place_order_route app ctx body)
  | ListMyOrders h limit offset => shop_buyer app h (fun ctx => list_my_orders_route app ctx limit offset)
  | GetMyOrder h i => shop_buyer app h (fun ctx => get_my_order_route app ctx i)
  | GetCart h => shop_buyer app h (get_cart_route app)
  | AddItem h body => shop_buyer app h (fun ctx => add_item_route app ctx body)
  | RemoveItem h i => shop_buyer app h (fun ctx => remove_item_route app ctx i)
  | Checkout h body => shop_buyer app h (fun ctx => checkout_route app ctx body)
  | Register h email password locale => drop_value (register_route app h email password locale)
  | Login h email password => drop_value (login_route app h email password)
  | VerifyTwoFactor h token code => drop_value (verify_two_factor_route app h token code)
  | Refresh h token => drop_value (refresh_route app h token)
  | RequestPasswordReset h email => request_password_reset_route app h email
  | ResetPassword h token password => reset_password_route app h token password
  | Me h => drop_value (me_route app h)
  | Logout h token => logout_route app h token
  | ChangePassword h old new => change_password_route app h old new
  | EnableTwoFactor h => drop_value (enable_two_factor_route app h)
  | ConfirmTwoFactor h code => drop_value (confirm_two_factor_route app h code)
  | DisableTwoFactor h code => disable_two_factor_route app h code
  | SelectTenant h t => drop_value (select_tenant_route app h t)
  | CreateTenant h name slug => drop_value (create_tenant_route app h name slug)
  | ListMyTenants h => drop_value (list_my_tenants_route app h)
  | AcceptInvitation h token => drop_value (accept_invitation_route app h token)
  | GetCurrentTenant h => drop_value (get_current_tenant_route app h)
  | UpdateCurrentTenant h name locale => drop_value (update_current_tenant_route app h name locale)
  | ListMembers h limit offset => drop_value (list_members_route app h limit offset)
  | InviteMember h email role => drop_value (invite_member_route app h email role)
  | RevokeInvitation h i => revoke_invitation_route app h i
  | ChangeMemberRole h u role => drop_value (change_member_role_route app h u role)
  | RemoveMember h u => remove_member_route app h u
  | Feature h r =>
      let route := as_member app h (fun ctx => feature_route app ctx r) in
      match feature_module r with Some module => mounted app module route | None => route end
  | DispatchEvent job_try handler_id wire =>
      bus <- lift_res (app_bus app) ;; dispatch_event bus job_try handler_id wire
  | ExpireCheckouts => drop_value (expire_stale_checkouts (app_settings app))
  | CloseEndedSubscriptions => drop_value (expire_ended_subscriptions (app_settings app))
  | DispatchNotifications skip => drop_value (dispatch_notifications app skip)
  | PurgeRetention => drop_value (purge_retention app)
  end.

(** ** WorkerSettings

    [cron] of arq: at the given hours, minutes and seconds, every one of them
    when not given, except that seconds default to 0. [skip] is as in
    [DispatchNotifications]. *)

Record Cron : Type := mkCron {
  cr_job : request; cr_hour : option (list Z); cr_minute : option (list Z); cr_second : list Z }.

(** [range(0, 60, 5)] *)
Definition every_five : list Z := [0; 5; 10; 15; 20; 25; 30; 35; 40; 45; 50; 55]%Z.

Definition cron_jobs (skip : uuid -> bool) : list Cron :=
  [mkCron ExpireCheckouts None (Some every_five) [0%Z];
   mkCron CloseEndedSubscriptions None (Some [7%Z]) [0%Z];
   mkCron (DispatchNotifications skip) None None [0; 15; 30; 45]%Z;
   mkCron PurgeRetention (Some [3%Z]) (Some [0%Z]) [0%Z]].

Definition among (o : option (list Z)) (z : Z) : bool := match o with Some l => bool_decide (z ∈ l) | None => true end.

(** The job is started at the second [n] (since the epoch of [datetime]). *)
Definition cron_due (c : Cron) (n : Z) : bool :=
  among (cr_hour c) (n / 3600 mod 24)%Z && among (cr_minute c) (n / 60 mod 60)%Z
  && among (Some (cr_second c)) (n mod 60)%Z.

(** Requests are served one after another or, through [env_rival], between
    the statements of one another. *)
Inductive sys_step (app : App) : St -> St -> Prop :=
| sys_serve r s : sys_step app s (serve app r s).2.

Definition reachable (app : App) : St -> St -> Prop := rtc (sys_step app).
