(* ===== verification/Startup.v ===== *)
(** Start-up: the routes with their permission markers, the checks that refuse
    to start (src/app/startup_checks.py, src/shared/endpoint_markers.py), the
    lifespan that builds the application's state (src/app/main.py) and the
    settings refused in production (src/shared/config.py). *)

From stdpp Require Import base strings gmap list sorting.
From Stdlib Require Import ZArith Lia Ascii.
From S2P Require Import Prelude Errors PyLib Calendar Entities Models Events Session Access.
From S2P Require Import Accounts Templates Notices Channels Dispatch Journal Tenants Payments Stripe Storage Files Saas.
From S2P Require Import Crm Commerce Images Redaction Admin Routes Features System.

(** ** Markers *)

Definition PERMISSION_ATTR : string := "__permission__".
Definition AUTHENTICATED_ATTR : string := "__authenticated__".
Definition PUBLIC_ATTR : string := "__public__".
Definition ALL_MARKER_ATTRS : list string := [PERMISSION_ATTR; AUTHENTICATED_ATTR; PUBLIC_ATTR].

(** FastAPI's tree of dependencies: a call with its attributes, and what it
    depends on. *)
Inductive Dependant : Set := mkDependant (call : option (list string)) (dependencies : list Dependant).

(** [_iter_dependency_calls] *)
Fixpoint iter_dependency_calls (d : Dependant) : list (list string) :=
  match d with
  | mkDependant call deps =>
      match call with Some attrs => [attrs] | None => [] end ++ mjoin (iter_dependency_calls <$> deps)
  end.

(** [_marker_attrs] *)
Definition marker_attrs (d : Dependant) : list string :=
  mjoin ((fun attrs => List.filter (fun a => bool_decide (a ∈ attrs)) ALL_MARKER_ATTRS)
           <$> iter_dependency_calls d).

(** ** Routes *)

Inductive Marker : Set :=
| MPermission (code : string)                (* require_permission(code) *)
| MAuthenticated                             (* authenticated_endpoint(reason) *)
| MPublic.                                   (* public_endpoint(reason) *)

#[export] Instance marker_eq_dec : EqDecision Marker.
Proof. solve_decision. Defined.

Record Route : Set := mkRoute { rt_method : string; rt_path : string; rt_marker : option Marker }.
#[export] Instance route_eq_dec : EqDecision Route.
Proof. solve_decision. Defined.

(** The bundle an endpoint opens carries no marker. *)
Definition bundle_dependant : Dependant := mkDependant (Some []) [].
Definition marker_dependant (m : Marker) : Dependant :=
  match m with
  | MPermission _ => mkDependant (Some [PERMISSION_ATTR]) [bundle_dependant]
  | MAuthenticated => mkDependant (Some [AUTHENTICATED_ATTR]) []
  | MPublic => mkDependant (Some [PUBLIC_ATTR]) []
  end.
Definition rt_dependant (r : Route) : Dependant :=
  mkDependant (Some []) (match rt_marker r with Some m => [marker_dependant m] | None => [] end
                         ++ [mkDependant (Some []) [bundle_dependant]]).

Definition INFRA_PATH_WHITELIST : list string :=
  ["/health"; "/ready"; "/metrics"; "/docs"; "/redoc"; "/openapi.json"; "/docs/oauth2-redirect"].

Definition validate_route_permissions (routes : list (string * Dependant)) : res exn unit :=
  match List.filter (fun '(path, d) => negb (bool_decide (path ∈ INFRA_PATH_WHITELIST))
                                       && negb (Nat.eqb (length (marker_attrs d)) 1)) routes with
  | [] => Ok tt
  | _ => Raise ERuntime
  end.

Definition validate_admin_routes (routes : list (string * Dependant)) : res exn unit :=
  match List.filter (fun '(path, d) => startswith path ADMIN_PREFIX
                                       && negb (bool_decide (marker_attrs d = [PERMISSION_ATTR]))) routes with
  | [] => Ok tt
  | _ => Raise ERuntime
  end.

(** ** The endpoint of a request *)

(** The path and the permission of a request of files, admin screens, saas or crm. *)
Definition feature_endpoint (r : feature_request) : string * string * string :=
  match r with
  | PostFile _ => ("POST", "/api/files", FILE_UPLOAD)
  | GetFileMeta _ => ("GET", "/api/files/{file_id}/meta", FILE_READ)
  | GetFile _ => ("GET", "/api/files/{file_id}", FILE_READ)
  | DeleteFile _ => ("DELETE", "/api/files/{file_id}", FILE_DELETE)
  | AttachImage _ _ _ _ => ("POST", "/api/commerce/product-images", PRODUCT_IMAGE_MANAGE)
  | ListImages _ => ("GET", "/api/commerce/product-images", PRODUCT_IMAGE_READ)
  | GetImageContent _ _ => ("GET", "/api/commerce/product-images/{image_id}/content", PRODUCT_IMAGE_READ)
  | RemoveImage _ => ("DELETE", "/api/commerce/product-images/{image_id}", PRODUCT_IMAGE_MANAGE)
  | ListScreens => ("GET", "/api/admin/screens", SCREEN_READ)
  | SearchAudit _ _ _ => ("GET", "/api/admin/audit", RECORD_READ)
  | ListOrders _ _ => ("GET", "/api/admin/orders", ORDER_READ)
  | MyEntitlements => ("GET", "/api/saas/entitlements/me", ENTITLEMENT_READ)
  | MyUsage _ _ => ("GET", "/api/saas/usage/me", USAGE_READ)
  | MyProgress => ("GET", "/api/saas/onboarding/me", ONBOARDING_READ)
  | CompleteStep _ => ("POST", "/api/saas/onboarding/steps/{step_key}/complete", ONBOARDING_UPDATE)
  | ListCompanies _ _ => ("GET", "/api/crm/companies", COMPANY_READ)
  | CreateCompany _ => ("POST", "/api/crm/companies", COMPANY_CREATE)
  | GetCompany _ => ("GET", "/api/crm/companies/{company_id}", COMPANY_READ)
  | UpdateCompany _ _ => ("PATCH", "/api/crm/companies/{company_id}", COMPANY_UPDATE)
  | DeleteCompany _ => ("DELETE", "/api/crm/companies/{company_id}", COMPANY_DELETE)
  | ListContacts _ _ _ => ("GET", "/api/crm/contacts", CONTACT_READ)
  | CreateContact _ => ("POST", "/api/crm/contacts", CONTACT_CREATE)
  | GetContact _ => ("GET", "/api/crm/contacts/{contact_id}", CONTACT_READ)
  | UpdateContact _ _ => ("PATCH", "/api/crm/contacts/{contact_id}", CONTACT_UPDATE)
  | DeleteContact _ => ("DELETE", "/api/crm/contacts/{contact_id}", CONTACT_DELETE)
  | ListDeals _ _ _ _ _ => ("GET", "/api/crm/deals", DEAL_READ)
  | CreateDeal _ => ("POST", "/api/crm/deals", DEAL_CREATE)
  | GetDeal _ => ("GET", "/api/crm/deals/{deal_id}", DEAL_READ)
  | UpdateDeal _ _ => ("PATCH", "/api/crm/deals/{deal_id}", DEAL_UPDATE)
  | DeleteDeal _ => ("DELETE", "/api/crm/deals/{deal_id}", DEAL_DELETE)
  | ListActivities _ _ _ => ("GET", "/api/crm/activities", ACTIVITY_READ)
  | CreateActivity _ => ("POST", "/api/crm/activities", ACTIVITY_CREATE)
  | GetActivity _ => ("GET", "/api/crm/activities/{activity_id}", ACTIVITY_READ)
  | UpdateActivity _ _ => ("PATCH", "/api/crm/activities/{activity_id}", ACTIVITY_UPDATE)
  | CompleteActivity _ => ("POST", "/api/crm/activities/{activity_id}/complete", ACTIVITY_UPDATE)
  | ReopenActivity _ => ("POST", "/api/crm/activities/{activity_id}/reopen", ACTIVITY_UPDATE)
  | DeleteActivity _ => ("DELETE", "/api/crm/activities/{activity_id}", ACTIVITY_DELETE)
  end.

Definition permitted (method path code : string) : Route := mkRoute method path (Some (MPermission code)).
Definition open_to_users (method path : string) : Route := mkRoute method path (Some MAuthenticated).
Definition open_to_all (method path : string) : Route := mkRoute method path (Some MPublic).

(** The route that serves a request; the worker's jobs have none. *)
Definition request_route (r : request) : option Route :=
  match r with
  | PaymeWebhook _ => Some (open_to_all "POST" "/api/billing/webhooks/payme")
  | ClickWebhook _ => Some (open_to_all "POST" "/api/billing/webhooks/click")
  | StripeWebhook _ => Some (open_to_all "POST" "/api/billing/webhooks/stripe")
  | ListPlans _ => Some (permitted "GET" "/api/billing/plans" PLAN_READ)
  | ListProviders _ => Some (permitted "GET" "/api/billing/providers" PLAN_READ)
  | GetSubscription _ => Some (permitted "GET" "/api/billing/subscription" SUBSCRIPTION_READ)
  | StartSubscription _ _ => Some (permitted "POST" "/api/billing/subscription" SUBSCRIPTION_MANAGE)
  | CancelSubscription _ => Some (permitted "POST" "/api/billing/subscription/cancel" SUBSCRIPTION_MANAGE)
  | ListProducts _ _ _ => Some (permitted "GET" "/api/commerce/products" PRODUCT_READ)
  | CreateProduct _ _ => Some (permitted "POST" "/api/commerce/products" PRODUCT_CREATE)
  | GetProduct _ _ => Some (permitted "GET" "/api/commerce/products/{product_id}" PRODUCT_READ)
  | UpdateProduct _ _ _ => Some (permitted "PATCH" "/api/commerce/products/{product_id}" PRODUCT_UPDATE)
  | ArchiveProduct _ _ => Some (permitted "POST" "/api/commerce/products/{product_id}/archive" PRODUCT_UPDATE)
  | PlaceOrder _ _ => Some (open_to_users "POST" "/api/commerce/orders")
  | ListMyOrders _ _ _ => Some (open_to_users "GET" "/api/commerce/orders")
  | GetMyOrder _ _ => Some (open_to_users "GET" "/api/commerce/orders/{order_id}")
  | GetCart _ => Some (open_to_users "GET" "/api/commerce/cart")
  | AddItem _ _ => Some (open_to_users "POST" "/api/commerce/cart/items")
  | RemoveItem _ _ => Some (open_to_users "DELETE" "/api/commerce/cart/items/{product_id}")
  | Checkout _ _ => Some (open_to_users "POST" "/api/commerce/cart/checkout")
  | Register _ _ _ _ => Some (open_to_all "POST" "/api/auth/register")
  | Login _ _ _ => Some (open_to_all "POST" "/api/auth/login")
  | VerifyTwoFactor _ _ _ => Some (open_to_all "POST" "/api/auth/2fa/verify")
  | Refresh _ _ => Some (open_to_all "POST" "/api/auth/refresh")
  | RequestPasswordReset _ _ => Some (open_to_all "POST" "/api/auth/password-reset/request")
  | ResetPassword _ _ _ => Some (open_to_all "POST" "/api/auth/password-reset")
  | Me _ => Some (open_to_users "GET" "/api/auth/me")
  | Logout _ _ => Some (open_to_users "POST" "/api/auth/logout")
  | ChangePassword _ _ _ => Some (open_to_users "POST" "/api/auth/change-password")
  | EnableTwoFactor _ => Some (open_to_users "POST" "/api/auth/2fa/enable")
  | ConfirmTwoFactor _ _ => Some (open_to_users "POST" "/api/auth/2fa/confirm")
  | DisableTwoFactor _ _ => Some (open_to_users "POST" "/api/auth/2fa/disable")
  | SelectTenant _ _ => Some (open_to_users "POST" "/api/auth/tenants/{tenant_id}/token")
  | CreateTenant _ _ _ => Some (open_to_users "POST" "/api/tenants")
  | ListMyTenants _ => Some (open_to_users "GET" "/api/tenants")
  | AcceptInvitation _ _ => Some (open_to_users "POST" "/api/tenants/invitations/accept")
  | GetCurrentTenant _ => Some (permitted "GET" "/api/tenants/current" TENANT_READ)
  | UpdateCurrentTenant _ _ _ => Some (permitted "PATCH" "/api/tenants/current" TENANT_UPDATE)
  | ListMembers _ _ _ => Some (permitted "GET" "/api/tenants/members" MEMBER_READ)
  | InviteMember _ _ _ => Some (permitted "POST" "/api/tenants/invitations" MEMBER_INVITE)
  | RevokeInvitation _ _ => Some (permitted "DELETE" "/api/tenants/invitations/{invitation_id}" MEMBER_INVITE)
  | ChangeMemberRole _ _ _ => Some (permitted "PATCH" "/api/tenants/members/{user_id}/role" MEMBER_UPDATE_ROLE)
  | RemoveMember _ _ => Some (permitted "DELETE" "/api/tenants/members/{user_id}" MEMBER_REMOVE)
  | Feature _ f => let '(method, path, code) := feature_endpoint f in Some (permitted method path code)
  | DispatchEvent _ _ _ | ExpireCheckouts | CloseEndedSubscriptions | DispatchNotifications _
  | PurgeRetention => None
  end.

(** src/core/auth/router.py *)
Definition auth_routes : list Route :=
  [open_to_all "POST" "/api/auth/register";
   open_to_all "POST" "/api/auth/login";
   open_to_all "POST" "/api/auth/2fa/verify";
   open_to_all "POST" "/api/auth/refresh";
   open_to_all "POST" "/api/auth/password-reset/request";
   open_to_all "POST" "/api/auth/password-reset";
   open_to_users "GET" "/api/auth/me";
   open_to_users "POST" "/api/auth/logout";
   open_to_users "POST" "/api/auth/change-password";
   open_to_users "POST" "/api/auth/2fa/enable";
   open_to_users "POST" "/api/auth/2fa/confirm";
   open_to_users "POST" "/api/auth/2fa/disable";
   open_to_users "POST" "/api/auth/tenants/{tenant_id}/token"].
(** src/core/tenants/router.py *)
Definition tenants_routes : list Route :=
  [open_to_users "POST" "/api/tenants";
   open_to_users "GET" "/api/tenants";
   open_to_users "POST" "/api/tenants/invitations/accept";
   permitted "GET" "/api/tenants/current" TENANT_READ;
   permitted "PATCH" "/api/tenants/current" TENANT_UPDATE;
   permitted "GET" "/api/tenants/members" MEMBER_READ;
   permitted "POST" "/api/tenants/invitations" MEMBER_INVITE;
   permitted "DELETE" "/api/tenants/invitations/{invitation_id}" MEMBER_INVITE;
   permitted "PATCH" "/api/tenants/members/{user_id}/role" MEMBER_UPDATE_ROLE;
   permitted "DELETE" "/api/tenants/members/{user_id}" MEMBER_REMOVE].
(** src/core/billing/api.py *)
Definition billing_api_routes : list Route :=
  [permitted "GET" "/api/billing/plans" PLAN_READ;
   permitted "GET" "/api/billing/providers" PLAN_READ;
   permitted "GET" "/api/billing/subscription" SUBSCRIPTION_READ;
   permitted "POST" "/api/billing/subscription" SUBSCRIPTION_MANAGE;
   permitted "POST" "/api/billing/subscription/cancel" SUBSCRIPTION_MANAGE].
(** src/core/billing/router.py *)
Definition billing_webhook_routes : list Route :=
  [open_to_all "POST" "/api/billing/webhooks/payme";
   open_to_all "POST" "/api/billing/webhooks/click";
   open_to_all "POST" "/api/billing/webhooks/stripe"].
(** src/core/files/router.py *)
Definition files_routes : list Route :=
  [permitted "POST" "/api/files" FILE_UPLOAD;
   permitted "GET" "/api/files/{file_id}/meta" FILE_READ;
   permitted "GET" "/api/files/{file_id}" FILE_READ;
   permitted "DELETE" "/api/files/{file_id}" FILE_DELETE].
(** src/core/admin/router.py *)
Definition admin_routes : list Route :=
  [permitted "GET" "/api/admin/screens" SCREEN_READ].
(** src/core/audit/admin.py, mounted as a screen *)
Definition audit_screen_routes : list Route :=
  [permitted "GET" "/api/admin/audit" RECORD_READ].

(** [_include_core_routers] and the core's admin screen *)
Definition core_routes : list Route :=
  auth_routes ++ tenants_routes ++ billing_api_routes ++ billing_webhook_routes ++ files_routes ++ admin_routes ++ audit_screen_routes.

(** src/modules/commerce/products/router.py *)
Definition products_routes : list Route :=
  [permitted "GET" "/api/commerce/products" PRODUCT_READ;
   permitted "POST" "/api/commerce/products" PRODUCT_CREATE;
   permitted "GET" "/api/commerce/products/{product_id}" PRODUCT_READ;
   permitted "PATCH" "/api/commerce/products/{product_id}" PRODUCT_UPDATE;
   permitted "POST" "/api/commerce/products/{product_id}/archive" PRODUCT_UPDATE].
(** src/modules/commerce/orders/router.py *)
Definition orders_routes : list Route :=
  [open_to_users "POST" "/api/commerce/orders";
   open_to_users "GET" "/api/commerce/orders";
   open_to_users "GET" "/api/commerce/orders/{order_id}"].
(** src/modules/commerce/cart/router.py *)
Definition cart_routes : list Route :=
  [open_to_users "GET" "/api/commerce/cart";
   open_to_users "POST" "/api/commerce/cart/items";
   open_to_users "DELETE" "/api/commerce/cart/items/{product_id}";
   open_to_users "POST" "/api/commerce/cart/checkout"].
(** src/modules/commerce/product_images/router.py *)
Definition product_images_routes : list Route :=
  [permitted "POST" "/api/commerce/product-images" PRODUCT_IMAGE_MANAGE;
   permitted "GET" "/api/commerce/product-images" PRODUCT_IMAGE_READ;
   permitted "GET" "/api/commerce/product-images/{image_id}/content" PRODUCT_IMAGE_READ;
   permitted "DELETE" "/api/commerce/product-images/{image_id}" PRODUCT_IMAGE_MANAGE].
(** src/modules/commerce/orders/admin.py, mounted as a screen *)
Definition orders_screen_routes : list Route :=
  [permitted "GET" "/api/admin/orders" ORDER_READ].

(** What the features of commerce mount *)
Definition commerce_routes : list Route :=
  products_routes ++ orders_routes ++ cart_routes ++ product_images_routes ++ orders_screen_routes.

(** src/modules/saas/entitlements/router.py *)
Definition entitlements_routes : list Route :=
  [permitted "GET" "/api/saas/entitlements/me" ENTITLEMENT_READ].
(** src/modules/saas/metering/router.py *)
Definition metering_routes : list Route :=
  [permitted "GET" "/api/saas/usage/me" USAGE_READ].
(** src/modules/saas/onboarding/router.py *)
Definition onboarding_routes : list Route :=
  [permitted "GET" "/api/saas/onboarding/me" ONBOARDING_READ;
   permitted "POST" "/api/saas/onboarding/steps/{step_key}/complete" ONBOARDING_UPDATE].

(** What the features of saas mount *)
Definition saas_routes : list Route :=
  entitlements_routes ++ metering_routes ++ onboarding_routes.

(** src/modules/crm/contacts/router.py *)
Definition contacts_routes : list Route :=
  [permitted "GET" "/api/crm/companies" COMPANY_READ;
   permitted "POST" "/api/crm/companies" COMPANY_CREATE;
   permitted "GET" "/api/crm/companies/{company_id}" COMPANY_READ;
   permitted "PATCH" "/api/crm/companies/{company_id}" COMPANY_UPDATE;
   permitted "DELETE" "/api/crm/companies/{company_id}" COMPANY_DELETE;
   permitted "GET" "/api/crm/contacts" CONTACT_READ;
   permitted "POST" "/api/crm/contacts" CONTACT_CREATE;
   permitted "GET" "/api/crm/contacts/{contact_id}" CONTACT_READ;
   permitted "PATCH" "/api/crm/contacts/{contact_id}" CONTACT_UPDATE;
   permitted "DELETE" "/api/crm/contacts/{contact_id}" CONTACT_DELETE].
(** src/modules/crm/deals/router.py *)
Definition deals_routes : list Route :=
  [permitted "GET" "/api/crm/deals" DEAL_READ;
   permitted "POST" "/api/crm/deals" DEAL_CREATE;
   permitted "GET" "/api/crm/deals/{deal_id}" DEAL_READ;
   permitted "PATCH" "/api/crm/deals/{deal_id}" DEAL_UPDATE;
   permitted "DELETE" "/api/crm/deals/{deal_id}" DEAL_DELETE].
(** src/modules/crm/activities/router.py *)
Definition activities_routes : list Route :=
  [permitted "GET" "/api/crm/activities" ACTIVITY_READ;
   permitted "POST" "/api/crm/activities" ACTIVITY_CREATE;
   permitted "GET" "/api/crm/activities/{activity_id}" ACTIVITY_READ;
   permitted "PATCH" "/api/crm/activities/{activity_id}" ACTIVITY_UPDATE;
   permitted "POST" "/api/crm/activities/{activity_id}/complete" ACTIVITY_UPDATE;
   permitted "POST" "/api/crm/activities/{activity_id}/reopen" ACTIVITY_UPDATE;
   permitted "DELETE" "/api/crm/activities/{activity_id}" ACTIVITY_DELETE].

(** What the features of crm mount *)
Definition crm_routes : list Route :=
  contacts_routes ++ deals_routes ++ activities_routes.

(** ** src/app/routes.py *)

Definition TEMPLATE_VERSION : string := "0.16.1".

Definition health_route : list (string * json) := [("status", JStr "ok"); ("version", JStr TEMPLATE_VERSION)].

(** [check_database] and [check_redis]: what the query or the ping came to
    within the timeout. A cancellation is no Exception. *)
Definition check_dependency (answer : res exn unit) : res exn string :=
  match answer with
  | Ok _ => Ok "ok"
  | Raise e => if bool_decide (e = ECancelled) then Raise e else Ok "error"
  end.

Definition ready_route (database redis : res exn unit) : res exn (Z * list (string * json)) :=
  rbind (check_dependency database) (fun database_status =>
  rbind (check_dependency redis) (fun redis_status =>
    let all_ok := bool_decide (database_status = "ok") && bool_decide (redis_status = "ok") in
    Ok (if all_ok then 200%Z else 503%Z,
        [("database", JStr database_status); ("redis", JStr redis_status)]))).

(** The infrastructure endpoints carry no marker. *)
Definition infra_routes : list Route :=
  (fun path => mkRoute "GET" path None) <$> ["/health"; "/ready"; "/metrics"].

Definition app_routes (modules : list string) : list Route :=
  infra_routes ++ core_routes ++
  (if bool_decide ("commerce" ∈ modules) then commerce_routes else []) ++
  (if bool_decide ("crm" ∈ modules) then crm_routes else []) ++
  (if bool_decide ("saas" ∈ modules) then saas_routes else []).
Definition route_contexts (routes : list Route) : list (string * Dependant) :=
  (fun r => (rt_path r, rt_dependant r)) <$> routes.

(** [create_app] and the checks of [_lifespan], as far as they declare and
    check permissions. *)
Definition start_up (modules : list string) : res exn Declared :=
  rbind (declared_rbac modules) (fun d =>
  rbind (app_screens modules) (fun registry =>
  rbind (mount_admin_screens (dc_registry d) registry) (fun _ =>
  rbind (validate_route_permissions (route_contexts (app_routes modules))) (fun _ =>
  rbind (validate_admin_routes (route_contexts (app_routes modules))) (fun _ => Ok d))))).

(** ** [_lifespan]: from the settings to the application's state *)

(** What the process is given: the settings, and the libraries and services the
    adapters are built on. [dp_exponent] is the column [currencies.exponent]. *)
Record Deployment : Type := mkDeployment {
  dp_settings : Settings; dp_providers : ProviderSettings; dp_modules : string;
  dp_audit_days : Z; dp_processed_days : Z;
  dp_auth_lib : AuthLib; dp_auth_settings : AuthSettings; dp_ip_address : string -> bool;
  dp_notice_lib : NoticeLib; dp_templates : TemplateRegistry; dp_dispatch : DispatchSettings;
  dp_channels : ChannelSettings; dp_invitation_url : string;
  dp_saas : SaasSettings; dp_crm : CrmSettings; dp_files : FilesSettings;
  dp_os : Os; dp_s3 : S3Client; dp_pillow : Pillow; dp_exponent : string -> Z }.

(** [async with maintenance_sessions() as session]: a session of its own; what
    it did not commit is gone when it closes. *)
Definition in_session {A} (body : SM A) : SM A := fun s =>
  let '(r, s') := body (uow_enter s) in (r, uow_rollback s').

(** [CurrencyRegistry.load] *)
Definition load_currencies (exponent : string -> Z) : SM CurrencyRegistry :=
  d <- get_db ;;
  ret (cr_load ((fun code => (code, exponent code)) <$> elements (b_currencies (d_billing d)))).

(** The declarations are those of [create_app]; the channels are built by the
    worker's [on_startup]. *)
Definition lifespan (dp : Deployment) : SM App :=
  d <- lift_res (start_up (split_csv (dp_modules dp))) ;;
  payment_providers <- lift_res (build_payment_providers (dp_settings dp) (dp_providers dp)) ;;
  en <- gets env ;;
  file_storage <- lift_res (build_storage en (dp_os dp) (dp_s3 dp) (dp_files dp)) ;;
  let file_thumbnailer := build_thumbnailer (dp_pillow dp) (dp_files dp) in
  currencies <- in_session (
    sync_system_roles (dc_registry d) (dc_grants d) ;;;
    load_currencies (dp_exponent dp)) ;;
  ret (mkApp (dp_settings dp) payment_providers currencies (dp_audit_days dp) (dp_processed_days dp)
         (dp_auth_lib dp) (dp_auth_settings dp) (dp_ip_address dp) (dp_notice_lib dp) (dp_templates dp)
         (dp_dispatch dp) (build_notification_channels (dp_notice_lib dp) (dp_channels dp))
         (dp_invitation_url dp) (dp_modules dp) (dp_saas dp) (dp_crm dp) (dp_files dp)
         file_storage file_thumbnailer).

(** ** Settings refused at start-up *)

Definition DEV_JWT_SECRET : string := "dev-insecure-change-me".
Definition DEV_PASSWORD_RESET_URL : string := "http://localhost:3000/reset-password#token={token}".
Definition DEV_INVITATION_ACCEPT_URL : string := "http://localhost:3000/accept-invitation#token={token}".
Definition MIN_JWT_SECRET_BYTES : nat := 32.

(** [_link_carries_token] *)
Definition link_carries_token (value : string) : bool := str_contains "{token}" value.

Record SecuritySettings : Set := mkSecuritySettings {
  st_app_env : string; st_jwt_secret : string; st_secret_encryption_keys : string;
  st_password_reset_url : string; st_invitation_accept_url : string }.

Definition secret_encryption_key_list (self : SecuritySettings) : list string :=
  split_csv (st_secret_encryption_keys self).

(** [_prod_refuses_dev_defaults]: the problems it reports *)
Definition prod_problems (self : SecuritySettings) : list string :=
  (if bool_decide (st_jwt_secret self = DEV_JWT_SECRET)
      || Nat.ltb (String.length (st_jwt_secret self)) MIN_JWT_SECRET_BYTES
   then ["JWT_SECRET must be random, >= 32 bytes"] else []) ++
  (if bool_decide (secret_encryption_key_list self = [])
   then ["SECRET_ENCRYPTION_KEYS must hold at least one Fernet key"] else []) ++
  (if bool_decide (st_password_reset_url self = DEV_PASSWORD_RESET_URL)
   then ["PASSWORD_RESET_URL must point at the production frontend"] else []) ++
  (if bool_decide (st_invitation_accept_url self = DEV_INVITATION_ACCEPT_URL)
   then ["INVITATION_ACCEPT_URL must point at the production frontend"] else []).

Definition validate_settings (self : SecuritySettings) : res exn unit :=
  if negb (link_carries_token (st_password_reset_url self))
     || negb (link_carries_token (st_invitation_accept_url self)) then Raise EValue
  else if negb (bool_decide (st_app_env self = "prod")) then Ok tt
  else match prod_problems self with [] => Ok tt | _ => Raise EValue end.
