(* ===== verification/SystemFacts.v ===== *)
(** Facts about the whole system: what every request does to the committed
    database, and so what holds of every reachable state. *)

From stdpp Require Import base strings gmap list relations.
From Stdlib Require Import ZArith Lia Ascii.
From S2P Require Import Prelude Errors PyLib Calendar Entities Models Events Session SessionFacts.
From S2P Require Import Footprints Cache Accounts AccountsFacts Deps Access Journal Tenants TenantsFacts.
From S2P Require Import Templates Notices NoticeFacts Channels Dispatch DispatchFacts.
From S2P Require Import Ports Payments PayFacts DbFacts Billing.
From S2P Require Import Stripe Webhooks WebhookFacts Jobs Settlement Commerce CommerceFacts.
From S2P Require Import Frames OrderFacts Bodies Saas Crm Routes Features System.

Section Kept.
Context (P : Env -> Prop) (R : Db -> Db -> Prop) `{!PreOrder R}.

Lemma kept_quiet {A} (m : SM A) : steps quiet m -> steps (kept P R) m.
Proof.
  intros H s. destruct (H s) as (He & _ & Hc & _). split; [done|]. intros _. by rewrite Hc.
Qed.
Lemma kept_now : steps (kept P R) now.
Proof. apply kept_quiet, quiet_now. Qed.
Lemma kept_count {A} (f : A -> SM bool) l :
  (forall a, steps (kept P R) (f a)) -> steps (kept P R) (count_m f l).
Proof. intros Hf. unfold count_m. apply (steps_fold_m (kept P R)). steps_walk. Qed.
Lemma kept_drain sweep : steps (kept P R) sweep -> steps (kept P R) (drain sweep).
Proof.
  intros Hs. unfold drain. generalize MAX_DRAIN_BATCHES, 0%Z. intros n.
  induction n as [|n IH]; intros z; simpl; steps_walk.
Qed.
End Kept.

(** ** Commerce bodies *)

Section Shop.
Context (R : Db -> Db -> Prop) `{!PreOrder R, !Tolerates R Product}.
Context (ps : ProductService) `{!QuietAccess (prs_access ps)}.

Lemma runs_product_create sku name price cur d :
  steps (evo R) (product_create ps sku name price cur d).
Proof. unfold product_create. steps_walk. Qed.
Lemma runs_product_update i n d p c : steps (evo R) (product_update ps i n d p c).
Proof. unfold product_update. steps_walk. Qed.
Lemma runs_product_archive i : steps (evo R) (product_archive ps i).
Proof. unfold product_archive. steps_walk. Qed.
End Shop.

(** ** Reading endpoints *)

Section Reads.
Context (R : Db -> Db -> Prop) `{!PreOrder R}.

Lemma reads_map_m {A B} (f : A -> SM B) l : (forall a, steps (evo R) (f a)) -> steps (evo R) (map_m f l).
Proof. intros Hf. induction l as [|a l IH]; simpl; steps_walk. Qed.
Lemma reads_plans bs `{!QuietAccess (bs_access bs)} : steps (evo R) (list_plans bs).
Proof.
  unfold list_plans. steps_walk. apply reads_map_m. intros p. unfold plan_dto. steps_walk.
Qed.
Lemma reads_providers ps `{!QuietAccess (ps_access ps)} : steps (evo R) (list_providers ps).
Proof. unfold list_providers. steps_walk. Qed.
Lemma reads_subscription bs `{!QuietAccess (bs_access bs)} : steps (evo R) (get_subscription bs).
Proof. unfold get_subscription. steps_walk. Qed.
Lemma reads_product ps i `{!QuietAccess (prs_access ps)} : steps (evo R) (product_get ps i).
Proof. unfold product_get. steps_walk. Qed.
Lemma reads_products ps limit offset `{!QuietAccess (prs_access ps)} :
  steps (evo R) (page <- lift_res (new_page limit offset) ;; product_list ps page).
Proof. unfold product_list. steps_walk. Qed.
Lemma reads_orders os limit offset :
  steps (evo R) (page <- lift_res (new_page limit offset) ;; list_own os page).
Proof. unfold list_own, order_page. steps_walk. Qed.
End Reads.

Lemma moves_place_order os lines provider :
  (forall ps, ors_payments os = Some ps -> providers_ok ps) ->
  steps (evo pay_evo) (place_order os lines provider).
Proof.
  intros Hps. unfold place_order.
  destruct (ors_products os) as [products|]; [|steps_walk].
  destruct (ors_payments os) as [payments|]; [|steps_walk]. specialize (Hps _ eq_refl).
  assert (forall t i x, steps (evo pay_evo) (add_order_item t i x)).
  { intros t i [[p q] m]. unfold add_order_item. steps_walk. }
  steps_walk.
Qed.

Lemma moves_checkout_cart cs provider :
  (forall os ps, cs_orders cs = Some os -> ors_payments os = Some ps -> providers_ok ps) ->
  steps (evo pay_evo) (checkout cs provider).
Proof.
  intros Hps. unfold checkout. destruct (cs_orders cs) as [os|]; [|steps_walk].
  pose proof (fun l p => moves_place_order os l p (fun ps H => Hps os ps eq_refl H)).
  steps_walk.
Qed.

(** ** Services as the dependencies build them *)

Section Deps.
Context (app : App) `{!AppLaws app}.

Lemma app_providers_laws code p : assoc code (app_providers app) = Some p -> ProviderLaws p.
Proof. intros H. by apply app_providers_ok in H as [? _]. Qed.

Section Built.
Context (R : St -> St -> Prop) `{!PreOrder R} {A : Type}.

Lemma steps_billing ctx (k : BillingService -> SM A) :
  (forall bs, QuietAccess (bs_access bs) -> QuietAccess (ps_access (bs_payments bs)) ->
     providers_ok (bs_payments bs) -> steps R (k bs)) ->
  steps R (bind (billing_services app ctx) k).
Proof.
  intros Hk. pose proof (app_access_ok app ctx). unfold billing_services, new_payment_service,
    new_billing_service, repo_init.
  destruct (c_tenant_id ctx) as [t|]; [|intros s; simpl; reflexivity].
  apply Hk; [done..|]. intros code p. apply app_providers_laws.
Qed.

Lemma steps_products ctx (k : ProductService -> SM A) :
  (forall ps, QuietAccess (prs_access ps) -> steps R (k ps)) ->
  steps R (bind (product_service app ctx) k).
Proof.
  intros Hk. pose proof (app_access_ok app ctx). unfold product_service, new_product_service, repo_init.
  destruct (c_tenant_id ctx) as [t|]; [by apply Hk|intros s; simpl; reflexivity].
Qed.

Definition shop_payments_ok (os : OrderService) : Prop :=
  forall ps, ors_payments os = Some ps -> providers_ok ps.

Lemma steps_orders ctx (k : OrderService -> SM A) :
  (forall os, shop_payments_ok os -> steps R (k os)) ->
  steps R (bind (order_service app ctx) k).
Proof.
  intros Hk. unfold order_service, new_product_service, new_payment_service, new_order_service,
    repo_init.
  destruct (c_tenant_id ctx) as [t|]; [|intros s; simpl; reflexivity].
  apply Hk. intros ps [= <-] code p. apply app_providers_laws.
Qed.

Lemma steps_carts ctx (k : CartService -> SM A) :
  (forall cs, (forall os, cs_orders cs = Some os -> shop_payments_ok os) -> steps R (k cs)) ->
  steps R (bind (cart_service app ctx) k).
Proof.
  intros Hk. unfold cart_service, order_service, new_product_service, new_payment_service,
    new_order_service, new_cart_service, repo_init.
  destruct (c_tenant_id ctx) as [t|]; [|intros s; simpl; reflexivity].
  unfold customer_id. destruct (c_actor ctx) as [[] [i|]]; try (intros s; simpl; reflexivity).
  destruct (uuid_parse i) as [u|]; [|intros s; simpl; reflexivity].
  apply Hk. intros os [= <-] ps [= <-] code p. apply app_providers_laws.
Qed.
End Built.

Lemma quiet_storefront ctx : steps quiet (storefront app ctx).
Proof. pose proof quiet_shop_active. unfold storefront, app_shop_active. steps_walk. Qed.

#[local] Instance blind_orders : BillingBlind order_rel.
Proof. split; apply _. Qed.

Lemma fine_dispatch code cb raw : steps fine (dispatch (app_processor app) code cb raw).
Proof. apply fine_of; [apply moves_dispatch|apply (runs_dispatch _)..]. Qed.

Lemma fine_place_order os lines provider :
  shop_payments_ok os -> steps fine (place_order os lines provider).
Proof.
  intros H s. split; [by apply moves_place_order|]. split; [by apply (shop_place_order _)|].
  split; [by apply (shop_place_order _)|]. intros Hr.
  split; [by apply runs_place_order|by apply (shop_place_order _)].
Qed.

Lemma fine_checkout cs provider :
  (forall os, cs_orders cs = Some os -> shop_payments_ok os) -> steps fine (checkout cs provider).
Proof.
  intros H s.
  assert (H' : forall os ps, cs_orders cs = Some os -> ors_payments os = Some ps ->
    providers_ok ps) by (intros os ps Ho; by apply H).
  split; [by apply moves_checkout_cart|]. split; [by apply (shop_checkout _)|].
  split; [by apply (shop_checkout _)|]. intros Hr.
  split; [by apply runs_checkout|by apply (shop_checkout _)].
Qed.

Lemma fine_mark_processed h e : steps fine (mark_processed h e).
Proof.
  assert (Hd : steps fine get_db) by (apply fine_of; steps_walk).
  assert (Hn : steps fine now) by apply fine_quiet, quiet_now.
  assert (Hf : steps fine flush) by (apply fine_of; steps_walk).
  assert (Hr : steps fine rivals) by (apply fine_of; steps_walk).
  assert (Hm : forall t, steps fine (modify (E:=exn) (st_db (fun d =>
    set_processed (<[(h, e) := t]> (d_processed d)) d)))).
  { intros t. apply fine_modify. intros d. repeat (split; [done|]). by intros []. }
  unfold mark_processed. steps_walk.
Qed.

(** ** Subscribers *)

Definition fine_bus (b : EventBus St) : Prop :=
  forall sub e, sub ∈ bus_subscriptions b -> steps fine (bs_handler sub e).

Lemma subscribe_fine sub b b' :
  fine_bus b -> (forall e, steps fine (sb_handler sub e)) -> subscribe_reliable sub b = Ok b' -> fine_bus b'.
Proof.
  unfold subscribe_reliable, subscribe. intros Hb Hh H.
  destruct (validate_pattern _); [|done]. destruct (_ && _); [done|].
  destruct (_ && _); [done|]. destruct (resolve b _); [done|]. injection H as <-.
  intros x e Hin. simpl in Hin. apply elem_of_app in Hin as [Hin|Hin]; [by apply Hb|].
  apply list_elem_of_singleton in Hin as ->. apply Hh.
Qed.

Definition fine_subs (l : list Subscriber) : Prop :=
  Forall (fun sub => forall e, steps fine (sb_handler sub e)) l.

Lemma subscribed_fine l b0 b :
  fine_subs l -> (forall b', b0 = Ok b' -> fine_bus b') ->
  foldl (fun b sub => rbind b (subscribe_reliable sub)) b0 l = Ok b -> fine_bus b.
Proof.
  intros Hl. revert b0. induction Hl as [|sub l Hs Hl IH]; intros b0 Hb H; [by apply Hb|].
  eapply IH; [|exact H]. intros b' E. destruct b0 as [b0|]; [|done].
  eapply subscribe_fine; [by apply Hb|exact Hs|exact E].
Qed.

Lemma core_fine : fine_subs (core_subscribers app).
Proof.
  assert (Hn : forall ctx n, steps fine (app_send app ctx n)).
  { intros ctx n. apply fine_of; apply (evo_send_notice _). }
  assert (Ho : forall t, steps fine (app_owner app t)) by (intros t; apply fine_quiet, quiet_owner_user_id).
  repeat apply Forall_cons_2; [..|apply Forall_nil_2]; intros e.
  - apply fine_of; apply (evo_audit_record_event _).
  - apply (steps_payment_receipt _ _ fine Hn Ho).
  - apply (steps_activation_receipt _ _ fine Hn Ho).
  - apply fine_of; [apply moves_auto_subscribe_new_tenant|..]; apply (runs_auto_subscribe_new_tenant _).
Qed.

Lemma fine_mark_order_paid e : steps fine (mark_order_paid (app_send app) e).
Proof.
  apply fine_of.
  - pose proof (evo_send_notice pay_evo). unfold mark_order_paid, mark_paid, app_send. steps_walk.
  - apply (shop_mark_order_paid _), (evo_send_notice _).
  - apply (shop_mark_order_paid _), (evo_send_notice _).
  - apply runs_mark_order_paid, (evo_send_notice _).
  - apply (shop_mark_order_paid _), (evo_send_notice _).
Qed.
Lemma fine_cancel_order e : steps fine (cancel_order e).
Proof.
  apply fine_of; [|apply (shop_cancel_order _)..|apply runs_cancel_order|apply (shop_cancel_order _)].
  unfold cancel_order, order_cancel. steps_walk.
Qed.

Lemma features_fine : fine_subs (snd <$> feature_subscribers app).
Proof.
  pose proof fine_cancel_order. pose proof fine_mark_order_paid.
  repeat apply Forall_cons_2; [..|apply Forall_nil_2]; try assumption;
    intros e; apply fine_features; intros R HR HF.
  - apply (evo_on_activated R).
  - apply (evo_on_canceled R).
  - apply (evo_on_ended R).
  - apply (evo_deals_on_contact R).
  - apply (evo_deals_on_company R).
  - apply (evo_activities_on R). intros. by apply (evo_activity_unlink R).
  - apply (evo_activities_on R). intros. by apply (evo_activity_unlink R).
  - apply (evo_activities_on R). intros. by apply (evo_activity_unlink R).
Qed.

Lemma app_bus_fine b : app_bus app = Ok b -> fine_bus b.
Proof.
  apply subscribed_fine.
  - apply Forall_app. split; [apply core_fine|]. pose proof features_fine as H.
    unfold fine_subs in *. rewrite Forall_fmap in *. rewrite Forall_forall in *.
    intros x Hx. apply H. apply list_elem_of_In, List.filter_In in Hx as [Hx _]. by apply list_elem_of_In.
  - intros b' [= <-] sub e Hin. by apply elem_of_nil in Hin.
Qed.

(** ** Every request *)

Section Served.
Context (P : Env -> Prop) (R : Db -> Db -> Prop) `{!PreOrder R}.
Hypothesis commits : forall A (body : SM A), good body -> steps (kept P R) (with_uow body).

Lemma kept_handle code raw : steps (kept P R) (handle (app_processor app) code raw).
Proof.
  unfold handle, process. destruct (assoc code _) as [pv|] eqn:Ea; [|steps_walk].
  apply app_providers_laws in Ea.
  pose proof (fun raw => kept_quiet P R _ (law_parse_quiet (p:=pv) raw)).
  pose proof (fun o => kept_quiet P R _ (law_response_quiet (p:=pv) o)).
  pose proof (fun code cb raw => commits _ _ (fine_good _ (fine_dispatch code cb raw))).
  steps_walk.
Qed.

Lemma kept_dispatch_event bus tr h w :
  fine_bus bus -> steps (kept P R) (dispatch_event bus tr h w).
Proof.
  intros Hb. unfold dispatch_event, retry_or_raise.
  destruct (resolve bus h) as [sub|] eqn:Er; [|steps_walk].
  apply List.find_some in Er as [Hin%list_elem_of_In _].
  steps_walk. apply commits, fine_good.
  apply steps_bind; [apply _|apply fine_mark_processed|]. intros fresh.
  destruct fresh; simpl; [by apply Hb|steps_walk].
Qed.

Lemma kept_expire settings x : steps (kept P R) (expire_one settings x).
Proof.
  destruct x as [pid tid]. apply commits, fine_good, fine_of; [apply moves_expire_body|..];
    steps_walk.
Qed.

Lemma kept_close settings x : steps (kept P R) (close_one settings x).
Proof. destruct x as [sid tid]. apply commits, fine_good, fine_of; steps_walk. Qed.

Lemma kept_purge_audit days : steps (kept P R) (purge_expired_audit days).
Proof.
  pose proof (kept_now P R). unfold purge_expired_audit. steps_walk. apply commits, fine_good.
  apply steps_bind; [apply _|apply fine_quiet; steps_walk|]. intros l.
  apply steps_bind; [apply _| |steps_walk].
  apply fine_modify. intros d. repeat (split; [done|]). intros []. split; try assumption.
  simpl. generalize (au_id <$> take AUDIT_SWEEP_BATCH (order_asc au_created_at l)). intros ids.
  induction ids as [|i ids IH]; [done|]. by apply ids_delete.
Qed.

Lemma kept_purge_processed days : steps (kept P R) (purge_processed_events days).
Proof.
  pose proof (kept_now P R). unfold purge_processed_events. steps_walk. apply commits, fine_good.
  apply steps_bind; [apply _|apply fine_of; steps_walk|]. intros d.
  apply steps_bind; [apply _| |steps_walk].
  apply fine_modify. intros d'. repeat (split; [done|]). by intros [].
Qed.

Lemma kept_expire_all settings : steps (kept P R) (expire_stale_checkouts settings).
Proof.
  pose proof (kept_now P R). unfold expire_stale_checkouts. steps_walk.
  - apply commits, fine_good, fine_of; steps_walk.
  - apply (kept_count P R). apply kept_expire.
Qed.

Lemma kept_close_all settings : steps (kept P R) (expire_ended_subscriptions settings).
Proof.
  pose proof (kept_now P R). unfold expire_ended_subscriptions. steps_walk.
  - apply commits, fine_good, fine_of; steps_walk.
  - apply (kept_count P R). apply kept_close.
Qed.

(** A route: its marker, its service, its body's check, its call. *)
Lemma kept_billing {A} ctx code valid (call : BillingService -> SM A) :
  (forall bs, QuietAccess (bs_access bs) -> QuietAccess (ps_access (bs_payments bs)) ->
     providers_ok (bs_payments bs) -> steps fine (call bs)) ->
  steps (kept P R) (staff_route app ctx code (billing_services app ctx) valid call).
Proof.
  intros Hc. apply commits, fine_good. apply steps_bind; [apply _|apply fine_quiet, quiet_require|intros _].
  apply (steps_billing fine). intros bs H1 H2 H3. specialize (Hc bs H1 H2 H3). steps_walk.
Qed.

Lemma kept_products {A} ctx code valid (call : ProductService -> SM A) :
  (forall ps, QuietAccess (prs_access ps) -> steps fine (call ps)) ->
  steps (kept P R) (staff_route app ctx code (product_service app ctx) valid call).
Proof.
  intros Hc. apply commits, fine_good. apply steps_bind; [apply _|apply fine_quiet, quiet_require|intros _].
  apply (steps_products fine). intros ps H1. specialize (Hc ps H1). steps_walk.
Qed.

Lemma kept_orders {A} ctx valid (call : OrderService -> SM A) :
  (forall os, shop_payments_ok os -> steps fine (call os)) ->
  steps (kept P R) (buyer_route app ctx (order_service app ctx) valid call).
Proof.
  intros Hc. apply commits, fine_good. apply steps_bind; [apply _|apply fine_quiet, quiet_storefront|intros _].
  apply (steps_orders fine). intros os H1. specialize (Hc os H1). steps_walk.
Qed.

Lemma kept_carts {A} ctx valid (call : CartService -> SM A) :
  (forall cs, (forall os, cs_orders cs = Some os -> shop_payments_ok os) -> steps fine (call cs)) ->
  steps (kept P R) (buyer_route app ctx (cart_service app ctx) valid call).
Proof.
  intros Hc. apply commits, fine_good. apply steps_bind; [apply _|apply fine_quiet, quiet_storefront|intros _].
  apply (steps_carts fine). intros cs H1. specialize (Hc cs H1). steps_walk.
Qed.

(** ** Notifications *)

Lemma fine_outbox_upd i (f : NotificationOutbox -> NotificationOutbox) :
  (forall o, ob_id (f o) = ob_id o) -> steps fine (upd i f).
Proof. intros Hf. apply fine_of; apply (evo_upd_tolerated _); exact Hf. Qed.

Lemma fine_get_outbox i : steps fine (session_get (R:=NotificationOutbox) i).
Proof. apply fine_of; steps_walk. Qed.

Lemma kept_update_row i apply :
  (forall s, exists f s', apply s = (Ok f, s') /\ quiet s s' /\ forall o, ob_id (f o) = ob_id o) ->
  steps (kept P R) (update_row i apply).
Proof.
  intros Ha. unfold update_row. apply commits, fine_good.
  apply steps_bind; [apply _|apply fine_get_outbox|]. intros [o|]; [|steps_walk].
  intros s. destruct (Ha s) as (f & s1 & Hs & Hq & Hf). unfold bind. rewrite Hs.
  transitivity s1; [by apply quiet_fine|by apply fine_outbox_upd].
Qed.

Lemma kept_publish e : steps (kept P R) (publish_now e).
Proof. intros s. split; [done|]. intros _. simpl. reflexivity. Qed.
Lemma kept_uuid : steps (kept P R) new_uuid7.
Proof. intros s. split; [done|]. intros _. simpl. reflexivity. Qed.

Lemma kept_dead row e : steps (kept P R) (dead row e).
Proof.
  pose proof kept_publish. pose proof kept_uuid. pose proof (kept_now P R).
  unfold dead. apply steps_bind; [apply _| |steps_walk]. apply kept_update_row.
  intros s. by exists (ob_dead e), s.
Qed.
Lemma kept_deliver st c m row : ChannelLaws c -> steps (kept P R) (deliver_row st c m row).
Proof.
  intros Hc. unfold deliver_row. apply steps_bind; [apply _| |].
  - apply (kept_quiet P R). pose proof (channel_quiet (c:=c) m). steps_walk.
  - intros [id|e].
    + apply kept_update_row. intros s. by eexists _, _.
    + destruct (is_permanent e); [apply kept_dead|]. destruct (_ <=? _)%Z; [apply kept_dead|].
      unfold reschedule. apply steps_bind; [apply _|apply (kept_now P R)|]. intros t.
      apply kept_update_row. intros s. by eexists _, s.
Qed.

Lemma kept_resolve row : steps (kept P R) (resolve_channel (app_notice_lib app) (app_channels app) row).
Proof.
  assert (forall row, steps (kept P R) (platform_channel (app_channels app) row)).
  { intros row'. unfold platform_channel. steps_walk. }
  assert (forall row b, steps (kept P R) (tenant_channel (app_notice_lib app) row b)).
  { intros row' b. apply (kept_quiet P R). pose proof quiet_build. unfold tenant_channel. steps_walk. }
  assert (forall t c, steps (kept P R) (setting_of t c)).
  { intros t c. apply commits, fine_good, fine_quiet. unfold scalar_one_or_none. steps_walk. }
  unfold resolve_channel. steps_walk.
Qed.

Lemma kept_process row : steps (kept P R) (process_row (app_notice_lib app) (app_dispatch app)
  (app_templates app) (app_channels app) row).
Proof.
  pose proof kept_dead. unfold process_row. apply steps_bind; [apply _|steps_walk|]. intros en.
  destruct (registry_render _ _ _ _ _ _) as [rendered|e]; [|steps_walk].
  intros s. apply (rel_bind_post _); [apply kept_resolve|]. intros c s1 Hc.
  assert (ChannelLaws c) by (eapply resolved_laws; [apply app_channels_ok|exact Hc]).
  pose proof (fun m row => kept_deliver (app_dispatch app) c m row).
  assert (forall cap t, steps (kept P R) (try_consume cap t)).
  { intros cap t. apply (kept_quiet P R), quiet_try_consume. }
  match goal with |- kept P R s1 (?m s1).2 => enough (Hm : steps (kept P R) m) by apply Hm end.
  steps_walk; auto.
Qed.

Lemma kept_dispatch_notices skip : steps (kept P R) (dispatch_notifications app skip).
Proof.
  assert (Hc : forall st, steps (kept P R) (claim_batch st skip NOTICE_BATCH)).
  { intros st. unfold claim_batch. apply steps_bind; [apply _|apply (kept_now P R)|]. intros t.
    apply commits, fine_good. apply steps_bind; [apply _|apply fine_quiet; steps_walk|]. intros due.
    apply steps_bind; [apply _| |steps_walk]. apply (steps_for_each fine). intros o.
    by apply fine_outbox_upd. }
  assert (Hp : forall l, steps (kept P R) (process_all (app_notice_lib app) (app_dispatch app)
    (app_templates app) (app_channels app) l)).
  { pose proof kept_process. assert (forall row e, steps (kept P R) (log_row row e)).
    { intros row e. apply (kept_quiet P R). unfold log_row. steps_walk. }
    induction l; simpl; steps_walk. }
  unfold dispatch_notifications, dispatch_due_notifications, dispatch_pass. steps_walk.
Qed.

Lemma kept_purge_notices st : steps (kept P R) (purge_expired_notifications st).
Proof.
  pose proof (kept_now P R). unfold purge_expired_notifications. steps_walk.
  apply commits, fine_good. apply steps_bind; [apply _|apply fine_quiet; steps_walk|]. intros l.
  apply fine_of; apply (stmt_delete_where _).
Qed.

Lemma kept_purge_usage days : steps (kept P R) (purge_expired_usage days).
Proof.
  pose proof (kept_now P R). unfold purge_expired_usage. steps_walk.
  apply commits, fine_good. apply steps_bind; [apply _|apply fine_quiet; steps_walk|]. intros l.
  apply fine_features. intros Q HQ HF. apply (stmt_delete_where _).
Qed.

Lemma kept_purge_retention : steps (kept P R) (purge_retention app).
Proof.
  pose proof (kept_drain P R _ (kept_purge_audit (app_audit_days app))).
  pose proof (kept_drain P R _ (kept_purge_processed (app_processed_days app))).
  pose proof (kept_drain P R _ (kept_purge_notices (app_dispatch app))).
  pose proof (kept_drain P R _ (kept_purge_usage (saas_usage_retention_days (app_saas app)))).
  unfold purge_retention. steps_walk.
Qed.

(** ** Accounts and tenants *)

Lemma kept_bundle {A} http auth (call : TenantContext -> SM A) :
  (forall ctx, good (call ctx)) -> steps (kept P R) (bundle_route app http auth call).
Proof.
  intros Hc. unfold bundle_route. apply steps_bind; [apply _|steps_walk|]. intros ctx. by apply commits.
Qed.

(** Bodies that write accounts only. *)
Lemma fine_accounts {A} (m : SM A) :
  (forall Q, PreOrder Q -> AccountsBlind Q -> steps (evo Q) m) -> steps fine m.
Proof. intros H. apply fine_of; apply H; apply _. Qed.

Lemma fine_select ctx t :
  steps fine (u <- bundle_user_id ctx ;;
    member <- has_active_membership t u ;;
    if negb member
    then raise (EDomain PermissionDeniedError "not an active member of an active tenant")
    else auth_issue_tenant_token (app_auth app ctx) t).
Proof.
  apply steps_bind; [apply _|apply fine_quiet, quiet_user_id|]. intros u.
  apply steps_bind; [apply _|apply fine_quiet, quiet_is_member|]. intros member.
  destruct member; simpl; [|steps_walk]. apply fine_accounts. intros Q HQ HA.
  apply (runs_tenant_token (evo Q)).
Qed.

Lemma fine_accept ctx t :
  steps fine (u <- bundle_user_id ctx ;; profile <- auth_get_user u ;;
    accept_invitation (app_tenants app ctx) t (ud_email profile)).
Proof.
  apply steps_bind; [apply _|apply fine_quiet, quiet_user_id|]. intros u.
  apply steps_bind; [apply _|apply fine_accounts; intros Q HQ HA; apply (runs_get_user (evo Q))|].
  intros profile. apply fine_tenants; [intros; by apply runs_accept|].
  intros s _. apply accept_seats.
Qed.

(** A route under a permission. *)
Lemma kept_member {A} http code (call : TenantService -> SM A) :
  (forall ctx, steps fine (call (app_tenants app ctx))) ->
  steps (kept P R) (member_route app http code call).
Proof.
  intros Hc. apply kept_bundle. intros ctx. apply fine_good.
  apply steps_bind; [apply _|apply fine_quiet, quiet_require|]. done.
Qed.

Lemma mailer_ok Q `{!PreOrder Q} `{!Tolerates Q NotificationSetting, !Tolerates Q NotificationOutbox}
    ctx m c a b d f k :
  tns_mailer (app_tenants app ctx) = Some m -> steps (evo Q) (m c a b d f k).
Proof. intros [= <-]. apply (runs_invitation_mail (evo Q)). Qed.

Lemma fine_invite ctx e r : steps fine (invite_member (app_tenants app ctx) e r).
Proof.
  apply fine_tenants.
  - intros Q HQ HC HA. apply runs_invite; [done..|]. intros. by eapply mailer_ok; [apply _..|].
  - intros s _. apply invite_seats. intros. by eapply mailer_ok; [apply _..|].
Qed.

Lemma serve_kept r : steps (kept P R) (serve app r).
Proof.
  assert (Hd : forall A (m : SM A), steps (kept P R) m -> steps (kept P R) (drop_value m)).
  { intros A m Hm. unfold drop_value. steps_walk. }
  assert (Hm : forall A h (k : TenantContext -> SM A), (forall ctx, steps (kept P R) (k ctx)) ->
    steps (kept P R) (as_member app h k)).
  { intros A h k Hk. unfold as_member. apply steps_bind; [apply _|steps_walk|]. intros. by apply Hd. }
  assert (Hb : forall A h (k : TenantContext -> SM A), (forall ctx, steps (kept P R) (k ctx)) ->
    steps (kept P R) (as_buyer app h k)).
  { intros A h k Hk. unfold as_buyer. apply steps_bind; [apply _|steps_walk|]. intros. by apply Hd. }
  assert (Hi : forall A module (m : SM A), steps (kept P R) m -> steps (kept P R) (mounted app module m)).
  { intros A module m H. unfold mounted. steps_walk. }
  destruct r; unfold serve, shop_member, shop_buyer; try apply Hi;
    try (apply Hm; intros ctx); try (apply Hb; intros ctx); try apply Hd;
    try first [apply kept_handle|apply kept_billing|apply kept_products|apply kept_orders
              |apply kept_carts]; intros.
  - apply fine_of; by apply (reads_plans _).
  - apply fine_of; by apply (reads_providers _).
  - apply fine_of; by apply (reads_subscription _).
  - apply fine_of; [by apply moves_start|..]; by apply (runs_start _).
  - apply fine_of; [by apply moves_cancel_subscription|..]; by apply (runs_cancel_subscription _).
  - apply fine_of; by apply (reads_products _).
  - apply fine_of; by apply (runs_product_create _).
  - apply fine_of; by apply (reads_product _).
  - apply fine_of; by apply (runs_product_update _).
  - apply fine_of; by apply (runs_product_archive _).
  - by apply fine_place_order.
  - apply fine_of; by apply (reads_orders _).
  - apply fine_of; by apply (runs_get_own _).
  - apply fine_of; by apply (runs_get_cart _).
  - apply fine_of; [|  |apply runs_add_item_cart|..]; apply (runs_add_item _); apply _.
  - apply fine_of; [|  |apply runs_remove_item_cart|..]; apply (runs_remove_item _); apply _.
  - by apply fine_checkout.
  - apply kept_bundle. intros ctx. apply fine_good, fine_accounts. intros Q HQ HA. apply (runs_register (evo Q)).
  - apply kept_bundle. intros ctx. apply good_authenticate.
  - apply kept_bundle. intros ctx. apply fine_good, fine_accounts. intros Q HQ HA.
    by apply evo_complete_two_factor.
  - apply kept_bundle. intros ctx. apply good_refresh.
  - apply kept_bundle. intros ctx. apply good_request_reset.
  - apply kept_bundle. intros ctx. apply fine_good, fine_accounts. intros Q HQ HA.
    apply (runs_reset_password (evo Q)).
  - apply kept_bundle. intros ctx. apply fine_good.
    apply steps_bind; [apply _|apply fine_quiet, quiet_user_id|]. intros u. apply fine_accounts.
    intros Q HQ HA. apply (runs_get_user (evo Q)).
  - apply kept_bundle. intros ctx. apply fine_good, fine_accounts. intros Q HQ HA. apply (runs_logout (evo Q)).
  - apply kept_bundle. intros ctx. apply fine_good, fine_accounts. intros Q HQ HA.
    apply (runs_change_password (evo Q)).
  - apply kept_bundle. intros ctx. apply fine_good, fine_accounts. intros Q HQ HA. apply (runs_enable_totp (evo Q)).
  - apply kept_bundle. intros ctx. apply fine_good, fine_accounts. intros Q HQ HA.
    apply (runs_confirm_totp (evo Q)).
  - apply kept_bundle. intros ctx. apply fine_good, fine_accounts. intros Q HQ HA. by apply evo_disable_totp.
  - apply kept_bundle. intros ctx. apply fine_good, fine_select.
  - apply kept_bundle. intros ctx. apply good_create_tenant.
  - apply kept_bundle. intros ctx. apply fine_good, fine_of; apply (runs_list_user_tenants _).
  - apply kept_bundle. intros ctx. apply fine_good, fine_accept.
  - apply kept_member. intros ctx. apply fine_of; apply (runs_get_tenant _).
  - apply kept_member. intros ctx. apply fine_tenants; [intros; by apply runs_update_tenant|].
    intros s _. apply update_tenant_seats.
  - apply kept_member. intros ctx. apply fine_of; steps_walk; apply (runs_list_members _).
  - apply kept_member. intros ctx. apply fine_invite.
  - apply kept_member. intros ctx. apply fine_tenants; [intros; by apply runs_revoke_invitation|].
    intros s _. apply revoke_invitation_seats.
  - apply kept_member. intros ctx. apply fine_tenants; [intros; by apply runs_change_role|].
    intros s Hn. by apply change_role_seats.
  - apply kept_member. intros ctx. apply fine_tenants; [intros; by apply runs_remove|].
    intros s Hn. by apply remove_seats.
  - assert (steps (kept P R) (as_member app http (fun ctx => feature_route app ctx r))).
    { apply Hm. intros ctx. apply (keeps_feature app (kept P R) commits). }
    cbv zeta. destruct (feature_module r); [by apply Hi|done].
  - intros s. unfold bind, lift_res. destruct (app_bus app) as [b|] eqn:Eb; [|simpl; reflexivity].
    apply kept_dispatch_event. by apply app_bus_fine.
  - apply kept_expire_all.
  - apply kept_close_all.
  - apply kept_dispatch_notices.
  - apply kept_purge_retention.
Qed.

Lemma reachable_kept s s' : reachable app s s' -> kept P R s s'.
Proof.
  induction 1 as [|s1 s2 s3 [r s] _ IH]; [reflexivity|].
  etransitivity; [apply serve_kept|exact IH].
Qed.
End Served.

(** ** Instances *)

Lemma commits_payments A (body : SM A) :
  good body -> steps (kept (RivalOk pay_evo) pay_evo) (with_uow body).
Proof. intros Hb. apply kept_closes, Hb. apply _. Qed.
Lemma commits_orders A (body : SM A) : good body -> steps (kept no_rivals order_rel) (with_uow body).
Proof. intros Hb. apply kept_closes, Hb. apply _. Qed.
Lemma commits_carts A (body : SM A) :
  good body -> steps (kept (RivalOk cart_rel) cart_rel) (with_uow body).
Proof. intros Hb. apply kept_closes, Hb. apply _. Qed.
Lemma commits_seats A (body : SM A) : good body -> steps (kept no_rivals seats_evo) (with_uow body).
Proof. intros Hb. apply kept_closes, Hb. apply _. Qed.
Lemma commits_sound A (body : SM A) :
  good body -> steps (kept no_rivals stays_sound) (with_uow body).
Proof. intros Hb. apply uow_sound, Hb. Qed.
End Deps.

(** ** Synchronizing the system roles *)

Lemma put_role_healthy st r :
  healthy st -> ro_tenant_id r = None -> roles_of (db st) !! ro_id r = None ->
  (forall i x, roles_of (db st) !! i = Some x -> is_system_role (ro_code r) x = false) ->
  healthy (st_db (t_put r) st).
Proof.
  intros [Hok Hrg Ha Hk] Ht Hf Hno. split; simpl; [|exact Hrg|done|].
  - unfold db_ok, core_ok, tenants_ok in *. cbn. split_ok. join_ok; auto.
    + eapply all_rows_impl; [|eassumption]. intros m. unfold membership_ok. rewrite !andb_true_iff.
      intros [? ?]. split; [done|]. by apply in_table_insert.
    + apply unique_by_insert; [done|]. intros k [= <-] j x _ Hj [= Ex Ec].
      specialize (Hno j x Hj). unfold is_system_role in Hno. rewrite Ex, Ht, Ec, !bool_decide_true in Hno by done. done.
    + apply all_rows_insert; [done|]. by rewrite Ht.
    + rewrite forallb_forall in *. intros p Hp. apply in_table_insert. auto.
    + eapply all_rows_impl; [|eassumption]. intros m. unfold invitation_ok. rewrite !andb_true_iff.
      intros [? ?]. split; [done|]. by apply in_table_insert.
  - destruct Hk. split; try done. intros j x. unfold t_get. cbn. rewrite lookup_insert.
    case_decide; [naive_solver|auto].
Qed.

Lemma set_grants_healthy st g :
  healthy st -> (forall p, p ∈ g -> in_table (roles_of (db st)) p.1 = true) ->
  healthy (st_db (set_role_permissions g) st).
Proof.
  intros [Hok Hrg Ha Hk] Hg. split; simpl; [|exact Hrg|done|].
  - unfold db_ok, core_ok, tenants_ok in *. cbn. split_ok. join_ok; auto.
    rewrite forallb_forall. intros p Hp. apply Hg. by apply elem_of_elements, list_elem_of_In.
  - by destruct Hk.
Qed.

Lemma reconcile_run st role_id grants :
  healthy st -> is_Some (roles_of (db st) !! role_id) ->
  exists g, reconcile role_id grants st = (Ok tt, st_db (set_role_permissions g) st) /\
    healthy (st_db (set_role_permissions g) st).
Proof.
  intros Hh Hr. unfold reconcile. erewrite bind_Ok by (apply get_db_run, Hh). cbv beta zeta.
  set (current := role_codes (t_role_permissions (tenants_of (db st))) role_id).
  set (new := (t_role_permissions (tenants_of (db st)) ∪ set_map (pair role_id) (grants ∖ current))
              ∖ set_map (pair role_id) (current ∖ grants) : gset (N * string)).
  assert (Hh' : healthy (st_db (set_role_permissions new) st)).
  { apply set_grants_healthy; [done|]. intros p Hp. destruct Hh as [Hok _ _ _].
    unfold db_ok, core_ok, tenants_ok in Hok. split_ok.
    apply elem_of_difference in Hp as [[Hp|Hp]%elem_of_union _].
    - match goal with H : forallb _ (elements (t_role_permissions _)) = true |- _ => rewrite forallb_forall in H; apply H end.
      by apply list_elem_of_In, elem_of_elements.
    - apply elem_of_map in Hp as (c & -> & _). by apply bool_decide_eq_true. }
  exists new. split; [|exact Hh'].
  erewrite bind_Ok by reflexivity. by apply (healthy_flush (st_db (set_role_permissions new) st)).
Qed.

(** One role is there afterwards, with its grants, whatever was there before. *)
Lemma sync_role_run reg code grants title st :
  healthy st -> no_rivals (env st) -> assoc code SYSTEM_ROLE_TITLES = Some title ->
  (forall p, p ∈ grants -> is_registered reg p = true) ->
  roles_of (db st) !! next_uuid st = None ->
  exists st', sync_role reg (code, grants) st = (Ok tt, st') /\ healthy st' /\ env st' = env st /\
    n_uuid st' = S (n_uuid st) /\
    forall i, i ≠ next_uuid st -> roles_of (db st) !! i = None -> roles_of (db st') !! i = None.
Proof.
  intros Hh Hn Ht Hp Hf. unfold sync_role.
  assert (E : for_each (elements grants) (fun p => lift_res (require_registered reg p)) st = (Ok tt, st)).
  { assert (Hl : forall p, p ∈ elements grants -> is_registered reg p = true)
      by (intros p Hin; by apply Hp, elem_of_elements).
    revert Hl. generalize (elements grants). intros l Hl. induction l as [|p l IH]; [done|]. cbn [for_each].
    unfold require_registered at 1. rewrite (Hl p) by set_solver.
    erewrite bind_Ok by reflexivity. apply IH. set_solver. }
  erewrite bind_Ok by exact E. erewrite bind_Ok by apply new_uuid7_run. rewrite Ht.
  erewrite bind_Ok by reflexivity. set (row := mkRole (next_uuid st) None code title true).
  set (st1 := (rivals (drew_uuid st)).2).
  assert (Hd1 : db st1 = db st) by (apply Hn).
  assert (Hh1 : healthy st1) by by apply (healthy_db st).
  (* the role's row is there after the insert *)
  assert (Hins : exists st2 b, insert_on_conflict_do_nothing (is_system_role code) row (drew_uuid st) = (Ok b, st2) /\
    healthy st2 /\ env st2 = env st /\ n_uuid st2 = S (n_uuid st) /\
    (exists i x, roles_of (db st2) !! i = Some x /\ is_system_role code x = true) /\
    forall i, i ≠ next_uuid st -> roles_of (db st) !! i = None -> roles_of (db st2) !! i = None).
  { unfold insert_on_conflict_do_nothing.
    erewrite bind_Ok by (apply healthy_flush; by apply (healthy_db st)).
    rewrite (bind_Ok _ _ _ tt st1) by done. erewrite bind_Ok by (apply query_run, Hh1).
    destruct (select (is_system_role code) (t_get (db st1))) as [|x l] eqn:Es.
    - assert (Hno : forall i x, roles_of (db st1) !! i = Some x -> is_system_role code x = false).
      { intros i x Hi. destruct (is_system_role code x) eqn:E'; [|done].
        assert (Hin : x ∈ select (is_system_role code) (t_get (db st1))) by (apply elem_of_select; eauto).
        rewrite Es in Hin. by apply elem_of_nil in Hin. }
      assert (Hfree : roles_of (db st1) !! next_uuid st = None) by by rewrite Hd1.
      assert (Hput : healthy (st_db (t_put row) st1)) by by apply put_role_healthy.
      exists (st_db (t_put row) st1), true. split; [|split; [exact Hput|split; [done|split; [done|split]]]].
      + erewrite bind_Ok; [reflexivity|]. apply insert_row_run; [apply Hh1|exact Hfree|apply Hput|apply Hput].
      + exists (next_uuid st), row. split; [apply lookup_insert_eq|]. unfold is_system_role. by rewrite !bool_decide_true.
      + intros i Hi Hold. change (<[next_uuid st := row]> (roles_of (db st1)) !! i = None).
        by rewrite lookup_insert_ne, Hd1.
    - exists st1, false. split; [done|]. split; [done|]. split; [done|]. split; [done|]. split.
      + assert (Hin : x ∈ select (is_system_role code) (t_get (db st1))) by (rewrite Es; left).
        apply elem_of_select in Hin as [[i Hi] Hx]. by exists i, x.
      + intros i _ Hold. by rewrite Hd1. }
  destruct Hins as (st2 & b & E2 & Hh2 & He2 & Hu2 & (i & x & Hi & Hx) & Hold).
  erewrite bind_Ok by exact E2. erewrite bind_Ok by (apply query_run, Hh2).
  rewrite (select_unique _ _ i x); [|exact Hi|exact Hx|].
  2:{ intros j y Hj Hy. eapply system_role_unique; [apply Hh2|exact Hj|exact Hi|exact Hy|exact Hx]. }
  erewrite bind_Ok by reflexivity. cbv beta iota.
  destruct (reconcile_run st2 (ro_id x) grants Hh2) as (g & Er & Hh3).
  { pose proof (k_role _ (h_keyed _ Hh2) _ _ Hi) as Hid. change (ro_id x = i) in Hid. rewrite Hid. eauto. }
  exists (st_db (set_role_permissions g) st2). split; [exact Er|]. auto.
Qed.

Lemma sync_roles_run reg l : forall st,
  healthy st -> no_rivals (env st) -> draws_differ (env st) ->
  (forall e, e ∈ l -> is_Some (assoc e.1 SYSTEM_ROLE_TITLES) /\ forall p, p ∈ e.2 -> is_registered reg p = true) ->
  (forall n, (n_uuid st <= n)%nat -> roles_of (db st) !! env_uuid7 (env st) n = None) ->
  exists st', for_each l (sync_role reg) st = (Ok tt, st') /\ healthy st' /\ env st' = env st.
Proof.
  induction l as [|[code grants] l IH]; intros st Hh Hn Hdd Hl Hf; [by exists st|].
  destruct (Hl (code, grants)) as [[title Ht] Hp]; [left|]. simpl in Ht, Hp.
  destruct (sync_role_run reg code grants title st Hh Hn Ht Hp (Hf _ (le_n _)))
    as (st1 & E1 & Hh1 & He1 & Hu1 & Hold).
  destruct (IH st1 Hh1) as (st' & E & Hh' & He').
  - by rewrite He1.
  - by rewrite He1.
  - intros e He. apply Hl. by right.
  - intros n Hln. rewrite He1. rewrite Hu1 in Hln. apply Hold; [|apply Hf; lia].
    unfold next_uuid. intros Hc%Hdd. lia.
  - exists st'. cbn [for_each]. erewrite bind_Ok by exact E1. by rewrite He', He1.
Qed.

(** What the resolver answers once the roles are synchronized. *)
Lemma synced_codes reg grants s s1 s2 :
  no_rivals (env s) -> Keyed (R:=Role) (committed s) -> NoDup grants.*1 ->
  sync_system_roles reg grants (uow_enter s) = (Ok tt, s1) ->
  aborted s2 = false -> db s2 = committed s1 ->
  forall self code declared i m r ro,
    (code, declared) ∈ grants ->
    members_of (committed s1) !! i = Some m -> mb_status m = MActive ->
    tenant_active (committed s1) (mb_tenant_id m) = true ->
    c_tenant_id (tns_ctx self) = Some (mb_tenant_id m) ->
    roles_of (committed s1) !! r = Some ro -> is_system_role code ro = true -> mb_role_id m = ro_id ro ->
    get_permission_codes self (mb_user_id m) s2 = (Ok declared, s2).
Proof.
  intros Hn Hk Hnd H Ha Hd self code declared i m r ro Hin Hm Hst Hact Hctx Hr Hsys Hrole.
  unfold sync_system_roles in H. apply bind_inv_Ok in H as (u & s0 & H0 & H).
  apply sync_roles_Ok in H0 as (Hsync & _ & _ & _); [|done|done|done].
  unfold session_commit in H. apply bind_inv_Ok in H as ([] & s3 & Hf & H).
  apply flush_inv in Hf as (_ & _ & _ & -> & _ & _ & Hok). unfold modify in H. injection H as <-.
  cbn [committed] in *.
  destruct (Hsync _ Hin) as (r' & ro' & Hr' & Hsys' & Hcodes). simpl in Hsys', Hcodes.
  assert (r = r') as -> by (eapply system_role_unique; [exact Hok|exact Hr|exact Hr'|done|done]).
  assert (ro = ro') as -> by congruence.
  rewrite (codes_of_member self (db s0) i m); [by rewrite Hrole, Hcodes|done..].
Qed.

(** Synchronizing ends well and is committed. *)
Lemma sync_system_roles_run reg grants s :
  no_rivals (env s) -> draws_differ (env s) -> healthy (uow_enter s) ->
  (forall e, e ∈ grants -> is_Some (assoc e.1 SYSTEM_ROLE_TITLES) /\ forall p, p ∈ e.2 -> is_registered reg p = true) ->
  (forall n, (n_uuid s <= n)%nat -> roles_of (committed s) !! env_uuid7 (env s) n = None) ->
  exists st, sync_system_roles reg grants (uow_enter s) = (Ok tt, st) /\ healthy st /\ committed st = db st /\ env st = env s.
Proof.
  intros Hn Hdd Hh Hl Hf.
  destruct (sync_roles_run reg grants (uow_enter s)) as (st & E & Hst & He); [done|done|done|done|done|].
  unfold sync_system_roles. erewrite bind_Ok by exact E. unfold session_commit.
  erewrite bind_Ok by (by apply healthy_flush). eexists. split; [reflexivity|].
  split; [by apply (healthy_db st)|]. by split.
Qed.
