(* ===== verification/Demo.v ===== *)
(** A concrete deployment used to instantiate the theorems: one shop with its
    owner, a pending subscription payment, a free subscription it will
    replace, a product, an order, a session and a queued message. *)

From stdpp Require Import base strings gmap list pretty.
From Stdlib Require Import ZArith Lia Ascii.
From S2P Require Import Prelude Errors Resilience PyLib Calendar Entities Models Events Session.
From S2P Require Import SessionFacts Accounts Deps Access Journal Tenants TenantsFacts Templates.
From S2P Require Import Notices Channels Dispatch Ports Payments PayFacts DbFacts Activation.
From S2P Require Import Billing Payme Click Stripe Webhooks Jobs Commerce Storage StorageFacts.
From S2P Require Import CommerceFacts Frames OrderFacts Bodies Routes Features System SystemFacts.

(** 15 January 2026, midnight UTC. *)
Definition demo_day : datetime := ((ymd2ord 2026 1 15 - 1) * DAY)%Z.

(** A stand-in for a hex digest: 64 hexadecimal digits. *)
Definition demo_digest (s : string) : string :=
  hex_digits 64 (N.of_nat (String.length s)).

(** Opaque tokens of growing length, so that their digests differ. *)
Definition demo_token (k : nat) : string := String.concat "" (replicate (20 + k) "t").

Definition demo_env : Env :=
  mkEnv (fun k => demo_day + Z.of_nat k * SECOND)%Z
    (fun k => N.of_nat (1000 + k)) demo_token (fun _ d => d)
    (fun _ _ => HttpResponse 200 (Some (JObj [("url", JStr "https://pay.example/s")])))
    (fun k => Z.of_nat k * SECOND)%Z (fun k => demo_day + Z.of_nat k * SECOND)%Z
    (fun _ => Some (JObj [("method", JStr "PerformTransaction");
                          ("params", JObj [("id", JStr "txn-1")]); ("id", JInt 1)]))
    (fun _ => Some demo_day) (fun _ => Some ("https", "shop.example"))
    (fun _ => "{}") (fun _ => "[]") (fun _ => "2026-01-15T00:00:00+00:00")
    (fun t => t / 1000)%Z (fun s => demo_digest s) demo_digest
    (fun key s => demo_digest (key +:+ s)) (fun s => s) (fun s => Some s).

Definition demo_tenant : uuid := 7%N.
Definition demo_user : uuid := 8%N.

Definition demo_plan : Plan := mkPlan 1 "pro" (JStr "Pro") 1000 "UZS" "month" 0 true.
Definition demo_free : Plan := mkPlan 2 "free" (JStr "Free") 0 "UZS" "month" 0 true.
Definition demo_sub : Subscription :=
  mkSubscription 10 demo_tenant 1 SPending 1000 "UZS" demo_day (demo_day + 31 * DAY)%Z false None.
Definition demo_old : Subscription :=
  mkSubscription 11 demo_tenant 2 SActive 0 "UZS" (demo_day - 31 * DAY)%Z demo_day false None.
Definition demo_other : Subscription :=
  mkSubscription 12 9 2 SActive 0 "UZS" (demo_day - 31 * DAY)%Z (demo_day + DAY)%Z false None.
Definition demo_payment : Payment :=
  mkPayment 20 demo_tenant (Some 10%N) "subscription" (uuid_str 10) 1000 "UZS" PPending "payme"
    (Some "txn-1") "subscription:10" None None [] demo_day.
Definition demo_canceled : Payment :=
  mkPayment 21 demo_tenant None "commerce.order" (uuid_str 40) 500 "UZS" PCanceled "payme"
    (Some "txn-0") "order:40" None None [] demo_day.
Definition demo_product : Product :=
  mkProduct 30 demo_tenant "sku-1" "Tea" None 250 "UZS" ProdActive demo_day.
Definition demo_order : Order :=
  mkOrder 40 demo_tenant demo_user OrdCanceled 500 "UZS" (Some 21%N) demo_day.
Definition demo_cart : Cart := mkCart 50 demo_tenant demo_user CartActive.
Definition demo_cart_item : CartItem :=
  mkCartItem 51 demo_tenant 50 30 2 250 "UZS" demo_day.

Definition demo_account : User :=
  mkUser demo_user "owner@shop.uz" None "argon2:secret" None (Some "+998 90 123-45-67") "uz" false
    UActive None.
Definition demo_session : RefreshToken :=
  mkRefreshToken 80 demo_user 81 (demo_digest "raw-1") (demo_day + 30 * DAY)%Z None None None None None.
(** An earlier token of the family, already rotated. *)
Definition demo_spent : RefreshToken :=
  mkRefreshToken 82 demo_user 81 (demo_digest "raw-00") (demo_day + 30 * DAY)%Z (Some demo_day)
    None None None None.
Definition demo_shop : Tenant := mkTenant demo_tenant "Shop" "shop" demo_user TActive "uz" demo_day.
Definition demo_owner_role : Role := mkRole 60 None "owner" "role.owner" true.
Definition demo_admin_role : Role := mkRole 61 None "admin" "role.admin" true.
Definition demo_seat : Membership := mkMembership 70 demo_tenant demo_user 60 MActive demo_day.
Definition demo_message : NotificationOutbox :=
  mkOutbox 90 91 (Some "receipt:1") None "email" "owner@shop.uz" "auth.password_reset" "uz"
    [("reset_url", JStr "https://shop.uz/r")] ObPending 0 demo_day None None None demo_day.

Definition demo_core : CoreDb :=
  mkCoreDb (mkAccountsDb {[demo_user := demo_account]} ∅ ∅ {[80%N := demo_session; 82%N := demo_spent]})
    (mkTenantsDb {[demo_tenant := demo_shop]} {[70%N := demo_seat]}
       {[60%N := demo_owner_role; 61%N := demo_admin_role]}
       {[(60%N, "billing.subscription:manage")]} ∅)
    (mkNoticesDb ∅ {[90%N := demo_message]}) (mkSaasDb ∅ ∅ ∅ ∅) (mkCrmDb ∅ ∅ ∅ ∅) (mkFilesDb ∅ ∅).

Definition demo_db : Db :=
  mkDb (mkBillingDb {["UZS"]} {[1%N := demo_plan; 2%N := demo_free]}
          {[10%N := demo_sub; 11%N := demo_old; 12%N := demo_other]}
          {[20%N := demo_payment; 21%N := demo_canceled]} ∅)
       (mkCommerceDb {[30%N := demo_product]} {[50%N := demo_cart]} {[51%N := demo_cart_item]}
          {[40%N := demo_order]} ∅) ∅ ∅ demo_core.

Definition demo_st : St :=
  mkSt demo_env demo_db demo_db false [] [] ∅ 0 0 0 0 ∅ 0 ∅ ∅ ∅.

Definition demo_settings : Settings := mkSettings "payme,click,stripe" 3600 true "free".
Definition demo_provider_settings : ProviderSettings :=
  mkProviderSettings "m1" "key" "s1" "m2" "secret" "sk_test" "whsec" "https://ok" "https://no".
Definition demo_payme : PaymentProvider := payme_provider (mkPayme "m1" "Paycom:key").
Definition demo_providers : list (string * PaymentProvider) := [("payme", demo_payme)].

Definition demo_ctx : TenantContext :=
  mkCtx (Some demo_tenant) (mkActor KUser (Some (uuid_str demo_user))) None DEFAULT_LOCALE.
Definition demo_ps : PaymentService :=
  mkPayments (integration_ctx (Some demo_tenant) "payme") demo_tenant demo_providers demo_settings None.

Definition demo_auth_lib : AuthLib :=
  mkAuthLib (fun _ p => "argon2:" +:+ p) (fun h p => bool_decide (h = "argon2:" +:+ p)) "argon2:-"
    (fun _ _ _ => "jwt")
    (fun t _ _ => if bool_decide (t = "jwt")
                  then Some [("sub", JStr (uuid_str demo_user)); ("tenant", JStr (uuid_str demo_tenant));
                             ("type", JStr "access")]
                  else None)
    (fun _ => "BASE32") (fun s c _ => bool_decide (c = "123456")) (fun s e => s)
    (fun _ p => "f:" +:+ p) (fun t => Some (str_drop 2 t)) (fun k => N.of_nat k).
Definition demo_auth_settings : AuthSettings :=
  mkAuthSettings 20 5 900 300 2592000 900 3600 "https://shop.uz/reset?t={token}" "jwt-secret" "HS256".

(** Every template file exists; posting and mailing succeed. *)
Definition demo_notice_lib : NoticeLib :=
  mkNoticeLib (fun _ => Some "Link: $reset_url") (fun _ p => "f:" +:+ p) (fun t => Some (str_drop 2 t))
    (fun _ => "{}") (fun _ _ _ => HttpResponse 200 (Some (JObj []))) (fun _ => None)
    (fun _ _ _ => SmtpFailed "connection refused").
Definition demo_templates : TemplateRegistry :=
  match register_templates demo_notice_lib "auth" AUTH_TEMPLATES "auth" (mkRegistry [] []) with
  | Ok r => r | Raise _ => mkRegistry [] []
  end.
Definition demo_dispatch : DispatchSettings := mkDispatchSettings 300 2 200 90.
Definition demo_channels : list (string * NotificationChannel) :=
  build_notification_channels demo_notice_lib
    (mkChannelSettings "" "" "" "smtp.shop.uz" 587 "" "" "noreply@shop.uz").

(** A disk whose second deletion fails, and a Pillow that copies. *)
Definition demo_os : Os :=
  mkOs (fun _ _ _ => None) (fun _ _ => None)
    (fun n _ => match n with 1%nat => Some "disk error" | _ => None end)
    (fun p => "no such file: " +:+ p) [] "/tmp".
Definition demo_storage : StoragePort := FilesystemStorage demo_os "/srv".
Definition demo_pillow : Pillow :=
  mkPillow string Some (fun _ => Some "GIF") (fun _ => "RGB") (fun i _ => Some i) (fun i _ => Some i)
    (fun i _ => Some i).
Definition demo_files_settings : FilesSettings :=
  mkFilesSettings "filesystem" "/srv" 100 "image/gif,image/png" "b" "a" "s" 256.

Definition demo_app : App :=
  mkApp demo_settings demo_providers {["UZS" := 0%Z]} 365 30 demo_auth_lib demo_auth_settings
    (fun _ => true) demo_notice_lib demo_templates demo_dispatch demo_channels
    "https://shop.uz/join?t={token}" "commerce,crm,saas" (mkSaasSettings 400 "profile,invite")
    (mkCrmSettings "lead,won" "call,task") demo_files_settings demo_storage (PillowThumbnailer demo_pillow).

(** A request of the owner, to the shop. *)
Definition demo_http : HttpRequest :=
  mkHttpRequest "Bearer jwt" (Some (uuid_str demo_tenant)) None (Some "10.0.0.1") None.

Definition demo_wp : WebhookProcessor := app_processor demo_app.
Definition demo_raw : RawWebhook := mkRaw [("authorization", "Basic Paycom:key")] "{}" [].

(** The provider confirms the pending payment. *)
Definition demo_confirm : ProviderCallback :=
  mkCallback "payme" (Some "txn-1") AConfirm "" None [] true None.
Definition demo_forged : ProviderCallback :=
  mkCallback "payme" (Some "txn-1") AConfirm "" None [] false None.

(** ** The deployment meets the assumptions *)

Lemma demo_no_rivals : no_rivals demo_env.
Proof. done. Qed.

Lemma demo_draws : draws_differ demo_env.
Proof. intros n m. cbn [env_uuid7 demo_env]. lia. Qed.

Lemma demo_rivals R `{!PreOrder R} : RivalOk R demo_env.
Proof. intros k d. simpl. reflexivity. Qed.

#[export] Instance demo_laws : AppLaws demo_app.
Proof.
  split.
  - intros code p H. cbn [app_providers demo_app demo_providers assoc] in H.
    case_bool_decide; [|done]. injection H as <-. subst. split; [apply _|done].
  - intros code c. apply platform_laws.
  - eexists. apply filesystem_laws.
  - apply pillow_laws.
Qed.

(** Decidable form of [ids_ok]. *)
Definition ids_b {A} (key : A -> uuid) (t : gmap N A) : bool :=
  forallb (fun '(i, r) => bool_decide (key r = i)) (map_to_list t).
Lemma ids_b_ok {A} (key : A -> uuid) t : ids_b key t = true -> ids_ok key t.
Proof.
  unfold ids_b. rewrite forallb_forall. intros H i r Hi.
  specialize (H (i, r)). apply bool_decide_eq_true in H; [done|].
  by apply list_elem_of_In, elem_of_map_to_list.
Qed.

Lemma demo_keyed : keyed demo_db.
Proof. split; apply ids_b_ok; vm_compute; reflexivity. Qed.

Lemma demo_sound : sound demo_db.
Proof. split; [vm_compute; reflexivity|]. split; [vm_compute; reflexivity|apply demo_keyed]. Qed.

Lemma demo_healthy : healthy demo_st.
Proof. destruct demo_sound as (? & ? & ?). by split. Qed.

(** Whether a run ends well, evaluated. *)
Definition is_ok {E A} (r : res E A) : bool := match r with Ok _ => true | Raise _ => false end.

Lemma run_is_ok {A} (m : SM A) s : is_ok (m s).1 = true -> exists a s', m s = (Ok a, s').
Proof. destruct (m s) as [[a|e] s']; [by exists a, s'|done]. Qed.

(** The same deployment while another request with key "key-1" commits. *)
Definition demo_winner : Payment :=
  mkPayment 22 demo_tenant None "commerce.order" "ref" 700 "UZS" PCreated "payme" None "key-1"
    None None [("checkout_url", JStr "https://pay.example/w")] demo_day.
Definition demo_race_env : Env :=
  mkEnv (env_now demo_env) (env_uuid7 demo_env) (env_token demo_env)
    (fun k d => if (k =? 0)%nat then t_put demo_winner d else d) (env_http demo_env)
    (env_mono demo_env) (env_epoch demo_env) (py_json_loads demo_env) (py_fromisoformat demo_env)
    (py_urlsplit demo_env) (py_repr demo_env) (py_repr_items demo_env) (py_isoformat demo_env)
    (py_timestamp_ms demo_env) (md5_hex demo_env) (sha256_hex demo_env) (hmac_sha256_hex demo_env)
    (b64encode demo_env) (b64decode demo_env).
Definition demo_race_st : St :=
  mkSt demo_race_env demo_db demo_db false [] [] ∅ 0 0 0 0 ∅ 0 ∅ ∅ ∅.

Lemma demo_won_sound : sound (t_put demo_winner demo_db).
Proof.
  split; [vm_compute; reflexivity|]. split; [vm_compute; reflexivity|].
  split; apply ids_b_ok; vm_compute; reflexivity.
Qed.

(** An event on its way to the audit journal. *)
Definition demo_event : EventEnvelope :=
  mkEnvelope 77 "billing.payment.succeeded" 1 demo_day (Some demo_tenant) SYSTEM_ACTOR
    [("payment_id", JStr (uuid_str 20))].
Definition demo_sink : BusSubscription St :=
  mkBusSub "*" audit_sink true "core.audit.subscribers.audit_sink" true.
Definition demo_bus : EventBus St := mkBus [demo_sink] (Some (fun _ _ => ret tt)).

Lemma demo_handler_ok : handler_ok audit_sink.
Proof.
  assert (Tolerates (same d_processed) AuditLog) by (split; by intros).
  intros e. apply (evo_audit_record_event (same d_processed)).
Qed.

Lemma demo_valid : valid_envelope demo_event.
Proof. by split. Qed.

(** The registry built from the settings. *)
Definition demo_all : list (string * PaymentProvider) :=
  match build_payment_providers demo_settings demo_provider_settings with Ok l => l | Raise _ => [] end.

Lemma demo_built : build_payment_providers demo_settings demo_provider_settings = Ok demo_all.
Proof.
  unfold demo_all.
  assert (H : is_ok (build_payment_providers demo_settings demo_provider_settings) = true)
    by (vm_compute; reflexivity).
  by destruct (build_payment_providers _ _).
Qed.
