(* ===== verification/AuthProps.v ===== *)
(** Who can sign in and for how long: passwords, second factors, refresh
    tokens and reset links. *)

From stdpp Require Import base strings gmap list.
From Stdlib Require Import ZArith Lia Ascii.
From S2P Require Import Prelude Errors PyLib Calendar Entities Models Events Session SessionFacts.
From S2P Require Import Footprints Cache Accounts AccountsFacts LoginFacts Access Journal.
From S2P Require Import PayFacts DbFacts Bodies Routes System SystemFacts Demo.

Definition demo_auth : AuthService := app_auth demo_app demo_ctx.

(** C7: a refresh token is spent once. After a token was exchanged, showing
    it again is refused, and from then on the token it was exchanged for is
    refused as well: the whole family is revoked. *)
Theorem refresh_token_spent_once (self self' self'' : AuthService) (tok : string) (pair : TokenPair)
    (s : St) :
  no_rivals (env s) -> Keyed (R:=RefreshToken) (committed s) ->
  let first := with_uow (auth_refresh self tok) s in
  let second := with_uow (auth_refresh self' tok) first.2 in
  first.1 = Ok pair ->
  second.1 = Raise EReuse /\
  (with_uow (auth_refresh self'' (tp_refresh_token pair)) second.2).1 = Raise EReuse.
Proof.
  intros Hn Hk first second Hf.
  destruct (refresh_committed self tok s pair Hn Hk Hf)
    as (He & Hok & Hrg & i & j & old & fresh & Hi & Hh & Hs & Hj & Hfam & _ & Hfh).
  fold first in He, Hok, Hrg, Hi, Hj.
  destruct (refresh_reuse_committed self' tok first.2 i old) as (H1 & E1 & t & Hc);
    [done|done|done|by rewrite He|done|].
  fold second in H1, E1, Hc. split; [done|].
  destruct (in_family_mapped (rt_family_id old) t "reuse_detected" (committed first.2) j fresh Hj Hfam)
    as (r' & Hr' & Hrh & Hrev).
  apply (refresh_reuse_committed self'' (tp_refresh_token pair) second.2 j r').
  - rewrite Hc. by apply tokens_mapped_ok.
  - by rewrite Hc, tokens_mapped_ranges.
  - by rewrite Hc.
  - by rewrite Hrh, Hfh, E1, He.
  - unfold unspent. destruct Hrev as [x ->]. by rewrite andb_false_r.
Qed.

Lemma refresh_token_spent_once_witness :
  exists pair, (with_uow (auth_refresh demo_auth "raw-1") demo_st).1 = Ok pair /\
    (with_uow (auth_refresh demo_auth "raw-1")
       (with_uow (auth_refresh demo_auth "raw-1") demo_st).2).1 = Raise EReuse.
Proof.
  assert (Hk : Keyed (R:=RefreshToken) (committed demo_st)) by (apply ids_b_ok; vm_compute; reflexivity).
  assert (H : is_ok (with_uow (auth_refresh demo_auth "raw-1") demo_st).1 = true)
    by (vm_compute; reflexivity).
  destruct (with_uow (auth_refresh demo_auth "raw-1") demo_st).1 as [pair|e] eqn:E; [|discriminate H].
  exists pair. split; [reflexivity|].
  exact (proj1 (refresh_token_spent_once demo_auth demo_auth demo_auth "raw-1" pair demo_st
           demo_no_rivals Hk E)).
Defined.




(** The same deployment within one instant. *)
Definition demo_still : St :=
  mkSt (mkEnv (fun _ => demo_day) (env_uuid7 demo_env) (env_token demo_env) (env_rival demo_env)
          (env_http demo_env) (env_mono demo_env) (env_epoch demo_env) (py_json_loads demo_env)
          (py_fromisoformat demo_env) (py_urlsplit demo_env) (py_repr demo_env) (py_repr_items demo_env)
          (py_isoformat demo_env) (py_timestamp_ms demo_env) (md5_hex demo_env) (sha256_hex demo_env)
          (hmac_sha256_hex demo_env) (b64encode demo_env) (b64decode demo_env))
       demo_db demo_db false [] [] ∅ 0 0 0 0 ∅ 0 ∅ ∅ ∅.


(** A reset link works once and ends every session. When a reset ends
    well, the link was alive, its account has the new password and all its
    refresh tokens are revoked; and whatever an attempt ended in, the next
    one with that link is refused. *)
Theorem reset_link_works_once (self self' : AuthService) (tok pw pw' : string) (s : St) :
  Keyed (R:=User) (committed s) ->
  let first := with_uow (auth_reset_password self tok pw) s in
  (first.1 = Ok tt ->
    exists v u acc salt,
      alive (reading s 0) (redis s) (store_key RESET_NS (hash_token (env s) tok)) = Some v /\
      uuid_parse (rval_str v.1) = Some u /\ users_of (committed s) !! u = Some acc /\
      users_of (committed first.2) !! u = Some (set_password (argon2_hash (as_lib self) salt pw) acc) /\
      forall j r, tokens_of (committed first.2) !! j = Some r -> rt_user_id r = u ->
        is_Some (rt_revoked_at r)) /\
  (with_uow (auth_reset_password self' tok pw') first.2).1 =
    Raise (EDomain AuthenticationError "invalid or expired reset token").
Proof.
  intros Hk first. split.
  - intros H. apply uow_Ok in H as (s1 & H & Hc & _). fold first in Hc. rewrite Hc.
    exact (reset_Ok self tok pw (uow_enter s) tt s1 Hk H).
  - pose proof (reset_consumes self tok pw s) as Hg. fold first in Hg.
    assert (He : env first.2 = env s).
    { apply uow_env. assert (CoreBlind (fun _ _ => True)) by (apply core_blind; done).
      destruct (runs_reset_password (evo (fun _ _ : Db => True)) self tok pw (uow_enter s)); done. }
    assert (Hb : exists s1, auth_reset_password self' tok pw' (uow_enter first.2) =
      (Raise (EDomain AuthenticationError "invalid or expired reset token"), s1)).
    { unfold auth_reset_password. erewrite bind_Ok by reflexivity. cbv beta.
      pose proof (consume_None RESET_NS (hash_token (env (uow_enter first.2)) tok) (uow_enter first.2)) as Hn.
      unfold bind. destruct (store_consume _ _ _) as [r s1]. simpl in Hn. rewrite Hn; [by eexists|].
      by rewrite He. }
    destruct Hb as [s1 Hb]. unfold with_uow. by rewrite (bind_Raise _ _ _ _ _ Hb).
Qed.

(** A reset link of the owner is open. *)
Definition demo_link : St :=
  st_redis (<[store_key RESET_NS (demo_digest "link") := (RStr (uuid_str demo_user), Some (demo_day + DAY)%Z)]>)
    demo_st.
Lemma reset_link_works_once_witness :
  (with_uow (auth_reset_password demo_auth "link" "new") demo_link).1 = Ok tt /\
  (with_uow (auth_reset_password demo_auth "link" "newer")
     (with_uow (auth_reset_password demo_auth "link" "new") demo_link).2).1 =
    Raise (EDomain AuthenticationError "invalid or expired reset token").
Proof.
  split; [vm_compute; reflexivity|].
  assert (Hk : Keyed (R:=User) (committed demo_link)) by (apply ids_b_ok; vm_compute; reflexivity).
  exact (proj2 (reset_link_works_once demo_auth demo_auth "link" "new" "newer" demo_link Hk)).
Defined.
