(* ===== verification/NoticeProps.v ===== *)
(** Messages to people: templates, the outbox and its dispatcher. *)

From stdpp Require Import base strings gmap list.
From Stdlib Require Import ZArith Lia Ascii.
From S2P Require Import Prelude Errors PyLib Calendar Entities Models Events Session SessionFacts.
From S2P Require Import Footprints Cache Accounts AccountsFacts Templates Notices.
From S2P Require Import Notices NoticeFacts Channels Dispatch DispatchFacts Access Journal PayFacts DbFacts.
From S2P Require Import Bodies Routes System SystemFacts Demo.

(** A notification is queued once per key. Repeating a send that was
    committed, with the same key, answers the identifier of the first and
    commits nothing new. *)
Theorem notification_queued_once (self : NotificationService) (r : Recipient) (template : string)
    (context : list (string * json)) (channels : option (list string)) (locale : option string)
    (key : string) (n : uuid) (s : St) :
  no_rivals (env s) ->
  let first := with_uow (send self r template context channels locale (Some key)) s in
  let second := with_uow (send self r template context channels locale (Some key)) first.2 in
  first.1 = Ok n -> second.1 = Ok n /\ committed second.2 = committed first.2.
Proof.
  intros Hn first second H. apply uow_Ok in H as (s1 & H & Hc & He & Hok & Hrg). fold first in Hc, He.
  assert (Hn0 : no_rivals (env (uow_enter s))) by exact Hn.
  assert (Ha : aborted s1 = false).
  { destruct (send_Ok _ _ _ _ _ _ _ _ _ _ H) as (a & ul & Hadm & [[_ ->]|[_ Hq]]); [done|].
    by destruct (queue_Ok _ _ _ _ _ _ _ _ _ Hn0 Hq) as (? & ? & _ & _ & -> & _). }
  pose proof (send_again self r template context channels locale key (uow_enter s) n s1
    (uow_enter first.2) Hn H) as Hs. specialize (Hs (eq_sym Ha) Hc).
  unfold second, with_uow. rewrite (bind_Ok _ _ _ _ _ Hs). unfold session_commit, flush, bind.
  cbn [aborted uow_enter db]. rewrite Hc, Hok, Hrg. done.
Qed.

Definition demo_notices : NotificationService :=
  mkNotifications demo_ctx demo_templates demo_notice_lib true.

Lemma notification_queued_once_witness :
  exists n,
    let m := send demo_notices (UserRecipient demo_user) PASSWORD_RESET_TEMPLATE
      [("reset_url", JStr "u"); ("ttl_minutes", JInt 60)] None None (Some "key-9") in
    (with_uow m demo_st).1 = Ok n /\ (with_uow m (with_uow m demo_st).2).1 = Ok n.
Proof.
  assert (H : is_ok (with_uow (send demo_notices (UserRecipient demo_user) PASSWORD_RESET_TEMPLATE
      [("reset_url", JStr "u"); ("ttl_minutes", JInt 60)] None None (Some "key-9")) demo_st).1 = true)
    by (vm_compute; reflexivity).
  destruct (with_uow (send demo_notices _ _ _ _ _ _) demo_st).1 as [n|e] eqn:E; [|discriminate H].
  exists n. split; [exact E|].
  exact (proj1 (notification_queued_once demo_notices _ _ _ _ _ _ n demo_st demo_no_rivals E)).
Defined.

(** Registered templates render, to what their pieces mean. Starting from
    the empty catalog, whatever modules register: a template of the catalog
    renders in every supported language, an unknown one is answered as not
    found and nothing else can go wrong; and when the body is written as text,
    escapes and variables, the result is that text with "$" for an escape and
    its value for each known variable. *)
Theorem registered_templates_render (lib : NoticeLib) (en : Env) (module : string)
    (templates : list TemplateDef) (dir : string) (r r' : TemplateRegistry) (key locale : string)
    (params : list (string * json)) :
  registry_ok lib r -> register_templates lib module templates dir r = Ok r' ->
  supported locale = true ->
  registry_ok lib r' /\
  match registry_render lib en r' key locale params with
  | Ok out =>
      exists tdef base body, assoc key (tr_defs r') = Some tdef /\ assoc key (tr_dirs r') = Some base /\
        nl_file lib (body_path base locale key) = Some body /\
        forall l, body = source l -> pieces_ok l = true ->
          rd_body out = text ((fun '(k, v) => (k, py_str en v)) <$> params) l
  | Raise e => assoc key (tr_defs r') = None /\ exists m, e = EDomain NotFoundError m
  end.
Proof.
  intros Hr H Hl. pose proof (registers_keep lib _ _ _ _ _ Hr H) as Hr'. split; [done|].
  unfold registry_render, registry_get.
  destruct (assoc key (tr_defs r')) as [tdef|] eqn:Ed; [|by split; [|eexists]].
  destruct (Hr' _ _ Ed) as (Hk & base & Hd & Hf). rewrite Hk, Hd. unfold read_file.
  destruct (Hf _ Hl) as [body Hb]. rewrite Hb. simpl. exists tdef, base, body.
  split; [done|]. split; [done|]. split; [done|]. intros l -> Hp. by apply substitute_pieces.
Qed.

Lemma registered_templates_render_witness :
  registry_ok demo_notice_lib demo_templates /\
  text [("reset_url", "u")] [Lit "Link: "; Named "reset_url"] = "Link: u".
Proof.
  assert (E : register_templates demo_notice_lib "auth" AUTH_TEMPLATES "auth" (Templates.mkRegistry [] []) = Ok demo_templates)
    by (vm_compute; reflexivity).
  assert (H0 : registry_ok demo_notice_lib (Templates.mkRegistry [] [])) by (intros k d H; discriminate H).
  split; [|reflexivity].
  exact (proj1 (registered_templates_render demo_notice_lib demo_env "auth" AUTH_TEMPLATES "auth"
    (Templates.mkRegistry [] []) demo_templates PASSWORD_RESET_TEMPLATE "uz" [("reset_url", JStr "u")] H0 E eq_refl)).
Defined.

(** A pass of the dispatcher never loses, doubles or alters a message.
    Every row is still there with the same message, no row appears, a message
    that was sent or is dead stays exactly as it is, and a row was tried at
    most once, and only when it was due. *)
Theorem dispatch_pass_keeps_messages (lib : NoticeLib) (settings : DispatchSettings)
    (registry : TemplateRegistry) (channels : list (string * NotificationChannel))
    (skip : uuid -> bool) (batch : nat) (s : St) :
  (forall code c, assoc code channels = Some c -> ChannelLaws c) ->
  Keyed (R:=NotificationOutbox) (committed s) ->
  let s' := (dispatch_pass lib settings registry channels skip batch s).2 in
  forall i,
    match outbox_of (committed s) !! i with
    | None => outbox_of (committed s') !! i = None
    | Some o => exists o', outbox_of (committed s') !! i = Some o' /\ message_of o' = message_of o /\
        (terminal (ob_status o) = true -> o' = o) /\
        (o' = o \/ is_due (claim_time s) o = true /\ ob_attempts o' = (ob_attempts o + 1)%Z)
    end.
Proof.
  intros Hc Hk s' i. destruct (pass_rows lib settings registry channels Hc skip batch s Hk) as [_ H].
  specialize (H i). destruct (outbox_of (committed s) !! i) as [o|]; [|exact H].
  destruct H as (o' & Ho' & Hp). exists o'. split; [exact Ho'|].
  pose proof (terminal_passed settings _ _ _ _ Hp) as Ht. unfold passed in Hp.
  destruct (dispatch_pass _ _ _ _ _ _ s).1 as [[claimed logged]|e]; simpl in Hp.
  - destruct Hp as [[-> _]|(Hd & Hm & Ha & _)]; auto.
  - destruct Hp as [->|(Hd & Hm & Ha)]; auto.
Qed.

Lemma demo_outbox_keyed : Keyed (R:=NotificationOutbox) (committed demo_st).
Proof. apply ids_b_ok. vm_compute. reflexivity. Qed.

Lemma demo_channel_laws code c : assoc code demo_channels = Some c -> ChannelLaws c.
Proof. apply platform_laws. Qed.

Lemma dispatch_pass_keeps_messages_witness :
  exists o', outbox_of (committed (dispatch_pass demo_notice_lib demo_dispatch demo_templates demo_channels
      (fun _ => false) 50 demo_st).2) !! 90%N = Some o' /\ message_of o' = message_of demo_message.
Proof.
  destruct (dispatch_pass_keeps_messages demo_notice_lib demo_dispatch demo_templates demo_channels
    (fun _ => false) 50 demo_st demo_channel_laws demo_outbox_keyed 90%N) as (o' & Ho & Hm & _).
  exists o'. split; assumption.
Defined.


(** A day's worth of clock readings passes. *)
Definition later (s : St) : St :=
  mkSt (env s) (db s) (committed s) (aborted s) (callbacks s) (published s) (resolved s)
    (n_now s + N.to_nat 90000) (n_uuid s) (n_token s) (n_rival s) (breakers s) (n_http s) (redis s)
    (blobs s) (tokens s).
Definition demo_pass : SM (list ClaimedRow * list uuid) :=
  dispatch_pass demo_notice_lib demo_dispatch demo_templates demo_channels (fun _ => false) 50.
Definition demo_twice : St := (demo_pass (later (demo_pass demo_st).2)).2.


(** A pass that comes in time, has room and meets no unexpected error. *)
Definition in_time (i : uuid) (s : St) : bool :=
  match (demo_pass s).1 with Ok (_, l) => negb (bool_decide (i ∈ l)) | Raise _ => false end
  && match outbox_of (committed s) !! i with
     | Some o => (ob_next_retry_at o <=? claim_time s)%Z | None => true end
  && Nat.leb (length (select (is_due (claim_time s)) (outbox_of (committed s)))) 50.
Abbreviation demo_served := (served demo_notice_lib demo_dispatch demo_templates demo_channels).

Lemma served_in_time i n s0 s :
  demo_served i n s0 s -> in_time i s = true -> demo_served i (S n) s0 (demo_pass s).2.
Proof.
  unfold in_time, demo_pass. intros Hs H. apply andb_prop in H as [H Hl]. apply andb_prop in H as [H Ht].
  destruct (dispatch_pass _ _ _ _ _ _ s) as [[[c l]|e] s1] eqn:E; [|discriminate H].
  eapply served_pass; [exact Hs|exact E| |reflexivity| |].
  - intros o Ho _. rewrite Ho in Ht. by apply Z.leb_le.
  - by apply Nat.leb_le.
  - by apply negb_true_iff, bool_decide_eq_false in H.
Qed.

Lemma served_later i n s0 s :
  demo_served i n s0 s -> Keyed (R:=NotificationOutbox) (committed s) -> demo_served i n s0 (later s).
Proof. intros Hs Hk. eapply served_other; [exact Hs|reflexivity|exact Hk]. Qed.

