(* ===== verification/SystemProps.v ===== *)
(** What holds of every reachable state of the system. *)

From stdpp Require Import base strings gmap list relations.
From Stdlib Require Import ZArith Lia Ascii.
From S2P Require Import Prelude Errors PyLib Calendar Entities Models Events Session SessionFacts Footprints.
From S2P Require Import Accounts Notices Access Journal Tenants TenantsFacts Ports Payments PayFacts DbFacts.
From S2P Require Import Billing Stripe Webhooks WebhookFacts Jobs Commerce CommerceFacts Frames Bodies Routes.
From S2P Require Import Features System SystemFacts Demo.



(** C2: a closed payment is final. A committed payment that succeeded, failed
    or was canceled is never written again; an expired one can only turn into
    the same payment marked as succeeded (the late payment of a checkout). *)
Theorem closed_payments_are_final (app : App) (s s' : St) (i : uuid) (p : Payment) :
  AppLaws app -> RivalOk pay_evo (env s) -> reachable app s s' ->
  payments_of (committed s) !! i = Some p -> is_terminal (p_status p) = true ->
  payments_of (committed s') !! i = Some p \/
  (p_status p = PExpired /\ exists t, payments_of (committed s') !! i = Some (to_succeeded t p)).
Proof.
  intros Ha Hr Hs Hp Ht. destruct (reachable_kept app _ _ commits_payments _ _ Hs) as [_ H].
  destruct (H Hr) as [Ho _]. destruct (Ho i p Hp) as (p' & Hp' & Hpath).
  destruct (decide (p_status p = PExpired)) as [He|He].
  - apply pay_path_expired in Hpath as [->|[t ->]]; [by left|right; eauto|done].
  - left. by rewrite (pay_path_terminal _ _ Hpath Ht He) in Hp'.
Qed.

Lemma closed_payments_are_final_witness :
  payments_of (committed (serve demo_app (PaymeWebhook demo_raw) demo_st).2) !! 21%N = Some demo_canceled \/
  (p_status demo_canceled = PExpired /\
   exists t, payments_of (committed (serve demo_app (PaymeWebhook demo_raw) demo_st).2) !! 21%N
     = Some (to_succeeded t demo_canceled)).
Proof.
  apply (closed_payments_are_final demo_app demo_st _ 21%N demo_canceled demo_laws
    (demo_rivals pay_evo) (rtc_once _ _ (sys_serve demo_app (PaymeWebhook demo_raw) demo_st)));
    reflexivity.
Defined.





(** Organizations: the owner's seat and what a role grants. *)


Lemma demo_seats : seats demo_db.
Proof.
  split; try (apply ids_b_ok; vm_compute; reflexivity).
  - intros r ro H. change (roles_of demo_db) with
      ({[60%N := demo_owner_role; 61%N := demo_admin_role]} : gmap N Role) in H.
    apply lookup_insert_Some in H as [[_ <-]|[_ H]]; [reflexivity|].
    apply lookup_singleton_Some in H as [_ <-]. reflexivity.
  - intros i t H. change (tenant_rows demo_db) with ({[demo_tenant := demo_shop]} : gmap N Tenant) in H.
    apply lookup_singleton_Some in H as [<- _]. exists 70%N, demo_seat. split; [reflexivity|].
    split; [reflexivity|]. by exists 60%N, demo_owner_role.
Qed.


(** C14: the database grants what the code declares. After the startup sync,
    resolving the permissions of an active member of an active organization
    through the role tables gives exactly the codes declared for the member's
    system role, whatever the tables held before. *)
Theorem roles_grant_what_is_declared (reg : PermissionRegistry) (grants : Grants) (s s1 : St) :
  no_rivals (env s) -> Keyed (R:=Role) (committed s) -> NoDup grants.*1 ->
  sync_system_roles reg grants (uow_enter s) = (Ok tt, s1) ->
  forall self code declared i m r ro,
    (code, declared) ∈ grants ->
    members_of (committed s1) !! i = Some m -> mb_status m = MActive ->
    tenant_active (committed s1) (mb_tenant_id m) = true ->
    c_tenant_id (tns_ctx self) = Some (mb_tenant_id m) ->
    roles_of (committed s1) !! r = Some ro -> is_system_role code ro = true -> mb_role_id m = ro_id ro ->
    get_permission_codes self (mb_user_id m) (uow_enter s1) = (Ok declared, uow_enter s1).
Proof.
  intros Hn Hk Hnd H. by apply (synced_codes reg grants s).
Qed.

Definition demo_catalog : PermissionRegistry := (register "tenants" TENANTS_PERMISSIONS empty_registry).2.
Definition demo_grants : Grants := match system_role_grants with Ok g => g | Raise _ => [] end.

Lemma roles_grant_what_is_declared_witness :
  get_permission_codes (app_tenants demo_app demo_ctx) demo_user
    (uow_enter (sync_system_roles demo_catalog demo_grants (uow_enter demo_st)).2) =
  (Ok ALL_TENANT_PERMISSIONS,
   uow_enter (sync_system_roles demo_catalog demo_grants (uow_enter demo_st)).2).
Proof.
  assert (Hk : Keyed (R:=Role) (committed demo_st)) by (apply ids_b_ok; vm_compute; reflexivity).
  assert (H : (sync_system_roles demo_catalog demo_grants (uow_enter demo_st)).1 = Ok tt)
    by (vm_compute; reflexivity).
  set (s1 := (sync_system_roles demo_catalog demo_grants (uow_enter demo_st)).2).
  assert (E : sync_system_roles demo_catalog demo_grants (uow_enter demo_st) = (Ok tt, s1)).
  { rewrite (surjective_pairing (sync_system_roles _ _ _)), H. reflexivity. }
  apply (roles_grant_what_is_declared demo_catalog demo_grants demo_st s1 demo_no_rivals Hk)
    with (code := ROLE_OWNER) (i := 70%N) (m := demo_seat) (r := 60%N) (ro := demo_owner_role).
  - apply (bool_decide_unpack _). vm_compute. exact I.
  - exact E.
  - apply (bool_decide_unpack _). vm_compute. exact I.
  - vm_compute. reflexivity.
  - reflexivity.
  - vm_compute. reflexivity.
  - reflexivity.
  - vm_compute. reflexivity.
  - reflexivity.
  - reflexivity.
Defined.
