(* ===== verification/WebhookProps.v ===== *)
(** What a payment provider's callback can and cannot do. *)

From stdpp Require Import base strings gmap list relations pretty.
From Stdlib Require Import ZArith Lia Ascii.
From S2P Require Import Prelude Errors Resilience PyLib Calendar Entities Models Events Session SessionFacts.
From S2P Require Import Notices ResilienceFacts Access Journal Ports Payments PayFacts DbFacts Billing.
From S2P Require Import Activation Payme Click Stripe AdapterFacts Webhooks WebhookFacts Isolation Jobs.
From S2P Require Import Commerce CommerceFacts Frames Bodies Routes System SystemFacts Demo.

(** One delivery: the transaction of [process]. *)
Definition delivery (wp : WebhookProcessor) (code : string) (cb : ProviderCallback)
    (raw : RawWebhook) : SM CallbackOutcome := with_uow (dispatch wp code cb raw).

(** A delivery that answers committed what its body did. *)
Lemma delivery_Ok wp code cb raw s o s' :
  no_rivals (env s) -> delivery wp code cb raw s = (Ok o, s') ->
  exists s1, dispatch wp code cb raw (uow_enter s) = (Ok o, s1) /\ committed s' = db s1 /\
    env s' = env s /\ db_ok (db s1) = true /\ db_ranges (db s1) = true.
Proof.
  intros Hr H. pose proof (moves_dispatch wp code cb raw) as Hm.
  assert (He : env s' = env s).
  { replace s' with (delivery wp code cb raw s).2 by by rewrite H. apply uow_env.
    by destruct (Hm (uow_enter s)). }
  destruct (with_uow_cases pay_evo _ s Hm Hr)
    as [(a & s1 & Eb & _ & Hrg & Hok & E1 & E2 & _)|(e & E1 & _)];
    unfold delivery in H; rewrite H in *; simpl in *; [|done].
  injection E1 as ->. by exists s1.
Qed.

Lemma dispatch_keyed wp code cb raw s o s1 :
  no_rivals (env s) -> keyed (committed s) ->
  dispatch wp code cb raw (uow_enter s) = (Ok o, s1) -> keyed (db s1).
Proof.
  intros Hr Hk E. pose proof (runs_dispatch keyed_evo wp code cb raw (uow_enter s)) as (_ & H & _).
  rewrite E in H. apply H; [|done]. intros k d. simpl. rewrite Hr. reflexivity.
Qed.

(** C10: a forged callback touches nothing but the journal. When the signature
    is not valid, the answer says so, and the committed database is the same
    up to one journal row marked as rejected and bound to no payment. *)
Theorem forged_callback_only_journaled (wp : WebhookProcessor) (code : string)
    (cb : ProviderCallback) (raw : RawWebhook) (s s' : St) (o : CallbackOutcome) :
  no_rivals (env s) -> cb_signature_valid cb = false ->
  delivery wp code cb raw s = (Ok o, s') ->
  oc_status o = OutInvalidSignature /\
  (committed s' = committed s \/
   exists w, committed s' = t_put w (committed s) /\ hooks_of (committed s) !! w_id w = None /\
     w_status w = WRejected /\ w_payment_id w = None) /\
  payments_of (committed s') = payments_of (committed s) /\
  subs_of (committed s') = subs_of (committed s).
Proof.
  intros Hr Hv H. apply delivery_Ok in H as (s1 & Ed & Hc & _); [|done]. rewrite Hc.
  apply dispatch_forged in Ed as [Ho Hj]; [|done|done]. simpl in Hj. split; [done|].
  destruct Hj as [->|(w & x & -> & Hn & _ & _ & Hst & Hpid)]; [by repeat split; auto|].
  split; [right; by exists w|done].
Qed.

Lemma forged_callback_only_journaled_witness :
  exists o s', delivery demo_wp "payme" demo_forged demo_raw demo_st = (Ok o, s') /\
    oc_status o = OutInvalidSignature /\
    payments_of (committed s') = payments_of (committed demo_st).
Proof.
  destruct (run_is_ok (delivery demo_wp "payme" demo_forged demo_raw) demo_st) as (o & s' & E);
    [vm_compute; reflexivity|].
  exists o, s'. split; [exact E|].
  destruct (forged_callback_only_journaled demo_wp "payme" demo_forged demo_raw demo_st s' o
    demo_no_rivals eq_refl E)
    as (H1 & _ & H2 & _). exact (conj H1 H2).
Defined.

(** A forged callback never blocks an authentic one. Its journal row is
    kept under a key no authentic callback can have, so a deduplication key
    is taken after the forged delivery only if it was taken before. SHA-256
    in hexadecimal is 64 hexadecimal digits. *)
Theorem forged_callback_takes_no_key (wp : WebhookProcessor) (code : string)
    (cb authentic : ProviderCallback) (raw : RawWebhook) (s s' : St) (o : CallbackOutcome) :
  no_rivals (env s) -> (forall x, hex_digest (sha256_hex (env s) x)) ->
  cb_signature_valid cb = false -> delivery wp code cb raw s = (Ok o, s') ->
  forall code', claimed code' (dedup_key authentic) (committed s') <->
                claimed code' (dedup_key authentic) (committed s).
Proof.
  intros Hr Hx Hv H code'. apply delivery_Ok in H as (s1 & Ed & Hc & _); [|done]. rewrite Hc.
  apply dispatch_forged in Ed as [_ Hj]; [|done|done]. simpl in Hj.
  destruct Hj as [->|(w & x & -> & Hn & _ & Hkey & _)]; [done|].
  assert (Hf : same_key code' (dedup_key authentic) w = false).
  { unfold same_key. rewrite Hkey, (bool_decide_false (rejected_key _ = _));
      [by rewrite andb_false_r|]. apply rejected_key_not_dedup, Hx. }
  unfold claimed, hooks_of, t_put. simpl. split; intros (i & v & Hi & Hk).
  - rewrite lookup_insert in Hi. case_decide; simplify_eq; [congruence|eauto].
  - exists i, v. split; [|done]. rewrite lookup_insert_ne; [done|].
    intros Heq. unfold t_id, hooks_of in *. simpl in *. congruence.
Qed.

Lemma demo_digest_hex x : hex_digest (demo_digest x).
Proof. split; [apply length_hex_digits|apply hex_digits_all]. Qed.

Lemma forged_callback_takes_no_key_witness :
  exists o s', delivery demo_wp "payme" demo_forged demo_raw demo_st = (Ok o, s') /\
    (claimed "payme" (dedup_key demo_confirm) (committed s') <->
     claimed "payme" (dedup_key demo_confirm) (committed demo_st)).
Proof.
  destruct (run_is_ok (delivery demo_wp "payme" demo_forged demo_raw) demo_st) as (o & s' & E);
    [vm_compute; reflexivity|].
  exists o, s'. split; [exact E|].
  apply (forged_callback_takes_no_key demo_wp "payme" demo_forged demo_confirm demo_raw demo_st s' o
    demo_no_rivals demo_digest_hex eq_refl E).
Defined.



(** A callback reaches one payment and its tenant only. Whatever a
    delivery commits, either payments and subscriptions are untouched, or
    there is one payment of the callback's provider, found in our own records,
    whose amount agrees with the callback's, such that no other payment
    changes, its identity does not, and only subscriptions of its tenant do. *)
Theorem callback_reaches_one_tenant (wp : WebhookProcessor) (code : string)
    (cb : ProviderCallback) (raw : RawWebhook) (s : St) :
  no_rivals (env s) -> keyed (committed s) ->
  bounded_reach cb (committed s) (committed (delivery wp code cb raw s).2).
Proof.
  intros Hr Hk.
  destruct (with_uow_cases pay_evo _ s (moves_dispatch wp code cb raw) Hr)
    as [(a & s1 & E & _ & _ & _ & _ & Hc & _)|(e & _ & Hc & _)]; unfold delivery; rewrite Hc; [|by left].
  pose proof (dispatch_reach wp code cb raw (uow_enter s) Hr (k_pay _ Hk) (k_sub _ Hk)) as H.
  by rewrite E in H.
Qed.

Lemma callback_reaches_one_tenant_witness :
  bounded_reach demo_confirm demo_db
    (committed (delivery demo_wp "payme" demo_confirm demo_raw demo_st).2).
Proof.
  apply (callback_reaches_one_tenant demo_wp "payme" demo_confirm demo_raw demo_st
    demo_no_rivals demo_keyed).
Defined.

(** What the payment providers can rely on, and what we rely on from them. *)

(** Nothing happens outside the delivery's transaction. *)
Lemma handle_cases wp code raw s :
  no_rivals (env s) -> registry_ok (wp_providers wp) ->
  (committed (handle wp code raw s).2 = committed s) \/
  (exists p cb s1, assoc code (wp_providers wp) = Some p /\
     pv_parse_webhook p raw s = (Ok cb, s1) /\ env s1 = env s /\ committed s1 = committed s /\
     committed (handle wp code raw s).2 = committed (with_uow (dispatch wp code cb raw) s1).2).
Proof.
  intros Hr Hreg.
  assert (Hh : committed (handle wp code raw s).2 = committed (process wp code raw s).2).
  { unfold handle, catch. destruct (process wp code raw s) as [[r|e] s']; [done|].
    destruct e; try done. by destruct (subclass _ _). }
  rewrite Hh. unfold process. destruct (assoc code _) as [p|] eqn:Ea; [|by left].
  destruct (Hreg code p Ea) as [Hl _]. pose proof (law_parse_quiet raw s) as (E1 & _ & C1 & _).
  unfold bind. destruct (pv_parse_webhook p raw s) as [[cb|e] s1] eqn:Ep; simpl in *; [|by left].
  right. exists p, cb, s1. split; [done|]. split; [done|]. split; [done|]. split; [done|].
  destruct (with_uow (dispatch wp code cb raw) s1) as [[o|e] s2]; simpl; [|done].
  pose proof (law_response_quiet o s2) as (_ & _ & C2 & _).
  destruct (pv_build_webhook_response p o s2) as [[resp|e] s3]; simpl in *; by rewrite C2.
Qed.

(** C20: only authentic requests move money. When a webhook request changes
    any payment or subscription, it carried the credentials configured for
    its provider: the merchant's Basic credentials for Payme, the form signed
    with the secret key for Click, a fresh HMAC over the body for Stripe. *)
Theorem only_authentic_requests_move_money (settings : Settings) (cfg : ProviderSettings)
    (l : list (string * PaymentProvider)) (code : string) (raw : RawWebhook) (s : St) :
  no_rivals (env s) -> build_payment_providers settings cfg = Ok l ->
  let run := handle (mkProcessor l settings) code raw s in
  payments_of (committed run.2) ≠ payments_of (committed s) \/
  subs_of (committed run.2) ≠ subs_of (committed s) ->
  authentic cfg code (env s) raw.
Proof.
  intros Hr Hb run Hne. unfold run in *. clear run.
  destruct (handle_cases (mkProcessor l settings) code raw s Hr (build_payment_providers_ok _ _ _ Hb))
    as [Hc|(p & cb & s1 & Ha & Hp & E1 & C1 & Hc)]; rewrite Hc in Hne; [by destruct Hne|].
  rewrite <- C1 in Hne.
  destruct (cb_signature_valid cb) eqn:Hv.
  { eapply provider_callback_authentic; [by eapply build_provider_for|exact Hp|done]. }
  exfalso. destruct (with_uow_cases pay_evo _ s1 (moves_dispatch (mkProcessor l settings) code cb raw))
    as [(o & s2 & Ed & _ & _ & _ & _ & -> & _)|(e & _ & -> & _)] in Hne; [by rewrite E1| |by destruct Hne].
  apply dispatch_forged in Ed as [_ Hj]; [|by rewrite <- E1 in Hr|done]. simpl in Hj.
  destruct Hj as [->|(w & x & -> & _)] in Hne; by destruct Hne.
Qed.

Lemma only_authentic_requests_move_money_witness :
  authentic demo_provider_settings "payme" demo_env demo_raw.
Proof.
  apply (only_authentic_requests_move_money demo_settings demo_provider_settings demo_all "payme"
    demo_raw demo_st demo_no_rivals demo_built).
  assert (H0 : p_status <$> payments_of (committed demo_st) !! 20%N = Some PPending) by reflexivity.
  assert (H' : p_status <$> payments_of (committed
    (handle (mkProcessor demo_all demo_settings) "payme" demo_raw demo_st).2) !! 20%N = Some PSucceeded)
    by (vm_compute; reflexivity).
  left. intros H. rewrite H, H0 in H'. discriminate H'.
Defined.

(** Amounts survive the trip to the provider. What a callback reports for
    the amount we asked for, in Payme's tiyin or Click's sums, is read back as
    exactly the payment's amount. *)
Theorem amounts_survive_the_provider (z : Z) :
  (0 <= z)%Z ->
  (forall tiyin, to_tiyin (mkMoney z PAYME_CURRENCY) = Ok tiyin ->
     minor_units_from_tiyin (JInt tiyin) = Ok z) /\
  (forall sum, to_sum_amount (mkMoney z CLICK_CURRENCY) = Ok sum -> minor_units_from_sum sum = Ok z).
Proof.
  intros Hz. split; [intros t; by apply tiyin_round_trip|intros x; by apply sum_round_trip].
Qed.

Lemma amounts_survive_the_provider_witness :
  minor_units_from_tiyin (JInt 100000) = Ok 1000%Z /\ minor_units_from_sum "1000" = Ok 1000%Z.
Proof.
  destruct (amounts_survive_the_provider 1000) as [H1 H2]; [lia|].
  exact (conj (H1 100000%Z eq_refl) (H2 "1000" eq_refl)).
Defined.

(** A Stripe checkout is created at most once. Taking a checkout sends at
    most one request to the Stripe API, whatever the API answers: a lost
    answer is never followed by a second session. *)
Theorem stripe_checkout_posts_at_most_once (cfg : StripeConfig) (payment : PaymentDTO)
    (url : option string) (s : St) :
  (n_http (stripe_create_checkout cfg payment url s).2 <= S (n_http s))%nat.
Proof. apply stripe_posts_once. Qed.

(** Every configured provider keeps the port's contract. A provider built
    from the settings is registered under its own code, answers a checkout
    for the payment it was given, names itself in its callbacks, and touches
    neither the session's rows nor its pending events. *)
Theorem configured_providers_keep_contract (settings : Settings) (cfg : ProviderSettings)
    (l : list (string * PaymentProvider)) (code : string) (p : PaymentProvider) :
  build_payment_providers settings cfg = Ok l -> assoc code l = Some p ->
  pv_code p = code /\
  (forall pay url s c s', pv_create_checkout p pay url s = (Ok c, s') ->
     co_payment_id c = pd_id pay /\ co_provider c = code /\ db s' = db s) /\
  (forall raw s cb s', pv_parse_webhook p raw s = (Ok cb, s') ->
     cb_provider cb = code /\ db s' = db s).
Proof.
  intros Hb Ha. destruct (build_payment_providers_ok _ _ _ Hb _ _ Ha) as [Hl Hc].
  split; [done|]. rewrite <- Hc. split.
  - intros pay url s c s' E. pose proof (quiet_db _ _ _ _ (law_checkout_quiet pay url) E) as (_ & Hd & _).
    apply law_checkout in E as [H1 H2]. auto.
  - intros raw s cb s' E. pose proof (quiet_db _ _ _ _ (law_parse_quiet raw) E) as (_ & Hd & _).
    apply law_callback in E. auto.
Qed.

Lemma configured_providers_keep_contract_witness :
  exists p, assoc "click" demo_all = Some p /\ pv_code p = "click".
Proof.
  assert (H : bool_decide (is_Some (assoc "click" demo_all)) = true) by (vm_compute; reflexivity).
  apply bool_decide_eq_true in H as [p Hp]. exists p. split; [exact Hp|].
  apply (configured_providers_keep_contract demo_settings demo_provider_settings demo_all "click" p
    demo_built Hp).
Defined.

(** Amounts the adapters cannot read. A paid Stripe session whose total
    is not a non-negative integer, and a Click amount that is not a number or
    infinite, raise out of the parsers instead of becoming an amount that
    never reconciles; so does a Payme failure code such as --5 out of the
    answer. Any other text Click sends is either an amount or refused with
    a provider error, which its parser turns into zero. *)
Theorem unreadable_amounts_escape :
  (forall en event obj, assoc "payment_status" obj = Some (JStr "paid") ->
     (forall z, assoc "amount_total" obj = Some (JInt z) -> (z < 0)%Z) ->
     stripe_normalize en event EVENT_COMPLETED obj =
     Raise (EDomain PaymentProviderError "invalid Stripe amount")) /\
  minor_units_from_sum "NaN" = Raise EDecimal /\
  minor_units_from_sum "Infinity" = Raise EOverflow /\
  (forall p, payme_state p = STATE_CANCELED -> pd_failure_code p = Some "--5" ->
     payme_reason p = Raise EValue) /\
  (forall v, match parse_decimal v with Some DNaN | Some (DInf false) => True
             | _ => (exists z, minor_units_from_sum v = Ok z /\ (0 <= z)%Z) \/
                    exists d, minor_units_from_sum v = Raise (EDomain PaymentProviderError d) end).
Proof.
  split; [|split; [done|split; [done|split]]].
  - intros en event obj Hp Ha. unfold stripe_normalize. rewrite Hp. simpl.
    unfold minor_units_from_stripe. destruct (assoc "amount_total" obj) as [[]|]; try done.
    specialize (Ha _ eq_refl). by rewrite (proj2 (Z.ltb_lt _ _) Ha).
  - intros p Hs Hf. unfold payme_reason. by rewrite Hs, Hf.
  - intros v. unfold minor_units_from_sum, provider_error.
    destruct (parse_decimal v) as [[neg c e|[]|]|] eqn:Ed; try done; try (right; by eexists).
    apply parse_decimal_nonneg in Ed. destruct (_ || _); [right; by eexists|left].
    eexists. split; [done|]. destruct (Z.ltb_spec e 0); [apply Z.div_pos; lia|].
    apply Z.mul_nonneg_nonneg; [done|]. apply Z.pow_nonneg; lia.
Qed.
