(* ===== verification/BillingProps.v ===== *)
(** What billing promises about payments and subscriptions. *)

From stdpp Require Import base strings gmap list relations sorting.
From Stdlib Require Import ZArith Lia Ascii.
From S2P Require Import Prelude Errors PyLib Calendar Entities Models Events Session SessionFacts.
From S2P Require Import Access Journal Ports Payments PayFacts DbFacts Activation Billing.
From S2P Require Import Billing Payme Stripe Webhooks WebhookFacts Isolation Intake.
From S2P Require Import Jobs Settlement Notices Commerce CommerceFacts Frames Bodies Routes System.
From S2P Require Import SystemFacts Demo.

Open Scope Z_scope.


Lemma demo_fresh : fresh_ids (uow_enter demo_st).
Proof. intros n _. split; [reflexivity|]. intros j a Ha. vm_compute in Ha. discriminate. Qed.

Lemma demo_acts : acts demo_confirm.
Proof. split; [done|]. apply (bool_decide_eq_true_1 _). by vm_compute. Qed.

Lemma demo_unclaimed : ~ claimed "payme" (dedup_key demo_confirm) demo_db.
Proof. intros (i & w & Hi & _). vm_compute in Hi. discriminate. Qed.

Lemma demo_names : names demo_confirm demo_payment.
Proof. split; [done|]. right. split; [done|]. by exists "txn-1". Qed.

Lemma demo_years j x : subs_of demo_db !! j = Some x -> s_current_period_end x < LAST_YEAR.
Proof.
  intros Hx. apply Z.ltb_lt. revert j x Hx. apply all_rows_spec. vm_compute. reflexivity.
Qed.


(** C23: the sweep works off the backlog of abandoned checkouts. It ends well,
    answers how many checkouts it expired, and takes the oldest ones first, a
    whole batch while the backlog has one: exactly those leave the backlog and
    are committed as expired, every other payment stays as it was; of the
    subscriptions exactly the pending ones those checkouts were for are closed
    as expired, so that their organizations can subscribe again; and the
    expiry of each is announced once, in that order. *)
Theorem abandoned_checkouts_expire (settings : Settings) (s : St) :
  no_rivals (env s) -> sound (committed s) -> fresh_ids (uow_enter s) -> draws_differ (env s) ->
  let cutoff := clock s - timedelta_seconds (payment_checkout_ttl_seconds settings) in
  (forall p, p ∈ backlog cutoff (committed s) -> p_purpose p = "subscription" -> is_Some (pays_for p)) ->
  let run := expire_stale_checkouts settings s in
  exists expired events,
    run.1 = Ok (Z.of_nat (length expired)) /\
    length expired = Nat.min SWEEP_BATCH (length (backlog cutoff (committed s))) /\
    backlog cutoff (committed s) ≡ₚ expired ++ backlog cutoff (committed run.2) /\
    (forall p q, p ∈ expired -> q ∈ backlog cutoff (committed run.2) -> p_created_at p <= p_created_at q) /\
    (forall p, p ∈ expired ->
       exists t, payments_of (committed run.2) !! p_id p = Some (to_closed PExpired None t p)) /\
    (forall i, i ∉ p_id <$> expired -> payments_of (committed run.2) !! i = payments_of (committed s) !! i) /\
    (forall sid, subs_of (committed run.2) !! sid = swept expired sid <$> subs_of (committed s) !! sid) /\
    published run.2 = published s ++ events /\ Forall2 announces_expiry expired events.
Proof.
  intros Hr (Hok & Hrg & Hk) Hf Hdd cutoff Hpf run.
  assert (Hh : healthy (uow_enter s)) by by apply healthy_enter.
  set (sorted := order_asc p_created_at (backlog cutoff (committed s))).
  set (expired := take SWEEP_BATCH sorted).
  assert (Hperm : sorted ≡ₚ backlog cutoff (committed s)) by apply merge_sort_Permutation.
  assert (Hnd : NoDup (p_id <$> expired)).
  { apply (sublist_NoDup _ (p_id <$> sorted)); [rewrite Hperm; by apply backlog_NoDup|].
    apply fmap_sublist. apply sublist_take. }
  assert (Hsplit : expired ++ drop SWEEP_BATCH sorted ≡ₚ backlog cutoff (committed s)).
  { unfold expired. by rewrite take_drop. }
  destruct (expire_all_run settings expired (scanned (tick s)) 0) as (s' & events & E & Hh' & Hcl & Hot & Hsu & Hpb & Hev);
    [done|done|done|done|done| |].
  { intros p Hp. assert (Hb : p ∈ backlog cutoff (committed s)) by (rewrite <- Hsplit; set_solver).
    pose proof (Hpf _ Hb) as Hs. apply elem_of_backlog in Hb as (H1 & H2 & _); done. }
  assert (Erun : run = (Ok (Z.of_nat (length expired)), s')).
  { unfold run, expire_stale_checkouts. erewrite bind_Ok by apply now_run.
    erewrite bind_Ok; [unfold count_m; exact E|]. apply uow_read; [|done]. unfold sys_find.
    erewrite bind_Ok; [reflexivity|]. erewrite bind_Ok by (by apply query_run). reflexivity. }
  rewrite Erun. exists expired, events.
  pose proof (backlog_shrinks cutoff (committed s) (committed s') expired _ Hk (h_keyed _ Hh') Hsplit Hcl Hot) as Hleft.
  split; [done|]. split; [unfold expired; by rewrite length_take, Hperm|].
  split; [by rewrite Hleft, Hsplit|]. split; [|by rewrite <- (app_nil_r (published s))].
  intros p q Hp Hq. rewrite Hleft in Hq.
  assert (Hs : StronglySorted (le_by p_created_at) (expired ++ drop SWEEP_BATCH sorted)).
  { unfold expired. rewrite take_drop. apply Sorted_StronglySorted; [apply _|]. apply Sorted_merge_sort. apply _. }
  exact (StronglySorted_app_1_elem_of _ _ _ _ _ Hs Hp Hq).
Qed.

(** Two hours later the pending checkout has been abandoned. *)
Definition demo_later : St := mkSt demo_env demo_db demo_db false [] [] ∅ 7200 0 0 0 ∅ 0 ∅ ∅ ∅.

Lemma abandoned_checkouts_expire_witness :
  (expire_stale_checkouts demo_settings demo_later).1 = Ok 1 /\
  subs_of (committed (expire_stale_checkouts demo_settings demo_later).2) !! 10%N
  = Some (sub_closed SExpired None demo_sub).
Proof.
  set (cutoff := clock demo_later - timedelta_seconds 3600).
  assert (Hb : backlog cutoff demo_db = [demo_payment]) by (vm_compute; reflexivity).
  destruct (abandoned_checkouts_expire demo_settings demo_later demo_no_rivals demo_sound demo_fresh demo_draws)
    as (expired & events & Hrun & Hlen & Hleft & _ & _ & _ & Hsub & _).
  { intros p Hp _. change (p ∈ backlog cutoff demo_db) in Hp. rewrite Hb in Hp. apply list_elem_of_singleton in Hp as ->.
    exists 10%N. reflexivity. }
  change (length expired = Nat.min SWEEP_BATCH (length (backlog cutoff demo_db))) in Hlen.
  change (backlog cutoff demo_db ≡ₚ expired ++ backlog cutoff (committed (expire_stale_checkouts demo_settings demo_later).2))
    in Hleft.
  rewrite Hb in Hlen, Hleft. destruct expired as [|p [|q l]]; [discriminate Hlen| |discriminate Hlen].
  assert (Hp : p ∈ [demo_payment]) by (rewrite Hleft; left). apply list_elem_of_singleton in Hp as ->.
  split; [exact Hrun|]. rewrite (Hsub 10%N). vm_compute. reflexivity.
Defined.

(** A sweep leaves a closed payment alone. A payment that a callback
    closed between the scan and the sweep is not written, and nothing is
    announced. *)
Theorem closed_checkout_not_expired (settings : Settings) (pid tid : uuid) (s : St) (p : Payment) :
  no_rivals (env s) -> sound (committed s) ->
  payments_of (committed s) !! pid = Some p -> is_open p = false ->
  (expire_one settings (pid, tid) s).1 = Ok false /\
  committed (expire_one settings (pid, tid) s).2 = committed s /\
  published (expire_one settings (pid, tid) s).2 = published s.
Proof. intros Hr (Hok & Hrg & Hk) Hp Ho. by apply expire_one_closed with (p:=p). Qed.

Lemma closed_checkout_not_expired_witness :
  (expire_one demo_settings (21%N, demo_tenant) demo_st).1 = Ok false /\
  committed (expire_one demo_settings (21%N, demo_tenant) demo_st).2 = demo_db /\
  published (expire_one demo_settings (21%N, demo_tenant) demo_st).2 = [].
Proof.
  apply (closed_checkout_not_expired demo_settings 21%N demo_tenant demo_st demo_canceled
    demo_no_rivals demo_sound); reflexivity.
Defined.

(** A checkout is for the payment that was asked for. When taking a
    payment answers, the named payment is in the database with exactly the
    requested amount, currency, purpose, reference and provider, under the
    caller's tenant and idempotency key; also when the answer is a replay or
    the winner of a race. *)
Theorem checkout_matches_request (ps : PaymentService) (amount : Money)
    (purpose reference provider key : string) (url : option string) (sub : option uuid)
    (s s' : St) (c : CheckoutDTO) :
  no_rivals (env s) -> providers_ok ps -> Keyed (R:=Payment) (db s) ->
  create_payment ps amount purpose reference provider key url sub s = (Ok c, s') ->
  exists p, payments_of (db s') !! co_payment_id c = Some p /\
    payment_request p = (m_amount amount, m_currency amount, purpose, reference, provider) /\
    p_tenant_id p = ps_tenant ps /\ p_idempotency_key p = key.
Proof.
  intros Hr Hps Hk H.
  destruct (create_payment_Ok ps amount purpose reference provider key url sub s c s' Hr Hps Hk H)
    as (p & Hp & Hreq & Ht & Hkey). by exists p.
Qed.

Lemma demo_providers_ok : providers_ok demo_ps.
Proof.
  intros code p H. cbn [ps_providers demo_ps demo_providers assoc] in H.
  case_bool_decide; [|done]. injection H as <-. apply _.
Qed.

Lemma checkout_matches_request_witness :
  exists c s' p,
    create_payment demo_ps (mkMoney 700 "UZS") "commerce.order" "ref" "payme" "key-1" None None demo_st
    = (Ok c, s') /\ payments_of (db s') !! co_payment_id c = Some p /\
    payment_request p = (700, "UZS", "commerce.order", "ref", "payme").
Proof.
  destruct (run_is_ok (create_payment demo_ps (mkMoney 700 "UZS") "commerce.order" "ref" "payme"
    "key-1" None None) demo_st) as (c & s' & E); [vm_compute; reflexivity|].
  destruct (checkout_matches_request demo_ps (mkMoney 700 "UZS") "commerce.order" "ref" "payme" "key-1"
    None None demo_st s' c demo_no_rivals demo_providers_ok (k_pay _ demo_keyed) E)
    as (p & H1 & H2 & _). exists c, s', p. exact (conj E (conj H1 H2)).
Defined.

(** An idempotency key is honoured. A repeated request writes nothing
    and names the first payment; a request that differs in amount, currency,
    purpose, reference or provider is refused as a conflict. *)
Theorem repeated_request_replays (ps : PaymentService) (amount : Money)
    (purpose reference provider key : string) (url : option string) (sub : option uuid)
    (adapter : PaymentProvider) (s : St) (i : uuid) (p : Payment) :
  let request := (m_amount amount, m_currency amount, purpose, reference, provider) in
  let run := create_payment ps amount purpose reference provider key url sub s in
  assoc provider (ps_providers ps) = Some adapter -> 0 < m_amount amount ->
  (forall s, validate_return_url url s = (Ok tt, s)) ->
  healthy s -> payments_of (db s) !! i = Some p ->
  p_tenant_id p = ps_tenant ps -> p_idempotency_key p = key ->
  db run.2 = db s /\
  (payment_request p ≠ request ->
     run.1 = Raise (EDomain ConflictError "idempotency key already used for a different payment")) /\
  (forall c, run.1 = Ok c -> payment_request p = request /\ co_payment_id c = i).
Proof.
  intros request run Ha Hpos Hu Hh Hp Ht Hk. unfold run.
  rewrite (create_repeat ps amount purpose reference provider key url sub adapter Ha Hpos Hu s i p)
    by (try apply Hh; done). fold request.
  split; [by destruct (quiet_replay p request s) as (_ & ? & _)|]. split.
  - intros Hne. unfold the_request. by rewrite replay_conflict.
  - intros c Hc. destruct (replay_checkout p _ s) as [r s'] eqn:E. simpl in Hc. subst r.
    apply replay_inv in E as (_ & Hreq & Hid & _). split; [done|]. rewrite Hid.
    exact (k_pay _ (h_keyed _ Hh) _ _ Hp).
Qed.

Lemma repeated_request_replays_witness :
  (create_payment demo_ps (mkMoney 999 "UZS") "subscription" (uuid_str 10) "payme" "subscription:10"
     None None demo_st).1
  = Raise (EDomain ConflictError "idempotency key already used for a different payment").
Proof.
  apply (repeated_request_replays demo_ps (mkMoney 999 "UZS") "subscription" (uuid_str 10) "payme"
    "subscription:10" None None demo_payme demo_st 20%N demo_payment); try reflexivity.
  - exact demo_healthy.
  - intros H. apply (f_equal (fun x => x.1.1.1.1)) in H. vm_compute in H. discriminate.
Defined.


Lemma demo_key_free j p : payments_of demo_db !! j = Some p -> ~ keyed_by demo_ps "key-1" p.
Proof.
  intros Hp [_ Hk].
  assert (H : all_rows (fun p => negb (bool_decide (p_idempotency_key p = "key-1")))
                (payments_of demo_db) = true) by (vm_compute; reflexivity).
  eapply all_rows_spec in H; [|exact Hp]. apply negb_true_iff, bool_decide_eq_false in H. done.
Qed.


(** A free subscription never lapses. At the end of its period it is
    rolled forward, in finitely many steps and without fail, to the
    consecutive period that contains the present, and it is active. *)
Theorem free_subscription_rolls_forward (bs : BillingService) (i : uuid) (fallback : option string)
    (s : St) (sub : Subscription) (pl : Plan) :
  healthy s -> subs_of (db s) !! i = Some sub ->
  c_tenant_id (bs_ctx bs) = Some (s_tenant_id sub) -> live (s_status sub) = true ->
  0 <= s_current_period_end sub <= clock s -> clock s < LAST_YEAR ->
  b_plans (d_billing (db s)) !! s_plan_id sub = Some pl -> pl_price_amount pl = 0 ->
  s_cancel_at_period_end sub = false ->
  exists sub', close_ended_period bs i fallback s = (Ok true, st_db (with_sub i sub') (tick s)) /\
    sub_frame sub sub' /\ s_status sub' = SActive /\
    s_current_period_start sub' <= clock s < s_current_period_end sub' /\
    period_end (s_current_period_start sub') (pl_period pl) = Ok (s_current_period_end sub').
Proof.
  intros Hh Hi Ht Hl He Hc Hpl Hp0 Hfl.
  destruct (close_ended_period_free bs i fallback s sub pl Hh Hi Ht Hl He Hc Hpl Hp0 Hfl)
    as (s' & (_ & Hper & Hend) & Hrun & _).
  exists (rolled_active sub s'). split; [exact Hrun|]. split; [done|]. split; [done|].
  split; [exact Hper|exact Hend].
Qed.

Definition demo_bs : BillingService :=
  mkBilling (job_ctx (Some demo_tenant) "billing.period_end") demo_tenant demo_ps None.

Lemma free_subscription_rolls_forward_witness :
  exists sub', close_ended_period demo_bs 11%N (Some "free") demo_st
    = (Ok true, st_db (with_sub 11%N sub') (tick demo_st)) /\ s_status sub' = SActive.
Proof.
  destruct (free_subscription_rolls_forward demo_bs 11%N (Some "free") demo_st demo_old demo_free)
    as (sub' & H1 & _ & H2 & _); try reflexivity.
  - exact demo_healthy.
  - vm_compute. split; discriminate.
  - exists sub'. exact (conj H1 H2).
Defined.

(** A paid subscription ends with its period. Without a further payment
    it is committed as canceled, if the tenant asked for that, and as expired
    otherwise; its plan, price and period are kept, and no other row of the
    database changes. *)
Theorem paid_subscription_ends (bs : BillingService) (i : uuid) (s : St) (sub : Subscription) :
  healthy s -> subs_of (db s) !! i = Some sub ->
  c_tenant_id (bs_ctx bs) = Some (s_tenant_id sub) -> live (s_status sub) = true ->
  s_current_period_end sub <= clock s ->
  rolls_forward (b_plans (d_billing (db s)) !! s_plan_id sub) (s_cancel_at_period_end sub) = false ->
  exists s' sub', close_ended_period bs i None s = (Ok true, s') /\ healthy s' /\
    db s' = with_sub i sub' (db s) /\ sub_frame sub sub' /\
    s_status sub' = (if s_cancel_at_period_end sub then SCanceled else SExpired) /\
    s_current_period_end sub' = s_current_period_end sub.
Proof.
  intros Hh Hi Ht Hl He Hr.
  destruct (close_ended_period_paid bs i s sub Hh Hi Ht Hl He Hr) as (s' & Hrun & Hh' & Hd).
  exists s', (ended (clock s) sub). split; [exact Hrun|]. split; [done|]. split; [exact Hd|].
  split; [done|]. by split.
Qed.

(** A plan that is no longer free: the old subscription does not roll. *)
Definition demo_paid_db : Db :=
  t_put (mkPlan 2 "free" (JStr "Free") 5 "UZS" "month" 0 true) demo_db.
Definition demo_paid_st : St := mkSt demo_env demo_paid_db demo_paid_db false [] [] ∅ 0 0 0 0 ∅ 0 ∅ ∅ ∅.

Lemma demo_paid_healthy : healthy demo_paid_st.
Proof.
  split; [vm_compute; reflexivity|vm_compute; reflexivity|reflexivity|].
  split; apply ids_b_ok; vm_compute; reflexivity.
Qed.

Lemma paid_subscription_ends_witness :
  exists s' sub', close_ended_period demo_bs 11%N None demo_paid_st = (Ok true, s') /\
    db s' = with_sub 11%N sub' demo_paid_db /\ s_status sub' = SExpired.
Proof.
  destruct (paid_subscription_ends demo_bs 11%N demo_paid_st demo_old)
    as (s' & sub' & H1 & _ & H2 & _ & H3 & _); try reflexivity.
  - exact demo_paid_healthy.
  - exists s', sub'. exact (conj H1 (conj H2 H3)).
Defined.

(** Billing periods. Before the year 9999 a period always has an end;
    it keeps the time of day and lies 28 to 31 days after the start of a
    monthly period, 365 or 366 after that of a yearly one. *)
Theorem period_end_in_bounds (start : datetime) (period : string) :
  0 <= start < LAST_YEAR ->
  exists e k, period_end start period = Ok e /\ e = start + k * DAY /\
    (if bool_decide (period = "year") then 365 <= k <= 366 else 28 <= k <= 31).
Proof.
  intros Hs. destruct (period_end_total start period Hs) as [e He].
  destruct (period_end_days start period e (proj1 Hs) He) as (k & Hk & Hb). by exists e, k.
Qed.

Lemma period_end_in_bounds_witness :
  exists e k, period_end demo_day "month" = Ok e /\ e = demo_day + k * DAY /\ 28 <= k <= 31.
Proof.
  apply (period_end_in_bounds demo_day "month"). vm_compute. split; [discriminate|reflexivity].
Defined.
