(* ===== verification/SharedProps.v ===== *)
(** What the shared layer promises to every feature: units of work,
    repositories, permissions, events and resilient calls. *)

From stdpp Require Import base strings gmap list relations.
From Stdlib Require Import ZArith Lia Ascii.
From S2P Require Import Prelude Errors Resilience PyLib Calendar Entities Models Events Session.
From S2P Require Import SessionFacts ResilienceFacts Access Journal Ports Payments PayFacts.
From S2P Require Import DbFacts Activation Billing Payme Click Stripe Webhooks WebhookFacts.
From S2P Require Import Jobs Settlement Notices Commerce CommerceFacts Frames Bodies Routes System.
From S2P Require Import SystemFacts Demo.

(** C32: an event is handled effectively once. Once a delivery of an event to
    a handler succeeded, a further delivery of the same event to it succeeds,
    commits nothing and publishes nothing. *)
Theorem event_handled_once (bus : EventBus St) (sub : BusSubscription St) (e : EventEnvelope)
    (job_try job_try' : option Z) (s : St) :
  resolve bus (bs_handler_id sub) = Some sub -> handler_ok (bs_handler sub) -> valid_envelope e ->
  no_rivals (env s) ->
  let first := dispatch_event bus job_try (bs_handler_id sub) (to_wire e) s in
  let second := dispatch_event bus job_try' (bs_handler_id sub) (to_wire e) first.2 in
  first.1 = Ok tt ->
  second.1 = Ok tt /\ committed second.2 = committed first.2 /\
  published second.2 = published first.2.
Proof.
  intros Hres Hh Hv Hr first second Hf. unfold second, first in *. clear second first.
  rewrite (dispatch_event_unfold bus sub e Hres Hv job_try) in *.
  rewrite (dispatch_event_unfold bus sub e Hres Hv job_try').
  destruct (attempt_cases sub e Hh s Hr) as [(E1 & Hok & Hrg & Hp)|(x & E1 & _)].
  2:{ rewrite (catch_Raise _ _ _ _ E1), retry_or_raise_spec in Hf. done. }
  rewrite (catch_Ok _ _ _ _ E1).
  assert (En : env (attempt sub e s).2 = env s).
  { apply uow_env. by destruct (attempt_body_evo sub e Hh (uow_enter s)). }
  set (s' := (attempt sub e s).2) in *.
  destruct (attempt_duplicate sub e s') as (F1 & F2 & F3); [by rewrite En|done|done|done|].
  by rewrite (catch_Ok _ _ _ _ F1).
Qed.

Lemma event_handled_once_witness :
  let first := dispatch_event demo_bus None "core.audit.subscribers.audit_sink"
                 (to_wire demo_event) demo_st in
  let second := dispatch_event demo_bus (Some 2%Z) "core.audit.subscribers.audit_sink"
                  (to_wire demo_event) first.2 in
  second.1 = Ok tt /\ committed second.2 = committed first.2 /\
  published second.2 = published first.2.
Proof.
  apply (event_handled_once demo_bus demo_sink demo_event None (Some 2%Z) demo_st);
    [reflexivity|exact demo_handler_ok|exact demo_valid|exact demo_no_rivals|].
  vm_compute. reflexivity.
Defined.


Definition demo_failing : BusSubscription St :=
  mkBusSub "*" (fun _ => raise EValue) true "core.x.boom" false.


(** A unit of work is atomic. Without concurrent commits, either its
    body ended well, the state it left is committed whole, satisfies the
    constraints, and its pending events are published afterwards; or an
    exception comes out, nothing is committed and nothing is published. *)
Theorem unit_of_work_is_atomic {A : Type} (R : Db -> Db -> Prop) (body : SM A) (s : St) :
  PreOrder R -> steps (evo R) body -> no_rivals (env s) ->
  (exists a s1, body (uow_enter s) = (Ok a, s1) /\ db_ok (db s1) = true /\
     (with_uow body s).1 = Ok a /\ committed (with_uow body s).2 = db s1 /\
     published (with_uow body s).2 = published s ++ pending_events (callbacks s1)) \/
  (exists x, (with_uow body s).1 = Raise x /\ committed (with_uow body s).2 = committed s /\
     published (with_uow body s).2 = published s).
Proof.
  intros HR Hb Hr. destruct (with_uow_cases R body s Hb Hr)
    as [(a & s1 & E & _ & _ & Hok & H)|H]; [left; by exists a, s1|by right].
Qed.

Lemma unit_of_work_is_atomic_witness :
  exists x, (with_uow (upd 20%N (to_succeeded 0%Z) ;;; raise (A:=unit) EValue) demo_st).1 = Raise x /\
    committed (with_uow (upd 20%N (to_succeeded 0%Z) ;;; raise (A:=unit) EValue) demo_st).2 = demo_db.
Proof.
  destruct (unit_of_work_is_atomic (fun _ _ => True) (upd 20%N (to_succeeded 0%Z) ;;; raise (A:=unit) EValue)
    demo_st) as [(a & s1 & E & _)|(x & H1 & H2 & _)].
  - exact top_preorder.
  - steps_walk. apply (evo_upd (fun _ _ => True)). done.
  - exact demo_no_rivals.
  - exfalso. unfold bind, raise in E. simpl in E. discriminate.
  - exists x. exact (conj H1 H2).
Defined.

(** ** Repositories *)

Lemma repo_select_inv {R} `{TenantTable R} t (p : R -> bool) s l s' :
  repo_select t p s = (Ok l, s') -> s' = s /\ forall r, r ∈ l -> t_tenant r = t /\ p r = true.
Proof.
  intros E. unfold repo_select, query in E. apply bind_inv_Ok in E as (d & s1 & Hg & E).
  unfold get_db in Hg. destruct (aborted s); [done|]. injection Hg as <- <-. unfold ret in E.
  injection E as <- <-. split; [done|]. intros r Hr. apply elem_of_select in Hr as [_ Hr]. split_ok.
  match goal with H : bool_decide _ = true |- _ => apply bool_decide_eq_true in H end. done.
Qed.

(** C34: repositories never leave their tenant. Whatever the caller asks, a
    repository returns rows of its own tenant only, looks up an identifier of
    another tenant as missing, and refuses to store an entity stamped with,
    or to delete an entity of, another tenant, changing nothing. *)
Theorem repository_is_tenant_scoped {R : Type} `{TenantTable R} (t : uuid) (s : St) :
  (forall (p : R -> bool) order page l s', (forall l r, r ∈ order l <-> r ∈ l) ->
     repo_find t p order page s = (Ok l, s') -> forall r, r ∈ l -> t_tenant r = t /\ p r = true) /\
  (forall i (r : R) s', repo_get t i s = (Ok (Some r), s') -> t_tenant r = t /\ t_id r = i) /\
  (forall other (mk : uuid -> R), other ≠ t ->
     repo_add t (Some other) mk s =
     (Raise (EDomain PermissionDeniedError "entity is stamped with another tenant_id"), s)) /\
  (forall (r : R), t_tenant r ≠ t ->
     repo_delete t r s = (Raise (EDomain PermissionDeniedError "entity belongs to another tenant"), s)).
Proof.
  split; [|split; [|split]].
  - intros p order page l s' Ho E r Hr. unfold repo_find in E.
    apply bind_inv_Ok in E as (l0 & s1 & Hs & E). apply repo_select_inv in Hs as [_ Hs].
    unfold ret in E. injection E as <- <-. apply Hs, Ho. destruct page as [pg|]; [|done].
    unfold paginate in Hr. apply list_elem_of_In in Hr. apply list_elem_of_In.
    rewrite <- (take_drop (Z.to_nat (pg_offset pg))). apply in_or_app. right.
    rewrite <- (take_drop (Z.to_nat (pg_limit pg)) (drop _ _)). apply in_or_app. by left.
  - intros i r s' E. unfold repo_get in E. apply bind_inv_Ok in E as (l & s1 & Hs & E).
    apply repo_select_inv in Hs as [_ Hs]. destruct l as [|x [|y l]]; try done.
    unfold scalar_one_or_none, ret in E. injection E as <- <-.
    destruct (Hs x) as [Ht Hi]; [set_solver|]. split; [done|]. by apply bool_decide_eq_true in Hi.
  - intros other mk Hne. unfold repo_add. by rewrite bool_decide_false.
  - intros r Hne. unfold repo_delete. by rewrite bool_decide_false.
Qed.

(** ** Events *)

(** An envelope survives the queue. What the publisher enqueues, the
    worker reads back: same identifier, name, version, time, tenant, actor
    and payload. *)
Theorem envelope_survives_the_queue (e : EventEnvelope) :
  valid_envelope e -> from_wire (to_wire e) = Ok e.
Proof. apply from_wire_to_wire. Qed.

Lemma envelope_survives_the_queue_witness : from_wire (to_wire demo_event) = Ok demo_event.
Proof. apply (envelope_survives_the_queue demo_event demo_valid). Defined.

Lemma for_each_ok {E S A} (l : list A) (f : A -> M E S unit) s :
  (forall a s, a ∈ l -> (f a s).1 = Ok tt) ->
  for_each l f s = (Ok tt, foldl (fun s a => (f a s).2) s l).
Proof.
  revert s. induction l as [|x l IH]; intros s Hf; [done|]. cbn [for_each foldl].
  pose proof (Hf x s ltac:(set_solver)) as Hx. destruct (f x s) as [r s1] eqn:Ef. simpl in Hx. subst r.
  erewrite bind_Ok by exact Ef. rewrite IH; [done|]. intros a s' Ha. apply Hf. set_solver.
Qed.

(** A failing subscriber disturbs nobody. With the queue bound, publishing
    an event with a valid name succeeds whatever its subscribers or the queue
    raise (a cancellation of the task apart), and every subscription whose
    pattern matches is served, in registration order, from the state its
    predecessors left. *)
Theorem publish_survives_failing_handlers {S : Type} (b : EventBus S)
    (enq : string -> list (string * json) -> M exn S unit) (event : EventEnvelope) (s : S) :
  event_name_re (e_name event) = true -> bus_enqueue b = Some enq ->
  (forall i w s, (enq i w s).1 ≠ Raise ECancelled) ->
  (forall sub e s, sub ∈ bus_subscriptions b -> (bs_handler sub e s).1 ≠ Raise ECancelled) ->
  publish b event s =
  (Ok tt, foldl (fun s sub => (if bs_reliable sub then (enq (bs_handler_id sub) (to_wire event) s).2
                               else (bs_handler sub event s).2)) s
            (subscriptions_for b (e_name event))).
Proof.
  intros Hn He Hq Hh. unfold publish, validate_event_name. rewrite Hn, He.
  erewrite bind_Ok by done.
  assert (Hsw : forall (m : M exn S unit) s, (m s).1 ≠ Raise ECancelled ->
            (swallow m s).1 = Ok tt /\ (swallow m s).2 = (m s).2).
  { intros m s' Hm. unfold swallow, catch. destruct (m s') as [[[]|x] s1]; [done|].
    destruct x; done. }
  assert (Hd : forall sub s, sub ∈ subscriptions_for b (e_name event) ->
            (deliver enq event sub s).1 = Ok tt /\
            (deliver enq event sub s).2 = if bs_reliable sub
              then (enq (bs_handler_id sub) (to_wire event) s).2 else (bs_handler sub event s).2).
  { intros sub s' Hin. apply list_elem_of_In, List.filter_In in Hin as [Hin%list_elem_of_In _].
    unfold deliver. destruct (bs_reliable sub); apply Hsw; auto. }
  rewrite for_each_ok by (intros sub s' Hin; by apply Hd). f_equal.
  revert s Hd. generalize (subscriptions_for b (e_name event)). intros l.
  induction l as [|x l IH]; intros s Hd; [done|]. simpl.
  rewrite (proj2 (Hd x s ltac:(set_solver))). apply IH. intros. apply Hd. set_solver.
Qed.

Definition demo_quiet_bus : EventBus nat :=
  mkBus [mkBusSub "*" (fun _ => raise EValue) false "core.x.boom" false;
         mkBusSub "billing.payment.*" (fun _ => modify S) false "core.x.count" false]
    (Some (fun _ _ => raise ERuntime)).

Lemma publish_survives_failing_handlers_witness :
  publish demo_quiet_bus demo_event 4%nat = (Ok tt, 5%nat).
Proof.
  rewrite (publish_survives_failing_handlers demo_quiet_bus (fun _ _ => raise ERuntime)).
  - vm_compute. reflexivity.
  - vm_compute. reflexivity.
  - reflexivity.
  - intros i w s. simpl. discriminate.
  - intros sub e s Hin. simpl in Hin.
    apply elem_of_cons in Hin as [->|Hin]; [simpl; discriminate|].
    apply list_elem_of_singleton in Hin as ->. simpl. discriminate.
Defined.

(** The registry of subscribers is sound. Starting from the empty bus,
    every successful registration keeps handler identifiers unique, accepts
    valid patterns only, lets only reliable handlers run under the maintenance
    role, and makes the new handler resolvable by the worker. *)
Theorem registration_keeps_bus_sound {S : Type} (pattern module qualname : string)
    (reliable maintenance : bool) (h : EventEnvelope -> M exn S unit) (b b' : EventBus S) :
  wf_bus b -> subscribe pattern reliable maintenance module qualname h b = Ok b' ->
  wf_bus b' /\
  exists s, resolve b' (module +:+ "." +:+ qualname) = Some s /\ bs_pattern s = pattern /\
            bs_reliable s = reliable /\ bs_maintenance s = maintenance.
Proof.
  intros Hw E. split; [by eapply subscribe_wf|].
  exact (subscribe_resolves pattern reliable maintenance module qualname h b b' E).
Qed.

Lemma registration_keeps_bus_sound_witness :
  exists b', subscribe "*" true true "core.audit.subscribers" "audit_sink" (fun _ => modify S)
               empty_bus = Ok b' /\ wf_bus b'.
Proof.
  eexists. split; [vm_compute; reflexivity|].
  apply (registration_keeps_bus_sound "*" "core.audit.subscribers" "audit_sink" true true
    (fun _ => modify S) empty_bus).
  - split; constructor.
  - vm_compute. reflexivity.
Defined.

(** ** Permissions *)

(** The guard lets a user through exactly when the resolver grants the
    permission. It resolves the user's codes once per request, and denies a
    user context without a resolver or without an identifier; system and
    integration actors pass. *)
Theorem guard_decides_by_permission (ctx : TenantContext) (permission : string) (s : St) :
  (a_kind (c_actor ctx) ≠ KUser ->
     forall access, guard_require access ctx permission s = (Ok tt, s)) /\
  (a_kind (c_actor ctx) = KUser ->
     forall access, access = None \/ a_id (c_actor ctx) = None ->
     guard_require access ctx permission s =
     (Raise (EDomain PermissionDeniedError ("missing permission: " +:+ permission)), s)) /\
  (forall resolver aid u codes s',
     c_actor ctx = mkActor KUser (Some aid) -> uuid_parse aid = Some u ->
     resolved s !! u = None -> resolver u s = (Ok codes, s') ->
     guard_require (Some resolver) ctx permission s =
     (if bool_decide (permission ∈ codes) then Ok tt
      else Raise (EDomain PermissionDeniedError ("missing permission: " +:+ permission)),
      st_resolved (<[u := codes]>) s')).
Proof.
  split; [|split].
  - intros Hk access. unfold guard_require. by rewrite bool_decide_false.
  - intros Hk access Hn. unfold guard_require. rewrite bool_decide_true by done.
    destruct Hn as [->|Hn]; [done|]. rewrite Hn. by destruct access.
  - intros resolver aid u codes s' Ha Hu Hr Hres. by eapply guard_user_spec.
Qed.

(** The permission catalog stays well formed. Registering permissions,
    also when it stops half way with an error, leaves every code stored under
    itself, well formed, and listed only under the module that prefixes it. *)
Theorem catalog_stays_well_formed (module : string) (perms : list PermissionDef)
    (reg : PermissionRegistry) :
  wf_registry reg -> wf_registry (register module perms reg).2.
Proof. apply register_wf. Qed.

Lemma catalog_stays_well_formed_witness :
  wf_registry (register "billing" [mkPerm "billing.plan:read" "t"; mkPerm "bad" "t"] empty_registry).2.
Proof. apply (catalog_stays_well_formed "billing"). split; intros; done. Defined.

(** ** Resilient calls *)

(** An open breaker shields the target. Until the recovery time has
    passed, a call raises [CircuitOpenError] without running the operation:
    only the clock is read. *)
Theorem open_breaker_shields_target {W A : Type} (clk : M exn W Z) (r : BreakerRef W)
    (transient : exn -> bool) (cls : domain_cls) (op : M exn W A) (n : nat) (w w1 : W) (t : Z) :
  clk w = (Ok t, w1) -> br_state (ref_get r w1) = Opened ->
  (t - opened_at (ref_get r w1) < recovery_time (ref_get r w1))%Z ->
  (forall b w, ref_get r (ref_set r b w) = b) ->
  call_resilient clk (Some r) transient cls op (Some (mkRetry (S n))) w =
  (Raise (EDomain CircuitOpenError ("circuit open for " +:+ br_name (ref_get r w1))),
   ref_set r (ref_get r w1) w1).
Proof.
  intros Hc Ho Ht Hl. unfold call_resilient. change (attempts _) with (S n). cbn [resilient_loop].
  assert (Ha : breaker_allow clk (Some r) w = (Ok false, ref_set r (ref_get r w1) w1)).
  { unfold breaker_allow. erewrite bind_Ok by exact Hc. erewrite bind_Ok by done.
    unfold allow. rewrite (bool_decide_true (br_state (ref_get r w1) = Opened)) by done.
    replace (recovery_time (ref_get r w1) <=? t - opened_at (ref_get r w1))%Z with false by lia.
    simpl. by rewrite bool_decide_true. }
  erewrite bind_Ok by exact Ha. cbn [negb].
  rewrite (bind_Ok _ _ _ (br_name (ref_get r w1)) (ref_set r (ref_get r w1) w1)); [done|].
  unfold breaker_name. erewrite bind_Ok by done. by rewrite Hl.
Qed.

Definition demo_open : CircuitBreaker := mkBreaker "stripe" 5 (30 * SECOND) 5 0 Opened.
Definition demo_ref : BreakerRef (CircuitBreaker * nat) := mkRef fst (fun b w => (b, w.2)).
Definition demo_clock (t : Z) : M exn (CircuitBreaker * nat) Z := fun w => (Ok t, w).

Lemma open_breaker_shields_target_witness :
  call_resilient (demo_clock SECOND) (Some demo_ref) TRANSIENT_ERRORS ExternalServiceError
    (modify (fun w => (w.1, S w.2))) (Some (mkRetry 3)) (demo_open, 0%nat) =
  (Raise (EDomain CircuitOpenError "circuit open for stripe"), (demo_open, 0%nat)).
Proof.
  rewrite (open_breaker_shields_target (demo_clock SECOND) demo_ref TRANSIENT_ERRORS ExternalServiceError
    _ 2 (demo_open, 0%nat) (demo_open, 0%nat) SECOND); reflexivity.
Defined.

(** The breaker opens at its threshold, not before. Starting closed and
    below the threshold, consecutive failures leave it closed until their
    number reaches the threshold, and open from then on. *)
Theorem breaker_opens_at_threshold (b : CircuitBreaker) (ts : list Z) :
  br_state b = Closed -> (failures b < failure_threshold b)%Z ->
  br_state (fail_all b ts) =
  if (failure_threshold b <=? failures b + Z.of_nat (length ts))%Z then Opened else Closed.
Proof. apply fail_all_state. Qed.

Lemma breaker_opens_at_threshold_witness :
  br_state (fail_all (new_breaker "stripe" 3 30) [1; 2]%Z) = Closed /\
  br_state (fail_all (new_breaker "stripe" 3 30) [1; 2; 3]%Z) = Opened.
Proof.
  split; [rewrite (breaker_opens_at_threshold (new_breaker "stripe" 3 30) [1; 2]%Z)
         |rewrite (breaker_opens_at_threshold (new_breaker "stripe" 3 30) [1; 2; 3]%Z)]; reflexivity.
Defined.

(** Network failures never reach the caller raw. Whatever the operation
    does, a resilient call whose transient errors include network errors
    raises only domain errors, errors the policy does not cover, or a
    cancellation. *)
Theorem network_errors_never_escape {W A : Type} (clk : M exn W Z) (breaker : option (BreakerRef W))
    (transient : exn -> bool) (cls : domain_cls) (op : M exn W A) (n : nat) (w : W) (e : exn) :
  (forall w, exists t w', clk w = (Ok t, w')) -> (forall e, is_network e = true -> transient e = true) ->
  (call_resilient clk breaker transient cls op (Some (mkRetry (S n))) w).1 = Raise e ->
  is_network e = false.
Proof.
  intros Hc Ht H. unfold call_resilient in H.
  apply loop_escapes in H as [->|[Hn|[Hx|[m ->]]]]; [done| | |done|done|simpl; lia].
  - destruct (is_network e) eqn:E; [|done]. rewrite (Ht e E) in Hn. done.
  - by destruct e.
Qed.

Lemma network_errors_never_escape_witness :
  exists e, (call_resilient (demo_clock 0) None TRANSIENT_ERRORS ExternalServiceError
     (raise (A:=unit) (ETimeout "read")) (Some (mkRetry 3)) (demo_open, 0%nat)).1 = Raise e /\
    is_network e = false.
Proof.
  eexists. split; [vm_compute; reflexivity|].
  apply (network_errors_never_escape (demo_clock 0) None TRANSIENT_ERRORS ExternalServiceError
    (raise (A:=unit) (ETimeout "read")) 2 (demo_open, 0%nat)).
  - intros w. exists 0%Z, w. reflexivity.
  - intros e He. unfold TRANSIENT_ERRORS. rewrite He. apply orb_true_r.
  - vm_compute. reflexivity.
Defined.

(** ** The schedule *)

Section Schedule.
Open Scope Z_scope.

Lemma next_multiple p n : 0 < p -> exists q, n <= q < n + p /\ q mod p = 0.
Proof.
  intros Hp. exists (n + (- n) mod p). pose proof (Z.mod_pos_bound (- n) p Hp). split; [lia|].
  rewrite Zplus_mod_idemp_r. by rewrite Z.add_opp_diag_r.
Qed.
Lemma next_at p r n : 0 <= r < p -> exists q, n <= q < n + p /\ q mod p = r.
Proof.
  intros Hr. destruct (next_multiple p (n - r)) as (q & Hq & Hm); [lia|]. exists (q + r). split; [lia|].
  rewrite <- Zplus_mod_idemp_l, Hm. by apply Z.mod_small.
Qed.

(** Every background job comes round: from any moment on, checkouts are
    expired within five minutes, ended periods closed within the hour, messages
    dispatched within fifteen seconds and old data purged within the day. *)
Theorem jobs_come_round skip n :
  Forall2 (fun c period => exists q, n <= q < n + period /\ cron_due c q = true)
    (cron_jobs skip) [300; 3600; 15; 86400].
Proof.
  repeat (apply Forall2_cons; split); try apply Forall2_nil_2; try done;
    unfold cron_due; cbn [cr_hour cr_minute cr_second among].
  - destruct (next_multiple 300 n) as (q & Hq & Hm); [lia|]. exists q. split; [done|].
    assert (Hs : q mod 60 = 0) by (Z.to_euclidean_division_equations; lia). rewrite Hs.
    assert (Hk : q / 60 mod 60 = 5 * (q / 300 mod 12)) by (Z.to_euclidean_division_equations; lia). rewrite Hk.
    pose proof (Z.mod_pos_bound (q / 300) 12 ltac:(lia)) as Hb.
    assert (H : In (q / 300 mod 12) [0; 1; 2; 3; 4; 5; 6; 7; 8; 9; 10; 11]) by (cbn [In]; lia).
    clear -H. revert H. generalize (q / 300 mod 12). intros k H. cbn [In] in H.
    repeat destruct H as [<-|H]; try (vm_compute; reflexivity). destruct H.
  - destruct (next_at 3600 420 n) as (q & Hq & Hm); [lia|]. exists q. split; [done|].
    assert (Hs : q mod 60 = 0) by (Z.to_euclidean_division_equations; lia). rewrite Hs.
    assert (Hk : q / 60 mod 60 = 7) by (Z.to_euclidean_division_equations; lia). by rewrite Hk.
  - destruct (next_multiple 15 n) as (q & Hq & Hm); [lia|]. exists q. split; [done|].
    assert (Hk : q mod 60 = 15 * (q / 15 mod 4)) by (Z.to_euclidean_division_equations; lia). rewrite Hk.
    pose proof (Z.mod_pos_bound (q / 15) 4 ltac:(lia)) as Hb.
    assert (H : In (q / 15 mod 4) [0; 1; 2; 3]) by (cbn [In]; lia).
    clear -H. revert H. generalize (q / 15 mod 4). intros k H. cbn [In] in H.
    repeat destruct H as [<-|H]; try (vm_compute; reflexivity). destruct H.
  - destruct (next_at 86400 10800 n) as (q & Hq & Hm); [lia|]. exists q. split; [done|].
    assert (Hs : q mod 60 = 0) by (Z.to_euclidean_division_equations; lia). rewrite Hs.
    assert (Hk : q / 60 mod 60 = 0) by (Z.to_euclidean_division_equations; lia).
    assert (Hh : q / 3600 mod 24 = 3) by (Z.to_euclidean_division_equations; lia). by rewrite Hk, Hh.
Qed.
End Schedule.
