(* ===== verification/CommerceProps.v ===== *)
(** The shop's theorems: placed orders, settled orders and carts. *)

From stdpp Require Import base strings gmap list relations.
From Stdlib Require Import ZArith Lia Ascii.
From S2P Require Import Prelude Errors PyLib Calendar Entities Models Events Session SessionFacts.
From S2P Require Import Access Journal Ports Payments PayFacts DbFacts Webhooks WebhookFacts.
From S2P Require Import Intake Notices Commerce CommerceFacts Frames OrderFacts Bodies Routes Features System SystemFacts.
From S2P Require Import Demo.

Open Scope Z_scope.


Definition demo_products : ProductService := mkProducts demo_ctx demo_tenant None {["UZS" := 0]}.
Definition demo_shop_payments : PaymentService :=
  mkPayments demo_ctx demo_tenant demo_providers demo_settings None.
Definition demo_orders : OrderService :=
  mkOrders demo_ctx demo_tenant (Some demo_products) (Some demo_shop_payments) None.

Lemma demo_shop_payments_ok : providers_ok demo_shop_payments.
Proof. intros code p H. by apply (app_providers_laws demo_app) with code. Qed.


(** Carts keep to their limits. In every reachable committed state the
    lines of one cart share one currency, and no line asks for more than 1000
    of its product. *)
Theorem carts_stay_in_bounds (app : App) (s s' : St) :
  AppLaws app -> RivalOk cart_rel (env s) -> keyed (committed s) -> cart_ok (committed s) ->
  reachable app s s' ->
  cart_ok (committed s').
Proof.
  intros Ha Hr Hk Hc Hreach. destruct (reachable_kept app _ _ commits_carts _ _ Hreach) as [_ H].
  destruct (H Hr (k_ci _ Hk) Hc) as [_ ?]. done.
Qed.

(** Decidable form of [cart_ok]. *)
Lemma cart_ok_dec d :
  forallb (fun x => (ci_quantity x <=? MAX_LINE_QUANTITY) &&
             forallb (fun y => bool_decide (ci_currency x = ci_currency y)) (map_to_list (cart_items_of d)).*2)
    (map_to_list (cart_items_of d)).*2 = true -> cart_ok d.
Proof.
  rewrite forallb_forall. intros H.
  assert (Hin : forall i x, cart_items_of d !! i = Some x -> In x (map_to_list (cart_items_of d)).*2).
  { intros i x Hx. apply list_elem_of_In, list_elem_of_fmap. exists (i, x).
    by rewrite elem_of_map_to_list. }
  split.
  - intros i j x y Hx Hy _ _. pose proof (H x (Hin _ _ Hx)) as Hb.
    apply andb_true_iff in Hb as [_ Hb]. rewrite forallb_forall in Hb.
    specialize (Hb y (Hin _ _ Hy)). by apply bool_decide_eq_true in Hb.
  - intros i x Hx. pose proof (H x (Hin _ _ Hx)) as Hb. apply andb_true_iff in Hb as [Hb _].
    by apply Z.leb_le.
Qed.

Lemma carts_stay_in_bounds_witness :
  cart_ok (committed (serve demo_app (AddItem demo_http (mkAddIn 30 5)) demo_st).2).
Proof.
  apply (carts_stay_in_bounds demo_app demo_st _ demo_laws (demo_rivals cart_rel) demo_keyed).
  - apply cart_ok_dec. vm_compute. reflexivity.
  - apply rtc_once, sys_serve.
Defined.

(** C22: a payment settles its order. A pending order becomes paid; a canceled
    one is revived only by a late payment that it was linked to; a paid one,
    or a canceled one paid by anything else, is left as it is. Nothing else in
    the database changes. *)
Theorem payment_settles_order (os : OrderService) (i : uuid) (pay : option uuid) (late : bool)
    (o : Order) (s : St) :
  healthy s -> orders_of (db s) !! i = Some o -> o_tenant_id o = ors_tenant os ->
  exists s', healthy s' /\
    match o_status o with
    | OrdPaid => mark_paid os i pay late s = (Ok (Some o), s') /\ db s' = db s
    | OrdCanceled =>
        if revives pay late o
        then mark_paid os i pay late s = (Ok (Some (paid_order pay o)), s') /\
             db s' = with_order i (paid_order pay o) (db s)
        else mark_paid os i pay late s = (Ok None, s') /\ db s' = db s
    | OrdPending => mark_paid os i pay late s = (Ok (Some (paid_order pay o)), s') /\
                    db s' = with_order i (paid_order pay o) (db s)
    end.
Proof.
  intros Hh Ho Ht. pose proof (mark_paid_run os i pay late o s Hh Ho Ht) as Hrun.
  pose proof (mark_paid_refused os i pay late o s Hh Ho Ht) as Hno.
  destruct (o_status o) eqn:Est.
  - destruct Hrun as (s' & ? & ? & ?); eauto.
  - exists s. rewrite Hno by auto. done.
  - destruct (revives pay late o) eqn:Er.
    + destruct Hrun as (s' & ? & ? & ?); eauto.
    + exists s. rewrite Hno by auto. done.
Qed.

Lemma payment_settles_order_witness :
  exists s', healthy s' /\
    mark_paid demo_orders 40%N (Some 21%N) true demo_st =
      (Ok (Some (paid_order (Some 21%N) demo_order)), s') /\
    db s' = with_order 40%N (paid_order (Some 21%N) demo_order) demo_db.
Proof.
  apply (payment_settles_order demo_orders 40%N (Some 21%N) true demo_order demo_st
    demo_healthy); reflexivity.
Defined.
