(* ===== verification/FeatureProps.v ===== *)
(** Correctness of the feature modules crm and saas. *)

From stdpp Require Import base strings gmap list relations sorting.
From Stdlib Require Import ZArith Lia Ascii.
From S2P Require Import Prelude Errors PyLib Calendar Entities Models Events Session SessionFacts Footprints.
From S2P Require Import Notices Access Journal Tenants Payments PayFacts DbFacts Saas SaasFacts Crm.
From S2P Require Import LinkFacts Frames Bodies Demo.

(** ** Calls

    The services as the dependencies and the subscribers build them: on one
    context, so on one tenant. *)

Section Calls.
Context (stages types : list string) (currencies : CurrencyRegistry) (access : option Resolver).

Definition contacts_of_ctx (ctx : TenantContext) : SM ContactsService := new_contacts_service ctx access.
Definition deals_of_ctx (ctx : TenantContext) : SM DealService :=
  contacts <- new_contacts_service ctx access ;;
  new_deal_service ctx contacts stages currencies access.
Definition activities_of_ctx (ctx : TenantContext) : SM ActivityService :=
  contacts <- new_contacts_service ctx access ;;
  deals <- new_deal_service ctx contacts stages currencies access ;;
  new_activity_service ctx contacts deals types access.

Inductive crm_call : Type :=
| NewCompany (b : CompanyIn) | EditCompany (i : uuid) (b : CompanyPatch) | DropCompany (i : uuid)
| NewContact (b : ContactIn) | EditContact (i : uuid) (b : ContactPatch) | DropContact (i : uuid)
| NewDeal (b : CreateDealIn) | EditDeal (i : uuid) (b : UpdateDealIn) | DropDeal (i : uuid)
| NewActivity (b : CreateActivityIn) | EditActivity (i : uuid) (b : UpdateActivityIn)
| Complete (i : uuid) | Reopen (i : uuid) | DropActivity (i : uuid)
| ClearDeals (k : link_kind) (e : EventEnvelope) | ClearActivities (k : link_kind) (e : EventEnvelope).

Definition crm_body (ctx : TenantContext) (c : crm_call) : SM unit :=
  match c with
  | NewCompany b => self <- contacts_of_ctx ctx ;; create_company self b ;;; ret tt
  | EditCompany i b => self <- contacts_of_ctx ctx ;; update_company self i b ;;; ret tt
  | DropCompany i => self <- contacts_of_ctx ctx ;; delete_company self i
  | NewContact b => self <- contacts_of_ctx ctx ;; create_contact self b ;;; ret tt
  | EditContact i b => self <- contacts_of_ctx ctx ;; update_contact self i b ;;; ret tt
  | DropContact i => self <- contacts_of_ctx ctx ;; delete_contact self i
  | NewDeal b => self <- deals_of_ctx ctx ;; deal_create self b ;;; ret tt
  | EditDeal i b => self <- deals_of_ctx ctx ;; deal_update self i (deal_changes b) ;;; ret tt
  | DropDeal i => self <- deals_of_ctx ctx ;; deal_delete self i
  | NewActivity b => self <- activities_of_ctx ctx ;; activity_create self b ;;; ret tt
  | EditActivity i b => self <- activities_of_ctx ctx ;; activity_update self i (activity_changes b) ;;; ret tt
  | Complete i => self <- activities_of_ctx ctx ;; activity_complete self i ;;; ret tt
  | Reopen i => self <- activities_of_ctx ctx ;; activity_reopen self i ;;; ret tt
  | DropActivity i => self <- activities_of_ctx ctx ;; activity_delete self i
  | ClearDeals k e => deals_subscriber k e
  | ClearActivities k e => activities_subscriber k e
  end.

(** One call after another, each in a unit of work of its own. *)
Inductive crm_step : St -> St -> Prop :=
| crm_serve ctx c s : crm_step s (with_uow (crm_body ctx c) s).2.

(** ** What one call does *)

Lemma contacts_built ctx t :
  c_tenant_id ctx = Some t -> contacts_of_ctx ctx = ret (mkContacts ctx t access).
Proof. intros Ht. unfold contacts_of_ctx, new_contacts_service, repo_init. by rewrite Ht. Qed.
Lemma deals_built ctx t :
  c_tenant_id ctx = Some t ->
  deals_of_ctx ctx = ret (mkDeals ctx t (mkContacts ctx t access) stages currencies access).
Proof.
  intros Ht. unfold deals_of_ctx, new_deal_service, new_contacts_service, repo_init. by rewrite Ht.
Qed.
Lemma activities_built ctx t :
  c_tenant_id ctx = Some t ->
  activities_of_ctx ctx = ret (mkActivities ctx t (mkContacts ctx t access)
    (mkDeals ctx t (mkContacts ctx t access) stages currencies access) types access).
Proof.
  intros Ht. unfold activities_of_ctx, new_activity_service, new_deal_service, new_contacts_service, repo_init.
  by rewrite Ht.
Qed.

Context `{!QuietAccess access}.

Lemma evo_crm_body R `{!PreOrder R, !CoreBlind R} ctx c : steps (evo R) (crm_body ctx c).
Proof.
  destruct c as [| | | | | | | | | | | | | |k e|k e]; simpl;
    [..|destruct k; [by apply (evo_deals_on_contact R)|by apply (evo_deals_on_company R)|unfold deals_subscriber; steps_walk]
       |destruct k; apply (evo_activities_on R); intros; by apply (evo_activity_unlink R)].
  all: destruct (c_tenant_id ctx) as [t|] eqn:Et;
    [|unfold contacts_of_ctx, deals_of_ctx, activities_of_ctx, new_contacts_service, repo_init;
      rewrite Et; intros s0; reflexivity].
  all: rewrite ?(contacts_built _ _ Et), ?(deals_built _ _ Et), ?(activities_built _ _ Et).
  all: match goal with |- steps ?X (bind (ret ?v) ?k) => change (steps X (k v)); cbv beta end.
  all: try match goal with |- steps _ (bind _ _) => apply steps_bind; [apply _| |steps_walk] end.
  all: first [by apply (evo_create_company R)|by apply (evo_update_company R)|by apply (evo_delete_company R)
    |by apply (evo_create_contact R)|by apply (evo_update_contact R)|by apply (evo_delete_contact R)
    |by apply (evo_deal_create R)|by apply (evo_deal_update R)|by apply (evo_deal_delete R)
    |by apply (evo_activity_create R)|by apply (evo_activity_update R)|by apply (evo_activity_complete R)
    |by apply (evo_activity_reopen R)|by apply (evo_activity_delete R)].
Qed.

Lemma links_more d log es : links_sound d log -> links_sound d (log ++ es).
Proof. intros H k t i Hl. destruct (H _ _ _ Hl) as [?|(e & He & Ha)]; [by left|]. right. exists e. set_solver. Qed.

Lemma ran {A} (m : SM A) s u s1 :
  (m ;;; ret tt) s = (Ok u, s1) -> evo crm_keep s (m s).2 -> evo crm_keep s s1.
Proof.
  intros E H. apply bind_inv_Ok in E as (a & s2 & E & Er). unfold ret in Er. injection Er as _ <-.
  by rewrite E in H.
Qed.

Lemma crm_body_sound ctx c s u s1 log :
  no_rivals (env s) -> keyed (db s) -> callbacks s = [] -> crm_body ctx c s = (Ok u, s1) ->
  links_sound (db s) log -> links_sound (db s1) (log ++ pending_events (callbacks s1)).
Proof.
  intros Hn Hk Hc E Hs.
  assert (Hkeep : evo crm_keep s s1 -> links_sound (db s1) (log ++ pending_events (callbacks s1))).
  { intros (_ & H & _). apply links_more. destruct H as [H _]; [intros n d; by rewrite Hn|].
    by eapply keep_sound. }
  assert (Hdel : forall k t i, deleted k t i (db s) (db s1) (callbacks s1) ->
                 links_sound (db s1) (log ++ pending_events (callbacks s1))).
  { intros k t i (Hp & Hl & e & Ha & He). by eapply (deletion_sound k t i (db s)). }
  destruct c as [| | | | | | | | | | | | | |k e|k e]; simpl in E;
    [..|apply Hkeep; specialize (keep_deals_subscriber k e s); by rewrite E
       |apply Hkeep; specialize (keep_activities_subscriber k e s); by rewrite E].
  all: destruct (c_tenant_id ctx) as [t|] eqn:Et;
    [|unfold contacts_of_ctx, deals_of_ctx, activities_of_ctx, new_contacts_service, repo_init in E;
      rewrite Et in E; by simpl in E].
  all: rewrite ?(contacts_built _ _ Et), ?(deals_built _ _ Et), ?(activities_built _ _ Et) in E.
  all: erewrite bind_Ok in E by reflexivity; cbv beta in E.
  all: try match type of E with
    | delete_company _ ?i _ = _ =>
        apply (Hdel LCompany t i); by eapply (delete_company_Ok ctx t s Et Hc), E; [|apply Hk]
    | delete_contact _ ?i _ = _ =>
        apply (Hdel LContact t i); by eapply (delete_contact_Ok ctx t s Et Hc), E; [|apply Hk]
    | deal_delete _ ?i _ = _ =>
        apply (Hdel LDeal t i); by eapply (deal_delete_Ok ctx t s Et Hc), E; [|apply Hk]
    end.
  all: apply Hkeep.
  all: first [eapply ran; [exact E|]
             |match type of E with ?m _ = _ => replace s1 with (m s).2 by (by rewrite E) end].
  all: first [by apply keep_create_company|by apply keep_update_company
    |by apply keep_create_contact|by apply keep_update_contact
    |by apply keep_deal_create|(apply keep_deal_update; first [done|apply Hk])
    |by apply keep_activity_create|(apply keep_activity_update; first [done|apply Hk])
    |by apply keep_activity_complete|by apply keep_activity_reopen|by apply keep_activity_delete].
Qed.
End Calls.

(** ** Links *)

(** C24: The links of deals and activities lead somewhere: starting from a
    database in which every contact, company or deal that a deal or an activity
    names exists in its tenant or has had its deletion announced, any sequence of
    requests and subscriber runs of the crm module ends in such a database,
    whichever of them fail and are rolled back. *)
Theorem crm_links_lead_somewhere stages types currencies access s s' :
  QuietAccess access -> no_rivals (env s) -> keyed (committed s) ->
  links_sound (committed s) (published s) ->
  rtc (crm_step stages types currencies access) s s' ->
  links_sound (committed s') (published s').
Proof.
  intros Hq Hn Hk Hs H. revert Hn Hk Hs. induction H as [s|s s1 s2 [ctx c s0] _ IH]; [done|]. intros Hn Hk Hs.
  pose proof (evo_crm_body stages types currencies access keyed_evo ctx c) as Hb.
  destruct (with_uow_evo keyed_evo _ s0 Hb) as [Hkey He]; [intros n d; by rewrite Hn|].
  apply IH; [by rewrite He|by apply Hkey|].
  destruct (with_uow_cases keyed_evo _ s0 Hb Hn)
    as [(u & s3 & Eb & _ & _ & _ & _ & E2 & E3)|(e & _ & E2 & E3)]; rewrite E2, ?E3; [|done].
  by eapply (crm_body_sound stages types currencies access) in Eb.
Qed.

(** C25: A deletion reaches the links: once a contact, a company or a deal of a
    tenant has been deleted and announced, the subscribers of deals and of
    activities both end well, and afterwards no deal or activity of that tenant
    names it. *)
Theorem announced_deletion_clears_links k t i e s :
  no_rivals (env s) -> keyed (committed s) -> okd (committed s) ->
  valid_uuid i -> announces_deletion k t i e ->
  let '(r1, s1) := with_uow (deals_subscriber k e) s in
  let '(r2, s2) := with_uow (activities_subscriber k e) s1 in
  r1 = Ok tt /\ r2 = Ok tt /\ ~ linked (committed s2) k t i.
Proof.
  intros Hn Hk Hok Hi He.
  assert (Hb : steps (evo keyed_evo) (deals_subscriber k e))
    by exact (evo_crm_body [] [] ∅ None keyed_evo (handler_ctx e) (ClearDeals k e)).
  destruct (with_uow_evo keyed_evo _ s Hb) as [Hkey _]; [intros n d; by rewrite Hn|].
  destruct (deals_cleared k t i e He Hi (uow_enter s)) as (s1 & E1 & A1 & O1 & L1); [done..|apply Hk|].
  destruct (with_uow_run _ _ _ _ E1 A1 O1) as [R1 C1].
  destruct (with_uow (deals_subscriber k e) s) as [r1 s1']. simpl in *.
  destruct (activities_cleared k t i e He Hi (uow_enter s1')) as (s2 & E2 & A2 & O2 & D2 & L2);
    [done|simpl; by rewrite C1|by apply Hkey|].
  destruct (with_uow_run _ _ _ _ E2 A2 O2) as [R2 C2].
  destruct (with_uow (activities_subscriber k e) s1') as [r2 s2']. simpl in *.
  split; [done|]. split; [done|]. rewrite C2. intros [H|H]; [|done]. apply L1.
  unfold deal_linked in *. by rewrite D2, C1 in H.
Qed.

(** ** Witnesses *)

Definition demo_contact : Contact :=
  mkContact 80 demo_tenant None "Ann" None None None None None demo_day.
Definition demo_deal : Deal := mkDeal 81 demo_tenant "Renewal" "new" 1000 "UZS" (Some 80%N) None None demo_day.
Definition demo_call : Activity :=
  mkActivity 82 demo_tenant "call" "Ask" None None None demo_user (Some 80%N) None (Some 81%N) demo_day.
Definition demo_crm : Db := t_put demo_call (t_put demo_deal (t_put demo_contact demo_db)).
Definition demo_crm_st : St := mkSt demo_env demo_crm demo_crm false [] [] ∅ 0 0 0 0 ∅ 0 ∅ ∅ ∅.
Definition demo_system : TenantContext := mkCtx (Some demo_tenant) SYSTEM_ACTOR None DEFAULT_LOCALE.
Definition demo_dropped : St := (with_uow (crm_body [] [] ∅ None demo_system (DropContact 80)) demo_crm_st).2.
Definition demo_dropped_event : EventEnvelope :=
  mkEnvelope 77 "crm.contact.deleted" 1 demo_day (Some demo_tenant) SYSTEM_ACTOR
    [("contact_id", JStr (uuid_str 80))].

Lemma demo_crm_keyed : keyed demo_crm.
Proof. split; apply ids_b_ok; vm_compute; reflexivity. Qed.
Lemma demo_crm_ok : okd demo_crm.
Proof. split; vm_compute; reflexivity. Qed.
Lemma demo_crm_sound : links_sound demo_crm [].
Proof.
  intros k t i [(j & x & Hj & <- & Hl)|(j & x & Hj & <- & Hl)]; left.
  - change (({[81%N := demo_deal]} : gmap N Deal) !! j = Some x) in Hj.
    apply lookup_singleton_Some in Hj as [_ <-]. destruct k; [|done..]. injection Hl as <-.
    by exists 80%N, demo_contact.
  - change (({[82%N := demo_call]} : gmap N Activity) !! j = Some x) in Hj.
    apply lookup_singleton_Some in Hj as [_ <-]. destruct k; [| done|]; injection Hl as <-;
      [by exists 80%N, demo_contact|by exists 81%N, demo_deal].
Qed.

Lemma crm_links_lead_somewhere_witness :
  (exists e, e ∈ published demo_dropped /\ announces_deletion LContact demo_tenant 80 e).
Proof.
  assert (Hs : links_sound (committed demo_dropped) (published demo_dropped)).
  { refine (crm_links_lead_somewhere [] [] ∅ None demo_crm_st demo_dropped _ demo_no_rivals
      demo_crm_keyed demo_crm_sound (rtc_once _ _ (crm_serve _ _ _ _ demo_system (DropContact 80) demo_crm_st))). }
  destruct (Hs LContact demo_tenant 80%N) as [(j & c & Hj & _)|H]; [|exfalso|exact H].
  - left. exists 81%N, demo_deal. split; [|done]. vm_compute. reflexivity.
  - assert (E : contacts_of (committed demo_dropped) = ∅) by (vm_compute; reflexivity).
    rewrite E, lookup_empty in Hj. discriminate Hj.
Defined.

Lemma announced_deletion_clears_links_witness :
  let '(r1, s1) := with_uow (deals_subscriber LContact demo_dropped_event) demo_crm_st in
  let '(r2, s2) := with_uow (activities_subscriber LContact demo_dropped_event) s1 in
  r1 = Ok tt /\ r2 = Ok tt /\ ~ linked (committed s2) LContact demo_tenant 80.
Proof.
  exact (announced_deletion_clears_links LContact demo_tenant 80 demo_dropped_event demo_crm_st
    demo_no_rivals demo_crm_keyed demo_crm_ok eq_refl (conj eq_refl (conj eq_refl eq_refl))).
Defined.

(** Correctness of the saas module. *)

(** ** Metering *)

(** Calls one after another: the log of recordings explains every answer, and
    is extended exactly by the recordings that ended well. *)
Fixpoint meter_explained (access : option Resolver) (s : St) (log : list Recording)
    (cs : list meter_call) : Prop :=
  match cs with
  | [] => True
  | c :: rest => exists log',
      meter_spec (env s) (id_clash s) (read_denied access s) log c (meter access c s).1 log' /\
      meter_explained access (meter access c s).2 log' rest
  end.

Lemma meter_inv_empty s :
  no_rivals (env s) -> okd (committed s) -> usage_of (committed s) = ∅ -> meter_inv s [].
Proof.
  intros Hn [Hk Hr] He. split; try done.
  - intros i c. change (t_get (committed s)) with (usage_of (committed s)). by rewrite He.
  - split; [|by rewrite He|done]. intros p. rewrite He. done.
Qed.

(** C26: Metering refines a log: starting without counters, whatever sequence
    of recordings and queries is made, by whichever tenants and callers, every
    answer is the one read off the list of recordings accepted so far (sums per
    tenant, metric and days), a recording is accepted exactly once or refused
    for an invalid argument, a full counter or a clashing identifier, and
    refusals leave the sums alone. *)
Theorem metering_refines_log access cs s :
  QuietAccess access -> no_rivals (env s) -> okd (committed s) -> usage_of (committed s) = ∅ ->
  meter_explained access s [] cs.
Proof.
  intros Hq Hn Hok He. pose proof (meter_inv_empty s Hn Hok He) as Hi. clear Hn Hok He.
  revert s Hi. generalize (@nil Recording) as log. induction cs as [|c cs IH]; intros log s Hi; [done|].
  destruct (meter_simulates access c s log Hi) as (log' & Hs & Hi'). exists log'. auto.
Qed.

(** ** Entitlements *)

(** The events of billing, delivered one after another. *)
Fixpoint deliver_news (es : list (sub_event * EventEnvelope)) (s : St) : St :=
  match es with
  | [] => s
  | (k, e) :: rest => deliver_news rest (with_uow (on_subscription k e) s).2
  end.

Definition ends_well {A} (r : res exn A) : bool := match r with Ok _ => true | Raise _ => false end.

(** The coverage those events leave. *)
Fixpoint cover_after (es : list (sub_event * EventEnvelope)) (s : St) (cov : uuid -> option Coverage)
    : uuid -> option Coverage :=
  match es with
  | [] => cov
  | (k, e) :: rest =>
      let '(r, s1) := with_uow (on_subscription k e) s in
      cover_after rest s1 (if ends_well r then cover_event (env s) k e cov else cov)
  end.

(** A handler fails only on a date it cannot read or an identifier in use. *)
Fixpoint failures_justified (es : list (sub_event * EventEnvelope)) (s : St) : Prop :=
  match es with
  | [] => True
  | (k, e) :: rest =>
      let '(r, s1) := with_uow (on_subscription k e) s in
      (ends_well r = true \/ period_of (env s) e = None \/ entitlement_clash (uow_enter s)) /\
      failures_justified rest s1
  end.

Definition settled (s : St) : Prop :=
  no_rivals (env s) /\ okd (committed s) /\ Keyed (R:=TenantEntitlement) (committed s).

Lemma settled_ready s : settled s -> cover_ready (uow_enter s).
Proof. by intros (_ & [? ?] & ?). Qed.

Lemma evo_on_subscription k e : steps (evo anything) (on_subscription k e).
Proof. destruct k; [apply (evo_on_activated anything)|apply (evo_on_canceled anything)|apply (evo_on_ended anything)]. Qed.

Lemma delivered_one k e s cov :
  settled s -> cover_rep (committed s) cov ->
  let '(r, s1) := with_uow (on_subscription k e) s in
  settled s1 /\ cover_rep (committed s1) (if ends_well r then cover_event (env s) k e cov else cov) /\
  (ends_well r = true \/ period_of (env s) e = None \/ entitlement_clash (uow_enter s)).
Proof.
  intros Hs Hc. pose proof (evo_on_subscription k e) as Hb.
  destruct Hs as (Hn & Hok0 & Hk0). assert (Hs : settled s) by by split.
  pose proof (uow_env (on_subscription k e) s) as He. rewrite (proj1 (Hb (uow_enter s))) in He.
  specialize (He eq_refl). pose proof (with_uow_cases anything _ s Hb Hn) as Hcases.
  destruct (on_subscription_cases k e (uow_enter s) cov (settled_ready s Hs) Hc)
    as [(s1 & E & (Ha & Hok & Hr & Hk) & Hrep)|[(err & s1 & E) Hw]].
  - destruct (with_uow_run _ _ _ _ E Ha (conj Hok Hr)) as [R C].
    destruct (with_uow _ s) as [r s2]. simpl in *. rewrite R. simpl. unfold settled. rewrite C, He.
    split; [by split|]. split; [done|by left].
  - destruct (with_uow _ s) as [r s2]. simpl in *.
    destruct Hcases as [(u & s3 & Eb & _)|(x & -> & C & _)]; [congruence|]. unfold settled. rewrite C, He.
    split; [by split|]. split; [done|by right].
Qed.

(** C27: Entitlements follow billing: after any sequence of activations,
    cancellations and ends of subscriptions, in any order and for any tenants,
    the plan a tenant is covered by is what those events say: the last plan
    activated, until the end of its period once canceled, or until the earlier of
    that and the reported end; an event fails, leaving coverage as it was, only
    when its date cannot be read or an identifier clashes. *)
Theorem entitlements_follow_billing es s cov ctx t access :
  settled s -> cover_rep (committed s) cov -> c_tenant_id ctx = Some t ->
  let s' := deliver_news es s in
  failures_justified es s /\
  (with_uow (self <- new_entitlement_service ctx access ;; effective_plan_code self) s').1 =
    Ok (cover_after es s cov t ≫= covered (env_now (env s') (n_now s'))).
Proof.
  intros Hs Hc Ht. revert s cov Hs Hc. induction es as [|[k e] es IH]; intros s cov Hs Hc; simpl.
  - split; [done|]. set (self := mkEntitlements ctx t access).
    destruct (effective_plan_run self (uow_enter s) eq_refl) as (s1 & E).
    destruct (with_uow_run (self <- new_entitlement_service ctx access ;; effective_plan_code self) s
      (row_of (committed s) t ≫= (fun r => covered (env_now (env s) (n_now s)) (cover_of r))) s1) as [-> _].
    + unfold new_entitlement_service, repo_init. rewrite Ht. by erewrite bind_Ok by reflexivity.
    + by pose proof (quiet_db _ _ _ _ (quiet_effective_plan self) E) as (_ & _ & _ & -> & _).
    + pose proof (quiet_db _ _ _ _ (quiet_effective_plan self) E) as (_ & -> & _). apply Hs.
    + f_equal. rewrite <- Hc. by destruct (row_of (committed s) t).
  - pose proof (delivered_one k e s cov Hs Hc) as H. destruct (with_uow (on_subscription k e) s) as [r s1].
    destruct H as (Hs1 & Hc1 & Hj). destruct (IH s1 _ Hs1 Hc1) as [H1 H2]. by repeat split.
Qed.

(** ** Limits *)

(** C28: A plan's limit holds under concurrency: whatever other transactions
    commit while this one waits for the lock of the limit, a creation guarded by
    the limit that ends well leaves at most as many counted rows as the limit
    allows, and one that would exceed it is refused. *)
Theorem plan_limit_never_exceeded {T} `{TenantTable T, !TableLaws T} self key tenant (p : T -> bool) pre mk
    limit s s0 :
  get_limit self key (uow_enter s) = (Ok (Some limit), s0) ->
  let '(r, s') := with_uow (require_within_limit self key (repo_count tenant p) ;;; repo_add tenant pre mk) s in
  match r with
  | Ok _ => (counted_rows tenant p (committed s') <= limit)%Z
  | Raise _ => True
  end /\
  ((limit <= counted_rows tenant p (db (rivals s0).2))%Z ->
   r = Raise (EDomain ConflictError (limit_message key (counted_rows tenant p (db (rivals s0).2)) limit))).
Proof.
  intros Hl. pose proof (quiet_db _ _ _ _ (quiet_limit self key) Hl) as (_ & _ & _ & Ha & _).
  set (body := (require_within_limit self key (repo_count tenant p) ;;; repo_add tenant pre mk)).
  pose proof (within_limit_cases self key tenant p (uow_enter s) s0 limit Hl Ha) as Hw.
  destruct (with_uow body s) as [r s'] eqn:Eu. split.
  - destruct r as [a|x]; [|done]. destruct (uow_Ok body s a) as (s1 & Eb & Hc & _); [by rewrite Eu|].
    rewrite Eu in Hc. simpl in Hc. rewrite Hc. by eapply limit_kept.
  - intros Hfull. cbv zeta in Hw. rewrite (proj2 (Z.leb_le _ _) Hfull) in Hw.
    assert (Eb : body (uow_enter s) = (Raise (EDomain ConflictError
      (limit_message key (counted_rows tenant p (db (rivals s0).2)) limit)), (rivals s0).2))
      by (unfold body; by erewrite bind_Raise by exact Hw).
    rewrite (with_uow_raise _ _ _ _ Eb) in Eu. by injection Eu.
Qed.

(** ** Onboarding *)

(** The completion of onboarding is announced once: over any sequence of
    steps completed by a tenant, in any order, repeated and unknown steps
    included, progress is never lost, and the completion event is published
    exactly when the last missing step is done, once and with the tenant's
    identity, and never again. *)
Theorem onboarding_completion_announced_once self keys s :
  no_rivals (env s) ->
  let s' := complete_all self keys s in
  progress_of (committed s) ⊆ progress_of (committed s') /\
  exists es, published s' = published s ++ es /\
    announces self es (finished (committed s) self) (finished (committed s') self).
Proof. apply complete_all_announces. Qed.

(** ** Witnesses *)

Definition demo_calls : list meter_call :=
  [CRecord demo_ctx "api" 3 (Some demo_day); CRecord demo_ctx "api" 4 None;
   CRecord demo_ctx "" 1 None; CUsage demo_ctx "api" None None].

Lemma metering_refines_log_witness : meter_explained None demo_st [] demo_calls.
Proof.
  exact (metering_refines_log None demo_calls demo_st (ltac:(apply _)) demo_no_rivals
    (conj (proj1 demo_sound) (proj1 (proj2 demo_sound))) eq_refl).
Defined.

Definition demo_activation : EventEnvelope :=
  mkEnvelope 77 "billing.subscription.activated" 1 demo_day (Some demo_tenant) SYSTEM_ACTOR
    [("plan_code", JStr "pro")].
Definition demo_news : list (sub_event * EventEnvelope) := [(SubActivated, demo_activation)].

Lemma demo_settled : settled demo_st.
Proof. split; [exact demo_no_rivals|]. split; [by split; apply demo_sound|]. apply demo_keyed. Qed.

Lemma entitlements_follow_billing_witness :
  (with_uow (self <- new_entitlement_service demo_ctx None ;; effective_plan_code self)
     (deliver_news demo_news demo_st)).1 = Ok (Some "pro").
Proof.
  transitivity (Ok (E:=exn) (cover_after demo_news demo_st (fun _ => None) demo_tenant ≫=
    covered (env_now (env (deliver_news demo_news demo_st)) (n_now (deliver_news demo_news demo_st)))));
    [|vm_compute; reflexivity].
  exact (proj2 (entitlements_follow_billing demo_news demo_st (fun _ => None) demo_ctx demo_tenant None
    demo_settled (fun _ => eq_refl) eq_refl)).
Defined.

Definition demo_limited : Db :=
  t_put (mkTenantEntitlement 83 demo_tenant "pro" None false)
    (on_saas (fun x => mkSaasDb {[("pro", "contacts") := mkPlanEntitlement "pro" "contacts" ELimit None (Some 0%Z)]}
       (s_tenant_entitlements x) (s_usage x) (s_onboarding x)) demo_db).
Definition demo_limited_st : St := mkSt demo_env demo_limited demo_limited false [] [] ∅ 0 0 0 0 ∅ 0 ∅ ∅ ∅.
Definition demo_entitlements : EntitlementService := mkEntitlements demo_ctx demo_tenant None.
Definition demo_new_contact (t : uuid) : Contact := mkContact 80 t None "Ann" None None None None None demo_day.

Lemma plan_limit_never_exceeded_witness :
  (with_uow (require_within_limit demo_entitlements "contacts" (repo_count (R:=Contact) demo_tenant (fun _ => true)) ;;;
     repo_add demo_tenant None demo_new_contact) demo_limited_st).1 =
  Raise (EDomain ConflictError (limit_message "contacts" 0 0)).
Proof.
  pose proof (plan_limit_never_exceeded demo_entitlements "contacts" demo_tenant (fun _ : Contact => true) None
    demo_new_contact 0 demo_limited_st (get_limit demo_entitlements "contacts" (uow_enter demo_limited_st)).2) as H.
  assert (Hl : (get_limit demo_entitlements "contacts" (uow_enter demo_limited_st)).1 = Ok (Some 0%Z))
    by (vm_compute; reflexivity).
  rewrite <- Hl in H. specialize (H (surjective_pairing _)).
  assert (Hc : counted_rows demo_tenant (fun _ : Contact => true)
    (db (rivals (get_limit demo_entitlements "contacts" (uow_enter demo_limited_st)).2).2) = 0%Z)
    by (vm_compute; reflexivity).
  rewrite Hc in H. destruct (with_uow _ demo_limited_st) as [r s']. exact (proj2 H (Z.le_refl 0)).
Defined.

Lemma onboarding_completion_announced_once_witness :
  let self := mkOnboarding demo_ctx demo_tenant ["profile"; "invite"] None in
  let s' := complete_all self ["invite"; "profile"; "invite"] demo_st in
  progress_of (committed demo_st) ⊆ progress_of (committed s') /\
  exists es, published s' = published demo_st ++ es /\
    announces self es (finished (committed demo_st) self) (finished (committed s') self).
Proof.
  exact (onboarding_completion_announced_once (mkOnboarding demo_ctx demo_tenant ["profile"; "invite"] None)
    ["invite"; "profile"; "invite"] demo_st demo_no_rivals).
Defined.
