(* ===== verification/FileProps.v ===== *)
(** Correctness of files, their storage and product images. *)

From stdpp Require Import base strings gmap list relations sorting.
From Stdlib Require Import ZArith Lia Ascii.
From S2P Require Import Prelude Errors PyLib Calendar Entities Models Events Session SessionFacts.
From S2P Require Import Footprints Access DbFacts Channels Storage StorageFacts Files.
From S2P Require Import Ports Payments Commerce Images Demo.

(** ** Calls *)

Section Calls.
Context (sp : StoragePort) (tp : ThumbnailPort) (settings : FilesSettings) (access : option Resolver).

(** [file_service] and [product_image_service] *)
Definition files_for (ctx : TenantContext) : SM FileService := new_file_service ctx sp tp settings access.
Definition images_for (ctx : TenantContext) : SM ProductImageService :=
  products <- new_product_service ctx None ∅ ;;
  files <- files_for ctx ;;
  new_image_service ctx products files access.

Inductive file_call : Type :=
| FUpload (filename declared : option string) (data : string)
| FGet (i : uuid) | FOpen (i : uuid) | FDelete (i : uuid)
| IAttach (product : uuid) (filename declared : option string) (data : string) (alt : option string) (pos : Z)
| IList (product : uuid) | IContent (i : uuid) (thumb : bool) | IRemove (i : uuid).

Definition file_body (ctx : TenantContext) (c : file_call) : SM unit :=
  match c with
  | FUpload n ct data => self <- files_for ctx ;; upload self n ct data ;;; ret tt
  | FGet i => self <- files_for ctx ;; file_get self i ;;; ret tt
  | FOpen i => self <- files_for ctx ;; file_open self i ;;; ret tt
  | FDelete i => self <- files_for ctx ;; file_delete self i
  | IAttach p n ct data alt pos => self <- images_for ctx ;; image_attach self p n ct data alt pos ;;; ret tt
  | IList p => self <- images_for ctx ;; list_for_product self p ;;; ret tt
  | IContent i th => self <- images_for ctx ;; open_content self i th ;;; ret tt
  | IRemove i => self <- images_for ctx ;; image_remove self i
  end.

(** The files a call deletes, and so the ones a failure of it may damage. *)
Definition at_risk (c : file_call) (d : Db) : gset N :=
  match c with FDelete i => {[i]} | IRemove i => image_files d i | _ => ∅ end.

(** Calls in units of work of their own; the first component collects what the
    failed ones had set out to delete. *)
Inductive file_step : gset N * St -> gset N * St -> Prop :=
| file_serve ctx c lost s :
    (forall t, c_tenant_id ctx = Some t -> valid_uuid t) ->
    file_step (lost, s)
      (let '(r, s') := with_uow (file_body ctx c) s in
       (match r with Ok _ => lost | Raise _ => lost ∪ at_risk c (committed s) end, s')).

Context (loc : string -> string) `{!StorageLaws sp loc, !ThumbnailLaws tp, !ReadAccess access}.

Lemma file_body_run lost s ctx c :
  (forall n, valid_uuid (env_uuid7 (env s) n)) -> (forall t, c_tenant_id ctx = Some t -> valid_uuid t) ->
  sound_view loc lost s ∅ (uow_enter s) ->
  match file_body ctx c (uow_enter s) with
  | (Ok _, s') => sound_view loc lost s (at_risk c (committed s)) s'
  | (Raise _, s') => covers loc lost s (at_risk c (committed s)) s'
  end.
Proof.
  intros Hids Ht Hs. destruct (c_tenant_id ctx) as [t|] eqn:Et; cycle 1.
  { assert (E : exists e, file_body ctx c (uow_enter s) = (Raise e, uow_enter s)).
    { destruct c; simpl; unfold files_for, images_for, new_file_service, new_product_service, repo_init;
        rewrite Et; by eexists. }
    destruct E as [e ->]. apply (covers_more _ _ _ ∅); [set_solver|apply Hs]. }
  set (fs := mkFiles ctx t sp tp settings access).
  set (ims := mkImages ctx t (mkProducts ctx t None ∅) fs access).
  assert (Ef : forall {A} (k : FileService -> SM A) w, (self <- files_for ctx ;; k self) w = k fs w).
  { intros A k w. unfold files_for, new_file_service, repo_init. by rewrite Et. }
  assert (Ei : forall {A} (k : ProductImageService -> SM A) w, (self <- images_for ctx ;; k self) w = k ims w).
  { intros A k w. unfold images_for, files_for, new_product_service, new_file_service, new_image_service, repo_init.
    by rewrite Et. }
  specialize (Ht t eq_refl).
  assert (Hcalm : forall {A} (m : SM A), block loc lost s ∅ ∅ m -> block loc lost s ∅ ∅ (m ;;; ret tt)).
  { intros A m Hm. apply block_seq; [done|intros; apply block_ret]. }
  destruct c; simpl; rewrite ?Ef, ?Ei.
  - apply (Hcalm _ (upload fs filename declared data)); [by apply block_upload|done].
  - apply (Hcalm _ (file_get fs i)); [by apply block_get|done].
  - apply (Hcalm _ (file_open fs i)); [by apply block_open|done].
  - assert (H : block loc lost s ∅ (∅ ∪ {[i]}) (file_delete fs i)) by by apply block_delete.
    specialize (H _ Hs). by rewrite (left_id_L ∅ (∪)) in H.
  - apply (Hcalm _ (image_attach ims product filename declared data alt pos)); [by apply block_attach|done].
  - apply (Hcalm _ (list_for_product ims product)); [|done]. unfold list_for_product.
    apply block_seq; [apply block_reads, reads_guard, _|intros _].
    apply block_calm, (stmt_repo_find _).
  - apply (Hcalm _ (open_content ims i thumb)); [by apply block_content|done].
  - by apply remove_run.
Qed.
End Calls.

(** ** Files keep their bytes *)

(** C29: Files keep their bytes: whatever sequence of uploads, downloads,
    deletions and changes of product images is served, and whichever of them
    fail, at their checks, at the storage, at the commit, every file row of the
    database has its object in the storage under its own tenant's key, an image
    of the recorded type with the recorded size and checksum; the only
    exceptions are files that a failed call had set out to delete. *)
Theorem stored_files_keep_their_bytes sp tp settings access loc s lost s' :
  StorageLaws sp loc -> ThumbnailLaws tp -> ReadAccess access ->
  (forall n, valid_uuid (env_uuid7 (env s) n)) -> files_safe loc ∅ (committed s) s ->
  rtc (file_step sp tp settings access) (∅, s) (lost, s') ->
  files_safe loc lost (committed s') s'.
Proof.
  intros Hsp Htp Hacc Hids Hf H.
  remember (∅ : gset N, s) as x eqn:Ex. remember (lost, s') as y eqn:Ey.
  assert (Hx : (forall n, valid_uuid (env_uuid7 (env x.2) n)) /\ files_safe loc x.1 (committed x.2) x.2)
    by (subst x; done).
  clear Hids Hf Ex. enough (files_safe loc y.1 (committed y.2) y.2) by (subst y; done). clear Ey.
  induction H as [x|x y z [ctx c l w Ht] _ IH]; [apply Hx|]. apply IH. clear IH. simpl in Hx.
  destruct Hx as [Hids Hf].
  pose proof (block_uow loc l w (at_risk c (committed w)) (file_body sp tp settings access ctx c)
    (file_body_run sp tp settings access loc l w ctx c Hids Ht) Hf) as Hb.
  destruct (with_uow _ w) as [[u|e] w']; destruct Hb as [He Hb]; simpl; by rewrite He.
Qed.

(** ** Round trip *)

Lemma guardM_Ok b (e : exn) (s : St) u s' : guardM b e s = (Ok u, s') -> b = false /\ s' = s.
Proof. unfold guardM. destruct b; [done|]. by intros [= _ <-]. Qed.

Lemma upload_Ok self loc `{!StorageLaws (fls_storage self) loc, !ReadAccess (fls_access self)} name ct data s dto s' :
  upload self name ct data s = (Ok dto, s') ->
  exists i content, sniff_content_type data = Some content /\
    let row := file_row (env s) i content name data (fls_tenant self) in
    dto = file_dto row /\ stored_of (db s') = <[i := row]> (stored_of (db s)) /\
    blobs s' !! loc (sf_storage_key row) = Some data /\ env s' = env s.
Proof.
  intros H. unfold upload in H. apply bind_inv_Ok in H as (u & s1 & Eg & H).
  apply (reads_run _ _ _ _ (reads_guard _ _ _)) in Eg as [(E1 & D1 & _) _].
  apply bind_inv_Ok in H as (u1 & s2 & E & H). apply guardM_Ok in E as [_ ->].
  apply bind_inv_Ok in H as (u2 & s2 & E & H). apply guardM_Ok in E as [_ ->].
  destruct (sniff_content_type data) as [content|]; [|done].
  apply bind_inv_Ok in H as (u3 & s2 & E & H). apply guardM_Ok in E as [_ ->].
  apply bind_inv_Ok in H as (i & s2 & E & H). assert (E2 : env s2 = env s1 /\ db s2 = db s1) by (by injection E as _ <-).
  destruct E2 as [E2 D2]. clear E.
  erewrite bind_Ok in H by reflexivity. cbv beta in H. rewrite E2, E1 in H.
  apply bind_inv_Ok in H as (row & s3 & Ea & H). apply repo_add_Ok in Ea as (-> & E3 & _).
  set (row := file_row (env s) i content name data (fls_tenant self)) in *.
  apply bind_inv_Ok in H as (u4 & s4 & Ep & H).
  pose proof (put_stores (loc:=loc) _ _ _ _ _ _ Ep) as Hput.
  pose proof (put_only (loc:=loc) (sf_storage_key row) data content s3) as Hp. rewrite Ep in Hp.
  apply bind_inv_Ok in H as (u5 & s5 & Ee & H). unfold ret in H. injection H as <- <-.
  match type of Ee with emit ?a ?b ?c ?d _ = _ => pose proof (stmt_emit (calm eq) a b c d s4) as Hem end.
  rewrite Ee in Hem. destruct Hem as (E5 & _ & B5 & D5). cbn [snd] in E5, B5, D5.
  destruct Hp as [(E4 & D4 & _) _]. cbn [snd] in E4, D4. exists i, content. split; [done|]. cbv zeta. fold row.
  split; [done|]. split; [|split].
  - rewrite <- D5, D4, E3, <- D1, <- D2. done.
  - by rewrite B5.
  - rewrite E5, E4, E3. change (env s2 = env s). congruence.
Qed.

Lemma uow_Ok_blobs {A} (body : SM A) s a s' s1 :
  with_uow body s = (Ok a, s') -> body (uow_enter s) = (Ok a, s1) -> blobs s' = blobs s1.
Proof.
  unfold with_uow, bind. intros H E. rewrite E in H. unfold session_commit, bind in H.
  pose proof (stmt_flush (calm eq) s1) as (_ & _ & Hb & _).
  destruct (flush s1) as [[[]|e] s2]; [|done]. by injection H as <-.
Qed.

(** A download of a row that is there. *)
Lemma open_run self loc `{!StorageLaws (fls_storage self) loc, !ReadAccess (fls_access self)} i row data s :
  aborted s = false -> Keyed (R:=StoredFile) (db s) -> stored_of (db s) !! i = Some row ->
  sf_tenant_id row = fls_tenant self -> blobs s !! loc (sf_storage_key row) = Some data ->
  match file_open self i s with
  | (Ok x, s') => x = (file_dto row, data) /\ db s' = db s /\ aborted s' = false
  | (Raise e, _) =>
      (exists s2, guard_require (fls_access self) (fls_ctx self) FILE_READ s = (Raise e, s2)) \/
      exists s2 s3, sp_get (fls_storage self) (sf_storage_key row) s2 = (Raise e, s3)
  end.
Proof.
  intros Ha Hk Hi Ht Hb. unfold file_open, bind at 1.
  pose proof (reads_guard (fls_access self) (fls_ctx self) FILE_READ s) as Hg.
  destruct (guard_require _ _ _ s) as [[u|e] s1]; [|left; by exists s1]. destruct Hg as [(_ & D1 & _ & A1 & _) B1].
  cbn [snd] in D1, A1, B1. rewrite Ha in A1.
  assert (Eg : repo_get_or_raise "StoredFile" (fls_tenant self) i s1 = (Ok row, s1)).
  { unfold repo_get_or_raise. erewrite bind_Ok by (apply repo_get_run; [done|by rewrite D1]).
    rewrite D1. change (t_get (db s)) with (stored_of (db s)). rewrite Hi.
    by rewrite (bool_decide_true (t_tenant row = fls_tenant self)). }
  erewrite bind_Ok by exact Eg. unfold bind.
  pose proof (get_reads (loc:=loc) (sf_storage_key row) s1) as Hr.
  destruct (sp_get (fls_storage self) (sf_storage_key row) s1) as [[d|e] s2] eqn:Ep; [|right; by exists s1, s2].
  apply get_finds in Ep. rewrite B1, Hb in Ep. injection Ep as <-.
  destruct Hr as [(_ & D2 & _ & A2 & _) _]. cbn [snd] in D2, A2. unfold ret.
  split; [done|]. split; congruence.
Qed.

(** C30: An upload downloads: a file accepted and committed is found again under
    the identifier answered, with the answered description, and what a download
    returns is the uploaded bytes; it can only be refused for a missing
    permission or by the storage. *)
Theorem uploaded_file_downloads sp tp settings access loc ctx name ct data s dto s1 :
  StorageLaws sp loc -> ReadAccess access -> Keyed (R:=StoredFile) (committed s) ->
  with_uow (self <- files_for sp tp settings access ctx ;; upload self name ct data) s = (Ok dto, s1) ->
  sniff_content_type data = Some (fd_content_type dto) /\ fd_byte_size dto = byte_length data /\
  match with_uow (self <- files_for sp tp settings access ctx ;; file_open self (fd_id dto)) s1 with
  | (Ok (dto', data'), _) => dto' = dto /\ data' = data
  | (Raise e, _) =>
      (exists s2, guard_require access ctx FILE_READ (uow_enter s1) = (Raise e, s2)) \/
      exists key s2 s3, sp_get sp key s2 = (Raise e, s3)
  end.
Proof.
  intros Hsp Hacc Hk H. destruct (uow_Ok _ s dto ltac:(by rewrite H)) as (s2 & Eb & Hc & He & Hok & Hr).
  rewrite H in Hc, He. simpl in Hc, He. unfold files_for, new_file_service, repo_init in *.
  destruct (c_tenant_id ctx) as [t|]; [|done].
  erewrite bind_Ok in Eb by (erewrite bind_Ok by reflexivity; reflexivity). cbv beta in Eb.
  set (self := mkFiles ctx t sp tp settings access) in *.
  destruct (upload_Ok self loc name ct data _ dto s2 Eb) as (i & content & Hs & Hd & Hrow & Hb & E2).
  set (row := file_row _ i content name data (fls_tenant self)) in *. subst dto.
  split; [exact Hs|]. split; [done|].
  assert (Hk1 : Keyed (R:=StoredFile) (committed s1)).
  { intros j f. rewrite Hc. change (t_get (db s2)) with (stored_of (db s2)). rewrite Hrow, lookup_insert.
    case_decide; [|apply Hk]. by intros [= <-]. }
  assert (Hb1 : blobs s1 = blobs s2).
  { eapply uow_Ok_blobs; [exact H|]. exact Eb. }
  pose proof (open_run self loc i row data (uow_enter s1) eq_refl Hk1) as Ho.
  change (db (uow_enter s1)) with (committed s1) in Ho. rewrite Hc, Hrow, lookup_insert_eq in Ho.
  change (blobs (uow_enter s1)) with (blobs s1) in Ho. rewrite Hb1 in Ho. specialize (Ho eq_refl eq_refl Hb).
  change (fd_id (file_dto row)) with i.
  set (body := (self <- _ ;; file_open self i)).
  assert (Ebody : body (uow_enter s1) = file_open self i (uow_enter s1)) by done.
  destruct (file_open self i (uow_enter s1)) as [[[dto' data']|e] s3].
  - destruct Ho as ([= -> ->] & D3 & A3). unfold with_uow. erewrite bind_Ok by exact Ebody.
    unfold session_commit, bind. rewrite flush_run; [done|done|by rewrite D3..].
  - rewrite (with_uow_raise _ _ _ _ Ebody). destruct Ho as [Ho|(s4 & s5 & Ho)]; [by left|right; eauto].
Qed.

(** ** The configured storage *)

(** C31: The storage the settings select keeps the port's contract: a put that
    returns has stored the bytes, a get returns what is stored, a delete that
    returns has removed it, none touches another key, keys of different files
    are kept apart, and the file system adapter never leaves its root, whatever
    key it is given. *)
Theorem configured_storage_keeps_contract en os client settings sp :
  build_storage en os client settings = Ok sp ->
  (exists loc, StorageLaws sp loc) /\
  forall root key s path s', fs_resolve (fs_root os root) key s = (Ok path, s') ->
    exists rest, path = path_str (fs_root os root ++ rest) /\
      Forall (fun part => part ≠ "..") (fs_root os root ++ rest).
Proof.
  intros H. split; [by eapply build_storage_laws|]. intros root key s path s'. apply fs_stays_below.
Qed.

(** ** Witnesses *)

Definition demo_ids (k : nat) : uuid := ((1000 + N.of_nat k) mod 2 ^ 128)%N.
Definition demo_file_env : Env :=
  mkEnv (env_now demo_env) demo_ids (env_token demo_env) (env_rival demo_env) (env_http demo_env)
    (env_mono demo_env) (env_epoch demo_env) (py_json_loads demo_env) (py_fromisoformat demo_env)
    (py_urlsplit demo_env) (py_repr demo_env) (py_repr_items demo_env) (py_isoformat demo_env)
    (py_timestamp_ms demo_env) (md5_hex demo_env) (sha256_hex demo_env) (hmac_sha256_hex demo_env)
    (b64encode demo_env) (b64decode demo_env).
Lemma demo_ids_valid n : valid_uuid (env_uuid7 demo_file_env n).
Proof. apply N.mod_lt. lia. Qed.

Definition demo_loc : string -> string := fs_location (fs_root demo_os "/srv").
Definition demo_gif : string := "GIF89a..".
Definition demo_staff : TenantContext := mkCtx (Some demo_tenant) SYSTEM_ACTOR None DEFAULT_LOCALE.

Definition demo_file (i : uuid) : StoredFile := file_row demo_file_env i "image/gif" None demo_gif demo_tenant.
Definition demo_image : ProductImage := mkProductImage 93 demo_tenant 30 91 (Some 92%N) 0 None demo_day.
Definition demo_file_db : Db := t_put demo_image (t_put (demo_file 92) (t_put (demo_file 91) demo_db)).
Definition demo_file_st : St :=
  mkSt demo_file_env demo_file_db demo_file_db false [] [] ∅ 0 0 0 0 ∅ 0 ∅
    {[demo_loc (storage_key demo_tenant 91) := demo_gif; demo_loc (storage_key demo_tenant 92) := demo_gif]} ∅.

Lemma demo_files_safe : files_safe demo_loc ∅ (committed demo_file_st) demo_file_st.
Proof.
  assert (H : forall i : uuid, i = 91%N \/ i = 92%N -> well_named i (demo_file i) /\
    (i ∈ (∅ : gset N) \/ intact demo_loc demo_file_st (demo_file i))).
  { intros i [-> | ->]; (split; [by repeat split|]); right; exists demo_gif; split; try done;
      vm_compute; reflexivity. }
  intros i f Hi.
  change ((<[92%N := demo_file 92]> {[91%N := demo_file 91]} : gmap N StoredFile) !! i = Some f) in Hi.
  rewrite lookup_insert in Hi. case_decide as E; [injection Hi as <-; subst i; apply H; by right|].
  apply lookup_singleton_Some in Hi as [<- <-]. apply H. by left.
Qed.

Definition demo_upload : file_call := FUpload (Some "cat.gif") None demo_gif.

Lemma stored_files_keep_their_bytes_witness :
  files_safe demo_loc ∅
    (committed (with_uow (file_body demo_storage (PillowThumbnailer demo_pillow) demo_files_settings None
       demo_staff demo_upload) demo_file_st).2)
    (with_uow (file_body demo_storage (PillowThumbnailer demo_pillow) demo_files_settings None
       demo_staff demo_upload) demo_file_st).2.
Proof.
  refine (stored_files_keep_their_bytes demo_storage (PillowThumbnailer demo_pillow) demo_files_settings None
    demo_loc demo_file_st ∅ _ (filesystem_laws demo_os "/srv") (pillow_laws demo_pillow) read_access_None
    demo_ids_valid demo_files_safe (rtc_once _ _ _)).
  pose proof (file_serve demo_storage (PillowThumbnailer demo_pillow) demo_files_settings None
    demo_staff demo_upload ∅ demo_file_st) as H.
  assert (Ht : forall t, c_tenant_id demo_staff = Some t -> valid_uuid t) by (intros t [= <-]; done).
  specialize (H Ht). destruct (with_uow _ demo_file_st) as [[u|e] s'] eqn:E; [exact H|].
  exfalso. assert (Hok : is_ok (with_uow (file_body demo_storage (PillowThumbnailer demo_pillow) demo_files_settings None
       demo_staff demo_upload) demo_file_st).1 = true) by (vm_compute; reflexivity).
  rewrite E in Hok. discriminate Hok.
Defined.

Definition demo_put : SM FileDTO :=
  self <- files_for demo_storage (PillowThumbnailer demo_pillow) demo_files_settings None demo_staff ;;
  upload self (Some "cat.gif") None demo_gif.

Lemma uploaded_file_downloads_witness :
  exists dto s1, with_uow demo_put demo_file_st = (Ok dto, s1) /\
    sniff_content_type demo_gif = Some (fd_content_type dto) /\ fd_byte_size dto = byte_length demo_gif.
Proof.
  assert (Hok : is_ok (with_uow demo_put demo_file_st).1 = true) by (vm_compute; reflexivity).
  destruct (run_is_ok (with_uow demo_put) demo_file_st Hok) as (dto & s1 & E). exists dto, s1.
  destruct (uploaded_file_downloads demo_storage (PillowThumbnailer demo_pillow) demo_files_settings None
    demo_loc demo_staff (Some "cat.gif") None demo_gif demo_file_st dto s1 (filesystem_laws demo_os "/srv")
    read_access_None) as (H1 & H2 & _).
  - intros i f Hi. by apply demo_files_safe in Hi as [(Hid & _) _].
  - exact E.
  - split; [exact E|]. by split.
Defined.

Lemma configured_storage_keeps_contract_witness :
  exists loc, StorageLaws demo_storage loc.
Proof.
  exact (proj1 (configured_storage_keeps_contract demo_file_env demo_os
    (mkS3Client (fun _ _ _ _ _ => S3Done) (fun _ _ _ => S3Done) (fun _ _ _ => S3Done) (fun k => k))
    demo_files_settings demo_storage eq_refl)).
Defined.

(** ** What a failed removal loses *)

Definition demo_removal : SM unit :=
  file_body demo_storage (PillowThumbnailer demo_pillow) demo_files_settings None demo_staff (IRemove 93).

(** A removal that fails half-way is not taken back entirely: with a storage
    that keeps its contract but fails to delete the original, the removal of a
    product image is rolled back, so the image and the row of its thumbnail stay,
    but the thumbnail's bytes are gone. *)
Theorem failed_removal_loses_thumbnail :
  files_safe demo_loc ∅ (committed demo_file_st) demo_file_st /\
  let '(r, s') := with_uow demo_removal demo_file_st in
  is_ok r = false /\ committed s' = committed demo_file_st /\
  im_thumbnail_file_id demo_image = Some 92%N /\
  stored_of (committed s') !! 92%N = Some (demo_file 92) /\
  blobs s' !! demo_loc (sf_storage_key (demo_file 92)) = None.
Proof.
  split; [apply demo_files_safe|].
  assert (H : is_ok (with_uow demo_removal demo_file_st).1 = false) by (vm_compute; reflexivity).
  assert (Hb : blobs (with_uow demo_removal demo_file_st).2 !! demo_loc (sf_storage_key (demo_file 92)) = None)
    by (vm_compute; reflexivity).
  assert (Hc : committed (with_uow demo_removal demo_file_st).2 = committed demo_file_st).
  { vm_compute. reflexivity. }
  destruct (with_uow demo_removal demo_file_st) as [r s']. cbn [fst snd] in *. rewrite Hc.
  split; [done|]. split; [done|]. split; [done|]. split; [vm_compute; reflexivity|done].
Qed.
