(* ===== verification/ShellProps.v ===== *)
(** Correctness of the application's shell: the admission of requests,
    start-up, the HTTP edge and what is reported to the outside. *)

From stdpp Require Import base strings gmap list relations sorting.
From Stdlib Require Import ZArith Lia Ascii.
From S2P Require Import Prelude Errors PyLib Calendar Entities Models Events Session SessionFacts.
From S2P Require Import Footprints Access Accounts Deps Journal Tenants TenantsFacts DbFacts Payments Stripe Channels.
From S2P Require Import Settlement Storage StorageFacts Files Saas Crm Commerce Images Bodies.
From S2P Require Import Templates Edge Redaction Admin Routes Features System Startup SystemFacts Demo.

Local Close Scope Z_scope.

(** ** Admission *)

(** The HTTP request behind a request; webhooks carry their own form. *)
Definition request_http (r : request) : option HttpRequest :=
  match r with
  | ListPlans h | ListProviders h | GetSubscription h | StartSubscription h _ | CancelSubscription h
  | ListProducts h _ _ | CreateProduct h _ | GetProduct h _ | UpdateProduct h _ _ | ArchiveProduct h _
  | PlaceOrder h _ | ListMyOrders h _ _ | GetMyOrder h _ | GetCart h | AddItem h _ | RemoveItem h _
  | Checkout h _ | Register h _ _ _ | Login h _ _ | VerifyTwoFactor h _ _ | Refresh h _
  | RequestPasswordReset h _ | ResetPassword h _ _ | Me h | Logout h _ | ChangePassword h _ _
  | EnableTwoFactor h | ConfirmTwoFactor h _ | DisableTwoFactor h _ | SelectTenant h _
  | CreateTenant h _ _ | ListMyTenants h | AcceptInvitation h _ | GetCurrentTenant h
  | UpdateCurrentTenant h _ _ | ListMembers h _ _ | InviteMember h _ _ | RevokeInvitation h _
  | ChangeMemberRole h _ _ | RemoveMember h _ | Feature h _ => Some h
  | _ => None
  end.

Section Admission.
Context (app : App).

(** The caller shows an access token of this application. *)
Definition authenticated (http : HttpRequest) : Prop :=
  exists token claims, bearer_token http = Some token /\
    decode_access_token (app_auth_lib app) (app_auth_settings app) token = Ok claims.

(** .. and acts for a tenant whose role tables grant the permission. *)
Definition authorized_as (ctx : TenantContext) (code : string) (s : St) : Prop :=
  exists tenant actor user codes s1,
    c_tenant_id ctx = Some tenant /\ a_id (c_actor ctx) = Some actor /\ uuid_parse actor = Some user /\
    app_access app ctx user (uow_enter s) = (Ok codes, s1) /\ code ∈ codes.
Definition authorized (http : HttpRequest) (code : string) (s : St) : Prop :=
  authenticated http /\ exists ctx,
    context_from_request (app_auth_lib app) (app_auth_settings app) true http = Ok ctx /\
    authorized_as ctx code s.

(** What the marker of a request's route asks for. *)
Definition admitted (r : request) (s : St) : Prop :=
  match request_route r with
  | Some rt =>
      match rt_marker rt with
      | Some (MPermission code) => exists http, request_http r = Some http /\ authorized http code s
      | Some MAuthenticated => exists http, request_http r = Some http /\ authenticated http
      | _ => True
      end
  | None => True
  end.

(** Refused, and nothing happened. *)
Definition refused {A} (m : SM A) (s : St) : Prop :=
  (exists e, (m s).1 = Raise e) /\ committed (m s).2 = committed s /\ published (m s).2 = published s.

Lemma refused_drop {A} (m : SM A) s : refused m s -> refused (drop_value m) s.
Proof.
  intros ([e He] & Hc & Hp). unfold refused, drop_value, bind. destruct (m s) as [r s']. simpl in *.
  subst r. simpl. eauto.
Qed.

Lemma context_authenticated http ctx :
  context_from_request (app_auth_lib app) (app_auth_settings app) true http = Ok ctx -> authenticated http.
Proof.
  unfold context_from_request. destruct (bearer_token http) as [token|] eqn:Eb; [|done].
  destruct (decode_access_token _ _ token) as [claims|] eqn:Ed; [|done]. intros _. by exists token, claims.
Qed.
Lemma storefront_authenticated http ctx :
  storefront_context (app_auth_lib app) (app_auth_settings app) http = Ok ctx -> authenticated http.
Proof.
  unfold storefront_context. destruct (bearer_token http) as [token|] eqn:Eb; [|done].
  destruct (decode_access_token _ _ token) as [claims|] eqn:Ed; [|done]. intros _. by exists token, claims.
Qed.

Lemma guard_admits {A} ctx code (k : SM A) s :
  authorized_as ctx code s \/ refused (with_uow (require_permission app ctx code ;;; k)) s.
Proof.
  pose proof (quiet_require app ctx code (uow_enter s)) as Hq.
  destruct (require_permission app ctx code (uow_enter s)) as [[u|e] s1] eqn:E.
  - left. unfold require_permission in E. destruct (c_tenant_id ctx) as [t|] eqn:Et; [|done].
    destruct (a_id (c_actor ctx)) as [aid|] eqn:Ea; [|done].
    destruct (uuid_parse aid) as [v|] eqn:Ev; [|done].
    unfold access_require, has_permission, list_permissions in E.
    apply bind_inv_Ok in E as (granted & s2 & E & Eg).
    apply bind_inv_Ok in E as (codes & s3 & E & Er). unfold ret in Er. injection Er as <- <-.
    erewrite bind_Ok in E by reflexivity. simpl in E. rewrite lookup_empty in E.
    apply bind_inv_Ok in E as (codes' & s4 & E & Em).
    erewrite bind_Ok in Em by reflexivity. unfold ret in Em. injection Em as <- _.
    exists t, aid, v, codes', s4. repeat split; try done.
    case_bool_decide; [done|]. simpl in Eg. done.
  - right. assert (Eb : (require_permission app ctx code ;;; k) (uow_enter s) = (Raise e, s1)).
    { unfold bind. by rewrite E. }
    unfold refused. rewrite (with_uow_raise _ _ _ _ Eb). simpl.
    destruct Hq as (_ & _ & Hc & _ & _ & Hp & _). simpl in *. eauto.
Qed.

Lemma refused_bind {A B} (r : res exn A) (k : A -> SM B) s e : r = Raise e -> refused (bind (lift_res r) k) s.
Proof. intros ->. unfold refused, bind, lift_res. simpl. eauto. Qed.

Lemma member_admits {A} http code (route : TenantContext -> SM A) s :
  (forall ctx, authorized_as ctx code s \/ refused (route ctx) s) ->
  authorized http code s \/ refused (as_member app http route) s.
Proof.
  intros H. unfold as_member.
  destruct (context_from_request _ _ _ http) as [ctx|e] eqn:E; [|right; by eapply refused_bind].
  destruct (H ctx) as [Ha|Hr]; [left|right].
  - split; [by eapply context_authenticated|by exists ctx].
  - by apply (refused_drop (route ctx)).
Qed.
Lemma route_admits {A} http code (call : TenantService -> SM A) s :
  authorized http code s \/ refused (member_route app http code call) s.
Proof.
  unfold member_route, bundle_route, caller.
  destruct (context_from_request _ _ _ http) as [ctx|e] eqn:E; [|right; by eapply refused_bind].
  destruct (guard_admits ctx code (call (app_tenants app ctx)) s) as [Ha|Hr]; [left|right; done].
  split; [by eapply context_authenticated|by exists ctx].
Qed.
Lemma buyer_admits {A} http (route : TenantContext -> SM A) s :
  authenticated http \/ refused (as_buyer app http route) s.
Proof.
  unfold as_buyer. destruct (storefront_context _ _ http) as [ctx|e] eqn:E;
    [left; by eapply storefront_authenticated|right; by eapply refused_bind].
Qed.
Lemma bundle_admits {A} http (call : TenantContext -> SM A) s :
  authenticated http \/ refused (bundle_route app http true call) s.
Proof.
  unfold bundle_route, caller. destruct (context_from_request _ _ _ http) as [ctx|e] eqn:E;
    [left; by eapply context_authenticated|right; by eapply refused_bind].
Qed.
Lemma mounted_admits {A} module (m : SM A) s (P : Prop) :
  P \/ refused m s -> P \/ refused (mounted app module m) s.
Proof.
  intros [H|H]; [by left|right]. unfold mounted. case_bool_decide; [done|].
  unfold refused. simpl. eauto.
Qed.
Lemma drop_admits {A} (m : SM A) s (P : Prop) : P \/ refused m s -> P \/ refused (drop_value m) s.
Proof. intros [H|H]; [by left|right]. by apply refused_drop. Qed.

Lemma feature_admits ctx r s :
  authorized_as ctx (feature_endpoint r).2 s \/ refused (feature_route app ctx r) s.
Proof. destruct r; simpl; try apply drop_admits; apply guard_admits. Qed.

(** C15: Requests are admitted by the marker of their route: an endpoint under
    a permission is served only to a caller whose access token this application
    issued and whose role in the token's tenant is granted that permission at
    that moment, an endpoint for users only to a caller with such a token; any
    other caller is refused, nothing is committed and no event is published. *)
Theorem requests_are_admitted_by_marker r s : admitted r s \/ refused (serve app r) s.
Proof.
  assert (Hs : forall http (P : HttpRequest -> Prop) (Q : Prop), P http \/ Q ->
    (exists h, Some http = Some h /\ P h) \/ Q) by (intros http P Q [H|H]; eauto).
  destruct r; unfold admitted; try (left; exact I);
    cbn [request_route request_http permitted open_to_users open_to_all rt_marker serve];
    unfold shop_member, shop_buyer;
    try match goal with |- context [feature_endpoint ?f] =>
      rewrite (surjective_pairing (feature_endpoint f)), (surjective_pairing (feature_endpoint f).1) end;
    cbn [permitted rt_marker]; apply Hs.
  all: try (apply mounted_admits); try (apply drop_admits).
  all: try first [apply route_admits|apply bundle_admits|apply buyer_admits
    |apply member_admits; intros ctx; apply guard_admits].
  assert (H : authorized http (feature_endpoint r).2 s \/
    refused (as_member app http (fun ctx => feature_route app ctx r)) s)
    by (apply member_admits; intros ctx; apply feature_admits).
  cbv zeta. destruct (feature_module r); [by apply mounted_admits|done].
Qed.
End Admission.

(** ** Start-up *)

Definition route_declared (d : Declared) (r : Route) : bool :=
  match rt_marker r with
  | Some (MPermission code) =>
      is_registered (dc_registry d) code && bool_decide (code ∈ granted (dc_grants d) ROLE_OWNER)
  | Some _ => negb (startswith (rt_path r) ADMIN_PREFIX)
  | None => bool_decide (rt_path r ∈ INFRA_PATH_WHITELIST) && negb (startswith (rt_path r) ADMIN_PREFIX)
  end.

Lemma app_routes_flags modules :
  app_routes modules =
  app_routes (module_flags (bool_decide ("commerce" ∈ modules)) (bool_decide ("crm" ∈ modules))
                (bool_decide ("saas" ∈ modules))).
Proof.
  unfold app_routes. destruct (flags_spec (bool_decide ("commerce" ∈ modules))
    (bool_decide ("crm" ∈ modules)) (bool_decide ("saas" ∈ modules))) as (-> & -> & ->).
  reflexivity.
Qed.

Lemma app_screens_flags modules :
  app_screens modules =
  app_screens (module_flags (bool_decide ("commerce" ∈ modules)) (bool_decide ("crm" ∈ modules))
                 (bool_decide ("saas" ∈ modules))).
Proof.
  unfold app_screens. destruct (flags_spec (bool_decide ("commerce" ∈ modules))
    (bool_decide ("crm" ∈ modules)) (bool_decide ("saas" ∈ modules))) as (-> & _). reflexivity.
Qed.

Lemma start_up_checks modules :
  exists d, start_up modules = Ok d /\ rbac_sound d = true /\
    forallb (route_declared d) (app_routes modules) = true.
Proof.
  unfold start_up, declared_rbac. rewrite installed_flags, app_routes_flags, app_screens_flags.
  generalize (bool_decide ("commerce" ∈ modules)) (bool_decide ("crm" ∈ modules))
    (bool_decide ("saas" ∈ modules)). intros c k s.
  match goal with |- exists d, ?run = Ok d /\ _ =>
    assert (H : match run with
      | Ok d => rbac_sound d && forallb (route_declared d) (app_routes (module_flags c k s))
      | Raise _ => false end = true) by (destruct c, k, s; vm_compute; reflexivity);
    destruct run as [d|]; [|discriminate H] end.
  apply andb_prop in H as [H1 H2]. exists d. split; [reflexivity|]. split; [exact H1|exact H2].
Qed.


(** ** The lifespan *)

Lemma granted_in g role : NoDup g.*1 -> role ∈ g.*1 -> (role, granted g role) ∈ g.
Proof.
  intros Hnd Hr. unfold granted. induction g as [|[k v] g IH]; [by apply elem_of_nil in Hr|].
  cbn [assoc]. apply NoDup_cons in Hnd as [Hk Hnd]. case_bool_decide as Hkr; [subst; left|].
  right. apply IH; [done|]. apply elem_of_cons in Hr as [->|Hr]; [done|exact Hr].
Qed.

Lemma assoc_in g role (v : gset string) : NoDup g.*1 -> (role, v) ∈ g -> granted g role = v.
Proof.
  intros Hnd Hin. unfold granted. induction g as [|[k w] g IH]; [by apply elem_of_nil in Hin|].
  cbn [assoc]. apply NoDup_cons in Hnd as [Hk Hnd]. apply elem_of_cons in Hin as [[= -> ->]|Hin].
  - by rewrite bool_decide_true.
  - case_bool_decide as E; [|by apply IH]. subst. destruct Hk. by apply (list_elem_of_fmap_2 fst) in Hin.
Qed.

(** What start-up declares can be synchronized. *)
Lemma declared_syncs d :
  rbac_sound d = true ->
  NoDup (dc_grants d).*1 /\ ROLE_OWNER ∈ (dc_grants d).*1 /\
  forall e, e ∈ dc_grants d ->
    is_Some (assoc e.1 SYSTEM_ROLE_TITLES) /\ forall p, p ∈ e.2 -> is_registered (dc_registry d) p = true.
Proof.
  unfold rbac_sound. intros H. split_ok.
  repeat match goal with H : bool_decide _ = true |- _ => apply bool_decide_eq_true in H end.
  assert (Hnd : NoDup (dc_grants d).*1).
  { match goal with H : _ <$> dc_grants d = _ |- _ => rewrite H end. apply (bool_decide_unpack _). vm_compute. exact I. }
  split; [done|]. split; [match goal with H : _ <$> dc_grants d = _ |- _ => rewrite H end; left|].
  intros [role v] He. simpl.
  pose proof (assoc_in _ _ _ Hnd He) as Hv. apply (list_elem_of_fmap_2 fst) in He. simpl in He.
  match goal with H : _ <$> dc_grants d = _ |- _ => rewrite H in He end.
  assert (Hsub : v ⊆ all_codes (dc_registry d)).
  { rewrite !elem_of_cons, elem_of_nil in He. destruct He as [->|[->|[->|[]]]]; rewrite <- Hv; set_solver. }
  split.
  - rewrite !elem_of_cons, elem_of_nil in He. destruct He as [->|[->|[->|[]]]]; eexists; reflexivity.
  - intros p Hp. apply bool_decide_eq_true. apply elem_of_dom. by apply Hsub.
Qed.

Lemma cr_load_lookup (exponent : string -> Z) l c :
  cr_load ((fun code => (code, exponent code)) <$> l) !! c = if decide (c ∈ l) then Some (exponent c) else None.
Proof.
  unfold cr_load. assert (G : forall (m : gmap string Z),
    foldl (fun m '(code, e) => <[code := e]> m) m ((fun code => (code, exponent code)) <$> l) !! c
    = if decide (c ∈ l) then Some (exponent c) else m !! c).
  { induction l as [|x l IH]; intros m; [done|]. rewrite fmap_cons. cbn [foldl]. rewrite IH.
    destruct (decide (c ∈ l)) as [Hc|Hc].
    - by rewrite decide_True by (by right).
    - destruct (decide (c = x)) as [->|Hne].
      + rewrite lookup_insert_eq, decide_True by left. done.
      + rewrite lookup_insert_ne by done. rewrite decide_False; [done|]. set_solver. }
  apply G.
Qed.


(** ** The edge *)

Section EdgeProps.
Context (lib : Starlette) {Q : Type} (one : Q) (py_float : string -> option Q) (leq : Q -> Q -> bool).
Context (catalog : Catalog).

Lemma reject_status inp out i j scope :
  first_start (run inp out i j (reject_response lib one py_float leq catalog scope)).1 = Some 413%Z.
Proof. unfold reject_response, json_response. cbn [send_all foldr run]. by destruct (run _ _ _ _ _). Qed.

(** C39: Request bodies are capped at the edge, whatever the application does
    and whatever arrives: a body declared larger than the limit of its path is
    refused with 413 and the application is not called; otherwise the
    application never gets to see more than the limit, an exchange within the
    limit is exactly the application's, and the response is the 413 precisely
    when the application reads past the limit before it has started a response
    (unless it is canceled). *)
Theorem oversized_bodies_are_refused (default_limit : Z) (path_limits : list (string * Z)) (app : asgi_app)
    (scope : Scope) (inp : nat -> res exn message) (out : nat -> option exn) :
  sc_type scope = "http" ->
  let limit := default default_limit (assoc (sc_path scope) path_limits) in
  let served a := run inp out 0 0
    (BodySizeLimitMiddleware lib one py_float leq catalog default_limit path_limits a scope) in
  (0 <= limit)%Z ->
  (declared_over limit (hs_get lib (sc_headers scope) "content-length") = true ->
     first_start (served app).1 = Some 413%Z /\ forall app', served app' = served app) /\
  (declared_over limit (hs_get lib (sc_headers scope) "content-length") = false ->
     (forall app', agree limit (app scope) (app' scope) -> served app = served app') /\
     ((forall n, (total inp 0 n <= limit)%Z) -> served app = run inp out 0 0 (app scope)) /\
     (first_start (served app).1 =
        (if (limit <? total inp 0 (reads inp out 0 0 (app scope)))%Z then Some 413%Z
         else first_start (run inp out 0 0 (app scope)).1) \/
      (served app).2 = Some ECancelled)).
Proof.
  intros Ht limit served Hl. unfold served, BodySizeLimitMiddleware. rewrite Ht.
  rewrite (bool_decide_true ("http" = "http")) by done. cbn [negb]. fold limit.
  destruct (declared_over _ _); (split; [intros Hd|intros Hd]); try discriminate Hd.
  - split; [apply reject_status|done].
  - split; [|split].
    + intros app' Ha. apply (capped_agree inp out limit _ limit); [done..|]. left. cbn. lia.
    + intros Hn. apply capped_transparent; [|done]. cbn. intros n. specialize (Hn n). lia.
    + pose proof (capped_status inp out limit (reject_response lib one py_float leq catalog scope) (app scope) 0 0
        (mkExchange 0 false false) 413%Z (fun i j => reject_status inp out i j scope) eq_refl eq_refl Hl) as H.
      exact H.
Qed.

(** The identifier of a request is a short token of safe characters. *)
Lemma request_id_safe inbound fresh : safe_request_id (request_id inbound fresh) = true.
Proof.
  assert (Hf : safe_request_id (hex_digits 32 fresh) = true).
  { unfold safe_request_id. rewrite length_hex_digits. rewrite (str_all_mono hex_ch safe_ch); [done| |apply hex_digits_all].
    intros c. unfold hex_ch, safe_ch, ch_alpha, ch_lower, in_range. intros H. apply orb_prop in H as [->|H].
    - by rewrite orb_true_r.
    - apply andb_prop in H as [H1 H2]. apply N.leb_le in H1, H2.
      assert ((97 <=? ch c)%N = true) as -> by (apply N.leb_le; lia).
      assert ((ch c <=? 122)%N = true) as -> by (apply N.leb_le; lia).
      by rewrite !orb_true_r. }
  unfold request_id. destruct inbound as [s|]; [|done]. destruct (_ && _) eqn:E; [|done].
  by apply andb_prop in E as [_ E].
Qed.

(** Every class has a text of its own in every language of the catalog. *)
Lemma errors_covered c l :
  supported l = true ->
  exists text file, errors_file l = Some file /\ assoc (message_key c) file = Some text /\ text ≠ "" /\
    catalog_get ERROR_CATALOG (message_key c) l = text.
Proof.
  unfold supported. intros H. apply bool_decide_eq_true in H. unfold SUPPORTED_LOCALES in H.
  rewrite !elem_of_cons, elem_of_nil in H. destruct H as [->|[->|[]]];
    destruct c; do 2 eexists; (split; [reflexivity|]); (split; [reflexivity|]); (split; [discriminate|vm_compute; reflexivity]).
Qed.

(** Every domain error is answered in the caller's language: the response
    to any error of the hierarchy is a client or server error whose message is
    the text the catalog has for it in the negotiated language, never the bare
    key; and [domain_error_message_keys] finds every key the hierarchy emits. *)
Theorem errors_are_localized c detail accept_language :
  let locale := negotiate_locale [parse_accept_language one py_float leq accept_language] in
  let answer := render_domain_error one py_float leq ERROR_CATALOG c detail accept_language in
  supported locale = true /\ (400 <= answer.1 <= 599)%Z /\
  (exists text file, errors_file locale = Some file /\ assoc (message_key c) file = Some text /\ text ≠ "" /\
     answer.2 = JObj [("error", JObj [("code", JStr (code c)); ("message_key", JStr (message_key c));
                        ("message", JStr text); ("detail", match detail with Some d => JStr d | None => JNull end)])]) /\
  exists keys, domain_error_message_keys = Some keys /\ forall k, k ∈ keys <-> exists c', k = message_key c'.
Proof.
  intros locale answer. split; [apply negotiate_supported|]. split; [destruct c; cbn; lia|]. split.
  - destruct (errors_covered c locale (negotiate_supported _)) as (text & file & Hf & Ht & Hn & Hg).
    exists text, file. split; [exact Hf|]. split; [exact Ht|]. split; [exact Hn|].
    unfold answer, render_domain_error. cbn [snd]. fold locale. by rewrite Hg.
  - assert (E : match domain_error_message_keys with
                | Some keys => bool_decide (keys = list_to_set (message_key <$> domain_classes))
                | None => false end = true) by (vm_compute; reflexivity).
    destruct domain_error_message_keys as [keys|]; [|discriminate E]. apply bool_decide_eq_true in E as ->.
    eexists. split; [reflexivity|]. intros k. rewrite elem_of_list_to_set, list_elem_of_fmap. split.
    + intros (c' & -> & _). by exists c'.
    + intros (c' & ->). exists c'. split; [done|]. apply (bool_decide_unpack _). destruct c'; vm_compute; exact I.
Qed.

Context `{!StarletteLaws lib}.

Lemma setdefaults_get (l : list (string * string)) hs n :
  Forall (fun x => str_lower x.1 = x.1) l -> str_lower n = n -> NoDup l.*1 ->
  hs_get lib (foldl (fun hs '(n, v) => hs_setdefault lib hs n v) hs l) n =
    match assoc n l with Some v => Some (default v (hs_get lib hs n)) | None => hs_get lib hs n end.
Proof.
  intros Hl Hn. revert hs. induction Hl as [|[k v] l Hk Hl IH]; intros hs Hd; [done|]. simpl in *.
  apply NoDup_cons in Hd as [Hx Hd]. rewrite IH by done. case_bool_decide as E.
  - subst k. rewrite (get_setdefault hs n v) by done.
    destruct (assoc n l) as [w|] eqn:Ea; [|done]. exfalso. apply Hx. clear -Ea.
    induction l as [|[k x] l IH]; [done|]. simpl in Ea. simpl.
    case_bool_decide; [subst; by left|right; by apply IH].
  - rewrite get_setdefault_other by (done || congruence). done.
Qed.

(** Every response leaves hardened: each start of a response sent for an
    HTTP request carries the request's identifier, the caller's own if it is
    well formed, else a fresh one, always a short token of safe characters;
    and, unless an origin list put CORS outside of them, the four security
    headers, with their values unless the application set its own. *)
Theorem responses_are_hardened (max_body max_upload : Z) matched (cors : option (asgi_app -> asgi_app)) (fresh : uuid)
    (app : asgi_app) (scope : Scope) inp out i j status hs :
  sc_type scope = "http" ->
  ResponseStart status hs ∈ (run inp out i j
    (add_middleware lib one py_float leq catalog max_body max_upload matched cors fresh app scope)).1 ->
  let rid := request_id (hs_get lib (sc_headers scope) REQUEST_ID_HEADER) fresh in
  hs_get lib hs REQUEST_ID_HEADER = Some rid /\ safe_request_id rid = true /\
  (cors = None -> exists hs0,
     ResponseStart status hs0 ∈ (run inp out i j
       (BodySizeLimitMiddleware lib one py_float leq catalog max_body
          [("/api/files", (max_upload + MULTIPART_OVERHEAD)%Z)] app
          (mkScope (sc_type scope) (sc_method scope) (sc_path scope) (sc_headers scope) (Some rid)))).1 /\
     forall n v, (n, v) ∈ SECURITY_HEADERS -> hs_get lib hs n = Some (default v (hs_get lib hs0 n))).
Proof.
  intros Ht Hin rid. unfold add_middleware, RequestIDMiddleware in Hin. rewrite Ht in Hin.
  rewrite (bool_decide_true ("http" = "http")) in Hin by done. cbn [negb] in Hin. fold rid in Hin.
  rewrite run_with_send in Hin. cbn [fst] in Hin. apply list_elem_of_fmap in Hin as (m & Hm & Hin).
  destruct m as [| |st hs1| |]; try discriminate Hm. cbn [on_start] in Hm. injection Hm as -> ->.
  split; [by apply get_set|]. split; [apply request_id_safe|]. intros ->.
  unfold MetricsMiddleware, SecurityHeadersMiddleware in Hin. cbn [sc_type] in Hin.
  rewrite (bool_decide_true ("http" = "http")) in Hin by done. cbn [negb] in Hin.
  rewrite (proj1 (run_metered _ _ _ _ _ _ _ _)) in Hin.
  rewrite run_with_send in Hin. cbn [fst] in Hin. apply list_elem_of_fmap in Hin as (m & Hm & Hin).
  destruct m as [| |st0 hs0| |]; try discriminate Hm. cbn [on_start] in Hm. injection Hm as -> ->.
  exists hs0. rewrite Ht. split; [exact Hin|]. intros n v Hnv.
  assert (Hlow : Forall (fun x => str_lower x.1 = x.1) SECURITY_HEADERS) by (repeat constructor; vm_compute; reflexivity).
  rewrite Forall_forall in Hlow. pose proof (Hlow _ Hnv) as Hn. simpl in Hn. rewrite <- Forall_forall in Hlow.
  rewrite get_set_other; [|done|done|].
  - etransitivity; [apply (setdefaults_get SECURITY_HEADERS hs0 n); [done|done|]|].
    2:{ assert (assoc n SECURITY_HEADERS = Some v) as ->; [|done].
      unfold SECURITY_HEADERS in *. repeat (apply elem_of_cons in Hnv as [[= -> ->]|Hnv]; [vm_compute; reflexivity|]).
      by apply elem_of_nil in Hnv. }
    apply NoDup_ListNoDup. vm_compute. repeat constructor; simpl; intros H;
        repeat (destruct H as [H|H]; [discriminate H|]); destruct H.
  - intros ->. clear -Hnv. unfold SECURITY_HEADERS in *.
    repeat (apply elem_of_cons in Hnv as [Hnv|Hnv]; [discriminate Hnv|]). by apply elem_of_nil in Hnv.
Qed.

(** Every HTTP request is counted once, under its method, the template of
    its route and the status it was answered with (500 when no response was
    started), and counting changes nothing of the exchange. *)
Theorem requests_are_counted_once (max_body max_upload : Z) matched (fresh : uuid) (app : asgi_app) (scope : Scope)
    inp out i j :
  sc_type scope = "http" -> (forall sc, silent (app sc)) ->
  let rid := request_id (hs_get lib (sc_headers scope) REQUEST_ID_HEADER) fresh in
  let scope' := mkScope (sc_type scope) (sc_method scope) (sc_path scope) (sc_headers scope) (Some rid) in
  let served := add_middleware lib one py_float leq catalog max_body max_upload matched None fresh app scope in
  recorded inp out i j served =
    [mkObservation (sc_method scope)
       (match matched scope' with Some p => if str_empty p then "<unmatched>" else p | None => "<unmatched>" end)
       (default 500%Z (last_start (run inp out i j served).1))] /\
  forall mid sc, run inp out i j (MetricsMiddleware matched mid sc) = run inp out i j (mid sc).
Proof.
  intros Ht Hs rid scope' served. split.
  - unfold served, add_middleware, RequestIDMiddleware. rewrite Ht, (bool_decide_true ("http" = "http")) by done. cbn [negb].
    fold rid. rewrite recorded_with_send, run_with_send. cbn [fst]. rewrite last_start_on_start.
    replace (mkScope "http" (sc_method scope) (sc_path scope) (sc_headers scope) (Some rid)) with scope'
      by (unfold scope'; by rewrite Ht).
    unfold MetricsMiddleware. change (sc_type scope') with (sc_type scope). rewrite Ht, (bool_decide_true ("http" = "http")) by done.
    cbn [negb]. change (sc_method scope') with (sc_method scope).
    set (tmpl := match matched scope' with Some _ => _ | None => _ end).
    set (t := SecurityHeadersMiddleware _ _ _).
    destruct (run_metered inp out (sc_method scope) tmpl t i j None) as [-> ->].
    rewrite (silent_recorded inp out t); [simpl; by destruct (last_start _)|].
    unfold t, SecurityHeadersMiddleware, BodySizeLimitMiddleware. change (sc_type scope') with (sc_type scope).
    rewrite Ht, (bool_decide_true ("http" = "http")) by done. cbn [negb]. apply silent_with_send.
    destruct (declared_over _ _); [apply silent_send_all|]. apply silent_capped; [apply silent_send_all|apply Hs].
  - intros mid sc. unfold MetricsMiddleware. destruct (negb _); [done|]. apply run_metered.
Qed.
End EdgeProps.

(** ** Error reports and log records *)


(** Below the eighth level a secret is left as it is. *)
Definition deep_secret : list (string * json) :=
  Nat.iter 8 (fun o => [("context", JObj o)]) [("password", JStr "hunter2")].
Lemma deep_secret_survives : mask_sensitive_data deep_secret = deep_secret.
Proof. vm_compute. reflexivity. Qed.

(** *** Witnesses *)

Definition demo_starlette : Starlette :=
  mkStarlette (fun h k => assoc k h) (fun h k v => dict_set k v h)
    (fun h k v => match assoc k h with Some _ => h | None => dict_set k v h end)
    (fun _ => [("content-type", "application/json")]) (fun _ => "{}").
#[local] Instance demo_starlette_laws : StarletteLaws demo_starlette.
Proof.
  split; simpl; intros.
  - apply assoc_dict_set.
  - by apply assoc_dict_set_ne.
  - destruct (assoc k h) as [w|] eqn:E; simpl; [done|apply assoc_dict_set].
  - destruct (assoc k h) as [w|] eqn:E; [done|by apply assoc_dict_set_ne].
Qed.

(** Reads one message, then answers. *)
Definition demo_echo : asgi_app := fun _ =>
  AReceive (fun r => match r with
    | Ok _ => ASend (ResponseStart 200 [("x-frame-options", "SAMEORIGIN")]) (fun _ => AReturn)
    | Raise e => ARaise e end).
Definition demo_scope (path : string) : Scope := mkScope "http" "POST" path [("x-request-id", "abc")] None.
Definition demo_body : nat -> res exn message := fun _ => Ok (HttpRequest_ "12345" false).

Lemma oversized_bodies_are_refused_witness :
  first_start (run demo_body (fun _ => None) 0 0 (BodySizeLimitMiddleware demo_starlette 0%Z (fun _ => None)
    Z.leb [] 4 [("/api/files", 10%Z)] demo_echo (demo_scope "/api/commerce/product-images"))).1 = Some 413%Z.
Proof.
  destruct (oversized_bodies_are_refused demo_starlette 0%Z (fun _ => None) Z.leb [] 4 [("/api/files", 10%Z)]
    demo_echo (demo_scope "/api/commerce/product-images") demo_body (fun _ => None) eq_refl ltac:(vm_compute; discriminate))
    as [_ H].
  destruct (H ltac:(vm_compute; reflexivity)) as (_ & _ & [E|E]); [exact E|discriminate E].
Defined.

Lemma responses_are_hardened_witness :
  exists hs, ResponseStart 200 hs ∈ (run demo_body (fun _ => None) 0 0 (add_middleware demo_starlette 0%Z
      (fun _ => None) Z.leb [] 100 100 (fun _ => None) None 7 demo_echo (demo_scope "/api/files"))).1 /\
    hs_get demo_starlette hs REQUEST_ID_HEADER = Some "abc".
Proof.
  eexists. split; [vm_compute; left|].
  refine (proj1 (responses_are_hardened demo_starlette 0%Z (fun _ => None) Z.leb [] 100 100 (fun _ => None) None 7 demo_echo
    (demo_scope "/api/files") demo_body (fun _ => None) 0 0 200 _ eq_refl _)).
  vm_compute. left.
Defined.

Lemma demo_echo_silent sc : silent (demo_echo sc).
Proof. constructor. intros [m|e]; constructor. intros r. constructor. Qed.

Lemma requests_are_counted_once_witness :
  recorded demo_body (fun _ => None) 0 0 (add_middleware demo_starlette 0%Z (fun _ => None) Z.leb [] 100 100
    (fun _ => Some "/api/files") None 7 demo_echo (demo_scope "/api/files")) = [mkObservation "POST" "/api/files" 200].
Proof.
  refine (proj1 (requests_are_counted_once demo_starlette 0%Z (fun _ => None) Z.leb [] 100 100 (fun _ => Some "/api/files")
    7 demo_echo (demo_scope "/api/files") demo_body (fun _ => None) 0 0 eq_refl demo_echo_silent)).
Defined.

(** The settings of the demonstration; its S3 is never asked. *)
Definition demo_deployment : Deployment :=
  mkDeployment demo_settings demo_provider_settings "commerce,crm,saas" 365 30 demo_auth_lib demo_auth_settings
    (fun _ => true) demo_notice_lib demo_templates demo_dispatch
    (mkChannelSettings "" "" "" "smtp.shop.uz" 587 "" "" "noreply@shop.uz") "https://shop.uz/join?t={token}"
    (mkSaasSettings 400 "profile,invite") (mkCrmSettings "lead,won" "call,task") demo_files_settings demo_os
    (mkS3Client (fun _ _ _ _ _ => S3Done) (fun _ _ _ => S3Done) (fun _ _ _ => S3Done) (fun k => k)) demo_pillow (fun _ => 0%Z).

Lemma demo_role_draws n : roles_of (committed demo_st) !! env_uuid7 demo_env n = None.
Proof.
  change (({[60%N := demo_owner_role; 61%N := demo_admin_role]} : gmap N Role) !! N.of_nat (1000 + n) = None).
  rewrite lookup_insert_ne, lookup_singleton_ne by lia. done.
Qed.


(** ** Smaller facts *)

(** The admin menu shows exactly the registered screens the caller may open. *)
Lemma menu_shows_permitted access registry u s l s' :
  screens_for access registry u s = (Ok l, s') ->
  exists codes, list_permissions access u s = (Ok codes, s') /\
    forall info, info ∈ l <->
      exists slug screen, (slug, screen) ∈ registry /\ info = screen_info screen /\ as_permission screen ∈ codes.
Proof.
  unfold screens_for. intros H. apply bind_inv_Ok in H as (codes & s1 & E & H). unfold ret in H.
  injection H as <- <-. exists codes. split; [done|]. intros info. rewrite list_elem_of_fmap. split.
  - intros (screen & -> & Hin). apply list_elem_of_In, List.filter_In in Hin as [Hin Hc].
    apply bool_decide_eq_true in Hc. apply list_elem_of_In in Hin. unfold screens in Hin.
    apply list_elem_of_fmap in Hin as ([slug x] & -> & Hin). rewrite merge_sort_Permutation in Hin. eauto.
  - intros (slug & screen & Hin & -> & Hc). exists screen. split; [done|].
    apply list_elem_of_In, List.filter_In. split; [|by apply bool_decide_eq_true].
    apply list_elem_of_In. unfold screens. apply list_elem_of_fmap. exists (slug, screen). split; [done|].
    by rewrite merge_sort_Permutation.
Qed.

(** Production starts only with secrets and links of its own. *)
Lemma production_refuses_defaults st :
  validate_settings st = Ok tt -> st_app_env st = "prod" ->
  st_jwt_secret st ≠ DEV_JWT_SECRET /\ MIN_JWT_SECRET_BYTES <= String.length (st_jwt_secret st) /\
  secret_encryption_key_list st ≠ [] /\ st_password_reset_url st ≠ DEV_PASSWORD_RESET_URL /\
  st_invitation_accept_url st ≠ DEV_INVITATION_ACCEPT_URL /\
  link_carries_token (st_password_reset_url st) = true /\
  link_carries_token (st_invitation_accept_url st) = true.
Proof.
  unfold validate_settings. intros H Hp. rewrite Hp in H.
  destruct (link_carries_token (st_password_reset_url st)); [|done].
  destruct (link_carries_token (st_invitation_accept_url st)); [|done]. simpl in H.
  destruct (prod_problems st) eqn:E; [clear H|done]. unfold prod_problems in E.
  apply app_eq_nil in E as [E1 E]. apply app_eq_nil in E as [E2 E]. apply app_eq_nil in E as [E3 E4].
  destruct (bool_decide (st_jwt_secret st = DEV_JWT_SECRET)) eqn:B1; [done|].
  destruct (Nat.ltb_spec (String.length (st_jwt_secret st)) MIN_JWT_SECRET_BYTES); [done|].
  destruct (bool_decide (secret_encryption_key_list st = [])) eqn:B2; [done|].
  destruct (bool_decide (st_password_reset_url st = _)) eqn:B3; [done|].
  destruct (bool_decide (st_invitation_accept_url st = _)) eqn:B4; [done|].
  rewrite bool_decide_eq_false in *. done.
Qed.

(** The process is reported ready exactly when the database and Redis answer. *)
Lemma ready_iff_dependencies_answer database redis status body :
  ready_route database redis = Ok (status, body) ->
  status = 200%Z <-> database = Ok tt /\ redis = Ok tt.
Proof.
  unfold ready_route, check_dependency. destruct database as [[]|e1], redis as [[]|e2]; simpl;
    repeat case_bool_decide; simpl; intros [=]; subst; split; try done; intros [? ?]; done.
Qed.
