(* ===== verification/SchemaProps.v ===== *)
(** Correctness of the migrations and of the schema they build: any order that
    respects the declared dependencies works and can be taken back, row level
    security keeps tenants apart in every schema on the way, and history tables
    are only added to. *)

From stdpp Require Import base strings gmap list sorting.
From Stdlib Require Import ZArith Lia Ascii.
From S2P Require Import Prelude Errors PyLib Calendar Entities Models Events Ddl Migrations.

(** ** Migrating *)

Definition revision_requires (r : Revision) : list string := option_list (rv_down_revision r) ++ rv_depends_on r.

(** The database before any migration; the roles are provisioned with the cluster. *)
Definition fresh : Schema := mkSchema ∅ ∅ (list_to_set ALL_ROLES).

Definition upgraded (r : Revision) (s : Schema) : res exn Schema := rbind (rv_upgrade r) (fun l => exec_all l s).
Definition downgraded (r : Revision) (s : Schema) : res exn Schema := rbind (rv_downgrade r) (fun l => exec_all l s).

(** A revision can be applied, or taken back, next to the ones in [done]. *)
Definition can_upgrade (r : Revision) (done : gset string) : Prop :=
  r ∈ revisions /\ rv_id r ∉ done /\ forall x, x ∈ revision_requires r -> x ∈ done.
Definition can_downgrade (r : Revision) (done : gset string) : Prop :=
  r ∈ revisions /\ rv_id r ∈ done /\ forall r', r' ∈ revisions -> rv_id r' ∈ done -> rv_id r ∉ revision_requires r'.

(** The schemas Alembic takes a database through, with the revisions applied:
    whatever components are there, in whatever order. *)
Inductive migrated : gset string -> Schema -> Prop :=
| migrated_fresh : migrated ∅ fresh
| migrated_up done s r s' :
    migrated done s -> can_upgrade r done -> upgraded r s = Ok s' -> migrated ({[rv_id r]} ∪ done) s'
| migrated_down done s r s' :
    migrated done s -> can_downgrade r done -> downgraded r s = Ok s' -> migrated (done ∖ {[rv_id r]}) s'.

(** ** The schema of a set of revisions *)

(** Which revision leaves a table as what, in the order of [revisions]. *)
Fixpoint history (l : list Revision) (s : Schema) : list (string * string * TableDef) :=
  match l with
  | [] => []
  | r :: l' =>
      match upgraded r s with
      | Ok s' =>
          ((fun x => (x.1, rv_id r, x.2)) <$>
             List.filter (fun x => negb (bool_decide (sc_tables s !! x.1 = Some x.2))) (map_to_list (sc_tables s')))
          ++ history l' s'
      | Raise _ => []
      end
  end.
Definition versions : list (string * string * TableDef) := history revisions fresh.

Definition tables_of (vs : list (string * string * TableDef)) (done : gset string) : gmap string TableDef :=
  foldl (fun m v => if bool_decide (v.1.2 ∈ done) then <[v.1.1 := v.2]> m else m) ∅ vs.
Definition functions_of (done : gset string) : gset string :=
  if bool_decide ("shared0002" ∈ done) then {[TENANT_FN; USER_FN]} else ∅.
Definition schema_from (vs : list (string * string * TableDef)) (done : gset string) : Schema :=
  mkSchema (tables_of vs done) (functions_of done) (list_to_set ALL_ROLES).
Definition schema_of (done : gset string) : Schema := schema_from versions done.

(** What a revision requires, directly or not. *)
Definition requires_of (id : string) : list string :=
  mjoin (revision_requires <$> List.filter (fun r => bool_decide (rv_id r = id)) revisions).
Fixpoint ancestors (fuel : nat) (id : string) : list string :=
  match fuel with
  | O => []
  | S n => requires_of id ++ mjoin (ancestors n <$> requires_of id)
  end.
Definition anc (id : string) : gset string := list_to_set (ancestors 8 id).

(** Sets of revisions with all they require. *)
Definition closed (done : gset string) : Prop :=
  forall r, r ∈ revisions -> rv_id r ∈ done -> forall x, x ∈ revision_requires r -> x ∈ done.

Lemma requires_of_spec id x : x ∈ requires_of id <-> exists r, r ∈ revisions /\ rv_id r = id /\ x ∈ revision_requires r.
Proof.
  unfold requires_of. rewrite list_elem_of_join. setoid_rewrite list_elem_of_fmap. split.
  - intros (l & Hx & r & -> & Hr). apply list_elem_of_In, List.filter_In in Hr as [Hr Hi].
    apply list_elem_of_In in Hr. apply bool_decide_eq_true in Hi. eauto.
  - intros (r & Hr & Hi & Hx). exists (revision_requires r). split; [done|]. exists r. split; [done|].
    apply list_elem_of_In, List.filter_In. split; [by apply list_elem_of_In|by apply bool_decide_eq_true].
Qed.

Lemma anc_closed done id : closed done -> id ∈ done -> anc id ⊆ done.
Proof.
  intros Hc Hi. unfold anc. intros x. rewrite elem_of_list_to_set. revert id Hi x.
  generalize 8 as n. induction n as [|n IH]; intros id Hi x; simpl; [set_solver|].
  rewrite elem_of_app, list_elem_of_join. setoid_rewrite list_elem_of_fmap.
  assert (Hr : forall y, y ∈ requires_of id -> y ∈ done).
  { intros y Hy. apply requires_of_spec in Hy as (r & Hr & Hid & Hy). subst id. by apply (Hc r). }
  intros [Hx|(l & Hx & y & -> & Hy)]; [by apply Hr|]. apply (IH y); [by apply Hr|done].
Qed.

Lemma ids_unique r r' : r ∈ revisions -> r' ∈ revisions -> rv_id r = rv_id r' -> r = r'.
Proof.
  assert (Hn : NoDup (rv_id <$> revisions)) by (apply (bool_decide_unpack _); vm_compute; exact I).
  intros Hr Hr' E. apply list_elem_of_lookup in Hr as [i Hi], Hr' as [j Hj].
  assert (i = j) as <-.
  { eapply (NoDup_lookup _ _ _ (rv_id r) Hn); rewrite list_lookup_fmap; [by rewrite Hi|by rewrite Hj, E]. }
  congruence.
Qed.

Lemma closed_up r done : closed done -> can_upgrade r done -> closed ({[rv_id r]} ∪ done).
Proof.
  intros Hc (Hr & _ & Hq) r' Hr' Hi x Hx. apply elem_of_union in Hi as [Hi|Hi].
  - apply elem_of_singleton in Hi. rewrite (ids_unique r' r Hr' Hr Hi) in Hx. apply elem_of_union. right. by apply Hq.
  - apply elem_of_union. right. by apply (Hc r').
Qed.
Lemma closed_down r done : closed done -> can_downgrade r done -> closed (done ∖ {[rv_id r]}).
Proof.
  intros Hc (Hr & _ & Hq) r' Hr' Hi x Hx. apply elem_of_difference in Hi as [Hi _].
  apply elem_of_difference. split; [by apply (Hc r')|]. intros Hs. apply elem_of_singleton in Hs. subst x.
  by apply (Hq r').
Qed.

(** ** Tables by their last revision *)

Definition keep (P : string -> Prop) `{!forall t, Decision (P t)} (m : gmap string TableDef) : gmap string TableDef :=
  filter (fun x => P x.1) m.

Lemma tables_of_ext P `{!forall t, Decision (P t)} vs d1 d2 :
  Forall (fun v => P v.1.1 -> v.1.2 ∈ d1 <-> v.1.2 ∈ d2) vs ->
  keep P (tables_of vs d1) = keep P (tables_of vs d2).
Proof.
  unfold tables_of. generalize (eq_refl (keep P ∅)). generalize (∅ : gmap string TableDef) at 1 3 as m1.
  generalize (∅ : gmap string TableDef) as m2. intros m2 m1 Hm Hv. revert m1 m2 Hm.
  induction Hv as [|[[t id] T] vs Hv _ IH]; intros m1 m2 Hm; simpl in *; [done|]. apply IH.
  destruct (decide (P t)) as [Hp|Hp].
  - rewrite (bool_decide_ext _ _ (Hv Hp)). case_bool_decide; [|done].
    unfold keep. rewrite !map_filter_insert_True by done. unfold keep in Hm. by rewrite Hm.
  - unfold keep in *. repeat case_bool_decide; rewrite ?map_filter_insert_not by (intros; done); done.
Qed.

Lemma tables_of_from vs (done : gset string) t T (m : gmap string TableDef) :
  foldl (fun m v => if bool_decide (v.1.2 ∈ done) then <[v.1.1 := v.2]> m else m) m vs !! t = Some T ->
  m !! t = Some T \/ exists id, (t, id, T) ∈ vs /\ id ∈ done.
Proof.
  revert m. induction vs as [|[[t' id] T'] vs IH]; intros m; simpl; [by left|].
  intros H. destruct (IH _ H) as [Hm|(id' & Hin & Hd)]; [|right; exists id'; split; [by right|done]].
  case_bool_decide as E; [|by left]. destruct (decide (t = t')) as [->|Hne].
  - rewrite lookup_insert_eq in Hm. injection Hm as ->. right. exists id. split; [by left|done].
  - rewrite lookup_insert_ne in Hm by done. by left.
Qed.
Lemma tables_of_in vs done t T :
  tables_of vs done !! t = Some T -> exists id, (t, id, T) ∈ vs /\ id ∈ done.
Proof. intros H. destruct (tables_of_from _ _ _ _ _ H) as [H'|H']; [by rewrite lookup_empty in H'|done]. Qed.

(** ** One revision, checked next to what it requires

    What is asked of a revision is checked by running it in the smallest schema
    it can be run in; the frame rule does the rest. *)

(** Which related revisions are applied is known. *)
Lemma known_abs (done A B : gset string) (x id : string) :
  bool_decide (id ∈ A) || bool_decide (id = x) || bool_decide (x ∈ B) = true ->
  (id ∈ done -> B ⊆ done) -> x ∉ done -> A ⊆ done -> x ∉ A ->
  (id ∈ done <-> id ∈ A) /\ (id ∈ {[x]} ∪ done <-> id ∈ {[x]} ∪ A).
Proof. rewrite !orb_true_iff, !bool_decide_eq_true. intros [[H|H]|H]; set_solver. Qed.

Section Checked.
Context (revs : list Revision) (anc : string -> gset string) (vs : list (string * string * TableDef)).


Definition own (r : Revision) : list (string * string * TableDef) :=
  List.filter (fun v => bool_decide (v.1.2 = rv_id r)) vs.
Definition foot (r : Revision) : gset string :=
  list_to_set ((fun v => v.1.1) <$> own r) ∪ list_to_set (mjoin ((fun v => depends_tables v.2) <$> own r)).

Definition core_of (F : gset string) (done : gset string) : Schema :=
  mkSchema (keep (fun t => t ∈ F) (tables_of vs done)) (functions_of done) (list_to_set ALL_ROLES).

Definition statements (r : Revision) : list statement :=
  match rv_upgrade r, rv_downgrade r with Ok l, Ok l' => l ++ l' | _, _ => [] end.

Definition unrelated (r : Revision) (t : string) (T : TableDef) : bool :=
  forallb (indep_with (relation_names t T) (depends_tables T) (depends_functions T)) (statements r).

Definition related (r : Revision) (id : string) : bool :=
  bool_decide (id ∈ anc (rv_id r)) || bool_decide (id = rv_id r) || bool_decide (rv_id r ∈ anc id).

Definition yields (r : res exn Schema) (s : Schema) : bool :=
  match r with Ok s' => bool_decide (s' = s) | Raise _ => false end.

Definition checked (r : Revision) : bool :=
  let F := foot r in
  let before := anc (rv_id r) in
  let after := {[rv_id r]} ∪ before in
  negb (bool_decide (rv_id r ∈ before))
  && related r "shared0002"
  && yields (upgraded r (core_of F before)) (core_of F after)
  && yields (downgraded r (core_of F after)) (core_of F before)
  && forallb (fun v => if bool_decide (v.1.1 ∈ F) then related r v.1.2
                       else negb (bool_decide (v.1.2 = rv_id r))
                            && (bool_decide (rv_id r ∈ anc v.1.2)
                                || unrelated r v.1.1 v.2)) vs.

Context (Hanc : forall done id, closed done -> id ∈ done -> anc id ⊆ done).
Context (Hchecked : forallb checked revs = true).

Lemma checked_of r : r ∈ revs -> checked r = true.
Proof. intros H. pose proof Hchecked as A. rewrite forallb_forall in A. by apply A, list_elem_of_In. Qed.

Lemma yields_true x s : yields x s = true -> x = Ok s.
Proof. destruct x; simpl; [|done]. intros H. apply bool_decide_eq_true in H. by subst. Qed.

Lemma related_known r done id :
  related r id = true -> closed done -> rv_id r ∉ done -> anc (rv_id r) ⊆ done -> rv_id r ∉ anc (rv_id r) ->
  (id ∈ done <-> id ∈ anc (rv_id r)) /\
  (id ∈ {[rv_id r]} ∪ done <-> id ∈ {[rv_id r]} ∪ anc (rv_id r)).
Proof. intros Hr Hc. exact (known_abs done (anc (rv_id r)) (anc id) (rv_id r) id Hr (Hanc done id Hc)). Qed.

Lemma functions_of_ext d1 d2 : ("shared0002" ∈ d1 <-> "shared0002" ∈ d2) -> functions_of d1 = functions_of d2.
Proof. intros H. unfold functions_of. by rewrite (bool_decide_ext _ _ H). Qed.

(** The schema, seen from a revision: what it is about, and the rest. *)
Definition rest_of (F done : gset string) : gmap string TableDef := keep (fun t => t ∉ F) (tables_of vs done).

Lemma schema_split F done : schema_from vs done = beside (core_of F done) (rest_of F done).
Proof.
  unfold schema_from, beside, core_of, rest_of, keep. simpl. f_equal. symmetry.
  apply (map_filter_union_complement (fun x : string * TableDef => x.1 ∈ F)).
Qed.
Lemma schema_disjoint F d : sc_tables (core_of F d) ##ₘ rest_of F d.
Proof. apply (map_disjoint_filter_complement (fun x : string * TableDef => x.1 ∈ F)). Qed.

Section Step.
Context (r : Revision) (done : gset string).
Context (Hin : r ∈ revs) (Hnew : rv_id r ∉ done) (Hclosed : closed done).
Context (Hclosed' : closed ({[rv_id r]} ∪ done)).

Lemma step_parts :
  upgraded r (core_of (foot r) done) = Ok (core_of (foot r) ({[rv_id r]} ∪ done)) /\
  downgraded r (core_of (foot r) ({[rv_id r]} ∪ done)) = Ok (core_of (foot r) done) /\
  rest_of (foot r) ({[rv_id r]} ∪ done) = rest_of (foot r) done /\
  map_Forall (fun t T => forallb (fun st => indep st t T) (statements r) = true) (rest_of (foot r) done).
Proof.
  pose proof (checked_of r Hin) as Hc. unfold checked in Hc. cbv zeta in Hc. rewrite !andb_true_iff in Hc.
  destruct Hc as [[[[Hself Hfn] Hup] Hdown] Hall]. apply negb_true_iff, bool_decide_eq_false in Hself.
  assert (Ha : anc (rv_id r) ⊆ done).
  { intros x Hx. assert (Hx' : x ∈ {[rv_id r]} ∪ done) by (apply (Hanc _ (rv_id r) Hclosed'); [set_solver|done]).
    apply elem_of_union in Hx' as [Hx'|Hx']; [|done]. apply elem_of_singleton in Hx'. by subst x. }
  assert (Hk : forall id, related r id = true -> _) by (intros id H; exact (related_known r done id H Hclosed Hnew Ha Hself)).
  rewrite forallb_forall in Hall.
  assert (Hv : forall v, v ∈ vs -> _) by (intros v H; apply list_elem_of_In in H; exact (Hall v H)). clear Hall.
  assert (Hb : core_of (foot r) done = core_of (foot r) (anc (rv_id r)) /\
    core_of (foot r) ({[rv_id r]} ∪ done) = core_of (foot r) ({[rv_id r]} ∪ anc (rv_id r))).
  { unfold core_of. split; (f_equal; [apply tables_of_ext, Forall_forall; intros v Hin' Hf|apply functions_of_ext]);
      try (by apply (Hk _ Hfn)); specialize (Hv v Hin'); rewrite bool_decide_true in Hv by done; by apply (Hk _ Hv). }
  destruct Hb as [Hb1 Hb2]. rewrite Hb1, Hb2. apply yields_true in Hup, Hdown. repeat split; [done..| |].
  - apply tables_of_ext, Forall_forall. intros v Hin' Hf. specialize (Hv v Hin').
    rewrite bool_decide_false in Hv by done. apply andb_prop in Hv as [Hv _].
    apply negb_true_iff, bool_decide_eq_false in Hv. rewrite elem_of_union, elem_of_singleton. tauto.
  - intros t T HT. unfold rest_of, keep in HT. apply map_lookup_filter_Some in HT as [HT Hf]. simpl in Hf.
    apply tables_of_in in HT as (id & Hin' & Hd). specialize (Hv _ Hin'). simpl in Hv.
    rewrite bool_decide_false in Hv by done. apply andb_prop in Hv as [_ Hv]. apply orb_prop in Hv as [Hv|Hv]; [|done].
    apply bool_decide_eq_true in Hv. exfalso. apply Hnew. by apply (Hanc done id).
Qed.

Lemma statements_split t T :
  forallb (fun st => indep st t T) (statements r) = true ->
  (forall l, rv_upgrade r = Ok l -> is_Some (match rv_downgrade r with Ok l' => Some l' | _ => None end) ->
     forallb (fun st => indep st t T) l = true) /\
  (forall l, rv_downgrade r = Ok l -> is_Some (match rv_upgrade r with Ok l' => Some l' | _ => None end) ->
     forallb (fun st => indep st t T) l = true).
Proof.
  unfold statements. intros H. destruct (rv_upgrade r) as [l1|], (rv_downgrade r) as [l2|];
    (split; intros l [= <-]; intros [? ?]); try done; rewrite forallb_app in H; by apply andb_prop in H as [? ?].
Qed.

Lemma step_up : upgraded r (schema_from vs done) = Ok (schema_from vs ({[rv_id r]} ∪ done)).
Proof.
  destruct step_parts as (Hu & Hd & Hr & Hi). rewrite !(schema_split (foot r)), Hr.
  unfold upgraded in *. unfold downgraded in Hd. destruct (rv_upgrade r) as [l|] eqn:El; [|discriminate Hu].
  cbn [rbind] in *. apply (exec_all_frame (rest_of (foot r) done) l); [apply schema_disjoint| |exact Hu].
  intros t T HT. apply (proj1 (statements_split t T (Hi t T HT)) l El). destruct (rv_downgrade r); [by eexists|discriminate Hd].
Qed.
Lemma step_down : downgraded r (schema_from vs ({[rv_id r]} ∪ done)) = Ok (schema_from vs done).
Proof.
  destruct step_parts as (Hu & Hd & Hr & Hi). rewrite !(schema_split (foot r)), Hr.
  unfold downgraded in *. unfold upgraded in Hu. destruct (rv_downgrade r) as [l|] eqn:El; [|discriminate Hd].
  cbn [rbind] in *.
  apply (exec_all_frame (rest_of (foot r) done) l); [rewrite <- Hr; apply schema_disjoint| |exact Hd].
  intros t T HT. apply (proj2 (statements_split t T (Hi t T HT)) l El). destruct (rv_upgrade r); [by eexists|discriminate Hu].
Qed.
End Step.

End Checked.

Lemma all_checked : forallb (checked anc versions) revisions = true.
Proof. vm_compute. reflexivity. Qed.

Lemma schema_of_fresh : schema_of ∅ = fresh.
Proof.
  unfold schema_of. generalize versions. intros vs. unfold schema_from, fresh. f_equal.
  unfold tables_of. induction vs as [|v vs IH]; simpl; [done|]. by rewrite bool_decide_false by set_solver.
Qed.

Lemma upgrade_ok r done : closed done -> can_upgrade r done ->
  upgraded r (schema_of done) = Ok (schema_of ({[rv_id r]} ∪ done)).
Proof. intros Hc Hu. pose proof (closed_up r done Hc Hu). destruct Hu as (Hr & Hn & _). by apply (step_up revisions anc versions anc_closed all_checked). Qed.
Lemma downgrade_ok r done : closed done -> can_downgrade r done ->
  downgraded r (schema_of done) = Ok (schema_of (done ∖ {[rv_id r]})).
Proof.
  intros Hc Hu. pose proof (closed_down r done Hc Hu) as Hc'. destruct Hu as (Hr & Hn & _).
  assert (E : done = {[rv_id r]} ∪ (done ∖ {[rv_id r]})).
  { apply set_eq. intros x. rewrite elem_of_union, elem_of_difference, elem_of_singleton.
    destruct (decide (x = rv_id r)); set_solver. }
  rewrite E at 1. apply (step_down revisions anc versions anc_closed all_checked); [done|set_solver|done|]. by rewrite <- E.
Qed.

Lemma migrated_schema done s : migrated done s -> closed done /\ s = schema_of done.
Proof.
  induction 1 as [|done s r s' _ [Hc ->] Hu Hs|done s r s' _ [Hc ->] Hd Hs].
  - split; [intros r _ Hr; set_solver|by rewrite schema_of_fresh].
  - split; [by apply closed_up|]. rewrite (upgrade_ok r done Hc Hu) in Hs. by injection Hs.
  - split; [by apply closed_down|]. rewrite (downgrade_ok r done Hc Hd) in Hs. by injection Hs.
Qed.

Lemma forallb_in {A} (l : list A) (f : A -> bool) x : forallb f l = true -> x ∈ l -> f x = true.
Proof. rewrite forallb_forall. intros H Hx. by apply H, list_elem_of_In. Qed.

(** ** A database with everything applied *)

Fixpoint in_order (l : list Revision) (done : gset string) : bool :=
  match l with
  | [] => true
  | r :: l' => negb (bool_decide (rv_id r ∈ done)) && forallb (fun x => bool_decide (x ∈ done)) (revision_requires r)
               && in_order l' ({[rv_id r]} ∪ done)
  end.
Definition applied (l : list Revision) (done : gset string) : gset string :=
  foldl (fun d r => {[rv_id r]} ∪ d) done l.

Lemma migrated_along l d :
  migrated d (schema_of d) -> Forall (fun r => r ∈ revisions) l -> in_order l d = true ->
  migrated (applied l d) (schema_of (applied l d)).
Proof.
  revert d. induction l as [|r l IH]; intros d Hm Hl Ho; [exact Hm|].
  apply Forall_cons in Hl as [Hr Hl].
  cbn [in_order] in Ho. rewrite !andb_true_iff in Ho. destruct Ho as [[Hn Hq] Ho].
  apply negb_true_iff, bool_decide_eq_false in Hn.
  assert (Hu : can_upgrade r d).
  { split; [exact Hr|]. split; [exact Hn|]. intros x Hx. pose proof (forallb_in _ _ _ Hq Hx) as H.
    by apply bool_decide_eq_true in H. }
  unfold applied. cbn [foldl]. apply (IH ({[rv_id r]} ∪ d)); [|exact Hl|exact Ho].
  apply (migrated_up d (schema_of d) r); [exact Hm|exact Hu|]. apply upgrade_ok; [|exact Hu].
  apply migrated_schema in Hm as [Hc _]. exact Hc.
Qed.

Definition everything : gset string := applied revisions ∅.
Definition installed : Schema := schema_of everything.

Lemma installed_migrated : migrated everything installed.
Proof.
  apply (migrated_along revisions ∅).
  - rewrite schema_of_fresh. apply migrated_fresh.
  - apply Forall_forall. intros r H. exact H.
  - vm_compute. reflexivity.
Qed.



(** ** Row level security *)

(** The row belongs to the asker's tenant. *)
Definition own_row (tenant : option uuid) (r : Row) : Prop :=
  exists u, tenant = Some u /\ cell r "tenant_id" = VUuid u.

Definition user_policies (T : TableDef) : list Policy :=
  List.filter (fun p => bool_decide (pl_role p = ROLE_USER)) (values (tb_policies T)).

(** What may be shown beyond the tenant's own rows: system roles, and a user's
    own memberships. *)
Definition shown_beyond (t : string) (c : cond) : bool :=
  (bool_decide (t = "roles") && bool_decide (c = COr (CNull "tenant_id") (CTenant "tenant_id")))
  || (bool_decide (t = "memberships") && bool_decide (c = COr (CTenant "tenant_id") (CUser "user_id"))).

Definition isolating (t : string) (p : Policy) : bool :=
  match pl_using p, pl_check p with
  | Some c, None => bool_decide (c = CTenant "tenant_id")
                    || (bool_decide (pl_cmd p = Some Select) && shown_beyond t c)
  | None, Some c => bool_decide (c = CTenant "tenant_id")
  | Some c, Some d => bool_decide (c = CTenant "tenant_id") && bool_decide (d = CTenant "tenant_id")
  | None, None => true
  end.
Definition isolated (v : string * string * TableDef) : bool :=
  negb (bool_decide ("tenant_id" ∈ column_names v.2))
  || tb_rls v.2 && forallb (isolating v.1.1) (user_policies v.2).

Lemma all_isolated : forallb isolated versions = true.
Proof. vm_compute. reflexivity. Qed.

Lemma holds_tenant sub ak r : holds sub ak (CTenant "tenant_id") r = true -> own_row (ak_tenant ak) r.
Proof.
  unfold holds. rewrite bool_decide_eq_true. simpl. unfold is_id, own_row.
  destruct (cell r "tenant_id") as [| | |u| |], (ak_tenant ak) as [x|]; try done.
  intros [= H]. apply bool_decide_eq_true in H as ->. eauto.
Qed.

Lemma or3_true a b : or3 a b = Some true -> a = Some true \/ b = Some true.
Proof. destruct a as [[]|], b as [[]|]; simpl; auto. Qed.

Lemma holds_beyond sub ak t c r :
  shown_beyond t c = true -> holds sub ak c r = true ->
  own_row (ak_tenant ak) r \/ (t = "roles" /\ cell r "tenant_id" = VNull) \/
  (t = "memberships" /\ exists u, ak_user ak = Some u /\ cell r "user_id" = VUuid u).
Proof.
  unfold shown_beyond. intros H Hh. apply orb_prop in H as [H|H]; apply andb_prop in H as [Ht Hc];
    apply bool_decide_eq_true in Ht, Hc; subst t c; unfold holds in Hh; apply bool_decide_eq_true in Hh;
    cbn [eval] in Hh; apply or3_true in Hh as [Hh|Hh].
  - right. left. split; [done|]. injection Hh as Hh. by apply bool_decide_eq_true in Hh.
  - left. apply (holds_tenant sub). unfold holds. by apply bool_decide_eq_true.
  - left. apply (holds_tenant sub). unfold holds. by apply bool_decide_eq_true.
  - right. right. split; [done|]. unfold is_id in Hh.
    destruct (cell r "user_id") as [| | |u| |], (ak_user ak) as [x|]; try done.
    injection Hh as Hh. apply bool_decide_eq_true in Hh as ->. eauto.
Qed.


Lemma version_of done s t T (f : string * string * TableDef -> bool) :
  forallb f versions = true -> migrated done s -> sc_tables s !! t = Some T -> exists id, f (t, id, T) = true.
Proof.
  intros A Hm Ht. apply migrated_schema in Hm as [_ ->]. apply tables_of_in in Ht as (id & Hin & _).
  exists id. exact (forallb_in versions f _ A Hin).
Qed.

Lemma isolated_of done s t T :
  migrated done s -> sc_tables s !! t = Some T -> "tenant_id" ∈ column_names T ->
  tb_rls T = true /\ forall p, p ∈ values (tb_policies T) -> pl_role p = ROLE_USER -> isolating t p = true.
Proof.
  intros Hm Ht Hc. destruct (version_of done s t T isolated all_isolated Hm Ht) as [id Hin].
  unfold isolated in Hin. cbn [fst snd] in Hin. rewrite bool_decide_true in Hin by done. simpl in Hin.
  apply andb_prop in Hin as [Hr Hp]. split; [done|]. intros p Hp1 Hp2. rewrite forallb_forall in Hp. apply Hp.
  unfold user_policies. apply List.filter_In. split; [by apply list_elem_of_In|by apply bool_decide_eq_true].
Qed.

Section Isolated.
Context (sub : string -> list Row) (ak : Asker) (t : string) (T : TableDef).
Context (Hrole : ak_role ak = ROLE_USER) (Hrls : tb_rls T = true).
Context (Hiso : forall p, p ∈ values (tb_policies T) -> pl_role p = ROLE_USER -> isolating t p = true).

Lemma policy_applies (f : Policy -> bool) cmd :
  existsb (fun p => applies ak cmd p && f p) (values (tb_policies T)) = true ->
  exists p, isolating t p = true /\ f p = true /\ (pl_cmd p = None \/ pl_cmd p = Some cmd).
Proof.
  intros H. apply existsb_exists in H as (p & Hp & H). apply andb_prop in H as [Ha Hf].
  unfold applies in Ha. apply andb_prop in Ha as [Ha Hc]. apply bool_decide_eq_true in Ha.
  exists p. split; [apply Hiso; [by apply list_elem_of_In|congruence]|]. split; [done|].
  destruct (pl_cmd p) as [c|]; [right|by left]. apply bool_decide_eq_true in Hc. by subst.
Qed.

Lemma using_isolates cmd r : cmd ≠ Select -> using_ok sub ak cmd T r = true -> own_row (ak_tenant ak) r.
Proof.
  unfold using_ok. rewrite Hrls. simpl. intros Hcmd H. apply policy_applies in H as (p & Hi & Hu & Hc).
  destruct (pl_using p) as [c|] eqn:Eu; [|done]. unfold isolating in Hi. rewrite Eu in Hi.
  assert (Hct : c = CTenant "tenant_id"); [|subst c; by apply (holds_tenant sub)].
  destruct (pl_check p); [apply andb_prop in Hi as [Hi _]; by apply bool_decide_eq_true in Hi|].
  apply orb_prop in Hi as [Hi|Hi]; [by apply bool_decide_eq_true in Hi|].
  apply andb_prop in Hi as [Hi _]. apply bool_decide_eq_true in Hi. destruct Hc; congruence.
Qed.
Lemma check_isolates cmd r : cmd ≠ Select -> check_ok sub ak cmd T r = true -> own_row (ak_tenant ak) r.
Proof.
  unfold check_ok. rewrite Hrls. simpl. intros Hcmd H. apply policy_applies in H as (p & Hi & Hu & Hc).
  unfold isolating in Hi. destruct (pl_using p) as [c|] eqn:Eu, (pl_check p) as [d|] eqn:Ed; try done.
  - apply andb_prop in Hi as [_ Hi]. apply bool_decide_eq_true in Hi. subst d. by apply (holds_tenant sub).
  - apply orb_prop in Hi as [Hi|Hi]; [apply bool_decide_eq_true in Hi; subst c; by apply (holds_tenant sub)|].
    apply andb_prop in Hi as [Hi _]. apply bool_decide_eq_true in Hi. destruct Hc; congruence.
  - apply bool_decide_eq_true in Hi. subst d. by apply (holds_tenant sub).
Qed.
Lemma read_isolates r :
  using_ok sub ak Select T r = true ->
  own_row (ak_tenant ak) r \/ (t = "roles" /\ cell r "tenant_id" = VNull) \/
  (t = "memberships" /\ exists u, ak_user ak = Some u /\ cell r "user_id" = VUuid u).
Proof.
  unfold using_ok. rewrite Hrls. simpl. intros H. apply policy_applies in H as (p & Hi & Hu & Hc).
  destruct (pl_using p) as [c|] eqn:Eu; [|done]. unfold isolating in Hi. rewrite Eu in Hi.
  destruct (pl_check p).
  - apply andb_prop in Hi as [Hi _]. apply bool_decide_eq_true in Hi. subst c. left. by apply (holds_tenant sub).
  - apply orb_prop in Hi as [Hi|Hi]; [apply bool_decide_eq_true in Hi; subst c; left; by apply (holds_tenant sub)|].
    apply andb_prop in Hi as [_ Hi]. by apply (holds_beyond sub ak t c).
Qed.
End Isolated.

(** The tenant of the transaction is the one of the request. *)
Lemma asker_tenant pg_uuid role ctx :
  (forall u, valid_uuid u -> pg_uuid (uuid_str u) = Some u) -> (forall u, c_tenant_id ctx = Some u -> valid_uuid u) ->
  ak_tenant (asker pg_uuid role ctx) = c_tenant_id ctx.
Proof.
  intros Hpg Hv. unfold asker, apply_tenant_context. cbn [ak_tenant fst].
  destruct (c_tenant_id ctx) as [u|]; [|done]. unfold current_id.
  fold (str_empty (uuid_str u)). rewrite uuid_str_nonempty. by apply Hpg, Hv.
Qed.

(** The tables that belong to a tenant without a column that says so. *)
Definition member_visible : Policy :=
  mkPolicy (Some Select) ROLE_USER
    (Some (COr (CTenant "id") (CExists "memberships" "tenant_id" "id" (CUser "user_id")))) None.
Definition tenant_self_update : Policy :=
  mkPolicy (Some Update) ROLE_USER (Some (CTenant "id")) (Some (CTenant "id")).
Definition role_read : cond := CExists "roles" "id" "role_id" (COr (CNull "tenant_id") (CTenant "tenant_id")).
Definition role_write : cond := CExists "roles" "id" "role_id" (CTenant "tenant_id").

Definition indirect (v : string * string * TableDef) : bool :=
  let only l := tb_rls v.2 && forallb (fun p => bool_decide (p ∈ l)) (user_policies v.2) in
  (if bool_decide (v.1.1 = "tenants")
   then only [member_visible; tenant_self_update]
        && negb (bool_decide ((ROLE_USER, Insert) ∈ tb_grants v.2))
        && negb (bool_decide ((ROLE_USER, Delete) ∈ tb_grants v.2)) else true)
  && (if bool_decide (v.1.1 = "role_permissions")
      then only [mkPolicy (Some Select) ROLE_USER (Some role_read) None;
                 mkPolicy (Some Insert) ROLE_USER None (Some role_write);
                 mkPolicy (Some Delete) ROLE_USER (Some role_write) None]
           && negb (bool_decide ((ROLE_USER, Update) ∈ tb_grants v.2)) else true).

Lemma all_indirect : forallb indirect versions = true.
Proof. vm_compute. reflexivity. Qed.

(** What is not granted: tables, roles, privileges. *)
Definition denials : list (list string * list string * list privilege) :=
  [(["audit_log"], RUNTIME_ROLES, [Update]);
   (["audit_log"], [ROLE_USER; ROLE_MAINTENANCE], [Delete]);
   (["payments"; "subscriptions"; "payment_webhooks"], RUNTIME_ROLES, [Delete]);
   (["currencies"; "plans"; "saas_plan_entitlements"], RUNTIME_ROLES, [Insert; Update; Delete]);
   (["tenants"; "memberships"], [ROLE_USER; ROLE_RETENTION], [Insert])].
Definition not_granted (T : TableDef) (roles : list string) (ps : list privilege) : bool :=
  forallb (fun r => forallb (fun p => negb (bool_decide ((r, p) ∈ tb_grants T))) ps) roles.
Definition denied (v : string * string * TableDef) : bool :=
  forallb (fun d => negb (bool_decide (v.1.1 ∈ d.1.1)) || not_granted v.2 d.1.2 d.2) denials
  && (bool_decide (v.1.1 = "audit_log") || not_granted v.2 [ROLE_RETENTION] CRUD).

Lemma all_denied : forallb denied versions = true.
Proof. vm_compute. reflexivity. Qed.

Lemma visible_in s ak db t r : r ∈ visible s ak db t -> r ∈ db t.
Proof.
  unfold visible. destruct (sc_tables s !! t); [|set_solver]. intros H.
  apply list_elem_of_In, List.filter_In in H as [H _]. by apply list_elem_of_In.
Qed.

Lemma eq3_true v w : eq3 v w = Some true -> v = w.
Proof.
  unfold eq3. intros H. destruct v, w; try done; injection H as H; by apply bool_decide_eq_true in H.
Qed.

Lemma holds_exists s ak db t inner outer c r :
  holds (visible s ak db) ak (CExists t inner outer c) r = true ->
  exists x, x ∈ db t /\ cell x inner = cell r outer /\ eval (visible s ak db) ak c x = Some true.
Proof.
  unfold holds. rewrite bool_decide_eq_true. cbn [eval]. intros [= H]. apply existsb_exists in H as (x & Hx & H).
  apply andb_prop in H as [He Hc]. apply bool_decide_eq_true in He, Hc. exists x.
  split; [by eapply visible_in, list_elem_of_In|]. split; [by apply eq3_true|done].
Qed.

Lemma eval_own sub ak r : eval sub ak (CTenant "tenant_id") r = Some true -> own_row (ak_tenant ak) r.
Proof. intros H. apply (holds_tenant sub). unfold holds. by apply bool_decide_eq_true. Qed.
Lemma eval_id sub ak x r u : eval sub ak x r = Some true ->
  x = CTenant u -> exists w, ak_tenant ak = Some w /\ cell r u = VUuid w.
Proof.
  intros H ->. cbn [eval] in H. unfold is_id in H. destruct (cell r u) as [| | |w| |], (ak_tenant ak) as [y|]; try done.
  injection H as H. apply bool_decide_eq_true in H as ->. eauto.
Qed.
Lemma eval_user sub ak r u : eval sub ak (CUser u) r = Some true ->
  exists w, ak_user ak = Some w /\ cell r u = VUuid w.
Proof.
  cbn [eval]. unfold is_id. destruct (cell r u) as [| | |w| |], (ak_user ak) as [y|]; try done.
  intros [= H]. apply bool_decide_eq_true in H as ->. eauto.
Qed.

(** A policy of the role that applies, out of the ones listed. *)
Lemma listed_policy T (l : list Policy) ak cmd (f : Policy -> bool) :
  forallb (fun p => bool_decide (p ∈ l)) (user_policies T) = true -> ak_role ak = ROLE_USER ->
  existsb (fun p => applies ak cmd p && f p) (values (tb_policies T)) = true ->
  exists p, p ∈ l /\ f p = true /\ (pl_cmd p = None \/ pl_cmd p = Some cmd).
Proof.
  intros Hl Hr H. apply existsb_exists in H as (p & Hp & H). apply andb_prop in H as [Ha Hf].
  unfold applies in Ha. apply andb_prop in Ha as [Ha Hc]. apply bool_decide_eq_true in Ha.
  exists p. split; [|split; [done|]].
  - assert (Hin : p ∈ user_policies T).
    { unfold user_policies. apply list_elem_of_In, List.filter_In. split; [done|]. apply bool_decide_eq_true. congruence. }
    pose proof (forallb_in _ _ _ Hl Hin) as H. by apply bool_decide_eq_true in H.
  - destruct (pl_cmd p) as [c|]; [right|by left]. apply bool_decide_eq_true in Hc. by subst.
Qed.

Section Indirect.
Context (s : Schema) (ak : Asker) (db : string -> list Row) (T : TableDef) (id : string).
Context (Hrole : ak_role ak = ROLE_USER).

Definition tenant_row (r : Row) : Prop := exists w, ak_tenant ak = Some w /\ cell r "id" = VUuid w.

Lemma tenants_rows a :
  indirect ("tenants", id, T) = true -> may (visible s ak db) ak T a = true ->
  match a with
  | Reads r => tenant_row r \/ exists m u, m ∈ db "memberships" /\ cell m "tenant_id" = cell r "id" /\
                 ak_user ak = Some u /\ cell m "user_id" = VUuid u
  | Updates old new => tenant_row old /\ tenant_row new
  | Inserts _ | Deletes _ => False
  end.
Proof.
  unfold indirect. cbn [fst snd]. rewrite (bool_decide_true ("tenants" = "tenants")), (bool_decide_false ("tenants" = "role_permissions")) by done.
  intros H. cbv zeta in H.
  rewrite !andb_true_iff, !negb_true_iff, !bool_decide_eq_false in H. destruct H as [[[[Hrls Hl] Hi] Hd] _].
  destruct a as [r|r|old new|r]; cbn [may]; unfold granted_to, using_ok, check_ok; rewrite Hrls, Hrole; cbn [negb orb];
    rewrite ?andb_true_iff, ?bool_decide_eq_true.
  - intros [_ H]. apply (listed_policy T _ ak _ _ Hl Hrole) in H as (p & Hp & H & Hc).
    rewrite !elem_of_cons, elem_of_nil in Hp. destruct Hp as [->|[->|[]]]; [|by destruct Hc]. cbn [pl_using member_visible] in H.
    unfold holds in H. apply bool_decide_eq_true in H. cbn [eval] in H. apply or3_true in H as [H|H].
    + left. by eapply (eval_id (visible s ak db) ak (CTenant "id")).
    + right. destruct (holds_exists s ak db "memberships" "tenant_id" "id" (CUser "user_id") r) as (m & Hm & He & Hu).
      { unfold holds. by apply bool_decide_eq_true. }
      apply eval_user in Hu as (u & Hu & Hc'). by exists m, u.
  - by intros [H _].
  - intros [[_ H1] H2]. split; [apply (listed_policy T _ ak _ _ Hl Hrole) in H1 as (p & Hp & H & Hc)
      |apply (listed_policy T _ ak _ _ Hl Hrole) in H2 as (p & Hp & H & Hc)];
      rewrite !elem_of_cons, elem_of_nil in Hp; (destruct Hp as [->|[->|[]]]; [by destruct Hc|]);
      cbn [pl_using pl_check tenant_self_update] in H; unfold holds in H; apply bool_decide_eq_true in H;
      by eapply (eval_id (visible s ak db) ak (CTenant "id")).
  - by intros [H _].
Qed.

Definition role_of (r role : Row) : Prop := role ∈ db "roles" /\ cell role "id" = cell r "role_id".

Lemma role_permissions_rows a :
  indirect ("role_permissions", id, T) = true -> may (visible s ak db) ak T a = true ->
  match a with
  | Reads r => exists role, role_of r role /\ (cell role "tenant_id" = VNull \/ own_row (ak_tenant ak) role)
  | Inserts r | Deletes r => exists role, role_of r role /\ own_row (ak_tenant ak) role
  | Updates _ _ => False
  end.
Proof.
  unfold indirect. cbn [fst snd]. rewrite (bool_decide_false ("role_permissions" = "tenants")), (bool_decide_true ("role_permissions" = "role_permissions")) by done.
  intros H. cbv zeta in H.
  rewrite !andb_true_iff, !negb_true_iff, !bool_decide_eq_false in H. destruct H as [_ [[Hrls Hl] Hu]].
  assert (Hw : forall r, holds (visible s ak db) ak role_write r = true ->
    exists role, role_of r role /\ own_row (ak_tenant ak) role).
  { intros r H. apply holds_exists in H as (x & Hx & He & Hc). exists x. split; [by split|by eapply eval_own]. }
  destruct a as [r|r|old new|r]; cbn [may]; unfold granted_to, using_ok, check_ok; rewrite Hrls, Hrole; cbn [negb orb];
    rewrite ?andb_true_iff, ?bool_decide_eq_true.
  - intros [_ H]. apply (listed_policy T _ ak _ _ Hl Hrole) in H as (p & Hp & H & Hc).
    rewrite !elem_of_cons, elem_of_nil in Hp. destruct Hp as [->|[->|[->|[]]]]; [|by destruct Hc..].
    cbn [pl_using] in H. apply holds_exists in H as (x & Hx & He & H). exists x. split; [by split|].
    cbn [eval] in H. apply or3_true in H as [H|H]; [left; injection H as H; by apply bool_decide_eq_true in H|].
    right. by apply (eval_own (visible s ak db)).
  - intros [_ H]. apply (listed_policy T _ ak _ _ Hl Hrole) in H as (p & Hp & H & Hc).
    rewrite !elem_of_cons, elem_of_nil in Hp. destruct Hp as [->|[->|[->|[]]]]; [by destruct Hc| |by destruct Hc].
    by apply Hw.
  - by intros [[H _] _].
  - intros [_ H]. apply (listed_policy T _ ak _ _ Hl Hrole) in H as (p & Hp & H & Hc).
    rewrite !elem_of_cons, elem_of_nil in Hp. destruct Hp as [->|[->|[->|[]]]]; [by destruct Hc..|].
    by apply Hw.
Qed.
End Indirect.


Definition demo_user_ctx : TenantContext := mkCtx (Some 7%N) (mkActor KUser (Some (uuid_str 9))) None "en".
Definition demo_file (tenant : uuid) : Row := {[ "id" := VUuid 5; "tenant_id" := VUuid tenant ]}.
Definition demo_asker : Asker := asker uuid_parse ROLE_USER demo_user_ctx.
Definition no_rows (t : string) : list Row := [].


Definition privilege_of (a : access) : privilege :=
  match a with Reads _ => Select | Inserts _ => Insert | Updates _ _ => Update | Deletes _ => Delete end.

Lemma may_granted sub ak T a : may sub ak T a = true -> (ak_role ak, privilege_of a) ∈ tb_grants T.
Proof.
  destruct a; cbn [may]; unfold granted_to; rewrite ?andb_true_iff, bool_decide_eq_true; cbn [privilege_of]; tauto.
Qed.
Lemma not_granted_spec T roles ps r p :
  not_granted T roles ps = true -> r ∈ roles -> p ∈ ps -> (r, p) ∉ tb_grants T.
Proof.
  unfold not_granted. intros H Hr Hp. pose proof (forallb_in _ _ _ H Hr) as H1. cbv beta in H1.
  pose proof (forallb_in _ _ _ H1 Hp) as H2. cbv beta in H2. by apply negb_true_iff, bool_decide_eq_false in H2.
Qed.

Lemma denial_holds done s ak db t a d :
  migrated done s -> d ∈ denials -> t ∈ d.1.1 -> ak_role ak ∈ d.1.2 -> privilege_of a ∈ d.2 ->
  allowed s ak db t a = false.
Proof.
  intros Hm Hd Ht Hr Hp. unfold allowed. destruct (sc_tables s !! t) as [T|] eqn:E; [|done].
  destruct (version_of done s t T denied all_denied Hm E) as [id K]. apply andb_prop in K as [K _].
  pose proof (forallb_in _ _ _ K Hd) as K'. cbv beta in K'. cbn [fst snd] in K'. rewrite bool_decide_true in K' by done.
  cbn [negb orb] in K'. apply not_true_iff_false. intros H. apply may_granted in H.
  by apply (not_granted_spec T _ _ _ _ K' Hr Hp) in H.
Qed.
Lemma retention_only_journal done s ak db t a :
  migrated done s -> ak_role ak = ROLE_RETENTION -> allowed s ak db t a = true -> t = "audit_log".
Proof.
  intros Hm Hr. unfold allowed. destruct (sc_tables s !! t) as [T|] eqn:E; [|done]. intros H.
  destruct (version_of done s t T denied all_denied Hm E) as [id K]. apply andb_prop in K as [_ K].
  cbn [fst snd] in K. apply orb_prop in K as [K|K]; [by apply bool_decide_eq_true in K|].
  apply may_granted in H. rewrite Hr in H.
  by apply (not_granted_spec T _ _ ROLE_RETENTION (privilege_of a) K) in H; [|left|destruct a; cbn; set_solver].
Qed.

(** C37: History stays, in every schema the migrations pass through and for
    every role the application connects with: no record of the journal is ever
    changed, and only the retention role, which can do nothing else, removes
    one; payments, subscriptions and the provider's callbacks are never removed;
    currencies, plans and the tariff grid are only read; organizations and
    memberships are created by the maintenance role alone. *)
Theorem history_is_kept done s ak db t :
  migrated done s -> ak_role ak ∈ RUNTIME_ROLES ->
  (forall old new, allowed s ak db "audit_log" (Updates old new) = false) /\
  (forall r, allowed s ak db "audit_log" (Deletes r) = true -> ak_role ak = ROLE_RETENTION) /\
  (forall a, ak_role ak = ROLE_RETENTION -> allowed s ak db t a = true -> t = "audit_log") /\
  (forall r, t ∈ ["payments"; "subscriptions"; "payment_webhooks"] -> allowed s ak db t (Deletes r) = false) /\
  (forall a, t ∈ ["currencies"; "plans"; "saas_plan_entitlements"] -> allowed s ak db t a = true ->
     exists r, a = Reads r) /\
  (forall r, t ∈ ["tenants"; "memberships"] -> allowed s ak db t (Inserts r) = true ->
     ak_role ak = ROLE_MAINTENANCE).
Proof.
  intros Hm Hr.
  assert (Hd : forall i t a d, denials !! i = Some d -> t ∈ d.1.1 -> ak_role ak ∈ d.1.2 -> privilege_of a ∈ d.2 ->
    allowed s ak db t a = false)
    by (intros i t' a d Hi; apply (denial_holds done s ak db t' a d Hm), (list_elem_of_lookup_2 _ i), Hi).
  split; [|split; [|split; [|split; [|split]]]].
  - intros old new. by apply (Hd 0 "audit_log" _ _ eq_refl); [left| |left].
  - intros r H. unfold RUNTIME_ROLES in Hr. rewrite !elem_of_cons, elem_of_nil in Hr.
    destruct Hr as [Hr|[Hr|[Hr|[]]]]; [..|done]; rewrite (Hd 1 "audit_log" _ _ eq_refl) in H;
      first [discriminate H|by left|rewrite Hr; cbn; set_solver|cbn; set_solver].
  - intros a. apply (retention_only_journal done s ak db t a Hm).
  - intros r Ht. by apply (Hd 2 t _ _ eq_refl); [..|left].
  - intros a Ht H. destruct a as [r|r|old new|r]; [by exists r|..];
      rewrite (Hd 3 t _ _ eq_refl) in H; first [discriminate H|done|cbn; set_solver].
  - intros r Ht H. unfold RUNTIME_ROLES in Hr. rewrite !elem_of_cons, elem_of_nil in Hr.
    destruct Hr as [Hr|[Hr|[Hr|[]]]]; [|done|]; rewrite (Hd 4 t _ _ eq_refl) in H;
      first [discriminate H|done|rewrite Hr; cbn; set_solver|cbn; set_solver].
Qed.

Lemma history_is_kept_witness :
  allowed installed demo_asker no_rows "payments" (Deletes (demo_file 7)) = false /\
  allowed installed demo_asker no_rows "payments" (Inserts (demo_file 7)) = true.
Proof.
  split; [|vm_compute; reflexivity].
  refine (proj1 (proj2 (proj2 (proj2 (history_is_kept everything installed demo_asker no_rows "payments"
            installed_migrated _)))) (demo_file 7) _); by left.
Defined.

(** ** Migrations of rows *)

Section CartRows.
Context (created_at : uuid -> datetime) (carts : gmap N Cart).
Context (Hkey : forall i c, carts !! i = Some c -> ca_id c = i).

Definition same_buyer (c d : Cart) : Prop :=
  ca_tenant_id c = ca_tenant_id d /\ ca_customer_user_id c = ca_customer_user_id d.

Lemma newer_total c d : ca_id c ≠ ca_id d -> newer_cart created_at c d = true \/ newer_cart created_at d c = true.
Proof.
  intros H. unfold newer_cart.
  destruct (Z.ltb_spec (created_at (ca_id d)) (created_at (ca_id c))); [by left|].
  destruct (Z.ltb_spec (created_at (ca_id c)) (created_at (ca_id d))); [by right|].
  rewrite !(proj2 (Z.eqb_eq _ _)) by lia. simpl.
  destruct (N.ltb_spec (ca_id d) (ca_id c)); [by left|]. right. apply N.ltb_lt. lia.
Qed.

Lemma superseded_spec c :
  superseded created_at carts c = true <->
  ca_status c = CartActive /\ exists i n, carts !! i = Some n /\ same_buyer n c /\ ca_status n = CartActive /\
    newer_cart created_at n c = true.
Proof.
  unfold superseded, same_buyer. rewrite andb_true_iff, bool_decide_eq_true, existsb_exists. split.
  - intros [Ha (n & Hn & H)]. rewrite !andb_true_iff, !bool_decide_eq_true in H.
    apply list_elem_of_In, elem_of_rows in Hn as [i Hi]. split; [done|]. exists i, n. tauto.
  - intros [Ha (i & n & Hi & Hb & Hs & Hn)]. split; [done|]. exists n. split; [apply list_elem_of_In, elem_of_rows; eauto|].
    rewrite !andb_true_iff, !bool_decide_eq_true. tauto.
Qed.

Lemma abandon_lookup i c' :
  abandon_duplicates created_at carts !! i = Some c' ->
  exists c, carts !! i = Some c /\ ca_id c = i /\
    (c' = c /\ superseded created_at carts c = false \/
     c' = set_cart_status CartAbandoned c /\ superseded created_at carts c = true).
Proof.
  unfold abandon_duplicates. rewrite lookup_fmap. destruct (carts !! i) as [c|] eqn:E; [|done]. simpl.
  intros [= <-]. exists c. split; [done|]. split; [by apply Hkey|]. destruct (superseded _ _ c) eqn:Es; auto.
Qed.

Lemma abandon_unique : unique_by uq_active_cart (abandon_duplicates created_at carts) = true.
Proof.
  apply unique_by_spec. intros i j a b k Hi Hj Ka Kb. apply abandon_lookup in Hi as (c & Hc & Ic & Hc').
  apply abandon_lookup in Hj as (d & Hd & Id & Hd'). unfold uq_active_cart in Ka, Kb.
  destruct Hc' as [[-> Sc]|[-> _]]; [|done]. destruct Hd' as [[-> Sd]|[-> _]]; [|done].
  case_bool_decide as Ac; [|done]. case_bool_decide as Ad; [|done].
  destruct (decide (i = j)) as [|Hne]; [done|exfalso].
  assert (Hb : same_buyer c d) by (unfold same_buyer; split; congruence).
  assert (Hids : ca_id c ≠ ca_id d) by congruence.
  destruct (newer_total c d Hids) as [Hn|Hn].
  - assert (superseded created_at carts d = true); [|congruence].
    apply superseded_spec. split; [done|]. exists i, c. tauto.
  - assert (superseded created_at carts c = true); [|congruence].
    apply superseded_spec. split; [done|]. exists j, d. unfold same_buyer in *. intuition congruence.
Qed.

(** Of the active carts of a buyer the newest stays. *)
Definition newer_id (i j : N) : Prop :=
  (created_at j < created_at i)%Z \/ created_at j = created_at i /\ (j < i)%N.
#[local] Instance newer_id_dec i j : Decision (newer_id i j).
Proof. unfold newer_id. apply _. Defined.
#[local] Instance newer_id_trans : Transitive newer_id.
Proof. unfold newer_id. intros i j k. lia. Qed.

Lemma newer_cart_id n c : newer_cart created_at n c = true <-> newer_id (ca_id n) (ca_id c).
Proof. unfold newer_cart, newer_id. rewrite orb_true_iff, andb_true_iff, Z.ltb_lt, Z.eqb_eq, N.ltb_lt. done. Qed.

Lemma newest_stays i c :
  carts !! i = Some c -> ca_status c = CartActive ->
  exists j d, abandon_duplicates created_at carts !! j = Some d /\ carts !! j = Some d /\ same_buyer d c /\
    ca_status d = CartActive.
Proof.
  intros Hc Ha.
  set (X := dom (filter (fun x : N * Cart => same_buyer x.2 c /\ ca_status x.2 = CartActive) carts) : gset N).
  assert (HX : forall j, j ∈ X <-> exists d, carts !! j = Some d /\ same_buyer d c /\ ca_status d = CartActive).
  { intros j. unfold X. rewrite elem_of_dom. split.
    - intros [d Hd]. apply map_lookup_filter_Some in Hd as [Hd H]. eauto.
    - intros (d & Hd & H). exists d. by apply map_lookup_filter_Some. }
  destruct (minimal_exists_elem_of_L newer_id X) as (j & Hj & Hmin).
  { assert (i ∈ X) by (apply HX; exists c; split; [done|]; split; [by split|done]). set_solver. }
  apply HX in Hj as (d & Hd & Hb & Hs). exists j, d. split; [|by split; [|split]].
  unfold abandon_duplicates. rewrite lookup_fmap, Hd. simpl.
  destruct (superseded created_at carts d) eqn:E; [exfalso|done].
  apply superseded_spec in E as (_ & k & n & Hn & Hnb & Hns & Hnew).
  apply newer_cart_id in Hnew. rewrite (Hkey _ _ Hd), (Hkey _ _ Hn) in Hnew.
  assert (Hk : k ∈ X).
  { apply HX. exists n. split; [done|]. split; [|done]. unfold same_buyer in *. intuition congruence. }
  specialize (Hmin k Hk Hnew). unfold newer_id in *. lia.
Qed.
End CartRows.

Lemma live_or_pending_splits (t : gmap N Subscription) :
  unique_by uq_live_or_pending t = true -> unique_by uq_live t = true /\ unique_by uq_pending t = true.
Proof.
  rewrite !unique_by_spec. intros H. split; intros i j a b k Hi Hj Ka Kb; apply (H i j a b k Hi Hj);
    unfold uq_live_or_pending, uq_live, uq_pending in *.
  - by destruct (live (s_status a)).
  - by destruct (live (s_status b)).
  - by destruct (bool_decide (s_status a = SPending)); [rewrite orb_true_r|].
  - by destruct (bool_decide (s_status b = SPending)); [rewrite orb_true_r|].
Qed.

(** C38: Migrations never fail on the rows they find: after commerce_cart0002
    closed superseded carts its unique index can be created, every buyer who had
    an active cart still has one, the newest of them, and no other cart changed;
    the way back leaves no status the older check refuses; rows under the index core_billing0001 made satisfy the two that replace it. *)
Theorem migrations_fit_rows created_at (carts : gmap N Cart) (subscriptions : gmap N Subscription) :
  (forall i c, carts !! i = Some c -> ca_id c = i) -> unique_by uq_live_or_pending subscriptions = true ->
  let carts' := abandon_duplicates created_at carts in
  unique_by uq_active_cart carts' = true /\
  (forall i c, carts !! i = Some c -> ca_status c = CartActive ->
     exists j d, carts' !! j = Some d /\ carts !! j = Some d /\ same_buyer d c /\ ca_status d = CartActive /\
       forall k e, carts !! k = Some e -> same_buyer e c -> ca_status e = CartActive ->
         k = j \/ newer_cart created_at d e = true) /\
  (forall i c, carts !! i = Some c -> carts' !! i = Some c \/
     ca_status c = CartActive /\ carts' !! i = Some (set_cart_status CartAbandoned c)) /\
  (forall i c, close_abandoned carts !! i = Some c -> ca_status c ∈ [CartActive; CartCheckedOut] /\
     exists d, carts !! i = Some d /\ same_buyer c d /\ (ca_status d = CartAbandoned \/ c = d)) /\
  unique_by uq_live subscriptions = true /\ unique_by uq_pending subscriptions = true.
Proof.
  intros Hkey Hs carts'. split; [by apply abandon_unique|]. split; [|split; [|split]].
  - intros i c Hc Ha. destruct (newest_stays created_at carts Hkey i c Hc Ha) as (j & d & Hd' & Hd & Hb & Hda).
    exists j, d. repeat split; try done; try apply Hb. intros k e He Hbe Hea. destruct (decide (k = j)) as [|Hne]; [by left|right].
    destruct (newer_total created_at d e) as [H|H]; [rewrite (Hkey _ _ Hd), (Hkey _ _ He); congruence|done|].
    exfalso. assert (Hsup : superseded created_at carts d = true).
    { apply superseded_spec. split; [done|]. exists k, e. unfold same_buyer in *. intuition congruence. }
    unfold abandon_duplicates in Hd'. rewrite lookup_fmap, Hd in Hd'. simpl in Hd'. rewrite Hsup in Hd'.
    injection Hd' as Hd'. rewrite <- Hd' in Hda. done.
  - intros i c Hc. unfold carts', abandon_duplicates. rewrite lookup_fmap, Hc. simpl.
    destruct (superseded created_at carts c) eqn:E; [right|by left]. by apply superseded_spec in E as [? _].
  - intros i c Hc. unfold close_abandoned in Hc. rewrite lookup_fmap in Hc.
    destruct (carts !! i) as [d|] eqn:E; [|done]. injection Hc as Hc. case_bool_decide as Hd; subst c.
    + split; [cbn; set_solver|]. exists d. split; [done|]. split; [by split|by left].
    + split; [destruct (ca_status d); cbn; set_solver|]. exists d. split; [done|]. split; [by split|by right].
  - by apply live_or_pending_splits.
Qed.

(** Going back behind core_billing0002 does fail once an organization with a
    subscription has opened the checkout of another. *)
Lemma billing_downgrade_can_fail :
  exists t : gmap N Subscription, unique_by uq_live t = true /\ unique_by uq_pending t = true /\
    unique_by uq_live_or_pending t = false.
Proof.
  exists (list_to_map ((fun x => (s_id x, x)) <$>
    [mkSubscription 1 7 3 SActive 0 "UZS" 0 0 false None; mkSubscription 2 7 3 SPending 0 "UZS" 0 0 false None])).
  split; [|split]; vm_compute; reflexivity.
Qed.

Definition demo_carts : gmap N Cart :=
  list_to_map ((fun c => (ca_id c, c)) <$> [mkCart 1 7 9 CartActive; mkCart 2 7 9 CartActive; mkCart 3 7 9 CartCheckedOut]).

Lemma migrations_fit_rows_witness :
  unique_by uq_active_cart demo_carts = false /\
  unique_by uq_active_cart (abandon_duplicates (fun _ => 0%Z) demo_carts) = true.
Proof.
  split; [vm_compute; reflexivity|].
  refine (proj1 (migrations_fit_rows (fun _ => 0%Z) demo_carts ∅ _ eq_refl)).
  intros i c H. assert (A : forallb (fun x => bool_decide (ca_id x.2 = x.1)) (map_to_list demo_carts) = true)
    by (vm_compute; reflexivity).
  apply elem_of_map_to_list in H. pose proof (forallb_in _ _ _ A H) as B. by apply bool_decide_eq_true in B.
Defined.
