(* ===== verification/Conform.v ===== *)
(** The rows of the model and the schema of the migrations: a state of the
    database satisfies the constraints the model checks ([db_ok], [db_ranges])
    exactly when the schema that all migrations build accepts its rows. *)

From stdpp Require Import base strings gmap list sorting.
From Stdlib Require Import ZArith Lia Ascii.
From S2P Require Import Prelude Errors PyLib Calendar Entities Models Events Session SessionFacts.
From S2P Require Import Ddl Migrations Ports Payments PayFacts DbFacts Demo SchemaProps.

(** ** Rows

    A column the model does not carry gets a value of its type. *)

Definition row (l : list (string * value)) : Row := list_to_map l.

Definition oid (o : option uuid) : value := match o with Some u => VUuid u | None => VNull end.
Definition otext (o : option string) : value := match o with Some s => VText s | None => VNull end.
Definition oint (o : option Z) : value := match o with Some z => VInt z | None => VNull end.
Definition oother {A} (o : option A) : value := match o with Some _ => VOther | None => VNull end.

Definition stamps : list (string * value) := [("created_at", VOther); ("updated_at", VOther)].

Definition webhook_status_text (s : webhook_status) : string :=
  match s with WReceived => "received" | WProcessed => "processed" | WRejected => "rejected" | WFailed => "failed" end.
Definition product_status_text (s : product_status) : string :=
  match s with ProdActive => "active" | ProdArchived => "archived" end.
Definition cart_status_text (s : cart_status) : string :=
  match s with CartActive => "active" | CartCheckedOut => "checked_out" | CartAbandoned => "abandoned" end.
Definition order_status_text (s : order_status) : string :=
  match s with OrdPending => "pending" | OrdPaid => "paid" | OrdCanceled => "canceled" end.
Definition user_status_text (s : user_status) : string :=
  match s with UActive => "active" | UBlocked => "blocked" end.
Definition tenant_status_text (s : tenant_status) : string :=
  match s with TActive => "active" | TSuspended => "suspended" | TDeleted => "deleted" end.
Definition member_status_text (s : member_status) : string :=
  match s with MActive => "active" | MSuspended => "suspended" end.
Definition invite_status_text (s : invite_status) : string :=
  match s with IPending => "pending" | IAccepted => "accepted" | IRevoked => "revoked" | IExpired => "expired" end.
Definition outbox_status_text (s : outbox_status) : string :=
  match s with
  | ObPending => "pending" | ObSending => "sending" | ObSent => "sent" | ObFailed => "failed" | ObDead => "dead"
  end.
Definition kind_text (k : entitlement_kind) : string := match k with EFlag => "flag" | ELimit => "limit" end.

Definition currency_row (exponent : string -> Z) (code : string) : Row :=
  row ([("code", VText code); ("exponent", VInt (exponent code)); ("name", VText code)] ++ stamps).
Definition plan_row (p : Plan) : Row :=
  row ([("id", VUuid (pl_id p)); ("code", VText (pl_code p)); ("name", VOther); ("description", VOther);
        ("price_amount", VInt (pl_price_amount p)); ("currency", VText (pl_currency p));
        ("period", VText (pl_period p)); ("trial_days", VInt (pl_trial_days p)); ("is_active", VOther)] ++ stamps).
Definition subscription_row (s : Subscription) : Row :=
  row ([("id", VUuid (s_id s)); ("tenant_id", VUuid (s_tenant_id s)); ("plan_id", VUuid (s_plan_id s));
        ("status", VText (sub_status_str (s_status s))); ("price_amount", VInt (s_price_amount s));
        ("currency", VText (s_currency s)); ("current_period_start", VOther); ("current_period_end", VOther);
        ("cancel_at_period_end", VOther); ("canceled_at", oother (s_canceled_at s))] ++ stamps).
Definition payment_row (p : Payment) : Row :=
  row ([("id", VUuid (p_id p)); ("tenant_id", VUuid (p_tenant_id p)); ("subscription_id", oid (p_subscription_id p));
        ("purpose", VText (p_purpose p)); ("reference", VText (p_reference p)); ("amount", VInt (p_amount p));
        ("currency", VText (p_currency p)); ("status", VText (payment_status_str (p_status p)));
        ("provider", VText (p_provider p)); ("provider_transaction_id", otext (p_provider_transaction_id p));
        ("idempotency_key", VText (p_idempotency_key p)); ("failure_code", otext (p_failure_code p));
        ("paid_at", oother (p_paid_at p)); ("metadata", VOther)] ++ stamps).
Definition webhook_row (w : PaymentWebhook) : Row :=
  row ([("id", VUuid (w_id w)); ("provider", VText (w_provider w)); ("dedup_key", VText (w_dedup_key w));
        ("tenant_id", oid (w_tenant_id w)); ("payment_id", oid (w_payment_id w)); ("raw_body", VText (w_raw_body w));
        ("headers", VOther); ("signature_valid", oother (w_signature_valid w));
        ("status", VText (webhook_status_text (w_status w))); ("error", otext (w_error w)); ("attempts", VInt 0);
        ("processed_at", oother (w_processed_at w))] ++ stamps).
Definition audit_row (a : AuditLog) : Row :=
  row [("id", VUuid (au_id a)); ("tenant_id", oid (au_tenant_id a)); ("user_id", oid (au_user_id a));
       ("request_id", otext (au_request_id a)); ("event_id", oid (au_event_id a)); ("action", VText (au_action a));
       ("object_type", otext (au_object_type a)); ("object_id", otext (au_object_id a)); ("ip", oother (au_ip a));
       ("user_agent", otext (au_user_agent a)); ("payload", VOther); ("created_at", VOther)].
Definition product_row (p : Product) : Row :=
  row ([("id", VUuid (pr_id p)); ("tenant_id", VUuid (pr_tenant_id p)); ("sku", VText (pr_sku p));
        ("name", VText (pr_name p)); ("description", otext (pr_description p));
        ("price_amount", VInt (pr_price_amount p)); ("currency", VText (pr_currency p));
        ("status", VText (product_status_text (pr_status p)))] ++ stamps).
Definition cart_row (c : Cart) : Row :=
  row ([("id", VUuid (ca_id c)); ("tenant_id", VUuid (ca_tenant_id c));
        ("customer_user_id", VUuid (ca_customer_user_id c)); ("status", VText (cart_status_text (ca_status c)))] ++ stamps).
Definition cart_item_row (i : CartItem) : Row :=
  row ([("id", VUuid (ci_id i)); ("tenant_id", VUuid (ci_tenant_id i)); ("cart_id", VUuid (ci_cart_id i));
        ("product_id", VUuid (ci_product_id i)); ("quantity", VInt (ci_quantity i));
        ("unit_price_amount", VInt (ci_unit_price_amount i)); ("currency", VText (ci_currency i))] ++ stamps).
Definition order_row (o : Order) : Row :=
  row ([("id", VUuid (o_id o)); ("tenant_id", VUuid (o_tenant_id o)); ("customer_user_id", VUuid (o_customer_user_id o));
        ("status", VText (order_status_text (o_status o))); ("total_amount", VInt (o_total_amount o));
        ("currency", VText (o_currency o)); ("payment_id", oid (o_payment_id o))] ++ stamps).
Definition order_item_row (i : OrderItem) : Row :=
  row ([("id", VUuid (oi_id i)); ("tenant_id", VUuid (oi_tenant_id i)); ("order_id", VUuid (oi_order_id i));
        ("product_id", VUuid (oi_product_id i)); ("quantity", VInt (oi_quantity i));
        ("unit_price_amount", VInt (oi_unit_price_amount i)); ("currency", VText (oi_currency i))] ++ stamps).
Definition processed_row (k : string * N) : Row :=
  row [("handler", VText k.1); ("event_id", VUuid k.2); ("processed_at", VOther)].

Definition user_row (u : User) : Row :=
  row ([("id", VUuid (u_id u)); ("email", VText (u_email u)); ("email_verified_at", oother (u_email_verified_at u));
        ("password_hash", VText (u_password_hash u)); ("full_name", otext (u_full_name u)); ("phone", otext (u_phone u));
        ("locale", VText (u_locale u)); ("is_superuser", VOther); ("status", VText (user_status_text (u_status u)));
        ("last_login_at", oother (u_last_login_at u))] ++ stamps).
Definition totp_row (t : UserTotp) : Row :=
  row ([("user_id", VUuid (ut_user_id t)); ("secret_encrypted", VOther); ("confirmed_at", oother (ut_confirmed_at t))]
       ++ stamps).
Definition recovery_row (c : UserRecoveryCode) : Row :=
  row ([("id", VUuid (rc_id c)); ("user_id", VUuid (rc_user_id c)); ("code_hash", VText (rc_code_hash c));
        ("used_at", oother (rc_used_at c))] ++ stamps).
Definition refresh_row (r : RefreshToken) : Row :=
  row ([("id", VUuid (rt_id r)); ("user_id", VUuid (rt_user_id r)); ("family_id", VUuid (rt_family_id r));
        ("token_hash", VText (rt_token_hash r)); ("expires_at", VOther); ("rotated_at", oother (rt_rotated_at r));
        ("revoked_at", oother (rt_revoked_at r)); ("revoked_reason", otext (rt_revoked_reason r));
        ("ip", oother (rt_ip r)); ("user_agent", otext (rt_user_agent r))] ++ stamps).
Definition tenant_row_of (t : Tenant) : Row :=
  row ([("id", VUuid (tn_id t)); ("name", VText (tn_name t)); ("slug", VText (tn_slug t));
        ("owner_user_id", VUuid (tn_owner_user_id t)); ("status", VText (tenant_status_text (tn_status t)));
        ("default_locale", VText (tn_default_locale t))] ++ stamps).
Definition membership_row (m : Membership) : Row :=
  row ([("id", VUuid (mb_id m)); ("tenant_id", VUuid (mb_tenant_id m)); ("user_id", VUuid (mb_user_id m));
        ("role_id", VUuid (mb_role_id m)); ("status", VText (member_status_text (mb_status m)))] ++ stamps).
Definition role_row (r : Role) : Row :=
  row ([("id", VUuid (ro_id r)); ("tenant_id", oid (ro_tenant_id r)); ("code", VText (ro_code r));
        ("name", VText (ro_name r)); ("is_system", VOther)] ++ stamps).
Definition grant_row (g : N * string) : Row :=
  row ([("role_id", VUuid g.1); ("permission_code", VText g.2)] ++ stamps).
Definition invitation_row (i : Invitation) : Row :=
  row ([("id", VUuid (iv_id i)); ("tenant_id", VUuid (iv_tenant_id i)); ("email", VText (iv_email i));
        ("role_id", VUuid (iv_role_id i)); ("token_hash", VText (iv_token_hash i));
        ("status", VText (invite_status_text (iv_status i))); ("invited_by_user_id", oid (iv_invited_by_user_id i));
        ("accepted_by_user_id", oid (iv_accepted_by_user_id i)); ("expires_at", VOther);
        ("accepted_at", oother (iv_accepted_at i))] ++ stamps).
Definition setting_row (x : NotificationSetting) : Row :=
  row ([("id", VUuid (ns_id x)); ("tenant_id", VUuid (ns_tenant_id x)); ("channel", VText (ns_channel x));
        ("config_encrypted", VOther); ("is_enabled", VOther)] ++ stamps).
Definition outbox_row_of (x : NotificationOutbox) : Row :=
  row ([("id", VUuid (ob_id x)); ("notification_id", VUuid (ob_notification_id x)); ("dedup_key", otext (ob_dedup_key x));
        ("tenant_id", oid (ob_tenant_id x)); ("channel", VText (ob_channel x)); ("recipient", VText (ob_recipient x));
        ("template_key", VText (ob_template_key x)); ("locale", VText (ob_locale x)); ("params", VOther);
        ("status", VText (outbox_status_text (ob_status x))); ("attempts", VInt (ob_attempts x));
        ("next_retry_at", VOther); ("last_error", otext (ob_last_error x));
        ("provider_message_id", otext (ob_provider_message_id x)); ("sent_at", oother (ob_sent_at x))] ++ stamps).
Definition plan_entitlement_row (x : (string * string) * PlanEntitlement) : Row :=
  row ([("plan_code", VText x.1.1); ("entitlement_key", VText x.1.2); ("kind", VText (kind_text (pe_kind x.2)));
        ("bool_value", oother (pe_bool_value x.2)); ("int_value", oint (pe_int_value x.2))] ++ stamps).
Definition entitlement_row (e : TenantEntitlement) : Row :=
  row ([("id", VUuid (te_id e)); ("tenant_id", VUuid (te_tenant_id e)); ("plan_code", VText (te_plan_code e));
        ("current_period_end", oother (te_current_period_end e)); ("canceled", VOther)] ++ stamps).
Definition usage_row (c : UsageCounter) : Row :=
  row ([("id", VUuid (uc_id c)); ("tenant_id", VUuid (uc_tenant_id c)); ("metric_key", VText (uc_metric_key c));
        ("bucket", VDate (uc_bucket c)); ("value", VInt (uc_value c))] ++ stamps).
Definition progress_row (o : OnboardingProgress) : Row :=
  row ([("id", VUuid (op_id o)); ("tenant_id", VUuid (op_tenant_id o)); ("step_key", VText (op_step_key o));
        ("completed_at", VOther)] ++ stamps).
Definition company_row (c : Company) : Row :=
  row ([("id", VUuid (cm_id c)); ("tenant_id", VUuid (cm_tenant_id c)); ("name", VText (cm_name c));
        ("website", otext (cm_website c)); ("industry", otext (cm_industry c)); ("notes", otext (cm_notes c))] ++ stamps).
Definition contact_row (c : Contact) : Row :=
  row ([("id", VUuid (ct_id c)); ("tenant_id", VUuid (ct_tenant_id c)); ("company_id", oid (ct_company_id c));
        ("first_name", VText (ct_first_name c)); ("last_name", otext (ct_last_name c)); ("email", otext (ct_email c));
        ("phone", otext (ct_phone c)); ("position", otext (ct_position c)); ("notes", otext (ct_notes c))] ++ stamps).
Definition deal_row (x : Deal) : Row :=
  row ([("id", VUuid (dl_id x)); ("tenant_id", VUuid (dl_tenant_id x)); ("title", VText (dl_title x));
        ("stage", VText (dl_stage x)); ("amount", VInt (dl_amount x)); ("currency", VText (dl_currency x));
        ("contact_id", oid (dl_contact_id x)); ("company_id", oid (dl_company_id x)); ("notes", otext (dl_notes x))]
       ++ stamps).
Definition activity_row (x : Activity) : Row :=
  row ([("id", VUuid (ac_id x)); ("tenant_id", VUuid (ac_tenant_id x)); ("type", VText (ac_type x));
        ("subject", VText (ac_subject x)); ("notes", otext (ac_notes x)); ("due_at", oother (ac_due_at x));
        ("done_at", oother (ac_done_at x)); ("assignee_user_id", VUuid (ac_assignee_user_id x));
        ("contact_id", oid (ac_contact_id x)); ("company_id", oid (ac_company_id x)); ("deal_id", oid (ac_deal_id x))]
       ++ stamps).
Definition stored_file_row (f : StoredFile) : Row :=
  row ([("id", VUuid (sf_id f)); ("tenant_id", VUuid (sf_tenant_id f)); ("storage_key", VText (sf_storage_key f));
        ("content_type", VText (sf_content_type f)); ("byte_size", VInt (sf_byte_size f));
        ("checksum_sha256", VText (sf_checksum_sha256 f)); ("original_filename", otext (sf_original_filename f))] ++ stamps).
Definition image_row (i : ProductImage) : Row :=
  row ([("id", VUuid (im_id i)); ("tenant_id", VUuid (im_tenant_id i)); ("product_id", VUuid (im_product_id i));
        ("file_id", VUuid (im_file_id i)); ("thumbnail_file_id", oid (im_thumbnail_file_id i));
        ("position", VInt (im_position i)); ("alt_text", otext (im_alt_text i))] ++ stamps).

(** The tables of a state. *)
Definition contents (exponent : string -> Z) (d : Db) : list (string * list Row) :=
  let b := d_billing d in let c := d_commerce d in
  let a := accounts_of d in let t := tenants_of d in let n := notices_of d in
  let s := saas_of d in let r := crm_of d in let f := files_of d in
  [("currencies", currency_row exponent <$> elements (b_currencies b));
   ("plans", plan_row <$> rows (b_plans b));
   ("subscriptions", subscription_row <$> rows (b_subscriptions b));
   ("payments", payment_row <$> rows (b_payments b));
   ("payment_webhooks", webhook_row <$> rows (b_webhooks b));
   ("audit_log", audit_row <$> rows (d_audit d));
   ("processed_events", processed_row <$> (map_to_list (d_processed d)).*1);
   ("commerce_products", product_row <$> rows (c_products c));
   ("commerce_carts", cart_row <$> rows (c_carts c));
   ("commerce_cart_items", cart_item_row <$> rows (c_cart_items c));
   ("commerce_orders", order_row <$> rows (c_orders c));
   ("commerce_order_items", order_item_row <$> rows (c_order_items c));
   ("commerce_product_images", image_row <$> rows (f_images f));
   ("users", user_row <$> rows (a_users a));
   ("user_totp", totp_row <$> rows (a_totp a));
   ("user_recovery_codes", recovery_row <$> rows (a_recovery a));
   ("refresh_tokens", refresh_row <$> rows (a_refresh a));
   ("tenants", tenant_row_of <$> rows (t_tenants t));
   ("memberships", membership_row <$> rows (t_memberships t));
   ("roles", role_row <$> rows (t_roles t));
   ("role_permissions", grant_row <$> elements (t_role_permissions t));
   ("invitations", invitation_row <$> rows (t_invitations t));
   ("notification_settings", setting_row <$> rows (n_settings n));
   ("notification_outbox", outbox_row_of <$> rows (n_outbox n));
   ("saas_plan_entitlements", plan_entitlement_row <$> map_to_list (s_plan_entitlements s));
   ("saas_tenant_entitlements", entitlement_row <$> rows (s_tenant_entitlements s));
   ("saas_usage_counters", usage_row <$> rows (s_usage s));
   ("saas_onboarding_progress", progress_row <$> rows (s_onboarding s));
   ("crm_companies", company_row <$> rows (r_companies r));
   ("crm_contacts", contact_row <$> rows (r_contacts r));
   ("crm_deals", deal_row <$> rows (r_deals r));
   ("crm_activities", activity_row <$> rows (r_activities r));
   ("files", stored_file_row <$> rows (f_files f))].
Definition rows_of (exponent : string -> Z) (d : Db) (t : string) : list Row :=
  match List.find (fun x => String.eqb x.1 t) (contents exponent d) with Some x => x.2 | None => [] end.

(** ** The schema, table by table *)

Definition accepted (db : string -> list Row) (x : string * list Column * list constraint * list Index) : bool :=
  match x with (t, cols, cs, uniques) => table_accepts db cols cs uniques (db t) end.
Definition summary_of (s : Schema) : list (string * list Column * list constraint * list Index) :=
  (fun x => (x.1, tb_columns x.2, values (tb_constraints x.2), List.filter ix_unique (values (tb_indexes x.2))))
    <$> map_to_list (sc_tables s).
Definition summary : list (string * list Column * list constraint * list Index) :=
  Eval vm_compute in summary_of installed.

Lemma summary_installed : summary_of installed = summary.
Proof. vm_compute. reflexivity. Qed.

Lemma accepts_summary db : accepts installed db = forallb (accepted db) summary.
Proof.
  rewrite <- summary_installed. unfold accepts, summary_of. generalize (map_to_list (sc_tables installed)).
  intros l. induction l as [|x l IH]; simpl; [done|]. by rewrite IH.
Qed.

(** ** Rows of a table *)

Fixpoint column_of (l : list (string * value)) (c : string) : value :=
  match l with [] => VNull | x :: l' => if String.eqb x.1 c then x.2 else column_of l' c end.

Lemma cell_row l c : cell (row l) c = column_of l c.
Proof.
  unfold cell, row. induction l as [|[k v] l IH]; simpl; [done|]. destruct (String.eqb_spec k c) as [->|H].
  - by rewrite lookup_insert_eq.
  - by rewrite lookup_insert_ne.
Qed.

Section Rows.
Context {A : Type} (enc : A -> Row).

Lemma forallb_fmap (p : Row -> bool) (q : A -> bool) l :
  (forall a, p (enc a) = q a) -> forallb p (enc <$> l) = forallb q l.
Proof. intros H. induction l as [|a l IH]; [done|]. rewrite fmap_cons. cbn [forallb]. by rewrite H, IH. Qed.

Lemma checked_rows (p : Row -> bool) (q : A -> bool) (m : gmap N A) :
  (forall a, p (enc a) = q a) -> forallb p (enc <$> rows m) = all_rows q m.
Proof. apply forallb_fmap. Qed.

(** The entries of an index, up to how they are written. *)
Lemma indexed_list {K} `{EqDecision K} (f : K -> list value) (key : Row -> option (list value)) (uq : A -> option K) l :
  (forall x y, f x = f y -> x = y) -> (forall a, key (enc a) = f <$> uq a) ->
  unique_rows key (enc <$> l) = bool_decide (NoDup (omap uq l)).
Proof.
  intros Hf Hk. unfold unique_rows. apply bool_decide_ext.
  assert (E : omap key (enc <$> l) = f <$> omap uq l).
  { induction l as [|a l IH]; [done|]. rewrite fmap_cons. cbn [omap list_omap]. rewrite Hk. destruct (uq a) as [k|]; cbn [fmap option_fmap option_map]; [|exact IH].
    rewrite fmap_cons. f_equal. exact IH. }
  rewrite E. split; [by apply NoDup_fmap_1|]. apply NoDup_fmap_2. intros x y. apply Hf.
Qed.
Lemma indexed_rows {K} `{EqDecision K} (f : K -> list value) key (uq : A -> option K) (m : gmap N A) :
  (forall x y, f x = f y -> x = y) -> (forall a, key (enc a) = f <$> uq a) ->
  unique_rows key (enc <$> rows m) = unique_by uq m.
Proof. apply indexed_list. Qed.
End Rows.

Section Keys.
Context {R : Type} (enc : R -> Row) (id : R -> uuid) (m : gmap N R).
Context (Hk : forall i r, m !! i = Some r -> id r = i).

(** Primary keys. *)
Lemma keyed_rows cols :
  (forall r, cell (enc r) <$> cols = [VUuid (id r)]) ->
  unique_rows (fun r => Some (cell r <$> cols)) (enc <$> rows m) = true.
Proof.
  intros Hc. rewrite (indexed_rows enc (fun u => [VUuid u]) _ (fun r => Some (id r)));
    [|by intros x y [= ->]|intros a; by rewrite Hc].
  apply unique_by_spec. intros i j a b k Hi Hj [= Ka] [= Kb]. rewrite <- (Hk _ _ Hi), <- (Hk _ _ Hj). congruence.
Qed.

(** Foreign keys. *)
Context (refcol : string) (Hc : forall r, cell (enc r) refcol = VUuid (id r)).

Lemma refers_row u : refers (enc <$> rows m) refcol (VUuid u) = in_table m u.
Proof.
  unfold refers, in_table. rewrite bool_decide_false by done. simpl. apply eq_true_iff_eq.
  rewrite existsb_exists, bool_decide_eq_true. split.
  - intros (x & Hx & He). apply list_elem_of_In, list_elem_of_fmap in Hx as (r & -> & Hr).
    apply bool_decide_eq_true in He. rewrite Hc in He. injection He as <-.
    apply elem_of_rows in Hr as [i Hi]. rewrite (Hk _ _ Hi). by eexists.
  - intros [r Hr]. exists (enc r). split; [|apply bool_decide_eq_true; rewrite Hc; by rewrite (Hk _ _ Hr)].
    apply list_elem_of_In, list_elem_of_fmap. exists r. split; [done|]. apply elem_of_rows. eauto.
Qed.
Lemma refers_opt o : refers (enc <$> rows m) refcol (oid o) = opt_in m o.
Proof. destruct o as [u|]; [apply refers_row|done]. Qed.

(** .. of rows of another table *)
Context {A : Type} (enc' : A -> Row) (col : string).
Lemma linked_rows (l : list A) f :
  (forall a, cell (enc' a) col = VUuid (f a)) ->
  forallb (fun r => refers (enc <$> rows m) refcol (cell r col)) (enc' <$> l) = forallb (fun a => in_table m (f a)) l.
Proof. intros Hf. apply forallb_fmap. intros a. by rewrite Hf, refers_row. Qed.
Lemma linked_opt (l : list A) f :
  (forall a, cell (enc' a) col = oid (f a)) ->
  forallb (fun r => refers (enc <$> rows m) refcol (cell r col)) (enc' <$> l) = forallb (fun a => opt_in m (f a)) l.
Proof. intros Hf. apply forallb_fmap. intros a. by rewrite Hf, refers_opt. Qed.
End Keys.
Lemma refers_code exponent (codes : gset string) c :
  refers (currency_row exponent <$> elements codes) "code" (VText c) = bool_decide (c ∈ codes).
Proof.
  unfold refers. rewrite bool_decide_false by done. simpl. apply eq_true_iff_eq.
  rewrite existsb_exists, bool_decide_eq_true. split.
  - intros (x & Hx & He). apply list_elem_of_In, list_elem_of_fmap in Hx as (k & -> & Hk).
    apply bool_decide_eq_true in He. unfold currency_row in He. rewrite cell_row in He. injection He as ->.
    by apply elem_of_elements.
  - intros Hc. exists (currency_row exponent c). split.
    + apply list_elem_of_In, list_elem_of_fmap. exists c. split; [done|by apply elem_of_elements].
    + apply bool_decide_eq_true. unfold currency_row. by rewrite cell_row.
Qed.

Lemma forallb_and {A} (p q : A -> bool) l : forallb (fun a => p a && q a) l = forallb p l && forallb q l.
Proof. induction l as [|a l IH]; [done|]. cbn [forallb]. rewrite IH. by destruct (p a), (q a), (forallb p l). Qed.
Lemma all_rows_and {A} (p q : A -> bool) (m : gmap N A) :
  all_rows (fun a => p a && q a) m = all_rows p m && all_rows q m.
Proof. apply forallb_and. Qed.
Lemma all_rows_true {A} (m : gmap N A) : all_rows (fun _ => true) m = true.
Proof. apply all_rows_spec. done. Qed.

Definition part (t : string) : string * list Column * list constraint * list Index :=
  match List.find (fun x => String.eqb x.1.1.1 t) summary with Some x => x | None => (t, [], [], []) end.
Definition short (s : string) : bool := (N.of_nat (String.length s) <=? 3)%N.

Lemma fits_oid c o : co_nullable c = true -> co_type c = TUuid -> column_fits c (oid o) = true.
Proof. intros Hn Ht. destruct o; simpl; by rewrite ?Ht. Qed.
Lemma fits_otext c o : co_nullable c = true -> co_type c = TText -> column_fits c (otext o) = true.
Proof. intros Hn Ht. destruct o; simpl; by rewrite ?Ht. Qed.
Lemma fits_oother {A} c (o : option A) :
  co_nullable c = true -> match co_type c with TBoolean | TTimestamptz | TJsonb | TInet | TBytea => true | _ => false end = true ->
  column_fits c (oother o) = true.
Proof. intros Hn Ht. by destruct o. Qed.
Lemma checked_some x : negb (bool_decide (Some x = Some false)) = x.
Proof. by destruct x. Qed.

Create HintDb conform discriminated.
#[export] Hint Unfold payment_status_str sub_status_str webhook_status_text product_status_text cart_status_text
  order_status_text user_status_text tenant_status_text member_status_text invite_status_text outbox_status_text
  kind_text oid otext oint oother uq_live uq_pending uq_idem uq_txn uq_ledger uq_plan_code uq_audit_event uq_sku
  uq_active_cart uq_cart_product uq_email uq_token_hash uq_slug uq_member uq_role uq_invite_token uq_invite_email
  uq_setting uq_dedup uq_entitled uq_bucket uq_step uq_storage_key : conform.

(** Compares a condition on a row with one on what it stands for. *)
Ltac cells enc :=
  unfold enc, index_key, truth;
  cbn [forallb existsb co_name key_value eval fmap list_fmap ix_keys ix_where ix_nulls_not_distinct];
  rewrite ?cell_row; cbn [column_of stamps app String.eqb Ascii.eqb Bool.eqb fst snd];
  rewrite ?fits_oid, ?fits_otext, ?fits_oother by reflexivity;
  cbn [column_fits co_type co_nullable andb text_test int_test]; rewrite ?andb_true_r, ?checked_some.
Ltac by_cells enc :=
  let a := fresh "a" in
  intros a; cells enc;
  first [ reflexivity
        | destruct a; autounfold with conform in *; cbn;
          repeat match goal with |- context [match ?x with _ => _ end] => is_var x; destruct x end;
          first [reflexivity | vm_compute; reflexivity] ].

(** A table: its columns, its constraints, its unique indexes. *)
Ltac open_part t :=
  let x := eval vm_compute in (part t) in change (part t) with x;
  cbn [accepted]; unfold table_accepts; cbn [forallb constraint_ok]; rewrite ?andb_true_r, ?andb_true_iff.

Lemma listed_rows {A K} (enc : A -> Row) (f : K -> list value) key (g : A -> K) (l : list A) :
  (forall x y, f x = f y -> x = y) -> (forall a, key (enc a) = Some (f (g a))) -> NoDup (g <$> l) ->
  unique_rows key (enc <$> l) = true.
Proof.
  intros Hf Hk Hn. unfold unique_rows. apply bool_decide_eq_true.
  assert (E : omap key (enc <$> l) = f <$> (g <$> l)).
  { clear Hn. induction l as [|a l IH]; [done|]. rewrite !fmap_cons. cbn [omap list_omap]. rewrite Hk. f_equal. exact IH. }
  rewrite E. apply NoDup_fmap_2; [|done]. intros x y. apply Hf.
Qed.

Ltac by_key enc := first [by intros ? ? [= ->] | by intros [? ?] [? ?] [= -> ->] | by intros [[? ?] ?] [[? ?] ?] [= -> -> ->]
  | by intros [[?|] ?] [[?|] ?]; intros [=]; subst | by intros [[[?|] ?] ?] [[[?|] ?] ?]; intros [=]; subst | by_cells enc].

(** Conditions of CHECKs the model writes in its own words. *)
Lemma one_of_two (s x y : string) : bool_decide (s ∈ [x; y]) = bool_decide (s = x) || bool_decide (s = y).
Proof. apply eq_true_iff_eq. rewrite orb_true_iff, !bool_decide_eq_true. set_solver. Qed.
Definition matches_kind (e : PlanEntitlement) : bool :=
  match pe_kind e, pe_bool_value e, pe_int_value e with
  | EFlag, Some _, None | ELimit, None, _ => true
  | _, _, _ => false
  end.
Definition limit_of (p : Z -> bool) (e : PlanEntitlement) : bool :=
  match pe_int_value e with Some z => p z | None => true end.
Lemma plan_entitlement_split e : plan_entitlement_ok e = matches_kind e && limit_of (fun z => 0 <=? z)%Z e.
Proof. unfold plan_entitlement_ok, matches_kind, limit_of. by destruct (pe_kind e), (pe_bool_value e), (pe_int_value e); simpl; rewrite ?andb_false_r. Qed.

Section Conform.
Context (exponent : string -> Z) (d : Db) (Hk : keyed d).

Abbreviation D := (rows_of exponent d).
Abbreviation all m p := (all_rows p m = true).
Abbreviation tenants := (t_tenants (tenants_of d)).
Abbreviation users := (a_users (accounts_of d)).
Abbreviation codes := (b_currencies (d_billing d)).

Ltac table t enc id m H pk :=
  open_part t; change (rows_of exponent d t) with (enc <$> rows m); rewrite (keyed_rows enc id m H [pk]) by by_cells enc.
Ltac close_part := rewrite ?all_rows_true; unfold all_rows; tauto.

Lemma to_tenants {A} (enc : A -> Row) l f :
  (forall a, cell (enc a) "tenant_id" = VUuid (f a)) ->
  forallb (fun r => refers (D "tenants") "id" (cell r "tenant_id")) (enc <$> l) = forallb (fun a => in_table tenants (f a)) l.
Proof. apply (linked_rows tenant_row_of tn_id tenants (k_tenant d Hk)). by_cells tenant_row_of. Qed.
Lemma to_tenants_opt {A} (enc : A -> Row) l f :
  (forall a, cell (enc a) "tenant_id" = oid (f a)) ->
  forallb (fun r => refers (D "tenants") "id" (cell r "tenant_id")) (enc <$> l) = forallb (fun a => opt_in tenants (f a)) l.
Proof. apply (linked_opt tenant_row_of tn_id tenants (k_tenant d Hk)). by_cells tenant_row_of. Qed.
Lemma to_users {A} (enc : A -> Row) col l f :
  (forall a, cell (enc a) col = VUuid (f a)) ->
  forallb (fun r => refers (D "users") "id" (cell r col)) (enc <$> l) = forallb (fun a => in_table users (f a)) l.
Proof. apply (linked_rows user_row u_id users (k_user d Hk)). by_cells user_row. Qed.
Lemma to_users_opt {A} (enc : A -> Row) col l f :
  (forall a, cell (enc a) col = oid (f a)) ->
  forallb (fun r => refers (D "users") "id" (cell r col)) (enc <$> l) = forallb (fun a => opt_in users (f a)) l.
Proof. apply (linked_opt user_row u_id users (k_user d Hk)). by_cells user_row. Qed.
Lemma to_roles {A} (enc : A -> Row) col l f :
  (forall a, cell (enc a) col = VUuid (f a)) ->
  forallb (fun r => refers (D "roles") "id" (cell r col)) (enc <$> l) = forallb (fun a => in_table (t_roles (tenants_of d)) (f a)) l.
Proof. apply (linked_rows role_row ro_id (t_roles (tenants_of d)) (k_role d Hk)). by_cells role_row. Qed.
Lemma to_codes {A} (enc : A -> Row) l f :
  (forall a, cell (enc a) "currency" = VText (f a)) ->
  forallb (fun r => refers (D "currencies") "code" (cell r "currency")) (enc <$> l)
  = forallb (fun a => bool_decide (f a ∈ codes)) l.
Proof. intros Hf. apply forallb_fmap. intros a. rewrite Hf. apply refers_code. Qed.

Lemma plans_accepted : accepted D (part "plans") = true <->
  all (b_plans (d_billing d)) (fun x => int64 (pl_price_amount x) && (short (pl_currency x) && int16 (pl_trial_days x))) /\
  all (b_plans (d_billing d)) (fun x => bool_decide (pl_currency x ∈ codes)) /\
  all (b_plans (d_billing d)) (fun x => bool_decide (pl_period x = "month") || bool_decide (pl_period x = "year"))%Z /\
  all (b_plans (d_billing d)) (fun x => 0 <=? pl_price_amount x)%Z /\
  unique_by uq_plan_code (b_plans (d_billing d)) = true.
Proof.
  table "plans" plan_row pl_id (b_plans (d_billing d)) (k_plan d Hk) "id".
  rewrite (to_codes plan_row _ pl_currency) by by_cells plan_row.
  rewrite (checked_rows plan_row _ (fun x => int64 (pl_price_amount x) && (short (pl_currency x) && int16 (pl_trial_days x))) (b_plans (d_billing d))) by by_cells plan_row.
  rewrite (checked_rows plan_row _ (fun x => bool_decide (pl_period x = "month") || bool_decide (pl_period x = "year"))%Z (b_plans (d_billing d))) by (intros a; cells plan_row; apply one_of_two).
  rewrite (checked_rows plan_row _ (fun x => 0 <=? pl_price_amount x)%Z (b_plans (d_billing d))) by by_cells plan_row.
  rewrite (indexed_rows plan_row (fun k : string => [VText k]) _ uq_plan_code (b_plans (d_billing d))) by by_key plan_row.
  close_part.
Qed.
Lemma subscriptions_accepted : accepted D (part "subscriptions") = true <->
  all (b_subscriptions (d_billing d)) (fun x => int64 (s_price_amount x) && short (s_currency x)) /\
  all (b_subscriptions (d_billing d)) (fun x => bool_decide (s_currency x ∈ codes)) /\
  all (b_subscriptions (d_billing d)) (fun x => in_table tenants (s_tenant_id x)) /\
  all (b_subscriptions (d_billing d)) (fun x => in_table (b_plans (d_billing d)) (s_plan_id x)) /\
  all (b_subscriptions (d_billing d)) (fun x => 0 <=? s_price_amount x)%Z /\
  unique_by uq_live (b_subscriptions (d_billing d)) = true /\
  unique_by uq_pending (b_subscriptions (d_billing d)) = true.
Proof.
  table "subscriptions" subscription_row s_id (b_subscriptions (d_billing d)) (k_sub d Hk) "id".
  rewrite (to_codes subscription_row _ s_currency) by by_cells subscription_row.
  rewrite (to_tenants subscription_row _ s_tenant_id) by by_cells subscription_row.
  rewrite (linked_rows plan_row pl_id (b_plans (d_billing d)) (k_plan d Hk) "id" ltac:(by_cells plan_row) subscription_row "plan_id" _ s_plan_id) by by_cells subscription_row.
  rewrite (checked_rows subscription_row _ (fun x => int64 (s_price_amount x) && short (s_currency x)) (b_subscriptions (d_billing d))) by by_cells subscription_row.
  rewrite (checked_rows subscription_row _ (fun _ => true) (b_subscriptions (d_billing d))) by by_cells subscription_row.
  rewrite (checked_rows subscription_row _ (fun x => 0 <=? s_price_amount x)%Z (b_subscriptions (d_billing d))) by by_cells subscription_row.
  rewrite (indexed_rows subscription_row (fun k : uuid => [VUuid k]) _ uq_live (b_subscriptions (d_billing d))) by by_key subscription_row.
  rewrite (indexed_rows subscription_row (fun k : uuid => [VUuid k]) _ uq_pending (b_subscriptions (d_billing d))) by by_key subscription_row.
  close_part.
Qed.
Lemma payments_accepted : accepted D (part "payments") = true <->
  all (b_payments (d_billing d)) (fun x => int64 (p_amount x) && short (p_currency x)) /\
  all (b_payments (d_billing d)) (fun x => opt_in (b_subscriptions (d_billing d)) (p_subscription_id x)) /\
  all (b_payments (d_billing d)) (fun x => bool_decide (p_currency x ∈ codes)) /\
  all (b_payments (d_billing d)) (fun x => in_table tenants (p_tenant_id x)) /\
  all (b_payments (d_billing d)) (fun x => 0 <? p_amount x)%Z /\
  unique_by uq_idem (b_payments (d_billing d)) = true /\
  unique_by uq_txn (b_payments (d_billing d)) = true.
Proof.
  table "payments" payment_row p_id (b_payments (d_billing d)) (k_pay d Hk) "id".
  rewrite (linked_opt subscription_row s_id (b_subscriptions (d_billing d)) (k_sub d Hk) "id" ltac:(by_cells subscription_row) payment_row "subscription_id" _ p_subscription_id) by by_cells payment_row.
  rewrite (to_codes payment_row _ p_currency) by by_cells payment_row.
  rewrite (to_tenants payment_row _ p_tenant_id) by by_cells payment_row.
  rewrite (checked_rows payment_row _ (fun x => int64 (p_amount x) && short (p_currency x)) (b_payments (d_billing d))) by by_cells payment_row.
  rewrite (checked_rows payment_row _ (fun _ => true) (b_payments (d_billing d))) by by_cells payment_row.
  rewrite (checked_rows payment_row _ (fun x => 0 <? p_amount x)%Z (b_payments (d_billing d))) by by_cells payment_row.
  rewrite (indexed_rows payment_row (fun k : uuid * string => [VUuid k.1; VText k.2]) _ uq_idem (b_payments (d_billing d))) by by_key payment_row.
  rewrite (indexed_rows payment_row (fun k : string * string => [VText k.1; VText k.2]) _ uq_txn (b_payments (d_billing d))) by by_key payment_row.
  close_part.
Qed.
Lemma webhooks_accepted : accepted D (part "payment_webhooks") = true <->
  all (b_webhooks (d_billing d)) (fun x => opt_in tenants (w_tenant_id x)) /\
  all (b_webhooks (d_billing d)) (fun x => opt_in (b_payments (d_billing d)) (w_payment_id x)) /\
  unique_by uq_ledger (b_webhooks (d_billing d)) = true.
Proof.
  table "payment_webhooks" webhook_row w_id (b_webhooks (d_billing d)) (k_hook d Hk) "id".
  rewrite (to_tenants_opt webhook_row _ w_tenant_id) by by_cells webhook_row.
  rewrite (linked_opt payment_row p_id (b_payments (d_billing d)) (k_pay d Hk) "id" ltac:(by_cells payment_row) webhook_row "payment_id" _ w_payment_id) by by_cells webhook_row.
  rewrite (checked_rows webhook_row _ (fun _ => true) (b_webhooks (d_billing d))) by by_cells webhook_row.
  rewrite (checked_rows webhook_row _ (fun _ => true) (b_webhooks (d_billing d))) by by_cells webhook_row.
  rewrite (indexed_rows webhook_row (fun k : string * string => [VText k.1; VText k.2]) _ uq_ledger (b_webhooks (d_billing d))) by by_key webhook_row.
  close_part.
Qed.
Lemma audit_accepted : accepted D (part "audit_log") = true <->
  unique_by uq_audit_event (d_audit d) = true.
Proof.
  table "audit_log" audit_row au_id (d_audit d) (k_audit d Hk) "id".
  rewrite (checked_rows audit_row _ (fun _ => true) (d_audit d)) by by_cells audit_row.
  rewrite (indexed_rows audit_row (fun k : uuid => [VUuid k]) _ uq_audit_event (d_audit d)) by by_key audit_row.
  close_part.
Qed.
Lemma products_accepted : accepted D (part "commerce_products") = true <->
  all (c_products (d_commerce d)) (fun x => int64 (pr_price_amount x)) /\
  all (c_products (d_commerce d)) (fun x => in_table tenants (pr_tenant_id x)) /\
  all (c_products (d_commerce d)) (fun x => 0 <=? pr_price_amount x)%Z /\
  unique_by uq_sku (c_products (d_commerce d)) = true.
Proof.
  table "commerce_products" product_row pr_id (c_products (d_commerce d)) (k_prod d Hk) "id".
  rewrite (to_tenants product_row _ pr_tenant_id) by by_cells product_row.
  rewrite (checked_rows product_row _ (fun x => int64 (pr_price_amount x)) (c_products (d_commerce d))) by by_cells product_row.
  rewrite (checked_rows product_row _ (fun _ => true) (c_products (d_commerce d))) by by_cells product_row.
  rewrite (checked_rows product_row _ (fun x => 0 <=? pr_price_amount x)%Z (c_products (d_commerce d))) by by_cells product_row.
  rewrite (indexed_rows product_row (fun k : uuid * string => [VUuid k.1; VText k.2]) _ uq_sku (c_products (d_commerce d))) by by_key product_row.
  close_part.
Qed.
Lemma carts_accepted : accepted D (part "commerce_carts") = true <->
  all (c_carts (d_commerce d)) (fun x => in_table tenants (ca_tenant_id x)) /\
  unique_by uq_active_cart (c_carts (d_commerce d)) = true.
Proof.
  table "commerce_carts" cart_row ca_id (c_carts (d_commerce d)) (k_cart d Hk) "id".
  rewrite (to_tenants cart_row _ ca_tenant_id) by by_cells cart_row.
  rewrite (checked_rows cart_row _ (fun _ => true) (c_carts (d_commerce d))) by by_cells cart_row.
  rewrite (checked_rows cart_row _ (fun _ => true) (c_carts (d_commerce d))) by by_cells cart_row.
  rewrite (indexed_rows cart_row (fun k : uuid * uuid => [VUuid k.1; VUuid k.2]) _ uq_active_cart (c_carts (d_commerce d))) by by_key cart_row.
  close_part.
Qed.
Lemma cart_items_accepted : accepted D (part "commerce_cart_items") = true <->
  all (c_cart_items (d_commerce d)) (fun x => int16 (ci_quantity x) && int64 (ci_unit_price_amount x)) /\
  all (c_cart_items (d_commerce d)) (fun x => in_table (c_carts (d_commerce d)) (ci_cart_id x)) /\
  all (c_cart_items (d_commerce d)) (fun x => in_table tenants (ci_tenant_id x)) /\
  all (c_cart_items (d_commerce d)) (fun x => 1 <=? ci_quantity x)%Z /\
  all (c_cart_items (d_commerce d)) (fun x => 0 <=? ci_unit_price_amount x)%Z /\
  unique_by uq_cart_product (c_cart_items (d_commerce d)) = true.
Proof.
  table "commerce_cart_items" cart_item_row ci_id (c_cart_items (d_commerce d)) (k_ci d Hk) "id".
  rewrite (linked_rows cart_row ca_id (c_carts (d_commerce d)) (k_cart d Hk) "id" ltac:(by_cells cart_row) cart_item_row "cart_id" _ ci_cart_id) by by_cells cart_item_row.
  rewrite (to_tenants cart_item_row _ ci_tenant_id) by by_cells cart_item_row.
  rewrite (checked_rows cart_item_row _ (fun x => int16 (ci_quantity x) && int64 (ci_unit_price_amount x)) (c_cart_items (d_commerce d))) by by_cells cart_item_row.
  rewrite (checked_rows cart_item_row _ (fun x => 1 <=? ci_quantity x)%Z (c_cart_items (d_commerce d))) by by_cells cart_item_row.
  rewrite (checked_rows cart_item_row _ (fun x => 0 <=? ci_unit_price_amount x)%Z (c_cart_items (d_commerce d))) by by_cells cart_item_row.
  rewrite (indexed_rows cart_item_row (fun k : uuid * uuid => [VUuid k.1; VUuid k.2]) _ uq_cart_product (c_cart_items (d_commerce d))) by by_key cart_item_row.
  close_part.
Qed.
Lemma orders_accepted : accepted D (part "commerce_orders") = true <->
  all (c_orders (d_commerce d)) (fun x => int64 (o_total_amount x)) /\
  all (c_orders (d_commerce d)) (fun x => in_table tenants (o_tenant_id x)) /\
  all (c_orders (d_commerce d)) (fun x => 0 <=? o_total_amount x)%Z.
Proof.
  table "commerce_orders" order_row o_id (c_orders (d_commerce d)) (k_ord d Hk) "id".
  rewrite (to_tenants order_row _ o_tenant_id) by by_cells order_row.
  rewrite (checked_rows order_row _ (fun x => int64 (o_total_amount x)) (c_orders (d_commerce d))) by by_cells order_row.
  rewrite (checked_rows order_row _ (fun _ => true) (c_orders (d_commerce d))) by by_cells order_row.
  rewrite (checked_rows order_row _ (fun x => 0 <=? o_total_amount x)%Z (c_orders (d_commerce d))) by by_cells order_row.
  close_part.
Qed.
Lemma order_items_accepted : accepted D (part "commerce_order_items") = true <->
  all (c_order_items (d_commerce d)) (fun x => int16 (oi_quantity x) && int64 (oi_unit_price_amount x)) /\
  all (c_order_items (d_commerce d)) (fun x => in_table (c_orders (d_commerce d)) (oi_order_id x)) /\
  all (c_order_items (d_commerce d)) (fun x => in_table tenants (oi_tenant_id x)) /\
  all (c_order_items (d_commerce d)) (fun x => 1 <=? oi_quantity x)%Z /\
  all (c_order_items (d_commerce d)) (fun x => 0 <=? oi_unit_price_amount x)%Z.
Proof.
  table "commerce_order_items" order_item_row oi_id (c_order_items (d_commerce d)) (k_oi d Hk) "id".
  rewrite (linked_rows order_row o_id (c_orders (d_commerce d)) (k_ord d Hk) "id" ltac:(by_cells order_row) order_item_row "order_id" _ oi_order_id) by by_cells order_item_row.
  rewrite (to_tenants order_item_row _ oi_tenant_id) by by_cells order_item_row.
  rewrite (checked_rows order_item_row _ (fun x => int16 (oi_quantity x) && int64 (oi_unit_price_amount x)) (c_order_items (d_commerce d))) by by_cells order_item_row.
  rewrite (checked_rows order_item_row _ (fun x => 1 <=? oi_quantity x)%Z (c_order_items (d_commerce d))) by by_cells order_item_row.
  rewrite (checked_rows order_item_row _ (fun x => 0 <=? oi_unit_price_amount x)%Z (c_order_items (d_commerce d))) by by_cells order_item_row.
  close_part.
Qed.
Lemma images_accepted : accepted D (part "commerce_product_images") = true <->
  all (f_images (files_of d)) (fun x => int32 (im_position x)) /\
  all (f_images (files_of d)) (fun x => in_table tenants (im_tenant_id x)).
Proof.
  table "commerce_product_images" image_row im_id (f_images (files_of d)) (k_image d Hk) "id".
  rewrite (to_tenants image_row _ im_tenant_id) by by_cells image_row.
  rewrite (checked_rows image_row _ (fun x => int32 (im_position x)) (f_images (files_of d))) by by_cells image_row.
  close_part.
Qed.
Lemma users_accepted : accepted D (part "users") = true <->
  unique_by uq_email (a_users (accounts_of d)) = true.
Proof.
  table "users" user_row u_id (a_users (accounts_of d)) (k_user d Hk) "id".
  rewrite (checked_rows user_row _ (fun _ => true) (a_users (accounts_of d))) by by_cells user_row.
  rewrite (checked_rows user_row _ (fun _ => true) (a_users (accounts_of d))) by by_cells user_row.
  rewrite (indexed_rows user_row (fun k : string => [VText k]) _ uq_email (a_users (accounts_of d))) by by_key user_row.
  close_part.
Qed.
Lemma totp_accepted : accepted D (part "user_totp") = true <->
  all (a_totp (accounts_of d)) (fun x => in_table users (ut_user_id x)).
Proof.
  table "user_totp" totp_row ut_user_id (a_totp (accounts_of d)) (k_totp d Hk) "user_id".
  rewrite (to_users totp_row "user_id" _ ut_user_id) by by_cells totp_row.
  rewrite (checked_rows totp_row _ (fun _ => true) (a_totp (accounts_of d))) by by_cells totp_row.
  close_part.
Qed.
Lemma recovery_accepted : accepted D (part "user_recovery_codes") = true <->
  all (a_recovery (accounts_of d)) (fun x => in_table users (rc_user_id x)).
Proof.
  table "user_recovery_codes" recovery_row rc_id (a_recovery (accounts_of d)) (k_code d Hk) "id".
  rewrite (to_users recovery_row "user_id" _ rc_user_id) by by_cells recovery_row.
  rewrite (checked_rows recovery_row _ (fun _ => true) (a_recovery (accounts_of d))) by by_cells recovery_row.
  close_part.
Qed.
Lemma refresh_accepted : accepted D (part "refresh_tokens") = true <->
  all (a_refresh (accounts_of d)) (fun x => in_table users (rt_user_id x)) /\
  unique_by uq_token_hash (a_refresh (accounts_of d)) = true.
Proof.
  table "refresh_tokens" refresh_row rt_id (a_refresh (accounts_of d)) (k_token d Hk) "id".
  rewrite (to_users refresh_row "user_id" _ rt_user_id) by by_cells refresh_row.
  rewrite (checked_rows refresh_row _ (fun _ => true) (a_refresh (accounts_of d))) by by_cells refresh_row.
  rewrite (indexed_rows refresh_row (fun k : string => [VText k]) _ uq_token_hash (a_refresh (accounts_of d))) by by_key refresh_row.
  close_part.
Qed.
Lemma tenants_accepted : accepted D (part "tenants") = true <->
  all (t_tenants (tenants_of d)) (fun x => in_table users (tn_owner_user_id x)) /\
  unique_by uq_slug (t_tenants (tenants_of d)) = true.
Proof.
  table "tenants" tenant_row_of tn_id (t_tenants (tenants_of d)) (k_tenant d Hk) "id".
  rewrite (to_users tenant_row_of "owner_user_id" _ tn_owner_user_id) by by_cells tenant_row_of.
  rewrite (checked_rows tenant_row_of _ (fun _ => true) (t_tenants (tenants_of d))) by by_cells tenant_row_of.
  rewrite (checked_rows tenant_row_of _ (fun _ => true) (t_tenants (tenants_of d))) by by_cells tenant_row_of.
  rewrite (indexed_rows tenant_row_of (fun k : string => [VText k]) _ uq_slug (t_tenants (tenants_of d))) by by_key tenant_row_of.
  close_part.
Qed.
Lemma memberships_accepted : accepted D (part "memberships") = true <->
  all (t_memberships (tenants_of d)) (fun x => in_table users (mb_user_id x)) /\
  all (t_memberships (tenants_of d)) (fun x => in_table (t_roles (tenants_of d)) (mb_role_id x)) /\
  all (t_memberships (tenants_of d)) (fun x => in_table tenants (mb_tenant_id x)) /\
  unique_by uq_member (t_memberships (tenants_of d)) = true.
Proof.
  table "memberships" membership_row mb_id (t_memberships (tenants_of d)) (k_member d Hk) "id".
  rewrite (to_users membership_row "user_id" _ mb_user_id) by by_cells membership_row.
  rewrite (to_roles membership_row "role_id" _ mb_role_id) by by_cells membership_row.
  rewrite (to_tenants membership_row _ mb_tenant_id) by by_cells membership_row.
  rewrite (checked_rows membership_row _ (fun _ => true) (t_memberships (tenants_of d))) by by_cells membership_row.
  rewrite (checked_rows membership_row _ (fun _ => true) (t_memberships (tenants_of d))) by by_cells membership_row.
  rewrite (indexed_rows membership_row (fun k : uuid * uuid => [VUuid k.1; VUuid k.2]) _ uq_member (t_memberships (tenants_of d))) by by_key membership_row.
  close_part.
Qed.
Lemma roles_accepted : accepted D (part "roles") = true <->
  all (t_roles (tenants_of d)) (fun x => opt_in tenants (ro_tenant_id x)) /\
  unique_by uq_role (t_roles (tenants_of d)) = true.
Proof.
  table "roles" role_row ro_id (t_roles (tenants_of d)) (k_role d Hk) "id".
  rewrite (to_tenants_opt role_row _ ro_tenant_id) by by_cells role_row.
  rewrite (checked_rows role_row _ (fun _ => true) (t_roles (tenants_of d))) by by_cells role_row.
  rewrite (indexed_rows role_row (fun k : option uuid * string => [oid k.1; VText k.2]) _ uq_role (t_roles (tenants_of d))) by by_key role_row.
  close_part.
Qed.
Lemma invitations_accepted : accepted D (part "invitations") = true <->
  all (t_invitations (tenants_of d)) (fun x => opt_in users (iv_invited_by_user_id x)) /\
  all (t_invitations (tenants_of d)) (fun x => opt_in users (iv_accepted_by_user_id x)) /\
  all (t_invitations (tenants_of d)) (fun x => in_table (t_roles (tenants_of d)) (iv_role_id x)) /\
  all (t_invitations (tenants_of d)) (fun x => in_table tenants (iv_tenant_id x)) /\
  unique_by uq_invite_token (t_invitations (tenants_of d)) = true /\
  unique_by uq_invite_email (t_invitations (tenants_of d)) = true.
Proof.
  table "invitations" invitation_row iv_id (t_invitations (tenants_of d)) (k_invite d Hk) "id".
  rewrite (to_users_opt invitation_row "invited_by_user_id" _ iv_invited_by_user_id) by by_cells invitation_row.
  rewrite (to_users_opt invitation_row "accepted_by_user_id" _ iv_accepted_by_user_id) by by_cells invitation_row.
  rewrite (to_roles invitation_row "role_id" _ iv_role_id) by by_cells invitation_row.
  rewrite (to_tenants invitation_row _ iv_tenant_id) by by_cells invitation_row.
  rewrite (checked_rows invitation_row _ (fun _ => true) (t_invitations (tenants_of d))) by by_cells invitation_row.
  rewrite (checked_rows invitation_row _ (fun _ => true) (t_invitations (tenants_of d))) by by_cells invitation_row.
  rewrite (indexed_rows invitation_row (fun k : string => [VText k]) _ uq_invite_token (t_invitations (tenants_of d))) by by_key invitation_row.
  rewrite (indexed_rows invitation_row (fun k : uuid * string => [VUuid k.1; VText k.2]) _ uq_invite_email (t_invitations (tenants_of d))) by by_key invitation_row.
  close_part.
Qed.
Lemma settings_accepted : accepted D (part "notification_settings") = true <->
  all (n_settings (notices_of d)) (fun x => in_table tenants (ns_tenant_id x)) /\
  unique_by uq_setting (n_settings (notices_of d)) = true.
Proof.
  table "notification_settings" setting_row ns_id (n_settings (notices_of d)) (k_setting d Hk) "id".
  rewrite (to_tenants setting_row _ ns_tenant_id) by by_cells setting_row.
  rewrite (checked_rows setting_row _ (fun _ => true) (n_settings (notices_of d))) by by_cells setting_row.
  rewrite (indexed_rows setting_row (fun k : uuid * string => [VUuid k.1; VText k.2]) _ uq_setting (n_settings (notices_of d))) by by_key setting_row.
  close_part.
Qed.
Lemma outbox_accepted : accepted D (part "notification_outbox") = true <->
  all (n_outbox (notices_of d)) (fun x => int16 (ob_attempts x)) /\
  all (n_outbox (notices_of d)) (fun x => opt_in tenants (ob_tenant_id x)) /\
  unique_by uq_dedup (n_outbox (notices_of d)) = true.
Proof.
  table "notification_outbox" outbox_row_of ob_id (n_outbox (notices_of d)) (k_outbox d Hk) "id".
  rewrite (to_tenants_opt outbox_row_of _ ob_tenant_id) by by_cells outbox_row_of.
  rewrite (checked_rows outbox_row_of _ (fun x => int16 (ob_attempts x)) (n_outbox (notices_of d))) by by_cells outbox_row_of.
  rewrite (checked_rows outbox_row_of _ (fun _ => true) (n_outbox (notices_of d))) by by_cells outbox_row_of.
  rewrite (indexed_rows outbox_row_of (fun k : option uuid * string * string => [oid k.1.1; VText k.1.2; VText k.2]) _ uq_dedup (n_outbox (notices_of d))) by by_key outbox_row_of.
  close_part.
Qed.
Lemma entitlements_accepted : accepted D (part "saas_tenant_entitlements") = true <->
  all (s_tenant_entitlements (saas_of d)) (fun x => in_table tenants (te_tenant_id x)) /\
  unique_by uq_entitled (s_tenant_entitlements (saas_of d)) = true.
Proof.
  table "saas_tenant_entitlements" entitlement_row te_id (s_tenant_entitlements (saas_of d)) (k_entitled d Hk) "id".
  rewrite (to_tenants entitlement_row _ te_tenant_id) by by_cells entitlement_row.
  rewrite (checked_rows entitlement_row _ (fun _ => true) (s_tenant_entitlements (saas_of d))) by by_cells entitlement_row.
  rewrite (indexed_rows entitlement_row (fun k : uuid => [VUuid k]) _ uq_entitled (s_tenant_entitlements (saas_of d))) by by_key entitlement_row.
  close_part.
Qed.
Lemma usage_accepted : accepted D (part "saas_usage_counters") = true <->
  all (s_usage (saas_of d)) (fun x => int64 (uc_value x)) /\
  all (s_usage (saas_of d)) (fun x => in_table tenants (uc_tenant_id x)) /\
  all (s_usage (saas_of d)) (fun x => 0 <=? uc_value x)%Z /\
  unique_by uq_bucket (s_usage (saas_of d)) = true.
Proof.
  table "saas_usage_counters" usage_row uc_id (s_usage (saas_of d)) (k_usage d Hk) "id".
  rewrite (to_tenants usage_row _ uc_tenant_id) by by_cells usage_row.
  rewrite (checked_rows usage_row _ (fun x => int64 (uc_value x)) (s_usage (saas_of d))) by by_cells usage_row.
  rewrite (checked_rows usage_row _ (fun x => 0 <=? uc_value x)%Z (s_usage (saas_of d))) by by_cells usage_row.
  rewrite (indexed_rows usage_row (fun k : uuid * string * Z => [VUuid k.1.1; VText k.1.2; VDate k.2]) _ uq_bucket (s_usage (saas_of d))) by by_key usage_row.
  close_part.
Qed.
Lemma progress_accepted : accepted D (part "saas_onboarding_progress") = true <->
  all (s_onboarding (saas_of d)) (fun x => in_table tenants (op_tenant_id x)) /\
  unique_by uq_step (s_onboarding (saas_of d)) = true.
Proof.
  table "saas_onboarding_progress" progress_row op_id (s_onboarding (saas_of d)) (k_step d Hk) "id".
  rewrite (to_tenants progress_row _ op_tenant_id) by by_cells progress_row.
  rewrite (checked_rows progress_row _ (fun _ => true) (s_onboarding (saas_of d))) by by_cells progress_row.
  rewrite (indexed_rows progress_row (fun k : uuid * string => [VUuid k.1; VText k.2]) _ uq_step (s_onboarding (saas_of d))) by by_key progress_row.
  close_part.
Qed.
Lemma companies_accepted : accepted D (part "crm_companies") = true <->
  all (r_companies (crm_of d)) (fun x => in_table tenants (cm_tenant_id x)).
Proof.
  table "crm_companies" company_row cm_id (r_companies (crm_of d)) (k_company d Hk) "id".
  rewrite (to_tenants company_row _ cm_tenant_id) by by_cells company_row.
  rewrite (checked_rows company_row _ (fun _ => true) (r_companies (crm_of d))) by by_cells company_row.
  close_part.
Qed.
Lemma contacts_accepted : accepted D (part "crm_contacts") = true <->
  all (r_contacts (crm_of d)) (fun x => opt_in (r_companies (crm_of d)) (ct_company_id x)) /\
  all (r_contacts (crm_of d)) (fun x => in_table tenants (ct_tenant_id x)).
Proof.
  table "crm_contacts" contact_row ct_id (r_contacts (crm_of d)) (k_contact d Hk) "id".
  rewrite (linked_opt company_row cm_id (r_companies (crm_of d)) (k_company d Hk) "id" ltac:(by_cells company_row) contact_row "company_id" _ ct_company_id) by by_cells contact_row.
  rewrite (to_tenants contact_row _ ct_tenant_id) by by_cells contact_row.
  rewrite (checked_rows contact_row _ (fun _ => true) (r_contacts (crm_of d))) by by_cells contact_row.
  close_part.
Qed.
Lemma deals_accepted : accepted D (part "crm_deals") = true <->
  all (r_deals (crm_of d)) (fun x => int64 (dl_amount x)) /\
  all (r_deals (crm_of d)) (fun x => in_table tenants (dl_tenant_id x)) /\
  all (r_deals (crm_of d)) (fun x => 0 <=? dl_amount x)%Z.
Proof.
  table "crm_deals" deal_row dl_id (r_deals (crm_of d)) (k_deal d Hk) "id".
  rewrite (to_tenants deal_row _ dl_tenant_id) by by_cells deal_row.
  rewrite (checked_rows deal_row _ (fun x => int64 (dl_amount x)) (r_deals (crm_of d))) by by_cells deal_row.
  rewrite (checked_rows deal_row _ (fun x => 0 <=? dl_amount x)%Z (r_deals (crm_of d))) by by_cells deal_row.
  close_part.
Qed.
Lemma activities_accepted : accepted D (part "crm_activities") = true <->
  all (r_activities (crm_of d)) (fun x => in_table tenants (ac_tenant_id x)).
Proof.
  table "crm_activities" activity_row ac_id (r_activities (crm_of d)) (k_activity d Hk) "id".
  rewrite (to_tenants activity_row _ ac_tenant_id) by by_cells activity_row.
  rewrite (checked_rows activity_row _ (fun _ => true) (r_activities (crm_of d))) by by_cells activity_row.
  close_part.
Qed.
Lemma files_accepted : accepted D (part "files") = true <->
  all (f_files (files_of d)) (fun x => int64 (sf_byte_size x)) /\
  all (f_files (files_of d)) (fun x => in_table tenants (sf_tenant_id x)) /\
  all (f_files (files_of d)) (fun x => 0 <=? sf_byte_size x)%Z /\
  unique_by uq_storage_key (f_files (files_of d)) = true.
Proof.
  table "files" stored_file_row sf_id (f_files (files_of d)) (k_file d Hk) "id".
  rewrite (to_tenants stored_file_row _ sf_tenant_id) by by_cells stored_file_row.
  rewrite (checked_rows stored_file_row _ (fun x => int64 (sf_byte_size x)) (f_files (files_of d))) by by_cells stored_file_row.
  rewrite (checked_rows stored_file_row _ (fun x => 0 <=? sf_byte_size x)%Z (f_files (files_of d))) by by_cells stored_file_row.
  rewrite (indexed_rows stored_file_row (fun k : uuid * string => [VUuid k.1; VText k.2]) _ uq_storage_key (f_files (files_of d))) by by_key stored_file_row.
  close_part.
Qed.

(** Tables without a generated key. *)
Lemma currencies_accepted : accepted D (part "currencies") = true <->
  forallb (fun c => short c && int16 (exponent c)) (elements codes) = true /\
  forallb (fun c => (0 <=? exponent c) && (exponent c <=? 4))%Z (elements codes) = true.
Proof.
  open_part "currencies". change (D "currencies") with (currency_row exponent <$> elements codes).
  rewrite (listed_rows _ (fun c => [VText c]) _ id) by
    first [by_key currency_row|rewrite list_fmap_id; apply NoDup_elements].
  rewrite (forallb_fmap _ _ (fun c => short c && int16 (exponent c))) by by_cells currency_row.
  rewrite (forallb_fmap _ _ (fun c => (0 <=? exponent c) && (exponent c <=? 4))%Z) by by_cells currency_row.
  tauto.
Qed.
Lemma processed_accepted : accepted D (part "processed_events") = true.
Proof.
  open_part "processed_events". change (D "processed_events") with (processed_row <$> (map_to_list (d_processed d)).*1).
  rewrite (listed_rows _ (fun k => [VText k.1; VUuid k.2]) _ id) by
    first [by_key processed_row|rewrite list_fmap_id; apply NoDup_fst_map_to_list].
  rewrite (forallb_fmap _ _ (fun _ => true)) by by_cells processed_row.
  split; [|done]. by apply forallb_forall.
Qed.
Lemma grants_accepted : accepted D (part "role_permissions") = true <->
  forallb (fun g => in_table (t_roles (tenants_of d)) g.1) (elements (t_role_permissions (tenants_of d))) = true.
Proof.
  open_part "role_permissions".
  change (D "role_permissions") with (grant_row <$> elements (t_role_permissions (tenants_of d))).
  rewrite (to_roles grant_row "role_id" _ fst) by by_cells grant_row.
  rewrite (listed_rows _ (fun k => [VUuid k.1; VText k.2]) _ id) by
    first [by_key grant_row|rewrite list_fmap_id; apply NoDup_elements].
  rewrite (forallb_fmap _ _ (fun _ => true)) by by_cells grant_row.
  assert (forallb (fun _ => true) (elements (t_role_permissions (tenants_of d))) = true) by (by apply forallb_forall).
  tauto.
Qed.
Lemma plan_entitlements_accepted : accepted D (part "saas_plan_entitlements") = true <->
  forallb (fun e => limit_of int64 e.2) (map_to_list (s_plan_entitlements (saas_of d))) = true /\
  forallb (fun e => plan_entitlement_ok e.2) (map_to_list (s_plan_entitlements (saas_of d))) = true.
Proof.
  open_part "saas_plan_entitlements".
  change (D "saas_plan_entitlements") with (plan_entitlement_row <$> map_to_list (s_plan_entitlements (saas_of d))).
  rewrite (listed_rows _ (fun k => [VText k.1; VText k.2]) _ fst) by
    first [by_key plan_entitlement_row|apply NoDup_fst_map_to_list].
  rewrite (forallb_fmap _ _ (fun e => limit_of int64 e.2)).
  2:{ intros [k e]. cells plan_entitlement_row. unfold limit_of. by destruct (pe_int_value e). }
  rewrite (forallb_fmap _ _ (fun _ => true)) by (intros [k e]; cells plan_entitlement_row; by destruct (pe_kind e)).
  rewrite (forallb_fmap _ _ (fun e => matches_kind e.2)).
  2:{ intros [k e]. cells plan_entitlement_row. unfold matches_kind. cbn [snd].
      by destruct (pe_kind e), (pe_bool_value e), (pe_int_value e). }
  rewrite (forallb_fmap _ _ (fun e => limit_of (fun z => 0 <=? z)%Z e.2)).
  2:{ intros [k e]. cells plan_entitlement_row. unfold limit_of. cbn [snd].
      destruct (pe_int_value e) as [z|]; [|done]. cbn. by destruct (0 <=? z)%Z. }
  assert (E : forall l : list ((string * string) * PlanEntitlement),
    forallb (fun e => plan_entitlement_ok e.2) l = forallb (fun e => matches_kind e.2 && limit_of (fun z => 0 <=? z)%Z e.2) l)
    by (intros l; induction l as [|e l IH]; [done|]; cbn [forallb]; by rewrite IH, plan_entitlement_split).
  rewrite E, forallb_and, andb_true_iff.
  assert (T : forallb (fun _ => true) (map_to_list (s_plan_entitlements (saas_of d))) = true) by (by apply forallb_forall).
  tauto.
Qed.
End Conform.

(** ** The whole schema *)

Definition table_names : list string :=
  ["subscriptions"; "saas_onboarding_progress"; "saas_usage_counters"; "saas_tenant_entitlements";
   "saas_plan_entitlements"; "commerce_order_items"; "commerce_orders"; "commerce_cart_items"; "commerce_carts";
   "commerce_product_images"; "commerce_products"; "currencies"; "crm_companies"; "crm_contacts"; "crm_activities";
   "crm_deals"; "memberships"; "user_recovery_codes"; "user_totp"; "users"; "invitations"; "audit_log";
   "notification_outbox"; "notification_settings"; "files"; "role_permissions"; "roles"; "refresh_tokens"; "tenants";
   "payment_webhooks"; "payments"; "processed_events"; "plans"].

Lemma summary_parts : summary = part <$> table_names.
Proof. vm_compute. reflexivity. Qed.

(** Foreign keys into another group of tables, which [db_ok] leaves out. *)
Definition outer_links (d : Db) : bool :=
  let tenant := in_table (t_tenants (tenants_of d)) in
  let user := in_table (a_users (accounts_of d)) in
  all_rows (fun x => tenant (s_tenant_id x)) (b_subscriptions (d_billing d))
  && all_rows (fun x => tenant (p_tenant_id x)) (b_payments (d_billing d))
  && all_rows (fun x => opt_in (t_tenants (tenants_of d)) (w_tenant_id x)) (b_webhooks (d_billing d))
  && all_rows (fun x => tenant (pr_tenant_id x)) (c_products (d_commerce d))
  && all_rows (fun x => tenant (ca_tenant_id x)) (c_carts (d_commerce d))
  && all_rows (fun x => tenant (ci_tenant_id x)) (c_cart_items (d_commerce d))
  && all_rows (fun x => tenant (o_tenant_id x)) (c_orders (d_commerce d))
  && all_rows (fun x => tenant (oi_tenant_id x)) (c_order_items (d_commerce d))
  && all_rows (fun x => tenant (im_tenant_id x)) (f_images (files_of d))
  && all_rows (fun x => user (tn_owner_user_id x)) (t_tenants (tenants_of d))
  && all_rows (fun x => user (mb_user_id x)) (t_memberships (tenants_of d))
  && all_rows (fun x => opt_in (a_users (accounts_of d)) (iv_invited_by_user_id x)) (t_invitations (tenants_of d))
  && all_rows (fun x => opt_in (a_users (accounts_of d)) (iv_accepted_by_user_id x)) (t_invitations (tenants_of d))
  && all_rows (fun x => tenant (ns_tenant_id x)) (n_settings (notices_of d))
  && all_rows (fun x => opt_in (t_tenants (tenants_of d)) (ob_tenant_id x)) (n_outbox (notices_of d))
  && all_rows (fun x => tenant (te_tenant_id x)) (s_tenant_entitlements (saas_of d))
  && all_rows (fun x => tenant (uc_tenant_id x)) (s_usage (saas_of d))
  && all_rows (fun x => tenant (op_tenant_id x)) (s_onboarding (saas_of d))
  && all_rows (fun x => tenant (cm_tenant_id x)) (r_companies (crm_of d))
  && all_rows (fun x => tenant (ct_tenant_id x)) (r_contacts (crm_of d))
  && all_rows (fun x => tenant (dl_tenant_id x)) (r_deals (crm_of d))
  && all_rows (fun x => tenant (ac_tenant_id x)) (r_activities (crm_of d))
  && all_rows (fun x => tenant (sf_tenant_id x)) (f_files (files_of d)).

(** Tables only migrations and operators fill: currencies, plans and what plans
    include. *)
Definition catalogs_fit (exponent : string -> Z) (d : Db) : bool :=
  forallb (fun c => short c && int16 (exponent c)) (elements (b_currencies (d_billing d)))
  && forallb (fun c => (0 <=? exponent c) && (exponent c <=? 4))%Z (elements (b_currencies (d_billing d)))
  && all_rows (fun x => int64 (pl_price_amount x)) (b_plans (d_billing d))
  && all_rows (fun x => int16 (pl_trial_days x)) (b_plans (d_billing d))
  && forallb (fun e => limit_of int64 e.2) (map_to_list (s_plan_entitlements (saas_of d))).

(** A currency that is there has a code of three letters at most. *)
Lemma codes_short {A} (f : A -> string) (p : string -> bool) (codes : gset string) (m : gmap N A) :
  forallb (fun c => short c && p c) (elements codes) = true ->
  all_rows (fun x => bool_decide (f x ∈ codes)) m = true -> all_rows (fun x => short (f x)) m = true.
Proof.
  rewrite !all_rows_spec. intros Hc Hm i x Hi. specialize (Hm i x Hi). apply bool_decide_eq_true in Hm.
  apply elem_of_elements in Hm. pose proof (forallb_in _ _ _ Hc Hm) as H. by apply andb_prop in H as [? _].
Qed.

Lemma all_parts exponent d :
  accepts installed (rows_of exponent d) = forallb (fun t => accepted (rows_of exponent d) (part t)) table_names.
Proof.
  rewrite accepts_summary, summary_parts. generalize table_names. intros l.
  induction l as [|t l IH]; [done|]. rewrite fmap_cons. cbn [forallb]. by rewrite IH.
Qed.

(** C4: The constraints of the model are those of the database: rows are
    accepted by the schema all migrations build (its columns, primary keys,
    foreign keys, CHECKs and unique indexes) exactly when the state satisfies
    what the model checks at every flush ([db_ok] and [db_ranges]), the links to
    organizations and users lead somewhere, and the catalogs fit their columns. *)
Theorem constraints_are_the_schemas exponent d :
  keyed d ->
  accepts installed (rows_of exponent d) = true <->
  db_ok d = true /\ db_ranges d = true /\ outer_links d = true /\ catalogs_fit exponent d = true.
Proof.
  intros Hk. rewrite all_parts. unfold table_names. cbn [forallb]. rewrite !andb_true_iff.
  rewrite (subscriptions_accepted exponent d Hk), (progress_accepted exponent d Hk), (usage_accepted exponent d Hk),
    (entitlements_accepted exponent d Hk), (plan_entitlements_accepted exponent d), (order_items_accepted exponent d Hk),
    (orders_accepted exponent d Hk), (cart_items_accepted exponent d Hk), (carts_accepted exponent d Hk),
    (images_accepted exponent d Hk), (products_accepted exponent d Hk), (currencies_accepted exponent d),
    (companies_accepted exponent d Hk), (contacts_accepted exponent d Hk), (activities_accepted exponent d Hk),
    (deals_accepted exponent d Hk), (memberships_accepted exponent d Hk), (recovery_accepted exponent d Hk),
    (totp_accepted exponent d Hk), (users_accepted exponent d Hk), (invitations_accepted exponent d Hk),
    (audit_accepted exponent d Hk), (outbox_accepted exponent d Hk), (settings_accepted exponent d Hk),
    (files_accepted exponent d Hk), (grants_accepted exponent d Hk), (roles_accepted exponent d Hk),
    (refresh_accepted exponent d Hk), (tenants_accepted exponent d Hk), (webhooks_accepted exponent d Hk),
    (payments_accepted exponent d Hk), (processed_accepted exponent d), (plans_accepted exponent d Hk).
  unfold db_ok, billing_ok, plans_ok, subscriptions_ok, payments_ok, webhooks_ok, plan_ok, subscription_ok, payment_ok,
    webhook_ok, commerce_ok, core_ok, accounts_ok, tenants_ok, membership_ok, invitation_ok, notices_ok, saas_ok, crm_ok,
    files_ok, db_ranges, core_ranges, outer_links, catalogs_fit. cbv zeta. rewrite !all_rows_and, !andb_true_iff.
  split; intros H; decompose [and] H; clear H; repeat split; try assumption; 
    (apply (codes_short _ (fun c => int16 (exponent c)) (b_currencies (d_billing d))); assumption).
Qed.

Definition shop_db (live_twice : bool) : Db :=
  let sub i := mkSubscription i 2 4 SActive 100 "UZS" 0 1 false None in
  mkDb (mkBillingDb {["UZS"]} {[4%N := mkPlan 4 "pro" JNull 100 "UZS" "month" 0 true]}
          (if live_twice then {[5%N := sub 5%N; 6%N := sub 6%N]} else {[5%N := sub 5%N]}) ∅ ∅)
       (mkCommerceDb ∅ ∅ ∅ ∅ ∅) ∅ ∅
       (mkCoreDb (mkAccountsDb {[1%N := mkUser 1 "a@b.uz" None "h" None None "ru" false UActive None]} ∅ ∅ ∅)
          (mkTenantsDb {[2%N := mkTenant 2 "Shop" "shop" 1 TActive "ru" 0]} ∅ ∅ ∅ ∅) (mkNoticesDb ∅ ∅)
          (mkSaasDb ∅ ∅ ∅ ∅) (mkCrmDb ∅ ∅ ∅ ∅) (mkFilesDb ∅ ∅)).

Lemma shop_keyed : keyed (shop_db false).
Proof. split; apply ids_b_ok; vm_compute; reflexivity. Qed.

(** A state the schema accepts; a second live subscription is refused. *)
Lemma constraints_are_the_schemas_witness :
  accepts installed (rows_of (fun _ => 0%Z) (shop_db false)) = true /\
  accepts installed (rows_of (fun _ => 0%Z) (shop_db true)) = false.
Proof.
  split; [|vm_compute; reflexivity].
  refine (proj2 (constraints_are_the_schemas (fun _ => 0%Z) (shop_db false) shop_keyed) _).
  split; [vm_compute; reflexivity|]. split; [vm_compute; reflexivity|]. split; vm_compute; reflexivity.
Defined.
